(* ===== verification/_CoqProject ===== *)
-Q . S2P
Prelude.v
GoFloat.v
GoSort.v
Decimal.v
GoText.v
NetIP.v
GoUrl.v
Peer.v
Routes.v
Discovery.v
Wire.v
Lru.v
RecvWindow.v
Components.v
Opcode.v
KeyPair.v
Address.v
ClientConn.v
NatPort.v
ConnMgr.v
Exchange.v
AckReply.v
Backoff.v
Broadcast.v
Accept.v
Streams.v
Node.v
Proxies.v
Services.v
Socks.v
FlowMetrics.v
MetricComp.v
EdScalar.v
EdField.v
EdPrime.v
EdCurve.v
EdTables.v
EdGroup.v
EdPoint.v
EdRecode.v
EdBase.v
EdMult.v
EdEncode.v
Sha512.v
Ed25519.v
Amd64.v
Fe51.v
EdTables51.v
EdGen.v
Ge51.v
Sdp.v
SdpMessage.v
SdpDecode.v
SdpCorrect.v
SdpRoundtrip.v
