(* ===== verification/Prelude.v ===== *)
(** * carrier: a verification development of the peer-to-peer network library

    carrier is a Go library for peer-to-peer overlays.  A [Network] (network/network.go) listens
    on one address, keeps one [PeerClient] (network/client.go) and one connection per remote
    peer in the maps of its [ConnMgr], frames protobuf messages over TCP, KCP, QUIC or UDP
    (network/stream.go, session.go, package.go) with optional compression (compress.go), and
    hands received messages to the components registered with its builder: discovery of peers,
    reconnection, keepalive, proxies, acknowledgements.  Peers are named by identities
    (peer/identity.go) ordered by the XOR metric of the routing table (dht/routes.go), and sign
    with Ed25519 (crypto/).  protocols/sdp reads and writes session descriptions.

    ** Files: the Go library

    - Prelude (this file): Go's results ([res]), fixed-width integers ([u8] ... [i64] and the
      wrapping operators of go_scope), byte strings, encoding/binary, bytes.Compare.
    - GoSort: package sort.  [SortSlice] is the interface of sort.Slice, whose order of equal
      elements is not specified; sort.SliceStable is a function.
    - Decimal: strconv in base 10.  GoText: unicode/utf8 and the functions of bytes and strings
      on text.  GoFloat: float64, the binary64 format of SpecFloat.
    - NetIP: net.ParseIP and IP.String.  GoUrl: url.Parse, net.SplitHostPort, net.JoinHostPort.

    ** Files: the network

    - Peer: peer/identity.go.  Routes: dht/routes.go, every method of [RoutingTable].
    - Discovery: network/components/discovery.  A lookup with the goroutines it starts is a
      state, and their interleavings are sequences of events.
    - Wire: network/stream.go, session.go, package.go, compress.go and SerializeMessage of
      utils.go, with the bufio.Writer below them and connections that return arbitrary chunks.
    - Lru: types/lru/cache.go.  RecvWindow: network/recv_window.go.
    - Components: network/component_list.go, and how builder.go registers and sorts components.
    - Opcode: types/opcode/opcode.go and the opcode switch of dispatchMessage.
    - KeyPair: crypto/keypair.go over the interfaces of crypto/policy.go.
    - Address: network/address.go over GoUrl and NetIP; an instance of [AddressOps], the
      interface against which the connection manager is proved.
    - ConnMgr: the connection manager of network/network.go, client.go and multiplex.go:
      getOrSetPeerClient, resetConnMgrItemByPeerID, initConnection, ConnectPeer, Write, the
      body of Accept for one message, PeerClient.Close with RemoveEntries, Network.Close, and
      the streams of a peer.  Clients and connection states are heap cells, so that aliases
      behave as the pointers of the source.
    - Exchange: PrepareMessage and dispatchMessage of network.go, Request, Reply, Read, Write and
      AsyncSendAndWaitAck of client.go, context.go, and the rotation of proxy servers.  Request is
      split at its select so that other operations interleave.
    - AckReply: components/ackreply, with AsyncSendAndWaitAck split before its Store.
    - Accept: the loops Accept, AcceptQuic and AcceptUdp with their deferred clean-up, and the
      loops over listeners.  Broadcast: EachPeer, the variants of Broadcast, Send, Bootstrap.
    - Streams: StreamWrite, loopStreamSend and the goroutines it starts, and the stream variants
      of the operations of a client.
    - Node: network/builder.go whole, the settings of a [Network], Listen and Dial.
    - Backoff: components/backoff.  Proxies: the functions on proxy servers of network.go,
      components/proxy for each transport, components/keepalive and proxyKeepalive.
    - ClientConn: the byte stream of a client as a net.Conn (handleBytes, Read, deadlines, Close) and
      its jobs (Submit, executeJobs), as steps of goroutines with a clock.
    - Services: the keepalive loops and components/addressmap.
    - NatPort: protocols/upnp, with net.IPNet and net.ParseCIDR.
    - Socks: protocols/socks, the dialogue of a client with a SOCKS proxy over its one buffer.
    - FlowMetrics: metric/go-flow-metrics and carrier-metrics, meters that goroutines mark while a
      sweeper reads and unregisters them, one step per atomic operation.
    - MetricComp: components/metric, the samples of round trips and their statistics.

    ** Files: cryptography (crypto/ed25519, with internal/edwards25519)

    - EdScalar: scalar.go.  EdField: fe.go with field.go.  Both at the integer widths of the source.
    - EdPrime: 2^255-19 and the group order are prime, by certificates.  EdCurve: the curve, its
      affine group law and that it is a commutative group.
    - EdTables: const.go, the tables as they are printed.  EdGroup: group.go.  EdPoint: which
      points its coordinates denote.  EdRecode: the digits of the scalar multiplications.
      EdBase: the tables hold the multiples of the base point.  EdMult: scalar multiplication.
      EdEncode: point encoding.  Sha512: crypto/sha512.  Ed25519: base.go and ed25519.go.
    - Amd64: the instructions and the two routines of fe_mul_amd64.s and fe_square_amd64.s.
      Fe51: fe_amd64.go.  EdTables51: const_amd64.go.  EdGen: const_amd64_gen.go.
      Ge51: group.go and base.go over that field, which is how amd64 builds compile them.

    ** Files: protocols/sdp

    - Sdp: sdp.go, the lines.  SdpMessage: message.go, fields.go, encoder.go.  SdpDecode: the
      decoder.  SdpCorrect: what each field's decoder does with the lines the encoder writes.
      SdpRoundtrip: whole messages.

    ** What the theorems show

    - Connection manager: an invariant of all reachable states (the four maps agree, clients
      are ready, open and unique, Close cannot panic); one client per peer; Close removes every
      trace and is idempotent; whom an accepted message is attributed to; messages written
      to a fresh connection arrive once, in order, with consecutive nonces.
    - End to end: what one node prepares and writes is verified, attributed and dispatched once
      and in order by the Accept loop of another.  A broadcast reaches every identified peer once,
      whatever fails for others.  Queued stream messages are sent once, with distinct nonces.
    - Messages: in every interleaving a request returns only a reply to itself, at most once; when
      an unacknowledged message times out; each acknowledged send is accounted for in every
      interleaving of senders, acknowledgements, ticks and resending goroutines.
    - Byte stream and jobs: in every interleaving received bytes are read once and in order and jobs
      executed once and in order; Read returns once the client is closed or its deadline has passed.
    - Framing: round trips for every transport, under any chunking of the reads and with
      compression; every error branch; the UDP sizes that crash the receiver.
    - Building: what a builder accepts and what the network it returns contains.
    - Proxies and reconnection: the attempts end, with which server they end, and when a second
      response of a proxy crashes or blocks the node; backoff terminates within its bounds.
    - SOCKS: a proxy that follows the RFCs reads what the client was asked for, and the client what
      the proxy answers; the dialogue ends with a closed connection on every error, and which answer
      makes it panic.  Counters: no interleaving loses an event or counts it twice; the samples of
      the metric component are the last requests.
    - Routing and discovery: an invariant of all reachable tables; the contacts FindClosestPeers
      returns; lookups end in every interleaving with the closest of the peers they heard of.
    - Addresses: unified addresses are in normal form and denote the host and port given.
    - Data structures: the cache refines an ordered list and the receive window in-order
      delivery from a map; component list and opcode tables are consistent.
    - Cryptography: scalar and field operations compute residues, without overflow; the group
      formulas compute the group law of the curve; the tables hold what they should; scalar
      multiplication and point encoding are right; Sign and Verify implement the equations of
      RFC 8032 and verify what they sign.  The amd64 field, assembly included, agrees with the
      portable one, its tables are what the generator prints, and keys and signatures are the same.
    - SDP: the decoder is total; what the encoder writes for a message is decoded to it.

    ** Modelling

    Errors are values of [res], a panic is [Panic].  What runs under a mutex is one step, and the
    interleavings of goroutines are sequences of steps or events ([cm_step], [table_step],
    [ex_step], the events of lookups and of stream sends).  The order in which Go's maps are
    traversed is an argument.  A blocked send on a channel is the error [EBlocked].
    Code outside the repository is a parameter: protobuf's Marshal and Unmarshal ([ProtoLaws] for
    payloads), the compression codecs ([Codec] with [CodecLaws]), the blake2b hash, the
    signature policies ([SignatureLaws], of which Ed25519 is an instance), entropy and random
    numbers, math.Pow, net.LookupHost and what a transport returns; every theorem with such a
    parameter has a witness at a concrete instance.
    Loops have structural bounds that are the bounds of the source: the read loop recurses on
    the bytes still wanted, range loops on the window size, FindClosestPeers on the number of
    buckets.  The receive loops have fuel for the messages they take, the scanner of SDP for the
    bytes left and its decoder for the lines; that the bytes of the input, or its lines, and one
    suffice are theorems.

    ** Not modelled

    Transports and the monitor (wrappers of the operating system and of third-party packages),
    generated protobuf code and mocks, examples. *)
From Stdlib Require Export ZArith Lia.
From stdpp Require Export prelude gmap strings.

Declare Scope go_scope.
Delimit Scope go_scope with go.

Local Open Scope Z_scope.

(** ** Go's results: a value, an error value, or a panic *)

Inductive res (E A : Type) : Type :=
| Ok (a : A)
| Err (e : E)
| Panic.
Arguments Ok {E A} _.
Arguments Err {E A} _.
Arguments Panic {E A}.

Definition res_bind {E A B} (m : res E A) (k : A -> res E B) : res E B :=
  match m with
  | Ok a => k a
  | Err e => Err e
  | Panic => Panic
  end.

Notation "'let?' x ':=' m 'in' k" := (res_bind m (fun x => k))
  (at level 10, x pattern, m at level 100, k at level 200) : go_scope.

Definition is_ok {E A} (m : res E A) : bool := match m with Ok _ => true | _ => false end.

(** ** Go's fixed-width integers: the value modulo 2^w *)

Definition u8 (z : Z) : Z := z mod 2 ^ 8.
Definition u16 (z : Z) : Z := z mod 2 ^ 16.
Definition u32 (z : Z) : Z := z mod 2 ^ 32.
Definition u64 (z : Z) : Z := z mod 2 ^ 64.
Definition i8 (z : Z) : Z := (z + 2 ^ 7) mod 2 ^ 8 - 2 ^ 7.
Definition i32 (z : Z) : Z := (z + 2 ^ 31) mod 2 ^ 32 - 2 ^ 31.
Definition i64 (z : Z) : Z := (z + 2 ^ 63) mod 2 ^ 64 - 2 ^ 63.

Lemma u8_small z : 0 <= z < 256 -> u8 z = z.
Proof. intros. unfold u8. apply Z.mod_small. lia. Qed.

Lemma u16_small z : 0 <= z < 65536 -> u16 z = z.
Proof. intros. unfold u16. apply Z.mod_small. lia. Qed.

Lemma u32_small z : 0 <= z < 4294967296 -> u32 z = z.
Proof. intros. unfold u32. apply Z.mod_small. lia. Qed.

Lemma u64_small z : 0 <= z < 18446744073709551616 -> u64 z = z.
Proof. intros. unfold u64. apply Z.mod_small. lia. Qed.

Lemma i8_small z : -128 <= z < 128 -> i8 z = z.
Proof. intros. unfold i8. rewrite Z.mod_small; lia. Qed.

Lemma i32_small z : -2147483648 <= z < 2147483648 -> i32 z = z.
Proof. intros. unfold i32. rewrite Z.mod_small; lia. Qed.

Lemma i64_small z : -9223372036854775808 <= z < 9223372036854775808 -> i64 z = z.
Proof. intros. unfold i64. rewrite Z.mod_small; lia. Qed.

Create Rewrite HintDb go_int.
#[export] Hint Rewrite u8_small u16_small u32_small u64_small i8_small i32_small i64_small
  using lia : go_int.

(** int64 arithmetic, each operation wrapping around. *)
Notation "x +! y" := (i64 (x + y)) (at level 50, left associativity) : go_scope.
Notation "x -! y" := (i64 (x - y)) (at level 50, left associativity) : go_scope.
Notation "x *! y" := (i64 (x * y)) (at level 40, left associativity) : go_scope.
Notation "x <<! k" := (i64 (Z.shiftl x k)) (at level 34, left associativity) : go_scope.

Lemma i64_mod x y : x mod 2 ^ 64 = y mod 2 ^ 64 -> i64 x = i64 y.
Proof.
  intros E. unfold i64. f_equal. by rewrite <- Zplus_mod_idemp_l, E, Zplus_mod_idemp_l.
Qed.

Lemma i64_mod_eq x : i64 x mod 2 ^ 64 = x mod 2 ^ 64.
Proof. unfold i64. rewrite Zminus_mod_idemp_l. f_equal. lia. Qed.

Lemma i64_add_l x y : i64 (i64 x + y) = i64 (x + y).
Proof. apply i64_mod. by rewrite <- Zplus_mod_idemp_l, i64_mod_eq, Zplus_mod_idemp_l. Qed.

Lemma i64_add_r x y : i64 (x + i64 y) = i64 (x + y).
Proof. rewrite !(Z.add_comm x). apply i64_add_l. Qed.

Lemma i64_mul_l x y : i64 (i64 x * y) = i64 (x * y).
Proof. apply i64_mod. by rewrite <- Zmult_mod_idemp_l, i64_mod_eq, Zmult_mod_idemp_l. Qed.

Lemma i64_mul_r x y : i64 (x * i64 y) = i64 (x * y).
Proof. rewrite !(Z.mul_comm x). apply i64_mul_l. Qed.

Lemma i64_sub_r x y : i64 (x - i64 y) = i64 (x - y).
Proof. apply i64_mod. by rewrite <- Zminus_mod_idemp_r, i64_mod_eq, Zminus_mod_idemp_r. Qed.

Create Rewrite HintDb i64_push.
#[export] Hint Rewrite i64_add_l i64_add_r i64_mul_l i64_mul_r i64_sub_r : i64_push.

(** Evaluate closed powers of two in the goal. *)
Ltac pow2_const :=
  repeat match goal with
  | |- context [2 ^ Z.pos ?p] =>
      let v := eval vm_compute in (2 ^ Z.pos p) in change (2 ^ Z.pos p) with v
  | |- context [2 ^ 0] => change (2 ^ 0) with 1
  end.

Lemma land_ones_mod x n : 0 <= n -> Z.land (Z.ones n) x = x mod 2 ^ n.
Proof. intros. by rewrite Z.land_comm, Z.land_ones. Qed.

Lemma mod_div_mod a m k n :
  0 <= k -> 0 <= n -> k + n <= m -> (a mod 2 ^ m / 2 ^ k) mod 2 ^ n = (a / 2 ^ k) mod 2 ^ n.
Proof.
  intros Hk Hn Hm. apply Z.bits_inj'. intros i Hi.
  destruct (Z.lt_ge_cases i n).
  - rewrite !Z.mod_pow2_bits_low, !Z.div_pow2_bits, Z.mod_pow2_bits_low by lia. done.
  - by rewrite !Z.mod_pow2_bits_high by lia.
Qed.

Lemma lxor_bound k x y :
  0 <= k -> 0 <= x < 2 ^ k -> 0 <= y < 2 ^ k -> 0 <= Z.lxor x y < 2 ^ k.
Proof.
  intros Hk Hx Hy. assert (0 <= Z.lxor x y) as H0 by (apply Z.lxor_nonneg; lia).
  split; [done|]. destruct (Z.eq_dec (Z.lxor x y) 0) as [->|Hne]; [lia|].
  apply Z.log2_lt_pow2; [lia|].
  eapply Z.le_lt_trans; [apply Z.log2_lxor; lia|].
  destruct (Z.max_spec (Z.log2 x) (Z.log2 y)) as [[? ->]|[? ->]].
  - destruct (Z.eq_dec y 0) as [->|]; [simpl in *; pose proof (Z.log2_nonneg x); lia|].
    apply Z.log2_lt_pow2; lia.
  - destruct (Z.eq_dec x 0) as [->|].
    + destruct (Z.eq_dec y 0) as [->|]; [exfalso; by apply Hne|].
      rewrite Z.lxor_0_l in *. change (Z.log2 0) with 0 in *.
      assert (Z.log2 y < k) by (apply Z.log2_lt_pow2; lia). pose proof (Z.log2_nonneg y); lia.
    + apply Z.log2_lt_pow2; lia.
Qed.

Lemma lor_add_disjoint x y j :
  0 <= j -> 0 <= x < 2 ^ j -> Z.lor x (Z.shiftl y j) = x + y * 2 ^ j.
Proof.
  intros Hj Hx. rewrite <- Z.shiftl_mul_pow2 by done.
  assert (Z.land x (Z.shiftl y j) = 0) as L.
  { apply Z.bits_inj'. intros n Hn. rewrite Z.land_spec, Z.bits_0, Z.shiftl_spec by done.
    destruct (Z.lt_ge_cases n j) as [Hlt|Hge].
    - by rewrite (Z.testbit_neg_r y) by lia; rewrite andb_false_r.
    - rewrite <- (Z.mod_small x (2 ^ j)), Z.mod_pow2_bits_high by lia. done. }
  rewrite <- Z.add_lor_land, L. lia.
Qed.

(** ** Bytes and byte strings.  A Go string or []byte is the list of its bytes. *)

Definition is_byte (b : Z) : bool := (0 <=? b) && (b <? 256).

Definition bytes_ok (l : list Z) : Prop := Forall (fun b => 0 <= b < 256) l.

Lemma is_byte_spec b : is_byte b = true <-> 0 <= b < 256.
Proof. unfold is_byte. rewrite andb_true_iff. lia. Qed.

#[global] Instance bytes_ok_dec l : Decision (bytes_ok l).
Proof.
  apply Forall_dec. intros b.
  refine (cast_if (decide (is_byte b = true))); rewrite <- is_byte_spec; done.
Defined.

Lemma bytes_ok_cons b l : bytes_ok (b :: l) <-> 0 <= b < 256 /\ bytes_ok l.
Proof. unfold bytes_ok. split; [by inversion 1|intros []; by constructor]. Qed.

Lemma bytes_ok_app l1 l2 : bytes_ok (l1 ++ l2) <-> bytes_ok l1 /\ bytes_ok l2.
Proof. apply Forall_app. Qed.

(** The bytes of an ASCII literal. *)
Definition str (s : string) : list Z :=
  (fun a => Z.of_nat (Ascii.nat_of_ascii a)) <$> String.list_ascii_of_string s.

Lemma str_bytes_ok s : bytes_ok (str s).
Proof.
  unfold str, bytes_ok. apply Forall_fmap, Forall_true. intros a; simpl.
  pose proof (Ascii.nat_ascii_bounded a). lia.
Qed.
#[export] Hint Resolve str_bytes_ok : core.

(** ** encoding/binary: big- and little-endian integers of n bytes *)

Fixpoint le_val (l : list Z) : Z :=
  match l with
  | [] => 0
  | b :: l => b + 256 * le_val l
  end.

Fixpoint le_bytes (n : nat) (z : Z) : list Z :=
  match n with
  | O => []
  | S n => u8 z :: le_bytes n (z / 256)
  end.

Definition be_val (l : list Z) : Z := le_val (rev l).
Definition be_bytes (n : nat) (z : Z) : list Z := rev (le_bytes n z).

Lemma length_le_bytes n z : length (le_bytes n z) = n.
Proof. revert z. induction n; simpl; auto. Qed.

Lemma length_be_bytes n z : length (be_bytes n z) = n.
Proof. unfold be_bytes. rewrite length_rev. apply length_le_bytes. Qed.

Lemma le_bytes_ok n z : bytes_ok (le_bytes n z).
Proof.
  revert z. induction n as [|n IH]; intros z; simpl; constructor; [|apply IH].
  unfold u8. pose proof (Z.mod_pos_bound z (2 ^ 8)). lia.
Qed.

Lemma be_bytes_ok n z : bytes_ok (be_bytes n z).
Proof. unfold be_bytes, bytes_ok. apply Forall_rev, le_bytes_ok. Qed.

Lemma le_val_bound l : bytes_ok l -> 0 <= le_val l < 256 ^ Z.of_nat (length l).
Proof.
  induction 1 as [|b l Hb _ IH]; simpl; [lia|].
  rewrite Nat2Z.inj_succ, Z.pow_succ_r by lia. lia.
Qed.

Lemma le_val_le_bytes n z : le_val (le_bytes n z) = z mod 256 ^ Z.of_nat n.
Proof.
  revert z. induction n as [|n IH]; intros z; simpl; [by rewrite Z.mod_1_r|].
  rewrite IH, Nat2Z.inj_succ, Z.pow_succ_r by lia.
  unfold u8. change (2 ^ 8) with 256.
  rewrite Z.rem_mul_r by lia. lia.
Qed.

Lemma le_bytes_le_val l : bytes_ok l -> le_bytes (length l) (le_val l) = l.
Proof.
  induction 1 as [|b l Hb _ IH]; simpl; [done|].
  assert ((b + 256 * le_val l) / 256 = le_val l) as ->.
  { rewrite Z.mul_comm, Z.div_add, Z.div_small by lia. lia. }
  rewrite IH. f_equal. unfold u8. change (2 ^ 8) with 256.
  rewrite Z.mul_comm, Z_mod_plus_full. by apply Z.mod_small.
Qed.

Lemma le_val_inj l1 l2 :
  bytes_ok l1 -> bytes_ok l2 -> length l1 = length l2 -> le_val l1 = le_val l2 -> l1 = l2.
Proof.
  intros H1 H2 Hl Hv.
  rewrite <- (le_bytes_le_val l1), <- (le_bytes_le_val l2) by done. by rewrite Hl, Hv.
Qed.

Lemma le_val_app l1 l2 : le_val (l1 ++ l2) = le_val l1 + 256 ^ Z.of_nat (length l1) * le_val l2.
Proof.
  induction l1 as [|b l1 IH]; simpl; [lia|].
  rewrite IH, Nat2Z.inj_succ, Z.pow_succ_r by lia. lia.
Qed.

(** The value of the bytes o, ..., o+n-1. *)
Lemma le_val_slice l o n :
  bytes_ok l -> le_val (take n (drop o l)) = (le_val l / 256 ^ Z.of_nat o) mod 256 ^ Z.of_nat n.
Proof.
  intros H. rewrite <- (take_drop o l) at 2. rewrite le_val_app.
  assert (bytes_ok (take o l) /\ bytes_ok (drop o l)) as [H1 H2].
  { apply bytes_ok_app. by rewrite take_drop. }
  pose proof (le_val_bound _ H1) as B.
  destruct (Nat.le_gt_cases o (length l)) as [Hle|Hgt].
  - rewrite length_take, Nat.min_l in * by done.
    rewrite Z.mul_comm, Z.div_add, Z.div_small, Z.add_0_l by lia.
    assert (bytes_ok (take n (drop o l)) /\ bytes_ok (drop n (drop o l))) as [H3 H4].
    { apply bytes_ok_app. by rewrite take_drop. }
    pose proof (le_val_bound _ H3) as B3.
    rewrite <- (take_drop n (drop o l)) at 2. rewrite le_val_app.
    destruct (Nat.le_gt_cases n (length (drop o l))).
    + rewrite length_take, Nat.min_l in * by done. rewrite Z.mul_comm, Z_mod_plus_full.
      by rewrite Z.mod_small.
    + rewrite (drop_ge (drop o l)) by lia. simpl. rewrite Z.mul_0_r, Z.add_0_r, Z.mod_small; [done|].
      rewrite length_take, Nat.min_r in B3 by lia.
      split; [lia|]. eapply Z.lt_le_trans; [apply B3|]. apply Z.pow_le_mono_r; lia.
  - rewrite drop_ge, take_nil, take_ge in * by lia. simpl. rewrite Z.mul_0_r, Z.add_0_r.
    rewrite Z.div_small; [done|].
    split; [lia|]. eapply Z.lt_le_trans; [apply B|]. apply Z.pow_le_mono_r; lia.
Qed.

Lemma be_val_be_bytes n z : be_val (be_bytes n z) = z mod 256 ^ Z.of_nat n.
Proof. unfold be_val, be_bytes. rewrite rev_involutive. apply le_val_le_bytes. Qed.

Lemma be_val_be_bytes_small n z : 0 <= z < 256 ^ Z.of_nat n -> be_val (be_bytes n z) = z.
Proof. intros. rewrite be_val_be_bytes. by apply Z.mod_small. Qed.

Lemma be_val_bound l : bytes_ok l -> 0 <= be_val l < 256 ^ Z.of_nat (length l).
Proof. intros H. unfold be_val. rewrite <- length_rev. apply le_val_bound. by apply Forall_rev. Qed.

(** ** bytes.Compare: lexicographic order *)

Fixpoint bytes_compare (l1 l2 : list Z) : comparison :=
  match l1, l2 with
  | [], [] => Eq
  | [], _ :: _ => Lt
  | _ :: _, [] => Gt
  | a :: l1, b :: l2 =>
      match a ?= b with
      | Eq => bytes_compare l1 l2
      | c => c
      end
  end.

Lemma bytes_compare_eq l1 l2 : bytes_compare l1 l2 = Eq <-> l1 = l2.
Proof.
  revert l2. induction l1 as [|a l1 IH]; intros [|b l2]; simpl; try done.
  destruct (Z.compare_spec a b) as [->|?|?].
  - rewrite IH. split; [by intros ->|by intros [= ->]].
  - split; [done|]. intros [= -> ->]. lia.
  - split; [done|]. intros [= -> ->]. lia.
Qed.

Lemma bytes_compare_refl l : bytes_compare l l = Eq.
Proof. by apply bytes_compare_eq. Qed.

Lemma bytes_compare_antisym l1 l2 : bytes_compare l2 l1 = CompOpp (bytes_compare l1 l2).
Proof.
  revert l2. induction l1 as [|a l1 IH]; intros [|b l2]; simpl; try done.
  rewrite (Z.compare_antisym a b). destruct (a ?= b); simpl; auto.
Qed.

Lemma bytes_compare_trans l1 l2 l3 :
  bytes_compare l1 l2 = Lt -> bytes_compare l2 l3 = Lt -> bytes_compare l1 l3 = Lt.
Proof.
  revert l2 l3. induction l1 as [|a l1 IH]; intros [|b l2] [|c l3]; simpl; try done.
  destruct (Z.compare_spec a b), (Z.compare_spec b c), (Z.compare_spec a c);
    subst; try done; try lia; eauto.
Qed.

(** On equal lengths the order of byte strings is the order of the big-endian integers. *)
Lemma be_val_cons b l : be_val (b :: l) = b * 256 ^ Z.of_nat (length l) + be_val l.
Proof.
  unfold be_val. simpl. rewrite <- (length_rev l).
  generalize (rev l) as r. intros r. clear l. induction r as [|x r IH]; simpl; [lia|].
  rewrite IH, Nat2Z.inj_succ, Z.pow_succ_r by lia. lia.
Qed.

Lemma bytes_compare_be_val l1 l2 :
  bytes_ok l1 -> bytes_ok l2 -> length l1 = length l2 ->
  bytes_compare l1 l2 = (be_val l1 ?= be_val l2).
Proof.
  intros H1. revert l2. induction H1 as [|a l1 Ha H1 IH]; intros [|b l2] H2 Hl; simpl in *; try done.
  apply bytes_ok_cons in H2 as [Hb H2]. rewrite !be_val_cons.
  injection Hl as Hl. rewrite <- Hl.
  pose proof (be_val_bound l1 H1). pose proof (be_val_bound l2 H2) as B2. rewrite <- Hl in B2.
  set (W := 256 ^ Z.of_nat (length l1)) in *.
  destruct (Z.compare_spec a b) as [->|Hab|Hab].
  - rewrite IH by done.
    destruct (Z.compare_spec (be_val l1) (be_val l2)); symmetry;
      [apply Z.compare_eq_iff|apply Z.compare_lt_iff|apply Z.compare_gt_iff]; lia.
  - symmetry. apply Z.compare_lt_iff. nia.
  - symmetry. apply Z.compare_gt_iff. nia.
Qed.
