(* ===== verification/GoFloat.v ===== *)
(** * float64 of the Go language

    The binary64 format of the library's [SpecFloat], with the conversions from and to integers.
    An integer of at most 53 bits survives the conversion to float64 and back. *)
From Stdlib Require Export SpecFloat.
From S2P Require Import Prelude.
Local Open Scope Z_scope.

Abbreviation float64 := spec_float.

Definition of_int (z : Z) : float64 := binary_normalize 53 1024 z 0 false.
Definition fmul : float64 -> float64 -> float64 := SFmul 53 1024.
Definition fadd : float64 -> float64 -> float64 := SFadd 53 1024.
Definition fsub : float64 -> float64 -> float64 := SFsub 53 1024.
Definition fdiv : float64 -> float64 -> float64 := SFdiv 53 1024.

(** math.Max on values that are not infinite. *)
Definition fmax (x y : float64) : float64 :=
  match x, y with
  | S754_nan, _ | _, S754_nan => S754_nan
  | _, _ => if SFltb y x then x else y
  end.

(** The integer part, toward zero. *)
Definition ftrunc (x : float64) : option Z :=
  match x with
  | S754_zero _ => Some 0
  | S754_finite s m e =>
    let n := if 0 <=? e then Z.pos m * 2 ^ e else Z.pos m / 2 ^ (- e) in
    Some (if s then - n else n)
  | _ => None
  end.

Lemma digits2_pos_size p : digits2_pos p = Pos.size p.
Proof. induction p as [p IH|p IH|]; cbn; congruence. Qed.

Lemma digits2_log2 p : Z.pos (digits2_pos p) = Z.log2 (Z.pos p) + 1.
Proof. rewrite digits2_pos_size. destruct p; cbn; lia. Qed.

Lemma iter_xO d p : Z.pos (Pos.iter xO p d) = Z.pos p * 2 ^ Z.pos d.
Proof.
  induction d as [|d IH] using Pos.peano_ind; [cbn; lia|].
  rewrite Pos.iter_succ, Pos2Z.inj_succ, Z.pow_succ_r by lia. rewrite Pos2Z.inj_xO, IH. lia.
Qed.

(** An integer of at most 53 bits is exactly a float64. *)
Lemma binary_round_exact s p :
  Z.pos p < 2 ^ 53 -> exists m e, binary_round 53 1024 s p 0 = S754_finite s m e /\
    (if 0 <=? e then Z.pos m * 2 ^ e else Z.pos m / 2 ^ (- e)) = Z.pos p.
Proof.
  intros Hp. set (k := Z.log2 (Z.pos p)).
  assert (0 <= k < 53) as Hk by (split; [apply Z.log2_nonneg|apply Z.log2_lt_pow2; lia]).
  assert (exists m, shl_align p 0 (fexp 53 1024 (Z.pos (digits2_pos p) + 0)) = (m, k - 52) /\
    Z.pos m = Z.pos p * 2 ^ (52 - k)) as (m & E & Hm).
  { rewrite digits2_log2. fold k. unfold fexp, emin. rewrite Z.max_l by lia. unfold shl_align.
    replace (k + 1 + 0 - 53 - 0) with (- (52 - k)) by lia.
    destruct (52 - k) as [|d|d] eqn:Ed; [exists p; split; [f_equal; lia|cbn; lia]| |lia].
    exists (Pos.iter xO p d). cbn [Z.opp]. split; [f_equal; lia|]. apply iter_xO. }
  assert (fexp 53 1024 (Zdigits2 (Z.pos m) + (k - 52)) = k - 52) as Hf.
  { cbn [Zdigits2]. rewrite digits2_log2, Hm, Z.log2_mul_pow2 by lia. fold k. unfold fexp, emin. lia. }
  exists m, (k - 52). split.
  - unfold binary_round. rewrite E. unfold binary_round_aux, shr_fexp. rewrite Hf, Z.sub_diag.
    cbn [shr shr_record_of_loc loc_of_shr_record round_nearest_even shr_m]. rewrite Hf, Z.sub_diag. cbn [shr shr_m].
    destruct (k - 52 <=? 1024 - 53) eqn:?; [done|lia].
  - rewrite Hm. destruct (0 <=? k - 52) eqn:?.
    + replace k with 52 by lia. cbn. lia.
    + replace (- (k - 52)) with (52 - k) by lia. apply Z.div_mul. lia.
Qed.

Lemma of_int_trunc z : - 2 ^ 53 < z < 2 ^ 53 -> ftrunc (of_int z) = Some z.
Proof.
  intros Hz. unfold of_int, binary_normalize. destruct z as [|p|p]; [done|..].
  - destruct (binary_round_exact false p) as (m & e & -> & H); [lia|]. cbn [ftrunc]. by rewrite H.
  - destruct (binary_round_exact true p) as (m & e & -> & H); [lia|]. cbn [ftrunc]. by rewrite H.
Qed.

Lemma of_int_add_zero z : - 2 ^ 53 < z < 2 ^ 53 -> fadd (of_int z) (S754_zero false) = of_int z.
Proof.
  intros Hz. unfold of_int, binary_normalize. destruct z as [|p|p]; [done|..].
  - by destruct (binary_round_exact false p) as (m & e & -> & H); [lia|].
  - by destruct (binary_round_exact true p) as (m & e & -> & H); [lia|].
Qed.
