(* ===== verification/GoSort.v ===== *)
(** * Package sort: Slice and SliceStable

    sort.Slice promises a permutation of the slice that is sorted by [less]; the order of
    elements neither of which is less than the other is not specified, so the routines that
    call it are stated against the interface [SortSlice].  sort.SliceStable is determined by
    its promise and is the insertion sort [slice_stable]. *)
From stdpp Require Export sorting.
From S2P Require Import Prelude.

(** The requirement of package sort on [less]. *)
Class StrictWeak {A} (less : A -> A -> bool) : Prop := {
  less_irrefl x : less x x = false;
  less_trans x y z : less x y = true -> less y z = true -> less x z = true;
  less_incomp x y z : less x y = false -> less y z = false -> less x z = false
}.

(** Sorted by [less]: no later element is less than an earlier one. *)
Definition sorted_by {A} (less : A -> A -> bool) (l : list A) : Prop :=
  StronglySorted (fun x y => less y x = false) l.

Class SortSlice := {
  sort_slice : forall {A}, (A -> A -> bool) -> list A -> list A;
  sort_slice_perm : forall {A} (less : A -> A -> bool) l, sort_slice less l ≡ₚ l;
  sort_slice_sorted : forall {A} (less : A -> A -> bool) l,
    StrictWeak less -> sorted_by less (sort_slice less l)
}.

(** sort.Slice with a [less] that reads positions of some other slice, which stay while the slice is
    permuted: a permutation is all that remains of the promise.  Up to six elements the routine is
    the insertion sort that compares neighbouring positions. *)
Definition swap_at {A} (i j : nat) (l : list A) : list A :=
  match l !! i, l !! j with Some x, Some y => <[i := y]> (<[j := x]> l) | _, _ => l end.

Fixpoint insertion_inner {A} (less : nat -> nat -> bool) (j : nat) (l : list A) : list A :=
  match j with
  | O => l
  | S j' => if less j j' then insertion_inner less j' (swap_at j j' l) else l
  end.

Definition insertion_ix {A} (less : nat -> nat -> bool) (l : list A) : list A :=
  foldl (fun l i => insertion_inner less i l) l (seq 1 (length l - 1)).

Class SortSliceIx := {
  sort_slice_ix : forall {A}, (nat -> nat -> bool) -> list A -> list A;
  sort_slice_ix_perm : forall {A} less (l : list A), sort_slice_ix less l ≡ₚ l;
  sort_slice_ix_small : forall {A} less (l : list A), (length l <= 6)%nat -> sort_slice_ix less l = insertion_ix less l
}.

Lemma swap_at_perm {A} i j (l : list A) : swap_at i j l ≡ₚ l.
Proof.
  unfold swap_at. destruct (l !! i) as [x|] eqn:Ei, (l !! j) as [y|] eqn:Ej; try done.
  destruct (decide (i = j)) as [->|Hne].
  - rewrite Ei in Ej. injection Ej as ->. rewrite list_insert_insert_eq, list_insert_id; done.
  - symmetry. apply (Permutation_inj _ _). split; [by rewrite !length_insert|].
    exists (fun k => if decide (k = i) then j else if decide (k = j) then i else k). split.
    + intros a b. repeat case_decide; congruence.
    + intros k. assert (i < length l)%nat by (by eapply lookup_lt_Some). assert (j < length l)%nat by (by eapply lookup_lt_Some).
      destruct (decide (k = i)) as [->|]; [|destruct (decide (k = j)) as [->|]].
      * rewrite list_lookup_insert_ne, list_lookup_insert_eq by done. done.
      * rewrite list_lookup_insert_eq by (by rewrite length_insert). done.
      * by rewrite !list_lookup_insert_ne by done.
Qed.

Lemma insertion_inner_perm {A} less j (l : list A) : insertion_inner less j l ≡ₚ l.
Proof. revert l. induction j as [|j IH]; intros l; cbn; [done|]. destruct (less _ _); [|done]. by rewrite IH, swap_at_perm. Qed.

Lemma insertion_ix_perm {A} less (l : list A) : insertion_ix less l ≡ₚ l.
Proof.
  unfold insertion_ix. generalize (seq 1 (length l - 1)). intros ks. revert l.
  induction ks as [|i ks IH]; intros l; cbn; [done|]. by rewrite IH, insertion_inner_perm.
Qed.

#[export] Instance insertion_sort_ix : SortSliceIx := {
  sort_slice_ix A := insertion_ix;
  sort_slice_ix_perm A := insertion_ix_perm;
  sort_slice_ix_small A less l _ := eq_refl
}.

(** ** Insertion sort: the reference implementation, stable *)

Fixpoint insert_stable {A} (less : A -> A -> bool) (x : A) (l : list A) : list A :=
  match l with
  | [] => [x]
  | y :: l' => if less y x then y :: insert_stable less x l' else x :: y :: l'
  end.

Fixpoint slice_stable {A} (less : A -> A -> bool) (l : list A) : list A :=
  match l with
  | [] => []
  | x :: l => insert_stable less x (slice_stable less l)
  end.

Section stable.
Context {A : Type} (less : A -> A -> bool).

Lemma insert_stable_perm x l : insert_stable less x l ≡ₚ x :: l.
Proof.
  induction l as [|y l IH]; simpl; [done|].
  destruct (less y x); [|done]. rewrite IH. constructor.
Qed.

Lemma slice_stable_perm l : slice_stable less l ≡ₚ l.
Proof. induction l as [|x l IH]; simpl; [done|]. by rewrite insert_stable_perm, IH. Qed.

Lemma length_slice_stable l : length (slice_stable less l) = length l.
Proof. apply Permutation_length, slice_stable_perm. Qed.

Context `{!StrictWeak less}.

Lemma less_asym x y : less x y = true -> less y x = false.
Proof.
  intros H. destruct (less y x) eqn:E; [|done].
  pose proof (less_trans x y x H E) as C. by rewrite less_irrefl in C.
Qed.

Lemma insert_stable_sorted x l : sorted_by less l -> sorted_by less (insert_stable less x l).
Proof.
  unfold sorted_by. induction 1 as [|y l Hs IH Hy]; simpl.
  - repeat constructor.
  - destruct (less y x) eqn:E.
    + constructor; [done|]. rewrite insert_stable_perm. constructor; [|done]. by apply less_asym.
    + constructor; [by constructor|]. constructor; [done|].
      eapply Forall_impl; [exact Hy|]. intros z Hz. simpl in *. by eapply less_incomp.
Qed.

Lemma slice_stable_sorted l : sorted_by less (slice_stable less l).
Proof. induction l; simpl; [constructor|by apply insert_stable_sorted]. Qed.

(** Elements that [less] does not order keep their relative order. *)
Lemma insert_stable_filter (P : A -> bool) x l :
  (forall y, P y = true -> P x = true -> less y x = false) ->
  filter (fun y => P y = true) (insert_stable less x l)
  = filter (fun y => P y = true) (x :: l).
Proof.
  intros HP. induction l as [|y l IH]; simpl; [done|].
  destruct (less y x) eqn:E; [|done].
  rewrite filter_cons, IH, !filter_cons.
  destruct (decide (P x = true)), (decide (P y = true)); try done.
  by rewrite HP in E.
Qed.

Lemma slice_stable_filter (P : A -> bool) l :
  (forall x y, P x = true -> P y = true -> less x y = false) ->
  filter (fun y => P y = true) (slice_stable less l) = filter (fun y => P y = true) l.
Proof.
  intros HP. induction l as [|x l IH]; simpl; [done|].
  rewrite insert_stable_filter by auto. rewrite !filter_cons, IH. done.
Qed.
End stable.

#[export] Instance stable_sort_slice : SortSlice := {
  sort_slice A := slice_stable;
  sort_slice_perm A := slice_stable_perm;
  sort_slice_sorted A less l H := slice_stable_sorted less l
}.

(** A comparison of integer keys is a strict weak order. *)
Lemma key_strict_weak {A} (f : A -> Z) : StrictWeak (fun x y => (f x <? f y)%Z).
Proof. split; intros *; rewrite ?Z.ltb_lt, ?Z.ltb_ge; lia. Qed.

Lemma sorted_by_app {A} (less : A -> A -> bool) l1 l2 :
  sorted_by less (l1 ++ l2) <->
  sorted_by less l1 /\ sorted_by less l2 /\
  (forall x y, x ∈ l1 -> y ∈ l2 -> less y x = false).
Proof.
  unfold sorted_by. induction l1 as [|x l1 IH]; simpl.
  - split; [|by intros (_ & ? & _)]. intros H. repeat split; [constructor|done|]. intros ? ? []%not_elem_of_nil.
  - split.
    + intros [Hs Hx]%StronglySorted_inv. apply IH in Hs as (H1 & H2 & H3).
      apply Forall_app in Hx as [Hx1 Hx2]. repeat split; [by constructor|done|].
      intros a b [->|Ha]%elem_of_cons Hb; [|by apply H3].
      by eapply Forall_forall in Hx2.
    + intros ([Hs Hx]%StronglySorted_inv & H2 & H3). constructor.
      * apply IH. repeat split; [done..|]. intros. apply H3; [by right|done].
      * apply Forall_app. split; [done|]. apply Forall_forall. intros y Hy. apply H3; [left|done].
Qed.
