(* ===== verification/Decimal.v ===== *)
(** * strconv: decimal integers

    strconv.Itoa and FormatUint, strconv.ParseUint and Atoi in base 10, with the round trip. *)
From S2P Require Import Prelude.
Local Open Scope Z_scope.

(** The digits of [n] in front of [acc]. *)
Fixpoint digits (fuel : nat) (n : Z) (acc : list Z) : list Z :=
  match fuel with
  | O => acc
  | S fuel => if n <? 10 then (48 + n) :: acc else digits fuel (n / 10) ((48 + n mod 10) :: acc)
  end.

(** As many turns as [n] has bits are enough. *)
Definition format_uint (n : Z) : list Z := digits (S (Z.to_nat (Z.log2 n))) n [].

Definition itoa (n : Z) : list Z := if n <? 0 then 45 :: format_uint (- n) else format_uint n.

Definition is_digit (c : Z) : bool := (48 <=? c) && (c <=? 57).

(** The value of a string of digits, in front of which [acc] has been read. *)
Fixpoint dec_val (acc : Z) (s : list Z) : option Z :=
  match s with
  | [] => Some acc
  | c :: s => if is_digit c then dec_val (acc * 10 + (c - 48)) s else None
  end.

(** strconv.ParseUint(s, 10, bits): None for a syntax or a range error. *)
Definition ParseUint (bits : Z) (s : list Z) : option Z :=
  match s with
  | [] => None
  | _ => match dec_val 0 s with
         | Some v => if v <? 2 ^ bits then Some v else None
         | None => None
         end
  end.

Lemma dec_val_app acc s t :
  dec_val acc (s ++ t) = match dec_val acc s with Some v => dec_val v t | None => None end.
Proof. revert acc. induction s as [|c s IH]; intros acc; simpl; [done|]. destruct (is_digit c); auto. Qed.

Lemma is_digit_48 d : 0 <= d < 10 -> is_digit (48 + d) = true.
Proof. intros. unfold is_digit. apply andb_true_iff. lia. Qed.

(** [digits] in terms of its result without accumulator. *)
Lemma digits_acc fuel n acc : digits fuel n acc = digits fuel n [] ++ acc.
Proof.
  revert n acc. induction fuel as [|fuel IH]; intros n acc; cbn [digits]; [done|].
  destruct (n <? 10); [done|]. rewrite IH, (IH _ [_]), <- app_assoc. done.
Qed.

Lemma digits_val fuel n :
  0 <= n < 2 ^ Z.of_nat fuel -> dec_val 0 (digits fuel n []) = Some n /\
  Forall (fun c => 48 <= c <= 57) (digits fuel n []).
Proof.
  revert n. induction fuel as [|fuel IH]; intros n H; cbn [digits].
  - replace n with 0 by (change (2 ^ Z.of_nat 0) with 1 in H; lia). done.
  - rewrite Nat2Z.inj_succ, Z.pow_succ_r in H by lia. destruct (Z.ltb_spec n 10).
    + cbn [dec_val]. rewrite is_digit_48 by lia. split; [f_equal; lia|]. constructor; [lia|constructor].
    + assert (0 <= n / 10 < 2 ^ Z.of_nat fuel) as B by (Z.div_mod_to_equations; lia).
      destruct (IH _ B) as [E F]. rewrite digits_acc, dec_val_app, E. cbn [dec_val].
      pose proof (Z.mod_pos_bound n 10). rewrite is_digit_48 by lia. split.
      * f_equal. pose proof (Z.div_mod n 10). lia.
      * apply Forall_app. split; [done|]. constructor; [lia|constructor].
Qed.

Lemma log2_fuel n : 0 <= n -> n < 2 ^ Z.of_nat (S (Z.to_nat (Z.log2 n))).
Proof.
  intros H. pose proof (Z.log2_nonneg n). rewrite Nat2Z.inj_succ, Z2Nat.id by done.
  destruct (Z.eq_dec n 0) as [->|Hn]; [done|]. apply Z.log2_spec. lia.
Qed.

Lemma format_uint_val n : 0 <= n -> dec_val 0 (format_uint n) = Some n.
Proof. intros H. apply digits_val. split; [done|by apply log2_fuel]. Qed.

Lemma format_uint_digits n : 0 <= n -> Forall (fun c => 48 <= c <= 57) (format_uint n).
Proof. intros H. apply digits_val. split; [done|by apply log2_fuel]. Qed.

Lemma format_uint_nonempty n : format_uint n <> [].
Proof.
  unfold format_uint. cbn [digits]. destruct (n <? 10); [done|]. rewrite digits_acc.
  intros E. by apply app_eq_nil in E as [_ ?].
Qed.

Lemma format_uint_inj n m : 0 <= n -> 0 <= m -> format_uint n = format_uint m -> n = m.
Proof. intros Hn Hm E. pose proof (format_uint_val n Hn) as E1. rewrite E, format_uint_val in E1 by done. congruence. Qed.

Lemma ParseUint_format bits n : 0 <= n < 2 ^ bits -> ParseUint bits (format_uint n) = Some n.
Proof.
  intros H. unfold ParseUint. pose proof (format_uint_nonempty n) as N.
  destruct (format_uint n) as [|c s] eqn:E; [done|]. rewrite <- E, format_uint_val by lia.
  destruct (Z.ltb_spec n (2 ^ bits)); [done|lia].
Qed.

Lemma dec_val_range s acc v : 0 <= acc -> dec_val acc s = Some v -> acc <= v.
Proof.
  revert acc. induction s as [|c s IH]; intros acc Ha; simpl; [intros [= ->]; lia|].
  destruct (is_digit c) eqn:D; [|done]. unfold is_digit in D. apply andb_true_iff in D.
  intros E. apply IH in E; lia.
Qed.
