(* ===== verification/GoText.v ===== *)
(** * Text: unicode/utf8, the parts of bytes and strings that work on text, strconv.Atoi

    A string or []byte is the list of its bytes.  [EncodeRune] and [DecodeRune] are UTF-8 as
    unicode/utf8 implements it, with U+FFFD for what is not valid; [TrimSpace] removes the
    code points that unicode.IsSpace accepts from both ends. *)
From S2P Require Import Prelude Decimal.
Local Open Scope Z_scope.

(** ** unicode/utf8 *)

Definition RuneError : Z := 65533.
Definition RuneSelf : Z := 128.

Definition valid_rune (r : Z) : bool :=
  ((0 <=? r) && (r <? 55296)) || ((57344 <=? r) && (r <=? 1114111)).

(** The bytes of a rune that is valid. *)
Definition encode_valid (r : Z) : list Z :=
  if r <? 128 then [r]
  else if r <? 2048 then [192 + r / 64; 128 + r mod 64]
  else if r <? 65536 then [224 + r / 4096; 128 + r / 64 mod 64; 128 + r mod 64]
  else [240 + r / 262144; 128 + r / 4096 mod 64; 128 + r / 64 mod 64; 128 + r mod 64].

Definition EncodeRune (r : Z) : list Z := encode_valid (if valid_rune r then r else RuneError).

(** Is [b] a continuation byte within [lo .. hi]? *)
Definition cont (lo hi b : Z) : bool := (lo <=? b) && (b <=? hi).

(** The range of the second byte after the first byte [b0]. *)
Definition second_range (b0 : Z) : Z * Z :=
  if b0 =? 224 then (160, 191)
  else if b0 =? 237 then (128, 159)
  else if b0 =? 240 then (144, 191)
  else if b0 =? 244 then (128, 143)
  else (128, 191).

(** DecodeRune: the first rune and its width; (RuneError, 1) when the encoding is invalid. *)
Definition DecodeRune (s : list Z) : Z * nat :=
  match s with
  | [] => (RuneError, 0%nat)
  | b0 :: s =>
    let '(lo, hi) := second_range b0 in
    if b0 <? 128 then (b0, 1%nat)
    else if (b0 <? 194) || (244 <? b0) then (RuneError, 1%nat)
    else match s with
    | [] => (RuneError, 1%nat)
    | b1 :: s =>
      if negb (cont lo hi b1) then (RuneError, 1%nat)
      else if b0 <? 224 then ((b0 - 192) * 64 + (b1 - 128), 2%nat)
      else match s with
      | [] => (RuneError, 1%nat)
      | b2 :: s =>
        if negb (cont 128 191 b2) then (RuneError, 1%nat)
        else if b0 <? 240 then ((b0 - 224) * 4096 + (b1 - 128) * 64 + (b2 - 128), 3%nat)
        else match s with
        | [] => (RuneError, 1%nat)
        | b3 :: _ =>
          if negb (cont 128 191 b3) then (RuneError, 1%nat)
          else ((b0 - 240) * 262144 + (b1 - 128) * 4096 + (b2 - 128) * 64 + (b3 - 128), 4%nat)
        end
      end
    end
  end.

(** utf8.RuneStart *)
Definition RuneStart (b : Z) : bool := negb (cont 128 191 b).

(** The first start byte among the last four bytes of a string, whose bytes come last first:
    what lies between it and the end. *)
Fixpoint last_start (fuel : nat) (s : list Z) (acc : list Z) : option (list Z) :=
  match fuel, s with
  | S fuel, b :: s => if RuneStart b then Some (b :: acc) else last_start fuel s (b :: acc)
  | _, _ => None
  end.

(** DecodeLastRune of the string whose reverse is [s]. *)
Definition DecodeLastRune (s : list Z) : Z * nat :=
  match s with
  | [] => (RuneError, 0%nat)
  | b :: _ =>
    if b <? 128 then (b, 1%nat)
    else match last_start 4 s [] with
    | None => (RuneError, 1%nat)
    | Some w =>
      let '(r, size) := DecodeRune w in
      if (size =? length w)%nat then (r, size) else (RuneError, 1%nat)
    end
  end.

(** ** bytes.TrimSpace *)

(** unicode.IsSpace *)
Definition IsSpace (r : Z) : bool :=
  ((9 <=? r) && (r <=? 13)) || (r =? 32) || (r =? 133) || (r =? 160) || (r =? 5760) ||
  ((8192 <=? r) && (r <=? 8202)) || (r =? 8232) || (r =? 8233) || (r =? 8239) || (r =? 8287) || (r =? 12288).

(** Drop the leading spaces; every turn drops at least one byte. *)
Fixpoint trim_left (fuel : nat) (s : list Z) : list Z :=
  match fuel, s with
  | S fuel, _ :: _ =>
    let '(r, size) := DecodeRune s in
    if IsSpace r then trim_left fuel (drop size s) else s
  | _, _ => s
  end.

Fixpoint trim_right_rev (fuel : nat) (s : list Z) : list Z :=
  match fuel, s with
  | S fuel, _ :: _ =>
    let '(r, size) := DecodeLastRune s in
    if IsSpace r then trim_right_rev fuel (drop size s) else s
  | _, _ => s
  end.

Definition trim_right (s : list Z) : list Z := rev (trim_right_rev (length s) (rev s)).

Definition TrimSpace (s : list Z) : list Z := let s := trim_left (length s) s in trim_right s.

(** ** Searching and splitting *)

(** bytes.IndexByte, and IndexRune of an ASCII character; None for -1. *)
Fixpoint IndexByte (c : Z) (s : list Z) : option nat :=
  match s with
  | [] => None
  | b :: s => if b =? c then Some 0%nat else S <$> IndexByte c s
  end.

(** bytes.Split at one character: never empty. *)
Fixpoint Split (c : Z) (s : list Z) : list (list Z) :=
  match s with
  | [] => [[]]
  | b :: s =>
    if b =? c then [] :: Split c s
    else match Split c s with
         | [] => [[b]]
         | w :: ws => (b :: w) :: ws
         end
  end.

(** strings.Join with one character. *)
Fixpoint Join (c : Z) (ws : list (list Z)) : list Z :=
  match ws with
  | [] => []
  | [w] => w
  | w :: ws => w ++ c :: Join c ws
  end.

(** strings.HasPrefix *)
Fixpoint HasPrefix (s p : list Z) : bool :=
  match p, s with
  | [], _ => true
  | a :: p, b :: s => (a =? b) && HasPrefix s p
  | _, [] => false
  end.

(** strings.ToUpper and ToLower of an ASCII string. *)
Definition upper_byte (c : Z) : Z := if (97 <=? c) && (c <=? 122) then c - 32 else c.
Definition lower_byte (c : Z) : Z := if (65 <=? c) && (c <=? 90) then c + 32 else c.

(** ** strconv *)

(** strconv.ParseInt(s, 10, bits), and Atoi on 64 bits. *)
Definition ParseInt (bits : Z) (s : list Z) : option Z :=
  match s with
  | [] => None
  | c :: t =>
    if c =? 45 then
      match ParseUint 64 t with
      | Some v => if v <=? 2 ^ (bits - 1) then Some (- v) else None
      | None => None
      end
    else
      match ParseUint 64 (if c =? 43 then t else s) with
      | Some v => if v <? 2 ^ (bits - 1) then Some v else None
      | None => None
      end
  end.

Definition Atoi : list Z -> option Z := ParseInt 64.

(** ** UTF-8 round trip *)

Lemma second_range_2 b0 : b0 < 224 -> second_range b0 = (128, 191).
Proof. intros H. unfold second_range. repeat (case_match; [lia|]). done. Qed.

Lemma second_range_3 b0 lo hi :
  b0 < 240 -> second_range b0 = (lo, hi) ->
  lo <= 160 /\ 159 <= hi /\ (b0 <> 224 -> lo = 128) /\ (b0 <> 237 -> hi = 191).
Proof. unfold second_range. intros Hb H. repeat case_match; injection H as <- <-; lia. Qed.

Lemma second_range_4 b0 lo hi :
  240 <= b0 -> second_range b0 = (lo, hi) ->
  lo <= 144 /\ 143 <= hi /\ (b0 <> 240 -> lo = 128) /\ (b0 <> 244 -> hi = 191).
Proof. unfold second_range. intros Hb H. repeat case_match; injection H as <- <-; lia. Qed.

(** Decide the tests of DecodeRune that arithmetic decides. *)
Ltac decode_tests :=
  repeat match goal with
  | |- context [if ?b then _ else _] => first [replace b with true by lia | replace b with false by lia]; cbv iota
  end.

Lemma DecodeRune_encode_valid r rest :
  valid_rune r = true -> DecodeRune (encode_valid r ++ rest) = (r, length (encode_valid r)).
Proof.
  unfold valid_rune, encode_valid. intros V.
  assert (0 <= r <= 1114111 /\ (r < 55296 \/ 57344 <= r)) as [H Hs] by lia. clear V.
  pose proof (Z.div_mod r 64 ltac:(lia)) as E1. pose proof (Z.mod_pos_bound r 64 ltac:(lia)) as B1.
  pose proof (Z.div_mod (r / 64) 64 ltac:(lia)) as E2. pose proof (Z.mod_pos_bound (r / 64) 64 ltac:(lia)) as B2.
  pose proof (Z.div_mod (r / 4096) 64 ltac:(lia)) as E3. pose proof (Z.mod_pos_bound (r / 4096) 64 ltac:(lia)) as B3.
  rewrite (Z.div_div r 64 64) in E2 by lia. rewrite (Z.div_div r 4096 64) in E3 by lia. cbn in E2, E3.
  change (64 * 64) with 4096 in E2. change (4096 * 64) with 262144 in E3.
  set (a := r mod 64) in *. set (b := r / 64 mod 64) in *. set (c := r / 4096 mod 64) in *.
  set (q1 := r / 64) in *. set (q2 := r / 4096) in *. set (q3 := r / 262144) in *.
  destruct (r <? 128) eqn:C1; [cbn; destruct (second_range r); by rewrite C1|].
  destruct (r <? 2048) eqn:C2; [|destruct (r <? 65536) eqn:C3]; cbn [app DecodeRune length]; unfold cont.
  - rewrite second_range_2 by lia. decode_tests. f_equal; lia.
  - destruct (second_range (224 + q2)) as [lo hi] eqn:SR. apply second_range_3 in SR; [|lia].
    decode_tests. f_equal; lia.
  - destruct (second_range (240 + q3)) as [lo hi] eqn:SR. apply second_range_4 in SR; [|lia].
    decode_tests. f_equal; lia.
Qed.

Lemma valid_RuneError : valid_rune RuneError = true.
Proof. done. Qed.

(** What a rune is after it has been written. *)
Definition norm_rune (r : Z) : Z := if valid_rune r then r else RuneError.

Lemma DecodeRune_EncodeRune r rest : DecodeRune (EncodeRune r ++ rest) = (norm_rune r, length (EncodeRune r)).
Proof.
  unfold EncodeRune, norm_rune. destruct (valid_rune r) eqn:V; apply DecodeRune_encode_valid; auto using valid_RuneError.
Qed.

Lemma EncodeRune_ascii r : 0 <= r < 128 -> EncodeRune r = [r].
Proof.
  intros H. unfold EncodeRune, encode_valid, valid_rune.
  destruct (_ || _) eqn:E; [|lia]. by destruct (r <? 128) eqn:?; [|lia].
Qed.

Lemma EncodeRune_nonempty r : EncodeRune r <> [].
Proof. unfold EncodeRune, encode_valid. by repeat case_match. Qed.

(** The bytes of a rune that is not ASCII are all above 127. *)
Lemma encode_valid_high r c : valid_rune r = true -> c ∈ encode_valid r -> c < 128 -> encode_valid r = [c].
Proof.
  unfold valid_rune, encode_valid. intros V Hc Hlt. assert (0 <= r) as Hr by lia.
  pose proof (Z.mod_pos_bound r 64 ltac:(lia)). pose proof (Z.mod_pos_bound (r / 64) 64 ltac:(lia)).
  pose proof (Z.mod_pos_bound (r / 4096) 64 ltac:(lia)).
  pose proof (Z.div_pos r 64 Hr ltac:(lia)). pose proof (Z.div_pos r 4096 Hr ltac:(lia)).
  pose proof (Z.div_pos r 262144 Hr ltac:(lia)).
  repeat case_match; repeat (apply elem_of_cons in Hc as [Hc|Hc]); try (by apply not_elem_of_nil in Hc); subst; try lia; done.
Qed.

(** ** Trimming *)

Lemma DecodeRune_size s : s <> [] -> (1 <= (DecodeRune s).2)%nat.
Proof.
  destruct s as [|b0 s]; [done|]. intros _. cbn [DecodeRune]. destruct (second_range b0) as [lo hi].
  repeat case_match; cbn; lia.
Qed.

Lemma last_start_length fuel s acc w : last_start fuel s acc = Some w -> w <> [].
Proof. revert s acc. induction fuel as [|fuel IH]; intros [|b s] acc; cbn; try done. case_match; [by intros [= <-]|apply IH]. Qed.

Lemma DecodeLastRune_size s : s <> [] -> (1 <= (DecodeLastRune s).2)%nat.
Proof.
  destruct s as [|b s]; [done|]. intros _. cbn [DecodeLastRune]. case_match; [cbn; lia|].
  case_match eqn:L; [|cbn; lia]. apply last_start_length in L. apply DecodeRune_size in L.
  destruct (DecodeRune _) as [r n]. case_match; cbn in *; lia.
Qed.

Lemma trim_right_rev_fuel f1 f2 s :
  (length s <= f1)%nat -> (length s <= f2)%nat -> trim_right_rev f1 s = trim_right_rev f2 s.
Proof.
  revert f2 s. induction f1 as [|f1 IH]; intros [|f2] [|b s] H1 H2; cbn in H1, H2; try done; try lia.
  cbn [trim_right_rev]. pose proof (DecodeLastRune_size (b :: s) ltac:(done)) as Hs.
  destruct (DecodeLastRune (b :: s)) as [r n]. cbn in Hs. case_match; [|done].
  apply IH; rewrite length_drop; cbn; lia.
Qed.

Lemma trim_right_space s c : 0 <= c < 128 -> IsSpace c = true -> trim_right (s ++ [c]) = trim_right s.
Proof.
  intros Hc Hs. unfold trim_right. rewrite length_app, rev_unit. cbn [length]. rewrite Nat.add_comm. cbn [trim_right_rev Nat.add].
  cbn [DecodeLastRune]. rewrite (proj2 (Z.ltb_lt c 128)), Hs by lia. done.
Qed.

Lemma trim_right_last s c : 0 <= c < 128 -> IsSpace c = false -> trim_right (s ++ [c]) = s ++ [c].
Proof.
  intros Hc Hs. unfold trim_right. rewrite length_app, rev_unit. cbn [length]. rewrite Nat.add_comm. cbn [trim_right_rev Nat.add].
  cbn [DecodeLastRune]. rewrite (proj2 (Z.ltb_lt c 128)), Hs by lia. cbn. by rewrite rev_involutive.
Qed.

Lemma trim_left_rune r rest : IsSpace (norm_rune r) = false -> forall fuel, trim_left fuel (EncodeRune r ++ rest) = EncodeRune r ++ rest.
Proof.
  intros Hr [|fuel]; [done|]. destruct (EncodeRune r ++ rest) as [|b s] eqn:E; [done|].
  cbn [trim_left]. rewrite <- E, DecodeRune_EncodeRune, Hr. done.
Qed.

(** A string that starts with a rune that is not a space. *)
Lemma TrimSpace_rune r rest : IsSpace (norm_rune r) = false -> TrimSpace (EncodeRune r ++ rest) = trim_right (EncodeRune r ++ rest).
Proof. intros Hr. unfold TrimSpace. by rewrite trim_left_rune. Qed.

Lemma trim_right_rev_suffix fuel s : exists p, s = p ++ trim_right_rev fuel s.
Proof.
  revert s. induction fuel as [|fuel IH]; intros [|b s]; cbn [trim_right_rev]; try (by exists []).
  destruct (DecodeLastRune (b :: s)) as [r n]. destruct (IsSpace r); [|by exists []].
  destruct (IH (drop n (b :: s))) as [p Hp]. exists (take n (b :: s) ++ p). by rewrite <- app_assoc, <- Hp, take_drop.
Qed.

(** What is left does not end with an ASCII space. *)
Lemma trim_right_rev_head fuel s c t :
  (length s <= fuel)%nat -> trim_right_rev fuel s = c :: t -> c < 128 -> IsSpace c = false.
Proof.
  revert s. induction fuel as [|fuel IH]; intros [|b s] Hf; cbn in Hf; try done; try lia.
  cbn [trim_right_rev]. pose proof (DecodeLastRune_size (b :: s) ltac:(done)) as Hs.
  destruct (DecodeLastRune (b :: s)) as [r n] eqn:D. cbn in Hs. destruct (IsSpace r) eqn:Hr.
  - intros H Hc. eapply (IH (drop n (b :: s))); [rewrite length_drop; cbn; lia|done|done].
  - intros [= -> ->] Hc. cbn in D. rewrite (proj2 (Z.ltb_lt c 128)) in D by lia. congruence.
Qed.

Lemma trim_right_prefix s : exists p, s = trim_right s ++ p.
Proof.
  unfold trim_right. destruct (trim_right_rev_suffix (length s) (rev s)) as [p Hp].
  exists (rev p). by rewrite <- rev_app_distr, <- Hp, rev_involutive.
Qed.

Lemma trim_right_end s t c : trim_right s = t ++ [c] -> c < 128 -> IsSpace c = false.
Proof.
  unfold trim_right. intros H Hc. apply (f_equal (@rev Z)) in H. rewrite rev_involutive, rev_unit in H.
  eapply trim_right_rev_head; [|exact H|done]. by rewrite length_rev.
Qed.

(** ** Searching, splitting, numbers *)

Lemma IndexByte_app c p s : c ∉ p -> IndexByte c (p ++ c :: s) = Some (length p).
Proof.
  induction p as [|b p IH]; intros H; cbn; [by rewrite Z.eqb_refl|].
  apply not_elem_of_cons in H as [H1 H2]. by rewrite (proj2 (Z.eqb_neq b c)), IH by done.
Qed.

Lemma IndexByte_None c s : IndexByte c s = None <-> c ∉ s.
Proof.
  induction s as [|b s IH]; cbn; [by split; [intros _ ?%elem_of_nil|]|].
  rewrite not_elem_of_cons. destruct (b =? c) eqn:E.
  - apply Z.eqb_eq in E as ->. split; [done|]. by intros [].
  - rewrite fmap_None, IH. assert (c <> b) by lia. tauto.
Qed.

Lemma IndexByte_Some c s i : IndexByte c s = Some i -> exists p t, s = p ++ c :: t /\ length p = i /\ c ∉ p.
Proof.
  revert i. induction s as [|b s IH]; intros i; cbn; [done|]. destruct (b =? c) eqn:E.
  - intros [= <-]. apply Z.eqb_eq in E as ->. exists [], s. split_and!; [done..|]. apply not_elem_of_nil.
  - destruct (IndexByte c s) as [j|]; [|done]. intros [= <-]. destruct (IH j eq_refl) as (p & t & -> & <- & H).
    exists (b :: p), t. split_and!; [done..|]. apply not_elem_of_cons. split; [lia|done].
Qed.

Lemma Split_nonempty c s : Split c s <> [].
Proof. destruct s as [|b s]; [done|]. cbn. destruct (b =? c); [done|]. by destruct (Split c s). Qed.

Lemma Split_none c s : c ∉ s -> Split c s = [s].
Proof.
  induction s as [|b s IH]; intros H; cbn; [done|]. apply not_elem_of_cons in H as [H1 H2].
  by rewrite (proj2 (Z.eqb_neq b c)), IH by done.
Qed.

Lemma Split_app c p s : c ∉ p -> Split c (p ++ c :: s) = p :: Split c s.
Proof.
  induction p as [|b p IH]; intros H; cbn; [by rewrite Z.eqb_refl|]. apply not_elem_of_cons in H as [H1 H2].
  by rewrite (proj2 (Z.eqb_neq b c)), IH by done.
Qed.

Lemma Split_Join c ws : ws <> [] -> Forall (fun w => c ∉ w) ws -> Split c (Join c ws) = ws.
Proof.
  intros Hne. induction ws as [|w ws IH]; [done|]. intros H. apply Forall_cons in H as [Hw Hws].
  destruct ws as [|w2 ws]; [by apply Split_none|]. cbn [Join]. rewrite Split_app by done. f_equal. by apply IH.
Qed.

Lemma format_uint_head n : 0 <= n -> exists c t, format_uint n = c :: t /\ 48 <= c <= 57.
Proof.
  intros H. destruct (format_uint n) as [|c t] eqn:E; [by apply format_uint_nonempty in E|].
  exists c, t. split; [done|]. pose proof (format_uint_digits n H) as F. rewrite E in F. by apply Forall_cons in F as [F _].
Qed.

Lemma ParseInt_itoa bits n : 1 <= bits <= 64 -> - 2 ^ (bits - 1) <= n < 2 ^ (bits - 1) -> ParseInt bits (itoa n) = Some n.
Proof.
  intros Hb Hn. assert (2 ^ (bits - 1) <= 2 ^ 63) as Hp by (apply Z.pow_le_mono_r; lia).
  unfold itoa. destruct (n <? 0) eqn:E.
  - cbn [ParseInt]. rewrite ParseUint_format by lia. rewrite (proj2 (Z.leb_le _ _)) by lia. f_equal. lia.
  - assert (0 <= n < 2 ^ 64) as Hn64 by lia. pose proof (ParseUint_format 64 n Hn64) as P.
    destruct (format_uint_head n) as (c & t & F & Hc); [lia|]. rewrite F in *. unfold ParseInt.
    rewrite (proj2 (Z.eqb_neq c 45)), (proj2 (Z.eqb_neq c 43)), P, (proj2 (Z.ltb_lt _ _)) by lia. done.
Qed.

Lemma Atoi_itoa n : - 2 ^ 63 <= n < 2 ^ 63 -> Atoi (itoa n) = Some n.
Proof. intros H. apply ParseInt_itoa; lia. Qed.

Lemma itoa_chars n : Forall (fun c => c = 45 \/ 48 <= c <= 57) (itoa n).
Proof.
  unfold itoa. destruct (n <? 0) eqn:E; [constructor; [by left|]|];
    (eapply Forall_impl; [apply format_uint_digits; lia|]); cbn; lia.
Qed.

Lemma itoa_nonempty n : itoa n <> [].
Proof. unfold itoa. destruct (n <? 0); [done|]. apply format_uint_nonempty. Qed.

Lemma itoa_length n : (1 <= length (itoa n))%nat.
Proof. pose proof (itoa_nonempty n). destruct (itoa n); [done|cbn; lia]. Qed.

Lemma itoa_notin n c : c <> 45 -> ~ 48 <= c <= 57 -> c ∉ itoa n.
Proof. intros H1 H2 H. pose proof (itoa_chars n) as F. rewrite Forall_forall in F. apply F in H. lia. Qed.
