(* ===== verification/NetIP.v ===== *)
(** * net.IP: parsing and printing of IP addresses

    A net.IP is its bytes: four or sixteen of them, or none for nil.  [ParseIP] and [IP_String]
    follow package net; sixteen-bit groups of IPv6 are integers.  Printing and parsing again
    gives the sixteen-byte form of the address, also when the text is in upper case. *)
From S2P Require Import Prelude Decimal GoText.
Local Open Scope Z_scope.

Definition v4InV6Prefix : list Z := [0; 0; 0; 0; 0; 0; 0; 0; 0; 0; 255; 255].

(** IP.To4; the empty list is nil. *)
Definition To4 (ip : list Z) : list Z :=
  if (length ip =? 4)%nat then ip
  else if ((length ip =? 16)%nat && bool_decide (take 12 ip = v4InV6Prefix))%bool then drop 12 ip
  else [].

Definition To16 (ip : list Z) : list Z := if (length ip =? 4)%nat then v4InV6Prefix ++ ip else ip.

(** IP.Equal: an IPv4 address and its IPv6 form are equal. *)
Definition IP_Equal (ip x : list Z) : bool :=
  if (length ip =? length x)%nat then bool_decide (ip = x)
  else if ((length ip =? 4)%nat && (length x =? 16)%nat)%bool then bool_decide (v4InV6Prefix ++ ip = x)
  else if ((length ip =? 16)%nat && (length x =? 4)%nat)%bool then bool_decide (ip = v4InV6Prefix ++ x)
  else false.

(** ** Parsing *)

(** dtoi: a decimal number at the start of [s], and the rest; None when there is none or it
    is too large. *)
Fixpoint dtoi_loop (n : Z) (s : list Z) : option (Z * list Z) :=
  match s with
  | [] => Some (n, [])
  | c :: t =>
    if is_digit c then
      let n := n * 10 + (c - 48) in
      if 16777215 <=? n then None else dtoi_loop n t
    else Some (n, s)
  end.

Definition dtoi (s : list Z) : option (Z * list Z) :=
  match s with
  | c :: _ => if is_digit c then dtoi_loop 0 s else None
  | [] => None
  end.

Definition hex_digit (c : Z) : option Z :=
  if is_digit c then Some (c - 48)
  else if (97 <=? c) && (c <=? 102) then Some (c - 87)
  else if (65 <=? c) && (c <=? 70) then Some (c - 55)
  else None.

Fixpoint xtoi_loop (n : Z) (s : list Z) : option (Z * list Z) :=
  match s with
  | [] => Some (n, [])
  | c :: t =>
    match hex_digit c with
    | Some d =>
      let n := n * 16 + d in
      if 16777215 <=? n then None else xtoi_loop n t
    | None => Some (n, s)
    end
  end.

Definition xtoi (s : list Z) : option (Z * list Z) :=
  match s with
  | c :: _ => match hex_digit c with Some _ => xtoi_loop 0 s | None => None end
  | [] => None
  end.

(** parseIPv4: the four bytes, [k] of them to go; a number has no leading zero. *)
Fixpoint parseIPv4_loop (k : nat) (first : bool) (s : list Z) : option (list Z) :=
  match k with
  | O => if decide (s = []) then Some [] else None
  | S k =>
    match (if first then Some s else match s with c :: t => if c =? 46 then Some t else None | [] => None end) with
    | None => None
    | Some s =>
      match dtoi s with
      | None => None
      | Some (n, t) =>
        if 255 <? n then None
        else if ((1 <? length s - length t)%nat && bool_decide (head s = Some 48))%bool then None
        else cons n <$> parseIPv4_loop k false t
      end
    end
  end.

Definition parseIPv4 (s : list Z) : option (list Z) :=
  match parseIPv4_loop 4 true s with Some ip => Some (v4InV6Prefix ++ ip) | None => None end.

(** The bytes of a group. *)
Definition group_bytes (g : Z) : list Z := [g / 256; g mod 256].

(** The loop of parseIPv6: [k] groups to go, [ip] the bytes so far, [ellipsis] where :: was. *)
Fixpoint parseIPv6_loop (k : nat) (ip : list Z) (ellipsis : option nat) (s : list Z)
    : option (list Z * option nat * list Z) :=
  match k with
  | O => Some (ip, ellipsis, s)
  | S k =>
    match xtoi s with
    | None => None
    | Some (n, t) =>
      if 65535 <? n then None
      else match t with
      | [] => Some (ip ++ group_bytes n, ellipsis, [])
      | c :: t =>
        if c =? 46 then
          if ((negb (bool_decide (is_Some ellipsis)) && negb (length ip =? 12)%nat) || (16 <? length ip + 4)%nat)%bool then None
          else match parseIPv4_loop 4 true s with
          | None => None
          | Some ip4 => Some (ip ++ ip4, ellipsis, [])
          end
        else
        let ip := ip ++ group_bytes n in
        if negb (c =? 58) then None
        else match t with
        | [] => None
        | c2 :: t2 =>
          if c2 =? 58 then
            if bool_decide (is_Some ellipsis) then None
            else if decide (t2 = []) then Some (ip, Some (length ip), [])
            else parseIPv6_loop k ip (Some (length ip)) t2
          else parseIPv6_loop k ip ellipsis t
        end
      end
    end
  end.

(** What parseIPv6 does with the bytes it has read. *)
Definition expand (ip : list Z) (ellipsis : option nat) (rest : list Z) : option (list Z) :=
  if decide (rest = []) then
    if (length ip <? 16)%nat then
      match ellipsis with
      | None => None
      | Some e => Some (take e ip ++ replicate (16 - length ip) 0 ++ drop e ip)
      end
    else match ellipsis with Some _ => None | None => Some ip end
  else None.

Definition parseIPv6 (s : list Z) : option (list Z) :=
  if HasPrefix s [58; 58] then
    if decide (drop 2 s = []) then Some (replicate 16 0)
    else match parseIPv6_loop 8 [] (Some 0%nat) (drop 2 s) with
         | Some (ip, e, rest) => expand ip e rest
         | None => None
         end
  else
    match parseIPv6_loop 8 [] None s with
    | Some (ip, e, rest) => expand ip e rest
    | None => None
    end.

(** The first . or : decides. *)
Fixpoint ip_kind (s : list Z) : option bool :=
  match s with
  | [] => None
  | c :: s => if c =? 46 then Some true else if c =? 58 then Some false else ip_kind s
  end.

Definition ParseIP (s : list Z) : option (list Z) :=
  match ip_kind s with
  | Some true => parseIPv4 s
  | Some false => parseIPv6 s
  | None => None
  end.

(** ** Printing *)

Definition hex_char (d : Z) : Z := if d <? 10 then 48 + d else 87 + d.

(** appendHex of a group: no leading zeros. *)
Definition hex_group (g : Z) : list Z :=
  if 4096 <=? g then [hex_char (g / 4096); hex_char (g / 256 mod 16); hex_char (g / 16 mod 16); hex_char (g mod 16)]
  else if 256 <=? g then [hex_char (g / 256); hex_char (g / 16 mod 16); hex_char (g mod 16)]
  else if 16 <=? g then [hex_char (g / 16); hex_char (g mod 16)]
  else [hex_char g].

Definition dotted (ip : list Z) : list Z := Join 46 (format_uint <$> ip).

(** The groups of sixteen bytes. *)
Fixpoint groups (ip : list Z) : list Z :=
  match ip with
  | a :: b :: ip => (a * 256 + b) :: groups ip
  | _ => []
  end.

(** The number of leading zero groups. *)
Fixpoint zero_run (gs : list Z) : nat :=
  match gs with
  | g :: gs => if g =? 0 then S (zero_run gs) else 0%nat
  | [] => 0%nat
  end.

(** The first of the longest runs of zero groups from position [i] on: [fuel] positions to
    look at, [e0 .. e1) the best run so far.  After a longer run the search goes on behind
    the group that ends it. *)
Fixpoint longest_run (fuel : nat) (i : nat) (gs : list Z) (e0 e1 : nat) : nat * nat :=
  match fuel with
  | O => (e0, e1)
  | S fuel =>
    match gs with
    | [] => (e0, e1)
    | _ :: t =>
      let z := zero_run gs in
      if (e1 - e0 <? z)%nat then longest_run fuel (i + z + 1) (drop (z + 1) gs) i (i + z)
      else longest_run fuel (i + 1) t e0 e1
    end
  end.

Definition print_groups (gs : list Z) : list Z :=
  let '(e0, e1) := longest_run 8 0 gs 0 0 in
  if (e1 - e0 <=? 1)%nat then Join 58 (hex_group <$> gs)
  else Join 58 (hex_group <$> take e0 gs) ++ [58; 58] ++ Join 58 (hex_group <$> drop e1 gs).

(** IP.String *)
Definition IP_String (ip : list Z) : list Z :=
  if decide (ip = []) then str "<nil>"
  else if decide (To4 ip <> []) then dotted (To4 ip)
  else if negb (length ip =? 16)%nat then 63 :: concat ((fun b => [hex_char (b / 16); hex_char (b mod 16)]) <$> ip)
  else print_groups (groups ip).

Example ip_string_1 : IP_String [32; 1; 13; 184; 0; 0; 0; 0; 0; 0; 0; 0; 0; 0; 0; 1] = str "2001:db8::1".
Proof. reflexivity. Qed.
Example ip_string_2 : ParseIP (str "FE80::1:0:0:2") = Some [254; 128; 0; 0; 0; 0; 0; 0; 0; 1; 0; 0; 0; 0; 0; 2].
Proof. reflexivity. Qed.
Example ip_string_3 : IP_String (replicate 16 0) = str "::" /\ ParseIP (str "::") = Some (replicate 16 0).
Proof. split; reflexivity. Qed.
Example ip_string_4 : ParseIP (str "224.2.17.012") = None /\ ParseIP (str "::ffff:224.2.17.12") = ParseIP (str "224.2.17.12").
Proof. split; reflexivity. Qed.

(** ** Round trip *)

(** A text of groups that parseIPv6 reads: lower or upper case. *)
Record hex_text (hx : Z -> list Z) : Prop := {
  hx_reads : forall g rest, 0 <= g < 65536 -> (forall c t, rest = c :: t -> hex_digit c = None) ->
    xtoi (hx g ++ rest) = Some (g, rest);
  hx_chars : forall g, 0 <= g < 65536 -> exists c t, hx g = c :: t /\ Forall (fun c => c <> 46 /\ c <> 58) (c :: t)
}.

Lemma hex_digit_char d : 0 <= d < 16 -> hex_digit (hex_char d) = Some d /\ hex_digit (upper_byte (hex_char d)) = Some d.
Proof.
  intros H. assert (d = 0 \/ d = 1 \/ d = 2 \/ d = 3 \/ d = 4 \/ d = 5 \/ d = 6 \/ d = 7 \/ d = 8 \/ d = 9 \/ d = 10 \/
    d = 11 \/ d = 12 \/ d = 13 \/ d = 14 \/ d = 15) as Hd by lia.
  by destruct_or! Hd; subst d.
Qed.

Lemma hex_digit_not c d : hex_digit c = Some d -> c <> 46 /\ c <> 58.
Proof. unfold hex_digit, is_digit. intros H. repeat case_match; lia || done. Qed.

(** The digits of a group, most significant first. *)
Definition hex_digits (g : Z) : list Z :=
  if 4096 <=? g then [g / 4096; g / 256 mod 16; g / 16 mod 16; g mod 16]
  else if 256 <=? g then [g / 256; g / 16 mod 16; g mod 16]
  else if 16 <=? g then [g / 16; g mod 16]
  else [g].

Lemma hex_digits_spec g : 0 <= g < 65536 ->
  Forall (fun d => 0 <= d < 16) (hex_digits g) /\ (1 <= length (hex_digits g) <= 4)%nat /\
  foldl (fun n d => n * 16 + d) 0 (hex_digits g) = g.
Proof.
  intros H. unfold hex_digits.
  pose proof (Z.mod_pos_bound g 16 ltac:(lia)). pose proof (Z.mod_pos_bound (g / 16) 16 ltac:(lia)).
  pose proof (Z.mod_pos_bound (g / 256) 16 ltac:(lia)).
  pose proof (Z.div_mod g 16 ltac:(lia)). pose proof (Z.div_mod (g / 16) 16 ltac:(lia)) as E2.
  pose proof (Z.div_mod (g / 256) 16 ltac:(lia)) as E3. rewrite Z.div_div in E2, E3 by lia.
  change (16 * 16) with 256 in E2. change (256 * 16) with 4096 in E3.
  destruct (4096 <=? g) eqn:?; [|destruct (256 <=? g) eqn:?; [|destruct (16 <=? g) eqn:?]];
    (split; [repeat constructor; lia|]; cbn [length foldl]; lia).
Qed.

Lemma hex_group_digits g : hex_group g = hex_char <$> hex_digits g.
Proof. unfold hex_group, hex_digits. by repeat case_match. Qed.

Lemma xtoi_digits (f : Z -> Z) ds n rest :
  (forall d, 0 <= d < 16 -> hex_digit (f d) = Some d) -> Forall (fun d => 0 <= d < 16) ds ->
  0 <= n -> (n + 1) * 16 ^ Z.of_nat (length ds) < 16777216 -> (forall c t, rest = c :: t -> hex_digit c = None) ->
  xtoi_loop n ((f <$> ds) ++ rest) = Some (foldl (fun n d => n * 16 + d) n ds, rest).
Proof.
  intros Hf Hds Hn Hb Hr. revert n Hn Hb. induction ds as [|d ds IH]; intros n Hn Hb.
  - cbn. destruct rest as [|c t]; [done|]. cbn. by rewrite (Hr c t).
  - apply Forall_cons in Hds as [Hd Hds]. rewrite length_cons, Nat2Z.inj_succ, Z.pow_succ_r in Hb by lia.
    cbn [fmap list_fmap app xtoi_loop foldl]. rewrite Hf by done.
    assert (1 <= 16 ^ Z.of_nat (length ds)) by (apply (Z.pow_le_mono_r 16 0); lia).
    destruct (16777215 <=? n * 16 + d) eqn:E; [nia|]. apply IH; [done|lia|nia].
Qed.

Lemma hex_text_of (f : Z -> Z) (hx : Z -> list Z) :
  (forall d, 0 <= d < 16 -> hex_digit (f d) = Some d) -> (forall g, hx g = f <$> hex_digits g) -> hex_text hx.
Proof.
  intros Hf Hx. split.
  - intros g rest Hg Hr. rewrite Hx. destruct (hex_digits_spec g Hg) as (F & L & V).
    rewrite <- V at 2. rewrite <- (xtoi_digits f (hex_digits g) 0 rest Hf F); [|lia| |done].
    + destruct (hex_digits g) as [|d ds]; [cbn in L; lia|]. apply Forall_cons in F as [Hd _]. cbn. by rewrite Hf.
    + assert (16 ^ Z.of_nat (length (hex_digits g)) <= 16 ^ 4) by (apply Z.pow_le_mono_r; lia). lia.
  - intros g Hg. rewrite Hx. destruct (hex_digits_spec g Hg) as (F & L & _).
    destruct (hex_digits g) as [|d ds]; [cbn in L; lia|]. exists (f d), (f <$> ds). split; [done|].
    change (f d :: (f <$> ds)) with (f <$> d :: ds). apply Forall_fmap. eapply Forall_impl; [exact F|].
    intros x Hd. cbn. eapply hex_digit_not. by apply Hf.
Qed.

Lemma hex_group_text : hex_text hex_group.
Proof. apply (hex_text_of hex_char); [intros d Hd; by apply hex_digit_char|apply hex_group_digits]. Qed.

Lemma hex_group_upper : hex_text (fun g => upper_byte <$> hex_group g).
Proof.
  apply (hex_text_of (fun d => upper_byte (hex_char d))); [intros d Hd; by apply hex_digit_char|].
  intros g. by rewrite hex_group_digits, <- list_fmap_compose.
Qed.

Section ipv6.
Context (hx : Z -> list Z) (H : hex_text hx).

Definition groups_ok (gs : list Z) : Prop := Forall (fun g => 0 <= g < 65536) gs.
Definition groups_bytes (gs : list Z) : list Z := concat (group_bytes <$> gs).
Definition text (gs : list Z) : list Z := Join 58 (hx <$> gs).

Lemma length_groups_bytes gs : length (groups_bytes gs) = (2 * length gs)%nat.
Proof. induction gs as [|g gs IH]; [done|]. cbn [groups_bytes fmap list_fmap concat group_bytes app length] in *. unfold groups_bytes in IH. lia. Qed.

(** One group in front of a colon and something else. *)
Lemma loop_group k ip e g c s :
  0 <= g < 65536 -> c <> 58 ->
  parseIPv6_loop (S k) ip e (hx g ++ 58 :: c :: s) = parseIPv6_loop k (ip ++ group_bytes g) e (c :: s).
Proof.
  intros Hg Hc. cbn [parseIPv6_loop]. rewrite (hx_reads _ H) by (done || by intros ? ? [= <- _]).
  rewrite (proj2 (Z.ltb_ge 65535 g)) by lia. by rewrite (proj2 (Z.eqb_neq c 58)).
Qed.

Lemma text_head gs : gs <> [] -> groups_ok gs -> exists c s, text gs = c :: s /\ c <> 58 /\ c <> 46.
Proof.
  destruct gs as [|g gs]; [done|]. intros _ F. apply Forall_cons in F as [Hg _].
  destruct (hx_chars _ H g Hg) as (c & t & E & F). apply Forall_cons in F as [[Hc1 Hc2] _].
  unfold text. destruct gs as [|g2 gs]; cbn [fmap list_fmap Join]; rewrite E; exists c; eexists; by split_and!.
Qed.

Lemma text_cons g gs : gs <> [] -> text (g :: gs) = hx g ++ 58 :: text gs.
Proof. by destruct gs. Qed.

(** Groups up to the end. *)
Lemma loop_text k ip e gs :
  gs <> [] -> groups_ok gs -> (length gs <= k)%nat ->
  parseIPv6_loop k ip e (text gs) = Some (ip ++ groups_bytes gs, e, []).
Proof.
  revert k ip. induction gs as [|g gs IH]; [done|]. intros [|k] ip _ F Hk; [cbn in Hk; lia|].
  apply Forall_cons in F as [Hg F]. destruct (decide (gs = [])) as [->|Hne].
  - cbn [text fmap list_fmap Join]. cbn [parseIPv6_loop]. rewrite <- (app_nil_r (hx g)), (hx_reads _ H) by done.
    rewrite (proj2 (Z.ltb_ge 65535 g)) by lia. done.
  - rewrite text_cons by done. destruct (text_head gs Hne F) as (c & s & E & Hc & _). rewrite E, loop_group, <- E, IH by (done || cbn in Hk; lia).
    by rewrite <- app_assoc.
Qed.

(** Groups up to the ellipsis. *)
Lemma loop_ellipsis k ip gs s :
  gs <> [] -> groups_ok gs -> (length gs <= k)%nat ->
  parseIPv6_loop k ip None (text gs ++ 58 :: 58 :: s) =
    let ip := ip ++ groups_bytes gs in
    if decide (s = []) then Some (ip, Some (length ip), [])
    else parseIPv6_loop (k - length gs) ip (Some (length ip)) s.
Proof.
  revert k ip. induction gs as [|g gs IH]; [done|]. intros [|k] ip _ F Hk; [cbn in Hk; lia|].
  apply Forall_cons in F as [Hg F]. destruct (decide (gs = [])) as [->|Hne].
  - cbn [text fmap list_fmap Join]. cbn [parseIPv6_loop]. rewrite (hx_reads _ H) by (done || by intros ? ? [= <- _]).
    rewrite (proj2 (Z.ltb_ge 65535 g)) by lia. cbn. by rewrite Nat.sub_0_r.
  - rewrite text_cons, <- app_assoc by done. destruct (text_head gs Hne F) as (c & t & E & Hc & _).
    cbn [app]. rewrite E. cbn [app]. rewrite loop_group by done. rewrite app_comm_cons, <- E, IH by (done || cbn in Hk; lia).
    cbn [groups_bytes]. cbn zeta. rewrite <- app_assoc. done.
Qed.

Lemma no_prefix c s : c <> 58 -> HasPrefix (c :: s) [58; 58] = false.
Proof. intros Hc. cbn [HasPrefix]. by rewrite (proj2 (Z.eqb_neq 58 c)) by lia. Qed.

(** The three shapes of the text. *)
Lemma parse_full gs : groups_ok gs -> length gs = 8%nat -> parseIPv6 (text gs) = Some (groups_bytes gs).
Proof.
  intros F L. assert (gs <> []) as Hne by (by intros ->). destruct (text_head gs Hne F) as (c & s & E & Hc & _).
  unfold parseIPv6. rewrite E, no_prefix, <- E by done. rewrite loop_text by (done || lia). cbn [app]. unfold expand.
  rewrite decide_True by done. rewrite length_groups_bytes, L. done.
Qed.

Lemma expand_groups l r :
  (length l + length r <= 7)%nat ->
  expand (groups_bytes l ++ groups_bytes r) (Some (length (groups_bytes l))) [] =
    Some (groups_bytes l ++ replicate (2 * (8 - length l - length r)) 0 ++ groups_bytes r).
Proof.
  intros L. unfold expand. rewrite decide_True by done. rewrite length_app, !length_groups_bytes.
  rewrite (proj2 (Nat.ltb_lt _ _)) by lia. rewrite <- length_groups_bytes, take_app_length, drop_app_length.
  do 3 f_equal. rewrite length_groups_bytes. f_equal. lia.
Qed.

Lemma parse_ellipsis l r :
  groups_ok l -> groups_ok r -> (length l + length r <= 7)%nat ->
  parseIPv6 (text l ++ 58 :: 58 :: text r) =
    Some (groups_bytes l ++ replicate (2 * (8 - length l - length r)) 0 ++ groups_bytes r).
Proof.
  intros Fl Fr L. unfold parseIPv6. destruct (decide (l = [])) as [->|Hl].
  - change (text [] ++ 58 :: 58 :: text r) with (58 :: 58 :: text r). cbn [HasPrefix Z.eqb Pos.eqb andb drop].
    replace (HasPrefix (text r) []) with true by (by destruct (text r)). rewrite !drop_0.
    destruct (decide (r = [])) as [->|Hr]; [done|].
    destruct (text_head r Hr Fr) as (c & s & E & _). rewrite decide_False by (by rewrite E).
    rewrite loop_text by (done || cbn in L; lia). apply (expand_groups [] r L).
  - destruct (text_head l Hl Fl) as (c & s & E & Hc & _). rewrite E. cbn [app]. rewrite no_prefix by done.
    rewrite app_comm_cons, <- E, loop_ellipsis by (done || lia). cbn zeta. cbn [app].
    destruct (decide (r = [])) as [->|Hr].
    + change (text []) with (@nil Z). rewrite decide_True by done. rewrite <- (app_nil_r (groups_bytes l)) at 1.
      apply (expand_groups l [] L).
    + destruct (text_head r Hr Fr) as (c2 & s2 & E2 & _). rewrite decide_False by (by rewrite E2).
      rewrite loop_text by (done || lia). by apply expand_groups.
Qed.
End ipv6.

(** Bytes and groups. *)
Lemma groups_bytes_groups ip :
  bytes_ok ip -> Nat.even (length ip) = true -> groups_ok (groups ip) /\ groups_bytes (groups ip) = ip /\ (2 * length (groups ip) = length ip)%nat.
Proof.
  remember (length ip) as n eqn:Hn. revert ip Hn. induction n as [n IH] using lt_wf_ind. intros [|a [|b ip]] -> Hb He; [by split_and!; [constructor|..]|done|].
  apply bytes_ok_cons in Hb as [Ha Hb]. apply bytes_ok_cons in Hb as [Hb Hip].
  destruct (IH (length ip) ltac:(cbn; lia) ip eq_refl Hip He) as (F & E & L). cbn [groups].
  split_and!; [constructor; [lia|done]| |cbn [length]; lia].
  unfold groups_bytes, group_bytes in *. cbn [fmap list_fmap concat app]. rewrite E.
  rewrite Z.div_add_l, Z.div_small by lia. replace ((a * 256 + b) mod 256) with b by (rewrite Z.add_comm, Z.mod_add, Z.mod_small; lia).
  f_equal. lia.
Qed.

Lemma groups_bytes_zero k : groups_bytes (replicate k 0) = replicate (2 * k) 0.
Proof. induction k as [|k IH]; [done|]. replace (2 * S k)%nat with (S (S (2 * k))) by lia. cbn [replicate]. rewrite <- IH. done. Qed.

Lemma groups_bytes_app l r : groups_bytes (l ++ r) = groups_bytes l ++ groups_bytes r.
Proof. unfold groups_bytes. by rewrite fmap_app, concat_app. Qed.

Lemma zero_run_spec gs : take (zero_run gs) gs = replicate (zero_run gs) 0 /\ (zero_run gs <= length gs)%nat.
Proof.
  induction gs as [|g gs [IH1 IH2]]; [done|]. cbn [zero_run]. destruct (g =? 0) eqn:E; [|split; [done|lia]].
  apply Z.eqb_eq in E as ->. cbn [take replicate length]. rewrite IH1. split; [done|lia].
Qed.

(** The run that is printed as :: consists of zeros. *)
Lemma longest_run_spec fuel i all e0 e1 :
  take (e1 - e0) (drop e0 all) = replicate (e1 - e0) 0 -> (e0 <= e1 <= length all)%nat ->
  let '(e0, e1) := longest_run fuel i (drop i all) e0 e1 in
  take (e1 - e0) (drop e0 all) = replicate (e1 - e0) 0 /\ (e0 <= e1 <= length all)%nat.
Proof.
  revert i e0 e1. induction fuel as [|fuel IH]; intros i e0 e1 Hz He; [done|].
  cbn [longest_run]. destruct (drop i all) as [|g t] eqn:D; [done|]. rewrite <- D.
  destruct (zero_run_spec (drop i all)) as [Hr Hl]. assert (i < length all)%nat as Hi.
  { apply Nat.lt_nge. intros Hge. by rewrite drop_ge in D. }
  rewrite length_drop in Hl. destruct (_ <? zero_run _)%nat.
  - rewrite drop_drop. replace (i + (zero_run (drop i all) + 1))%nat with (i + zero_run (drop i all) + 1)%nat by lia.
    apply IH; [|lia]. by replace (i + zero_run (drop i all) - i)%nat with (zero_run (drop i all)) by lia.
  - replace t with (drop (i + 1) all); [by apply IH|]. rewrite <- drop_drop, D. done.
Qed.

Lemma print_groups_parse hx gs :
  hex_text hx -> groups_ok gs -> length gs = 8%nat ->
  let '(e0, e1) := longest_run 8 0 gs 0 0 in
  parseIPv6 (if (e1 - e0 <=? 1)%nat then text hx gs else text hx (take e0 gs) ++ [58; 58] ++ text hx (drop e1 gs)) =
    Some (groups_bytes gs).
Proof.
  intros H F L. pose proof (longest_run_spec 8 0 gs 0 0 eq_refl ltac:(lia)) as R. rewrite drop_0 in R.
  destruct (longest_run 8 0 gs 0 0) as [e0 e1]. destruct R as [Hz He].
  destruct (e1 - e0 <=? 1)%nat eqn:E; [by apply parse_full|]. apply Nat.leb_gt in E.
  assert (gs = take e0 gs ++ replicate (e1 - e0) 0 ++ drop e1 gs) as G.
  { rewrite <- Hz. replace e1 with (e0 + (e1 - e0))%nat at 2 by lia. rewrite <- drop_drop, take_drop. symmetry. apply take_drop. }
  change ([58; 58] ++ text hx (drop e1 gs)) with (58 :: 58 :: text hx (drop e1 gs)).
  rewrite (parse_ellipsis hx H); [|by apply Forall_take|by apply Forall_drop|rewrite length_take, length_drop; lia].
  f_equal. transitivity (groups_bytes (take e0 gs ++ replicate (e1 - e0) 0 ++ drop e1 gs)); [|by rewrite <- G].
  rewrite !groups_bytes_app, groups_bytes_zero, length_take, length_drop. do 3 f_equal. lia.
Qed.

(** IPv4. *)
Definition byte_text (n : Z) (s : list Z) : bool :=
  match s with
  | [a] => is_digit a && (n =? a - 48)
  | [a; b] => is_digit a && is_digit b && negb (a =? 48) && (n =? (a - 48) * 10 + (b - 48))
  | [a; b; c] => is_digit a && is_digit b && is_digit c && negb (a =? 48) && (n =? ((a - 48) * 10 + (b - 48)) * 10 + (c - 48))
  | _ => false
  end.

Lemma format_byte n : 0 <= n < 256 -> byte_text n (format_uint n) = true.
Proof.
  intros H. assert (forallb (fun k => byte_text (Z.of_nat k) (format_uint (Z.of_nat k))) (seq 0 256) = true) as F by (by vm_compute).
  rewrite forallb_forall in F. rewrite <- (Z2Nat.id n) by lia. apply F. apply in_seq. lia.
Qed.

Lemma dtoi_byte n s rest :
  0 <= n < 256 -> byte_text n s = true -> (forall c t, rest = c :: t -> is_digit c = false) ->
  dtoi (s ++ rest) = Some (n, rest) /\
  ((1 <? length (s ++ rest) - length rest)%nat && bool_decide (head (s ++ rest) = Some 48))%bool = false.
Proof.
  intros Hn Hs Hr. assert (forall k, dtoi_loop k rest = Some (k, rest)) as K.
  { intros k. destruct rest as [|c t]; [done|]. cbn. by rewrite (Hr c t). }
  rewrite length_app. replace (length s + length rest - length rest)%nat with (length s) by lia.
  unfold byte_text in Hs. destruct s as [|a [|b [|c [|? ?]]]]; try done; cbn [app dtoi dtoi_loop length head].
  - apply andb_true_iff in Hs as [Ha E]. rewrite Ha. rewrite (proj2 (Z.leb_gt _ _)), K by lia. split; [do 2 f_equal; lia|done].
  - apply andb_true_iff in Hs as [Hs E]. apply andb_true_iff in Hs as [Hs H0]. apply andb_true_iff in Hs as [Ha Hb]. rewrite Ha, Hb.
    unfold is_digit in *. do 2 (rewrite (proj2 (Z.leb_gt _ _)) by lia). rewrite K. split; [do 2 f_equal; lia|].
    rewrite bool_decide_eq_false_2; [done|]. intros [= ->]. done.
  - apply andb_true_iff in Hs as [Hs E]. apply andb_true_iff in Hs as [Hs H0]. apply andb_true_iff in Hs as [Hs Hc].
    apply andb_true_iff in Hs as [Ha Hb]. rewrite Ha, Hb, Hc.
    unfold is_digit in *. do 3 (rewrite (proj2 (Z.leb_gt _ _)) by lia). rewrite K. split; [do 2 f_equal; lia|].
    rewrite bool_decide_eq_false_2; [done|]. intros [= ->]. done.
Qed.

Lemma parseIPv4_dotted ip : bytes_ok ip -> length ip = 4%nat -> parseIPv4_loop 4 true (dotted ip) = Some ip.
Proof.
  intros Hb L. destruct ip as [|a [|b [|c [|d [|? ?]]]]]; try done. rewrite !bytes_ok_cons in Hb. destruct Hb as (Ha & Hb & Hc & Hd & _).
  unfold dotted. cbn [fmap list_fmap Join].
  assert (forall c (t : list Z) x y, 46 :: t = x :: y -> is_digit x = false) as Hdot by (by intros ? ? ? ? [= <- _]).
  pose proof (fun rest => dtoi_byte a _ rest Ha (format_byte a Ha)) as Da. pose proof (fun rest => dtoi_byte b _ rest Hb (format_byte b Hb)) as Db.
  pose proof (fun rest => dtoi_byte c _ rest Hc (format_byte c Hc)) as Dc. pose proof (dtoi_byte d _ [] Hd (format_byte d Hd)) as Dd.
  cbn [parseIPv4_loop]. destruct (Da (46 :: format_uint b ++ 46 :: format_uint c ++ 46 :: format_uint d)) as [-> ->]; [by apply Hdot|].
  rewrite (proj2 (Z.ltb_ge 255 a)) by lia. cbn [Z.eqb Pos.eqb].
  destruct (Db (46 :: format_uint c ++ 46 :: format_uint d)) as [-> ->]; [by apply Hdot|]. rewrite (proj2 (Z.ltb_ge 255 b)) by lia.
  cbn [Z.eqb Pos.eqb].
  destruct (Dc (46 :: format_uint d)) as [-> ->]; [by apply Hdot|]. rewrite (proj2 (Z.ltb_ge 255 c)) by lia. cbn [Z.eqb Pos.eqb].
  rewrite <- (app_nil_r (format_uint d)). destruct Dd as [-> ->]; [done|]. rewrite (proj2 (Z.ltb_ge 255 d)) by lia. done.
Qed.

Lemma ip_kind_app s c t : Forall (fun c => c <> 46 /\ c <> 58) s -> ip_kind (s ++ c :: t) = ip_kind (c :: t).
Proof.
  induction s as [|b s IH]; [done|]. intros F. apply Forall_cons in F as [[Hb1 Hb2] F]. cbn [app ip_kind] in *.
  rewrite (proj2 (Z.eqb_neq b 46)), (proj2 (Z.eqb_neq b 58)) by done. by apply IH.
Qed.

Lemma format_uint_upper n : 0 <= n -> upper_byte <$> format_uint n = format_uint n.
Proof.
  intros H. pose proof (format_uint_digits n H) as F. induction F as [|c s Hc F IH]; [done|].
  cbn [fmap list_fmap]. rewrite IH. f_equal. unfold upper_byte. by destruct (_ && _) eqn:?; [lia|].
Qed.

Lemma Join_fmap (f : Z -> Z) c (ws : list (list Z)) : f c = c -> f <$> Join c ws = Join c ((fun w : list Z => f <$> w) <$> ws).
Proof.
  intros Hc. induction ws as [|w [|w2 ws] IH]; [done..|]. cbn [Join fmap list_fmap] in *. rewrite fmap_app. cbn [fmap list_fmap].
  by rewrite Hc, IH.
Qed.

Lemma dotted_upper ip : bytes_ok ip -> upper_byte <$> dotted ip = dotted ip.
Proof.
  intros Hb. unfold dotted. rewrite Join_fmap, <- list_fmap_compose by done. f_equal.
  apply list_fmap_ext. intros i x Hx. apply format_uint_upper. eapply Forall_lookup_1 in Hb; [|exact Hx]. lia.
Qed.

Lemma ParseIP_dotted ip : bytes_ok ip -> length ip = 4%nat -> ParseIP (dotted ip) = Some (v4InV6Prefix ++ ip).
Proof.
  intros Hb L. unfold ParseIP. replace (ip_kind (dotted ip)) with (Some true).
  { unfold parseIPv4. by rewrite parseIPv4_dotted. }
  destruct ip as [|a [|b ip]]; try done. apply bytes_ok_cons in Hb as [Ha _].
  change (dotted (a :: b :: ip)) with (format_uint a ++ 46 :: dotted (b :: ip)). rewrite ip_kind_app; [done|].
  eapply Forall_impl; [apply format_uint_digits; lia|]. cbn. lia.
Qed.

Lemma ParseIP_groups (f : Z -> Z) ip :
  hex_text (fun g => f <$> hex_group g) -> f 58 = 58 -> bytes_ok ip -> length ip = 16%nat ->
  ParseIP (f <$> print_groups (groups ip)) = Some ip.
Proof.
  intros H Hf Hb L. destruct (groups_bytes_groups ip Hb) as (F & E & Lg); [by rewrite L|]. rewrite <- E at 2.
  assert (length (groups ip) = 8%nat) as L8 by lia. clear E Lg L Hb. revert F L8. generalize (groups ip). intros gs F L8.
  pose proof (print_groups_parse _ gs H F L8) as P. unfold print_groups.
  set (hx := fun g => f <$> hex_group g) in *.
  assert (forall l, f <$> Join 58 (hex_group <$> l) = text hx l) as T by (intros l; rewrite Join_fmap, <- list_fmap_compose by done; done).
  assert (forall l t, l <> [] -> groups_ok l -> ip_kind (text hx l ++ 58 :: t) = Some false) as K.
  { intros l t Hl Fl. revert Hl. induction Fl as [|g l Hg Fl IH]; [done|]. intros _.
    destruct (hx_chars _ H g Hg) as (c & s & Es & Fs). rewrite <- Es in Fs.
    destruct (decide (l = [])) as [->|Hne]; [unfold text; cbn [fmap list_fmap Join]; by rewrite ip_kind_app|].
    rewrite text_cons, <- app_assoc by done. cbn [app]. by rewrite ip_kind_app. }
  destruct (longest_run 8 0 gs 0 0) as [e0 e1]. unfold ParseIP. destruct (e1 - e0 <=? 1)%nat.
  - rewrite T. destruct gs as [|g [|g2 gs]]; try done. replace (ip_kind _) with (Some false); [done|].
    rewrite text_cons by done. apply Forall_cons in F as [Hg _]. destruct (hx_chars _ H g Hg) as (c & s & Es & Fs). rewrite <- Es in Fs.
    by rewrite ip_kind_app.
  - rewrite !fmap_app. cbn [fmap list_fmap]. rewrite Hf, !T. cbn [app] in P |- *. replace (ip_kind _) with (Some false); [done|].
    destruct (decide (take e0 gs = [])) as [->|Hne]; [done|]. rewrite K; [done..|by apply Forall_take].
Qed.

(** Printing an address of four or sixteen bytes, in lower or upper case, and parsing it again
    gives its sixteen-byte form. *)
Lemma ParseIP_String ip :
  bytes_ok ip -> length ip = 4%nat \/ length ip = 16%nat ->
  ParseIP (IP_String ip) = Some (To16 ip) /\ ParseIP (upper_byte <$> IP_String ip) = Some (To16 ip).
Proof.
  intros Hb L. unfold IP_String. rewrite decide_False by (intros ->; by destruct L).
  unfold To4, To16. destruct (length ip =? 4)%nat eqn:E4.
  - apply Nat.eqb_eq in E4. rewrite decide_True by (by intros ->). by rewrite dotted_upper, ParseIP_dotted.
  - apply Nat.eqb_neq in E4. destruct L as [|L]; [done|]. rewrite L. cbn [Nat.eqb andb negb].
    destruct (decide (take 12 ip = v4InV6Prefix)) as [Ht|Ht].
    + rewrite bool_decide_eq_true_2 by done. assert (length (drop 12 ip) = 4%nat) as Ld by (rewrite length_drop; lia).
      rewrite decide_True by (intros E; by rewrite E in Ld). assert (bytes_ok (drop 12 ip)) as Bd by (by apply Forall_drop).
      rewrite dotted_upper, ParseIP_dotted by done. by rewrite <- Ht, take_drop.
    + rewrite bool_decide_eq_false_2 by done. rewrite decide_False by tauto.
      split; [|by apply ParseIP_groups; [apply hex_group_upper|..]].
      rewrite <- (list_fmap_id (print_groups (groups ip))).
      apply (ParseIP_groups id); [|done..]. destruct hex_group_text as [R K]. split; intros; unfold id; rewrite list_fmap_id; auto.
Qed.
