(* ===== verification/GoUrl.v ===== *)
(** * net/url.Parse, net.SplitHostPort and net.JoinHostPort

    The parts of the standard library that network/address.go stands on.  Of a URL only the scheme and
    the host are kept; everything that makes Parse fail is followed: the escapes of user, host, path and
    fragment, the port, control characters, and a colon in the first segment of a relative path. *)
From S2P Require Import Prelude Decimal GoText NetIP.
Local Open Scope Z_scope.

(** ** strings *)

(** split(s, c, cutc) of net/url *)
Definition split_first (c : Z) (cutc : bool) (s : list Z) : list Z * list Z :=
  match IndexByte c s with
  | None => (s, [])
  | Some i => (take i s, drop (if cutc then S i else i) s)
  end.

Definition LastIndexByte (c : Z) (s : list Z) : option nat :=
  match IndexByte c (rev s) with
  | None => None
  | Some i => Some (length s - 1 - i)%nat
  end.

(** strings.Index(s, "%25") *)
Fixpoint index_percent25 (s : list Z) : option nat :=
  match s with
  | [] => None
  | _ :: t => if HasPrefix s [37; 50; 53] then Some 0%nat else S <$> index_percent25 t
  end.

(** strings.ToLower on ASCII *)
Definition ToLower (s : list Z) : list Z := lower_byte <$> s.

Definition is_alpha (c : Z) : bool := ((97 <=? c) && (c <=? 122)) || ((65 <=? c) && (c <=? 90)).

(** ** Escapes *)

Inductive encoding := encodePath | encodeUserPassword | encodeHost | encodeZone | encodeFragment.

Definition host_mode (mode : encoding) : bool :=
  match mode with encodeHost | encodeZone => true | _ => false end.

(** shouldEscape(c, encodeHost), the same for encodeZone *)
Definition shouldEscape_host (c : Z) : bool :=
  negb (is_alpha c || is_digit c || bool_decide (c ∈ str "!$&'()*+,;=:[]<>-_.~") || (c =? 34)).

Fixpoint unescape (mode : encoding) (s : list Z) : option (list Z) :=
  match s with
  | [] => Some []
  | c :: s =>
    if c =? 37 then
      match s with
      | a :: b :: s =>
        match hex_digit a, hex_digit b with
        | Some x, Some y =>
          let v := 16 * x + y in
          let percent := (a =? 50) && (b =? 53) in
          if (match mode with encodeHost => true | _ => false end) && (x <? 8) && negb percent then None
          else if (match mode with encodeZone => true | _ => false end) && negb percent && negb (v =? 32) && shouldEscape_host v then None
          else cons v <$> unescape mode s
        | _, _ => None
        end
      | _ => None
      end
    else if host_mode mode && (c <? 128) && shouldEscape_host c then None
    else cons c <$> unescape mode s
  end.

(** ** Parse *)

Record URL := mkURL { uScheme : list Z; uHost : list Z }.

(** getscheme, at the byte after [before]; None is the error of an empty scheme. *)
Fixpoint getscheme_loop (before rest : list Z) (rawurl : list Z) : option (list Z * list Z) :=
  match rest with
  | [] => Some ([], rawurl)
  | c :: rest =>
    if is_alpha c then getscheme_loop (before ++ [c]) rest rawurl
    else if is_digit c || (c =? 43) || (c =? 45) || (c =? 46) then
      if decide (before = []) then Some ([], rawurl) else getscheme_loop (before ++ [c]) rest rawurl
    else if c =? 58 then
      if decide (before = []) then None else Some (before, rest)
    else Some ([], rawurl)
  end.

Definition getscheme (rawurl : list Z) : option (list Z * list Z) := getscheme_loop [] rawurl rawurl.

Definition validOptionalPort (port : list Z) : bool :=
  match port with
  | [] => true
  | c :: port => (c =? 58) && forallb is_digit port
  end.

Definition parseHost (host : list Z) : option (list Z) :=
  if HasPrefix host [91] then
    match LastIndexByte 93 host with
    | None => None
    | Some i =>
      if negb (validOptionalPort (drop (S i) host)) then None
      else match index_percent25 (take i host) with
      | Some zone =>
        host1 ← unescape encodeHost (take zone host);
        host2 ← unescape encodeZone (drop zone (take i host));
        host3 ← unescape encodeHost (drop i host);
        Some (host1 ++ host2 ++ host3)
      | None => unescape encodeHost host
      end
    end
  else
    match LastIndexByte 58 host with
    | Some i => if validOptionalPort (drop i host) then unescape encodeHost host else None
    | None => unescape encodeHost host
    end.

Definition validUserinfo (s : list Z) : bool :=
  forallb (fun c => is_alpha c || is_digit c || bool_decide (c ∈ str "-._:~!$&'()*+,;=%@")) s.

(** parseAuthority: the host; the user is only checked. *)
Definition parseAuthority (authority : list Z) : option (list Z) :=
  match LastIndexByte 64 authority with
  | None => parseHost authority
  | Some i =>
    host ← parseHost (drop (S i) authority);
    let userinfo := take i authority in
    if negb (validUserinfo userinfo) then None
    else
      let '(username, password) := split_first 58 true userinfo in
      _ ← unescape encodeUserPassword username;
      _ ← unescape encodeUserPassword password;
      Some host
  end.

Definition contains_ctl (s : list Z) : bool := existsb (fun c => (c <? 32) || (c =? 127)) s.

(** parse(rawurl, false) *)
Definition parse (rawurl : list Z) : option URL :=
  if contains_ctl rawurl then None
  else if decide (rawurl = [42]) then Some (mkURL [] [])
  else
    '(scheme, rest) ← getscheme rawurl;
    let scheme := ToLower scheme in
    (* a lone trailing ? and everything after the first one are cut off alike *)
    let rest := (split_first 63 true rest).1 in
    if negb (HasPrefix rest [47]) && negb (bool_decide (scheme = [])) then Some (mkURL scheme [])
    else if negb (HasPrefix rest [47]) && bool_decide (58 ∈ (split_first 47 false rest).1) then None
    else if (negb (bool_decide (scheme = [])) || negb (HasPrefix rest [47; 47; 47])) && HasPrefix rest [47; 47] then
      let '(authority, rest) := split_first 47 false (drop 2 rest) in
      host ← parseAuthority authority;
      _ ← unescape encodePath rest;
      Some (mkURL scheme host)
    else
      _ ← unescape encodePath rest;
      Some (mkURL scheme []).

Definition Parse (rawurl : list Z) : option URL :=
  let '(u, frag) := split_first 35 true rawurl in
  url ← parse u;
  _ ← unescape encodeFragment frag;
  Some url.

(** ** Hosts and ports *)

Definition JoinHostPort (host port : list Z) : list Z :=
  match IndexByte 58 host with
  | Some _ => [91] ++ host ++ [93; 58] ++ port
  | None => host ++ [58] ++ port
  end.

Definition SplitHostPort (hostport : list Z) : option (list Z * list Z) :=
  match LastIndexByte 58 hostport with
  | None => None
  | Some i =>
    let checked (host : list Z) (j k : nat) :=
      if bool_decide (91 ∈ drop j hostport) || bool_decide (93 ∈ drop k hostport) then None
      else Some (host, drop (S i) hostport) in
    if HasPrefix hostport [91] then
      match IndexByte 93 hostport with
      | None => None
      | Some last => if (S last =? i)%nat then checked (drop 1 (take last hostport)) 1%nat (S last) else None
      end
    else
      let host := take i hostport in
      if bool_decide (58 ∈ host) then None else checked host 0%nat 0%nat
  end.

Example Parse_tcp : Parse (str "TCP://127.0.0.1:80/x?y#z") = Some (mkURL (str "tcp") (str "127.0.0.1:80")).
Proof. reflexivity. Qed.
Example Parse_relative : Parse (str "127.0.0.1:80") = None.
Proof. reflexivity. Qed.
Example Parse_no_scheme : Parse (str "//127.0.0.1:80") = Some (mkURL [] (str "127.0.0.1:80")).
Proof. reflexivity. Qed.
Example Parse_zone : Parse (str "tcp://[fe80::1%25eth0]:80") = Some (mkURL (str "tcp") (str "[fe80::1%eth0]:80")).
Proof. reflexivity. Qed.
Example Parse_user : Parse (str "tcp://me:pw@host:80") = Some (mkURL (str "tcp") (str "host:80")).
Proof. reflexivity. Qed.
Example Split_v6 : SplitHostPort (str "[::1]:80") = Some (str "::1", str "80").
Proof. reflexivity. Qed.

(** ** What is printed is parsed *)

(** A byte that stands for itself in a host. *)
Definition host_byte (c : Z) : bool :=
  (128 <=? c) || (negb (shouldEscape_host c) && negb (c =? 91) && negb (c =? 93) && (0 <=? c)).

(** A scheme in lower case. *)
Definition scheme_byte (c : Z) : bool :=
  ((97 <=? c) && (c <=? 122)) || is_digit c || (c =? 43) || (c =? 45) || (c =? 46).
Definition scheme_ok (s : list Z) : Prop :=
  match s with [] => False | c :: _ => (97 <= c <= 122) /\ Forall (fun c => scheme_byte c = true) s end.

Lemma split_first_none c b s : c ∉ s -> split_first c b s = (s, []).
Proof. intros H. unfold split_first. by rewrite (proj2 (IndexByte_None c s) H). Qed.

Lemma notin_rev (c : Z) s : c ∉ s -> c ∉ rev s.
Proof. rewrite !list_elem_of_In. by rewrite <- in_rev. Qed.

Lemma LastIndexByte_app c p s : c ∉ s -> LastIndexByte c (p ++ c :: s) = Some (length p).
Proof.
  intros H. unfold LastIndexByte. rewrite rev_app_distr. cbn [rev]. rewrite <- app_assoc. cbn [app].
  rewrite IndexByte_app by (by apply notin_rev).
  f_equal. rewrite length_app, length_rev. cbn. lia.
Qed.

Lemma LastIndexByte_none c s : c ∉ s -> LastIndexByte c s = None.
Proof.
  intros H. unfold LastIndexByte. rewrite (proj2 (IndexByte_None c (rev s))); [done|]. by apply notin_rev.
Qed.

Lemma unescape_host s : Forall (fun c => (c <? 128) && shouldEscape_host c = false) s -> unescape encodeHost s = Some s.
Proof.
  induction 1 as [|c s Hc _ IH]; [done|]. cbn [unescape host_mode]. destruct (Z.eqb_spec c 37) as [->|]; [done|].
  rewrite andb_true_l, Hc, IH. done.
Qed.

(** The bytes of a scheme, a host and a port are none of those that structure a URL. *)
Lemma host_byte_plain c : host_byte c = true -> (c <? 128) && shouldEscape_host c = false.
Proof.
  unfold host_byte. destruct (Z.leb_spec 128 c); [by rewrite (proj2 (Z.ltb_ge _ _)) by lia|].
  destruct (shouldEscape_host c); cbn; [done|]. by rewrite andb_false_r.
Qed.

Lemma host_byte_not c d :
  host_byte c = true -> In d [35; 47; 63; 64; 91; 93; 37; 32; 127] -> c <> d.
Proof. intros H Hd ->. cbn in Hd. repeat destruct Hd as [<-|Hd]; done. Qed.

Lemma host_byte_low c : host_byte c = true -> 32 < c /\ c <> 127.
Proof.
  intros H. destruct (Z.le_gt_cases c 32); [|split; [lia|by intros ->]].
  exfalso. destruct (Z.leb_spec 0 c).
  - assert (c ∈ seqZ 0 33) as Hc by (apply elem_of_seqZ; lia). clear -H Hc.
    assert (Forall (fun c => host_byte c = false) (seqZ 0 33)) as F by (repeat constructor).
    rewrite Forall_forall in F. by rewrite F in H.
  - unfold host_byte in H. rewrite (proj2 (Z.leb_gt 0 c)) in H by lia. rewrite andb_false_r, orb_false_r in H. lia.
Qed.

Lemma scheme_byte_host c : scheme_byte c = true -> host_byte c = true /\ c <> 58.
Proof.
  intros H. assert (c ∈ seqZ 0 128) as Hc.
  { apply elem_of_seqZ. unfold scheme_byte, is_digit in H. lia. }
  assert (Forall (fun c => scheme_byte c = true -> host_byte c = true /\ c <> 58) (seqZ 0 128)) as F.
  { apply (bool_decide_unpack _). vm_compute. done. }
  rewrite Forall_forall in F. by apply F.
Qed.

Lemma digit_host c : 48 <= c <= 57 -> host_byte c = true /\ c <> 58.
Proof. intros H. apply scheme_byte_host. unfold scheme_byte, is_digit. lia. Qed.

Lemma getscheme_loop_spec before s rest raw :
  Forall (fun c => scheme_byte c = true) s -> before <> [] ->
  getscheme_loop before (s ++ 58 :: rest) raw = Some (before ++ s, rest).
Proof.
  intros H. revert before. induction H as [|c s Hc _ IH]; intros before Hb; cbn [app getscheme_loop].
  - cbn. rewrite decide_False by done. by rewrite app_nil_r.
  - rewrite decide_False by done. rewrite IH by (by destruct before). rewrite <- app_assoc. cbn [app].
    destruct (is_alpha c) eqn:E; [done|]. replace (is_digit c || (c =? 43) || (c =? 45) || (c =? 46)) with true; [done|].
    unfold scheme_byte, is_alpha, is_digit in *. lia.
Qed.

Lemma getscheme_spec s rest : scheme_ok s -> getscheme (s ++ 58 :: rest) = Some (s, rest).
Proof.
  destruct s as [|c s]; [done|]. intros [Hc H]. apply Forall_cons in H as [_ H]. unfold getscheme.
  cbn [app getscheme_loop]. replace (is_alpha c) with true by (unfold is_alpha; lia).
  by rewrite getscheme_loop_spec.
Qed.

Lemma ToLower_scheme s : scheme_ok s -> ToLower s = s.
Proof.
  destruct s as [|c s]; [done|]. intros [_ H]. unfold ToLower. induction H as [|x l Hx _ IH]; [done|].
  cbn. f_equal; [|exact IH]. unfold scheme_byte, is_digit, lower_byte in *.
  destruct (Z.leb_spec 65 x), (Z.leb_spec x 90); cbn; lia.
Qed.

Lemma Forall_notin {A} (P : A -> Prop) x l : Forall P l -> ~ P x -> x ∉ l.
Proof. intros H N Hx. rewrite Forall_forall in H. by apply N, H. Qed.

Abbreviation host_bytes := (Forall (fun c => host_byte c = true)).
Abbreviation port_bytes := (Forall (fun c => 48 <= c <= 57)).

Lemma port_host port : port_bytes port -> host_bytes port.
Proof. intros H. apply (Forall_impl _ _ _ H). intros c Hc. by apply digit_host. Qed.

Lemma digits_forallb port : port_bytes port -> forallb is_digit port = true.
Proof. induction 1 as [|c l Hc _ IH]; [done|]. cbn. rewrite IH. unfold is_digit. lia. Qed.

(** The bytes of a joined host and port. *)
Definition hostport_byte (c : Z) : Prop := host_byte c = true \/ c = 91 \/ c = 93.

Lemma JoinHostPort_bytes h port : host_bytes h -> port_bytes port -> Forall hostport_byte (JoinHostPort h port).
Proof.
  intros Hh Hp. apply port_host in Hp. unfold JoinHostPort, hostport_byte.
  assert (forall l, host_bytes l -> Forall (fun c => host_byte c = true \/ c = 91 \/ c = 93) l) as W.
  { intros l H. apply (Forall_impl _ _ _ H). auto. }
  destruct (IndexByte 58 h); repeat (apply Forall_app; split); auto; repeat constructor; auto.
Qed.

Lemma hostport_byte_not c : hostport_byte c -> 32 < c /\ (c ∉ [35; 47; 63; 64; 37; 127]).
Proof.
  intros H. split; [destruct H as [H|[-> | ->]]; [by apply host_byte_low|lia..]|].
  rewrite list_elem_of_In. intros Hc. cbn in Hc. repeat destruct Hc as [<-|Hc]; try done.
  all: by destruct H as [H|[H|H]].
Qed.

Lemma HasPrefix_nil s : HasPrefix s [] = true.
Proof. by destruct s. Qed.

Lemma parseHost_join h port : host_bytes h -> port_bytes port -> parseHost (JoinHostPort h port) = Some (JoinHostPort h port).
Proof.
  intros Hh Hp. pose proof (JoinHostPort_bytes h port Hh Hp) as HB.
  assert (unescape encodeHost (JoinHostPort h port) = Some (JoinHostPort h port)) as HU.
  { apply unescape_host, (Forall_impl _ _ _ HB). intros c [Hc|[-> | ->]]; [by apply host_byte_plain|done..]. }
  assert (58 ∉ port) as N58 by (apply (Forall_notin _ _ _ Hp); lia).
  assert (93 ∉ port) as N93 by (apply (Forall_notin _ _ _ Hp); lia).
  revert HU HB. unfold parseHost, JoinHostPort. destruct (IndexByte 58 h) as [i|] eqn:E; intros HU HB.
  - change ([91] ++ h ++ [93; 58] ++ port) with (91 :: (h ++ 93 :: 58 :: port)) in *. cbn [HasPrefix].
    rewrite HasPrefix_nil. change (91 :: (h ++ 93 :: 58 :: port)) with ((91 :: h) ++ 93 :: 58 :: port) in *.
    rewrite LastIndexByte_app by (by apply not_elem_of_cons). rewrite drop_app_ge by lia.
    replace (S (length (91%Z :: h)) - length (91%Z :: h))%nat with 1%nat by lia. cbn [drop validOptionalPort].
    rewrite digits_forallb by done. cbn [Z.eqb Pos.eqb andb negb].
    replace (index_percent25 _) with (@None nat); [exact HU|]. symmetry. rewrite take_app_length.
    assert (37 ∉ 91 :: h) as N37. { apply (Forall_notin (fun c => hostport_byte c)); [|by intros [_ N]%hostport_byte_not; apply N; set_solver].
      by apply Forall_app in HB as [? _]. }
    clear -N37. induction (91 :: h) as [|c l IH]; [done|]. apply not_elem_of_cons in N37 as [N N37].
    cbn [index_percent25]. rewrite IH by done. cbn [HasPrefix]. by rewrite (proj2 (Z.eqb_neq _ _)) by congruence.
  - assert (58 ∉ h) as Nh by (by apply IndexByte_None).
    replace (HasPrefix (h ++ [58] ++ port) [91]) with false.
    2:{ destruct h as [|c h]; [done|]. apply Forall_cons in Hh as [Hc _]. cbn [app HasPrefix].
        destruct (Z.eqb_spec 91 c) as [<-|]; [done|reflexivity]. }
    change ([58] ++ port) with (58 :: port) in *. rewrite LastIndexByte_app by done. rewrite drop_app_length.
    cbn [validOptionalPort]. by rewrite digits_forallb.
Qed.

(** Parse of a printed address. *)
Lemma Parse_print proto h port :
  scheme_ok proto -> host_bytes h -> port_bytes port ->
  Parse (proto ++ str "://" ++ JoinHostPort h port) = Some (mkURL proto (JoinHostPort h port)).
Proof.
  intros Hs Hh Hp. pose proof (parseHost_join h port Hh Hp) as HJ. pose proof (JoinHostPort_bytes h port Hh Hp) as HB.
  set (hp := JoinHostPort h port) in *. clearbody hp.
  change (str "://" ++ hp) with (58 :: 47 :: 47 :: hp).
  assert (forall c, In c [35; 63; 64; 47; 127] -> c ∉ hp) as Nhp.
  { intros c Hc. apply (Forall_notin _ _ _ HB). intros [_ N]%hostport_byte_not. apply N.
    cbn in Hc. repeat destruct Hc as [<-|Hc]; set_solver. }
  assert (Forall (fun c => scheme_byte c = true) proto) as Fs by (by destruct proto as [|? ?]; [done|apply Hs]).
  assert (Forall (fun c => 32 < c /\ c <> 127 /\ c <> 35) (proto ++ 58 :: 47 :: 47 :: hp)) as Fall.
  { apply Forall_app; split; [|repeat (constructor; [lia|])].
    - apply (Forall_impl _ _ _ Fs). intros c Hc. apply scheme_byte_host in Hc as [Hc _].
      pose proof (host_byte_low c Hc). split_and!; [lia|lia|]. by intros ->.
    - apply (Forall_impl _ _ _ HB). intros c [Hl N]%hostport_byte_not. set_solver. }
  unfold Parse. rewrite split_first_none.
  2:{ apply (Forall_notin _ _ _ Fall). lia. }
  unfold parse. replace (contains_ctl _) with false.
  2:{ symmetry. unfold contains_ctl. apply not_true_iff_false. rewrite existsb_exists. intros (c & Hc & Hv).
      rewrite <- list_elem_of_In in Hc. rewrite Forall_forall in Fall. specialize (Fall c Hc). lia. }
  rewrite decide_False by (destruct proto as [|c l]; [done|intros E; injection E as _ E; by destruct l]).
  rewrite getscheme_spec by done. cbn [mbind option_bind]. rewrite ToLower_scheme by done.
  rewrite (split_first_none 63 true (47 :: 47 :: hp)).
  2:{ rewrite !not_elem_of_cons. split_and!; [done..|]. apply Nhp. cbn. auto. }
  cbn [fst]. rewrite bool_decide_false by (by destruct proto).
  cbn [HasPrefix negb andb orb Z.eqb Pos.eqb drop]. rewrite HasPrefix_nil. cbn [negb andb].
  rewrite split_first_none by (apply Nhp; cbn; auto). unfold parseAuthority.
  rewrite LastIndexByte_none by (apply Nhp; cbn; auto). rewrite drop_0, HJ. reflexivity.
Qed.

Lemma drop_S_app {A} (p : list A) x s : drop (S (length p)) (p ++ x :: s) = s.
Proof. induction p; [done|]. exact IHp. Qed.

Lemma SplitHostPort_join h port :
  host_bytes h -> port_bytes port -> SplitHostPort (JoinHostPort h port) = Some (h, port).
Proof.
  intros Hh Hp.
  assert (58 ∉ port) as N58 by (apply (Forall_notin _ _ _ Hp); lia).
  assert (91 ∉ port) as N91 by (apply (Forall_notin _ _ _ Hp); lia).
  assert (93 ∉ port) as N93 by (apply (Forall_notin _ _ _ Hp); lia).
  assert (91 ∉ h) as H91 by (by apply (Forall_notin _ _ _ Hh)).
  assert (93 ∉ h) as H93 by (by apply (Forall_notin _ _ _ Hh)).
  unfold SplitHostPort, JoinHostPort. destruct (IndexByte 58 h) as [i|] eqn:E.
  - replace ([91] ++ h ++ [93; 58] ++ port) with ((91 :: h ++ [93]) ++ 58 :: port) by (cbn; by rewrite <- app_assoc).
    rewrite LastIndexByte_app by done. cbn [app HasPrefix]. rewrite HasPrefix_nil. cbn [Z.eqb Pos.eqb andb].
    change (91 :: (h ++ [93]) ++ 58 :: port) with ((91 :: h ++ [93]) ++ 58 :: port).
    replace ((91 :: h ++ [93]) ++ 58 :: port) with ((91 :: h) ++ 93 :: 58 :: port) by (cbn; by rewrite <- app_assoc).
    rewrite IndexByte_app by (by apply not_elem_of_cons).
    replace (length (91%Z :: h ++ [93%Z])) with (S (length (91%Z :: h))) by (cbn; rewrite length_app; cbn; lia).
    rewrite Nat.eqb_refl, take_app_length. cbn [drop].
    rewrite !bool_decide_false.
    2:{ rewrite drop_S_app. by apply not_elem_of_cons. }
    2:{ cbn [app drop]. rewrite drop_0, elem_of_app, !elem_of_cons. naive_solver. }
    cbn [orb]. f_equal. f_equal.
    replace ((91 :: h) ++ 93 :: 58 :: port) with ((91 :: h ++ [93]) ++ 58 :: port) by (cbn; by rewrite <- app_assoc).
    replace (S (length (91%Z :: h))) with (length (91%Z :: h ++ [93%Z])) by (cbn; rewrite length_app; cbn; lia).
    apply drop_S_app.
  - assert (58 ∉ h) as Nh by (by apply IndexByte_None).
    change ([58] ++ port) with (58 :: port). rewrite LastIndexByte_app by done.
    replace (HasPrefix (h ++ 58 :: port) [91]) with false.
    2:{ destruct h as [|c h]; [done|]. cbn [app HasPrefix]. destruct (Z.eqb_spec 91 c) as [<-|]; [set_solver|done]. }
    rewrite take_app_length, bool_decide_false by done.
    rewrite !drop_0. rewrite !bool_decide_false by (rewrite elem_of_app, !elem_of_cons; naive_solver).
    cbn [orb]. f_equal. f_equal. by rewrite drop_S_app.
Qed.
