(* ===== verification/Peer.v ===== *)
(** * peer/identity.go: node identities and the XOR metric

    [ID] is protobuf.ID (peer.ID is a defined type over it).  The hash of
    blake2b, a third-party package, is the section variable [hash]. *)
From S2P Require Import Prelude.
Local Open Scope Z_scope.

Record ID := mkID {
  NetKey : list Z;
  Address : list Z;
  Id : list Z;
  ConnectionId : list Z;
  Address2 : list Z
}.

#[global] Instance ID_eq_dec : EqDecision ID.
Proof. solve_decision. Defined.

Section create.
Variable hash : list Z -> list Z.

(** CreateID: the identity of an address and a public key. *)
Definition CreateID (address publicKey : list Z) : ID :=
  mkID publicKey address (hash publicKey) (hash (publicKey ++ address)) [].
End create.

(** Equals: identities are compared by the hash of the public key only. *)
Definition Equals (id other : ID) : bool := bool_decide (Id id = Id other).

(** Less: bytes.Compare(id.Id, other.Id) == -1. *)
Definition Less (id other : ID) : bool :=
  match bytes_compare (Id id) (Id other) with Lt => true | _ => false end.

(** hex.EncodeToString *)
Definition hex_digit (d : Z) : Z := if d <? 10 then 48 + d else 87 + d.

Definition hex_encode (l : list Z) : list Z :=
  l ≫= fun b => [hex_digit (Z.shiftr b 4); hex_digit (Z.land b 15)].

Definition PublicKeyHex (id : ID) : list Z := hex_encode (NetKey id).

(** The loop of Xor and XorID: as long as the receiver's slice, zero where the
    other slice has run out. *)
Fixpoint xor_loop (a b : list Z) : list Z :=
  match a, b with
  | [], _ => []
  | _ :: a, [] => 0 :: xor_loop a []
  | x :: a, y :: b => Z.lxor x y :: xor_loop a b
  end.

Definition Xor (id other : ID) : ID :=
  mkID (xor_loop (NetKey id) (NetKey other)) (Address id) [] [] [].

Definition XorID (id other : ID) : ID :=
  mkID [] (Address id) (xor_loop (Id id) (Id other)) [] [].

(** bits.LeadingZeros8 *)
Definition LeadingZeros8 (b : Z) : Z := if b =? 0 then 8 else 7 - Z.log2 b.

(** The loop of PrefixLen over [id.Id], [i] the index of the head of [l]. *)
Fixpoint prefix_len_loop (i : Z) (l : list Z) : option Z :=
  match l with
  | [] => None
  | b :: l => if negb (b =? 0) then Some (i * 8 + LeadingZeros8 b) else prefix_len_loop (i + 1) l
  end.

Definition PrefixLen (id : ID) : Z :=
  match prefix_len_loop 0 (Id id) with
  | Some n => n
  | None => Z.of_nat (length (Id id)) * 8 - 1
  end.

(** ** The integer an identity denotes, and the distance between two of them *)

Definition id_val (id : ID) : Z := be_val (Id id).

Definition distance (a b : ID) : Z := Z.lxor (id_val a) (id_val b).

(** A well-formed identity: its hash consists of bytes. *)
Definition wf_id (n : nat) (id : ID) : Prop := bytes_ok (Id id) /\ length (Id id) = n.

#[global] Instance wf_id_dec n id : Decision (wf_id n id).
Proof. unfold wf_id. apply _. Defined.

(** ** Lemmas on the XOR of byte strings *)

Lemma length_xor_loop a b : length (xor_loop a b) = length a.
Proof. revert b. induction a as [|x a IH]; intros [|y b]; simpl; auto. Qed.

Lemma xor_loop_bytes_ok a b : bytes_ok a -> bytes_ok b -> bytes_ok (xor_loop a b).
Proof.
  intros Ha. revert b. induction Ha as [|x a Hx Ha IH]; intros [|y b] Hb; simpl;
    [constructor..| |]; apply bytes_ok_cons.
  - split; [lia|]. apply IH. constructor.
  - apply bytes_ok_cons in Hb as [? ?]. split; [|by apply IH].
    apply (lxor_bound 8); lia.
Qed.

Lemma testbit_high k n y : 0 <= y < 2 ^ k -> 0 <= k <= n -> Z.testbit y n = false.
Proof.
  intros Hy Hk. destruct (Z.eq_dec y 0) as [->|Hne]; [apply Z.bits_0|].
  apply Z.bits_above_log2; [lia|].
  apply Z.lt_le_trans with k; [apply Z.log2_lt_pow2; lia|lia].
Qed.

Lemma testbit_shift_add k n x y :
  0 <= y < 2 ^ k -> 0 <= k -> 0 <= n ->
  Z.testbit (x * 2 ^ k + y) n = if n <? k then Z.testbit y n else Z.testbit x (n - k).
Proof.
  intros Hy Hk Hn. destruct (Z.ltb_spec n k).
  - rewrite <- (Z.mod_pow2_bits_low _ k) by lia.
    by rewrite Z.add_comm, Z_mod_plus_full, Z.mod_small.
  - replace n with (n - k + k) at 1 by lia. rewrite <- Z.div_pow2_bits by lia.
    by rewrite Z.div_add_l, Z.div_small, Z.add_0_r by lia.
Qed.

(** The XOR of [hi * 2^k + lo] with [lo < 2^k] is taken on the two parts. *)
Lemma lxor_split k a b c d :
  0 <= k -> 0 <= a < 2 ^ k -> 0 <= c < 2 ^ k ->
  Z.lxor (b * 2 ^ k + a) (d * 2 ^ k + c) = Z.lxor b d * 2 ^ k + Z.lxor a c.
Proof.
  intros Hk Ha Hc. apply Z.bits_inj'. intros n Hn.
  rewrite Z.lxor_spec, !testbit_shift_add by (try done; by apply lxor_bound).
  destruct (n <? k); by rewrite Z.lxor_spec.
Qed.

Lemma be_val_xor_loop a b :
  bytes_ok a -> bytes_ok b -> length a = length b ->
  be_val (xor_loop a b) = Z.lxor (be_val a) (be_val b).
Proof.
  intros Ha. revert b. induction Ha as [|x a Hx Ha IH]; intros [|y b] Hb Hl; simpl in *; try done.
  apply bytes_ok_cons in Hb as [Hy Hb]. injection Hl as Hl.
  rewrite !be_val_cons, length_xor_loop, IH, <- Hl by done.
  pose proof (be_val_bound a Ha). pose proof (be_val_bound b Hb) as Hbb. rewrite <- Hl in Hbb.
  replace (256 ^ Z.of_nat (length a)) with (2 ^ (8 * Z.of_nat (length a))) in *
    by (rewrite Z.pow_mul_r by lia; done).
  symmetry. apply lxor_split; lia.
Qed.

Lemma id_val_XorID n a b : wf_id n a -> wf_id n b -> id_val (XorID a b) = distance a b.
Proof. intros [Ha La] [Hb Lb]. apply be_val_xor_loop; try done. congruence. Qed.

Lemma wf_id_XorID n a b : wf_id n a -> wf_id n b -> wf_id n (XorID a b).
Proof.
  intros [Ha La] [Hb Lb]. split; simpl; [by apply xor_loop_bytes_ok|by rewrite length_xor_loop].
Qed.

Lemma id_val_bound n id : wf_id n id -> 0 <= id_val id < 2 ^ (8 * Z.of_nat n).
Proof.
  intros [H <-]. pose proof (be_val_bound _ H).
  rewrite Z.pow_mul_r by lia. done.
Qed.

(** ** PrefixLen counts the leading zero bits *)

Lemma LeadingZeros8_nonzero b : b <> 0 -> LeadingZeros8 b = 7 - Z.log2 b.
Proof. intros H. unfold LeadingZeros8. by destruct (Z.eqb_spec b 0). Qed.

Lemma log2_be_val_cons b l :
  0 < b < 256 -> bytes_ok l -> Z.log2 (be_val (b :: l)) = 8 * Z.of_nat (length l) + Z.log2 b.
Proof.
  intros Hb Hl. rewrite be_val_cons. pose proof (be_val_bound l Hl) as B.
  replace (256 ^ Z.of_nat (length l)) with (2 ^ (8 * Z.of_nat (length l))) in *
    by (rewrite Z.pow_mul_r by lia; done).
  set (k := 8 * Z.of_nat (length l)) in *.
  destruct (Z.log2_spec b) as [L1 L2]; [lia|]. pose proof (Z.log2_nonneg b).
  apply Z.log2_unique; [lia|].
  rewrite !Z.pow_succ_r, !Z.pow_add_r in * by lia. generalize dependent (2 ^ k).
  generalize dependent (2 ^ Z.log2 b). intros; split; nia.
Qed.

Lemma prefix_len_loop_spec i l :
  bytes_ok l ->
  match prefix_len_loop i l with
  | Some n => n = i * 8 + 8 * Z.of_nat (length l) - 1 - Z.log2 (be_val l)
  | None => be_val l = 0
  end.
Proof.
  intros Hl. revert i. induction Hl as [|b l Hb Hl IH]; intros i; simpl; [done|].
  destruct (Z.eqb_spec b 0) as [->|Hne]; simpl.
  - specialize (IH (i + 1)). rewrite be_val_cons, Z.mul_0_l, Z.add_0_l.
    destruct (prefix_len_loop (i + 1) l); lia.
  - rewrite LeadingZeros8_nonzero, log2_be_val_cons by (try lia; done). lia.
Qed.

Lemma PrefixLen_log2 n id :
  wf_id n id -> PrefixLen id = 8 * Z.of_nat n - 1 - Z.log2 (id_val id).
Proof.
  intros [H <-]. unfold PrefixLen, id_val. pose proof (prefix_len_loop_spec 0 (Id id) H) as S.
  destruct (prefix_len_loop 0 (Id id)); [lia|]. rewrite S. simpl. lia.
Qed.

Lemma PrefixLen_range n id : (0 < n)%nat -> wf_id n id -> 0 <= PrefixLen id < 8 * Z.of_nat n.
Proof.
  intros Hn Hid. rewrite (PrefixLen_log2 n) by done.
  pose proof (id_val_bound n id Hid). pose proof (Z.log2_nonneg (id_val id)).
  destruct (Z.eq_dec (id_val id) 0) as [E|E]; [rewrite E; simpl; lia|].
  assert (Z.log2 (id_val id) < 8 * Z.of_nat n) by (apply Z.log2_lt_pow2; lia). lia.
Qed.

(** ** The XOR metric *)

Lemma id_val_inj n a b : wf_id n a -> wf_id n b -> id_val a = id_val b -> Id a = Id b.
Proof.
  intros [Ha La] [Hb Lb] E. apply bytes_compare_eq.
  rewrite bytes_compare_be_val by congruence. by apply Z.compare_eq_iff.
Qed.

Lemma distance_nonneg n a b : wf_id n a -> wf_id n b -> 0 <= distance a b.
Proof.
  intros Ha Hb. apply Z.lxor_nonneg.
  pose proof (id_val_bound _ _ Ha). pose proof (id_val_bound _ _ Hb). lia.
Qed.

Lemma distance_zero n a b : wf_id n a -> wf_id n b -> distance a b = 0 <-> Equals a b = true.
Proof.
  intros Ha Hb. unfold distance, Equals. rewrite bool_decide_eq_true, Z.lxor_eq_0_iff. split.
  - by eapply id_val_inj.
  - unfold id_val. by intros ->.
Qed.

Lemma distance_chain a b c : distance a c = Z.lxor (distance a b) (distance b c).
Proof.
  unfold distance. by rewrite Z.lxor_assoc, <- (Z.lxor_assoc (id_val b)), Z.lxor_nilpotent, Z.lxor_0_l.
Qed.

Lemma lxor_le_add x y : 0 <= x -> 0 <= y -> Z.lxor x y <= x + y.
Proof. intros. rewrite <- Z.add_lxor_2land. assert (0 <= Z.land x y) by (apply Z.land_nonneg; lia). lia. Qed.

Lemma Less_distance n a b t :
  wf_id n a -> wf_id n b -> wf_id n t ->
  Less (XorID a t) (XorID b t) = (distance a t <? distance b t).
Proof.
  intros Ha Hb Ht. unfold Less.
  destruct (wf_id_XorID n a t Ha Ht) as [Oa La], (wf_id_XorID n b t Hb Ht) as [Ob Lb].
  rewrite bytes_compare_be_val by (try done; congruence).
  change (be_val (Id ?x)) with (id_val x).
  rewrite (id_val_XorID n a), (id_val_XorID n b) by done.
  unfold Z.ltb. by destruct (distance a t ?= distance b t).
Qed.

(** The XOR metric of the routing table: on identities of one length the distance is
    symmetric, zero exactly between identities that [Equals] identifies, obeys the triangle
    inequality, and [Less] on XORed identities compares the distances. *)
Lemma XorID_metric n a b t :
  wf_id n a -> wf_id n b -> wf_id n t ->
  id_val (XorID a t) = distance a t /\
  distance a t = distance t a /\
  (distance a t = 0 <-> Equals a t = true) /\
  distance a b <= distance a t + distance t b /\
  Less (XorID a t) (XorID b t) = (distance a t <? distance b t).
Proof.
  intros Ha Hb Ht. repeat split_and; eauto using id_val_XorID, Less_distance.
  - apply Z.lxor_comm.
  - by eapply distance_zero.
  - rewrite (distance_chain a t b). apply lxor_le_add; by eapply distance_nonneg.
Qed.

(** Bit [j] of an identity of [n] bytes, counted from the most significant one. *)
Definition id_bit (n : nat) (id : ID) (j : Z) : bool :=
  Z.testbit (id_val id) (8 * Z.of_nat n - 1 - j).

Lemma lxor_testbit_log2 x y :
  0 <= x -> 0 <= y -> x <> y ->
  Z.testbit x (Z.log2 (Z.lxor x y)) <> Z.testbit y (Z.log2 (Z.lxor x y)) /\
  forall i, Z.log2 (Z.lxor x y) < i -> Z.testbit x i = Z.testbit y i.
Proof.
  intros Hx Hy Hne. assert (0 <= Z.lxor x y) by (apply Z.lxor_nonneg; lia).
  assert (Z.lxor x y <> 0) by (rewrite Z.lxor_eq_0_iff; done). split.
  - pose proof (Z.bit_log2 (Z.lxor x y)) as B. rewrite Z.lxor_spec in B.
    intros E. rewrite E, xorb_nilpotent in B. specialize (B ltac:(lia)). done.
  - intros i Hi. pose proof (Z.bits_above_log2 (Z.lxor x y) i ltac:(lia) Hi) as B.
    rewrite Z.lxor_spec in B. by apply xorb_eq.
Qed.

(** [PrefixLen] of the XOR of two different identities is the length of their common bit
    prefix: all earlier bits agree and the bit at that position differs. *)
Lemma PrefixLen_common_prefix n a b :
  wf_id n a -> wf_id n b -> Equals a b = false ->
  let k := PrefixLen (XorID a b) in
  0 <= k < 8 * Z.of_nat n /\
  (forall j, 0 <= j < k -> id_bit n a j = id_bit n b j) /\
  id_bit n a k <> id_bit n b k.
Proof.
  intros Ha Hb Hne k.
  assert (n <> 0)%nat as Hn.
  { intros ->. destruct Ha as [_ Ea], Hb as [_ Eb]. unfold Equals in Hne.
    apply nil_length_inv in Ea, Eb. by rewrite Ea, Eb in Hne. }
  pose proof (wf_id_XorID n a b Ha Hb) as Hx.
  pose proof (PrefixLen_range n _ ltac:(lia) Hx) as Hk. split; [exact Hk|].
  assert (k = 8 * Z.of_nat n - 1 - Z.log2 (distance a b)) as Ek.
  { unfold k. rewrite (PrefixLen_log2 n), (id_val_XorID n) by done. done. }
  pose proof (id_val_bound n a Ha). pose proof (id_val_bound n b Hb).
  assert (id_val a <> id_val b) as Hv.
  { intros E. apply bool_decide_eq_false in Hne. by eapply Hne, id_val_inj. }
  destruct (lxor_testbit_log2 (id_val a) (id_val b)) as [D S]; [lia..|].
  change (Z.lxor (id_val a) (id_val b)) with (distance a b) in *.
  unfold id_bit. split.
  - intros j Hj. apply S. lia.
  - by replace (8 * Z.of_nat n - 1 - k) with (Z.log2 (distance a b)) by lia.
Qed.

Lemma log2_pos_inv x : 0 < Z.log2 x -> 0 < x.
Proof. intros H. destruct (Z.lt_ge_cases 0 x); [done|]. rewrite Z.log2_nonpos in H; lia. Qed.

(** Peers with the same prefix length to [s] as [t] are closer to [t] than all others. *)
Lemma distance_separation n s t p q :
  wf_id n s -> wf_id n t -> wf_id n p -> wf_id n q ->
  PrefixLen (XorID p s) = PrefixLen (XorID t s) ->
  PrefixLen (XorID q s) <> PrefixLen (XorID t s) ->
  distance p t < distance q t.
Proof.
  intros Hs Ht Hp Hq E D.
  rewrite !(PrefixLen_log2 n), !(id_val_XorID n) in E, D by auto using wf_id_XorID.
  rewrite (distance_chain p s t), (distance_chain q s t).
  pose proof (distance_nonneg n p s Hp Hs) as P0. pose proof (distance_nonneg n q s Hq Hs) as Q0.
  assert (distance s t = distance t s) as -> by apply Z.lxor_comm.
  pose proof (distance_nonneg n t s Ht Hs) as T0.
  revert E D P0 Q0 T0. generalize (distance p s) (distance q s) (distance t s).
  intros x y z E D X Y Z0.
  assert (Z.log2 x = Z.log2 z) as Exz by lia. assert (Z.log2 y <> Z.log2 z) as Dyz by lia.
  clear E D. pose proof (Z.log2_nonneg x). pose proof (Z.log2_nonneg y).
  pose proof (log2_pos_inv x). pose proof (log2_pos_inv y). pose proof (log2_pos_inv z).
  set (k := Z.max (Z.log2 y) (Z.log2 z)).
  assert (Z.lxor x z < 2 ^ k) as Hlt.
  { destruct (Z.eq_dec (Z.lxor x z) 0) as [->|Hne].
    { assert (0 < 2 ^ k); [apply Z.pow_pos_nonneg; lia|lia]. }
    assert (0 <= Z.lxor x z) by (apply Z.lxor_nonneg; lia).
    apply Z.log2_lt_pow2; [lia|].
    destruct (Z.lt_ge_cases (Z.log2 z) (Z.log2 y)) as [Hzy|Hzy].
    - eapply Z.le_lt_trans; [apply Z.log2_lxor; lia|]. lia.
    - pose proof (Z.log2_nonneg y). assert (k = Z.log2 z) as -> by lia.
      assert (Z.lxor x z < 2 ^ Z.log2 z); [|by apply Z.log2_lt_pow2; lia].
      apply Z.nle_gt. intros Hge.
      assert (Z.log2 (Z.lxor x z) = Z.log2 z) as El.
      { apply Z.le_antisymm.
        - etrans; [apply Z.log2_lxor; lia|]. lia.
        - rewrite <- (Z.log2_pow2 (Z.log2 z)) by lia. by apply Z.log2_le_mono. }
      pose proof (Z.bit_log2 (Z.lxor x z) ltac:(lia)) as B.
      rewrite El, Z.lxor_spec, Z.bit_log2 in B by lia. rewrite <- Exz, Z.bit_log2 in B by lia.
      done. }
  assert (2 ^ k <= Z.lxor y z); [|lia].
  assert (0 <= Z.lxor y z) by (apply Z.lxor_nonneg; lia).
  assert (Z.testbit (Z.lxor y z) k = true) as Bk.
  { rewrite Z.lxor_spec. unfold k. destruct (Z.max_spec (Z.log2 y) (Z.log2 z)) as [[? ->]|[? ->]].
    - rewrite (Z.bits_above_log2 y), Z.bit_log2 by lia. done.
    - rewrite (Z.bits_above_log2 z), Z.bit_log2 by lia. done. }
  apply Z.nlt_ge. intros Hlt'. rewrite (testbit_high k k) in Bk; [done|lia|].
  pose proof (Z.log2_nonneg y). lia.
Qed.

(** Identities and their distances. On identities of one length the XOR distance is symmetric, zero exactly between identities that Equals identifies, obeys the triangle inequality, and Less on XORed identities compares distances; PrefixLen of the XOR of two different identities is the length of their common bit prefix: all earlier bits agree and the bit at that position differs. *)
Theorem identities_correct :
  (forall n a b t,
   wf_id n a -> wf_id n b -> wf_id n t ->
   id_val (XorID a t) = distance a t /\
   distance a t = distance t a /\
   (distance a t = 0 <-> Equals a t = true) /\
   distance a b <= distance a t + distance t b /\
   Less (XorID a t) (XorID b t) = (distance a t <? distance b t)) /\
  (forall n a b,
   wf_id n a -> wf_id n b -> Equals a b = false ->
   let k := PrefixLen (XorID a b) in
   0 <= k < 8 * Z.of_nat n /\
   (forall j, 0 <= j < k -> id_bit n a j = id_bit n b j) /\
   id_bit n a k <> id_bit n b k).
Proof. split_and!; [exact XorID_metric|exact PrefixLen_common_prefix]. Qed.

Lemma identities_correct_witness :
  (distance (mkID [] [] [8] [] []) (mkID [] [] [32] [] []) = 40 /\
  Less (XorID (mkID [] [] [8] [] []) (mkID [] [] [32] [] []))
       (XorID (mkID [] [] [64] [] []) (mkID [] [] [32] [] [])) = true) /\
  (id_bit 1 (mkID [] [] [8] [] []) 2 <> id_bit 1 (mkID [] [] [32] [] []) 2).
Proof.
  split.
  { destruct ((proj1 identities_correct) 1%nat (mkID [] [] [8] [] []) (mkID [] [] [64] [] []) (mkID [] [] [32] [] []))
      as (_ & _ & _ & _ & L);
      [apply (bool_decide_unpack _); vm_compute; exact I..|].
    split; [reflexivity|]. rewrite L. reflexivity. }
  { refine (proj2 (proj2 ((proj2 identities_correct) 1%nat (mkID [] [] [8] [] []) (mkID [] [] [32] [] []) _ _ _)));
      [apply (bool_decide_unpack _); vm_compute; exact I..|reflexivity]. }
Defined.
