(* ===== verification/Routes.v ===== *)
(** * dht/routes.go: the Kademlia routing table

    A [RoutingTable] is the node's own identity and a list of buckets; a bucket is the
    list of its contacts from front to back (container/list).  Each operation holds the
    bucket's mutex for its whole effect on that bucket, so an operation is a function of
    the table.  Indexing a bucket that does not exist dereferences nil: [Panic]. *)
From S2P Require Import Prelude GoSort Peer.
Local Open Scope Z_scope.
Local Open Scope go_scope.

Definition BucketSize : Z := 16.

Record RoutingTable := mkTable {
  self : ID;
  buckets : list (list ID)
}.

Definition Self (t : RoutingTable) : ID := self t.

(** Bucket: the bucket of an index, nil when out of range. *)
Definition Bucket (t : RoutingTable) (id : Z) : option (list ID) :=
  if (0 <=? id) && (id <? Z.of_nat (length (buckets t)))
  then buckets t !! Z.to_nat id
  else None.

Definition set_bucket (t : RoutingTable) (id : Z) (b : list ID) : RoutingTable :=
  mkTable (self t) (<[Z.to_nat id := b]> (buckets t)).

(** The scan of a bucket for the first element equal to [target]: that element, and the
    bucket without it. *)
Fixpoint find_element (target : ID) (b : list ID) : option (ID * list ID) :=
  match b with
  | [] => None
  | e :: b' =>
      if Equals e target then Some (e, b')
      else match find_element target b' with
           | Some (x, r) => Some (x, e :: r)
           | None => None
           end
  end.

(** The bucket after Update has handled [target]: moved to the front when present, pushed
    in front when there is room, unchanged otherwise. *)
Definition update_bucket (b : list ID) (target : ID) : list ID :=
  match find_element target b with
  | Some (e, rest) => e :: rest
  | None => if Z.of_nat (length b) <=? BucketSize then target :: b else b
  end.

Definition bucket_id (t : RoutingTable) (target : ID) : Z := PrefixLen (XorID target (self t)).

Definition Update (t : RoutingTable) (target : ID) : res unit RoutingTable :=
  if negb (Nat.eqb (length (Id (self t))) (length (Id target))) then Ok t
  else
    let bucketID := bucket_id t target in
    match Bucket t bucketID with
    | None => Panic
    | Some b => Ok (set_bucket t bucketID (update_bucket b target))
    end.

Definition CreateRoutingTable (id : ID) : res unit RoutingTable :=
  Update (mkTable id (replicate (length (Id id) * 8) [])) id.

(** RemovePeer: the table after the call and the value returned. *)
Definition RemovePeer (t : RoutingTable) (target : ID) : res unit (RoutingTable * bool) :=
  let bucketID := bucket_id t target in
  match Bucket t bucketID with
  | None => Panic
  | Some b =>
      match find_element target b with
      | Some (_, rest) => Ok (set_bucket t bucketID rest, true)
      | None => Ok (t, false)
      end
  end.

Definition PeerExists (t : RoutingTable) (target : ID) : bool :=
  match Bucket t (bucket_id t target) with
  | None => false
  | Some b => existsb (fun e => Equals e target) b
  end.

(** The double loop of GetPeers and GetPeerAddresses over all contacts, with the set of
    public keys already visited. *)
Fixpoint visit_peers (visited : gset (list Z)) (l : list ID) : list ID :=
  match l with
  | [] => []
  | id :: l =>
      if decide (PublicKeyHex id ∈ visited) then visit_peers visited l
      else id :: visit_peers ({[PublicKeyHex id]} ∪ visited) l
  end.

Definition GetPeers (t : RoutingTable) : list ID :=
  visit_peers {[PublicKeyHex (self t)]} (concat (buckets t)).

Definition GetPeerAddresses (t : RoutingTable) : list (list Z) := Address <$> GetPeers t.

(** The widening loop of FindClosestPeers, [i] buckets away from [bucketID] on both sides.
    Its condition fails once [i] exceeds the number of bits, so that many rounds of fuel
    are enough ([closest_loop_enough]). *)
Definition closest_cond (t : RoutingTable) (bucketID count i : Z) (peers : list ID) : bool :=
  (Z.of_nat (length peers) <? count) &&
  ((0 <=? bucketID - i) || (bucketID + i <? Z.of_nat (length (Id (self t))) * 8)).

Definition closest_side (t : RoutingTable) (ok : bool) (id : Z) (peers : list ID)
  : res unit (list ID) :=
  if ok then match Bucket t id with
             | Some other => Ok (peers ++ other)
             | None => Panic
             end
  else Ok peers.

Fixpoint closest_loop (fuel : nat) (t : RoutingTable) (bucketID count i : Z) (peers : list ID)
  : res unit (list ID) :=
  match fuel with
  | O => Ok peers
  | S fuel =>
      if closest_cond t bucketID count i peers then
        let? peers := closest_side t (0 <=? bucketID - i) (bucketID - i) peers in
        let? peers := closest_side t (bucketID + i <? Z.of_nat (length (Id (self t))) * 8)
                        (bucketID + i) peers in
        closest_loop fuel t bucketID count (i + 1) peers
      else Ok peers
  end.

Definition FindClosestPeers `{SortSlice} (t : RoutingTable) (target : ID) (count : Z)
  : res unit (list ID) :=
  if negb (Nat.eqb (length (Id (self t))) (length (Id target))) then Ok []
  else
    let bucketID := bucket_id t target in
    match Bucket t bucketID with
    | None => Panic
    | Some b =>
        let? peers := closest_loop (length (Id (self t)) * 8) t bucketID count 1 b in
        let peers := sort_slice (fun x y => Less (XorID x target) (XorID y target)) peers in
        if count <? Z.of_nat (length peers)
        then if count <? 0 then Panic else Ok (take (Z.to_nat count) peers)
        else Ok peers
    end.

(** GetRandomPeers.  [intn k] is the value of the k-th call of rand.Intn. *)
Fixpoint shuffle_loop (intn : nat -> nat) (i : nat) (bs : list (list ID)) : list (list ID) :=
  match i with
  | O => bs
  | S i' =>
      let j := (intn i mod i)%nat in
      match bs !! i, bs !! j with
      | Some x, Some y => shuffle_loop intn i' (<[j := x]> (<[i := y]> bs))
      | _, _ => bs
      end
  end.

Fixpoint pick_fronts (count : Z) (peers : list ID) (bs : list (list ID)) : list ID :=
  match bs with
  | [] => peers
  | b :: bs =>
      let peers := match b with id :: _ => peers ++ [id] | [] => peers end in
      if count <=? Z.of_nat (length peers) then peers else pick_fronts count peers bs
  end.

Definition GetRandomPeers (intn : nat -> nat) (t : RoutingTable) (count : Z) : list ID :=
  let bs := filter (fun b => b <> []) (buckets t) in
  match bs with
  | [] => []
  | _ => pick_fronts count [] (shuffle_loop intn (length bs - 1) bs)
  end.

(** ** Invariant *)

Definition all_peers (t : RoutingTable) : list ID := concat (buckets t).

Definition wf_bucket (n : nat) (s : ID) (i : nat) (b : list ID) : Prop :=
  Forall (fun p => wf_id n p /\ PrefixLen (XorID p s) = Z.of_nat i) b /\
  NoDup (Id <$> b) /\
  Z.of_nat (length b) <= BucketSize + 1.

(** Identities of one length [n], one bucket per bit, each contact in the bucket of its
    common prefix length with the owner, no contact twice, at most 17 contacts per bucket. *)
Record wf_table (n : nat) (t : RoutingTable) : Prop := {
  wf_pos : (0 < n)%nat;
  wf_self : wf_id n (self t);
  wf_len : length (buckets t) = (n * 8)%nat;
  wf_each : forall i b, buckets t !! i = Some b -> wf_bucket n (self t) i b
}.

(** The operations of the table and the tables they reach. *)
Inductive table_step : RoutingTable -> RoutingTable -> Prop :=
| step_update t target t' :
    bytes_ok (Id target) -> Update t target = Ok t' -> table_step t t'
| step_remove t target t' r :
    RemovePeer t target = Ok (t', r) -> table_step t t'.

Definition table_reachable (id : ID) (t : RoutingTable) : Prop :=
  exists t0, CreateRoutingTable id = Ok t0 /\ rtc table_step t0 t.

(** ** Scanning a bucket *)

Lemma Equals_true a b : Equals a b = true <-> Id a = Id b.
Proof. apply bool_decide_eq_true. Qed.

Lemma Equals_false a b : Equals a b = false <-> Id a <> Id b.
Proof. apply bool_decide_eq_false. Qed.

Lemma find_element_Some target b e rest :
  find_element target b = Some (e, rest) ->
  exists l1 l2, b = l1 ++ e :: l2 /\ rest = l1 ++ l2 /\ Id e = Id target /\
                Forall (fun x => Id x <> Id target) l1.
Proof.
  revert rest. induction b as [|x b IH]; intros rest; simpl; [done|].
  destruct (Equals x target) eqn:E.
  - intros [= -> ->]. apply Equals_true in E. by exists [], rest.
  - destruct (find_element target b) as [[y r]|]; [|done]. intros [= -> <-].
    destruct (IH r eq_refl) as (l1 & l2 & -> & -> & Hid & Hall).
    apply Equals_false in E. exists (x :: l1), l2. repeat split; auto.
Qed.

Lemma find_element_None target b :
  find_element target b = None <-> Forall (fun x => Id x <> Id target) b.
Proof.
  induction b as [|x b IH]; simpl; [by split|].
  rewrite Forall_cons, <- IH. destruct (Equals x target) eqn:E.
  - apply Equals_true in E. naive_solver.
  - apply Equals_false in E. destruct (find_element target b) as [[y r]|]; naive_solver.
Qed.

Lemma find_element_perm target b e rest :
  find_element target b = Some (e, rest) -> b ≡ₚ e :: rest.
Proof.
  intros (l1 & l2 & -> & -> & _ & _)%find_element_Some. by rewrite Permutation_middle.
Qed.

Lemma existsb_find target b :
  existsb (fun e => Equals e target) b = bool_decide (is_Some (find_element target b)).
Proof.
  induction b as [|x b IH]; simpl; [done|]. destruct (Equals x target); simpl; [done|].
  rewrite IH. by destruct (find_element target b) as [[]|].
Qed.

Lemma existsb_Equals target b :
  existsb (fun e => Equals e target) b = true <-> Id target ∈ Id <$> b.
Proof.
  rewrite existsb_exists, list_elem_of_fmap. setoid_rewrite Equals_true.
  setoid_rewrite <- list_elem_of_In. naive_solver.
Qed.

(** ** Access to buckets *)

Lemma Bucket_Some t i b : Bucket t i = Some b -> 0 <= i /\ buckets t !! Z.to_nat i = Some b.
Proof. unfold Bucket. destruct (Z.leb_spec 0 i); simpl; [|done]. by destruct (_ <? _). Qed.

Lemma Bucket_nat t i : Bucket t (Z.of_nat i) = buckets t !! i.
Proof.
  unfold Bucket. rewrite Nat2Z.id. destruct (Z.leb_spec 0 (Z.of_nat i)); [|lia].
  destruct (Z.ltb_spec (Z.of_nat i) (Z.of_nat (length (buckets t)))); simpl; [done|].
  symmetry. apply lookup_ge_None. lia.
Qed.

Lemma bucket_id_range n t target :
  wf_table n t -> wf_id n target -> 0 <= bucket_id t target < Z.of_nat (length (buckets t)).
Proof.
  intros W Ht. pose proof (wf_pos _ _ W).
  pose proof (PrefixLen_range n (XorID target (self t)) ltac:(lia)
                (wf_id_XorID n _ _ Ht (wf_self _ _ W))).
  rewrite (wf_len _ _ W). unfold bucket_id. lia.
Qed.

Lemma wf_bucket_exists n t target :
  wf_table n t -> wf_id n target ->
  exists b, Bucket t (bucket_id t target) = Some b /\
            buckets t !! Z.to_nat (bucket_id t target) = Some b.
Proof.
  intros W Ht. pose proof (bucket_id_range n t target W Ht) as R.
  destruct (lookup_lt_is_Some_2 (buckets t) (Z.to_nat (bucket_id t target))) as [b Hb]; [lia|].
  exists b. split; [|done]. rewrite <- Bucket_nat, Z2Nat.id in Hb by lia. done.
Qed.

Lemma bucket_id_Id t p q : Id p = Id q -> bucket_id t p = bucket_id t q.
Proof. intros E. unfold bucket_id, PrefixLen, XorID. simpl. by rewrite E. Qed.

(** ** Preservation of the invariant *)

Lemma wf_set_bucket n t i b b' :
  wf_table n t -> Bucket t i = Some b ->
  wf_bucket n (self t) (Z.to_nat i) b' -> wf_table n (set_bucket t i b').
Proof.
  intros W [Hi Hb]%Bucket_Some Hb'. destruct W as [Hp Hs Hl He]. split; simpl; try done.
  - by rewrite length_insert.
  - intros j c Hc. destruct (decide (Z.to_nat i = j)) as [<-|Hne].
    + rewrite list_lookup_insert_eq in Hc by (by eapply lookup_lt_Some). by simplify_eq.
    + rewrite list_lookup_insert_ne in Hc by done. by apply He.
Qed.

Lemma wf_bucket_perm n s i b b' :
  b ≡ₚ b' -> wf_bucket n s i b -> wf_bucket n s i b'.
Proof.
  intros P (F & N & L). repeat split; [by rewrite <- P| |by rewrite <- P].
  by rewrite <- P.
Qed.

Lemma wf_bucket_tail n s i p b : wf_bucket n s i (p :: b) -> wf_bucket n s i b.
Proof.
  intros (F & N & L). apply Forall_cons in F as [_ F]. apply NoDup_cons in N as [_ N].
  repeat split; try done. simpl in L. lia.
Qed.

Lemma wf_update_bucket n s i b target :
  wf_bucket n s i b -> wf_id n target -> PrefixLen (XorID target s) = Z.of_nat i ->
  wf_bucket n s i (update_bucket b target).
Proof.
  intros Hb Ht Hi. unfold update_bucket. destruct (find_element target b) as [[e rest]|] eqn:E.
  - apply find_element_perm in E. by eapply wf_bucket_perm.
  - apply find_element_None in E. destruct (Z.leb_spec (Z.of_nat (length b)) BucketSize); [|done].
    destruct Hb as (F & N & L). repeat split; simpl; [by constructor| |lia].
    constructor; [|done]. intros (x & Hx & Hin)%list_elem_of_fmap.
    rewrite Forall_forall in E. by eapply E.
Qed.

Lemma Update_wf n t target t' :
  wf_table n t -> bytes_ok (Id target) -> Update t target = Ok t' -> wf_table n t'.
Proof.
  intros W Ht. unfold Update. destruct (Nat.eqb_spec (length (Id (self t))) (length (Id target)))
    as [El|]; simpl; [|by intros [= <-]].
  assert (wf_id n target) as Hwf by (split; [done|]; rewrite <- El; apply (wf_self _ _ W)).
  destruct (Bucket t (bucket_id t target)) as [b|] eqn:E; [|done]. intros [= <-].
  pose proof (Bucket_Some _ _ _ E) as [Hi Hb].
  eapply wf_set_bucket; [done..|]. apply wf_update_bucket; [by apply W|done|].
  by rewrite Z2Nat.id.
Qed.

Lemma RemovePeer_wf n t target t' r :
  wf_table n t -> RemovePeer t target = Ok (t', r) -> wf_table n t'.
Proof.
  intros W. unfold RemovePeer.
  destruct (Bucket t (bucket_id t target)) as [b|] eqn:E; [|done].
  destruct (find_element target b) as [[e rest]|] eqn:F; [|by intros [= <- <-]].
  intros [= <- <-]. pose proof (Bucket_Some _ _ _ E) as [Hi Hb].
  eapply wf_set_bucket; [done..|]. apply find_element_perm in F.
  eapply wf_bucket_tail, wf_bucket_perm; [done|]. by apply W.
Qed.

Lemma Create_wf n id t : (0 < n)%nat -> wf_id n id -> CreateRoutingTable id = Ok t -> wf_table n t.
Proof.
  intros Hn [Ho Hl]. unfold CreateRoutingTable. apply Update_wf; [|done].
  split; simpl; try done.
  - by rewrite length_replicate, Hl.
  - intros i b [-> _]%lookup_replicate. split; [constructor|]. split; [apply NoDup_nil_2|unfold BucketSize; simpl; lia].
Qed.

Lemma table_step_wf n t t' : wf_table n t -> table_step t t' -> wf_table n t'.
Proof. intros W H. destruct H; [by eapply Update_wf|by eapply RemovePeer_wf]. Qed.

Lemma reachable_wf n id t : (0 < n)%nat -> wf_id n id -> table_reachable id t -> wf_table n t.
Proof.
  intros Hn Hid (t0 & H0 & Hs). pose proof (Create_wf n id t0 Hn Hid H0) as W. clear H0.
  induction Hs; eauto using table_step_wf.
Qed.

(** ** Contacts of the whole table *)

Lemma elem_of_all_peers t p :
  p ∈ all_peers t <-> exists i b, buckets t !! i = Some b /\ p ∈ b.
Proof.
  unfold all_peers. rewrite list_elem_of_In, in_concat. setoid_rewrite <- list_elem_of_In.
  setoid_rewrite list_elem_of_lookup at 1. naive_solver.
Qed.

Lemma wf_peer n t i b p :
  wf_table n t -> buckets t !! i = Some b -> p ∈ b ->
  wf_id n p /\ bucket_id t p = Z.of_nat i.
Proof. intros W Hb Hp. destruct (wf_each _ _ W i b Hb) as (F & _). by eapply Forall_forall in F. Qed.

Lemma all_peers_wf n t p : wf_table n t -> p ∈ all_peers t -> wf_id n p.
Proof. intros W (i & b & Hb & Hp)%elem_of_all_peers. by eapply wf_peer. Qed.

Lemma NoDup_fmap_concat {A B} (f : A -> B) (bs : list (list A)) :
  (forall i b, bs !! i = Some b -> NoDup (f <$> b)) ->
  (forall i j b c x y, bs !! i = Some b -> bs !! j = Some c -> x ∈ b -> y ∈ c -> f x = f y -> i = j) ->
  NoDup (f <$> concat bs).
Proof.
  induction bs as [|b bs IH]; intros HN HD; simpl; [constructor|].
  rewrite fmap_app. apply NoDup_app. repeat split.
  - by apply (HN 0%nat).
  - intros z (x & -> & Hx)%list_elem_of_fmap (y & Exy & Hy)%list_elem_of_fmap.
    apply list_elem_of_In, in_concat in Hy as (c & Hc & Hy).
    apply list_elem_of_In, list_elem_of_lookup in Hc as [j Hj]. apply list_elem_of_In in Hy.
    by pose proof (HD 0%nat (S j) b c x y eq_refl Hj Hx Hy Exy).
  - apply IH; [intros i; apply (HN (S i))|].
    intros i j ? ? x y Hi Hj Hx Hy E. by pose proof (HD (S i) (S j) _ _ x y Hi Hj Hx Hy E); lia.
Qed.

Lemma all_peers_NoDup n t : wf_table n t -> NoDup (Id <$> all_peers t).
Proof.
  intros W. apply NoDup_fmap_concat.
  - intros i b Hb. by destruct (wf_each _ _ W i b Hb) as (_ & ? & _).
  - intros i j b c x y Hi Hj Hx Hy E.
    destruct (wf_peer n t i b x W Hi Hx) as [_ Ei], (wf_peer n t j c y W Hj Hy) as [_ Ej].
    rewrite (bucket_id_Id t x y E) in Ei. lia.
Qed.

Lemma PeerExists_all_peers n t target :
  wf_table n t -> wf_id n target ->
  PeerExists t target = true <-> Id target ∈ Id <$> all_peers t.
Proof.
  intros W Ht. unfold PeerExists. destruct (wf_bucket_exists n t target W Ht) as (b & -> & Hb).
  rewrite existsb_Equals, !list_elem_of_fmap. setoid_rewrite elem_of_all_peers. split.
  - intros (p & E & Hp). exists p. split; [done|]. by exists (Z.to_nat (bucket_id t target)), b.
  - intros (p & E & i & c & Hc & Hp). exists p. split; [done|].
    destruct (wf_peer n t i c p W Hc Hp) as [_ Ei].
    rewrite (bucket_id_Id t target p E), Ei, Nat2Z.id in Hb. by simplify_eq.
Qed.

(** ** Update *)

Lemma Update_Ok n t target :
  wf_table n t -> wf_id n target ->
  exists b, buckets t !! Z.to_nat (bucket_id t target) = Some b /\
            Update t target = Ok (set_bucket t (bucket_id t target) (update_bucket b target)).
Proof.
  intros W Ht. destruct (wf_bucket_exists n t target W Ht) as (b & Eb & Hb).
  exists b. split; [done|]. unfold Update. rewrite Eb.
  destruct (wf_self _ _ W) as [_ ->], Ht as [_ ->]. by rewrite Nat.eqb_refl.
Qed.

Lemma concat_insert_perm {A} (bs : list (list A)) i b b' :
  bs !! i = Some b -> b ++ concat (<[i := b']> bs) ≡ₚ b' ++ concat bs.
Proof.
  intros H. rewrite insert_take_drop by (by eapply lookup_lt_Some).
  rewrite <- (take_drop_middle bs i b H) at 3.
  rewrite !concat_app. simpl. solve_Permutation.
Qed.

Lemma update_all_peers n t target b :
  wf_table n t -> buckets t !! Z.to_nat (bucket_id t target) = Some b ->
  b ++ all_peers (set_bucket t (bucket_id t target) (update_bucket b target))
  ≡ₚ update_bucket b target ++ all_peers t.
Proof. intros W Hb. unfold all_peers. simpl. by apply concat_insert_perm. Qed.


(** Update of a well-formed table never panics.  A contact already known is moved to the
    front of its bucket and the table keeps the same contacts; an unknown one is put at the
    front of its bucket when the bucket holds at most BucketSize contacts, and is dropped,
    leaving the table as it was, when the bucket is full. *)
Lemma Update_spec n t target :
  wf_table n t -> wf_id n target ->
  exists t' b, Update t target = Ok t' /\ self t' = self t /\
    Bucket t (bucket_id t target) = Some b /\
    (PeerExists t target = true ->
       all_peers t' ≡ₚ all_peers t /\
       exists e rest, Bucket t' (bucket_id t target) = Some (e :: rest) /\ Id e = Id target) /\
    (PeerExists t target = false -> Z.of_nat (length b) <= BucketSize ->
       all_peers t' ≡ₚ target :: all_peers t /\
       Bucket t' (bucket_id t target) = Some (target :: b)) /\
    (PeerExists t target = false -> BucketSize < Z.of_nat (length b) -> t' = t).
Proof.
  intros W Ht. destruct (Update_Ok n t target W Ht) as (b & Hb & ->).
  set (i := bucket_id t target) in *.
  assert (Bucket t i = Some b) as EB.
  { destruct (wf_bucket_exists n t target W Ht) as (b' & E1 & E2). fold i in E1, E2. congruence. }
  assert (forall b', Bucket (set_bucket t i b') i = Some b') as Hset.
  { intros b'. pose proof (bucket_id_range n t target W Ht). fold i in H.
    rewrite <- (Z2Nat.id i) at 2 by lia. rewrite Bucket_nat. simpl.
    apply list_lookup_insert_eq. lia. }
  pose proof (update_all_peers n t target b W Hb) as P. fold i in P.
  exists (set_bucket t i (update_bucket b target)), b. unfold PeerExists. fold i.
  rewrite EB, existsb_find. unfold update_bucket in *.
  destruct (find_element target b) as [[e rest]|] eqn:F; simpl.
  - split_and!; try done. intros _.
    pose proof (find_element_perm _ _ _ _ F) as Pb.
    apply find_element_Some in F as (l1 & l2 & _ & _ & He & _). split; [|by eauto].
    rewrite Pb in P at 1. by apply Permutation_app_inv_l in P.
  - split_and!; try done.
    + intros _ Hle. destruct (Z.leb_spec (Z.of_nat (length b)) BucketSize); [|lia].
      split; [|by auto]. simpl in P.
      rewrite Permutation_middle in P. by apply Permutation_app_inv_l in P.
    + intros _ Hgt. destruct (Z.leb_spec (Z.of_nat (length b)) BucketSize); [lia|].
      unfold set_bucket. rewrite list_insert_id by done. by destruct t.
Qed.

(** ** RemovePeer *)

(** RemovePeer reports whether the contact was in the table, takes exactly that contact
    out and leaves all the others; afterwards PeerExists is false for it. *)
Lemma RemovePeer_spec n t target :
  wf_table n t -> wf_id n target ->
  exists t', RemovePeer t target = Ok (t', PeerExists t target) /\
    self t' = self t /\
    PeerExists t' target = false /\
    (forall p, wf_id n p -> Equals p target = false -> PeerExists t' p = PeerExists t p) /\
    (PeerExists t target = true ->
       exists e, Id e = Id target /\ all_peers t ≡ₚ e :: all_peers t') /\
    (PeerExists t target = false -> t' = t).
Proof.
  intros W Ht.
  destruct (wf_bucket_exists n t target W Ht) as (b & EB & Hb).
  assert (RemovePeer t target
          = Ok (match find_element target b with
                | Some (_, rest) => set_bucket t (bucket_id t target) rest
                | None => t end, PeerExists t target)) as HR.
  { unfold RemovePeer, PeerExists. rewrite EB, existsb_find.
    by destruct (find_element target b) as [[]|]. }
  eexists. split; [exact HR|]. pose proof (RemovePeer_wf n _ _ _ _ W HR) as W'.
  pose proof (all_peers_NoDup n t W) as ND.
  assert (PeerExists t target = bool_decide (is_Some (find_element target b))) as EP.
  { unfold PeerExists. by rewrite EB, existsb_find. }
  destruct (find_element target b) as [[e rest]|] eqn:F; simpl in *.
  - pose proof (find_element_perm _ _ _ _ F) as Pb.
    apply find_element_Some in F as (_ & _ & _ & _ & He & _).
    assert (all_peers t ≡ₚ e :: all_peers (set_bucket t (bucket_id t target) rest)) as P.
    { pose proof (concat_insert_perm _ _ _ rest Hb) as P. rewrite Pb in P at 1. simpl in P.
      rewrite Permutation_middle in P. by apply Permutation_app_inv_l in P. }
    split_and!; try done; [..|by eauto|by rewrite EP].
    + apply not_true_iff_false. rewrite (PeerExists_all_peers n) by done.
      rewrite P in ND. simpl in ND. apply NoDup_cons in ND as [ND _]. by rewrite <- He.
    + intros p Hp E%Equals_false. apply eq_true_iff_eq.
      rewrite !(PeerExists_all_peers n) by done. rewrite P. simpl.
      rewrite elem_of_cons, He. naive_solver.
  - split_and!; try done. by rewrite EP.
Qed.

(** ** FindClosestPeers *)

(** The contacts of the buckets [lo, hi). *)
Definition window (t : RoutingTable) (lo hi : nat) : list ID :=
  concat (take (hi - lo) (drop lo (buckets t))).

Lemma window_snoc t lo hi b :
  (lo <= hi)%nat -> buckets t !! hi = Some b -> window t lo (S hi) = window t lo hi ++ b.
Proof.
  intros Hle Hb. unfold window. replace (S hi - lo)%nat with (S (hi - lo)) by lia.
  rewrite (take_S_r _ _ b).
  - by rewrite concat_app; simpl; rewrite app_nil_r.
  - rewrite lookup_drop. by replace (lo + (hi - lo))%nat with hi by lia.
Qed.

Lemma window_cons t lo hi b :
  (S lo <= hi)%nat -> buckets t !! lo = Some b -> window t lo hi = b ++ window t (S lo) hi.
Proof.
  intros Hle Hb. unfold window. replace (hi - lo)%nat with (S (hi - S lo)) by lia.
  by rewrite (drop_S _ b lo) by done.
Qed.

Lemma window_all t : window t 0 (length (buckets t)) = all_peers t.
Proof. unfold window. by rewrite Nat.sub_0_r, drop_0, firstn_all. Qed.

(** The part of the table the loop has read before round [i]. *)
Definition seen (t : RoutingTable) (bid i : nat) : list ID :=
  window t (S bid - i) (Nat.min (length (buckets t)) (bid + i)).

Lemma closest_side_low t bid i peers :
  (bid < length (buckets t))%nat -> (0 < i)%nat ->
  peers ≡ₚ seen t bid i ->
  exists peers', closest_side t (0 <=? Z.of_nat bid - Z.of_nat i) (Z.of_nat bid - Z.of_nat i) peers
                 = Ok peers' /\
    peers' ≡ₚ window t (bid - i) (Nat.min (length (buckets t)) (bid + i)).
Proof.
  intros Hb Hi HP. unfold closest_side, seen in *.
  destruct (Z.leb_spec 0 (Z.of_nat bid - Z.of_nat i)) as [Hle|Hgt].
  - destruct (lookup_lt_is_Some_2 (buckets t) (bid - i)) as [b E]; [lia|].
    replace (Z.of_nat bid - Z.of_nat i)%Z with (Z.of_nat (bid - i)) by lia.
    rewrite Bucket_nat, E. eexists. split; [done|].
    rewrite (window_cons t (bid - i) _ b) by (try done; lia).
    replace (S (bid - i)) with (S bid - i)%nat by lia. rewrite HP. apply Permutation_app_comm.
  - exists peers. split; [done|]. replace (bid - i)%nat with (S bid - i)%nat by lia. done.
Qed.

Lemma closest_side_high t bid i peers nbits :
  nbits = Z.of_nat (length (buckets t)) ->
  (bid < length (buckets t))%nat -> (0 < i)%nat ->
  peers ≡ₚ window t (bid - i) (Nat.min (length (buckets t)) (bid + i)) ->
  exists peers', closest_side t (Z.of_nat bid + Z.of_nat i <? nbits) (Z.of_nat bid + Z.of_nat i) peers
                 = Ok peers' /\ peers' ≡ₚ seen t bid (S i).
Proof.
  intros -> Hb Hi HP. unfold closest_side, seen in *. simpl.
  destruct (Z.ltb_spec (Z.of_nat bid + Z.of_nat i) (Z.of_nat (length (buckets t)))).
  - destruct (lookup_lt_is_Some_2 (buckets t) (bid + i)) as [b E]; [lia|].
    rewrite <- Nat2Z.inj_add, Bucket_nat, E. eexists. split; [done|].
    replace (Nat.min (length (buckets t)) (bid + S i)) with (S (bid + i)) by lia.
    rewrite (window_snoc t _ _ b) by (try done; lia). rewrite HP.
    by replace (Nat.min (length (buckets t)) (bid + i)) with (bid + i)%nat by lia.
  - exists peers. split; [done|]. rewrite HP.
    by replace (Nat.min (length (buckets t)) (bid + S i))
      with (Nat.min (length (buckets t)) (bid + i)) by lia.
Qed.

(** With as many rounds as there are bits the loop ends by its own condition: it has
    collected [count] contacts or read every bucket. *)
Lemma closest_loop_enough t bid count fuel i peers :
  length (buckets t) = (length (Id (self t)) * 8)%nat ->
  (bid < length (buckets t))%nat -> (0 < i)%nat -> (length (buckets t) < fuel + i)%nat ->
  peers ≡ₚ seen t bid i ->
  exists peers' i', closest_loop fuel t (Z.of_nat bid) count (Z.of_nat i) peers = Ok peers' /\
    (i <= i')%nat /\ peers' ≡ₚ seen t bid i' /\
    (count <= Z.of_nat (length peers') \/ peers' ≡ₚ all_peers t) /\
    (count <= Z.of_nat (length peers) -> i' = i /\ peers' = peers).
Proof.
  intros HL Hb. revert i peers. induction fuel as [|fuel IH]; intros i peers Hi Hf HP.
  - exists peers, i. split_and!; try done. right. rewrite HP, <- window_all. unfold seen.
    replace (S bid - i)%nat with 0%nat by lia.
    by replace (Nat.min (length (buckets t)) (bid + i)) with (length (buckets t)) by lia.
  - cbn [closest_loop]. unfold closest_cond.
    destruct (Z.ltb_spec (Z.of_nat (length peers)) count) as [Hlt|Hge]; simpl.
    2: { exists peers, i. split_and!; try done. by left. }
    destruct (closest_side_low t bid i peers Hb Hi HP) as (p1 & E1 & P1).
    assert (Z.of_nat (length (Id (self t))) * 8 = Z.of_nat (length (buckets t))) as EL by lia.
    destruct (closest_side_high t bid i p1 _ EL Hb Hi P1) as (p2 & E2 & P2).
    destruct (orb _ _) eqn:C.
    + rewrite E1. simpl. rewrite E2. simpl.
      replace (Z.of_nat i + 1) with (Z.of_nat (S i)) by lia.
      destruct (IH (S i) p2) as (p3 & i3 & -> & Hi3 & P3 & D & _); [lia..|done|].
      exists p3, i3. split_and!; try done; [lia|]. lia.
    + apply orb_false_iff in C as [C1 C2]. apply Z.leb_gt in C1. apply Z.ltb_ge in C2.
      exists peers, i. split_and!; try done. right. rewrite HP, <- window_all. unfold seen.
      replace (S bid - i)%nat with 0%nat by lia.
      by replace (Nat.min (length (buckets t)) (bid + i)) with (length (buckets t)) by lia.
Qed.

Lemma window_submseteq t lo hi : window t lo hi ⊆+ all_peers t.
Proof.
  unfold window, all_peers. rewrite <- (take_drop lo (buckets t)) at 2.
  rewrite <- (take_drop (hi - lo) (drop lo (buckets t))) at 2.
  rewrite !concat_app. apply submseteq_inserts_l, submseteq_inserts_r. done.
Qed.

(** The comparison FindClosestPeers sorts by. *)
Definition closer (target x y : ID) : bool := Less (XorID x target) (XorID y target).

#[export] Instance closer_strict_weak target : StrictWeak (closer target).
Proof.
  unfold closer, Less. split.
  - intros x. by rewrite bytes_compare_refl.
  - intros x y z. destruct (bytes_compare (Id (XorID x _)) (Id (XorID y _))) eqn:E1; try done.
    destruct (bytes_compare (Id (XorID y _)) (Id (XorID z _))) eqn:E2; try done.
    by rewrite (bytes_compare_trans _ _ _ E1 E2).
  - intros x y z. generalize (Id (XorID x target)) (Id (XorID y target)) (Id (XorID z target)).
    intros a b c Hab Hbc. destruct (bytes_compare a c) eqn:Hac; try done.
    destruct (bytes_compare a b) eqn:E1; try done.
    + apply bytes_compare_eq in E1. subst. by rewrite Hac in Hbc.
    + assert (bytes_compare b a = Lt) as Hba by (rewrite bytes_compare_antisym, E1; done).
      by rewrite (bytes_compare_trans _ _ _ Hba Hac) in Hbc.
Qed.

Lemma not_closer n target x y :
  wf_id n target -> wf_id n x -> wf_id n y -> Id x <> Id y ->
  closer target y x = false -> distance x target < distance y target.
Proof.
  intros Ht Hx Hy Hne. unfold closer. rewrite (Less_distance n) by done. rewrite Z.ltb_ge.
  intros Hle. destruct (Z.eq_dec (distance x target) (distance y target)) as [E|]; [|lia].
  exfalso. apply Hne. apply (id_val_inj n); [done..|]. unfold distance in E.
  rewrite <- (Z.lxor_0_r (id_val x)), <- (Z.lxor_nilpotent (id_val target)), <- Z.lxor_assoc, E.
  by rewrite Z.lxor_assoc, Z.lxor_nilpotent, Z.lxor_0_r.
Qed.

Lemma sorted_distances n target l :
  wf_id n target -> (forall p, p ∈ l -> wf_id n p) -> NoDup (Id <$> l) ->
  sorted_by (closer target) l ->
  StronglySorted (fun x y => distance x target < distance y target) l.
Proof.
  intros Ht Hl ND Hs. induction Hs as [|x l Hs IH Hx]; [constructor|].
  simpl in ND. apply NoDup_cons in ND as [Nx ND]. constructor.
  - apply IH; [|done]. intros p Hp. apply Hl. by right.
  - apply Forall_forall. intros y Hy. rewrite Forall_forall in Hx.
    apply (not_closer n); auto.
    + apply Hl. by left.
    + apply Hl. by right.
    + intros E. apply Nx. apply list_elem_of_fmap. by exists y.
Qed.

(** What FindClosestPeers returns: the first [count] of the sorted contacts it has read,
    which are all contacts of the table or at least [count] of them. *)
Lemma FindClosestPeers_eq `{SortSlice} n t target count :
  wf_table n t -> wf_id n target -> 0 <= count ->
  exists peers b, Bucket t (bucket_id t target) = Some b /\
    FindClosestPeers t target count
    = Ok (take (Z.to_nat count) (sort_slice (closer target) peers)) /\
    peers ⊆+ all_peers t /\
    (count <= Z.of_nat (length peers) \/ peers ≡ₚ all_peers t) /\
    (count <= Z.of_nat (length b) -> peers = b).
Proof.
  intros W Ht Hc. unfold FindClosestPeers.
  destruct (wf_self _ _ W) as [_ Es]. pose proof Ht as [_ Et].
  rewrite Es, Et, Nat.eqb_refl. simpl.
  pose proof (bucket_id_range n t target W Ht) as R.
  destruct (wf_bucket_exists n t target W Ht) as (b & EB & Hb). rewrite EB.
  set (bid := Z.to_nat (bucket_id t target)) in *.
  replace (bucket_id t target) with (Z.of_nat bid) by lia.
  assert (b ≡ₚ seen t bid 1) as P0.
  { unfold seen. replace (S bid - 1)%nat with bid by lia.
    replace (Nat.min (length (buckets t)) (bid + 1)) with (S bid) by lia.
    unfold window. replace (S bid - bid)%nat with 1%nat by lia.
    rewrite (drop_S _ b) by done. simpl. by rewrite app_nil_r. }
  destruct (closest_loop_enough t bid count (n * 8) 1 b)
    as (peers & i' & EQ & _ & P' & D & S'); [rewrite Es, (wf_len _ _ W); lia|lia..| |done|].
  { rewrite (wf_len _ _ W). lia. }
  change (Z.of_nat 1) with 1 in EQ. rewrite EQ. simpl.
  exists peers, b. split; [done|]. split.
  - change (fun x y => Less (XorID x target) (XorID y target)) with (closer target).
    pose proof (Permutation_length (sort_slice_perm (closer target) peers)) as EL.
    destruct (Z.ltb_spec count (Z.of_nat (length (sort_slice (closer target) peers)))).
    + destruct (Z.ltb_spec count 0); [lia|done].
    + by rewrite take_ge by lia.
  - split_and!; [|done|].
    + rewrite P'. apply window_submseteq.
    + intros Hle. by destruct (S' Hle).
Qed.

Lemma peers_facts n t peers :
  wf_table n t -> peers ⊆+ all_peers t -> NoDup (Id <$> peers) /\ forall p, p ∈ peers -> wf_id n p.
Proof.
  intros W Hsub. split.
  - pose proof (all_peers_NoDup n t W) as ND. apply submseteq_Permutation in Hsub as [k Hk].
    rewrite Hk, fmap_app in ND. by apply NoDup_app in ND as (? & _).
  - intros p Hp. eapply all_peers_wf; [done|]. by eapply elem_of_submseteq.
Qed.

(** FindClosestPeers on a well-formed table returns contacts of the table, none twice, in
    strictly increasing distance from the target, and exactly min(count, number of contacts)
    of them. *)
Lemma FindClosestPeers_spec (S : SortSlice) n t target count :
  wf_table n t -> wf_id n target -> 0 <= count ->
  exists r, FindClosestPeers t target count = Ok r /\
    r ⊆+ all_peers t /\
    StronglySorted (fun x y => distance x target < distance y target) r /\
    Z.of_nat (length r) = Z.min count (Z.of_nat (length (all_peers t))).
Proof.
  intros W Ht Hc.
  destruct (FindClosestPeers_eq n t target count W Ht Hc) as (peers & b & _ & -> & Hsub & D & _).
  eexists. split; [done|].
  pose proof (sort_slice_perm (closer target) peers) as P.
  destruct (peers_facts n t peers W Hsub) as [ND WF].
  assert (StronglySorted (fun x y => distance x target < distance y target)
            (sort_slice (closer target) peers)) as SS.
  { apply (sorted_distances n); [done|..|apply sort_slice_sorted, _].
    - intros p. rewrite P. apply WF.
    - by rewrite P. }
  split_and!.
  - etrans; [apply sublist_submseteq, sublist_take|]. by rewrite P.
  - rewrite <- (take_drop (Z.to_nat count)) in SS. by apply StronglySorted_app_1_l in SS.
  - rewrite length_take, P. pose proof (submseteq_length _ _ Hsub).
    destruct D as [D|D]; [|rewrite D in *]; lia.
Qed.

(** When the bucket of the target holds at least [count] contacts, the contacts returned
    are the closest of the whole table: every other contact is strictly farther away. *)
Lemma FindClosestPeers_closest (S : SortSlice) n t target count b r :
  wf_table n t -> wf_id n target ->
  Bucket t (bucket_id t target) = Some b -> 0 <= count <= Z.of_nat (length b) ->
  FindClosestPeers t target count = Ok r ->
  forall p q, p ∈ r -> q ∈ all_peers t -> q ∉ r -> distance p target < distance q target.
Proof.
  intros W Ht EB Hc.
  destruct (FindClosestPeers_eq n t target count W Ht) as (peers & b' & EB' & -> & Hsub & _ & Hb); [lia|].
  assert (b' = b) as -> by congruence. rewrite (Hb ltac:(lia)) in *. clear peers Hb EB'.
  intros [= <-] p q Hp Hq Hnq.
  pose proof (sort_slice_perm (closer target) b) as P.
  pose proof (sort_slice_sorted (closer target) b _) as SS.
  set (s := sort_slice (closer target) b) in *.
  assert (p ∈ b) as Hpb.
  { rewrite <- P. rewrite <- (take_drop (Z.to_nat count) s). apply elem_of_app. by left. }
  assert (b ⊆+ all_peers t) as Hbt by done.
  assert (wf_id n p) as Wp by (by eapply all_peers_wf, elem_of_submseteq).
  assert (wf_id n q) as Wq by (by eapply all_peers_wf).
  destruct (decide (q ∈ b)) as [Hqb|Hqb].
  - rewrite <- P, <- (take_drop (Z.to_nat count) s), elem_of_app in Hqb.
    destruct Hqb as [|Hqb]; [done|].
    assert (NoDup (Id <$> s)) as ND by (rewrite P; by apply (peers_facts n t)).
    rewrite <- (take_drop (Z.to_nat count) s) in SS, ND.
    apply sorted_by_app in SS as (_ & _ & SS).
    apply (not_closer n); [done..| |by apply SS].
    rewrite fmap_app in ND. apply NoDup_app in ND as (_ & ND & _).
    intros E. apply (ND (Id p)); [by apply list_elem_of_fmap_2|].
    rewrite E. by apply list_elem_of_fmap_2.
  - apply Bucket_Some in EB as [Hi EB]. apply elem_of_all_peers in Hq as (j & c & Hj & Hq).
    destruct (wf_peer n t _ b p W EB Hpb) as [_ Ep], (wf_peer n t j c q W Hj Hq) as [_ Eq].
    rewrite Z2Nat.id in Ep by done.
    apply (distance_separation n (self t)); [apply W|done..|].
    change (bucket_id t q <> bucket_id t target). rewrite Eq. intros E.
    rewrite <- E, Nat2Z.id, Hj in EB. congruence.
Qed.

(** ** GetPeers and GetRandomPeers *)

Lemma visit_peers_spec visited l :
  NoDup (PublicKeyHex <$> visit_peers visited l) /\
  visit_peers visited l `sublist_of` l /\
  (forall p, p ∈ visit_peers visited l -> PublicKeyHex p ∉ visited) /\
  (forall p, p ∈ l -> PublicKeyHex p ∉ visited ->
     PublicKeyHex p ∈ PublicKeyHex <$> visit_peers visited l).
Proof.
  revert visited. induction l as [|x l IH]; intros visited; simpl.
  { split_and!; [constructor|constructor|..]; intros p []%elem_of_nil. }
  destruct (decide (PublicKeyHex x ∈ visited)) as [Hx|Hx].
  - destruct (IH visited) as (N & S & V & A). split_and!; [done|by constructor|done|].
    intros p [->|Hp]%elem_of_cons; [done|by apply A].
  - destruct (IH ({[PublicKeyHex x]} ∪ visited)) as (N & S & V & A).
    split_and!.
    + simpl. constructor; [|done]. intros (p & E & Hp)%list_elem_of_fmap.
      apply V in Hp. set_solver.
    + by constructor.
    + intros p [->|Hp]%elem_of_cons; [done|]. apply V in Hp. set_solver.
    + intros p [->|Hp]%elem_of_cons Hv; simpl; [by left|].
      destruct (decide (PublicKeyHex p = PublicKeyHex x)) as [->|Hne]; [by left|].
      right. apply A; set_solver.
Qed.

(** The contacts GetPeers lists. *)
Lemma GetPeers_listing t :
  NoDup (PublicKeyHex <$> GetPeers t) /\
  GetPeers t `sublist_of` all_peers t /\
  (forall p, p ∈ GetPeers t -> PublicKeyHex p <> PublicKeyHex (self t)) /\
  (forall p, p ∈ all_peers t -> PublicKeyHex p <> PublicKeyHex (self t) ->
     exists q, q ∈ GetPeers t /\ PublicKeyHex q = PublicKeyHex p).
Proof.
  unfold GetPeers, all_peers.
  destruct (visit_peers_spec {[PublicKeyHex (self t)]} (concat (buckets t))) as (N & S & V & A).
  split_and!; [done..| |].
  - intros p Hp E. apply V in Hp. set_solver.
  - intros p Hp Hne. destruct (proj1 (list_elem_of_fmap _ _ _) (A p Hp ltac:(set_solver))) as (q & ? & ?).
    eauto.
Qed.

Lemma swap_perm {A} (l : list A) i j x y :
  l !! i = Some x -> l !! j = Some y -> <[j := x]> (<[i := y]> l) ≡ₚ l.
Proof.
  intros Hi Hj. destruct (decide (i = j)) as [->|Hne].
  { simplify_eq. rewrite list_insert_insert_eq. by rewrite list_insert_id. }
  apply Permutation_inj. split; [by rewrite !length_insert|].
  exists (fun k => if decide (k = i) then j else if decide (k = j) then i else k). split.
  - intros a b. repeat case_decide; congruence.
  - intros k. pose proof (lookup_lt_Some _ _ _ Hi). pose proof (lookup_lt_Some _ _ _ Hj).
    repeat case_decide; subst.
    + rewrite list_lookup_insert_ne by done. rewrite list_lookup_insert_eq by done. done.
    + rewrite list_lookup_insert_eq by (by rewrite length_insert). done.
    + by rewrite !list_lookup_insert_ne by done.
Qed.

Lemma shuffle_loop_perm intn i bs : shuffle_loop intn i bs ≡ₚ bs.
Proof.
  revert bs. induction i as [|i IH]; intros bs; cbn [shuffle_loop]; [done|].
  destruct (bs !! S i) as [x|] eqn:Ei; [|done].
  destruct (bs !! (intn (S i) mod S i)%nat) as [y|] eqn:Ej; [|done].
  rewrite IH. by apply swap_perm.
Qed.

Lemma pick_fronts_spec count peers bs :
  Forall (fun b => b <> []) bs -> Z.of_nat (length peers) < Z.max 1 count ->
  pick_fronts count peers bs
  = peers ++ take (Z.to_nat (Z.max 1 count) - length peers) (omap head bs).
Proof.
  intros HF. revert peers. induction HF as [|b bs Hb HF IH]; intros peers Hp; simpl.
  { by rewrite take_nil, app_nil_r. }
  destruct b as [|e b]; [done|]. simpl.
  replace (Z.to_nat (Z.max 1 count) - length peers)%nat
    with (S (Z.to_nat (Z.max 1 count) - length (peers ++ [e])))%nat
    by (rewrite length_app; simpl; lia).
  destruct (Z.leb_spec count (Z.of_nat (length (peers ++ [e])))) as [Hle|Hgt].
  - replace (Z.to_nat (Z.max 1 count) - length (peers ++ [e]))%nat with 0%nat
      by (rewrite length_app in *; simpl in *; lia).
    done.
  - rewrite IH by (rewrite length_app in *; simpl in *; lia). by rewrite <- app_assoc.
Qed.

(** The fronts GetRandomPeers picks. *)
Lemma GetRandomPeers_fronts intn t count :
  exists bs, bs ≡ₚ filter (fun b => b <> []) (buckets t) /\
    GetRandomPeers intn t count = take (Z.to_nat (Z.max 1 count)) (omap head bs) /\
    (forall p, p ∈ GetRandomPeers intn t count -> p ∈ all_peers t).
Proof.
  unfold GetRandomPeers. set (bs := filter (fun b => b <> []) (buckets t)).
  set (bs' := shuffle_loop intn (length bs - 1) bs).
  assert (bs' ≡ₚ bs) as P by apply shuffle_loop_perm.
  assert ((match bs with [] => [] | _ => pick_fronts count [] bs' end)
          = take (Z.to_nat (Z.max 1 count)) (omap head bs')) as E.
  { assert (Forall (fun b => b <> []) bs') as HF.
    { rewrite P. apply Forall_forall. by intros b [? _]%list_elem_of_filter. }
    clearbody bs bs'. destruct bs as [|b0 bs0].
    { apply Permutation_nil_r in P as ->. simpl. by rewrite take_nil. }
    rewrite pick_fronts_spec by (try done; simpl; lia). simpl. f_equal. lia. }
  exists bs'. split_and!; [done|exact E|]. rewrite E. intros p Hp.
  assert (p ∈ omap head bs') as Hp'.
  { rewrite <- (take_drop (Z.to_nat (Z.max 1 count)) (omap head bs')). apply elem_of_app. by left. }
  rewrite P in Hp'. apply list_elem_of_omap in Hp' as (b & Hb & Eh).
  apply list_elem_of_filter in Hb as [_ Hb]. apply list_elem_of_lookup in Hb as [i Hi].
  apply elem_of_all_peers. exists i, b. split; [done|]. destruct b; simplify_eq/=. by left.
Qed.

(** Listing a table: GetPeers gives contacts of the table with pairwise different public keys, none of them the node's own, and every other public key of the table is represented; GetRandomPeers gives, whatever the random numbers are, the front contacts of max(1, count) of the non-empty buckets, or of all of them when there are fewer. *)
Lemma peer_listing_spec intn t count :
  (NoDup (PublicKeyHex <$> GetPeers t) /\
   GetPeers t `sublist_of` all_peers t /\
   (forall p, p ∈ GetPeers t -> PublicKeyHex p <> PublicKeyHex (self t)) /\
   (forall p, p ∈ all_peers t -> PublicKeyHex p <> PublicKeyHex (self t) ->
      exists q, q ∈ GetPeers t /\ PublicKeyHex q = PublicKeyHex p)) /\
  exists bs, bs ≡ₚ filter (fun b => b <> []) (buckets t) /\
    GetRandomPeers intn t count = take (Z.to_nat (Z.max 1 count)) (omap head bs) /\
    (forall p, p ∈ GetRandomPeers intn t count -> p ∈ all_peers t).
Proof. split; [apply GetPeers_listing|apply GetRandomPeers_fronts]. Qed.

(** ** Concrete tables: witnesses and behaviours that differ from the comments *)

Definition peer1 (b : Z) (addr : list Z) : ID := mkID [b] addr [b] [] [].

(** The node 0 with the contacts 64 (bucket 1) and 8 (bucket 4). *)
Definition table1 : RoutingTable :=
  mkTable (peer1 0 [])
    [[]; [peer1 64 []]; []; []; [peer1 8 []]; []; []; [peer1 0 []]].

Ltac table_vm := first [apply (bool_decide_unpack _); vm_compute; exact I | vm_compute; reflexivity].

Lemma table1_reachable : table_reachable (peer1 0 []) table1.
Proof.
  eexists. split; [table_vm|].
  eapply rtc_l; [apply (step_update _ (peer1 64 [])); table_vm|].
  eapply rtc_once. apply (step_update _ (peer1 8 [])); table_vm.
Qed.

Lemma wf_table1 : wf_table 1 table1.
Proof. apply (reachable_wf 1 (peer1 0 [])); [lia|table_vm|apply table1_reachable]. Qed.


(** The comment of FindClosestPeers promises the [count] contacts with the smallest distance.
    The loop reads the buckets on both sides of the target's in step and stops as soon as it
    has [count] contacts, so a closer contact two buckets up can be missed: for the target 32
    the table holds 8 at distance 40, and the call returns 64 at distance 96. *)
Lemma FindClosestPeers_misses_closer :
  exists r, FindClosestPeers table1 (peer1 32 []) 1 = Ok r /\ r = [peer1 64 []] /\
    peer1 8 [] ∈ all_peers table1 /\
    distance (peer1 8 []) (peer1 32 []) < distance (peer1 64 []) (peer1 32 []).
Proof. eexists. split_and!; [vm_compute; reflexivity|done|table_vm|table_vm]. Qed.

(** Update of a contact already in the table keeps the stored value: a new address carried by
    the same identity is lost, so UpdateSelf has no effect. *)
Lemma Update_keeps_stored_value :
  exists t', Update table1 (peer1 64 [1; 2; 3]) = Ok t' /\ t' = table1.
Proof. eexists. split; [vm_compute; reflexivity|reflexivity]. Qed.

(** Seventeen contacts fit into a bucket of BucketSize 16. *)
Definition fill_bucket : res unit RoutingTable :=
  foldr (fun k m => let? t := m in Update t (peer1 (128 + Z.of_nat k) []))
    (CreateRoutingTable (peer1 0 [])) (seq 0 20).

Lemma bucket_overfull :
  exists t b, fill_bucket = Ok t /\ Bucket t 0 = Some b /\
    Z.of_nat (length b) = BucketSize + 1.
Proof. eexists _, _. split_and!; vm_compute; reflexivity. Qed.

(** The operations on a well-formed table. Update never panics: a known contact moves to the front of its bucket and the table keeps the same contacts, an unknown one is put in front when the bucket holds at most BucketSize contacts and is dropped when it is full. RemovePeer reports whether the contact was there, takes exactly it out and leaves the others. GetPeers lists contacts with pairwise different public keys, none the node's own, and represents every other key of the table; GetRandomPeers gives, whatever the random numbers are, the front contacts of max(1, count) of the non-empty buckets, or of all of them when there are fewer. *)
Theorem table_operations_spec :
  (forall n t target,
   wf_table n t -> wf_id n target ->
   exists t' b, Update t target = Ok t' /\ self t' = self t /\
     Bucket t (bucket_id t target) = Some b /\
     (PeerExists t target = true ->
        all_peers t' ≡ₚ all_peers t /\
        exists e rest, Bucket t' (bucket_id t target) = Some (e :: rest) /\ Id e = Id target) /\
     (PeerExists t target = false -> Z.of_nat (length b) <= BucketSize ->
        all_peers t' ≡ₚ target :: all_peers t /\
        Bucket t' (bucket_id t target) = Some (target :: b)) /\
     (PeerExists t target = false -> BucketSize < Z.of_nat (length b) -> t' = t)) /\
  (forall n t target,
   wf_table n t -> wf_id n target ->
   exists t', RemovePeer t target = Ok (t', PeerExists t target) /\
     self t' = self t /\
     PeerExists t' target = false /\
     (forall p, wf_id n p -> Equals p target = false -> PeerExists t' p = PeerExists t p) /\
     (PeerExists t target = true ->
        exists e, Id e = Id target /\ all_peers t ≡ₚ e :: all_peers t') /\
     (PeerExists t target = false -> t' = t)) /\
  (forall intn t count,
   (NoDup (PublicKeyHex <$> GetPeers t) /\
    GetPeers t `sublist_of` all_peers t /\
    (forall p, p ∈ GetPeers t -> PublicKeyHex p <> PublicKeyHex (self t)) /\
    (forall p, p ∈ all_peers t -> PublicKeyHex p <> PublicKeyHex (self t) ->
       exists q, q ∈ GetPeers t /\ PublicKeyHex q = PublicKeyHex p)) /\
   exists bs, bs ≡ₚ filter (fun b => b <> []) (buckets t) /\
     GetRandomPeers intn t count = take (Z.to_nat (Z.max 1 count)) (omap head bs) /\
     (forall p, p ∈ GetRandomPeers intn t count -> p ∈ all_peers t)).
Proof. split_and!; [exact Update_spec|exact RemovePeer_spec|exact peer_listing_spec]. Qed.

Lemma table_operations_spec_witness :
  (exists t', Update table1 (peer1 65 []) = Ok t' /\ all_peers t' ≡ₚ peer1 65 [] :: all_peers table1) /\
  (exists t', RemovePeer table1 (peer1 64 []) = Ok (t', true) /\ PeerExists t' (peer1 64 []) = false).
Proof.
  split.
  { destruct ((proj1 table_operations_spec) 1%nat table1 (peer1 65 [])) as (t' & b & E & _ & B & _ & H & _);
      [apply wf_table1|table_vm|].
    exists t'. split; [exact E|]. apply H; [table_vm|].
    vm_compute in B. injection B as <-. vm_compute. discriminate. }
  { destruct ((proj1 (proj2 table_operations_spec)) 1%nat table1 (peer1 64 [])) as (t' & E & _ & P & _);
      [apply wf_table1|table_vm|]. exists t'. split; assumption. }
Defined.

(** C27. FindClosestPeers on a well-formed table returns contacts of the table, none twice, in strictly increasing distance from the target, exactly min(count, number of contacts) of them; and when the bucket of the target holds at least count contacts they are the closest of the whole table: every other contact is strictly farther away. *)
Theorem FindClosestPeers_correct :
  (forall (S : SortSlice) n t target count,
   wf_table n t -> wf_id n target -> 0 <= count ->
   exists r, FindClosestPeers t target count = Ok r /\
     r ⊆+ all_peers t /\
     StronglySorted (fun x y => distance x target < distance y target) r /\
     Z.of_nat (length r) = Z.min count (Z.of_nat (length (all_peers t)))) /\
  (forall (S : SortSlice) n t target count b r,
   wf_table n t -> wf_id n target ->
   Bucket t (bucket_id t target) = Some b -> 0 <= count <= Z.of_nat (length b) ->
   FindClosestPeers t target count = Ok r ->
   forall p q, p ∈ r -> q ∈ all_peers t -> q ∉ r -> distance p target < distance q target).
Proof. split_and!; [exact FindClosestPeers_spec|exact FindClosestPeers_closest]. Qed.

Lemma FindClosestPeers_correct_witness :
  (exists r, FindClosestPeers table1 (peer1 32 []) 2 = Ok r /\ Z.of_nat (length r) = 2) /\
  (distance (peer1 64 []) (peer1 65 []) < distance (peer1 8 []) (peer1 65 [])).
Proof.
  split.
  { destruct ((proj1 FindClosestPeers_correct) stable_sort_slice 1%nat table1 (peer1 32 []) 2) as (r & E & _ & _ & L);
      [apply wf_table1|table_vm|lia|]. exists r. split; [exact E|]. rewrite L. reflexivity. }
  { apply ((proj2 FindClosestPeers_correct) stable_sort_slice 1%nat table1 (peer1 65 []) 1
             [peer1 64 []] [peer1 64 []]);
      [apply wf_table1|table_vm|reflexivity|simpl; lia|vm_compute; reflexivity|table_vm..]. }
Defined.
