(* ===== verification/Discovery.v ===== *)
(** * network/components/discovery: lookups in the DHT and the discovery component

    A lookup asks up to [alpha] peers at a time for the peers they know near a target.  Each
    question is a goroutine that talks to the network, checks which of the peers it is told are
    online and hands its result to the lookup over a channel.  Here the goroutines are part of the
    state, and an execution is a sequence of events: what the network answers to one goroutine, or
    the delivery of the result of one.  net.Client, Client.Request, net.ClientExist and
    net.Bootstrap appear as the answers they give.

    FindNode runs its lookups in goroutines that each hold one mutex from begin to end: they are
    executed one after the other, in any order.  The routing table is Routes.v. *)
From S2P Require Import Prelude GoSort Peer Routes.
Local Open Scope Z_scope.
Local Open Scope go_scope.

Abbreviation pubkey := (list Z).

(** ** rpc.go *)

Record lookupResult := mkResult { rpeer : ID; rresponses : list ID }.

Record lookupBucket := mkLookupBucket { pending : Z; queue : list ID }.

Definition new_lookupBucket : lookupBucket := mkLookupBucket 0 [].

(** A goroutine of queryPeerByIDExt: it waits for the client and the response, or it goes through
    the peers of the response; [Checking p [] valid] is blocked in the send of its result. *)
Inductive query :=
| Querying (p : ID)
| Checking (p : ID) (rest valid : list ID).

(** [NoResponse]: Client or Request failed or the response had another type.  The last three are
    the outcomes for one peer of the response: ClientExist holds, Bootstrap returned a client,
    Bootstrap returned none. *)
Inductive answer :=
| NoResponse
| Nodes (peers : list ID)
| ClientExists
| Bootstrapped
| NotBootstrapped.

(** One step of queryPeerByIDExt; None when it is not waiting for such an answer. *)
Definition queryPeerByIDExt (a : answer) (q : query) (router : RoutingTable) : option (res unit (query * RoutingTable)) :=
  match q, a with
  | Querying p, NoResponse => Some (Ok (Checking p [] [], router))
  | Querying p, Nodes peers => Some (Ok (Checking p peers [], router))
  | Checking p (id :: rest) validPeers, NotBootstrapped => Some (Ok (Checking p rest validPeers, router))
  | Checking p (id :: rest) validPeers, Bootstrapped =>
    Some (let? router := Update router id in Ok (Checking p rest (validPeers ++ [id]), router))
  | Checking p (id :: rest) validPeers, ClientExists => Some (Ok (Checking p rest (validPeers ++ [id]), router))
  | _, _ => None
  end.

(** The result a goroutine offers on the channel. *)
Definition offered (q : query) : option lookupResult :=
  match q with Checking p [] valid => Some (mkResult p valid) | _ => None end.

(** The state of performLookupClosest; [lAsked] is the history of the peers queried. *)
Record lookup := mkLookup {
  lBucket : lookupBucket;
  lKnown : gset pubkey;
  lVisited : gset pubkey;
  lResults : list ID;
  lRouter : RoutingTable;
  lRunning : list query;
  lAsked : list ID
}.

(** The first loop: [alpha] peers of the queue are asked. *)
Fixpoint start_queries (alpha pending : Z) (queue : list ID) (known : gset pubkey) (running : list query) (asked : list ID)
  : Z * list ID * gset pubkey * list query * list ID :=
  match queue with
  | p :: queue' =>
    if pending <? alpha
    then start_queries alpha (pending + 1) queue' ({[PublicKeyHex p]} ∪ known) (running ++ [Querying p]) (asked ++ [p])
    else (pending, queue, known, running, asked)
  | [] => (pending, [], known, running, asked)
  end.

Definition start_lookup (alpha : Z) (b : lookupBucket) (visited : gset pubkey) (router : RoutingTable) : lookup :=
  let '(pending, queue, known, running, asked) := start_queries alpha (pending b) (queue b) ∅ [] [] in
  mkLookup (mkLookupBucket pending queue) known visited [] router running asked.

(** The loop over a response: table, results and queue. *)
Fixpoint take_response (known : gset pubkey) (response : list ID) (router : RoutingTable) (results queue : list ID)
  : res unit (RoutingTable * list ID * list ID) :=
  match response with
  | [] => Ok (router, results, queue)
  | peerID :: response =>
    let? router := Update router peerID in
    if decide (PublicKeyHex peerID ∈ known) then take_response known response router results queue
    else take_response known response router (results ++ [peerID]) (queue ++ [peerID])
  end.

(** The loop that schedules new queries from the queue, which keeps its elements. *)
Fixpoint schedule (alpha pending : Z) (queue : list ID) (visited : gset pubkey) (running : list query) (asked : list ID)
  : Z * gset pubkey * list query * list ID :=
  match queue with
  | p :: queue =>
    if pending <? alpha then
      if decide (PublicKeyHex p ∈ visited) then schedule alpha pending queue visited running asked
      else schedule alpha (pending + 1) queue ({[PublicKeyHex p]} ∪ visited) (running ++ [Querying p]) (asked ++ [p])
    else (pending, visited, running, asked)
  | [] => (pending, visited, running, asked)
  end.

Section lookups.
Context `{SortSlice} `{SortSliceIx}.

(** The comparison that performLookupClosest hands to sort.Slice for its queue: it reads the
    positions in [results].  Reading past its end panics. *)
Definition results_less (targetID : ID) (results : list ID) (i j : nat) : bool :=
  match results !! i, results !! j with
  | Some x, Some y => Less (XorID x targetID) (XorID y targetID)
  | _, _ => false
  end.

Definition sort_queue (targetID : ID) (results queue : list ID) : res unit (list ID) :=
  if ((1 <? length queue) && (length results <? length queue))%nat then Panic
  else Ok (sort_slice_ix (results_less targetID results) queue).

(** One round of the search: the result of [lRunning s !! i] is received. *)
Definition receive_result (alpha : Z) (targetID : ID) (i : nat) (result : lookupResult) (s : lookup) : res unit lookup :=
  let running := delete i (lRunning s) in
  let pending := pending (lBucket s) - 1 in
  let? router := match rresponses result with
                 | [] => let? removed := RemovePeer (lRouter s) (rpeer result) in Ok removed.1
                 | _ => Ok (lRouter s)
                 end in
  let? taken := take_response (lKnown s) (rresponses result) router (lResults s) (queue (lBucket s)) in
  let '(router, results, queue) := taken in
  let? queue := sort_queue targetID results queue in
  let queue := if BucketSize <? Z.of_nat (length queue) then take (Z.to_nat BucketSize) queue else queue in
  let '(pending, visited, running, asked) := schedule alpha pending queue (lVisited s) running (lAsked s) in
  Ok (mkLookup (mkLookupBucket pending queue) (lKnown s) visited results router running asked).

(** What happens next: an answer reaches a goroutine, or the lookup receives its result. *)
Inductive lookup_event := Answer (i : nat) (a : answer) | Deliver (i : nat).

(** None: the event cannot happen in this state. *)
Definition lookup_step (alpha : Z) (targetID : ID) (e : lookup_event) (s : lookup) : option (res unit lookup) :=
  match e with
  | Answer i a =>
    q ← lRunning s !! i;
    r ← queryPeerByIDExt a q (lRouter s);
    Some (let? qr := r in
          Ok (mkLookup (lBucket s) (lKnown s) (lVisited s) (lResults s) qr.2 (<[i := qr.1]> (lRunning s)) (lAsked s)))
  | Deliver i =>
    if 0 <? pending (lBucket s) then
      q ← lRunning s !! i;
      result ← offered q;
      Some (receive_result alpha targetID i result s)
    else None
  end.

Fixpoint run_lookup (alpha : Z) (targetID : ID) (events : list lookup_event) (s : lookup) : option (res unit lookup) :=
  match events with
  | [] => Some (Ok s)
  | e :: events =>
    r ← lookup_step alpha targetID e s;
    match r with
    | Ok s => run_lookup alpha targetID events s
    | Err e => Some (Err e)
    | Panic => Some Panic
    end
  end.

(** performLookupClosest along a sequence of events; None: they are not an execution that returns. *)
Definition performLookupClosest (alpha : Z) (targetID : ID) (events : list lookup_event) (b : lookupBucket)
    (visited : gset pubkey) (router : RoutingTable) : option (res unit lookup) :=
  r ← run_lookup alpha targetID events (start_lookup alpha b visited router);
  match r with
  | Ok s => if 0 <? pending (lBucket s) then None else Some (Ok s)
  | Err e => Some (Err e)
  | Panic => Some Panic
  end.

(** *** FindNode *)

(** The loop that deals the closest peers out to the lookups. *)
Fixpoint distribute (self : ID) (disjointPaths i : Z) (peers : list ID) (visited : gset pubkey)
    (lookups : list lookupBucket) (results : list ID) : res unit (gset pubkey * list lookupBucket * list ID) :=
  match peers with
  | [] => Ok (visited, lookups, results)
  | peerID :: peers =>
    let visited := {[PublicKeyHex peerID]} ∪ visited in
    if decide (Address peerID = Address self) then distribute self disjointPaths (i + 1) peers visited lookups results
    else
      let lookups := if Z.of_nat (length lookups) <? disjointPaths then lookups ++ [new_lookupBucket] else lookups in
      if disjointPaths =? 0 then Panic
      else let k := Z.to_nat (Z.rem i disjointPaths) in
      match lookups !! k with
      | None => Panic
      | Some l =>
        distribute self disjointPaths (i + 1) peers visited
          (<[k := mkLookupBucket (pending l) (queue l ++ [peerID])]> lookups) (results ++ [peerID])
      end
  end.

(** The lookups in the order in which they get the mutex, each with its events. *)
Fixpoint perform_lookups (alpha : Z) (targetID : ID) (lookups : list lookupBucket) (runs : list (nat * list lookup_event))
    (visited : gset pubkey) (router : RoutingTable) (results : list ID) : option (res unit (RoutingTable * list ID)) :=
  match runs with
  | [] => Some (Ok (router, results))
  | (k, events) :: runs =>
    b ← lookups !! k;
    r ← performLookupClosest alpha targetID events b visited router;
    match r with
    | Ok s => perform_lookups alpha targetID lookups runs (lVisited s) (lRouter s) (results ++ lResults s)
    | Err e => Some (Err e)
    | Panic => Some Panic
    end
  end.

(** sort.Slice by [Xor] and the cut to BucketSize results. *)
Definition closest_results (targetID : ID) (results : list ID) : list ID :=
  let results := sort_slice (fun x y => Less (Xor x targetID) (Xor y targetID)) results in
  if BucketSize <? Z.of_nat (length results) then take (Z.to_nat BucketSize) results else results.

(** FindNode along an execution of its lookups; [router] is None when the component is not
    registered.  The result None: [runs] is not an execution. *)
Definition FindNode (router : option RoutingTable) (self targetID : ID) (alpha disjointPaths : Z)
    (runs : list (nat * list lookup_event)) : option (res unit (option RoutingTable * list ID)) :=
  match router with
  | None => Some (Ok (None, []))
  | Some router =>
    match (let? peers := FindClosestPeers router targetID alpha in distribute self disjointPaths 0 peers ∅ [] []) with
    | Panic => Some Panic
    | Err e => Some (Err e)
    | Ok (visited, lookups, results) =>
      let visited := {[PublicKeyHex self]} ∪ visited in
      if decide (runs.*1 ≡ₚ seq 0 (length lookups)) then
        r ← perform_lookups alpha targetID lookups runs visited router results;
        Some (let? tr := r in Ok (Some tr.1, closest_results targetID tr.2))
      else None
    end
  end.

(** *** performLookup *)

(** A goroutine of queryPeerByID only asks and sends what it is told: [Some peers] is a
    LookupNodeResponse, None anything else. *)
Definition queryPeerByID (response : option (list ID)) : list ID := default [] response.

Record plain_lookup := mkPlain {
  plBucket : lookupBucket;
  plVisited : gset pubkey;
  plResults : list ID;
  plRunning : list ID
}.

(** Both loops that move peers from the queue into goroutines; [keep] adds them to the results. *)
Fixpoint ask_queue (keep : bool) (alpha pending : Z) (queue results running : list ID) : Z * list ID * list ID :=
  match queue with
  | p :: queue' =>
    if pending <? alpha
    then ask_queue keep alpha (pending + 1) queue' (if keep then results ++ [p] else results) (running ++ [p])
    else (pending, results, running)
  | [] => (pending, results, running)
  end.

Definition start_plain (alpha : Z) (b : lookupBucket) (visited : gset pubkey) : plain_lookup :=
  let '(pending, results, running) := ask_queue true alpha (pending b) (queue b) [] [] in
  mkPlain (mkLookupBucket pending []) visited results running.

Fixpoint expand_response (response : list ID) (visited : gset pubkey) (results queue : list ID)
  : gset pubkey * list ID * list ID :=
  match response with
  | [] => (visited, results, queue)
  | peerID :: response =>
    if decide (PublicKeyHex peerID ∈ visited) then expand_response response visited results queue
    else expand_response response ({[PublicKeyHex peerID]} ∪ visited) (results ++ [peerID]) (queue ++ [peerID])
  end.

(** The response of the i-th goroutine arrives. *)
Definition plain_step (alpha : Z) (i : nat) (response : option (list ID)) (s : plain_lookup) : option plain_lookup :=
  if 0 <? pending (plBucket s) then
    _ ← plRunning s !! i;
    let '(visited, results, queue) := expand_response (queryPeerByID response) (plVisited s) (plResults s) (queue (plBucket s)) in
    let '(pending, results, running) :=
      ask_queue false alpha (pending (plBucket s) - 1) queue results (delete i (plRunning s)) in
    Some (mkPlain (mkLookupBucket pending []) visited results running)
  else None.

Fixpoint run_plain (alpha : Z) (events : list (nat * option (list ID))) (s : plain_lookup) : option plain_lookup :=
  match events with
  | [] => Some s
  | (i, response) :: events => s ← plain_step alpha i response s; run_plain alpha events s
  end.

Definition performLookup (alpha : Z) (events : list (nat * option (list ID))) (b : lookupBucket) (visited : gset pubkey)
    : option plain_lookup :=
  s ← run_plain alpha events (start_plain alpha b visited);
  if 0 <? pending (plBucket s) then None else Some s.

(** *** SuggestPeers and UpdateSelf; [router] is None when the component is not registered *)

Definition SuggestPeers (intn : nat -> nat) (router : option RoutingTable) (count : Z) : list ID :=
  match router with Some router => GetRandomPeers intn router count | None => [] end.

Definition UpdateSelf (router : option RoutingTable) (newId : ID) : res unit (option RoutingTable) :=
  match router with
  | None => Ok None
  | Some router =>
    if Equals (Self router) newId then let? router := Update router newId in Ok (Some router) else Ok (Some router)
  end.

(** ** component.go *)

(** [Routes] is None until Startup. *)
Record Component := mkComponent {
  DisablePing : bool;
  DisablePong : bool;
  DisableLookup : bool;
  DisableAutoFind : bool;
  Routes : option RoutingTable
}.

Definition DisablePongOption (o : Component) : Component :=
  mkComponent (DisablePing o) true (DisableLookup o) (DisableAutoFind o) (Routes o).

Definition New (opts : list (Component -> Component)) : Component :=
  foldl (fun p opt => opt p) (mkComponent false false false false None) opts.

Definition set_routes (t : option RoutingTable) (d : Component) : Component :=
  mkComponent (DisablePing d) (DisablePong d) (DisableLookup d) (DisableAutoFind d) t.

Definition Startup (id : ID) (state : Component) : res unit Component :=
  let? t := CreateRoutingTable id in Ok (set_routes (Some t) state).

(** The fields of the client that Receive writes. *)
Record client_state := mkClientState { PubKey : list Z; RecvChannelClosed : bool }.

Inductive message :=
| Ping | Pong | LookupNodeRequest (target : option ID) | Disconnect | OtherMessage.

(** What Receive makes the client do. *)
Inductive action := TellPong | ReplyPeers (peers : list ID) | CloseRecvRemotePubKey | DisconnectClient.

(** Update of every peer of a list. *)
Fixpoint update_all (t : RoutingTable) (peers : list ID) : res unit RoutingTable :=
  match peers with
  | [] => Ok t
  | peerID :: peers => let? t := Update t peerID in update_all t peers
  end.

(** Receive: whether it returned an error, the actions, the component and the client.  [sent] tells
    whether Tell or Reply succeeds, [runs] is the execution of FindNode. *)
Definition Receive (self : ID) (sender : ID) (msg : message) (sent : bool) (runs : list (nat * list lookup_event))
    (state : Component) (client : client_state) : option (res unit (bool * list action * Component * client_state)) :=
  match Routes state with
  | None => Some Panic
  | Some t =>
    match Update t sender with
    | Panic => Some Panic
    | Err e => Some (Err e)
    | Ok t =>
      let state := set_routes (Some t) state in
      match msg with
      | Ping =>
        if DisablePing state then Some (Ok (true, [], state, client))
        else Some (Ok (sent, [TellPong], state, client))
      | Pong =>
        let closing := if RecvChannelClosed client then [] else [CloseRecvRemotePubKey] in
        let client := mkClientState (hex_encode (NetKey sender)) true in
        if DisablePong state then Some (Ok (true, closing, state, client))
        else
          r ← FindNode (Some t) self sender BucketSize 8 runs;
          Some (let? found := r in
                let? t := match found.1 with Some t => update_all t found.2 | None => Panic end in
                Ok (true, closing, set_routes (Some t) state, client))
      | LookupNodeRequest target =>
        if DisableLookup state then Some (Ok (true, [], state, client))
        else match target with
        | None => Some Panic
        | Some target =>
          Some (let? peers := FindClosestPeers t target BucketSize in
                Ok (sent, [ReplyPeers peers], state, client))
        end
      | Disconnect => Some (Ok (true, [DisconnectClient], state, client))
      | OtherMessage => Some (Ok (true, [], state, client))
      end
    end
  end.

Definition PeerDisconnect (client : option ID) (state : Component) : res unit Component :=
  match client with
  | None => Ok state
  | Some id =>
    match Routes state with
    | None => Panic
    | Some t =>
      if PeerExists t id then let? removed := RemovePeer t id in Ok (set_routes (Some removed.1) state)
      else Ok state
    end
  end.
End lookups.

(** ** The loops of a lookup *)

Abbreviation keys_of l := (PublicKeyHex <$> l).

Lemma start_queries_spec alpha pending0 queue0 known0 running0 asked0 :
  pending0 <= alpha ->
  exists asked rest, queue0 = asked ++ rest /\
    start_queries alpha pending0 queue0 known0 running0 asked0
    = (pending0 + Z.of_nat (length asked), rest, list_to_set (keys_of asked) ∪ known0,
       running0 ++ (Querying <$> asked), asked0 ++ asked) /\
    pending0 + Z.of_nat (length asked) <= alpha /\
    (rest <> [] -> pending0 + Z.of_nat (length asked) = alpha).
Proof.
  revert pending0 known0 running0 asked0. induction queue0 as [|p queue0 IH]; intros pending0 known0 running0 asked0 Ha;
    cbn [start_queries].
  - exists [], []. rewrite !app_nil_r. cbn [length fmap list_fmap list_to_set]. rewrite Z.add_0_r, (union_empty_l_L _). done.
  - destruct (Z.ltb_spec pending0 alpha) as [Hlt|Hge].
    + destruct (IH (pending0 + 1) ({[PublicKeyHex p]} ∪ known0) (running0 ++ [Querying p]) (asked0 ++ [p]) ltac:(lia))
        as (asked & rest & -> & -> & H1 & H2).
      exists (p :: asked), rest. split; [done|]. cbn [length fmap list_fmap list_to_set]. rewrite Nat2Z.inj_succ.
      split; [|split; [lia|intros; rewrite <- H2 by done; lia]].
      rewrite <- !(assoc_L app). rewrite (assoc_L (∪) _ {[_]}), (comm_L (∪) _ {[_]}).
      by replace (pending0 + 1 + Z.of_nat (length asked)) with (pending0 + Z.succ (Z.of_nat (length asked))) by lia.
    + exists [], (p :: queue0). rewrite !app_nil_r. cbn [length fmap list_fmap list_to_set]. rewrite Z.add_0_r, (union_empty_l_L _). split_and!; [done..|lia|lia].
Qed.

(** The new questions are distinct peers of the queue that nobody asked before; when not all places
    are taken, everything in the queue has been visited. *)
Lemma schedule_spec alpha pending0 queue0 visited0 running0 asked0 :
  pending0 <= alpha ->
  exists new, schedule alpha pending0 queue0 visited0 running0 asked0
    = (pending0 + Z.of_nat (length new), list_to_set (keys_of new) ∪ visited0, running0 ++ (Querying <$> new), asked0 ++ new) /\
    new `sublist_of` queue0 /\ NoDup (keys_of new) /\ Forall (fun p => PublicKeyHex p ∉ visited0) new /\
    pending0 + Z.of_nat (length new) <= alpha /\
    (pending0 + Z.of_nat (length new) < alpha ->
     Forall (fun p => PublicKeyHex p ∈ (list_to_set (keys_of new) : gset pubkey) ∪ visited0) queue0).
Proof.
  revert pending0 visited0 running0 asked0.
  induction queue0 as [|p queue0 IH]; intros pending0 visited0 running0 asked0 Ha; cbn [schedule].
  { exists []. rewrite !app_nil_r. cbn [length fmap list_fmap list_to_set]. rewrite Z.add_0_r, (union_empty_l_L _). split_and!; try done. constructor. }
  destruct (Z.ltb_spec pending0 alpha) as [Hlt|Hge].
  - destruct (decide (PublicKeyHex p ∈ visited0)) as [Hv|Hv].
    + destruct (IH pending0 visited0 running0 asked0 Ha) as (new & -> & H1 & H2 & H3 & H4 & H5).
      exists new. split_and!; [done|by apply sublist_cons|done..|]. intros H. constructor; [set_solver|auto].
    + destruct (IH (pending0 + 1) ({[PublicKeyHex p]} ∪ visited0) (running0 ++ [Querying p]) (asked0 ++ [p]) ltac:(lia))
        as (new & -> & H1 & H2 & H3 & H4 & H5).
      exists (p :: new). cbn [length fmap list_fmap list_to_set]. rewrite Nat2Z.inj_succ. split_and!.
      * rewrite <- !(assoc_L app). rewrite (assoc_L (∪) _ {[_]}), (comm_L (∪) _ {[_]}).
        by replace (pending0 + 1 + Z.of_nat (length new)) with (pending0 + Z.succ (Z.of_nat (length new))) by lia.
      * by apply sublist_skip.
      * constructor; [|done]. intros (q & E & Hq)%list_elem_of_fmap. rewrite Forall_forall in H3.
        apply (H3 q Hq). rewrite <- E. set_solver.
      * constructor; [done|]. apply (Forall_impl _ _ _ H3). set_solver.
      * lia.
      * intros H. constructor; [set_solver|]. refine (Forall_impl _ _ _ (H5 ltac:(lia)) _). set_solver.
  - exists []. rewrite !app_nil_r. cbn [length fmap list_fmap list_to_set]. rewrite Z.add_0_r, (union_empty_l_L _). split_and!; try done; [apply sublist_nil_l|constructor|lia].
Qed.

Lemma take_response_spec n known0 response t results0 queue0 :
  wf_table n t -> Forall (wf_id n) response ->
  exists t' new, take_response known0 response t results0 queue0 = Ok (t', results0 ++ new, queue0 ++ new) /\
    wf_table n t' /\ new = filter (fun p => PublicKeyHex p ∉ known0) response.
Proof.
  revert t results0 queue0. induction response as [|p response IH]; intros t results0 queue0 W F; cbn [take_response].
  { exists t, []. rewrite !app_nil_r. done. }
  apply Forall_cons in F as [Hp F]. destruct (Update_Ok n t p W Hp) as (b & _ & E).
  pose proof (Update_wf n t p _ W (proj1 Hp) E) as W'. rewrite E. cbn [res_bind]. rewrite filter_cons.
  destruct (decide (PublicKeyHex p ∈ known0)) as [Hk|Hk].
  - destruct (IH _ results0 queue0 W' F) as (t' & new & -> & Wt & ->). exists t'. eexists. split; [done|]. split; [done|].
    by rewrite decide_False by tauto.
  - destruct (IH _ (results0 ++ [p]) (queue0 ++ [p]) W' F) as (t' & new & -> & Wt & ->). exists t'. eexists.
    rewrite decide_True by done. rewrite <- !(assoc_L app). done.
Qed.

(** ** The invariant of a lookup *)

Lemma NoDup_submseteq_l {A} (l k : list A) : l ⊆+ k -> NoDup k -> NoDup l.
Proof. intros [r P]%submseteq_Permutation. rewrite P. by intros [? _]%NoDup_app. Qed.

Lemma Forall_sublist {A} (P : A -> Prop) l1 l2 : l1 `sublist_of` l2 -> Forall P l2 -> Forall P l1.
Proof. induction 1; intros F; decompose_Forall_hyps; auto. Qed.

Definition query_peers (q : query) : list ID :=
  match q with Querying p => [p] | Checking p rest valid => p :: rest ++ valid end.

(** Identities of the length of the table, from the finite list [U] of those in the network. *)
Definition good (n : nat) (U : list ID) (p : ID) : Prop := wf_id n p /\ p ∈ U.

Definition answer_ok (n : nat) (U : list ID) (e : lookup_event) : Prop :=
  match e with Answer _ (Nodes peers) => Forall (good n U) peers | _ => True end.

Record lookup_inv (n : nat) (U : list ID) (alpha : Z) (s : lookup) : Prop := {
  li_pending : pending (lBucket s) = Z.of_nat (length (lRunning s));
  li_alpha : pending (lBucket s) <= alpha;
  li_table : wf_table n (lRouter s);
  li_queue : (length (queue (lBucket s)) <= length (lResults s))%nat;
  li_queued : Forall (good n U) (queue (lBucket s));
  li_results : Forall (good n U) (lResults s);
  li_running : Forall (fun q => Forall (good n U) (query_peers q)) (lRunning s);
  li_asked : NoDup (keys_of (lAsked s));
  li_visited : Forall (fun p => PublicKeyHex p ∈ lVisited s) (lAsked s);
  li_searched : pending (lBucket s) < alpha -> Forall (fun p => PublicKeyHex p ∈ lVisited s) (queue (lBucket s))
}.

(** The start of a lookup as FindNode makes it: distinct peers, all visited, no more than [alpha]. *)
Record start_ok (n : nat) (U : list ID) (alpha : Z) (b : lookupBucket) (visited0 : gset pubkey) (t : RoutingTable) : Prop := {
  so_pending : pending b = 0;
  so_queue : Z.of_nat (length (queue b)) <= alpha;
  so_good : Forall (good n U) (queue b);
  so_distinct : NoDup (keys_of (queue b));
  so_visited : Forall (fun p => PublicKeyHex p ∈ visited0) (queue b);
  so_table : wf_table n t
}.

Lemma start_lookup_eq alpha b visited0 t :
  pending b = 0 -> Z.of_nat (length (queue b)) <= alpha ->
  start_lookup alpha b visited0 t
  = mkLookup (mkLookupBucket (Z.of_nat (length (queue b))) []) (list_to_set (keys_of (queue b))) visited0 [] t
      (Querying <$> queue b) (queue b).
Proof.
  intros Hp Hq. unfold start_lookup. rewrite Hp.
  destruct (start_queries_spec alpha 0 (queue b) ∅ [] [] ltac:(lia)) as (asked & rest & E & -> & H1 & H2).
  assert (rest = []) as ->.
  { destruct rest; [done|]. specialize (H2 ltac:(done)). rewrite E, length_app in Hq. cbn in Hq. lia. }
  rewrite app_nil_r in E. subst. rewrite union_empty_r_L. done.
Qed.

Lemma start_lookup_inv n U alpha b visited0 t : start_ok n U alpha b visited0 t -> lookup_inv n U alpha (start_lookup alpha b visited0 t).
Proof.
  intros [Hp Hq Hg Hd Hv Ht]. rewrite start_lookup_eq by done. split; cbn; try done; try constructor.
  - by rewrite length_fmap.
  - apply Forall_fmap. apply (Forall_impl _ _ _ Hg). intros p H. by apply Forall_singleton.
Qed.

Section steps.
Context `{SortSlice} `{SortSliceIx}.
Context (n : nat) (U : list ID) (alpha : Z) (targetID : ID).

Lemma query_inv a q t :
  wf_table n t -> Forall (good n U) (query_peers q) -> answer_ok n U (Answer 0 a) ->
  match queryPeerByIDExt a q t with
  | None => True
  | Some r => exists q' t', r = Ok (q', t') /\ wf_table n t' /\ Forall (good n U) (query_peers q')
  end.
Proof.
  intros W F A. unfold queryPeerByIDExt. destruct q as [p|p [|id rest] valid], a; try done; cbn in F, A.
  - eexists _, _. split; [done|]. split; [done|]. apply Forall_cons in F as [F _]. by apply Forall_singleton.
  - eexists _, _. split; [done|]. split; [done|]. apply Forall_cons in F as [F _]. constructor; [done|]. by rewrite app_nil_r.
  - eexists _, _. split; [done|]. split; [done|]. decompose_Forall_hyps. constructor; [done|]. rewrite !Forall_app, Forall_singleton. done.
  - decompose_Forall_hyps. match goal with H : good n U id |- _ => destruct (Update_Ok n t id W (proj1 H)) as (b & _ & E);
      pose proof (Update_wf n t id _ W (proj1 (proj1 H)) E) as W' end.
    rewrite E. eexists _, _. split; [done|]. split; [done|]. constructor; [done|]. rewrite !Forall_app, Forall_singleton. done.
  - eexists _, _. split; [done|]. split; [done|]. decompose_Forall_hyps. constructor; [done|]. by apply Forall_app.
Qed.

Lemma sort_queue_ok results0 queue0 :
  (length queue0 <= length results0)%nat ->
  exists queue1, sort_queue targetID results0 queue0 = Ok queue1 /\ queue1 ≡ₚ queue0.
Proof.
  intros L. unfold sort_queue. destruct (Nat.ltb_spec (length results0) (length queue0)); [lia|]. rewrite andb_false_r.
  eexists. split; [done|]. apply sort_slice_ix_perm.
Qed.

Lemma cut_sublist (l : list ID) : (if BucketSize <? Z.of_nat (length l) then take (Z.to_nat BucketSize) l else l) `sublist_of` l.
Proof. destruct (_ <? _); [apply sublist_take|done]. Qed.

(** One round: the peers asked next, and what has become of the lookup. *)
Lemma receive_result_spec s i q result :
  lookup_inv n U alpha s -> lRunning s !! i = Some q -> offered q = Some result ->
  exists t new found queue', receive_result alpha targetID i result s
    = Ok (mkLookup (mkLookupBucket (pending (lBucket s) - 1 + Z.of_nat (length new)) queue') (lKnown s)
            (list_to_set (keys_of new) ∪ lVisited s) (lResults s ++ found) t
            (delete i (lRunning s) ++ (Querying <$> new)) (lAsked s ++ new)) /\
    wf_table n t /\ found = filter (fun p => PublicKeyHex p ∉ lKnown s) (rresponses result) /\
    Forall (good n U) found /\ Forall (good n U) queue' /\
    (exists queue1, queue1 ≡ₚ queue (lBucket s) ++ found /\ queue' `sublist_of` queue1) /\
    new `sublist_of` queue' /\ NoDup (keys_of new) /\ Forall (fun p => PublicKeyHex p ∉ lVisited s) new /\
    pending (lBucket s) - 1 + Z.of_nat (length new) <= alpha /\
    (pending (lBucket s) - 1 + Z.of_nat (length new) < alpha ->
     Forall (fun p => PublicKeyHex p ∈ (list_to_set (keys_of new) : gset pubkey) ∪ lVisited s) queue').
Proof.
  intros I Hq Ho. destruct q as [p|p [|? ?] valid]; [done| |done]. injection Ho as <-.
  pose proof (li_running _ _ _ _ I) as HR. rewrite Forall_forall in HR.
  specialize (HR _ (list_elem_of_lookup_2 _ _ _ Hq)). apply Forall_cons in HR as [Hp HV]. cbn in HV.
  assert (exists t, match valid with
    | [] => let? removed := RemovePeer (lRouter s) p in Ok removed.1 | _ => Ok (lRouter s) end = Ok t /\ wf_table n t) as (t0 & E0 & W0).
  { destruct valid; [|eauto using li_table]. destruct (RemovePeer_spec n (lRouter s) p (li_table _ _ _ _ I) (proj1 Hp)) as (t & E & _).
    rewrite E. eexists. split; [done|]. eapply RemovePeer_wf; [by apply I|done]. }
  unfold receive_result. cbn [rresponses rpeer]. cbv zeta. rewrite E0. cbn [res_bind].
  destruct (take_response_spec n (lKnown s) valid t0 (lResults s) (queue (lBucket s)) W0) as (t & found & -> & W & Ef).
  { apply (Forall_impl _ _ _ HV). by intros ? []. }
  cbn [res_bind]. destruct (sort_queue_ok (lResults s ++ found) (queue (lBucket s) ++ found)) as (queue1 & -> & P1).
  { rewrite !length_app. pose proof (li_queue _ _ _ _ I). lia. }
  cbn [res_bind]. pose proof (cut_sublist queue1) as C. set (queue' := if BucketSize <? _ then _ else _) in *.
  destruct (schedule_spec alpha (pending (lBucket s) - 1) queue' (lVisited s) (delete i (lRunning s)) (lAsked s))
    as (new & -> & S1 & S2 & S3 & S4 & S5); [pose proof (li_alpha _ _ _ _ I); lia|].
  assert (Forall (good n U) found) as GF.
  { subst found. rewrite Forall_forall in HV |- *. intros x [_ Hx]%list_elem_of_filter. by apply HV. }
  exists t, new, found, queue'. split_and!; eauto. eapply Forall_sublist; [exact C|]. rewrite P1. apply Forall_app. split; [apply I|done].
Qed.

Lemma lookup_step_inv s e r :
  lookup_inv n U alpha s -> answer_ok n U e -> lookup_step alpha targetID e s = Some r ->
  exists s', r = Ok s' /\ lookup_inv n U alpha s' /\ lVisited s ⊆ lVisited s'.
Proof.
  intros I A. unfold lookup_step. destruct e as [i a|i].
  - destruct (lRunning s !! i) as [q|] eqn:Hq; cbn [mbind option_bind]; [|done].
    pose proof (li_running _ _ _ _ I) as HR. pose proof HR as HR'. rewrite Forall_forall in HR'.
    pose proof (query_inv a q (lRouter s) (li_table _ _ _ _ I) (HR' _ (list_elem_of_lookup_2 _ _ _ Hq)) A) as Q.
    destruct (queryPeerByIDExt a q (lRouter s)) as [r'|]; cbn [mbind option_bind]; [|done].
    destruct Q as (q' & t' & -> & W & F). intros [= <-]. eexists. split; [done|]. split; [|done]. destruct I. split; cbn; try done.
    + by rewrite length_insert.
    + by apply Forall_insert.
  - destruct (0 <? pending (lBucket s)); [|done].
    destruct (lRunning s !! i) as [q|] eqn:Hq; cbn [mbind option_bind]; [|done].
    destruct (offered q) as [result|] eqn:Ho; cbn [mbind option_bind]; [|done]. intros [= <-].
    destruct (receive_result_spec s i q result I Hq Ho)
      as (t & new & found & queue' & -> & W & Ef & GF & GQ & (queue1 & P1 & S1) & S2 & S3 & S4 & S5 & S6).
    eexists. split; [done|]. split; [|by apply union_subseteq_r].
    split; cbn; try done.
    + rewrite length_app, length_fmap, length_delete, (li_pending _ _ _ _ I) by eauto. pose proof (lookup_lt_Some _ _ _ Hq). lia.
    + pose proof (sublist_length _ _ S1) as L. rewrite P1, !length_app in *. pose proof (li_queue _ _ _ _ I). lia.
    + apply Forall_app. split; [apply I|done].
    + apply Forall_app. split; [apply Forall_delete, I|]. apply Forall_fmap. apply (Forall_sublist (good n U)) in S2; [|exact GQ].
      apply (Forall_impl _ _ _ S2). intros x Hx. by apply Forall_singleton.
    + rewrite fmap_app. apply NoDup_app. split_and!; [apply I| |done].
      intros k (x & -> & Hx)%list_elem_of_fmap (p' & E & Hp')%list_elem_of_fmap. rewrite Forall_forall in S4. apply (S4 p' Hp').
      rewrite <- E. pose proof (li_visited _ _ _ _ I) as V. rewrite Forall_forall in V. by apply V.
    + apply Forall_app. split.
      * apply (Forall_impl _ _ _ (li_visited _ _ _ _ I)). intros x Hx. by apply elem_of_union_r.
      * apply Forall_forall. intros x Hx. apply elem_of_union_l, elem_of_list_to_set. by apply list_elem_of_fmap_2.
Qed.
End steps.

(** ** Termination of a lookup *)

Definition open_question (q : query) : nat := match q with Querying _ => 1 | Checking _ _ _ => 0 end.
Definition checks_left (q : query) : nat := match q with Querying _ => 0 | Checking _ rest _ => S (length rest) end.

(** The peers that may still be asked and the questions that are open. *)
Definition questions_left (U : list ID) (s : lookup) : nat :=
  (size ((list_to_set (keys_of U) : gset pubkey) ∖ lVisited s) + sum_list_with open_question (lRunning s))%nat.

Definition work_left (s : lookup) : nat := sum_list_with checks_left (lRunning s).

Lemma sum_list_with_insert {A} (f : A -> nat) l i x y :
  l !! i = Some x -> (sum_list_with f (<[i := y]> l) + f x = sum_list_with f l + f y)%nat.
Proof.
  intros Hi. rewrite insert_take_drop by (by eapply lookup_lt_Some). rewrite <- (take_drop_middle l i x Hi) at 3.
  rewrite !sum_list_with_app. cbn. lia.
Qed.

Lemma sum_list_with_delete {A} (f : A -> nat) l i x :
  l !! i = Some x -> (sum_list_with f (delete i l) + f x = sum_list_with f l)%nat.
Proof.
  intros Hi. rewrite delete_take_drop. rewrite <- (take_drop_middle l i x Hi) at 3. rewrite !sum_list_with_app. cbn. lia.
Qed.

Lemma sum_list_with_const {A} (f : A -> nat) c l : Forall (fun x => f x = c) l -> sum_list_with f l = (c * length l)%nat.
Proof. induction 1 as [|x l Hx _ IH]; cbn; [lia|]. rewrite IH, Hx. lia. Qed.

Lemma size_visited (K V : gset pubkey) (new : list pubkey) :
  NoDup new -> Forall (fun k => k ∈ K /\ k ∉ V) new ->
  (size (K ∖ (list_to_set new ∪ V)) + length new = size (K ∖ V))%nat.
Proof.
  intros ND F. rewrite Forall_forall in F. rewrite <- (size_list_to_set (C := gset pubkey) new ND), <- size_union by set_solver.
  f_equal. apply set_eq. intros k. rewrite elem_of_union, !elem_of_difference, elem_of_union, elem_of_list_to_set.
  destruct (decide (k ∈ new)); [|tauto]. specialize (F k). tauto.
Qed.

Section termination.
Context `{SortSlice} `{SortSliceIx}.
Context (n : nat) (U : list ID) (alpha : Z) (targetID : ID).

Lemma step_decreases s e s' :
  lookup_inv n U alpha s -> answer_ok n U e -> lookup_step alpha targetID e s = Some (Ok s') ->
  (questions_left U s' < questions_left U s)%nat \/
  questions_left U s' = questions_left U s /\ (work_left s' < work_left s)%nat.
Proof.
  intros I A. unfold lookup_step, questions_left, work_left. destruct e as [i a|i].
  - destruct (lRunning s !! i) as [q|] eqn:Hq; cbn [mbind option_bind]; [|done].
    destruct (queryPeerByIDExt a q (lRouter s)) as [[[q' t']| |]|] eqn:E; cbn [mbind option_bind res_bind]; try done.
    intros [= <-]. cbn [lVisited lRunning].
    pose proof (sum_list_with_insert open_question _ _ _ q' Hq). pose proof (sum_list_with_insert checks_left _ _ _ q' Hq).
    destruct q as [p|p [|id rest] valid], a; try done; cbn in E; try (injection E as <- <-; cbn in *; lia).
    destruct (Update (lRouter s) id); [|done..]. injection E as <- <-. cbn in *. lia.
  - destruct (0 <? pending (lBucket s)); [|done].
    destruct (lRunning s !! i) as [q|] eqn:Hq; cbn [mbind option_bind]; [|done].
    destruct (offered q) as [result|] eqn:Ho; cbn [mbind option_bind]; [|done]. intros [= E]. revert E.
    destruct (receive_result_spec n U alpha targetID s i q result I Hq Ho)
      as (t & new & found & queue' & -> & W & Ef & GF & GQ & _ & S2 & S3 & S4 & _). intros [= <-]. right. cbn [lVisited lRunning].
    destruct q as [p|p [|? ?] valid]; [done| |done].
    pose proof (sum_list_with_delete open_question _ _ _ Hq). pose proof (sum_list_with_delete checks_left _ _ _ Hq).
    rewrite !sum_list_with_app, (sum_list_with_const open_question 1 (Querying <$> new)), (sum_list_with_const checks_left 0 (Querying <$> new)) by (by apply Forall_fmap, Forall_true).
    pose proof (size_visited (list_to_set (keys_of U)) (lVisited s) (keys_of new) S3) as SV.
    rewrite !length_fmap in *. cbn in *. rewrite <- SV; [lia|]. apply Forall_fmap. rewrite Forall_forall in S4 |- *.
    intros p' Hp'. split; [|by apply S4]. apply elem_of_list_to_set, list_elem_of_fmap_2.
    apply (Forall_sublist _ _ _ S2) in GQ. rewrite Forall_forall in GQ. by apply GQ.
Qed.

(** s' may follow s. *)
Definition lookup_next (s' s : lookup) : Prop :=
  exists e, answer_ok n U e /\ lookup_step alpha targetID e s = Some (Ok s').

Lemma lookup_acc s : lookup_inv n U alpha s -> Acc lookup_next s.
Proof.
  remember (questions_left U s) as q eqn:Eq. revert s Eq. induction (lt_wf q) as [q _ IHq]. intros s Eq.
  remember (work_left s) as w eqn:Ew. revert s Eq Ew. induction (lt_wf w) as [w _ IHw]. intros s -> -> I.
  constructor. intros s' (e & A & E).
  destruct (lookup_step_inv n U alpha targetID s e _ I A E) as (s1 & [= <-] & I' & _).
  destruct (step_decreases s e s' I A E) as [D|[D1 D2]]; [by eapply IHq|by eapply IHw].
Qed.

(** While answers are outstanding, something can happen: no goroutine waits for another. *)
Lemma lookup_progress s :
  lookup_inv n U alpha s -> 0 < pending (lBucket s) ->
  exists e s', answer_ok n U e /\ lookup_step alpha targetID e s = Some (Ok s').
Proof.
  intros I Hp. pose proof (li_pending _ _ _ _ I) as L. destruct (lRunning s) as [|q running0] eqn:R; [cbn in L; lia|].
  assert (exists e r, answer_ok n U e /\ lookup_step alpha targetID e s = Some r) as (e & r & A & E).
  { destruct q as [p|p [|id rest] valid].
    - exists (Answer 0 NoResponse). eexists. split; [done|]. cbn. by rewrite R.
    - exists (Deliver 0). eexists. split; [done|]. cbn. rewrite (proj2 (Z.ltb_lt _ _) Hp), R. done.
    - exists (Answer 0 ClientExists). eexists. split; [done|]. cbn. by rewrite R. }
  destruct (lookup_step_inv n U alpha targetID s e r I A E) as (s' & -> & _). eauto.
Qed.

Lemma run_lookup_inv events s r :
  lookup_inv n U alpha s -> Forall (answer_ok n U) events -> run_lookup alpha targetID events s = Some r ->
  exists s', r = Ok s' /\ lookup_inv n U alpha s' /\ lVisited s ⊆ lVisited s'.
Proof.
  revert s. induction events as [|e events IH]; intros s I F; cbn [run_lookup]; [intros [= <-]; eauto|].
  apply Forall_cons in F as [A F]. destruct (lookup_step alpha targetID e s) as [r1|] eqn:E; cbn [mbind option_bind]; [|done].
  destruct (lookup_step_inv n U alpha targetID s e r1 I A E) as (s1 & -> & I1 & V1).
  intros (s' & -> & I' & V')%IH; [|done..]. exists s'. split_and!; [done..|]. by etrans.
Qed.

(** Every lookup has an execution to the end. *)
Lemma lookup_finishes s :
  lookup_inv n U alpha s ->
  exists events s', Forall (answer_ok n U) events /\ run_lookup alpha targetID events s = Some (Ok s') /\
    pending (lBucket s') = 0 /\ lookup_inv n U alpha s'.
Proof.
  intros I. induction (lookup_acc s I) as [s _ IH].
  pose proof (li_pending _ _ _ _ I) as Hp. destruct (decide (pending (lBucket s) = 0)) as [E0|].
  - by exists [], s.
  - destruct (lookup_progress s I ltac:(lia)) as (e & s1 & A & E).
    destruct (lookup_step_inv n U alpha targetID s e _ I A E) as (? & [= <-] & I1 & _).
    destruct (IH s1 (ex_intro _ e (conj A E)) I1) as (events & s' & F & R & P & I').
    exists (e :: events), s'. split_and!; [by constructor| |done..]. cbn [run_lookup]. rewrite E. exact R.
Qed.

Lemma performLookupClosest_ok events b visited0 t r :
  start_ok n U alpha b visited0 t -> Forall (answer_ok n U) events ->
  performLookupClosest alpha targetID events b visited0 t = Some r ->
  exists s, r = Ok s /\ lookup_inv n U alpha s /\ pending (lBucket s) = 0 /\ visited0 ⊆ lVisited s.
Proof.
  intros S F. unfold performLookupClosest.
  destruct (run_lookup alpha targetID events _) as [r1|] eqn:E; cbn [mbind option_bind]; [|done].
  destruct (run_lookup_inv events _ r1 (start_lookup_inv n U alpha b visited0 t S) F E) as (s & -> & I & V).
  destruct (Z.ltb_spec 0 (pending (lBucket s))); [done|]. intros [= <-]. exists s. split_and!; [done..| |].
  - pose proof (li_pending _ _ _ _ I). lia.
  - destruct S. by rewrite start_lookup_eq in V.
Qed.

Lemma performLookupClosest_returns b visited0 t :
  start_ok n U alpha b visited0 t ->
  exists events s, Forall (answer_ok n U) events /\ performLookupClosest alpha targetID events b visited0 t = Some (Ok s).
Proof.
  intros S. destruct (lookup_finishes _ (start_lookup_inv n U alpha b visited0 t S)) as (events & s & F & R & P & _).
  exists events, s. split; [done|]. unfold performLookupClosest. rewrite R. cbn [mbind option_bind].
  destruct (Z.ltb_spec 0 (pending (lBucket s))); [lia|done].
Qed.
End termination.

(** ** FindNode *)

(** Whether the loop of FindNode finds a lookup for every peer, [c] peers having been dealt before
    position [i]. *)
Fixpoint dealt (self : ID) (d i c : Z) (peers : list ID) : bool :=
  match peers with
  | [] => true
  | p :: peers =>
    if decide (Address p = Address self) then dealt self d (i + 1) c peers
    else (Z.rem i d <? Z.min (c + 1) d) && dealt self d (i + 1) (c + 1) peers
  end.

Definition others (self : ID) (peers : list ID) : list ID := filter (fun p => Address p <> Address self) peers.

Definition queues (lookups : list lookupBucket) : list ID := lookups ≫= queue.

Lemma queues_push lookups k l p :
  lookups !! k = Some l -> queues (<[k := mkLookupBucket (pending l) (queue l ++ [p])]> lookups) ≡ₚ queues lookups ++ [p].
Proof.
  intros Hk. unfold queues. rewrite insert_take_drop by (by eapply lookup_lt_Some).
  rewrite <- (take_drop_middle lookups k l Hk) at 3. rewrite !bind_app. cbn. rewrite <- !(assoc_L app).
  apply Permutation_app_head, Permutation_app_head. by rewrite Permutation_app_comm.
Qed.

Lemma distribute_spec self d i c peers visited0 lookups results0 :
  0 < d -> Z.of_nat (length lookups) = Z.min c d -> 0 <= c -> 0 <= i -> Forall (fun l => pending l = 0) lookups ->
  match distribute self d i peers visited0 lookups results0 with
  | Panic => dealt self d i c peers = false
  | Err _ => False
  | Ok (visited', lookups', results') =>
    dealt self d i c peers = true /\
    visited' = list_to_set (keys_of peers) ∪ visited0 /\ results' = results0 ++ others self peers /\
    queues lookups' ≡ₚ queues lookups ++ others self peers /\ Forall (fun l => pending l = 0) lookups' /\
    Z.of_nat (length lookups') <= d
  end.
Proof.
  intros Hd. revert i c visited0 lookups results0.
  induction peers as [|p peers IH]; intros i c visited0 lookups results0 L Hc Hi F; cbn [distribute dealt].
  { unfold others. cbn. rewrite !app_nil_r, (union_empty_l_L visited0). split_and!; try done. lia. }
  unfold others. rewrite filter_cons. cbn [fmap list_fmap list_to_set]. destruct (decide (Address p = Address self)) as [Hs|Hs].
  - rewrite decide_False by tauto. specialize (IH (i + 1) c ({[PublicKeyHex p]} ∪ visited0) lookups results0 L Hc ltac:(lia) F).
    destruct (distribute _ _ _ _ _ _ _) as [[[v' l'] r']| |]; [|done..].
    destruct IH as (? & -> & ? & ? & ? & ?). split_and!; [done| |done..]. by rewrite (assoc_L (∪) _ {[_]}), (comm_L (∪) _ {[_]}).
  - rewrite decide_True by done. set (lookups1 := if _ <? d then _ else _).
    assert (Z.of_nat (length lookups1) = Z.min (c + 1) d /\ Forall (fun l => pending l = 0) lookups1 /\ queues lookups1 = queues lookups)
      as (L1 & F1 & Q1).
    { unfold lookups1. destruct (Z.ltb_spec (Z.of_nat (length lookups)) d).
      - rewrite length_app. cbn. split_and!; [lia| |]; [by apply Forall_app; split; [|repeat constructor]|].
        unfold queues. rewrite bind_app. cbn. by rewrite !app_nil_r.
      - split_and!; [lia|done..]. }
    clearbody lookups1. rewrite (proj2 (Z.eqb_neq d 0)) by lia.
    pose proof (Z.rem_bound_pos i d Hi Hd) as R.
    destruct (lookups1 !! Z.to_nat (Z.rem i d)) as [l|] eqn:El.
    + apply lookup_lt_Some in El as Ll. rewrite (proj2 (Z.ltb_lt (Z.rem i d) (Z.min (c + 1) d))) by lia. cbn [andb].
      specialize (IH (i + 1) (c + 1) ({[PublicKeyHex p]} ∪ visited0) (<[Z.to_nat (Z.rem i d) := mkLookupBucket (pending l) (queue l ++ [p])]> lookups1)
        (results0 ++ [p])). rewrite length_insert in IH.
      specialize (IH L1 ltac:(lia) ltac:(lia)).
      destruct (distribute _ _ _ _ _ _ _) as [[[v' l'] r']| |].
      * destruct IH as (? & -> & -> & Hq & ? & ?).
        { apply Forall_insert; [done|]. rewrite Forall_forall in F1. cbn. eapply F1, list_elem_of_lookup_2, El. }
        split_and!; [done| | |  |done..].
        -- by rewrite (assoc_L (∪) _ {[_]}), (comm_L (∪) _ {[_]}).
        -- by rewrite <- (assoc_L app).
        -- rewrite Hq, (queues_push _ _ _ _ El), Q1. by rewrite <- (assoc_L app).
      * apply IH. apply Forall_insert; [done|]. rewrite Forall_forall in F1. cbn. eapply F1, list_elem_of_lookup_2, El.
      * apply IH. apply Forall_insert; [done|]. rewrite Forall_forall in F1. cbn. eapply F1, list_elem_of_lookup_2, El.
    + apply lookup_ge_None in El. rewrite (proj2 (Z.ltb_ge (Z.rem i d) (Z.min (c + 1) d))) by lia. done.
Qed.

(** Without the own address every peer finds its lookup; with the own address once, the loop panics
    exactly when another peer follows at a position before [d]. *)
Lemma dealt_others self d i peers :
  0 < d -> 0 <= i -> Forall (fun p => Address p <> Address self) peers -> dealt self d i i peers = true.
Proof.
  intros Hd Hi F. revert i Hi. induction F as [|p peers Hp F IH]; intros i Hi; cbn [dealt]; [done|].
  rewrite decide_False by done. rewrite IH by lia.
  rewrite (proj2 (Z.ltb_lt _ _)); [done|]. destruct (Z.lt_ge_cases i d).
  - rewrite Z.rem_small by lia. lia.
  - pose proof (Z.rem_bound_pos i d). lia.
Qed.

Lemma dealt_late self d i peers :
  0 < d -> d <= i -> Forall (fun p => Address p <> Address self) peers -> dealt self d i (i - 1) peers = true.
Proof.
  intros Hd Hi F. revert i Hi. induction F as [|p peers Hp F IH]; intros i Hi; cbn [dealt]; [done|].
  rewrite decide_False by done. replace (i - 1 + 1) with (i + 1 - 1) by lia. rewrite IH by lia.
  rewrite (proj2 (Z.ltb_lt _ _)); [done|]. pose proof (Z.rem_bound_pos i d). lia.
Qed.

Lemma dealt_once self d before self' after :
  0 < d -> Address self' = Address self ->
  Forall (fun p => Address p <> Address self) before -> Forall (fun p => Address p <> Address self) after ->
  dealt self d 0 0 (before ++ self' :: after) = bool_decide (after = [] \/ d <= Z.of_nat (length before) + 1).
Proof.
  intros Hd Hs Hb Ha.
  assert (forall i, 0 <= i -> dealt self d i i (before ++ self' :: after) =
    bool_decide (after = [] \/ d <= i + Z.of_nat (length before) + 1)) as G; [|by rewrite (G 0)].
  induction Hb as [|p before Hp Hb IH]; intros i Hi; cbn [dealt app length].
  - rewrite decide_True by done. destruct Ha as [|q after Hq Ha]; [by rewrite bool_decide_true by auto|].
    destruct (decide (d <= i + 1)).
    + rewrite bool_decide_true by (right; cbn; lia). replace i with (i + 1 - 1) at 2 by lia.
      apply dealt_late; [lia|lia|by constructor].
    + rewrite bool_decide_false by (intros [|]; [done|cbn in *; lia]). cbn [dealt]. rewrite decide_False by done.
      rewrite Z.rem_small by lia. by rewrite (proj2 (Z.ltb_ge _ _)) by lia.
  - rewrite decide_False by done. rewrite IH by lia. rewrite (proj2 (Z.ltb_lt _ _)).
    + cbn [andb]. apply bool_decide_ext. rewrite Nat2Z.inj_succ. split; (intros [?|?]; [by left|right; lia]).
    + destruct (Z.lt_ge_cases i d); [rewrite Z.rem_small by lia; lia|]. pose proof (Z.rem_bound_pos i d). lia.
Qed.

Section find_node.
Context `{SortSlice} `{SortSliceIx}.
Context (n : nat) (U : list ID) (alpha : Z) (targetID : ID).

Lemma start_ok_later b visited0 visited1 t t' :
  visited0 ⊆ visited1 -> wf_table n t' -> start_ok n U alpha b visited0 t -> start_ok n U alpha b visited1 t'.
Proof. intros V W []. split; try done. by apply (Forall_impl _ _ _ so_visited0); intros p Hp; apply V. Qed.

Definition runs_ok (runs : list (nat * list lookup_event)) : Prop := Forall (fun run => Forall (answer_ok n U) run.2) runs.

Lemma perform_lookups_ok lookups runs visited0 t results0 r :
  Forall (fun b => start_ok n U alpha b visited0 t) lookups -> wf_table n t -> runs_ok runs -> Forall (good n U) results0 ->
  perform_lookups alpha targetID lookups runs visited0 t results0 = Some r ->
  exists t' results', r = Ok (t', results') /\ wf_table n t' /\ Forall (good n U) results' /\ results0 `prefix_of` results'.
Proof.
  revert visited0 t results0. induction runs as [|[k events] runs IH]; intros visited0 t results0 S W R G; cbn [perform_lookups].
  { intros [= <-]. eexists _, _. split_and!; done. }
  destruct (lookups !! k) as [b|] eqn:Eb; cbn [mbind option_bind]; [|done]. apply Forall_cons in R as [R1 R].
  destruct (performLookupClosest alpha targetID events b visited0 t) as [r1|] eqn:E; cbn [mbind option_bind]; [|done].
  assert (start_ok n U alpha b visited0 t) as Sb by (rewrite Forall_forall in S; eapply S, list_elem_of_lookup_2, Eb).
  destruct (performLookupClosest_ok n U alpha targetID events b visited0 t r1 Sb R1 E) as (s & -> & I & _ & V).
  assert (Forall (fun b => start_ok n U alpha b (lVisited s) (lRouter s)) lookups) as S'.
  { apply (Forall_impl _ _ _ S). intros b' Hb'. eapply start_ok_later; [exact V|apply I|exact Hb']. }
  assert (Forall (good n U) (results0 ++ lResults s)) as G1 by (apply Forall_app; split; [done|apply I]).
  intros E2. destruct (IH _ _ _ S' (li_table _ _ _ _ I) R G1 E2) as (t' & results' & -> & W' & G' & P).
  eexists _, _. split_and!; [done..|]. etrans; [|exact P]. by apply prefix_app_r.
Qed.

Lemma perform_lookups_returns lookups ks visited0 t results0 :
  Forall (fun b => start_ok n U alpha b visited0 t) lookups -> wf_table n t -> Forall (fun k => (k < length lookups)%nat) ks ->
  exists runs r, runs.*1 = ks /\ runs_ok runs /\ perform_lookups alpha targetID lookups runs visited0 t results0 = Some (Ok r).
Proof.
  revert visited0 t results0. induction ks as [|k ks IH]; intros visited0 t results0 S W K.
  { exists [], (t, results0). split_and!; [done|constructor|done]. }
  apply Forall_cons in K as [Hk K]. destruct (lookup_lt_is_Some_2 lookups k Hk) as [b Eb].
  assert (start_ok n U alpha b visited0 t) as Sb by (rewrite Forall_forall in S; eapply S, list_elem_of_lookup_2, Eb).
  destruct (performLookupClosest_returns n U alpha targetID b visited0 t Sb) as (events & s & F & E).
  destruct (performLookupClosest_ok n U alpha targetID events b visited0 t _ Sb F E) as (? & [= <-] & I & _ & V).
  destruct (IH (lVisited s) (lRouter s) (results0 ++ lResults s)) as (runs & r & <- & R & P); [|apply I|done|].
  { apply (Forall_impl _ _ _ S). intros b' Hb'. eapply start_ok_later; [exact V|apply I|exact Hb']. }
  exists ((k, events) :: runs), r. split_and!; [done|by constructor|]. cbn [perform_lookups]. rewrite Eb. cbn [mbind option_bind].
  rewrite E. exact P.
Qed.

Lemma closest_results_spec results0 :
  (length (closest_results targetID results0) <= 16)%nat /\ closest_results targetID results0 ⊆ results0.
Proof.
  unfold closest_results. cbv zeta. set (l := sort_slice _ results0). assert (l ≡ₚ results0) as P by apply sort_slice_perm.
  unfold BucketSize. destruct (Z.ltb_spec 16 (Z.of_nat (length l))).
  - split; [rewrite length_take; lia|]. intros p Hp. rewrite <- P. by eapply subseteq_take.
  - split; [lia|]. intros p Hp. by rewrite <- P.
Qed.

(** The buckets FindNode makes, when the table has distinct keys. *)
Lemma buckets_start self d peers t visited0 lookups results0 :
  wf_table n t -> peers ⊆+ all_peers t -> NoDup (keys_of (all_peers t)) -> Forall (good n U) peers ->
  Z.of_nat (length peers) <= alpha -> 0 < d ->
  distribute self d 0 peers ∅ [] [] = Ok (visited0, lookups, results0) ->
  Forall (fun b => start_ok n U alpha b ({[PublicKeyHex self]} ∪ visited0) t) lookups /\ results0 = others self peers.
Proof.
  intros W Sub ND G L Hd E. pose proof (distribute_spec self d 0 0 peers ∅ [] [] Hd) as D. rewrite E in D.
  destruct D as (_ & -> & -> & Q & P0 & _); [cbn; lia|lia|lia|constructor|]. split; [|done].
  change (queues [] ++ others self peers) with (others self peers) in Q.
  assert (others self peers `sublist_of` peers) as So by apply sublist_filter.
  apply Forall_forall. intros b Hb. rewrite Forall_forall in P0.
  assert (queue b ⊆+ peers) as Sq.
  { etrans; [|by apply sublist_submseteq]. rewrite <- Q. apply list_elem_of_split in Hb as (l1 & l2 & ->). unfold queues.
    rewrite bind_app, bind_cons. apply submseteq_inserts_l, submseteq_inserts_r. done. }
  split; [by apply P0| |..].
  - pose proof (submseteq_length _ _ Sq). lia.
  - rewrite Forall_forall in G |- *. intros p Hp. apply G. by eapply elem_of_submseteq.
  - eapply NoDup_submseteq_l; [|exact ND]. apply fmap_submseteq. by etrans.
  - apply Forall_forall. intros p Hp. apply elem_of_union_r, elem_of_union_l, elem_of_list_to_set, list_elem_of_fmap_2.
    by eapply elem_of_submseteq.
  - done.
Qed.

Lemma FindNode_spec t self d peers runs r :
  wf_table n t -> wf_id n targetID -> 0 <= alpha -> 0 < d ->
  NoDup (keys_of (all_peers t)) -> Forall (fun p => p ∈ U) (all_peers t) ->
  FindClosestPeers t targetID alpha = Ok peers ->
  (dealt self d 0 0 peers = false /\ FindNode (Some t) self targetID alpha d runs = Some Panic) \/
  (dealt self d 0 0 peers = true /\
   (runs_ok runs -> FindNode (Some t) self targetID alpha d runs = Some r ->
    exists t' found, r = Ok (Some t', found) /\ wf_table n t' /\ (length found <= 16)%nat /\ Forall (good n U) found) /\
   (exists runs r, runs_ok runs /\ FindNode (Some t) self targetID alpha d runs = Some (Ok r))).
Proof.
  intros W Ht Ha Hd ND HU E. destruct (FindClosestPeers_spec _ n t targetID alpha W Ht Ha) as (peers' & E' & Sub & _ & L).
  rewrite E in E'. injection E' as <-.
  assert (Forall (good n U) peers) as G.
  { apply Forall_forall. intros p Hp. assert (p ∈ all_peers t) as Hp' by (by eapply elem_of_submseteq).
    split; [by eapply all_peers_wf|]. rewrite Forall_forall in HU. by apply HU. }
  pose proof (distribute_spec self d 0 0 peers ∅ [] [] Hd) as D. unfold FindNode. rewrite E. cbn [res_bind].
  destruct (distribute self d 0 peers ∅ [] []) as [[[visited0 lookups] results0]| |] eqn:ED.
  - right. split; [apply D; [cbn; lia|lia|lia|constructor]|].
    destruct (buckets_start self d peers t visited0 lookups results0 W Sub ND G ltac:(lia) Hd ED) as [S ->].
    assert (Forall (good n U) (others self peers)) as GO by (eapply Forall_sublist; [apply sublist_filter|exact G]).
    split.
    + intros R. destruct (decide _); [|done].
      destruct (perform_lookups alpha targetID lookups runs _ t _) as [r1|] eqn:EP; cbn [mbind option_bind]; [|done].
      destruct (perform_lookups_ok lookups runs _ t _ r1 S W R GO EP) as (t' & results' & -> & W' & G' & _). intros [= <-].
      exists t', (closest_results targetID results'). split_and!; [done..| |]; [apply closest_results_spec|].
      rewrite Forall_forall in G' |- *. intros x Hx. apply G'. by apply closest_results_spec.
    + destruct (perform_lookups_returns lookups (seq 0 (length lookups)) _ t (others self peers) S W) as (runs' & [t' results'] & E1 & R & EP).
      { apply Forall_forall. intros k Hk%elem_of_seq. lia. }
      exists runs'. eexists. split; [done|]. rewrite decide_True by (by rewrite E1). rewrite EP. reflexivity.
  - exfalso. apply D; [cbn; lia|lia|lia|constructor].
  - left. split; [apply D; [cbn; lia|lia|lia|constructor]|done].
Qed.
End find_node.

(** The comparison of FindNode's last sort is never true: Less compares the field that Xor leaves
    empty. *)
Lemma Xor_never_Less x y targetID : Less (Xor x targetID) (Xor y targetID) = false.
Proof. reflexivity. Qed.

(** ** Correctness *)


(** Nodes of one byte, the address of each its own. *)
Definition node1 (b : Z) : ID := mkID [b] [b] [b] [] [].

(** The node 0 with the contacts 64 (bucket 1) and 8 (bucket 4). *)
Definition table2 : RoutingTable := mkTable (node1 0) [[]; [node1 64]; []; []; [node1 8]; []; []; [node1 0]].

Lemma table2_built : (let? t := CreateRoutingTable (node1 0) in update_all t [node1 64; node1 8]) = Ok table2.
Proof. reflexivity. Qed.

Lemma wf_table2 : wf_table 1 table2.
Proof.
  assert (table_reachable (node1 0) table2) as R.
  { eexists. split; [table_vm|]. eapply rtc_l; [apply (step_update _ (node1 64)); table_vm|].
    eapply rtc_once. apply (step_update _ (node1 8)); table_vm. }
  apply (reachable_wf 1 (node1 0)); [lia|table_vm|done].
Qed.

Definition toy_network : list ID := [node1 0; node1 8; node1 64; node1 65].

Lemma toy_start : start_ok 1 toy_network 16 (mkLookupBucket 0 [node1 8]) {[PublicKeyHex (node1 8); PublicKeyHex (node1 0)]} table2.
Proof. split; try table_vm. apply wf_table2. Qed.

(** The node 8 names 64 and 65, of which 65 is reached; 65 does not answer. *)
Definition toy_events : list lookup_event :=
  [Answer 0 (Nodes [node1 64; node1 65]); Answer 0 NotBootstrapped; Answer 0 Bootstrapped; Deliver 0;
   Answer 0 NoResponse; Deliver 0].

Lemma toy_events_ok : Forall (answer_ok 1 toy_network) toy_events.
Proof. repeat (apply Forall_cons; split; [cbn; first [exact I|table_vm]|]). constructor. Qed.


(** Another peer follows the node itself at a position before [d]. *)
Definition misdealt (self : ID) (d : Z) (peers : list ID) : Prop :=
  exists before self' after, peers = before ++ self' :: after /\ Address self' = Address self /\
    after <> [] /\ Z.of_nat (length before) + 1 < d.

Lemma others_all self peers : filter (fun p => Address p = Address self) peers = [] -> Forall (fun p => Address p <> Address self) peers.
Proof.
  intros E. apply Forall_forall. intros p Hp Ha. eapply not_elem_of_nil. rewrite <- E. by apply list_elem_of_filter.
Qed.

Lemma dealt_misdealt self d peers :
  0 < d -> (length (filter (fun p => Address p = Address self) peers) <= 1)%nat ->
  dealt self d 0 0 peers = false <-> misdealt self d peers.
Proof.
  intros Hd L. destruct (decide (Exists (fun p => Address p = Address self) peers)) as [X|X].
  - apply Exists_exists in X as (s & Hs & Es). apply list_elem_of_split in Hs as (before & after & ->).
    rewrite filter_app, filter_cons_True, length_app in L by done. cbn in L.
    assert (Forall (fun p => Address p <> Address self) before) as Hb by (apply others_all, nil_length_inv; lia).
    assert (Forall (fun p => Address p <> Address self) after) as Ha by (apply others_all, nil_length_inv; lia).
    rewrite dealt_once by done. rewrite bool_decide_eq_false. split.
    + intros N. exists before, s, after. split_and!; [done..| |]; [intros ->; tauto|lia].
    + intros (b' & s' & a' & E & Es' & Hn & Hl). enough (b' = before /\ a' = after) as [-> ->] by (intros [|]; [done|lia]).
      assert (length b' = length before) as EL.
      { destruct (lt_eq_lt_dec (length b') (length before)) as [[Hlt|]|Hgt]; [|done|].
        - assert ((before ++ s :: after) !! length b' = Some s') as LK by (rewrite E, lookup_app_r, Nat.sub_diag by lia; done).
          rewrite lookup_app_l in LK by lia. rewrite Forall_forall in Hb. by apply list_elem_of_lookup_2, Hb in LK.
        - assert ((before ++ s :: after) !! length b' = Some s') as LK by (rewrite E, lookup_app_r, Nat.sub_diag by lia; done).
          rewrite lookup_app_r in LK by lia. destruct (length b' - length before)%nat eqn:D; [lia|]. cbn in LK.
          rewrite Forall_forall in Ha. by apply list_elem_of_lookup_2, Ha in LK. }
      apply app_inj_1 in E as [-> E]; [|done]. by injection E as _ ->.
  - rewrite dealt_others by (done || by apply not_Exists_Forall in X; [|apply _]). split; [done|].
    intros (b' & s' & a' & -> & Es' & _). exfalso. apply X, Exists_app. right. by left.
Qed.

(** FindNode, with the node's own address in the table at most once: it panics exactly when among the
    closest peers the node itself is followed by another peer within the first [d] (the number of
    disjoint paths).  Otherwise it can be run to its end, and every run of it returns at most 16 of
    the table's contacts and of the peers named to it and leaves a well-formed table. *)
Lemma FindNode_correct `{SortSlice} `{SortSliceIx} n U alpha d self targetID t peers runs r :
  wf_table n t -> wf_id n targetID -> 0 <= alpha -> 0 < d ->
  NoDup (keys_of (all_peers t)) -> Forall (fun p => p ∈ U) (all_peers t) ->
  FindClosestPeers t targetID alpha = Ok peers ->
  (length (filter (fun p => Address p = Address self) peers) <= 1)%nat ->
  (misdealt self d peers /\ FindNode (Some t) self targetID alpha d runs = Some Panic) \/
  (~ misdealt self d peers /\
   (runs_ok n U runs -> FindNode (Some t) self targetID alpha d runs = Some r ->
    exists t' found, r = Ok (Some t', found) /\ wf_table n t' /\ (length found <= 16)%nat /\ Forall (good n U) found) /\
   (exists runs r, runs_ok n U runs /\ FindNode (Some t) self targetID alpha d runs = Some (Ok r))).
Proof.
  intros W Ht Ha Hd ND HU E L. rewrite <- dealt_misdealt, not_false_iff_true by done. by apply FindNode_spec.
Qed.

Definition toy_runs : list (nat * list lookup_event) := [(0%nat, [Answer 0 NoResponse; Deliver 0])].

(** In one table, both cases: near 8 the node 0 is followed by 64; near 64 the contact 8 comes last. *)
Lemma FindNode_correct_witness :
  FindNode (Some table2) (node1 0) (node1 8) 16 8 [] = Some Panic /\
  exists t', FindNode (Some table2) (node1 0) (node1 64) 1 8 toy_runs = Some (Ok (Some t', [node1 64])) /\ wf_table 1 t'.
Proof.
  split.
  - destruct (FindNode_correct 1 toy_network 16 8 (node1 0) (node1 8) table2 [node1 8; node1 0; node1 64] [] (Ok (None, []))
      wf_table2 ltac:(table_vm) ltac:(lia) ltac:(lia) ltac:(table_vm) ltac:(table_vm) ltac:(table_vm) ltac:(vm_compute; lia)) as [[_ E]|[N _]];
      [exact E|].
    exfalso. apply N. exists [node1 8], (node1 0), [node1 64]. split_and!; [reflexivity|reflexivity|discriminate|cbn; lia].
  - destruct (FindNode (Some table2) (node1 0) (node1 64) 1 8 toy_runs) as [r|] eqn:E; [|discriminate E].
    destruct (FindNode_correct 1 toy_network 1 8 (node1 0) (node1 64) table2 [node1 64] toy_runs r
      wf_table2 ltac:(table_vm) ltac:(lia) ltac:(lia) ltac:(table_vm) ltac:(table_vm) ltac:(table_vm) ltac:(vm_compute; lia))
      as [[_ P]|(_ & K & _)]; [rewrite P in E; discriminate P|].
    destruct K as (t' & found & Er & W & _); [|exact E|].
    + apply Forall_cons. split; [|constructor]. cbn. repeat (apply Forall_cons; split; [exact I|]). constructor.
    + exists t'. rewrite Er in *. vm_compute in E. injection E as <- <-. split; [reflexivity|exact W].
Defined.

Lemma update_all_ok n t peers : wf_table n t -> Forall (wf_id n) peers -> exists t', update_all t peers = Ok t' /\ wf_table n t'.
Proof.
  intros W F. revert t W. induction F as [|p peers Hp F IH]; intros t W; cbn [update_all]; [eauto|].
  destruct (Update_Ok n t p W Hp) as (b & _ & E). pose proof (Update_wf n t p _ W (proj1 Hp) E) as W'. rewrite E. by apply IH.
Qed.

(** FindClosestPeers for a target of any length. *)
Lemma FindClosestPeers_any `{SortSlice} n t tg :
  wf_table n t -> bytes_ok (Id tg) ->
  exists peers, FindClosestPeers t tg BucketSize = Ok peers /\ peers ⊆+ all_peers t /\
    (length (Id tg) = length (Id (self t)) ->
     StronglySorted (fun x y => distance x tg < distance y tg) peers /\
     Z.of_nat (length peers) = Z.min 16 (Z.of_nat (length (all_peers t)))).
Proof.
  intros W B. destruct (decide (length (Id tg) = length (Id (self t)))) as [EL|NL].
  - assert (wf_id n tg) as Htg by (split; [done|]; rewrite EL; apply (wf_self _ _ W)).
    destruct (FindClosestPeers_spec _ n t tg BucketSize W Htg ltac:(done)) as (peers & EF & Sub & So & L). eauto 10.
  - exists []. unfold FindClosestPeers. destruct (Nat.eqb_spec (length (Id (self t))) (length (Id tg))); [congruence|].
    split; [done|]. split; [apply submseteq_nil_l|done].
Qed.

(** What a message makes the component do, [t] being the table that already knows the sender. *)
Definition expected `{SortSlice} (msg : message) (sender : ID) (state : Component) (t : RoutingTable) (client client' : client_state)
    (actions : list action) : Prop :=
  match msg with
  | Ping => actions = (if DisablePing state then [] else [TellPong]) /\ client' = client
  | Pong => actions = (if RecvChannelClosed client then [] else [CloseRecvRemotePubKey]) /\
            client' = mkClientState (PublicKeyHex sender) true
  | LookupNodeRequest target =>
    client' = client /\
    (actions = [] /\ DisableLookup state = true \/
     exists tg peers, target = Some tg /\ actions = [ReplyPeers peers] /\ peers ⊆+ all_peers t /\
       (length (Id tg) = length (Id (self t)) ->
        StronglySorted (fun x y => distance x tg < distance y tg) peers /\
        Z.of_nat (length peers) = Z.min 16 (Z.of_nat (length (all_peers t)))))
  | Disconnect => actions = [DisconnectClient] /\ client' = client
  | OtherMessage => actions = [] /\ client' = client
  end.


Definition toy_discovery : Component := set_routes (Some table2) (New []).


(** ** What the lookups do not do *)

Definition toy_visited : gset pubkey := list_to_set (keys_of [node1 0; node1 8; node1 64]).

(** Two peers that name the same node put it into the results twice: [known] is filled only at the
    start of the lookup. *)
Lemma lookup_repeats_results :
  exists s, performLookupClosest 16 (node1 9)
      [Answer 0 (Nodes [node1 65]); Answer 1 (Nodes [node1 65]); Answer 0 ClientExists; Answer 1 ClientExists; Deliver 0;
       Deliver 0; Answer 0 NoResponse; Deliver 0]
      (mkLookupBucket 0 [node1 8; node1 64]) toy_visited table2 = Some (Ok s) /\ lResults s = [node1 65; node1 65].
Proof. eexists. split; vm_compute; reflexivity. Qed.

(** The queue is not sorted by distance: the comparison reads the results, which stay in place while
    the queue is permuted.  The peers are at distances 2, 3 and 1 of the target. *)
Lemma queue_not_sorted `{SortSliceIx} :
  sort_queue (node1 0) [node1 2; node1 3; node1 1] [node1 2; node1 3; node1 1] = Ok [node1 2; node1 1; node1 3].
Proof. unfold sort_queue. cbn [length Nat.ltb Nat.leb andb]. rewrite sort_slice_ix_small by (cbn; lia). reflexivity. Qed.

(** Every order of the results passes for sorted in FindNode. *)
Lemma results_not_sorted targetID results0 : sorted_by (fun x y => Less (Xor x targetID) (Xor y targetID)) results0.
Proof. unfold sorted_by. induction results0; constructor; [done|]. apply Forall_forall. intros. apply Xor_never_Less. Qed.

(** A peer named with an empty hash crashes the node when it does not answer: RemovePeer looks for it
    in bucket -1. *)
Lemma malformed_peer_crashes :
  run_lookup 16 (node1 9)
    [Answer 0 (Nodes [mkID [77] [77] [] [] []]); Answer 0 ClientExists; Deliver 0; Answer 0 NoResponse; Deliver 0]
    (start_lookup 16 (mkLookupBucket 0 [node1 8]) toy_visited table2) = Some Panic.
Proof. vm_compute. reflexivity. Qed.

(** ** performLookup *)

Lemma expand_response_spec response visited0 results0 queue0 :
  exists new, expand_response response visited0 results0 queue0
    = (list_to_set (keys_of new) ∪ visited0, results0 ++ new, queue0 ++ new) /\
    NoDup (keys_of new) /\ Forall (fun p => PublicKeyHex p ∉ visited0) new.
Proof.
  revert visited0 results0 queue0. induction response as [|p response IH]; intros visited0 results0 queue0; cbn [expand_response].
  { exists []. rewrite !app_nil_r. cbn [fmap list_fmap list_to_set]. rewrite (union_empty_l_L visited0). split_and!; [done|constructor..]. }
  destruct (decide (PublicKeyHex p ∈ visited0)) as [Hv|Hv]; [apply IH|].
  destruct (IH ({[PublicKeyHex p]} ∪ visited0) (results0 ++ [p]) (queue0 ++ [p])) as (new & -> & N & F).
  exists (p :: new). cbn [fmap list_fmap list_to_set]. rewrite <- !(assoc_L app). split_and!.
  - by rewrite (assoc_L (∪) _ {[_]}), (comm_L (∪) _ {[_]}).
  - constructor; [|done]. intros (q & E & Hq)%list_elem_of_fmap. rewrite Forall_forall in F. apply (F q Hq).
    rewrite <- E. by apply elem_of_union_l, elem_of_singleton.
  - constructor; [done|]. apply (Forall_impl _ _ _ F). intros q Hq Hv'. by apply Hq, elem_of_union_r.
Qed.

Lemma ask_queue_spec keep alpha pending0 queue0 results0 running0 :
  pending0 <= alpha ->
  exists asked, asked `prefix_of` queue0 /\
    ask_queue keep alpha pending0 queue0 results0 running0
    = (pending0 + Z.of_nat (length asked), if keep then results0 ++ asked else results0, running0 ++ asked) /\
    pending0 + Z.of_nat (length asked) <= alpha.
Proof.
  revert pending0 results0 running0. induction queue0 as [|p queue0 IH]; intros pending0 results0 running0 Ha; cbn [ask_queue].
  - exists []. rewrite !app_nil_r. cbn. rewrite Z.add_0_r. by destruct keep.
  - destruct (Z.ltb_spec pending0 alpha).
    + destruct (IH (pending0 + 1) (if keep then results0 ++ [p] else results0) (running0 ++ [p]) ltac:(lia)) as (asked & P & -> & L).
      exists (p :: asked). cbn [length]. rewrite Nat2Z.inj_succ. split; [by apply prefix_cons|]. split; [|lia].
      replace (pending0 + 1 + Z.of_nat (length asked)) with (pending0 + Z.succ (Z.of_nat (length asked))) by lia.
      destruct keep; by rewrite <- !(assoc_L app).
    + exists []. rewrite !app_nil_r. cbn. rewrite Z.add_0_r. split; [apply prefix_nil|]. by destruct keep.
Qed.

(** The older routine reports no peer twice and has at most [alpha] questions open. *)
Lemma plain_lookup_inv alpha i response s s' :
  plain_step alpha i response s = Some s' -> pending (plBucket s) <= alpha ->
  pending (plBucket s) = Z.of_nat (length (plRunning s)) -> NoDup (keys_of (plResults s)) ->
  Forall (fun p => PublicKeyHex p ∈ plVisited s) (plResults s) ->
  pending (plBucket s') <= alpha /\ pending (plBucket s') = Z.of_nat (length (plRunning s')) /\
  NoDup (keys_of (plResults s')) /\ Forall (fun p => PublicKeyHex p ∈ plVisited s') (plResults s').
Proof.
  unfold plain_step. destruct (Z.ltb_spec 0 (pending (plBucket s))); [|done].
  destruct (plRunning s !! i) as [p|] eqn:Hi; cbn [mbind option_bind]; [|done].
  destruct (expand_response_spec (queryPeerByID response) (plVisited s) (plResults s) (queue (plBucket s))) as (new & -> & N & F).
  intros E Ha Hp ND V.
  destruct (ask_queue_spec false alpha (pending (plBucket s) - 1) (queue (plBucket s) ++ new) (plResults s ++ new) (delete i (plRunning s)))
    as (asked & _ & EA & L); [lia|]. rewrite EA in E. injection E as <-. cbn. split_and!; [done| | |].
  - rewrite length_app, length_delete by eauto. apply lookup_lt_Some in Hi. lia.
  - rewrite fmap_app. apply NoDup_app. split_and!; [done| |done].
    intros k (x & -> & Hx)%list_elem_of_fmap (y & E & Hy)%list_elem_of_fmap. rewrite Forall_forall in F, V.
    apply (F y Hy). rewrite <- E. by apply V.
  - apply Forall_app. split.
    + apply (Forall_impl _ _ _ V). intros x Hx. by apply elem_of_union_r.
    + apply Forall_forall. intros x Hx. by apply elem_of_union_l, elem_of_list_to_set, list_elem_of_fmap_2.
Qed.
