(* ===== verification/Wire.v ===== *)
(** * network/: what goes over a connection

    - utils.go: [SerializeMessage], the byte string that is signed;
    - compress.go: the compression header and the choice of the codec;
    - stream.go, session.go: framing over TCP, KCP and QUIC streams, with the
      bufio.Writer it goes through and reads that return arbitrary chunks;
    - package.go: framing in UDP datagrams.

    protobuf's Marshal and Unmarshal are section variables; the codecs of compress/lzw,
    compress/gzip and compress/zlib are the operations of a [Codec]. *)
From S2P Require Import Prelude Peer.
Local Open Scope Z_scope.
Local Open Scope go_scope.

(** ** internal/protobuf: the envelope.  A []byte field that may be nil is an option. *)

Record PbID := mkPbID {
  pbNetKey : option (list Z);
  pbAddress : list Z;
  pbId : list Z;
  pbConnectionId : list Z;
  pbAddress2 : list Z
}.

Record Message := mkMessage {
  Payload : list Z;
  Sender : option PbID;
  Signature : option (list Z);
  RequestNonce : Z;
  MessageNonce : Z;
  ReplyFlag : bool;
  Opcode : Z;
  NetID : Z;
  MessageID : list Z;
  NeedAck : bool
}.

(** (peer.ID)(x) *)
Definition to_peer_id (x : PbID) : ID :=
  mkID (default [] (pbNetKey x)) (pbAddress x) (pbId x) (pbConnectionId x) (pbAddress2 x).

Inductive wire_err :=
| EMarshal | EEmpty | ECompress | EWrite | EFlush | EStreamClosed
| EReadNetID | EWrongNetID | EReadInfo | EReadSize | EEmptyMsg | EReadBody
| EUncompress | EUnmarshal | EInvalid.

(** ** utils.go: SerializeMessage *)

(** Go's [copy(dst[pos:], src)] *)
Definition copy_at (dst : list Z) (pos : nat) (src : list Z) : list Z :=
  take pos dst ++ take (length dst - pos) src ++ drop (pos + length src) dst.

(** [binary.LittleEndian.PutUint32(dst[pos:], v)] panics when less than 4 bytes are left. *)
Definition put_u32_le (dst : list Z) (pos : nat) (v : Z) : res wire_err (list Z) :=
  if (pos + 4 <=? length dst)%nat then Ok (copy_at dst pos (le_bytes 4 (u32 v))) else Panic.

Definition SerializeMessage (addr id message : list Z) : res wire_err (list Z) :=
  let serialized := replicate (4 + length addr + 4 + length id + length message) 0 in
  let pos := 0%nat in
  let? serialized := put_u32_le serialized pos (Z.of_nat (length addr)) in
  let pos := (pos + 4)%nat in
  let serialized := copy_at serialized pos addr in
  let pos := (pos + length addr)%nat in
  let? serialized := put_u32_le serialized pos (Z.of_nat (length id)) in
  let pos := (pos + 4)%nat in
  let serialized := copy_at serialized pos id in
  let pos := (pos + length id)%nat in
  let serialized := copy_at serialized pos message in
  let pos := (pos + length message)%nat in
  if negb (pos =? length serialized)%nat then Panic else Ok serialized.

(** ** compress.go *)

Definition NONE : Z := 0.
Definition BZIP2 : Z := 1.
Definition GZIP : Z := 2.
Definition ZLIB : Z := 3.
Definition LZW : Z := 4.
Definition FLAT : Z := 5.

(** The fields of Network the framing reads. *)
Record net_config := mkNetConfig {
  netID : Z;
  compressEnable : bool;
  compressAlgo : Z;
  CompressCondition_Size : Z
}.

Definition GenCompressInfo (n : net_config) (msgSize : Z) : res wire_err Z :=
  let enable := if compressEnable n && (CompressCondition_Size n <=? msgSize) then 1 else 0 in
  if 255 <? compressAlgo n then Panic
  else Ok (Z.lor (u16 (Z.shiftl enable 8)) (compressAlgo n)).

Definition GetCompressInfo (info : Z) : Z * bool :=
  let enable := false in
  let enable := if Z.shiftr info 8 =? 1 then true else enable in
  let enable := if Z.shiftr info 8 =? 0 then false else enable in
  (Z.land info 255, enable).

(** The standard library's codecs: a Writer that is written to and closed; a Reader of which
    everything up to its end or its first error is copied out.  gzip.NewReader and
    zlib.NewReader fail on a bad header. *)
Class Codec := {
  lzw_write : list Z -> list Z;
  lzw_read : list Z -> list Z;
  gzip_write : list Z -> list Z;
  gzip_NewReader : list Z -> option (list Z);
  zlib_write : list Z -> list Z;
  zlib_NewReader : list Z -> option (list Z)
}.

(** What the codecs promise. *)
Class CodecLaws (C : Codec) := {
  lzw_roundtrip : forall x, lzw_read (lzw_write x) = x;
  gzip_roundtrip : forall x, gzip_NewReader (gzip_write x) = Some x;
  zlib_roundtrip : forall x, zlib_NewReader (zlib_write x) = Some x
}.

Section compress.
Context `{C : Codec}.

Definition doLzwCompress (src : list Z) : list Z := lzw_write src.
Definition doLzwUncompress (src : list Z) : list Z := lzw_read src.
Definition doGzipCompress (src : list Z) : list Z := gzip_write src.

(** The error of NewReader is dropped: io.Copy then reads from a nil reader and panics. *)
Definition doGzipUncompress (src : list Z) : res wire_err (list Z) :=
  match gzip_NewReader src with Some out => Ok out | None => Panic end.

Definition doBzip2Compress (src : list Z) : list Z := src.
Definition doBzip2Uncompress (src : list Z) : list Z := src.
Definition doZlibCompress (src : list Z) : list Z := zlib_write src.

Definition doZlibUnCompress (src : list Z) : res wire_err (list Z) :=
  match zlib_NewReader src with Some out => Ok out | None => Panic end.

Definition Compress (n : net_config) (message : list Z) : res wire_err (list Z) :=
  if compressAlgo n =? BZIP2 then Ok (doBzip2Compress message)
  else if compressAlgo n =? GZIP then Ok (doGzipCompress message)
  else if compressAlgo n =? ZLIB then Ok (doZlibCompress message)
  else if compressAlgo n =? LZW then Ok (doLzwCompress message)
  else if compressAlgo n =? NONE then Ok message
  else Err ECompress.

Definition Uncompress (message : list Z) (algo : Z) : res wire_err (list Z) :=
  if algo =? BZIP2 then Ok (doBzip2Uncompress message)
  else if algo =? GZIP then doGzipUncompress message
  else if algo =? ZLIB then doZlibUnCompress message
  else if algo =? LZW then Ok (doLzwUncompress message)
  else Ok message.
End compress.

(** ** bufio.Writer over a socket

    A socket takes all of a write or, when the next fault says so, its first bytes and
    reports an error; [sent] is what reached the other side. *)
Record socket := mkSocket { sent : list Z; faults : list (option nat) }.

Definition sock_write (s : socket) (p : list Z) : nat * bool * socket :=
  match faults s with
  | Some k :: fs => (length (take k p), true, mkSocket (sent s ++ take k p) fs)
  | None :: fs => (length p, false, mkSocket (sent s ++ p) fs)
  | [] => (length p, false, mkSocket (sent s ++ p) [])
  end.

Record writer := mkWriter { wbuf : list Z; wsize : nat; werr : bool; wr : socket }.

Definition Available (b : writer) : nat := wsize b - length (wbuf b).

(** Flush: the returned flag says that an error was returned. *)
Definition Flush (b : writer) : bool * writer :=
  if werr b then (true, b)
  else match wbuf b with
  | [] => (false, b)
  | _ =>
    let '(n, e, s) := sock_write (wr b) (wbuf b) in
    let e := e || (n <? length (wbuf b))%nat in
    if e then (true, mkWriter (drop n (wbuf b)) (wsize b) true s)
    else (false, mkWriter [] (wsize b) false s)
  end.

(** The loop of Writer.Write: [nn] bytes of the argument are done, [p] are left. *)
Fixpoint bufio_write_loop (fuel : nat) (b : writer) (p : list Z) (nn : nat) : option (writer * list Z * nat) :=
  if (Available b <? length p)%nat && negb (werr b) then
    match fuel with
    | O => None
    | S fuel =>
      let '(n, b) :=
        if (length (wbuf b) =? 0)%nat
        then let '(n, e, s) := sock_write (wr b) p in (n, mkWriter (wbuf b) (wsize b) e s)
        else (Available b, (Flush (mkWriter (wbuf b ++ take (Available b) p) (wsize b) (werr b) (wr b))).2) in
      bufio_write_loop fuel b (drop n p) (nn + n)
    end
  else Some (b, p, nn).

(** Write: the number of bytes taken, whether it failed, the writer.  Three turns of the loop
    are enough ([Write_spec]). *)
Definition bufio_Write (b : writer) (p : list Z) : option (nat * bool * writer) :=
  match bufio_write_loop 3 b p 0 with
  | None => None
  | Some (b, p, nn) =>
    if werr b then Some (nn, true, b)
    else Some ((nn + length p)%nat, false, mkWriter (wbuf b ++ p) (wsize b) false (wr b))
  end.

(** ** stream.go and session.go: sending *)

Section framing.
Context `{C : Codec}.
Variable Marshal : Message -> option (list Z).
Variable Unmarshal : list Z -> option Message.

(** The part of the senders up to the buffer that is written.  [on_empty] is what they do
    with a message of no bytes. *)
Definition build_frame (on_empty : res wire_err (list Z)) (n : net_config) (message : Message) : res wire_err (list Z) :=
  match Marshal message with
  | None => Err EMarshal
  | Some bytes =>
    let msgOriginSize := Z.of_nat (length bytes) in
    if msgOriginSize =? 0 then on_empty
    else
      let? bytes := (if compressEnable n && (CompressCondition_Size n <=? msgOriginSize)
                     then Compress n bytes else Ok bytes) in
      let? info := GenCompressInfo n msgOriginSize in
      Ok (be_bytes 4 (netID n) ++ be_bytes 2 (u16 info) ++ be_bytes 4 (u32 (Z.of_nat (length bytes))) ++ bytes)
  end.

(** The write loop of sendMessage and sendQuicMessage: whether it stopped with an error, the
    bytes written, the writer.  None when the fuel runs out ([write_loop_spec]: it never does). *)
Fixpoint write_loop (fuel : nat) (bw : writer) (buffer : list Z) (total : nat) : option (bool * nat * writer) :=
  if (total <? length buffer)%nat then
    match fuel with
    | O => None
    | S fuel =>
      match bufio_Write bw (drop total buffer) with
      | None => None
      | Some (_, true, bw) => Some (true, total, bw)
      | Some (bytesWritten, false, bw) =>
        let total := (total + bytesWritten)%nat in
        if (Available bw <=? 0)%nat then
          let '(e, bw) := Flush bw in
          if e then Some (true, total, bw) else write_loop fuel bw buffer total
        else write_loop fuel bw buffer total
      end
    end
  else Some (false, total, bw).

(** The rest of the senders: the loop, then the final Flush. *)
Definition write_all (bw : writer) (buffer : list Z) : res wire_err unit * writer :=
  match write_loop (length buffer) bw buffer 0 with
  | None => (Panic, bw)
  | Some (true, _, bw) => (Err EWrite, bw)
  | Some (false, _, bw) => let '(e, bw) := Flush bw in (if e then Err EFlush else Ok tt, bw)
  end.

(** sendMessage.  The error report for an empty message asserts that the writer, a
    bufio.Writer, is a net.Conn, and panics. *)
Definition sendMessage (n : net_config) (bw : writer) (message : Message) : res wire_err unit * writer :=
  match build_frame Panic n message with
  | Ok buffer => write_all bw buffer
  | Err e => (Err e, bw)
  | Panic => (Panic, bw)
  end.

(** sendQuicMessage: an empty message is dropped without an error. *)
Definition sendQuicMessage (n : net_config) (bw : writer) (message : Message) : res wire_err unit * writer :=
  match build_frame (Ok []) n message with
  | Ok [] => (Ok tt, bw)
  | Ok buffer => write_all bw buffer
  | Err e => (Err e, bw)
  | Panic => (Panic, bw)
  end.

(** What streamSendMessage shares with the connection manager: the streams of each peer with
    their byte counters, and the messages of the peer's client that wait for an
    acknowledgement (None: no client). *)
Record stream_env := mkStreamEnv {
  streams : gmap (list Z) (gmap (list Z) Z);
  SyncWaitAck : option (gset (list Z))
}.

(** [client.SyncWaitAck.Delete(message.MessageID)], for a message that needs an ack. *)
Definition drop_ack (message : Message) (env : stream_env) : stream_env :=
  if NeedAck message
  then mkStreamEnv (streams env) ((fun acks => acks ∖ {[MessageID message]}) <$> SyncWaitAck env)
  else env.

(** The write loop of streamSendMessage.  The counter of the stream is updated through an
    unchecked type assertion, which panics when the stream is not in the map. *)
Fixpoint stream_write_loop (fuel : nat) (env : stream_env) (message : Message) (peerID streamID : list Z)
    (bw : writer) (buffer : list Z) (total : nat) : res wire_err bool * nat * writer * stream_env :=
  if (total <? length buffer)%nat then
    match fuel with
    | O => (Panic, total, bw, env)
    | S fuel =>
      match streams env !! peerID with
      | None => (Err EStreamClosed, total, bw, env)
      | Some ss =>
        let s := ss !! streamID in
        let env := match s with None => drop_ack message env | Some _ => env end in
        match bufio_Write bw (drop total buffer) with
        | None => (Panic, total, bw, env)
        | Some (_, true, bw) => (Ok true, total, bw, env)
        | Some (bytesWritten, false, bw) =>
          let total := (total + bytesWritten)%nat in
          match s with
          | None => (Panic, total, bw, env)
          | Some cnt =>
            let ss := <[streamID := u64 (cnt + Z.of_nat bytesWritten)]> ss in
            let env := mkStreamEnv (<[peerID := ss]> (streams env)) (SyncWaitAck env) in
            if (Available bw <=? 0)%nat then
              let '(e, bw) := Flush bw in
              if e then (Ok true, total, bw, env)
              else stream_write_loop fuel env message peerID streamID bw buffer total
            else stream_write_loop fuel env message peerID streamID bw buffer total
          end
        end
      end
    end
  else (Ok false, total, bw, env).

Definition streamSendMessage (n : net_config) (env : stream_env) (bw : writer) (message : Message)
    (peerID streamID : list Z) : res wire_err unit * nat * writer * stream_env :=
  match build_frame Panic n message with
  | Err e => (Err e, 0%nat, bw, env)
  | Panic => (Panic, 0%nat, bw, env)
  | Ok buffer =>
    match stream_write_loop (length buffer) env message peerID streamID bw buffer 0 with
    | (Panic, total, bw, env) => (Panic, total, bw, env)
    | (Err e, total, bw, env) => (Err e, total, bw, env)
    | (Ok true, total, bw, env) => (Err EWrite, total, bw, env)
    | (Ok false, total, bw, env) =>
      let '(e, bw) := Flush bw in (if e then Err EFlush else Ok tt, total, bw, env)
    end
  end.

(** ** Receiving

    A connection is the sequence of what its reads have to offer: some bytes, and whether the
    read that takes the last of them reports an error too.  A read takes at most as much as
    its buffer holds; with nothing left to offer it fails (EOF, a closed connection, a
    deadline). *)
Definition conn : Type := list (list Z * bool).

(** The loop [for total < n && err == nil], with [n] bytes still to read.  The second
    component is the connection afterwards. *)
Fixpoint read_loop (n : nat) (c : conn) : option (list Z) * conn :=
  match n with
  | O => (Some [], c)
  | S _ =>
    match c with
    | [] => (None, [])
    | (chunk, e) :: c' =>
      if (n <? length chunk)%nat then (Some (take n chunk), (drop n chunk, e) :: c')
      else if e then (None, c')
      else let '(r, c'') := read_loop (n - length chunk) c' in ((chunk ++.) <$> r, c'')
    end
  end.

(** The last check of the receivers. *)
Definition valid_headers (n : net_config) (msg : Message) : bool :=
  negb ((Opcode msg =? 0) ||
        match Sender msg with
        | None => true
        | Some s => bool_decide (pbNetKey s = None) || (length (pbAddress s) =? 0)%nat
        end || negb (NetID msg =? netID n)).

(** receiveMessage once the bytes of the body have been read. *)
Definition decode_body (n : net_config) (algo : Z) (compEnable : bool) (buffer : list Z) : res wire_err Message :=
  let? buffer := (if compEnable then Uncompress buffer algo else Ok buffer) in
  match Unmarshal buffer with
  | None => Err EUnmarshal
  | Some msg => if valid_headers n msg then Ok msg else Err EInvalid
  end.

(** receiveMessage and receiveQuicMessage, which differ in how they fill a buffer: [rd n c]
    is the loop that reads n bytes. *)
Definition receive_with (rd : nat -> conn -> option (list Z) * conn) (n : net_config) (c : conn)
    : res wire_err Message * conn :=
  match rd 4%nat c with
  | (None, c) => (Err EReadNetID, c)
  | (Some buffer, c) =>
    if negb (be_val buffer =? netID n) then (Err EWrongNetID, c)
    else match rd 2%nat c with
    | (None, c) => (Err EReadInfo, c)
    | (Some buffer, c) =>
      let '(algo, compEnable) := GetCompressInfo (be_val buffer) in
      match rd 4%nat c with
      | (None, c) => (Err EReadSize, c)
      | (Some buffer, c) =>
        let size := be_val buffer in
        if size =? 0 then (Err EEmptyMsg, c)
        else match rd (Z.to_nat size) c with
        | (None, c) => (Err EReadBody, c)
        | (Some buffer, c) => (decode_body n algo compEnable buffer, c)
        end
      end
    end
  end.

Definition receiveMessage (n : net_config) (c : conn) : res wire_err Message * conn :=
  receive_with read_loop n c.

(** io.ReadFull: an error that comes with the last byte asked for is left to the next read. *)
Fixpoint ReadFull (n : nat) (c : conn) : option (list Z) * conn :=
  match n with
  | O => (Some [], c)
  | S _ =>
    match c with
    | [] => (None, [])
    | (chunk, e) :: c' =>
      if (n <? length chunk)%nat then (Some (take n chunk), (drop n chunk, e) :: c')
      else if e then (if (n =? length chunk)%nat then (Some chunk, ([], true) :: c') else (None, c'))
      else let '(r, c'') := ReadFull (n - length chunk) c' in ((chunk ++.) <$> r, c'')
    end
  end.

Definition receiveQuicMessage (n : net_config) (c : conn) : res wire_err Message * conn :=
  receive_with ReadFull n c.

(** ** package.go: UDP *)

Definition MAX_PACKAGE_SIZE : Z := 1024 * 64.
Definition STORE_PACKAGE_REAL_SIZE : nat := 2.

(** None is a nil buffer. *)
Definition BuildRawContent (message : Message) : option (list Z) :=
  match Marshal message with
  | None => None
  | Some bytes =>
    let buffer := be_bytes STORE_PACKAGE_REAL_SIZE (u16 (Z.of_nat (length bytes))) in
    let buffer := buffer ++ bytes in
    if MAX_PACKAGE_SIZE <? Z.of_nat (length buffer) then None else Some buffer
  end.

(** sendUDPMessage: the datagrams handed to the socket; errors are logged and dropped. *)
Definition sendUDPMessage (message : Message) : list (list Z) :=
  match BuildRawContent message with
  | None => []
  | Some buffer => [buffer]
  end.

Definition ProxyResponseCode : Z := 9.
Definition KeepaliveResponseCode : Z := 3.

(** receiveUDPMessage.  [d] is the datagram read into the 64 KiB buffer, None when the read
    failed.  The upper bound of the slice, 2+size, is a uint16. *)
Definition receiveUDPMessage (n : net_config) (d : option (list Z)) : res wire_err (option Message) :=
  match d with
  | None => Ok None
  | Some d =>
    let buffer := take (Z.to_nat MAX_PACKAGE_SIZE) (d ++ replicate (Z.to_nat MAX_PACKAGE_SIZE) 0) in
    let size := be_val (take 2 buffer) in
    let hi := u16 (2 + size) in
    if hi <? 2 then Panic
    else match Unmarshal (drop 2 (take (Z.to_nat hi) buffer)) with
    | None => Err EUnmarshal
    | Some msg =>
      if (Opcode msg =? ProxyResponseCode) || (Opcode msg =? KeepaliveResponseCode) then Ok (Some msg)
      else if valid_headers n msg then Ok (Some msg)
      else Err EInvalid
    end
  end.
End framing.

(** ** SerializeMessage *)

Lemma copy_at_fresh x k src :
  (length src <= k)%nat ->
  copy_at (x ++ replicate k 0) (length x) src = (x ++ src) ++ replicate (k - length src) 0.
Proof.
  intros H. unfold copy_at. rewrite take_app_length, length_app, length_replicate.
  rewrite (take_ge src) by lia. rewrite <- drop_drop, drop_app_length, drop_replicate.
  by rewrite app_assoc.
Qed.

Lemma put_u32_le_fresh x k v :
  (4 <= k)%nat ->
  put_u32_le (x ++ replicate k 0) (length x) v = Ok ((x ++ le_bytes 4 (u32 v)) ++ replicate (k - 4) 0).
Proof.
  intros H. unfold put_u32_le. rewrite length_app, length_replicate.
  destruct (Nat.leb_spec (length x + 4) (length x + k)); [|lia].
  by rewrite copy_at_fresh by (rewrite length_le_bytes; lia).
Qed.

(** The bytes that are signed. *)
Definition signed_bytes (addr id message : list Z) : list Z :=
  le_bytes 4 (u32 (Z.of_nat (length addr))) ++ addr ++
  le_bytes 4 (u32 (Z.of_nat (length id))) ++ id ++ message.

Lemma SerializeMessage_eq addr id message :
  SerializeMessage addr id message = Ok (signed_bytes addr id message).
Proof.
  unfold SerializeMessage. set (L := (4 + length addr + 4 + length id + length message)%nat).
  change (replicate L 0) with ([] ++ replicate L 0).
  change 0%nat with (length (@nil Z)) at 1. rewrite put_u32_le_fresh by (subst L; lia). cbn [res_bind app length].
  set (x1 := le_bytes 4 _). assert (length x1 = 4%nat) as L1 by apply length_le_bytes.
  replace (0 + 4)%nat with (length x1) by lia.
  rewrite copy_at_fresh by (subst L; lia).
  replace (length x1 + length addr)%nat with (length (x1 ++ addr)) by (rewrite length_app; lia).
  rewrite put_u32_le_fresh by (subst L; lia). cbn [res_bind].
  set (x2 := le_bytes 4 _). assert (length x2 = 4%nat) as L2 by apply length_le_bytes.
  replace (length (x1 ++ addr) + 4)%nat with (length ((x1 ++ addr) ++ x2)) by (rewrite !length_app; lia).
  rewrite copy_at_fresh by (subst L; lia).
  replace (length ((x1 ++ addr) ++ x2) + length id)%nat with (length (((x1 ++ addr) ++ x2) ++ id))
    by (rewrite !length_app; lia).
  rewrite copy_at_fresh by (subst L; lia).
  rewrite !length_app, length_replicate.
  replace (L - 4 - length addr - 4 - length id - length message)%nat with 0%nat by (subst L; lia).
  rewrite Nat.add_0_r, Nat.eqb_refl. cbn [negb].
  unfold signed_bytes. fold x1 x2. by rewrite app_nil_r, <- !app_assoc.
Qed.

(** A length-prefixed string in front is determined by the whole. *)
Lemma length_prefix_inj a a' r r' :
  Z.of_nat (length a) < 2 ^ 32 -> Z.of_nat (length a') < 2 ^ 32 ->
  le_bytes 4 (u32 (Z.of_nat (length a))) ++ a ++ r = le_bytes 4 (u32 (Z.of_nat (length a'))) ++ a' ++ r' ->
  a = a' /\ r = r'.
Proof.
  intros H H' E. apply app_inj_1 in E as [E1 E2]; [|by rewrite !length_le_bytes].
  apply (f_equal le_val) in E1. rewrite !le_val_le_bytes, !u32_small in E1 by lia.
  change (256 ^ Z.of_nat 4) with (2 ^ 32) in E1. rewrite !Z.mod_small in E1 by lia.
  apply app_inj_1 in E2; [done|lia].
Qed.

(** SerializeMessage never panics, and two different (address, id, message) triples whose fields fit their 32-bit length prefixes are never packed into the same bytes to sign. *)
Theorem SerializeMessage_injective addr id message addr' id' message' :
  Z.of_nat (length addr) < 2 ^ 32 -> Z.of_nat (length id) < 2 ^ 32 ->
  Z.of_nat (length addr') < 2 ^ 32 -> Z.of_nat (length id') < 2 ^ 32 ->
  (exists s, SerializeMessage addr id message = Ok s /\
     length s = (8 + length addr + length id + length message)%nat) /\
  (SerializeMessage addr id message = SerializeMessage addr' id' message' ->
   addr = addr' /\ id = id' /\ message = message').
Proof.
  intros Ha Hi Ha' Hi'. rewrite !SerializeMessage_eq. split.
  - eexists. split; [reflexivity|]. unfold signed_bytes. rewrite !length_app, !length_le_bytes. lia.
  - intros E0. assert (signed_bytes addr id message = signed_bytes addr' id' message') as E by congruence.
    apply length_prefix_inj in E as [-> E]; [|done..].
    by apply length_prefix_inj in E as [-> ->].
Qed.

Lemma SerializeMessage_injective_witness :
  SerializeMessage [1; 2] [3] [4] <> SerializeMessage [1] [2; 3] [4].
Proof.
  intros E. destruct (SerializeMessage_injective [1; 2] [3] [4] [1] [2; 3] [4]) as [_ I]; try (vm_compute; reflexivity).
  destruct (I E) as [F _]. discriminate F.
Defined.

(** ** The compression header and the codecs *)

Lemma CompressInfo_roundtrip n size :
  0 <= compressAlgo n <= 255 ->
  exists info, GenCompressInfo n size = Ok info /\ 0 <= info < 65536 /\
    GetCompressInfo info = (compressAlgo n, compressEnable n && (CompressCondition_Size n <=? size)).
Proof.
  intros H. unfold GenCompressInfo. destruct (Z.ltb_spec 255 (compressAlgo n)); [lia|].
  eexists. split; [reflexivity|]. set (b := compressEnable n && _).
  assert (exists e, (if b then 1 else 0) = e /\ 0 <= e <= 1 /\ (e =? 1) = b /\ (e =? 0) = negb b) as (e & -> & He & E1 & E0).
  { destruct b; [exists 1|exists 0]; repeat split; lia. }
  rewrite u16_small by (rewrite Z.shiftl_mul_pow2 by lia; lia).
  rewrite Z.lor_comm, lor_add_disjoint by lia. change (2 ^ 8) with 256.
  split; [lia|]. unfold GetCompressInfo. rewrite Z.shiftr_div_pow2 by lia. change (2 ^ 8) with 256.
  rewrite Z.div_add, Z.div_small, Z.add_0_l, E1, E0 by lia.
  rewrite Z.land_comm. change 255 with (Z.ones 8). rewrite land_ones_mod by lia. change (2 ^ 8) with 256.
  rewrite Z_mod_plus_full, Z.mod_small by lia. f_equal. by destruct b.
Qed.

Lemma Uncompress_Compress `{C : Codec} `{!CodecLaws C} n bytes bytes' :
  Compress n bytes = Ok bytes' -> Uncompress bytes' (compressAlgo n) = Ok bytes.
Proof.
  unfold Compress, Uncompress, doGzipUncompress, doZlibUnCompress, doBzip2Compress, doBzip2Uncompress,
    doLzwUncompress, doLzwCompress, doGzipCompress, doZlibCompress.
  repeat case_match; intros [= <-]; simplify_eq; auto using f_equal.
  - rewrite gzip_roundtrip in *. congruence.
  - rewrite gzip_roundtrip in *. congruence.
  - rewrite zlib_roundtrip in *. congruence.
  - rewrite zlib_roundtrip in *. congruence.
  - by rewrite lzw_roundtrip.
Qed.

(** ** bufio.Writer *)

(** Everything handed to the writer, sent or still buffered. *)
Definition stream_of (b : writer) : list Z := sent (wr b) ++ wbuf b.

Definition writer_wf (b : writer) : Prop := (0 < wsize b)%nat /\ (length (wbuf b) <= wsize b)%nat.

Lemma sock_write_spec s p n e s' :
  sock_write s p = (n, e, s') ->
  (n <= length p)%nat /\ sent s' = sent s ++ take n p /\ (e = false -> n = length p).
Proof.
  unfold sock_write. destruct (faults s) as [|[k|] fs]; intros [= <- <- <-]; simpl;
    rewrite ?firstn_all; auto.
  rewrite length_take. split_and!; [lia| |done].
  f_equal. destruct (Nat.le_gt_cases k (length p)).
  - by rewrite Nat.min_l by done.
  - by rewrite Nat.min_r, !take_ge by lia.
Qed.

Lemma Flush_spec b e b' :
  Flush b = (e, b') ->
  stream_of b' = stream_of b /\ wsize b' = wsize b /\ e = werr b' /\
  (length (wbuf b') <= length (wbuf b))%nat /\ (e = false -> wbuf b' = []).
Proof.
  unfold Flush, stream_of. destruct (werr b) eqn:We; [by intros [= <- <-]|].
  destruct (wbuf b) as [|x l] eqn:Wb; [intros [= <- <-]; rewrite Wb; auto|]. rewrite <- Wb. clear x l Wb.
  destruct (sock_write (wr b) (wbuf b)) as [[n ew] s] eqn:W.
  apply sock_write_spec in W as (Hn & Hs & He).
  destruct (ew || _) eqn:E; intros [= <- <-]; cbn [wbuf wr wsize werr].
  - rewrite Hs, <- app_assoc, take_drop, length_drop. split_and!; [done..|lia|done].
  - apply orb_false_iff in E as [-> _]. rewrite Hs, He, firstn_all, app_nil_r by done.
    split_and!; simpl; auto; lia.
Qed.

Lemma bufio_write_loop_sound fuel b p nn b' p' nn' :
  writer_wf b -> bufio_write_loop fuel b p nn = Some (b', p', nn') ->
  exists d, p = d ++ p' /\ nn' = (nn + length d)%nat /\ stream_of b' = stream_of b ++ d /\
    wsize b' = wsize b /\ writer_wf b' /\ (werr b' = false -> (length p' <= Available b')%nat).
Proof.
  revert b p nn. induction fuel as [|fuel IH]; intros b p nn W; simpl.
  - destruct (_ && _) eqn:E; [done|]. intros [= <- <- <-]. exists []. rewrite !app_nil_r.
    split_and!; auto. intros We. rewrite We, andb_true_r in E. apply Nat.ltb_ge in E. lia.
  - destruct (_ && _) eqn:E.
    2:{ intros [= <- <- <-]. exists []. rewrite !app_nil_r. split_and!; auto.
        intros We. rewrite We, andb_true_r in E. apply Nat.ltb_ge in E. lia. }
    apply andb_true_iff in E as [A We%negb_true_iff]. apply Nat.ltb_lt in A.
    destruct (Nat.eqb_spec (length (wbuf b)) 0) as [B|B].
    + destruct (sock_write (wr b) p) as [[n e] s] eqn:S. apply sock_write_spec in S as (Hn & Hs & _).
      intros L. apply IH in L as (d & Hp & Hnn & Hst & Hz & Hw & Hl); [|done].
      exists (take n p ++ d). apply nil_length_inv in B.
      split_and!; auto.
      * rewrite <- app_assoc, <- Hp. by rewrite take_drop.
      * rewrite length_app, length_take, Nat.min_l by done. lia.
      * rewrite Hst. unfold stream_of. cbn [wr wbuf]. by rewrite B, Hs, !app_nil_r, app_assoc.
    + destruct (Flush _) as [e bf] eqn:F. cbn [snd].
      apply Flush_spec in F as (Hst & Hz & _ & Hl & _).
      intros L. apply IH in L as (d & Hp & Hnn & Hst' & Hz' & Hw & Hl').
      2:{ destruct W. unfold writer_wf. rewrite Hz. cbn [wsize wbuf] in *. split; [done|].
          rewrite length_app, length_take in Hl. unfold Available in *. lia. }
      exists (take (Available b) p ++ d). split_and!; auto.
      * rewrite <- app_assoc, <- Hp. by rewrite take_drop.
      * rewrite length_app, length_take, Nat.min_l by lia. lia.
      * rewrite Hst', Hst. unfold stream_of. cbn [wr wbuf]. by rewrite <- !app_assoc.
      * by rewrite Hz', Hz.
Qed.

Lemma bufio_write_loop_empty fuel b p nn :
  wbuf b = [] -> bufio_write_loop (S fuel) b p nn <> None.
Proof.
  intros B. simpl. destruct (_ && _); [|done]. rewrite B. simpl.
  destruct (sock_write (wr b) p) as [[n e] s] eqn:S. apply sock_write_spec in S as (_ & _ & He).
  destruct fuel; cbn [bufio_write_loop werr]; (destruct e; [by rewrite andb_false_r|]);
    rewrite He, drop_all by done; cbn [length];
    match goal with |- context [(?a <? 0)%nat] => by rewrite (proj2 (Nat.ltb_ge a 0)) by lia end.
Qed.

Lemma bufio_write_loop_err fuel b p nn : werr b = true -> bufio_write_loop fuel b p nn <> None.
Proof. intros We. destruct fuel; cbn [bufio_write_loop]; by rewrite We, andb_false_r. Qed.

Lemma bufio_write_loop_ends fuel b p nn : bufio_write_loop (S (S fuel)) b p nn <> None.
Proof.
  destruct (wbuf b) eqn:B; [by apply bufio_write_loop_empty|].
  remember (S fuel) as f eqn:Ef. cbn [bufio_write_loop]. destruct (_ && _); [|done].
  rewrite B. cbn [length Nat.eqb]. destruct (Flush _) as [e bf] eqn:F. cbn [snd]. subst f.
  apply Flush_spec in F as (_ & _ & He & _ & Hb).
  destruct e; [by apply bufio_write_loop_err|by apply bufio_write_loop_empty, Hb].
Qed.

Lemma Write_spec b p :
  writer_wf b ->
  exists nn e b', bufio_Write b p = Some (nn, e, b') /\ stream_of b' = stream_of b ++ take nn p /\
    wsize b' = wsize b /\ writer_wf b' /\ e = werr b' /\ (e = false -> nn = length p).
Proof.
  intros W. unfold bufio_Write.
  destruct (bufio_write_loop 3 b p 0) as [[[b' p'] nn]|] eqn:L; [|by apply bufio_write_loop_ends in L].
  apply bufio_write_loop_sound in L as (d & -> & -> & Hst & Hz & Hw & Hl); [|done]. cbn [Nat.add].
  destruct (werr b') eqn:We; eexists _, _, _; split_and!; try reflexivity; auto.
  - by rewrite take_app_length.
  - done.
  - rewrite <- length_app, firstn_all. unfold stream_of in *. cbn [wr wbuf]. by rewrite !app_assoc, Hst.
  - destruct Hw. split; [done|]. cbn [wbuf wsize]. rewrite length_app.
    specialize (Hl eq_refl). unfold Available in Hl. lia.
  - by rewrite length_app.
Qed.

(** ** Sending a frame *)

Lemma write_loop_spec fuel b f :
  writer_wf b -> (length f <= fuel)%nat ->
  exists e total b', write_loop fuel b f 0 = Some (e, total, b') /\ writer_wf b' /\ wsize b' = wsize b /\
    (e = true -> werr b' = true) /\
    (e = false -> (werr b = false -> werr b' = false) /\ total = length f /\ stream_of b' = stream_of b ++ f) /\
    exists k, stream_of b' = stream_of b ++ take k f.
Proof.
  intros W Hf. destruct f as [|x f'].
  { exists false, 0%nat, b. split_and!; auto; [by destruct fuel|done| |exists 0%nat]; simpl; by rewrite app_nil_r. }
  set (f := x :: f') in *. destruct fuel as [|fuel]; [simpl in Hf; lia|].
  cbn [write_loop]. rewrite (proj2 (Nat.ltb_lt 0 (length f))) by (simpl; lia). rewrite drop_0.
  destruct (Write_spec b f W) as (nn & e & b1 & -> & Hst & Hz & Hw & He & Hn).
  destruct e; [exists true, 0%nat, b1; split_and!; eauto; done|].
  rewrite Hn in * by done. rewrite firstn_all in Hst. cbn [Nat.add].
  assert (forall fuel b2, write_loop fuel b2 f (length f) = Some (false, length f, b2)) as Stop.
  { intros [|k] b2; cbn [write_loop]; by rewrite (proj2 (Nat.ltb_ge (length f) (length f))) by lia. }
  assert (exists k, stream_of b ++ f = stream_of b ++ take k f) as K.
  { exists (length f). by rewrite firstn_all. }
  destruct (Available b1 <=? 0)%nat.
  - destruct (Flush b1) as [e b2] eqn:F. apply Flush_spec in F as (Hst2 & Hz2 & He2 & Hl2 & Hb2).
    assert (writer_wf b2) by (destruct Hw; split; lia).
    destruct e; [|rewrite Stop].
    + exists true, (length f), b2. rewrite Hst2, Hst. split_and!; auto; try done. congruence.
    + exists false, (length f), b2. rewrite Hst2, Hst. split_and!; auto; try done. congruence.
  - rewrite Stop. exists false, (length f), b1. rewrite Hst. split_and!; auto; done.
Qed.

(** What the writers leave behind: on success everything is on the socket; after an error the
    other side has, or will have, a prefix. *)
Lemma write_all_spec b f :
  writer_wf b -> werr b = false ->
  exists r b', write_all b f = (r, b') /\ writer_wf b' /\ wsize b' = wsize b /\
    match r with
    | Ok _ => werr b' = false /\ wbuf b' = [] /\ sent (wr b') = stream_of b ++ f
    | Err e => (e = EWrite \/ e = EFlush) /\ werr b' = true /\
               exists k, stream_of b' = stream_of b ++ take k f
    | Panic => False
    end.
Proof.
  intros W We. unfold write_all.
  destruct (write_loop_spec (length f) b f W) as (e & t & b1 & -> & Hw & Hz & He & Hok & Hk); [lia|].
  destruct e; [exists (Err EWrite), b1; eauto 10|].
  destruct Hok as (We1 & _ & Hst); [done|].
  destruct (Flush b1) as [e b2] eqn:F. apply Flush_spec in F as (Hst2 & Hz2 & He2 & Hl2 & Hb2).
  assert (writer_wf b2) by (destruct Hw; split; lia).
  destruct e.
  - exists (Err EFlush), b2. rewrite Hst2. split_and!; eauto; congruence.
  - exists (Ok tt), b2. split_and!; auto; [congruence|].
    rewrite <- Hst, <- Hst2. unfold stream_of. by rewrite Hb2, app_nil_r.
Qed.

(** A writer whose socket never fails. *)
Definition healthy (b : writer) : Prop := werr b = false /\ faults (wr b) = [].

Lemma sock_write_healthy s p : faults s = [] -> sock_write s p = (length p, false, mkSocket (sent s ++ p) []).
Proof. unfold sock_write. by intros ->. Qed.

Lemma Flush_healthy b : healthy b -> exists b', Flush b = (false, b') /\ healthy b'.
Proof.
  intros [We Hf]. unfold Flush. rewrite We. destruct (wbuf b) as [|x l]; [by exists b|].
  rewrite sock_write_healthy by done. rewrite Nat.ltb_irrefl. by eexists.
Qed.

Lemma bufio_write_loop_healthy fuel b p nn b' p' nn' :
  healthy b -> bufio_write_loop fuel b p nn = Some (b', p', nn') -> healthy b'.
Proof.
  revert b p nn. induction fuel as [|fuel IH]; intros b p nn H; cbn [bufio_write_loop].
  - destruct (_ && _); [done|]. by intros [= <- <- <-].
  - destruct (_ && _); [|by intros [= <- <- <-]]. destruct (_ =? 0)%nat.
    + rewrite sock_write_healthy by apply H. by apply IH.
    + edestruct Flush_healthy as (bf & -> & Hb); [|by apply IH]. by destruct H.
Qed.

Lemma write_all_healthy b f :
  writer_wf b -> healthy b -> exists b', write_all b f = (Ok tt, b') /\ healthy b'.
Proof.
  intros W H. unfold write_all.
  enough (exists t b1, write_loop (length f) b f 0 = Some (false, t, b1) /\ healthy b1) as (t & b1 & -> & H1).
  { destruct (Flush_healthy b1 H1) as (b2 & -> & H2). by exists b2. }
  destruct (write_loop_spec (length f) b f W) as (e & t & b1 & L & Hw & Hz & He & Hok & Hk); [lia|].
  rewrite L. clear Hw Hz Hok Hk. destruct f as [|x f]; [simpl in L; injection L as <- <- <-; eauto|].
  cbn [length write_loop] in L. rewrite drop_0 in L. simpl Nat.ltb in L. cbn iota in L.
  unfold bufio_Write in L.
  destruct (bufio_write_loop 3 b (x :: f) 0) as [[[b2 p2] n2]|] eqn:L2; [|done].
  apply bufio_write_loop_healthy in L2 as L2'; [|done]. destruct L2' as [We2 Hf2]. rewrite We2 in L.
  apply bufio_write_loop_sound in L2 as (d & Hd & -> & _); [|done].
  set (b3 := mkWriter _ _ _ _) in L. assert (healthy b3) as H3 by done.
  assert ((0 + (0 + length d + length p2))%nat = S (length f)) as Hn.
  { apply (f_equal length) in Hd. rewrite length_app in Hd. simpl in *. lia. }
  rewrite Hn in L.
  assert (forall fuel b2, write_loop fuel b2 (x :: f) (S (length f)) = Some (false, S (length f), b2)) as Stop.
  { intros [|k] b4; cbn [write_loop length]; by rewrite Nat.ltb_irrefl. }
  destruct (Available b3 <=? 0)%nat.
  - destruct (Flush_healthy b3 H3) as (b4 & E4 & H4). rewrite E4, Stop in L. injection L as <- <- <-. eauto.
  - rewrite Stop in L. injection L as <- <- <-. eauto.
Qed.

(** ** Reading from a connection that delivers its bytes in arbitrary chunks *)

Definition bytes_of (c : conn) : list Z := concat (fst <$> c).

Definition clean (c : conn) : Prop := Forall (fun ev => ev.2 = false) c.

(** What receiveMessage needs of the loop that fills a buffer. *)
Class Reader (rd : nat -> conn -> option (list Z) * conn) := {
  rd_full : forall n c x y, clean c -> bytes_of c = x ++ y -> length x = n ->
    exists c', rd n c = (Some x, c') /\ clean c' /\ bytes_of c' = y;
  rd_short : forall n c, (length (bytes_of c) < n)%nat -> (rd n c).1 = None;
  rd_sound : forall n c x c', rd n c = (Some x, c') -> length x = n /\ bytes_of c = x ++ bytes_of c'
}.

Lemma bytes_of_cons chunk e c : bytes_of ((chunk, e) :: c) = chunk ++ bytes_of c.
Proof. done. Qed.

Lemma app_split (chunk r x y : list Z) :
  chunk ++ r = x ++ y -> (length chunk <= length x)%nat ->
  exists x', x = chunk ++ x' /\ r = x' ++ y.
Proof.
  intros E L. exists (drop (length chunk) x).
  rewrite <- (take_drop (length chunk) x) in E at 1. rewrite <- app_assoc in E.
  apply app_inj_1 in E as [E1 E2]; [|rewrite length_take; lia].
  split; [|done]. rewrite E1 at 1. by rewrite take_drop.
Qed.

Lemma app_split_long (chunk r x y : list Z) :
  chunk ++ r = x ++ y -> (length x < length chunk)%nat ->
  take (length x) chunk = x /\ drop (length x) chunk ++ r = y.
Proof.
  intros E L. rewrite <- (take_drop (length x) chunk) in E at 1. rewrite <- app_assoc in E.
  apply app_inj_1 in E as [E1 E2]; [done|]. rewrite length_take. lia.
Qed.

#[global] Instance read_loop_reader : Reader read_loop.
Proof.
  split.
  - intros n c x y Hc. revert n x. induction Hc as [|[chunk e] c He Hc IH]; intros n x E Hx.
    + destruct x; [|done]. simpl in *. subst. exists []. split; [done|]. split; [constructor|done].
    + simpl in He. subst e. rewrite bytes_of_cons in E. destruct n as [|n].
      { apply nil_length_inv in Hx. subst x. eexists. split; [reflexivity|]. split; [by constructor|done]. }
      cbn [read_loop]. destruct (Nat.ltb_spec (S n) (length chunk)) as [L|L].
      * apply app_split_long in E as [E1 E2]; [|lia]. rewrite Hx in *.
        eexists. rewrite E1. split; [reflexivity|]. split; [by constructor|done].
      * apply app_split in E as (x' & -> & E); [|lia]. rewrite length_app in Hx.
        destruct (IH (S n - length chunk)%nat x' E ltac:(lia)) as (c' & -> & Hc' & Hy).
        by exists c'.
  - intros n c. revert n. induction c as [|[chunk e] c IH]; intros [|n] L; simpl in *; try lia; auto.
    rewrite bytes_of_cons, length_app in L.
    destruct (Nat.ltb_spec (S n) (length chunk)); [lia|]. destruct e; [done|].
    specialize (IH (S n - length chunk)%nat ltac:(lia)). destruct chunk as [|z chunk]; simpl in *.
    + destruct (read_loop (S n) c) as [r c']. simpl in *. by subst.
    + destruct (read_loop (n - length chunk) c) as [r c']. simpl in *. by subst.
  - intros n c. revert n. induction c as [|[chunk e] c IH]; intros [|n] x c'; cbn [read_loop]; intros E;
      simplify_eq; try done.
    destruct (Nat.ltb_spec (S n) (length chunk)) as [L|L].
    { simplify_eq. rewrite !bytes_of_cons, app_assoc, take_drop, length_take. split; [lia|done]. }
    destruct e; [done|]. destruct (read_loop (S n - length chunk) c) as [[r|] c1] eqn:R; [|done].
    simpl in E. simplify_eq. apply IH in R as [R1 R2]. rewrite bytes_of_cons, R2, app_assoc, length_app.
    split; [lia|done].
Qed.

#[global] Instance ReadFull_reader : Reader ReadFull.
Proof.
  split.
  - intros n c x y Hc. revert n x. induction Hc as [|[chunk e] c He Hc IH]; intros n x E Hx.
    + destruct x; [|done]. simpl in *. subst. exists []. split; [done|]. split; [constructor|done].
    + simpl in He. subst e. rewrite bytes_of_cons in E. destruct n as [|n].
      { apply nil_length_inv in Hx. subst x. eexists. split; [reflexivity|]. split; [by constructor|done]. }
      cbn [ReadFull]. destruct (Nat.ltb_spec (S n) (length chunk)) as [L|L].
      * apply app_split_long in E as [E1 E2]; [|lia]. rewrite Hx in *.
        eexists. rewrite E1. split; [reflexivity|]. split; [by constructor|done].
      * apply app_split in E as (x' & -> & E); [|lia]. rewrite length_app in Hx.
        destruct (IH (S n - length chunk)%nat x' E ltac:(lia)) as (c' & -> & Hc' & Hy).
        by exists c'.
  - intros n c. revert n. induction c as [|[chunk e] c IH]; intros [|n] L; [simpl in L; lia|done|simpl in L; lia|].
    rewrite bytes_of_cons, length_app in L. cbn [ReadFull].
    destruct (Nat.ltb_spec (S n) (length chunk)); [lia|].
    destruct e; [destruct (Nat.eqb_spec (S n) (length chunk)); [lia|done]|].
    specialize (IH (S n - length chunk)%nat ltac:(lia)).
    destruct (ReadFull (S n - length chunk) c) as [r c']. simpl in *. by subst.
  - intros n c. revert n. induction c as [|[chunk e] c IH]; intros [|n] x c'; cbn [ReadFull]; intros E;
      simplify_eq; try done.
    destruct (Nat.ltb_spec (S n) (length chunk)) as [L|L].
    { simplify_eq. rewrite !bytes_of_cons, app_assoc, take_drop, length_take. split; [lia|done]. }
    destruct e.
    { destruct (Nat.eqb_spec (S n) (length chunk)); simplify_eq. by rewrite !bytes_of_cons. }
    destruct (ReadFull (S n - length chunk) c) as [[r|] c1] eqn:R; [|done].
    simpl in E. simplify_eq. apply IH in R as [R1 R2]. rewrite bytes_of_cons, R2, app_assoc, length_app.
    split; [lia|done].
Qed.

(** ** Frames *)

Section frames.
Context `{C : Codec} `{!CodecLaws C}.
Variable Marshal : Message -> option (list Z).
Variable Unmarshal : list Z -> option Message.

(** The frame of a body. *)
Definition frame (n : net_config) (info : Z) (body : list Z) : list Z :=
  be_bytes 4 (netID n) ++ be_bytes 2 (u16 info) ++ be_bytes 4 (u32 (Z.of_nat (length body))) ++ body.

(** A frame that a sender built, with what its receiver makes of it. *)
Lemma build_frame_inv (oe : res wire_err (list Z)) n m f :
  0 <= compressAlgo n -> (forall x, oe <> Ok x) -> build_frame Marshal oe n m = Ok f ->
  exists bytes body info, Marshal m = Some bytes /\ f = frame n info body /\ 0 <= info < 65536 /\
    (let '(algo, en) := GetCompressInfo info in
     (if en then Uncompress body algo else Ok body) = Ok bytes).
Proof.
  intros Ha Hoe. unfold build_frame. destruct (Marshal m) as [bytes|] eqn:M; [|done].
  destruct (Z.of_nat (length bytes) =? 0); [intros E; by apply Hoe in E|].
  set (size := Z.of_nat (length bytes)).
  destruct (if compressEnable n && (CompressCondition_Size n <=? size) then Compress n bytes else Ok bytes) as [body| |] eqn:B; [|done..]. cbn [res_bind].
  destruct (GenCompressInfo n size) as [info| |] eqn:G; [|done..]. cbn [res_bind]. intros [= <-].
  destruct (Z.le_gt_cases (compressAlgo n) 255).
  2:{ unfold GenCompressInfo in G. destruct (Z.ltb_spec 255 (compressAlgo n)); [done|lia]. }
  destruct (CompressInfo_roundtrip n size) as (info' & G' & Hi & E); [lia|].
  rewrite G in G'. injection G' as <-.
  exists bytes, body, info. split_and!; try done; [lia..|]. rewrite E.
  destruct (compressEnable n && _); [by apply Uncompress_Compress|done].
Qed.

Lemma receive_frame rd `{!Reader rd} n info body rest c :
  0 <= netID n < 2 ^ 32 -> 0 <= info < 65536 -> 0 < Z.of_nat (length body) < 2 ^ 32 ->
  clean c -> bytes_of c = frame n info body ++ rest ->
  exists c', receive_with Unmarshal rd n c
    = (let '(algo, en) := GetCompressInfo info in decode_body Unmarshal n algo en body, c') /\
    clean c' /\ bytes_of c' = rest.
Proof.
  intros Hid Hi Hb Hc E. unfold frame in E. rewrite <- !app_assoc in E. unfold receive_with.
  apply rd_full with (n := 4%nat) in E as (c1 & -> & Hc1 & E1); [|done|by rewrite length_be_bytes].
  rewrite be_val_be_bytes_small by (change (256 ^ Z.of_nat 4) with (2 ^ 32); lia).
  rewrite Z.eqb_refl. cbn [negb].
  apply rd_full with (n := 2%nat) in E1 as (c2 & -> & Hc2 & E2); [|done|by rewrite length_be_bytes].
  rewrite be_val_be_bytes_small by (change (256 ^ Z.of_nat 2) with 65536; rewrite u16_small; lia).
  rewrite u16_small by lia. destruct (GetCompressInfo info) as [algo en].
  apply rd_full with (n := 4%nat) in E2 as (c3 & -> & Hc3 & E3); [|done|by rewrite length_be_bytes].
  rewrite be_val_be_bytes_small by (change (256 ^ Z.of_nat 4) with (2 ^ 32); rewrite u32_small; lia).
  rewrite u32_small by lia. destruct (Z.eqb_spec (Z.of_nat (length body)) 0); [lia|].
  rewrite Nat2Z.id.
  apply rd_full with (n := length body) in E3 as (c4 & -> & Hc4 & E4); [|done..].
  by exists c4.
Qed.

(** ** Sequences of messages *)

Fixpoint send_all (n : net_config) (bw : writer) (ms : list Message) : res wire_err unit * writer :=
  match ms with
  | [] => (Ok tt, bw)
  | m :: ms =>
    match sendMessage Marshal n bw m with
    | (Ok _, bw) => send_all n bw ms
    | r => r
    end
  end.

Fixpoint receive_all (rd : nat -> conn -> option (list Z) * conn) (k : nat) (n : net_config) (c : conn)
    : res wire_err (list Message) * conn :=
  match k with
  | O => (Ok [], c)
  | S k =>
    match receive_with Unmarshal rd n c with
    | (Ok m, c) =>
      match receive_all rd k n c with
      | (Ok ms, c) => (Ok (m :: ms), c)
      | r => r
      end
    | (Err e, c) => (Err e, c)
    | (Panic, c) => (Panic, c)
    end
  end.

(** A message the peer accepts: protobuf carries it faithfully, its headers are valid on this
    network, and its body, compressed or not, is not empty and fits the 32-bit length. *)
Definition sendable (n : net_config) (m : Message) : Prop :=
  valid_headers n m = true /\
  (forall b, Marshal m = Some b -> Unmarshal b = Some m) /\
  (forall f, build_frame Marshal Panic n m = Ok f -> 10 < Z.of_nat (length f) < 10 + 2 ^ 32).

Definition frames_of (n : net_config) (ms : list Message) : list Z :=
  ms ≫= fun m => match build_frame Marshal Panic n m with Ok f => f | _ => [] end.

Lemma sendMessage_Ok n b m b' :
  writer_wf b -> werr b = false -> sendMessage Marshal n b m = (Ok tt, b') ->
  exists f, build_frame Marshal Panic n m = Ok f /\ writer_wf b' /\ werr b' = false /\
    wbuf b' = [] /\ sent (wr b') = stream_of b ++ f.
Proof.
  intros W We. unfold sendMessage. destruct (build_frame Marshal Panic n m) as [f| |] eqn:F; [|done..].
  destruct (write_all_spec b f W We) as (r & b1 & -> & Hw & Hz & Hr). intros [= -> <-].
  exists f. split_and!; [done|done|apply Hr..].
Qed.

Lemma send_all_Ok n b ms b' :
  writer_wf b -> werr b = false -> send_all n b ms = (Ok tt, b') ->
  stream_of b' = stream_of b ++ frames_of n ms /\
  Forall (fun m => exists f, build_frame Marshal Panic n m = Ok f) ms.
Proof.
  revert b. induction ms as [|m ms IH]; intros b W We; cbn [send_all].
  - intros [= <-]. simpl. rewrite app_nil_r. auto.
  - destruct (sendMessage Marshal n b m) as [[[]| |] b1] eqn:S; [|done..]. intros E.
    apply sendMessage_Ok in S as (f & F & W1 & We1 & B1 & S1); [|done..].
    apply IH in E as [E1 E2]; [|done..]. split; [|constructor; eauto].
    rewrite E1. unfold frames_of. cbn [mbind list_bind]. rewrite F, app_assoc. f_equal.
    unfold stream_of. by rewrite S1, B1, app_nil_r.
Qed.

Lemma valid_headers_net n n' m : netID n' = netID n -> valid_headers n' m = valid_headers n m.
Proof. unfold valid_headers. by intros ->. Qed.

Lemma receive_sent rd `{!Reader rd} n n' m f rest c :
  netID n' = netID n -> 0 <= netID n < 2 ^ 32 -> 0 <= compressAlgo n ->
  sendable n m -> build_frame Marshal Panic n m = Ok f ->
  clean c -> bytes_of c = f ++ rest ->
  exists c', receive_with Unmarshal rd n' c = (Ok m, c') /\ clean c' /\ bytes_of c' = rest.
Proof.
  intros En Hid Ha (Hv & Hu & Hl) F Hc E.
  specialize (Hl f F). apply build_frame_inv in F as (bytes & body & info & M & -> & Hi & D); [|done..].
  assert (frame n info body = frame n' info body) as Ef by (unfold frame; by rewrite En).
  rewrite Ef in E, Hl. unfold frame in Hl. rewrite !length_app, !length_be_bytes in Hl.
  apply (receive_frame rd n') in E as (c' & -> & Hc' & Er); [|lia..|done].
  exists c'. split_and!; [|done..]. destruct (GetCompressInfo info) as [algo en].
  unfold decode_body. rewrite D. cbn [res_bind]. rewrite (Hu bytes M), (valid_headers_net n n'), Hv by done.
  done.
Qed.

Lemma receive_all_sent rd `{!Reader rd} n n' ms rest c :
  netID n' = netID n -> 0 <= netID n < 2 ^ 32 -> 0 <= compressAlgo n ->
  Forall (sendable n) ms -> Forall (fun m => exists f, build_frame Marshal Panic n m = Ok f) ms ->
  clean c -> bytes_of c = frames_of n ms ++ rest ->
  exists c', receive_all rd (length ms) n' c = (Ok ms, c') /\ clean c' /\ bytes_of c' = rest.
Proof.
  intros En Hid Ha HS HF. revert c. induction HS as [|m ms Hm HS IH]; intros c Hc E; [by exists c|].
  apply Forall_cons in HF as [[f F] HF]. unfold frames_of in E. cbn [mbind list_bind] in E.
  rewrite F, <- app_assoc in E. apply (receive_sent rd n n' m) in E as (c1 & R & Hc1 & E1); [|done..].
  destruct (IH HF c1 Hc1 E1) as (c2 & R2 & Hc2 & E2).
  exists c2. split_and!; [|done..]. cbn [length receive_all]. by rewrite R, R2.
Qed.

Lemma receive_truncated rd `{!Reader rd} n n' m f k c :
  netID n' = netID n -> 0 <= netID n < 2 ^ 32 -> 0 <= compressAlgo n -> sendable n m ->
  build_frame Marshal Panic n m = Ok f -> (k < length f)%nat -> bytes_of c = take k f ->
  exists e c', receive_with Unmarshal rd n' c = (Err e, c').
Proof.
  intros En Hid Ha (_ & _ & Hl) F Hk E. specialize (Hl f F).
  apply build_frame_inv in F as (bytes & body & info & _ & -> & Hi & _); [|done..].
  assert (bytes_of c ++ drop k (frame n info body) = frame n info body) as P by (by rewrite E, take_drop).
  assert (length (bytes_of c) = k) as Lk by (rewrite E, length_take; lia). clear E.
  unfold frame in P at 2, Hl. rewrite !length_app, !length_be_bytes in Hl. unfold frame in Hk.
  rewrite !length_app, !length_be_bytes in Hk.
  assert (Z.of_nat (length body) < 2 ^ 32) by lia.
  unfold receive_with.
  destruct (rd 4%nat c) as [[x1|] c1] eqn:R1; [|eauto]. apply rd_sound in R1 as [L1 E1].
  rewrite E1, <- app_assoc in P. apply app_inj_1 in P as [-> P]; [|by rewrite length_be_bytes].
  rewrite E1, length_app, length_be_bytes in Lk. rewrite be_val_be_bytes_small, En, Z.eqb_refl by
    (change (256 ^ Z.of_nat 4) with (2 ^ 32); lia). cbn [negb].
  destruct (rd 2%nat c1) as [[x2|] c2] eqn:R2; [|eauto]. apply rd_sound in R2 as [L2 E2].
  rewrite E2, <- app_assoc in P. apply app_inj_1 in P as [_ P]; [|by rewrite length_be_bytes].
  rewrite E2, length_app in Lk. destruct (GetCompressInfo (be_val x2)) as [algo en].
  destruct (rd 4%nat c2) as [[x3|] c3] eqn:R3; [|eauto]. apply rd_sound in R3 as [L3 E3].
  rewrite E3, <- app_assoc in P. apply app_inj_1 in P as [-> P]; [|by rewrite length_be_bytes].
  rewrite E3, length_app, length_be_bytes in Lk.
  rewrite be_val_be_bytes_small by (change (256 ^ Z.of_nat 4) with (2 ^ 32); rewrite u32_small; lia).
  rewrite u32_small by lia. destruct (Z.of_nat (length body) =? 0); [eauto|]. rewrite Nat2Z.id.
  pose proof (rd_short (length body) c3 ltac:(lia)) as S.
  destruct (rd (length body) c3) as [r c4]. simpl in S. subst r. eauto.
Qed.

End frames.

(** A codec to run the model with: a marker byte in front. *)
#[local] Instance marker_codec : Codec := {
  lzw_write x := 76 :: x;
  lzw_read x := tail x;
  gzip_write x := 71 :: x;
  gzip_NewReader x := match x with 71 :: r => Some r | _ => None end;
  zlib_write x := 90 :: x;
  zlib_NewReader x := match x with 90 :: r => Some r | _ => None end
}.

#[local] Instance marker_codec_laws : CodecLaws marker_codec.
Proof. split; reflexivity. Qed.

Definition example_sender : PbID := mkPbID (Some [7]) [1; 2] [3] [] [].
Definition example_msg : Message := mkMessage [9] (Some example_sender) None 0 1 false 1000 5 [] false.
Definition example_net : net_config := mkNetConfig 5 true GZIP 2.
Definition example_marshal (m : Message) : option (list Z) := Some [8; 8; 8].
Definition example_unmarshal (b : list Z) : option Message := Some example_msg.
Definition example_writer : writer := mkWriter [] 8 false (mkSocket [] []).

Lemma example_sendable : sendable example_marshal example_unmarshal example_net example_msg.
Proof. split; [reflexivity|]. split; [done|]. intros f F. vm_compute in F. injection F as <-. cbn. lia. Qed.


(** sendMessage on every branch: a message that cannot be framed leaves the connection alone; a framed one is completely on the socket when nil is returned, the connection has at most a prefix of it when an error is returned, and without a fault of the socket the result is nil. *)
Lemma sendMessage_spec `{C : Codec} Marshal n b m :
  writer_wf b -> werr b = false ->
  match build_frame Marshal Panic n m with
  | Ok f => exists r b', sendMessage Marshal n b m = (r, b') /\
      ((r = Ok tt /\ sent (wr b') = stream_of b ++ f /\ wbuf b' = [] /\ werr b' = false) \/
       ((r = Err EWrite \/ r = Err EFlush) /\ werr b' = true /\
        exists k, stream_of b' = stream_of b ++ take k f)) /\
      (faults (wr b) = [] -> r = Ok tt)
  | Err e => sendMessage Marshal n b m = (Err e, b)
  | Panic => sendMessage Marshal n b m = (Panic, b)
  end.
Proof.
  intros W We. unfold sendMessage. destruct (build_frame Marshal Panic n m) as [f| |]; [|done..].
  destruct (write_all_spec b f W We) as (r & b' & E & _ & _ & Hr). exists r, b'. split_and!; [done| |].
  - destruct r as [[]|e|]; [left; tauto| |done]. right. destruct Hr as ([->| ->] & ? & ?); auto.
  - intros Hf. destruct (write_all_healthy b f W) as (b2 & E2 & _); [done|]. rewrite E in E2. congruence.
Qed.

(** receiveMessage and receiveQuicMessage only return messages with valid headers of this network, and return an error, not a message, when the connection ends anywhere inside the frame of a message. *)
Lemma receive_rejects `{C : Codec} `{!CodecLaws C} Marshal Unmarshal n n' m f k :
  netID n' = netID n -> 0 <= netID n < 2 ^ 32 -> 0 <= compressAlgo n ->
  sendable Marshal Unmarshal n m -> build_frame Marshal Panic n m = Ok f -> (k < length f)%nat ->
  (forall c m' c', receiveMessage Unmarshal n' c = (Ok m', c') -> valid_headers n' m' = true) /\
  (forall c m' c', receiveQuicMessage Unmarshal n' c = (Ok m', c') -> valid_headers n' m' = true) /\
  (forall c, bytes_of c = take k f ->
     (exists e c', receiveMessage Unmarshal n' c = (Err e, c')) /\
     (exists e c', receiveQuicMessage Unmarshal n' c = (Err e, c'))).
Proof.
  intros En Hid Ha HS F Hk.
  assert (forall rd c m' c', receive_with Unmarshal rd n' c = (Ok m', c') -> valid_headers n' m' = true) as V.
  { assert (forall algo en body m', decode_body Unmarshal n' algo en body = Ok m' -> valid_headers n' m' = true) as D.
    { intros algo en body m'. unfold decode_body. destruct (if en then _ else _); simpl; [|done..].
      destruct (Unmarshal _) as [m0|]; [|done]. destruct (valid_headers n' m0) eqn:Vm; [|done]. by intros [= <-]. }
    intros rd c m' c'. unfold receive_with.
    destruct (rd 4%nat c) as [[x1|] c1]; [|done]. destruct (negb _); [done|].
    destruct (rd 2%nat c1) as [[x2|] c2]; [|done]. destruct (GetCompressInfo _) as [algo en].
    destruct (rd 4%nat c2) as [[x3|] c3]; [|done]. destruct (_ =? 0); [done|].
    destruct (rd _ c3) as [[x4|] c4]; [|done]. intros [= R _]. by apply D in R. }
  split_and!; [apply V..|]. intros c E. split.
  - by apply (receive_truncated Marshal Unmarshal read_loop n n' m f k).
  - by apply (receive_truncated Marshal Unmarshal ReadFull n n' m f k).
Qed.

(** ** UDP *)

Lemma udp_body (b : list Z) :
  Z.of_nat (length b) <= 65533 ->
  let buffer := take (Z.to_nat MAX_PACKAGE_SIZE)
    ((be_bytes 2 (u16 (Z.of_nat (length b))) ++ b) ++ replicate (Z.to_nat MAX_PACKAGE_SIZE) 0) in
  be_val (take 2 buffer) = Z.of_nat (length b) /\
  drop 2 (take (Z.to_nat (u16 (2 + Z.of_nat (length b)))) buffer) = b.
Proof.
  intros H buffer. unfold buffer. rewrite take_take, Nat.min_l by (unfold MAX_PACKAGE_SIZE; lia).
  set (h := be_bytes 2 _). assert (length h = 2%nat) as Lh by apply length_be_bytes.
  rewrite <- app_assoc. split.
  - rewrite <- Lh, take_app_length. unfold h. rewrite be_val_be_bytes_small; [by apply u16_small; lia|].
    change (256 ^ Z.of_nat 2) with 65536. rewrite u16_small; lia.
  - rewrite u16_small by lia. rewrite take_take, Nat.min_l by (unfold MAX_PACKAGE_SIZE; lia).
    replace (Z.to_nat (2 + Z.of_nat (length b))) with (length h + length b)%nat by lia.
    rewrite take_app_add, take_app_length. rewrite <- Lh. by rewrite drop_app_length.
Qed.

(** A message that fits is received. *)
Lemma udp_sent_received Marshal Unmarshal n m b :
  Marshal m = Some b -> Unmarshal b = Some m -> Z.of_nat (length b) <= 65533 ->
  valid_headers n m = true \/ Opcode m = ProxyResponseCode \/ Opcode m = KeepaliveResponseCode ->
  exists d, sendUDPMessage Marshal m = [d] /\ receiveUDPMessage Unmarshal n (Some d) = Ok (Some m).
Proof.
  intros M U L V. unfold sendUDPMessage, BuildRawContent. rewrite M. unfold STORE_PACKAGE_REAL_SIZE.
  set (d := be_bytes 2 _ ++ b).
  assert (Z.of_nat (length d) = 2 + Z.of_nat (length b)) as Ld.
  { unfold d. rewrite length_app, length_be_bytes. lia. }
  destruct (Z.ltb_spec MAX_PACKAGE_SIZE (Z.of_nat (length d))); [unfold MAX_PACKAGE_SIZE in *; lia|].
  exists d. split; [done|]. unfold receiveUDPMessage, d.
  destruct (udp_body b L) as [E1 E2]. rewrite E1, E2, U.
  destruct (Z.ltb_spec (u16 (2 + Z.of_nat (length b))) 2); [rewrite u16_small in *; lia|].
  destruct V as [V|[-> | ->]].
  - rewrite V. by destruct (_ || _).
  - done.
  - done.
Qed.

(** The size fields that make the slice bound 2+size wrap around. *)
Lemma udp_panics Unmarshal n b0 b1 d :
  0 <= b0 < 256 -> 0 <= b1 < 256 ->
  receiveUDPMessage Unmarshal n (Some (b0 :: b1 :: d)) = Panic <-> 65534 <= b0 * 256 + b1.
Proof.
  intros H0 H1. unfold receiveUDPMessage. set (buffer := take (Z.to_nat MAX_PACKAGE_SIZE) _).
  assert (be_val (take 2 buffer) = b0 * 256 + b1) as ->.
  { unfold buffer. rewrite take_take, Nat.min_l by (unfold MAX_PACKAGE_SIZE; lia).
    rewrite <- !app_comm_cons. set (r := d ++ _). change (take 2 (b0 :: b1 :: r)) with [b0; b1].
    unfold be_val. cbn [rev app le_val]. lia. }
  destruct (Z.ltb_spec (u16 (2 + (b0 * 256 + b1))) 2) as [L|L]; unfold u16 in L.
  - split; [|done]. intros _. Z.div_mod_to_equations. lia.
  - split; [|intros; exfalso; Z.div_mod_to_equations; lia].
    destruct (Unmarshal _) as [msg|]; [|done]. by repeat case_match.
Qed.

(** C34. UDP: a message whose encoding has at most 65533 bytes is put in one datagram, and the receiver of that datagram gets it back (the header check excepts proxy and keepalive responses).  A datagram crashes the receiver exactly when its size field, which is the sender's, is 65534 or 65535: the slice bound 2+size wraps around in uint16. *)
Theorem udp_correct Marshal Unmarshal n :
  (forall m b, Marshal m = Some b -> Unmarshal b = Some m -> Z.of_nat (length b) <= 65533 ->
     valid_headers n m = true \/ Opcode m = ProxyResponseCode \/ Opcode m = KeepaliveResponseCode ->
     exists d, sendUDPMessage Marshal m = [d] /\ receiveUDPMessage Unmarshal n (Some d) = Ok (Some m)) /\
  (forall b0 b1 d, 0 <= b0 < 256 -> 0 <= b1 < 256 ->
     (receiveUDPMessage Unmarshal n (Some (b0 :: b1 :: d)) = Panic <-> 65534 <= b0 * 256 + b1)).
Proof. split; [apply udp_sent_received|intros; by apply udp_panics]. Qed.

Lemma udp_correct_witness :
  (exists d, sendUDPMessage example_marshal example_msg = [d] /\
     receiveUDPMessage example_unmarshal example_net (Some d) = Ok (Some example_msg)) /\
  receiveUDPMessage example_unmarshal example_net (Some [255; 254]) = Panic.
Proof.
  destruct (udp_correct example_marshal example_unmarshal example_net) as [R P]. split.
  - apply (R example_msg [8; 8; 8]); [reflexivity..|vm_compute; discriminate|left; reflexivity].
  - apply (P 255 254 []); lia.
Defined.

(** ** streamSendMessage *)

Lemma Write_healthy b p : writer_wf b -> healthy b ->
  exists b', bufio_Write b p = Some (length p, false, b') /\ healthy b'.
Proof.
  intros W H. unfold bufio_Write.
  destruct (bufio_write_loop 3 b p 0) as [[[b1 p1] n1]|] eqn:L; [|by apply bufio_write_loop_ends in L].
  pose proof (bufio_write_loop_healthy _ _ _ _ _ _ _ H L) as [We Hf].
  apply bufio_write_loop_sound in L as (d & -> & -> & _); [|done].
  rewrite We, length_app. cbn [Nat.add]. eexists. split; [reflexivity|done].
Qed.

Lemma stream_write_loop_stop fuel env m peerID sid b f :
  stream_write_loop fuel env m peerID sid b f (length f) = (Ok false, length f, b, env).
Proof. destruct fuel; cbn [stream_write_loop]; by rewrite Nat.ltb_irrefl. Qed.

Lemma build_frame_nonempty `{C : Codec} Marshal n m f :
  build_frame Marshal Panic n m = Ok f -> (0 < length f)%nat.
Proof.
  unfold build_frame. destruct (Marshal m) as [b|]; [|done]. destruct (_ =? 0); [done|].
  destruct (if compressEnable n && _ then Compress n b else _); cbn [res_bind]; [|done..].
  destruct (GenCompressInfo _ _); cbn [res_bind]; [|done..]. intros E.
  apply (f_equal (fun r => match r with Ok l => length l | _ => 1%nat end)) in E.
  rewrite length_app, length_be_bytes in E. lia.
Qed.

(** The one turn the loop makes. *)
Lemma stream_write_loop_open env m peerID sid ss cnt b f :
  writer_wf b -> werr b = false -> (0 < length f)%nat ->
  streams env !! peerID = Some ss -> ss !! sid = Some cnt ->
  exists e total b' env', stream_write_loop (length f) env m peerID sid b f 0 = (Ok e, total, b', env') /\
    SyncWaitAck env' = SyncWaitAck env /\ wsize b' = wsize b /\
    (e = false -> total = length f /\ stream_of b' = stream_of b ++ f /\ werr b' = false /\
       streams env' = <[peerID := <[sid := u64 (cnt + Z.of_nat (length f))]> ss]> (streams env)) /\
    (faults (wr b) = [] -> e = false /\ healthy b').
Proof.
  intros W We Hf Hp Hs. destruct f as [|x f']; [simpl in Hf; lia|]. set (f := x :: f') in *.
  destruct (length f) as [|k] eqn:Lf; [lia|]. cbn [stream_write_loop].
  rewrite Lf, (proj2 (Nat.ltb_lt 0 (S k))), Hp, Hs, drop_0 by lia.
  destruct (Write_spec b f W) as (nn & e & b1 & E & Hst & Hz & Hw & He & Hn).
  destruct e.
  - rewrite E. eexists _, _, _, _. split_and!; [reflexivity|done|done|done|].
    intros Hfl. destruct (Write_healthy b f W) as (b2 & E2 & _); [done|]. rewrite E in E2. done.
  - rewrite E, Hn in * by done. rewrite firstn_all in Hst.
    assert (faults (wr b) = [] -> healthy b1) as Hb1.
    { intros Hfl. destruct (Write_healthy b f W) as (b2 & E2 & H2); [done|].
      replace b1 with b2 by congruence. done. }
    cbn [Nat.add]. rewrite <- Lf in *. set (env1 := mkStreamEnv _ _).
    destruct (Available b1 <=? 0)%nat.
    + destruct (Flush b1) as [e b2] eqn:F. pose proof F as F'.
      apply Flush_spec in F as (Hst2 & Hz2 & He2 & Hl2 & Hb2). destruct e.
      * eexists _, _, _, _. split_and!; [reflexivity|done|congruence|done|].
        intros Hfl. destruct (Flush_healthy b1 (Hb1 Hfl)) as (b3 & F3 & _). congruence.
      * rewrite stream_write_loop_stop. eexists _, _, _, _. split_and!; [reflexivity|done|congruence|..].
        { intros _. split_and!; [done|by rewrite Hst2|done|done]. }
        intros Hfl. split; [done|]. destruct (Flush_healthy b1 (Hb1 Hfl)) as (b3 & F3 & ?). congruence.
    + rewrite stream_write_loop_stop. eexists _, _, _, _. split_and!; [reflexivity|done|done|..]; auto.
Qed.

(** streamSendMessage: to a peer without streams it fails and sends nothing; on an open stream a nil result means that the whole frame is on the socket and counted by the stream, and without a socket fault the result is nil; on a stream closed by the application it panics (or reports a write error), instead of the interruption error the commented-out return gave. *)
Lemma streamSendMessage_spec `{C : Codec} Marshal n env b m peerID sid f :
  writer_wf b -> werr b = false -> build_frame Marshal Panic n m = Ok f ->
  match streams env !! peerID with
  | None => streamSendMessage Marshal n env b m peerID sid = (Err EStreamClosed, 0%nat, b, env)
  | Some ss =>
    exists r total b' env', streamSendMessage Marshal n env b m peerID sid = (r, total, b', env') /\
    match ss !! sid with
    | Some cnt =>
      r <> Panic /\ SyncWaitAck env' = SyncWaitAck env /\
      (r = Ok tt -> total = length f /\ sent (wr b') = stream_of b ++ f /\
         streams env' = <[peerID := <[sid := u64 (cnt + Z.of_nat (length f))]> ss]> (streams env)) /\
      (faults (wr b) = [] -> r = Ok tt)
    | None =>
      (r = Panic \/ r = Err EWrite) /\ env' = drop_ack m env /\ (faults (wr b) = [] -> r = Panic)
    end
  end.
Proof.
  intros W We F. pose proof (build_frame_nonempty _ _ _ _ F) as Hf. unfold streamSendMessage. rewrite F.
  destruct (streams env !! peerID) as [ss|] eqn:Hp.
  2:{ destruct (length f) as [|k] eqn:Lf; [lia|]. cbn [stream_write_loop].
      by rewrite Lf, (proj2 (Nat.ltb_lt 0 (S k))), Hp by lia. }
  destruct (ss !! sid) as [cnt|] eqn:Hs.
  - destruct (stream_write_loop_open env m peerID sid ss cnt b f W We Hf Hp Hs)
      as (e & t & b1 & env1 & -> & Ha & _ & Hok & Hfl).
    destruct e; [eexists _, _, _, _; split; [reflexivity|]; split_and!; try done; intros H; by destruct (Hfl H)|].
    destruct (Flush b1) as [e b2] eqn:Fl. pose proof Fl as Fl'.
    apply Flush_spec in Fl as (Hst2 & Hz2 & He2 & Hl2 & Hb2). destruct (Hok eq_refl) as (-> & Hst & We1 & Hs1).
    eexists _, _, _, _. split; [reflexivity|]. split_and!; [by destruct e|done|..].
    + destruct e; [done|]. intros _. split_and!; [done| |done].
      rewrite <- Hst, <- Hst2. unfold stream_of. by rewrite (Hb2 eq_refl), app_nil_r.
    + intros H. destruct (Flush_healthy b1) as (b3 & F3 & _); [by apply Hfl|].
      rewrite Fl' in F3. by injection F3 as -> _.
  - destruct (length f) as [|k] eqn:Lf; [lia|]. cbn [stream_write_loop].
    rewrite Lf, (proj2 (Nat.ltb_lt 0 (S k))), Hp, Hs, drop_0 by lia.
    destruct (Write_spec b f W) as (nn & e & b1 & E & _). rewrite E.
    destruct e; eexists _, _, _, _; (split; [reflexivity|]; split_and!; auto).
    intros Hfl. destruct (Write_healthy b f W) as (b2 & E2 & _); [done|]. congruence.
Qed.

Lemma streamSendMessage_healthy `{C : Codec} Marshal n env b m peerID sid ss cnt f :
  writer_wf b -> healthy b -> build_frame Marshal Panic n m = Ok f ->
  streams env !! peerID = Some ss -> ss !! sid = Some cnt ->
  exists b' env', streamSendMessage Marshal n env b m peerID sid = (Ok tt, length f, b', env') /\
    writer_wf b' /\ healthy b' /\ stream_of b' = stream_of b ++ f /\ SyncWaitAck env' = SyncWaitAck env /\
    streams env' = <[peerID := <[sid := u64 (cnt + Z.of_nat (length f))]> ss]> (streams env).
Proof.
  intros W [We Hfl] F Hp Hs. pose proof (build_frame_nonempty _ _ _ _ F) as Hf. unfold streamSendMessage. rewrite F.
  destruct (stream_write_loop_open env m peerID sid ss cnt b f W We Hf Hp Hs)
    as (e & t & b1 & env1 & -> & Ha & Hz & Hok & Hh).
  destruct (Hh Hfl) as [-> H1]. destruct (Hok eq_refl) as (-> & Hst & We1 & Hs1).
  destruct (Flush_healthy b1 H1) as (b2 & Fl & H2). rewrite Fl. apply Flush_spec in Fl as (Hst2 & Hz2 & _ & _ & Hb2).
  exists b2, env1. split_and!; try done; [|by rewrite Hst2]. split; [destruct W; lia|]. rewrite Hb2 by done. cbn. lia.
Qed.


