(* ===== verification/Lru.v ===== *)
(** * types/lru/cache.go: the least-recently-used cache

    The items live in a container/list, most recent first; each carries the identity of its
    list element, and the map leads from a key to its item.  Operations run under the
    mutex and are atomic.  [Get] refines the cache of an ordered list of entries. *)
From S2P Require Import Prelude.
Local Open Scope Z_scope.

Section lru.
Context {V E : Type}.

Record cacheItem := mkItem { ikey : list Z; ivalue : V; ielement : nat }.

Record Cache := mkCache {
  order : list cacheItem;
  items : gmap (list Z) cacheItem;
  limit : Z;
  next_element : nat
}.

Definition NewCache (lim : Z) : Cache := mkCache [] ∅ lim 0.

(** container/list: remove the element with this identity. *)
Definition take_out (e : nat) (l : list cacheItem) : list cacheItem :=
  filter (fun i => ielement i <> e) l.

(** order.MoveToFront(item.element) *)
Definition MoveToFront (item : cacheItem) (l : list cacheItem) : list cacheItem :=
  item :: take_out (ielement item) l.

(** order.Remove(order.Back()) and the deletion of its key; Remove(nil) panics. *)
Definition evict (c : Cache) : res E Cache :=
  match last (order c) with
  | None => Panic
  | Some item => Ok (mkCache (take_out (ielement item) (order c)) (delete (ikey item) (items c)) (limit c) (next_element c))
  end.

(** Get; [init] is the outcome of the initialiser, which only runs on a miss. *)
Definition Get (c : Cache) (key : list Z) (init : V + E) : res E V * Cache :=
  match items c !! key with
  | Some item => (Ok (ivalue item), mkCache (MoveToFront item (order c)) (items c) (limit c) (next_element c))
  | None =>
    match (if limit c <=? Z.of_nat (length (order c)) then evict c else Ok c) with
    | Panic => (Panic, c)
    | Err e => (Err e, c)
    | Ok c =>
      match init with
      | inr err => (Err err, c)
      | inl value =>
        let item := mkItem key value (next_element c) in
        (Ok value, mkCache (item :: order c) (<[key := item]> (items c)) (limit c) (S (next_element c)))
      end
    end
  end.

(** ** The invariant *)

Record cache_wf (c : Cache) : Prop := {
  wf_elements : NoDup (ielement <$> order c);
  wf_keys : NoDup (ikey <$> order c);
  wf_next : Forall (fun i => (ielement i < next_element c)%nat) (order c);
  wf_items : forall k i, items c !! k = Some i <-> i ∈ order c /\ ikey i = k;
  wf_limit : Z.of_nat (length (order c)) <= Z.max 1 (limit c)
}.

(** ** The specification: entries, most recently used first *)

Definition entries (c : Cache) : list (list Z * V) := (fun i => (ikey i, ivalue i)) <$> order c.

Definition spec_find (l : list (list Z * V)) (key : list Z) : option V :=
  snd <$> List.find (fun e => bool_decide (e.1 = key)) l.

Definition spec_forget (l : list (list Z * V)) (key : list Z) : list (list Z * V) :=
  filter (fun e => e.1 <> key) l.

Definition spec_get (lim : Z) (l : list (list Z * V)) (key : list Z) (init : V + E)
    : res E V * list (list Z * V) :=
  match spec_find l key with
  | Some v => (Ok v, (key, v) :: spec_forget l key)
  | None =>
    let l := if lim <=? Z.of_nat (length l) then take (length l - 1) l else l in
    match init with
    | inr err => (Err err, l)
    | inl v => (Ok v, (key, v) :: l)
    end
  end.

(** ** Lemmas *)

Lemma NewCache_wf lim : cache_wf (NewCache lim).
Proof.
  split; simpl; try constructor; [..|lia]; intros; rewrite ?lookup_empty in *; try done.
  - set_solver.
Qed.


Lemma unique_by {B : Type} (f : cacheItem -> B) l i j :
  NoDup (f <$> l) -> i ∈ l -> j ∈ l -> f i = f j -> i = j.
Proof.
  intros Hn Hi Hj E'. induction l as [|x l IH]; [by apply not_elem_of_nil in Hi|].
  rewrite fmap_cons in Hn. apply NoDup_cons in Hn as [Hx Hn].
  apply elem_of_cons in Hi as [->|Hi], Hj as [->|Hj]; auto.
  - exfalso. apply Hx. rewrite E'. apply list_elem_of_fmap; eauto.
  - exfalso. apply Hx. rewrite <- E'. apply list_elem_of_fmap; eauto.
Qed.

Lemma filter_entries (P : cacheItem -> Prop) `{!forall i, Decision (P i)} k l :
  Forall (fun i => P i <-> ikey i <> k) l ->
  (fun i => (ikey i, ivalue i)) <$> filter P l = spec_forget ((fun i => (ikey i, ivalue i)) <$> l) k.
Proof.
  induction 1 as [|i l Hi _ IH]; [done|]. unfold spec_forget in *. rewrite filter_cons, fmap_cons, filter_cons.
  simpl. destruct (decide (P i)), (decide (ikey i <> k)); try tauto. by rewrite fmap_cons, IH.
Qed.

Lemma take_out_entries item l :
  NoDup (ielement <$> l) -> NoDup (ikey <$> l) -> item ∈ l ->
  (fun i => (ikey i, ivalue i)) <$> take_out (ielement item) l
  = spec_forget ((fun i => (ikey i, ivalue i)) <$> l) (ikey item).
Proof.
  intros He Hk Hi. apply filter_entries, Forall_forall. intros i Hil. split; intros Hn E'; apply Hn.
  - by rewrite (unique_by ikey l i item).
  - by rewrite (unique_by ielement l i item).
Qed.

Lemma take_out_last l x : NoDup (ielement <$> (l ++ [x])) -> take_out (ielement x) (l ++ [x]) = l.
Proof.
  intros H. unfold take_out. rewrite filter_app, filter_cons, filter_nil.
  destruct (decide (ielement x <> ielement x)) as [|_]; [done|]. rewrite app_nil_r.
  rewrite fmap_app in H. apply NoDup_app in H as (_ & H & _).
  induction l as [|y l IH]; [done|]. rewrite filter_cons, decide_True.
  - f_equal. apply IH. intros z Hz. apply H. rewrite fmap_cons. by right.
  - intros E'. apply (H (ielement y)); rewrite ?fmap_cons; [by left|rewrite E'; by left].
Qed.

Lemma length_take_out_in item l :
  NoDup (ielement <$> l) -> item ∈ l -> S (length (take_out (ielement item) l)) = length l.
Proof.
  intros Hn Hi. apply list_elem_of_split in Hi as (l1 & l2 & ->).
  unfold take_out. rewrite filter_app, filter_cons.
  destruct (decide (ielement item <> ielement item)) as [|_]; [done|].
  rewrite fmap_app, fmap_cons in Hn. apply NoDup_app in Hn as (_ & H1 & H2).
  apply NoDup_cons in H2 as [H2 _].
  assert (forall l, (forall i, i ∈ l -> ielement i <> ielement item) -> take_out (ielement item) l = l) as F.
  { unfold take_out. intros l. induction l as [|y l IH]; intros H; [done|].
    rewrite filter_cons, decide_True by (apply H; by left). f_equal. apply IH. intros i Hi. apply H. by right. }
  unfold take_out in F. rewrite !F, !length_app; [simpl; lia|..].
  - intros i Hi E'. apply H2. rewrite <- E'. apply list_elem_of_fmap. eauto.
  - intros i Hi E'. apply (H1 (ielement i)); [apply list_elem_of_fmap; eauto|]. rewrite E'. by left.
Qed.

Lemma spec_find_None l k : spec_find l k = None <-> k ∉ l.*1.
Proof.
  unfold spec_find. induction l as [|[k' v] l IH]; simpl; [split; [intros _; apply not_elem_of_nil|done]|].
  case_bool_decide; simpl.
  - split; [done|]. intros H'. destruct H'. subst. by left.
  - rewrite IH, not_elem_of_cons. naive_solver.
Qed.

Lemma spec_find_Some l k v : NoDup (l.*1) -> (k, v) ∈ l -> spec_find l k = Some v.
Proof.
  unfold spec_find. induction l as [|[k' v'] l IH]; intros Hn Hi; [by apply not_elem_of_nil in Hi|].
  simpl in *. apply NoDup_cons in Hn as [Hk Hn]. apply elem_of_cons in Hi as [[= <- <-]|Hi].
  - by rewrite bool_decide_true.
  - case_bool_decide; [|by apply IH]. subst. destruct Hk. apply list_elem_of_fmap. exists (k, v). done.
Qed.

Lemma entries_keys c : (entries c).*1 = ikey <$> order c.
Proof. unfold entries. rewrite <- list_fmap_compose. done. Qed.

Lemma find_entry c key : cache_wf c -> spec_find (entries c) key = ivalue <$> items c !! key.
Proof.
  intros [He Hk _ Hi _]. destruct (items c !! key) as [i|] eqn:L; simpl.
  - apply Hi in L as [L <-]. apply spec_find_Some; [by rewrite entries_keys|].
    unfold entries. apply list_elem_of_fmap. eauto.
  - apply spec_find_None. rewrite entries_keys. intros (i & -> & H)%list_elem_of_fmap.
    assert (items c !! ikey i = Some i) by (by apply Hi). congruence.
Qed.

(** ** Preservation *)

Lemma sub_wf c l' its' :
  cache_wf c -> (forall i, i ∈ l' -> i ∈ order c) -> NoDup (ielement <$> l') -> NoDup (ikey <$> l') ->
  (length l' <= length (order c))%nat ->
  (forall k i, its' !! k = Some i <-> i ∈ l' /\ ikey i = k) ->
  cache_wf (mkCache l' its' (limit c) (next_element c)).
Proof.
  intros [_ _ Hn _ Hl] Hs He Hk Hlen Hi. split; simpl; try done; [|lia].
  apply Forall_forall. intros i H. rewrite Forall_forall in Hn. auto.
Qed.

Lemma take_out_sub e l i : i ∈ take_out e l <-> i ∈ l /\ ielement i <> e.
Proof. unfold take_out. rewrite list_elem_of_filter. tauto. Qed.

Lemma NoDup_fmap_filter {B} (f : cacheItem -> B) (P : cacheItem -> Prop) `{!forall i, Decision (P i)} l :
  NoDup (f <$> l) -> NoDup (f <$> filter P l).
Proof.
  induction l as [|x l IH]; [done|]. rewrite fmap_cons, NoDup_cons. intros [Hx Hn].
  rewrite filter_cons. destruct (decide (P x)); [|by apply IH]. rewrite fmap_cons, NoDup_cons.
  split; [|by apply IH]. intros Hin. apply list_elem_of_fmap in Hin as (y & Ey & Hy).
  apply list_elem_of_filter in Hy as [_ Hy]. apply Hx. apply list_elem_of_fmap. eauto.
Qed.

Lemma hit_wf c key item :
  cache_wf c -> items c !! key = Some item ->
  cache_wf (mkCache (MoveToFront item (order c)) (items c) (limit c) (next_element c)).
Proof.
  intros W L. pose proof W as [He Hk _ Hi _]. pose proof L as [Ho <-]%Hi.
  unfold MoveToFront. apply sub_wf; try done.
  - intros i. rewrite elem_of_cons, take_out_sub. naive_solver.
  - rewrite fmap_cons, NoDup_cons. split; [|by apply NoDup_fmap_filter].
    intros (j & Ej & [_ Hj]%take_out_sub)%list_elem_of_fmap. congruence.
  - rewrite fmap_cons, NoDup_cons. split; [|by apply NoDup_fmap_filter].
    intros (j & Ej & [Hj Hne]%take_out_sub)%list_elem_of_fmap.
    by rewrite (unique_by ikey (order c) j item) in Hne.
  - cbn [length]. by rewrite length_take_out_in.
  - intros k i. rewrite Hi, elem_of_cons, take_out_sub.
    split; [|naive_solver]. intros [Hio <-]. split; [|done].
    destruct (decide (ielement i = ielement item)); [left; by apply (unique_by ielement (order c))|auto].
Qed.

(** Evicting the last item of a full cache. *)
Lemma evict_spec c l x :
  cache_wf c -> order c = l ++ [x] ->
  exists c', evict c = Ok c' /\ order c' = l /\ limit c' = limit c /\ cache_wf c'.
Proof.
  intros W Ho. pose proof W as [He Hk _ Hi _]. rewrite Ho in He, Hk.
  unfold evict. rewrite Ho, last_snoc, take_out_last by done. eexists. split_and!; [done..|].
  rewrite fmap_app in He. rewrite fmap_app in Hk. apply NoDup_app in He as (He & _ & _). apply NoDup_app in Hk as (Hk & Hx & _).
  apply sub_wf; try done.
  - intros i Hil. rewrite Ho. apply elem_of_app. by left.
  - rewrite Ho, length_app. simpl. lia.
  - intros k i. rewrite lookup_delete_Some, Hi, Ho, elem_of_app, list_elem_of_singleton.
    split; [naive_solver|]. intros [Hil <-]. split; [|naive_solver]. intros Ek.
    apply (Hx (ikey i)); [apply list_elem_of_fmap; eauto|]. rewrite <- Ek. by left.
Qed.

(** Inserting an absent key where there is room. *)
Lemma insert_wf c key value :
  cache_wf c -> items c !! key = None -> Z.of_nat (length (order c)) < Z.max 1 (limit c) ->
  let item := mkItem key value (next_element c) in
  cache_wf (mkCache (item :: order c) (<[key := item]> (items c)) (limit c) (S (next_element c))).
Proof.
  intros [He Hk Hn Hi Hl] L Hroom item. rewrite Forall_forall in Hn. split; cbn [order items limit next_element].
  - rewrite fmap_cons, NoDup_cons. split; [|done].
    intros (j & Ej & Hj)%list_elem_of_fmap. specialize (Hn j Hj). simpl in *. lia.
  - rewrite fmap_cons, NoDup_cons. split; [|done].
    intros (j & Ej & Hj)%list_elem_of_fmap. assert (items c !! key = Some j) by (by apply Hi). congruence.
  - constructor; [simpl; lia|]. apply Forall_forall. intros j Hj. specialize (Hn j Hj). lia.
  - intros k i. rewrite lookup_insert_Some, elem_of_cons, Hi. split.
    + intros [[<- <-]|[Hne [Hio Ek]]]; auto.
    + intros [[->|Hio] <-]; [by left|]. right. split; [|done].
      intros ->. assert (items c !! ikey i = Some i) by (by apply Hi). congruence.
  - cbn [length]. lia.
Qed.

Lemma Get_refines_spec c key init :
  cache_wf c -> 1 <= limit c ->
  exists r c', Get c key init = (r, c') /\ cache_wf c' /\ limit c' = limit c /\
    spec_get (limit c) (entries c) key init = (r, entries c').
Proof.
  intros W Hl. unfold Get, spec_get. rewrite find_entry by done. pose proof W as [He Hk _ Hi Hlen].
  destruct (items c !! key) as [item|] eqn:L; cbn [fmap option_fmap option_map].
  - eexists _, _. split_and!; [done|by eapply hit_wf|done|].
    apply Hi in L as [Ho <-]. unfold entries, MoveToFront. cbn [order]. rewrite fmap_cons.
    by rewrite take_out_entries.
  - assert (exists c1, (if limit c <=? Z.of_nat (length (order c)) then evict c else Ok c) = Ok c1 /\
              cache_wf c1 /\ limit c1 = limit c /\ items c1 !! key = None /\
              Z.of_nat (length (order c1)) < limit c /\
              entries c1 = (if limit c <=? Z.of_nat (length (entries c))
                            then take (length (entries c) - 1) (entries c) else entries c))
      as (c1 & -> & W1 & L1 & N1 & R1 & E1).
    { unfold entries at 2 3 4 5. rewrite length_fmap. destruct (Z.leb_spec (limit c) (Z.of_nat (length (order c)))) as [F|F].
      - assert (order c <> []) as Hne by (intros Ho; rewrite Ho in F; simpl in F; lia).
        destruct (exists_last Hne) as (l & x & Ho).
        destruct (evict_spec c l x W Ho) as (c1 & -> & O1 & L1 & W1). exists c1.
        rewrite Ho, length_app in *. cbn [length] in *. split_and!; try done.
        + destruct (items c1 !! key) as [i|] eqn:I; [|done]. apply (wf_items c1 W1) in I as [I <-].
          rewrite O1 in I. assert (items c !! ikey i = Some i); [|congruence].
          apply Hi. split; [|done]. apply elem_of_app. by left.
        + rewrite O1. lia.
        + unfold entries. rewrite O1, fmap_app. replace (length l + 1 - 1)%nat with (length ((fun i => (ikey i, ivalue i)) <$> l)) by (rewrite length_fmap; lia).
          by rewrite take_app_length.
      - exists c. split_and!; try done; lia. }
    rewrite <- E1. destruct init as [v|err].
    + eexists _, _. split_and!; [done| |done|done]. apply insert_wf; [done..|lia].
    + by eexists _, _.
Qed.

(** ** Runs of the cache *)

(** Any sequence of calls. *)
Fixpoint Gets (c : Cache) (ops : list (list Z * (V + E))) : Cache :=
  match ops with
  | [] => c
  | (k, init) :: ops => Gets (Get c k init).2 ops
  end.

Lemma Gets_wf c ops : cache_wf c -> 1 <= limit c -> cache_wf (Gets c ops) /\ limit (Gets c ops) = limit c.
Proof.
  revert c. induction ops as [|[k init] ops IH]; intros c W Hl; simpl; [done|].
  destruct (Get_refines_spec c k init W Hl) as (r & c' & E' & W' & L' & _). rewrite E'. cbn [snd].
  rewrite <- L'. apply IH; [done|lia].
Qed.

(** [key] is cached with [v], and the keys used more recently are among [U]. *)
Definition recent (U : gset (list Z)) (key : list Z) (v : V) (l : list (list Z * V)) : Prop :=
  exists p q, l = p ++ (key, v) :: q /\ Forall (fun e => e.1 ∈ U) p.

Lemma recent_mono U U' key v l : U ⊆ U' -> recent U key v l -> recent U' key v l.
Proof.
  intros Hs (p & q & -> & Hp). exists p, q. split; [done|]. eapply Forall_impl; [exact Hp|]. set_solver.
Qed.

Lemma recent_find U key v l : NoDup l.*1 -> recent U key v l -> spec_find l key = Some v.
Proof. intros Hn (p & q & -> & _). apply spec_find_Some; [done|]. apply elem_of_app. right. by left. Qed.

Lemma recent_forget U key v l k :
  k <> key -> recent U key v l -> recent U key v (spec_forget l k).
Proof.
  intros Hne (p & q & -> & Hp). unfold spec_forget. rewrite filter_app, filter_cons, decide_True by (simpl; congruence).
  eexists _, _. split; [reflexivity|].
  apply Forall_forall. intros e [_ He]%list_elem_of_filter. rewrite Forall_forall in Hp. by apply Hp.
Qed.

Lemma keys_le_size (p : list (list Z * V)) (U : gset (list Z)) :
  NoDup p.*1 -> Forall (fun e => e.1 ∈ U) p -> (length p <= size U)%nat.
Proof.
  intros Hn Hp. rewrite <- (length_fmap fst). rewrite <- (size_list_to_set (C := gset (list Z)) p.*1 Hn).
  apply subseteq_size. intros k. rewrite elem_of_list_to_set. intros ([k' v'] & -> & H)%list_elem_of_fmap.
  rewrite Forall_forall in Hp. by apply (Hp (k', v')).
Qed.

(** One call keeps a recently used entry while fewer than [lim] keys have been used. *)
Lemma recent_step lim U key v l k init :
  NoDup l.*1 -> recent U key v l -> Z.of_nat (length l) <= lim ->
  key ∉ U -> k <> key -> Z.of_nat (size ({[k]} ∪ U)) < lim ->
  recent ({[k]} ∪ U) key v (spec_get lim l k init).2.
Proof.
  intros Hn Hr Hlen HkU Hne Hsz. unfold spec_get. destruct (spec_find l k) as [v'|] eqn:F.
  - apply (recent_forget U key v l k Hne) in Hr as (p & q & E' & Hp). cbn [snd]. rewrite E'.
    exists ((k, v') :: p), q. split; [done|]. constructor; [set_solver|].
    eapply Forall_impl; [exact Hp|]. set_solver.
  - assert (recent U key v (if lim <=? Z.of_nat (length l) then take (length l - 1) l else l)) as Hr'.
    { destruct (Z.leb_spec lim (Z.of_nat (length l))) as [Hf|Hf]; [|done].
      destruct Hr as (p & q & -> & Hp). destruct q as [|y q _] using rev_ind.
      - exfalso. apply spec_find_None in F. rewrite fmap_app in F, Hn. apply NoDup_app in Hn as (Hn & _ & _).
        rewrite length_app in Hf. cbn [length] in Hf.
        assert (length ((k, v) :: p) <= size ({[k]} ∪ U))%nat as B; [|simpl in B; lia].
        apply keys_le_size.
        + rewrite fmap_cons, NoDup_cons. split; [|done]. simpl. set_solver.
        + constructor; [set_solver|]. eapply Forall_impl; [exact Hp|]. set_solver.
      - exists p, q. split; [|done]. rewrite app_comm_cons, app_assoc.
        rewrite length_app. cbn [length]. rewrite Nat.add_sub, take_app_length. done. }
    destruct init as [w|err]; cbn [snd].
    + destruct Hr' as (p & q & E' & Hp). rewrite E'. exists ((k, w) :: p), q. split; [done|].
      constructor; [set_solver|]. eapply Forall_impl; [exact Hp|]. set_solver.
    + eapply recent_mono; [|exact Hr']. set_solver.
Qed.

Definition used (ops : list (list Z * (V + E))) : gset (list Z) := list_to_set ops.*1.

Lemma recent_run c U key v ops :
  cache_wf c -> 1 <= limit c -> recent U key v (entries c) ->
  key ∉ used ops -> key ∉ U -> Z.of_nat (size (used ops ∪ U)) < limit c ->
  recent (used ops ∪ U) key v (entries (Gets c ops)).
Proof.
  revert c U. induction ops as [|[k init] ops IH]; intros c U W Hl Hr Hk HkU Hsz; simpl.
  - eapply recent_mono; [|exact Hr]. set_solver.
  - destruct (Get_refines_spec c k init W Hl) as (r & c' & E' & W' & L' & Sp). rewrite E'. cbn [snd].
    unfold used in *. cbn [fmap list_fmap list_to_set] in Hk, Hsz |- *. cbn [fst] in Hk, Hsz |- *.
    assert (recent ({[k]} ∪ U) key v (entries c')) as Hr'.
    { replace (entries c') with (spec_get (limit c) (entries c) k init).2 by (by rewrite Sp).
      apply recent_step; try done.
      - rewrite entries_keys. apply W.
      - unfold entries. rewrite length_fmap. destruct W as [_ _ _ _ B]. lia.
      - set_solver.
      - eapply Z.le_lt_trans; [|exact Hsz]. apply Nat2Z.inj_le, subseteq_size. set_solver. }
    replace ({[k]} ∪ list_to_set ops.*1 ∪ U) with (list_to_set ops.*1 ∪ ({[k]} ∪ U)) in Hsz |- * by set_solver.
    apply IH; [done|lia|done|set_solver|set_solver|lia].
Qed.
End lru.

(** The cache refines its specification: on every well-formed cache with a positive limit Get does not panic, keeps the invariant, and returns and leaves what the ordered list of entries prescribes (a hit moves to the front; a miss evicts the last entry of a full cache, also when the initialiser then fails). *)
Lemma Get_refines {V E} (c : Cache (V := V)) key (init : V + E) :
  cache_wf c -> 1 <= limit c ->
  exists r c', Get c key init = (r, c') /\ cache_wf c' /\ limit c' = limit c /\
    spec_get (limit c) (entries c) key init = (r, entries c').
Proof. apply Get_refines_spec. Qed.

Definition two : Cache (V := Z) := (Get (E := unit) (Get (E := unit) (NewCache 2) [1] (inl 10)).2 [2] (inl 20)).2.

(** Least recently used: after a successful Get of a key, the cache still holds its value after any further calls that use fewer than limit other keys, so that the next Get of the key returns it without running the initialiser. *)
Lemma Get_keeps_recent {V E} (c c' : Cache (V := V)) key v (init : V + E) ops (init' : V + E) :
  cache_wf c -> 1 <= limit c -> Get c key init = (Ok v, c') ->
  key ∉ used ops -> Z.of_nat (size (used (E := E) ops)) < limit c ->
  (Get (Gets c' ops) key init').1 = Ok v.
Proof.
  intros W Hl G Hk Hsz. destruct (Get_refines_spec c key init W Hl) as (r & c1 & G1 & W1 & L1 & S1).
  rewrite G in G1. injection G1 as <- <-.
  assert (recent ∅ key v (entries c')) as R.
  { unfold spec_get in S1. exists []. destruct (spec_find _ _) as [w|]; [|destruct init as [w|]; [|done]];
      injection S1 as <- <-; by eexists. }
  rewrite <- L1 in Hl, Hsz.
  apply (recent_run c' ∅ key v ops) in R; [|done..|set_solver|by rewrite (right_id_L ∅ _)].
  destruct (Gets_wf c' ops W1 Hl) as [W2 L2].
  destruct (Get_refines_spec (Gets c' ops) key init' W2) as (r2 & c2 & -> & _ & _ & S2); [lia|].
  unfold spec_get in S2. rewrite (recent_find _ _ _ _ ltac:(rewrite entries_keys; apply W2) R) in S2. cbn [fst].
  by injection S2 as <- _.
Qed.

(** A cache that is not given room panics at the first miss: Remove(nil). *)
Lemma Get_no_room {V E} lim key (init : V + E) :
  lim <= 0 -> Get (NewCache lim) key init = (Panic, NewCache lim).
Proof.
  intros H. unfold Get, NewCache, evict. cbn [items order limit length]. rewrite lookup_empty.
  by rewrite (proj2 (Z.leb_le lim (Z.of_nat 0))) by lia.
Qed.

(** C15. The cache refines its specification: on every well-formed cache with a positive limit Get does not panic, keeps the invariant, and returns and leaves what the ordered list of entries prescribes (a hit moves to the front; a miss evicts the last entry of a full cache, also when the initialiser then fails). And it keeps what is used: after a successful Get of a key, any further calls that use fewer than limit other keys leave its value in the cache, so that the next Get returns it without running the initialiser. *)
Theorem lru_correct :
  (forall (V E : Type) (c : Cache (V := V)) key (init : V + E),
   cache_wf c -> 1 <= limit c ->
   exists r c', Get c key init = (r, c') /\ cache_wf c' /\ limit c' = limit c /\
     spec_get (limit c) (entries c) key init = (r, entries c')) /\
  (forall (V E : Type) (c c' : Cache (V := V)) key v (init : V + E) ops (init' : V + E),
   cache_wf c -> 1 <= limit c -> Get c key init = (Ok v, c') ->
   key ∉ used ops -> Z.of_nat (size (used (E := E) ops)) < limit c ->
   (Get (Gets c' ops) key init').1 = Ok v).
Proof. split_and!; [exact @Get_refines|exact @Get_keeps_recent]. Qed.

Lemma lru_correct_witness :
  (exists r c', Get two [3] (inl 30 : Z + unit) = (r, c') /\ entries c' = [([3], 30); ([2], 20)]) /\
  ((Get (Gets (Get two [1] (inl 0 : Z + unit)).2 [([3], inl 30 : Z + unit); ([3], inl 0)]) [1] (inl 0 : Z + unit)).1 = Ok 10).
Proof.
  split.
  { destruct ((proj1 lru_correct) Z unit two [3] (inl 30 : Z + unit)) as (r & c' & E & _ & _ & S).
    - apply (Gets_wf (NewCache 2) [([1], inl 10 : Z + unit); ([2], inl 20)]); [apply NewCache_wf|cbn; lia].
    - vm_compute. discriminate.
    - exists r, c'. split; [exact E|]. vm_compute in S. injection S as _ S. exact (eq_sym S). }
  { apply ((proj2 lru_correct) Z unit two (Get two [1] (inl 0 : Z + unit)).2 [1] 10 (inl 0 : Z + unit) [([3], inl 30 : Z + unit); ([3], inl 0)] (inl 0)).
    - apply (Gets_wf (NewCache 2) [([1], inl 10 : Z + unit); ([2], inl 20)]); [apply NewCache_wf|cbn; lia].
    - vm_compute. discriminate.
    - vm_compute. reflexivity.
    - apply (bool_decide_unpack _). vm_compute. exact I.
    - vm_compute. reflexivity. }
Defined.
