(* ===== verification/RecvWindow.v ===== *)
(** * network/recv_window.go: the receive window

    A ring of [size] slots indexed by the nonce modulo [size]; nonces are uint64.  The window
    is shown to implement a finite map of pending messages in front of an unbounded sequence
    number.  Each method holds the mutex and is atomic. *)
From S2P Require Import Prelude.
Local Open Scope Z_scope.

Section window.
Context {V : Type}.

(** An interface{} slot: None is nil. *)
Record RecvWindow := mkWindow {
  lastNonce : Z;
  size : Z;
  buf : list (option V);
  once : bool
}.

(** make panics on a negative length. *)
Definition NewRecvWindow (n : Z) : res unit RecvWindow :=
  if n <? 0 then Panic else Ok (mkWindow 0 n (replicate (Z.to_nat n) None) false).

Definition SetLocalNonce (nonce : Z) (w : RecvWindow) : RecvWindow := mkWindow nonce (size w) (buf w) (once w).

Definition LocalNonce (w : RecvWindow) : Z := lastNonce w.

(** idx: integer division by zero panics. *)
Definition idx (w : RecvWindow) (id : Z) : res unit Z :=
  if u64 (size w) =? 0 then Panic else Ok (id mod u64 (size w)).

(** Push: the first push sets the expected nonce. *)
Definition Push (nonce : Z) (value : option V) (w : RecvWindow) : res unit RecvWindow :=
  let w := if once w then w else mkWindow nonce (size w) (buf w) true in
  match idx w nonce with
  | Ok i => if decide (Z.to_nat i < length (buf w))%nat
            then Ok (mkWindow (lastNonce w) (size w) (<[Z.to_nat i := value]> (buf w)) (once w))
            else Panic
  | _ => Panic
  end.

(** The loop of Range: [n] turns left, the next nonce, the result so far. *)
Fixpoint range_loop (n : nat) (fn : Z -> option V -> bool) (w : RecvWindow) (id : Z) (acc : list (option V))
    : res unit (list (option V) * RecvWindow) :=
  match n with
  | O => Ok (acc, w)
  | S n =>
    match idx w id with
    | Ok i =>
      match buf w !! Z.to_nat i with
      | None => Panic
      | Some val =>
        if negb (fn id val) then Ok (acc, mkWindow i (size w) (buf w) (once w))
        else range_loop n fn (mkWindow (lastNonce w) (size w) (<[Z.to_nat i := None]> (buf w)) (once w))
               (u64 (id + 1)) (acc ++ [val])
      end
    | _ => Panic
    end
  end.

Definition Range (fn : Z -> option V -> bool) (w : RecvWindow) : res unit (list (option V) * RecvWindow) :=
  range_loop (Z.to_nat (size w)) fn w (lastNonce w) [].

(** [func(nonce, v) bool { return v != nil }] *)
Definition received (nonce : Z) (v : option V) : bool := match v with Some _ => true | None => false end.

Definition Pop (w : RecvWindow) : res unit (list (option V) * RecvWindow) :=
  Range received w.

(** ** What the window implements: the messages [m] that wait for the nonce [L] *)

(** Slot [x mod n] holds the message with nonce [x], for the [n] nonces from [L] on. *)
Definition slots_ok (n L : Z) (b : list (option V)) (m : gmap Z V) : Prop :=
  Z.of_nat (length b) = n /\
  (forall x, L <= x < L + n -> b !! Z.to_nat (x mod n) = Some (m !! x)) /\
  (forall x v, m !! x = Some v -> L <= x < L + n).

Definition window_ok (w : RecvWindow) (L : Z) (m : gmap Z V) : Prop :=
  0 < size w < 2 ^ 63 /\ 0 <= lastNonce w /\ lastNonce w + size w < 2 ^ 64 /\
  lastNonce w mod size w = L mod size w /\ slots_ok (size w) L (buf w) m /\ once w = true.

(** The messages that are ready: from nonce [L] on without a gap, at most [n]. *)
Fixpoint ready (n : nat) (m : gmap Z V) (L : Z) : list V :=
  match n with
  | O => []
  | S n => match m !! L with
           | Some v => v :: ready n m (L + 1)
           | None => []
           end
  end.

Definition drop_below (L : Z) (m : gmap Z V) : gmap Z V := filter (fun e => L <= e.1) m.

Lemma slots_insert n L b m x v :
  0 < n -> slots_ok n L b m -> L <= x < L + n ->
  slots_ok n L (<[Z.to_nat (x mod n) := Some v]> b) (<[x := v]> m).
Proof.
  intros Hn (Hl & Hs & Hm) Hx. split_and!.
  - by rewrite length_insert.
  - intros y Hy. destruct (decide (x = y)) as [->|Hne].
    + rewrite list_lookup_insert_eq, lookup_insert_eq; [done|].
      pose proof (Z.mod_pos_bound y n Hn). lia.
    + rewrite lookup_insert_ne by done. rewrite list_lookup_insert_ne; [by apply Hs|].
      intros E. apply Z2Nat.inj in E; [|apply Z.mod_pos_bound; lia..].
      apply Hne. pose proof (Z.div_mod x n ltac:(lia)). pose proof (Z.div_mod y n ltac:(lia)).
      assert (x / n = y / n) by nia. nia.
  - intros y w. rewrite lookup_insert_Some. naive_solver.
Qed.

(** Taking the message with nonce [L] out of its slot makes room for nonce [L + n]. *)
Lemma slots_shift n L b m :
  0 < n -> slots_ok n L b m ->
  slots_ok n (L + 1) (<[Z.to_nat (L mod n) := None]> b) (delete L m).
Proof.
  intros Hn (Hl & Hs & Hm). split_and!.
  - by rewrite length_insert.
  - intros y Hy. pose proof (Z.mod_pos_bound L n Hn). destruct (decide (y = L + n)) as [->|Hne].
    + replace ((L + n) mod n) with (L mod n) by (rewrite <- (Z.mul_1_l n) at 2; by rewrite Z_mod_plus_full).
      rewrite list_lookup_insert_eq by lia. rewrite lookup_delete_ne by lia.
      destruct (m !! (L + n)) as [v|] eqn:E; [|done]. apply Hm in E. lia.
    + rewrite lookup_delete_ne by lia. rewrite list_lookup_insert_ne; [apply Hs; lia|].
      intros E. apply Z2Nat.inj in E; [|apply Z.mod_pos_bound; lia..].
      pose proof (Z.div_mod L n ltac:(lia)). pose proof (Z.div_mod y n ltac:(lia)).
      assert (L / n = y / n) by nia. nia.
  - intros y w. rewrite lookup_delete_Some. intros [Hne E]. apply Hm in E. lia.
Qed.

Lemma drop_below_step L m v : m !! L = Some v -> (forall x v, m !! x = Some v -> L <= x) ->
  delete L m = drop_below (L + 1) m.
Proof.
  intros HL Hlow. apply map_eq. intros x. apply option_eq. intros w.
  unfold drop_below. rewrite lookup_delete_Some, map_lookup_filter_Some. simpl.
  split; [intros [Hne E]; pose proof (Hlow x w E); split; [done|lia]|].
  intros [E Hx]. split; [lia|done].
Qed.

Lemma drop_below_all L m : (forall x v, m !! x = Some v -> L <= x) -> drop_below L m = m.
Proof. intros H. unfold drop_below. apply map_filter_id. intros x v E. simpl. eauto. Qed.

Lemma drop_below_twice L L' m : L <= L' -> drop_below L' (drop_below L m) = drop_below L' m.
Proof.
  intros H. apply map_eq. intros x. apply option_eq. intros w. unfold drop_below.
  rewrite !map_lookup_filter_Some. simpl. split; [naive_solver|]. intros [E Hx]. split_and!; [done|lia|done].
Qed.

Lemma ready_drop_below n m L L' : L' <= L -> ready n (drop_below L' m) L = ready n m L.
Proof.
  revert L. induction n as [|n IH]; intros L H; simpl; [done|].
  replace (drop_below L' m !! L) with (m !! L); [destruct (m !! L); [|done]; f_equal; apply IH; lia|].
  apply option_eq. intros w. unfold drop_below. rewrite map_lookup_filter_Some. simpl. naive_solver.
Qed.

Lemma length_ready n m L : (length (ready n m L) <= n)%nat.
Proof. revert L. induction n as [|n IH]; intros L; simpl; [lia|]. case_match; simpl; [specialize (IH (L + 1))|]; lia. Qed.

Lemma idx_ok w id : 0 < size w < 2 ^ 63 -> idx w id = Ok (id mod size w).
Proof. intros H. unfold idx. rewrite u64_small by lia. destruct (Z.eqb_spec (size w) 0); [lia|done]. Qed.

Lemma range_loop_spec n w L m id acc :
  0 < size w < 2 ^ 63 -> slots_ok (size w) L (buf w) m -> id mod size w = L mod size w ->
  0 <= id -> id + Z.of_nat n < 2 ^ 64 -> Z.of_nat n <= size w ->
  let vs := ready n m L in
  exists w', range_loop n received w id acc = Ok (acc ++ (Some <$> vs), w') /\
    size w' = size w /\ once w' = once w /\
    slots_ok (size w) (L + Z.of_nat (length vs)) (buf w') (drop_below (L + Z.of_nat (length vs)) m) /\
    (lastNonce w' = if (length vs <? n)%nat then (L + Z.of_nat (length vs)) mod size w else lastNonce w).
Proof.
  revert w L m id acc.
  induction n as [|n IH]; intros w L m id acc Hs Hb Hid H0 Hw Hn vs; subst vs; cbn [range_loop ready].
  - exists w. rewrite app_nil_r, Z.add_0_r, drop_below_all by (intros x v E; apply Hb in E; lia). done.
  - rewrite idx_ok, Hid by done. pose proof Hb as (Hl & Hsl & Hm). rewrite Hsl by lia.
    destruct (m !! L) as [v|] eqn:HL; cbn [received negb].
    + pose proof (slots_shift (size w) L (buf w) m ltac:(lia) Hb) as Hb'.
      rewrite (drop_below_step L m v HL) in Hb' by (intros x w' E; apply Hm in E; lia).
      rewrite (u64_small (id + 1)) by lia.
      destruct (IH (mkWindow (lastNonce w) (size w) (<[Z.to_nat (L mod size w) := None]> (buf w)) (once w))
                  (L + 1) (drop_below (L + 1) m) (id + 1) (acc ++ [Some v])) as (w' & E & Hz & Ho & Hb2 & Hlast);
        cbn [size buf]; [done|done| |lia..|].
      { by rewrite <- (Zplus_mod_idemp_l L), <- Hid, Zplus_mod_idemp_l. }
      cbn [size once lastNonce] in *. rewrite ready_drop_below in * by lia.
      exists w'. cbn [length]. rewrite fmap_cons.
      replace (L + Z.of_nat (S (length (ready n m (L + 1))))) with (L + 1 + Z.of_nat (length (ready n m (L + 1)))) by lia.
      rewrite drop_below_twice in Hb2 by lia. rewrite E, <- app_assoc. done.
    + exists (mkWindow (L mod size w) (size w) (buf w) (once w)). cbn. rewrite app_nil_r, Z.add_0_r.
      rewrite drop_below_all by (intros x v E; apply Hm in E; lia). done.
Qed.

Lemma window_fresh n nonce v :
  0 < n < 2 ^ 63 -> 0 <= nonce -> nonce + n < 2 ^ 64 ->
  exists w w', NewRecvWindow n = Ok w /\ Push nonce (Some v) w = Ok w' /\ window_ok w' nonce {[nonce := v]}.
Proof.
  intros Hn H0 Hw. unfold NewRecvWindow. destruct (Z.ltb_spec n 0); [lia|].
  eexists _, _. split; [reflexivity|]. unfold Push. cbn [once].
  rewrite idx_ok by (cbn; lia). cbn [size buf lastNonce once].
  pose proof (Z.mod_pos_bound nonce n ltac:(lia)).
  rewrite decide_True by (rewrite length_replicate; lia). split; [reflexivity|].
  unfold window_ok. cbn [size buf lastNonce once]. split_and!; try done; try lia.
  apply (slots_insert n nonce (replicate (Z.to_nat n) None) ∅); [lia| |lia].
  split_and!; [rewrite length_replicate; lia| |intros x w E; by rewrite lookup_empty in E].
  intros x Hx. rewrite lookup_empty. apply lookup_replicate. split; [done|].
  pose proof (Z.mod_pos_bound x n ltac:(lia)). lia.
Qed.

(** C16. The receive window implements reordering: a pushed message whose nonce lies in the window [L, L+size) is added to the pending map, and Pop returns exactly the pending messages from nonce L on up to the first gap, in nonce order, forgets them and moves the window behind them. *)
Theorem window_refines w L m x v :
  window_ok w L m -> L <= x < L + size w ->
  (exists w', Push x (Some v) w = Ok w' /\ window_ok w' L (<[x := v]> m)) /\
  (let vs := ready (Z.to_nat (size w)) m L in
   exists w', Pop w = Ok (Some <$> vs, w') /\
     window_ok w' (L + Z.of_nat (length vs)) (drop_below (L + Z.of_nat (length vs)) m)).
Proof.
  intros (Hs & H0 & Hw & Hmod & Hb & Ho) Hx. split.
  - pose proof Hb as (Hl & _). unfold Push. rewrite Ho, idx_ok by done.
    pose proof (Z.mod_pos_bound x (size w) ltac:(lia)). rewrite decide_True by lia.
    eexists. split; [reflexivity|]. unfold window_ok. cbn [size buf lastNonce once].
    split_and!; try done; try lia. apply slots_insert; [lia|done..].
  - intros vs. unfold Pop, Range.
    destruct (range_loop_spec (Z.to_nat (size w)) w L m (lastNonce w) [] Hs Hb Hmod) as (w' & E & Hz & Ho' & Hb' & Hlast);
      [lia..|]. fold vs in E, Hb', Hlast. exists w'. split; [exact E|].
    unfold window_ok. rewrite Hz, Ho', Hlast. pose proof (length_ready (Z.to_nat (size w)) m L) as Len. fold vs in Len.
    pose proof (Z.mod_pos_bound (L + Z.of_nat (length vs)) (size w) ltac:(lia)).
    split_and!; try done; try lia; destruct (Nat.ltb_spec (length vs) (Z.to_nat (size w))); try lia.
    + by rewrite Z.mod_mod by lia.
    + rewrite Hmod. replace (Z.of_nat (length vs)) with (1 * size w) by lia. by rewrite Z_mod_plus_full.
Qed.
End window.

Definition window3 : RecvWindow (V := Z) := mkWindow 7 3 [None; Some 70; Some 80] true.

Lemma window_refines_witness :
  exists w', Pop window3 = Ok ([Some 70; Some 80], w') /\ window_ok w' 9 ∅.
Proof.
  destruct (window_refines window3 7 (<[7 := 70]> {[8 := 80]}) 9 90) as [_ (w' & E & W)].
  - split_and!; try done; try (cbn; lia). split_and!; [done| |].
    + intros x Hx. cbn in Hx. assert (x = 7 \/ x = 8 \/ x = 9) as [->|[->| ->]] by lia; vm_compute; reflexivity.
    + intros x v Hv. cbn. apply lookup_insert_Some in Hv as [[<- _]|[_ Hv]]; [lia|].
      apply lookup_singleton_Some in Hv as [<- _]. lia.
  - cbn. lia.
  - exists w'. split; [exact E|]. exact W.
Defined.

(** A window of size 0 panics on every Push: modulo by zero. *)
Lemma Push_zero {V : Type} nonce (v : option V) w : size w = 0 -> Push nonce v w = Panic.
Proof. intros H. unfold Push, idx. destruct (once w); cbn; by rewrite H. Qed.
