(* ===== verification/Components.v ===== *)
(** * network/component_list.go and the component part of builder.go

    A component is a value with a dynamic type, [typeof] (reflect.TypeOf); the list keeps one
    component of each type, in a map and in a slice that is sorted by priority. *)
From S2P Require Import Prelude GoSort.
Local Open Scope Z_scope.

Section components.
Context {Ty : Type} `{!EqDecision Ty, !Countable Ty} {Component : Type} (typeof : Component -> Ty).

Record ComponentInfo := mkInfo { Priority : Z; Comp : Component }.

Record ComponentList := mkList { keys : gmap Ty ComponentInfo; values : list ComponentInfo }.

Definition NewComponentList : ComponentList := mkList ∅ [].

Definition GetInstallComponents (m : ComponentList) : list ComponentInfo := values m.

Definition priority_less (x y : ComponentInfo) : bool := Priority x <? Priority y.

Definition SortByPriority (m : ComponentList) : ComponentList :=
  mkList (keys m) (slice_stable priority_less (values m)).

Definition PutInfo (c : ComponentInfo) (m : ComponentList) : bool * ComponentList :=
  let ty := typeof (Comp c) in
  match keys m !! ty with
  | Some _ => (false, m)
  | None => (true, mkList (<[ty := c]> (keys m)) (values m ++ [c]))
  end.

Definition Put (priority : Z) (c : Component) (m : ComponentList) : bool * ComponentList :=
  PutInfo (mkInfo priority c) m.

(** The loop of Delete: drop the first entry of the type. *)
Fixpoint delete_first (ty : Ty) (l : list ComponentInfo) : list ComponentInfo :=
  match l with
  | [] => []
  | v :: l => if decide (typeof (Comp v) = ty) then l else v :: delete_first ty l
  end.

Definition Delete (c : Component) (m : ComponentList) : bool * ComponentList :=
  let ty := typeof c in
  (true, mkList (delete ty (keys m)) (delete_first ty (values m))).

Definition Len (m : ComponentList) : nat := size (keys m).

Definition GetInfo (withTy : Component) (m : ComponentList) : option ComponentInfo := keys m !! typeof withTy.

Definition GetComponent (withTy : Component) (m : ComponentList) : option Component :=
  match GetInfo withTy m with
  | Some info => Some (Comp info)
  | None => None
  end.

(** Each: the components in the order they are visited. *)
Definition Each (m : ComponentList) : list Component := Comp <$> values m.

(** ** builder.go *)

Record Builder := mkBuilder { Components : option ComponentList; ComponentCount : Z }.

Definition NewBuilder : Builder := mkBuilder None 0.

Definition AddComponentWithPriority (priority : Z) (c : Component) (b : Builder) : bool * Builder :=
  let m := default NewComponentList (Components b) in
  let '(ok, m) := Put priority c m in
  (ok, mkBuilder (Some m) (ComponentCount b)).

(** A builder without a list dereferences nil. *)
Definition DeleteComponent (c : Component) (b : Builder) : res unit (bool * Builder) :=
  match Components b with
  | None => Panic
  | Some m => let '(ok, m) := Delete c m in Ok (ok, mkBuilder (Some m) (ComponentCount b))
  end.

Definition AddComponent (c : Component) (b : Builder) : bool * Builder :=
  let '(ok, b) := AddComponentWithPriority (ComponentCount b) c b in
  if ok then (true, mkBuilder (Components b) (i64 (ComponentCount b + 1))) else (false, b).

(** The component list of the built network. *)
Definition build_components (b : Builder) : ComponentList :=
  match Components b with
  | None => NewComponentList
  | Some m => SortByPriority m
  end.

(** ** The invariant: the map is the index of the slice *)

Definition list_wf (m : ComponentList) : Prop :=
  NoDup ((fun v => typeof (Comp v)) <$> values m) /\
  forall t v, keys m !! t = Some v <-> v ∈ values m /\ typeof (Comp v) = t.

Inductive step : ComponentList -> ComponentList -> Prop :=
| step_put p c m : step m (Put p c m).2
| step_delete c m : step m (Delete c m).2
| step_sort m : step m (SortByPriority m).

Inductive reachable : ComponentList -> Prop :=
| reach_new : reachable NewComponentList
| reach_step m m' : reachable m -> step m m' -> reachable m'.

#[local] Instance priority_less_weak : StrictWeak priority_less.
Proof. exact (key_strict_weak Priority). Qed.

Lemma new_wf : list_wf NewComponentList.
Proof. split; [constructor|]. intros t v. simpl. rewrite lookup_empty. set_solver. Qed.

Lemma put_wf p c m : list_wf m -> list_wf (Put p c m).2.
Proof.
  intros [Hn Hk]. unfold Put, PutInfo. cbn [Comp].
  destruct (keys m !! typeof c) as [v|] eqn:L; [done|]. cbn [snd].
  assert (forall v, v ∈ values m -> typeof (Comp v) <> typeof c) as Hc.
  { intros v Hv E. assert (keys m !! typeof c = Some v) by (by apply Hk). congruence. }
  split; cbn [keys values].
  - rewrite fmap_app. apply NoDup_app. split_and!; [done| |apply NoDup_singleton].
    intros t (v & -> & Hv)%list_elem_of_fmap. simpl. rewrite list_elem_of_singleton. by apply Hc.
  - intros t v. rewrite lookup_insert_Some, elem_of_app, list_elem_of_singleton, Hk. split.
    + intros [[<- <-]|[_ [? ?]]]; auto.
    + intros [[Hv| ->] <-]; [right|by left]. split; [|done]. intros E. by apply (Hc v Hv).
Qed.

Lemma delete_first_in ty l v :
  NoDup ((fun v => typeof (Comp v)) <$> l) ->
  v ∈ delete_first ty l <-> v ∈ l /\ typeof (Comp v) <> ty.
Proof.
  induction l as [|w l IH]; simpl; intros Hn; [set_solver|]. apply NoDup_cons in Hn as [Hw Hn].
  case_decide as E.
  - rewrite elem_of_cons. split; [|naive_solver]. intros Hv. split; [by right|]. intros E'.
    apply Hw. rewrite E, <- E'. apply list_elem_of_fmap. eauto.
  - rewrite !elem_of_cons, IH by done. naive_solver.
Qed.

Lemma delete_first_nodup ty l :
  NoDup ((fun v => typeof (Comp v)) <$> l) -> NoDup ((fun v => typeof (Comp v)) <$> delete_first ty l).
Proof.
  induction l as [|w l IH]; simpl; intros Hn; [done|]. pose proof Hn as [Hw Hn']%NoDup_cons.
  case_decide; [done|]. simpl. apply NoDup_cons. split; [|by apply IH].
  intros (v & E & [Hv _]%delete_first_in)%list_elem_of_fmap; [|done].
  apply Hw. rewrite E. apply list_elem_of_fmap. eauto.
Qed.

Lemma delete_wf c m : list_wf m -> list_wf (Delete c m).2.
Proof.
  intros [Hn Hk]. split; cbn.
  - by apply delete_first_nodup.
  - intros t v. rewrite lookup_delete_Some, Hk, delete_first_in by done. naive_solver.
Qed.

Lemma sort_wf m : list_wf m -> list_wf (SortByPriority m).
Proof.
  intros [Hn Hk]. unfold SortByPriority. split; cbn [keys values].
  - by rewrite (slice_stable_perm priority_less (values m)).
  - intros t v. by rewrite (slice_stable_perm priority_less (values m)), Hk.
Qed.

Lemma reachable_list_wf m : reachable m -> list_wf m.
Proof. induction 1 as [|m m' _ IH S]; [apply new_wf|]. destruct S; auto using put_wf, delete_wf, sort_wf. Qed.

Lemma len_values m : list_wf m -> Len m = length (values m).
Proof.
  intros [Hn Hk]. unfold Len. rewrite <- (length_fmap (fun v => typeof (Comp v))).
  rewrite <- (size_list_to_set (C := gset Ty) _ Hn), <- size_dom. f_equal.
  apply set_eq. intros t. rewrite elem_of_dom, elem_of_list_to_set, list_elem_of_fmap. unfold is_Some.
  setoid_rewrite Hk. naive_solver.
Qed.

(** Every component list built by Put, Delete and SortByPriority holds at most one component of each type; Get finds exactly the components Each visits, Len is their number, a second Put of a type is refused without effect, Delete removes exactly the type, and sorting keeps the components, orders them by ascending priority and keeps the registration order among equals. *)
Lemma component_list_correct m c p :
  reachable m ->
  NoDup (typeof <$> Each m) /\ Len m = length (Each m) /\
  (forall x, GetComponent c m = Some x <-> x ∈ Each m /\ typeof x = typeof c) /\
  (typeof c ∈ typeof <$> Each m -> Put p c m = (false, m)) /\
  (typeof c ∉ typeof <$> Each m -> (Put p c m).1 = true /\ Each (Put p c m).2 = Each m ++ [c]) /\
  (forall x, x ∈ Each (Delete c m).2 <-> x ∈ Each m /\ typeof x <> typeof c) /\
  Each (SortByPriority m) ≡ₚ Each m /\
  sorted_by priority_less (values (SortByPriority m)) /\
  (forall q, filter (fun v => (Priority v =? q) = true) (values (SortByPriority m))
             = filter (fun v => (Priority v =? q) = true) (values m)).
Proof.
  intros R. pose proof (reachable_list_wf m R) as W. pose proof W as [Hn Hk].
  assert (forall x, GetComponent c m = Some x <-> x ∈ Each m /\ typeof x = typeof c) as HG.
  { intros x. unfold GetComponent, GetInfo, Each. rewrite list_elem_of_fmap. split.
    - destruct (keys m !! typeof c) as [v|] eqn:L; [|done]. intros [= <-].
      apply Hk in L as [Hv E]. split; [by exists v|done].
    - intros [(v & -> & Hv) E]. assert (keys m !! typeof c = Some v) as -> by (by apply Hk). done. }
  split_and!.
  - unfold Each. by rewrite <- list_fmap_compose.
  - unfold Each. by rewrite length_fmap, len_values.
  - exact HG.
  - intros (x & E & Hx)%list_elem_of_fmap. unfold Put, PutInfo. cbn [Comp].
    assert (GetComponent c m = Some x) as G by (by apply HG). unfold GetComponent, GetInfo in G.
    by destruct (keys m !! typeof c).
  - intros Hx. unfold Put, PutInfo. cbn [Comp]. destruct (keys m !! typeof c) as [v|] eqn:L.
    + apply Hk in L as [Hv E]. destruct Hx. rewrite <- E. apply list_elem_of_fmap.
      exists (Comp v). split; [done|]. unfold Each. apply list_elem_of_fmap. eauto.
    + cbn. split; [done|]. unfold Each. cbn [values]. by rewrite fmap_app.
  - intros x. unfold Each. cbn. rewrite !list_elem_of_fmap.
    setoid_rewrite delete_first_in; [|done]. naive_solver.
  - unfold Each, SortByPriority. cbn [values]. by rewrite (slice_stable_perm priority_less (values m)).
  - apply slice_stable_sorted. apply _.
  - intros q. apply (slice_stable_filter priority_less (fun v => Priority v =? q)).
    intros x y Ex%Z.eqb_eq Ey%Z.eqb_eq. unfold priority_less. lia.
Qed.

(** ** Registration order *)

Fixpoint add_all (cs : list Component) (b : Builder) : bool * Builder :=
  match cs with
  | [] => (true, b)
  | c :: cs => let '(ok, b) := AddComponent c b in if ok then add_all cs b else (false, b)
  end.

Lemma slice_stable_id l : sorted_by priority_less l -> slice_stable priority_less l = l.
Proof.
  induction 1 as [|x l _ IH Hx]; simpl; [done|]. rewrite IH. destruct l as [|y l]; [done|].
  simpl. apply Forall_cons in Hx as [-> _]. done.
Qed.

(** The builder's list while only AddComponent has been used: priorities count up. *)
Definition counted (b : Builder) : Prop :=
  let m := default NewComponentList (Components b) in
  list_wf m /\ sorted_by priority_less (values m) /\ 0 <= ComponentCount b /\
  Forall (fun v => Priority v < ComponentCount b) (values m) /\
  Z.of_nat (length (values m)) = ComponentCount b.

Lemma AddComponent_counted c b :
  counted b -> typeof c ∉ typeof <$> Each (default NewComponentList (Components b)) ->
  ComponentCount b < 2 ^ 63 - 1 ->
  exists b', AddComponent c b = (true, b') /\ counted b' /\ ComponentCount b' = ComponentCount b + 1 /\
    Each (default NewComponentList (Components b')) = Each (default NewComponentList (Components b)) ++ [c].
Proof.
  unfold counted. set (m := default NewComponentList (Components b)).
  intros ((Hn & Hk) & Hs & H0 & Hp & Hlen) Hc Hmax. unfold AddComponent, AddComponentWithPriority. fold m.
  unfold Put, PutInfo. cbn [Comp].
  assert (keys m !! typeof c = None) as L.
  { destruct (keys m !! typeof c) as [v|] eqn:L; [|done]. apply Hk in L as [Hv E]. destruct Hc.
    rewrite <- E. apply list_elem_of_fmap. exists (Comp v). split; [done|]. apply list_elem_of_fmap. eauto. }
  rewrite L. eexists. split; [reflexivity|]. cbn [Components default from_option ComponentCount].
  rewrite i64_small by lia. split_and!; try lia.
  - pose proof (put_wf (ComponentCount b) c m (conj Hn Hk)) as W. unfold Put, PutInfo in W. cbn [Comp] in W.
    by rewrite L in W.
  - cbn [values]. apply sorted_by_app. split_and!; [done|repeat constructor|].
    intros v w Hv ->%list_elem_of_singleton. unfold priority_less. cbn [Priority].
    rewrite Forall_forall in Hp. specialize (Hp v Hv). lia.
  - cbn [values]. apply Forall_app. split; [|constructor; [cbn; lia|constructor]].
    eapply Forall_impl; [exact Hp|]. intros v. simpl. lia.
  - unfold id. cbn [values]. rewrite length_app. cbn. lia.
  - unfold Each, id. cbn [values]. by rewrite fmap_app.
Qed.

Lemma add_all_counted cs b :
  counted b -> NoDup (typeof <$> (Each (default NewComponentList (Components b)) ++ cs)) ->
  ComponentCount b + Z.of_nat (length cs) < 2 ^ 63 ->
  exists b', add_all cs b = (true, b') /\ counted b' /\
    Each (default NewComponentList (Components b')) = Each (default NewComponentList (Components b)) ++ cs.
Proof.
  revert b. induction cs as [|c cs IH]; intros b Hb Hn Hmax; simpl.
  - exists b. by rewrite app_nil_r.
  - destruct (AddComponent_counted c b Hb) as (b1 & -> & Hb1 & Hc1 & E1); [|simpl in Hmax; lia|].
    + rewrite fmap_app, fmap_cons in Hn. apply NoDup_app in Hn as (_ & Hn & _). intros Hin. apply (Hn _ Hin). by left.
    + destruct (IH b1 Hb1) as (b2 & E2 & Hb2 & EE); [|simpl in Hmax; lia|].
      * by rewrite E1, <- app_assoc.
      * exists b2. rewrite E2, EE, E1, <- app_assoc. done.
Qed.

(** Components of distinct types registered with AddComponent are all accepted, and the built network calls them (Each) in the order of their registration. *)
Lemma AddComponent_order cs :
  NoDup (typeof <$> cs) -> Z.of_nat (length cs) < 2 ^ 63 ->
  exists b, add_all cs NewBuilder = (true, b) /\ Each (build_components b) = cs.
Proof.
  intros Hn Hmax. destruct (add_all_counted cs NewBuilder) as (b & E & Hb & EE).
  - unfold counted. cbn. split_and!; [apply new_wf|apply SSorted_nil|done|by apply Forall_nil|done].
  - done.
  - done.
  - exists b. split; [done|]. unfold build_components, counted in *.
    destruct (Components b) as [m|]; cbn [default from_option] in *; [|done].
    destruct Hb as (_ & Hs & _). unfold SortByPriority, Each in *. cbn [values].
    by rewrite slice_stable_id.
Qed.
(** Every component list built by Put, Delete and SortByPriority holds at most one component of each type; Get finds exactly the components Each visits, Len is their number, a second Put of a type is refused without effect, Delete removes exactly the type, and sorting orders by ascending priority and keeps the registration order among equals. Components of distinct types registered with AddComponent are all accepted, and the built network calls them in the order of their registration. *)
Lemma components_correct :
  (forall m c p,
   reachable m ->
   NoDup (typeof <$> Each m) /\ Len m = length (Each m) /\
   (forall x, GetComponent c m = Some x <-> x ∈ Each m /\ typeof x = typeof c) /\
   (typeof c ∈ typeof <$> Each m -> Put p c m = (false, m)) /\
   (typeof c ∉ typeof <$> Each m -> (Put p c m).1 = true /\ Each (Put p c m).2 = Each m ++ [c]) /\
   (forall x, x ∈ Each (Delete c m).2 <-> x ∈ Each m /\ typeof x <> typeof c) /\
   Each (SortByPriority m) ≡ₚ Each m /\
   sorted_by priority_less (values (SortByPriority m)) /\
   (forall q, filter (fun v => (Priority v =? q) = true) (values (SortByPriority m))
              = filter (fun v => (Priority v =? q) = true) (values m))) /\
  (forall cs,
   NoDup (typeof <$> cs) -> Z.of_nat (length cs) < 2 ^ 63 ->
   exists b, add_all cs NewBuilder = (true, b) /\ Each (build_components b) = cs).
Proof. split_and!; [exact component_list_correct|exact AddComponent_order]. Qed.

End components.

Lemma components_correct_witness :
  ((Put (fun x => x) 5 (3 : Z) (Put (fun x => x) 1 3 NewComponentList).2).1 = false) /\
  (exists b, add_all (fun x : Z => x) [4; 2; 9] NewBuilder = (true, b) /\ Each (build_components b) = [4; 2; 9]).
Proof.
  split.
  { destruct ((proj1 (components_correct (fun x : Z => x))) (Put (fun x => x) 1 3 NewComponentList).2 3 5)
      as (_ & _ & _ & H & _).
    - eapply reach_step; [apply reach_new|apply step_put].
    - rewrite H; [reflexivity|]. vm_compute. left. }
  { apply ((proj2 (components_correct (fun x : Z => x))) [4; 2; 9]).
    - apply (bool_decide_unpack _). vm_compute. exact I.
    - vm_compute. reflexivity. }
Defined.
