(* ===== verification/Opcode.v ===== *)
(** * types/opcode/opcode.go: the opcode tables, and the opcode switch of dispatchMessage

    A protobuf message is its dynamic type with its encoding ([Marshal] is a section variable
    of registration: it can fail).  The two global sync.Maps are the record [tables]. *)
From S2P Require Import Prelude.
Local Open Scope Z_scope.

Definition msg_type := string.

(** A proto.Message value: its type and its fields, which the tables never look at. *)
Record proto := mkProto { ptype : msg_type; pfields : list Z }.

Definition UnregisteredCode : Z := 0.
Definition BytesCode : Z := 1.
Definition KeepaliveCode : Z := 2.
Definition KeepaliveResponseCode : Z := 3.
Definition ProxyResponseCode : Z := 9.
Definition PingCode : Z := 10.
Definition PongCode : Z := 11.
Definition LookupNodeRequestCode : Z := 12.
Definition LookupNodeResponseCode : Z := 13.
Definition DisconnectCode : Z := 14.
Definition ProxyRequestCode : Z := 15.
Definition MetricRequestCode : Z := 16.
Definition MetricResponseCode : Z := 17.
Definition AckResponseCode : Z := 18.
Definition ApplicationOpCodeStart : Z := 1000.

Record tables := mkTables { opcodeTbl : gmap Z proto; msgTbl : gmap msg_type Z }.

Definition msgOpcodePairs : list (proto * Z) :=
  [ (mkProto "Bytes" [], BytesCode); (mkProto "Ping" [], PingCode); (mkProto "Pong" [], PongCode);
    (mkProto "LookupNodeRequest" [], LookupNodeRequestCode);
    (mkProto "LookupNodeResponse" [], LookupNodeResponseCode);
    (mkProto "Keepalive" [], KeepaliveCode); (mkProto "KeepaliveResponse" [], KeepaliveResponseCode);
    (mkProto "Disconnect" [], DisconnectCode); (mkProto "ProxyRequest" [], ProxyRequestCode);
    (mkProto "ProxyResponse" [], ProxyResponseCode); (mkProto "MetricRequest" [], MetricRequestCode);
    (mkProto "MetricResponse" [], MetricResponseCode); (mkProto "AsyncAckResponse" [], AckResponseCode) ].

(** init *)
Definition store_pair (t : tables) (pair : proto * Z) : tables :=
  mkTables (<[pair.2 := pair.1]> (opcodeTbl t)) (<[ptype pair.1 := pair.2]> (msgTbl t)).

Definition init_tables : tables := foldl store_pair (mkTables ∅ ∅) msgOpcodePairs.

Inductive opcode_err := ErrReserved | ErrMarshal | ErrNotEmpty | ErrExists | ErrNotFound.

(** GetMessageType returns a clone of the registered message. *)
Definition GetMessageType (t : tables) (code : Z) : proto + opcode_err :=
  match opcodeTbl t !! code with
  | Some m => inl m
  | None => inr ErrNotFound
  end.

Definition GetOpcode (t : tables) (msg : proto) : Z + opcode_err :=
  match msgTbl t !! ptype msg with
  | Some c => inl c
  | None => inr ErrNotFound
  end.

Section register.
Variable Marshal : proto -> option (list Z).

Definition RegisterMessageType (opcode : Z) (msg : proto) (t : tables) : option opcode_err * tables :=
  if opcode <? ApplicationOpCodeStart then (Some ErrReserved, t)
  else match Marshal msg with
  | None => (Some ErrMarshal, t)
  | Some raw =>
    if negb (length raw =? 0)%nat then (Some ErrNotEmpty, t)
    else match opcodeTbl t !! opcode with
    | Some _ => (Some ErrExists, t)
    | None => (None, mkTables (<[opcode := msg]> (opcodeTbl t)) (<[ptype msg := opcode]> (msgTbl t)))
    end
  end.

(** network.go, dispatchMessage: the type a received message is decoded into. *)
Definition dispatch_type (t : tables) (code : Z) : option msg_type :=
  if code =? BytesCode then Some "Bytes"%string
  else if code =? PingCode then Some "Ping"%string
  else if code =? PongCode then Some "Pong"%string
  else if code =? LookupNodeRequestCode then Some "LookupNodeRequest"%string
  else if code =? LookupNodeResponseCode then Some "LookupNodeResponse"%string
  else if code =? DisconnectCode then Some "Disconnect"%string
  else if code =? ProxyRequestCode then Some "ProxyRequest"%string
  else if code =? ProxyResponseCode then Some "ProxyResponse"%string
  else if code =? KeepaliveCode then Some "Keepalive"%string
  else if code =? KeepaliveResponseCode then Some "KeepaliveResponse"%string
  else if code =? UnregisteredCode then None
  else match GetMessageType t code with
  | inl m => Some (ptype m)
  | inr _ => None
  end.

(** The tables a program can have: the initial ones and any registrations. *)
Inductive registered : tables -> Prop :=
| reg_init : registered init_tables
| reg_register c m t : registered t -> registered (RegisterMessageType c m t).2.

(** The type table leads back to the opcode table, and the reserved opcodes are those of init. *)
Definition tables_wf (t : tables) : Prop :=
  (forall ty c, msgTbl t !! ty = Some c -> exists m, opcodeTbl t !! c = Some m /\ ptype m = ty) /\
  (forall c, c < ApplicationOpCodeStart -> opcodeTbl t !! c = opcodeTbl init_tables !! c).

Lemma init_wf : tables_wf init_tables.
Proof.
  split; [|done]. intros ty c H. change (init_tables) with (foldl store_pair (mkTables ∅ ∅) msgOpcodePairs) in H.
  assert (map_Forall (fun ty c => exists m, opcodeTbl init_tables !! c = Some m /\ ptype m = ty) (msgTbl init_tables)) as F.
  { unfold init_tables at 2. unfold msgOpcodePairs. cbn [foldl store_pair msgTbl fst snd ptype].
    repeat (apply map_Forall_insert_2; [eexists; split; [vm_compute; reflexivity|reflexivity]|]).
    apply map_Forall_empty. }
  exact (F ty c H).
Qed.

Lemma register_tables_wf c m t : tables_wf t -> tables_wf (RegisterMessageType c m t).2.
Proof.
  intros [Hm Hr]. unfold RegisterMessageType. destruct (Z.ltb_spec c ApplicationOpCodeStart); [done|].
  destruct (Marshal m) as [raw|]; [|done]. destruct (negb _); [done|].
  destruct (opcodeTbl t !! c) as [m'|] eqn:L; [done|]. split; cbn.
  - intros ty d. rewrite lookup_insert_Some. intros [[<- <-]|[Hne Hd]].
    + exists m. by rewrite lookup_insert_eq.
    + apply Hm in Hd as (m' & Hd & Ht). exists m'. rewrite lookup_insert_ne by congruence. done.
  - intros d Hd. rewrite lookup_insert_ne by lia. by apply Hr.
Qed.

Lemma registered_wf t : registered t -> tables_wf t.
Proof. induction 1; auto using init_wf, register_tables_wf. Qed.

Lemma dispatch_reserved t code :
  tables_wf t -> code <> UnregisteredCode ->
  dispatch_type t code = match GetMessageType t code with inl m => Some (ptype m) | inr _ => None end.
Proof.
  intros [_ Hr] H0. unfold dispatch_type, GetMessageType.
  repeat (case_match eqn:E; [apply Z.eqb_eq in E; subst code;
    first [done | rewrite Hr by (vm_compute; reflexivity); vm_compute; reflexivity]|clear E]); done.
Qed.

(** C35. Opcodes and message types agree in every reachable state of the tables: a message sent under the opcode GetOpcode gives it is decoded by dispatchMessage into its own type; registering succeeds exactly for a fresh opcode from 1000 on and an empty message, then both tables know it, and otherwise nothing changes; the built-in opcodes never change. *)
Theorem opcode_tables_correct t c m :
  registered t ->
  (forall msg code, GetOpcode t msg = inl code -> code <> UnregisteredCode ->
     dispatch_type t code = Some (ptype msg)) /\
  ((RegisterMessageType c m t).1 = None <->
     ApplicationOpCodeStart <= c /\ Marshal m = Some [] /\ GetMessageType t c = inr ErrNotFound) /\
  ((RegisterMessageType c m t).1 = None ->
     GetMessageType (RegisterMessageType c m t).2 c = inl m /\
     GetOpcode (RegisterMessageType c m t).2 m = inl c) /\
  ((RegisterMessageType c m t).1 <> None -> (RegisterMessageType c m t).2 = t) /\
  (forall d, d < ApplicationOpCodeStart -> GetMessageType t d = GetMessageType init_tables d).
Proof.
  intros R. pose proof (registered_wf t R) as W. pose proof W as [Hm Hr]. split_and!.
  - intros msg code G H0. rewrite dispatch_reserved by done. unfold GetOpcode in G. unfold GetMessageType.
    destruct (msgTbl t !! ptype msg) as [d|] eqn:L; [|done]. injection G as ->.
    apply Hm in L as (m' & -> & ->). done.
  - unfold RegisterMessageType, GetMessageType. destruct (Z.ltb_spec c ApplicationOpCodeStart).
    { split; [done|]. intros (? & _). lia. }
    destruct (Marshal m) as [[|x raw]|]; cbn; [|naive_solver..]. destruct (opcodeTbl t !! c); naive_solver.
  - unfold RegisterMessageType, GetMessageType, GetOpcode. destruct (c <? _); [done|].
    destruct (Marshal m) as [[|x raw]|]; cbn; [|done..]. destruct (opcodeTbl t !! c); [done|]. cbn.
    by rewrite !lookup_insert_eq.
  - unfold RegisterMessageType. repeat (case_match; try done).
  - intros d Hd. unfold GetMessageType. by rewrite Hr.
Qed.
End register.

Lemma opcode_tables_correct_witness :
  let t := (RegisterMessageType (fun _ => Some []) 1000 (mkProto "App" []) init_tables).2 in
  dispatch_type t 1000 = Some "App"%string.
Proof.
  intros t. destruct (opcode_tables_correct (fun _ => Some []) t 1001 (mkProto "App2" [])) as [H _].
  - apply reg_register, reg_init.
  - apply (H (mkProto "App" [])); [vm_compute; reflexivity|discriminate].
Defined.
