(* ===== verification/KeyPair.v ===== *)
(** * crypto/keypair.go and crypto/policy.go: key pairs over a signature policy and a hash policy

    The interfaces of policy.go are classes; [SignatureLaws] is what a signature scheme
    promises to its clients.  hex.DecodeString is modelled from its documentation. *)
From S2P Require Import Prelude Peer.
Local Open Scope Z_scope.

Class SignaturePolicy := {
  PrivateKeySize : nat;
  PublicKeySize : nat;
  PrivateToPublic : list Z -> option (list Z);
  policy_Sign : list Z -> list Z -> list Z;
  policy_Verify : list Z -> list Z -> list Z -> bool
}.

Class HashPolicy := { HashBytes : list Z -> list Z }.

(** A public key has the declared size, and the key derived from a private key that the scheme may
    have generated ([key_ok]) verifies what the private key signs. *)
Class SignatureLaws (sp : SignaturePolicy) := {
  key_ok : list Z -> Prop;
  public_size : forall priv pub, PrivateToPublic priv = Some pub -> length pub = PublicKeySize;
  verify_sign : forall priv pub msg, key_ok priv -> length priv = PrivateKeySize -> PrivateToPublic priv = Some pub ->
    policy_Verify pub msg (policy_Sign priv msg) = true
}.

Record KeyPair := mkKeyPair { PrivateKey : list Z; PublicKey : list Z }.

Inductive key_err := PrivateKeySizeErr | HexErr | PolicyErr.

(** ** hex.DecodeString *)

Definition from_hex_char (c : Z) : option Z :=
  if (48 <=? c) && (c <=? 57) then Some (c - 48)
  else if (97 <=? c) && (c <=? 102) then Some (c - 97 + 10)
  else if (65 <=? c) && (c <=? 70) then Some (c - 65 + 10)
  else None.

Fixpoint hex_decode (s : list Z) : option (list Z) :=
  match s with
  | [] => Some []
  | [_] => None
  | a :: b :: s =>
    match from_hex_char a, from_hex_char b with
    | Some x, Some y => (fun l => Z.lor (u8 (Z.shiftl x 4)) y :: l) <$> hex_decode s
    | _, _ => None
    end
  end.

Section keypair.
Context `{sp : SignaturePolicy} `{hp : HashPolicy}.

Definition Sign (k : KeyPair) (message : list Z) : res key_err (list Z) :=
  if negb (length (PrivateKey k) =? PrivateKeySize)%nat then Err PrivateKeySizeErr
  else
    let message := HashBytes message in
    Ok (policy_Sign (PrivateKey k) message).

Definition PrivateKeyHex (k : KeyPair) : list Z := hex_encode (PrivateKey k).
Definition KeyPair_PublicKeyHex (k : KeyPair) : list Z := hex_encode (PublicKey k).
Definition KeyPair_String (k : KeyPair) : list Z * list Z := (PrivateKeyHex k, KeyPair_PublicKeyHex k).

Definition fromPrivateKeyBytes (rawPrivateKey : list Z) : res key_err KeyPair :=
  if negb (length rawPrivateKey =? PrivateKeySize)%nat then Err PrivateKeySizeErr
  else match PrivateToPublic rawPrivateKey with
  | None => Err PolicyErr
  | Some rawPublicKey => Ok (mkKeyPair rawPrivateKey rawPublicKey)
  end.

Definition FromPrivateKey (privateKey : list Z) : res key_err KeyPair :=
  match hex_decode privateKey with
  | None => Err HexErr
  | Some rawPrivateKey => fromPrivateKeyBytes rawPrivateKey
  end.

Definition Verify (publicKey message signature : list Z) : bool :=
  if negb (length publicKey =? PublicKeySize)%nat then false
  else policy_Verify publicKey (HashBytes message) signature.

(** ** hex round trip *)

Lemma from_hex_digit d : 0 <= d < 16 -> from_hex_char (hex_digit d) = Some d.
Proof.
  intros H. unfold from_hex_char, hex_digit. destruct (Z.ltb_spec d 10).
  - destruct (Z.leb_spec 48 (48 + d)), (Z.leb_spec (48 + d) 57); try lia. simpl. f_equal. lia.
  - destruct (Z.leb_spec 48 (87 + d)), (Z.leb_spec (87 + d) 57), (Z.leb_spec 97 (87 + d)), (Z.leb_spec (87 + d) 102);
      try lia. simpl. f_equal. lia.
Qed.

Lemma hex_decode_encode l : bytes_ok l -> hex_decode (hex_encode l) = Some l.
Proof.
  induction 1 as [|b l Hb _ IH]; [done|].
  change (hex_encode (b :: l)) with (hex_digit (Z.shiftr b 4) :: hex_digit (Z.land b 15) :: hex_encode l).
  cbn [hex_decode]. rewrite Z.shiftr_div_pow2 by lia. rewrite Z.land_comm. change 15 with (Z.ones 4).
  rewrite land_ones_mod by lia. change (2 ^ 4) with 16.
  assert (0 <= b / 16 < 16 /\ 0 <= b mod 16 < 16) as [H1 H2] by (Z.div_mod_to_equations; lia).
  rewrite !from_hex_digit by done. rewrite IH. simpl. do 2 f_equal.
  rewrite u8_small by (rewrite Z.shiftl_mul_pow2 by lia; lia).
  rewrite Z.lor_comm, lor_add_disjoint by lia. change (2 ^ 4) with 16. Z.div_mod_to_equations. lia.
Qed.

(** A key pair survives its hexadecimal form, and what it signs verifies: for a private key of the right size FromPrivateKey of PrivateKeyHex restores the pair, Sign succeeds, and if the scheme generated the key Verify with the public key accepts the signature (for the same message); a private key of another size is refused by both. *)
Theorem keypair_roundtrip `{!SignatureLaws sp} k message :
  bytes_ok (PrivateKey k) -> PrivateToPublic (PrivateKey k) = Some (PublicKey k) ->
  (length (PrivateKey k) = PrivateKeySize ->
     FromPrivateKey (PrivateKeyHex k) = Ok k /\
     exists s, Sign k message = Ok s /\ (key_ok (PrivateKey k) -> Verify (PublicKey k) message s = true)) /\
  (length (PrivateKey k) <> PrivateKeySize ->
     FromPrivateKey (PrivateKeyHex k) = Err PrivateKeySizeErr /\ Sign k message = Err PrivateKeySizeErr).
Proof.
  intros Hb Hp. unfold FromPrivateKey, PrivateKeyHex, fromPrivateKeyBytes, Sign, Verify.
  rewrite hex_decode_encode by done. split; intros Hl.
  - rewrite Hl, Nat.eqb_refl, Hp, (public_size _ _ Hp), Nat.eqb_refl. cbn [negb].
    split; [by destruct k|]. eexists. split; [reflexivity|]. intros Hk. by apply verify_sign.
  - by rewrite (proj2 (Nat.eqb_neq _ _) Hl).
Qed.
End keypair.

(** A toy scheme: the signature is the key and the message. *)
#[local] Instance toy_policy : SignaturePolicy := {
  PrivateKeySize := 2; PublicKeySize := 2; PrivateToPublic k := if (length k =? 2)%nat then Some k else None;
  policy_Sign k m := k ++ m; policy_Verify p m s := bool_decide (s = p ++ m) }.

#[local] Instance toy_laws : SignatureLaws toy_policy.
Proof.
  apply (Build_SignatureLaws toy_policy (fun _ => True)).
  - intros priv pub. simpl. destruct (Nat.eqb_spec (length priv) 2); [|done]. by intros [= <-].
  - intros priv pub msg _ Hl. simpl. rewrite Hl. simpl. intros [= <-]. by apply bool_decide_true.
Defined.

#[local] Instance toy_hash : HashPolicy := { HashBytes m := m }.

Lemma keypair_roundtrip_witness :
  exists s, Sign (mkKeyPair [1; 255] [1; 255]) [7] = Ok s /\ Verify [1; 255] [7] s = true.
Proof.
  destruct (keypair_roundtrip (mkKeyPair [1; 255] [1; 255]) [7]) as [[_ H] _].
  - repeat constructor; cbn; lia.
  - reflexivity.
  - reflexivity.
  - destruct H as (s & Hs & Hv). exists s. split; [exact Hs|exact (Hv I)].
Defined.
