(* ===== verification/Address.v ===== *)
(** * network/address.go and FilterPeers of network/utils.go

    Parsing, printing and resolving of node addresses.  The host names resolved so far live in an LRU
    cache of 1000 entries; net.LookupHost is an argument.  As long as the resolver answers alike, the
    cache is invisible: the code computes the function [unify].  [AddressOps] is what the
    connection manager uses of this file, and [addresses] the implementation of it. *)
From S2P Require Import Prelude Decimal GoText NetIP GoUrl Lru.
Local Open Scope Z_scope.
Local Open Scope go_scope.

Record AddressInfo := mkAddressInfo { Protocol : list Z; Host : list Z; Port : Z }.

Definition networkClientName : list Z := str "dasein-client".

Definition NewAddressInfo (protocol host : list Z) (port : Z) : AddressInfo := mkAddressInfo protocol host port.

(** AddressInfo.Network *)
Definition AddressInfo_Network (info : AddressInfo) : list Z := networkClientName.

Definition HostPort (info : AddressInfo) : list Z := JoinHostPort (Host info) (itoa (Port info)).

(** AddressInfo.String *)
Definition AddressInfo_String (info : AddressInfo) : list Z :=
  let address := JoinHostPort (Host info) (itoa (Port info)) in
  if (0 <? length (Protocol info))%nat then Protocol info ++ str "://" ++ address else address.

Definition FormatAddress (protocol host : list Z) (port : Z) : list Z :=
  AddressInfo_String (NewAddressInfo protocol host port).

(** None is an error of url.Parse, net.SplitHostPort or strconv.ParseUint. *)
Definition ParseAddress (address : list Z) : option AddressInfo :=
  urlInfo ← Parse address;
  '(host, rawPort) ← SplitHostPort (uHost urlInfo);
  port ← ParseUint 16 rawPort;
  Some (mkAddressInfo (uScheme urlInfo) host (u16 port)).

Inductive addr_err := ErrNoAvailableAddresses | ErrAddressEmpty | ErrParse.

(** net.LookupHost: None is an error. *)
Definition resolver := list Z -> option (list (list Z)).

Definition cache := Cache (V := list Z).
Definition domainLookupCache : cache := NewCache 1000.

Section resolving.
Variable LookupHost : resolver.

(** The initialiser that ToUnifiedHost hands to the cache. *)
Definition lookup_host (host : list Z) : list Z + addr_err :=
  match ParseIP host with
  | Some _ => inl host
  | None =>
    match LookupHost host with
    | Some (a :: _) => inl (if decide (a = str "::1") then str "127.0.0.1" else a)
    | _ => inr ErrNoAvailableAddresses
    end
  end.

Definition ToUnifiedHost (host : list Z) (c : cache) : res addr_err (list Z) * cache :=
  match Get c host (lookup_host host) with
  | (Ok unifiedHost, c) => (Ok unifiedHost, c)
  | (Err _, c) => (Err ErrNoAvailableAddresses, c)
  | (Panic, c) => (Panic, c)
  end.

Definition ToUnifiedAddress (address : list Z) (c : cache) : res addr_err (list Z) * cache :=
  let address := TrimSpace address in
  if (length address =? 0)%nat then (Err ErrAddressEmpty, c)
  else match ParseAddress address with
  | None => (Err ErrParse, c)
  | Some info =>
    match ToUnifiedHost (Host info) c with
    | (Ok host, c) => (Ok (AddressInfo_String (mkAddressInfo (Protocol info) host (Port info))), c)
    | (Err e, c) => (Err e, c)
    | (Panic, c) => (Panic, c)
    end
  end.

(** The loop of FilterPeers; a panic of the resolution passes. *)
Fixpoint filter_loop (visited : gset (list Z)) (peers : list (list Z)) (c : cache) : res addr_err (list (list Z)) * cache :=
  match peers with
  | [] => (Ok [], c)
  | peerAddress :: peers =>
    if (length peerAddress =? 0)%nat then filter_loop visited peers c
    else match ToUnifiedAddress peerAddress c with
    | (Err _, c) => filter_loop visited peers c
    | (Panic, c) => (Panic, c)
    | (Ok resolved, c) =>
      if decide (resolved ∈ visited) then filter_loop visited peers c
      else let '(r, c) := filter_loop ({[resolved]} ∪ visited) peers c in
           (let? filtered := r in Ok (resolved :: filtered), c)
    end
  end.

Definition FilterPeers (address : list Z) (peers : list (list Z)) (c : cache) : res addr_err (list (list Z)) * cache :=
  filter_loop {[address]} peers c.

(** ** Without the cache *)

Definition resolve (host : list Z) : option (list Z) := match lookup_host host with inl h => Some h | inr _ => None end.

Definition unify (address : list Z) : option (list Z) :=
  let address := TrimSpace address in
  if (length address =? 0)%nat then None
  else
    info ← ParseAddress address;
    host ← resolve (Host info);
    Some (AddressInfo_String (mkAddressInfo (Protocol info) host (Port info))).

(** A cache that holds only answers of the resolver. *)
Record coherent (c : cache) : Prop := {
  co_wf : cache_wf c;
  co_limit : limit c = 1000;
  co_entries : forall k v, (k, v) ∈ entries c -> resolve k = Some v }.

Lemma coherent_new : coherent domainLookupCache.
Proof. split; [apply NewCache_wf|done|]. intros k v H. by apply elem_of_nil in H. Qed.

Lemma ToUnifiedHost_spec host c :
  coherent c -> exists c', coherent c' /\
    ToUnifiedHost host c = (match resolve host with Some h => Ok h | None => Err ErrNoAvailableAddresses end, c').
Proof.
  intros [W L HE]. destruct (Get_refines c host (lookup_host host) W ltac:(lia)) as (r & c' & EG & W' & L' & ES).
  exists c'. unfold ToUnifiedHost. rewrite EG. unfold spec_get in ES.
  destruct (spec_find (entries c) host) as [v|] eqn:F.
  - injection ES as <- ES.
    assert ((host, v) ∈ entries c) as Hin.
    { unfold spec_find in F. destruct (List.find _ _) as [[k w]|] eqn:E; [|done]. injection F as <-.
      apply find_some in E as [E K]. apply bool_decide_eq_true in K. cbn in K. subst k. by apply list_elem_of_In. }
    rewrite (HE _ _ Hin). split; [|done]. split; [done|congruence|].
    intros k x. rewrite <- ES. rewrite elem_of_cons. intros [[= -> ->]|H]; [by apply HE|].
    apply HE. unfold spec_forget in H. by apply list_elem_of_filter in H as [_ H].
  - set (l := if _ <=? _ then _ else _) in ES.
    assert (forall e, e ∈ l -> e ∈ entries c) as Hl.
    { intros e He. unfold l in He. destruct (_ <=? _); [|done]. by eapply subseteq_take. }
    unfold resolve at 1. destruct (lookup_host host) as [v|err] eqn:EL; injection ES as <- ES.
    + split; [|done]. split; [done|congruence|]. intros k x. rewrite <- ES, elem_of_cons.
      intros [[= -> ->]|H]; [unfold resolve; by rewrite EL|by apply HE, Hl].
    + split; [|done]. split; [done|congruence|]. intros k x. rewrite <- ES. intros H. by apply HE, Hl.
Qed.

(** The code with its cache computes [unify]. *)
Lemma ToUnifiedAddress_spec address c :
  coherent c -> exists c', coherent c' /\
    match unify address with
    | Some u => ToUnifiedAddress address c = (Ok u, c')
    | None => exists e, ToUnifiedAddress address c = (Err e, c')
    end.
Proof.
  intros H. unfold ToUnifiedAddress, unify. cbv zeta.
  destruct (length (TrimSpace address) =? 0)%nat; [eauto|].
  destruct (ParseAddress (TrimSpace address)) as [info|]; cbn [mbind option_bind]; [|eauto].
  destruct (ToUnifiedHost_spec (Host info) c H) as (c' & H' & ->). exists c'. split; [done|].
  destruct (resolve (Host info)); cbn [mbind option_bind]; eauto.
Qed.

(** ** FilterPeers *)

(** The first occurrences of what is not in [visited]. *)
Fixpoint first_occurrences (visited : gset (list Z)) (l : list (list Z)) : list (list Z) :=
  match l with
  | [] => []
  | x :: l => if decide (x ∈ visited) then first_occurrences visited l else x :: first_occurrences ({[x]} ∪ visited) l
  end.

Lemma first_occurrences_spec visited l :
  NoDup (first_occurrences visited l) /\
  (forall x, x ∈ first_occurrences visited l <-> x ∈ l /\ x ∉ visited) /\
  sublist (first_occurrences visited l) l.
Proof.
  revert visited. induction l as [|x l IH]; intros visited; cbn [first_occurrences].
  { split_and!; [constructor| |constructor]. intros x. rewrite elem_of_nil. tauto. }
  destruct (decide (x ∈ visited)) as [Hx|Hx].
  - destruct (IH visited) as (N & M & S). split_and!; [done| |by apply sublist_cons].
    intros y. rewrite M, elem_of_cons. split; [tauto|]. intros [[->|Hy] Hv]; [done|tauto].
  - destruct (IH ({[x]} ∪ visited)) as (N & M & S). split_and!; [| |by apply sublist_skip].
    + apply NoDup_cons. split; [|done]. rewrite M. intros [_ H]. apply H, elem_of_union_l, elem_of_singleton. done.
    + intros y. rewrite !elem_of_cons, M, not_elem_of_union, not_elem_of_singleton.
      destruct (decide (y = x)) as [->|]; tauto.
Qed.

Lemma TrimSpace_nil : TrimSpace [] = [].
Proof. reflexivity. Qed.

Lemma FilterPeers_loop visited peers c :
  coherent c -> exists c', coherent c' /\
    filter_loop visited peers c = (Ok (first_occurrences visited (omap unify peers)), c').
Proof.
  revert visited c. induction peers as [|a peers IH]; intros visited c H; cbn [filter_loop omap list_omap]; [eauto|].
  destruct (Nat.eqb_spec (length a) 0) as [E|_].
  { apply nil_length_inv in E as ->. apply IH, H. }
  destruct (ToUnifiedAddress_spec a c H) as (c1 & H1 & E). destruct (unify a) as [u|].
  - rewrite E. cbn [first_occurrences]. destruct (decide (u ∈ visited)); [by apply IH|].
    destruct (IH ({[u]} ∪ visited) c1 H1) as (c2 & H2 & ->). exists c2. split; [done|]. reflexivity.
  - destruct E as [e ->]. by apply IH.
Qed.
End resolving.

(** ** Printing and parsing *)

Definition info_ok (info : AddressInfo) : Prop :=
  scheme_ok (Protocol info) /\ host_bytes (Host info) /\ 0 <= Port info < 65536.

Lemma itoa_port n : 0 <= n -> port_bytes (itoa n) /\ itoa n = format_uint n.
Proof.
  intros H. unfold itoa. rewrite (proj2 (Z.ltb_ge _ _)) by lia. split; [by apply format_uint_digits|done].
Qed.

Lemma ParseAddress_String info : info_ok info -> ParseAddress (AddressInfo_String info) = Some info.
Proof.
  intros (Hs & Hh & Hp). destruct (itoa_port (Port info) ltac:(lia)) as [HP EP].
  unfold ParseAddress, AddressInfo_String. cbv zeta.
  replace (0 <? length (Protocol info))%nat with true by (by destruct (Protocol info)).
  rewrite Parse_print by done. cbn [mbind option_bind uHost uScheme]. rewrite SplitHostPort_join by done.
  cbn [mbind option_bind]. rewrite EP, ParseUint_format by lia. cbn [mbind option_bind].
  rewrite u16_small by lia. by destruct info.
Qed.

(** ** Characters of an IP address *)

Definition ip_byte (c : Z) : Prop := is_Some (hex_digit c) \/ c = 46 \/ c = 58.

Lemma ip_byte_host c : ip_byte c -> host_byte c = true.
Proof.
  intros H. assert (c ∈ seqZ 0 128) as Hc.
  { apply elem_of_seqZ. destruct H as [[d H]|[-> | ->]]; [|lia..]. unfold hex_digit, is_digit in H.
    destruct (Z.leb_spec 48 c), (Z.leb_spec c 57), (Z.leb_spec 97 c), (Z.leb_spec c 102), (Z.leb_spec 65 c), (Z.leb_spec c 70);
      cbn in H; try done; lia. }
  assert (Forall (fun c => host_byte c = true \/ ~ ip_byte c) (seqZ 0 128)) as F.
  { unfold ip_byte. apply (bool_decide_unpack _). vm_compute. done. }
  rewrite Forall_forall in F. by destruct (F c Hc).
Qed.

Lemma digit_ip c : is_digit c = true -> ip_byte c.
Proof. intros H. left. unfold hex_digit. by rewrite H. Qed.

Lemma dtoi_split s n t : dtoi s = Some (n, t) -> exists p, s = p ++ t /\ Forall ip_byte p.
Proof.
  assert (forall s n0 n t, dtoi_loop n0 s = Some (n, t) -> exists p, s = p ++ t /\ Forall ip_byte p) as L.
  { clear. induction s as [|c s IH]; intros n0 n t; cbn [dtoi_loop]; [intros [= <- <-]; by exists []|].
    destruct (is_digit c) eqn:D; [|intros [= <- <-]; by exists []]. cbv zeta. destruct (_ <=? _); [done|].
    intros (p & -> & Hp)%IH. exists (c :: p). split; [done|]. constructor; [by apply digit_ip|done]. }
  unfold dtoi. destruct s; [done|]. destruct (is_digit z); [|done]. apply L.
Qed.

Lemma xtoi_split s n t : xtoi s = Some (n, t) -> exists p, s = p ++ t /\ Forall ip_byte p.
Proof.
  assert (forall s n0 n t, xtoi_loop n0 s = Some (n, t) -> exists p, s = p ++ t /\ Forall ip_byte p) as L.
  { clear. induction s as [|c s IH]; intros n0 n t; cbn [xtoi_loop]; [intros [= <- <-]; by exists []|].
    destruct (hex_digit c) eqn:D; [|intros [= <- <-]; by exists []]. cbv zeta. destruct (_ <=? _); [done|].
    intros (p & -> & Hp)%IH. exists (c :: p). split; [done|]. constructor; [left; by rewrite D|done]. }
  unfold xtoi. destruct s; [done|]. destruct (hex_digit z); [|done]. apply L.
Qed.

Lemma parseIPv4_bytes k first s ip : parseIPv4_loop k first s = Some ip -> Forall ip_byte s.
Proof.
  revert first s ip. induction k as [|k IH]; intros first s ip; cbn [parseIPv4_loop].
  { destruct (decide (s = [])) as [->|]; [constructor|done]. }
  assert (forall s ip, match dtoi s with
    | None => None
    | Some (n, t) => if 255 <? n then None
        else if ((1 <? length s - length t)%nat && bool_decide (head s = Some 48))%bool then None
        else cons n <$> parseIPv4_loop k false t end = Some ip -> Forall ip_byte s) as A.
  { clear - IH. intros s ip. destruct (dtoi s) as [[n t]|] eqn:E; [|done]. apply dtoi_split in E as (p & -> & Hp).
    destruct (255 <? n); [done|]. destruct (_ && _)%bool; [done|].
    destruct (parseIPv4_loop k false t) eqn:E; [|done]. intros _. apply Forall_app. split; [done|by eapply IH]. }
  destruct first; [apply A|]. destruct s as [|c s]; [done|]. destruct (Z.eqb_spec c 46) as [->|]; [|done].
  intros H%A. constructor; [by right; left|done].
Qed.

Lemma parseIPv6_bytes k ip e s ip' e' rest :
  parseIPv6_loop k ip e s = Some (ip', e', rest) -> exists p, s = p ++ rest /\ Forall ip_byte p.
Proof.
  assert (ip_byte 58) as B58 by (by right; right).
  revert ip e s. induction k as [|k IH]; intros ip e s; cbn [parseIPv6_loop]; [intros [= <- <- <-]; by exists []|].
  destruct (xtoi s) as [[n t]|] eqn:E; [|done]. pose proof (xtoi_split _ _ _ E) as (p & Es & Hp).
  destruct (65535 <? n); [done|]. destruct t as [|c t].
  { intros [= <- <- <-]. exists p. split; [done|done]. }
  destruct (c =? 46).
  { destruct (_ || _)%bool; [done|]. destruct (parseIPv4_loop 4 true s) eqn:E4; [|done]. intros [= <- <- <-].
    exists s. split; [by rewrite app_nil_r|by eapply parseIPv4_bytes]. }
  cbv zeta. destruct (Z.eqb_spec c 58) as [->|]; [|done]. cbn [negb]. destruct t as [|c2 t2]; [done|].
  assert (forall q r, Forall ip_byte q -> c2 :: t2 = q ++ r -> exists q', s = q' ++ r /\ Forall ip_byte q') as A.
  { intros q r Hq Eq. exists (p ++ 58 :: q). rewrite Es, Eq, <- app_assoc. split; [done|].
    apply Forall_app. split; [done|]. by constructor. }
  destruct (Z.eqb_spec c2 58) as [->|].
  - destruct (bool_decide _); [done|]. destruct (decide (t2 = [])) as [->|].
    + intros [= <- <- <-]. apply (A [58] []); [by repeat constructor|done].
    + intros (q & Eq & Hq)%IH. apply (A (58 :: q) rest); [by constructor|by rewrite Eq].
  - intros (q & Eq & Hq)%IH. by apply (A q rest).
Qed.

Lemma ParseIP_host s ip : ParseIP s = Some ip -> host_bytes s.
Proof.
  intros H. enough (Forall ip_byte s) as F by (apply (Forall_impl _ _ _ F); exact ip_byte_host).
  assert (forall ip e rest r, expand ip e rest = Some r -> rest = []) as X.
  { clear. intros ip e rest r. unfold expand. by destruct (decide (rest = [])). }
  revert H. unfold ParseIP. destruct (ip_kind s) as [[]|]; [| |done].
  - unfold parseIPv4. destruct (parseIPv4_loop 4 true s) eqn:E; [|done]. intros _. by eapply parseIPv4_bytes.
  - unfold parseIPv6. destruct (HasPrefix s [58; 58]) eqn:P.
    + destruct s as [|c [|c2 s]]; cbn [HasPrefix] in P; rewrite ?andb_false_r in P; try done.
      apply andb_true_iff in P as [<-%Z.eqb_eq [<-%Z.eqb_eq _]%andb_true_iff]. cbn [drop].
      intros H. do 2 (constructor; [by right; right|]). revert H. rewrite drop_0.
      destruct (decide (s = [])) as [->|]; [constructor|].
      destruct (parseIPv6_loop _ _ _ _) as [[[ip' e] rest]|] eqn:E; [|done]. intros ->%X.
      apply parseIPv6_bytes in E as (p & -> & Hp). by rewrite app_nil_r.
    + destruct (parseIPv6_loop _ _ _ _) as [[[ip' e] rest]|] eqn:E; [|done]. intros ->%X.
      apply parseIPv6_bytes in E as (p & -> & Hp). by rewrite app_nil_r.
Qed.

(** ** Unified addresses *)

Lemma TrimSpace_ascii c m d :
  32 < c < 127 -> 32 < d < 127 -> TrimSpace (c :: m ++ [d]) = c :: m ++ [d].
Proof.
  intros Hc Hd.
  assert (forall x, 32 < x < 127 -> IsSpace x = false) as S by (intros x Hx; unfold IsSpace; lia).
  assert (norm_rune c = c) as N by (unfold norm_rune, valid_rune; destruct (_ || _) eqn:E; [done|lia]).
  pose proof (TrimSpace_rune c (m ++ [d])) as T. rewrite N, EncodeRune_ascii in T by lia. cbn [app] in T.
  rewrite T by (by apply S). change (c :: m ++ [d]) with ((c :: m) ++ [d]). rewrite trim_right_last; [done|lia|by apply S].
Qed.

Lemma JoinHostPort_last h n : 0 <= n -> exists m d, JoinHostPort h (itoa n) = m ++ [d] /\ 48 <= d <= 57.
Proof.
  intros Hn. destruct (itoa_port n Hn) as [HP EP].
  destruct (exists_last (l := itoa n)) as (p & d & E); [rewrite EP; apply format_uint_nonempty|].
  rewrite E in *. apply Forall_app in HP as [_ HP]. apply Forall_cons in HP as [HD _].
  unfold JoinHostPort. destruct (IndexByte 58 h).
  - exists ([91] ++ h ++ [93; 58] ++ p), d. split; [by rewrite <- !app_assoc|done].
  - exists (h ++ [58] ++ p), d. split; [by rewrite <- !app_assoc|done].
Qed.

Lemma TrimSpace_String info :
  scheme_ok (Protocol info) -> 0 <= Port info -> TrimSpace (AddressInfo_String info) = AddressInfo_String info.
Proof.
  intros Hs Hp. unfold AddressInfo_String. cbv zeta. destruct (Protocol info) as [|c s]; [done|]. cbn [length Nat.ltb Nat.leb].
  destruct (JoinHostPort_last (Host info) (Port info) Hp) as (m & d & -> & Hd).
  change ((c :: s) ++ str "://" ++ m ++ [d]) with (c :: (s ++ str "://" ++ m ++ [d])).
  rewrite !(app_assoc _ _ [d]). apply TrimSpace_ascii; [destruct Hs; lia|lia].
Qed.

(** What getscheme finds is a scheme, up to case. *)
Lemma getscheme_ok raw scheme rest :
  getscheme raw = Some (scheme, rest) -> scheme = [] \/ scheme_ok (ToLower scheme).
Proof.
  assert (forall c, is_alpha c = true -> 97 <= lower_byte c <= 122) as LA.
  { intros c. unfold is_alpha, lower_byte. destruct (Z.leb_spec 65 c), (Z.leb_spec c 90); cbn; lia. }
  assert (forall c, is_alpha c = true -> scheme_byte (lower_byte c) = true) as LS.
  { intros c Hc%LA. unfold scheme_byte. lia. }
  assert (forall c, is_digit c || (c =? 43) || (c =? 45) || (c =? 46) = true -> scheme_byte (lower_byte c) = true) as LD.
  { intros c Hc. unfold scheme_byte, lower_byte, is_digit in *. destruct (Z.leb_spec 65 c), (Z.leb_spec c 90); cbn; lia. }
  assert (forall before s scheme rest, (before = [] \/ scheme_ok (ToLower before)) ->
    getscheme_loop before s raw = Some (scheme, rest) -> scheme = [] \/ scheme_ok (ToLower scheme)) as A.
  { intros before s. revert before. induction s as [|c s IH]; intros before sc re HB; cbn [getscheme_loop].
    { intros [= <- _]. by left. }
    assert (before <> [] -> scheme_byte (lower_byte c) = true -> scheme_ok (ToLower (before ++ [c]))) as Snoc.
    { intros Hn Hc. destruct HB as [->|HB]; [done|]. destruct before as [|b before]; [done|]. unfold ToLower in *.
      rewrite fmap_app. cbn in *. destruct HB as [H1 H2]. split; [done|]. apply Forall_cons in H2 as [H2 H3].
      constructor; [done|]. apply Forall_app. split; [done|]. by constructor. }
    destruct (is_alpha c) eqn:EA.
    { apply IH. right. destruct (decide (before = [])) as [->|Hn]; [|by apply Snoc, LS].
      cbn. split; [by apply LA|]. constructor; [by apply LS|constructor]. }
    destruct (is_digit c || (c =? 43) || (c =? 45) || (c =? 46)) eqn:ED.
    { destruct (decide (before = [])) as [->|Hn]; [intros [= <- _]; by left|]. apply IH. right. by apply Snoc, LD. }
    destruct (c =? 58).
    { destruct (decide (before = [])); [done|]. intros [= <- _]. done. }
    intros [= <- _]. by left. }
  unfold getscheme. apply A. by left.
Qed.

Lemma Parse_scheme a url : Parse a = Some url -> uScheme url = [] \/ scheme_ok (uScheme url).
Proof.
  unfold Parse. destruct (split_first 35 true a) as [u frag]. destruct (parse u) as [url'|] eqn:P; cbn [mbind option_bind]; [|done].
  destruct (unescape encodeFragment frag); cbn [mbind option_bind]; [|done]. intros [= ->]. revert P.
  unfold parse. destruct (contains_ctl u); [done|]. destruct (decide _); [intros [= <-]; by left|].
  destruct (getscheme u) as [[scheme rest]|] eqn:G; cbn [mbind option_bind]; [|done].
  assert (ToLower scheme = [] \/ scheme_ok (ToLower scheme)) as HS.
  { destruct (getscheme_ok _ _ _ G) as [->|]; auto. }
  set (r := (split_first 63 true rest).1). clearbody r.
  destruct (_ && _); [intros [= <-]; done|]. destruct (_ && _); [done|]. destruct (_ && _).
  - destruct (split_first 47 false (drop 2 r)) as [au re]. destruct (parseAuthority au); cbn [mbind option_bind]; [|done].
    destruct (unescape encodePath re); cbn [mbind option_bind]; [|done]. by intros [= <-].
  - destruct (unescape encodePath r); cbn [mbind option_bind]; [|done]. by intros [= <-].
Qed.

Lemma ParseAddress_ok a info :
  ParseAddress a = Some info -> (Protocol info = [] \/ scheme_ok (Protocol info)) /\ 0 <= Port info < 65536.
Proof.
  unfold ParseAddress. destruct (Parse a) as [url|] eqn:P; cbn [mbind option_bind]; [|done].
  destruct (SplitHostPort (uHost url)) as [[h rp]|]; cbn [mbind option_bind]; [|done].
  destruct (ParseUint 16 rp) as [port|]; cbn [mbind option_bind]; [|done]. intros [= <-]. cbn [Protocol Port].
  split; [by eapply Parse_scheme|]. unfold u16. apply Z.mod_pos_bound. lia.
Qed.

(** net.LookupHost returns IP addresses (as net.ParseIP reads them, without a zone). *)
Definition resolver_ok (LookupHost : resolver) : Prop :=
  forall h l, LookupHost h = Some l -> Forall (fun a => is_Some (ParseIP a)) l.

Section unified.
Context (LookupHost : resolver) (lookup_ok : resolver_ok LookupHost).

Lemma resolve_ip h h' : resolve LookupHost h = Some h' -> is_Some (ParseIP h').
Proof.
  unfold resolve, lookup_host. destruct (ParseIP h) eqn:E; [intros [= <-]; by rewrite E|].
  destruct (LookupHost h) as [[|a l]|] eqn:L; [done| |done]. intros [= <-]. apply lookup_ok, Forall_cons in L as [L _].
  destruct (decide (a = str "::1")); [|done]. vm_compute. by eexists.
Qed.

Lemma resolve_fixed h : is_Some (ParseIP h) -> resolve LookupHost h = Some h.
Proof. intros [ip E]. unfold resolve, lookup_host. by rewrite E. Qed.

Lemma unify_form a u :
  unify LookupHost a = Some u ->
  exists info, u = AddressInfo_String info /\ is_Some (ParseIP (Host info)) /\ 0 <= Port info < 65536 /\
    (Protocol info = [] \/ scheme_ok (Protocol info)).
Proof.
  unfold unify. cbv zeta. destruct (length (TrimSpace a) =? 0)%nat; [done|].
  destruct (ParseAddress (TrimSpace a)) as [info|] eqn:P; cbn [mbind option_bind]; [|done].
  destruct (resolve LookupHost (Host info)) as [h|] eqn:R; cbn [mbind option_bind]; [|done]. intros [= <-].
  apply ParseAddress_ok in P as [HS HP]. eexists. split; [done|]. cbn [Host Port Protocol]. split_and!; [by eapply resolve_ip|lia|lia|done].
Qed.

(** With a scheme a unified address is read back and is its own unified form. *)
Lemma unify_fixed info :
  is_Some (ParseIP (Host info)) -> 0 <= Port info < 65536 -> scheme_ok (Protocol info) ->
  ParseAddress (AddressInfo_String info) = Some info /\
  unify LookupHost (AddressInfo_String info) = Some (AddressInfo_String info).
Proof.
  intros HI HP HS. assert (ParseAddress (AddressInfo_String info) = Some info) as P.
  { apply ParseAddress_String. destruct HI as [ip HI]. split_and!; [done|by eapply ParseIP_host|lia|lia]. }
  split; [done|]. unfold unify. cbv zeta. rewrite TrimSpace_String by (done || lia).
  assert (AddressInfo_String info <> []) as Hn.
  { unfold AddressInfo_String. cbv zeta. by destruct (Protocol info). }
  destruct (Nat.eqb_spec (length (AddressInfo_String info)) 0) as [E|_]; [by apply nil_length_inv in E|].
  rewrite P. cbn [mbind option_bind]. rewrite resolve_fixed by done. cbn [mbind option_bind]. by destruct info.
Qed.

Lemma ip_kind_first s : is_Some (ip_kind s) -> s <> [].
Proof. destruct s; [by intros []|done]. Qed.

(** An IP address without colons starts with a digit. *)
Lemma ParseIP_digit s : is_Some (ParseIP s) -> 58 ∉ s -> exists c t, s = c :: t /\ is_digit c = true.
Proof.
  intros [ip H] N. unfold ParseIP in H. destruct (ip_kind s) as [[]|] eqn:K; [| |done].
  - unfold parseIPv4 in H. destruct (parseIPv4_loop 4 true s) eqn:E; [|done]. cbn [parseIPv4_loop] in E.
    destruct (dtoi s) eqn:D; [|done]. unfold dtoi in D. destruct s as [|c t]; [done|].
    destruct (is_digit c) eqn:C; [|done]. eauto.
  - exfalso. revert K N. clear. induction s as [|c s IH]; [done|]. cbn [ip_kind].
    destruct (c =? 46); [done|]. destruct (Z.eqb_spec c 58) as [->|]; [set_solver|]. intros K N. apply IH; [done|set_solver].
Qed.

(** Without a scheme it is not an address at all. *)
Lemma unify_no_scheme info :
  is_Some (ParseIP (Host info)) -> 0 <= Port info < 65536 -> Protocol info = [] ->
  Parse (AddressInfo_String info) = None.
Proof.
  intros HI HP HS. destruct (itoa_port (Port info) ltac:(lia)) as [HD _].
  assert (host_bytes (Host info)) as HH by (destruct HI as [ip HI]; by eapply ParseIP_host).
  pose proof (JoinHostPort_bytes _ _ HH HD) as HB. unfold AddressInfo_String. cbv zeta. rewrite HS. cbn [length Nat.ltb Nat.leb].
  assert (exists c t, JoinHostPort (Host info) (itoa (Port info)) = c :: t /\ (is_digit c = true \/ c = 91) /\ 58 ∈ t) as (c & t & E & Hc & Ht).
  { unfold JoinHostPort. destruct (IndexByte 58 (Host info)) as [i|] eqn:I.
    - exists 91, (Host info ++ [93; 58] ++ itoa (Port info)). split_and!; [done|by right|]. rewrite !elem_of_app. set_solver.
    - apply IndexByte_None in I. destruct (ParseIP_digit _ HI I) as (c & t & -> & Hc).
      exists c, (t ++ [58] ++ itoa (Port info)). split_and!; [done|by left|]. set_solver. }
  rewrite E in *. clear E.
  assert (forall x, In x [35; 47; 63] -> x ∉ c :: t) as N.
  { intros x Hx. apply (Forall_notin _ _ _ HB). intros [_ N]%hostport_byte_not. apply N.
    cbn in Hx. repeat destruct Hx as [<-|Hx]; set_solver. }
  unfold Parse. rewrite split_first_none by (apply N; cbn; auto). 
  enough (parse (c :: t) = None) as -> by done. unfold parse.
  destruct (contains_ctl (c :: t)); [done|]. rewrite decide_False by (intros [= _ ->]; set_solver).
  assert (getscheme (c :: t) = Some ([], c :: t)) as ->.
  { unfold getscheme. cbn [getscheme_loop]. destruct Hc as [Hc | ->]; [|done].
    replace (is_alpha c) with false by (unfold is_alpha, is_digit in *; lia). rewrite Hc. done. }
  cbn [mbind option_bind]. rewrite split_first_none by (apply N; cbn; auto). cbn [fst].
  replace (HasPrefix (c :: t) [47]) with false.
  2:{ cbn [HasPrefix]. destruct (Z.eqb_spec 47 c) as [<-|]; [|done]. destruct Hc; done. }
  change (ToLower []) with (@nil Z). rewrite (bool_decide_true ([] = [])) by done. cbn [negb andb].
  rewrite split_first_none by (apply N; cbn; auto). cbn [fst]. by rewrite bool_decide_true by set_solver.
Qed.
End unified.

(** ** The interface of the connection manager *)

(** What the connection manager uses of this file: ToUnifiedAddress, and the protocol that
    ParseAddress finds. *)
Class AddressOps := {
  ToUnified : list Z -> option (list Z);
  Scheme : list Z -> option (list Z)
}.

Class AddressLaws (A : AddressOps) := {
  unified_empty : ToUnified [] = None
}.

(** With any resolver this file implements it. *)
Definition addresses (LookupHost : resolver) : AddressOps := {|
  ToUnified := unify LookupHost;
  Scheme a := Protocol <$> ParseAddress a |}.

#[export] Instance addresses_laws LookupHost : AddressLaws (addresses LookupHost).
Proof. split. reflexivity. Qed.

(** ** Correctness *)


(** "node" has the address 10.0.0.7 and "local" the loopback address of IPv6. *)
Definition toy_lookup : resolver := fun h =>
  if decide (h = str "node") then Some [str "10.0.0.7"; str "10.0.0.8"]
  else if decide (h = str "local") then Some [str "::1"] else None.

Lemma toy_lookup_ok : resolver_ok toy_lookup.
Proof.
  intros h l. unfold toy_lookup.
  destruct (decide (h = str "node")); [intros [= <-]|destruct (decide (h = str "local")); [intros [= <-]|done]];
    repeat constructor; vm_compute; by eexists.
Qed.


(** FilterPeers returns the unified forms of the peer addresses that have one, in order, each once and
    without the node's own address.  It never fails. *)
Theorem FilterPeers_correct LookupHost address peers c :
  coherent LookupHost c ->
  exists filtered c', FilterPeers LookupHost address peers c = (Ok filtered, c') /\ coherent LookupHost c' /\
   NoDup filtered /\ sublist filtered (omap (unify LookupHost) peers) /\
   (forall u, u ∈ filtered <-> u <> address /\ exists a, a ∈ peers /\ unify LookupHost a = Some u).
Proof.
  intros H. destruct (FilterPeers_loop LookupHost {[address]} peers c H) as (c' & H' & E).
  destruct (first_occurrences_spec {[address]} (omap (unify LookupHost) peers)) as (N & M & S).
  eexists _, c'. split; [exact E|]. split_and!; [done..|]. intros u. rewrite M, list_elem_of_omap, not_elem_of_singleton. tauto.
Qed.

Definition toy_peers : list (list Z) :=
  [str "tcp://node:1"; []; str "tcp://10.0.0.7:1"; str "tcp://127.0.0.1:9"; str "tcp://unknown:1"; str "tcp://local:8"].

Lemma FilterPeers_witness :
  coherent toy_lookup domainLookupCache /\
 exists filtered c', FilterPeers toy_lookup (str "tcp://127.0.0.1:9") toy_peers domainLookupCache = (Ok filtered, c') /\
   NoDup filtered /\ filtered = [str "tcp://10.0.0.7:1"; str "tcp://127.0.0.1:8"].
Proof.
  split; [apply coherent_new|].
  destruct (FilterPeers_correct toy_lookup (str "tcp://127.0.0.1:9") toy_peers domainLookupCache
    (coherent_new toy_lookup)) as (f & c' & E & H & N & _).
  exists f, c'. split; [exact E|]. split; [exact N|]. vm_compute in E. injection E as <- _. reflexivity.
Defined.

(** An address without a scheme is unified to something that is not an address. *)
Lemma schemeless_not_fixed :
  unify toy_lookup (str "//node:80") = Some (str "10.0.0.7:80") /\ unify toy_lookup (str "10.0.0.7:80") = None.
Proof. split; reflexivity. Qed.
