(* ===== verification/ClientConn.v ===== *)
(** * network/client.go: the client as a net.Conn, and its queue of jobs

    Goroutines that receive Bytes messages (handleBytes), call Read, Write and the deadlines, submit jobs, and
    the one that executes them share a client.  Each critical section and each select is a step, so that they
    interleave everywhere else; clocks are in nanoseconds.  The channel buffered has no room, so that
    handleBytes wakes a reader only when one is waiting, and Read looks again after a second.
    Exchange models the bytes of one goroutine; here they are followed through all interleavings. *)
From S2P Require Import Prelude Decimal GoText NetIP GoUrl Address.
Local Open Scope Z_scope.

Definition connSecond : Z := 1000000000.
Definition jobsCapacity : nat := 128.

(** ** Read *)

(** The results of Read with the bytes it copied. *)
Inductive read_err := ReadNil | ReadClosedErr | ReadDeadlineErr.

(** time.Now().After(deadline), for a deadline that may be zero *)
Definition exceeded (deadline : option Z) (now : Z) : bool := match deadline with Some d => d <? now | None => false end.

(** What Read does after its critical section: return, or wait (None). *)
Definition read_check (out : list Z) (isClosed : bool) (readDeadline : option Z) (now : Z) : option (list Z * read_err) :=
  if isClosed then Some (out, ReadClosedErr)
  else if exceeded readDeadline now then Some (out, ReadDeadlineErr)
  else if negb (length out =? 0)%nat then Some (out, ReadNil)
  else None.

(** Where a goroutine in Read is, with the length of its slice: before the critical section, after it with
    what it saw, or waiting since a time. *)
Inductive read_pc :=
| RLoop (m : nat)
| RCheck (m : nat) (out : list Z) (isClosed : bool) (readDeadline : option Z)
| RWait (m : nat) (since : Z).

Section client.
Context {J : Type}.

(** The parts of a PeerClient that these goroutines share, the goroutines in Read, those in handleBytes that have
    still to wake a reader, and whether executeJobs runs. *)
Record ClientConn := mkConn {
  c_buffer : list Z;
  c_isClosed : bool;
  c_readDeadline : option Z;
  c_writeDeadline : option Z;
  c_CloseSignal : bool;
  c_jobs : list J;
  c_executing : bool;
  c_readers : gmap nat read_pc;
  c_signals : nat;
  c_now : Z
}.

(** A new client after Init. *)
Definition new_conn (now : Z) : ClientConn := mkConn [] false None None false [] true ∅ 0 now.

Definition set_reader (r : nat) (pc : option read_pc) (c : ClientConn) : ClientConn :=
  mkConn (c_buffer c) (c_isClosed c) (c_readDeadline c) (c_writeDeadline c) (c_CloseSignal c) (c_jobs c) (c_executing c)
    (partial_alter (fun _ => pc) r (c_readers c)) (c_signals c) (c_now c).
Definition set_stream (buffer : list Z) (closed : bool) (rd wd : option Z) (c : ClientConn) : ClientConn :=
  mkConn buffer closed rd wd (c_CloseSignal c) (c_jobs c) (c_executing c) (c_readers c) (c_signals c) (c_now c).
Definition set_jobs (jobs : list J) (executing : bool) (c : ClientConn) : ClientConn :=
  mkConn (c_buffer c) (c_isClosed c) (c_readDeadline c) (c_writeDeadline c) (c_CloseSignal c) jobs executing (c_readers c) (c_signals c) (c_now c).
Definition set_signals (n : nat) (c : ClientConn) : ClientConn :=
  mkConn (c_buffer c) (c_isClosed c) (c_readDeadline c) (c_writeDeadline c) (c_CloseSignal c) (c_jobs c) (c_executing c) (c_readers c) n (c_now c).

(** The critical section of handleBytes: the select follows when the buffer was empty. *)
Definition handle_append (pkt : list Z) (c : ClientConn) : ClientConn :=
  set_signals (if (length (c_buffer c) =? 0)%nat then S (c_signals c) else c_signals c)
    (set_stream (c_buffer c ++ pkt) (c_isClosed c) (c_readDeadline c) (c_writeDeadline c) c).

(** The critical section of Read. *)
Definition read_lock (r : nat) (m : nat) (c : ClientConn) : list Z * ClientConn :=
  let out := take m (c_buffer c) in
  (out, set_reader r (Some (RCheck m out (c_isClosed c) (c_readDeadline c)))
    (set_stream (drop m (c_buffer c)) (c_isClosed c) (c_readDeadline c) (c_writeDeadline c) c)).

(** PeerClient.Write hands the bytes to Tell (Exchange) unless its deadline has passed. *)
Definition write_allowed (c : ClientConn) : bool := negb (exceeded (c_writeDeadline c) (c_now c)).

Definition SetDeadline (t : option Z) (c : ClientConn) : ClientConn := set_stream (c_buffer c) (c_isClosed c) t t c.
Definition SetReadDeadline (t : option Z) (c : ClientConn) : ClientConn := set_stream (c_buffer c) (c_isClosed c) t (c_writeDeadline c) c.
Definition SetWriteDeadline (t : option Z) (c : ClientConn) : ClientConn := set_stream (c_buffer c) (c_isClosed c) (c_readDeadline c) t c.

(** The two parts of Close that they see: CloseSignal, then isClosed. *)
Definition close_signal (c : ClientConn) : ClientConn :=
  mkConn (c_buffer c) (c_isClosed c) (c_readDeadline c) (c_writeDeadline c) true (c_jobs c) (c_executing c) (c_readers c) (c_signals c) (c_now c).
Definition close_stream (c : ClientConn) : ClientConn := set_stream (c_buffer c) true (c_readDeadline c) (c_writeDeadline c) c.

Definition tick (d : Z) (c : ClientConn) : ClientConn :=
  mkConn (c_buffer c) (c_isClosed c) (c_readDeadline c) (c_writeDeadline c) (c_CloseSignal c) (c_jobs c) (c_executing c) (c_readers c) (c_signals c) (c_now c + d).

(** ** The steps *)

Inductive conn_label :=
| LHandle (pkt : list Z)
| LTake (r : nat) (out : list Z)
| LReturn (r : nat) (res : list Z * read_err)
| LDeadline
| LSubmit (j : J)
| LDrop (j : J)
| LExec (j : J)
| LTau.

Inductive conn_step (c : ClientConn) : conn_label -> ClientConn -> Prop :=
| cs_handle pkt : conn_step c (LHandle pkt) (handle_append pkt c)
| cs_notify n r m t : c_signals c = S n -> c_readers c !! r = Some (RWait m t) ->
    conn_step c LTau (set_reader r (Some (RLoop m)) (set_signals n c))
| cs_notify_default n : c_signals c = S n -> (forall r m t, c_readers c !! r <> Some (RWait m t)) ->
    conn_step c LTau (set_signals n c)
| cs_read r m : c_readers c !! r = None -> conn_step c LTau (set_reader r (Some (RLoop m)) c)
| cs_lock r m : c_readers c !! r = Some (RLoop m) -> conn_step c (LTake r (read_lock r m c).1) (read_lock r m c).2
| cs_return r m out cl rd res : c_readers c !! r = Some (RCheck m out cl rd) -> read_check out cl rd (c_now c) = Some res ->
    conn_step c (LReturn r res) (set_reader r None c)
| cs_wait r m out cl rd : c_readers c !! r = Some (RCheck m out cl rd) -> read_check out cl rd (c_now c) = None ->
    conn_step c LTau (set_reader r (Some (RWait m (c_now c))) c)
| cs_timeout r m t : c_readers c !! r = Some (RWait m t) -> t + connSecond <= c_now c ->
    conn_step c LTau (set_reader r (Some (RLoop m)) c)
| cs_set_deadline t : conn_step c LDeadline (SetDeadline t c)
| cs_set_read_deadline t : conn_step c LDeadline (SetReadDeadline t c)
| cs_set_write_deadline t : conn_step c LDeadline (SetWriteDeadline t c)
| cs_close_signal : conn_step c LTau (close_signal c)
| cs_close_stream : c_CloseSignal c = true -> conn_step c LTau (close_stream c)
| cs_submit j : (length (c_jobs c) < jobsCapacity)%nat -> conn_step c (LSubmit j) (set_jobs (c_jobs c ++ [j]) (c_executing c) c)
| cs_submit_closed j : c_CloseSignal c = true -> conn_step c (LDrop j) c
| cs_execute j jobs : c_executing c = true -> c_jobs c = j :: jobs -> conn_step c (LExec j) (set_jobs jobs true c)
| cs_execute_end : c_executing c = true -> c_CloseSignal c = true -> conn_step c LTau (set_jobs (c_jobs c) false c)
| cs_tick d : 0 < d -> conn_step c LTau (tick d c).

Inductive conn_run : list conn_label -> ClientConn -> Prop :=
| cr_init now : conn_run [] (new_conn now)
| cr_step tr c l c' : conn_run tr c -> conn_step c l c' -> conn_run (tr ++ [l]) c'.

(** ** What a run did *)

Definition handled (tr : list conn_label) : list Z := concat (omap (fun l => match l with LHandle pkt => Some pkt | _ => None end) tr).
Definition taken (tr : list conn_label) : list Z := concat (omap (fun l => match l with LTake _ out => Some out | _ => None end) tr).
Definition taken_by (r : nat) (tr : list conn_label) : list Z :=
  concat (omap (fun l => match l with LTake r' out => if decide (r' = r) then Some out else None | _ => None end) tr).
Definition returned_by (r : nat) (tr : list conn_label) : list Z :=
  concat (omap (fun l => match l with LReturn r' res => if decide (r' = r) then Some res.1 else None | _ => None end) tr).
Definition submitted (tr : list conn_label) : list J := omap (fun l => match l with LSubmit j => Some j | _ => None end) tr.
Definition executed (tr : list conn_label) : list J := omap (fun l => match l with LExec j => Some j | _ => None end) tr.

(** Bytes that a Read has copied and not yet returned. *)
Definition pending (r : nat) (c : ClientConn) : list Z :=
  match c_readers c !! r with Some (RCheck _ out _ _) => out | _ => [] end.

Record conn_inv (tr : list conn_label) (c : ClientConn) : Prop := {
  ci_bytes : handled tr = taken tr ++ c_buffer c;
  ci_reader : forall r, taken_by r tr = returned_by r tr ++ pending r c;
  ci_jobs : submitted tr = executed tr ++ c_jobs c;
  ci_room : (length (c_jobs c) <= jobsCapacity)%nat;
  ci_fits : forall r m out cl rd, c_readers c !! r = Some (RCheck m out cl rd) -> (length out <= m)%nat;
  ci_since : forall r m t, c_readers c !! r = Some (RWait m t) -> t <= c_now c
}.

Lemma reader_set r r' pc (c : ClientConn) : c_readers (set_reader r pc c) !! r' = if decide (r = r') then pc else c_readers c !! r'.
Proof. cbn. rewrite lookup_partial_alter. by destruct (decide (r = r')). Qed.

(** A step that is neither a copy nor a return of Read, and after which no goroutine has other bytes. *)
Lemma conn_inv_same tr c l c' :
  conn_inv tr c ->
  (forall r, pending r c' = pending r c) -> (forall r m out cl rd, c_readers c' !! r = Some (RCheck m out cl rd) -> (length out <= m)%nat) ->
  (forall r m t, c_readers c' !! r = Some (RWait m t) -> t <= c_now c') ->
  match l with
  | LTake _ _ | LReturn _ _ => False
  | LHandle pkt => c_buffer c' = c_buffer c ++ pkt /\ c_jobs c' = c_jobs c
  | LSubmit j => c_buffer c' = c_buffer c /\ c_jobs c' = c_jobs c ++ [j] /\ (length (c_jobs c) < jobsCapacity)%nat
  | LExec j => c_buffer c' = c_buffer c /\ c_jobs c = j :: c_jobs c'
  | _ => c_buffer c' = c_buffer c /\ c_jobs c' = c_jobs c
  end -> conn_inv (tr ++ [l]) c'.
Proof.
  intros [I1 I2 I3 I4 I5 I6] Hp Hf Hs H. split; [| | | |exact Hf|exact Hs].
  - unfold handled, taken in *. rewrite !omap_app, !concat_app. destruct l; cbn; rewrite ?app_nil_r; try done; destruct_and! H; try congruence.
    rewrite I1, H0. by rewrite app_assoc.
  - intros r. rewrite Hp. unfold taken_by, returned_by in *. rewrite !omap_app, !concat_app. destruct l; cbn; rewrite ?app_nil_r; done.
  - unfold submitted, executed in *. rewrite !omap_app. destruct l; cbn; rewrite ?app_nil_r; try done; destruct_and! H; try congruence.
    + rewrite I3, H. by rewrite app_assoc.
    + rewrite I3, H1. by rewrite <- app_assoc.
  - destruct l; try done; destruct_and! H; try congruence; try (rewrite H1; done).
    + rewrite H, length_app. cbn. lia.
    + rewrite H1 in I4. cbn in I4. lia.
Qed.

(** Moving a goroutine between places where it holds no bytes. *)
Lemma pending_moved r pc (c : ClientConn) r' :
  pending r c = [] -> match pc with Some (RCheck _ _ _ _) => False | _ => True end -> pending r' (set_reader r pc c) = pending r' c.
Proof.
  intros H N. unfold pending at 1. rewrite reader_set. destruct (decide (r = r')) as [<-|]; [|done]. rewrite H. by destruct pc as [[]|].
Qed.

Lemma fits_moved tr r pc (c : ClientConn) :
  conn_inv tr c -> match pc with Some (RCheck _ _ _ _) => False | _ => True end ->
  forall r' m out cl rd, c_readers (set_reader r pc c) !! r' = Some (RCheck m out cl rd) -> (length out <= m)%nat.
Proof. intros I N r' m out cl rd. rewrite reader_set. destruct (decide (r = r')); [by intros -> | apply (ci_fits _ _ I)]. Qed.

Lemma since_moved tr r pc (c : ClientConn) :
  conn_inv tr c -> (forall m t, pc = Some (RWait m t) -> t <= c_now c) ->
  forall r' m t, c_readers (set_reader r pc c) !! r' = Some (RWait m t) -> t <= c_now c.
Proof. intros I N r' m t. rewrite reader_set. destruct (decide (r = r')); [apply N|apply (ci_since _ _ I)]. Qed.

Lemma pending_at r pc (c : ClientConn) : c_readers c !! r = pc -> match pc with Some (RCheck _ _ _ _) => False | _ => True end -> pending r c = [].
Proof. unfold pending. intros -> H. by destruct pc as [[]|]. Qed.

Lemma read_check_none out cl rd now : read_check out cl rd now = None -> out = [].
Proof. unfold read_check. destruct cl; [done|]. destruct (exceeded rd now); [done|]. by destruct out. Qed.

Lemma read_check_some out cl rd now res : read_check out cl rd now = Some res -> res.1 = out.
Proof. unfold read_check. repeat case_match; congruence || by intros [= <-]. Qed.

Lemma conn_inv_lock tr c r m :
  conn_inv tr c -> c_readers c !! r = Some (RLoop m) -> conn_inv (tr ++ [LTake r (read_lock r m c).1]) (read_lock r m c).2.
Proof.
  intros [I1 I2 I3 I4 I5 I6] E. unfold read_lock. cbv zeta. cbn [fst snd]. set (out := take m (c_buffer c)).
  split; unfold handled, taken, taken_by, returned_by, submitted, executed in *; rewrite ?omap_app, ?concat_app; cbn [omap list_omap concat]; rewrite ?app_nil_r; try done.
  - rewrite I1. cbn. unfold out. by rewrite <- app_assoc, take_drop.
  - intros r'. rewrite !omap_app, !concat_app. cbn. unfold pending. rewrite reader_set. specialize (I2 r').
    destruct (decide (r = r')) as [<-|N]; cbn; rewrite ?app_nil_r; [|exact I2]. unfold pending in I2. rewrite E, app_nil_r in I2. by rewrite I2.
  - intros r' m' out' cl rd. rewrite reader_set. destruct (decide (r = r')); [|apply I5]. intros [= <- <- _ _]. unfold out. rewrite length_take. lia.
  - intros r' m' t. rewrite reader_set. destruct (decide (r = r')); [done|apply I6].
Qed.

Lemma conn_inv_return tr c r m out cl rd res :
  conn_inv tr c -> c_readers c !! r = Some (RCheck m out cl rd) -> read_check out cl rd (c_now c) = Some res ->
  conn_inv (tr ++ [LReturn r res]) (set_reader r None c).
Proof.
  intros I E R. pose proof (fits_moved tr r None c I Logic.I) as F. pose proof (since_moved tr r None c I (fun _ _ => ltac:(done))) as F'. destruct I as [I1 I2 I3 I4 I5 I6]. apply read_check_some in R.
  split; unfold handled, taken, taken_by, returned_by, submitted, executed in *; rewrite ?omap_app, ?concat_app; cbn [omap list_omap concat]; rewrite ?app_nil_r; try done.
  intros r'. rewrite !omap_app, !concat_app. cbn. unfold pending. rewrite reader_set. specialize (I2 r'). unfold pending in I2.
  destruct (decide (r = r')) as [<-|N]; cbn; rewrite ?app_nil_r; [|exact I2]. rewrite E in I2. by rewrite R.
Qed.

Lemma conn_inv_step tr c l c' : conn_inv tr c -> conn_step c l c' -> conn_inv (tr ++ [l]) c'.
Proof.
  intros I S. destruct S; try (apply (conn_inv_same tr c); [exact I|done|apply (ci_fits _ _ I)|apply (ci_since _ _ I)|done]).
  - assert (conn_inv tr (set_signals n c)) as I' by (destruct I; by split).
    apply (conn_inv_same tr c); [exact I| |by apply (fits_moved tr r _ _ I')|by apply (since_moved tr r _ _ I')|done].
    intros r'. apply (pending_moved r _ (set_signals n c)); [|done]. by apply (pending_at _ (Some (RWait m t))).
  - apply (conn_inv_same tr c); [exact I| |by apply (fits_moved tr)|by apply (since_moved tr)|done]. intros r'. apply pending_moved; [|done]. by apply (pending_at _ None).
  - by apply conn_inv_lock.
  - by apply (conn_inv_return tr c r m out cl rd).
  - apply (conn_inv_same tr c); [exact I| |by apply (fits_moved tr)|apply (since_moved tr); [exact I|intros ? ? [= _ <-]; done]|done]. intros r'. apply pending_moved; [|done].
    unfold pending. rewrite H. by apply read_check_none in H0.
  - apply (conn_inv_same tr c); [exact I| |by apply (fits_moved tr)|by apply (since_moved tr)|done]. intros r'. apply pending_moved; [|done]. by apply (pending_at _ (Some (RWait m t))).
  - apply (conn_inv_same tr c); [exact I|done|apply (ci_fits _ _ I)| |done]. intros r m t Hr. pose proof (ci_since _ _ I r m t Hr). cbn. lia.
Qed.

Lemma conn_run_inv tr c : conn_run tr c -> conn_inv tr c.
Proof. induction 1 as [now|tr c l c' R IH S]; [by split; try (cbn; lia)|by apply (conn_inv_step tr c l c')]. Qed.

Lemma taken_single r tr : (forall r' out, LTake r' out ∈ tr -> r' = r) -> taken_by r tr = taken tr.
Proof.
  unfold taken_by, taken. intros H. f_equal. induction tr as [|l tr IH]; [done|]. cbn. rewrite IH by (intros r' out Hi; apply (H r' out); by apply list_elem_of_further).
  destruct l; try done. rewrite decide_True; [done|]. apply (H _ out). apply list_elem_of_here.
Qed.

(** C19. The byte stream and the jobs of a client, in every interleaving of handleBytes, Read, deadlines, Close,
    Submit and executeJobs.  The bytes received are those copied by calls of Read, in the order of their
    critical sections, followed by the buffer; every byte a Read copied it returns, also with an error; so that a
    single reader reads exactly what was received.  The jobs accepted are those executed, in order and once,
    followed by the queue, which never exceeds its capacity; and as long as the client is open, a full queue
    can make room: Submit is not blocked for ever. *)
Theorem client_stream_exact tr c :
  conn_run tr c ->
  handled tr = taken tr ++ c_buffer c /\
  (forall r, taken_by r tr = returned_by r tr ++ pending r c) /\
  (forall r, (forall r' out, LTake r' out ∈ tr -> r' = r) -> handled tr = returned_by r tr ++ pending r c ++ c_buffer c) /\
  submitted tr = executed tr ++ c_jobs c /\
  (length (c_jobs c) <= jobsCapacity)%nat /\
  (c_executing c = true -> (length (c_jobs c) < jobsCapacity)%nat \/
     exists j c', conn_step c (LExec j) c' /\ (length (c_jobs c') < jobsCapacity)%nat).
Proof.
  intros R. apply conn_run_inv in R as [I1 I2 I3 I4 I5 I6]. split_and!; try done.
  - intros r H. by rewrite I1, app_assoc, <- I2, taken_single.
  - intros E. destruct (decide (length (c_jobs c) < jobsCapacity)%nat) as [L|L]; [by left|right].
    destruct (c_jobs c) as [|j jobs] eqn:Ej; [cbn in L; unfold jobsCapacity in L; lia|]. exists j, (set_jobs jobs true c).
    split; [by apply cs_execute|]. cbn in *. lia.
Qed.

(** ** Read ends *)

(** The stream is closed, or its read deadline has passed. *)
Definition ending (c : ClientConn) : Prop := c_isClosed c = true \/ exceeded (c_readDeadline c) (c_now c) = true.

(** The steps that a Read has still to make then. *)
Definition steps_left (now : Z) (pc : read_pc) : nat :=
  match pc with
  | RLoop _ => 2
  | RCheck _ out cl rd => if decide (is_Some (read_check out cl rd now)) then 1 else 4
  | RWait _ _ => 3
  end.

Lemma exceeded_mono rd now now' : now <= now' -> exceeded rd now = true -> exceeded rd now' = true.
Proof. destruct rd as [d|]; [|done]. cbn. rewrite !Z.ltb_lt. lia. Qed.

Lemma read_check_mono out cl rd now now' : now <= now' -> is_Some (read_check out cl rd now) -> is_Some (read_check out cl rd now').
Proof.
  intros L. unfold read_check. destruct cl; [eauto|]. destruct (exceeded rd now) eqn:E; [rewrite (exceeded_mono _ _ _ L E); eauto|].
  destruct (exceeded rd now'); [eauto|]. done.
Qed.

Lemma read_check_ending out (c : ClientConn) : ending c -> is_Some (read_check out (c_isClosed c) (c_readDeadline c) (c_now c)).
Proof. unfold read_check. intros [-> | E]; [eauto|]. destruct (c_isClosed c); [eauto|]. rewrite E. eauto. Qed.

Lemma steps_left_mono now now' pc : now <= now' -> (steps_left now' pc <= steps_left now pc)%nat.
Proof.
  intros L. destruct pc as [|m out cl rd|]; cbn; [done| |done]. destruct (decide (is_Some (read_check out cl rd now))) as [D|D].
  - rewrite decide_True by (by apply (read_check_mono out cl rd now)). done.
  - destruct (decide _); lia.
Qed.

Lemma ending_step c l c' : conn_step c l c' -> l <> LDeadline -> ending c -> ending c'.
Proof.
  intros S N. unfold ending. destruct S; cbn; try done; [by left|]. intros [?|E]; [by left|right]. apply (exceeded_mono _ (c_now c)); [lia|done].
Qed.

(** No step of any goroutine moves a Read away from its return. *)
Lemma read_nearer c l c' r pc :
  conn_step c l c' -> ending c -> c_readers c !! r = Some pc ->
  c_readers c' !! r = None \/
  exists pc', c_readers c' !! r = Some pc' /\
    ((pc' = pc /\ (steps_left (c_now c') pc' <= steps_left (c_now c) pc)%nat) \/ (steps_left (c_now c') pc' < steps_left (c_now c) pc)%nat).
Proof.
  intros S E H. pose proof (steps_left_mono (c_now c) (c_now c') pc) as M.
  assert (c_now c <= c_now c') as L by (destruct S; cbn; lia). specialize (M L).
  assert (forall r0 pc0 c0, c' = set_reader r0 pc0 c0 -> r0 <> r -> c_readers c0 = c_readers c -> c_readers c' !! r = Some pc) as Other.
  { intros r0 pc0 c0 -> N Er. rewrite reader_set, decide_False by done. by rewrite Er. }
  destruct S; try (right; exists pc; split; [done|left; split; [done|exact M]]).
  - destruct (decide (r0 = r)) as [->|N]; [|right; exists pc; split; [by eapply Other|by left]].
    right. exists (RLoop m). rewrite reader_set, decide_True by done. split; [done|right]. assert (pc = RWait m t) as -> by congruence. cbn. lia.
  - destruct (decide (r0 = r)) as [->|N]; [congruence|]. right; exists pc; split; [by eapply Other|by left].
  - destruct (decide (r0 = r)) as [->|N]; [|right; exists pc; split; [by eapply Other|by left]].
    right. eexists. unfold read_lock. cbv zeta. cbn [snd]. rewrite reader_set, decide_True by done. split; [done|right].
    assert (pc = RLoop m) as -> by congruence. cbn [steps_left]. rewrite decide_True; [lia|]. by apply (read_check_ending _ c).
  - destruct (decide (r0 = r)) as [->|N]; [|right; exists pc; split; [by eapply Other|by left]].
    left. by rewrite reader_set, decide_True.
  - destruct (decide (r0 = r)) as [->|N]; [|right; exists pc; split; [by eapply Other|by left]].
    right. eexists. rewrite reader_set, decide_True by done. split; [done|right]. assert (pc = RCheck m out cl rd) as -> by congruence.
    cbn [steps_left]. rewrite decide_False; [lia|]. rewrite H1. by intros [? ?].
  - destruct (decide (r0 = r)) as [->|N]; [|right; exists pc; split; [by eapply Other|by left]].
    right. exists (RLoop m). rewrite reader_set, decide_True by done. split; [done|right]. assert (pc = RWait m t) as -> by congruence. cbn. lia.
Qed.

Lemma read_enabled c r pc :
  c_readers c !! r = Some pc -> (forall m t, pc = RWait m t -> t + connSecond <= c_now c) ->
  exists l c', conn_step c l c' /\ (c_readers c' !! r <> Some pc).
Proof.
  intros H W. destruct pc as [m|m out cl rd|m t].
  - eexists _, _. split; [by apply (cs_lock _ r m)|]. unfold read_lock. cbv zeta. cbn [snd]. rewrite reader_set, decide_True by done. congruence.
  - destruct (read_check out cl rd (c_now c)) as [res|] eqn:R.
    + eexists _, _. split; [by apply (cs_return _ r m out cl rd res)|]. rewrite reader_set, decide_True by done. congruence.
    + eexists _, _. split; [by apply (cs_wait _ r m out cl rd)|]. rewrite reader_set, decide_True by done. congruence.
  - eexists _, _. split; [apply (cs_timeout _ r m t); [done|by eapply W]|]. rewrite reader_set, decide_True by done. congruence.
Qed.

(** C20. Read returns once the stream is closed or its read deadline has passed, whatever other goroutines do.
    That stays so as long as no deadline is set again; no step of any goroutine moves a Read away from its
    return, and each of its own brings it nearer, of which there are at most four; and it always has a next
    step: at once, or after a second when it waits. *)
Theorem read_ends tr c r pc :
  conn_run tr c -> ending c -> c_readers c !! r = Some pc ->
  (steps_left (c_now c) pc <= 4)%nat /\
  (forall l c', conn_step c l c' -> l <> LDeadline -> ending c' /\
     (c_readers c' !! r = None \/
      exists pc', c_readers c' !! r = Some pc' /\
        ((pc' = pc /\ (steps_left (c_now c') pc' <= steps_left (c_now c) pc)%nat) \/ (steps_left (c_now c') pc' < steps_left (c_now c) pc)%nat))) /\
  ((forall m t, pc <> RWait m t) -> exists l c', conn_step c l c' /\ (c_readers c' !! r <> Some pc)) /\
  (exists l c', conn_step (tick connSecond c) l c' /\ (c_readers c' !! r <> Some pc)).
Proof.
  intros R E H. split_and!.
  - destruct pc; cbn; try lia. destruct (decide _); lia.
  - intros l c' S N. split; [by apply (ending_step c l)|by apply (read_nearer c l)].
  - intros N. apply read_enabled; [done|]. intros m t ->. by destruct (N m t).
  - apply read_enabled; [done|]. intros m t ->. cbn. pose proof (ci_since _ _ (conn_run_inv _ _ R) r m t H). lia.
Qed.
End client.

Arguments ClientConn : clear implicits.
Arguments conn_label : clear implicits.

(** A reader with room for two bytes gets two of three, a job is submitted and executed, and the client is closed. *)
Definition toy_trace : list (conn_label nat) :=
  [LHandle [1; 2; 3]; LTau; LTake 0 [1; 2]; LReturn 0 ([1; 2], ReadNil); LSubmit 7%nat; LExec 7%nat; LTau; LTau].
Definition toy_conn : ClientConn nat := mkConn [3] true None None true [] true ∅ 1 0.

(** A step to a state that is given in another form. *)
Lemma cr_to tr (c : ClientConn nat) l c1 c2 : conn_run tr c -> conn_step c l c1 -> c1 = c2 -> conn_run (tr ++ [l]) c2.
Proof. intros R S <-. by apply (cr_step tr c). Qed.

Lemma toy_conn_run : conn_run toy_trace toy_conn.
Proof.
  eapply (cr_to [LHandle [1; 2; 3]; LTau; LTake 0 [1; 2]; LReturn 0 ([1; 2], ReadNil); LSubmit 7%nat; LExec 7%nat; LTau] (mkConn [3] false None None true [] true ∅ 1 0)); [|eapply cs_close_stream; reflexivity|reflexivity].
  eapply (cr_to [LHandle [1; 2; 3]; LTau; LTake 0 [1; 2]; LReturn 0 ([1; 2], ReadNil); LSubmit 7%nat; LExec 7%nat] (mkConn [3] false None None false [] true ∅ 1 0)); [|apply cs_close_signal|reflexivity].
  eapply (cr_to [LHandle [1; 2; 3]; LTau; LTake 0 [1; 2]; LReturn 0 ([1; 2], ReadNil); LSubmit 7%nat] (mkConn [3] false None None false [7%nat] true ∅ 1 0)); [|eapply (cs_execute _ 7%nat []); reflexivity|reflexivity].
  eapply (cr_to [LHandle [1; 2; 3]; LTau; LTake 0 [1; 2]; LReturn 0 ([1; 2], ReadNil)] (mkConn [3] false None None false [] true ∅ 1 0)); [|eapply (cs_submit _ 7%nat); apply Nat.lt_0_succ|reflexivity].
  eapply (cr_to [LHandle [1; 2; 3]; LTau; LTake 0 [1; 2]] (mkConn [3] false None None false [] true {[0%nat := RCheck 2 [1; 2] false None]} 1 0)); [|eapply (cs_return _ 0 2 [1; 2] false None); reflexivity|reflexivity].
  eapply (cr_to [LHandle [1; 2; 3]; LTau] (mkConn [1; 2; 3] false None None false [] true {[0%nat := RLoop 2]} 1 0)); [|apply (cs_lock (mkConn [1; 2; 3] false None None false [] true {[0%nat := RLoop 2]} 1 0) 0 2); reflexivity|reflexivity].
  eapply (cr_to [LHandle [1; 2; 3]] (mkConn [1; 2; 3] false None None false [] true ∅ 1 0)); [|eapply (cs_read _ 0 2); reflexivity|reflexivity].
  eapply (cr_to [] (new_conn 0)); [apply cr_init|apply (cs_handle _ [1; 2; 3])|reflexivity].
Qed.

Lemma client_stream_exact_witness :
  handled toy_trace = returned_by 0 toy_trace ++ [3] /\ submitted toy_trace = executed toy_trace.
Proof.
  destruct (client_stream_exact toy_trace toy_conn toy_conn_run) as (_ & _ & H & S & _). split.
  - apply (H 0%nat). intros r out Hi. unfold toy_trace in Hi. rewrite !elem_of_cons, elem_of_nil in Hi. destruct_or! Hi; congruence.
  - rewrite S. vm_compute. reflexivity.
Defined.

(** A Read on the closed client that is at the head of its loop. *)
Lemma read_ends_witness :
  exists c : ClientConn nat, conn_run (toy_trace ++ [LTau]) c /\ c_readers c !! 1%nat = Some (RLoop 5) /\
    exists l c', conn_step c l c' /\ (c_readers c' !! 1%nat <> Some (RLoop 5)).
Proof.
  set (c := set_reader 1 (Some (RLoop 5)) toy_conn). assert (conn_run (toy_trace ++ [LTau]) c) as R.
  { apply (cr_step toy_trace toy_conn); [exact toy_conn_run|]. by apply cs_read. }
  exists c. split; [exact R|]. split; [reflexivity|].
  destruct (read_ends (toy_trace ++ [LTau]) c 1 (RLoop 5) R) as (_ & _ & H & _); [by left|reflexivity|]. apply H. discriminate.
Defined.

(** ** The rest of the net.Conn interface *)

(** LocalAddr of the address of the node and RemoteAddr of the one of the client: ParseAddress, or a panic. *)
Definition LocalAddr (networkAddress : list Z) : res unit AddressInfo :=
  match ParseAddress networkAddress with Some addr => Ok addr | None => Panic end.
Definition RemoteAddr (clientAddress : list Z) : res unit AddressInfo :=
  match ParseAddress clientAddress with Some addr => Ok addr | None => Panic end.

(** createPeerClient and Build refuse an address that does not parse, so that neither panics on what they
    accept; what they return prints as the address does in normal form. *)
Lemma RemoteAddr_String info : info_ok info -> RemoteAddr (AddressInfo_String info) = Ok info.
Proof. intros H. unfold RemoteAddr. by rewrite ParseAddress_String. Qed.

(** incomingReady and outgoingReady: closing a closed channel panics. *)
Definition set_ready (ready : bool) : res unit bool := if ready then Panic else Ok true.
(** IsIncomingReady and IsOutgoingReady: [ready_within], whether the channel is closed before the second is over;
    when it is closed already, there is no choice. *)
Definition is_ready (ready ready_within : bool) : bool := ready || ready_within.
