(* ===== verification/NatPort.v ===== *)
(** * protocols/upnp: NAT traversal

    mod.go (private addresses and the gateways of the interfaces of this machine), upnp.go and pmp.go (the
    providers).  The clients of gateways come from third-party packages: their operations are those of
    [Gateway] and [PmpClient], with the laws [GatewayLaws] of the UPnP service.  DiscoverDevices, net.Interfaces
    and the order in which goroutines answer are arguments.  Names of protocols are ASCII. *)
From S2P Require Import Prelude GoText NetIP.
Local Open Scope Z_scope.
Local Open Scope go_scope.

(** ** net.IPNet *)

Record IPNet := mkIPNet { nIP : list Z; nMask : list Z }.

(** CIDRMask of [ones] bits over [l] bytes; ^byte(0xff >> n). *)
Fixpoint CIDRMask (ones : Z) (l : nat) : list Z :=
  match l with
  | O => []
  | S l => if 8 <=? ones then 255 :: CIDRMask (ones - 8) l else u8 (Z.lnot (Z.shiftr 255 ones)) :: CIDRMask 0 l
  end.

Definition allFF (b : list Z) : bool := forallb (Z.eqb 255) b.

(** IP.Mask; the empty list is nil. *)
Definition IP_Mask (ip mask : list Z) : list Z :=
  let mask := if (length mask =? 16)%nat && (length ip =? 4)%nat && allFF (take 12 mask) then drop 12 mask else mask in
  let ip := if (length mask =? 4)%nat && (length ip =? 16)%nat && bool_decide (take 12 ip = v4InV6Prefix) then drop 12 ip else ip in
  if (length ip =? length mask)%nat then zip_with Z.land ip mask else [].

(** parseIPv4, then parseIPv6 *)
Definition ParseCIDR (s : list Z) : option (list Z * IPNet) :=
  i ← IndexByte 47 s;
  let addr := take i s in
  let mask := drop (S i) s in
  '(ip, iplen) ← (match parseIPv4 addr with Some ip => Some (ip, 4%nat) | None => (fun ip => (ip, 16%nat)) <$> parseIPv6 addr end);
  '(n, rest) ← dtoi mask;
  if bool_decide (rest = []) && (0 <=? n) && (n <=? 8 * Z.of_nat iplen) then
    let m := CIDRMask n iplen in
    Some (ip, mkIPNet (IP_Mask ip m) m)
  else None.

Definition networkNumberAndMask (n : IPNet) : list Z * list Z :=
  let ip := To4 (nIP n) in
  let ip := if bool_decide (ip = []) then nIP n else ip in
  if negb ((length ip =? 4)%nat || (length ip =? 16)%nat) then ([], [])
  else if (length (nMask n) =? 4)%nat then if (length ip =? 4)%nat then (ip, nMask n) else ([], [])
  else if (length (nMask n) =? 16)%nat then (ip, if (length ip =? 4)%nat then drop 12 (nMask n) else nMask n)
  else ([], []).

Definition Contains (n : IPNet) (ip : list Z) : bool :=
  let '(nn, m) := networkNumberAndMask n in
  let ip := if bool_decide (To4 ip = []) then ip else To4 ip in
  (length ip =? length nn)%nat && bool_decide (zip_with Z.land nn m = zip_with Z.land ip m).

(** ** mod.go *)

(** parseCIDR: the network, or a panic. *)
Definition parseCIDR (s : list Z) : res unit IPNet :=
  match ParseCIDR s with Some (_, block) => Ok block | None => Panic end.

Definition privateBlocks : res unit (list IPNet) :=
  let? b0 := parseCIDR (str "127.0.0.1/8") in
  let? b1 := parseCIDR (str "::1/128") in
  let? b2 := parseCIDR (str "fe80::/10") in
  let? b3 := parseCIDR (str "10.0.0.0/8") in
  let? b4 := parseCIDR (str "172.16.0.0/12") in
  let? b5 := parseCIDR (str "192.168.0.0/16") in
  Ok [b0; b1; b2; b3; b4; b5].

(** The initialization of the package does not panic. *)
Definition blocks : list IPNet := Eval vm_compute in match privateBlocks with Ok l => l | _ => [] end.

Definition IsPrivateIP (ip : list Z) : bool := existsb (fun ipnet => Contains ipnet ip) blocks.

(** An interface of the machine: whether it is up, and its addresses (an address that is not an IPNet is None);
    no list when Addrs fails. *)
Record Interface := mkInterface { FlagUp : bool; Addrs : option (list (option IPNet)) }.

Inductive nat_err := EInterfaces | EAddrs | EResolve | ENoLocal | EClient | EInvalidIP.

(** The gateway of an address: the first host of its network. *)
Definition gateway_of (address : option IPNet) : option (list Z) :=
  match address with
  | None => None
  | Some a =>
    if IsPrivateIP (nIP a) then
      match To4 (IP_Mask (nIP a) (nMask a)) with
      | [] => None
      | ip => Some (alter (Z.lor 1) 3%nat ip)
      end
    else None
  end.

Fixpoint gateways_loop (interfaces : list Interface) (gateways : list (list Z)) : res nat_err (list (list Z)) :=
  match interfaces with
  | [] => Ok gateways
  | iface :: interfaces =>
    if FlagUp iface then
      match Addrs iface with
      | None => Err EAddrs
      | Some addresses => gateways_loop interfaces (gateways ++ omap gateway_of addresses)
      end
    else gateways_loop interfaces gateways
  end.

Definition activeGateways (Interfaces : option (list Interface)) : res nat_err (list (list Z)) :=
  match Interfaces with None => Err EInterfaces | Some interfaces => gateways_loop interfaces [] end.

(** ** upnp.go *)

(** The operations of a WANIPConnection or WANPPPConnection, on the state of the gateway. *)
Record Gateway (St : Type) := mkGateway {
  GetExternalIPAddress : St -> option (list Z) * St;
  AddPortMapping : list Z -> Z -> list Z -> Z -> list Z -> bool -> list Z -> Z -> St -> bool * St;
  DeletePortMapping : list Z -> Z -> list Z -> St -> bool * St
}.
Arguments GetExternalIPAddress {St}.
Arguments AddPortMapping {St}.
Arguments DeletePortMapping {St}.

Definition natSecond : Z := 1000000000.
Definition noise : list Z := str "noise".
Definition ToUpper (s : list Z) : list Z := upper_byte <$> s.
Definition ToLowerASCII (s : list Z) : list Z := lower_byte <$> s.

(** The first address of the interfaces whose network contains the one of the device. *)
Fixpoint find_local (device : list Z) (interfaces : list Interface) : res nat_err (list Z) :=
  match interfaces with
  | [] => Err ENoLocal
  | iface :: interfaces =>
    match Addrs iface with
    | None => Err EAddrs
    | Some addresses =>
      match find (fun a => match a with Some n => Contains n device | None => false end) addresses with
      | Some (Some n) => Ok (nIP n)
      | _ => find_local device interfaces
      end
    end
  end.

Section upnp.
Context {St : Type} (client : Gateway St).
(** net.ResolveUDPAddr of u.host, and net.Interfaces *)
Variables (device : option (list Z)) (Interfaces : option (list Interface)).

Definition deviceInternalAddress : res nat_err (list Z) :=
  match device with
  | None => Err EResolve
  | Some d => match Interfaces with None => Err EInterfaces | Some ifs => find_local d ifs end
  end.

Definition upnp_ExternalIP (s : St) : res nat_err (list Z) * St :=
  match GetExternalIPAddress client s with
  | (None, s) => (Err EClient, s)
  | (Some raw, s) => (match ParseIP raw with Some ip => Ok ip | None => Err EInvalidIP end, s)
  end.

Definition upnp_DeleteMapping (protocol : list Z) (externalPort internalPort : Z) (s : St) : bool * St :=
  DeletePortMapping client [] externalPort (ToUpper protocol) s.

(** AddMapping; true is a nil error.  Without an internal address it returns nil. *)
Definition upnp_AddMapping (protocol : list Z) (externalPort internalPort : Z) (lifetime : Z) (s : St) : bool * St :=
  match deviceInternalAddress with
  | Ok ip =>
    let '(_, s) := upnp_DeleteMapping protocol externalPort internalPort s in
    AddPortMapping client [] externalPort (ToUpper protocol) internalPort (IP_String ip) true noise (u32 (lifetime ÷ natSecond)) s
  | _ => (true, s)
  end.
End upnp.

(** A service of a device found in the network: its type, and what GetNATRSIPStatus says (None is an error). *)
Inductive ServiceType := WANIPConnection_1 | WANIPConnection_2 | WANPPPConnection_1 | OtherService.
Record Service := mkService { service_type : ServiceType; nat_status : option bool }.

(** A device with the services in the order of VisitServices; Root is nil when its description could not be
    fetched. *)
Record Root := mkRoot { URLBaseHost : list Z; services : list Service }.

(** A provider: the host of the device and the connection it was found with. *)
Record upnp := mkUPnP { u_host : list Z; u_version : Z; u_service : Service }.

Definition matcher_v1 (device : Root) (service : Service) : option upnp :=
  match service_type service with
  | WANIPConnection_1 | WANPPPConnection_1 => Some (mkUPnP (URLBaseHost device) 1 service)
  | _ => None
  end.
Definition matcher_v2 (device : Root) (service : Service) : option upnp :=
  match service_type service with
  | WANIPConnection_1 | WANIPConnection_2 | WANPPPConnection_1 => Some (mkUPnP (URLBaseHost device) 2 service)
  | OtherService => None
  end.

(** The function given to VisitServices, on found and what was sent to out. *)
Definition visit_service (matcher : Root -> Service -> option upnp) (root : Root) (st : bool * list (option upnp)) (service : Service) : bool * list (option upnp) :=
  if st.1 then st
  else match matcher root service with
  | None => st
  | Some u => match nat_status (u_service u) with Some true => (true, st.2 ++ [Some u]) | _ => st end
  end.

Fixpoint discover_loop (matcher : Root -> Service -> option upnp) (devices : list (option Root)) (st : bool * list (option upnp)) : bool * list (option upnp) :=
  match devices with
  | [] => st
  | d :: devices =>
    if st.1 then st
    else match d with
    | None => discover_loop matcher devices st
    | Some root => discover_loop matcher devices (foldl (visit_service matcher root) st (services root))
    end
  end.

(** discover: what it sends to out. *)
Definition discover (devices : option (list (option Root))) (matcher : Root -> Service -> option upnp) : list (option upnp) :=
  match devices with
  | None => [None]
  | Some devices =>
    let '(found, out) := discover_loop matcher devices (false, []) in
    if found then out else out ++ [None]
  end.

(** The receive loop of NewUPnP over the values in the order they arrive; a receive from which nothing comes
    blocks. *)
Fixpoint first_found (n : nat) (arrived : list (option upnp)) : res unit upnp :=
  match n, arrived with
  | O, _ => Panic
  | S n, [] => Err tt
  | S n, Some c :: _ => Ok c
  | S n, None :: arrived => first_found n arrived
  end.

(** NewUPnP when the values of the two goroutines arrive in the order [arrived]. *)
Definition NewUPnP (arrived : list (option upnp)) : res unit upnp := first_found 2 arrived.

(** ** pmp.go *)

(** natpmp.Client: GetExternalAddress, and AddPortMapping of a protocol, an internal and a suggested external
    port, and a lifetime; the external port of the answer is not used. *)
Record PmpClient (St : Type) := mkPmpClient {
  GetExternalAddress : St -> option (list Z) * St;
  PmpAddPortMapping : list Z -> Z -> Z -> Z -> St -> bool * St
}.
Arguments GetExternalAddress {St}.
Arguments PmpAddPortMapping {St}.

Section pmp.
Context {St : Type} (client : PmpClient St).

Definition pmp_ExternalIP (s : St) : res nat_err (list Z) * St :=
  match GetExternalAddress client s with
  | (None, s) => (Err EClient, s)
  | (Some ip, s) => (Ok ip, s)
  end.
Definition pmp_AddMapping (protocol : list Z) (externalPort internalPort expiry : Z) (s : St) : bool * St :=
  PmpAddPortMapping client (ToLowerASCII protocol) internalPort externalPort (expiry ÷ natSecond) s.
Definition pmp_DeleteMapping (protocol : list Z) (externalPort internalPort : Z) (s : St) : bool * St :=
  PmpAddPortMapping client (ToLowerASCII protocol) internalPort 0 0 s.
End pmp.

(** What the select of NewPMP finds: the answer of a goroutine (the gateway, or nil), or the time out. *)
Inductive pmp_event := PmpFound (client : option (list Z)) | PmpTimeout.

(** The loop over [n] gateways: a provider, nil after a second, or a panic; it blocks without an event. *)
Fixpoint pmp_loop (n : nat) (events : list pmp_event) : res unit (option (list Z)) :=
  match n, events with
  | O, _ => Panic
  | S n, [] => Err tt
  | S n, PmpTimeout :: _ => Ok None
  | S n, PmpFound (Some c) :: _ => Ok (Some c)
  | S n, PmpFound None :: events => pmp_loop n events
  end.

(** The goroutine of a gateway. *)
Definition pmp_probe (responds : list Z -> bool) (gateway : list Z) : option (list Z) :=
  if responds gateway then Some gateway else None.

Definition NewPMP (Interfaces : option (list Interface)) (events : list pmp_event) : res unit (option (list Z)) :=
  match activeGateways Interfaces with
  | Ok gateways => pmp_loop (length gateways) events
  | _ => Panic
  end.

(** ** Private addresses and gateways *)

(** Addresses of four bytes. *)
Definition private4 (a b : Z) : Prop := a = 127 \/ a = 10 \/ (a = 172 /\ 16 <= b < 32) \/ (a = 192 /\ b = 168).
#[export] Instance private4_dec a b : Decision (private4 a b).
Proof. unfold private4. apply _. Defined.

Definition loopback6 : list Z := replicate 15 0 ++ [1].

Lemma blocks_ok : privateBlocks = Ok blocks.
Proof. vm_compute. reflexivity. Qed.

Definition byte_range : list Z := Z.of_nat <$> seq 0 256.

Lemma byte_in_range b : 0 <= b < 256 -> b ∈ byte_range.
Proof. intros H. apply list_elem_of_fmap. exists (Z.to_nat b). split; [lia|]. apply elem_of_seq. lia. Qed.

(** A mask of a byte, by its cases. *)
Lemma byte_mask (m v : Z) (P : Z -> bool) b :
  forallb (fun b => Bool.eqb (v =? Z.land b m) (P b)) byte_range = true -> 0 <= b < 256 -> v = Z.land b m <-> P b = true.
Proof.
  intros F Hb. rewrite forallb_forall in F. specialize (F b). apply Bool.eqb_prop in F; [|by apply list_elem_of_In, byte_in_range].
  rewrite <- F. symmetry. apply Z.eqb_eq.
Qed.

Lemma Contains4 n0 n1 n2 n3 m0 m1 m2 m3 a b c d :
  Contains (mkIPNet [n0; n1; n2; n3] [m0; m1; m2; m3]) [a; b; c; d] = true <->
  Z.land n0 m0 = Z.land a m0 /\ Z.land n1 m1 = Z.land b m1 /\ Z.land n2 m2 = Z.land c m2 /\ Z.land n3 m3 = Z.land d m3.
Proof. unfold Contains. cbn. rewrite bool_decide_eq_true. split; [by intros [= ]|by intros (-> & -> & -> & ->)]. Qed.

Lemma Contains_6_4 n m a b c d : length n = 16%nat -> To4 n = [] -> Contains (mkIPNet n m) [a; b; c; d] = false.
Proof.
  intros L E. unfold Contains, networkNumberAndMask. cbn [nIP nMask]. rewrite E, bool_decide_eq_true_2 by done. rewrite L. cbn.
  by destruct (length m =? 4)%nat; [|destruct (length m =? 16)%nat]; cbn; rewrite ?L.
Qed.

Lemma private4_spec a b c d : bytes_ok [a; b; c; d] -> IsPrivateIP [a; b; c; d] = true <-> private4 a b.
Proof.
  intros H. unfold bytes_ok in H. rewrite !Forall_cons in H. destruct H as (Ha & Hb & Hc & Hd & _).
  unfold IsPrivateIP, blocks. cbn [existsb]. rewrite !orb_true_iff.
  rewrite !Contains4, !Contains_6_4 by reflexivity. rewrite !Z.land_0_r. unfold private4.
  rewrite (byte_mask 255 (Z.land 127 255) (Z.eqb 127) a), (byte_mask 255 (Z.land 10 255) (Z.eqb 10) a), (byte_mask 255 (Z.land 172 255) (Z.eqb 172) a),
    (byte_mask 255 (Z.land 192 255) (Z.eqb 192) a), (byte_mask 255 (Z.land 168 255) (Z.eqb 168) b),
    (byte_mask 240 (Z.land 16 240) (fun b => (16 <=? b) && (b <? 32)) b) by (reflexivity || assumption).
  rewrite !Z.eqb_eq, andb_true_iff, Z.leb_le, Z.ltb_lt. split; [intuition (lia || discriminate)|]. intros [H|[H|[H|H]]]; [left|do 3 right; left|do 4 right; left|do 5 right; left]; intuition lia.
Qed.

Lemma private_v4_in_v6 a b c d : IsPrivateIP (v4InV6Prefix ++ [a; b; c; d]) = IsPrivateIP [a; b; c; d].
Proof. reflexivity. Qed.

Lemma Contains6 n m ip :
  length n = 16%nat -> To4 n = [] -> length m = 16%nat -> length ip = 16%nat -> To4 ip = [] ->
  Contains (mkIPNet n m) ip = true <-> zip_with Z.land n m = zip_with Z.land ip m.
Proof.
  intros L E M Li Ei. unfold Contains, networkNumberAndMask. cbn [nIP nMask]. rewrite E, Ei, !bool_decide_eq_true_2 by done. rewrite L, M. cbn.
  rewrite L, Li. cbn. apply bool_decide_eq_true.
Qed.

Lemma Contains_4_6 n m ip : length n = 4%nat -> length m = 4%nat -> length ip = 16%nat -> To4 ip = [] -> Contains (mkIPNet n m) ip = false.
Proof.
  intros L M Li Ei. unfold Contains, networkNumberAndMask. cbn [nIP nMask]. do 4 (destruct n as [|? n]; [done|]). destruct n; [|done].
  cbn [To4 length Nat.eqb orb negb]. rewrite M, Ei. cbn. by rewrite Li.
Qed.

(** Of sixteen bytes that are not an IPv4 address: loopback and link local. *)
Lemma private6_spec a b ip :
  bytes_ok (a :: b :: ip) -> length ip = 14%nat -> To4 (a :: b :: ip) = [] ->
  IsPrivateIP (a :: b :: ip) = true <-> a :: b :: ip = loopback6 \/ (a = 254 /\ 128 <= b < 192).
Proof.
  intros H L E. unfold IsPrivateIP, blocks. cbn [existsb]. rewrite !orb_true_iff.
  repeat match goal with |- context [Contains (mkIPNet ?n ?m) ?ip] =>
    first [rewrite (Contains_4_6 n m ip) by (reflexivity || (cbn; lia) || exact E) | rewrite (Contains6 n m ip) by (reflexivity || (cbn; lia) || exact E)] end.
  unfold bytes_ok in H. do 14 (destruct ip as [|? ip]; [done|]). destruct ip; [|done]. cbn [zip_with]. rewrite !Forall_cons in H.
  destruct_and! H.
  assert (forall x, 0 <= x < 256 -> Z.land x 255 = x) as E255 by (intros x Hx; change 255 with (Z.ones 8); rewrite Z.land_ones by lia; apply Z.mod_small; lia).
  rewrite !E255, !Z.land_0_r by (assumption || lia).
  pose proof (byte_mask 192 (Z.land 128 192) (fun b => (128 <=? b) && (b <? 192)) b eq_refl ltac:(lia)) as Hm. cbn beta in Hm. rewrite andb_true_iff, Z.leb_le, Z.ltb_lt in Hm.
  unfold loopback6. cbn [replicate app]. split.
  - intros [?|[P|[P|[?|[?|[?|?]]]]]]; try discriminate; injection P; intros; subst; [by left|right]. split; [done|]. by apply Hm.
  - intros [P|[-> P]]; [right; left; by rewrite P|]. do 2 right. left. apply Hm in P. by rewrite <- P.
Qed.

(** The gateway of an IPv4 address with a mask of four bytes. *)
Definition gateway4 (ip mask : list Z) : list Z := alter (Z.lor 1) 3%nat (zip_with Z.land ip mask).

Lemma gateway_of_4 a b c d mask :
  bytes_ok [a; b; c; d] -> length mask = 4%nat ->
  gateway_of (Some (mkIPNet [a; b; c; d] mask)) = (if bool_decide (private4 a b) then Some (gateway4 [a; b; c; d] mask) else None) /\
  gateway_of (Some (mkIPNet (v4InV6Prefix ++ [a; b; c; d]) mask)) = gateway_of (Some (mkIPNet [a; b; c; d] mask)).
Proof.
  intros H L. do 4 (destruct mask as [|? mask]; [done|]). destruct mask; [|done]. split; [|reflexivity].
  unfold gateway_of. cbn [nIP nMask]. destruct (IsPrivateIP [a; b; c; d]) eqn:E.
  - rewrite bool_decide_eq_true_2 by (by apply (private4_spec _ _ c d)). reflexivity.
  - rewrite bool_decide_eq_false_2; [done|]. intros P. apply (private4_spec _ _ c d) in P; [congruence|done].
Qed.

(** The gateway is in the network of the address when the mask leaves the last bit to the hosts. *)
Lemma gateway4_in_network a b c d m0 m1 m2 m3 :
  Z.testbit m3 0 = false -> Contains (mkIPNet [a; b; c; d] [m0; m1; m2; m3]) (gateway4 [a; b; c; d] [m0; m1; m2; m3]) = true.
Proof.
  intros Hm. unfold gateway4. cbn [zip_with alter list_alter]. apply Contains4. rewrite <- !Z.land_assoc, !Z.land_diag. split_and!; try done.
  rewrite Z.land_lor_distr_l, <- Z.land_assoc, Z.land_diag. assert (Z.land 1 m3 = 0) as ->; [|done].
  rewrite Z.land_comm. change 1 with (Z.ones 1). rewrite Z.land_ones by lia. change (2 ^ 1) with 2. rewrite <- Z.bit0_mod, Hm. done.
Qed.

Lemma gateways_loop_spec interfaces acc :
  gateways_loop interfaces acc =
    match mapM (fun iface => if FlagUp iface then Addrs iface else Some []) interfaces with
    | Some addrs => Ok (acc ++ omap gateway_of (concat addrs))
    | None => Err EAddrs
    end.
Proof.
  revert acc. induction interfaces as [|[up addrs] l IH]; intros acc; cbn [gateways_loop mapM FlagUp Addrs]; [cbn; by rewrite app_nil_r|].
  destruct up; [|rewrite IH; cbn; by destruct (mapM _ l)]. destruct addrs as [addrs|]; [|done]. rewrite IH. cbn.
  destruct (mapM _ l) as [rest|]; [|done]. cbn. by rewrite omap_app, app_assoc.
Qed.

(** NAT gateways.  The package initializes; an IPv4 address, in either form, is private exactly when it lies
    in 127/8, 10/8, 172.16/12 or 192.168/16, and an IPv6 address when it is the loopback address or link
    local.  activeGateways fails exactly when the interfaces, or the addresses of one that is up, cannot be
    listed; otherwise it returns, in order, for the private IPv4 addresses of the interfaces that are up the
    first host of the network, which lies in that network unless the mask covers the last bit. *)
Lemma gateways_correct interfaces :
  privateBlocks = Ok blocks /\
  (forall a b c d, bytes_ok [a; b; c; d] ->
     (IsPrivateIP [a; b; c; d] = true <-> private4 a b) /\ (IsPrivateIP (v4InV6Prefix ++ [a; b; c; d]) = true <-> private4 a b)) /\
  (forall a b ip, bytes_ok (a :: b :: ip) -> length ip = 14%nat -> To4 (a :: b :: ip) = [] ->
     (IsPrivateIP (a :: b :: ip) = true <-> a :: b :: ip = loopback6 \/ (a = 254 /\ 128 <= b < 192))) /\
  activeGateways None = Err EInterfaces /\
  activeGateways (Some interfaces) =
    match mapM (fun iface => if FlagUp iface then Addrs iface else Some []) interfaces with
    | Some addrs => Ok (omap gateway_of (concat addrs))
    | None => Err EAddrs
    end /\
  (forall a b c d m0 m1 m2 m3, bytes_ok [a; b; c; d] -> let ip := [a; b; c; d] in let mask := [m0; m1; m2; m3] in
     gateway_of (Some (mkIPNet ip mask)) = (if bool_decide (private4 a b) then Some (gateway4 ip mask) else None) /\
     gateway_of (Some (mkIPNet (v4InV6Prefix ++ ip) mask)) = gateway_of (Some (mkIPNet ip mask)) /\
     (Z.testbit m3 0 = false -> Contains (mkIPNet ip mask) (gateway4 ip mask) = true)).
Proof.
  split; [exact blocks_ok|]. split.
  { intros a b c d H. rewrite private_v4_in_v6. split; by apply private4_spec. }
  split; [intros a b ip; apply private6_spec|]. split; [done|]. split; [apply gateways_loop_spec|].
  intros a b c d m0 m1 m2 m3 H. cbv zeta. destruct (gateway_of_4 a b c d [m0; m1; m2; m3] H eq_refl) as [E1 E2].
  split; [exact E1|]. split; [exact E2|apply gateway4_in_network].
Qed.

(** The gateway of 192.168.1.37/24, and of a /32 with an even last byte, which is another host. *)
Example gateway_24 : gateway_of (Some (mkIPNet [192; 168; 1; 37] [255; 255; 255; 0])) = Some [192; 168; 1; 1].
Proof. reflexivity. Qed.
Example gateway_32 : gateway_of (Some (mkIPNet [10; 0; 0; 4] [255; 255; 255; 255])) = Some [10; 0; 0; 5].
Proof. reflexivity. Qed.

(** ** Finding a provider *)

(** A connection that the matcher accepts and that translates addresses. *)
Definition usable (matcher : Root -> Service -> option upnp) (root : Root) (s : Service) : option upnp :=
  match matcher root s with
  | Some u => if decide (nat_status (u_service u) = Some true) then Some u else None
  | None => None
  end.

(** Those of the devices, in order. *)
Definition candidates (matcher : Root -> Service -> option upnp) (devices : list (option Root)) : list upnp :=
  concat ((fun d => match d with None => [] | Some root => omap (usable matcher root) (services root) end) <$> devices).

Lemma visit_found matcher root out l : foldl (visit_service matcher root) (true, out) l = (true, out).
Proof. induction l as [|s l IH]; [done|exact IH]. Qed.

Lemma visit_services matcher root out l :
  foldl (visit_service matcher root) (false, out) l =
    match omap (usable matcher root) l with [] => (false, out) | u :: _ => (true, out ++ [Some u]) end.
Proof.
  induction l as [|s l IH]; [done|]. cbn [foldl omap list_omap]. unfold visit_service at 2, usable at 1. cbn [fst snd].
  destruct (matcher root s) as [u|]; [|done]. destruct (nat_status (u_service u)) as [[]|]; cbn; [apply visit_found|done|done].
Qed.

Lemma discover_found matcher devices out : discover_loop matcher devices (true, out) = (true, out).
Proof. by destruct devices. Qed.

Lemma discover_loop_spec matcher devices :
  discover_loop matcher devices (false, []) = match candidates matcher devices with [] => (false, []) | u :: _ => (true, [Some u]) end.
Proof.
  induction devices as [|[root|] devices IH]; [done| |exact IH]. cbn [discover_loop fst]. rewrite visit_services.
  unfold candidates. cbn [fmap list_fmap concat]. destruct (omap (usable matcher root) (services root)) as [|u us]; [exact IH|].
  cbn. apply discover_found.
Qed.

(** discover sends exactly one value: the first usable connection, or nil. *)
Lemma discover_spec matcher devices :
  discover devices matcher = [devices ≫= fun ds => head (candidates matcher ds)].
Proof. destruct devices as [ds|]; [|done]. unfold discover. rewrite discover_loop_spec. cbn. by destruct (candidates matcher ds). Qed.

(** Finding a UPnP gateway.  Each of the two goroutines of NewUPnP sends exactly one value, so that the
    channel of capacity two never blocks them and NewUPnP, which receives up to two, never waits in vain: whatever
    the devices answer and in whichever order the goroutines arrive, it returns the first usable
    connection of the one that arrived first and found one, and panics exactly when there is none. *)
Lemma NewUPnP_correct d1 d2 arrived :
  arrived ≡ₚ discover d1 matcher_v1 ++ discover d2 matcher_v2 ->
  let c1 := d1 ≫= fun ds => head (candidates matcher_v1 ds) in
  let c2 := d2 ≫= fun ds => head (candidates matcher_v2 ds) in
  (arrived = [c1; c2] \/ arrived = [c2; c1]) /\
  match NewUPnP arrived with
  | Ok u => (c1 = Some u \/ c2 = Some u) /\ nat_status (u_service u) = Some true /\ (head arrived = Some (Some u) \/ head arrived = Some None)
  | Panic => c1 = None /\ c2 = None
  | Err _ => False
  end.
Proof.
  rewrite !discover_spec. cbn [app]. intros P. cbv zeta.
  assert (forall d m u, (d ≫= fun ds => head (candidates m ds)) = Some u -> nat_status (u_service u) = Some true) as Hn.
  { intros [ds|] m u E; [|done]. cbn in E. assert (u ∈ candidates m ds) as Hu by (destruct (candidates m ds); [done|]; injection E as ->; apply list_elem_of_here).
    unfold candidates in Hu. apply list_elem_of_In, in_concat in Hu as (l & Hl & Hu). apply list_elem_of_In in Hl, Hu. apply list_elem_of_fmap in Hl as ([root|] & -> & _); [|by apply elem_of_nil in Hu].
    apply list_elem_of_omap in Hu as (s & _ & Hs). unfold usable in Hs. destruct (m root s); [|done]. case_decide; congruence. }
  pose proof (Hn d1 matcher_v1) as H1. pose proof (Hn d2 matcher_v2) as H2. clear Hn.
  set (c1 := d1 ≫= _) in *. set (c2 := d2 ≫= _) in *. clearbody c1 c2.
  assert (arrived = [c1; c2] \/ arrived = [c2; c1]) as Ha by (symmetry in P; by apply Permutation_length_2_inv in P).
  split; [exact Ha|]. destruct Ha as [-> | ->]; destruct c1 as [u1|], c2 as [u2|]; cbn; auto 10.
Qed.

Definition toy_root : Root := mkRoot (str "192.168.1.1") [mkService WANIPConnection_2 (Some true); mkService WANPPPConnection_1 None; mkService WANIPConnection_1 (Some true)].

Lemma NewUPnP_correct_witness :
  NewUPnP [None; Some (mkUPnP (str "192.168.1.1") 1 (mkService WANIPConnection_1 (Some true)))] =
    Ok (mkUPnP (str "192.168.1.1") 1 (mkService WANIPConnection_1 (Some true))) /\
  exists u, NewUPnP [Some (mkUPnP (str "192.168.1.1") 2 (mkService WANIPConnection_2 (Some true))); Some (mkUPnP (str "192.168.1.1") 1 (mkService WANIPConnection_1 (Some true)))] = Ok u /\
    nat_status (u_service u) = Some true.
Proof.
  split; [reflexivity|]. eexists. split; [reflexivity|].
  destruct (NewUPnP_correct (Some [None; Some toy_root]) (Some [Some toy_root])
    [Some (mkUPnP (str "192.168.1.1") 2 (mkService WANIPConnection_2 (Some true))); Some (mkUPnP (str "192.168.1.1") 1 (mkService WANIPConnection_1 (Some true)))]) as [_ [_ [H _]]].
  - apply Permutation_swap.
  - exact H.
Defined.

(** ** Port mappings *)

(** The UPnP service: a mapping leads from an external port and a protocol to a host and its port; an error
    changes nothing. *)
Class GatewayLaws {St} (client : Gateway St) (mappings : St -> gmap (Z * list Z) (Z * list Z)) : Prop := {
  add_mapping : forall ext proto int host desc lease s,
    let '(ok, s') := AddPortMapping client [] ext proto int host true desc lease s in
    mappings s' = if ok then <[(ext, proto) := (int, host)]> (mappings s) else mappings s;
  delete_mapping : forall ext proto s,
    let '(ok, s') := DeletePortMapping client [] ext proto s in
    mappings s' = if ok then delete (ext, proto) (mappings s) else mappings s
}.

(** UPnP port mappings, for a gateway that keeps the laws of the service.  A successful AddMapping, with an
    address of this machine in the network of the device, maps the external port to that address, in a
    text that parses to it, and changes nothing else, whether or not there was a mapping before; a
    failed one may have lost the old mapping and changed nothing else.  Without such an address it reports
    success and does nothing.  DeleteMapping removes the mapping of the external port only. *)
Lemma upnp_mappings {St} (client : Gateway St) mappings `{GatewayLaws St client mappings} device Interfaces protocol ext int lifetime s :
  (forall ip, deviceInternalAddress device Interfaces = Ok ip -> bytes_ok ip -> length ip = 4%nat \/ length ip = 16%nat ->
     ParseIP (IP_String ip) = Some (To16 ip) /\
     let '(ok, s') := upnp_AddMapping client device Interfaces protocol ext int lifetime s in
     (ok = true -> mappings s' = <[(ext, ToUpper protocol) := (int, IP_String ip)]> (mappings s)) /\
     (ok = false -> mappings s' = mappings s \/ mappings s' = delete (ext, ToUpper protocol) (mappings s))) /\
  ((forall ip, deviceInternalAddress device Interfaces <> Ok ip) -> upnp_AddMapping client device Interfaces protocol ext int lifetime s = (true, s)) /\
  (let '(ok, s') := upnp_DeleteMapping client protocol ext int s in
   mappings s' = if ok then delete (ext, ToUpper protocol) (mappings s) else mappings s).
Proof.
  split_and!.
  - intros ip E Hb L. split; [by apply ParseIP_String|]. unfold upnp_AddMapping. rewrite E. unfold upnp_DeleteMapping.
    pose proof (delete_mapping ext (ToUpper protocol) s) as D. destruct (DeletePortMapping _ _ _ _ _) as [ok1 s1].
    pose proof (add_mapping ext (ToUpper protocol) int (IP_String ip) noise (u32 (lifetime ÷ natSecond)) s1) as A.
    destruct (AddPortMapping _ _ _ _ _ _ _ _ _ _) as [ok2 s2]. rewrite D in A. split; intros ->; rewrite A; destruct ok1; auto.
    by rewrite insert_delete_eq.
  - intros N. unfold upnp_AddMapping. destruct (deviceInternalAddress device Interfaces); [by destruct (N a)|done|done].
  - unfold upnp_DeleteMapping. apply delete_mapping.
Qed.

(** A gateway that keeps its mappings in a map, and a machine with the address 192.168.1.37. *)
Definition toy_gateway : Gateway (gmap (Z * list Z) (Z * list Z)) := mkGateway _
  (fun s => (Some (str "8.8.4.4"), s))
  (fun _ ext proto int host _ _ _ s => (true, <[(ext, proto) := (int, host)]> s))
  (fun _ ext proto s => (bool_decide (is_Some (s !! (ext, proto))), delete (ext, proto) s)).
Definition toy_machine : list Interface :=
  [mkInterface true (Some [Some (mkIPNet [127; 0; 0; 1] [255; 0; 0; 0]); None; Some (mkIPNet [192; 168; 1; 37] [255; 255; 255; 0])])].

#[export] Instance toy_gateway_laws : GatewayLaws toy_gateway (fun s => s).
Proof.
  split; [done|]. intros ext proto s. cbn. case_bool_decide as N; [done|]. apply delete_id. by apply eq_None_not_Some.
Qed.

Lemma upnp_mappings_witness :
  deviceInternalAddress (Some [192; 168; 1; 1]) (Some toy_machine) = Ok [192; 168; 1; 37] /\
  (upnp_AddMapping toy_gateway (Some [192; 168; 1; 1]) (Some toy_machine) (str "tcp") 80 8080 (60 * natSecond) ∅).2 =
    {[(80, str "TCP") := (8080, str "192.168.1.37")]} /\
  upnp_AddMapping toy_gateway None (Some toy_machine) (str "tcp") 80 8080 (60 * natSecond) ∅ = (true, ∅).
Proof.
  assert (deviceInternalAddress (Some [192; 168; 1; 1]) (Some toy_machine) = Ok [192; 168; 1; 37]) as E by (vm_compute; reflexivity).
  split; [exact E|]. split.
  - destruct (upnp_mappings toy_gateway (fun s => s) (Some [192; 168; 1; 1]) (Some toy_machine) (str "tcp") 80 8080 (60 * natSecond) ∅) as [H _].
    destruct (H _ E) as [_ H']; [repeat constructor; lia|by left|]. destruct (upnp_AddMapping _ _ _ _ _ _ _ _) as [ok s'] eqn:EA.
    cbn [snd]. destruct H' as [H' _]. rewrite H'; [reflexivity|]. revert EA. unfold upnp_AddMapping. rewrite E. cbn. by intros [= <- _].
  - apply (upnp_mappings toy_gateway (fun s => s) None (Some toy_machine) (str "tcp") 80 8080 (60 * natSecond) ∅). discriminate.
Defined.

(** The address found belongs to this machine, and its network contains the device. *)
Lemma find_local_ok device interfaces ip :
  find_local device interfaces = Ok ip ->
  exists iface addresses n, iface ∈ interfaces /\ Addrs iface = Some addresses /\ Some n ∈ addresses /\ Contains n device = true /\ ip = nIP n.
Proof.
  induction interfaces as [|iface l IH]; [done|]. cbn. destruct (Addrs iface) as [addresses|] eqn:EA; [|done].
  destruct (find _ addresses) as [[n|]|] eqn:F.
  - intros [= <-]. apply find_some in F as [F1 F2]. exists iface, addresses, n. split_and!; try done; [apply list_elem_of_here|by apply list_elem_of_In].
  - intros H. destruct (IH H) as (i & a & n & Hi & R). exists i, a, n. split; [by apply list_elem_of_further|done].
  - intros H. destruct (IH H) as (i & a & n & Hi & R). exists i, a, n. split; [by apply list_elem_of_further|done].
Qed.

(** NewPMP: the first gateway to answer is used; nil when a second passes before one does, and a panic when all
    have answered with an error, or there are none. *)
Lemma pmp_loop_answers (answers : list (option (list Z))) n rest :
  (length answers <= n)%nat ->
  pmp_loop n ((PmpFound <$> answers) ++ rest) =
    match head (omap id answers) with
    | Some gateway => Ok (Some gateway)
    | None => if (length answers =? n)%nat then Panic else match rest with [] => Err tt | PmpTimeout :: _ => Ok None | _ => pmp_loop (n - length answers) rest end
    end.
Proof.
  revert n. induction answers as [|[g|] answers IH]; intros [|n] L; cbn in *; try lia; try done.
  - destruct rest as [|[]]; done.
  - apply IH. lia.
Qed.

Lemma NewPMP_answers Interfaces gateways responds arrived :
  activeGateways Interfaces = Ok gateways -> arrived ≡ₚ (pmp_probe responds <$> gateways) ->
  match NewPMP Interfaces (PmpFound <$> arrived) with
  | Ok (Some g) => g ∈ gateways /\ responds g = true
  | Panic => forall g, g ∈ gateways -> responds g = false
  | _ => False
  end.
Proof.
  intros E P. unfold NewPMP. rewrite E. rewrite <- (app_nil_r (PmpFound <$> arrived)).
  assert (length arrived = length gateways) as L by (by rewrite P, length_fmap). rewrite pmp_loop_answers, <- L, Nat.eqb_refl by lia.
  assert (forall g, g ∈ omap id arrived <-> g ∈ gateways /\ responds g = true) as Hg.
  { intros g. rewrite list_elem_of_omap. setoid_rewrite P. split.
    - intros (x & Hx & Hs). cbn in Hs. subst x. apply list_elem_of_fmap in Hx as (g' & Hs & Hi). unfold pmp_probe in Hs.
      destruct (responds g') eqn:R; [|done]. by injection Hs as ->.
    - intros [Hi R]. exists (Some g). split; [|done]. apply list_elem_of_fmap. exists g. unfold pmp_probe. by rewrite R. }
  destruct (omap id arrived) as [|g l]; cbn.
  - intros g Hi. apply not_true_iff_false. intros R. assert (g ∈ []) as N by (by apply Hg). by apply elem_of_nil in N.
  - apply Hg. apply list_elem_of_here.
Qed.

Lemma gateways_correct_witness :
  activeGateways (Some toy_machine) = Ok [[127; 0; 0; 1]; [192; 168; 1; 1]] /\ (IsPrivateIP [172; 31; 0; 1] = true <-> private4 172 31).
Proof.
  destruct (gateways_correct toy_machine) as (_ & H & _ & _ & E & _). split; [rewrite E; vm_compute; reflexivity|].
  apply (H 172 31 0 1). repeat constructor; lia.
Defined.
