(* ===== verification/ConnMgr.v ===== *)
(** * network/network.go, client.go, multiplex.go: the connection manager

    The four maps of Network.ConnMgr, the peer clients and connection states they point to,
    and the operations that create, move, use and remove their entries.  Pointers are indices
    into the heaps [clients] and [conns].  getOrSetPeerClient runs under createClientMutex and
    the removals under ConnMgr.Mutex; each operation is one atomic step here, and the
    interleavings of goroutines are sequences of such steps.

    address.go is used through the interface [AddressOps] of Address.v, dialing is an argument, protobuf
    and the signature check are section variables. *)
From S2P Require Import Prelude Decimal Peer Wire Address.
Local Open Scope Z_scope.
Local Open Scope go_scope.

(** Keys of the maps: an address or, once it is known, the hexadecimal public key. *)
Abbreviation key := (list Z).

(** ** State *)

Definition PEER_UNKNOWN : Z := 0.
Definition PEER_UNREACHABLE : Z := 1.
Definition PEER_REACHABLE : Z := 2.

Record PeerClient := mkClient {
  cAddress : key;
  cID : option ID;
  PubKey : key;
  closed : bool;
  outgoingReady : bool;
  incomingReady : bool;
  EnableAckReply : bool
}.

(** [cs_sock] is None once the connection has been dropped (conn = nil). *)
Record ConnState := mkConnState { cs_sock : option Z; cs_writer : writer; messageNonce : Z }.

Record MultiStream := mkMulti { idIncCounter : Z; ms_stream : gmap key Z }.

Record ConnMgr := mkConnMgr {
  peers : gmap key nat;
  connections : gmap key nat;
  connStates : gmap key Z;
  mstreams : gmap key MultiStream;
  nodeQuit : list key
}.

(** The callbacks of the installed components. *)
Inductive event :=
| EvPeerConnect (component client : nat)
| EvPeerDisconnect (component client : nat).

Record Network := mkNetwork {
  nAddress : key;
  nConfig : net_config;
  writeBufferSize : Z;
  nComponents : list nat;
  mgr : ConnMgr;
  clients : list PeerClient;
  conns : list ConnState;
  closed_socks : gset Z;
  datagrams : list (list Z);
  events : list event;
  killed : bool
}.

(** A connection handed to the manager: its identity, whether it is a UDP socket, and the
    faults its writes will meet. *)
Record handle := mkHandle { h_sock : Z; h_udp : bool; h_faults : list (option nat) }.

Definition set_mgr (m : ConnMgr) (n : Network) : Network :=
  mkNetwork (nAddress n) (nConfig n) (writeBufferSize n) (nComponents n) m (clients n) (conns n)
    (closed_socks n) (datagrams n) (events n) (killed n).
Definition set_clients (l : list PeerClient) (n : Network) : Network :=
  mkNetwork (nAddress n) (nConfig n) (writeBufferSize n) (nComponents n) (mgr n) l (conns n)
    (closed_socks n) (datagrams n) (events n) (killed n).
Definition set_conns (l : list ConnState) (n : Network) : Network :=
  mkNetwork (nAddress n) (nConfig n) (writeBufferSize n) (nComponents n) (mgr n) (clients n) l
    (closed_socks n) (datagrams n) (events n) (killed n).
Definition close_sock (s : Z) (n : Network) : Network :=
  mkNetwork (nAddress n) (nConfig n) (writeBufferSize n) (nComponents n) (mgr n) (clients n) (conns n)
    ({[s]} ∪ closed_socks n) (datagrams n) (events n) (killed n).
Definition add_datagrams (l : list (list Z)) (n : Network) : Network :=
  mkNetwork (nAddress n) (nConfig n) (writeBufferSize n) (nComponents n) (mgr n) (clients n) (conns n)
    (closed_socks n) (datagrams n ++ l) (events n) (killed n).
Definition add_events (l : list event) (n : Network) : Network :=
  mkNetwork (nAddress n) (nConfig n) (writeBufferSize n) (nComponents n) (mgr n) (clients n) (conns n)
    (closed_socks n) (datagrams n) (events n ++ l) (killed n).

(** Updates of a client through its pointer. *)
Definition set_client (p : nat) (f : PeerClient -> PeerClient) (n : Network) : Network :=
  set_clients (alter f p (clients n)) n.

Definition set_ID (id : option ID) (c : PeerClient) : PeerClient :=
  mkClient (cAddress c) id (PubKey c) (closed c) (outgoingReady c) (incomingReady c) (EnableAckReply c).
Definition set_closed (c : PeerClient) : PeerClient :=
  mkClient (cAddress c) (cID c) (PubKey c) true (outgoingReady c) (incomingReady c) (EnableAckReply c).

Inductive conn_err :=
| EAddress | ESelf | ENotReady | EDial | ENoConnection | ENilConn | EBlocked | EUnreachable
| EWire (e : wire_err).

(** ** Queries *)

Definition GetPeerClient (peerID : key) (n : Network) : option nat := peers (mgr n) !! peerID.

Definition NO_EXIST_ADDR : key := str "NO_EXIST_ADDR".

Definition GetAddrByPeerID (peerID : key) (n : Network) : key :=
  match GetPeerClient peerID n with
  | Some p => match clients n !! p with Some c => cAddress c | None => [] end
  | None => NO_EXIST_ADDR
  end.

Definition ClientExist (peerID : key) (n : Network) : bool := bool_decide (is_Some (peers (mgr n) !! peerID)).

Definition ConnectionStateExists (peerID : key) (n : Network) : bool :=
  bool_decide (is_Some (connections (mgr n) !! peerID)).

Definition ConnectionState (peerID : key) (n : Network) : option nat := connections (mgr n) !! peerID.

Definition PeersNum (n : Network) : nat := size (peers (mgr n)).
Definition ConnsNum (n : Network) : nat := size (connections (mgr n)).

(** PeerClient.PeerID *)
Definition PeerID (c : PeerClient) : key :=
  match cID c with Some id => hex_encode (NetKey id) | None => [] end.

Definition GetRealConnState (peerID : key) (n : Network) : Z * option conn_err :=
  match connStates (mgr n) !! peerID with
  | None => (PEER_UNREACHABLE, Some EUnreachable)
  | Some state =>
    match peers (mgr n) !! peerID with
    | None => (PEER_UNREACHABLE, Some EUnreachable)
    | Some _ =>
      match connections (mgr n) !! peerID with
      | None => (PEER_UNREACHABLE, Some EUnreachable)
      | Some _ => if state =? PEER_REACHABLE then (PEER_REACHABLE, None) else (PEER_UNREACHABLE, Some EUnreachable)
      end
    end
  end.

Definition UpdateConnState (peerID : key) (state : Z) (m : ConnMgr) : ConnMgr :=
  mkConnMgr (peers m) (connections m) (<[peerID := state]> (connStates m)) (mstreams m) (nodeQuit m).

(** ** Registration *)

(** Move the entries of [address] to [peerID], map by map, stopping at the first map that has none. *)
Definition resetConnMgrItemByPeerID (address peerID : key) (m : ConnMgr) : ConnMgr :=
  match peers m !! address with
  | None => m
  | Some peer =>
    let m := mkConnMgr (delete address (<[peerID := peer]> (peers m))) (connections m) (connStates m) (mstreams m) (nodeQuit m) in
    match connections m !! address with
    | None => m
    | Some conn =>
      let m := mkConnMgr (peers m) (delete address (<[peerID := conn]> (connections m))) (connStates m) (mstreams m) (nodeQuit m) in
      match connStates m !! address with
      | None => m
      | Some status =>
        let m := mkConnMgr (peers m) (connections m) (delete address (<[peerID := status]> (connStates m))) (mstreams m) (nodeQuit m) in
        match mstreams m !! address with
        | None => m
        | Some stream =>
          mkConnMgr (peers m) (connections m) (connStates m) (delete address (<[peerID := stream]> (mstreams m))) (nodeQuit m)
        end
      end
    end
  end.

Definition NewMultiStream : MultiStream := mkMulti 0 ∅.

Definition TCP : key := str "tcp".
Definition KCP : key := str "kcp".
Definition UDP : key := str "udp".
Definition QUIC : key := str "quic".

(** The protocols initConnection, RemoveEntries and Write know. *)
Definition known_protocol (s : key) : bool := bool_decide (s ∈ [TCP; KCP; UDP; QUIC]).

Section manager.
Context `{A : AddressOps} `{C : Codec}.
Variable Marshal : Message -> option (list Z).

(** bufio.NewWriterSize *)
Definition NewWriterSize (size : Z) (h : handle) : writer :=
  mkWriter [] (if size <=? 0 then 4096%nat else Z.to_nat size) false (mkSocket [] (h_faults h)).

(** initConnection: an address that does not parse leaves addrInfo nil; an unknown protocol is
    logged and nothing is stored. *)
Definition initConnection (address peerID : key) (h : handle) (n : Network) : res conn_err Network :=
  match Scheme address with
  | None => Panic
  | Some proto =>
    if known_protocol proto then
      let n := set_conns (conns n ++ [mkConnState (Some (h_sock h)) (NewWriterSize (writeBufferSize n) h) 0]) n in
      let m := mgr n in
      Ok (set_mgr (mkConnMgr (peers m) (<[peerID := (length (conns n) - 1)%nat]> (connections m)) (connStates m)
                     (mstreams m) (nodeQuit m)) n)
    else Ok n
  end.

(** createPeerClient *)
Definition createPeerClient (address : key) : option PeerClient :=
  match Scheme address with
  | None => None
  | Some _ => Some (mkClient address None [] false false false false)
  end.

(** The new client once its connection is there: stored, started (Init calls the components),
    reachable and ready. *)
Definition register_client (peerID : key) (client : PeerClient) (n : Network) : nat * Network :=
  let p := length (clients n) in
  let n := set_clients (clients n ++ [mkClient (cAddress client) (cID client) peerID (closed client) true true
                                        (EnableAckReply client)]) n in
  let m := mgr n in
  let m := mkConnMgr (<[peerID := p]> (peers m)) (connections m) (connStates m)
             (<[peerID := NewMultiStream]> (mstreams m)) (nodeQuit m) in
  let n := add_events ((fun comp => EvPeerConnect comp p) <$> nComponents n) (set_mgr m n) in
  (p, set_mgr (UpdateConnState peerID PEER_REACHABLE (mgr n)) n).

(** getOrSetPeerClient; [dial] is the outcome of dialing, when it comes to that. *)
Definition getOrSetPeerClient (address peerID : key) (conn : option handle) (dial : option handle) (n : Network)
    : res conn_err nat * Network :=
  let peerID := if decide (peerID = []) then address else peerID in
  match ToUnified address with
  | None => (Err EAddress, n)
  | Some address =>
    if decide (address = nAddress n) then (Err ESelf, n)
    else match createPeerClient address with
    | None => (Err EAddress, n)
    | Some clientNew =>
      let n := if decide (address <> peerID) then set_mgr (resetConnMgrItemByPeerID address peerID (mgr n)) n else n in
      match peers (mgr n) !! peerID with
      | Some p =>
        match clients n !! p with
        | Some client => if outgoingReady client then (Ok p, n) else (Err ENotReady, n)
        | None => (Panic, n)
        end
      | None =>
        let conn := match conn with Some h => if h_udp h then None else Some h | None => None end in
        let conn := match conn with Some h => Some h | None => dial end in
        match conn with
        | None =>
          let m := mgr n in
          (Err EDial, set_mgr (mkConnMgr (delete peerID (peers m)) (connections m) (connStates m) (mstreams m) (nodeQuit m)) n)
        | Some h =>
          match initConnection address peerID h n with
          | Ok n => let '(p, n) := register_client peerID clientNew n in (Ok p, n)
          | Err e => (Err e, n)
          | Panic => (Panic, n)
          end
        end
      end
    end
  end.

Definition Client (address peerID : key) (dial : option handle) (n : Network) : res conn_err nat * Network :=
  getOrSetPeerClient address peerID None dial n.

(** ** Removal *)

Definition nodeQuit_cap : nat := 128.

(** One of the two blocks of RemoveEntries: close the connection stored under [k], delete the
    entries, and notify the application.  The send on nodeQuit blocks when the channel is
    full. *)
Definition remove_entry (k : key) (notify : option key) (n : Network) : res conn_err unit * Network :=
  match ConnectionState k n with
  | None => (Ok tt, n)
  | Some cs =>
    match Scheme (nAddress n) with
    | None => (Err EAddress, n)
    | Some proto =>
      match (if known_protocol proto
             then match conns n !! cs with
                  | Some (mkConnState (Some s) _ _) => Ok (close_sock s n)
                  | _ => Panic
                  end
             else Ok n) with
      | Ok n =>
        let m := mgr n in
        let m := mkConnMgr (delete k (peers m)) (delete k (connections m)) (connStates m) (delete k (mstreams m)) (nodeQuit m) in
        let m := UpdateConnState k PEER_UNREACHABLE m in
        let n := set_mgr m n in
        match notify with
        | Some id =>
          if (nodeQuit_cap <=? length (nodeQuit (mgr n)))%nat then (Err EBlocked, n)
          else
            let m := mgr n in
            let n := set_mgr (mkConnMgr (peers m) (connections m) (connStates m) (mstreams m) (nodeQuit m ++ [id])) n in
            (Ok tt, set_conns (alter (fun s => mkConnState None (cs_writer s) (messageNonce s)) cs (conns n)) n)
        | None => (Ok tt, set_conns (alter (fun s => mkConnState None (cs_writer s) (messageNonce s)) cs (conns n)) n)
        end
      | Err e => (Err e, n)
      | Panic => (Panic, n)
      end
    end
  end.

Definition RemoveEntries (c : PeerClient) (n : Network) : res conn_err unit * Network :=
  let clientAddr := match cID c with Some id => Address id | None => cAddress c end in
  if (length clientAddr =? 0)%nat then (Ok tt, n)
  else match remove_entry (PeerID c) (Some (PubKey c)) n with
  | (Ok _, n) => remove_entry clientAddr None n
  | r => r
  end.

(** PeerClient.Close: the first call wins the swap; later ones do nothing. *)
Definition Close (p : nat) (n : Network) : res conn_err unit * Network :=
  match clients n !! p with
  | None => (Panic, n)
  | Some c =>
    if closed c then (Ok tt, n)
    else
      let n := set_client p set_closed n in
      match RemoveEntries c n with
      | (Ok _, n) => (Ok tt, add_events ((fun comp => EvPeerDisconnect comp p) <$> nComponents n) n)
      | r => r
      end
  end.

(** Network.Close: the components are dropped first, then every client is closed; closing the
    Kill channel twice panics.  [order] is the order in which the map is traversed. *)
Fixpoint close_clients (ps : list nat) (n : Network) : res conn_err unit * Network :=
  match ps with
  | [] => (Ok tt, n)
  | p :: ps =>
    match Close p n with
    | (Panic, n) => (Panic, n)
    | (Err EBlocked, n) => (Err EBlocked, n)
    | (_, n) => close_clients ps n
    end
  end.

Definition NetworkClose (order : list nat) (n : Network) : res conn_err unit * Network :=
  let n := mkNetwork (nAddress n) (nConfig n) (writeBufferSize n) [] (mgr n) (clients n) (conns n)
             (closed_socks n) (datagrams n) (events n) (killed n) in
  match close_clients order n with
  | (Ok _, n) =>
    if killed n then (Panic, n)
    else (Ok tt, mkNetwork (nAddress n) (nConfig n) (writeBufferSize n) (nComponents n) (mgr n) (clients n) (conns n)
                   (closed_socks n) (datagrams n) (events n) true)
  | r => r
  end.

(** ** multiplex.go *)

(** The identity of the next stream: "%s:%d" of the client's address and the counter. *)
Definition stream_id (c : PeerClient) (counter : Z) : key := cAddress c ++ [58] ++ format_uint counter.

(** OpenStream: without streams for the peer it dereferences nil. *)
Definition OpenStream (p : nat) (n : Network) : res conn_err key * Network :=
  match clients n !! p with
  | None => (Panic, n)
  | Some c =>
    match mstreams (mgr n) !! PeerID c with
    | None => (Panic, n)
    | Some stream =>
      let counter := u32 (idIncCounter stream + 1) in
      let id := stream_id c counter in
      let m := mgr n in
      (Ok id, set_mgr (mkConnMgr (peers m) (connections m) (connStates m)
                         (<[PeerID c := mkMulti counter (<[id := 0]> (ms_stream stream))]> (mstreams m)) (nodeQuit m)) n)
    end
  end.

Definition CloseStream (p : nat) (streamID : key) (n : Network) : Network :=
  match clients n !! p with
  | None => n
  | Some c =>
    match mstreams (mgr n) !! PeerID c with
    | None => n
    | Some stream =>
      match ms_stream stream !! streamID with
      | None => n
      | Some _ =>
        let m := mgr n in
        set_mgr (mkConnMgr (peers m) (connections m) (connStates m)
                   (<[PeerID c := mkMulti (idIncCounter stream) (delete streamID (ms_stream stream))]> (mstreams m)) (nodeQuit m)) n
      end
    end
  end.

Definition StreamExist (p : nat) (streamID : key) (n : Network) : bool :=
  match clients n !! p with
  | None => false
  | Some c =>
    match mstreams (mgr n) !! PeerID c with
    | Some stream => bool_decide (is_Some (ms_stream stream !! streamID))
    | None => false
    end
  end.

Definition StreamSendDataCnt (p : nat) (streamID : key) (n : Network) : Z :=
  match clients n !! p with
  | None => 0
  | Some c =>
    match mstreams (mgr n) !! PeerID c with
    | Some stream => default 0 (ms_stream stream !! streamID)
    | None => 0
    end
  end.

(** ** Write *)

Definition with_nonce (nonce : Z) (m : Message) : Message :=
  mkMessage (Payload m) (Sender m) (Signature m) (RequestNonce m) nonce (ReplyFlag m) (Opcode m) (NetID m)
    (MessageID m) (NeedAck m).

(** Sending on the connection [st], by the protocol of this node. *)
Definition send_on (proto : key) (st : ConnState) (message : Message) (n : Network)
    : res conn_err unit * ConnState * Network :=
  let lift r := match r with Ok u => Ok u | Err e => Err (EWire e) | Panic => Panic end in
  if decide (proto = TCP \/ proto = KCP) then
    match cs_sock st with
    | None => (Err ENilConn, st, n)
    | Some _ =>
      let '(r, bw) := sendMessage Marshal (nConfig n) (cs_writer st) message in
      (lift r, mkConnState (cs_sock st) bw (messageNonce st), n)
    end
  else if decide (proto = UDP) then (Ok tt, st, add_datagrams (sendUDPMessage Marshal message) n)
  else if decide (proto = QUIC) then
    let '(r, bw) := sendQuicMessage Marshal (nConfig n) (cs_writer st) message in
    (lift r, mkConnState (cs_sock st) bw (messageNonce st), n)
  else (Ok tt, st, n).

(** Network.Write: the message gets the next nonce of the connection; a send that fails closes
    the client of the peer.  The early return for a nil connection does not. *)
Definition Write (peerID : key) (message : Message) (n : Network) : res conn_err unit * Network :=
  match ConnectionState peerID n with
  | None => (Err ENoConnection, n)
  | Some cs =>
    match conns n !! cs with
    | None => (Panic, n)
    | Some st =>
      let st := mkConnState (cs_sock st) (cs_writer st) (u64 (messageNonce st + 1)) in
      let n := set_conns (<[cs := st]> (conns n)) n in
      let message := with_nonce (messageNonce st) message in
      match Scheme (nAddress n) with
      | None => (Err EAddress, n)
      | Some proto =>
        match send_on proto st message n with
        | (Panic, st, n) => (Panic, n)
        | (Err ENilConn, st, n) => (Err ENilConn, n)
        | (Ok _, st, n) => (Ok tt, set_conns (<[cs := st]> (conns n)) n)
        | (Err e, st, n) =>
          let n := set_conns (<[cs := st]> (conns n)) n in
          match GetPeerClient peerID n with
          | None => (Err e, n)
          | Some p =>
            match Close p n with
            | (Panic, n) => (Panic, n)
            | (Err EBlocked, n) => (Err EBlocked, n)
            | (_, n) => (Err e, n)
            end
          end
        end
      end
    end
  end.

(** ** Connecting *)

(** PeerClient.Tell and TellByAddr, with the message PrepareMessage has signed. *)
Definition Tell (p : nat) (signed : Message) (n : Network) : res conn_err unit * Network :=
  match clients n !! p with
  | None => (Panic, n)
  | Some c => Write (PeerID c) signed n
  end.

Definition TellByAddr (p : nat) (signed : Message) (n : Network) : res conn_err unit * Network :=
  match clients n !! p with
  | None => (Panic, n)
  | Some c => Write (cAddress c) signed n
  end.

(** waitBootstrapSuccess: either the public key of the peer arrives in time, or the client is
    closed. *)
Definition waitBootstrapSuccess (arrives : bool) (p : nat) (n : Network) : bool * Network :=
  if arrives then (true, n) else (false, (Close p n).2).

(** ConnectPeer: [ping] is the signed Ping; the result is the peer's key. *)
Definition ConnectPeer (address : key) (dial : option handle) (ping : Message) (arrives : bool) (n : Network)
    : res conn_err key * Network :=
  if ConnectionStateExists address n then (Ok [], n)
  else if ClientExist address n then (Ok [], n)
  else match Client address [] dial n with
  | (Err e, n) => (Err e, n)
  | (Panic, n) => (Panic, n)
  | (Ok p, n) =>
    match TellByAddr p ping n with
    | (Err e, n) => (Err e, n)
    | (Panic, n) => (Panic, n)
    | (Ok _, n) =>
      let '(ok, n) := waitBootstrapSuccess arrives p n in
      if ok then (Ok match clients n !! p with Some c => PubKey c | None => [] end, n) else (Err EUnreachable, n)
    end
  end.

(** ** Accept: what is done with one received message *)

Inductive accepted :=
| Dispatch (client : nat)  (* handed to dispatchMessage *)
| Quit.                    (* the loop returns *)

Variable VerifySignature : PbID -> list Z -> list Z -> bool.

(** Accept, after receiveMessage has returned [msg] from the connection [incoming]: [proxy] is
    ProxyModeEnable, [dial] the outcome of dialing the sender, [ack] the message PrepareMessage
    makes of the AsyncAckResponse (None when it fails).  AcceptQuic does the same without the
    acknowledgement: [ack] is None. *)
Definition accept_message (proxy : bool) (incoming : handle) (dial : option handle) (ack : option Message)
    (msg : Message) (n : Network) : res conn_err accepted * Network :=
  match Sender msg with
  | None => (Panic, n)
  | Some sender =>
    let id := to_peer_id sender in
    let peerID := hex_encode (NetKey id) in
    match getOrSetPeerClient (Address id) peerID (if proxy then None else Some incoming) dial n with
    | (Panic, n) => (Panic, n)
    | (Err _, n) => (Ok Quit, n)
    | (Ok p, n) =>
      let n := set_client p (set_ID (Some id)) n in
      match clients n !! p with
      | None => (Panic, n)
      | Some client =>
        if negb (ConnectionStateExists (PeerID client) n) then (Ok Quit, n)
        else if match Signature msg with
                | Some sig => negb (VerifySignature sender (Payload msg) sig)
                | None => false
                end then (Ok Quit, n)
        else if negb match cID client with Some cid => Equals cid id | None => false end then (Ok Quit, n)
        else
          match (if EnableAckReply client && negb (length (MessageID msg) =? 0)%nat
                 then match ack with Some a => Write (PeerID client) a n | None => (Ok tt, n) end
                 else (Ok tt, n)) with
          | (Panic, n) => (Panic, n)
          | (Err EBlocked, n) => (Err EBlocked, n)
          | (_, n) => (Ok (Dispatch p), n)
          end
      end
    end
  end.
End manager.

(** ** The invariant *)

Definition client_addr (c : PeerClient) : key :=
  match cID c with Some id => Address id | None => cAddress c end.

(** The client removes the entries under [k] when it is closed. *)
Definition owns (k : key) (c : PeerClient) : Prop :=
  client_addr c <> [] /\
  ((k = PeerID c /\ PeerID c <> []) \/ (PeerID c = [] /\ k = client_addr c)).

(** [q]: a client that is being registered or closed. *)
Record cm_wf_but `{A : AddressOps} (q : option nat) (n : Network) : Prop := {
  wf_peers_conns : forall k, is_Some (peers (mgr n) !! k) <-> is_Some (connections (mgr n) !! k);
  wf_peers_streams : forall k, is_Some (peers (mgr n) !! k) <-> is_Some (mstreams (mgr n) !! k);
  wf_states : forall k, connStates (mgr n) !! k = Some PEER_REACHABLE <-> is_Some (peers (mgr n) !! k);
  wf_client : forall k p, peers (mgr n) !! k = Some p ->
    exists c, clients n !! p = Some c /\ outgoingReady c = true /\ incomingReady c = true /\
      (q <> Some p -> closed c = false /\ owns k c);
  wf_conn : forall k cs, connections (mgr n) !! k = Some cs ->
    exists s w nn, conns n !! cs = Some (mkConnState (Some s) w nn);
  wf_peers_inj : forall k1 k2 p, peers (mgr n) !! k1 = Some p -> peers (mgr n) !! k2 = Some p -> k1 = k2;
  wf_conns_inj : forall k1 k2 cs, connections (mgr n) !! k1 = Some cs -> connections (mgr n) !! k2 = Some cs -> k1 = k2;
  wf_own : exists proto, Scheme (nAddress n) = Some proto /\ known_protocol proto = true;
  wf_nonempty : peers (mgr n) !! [] = None
}.

Abbreviation cm_wf := (cm_wf_but None).

Section invariant.
Context `{A : AddressOps} `{!AddressLaws A} `{C : Codec}.

(** Moving all four entries at once. *)
Definition move {X} (a k : key) (m : gmap key X) : gmap key X :=
  match m !! a with Some x => delete a (<[k := x]> m) | None => m end.

Lemma move_lookup {X} (a k : key) (m : gmap key X) x :
  m !! a = Some x -> a <> k ->
  forall j, move a k m !! j = if decide (j = a) then None else if decide (j = k) then Some x else m !! j.
Proof.
  intros Hx Hne j. unfold move. rewrite Hx. destruct (decide (j = a)) as [->|Hja].
  - by rewrite lookup_delete_eq.
  - rewrite lookup_delete_ne by done. destruct (decide (j = k)) as [->|Hjk].
    + by rewrite lookup_insert_eq.
    + by rewrite lookup_insert_ne.
Qed.

Lemma reset_absent (a k : key) m : peers m !! a = None -> resetConnMgrItemByPeerID a k m = m.
Proof. unfold resetConnMgrItemByPeerID. by intros ->. Qed.

Lemma reset_present (a k : key) m :
  is_Some (peers m !! a) -> is_Some (connections m !! a) -> is_Some (connStates m !! a) -> is_Some (mstreams m !! a) ->
  resetConnMgrItemByPeerID a k m
  = mkConnMgr (move a k (peers m)) (move a k (connections m)) (move a k (connStates m)) (move a k (mstreams m)) (nodeQuit m).
Proof.
  intros [p Hp] [c Hc] [s Hs] [t Ht]. unfold resetConnMgrItemByPeerID, move. rewrite Hp. cbn. rewrite Hc. cbn.
  rewrite Hs. cbn. by rewrite Ht.
Qed.

Lemma move_is_Some {X Y : Type} (a k : key) (m : gmap key X) (m' : gmap key Y) (x : X) (y : Y) :
  a <> k -> m !! a = Some x -> m' !! a = Some y ->
  (forall j, is_Some (m !! j) <-> is_Some (m' !! j)) ->
  forall j, is_Some (move a k m !! j) <-> is_Some (move a k m' !! j).
Proof.
  intros Hne Hx Hy H j. rewrite (move_lookup a k m x Hx Hne), (move_lookup a k m' y Hy Hne).
  destruct (decide (j = a)); [by split; intros [? ?]|]. destruct (decide (j = k)); [done|apply H].
Qed.

(** Re-keying keeps the invariant, except for the ownership of the moved client. *)
Lemma reset_wf (a k : key) n p :
  cm_wf n -> peers (mgr n) !! a = Some p -> a <> k -> k <> [] ->
  cm_wf_but (Some p) (set_mgr (resetConnMgrItemByPeerID a k (mgr n)) n) /\
  peers (resetConnMgrItemByPeerID a k (mgr n)) !! k = Some p.
Proof.
  intros W Hp Hne Hk. pose proof W as [Hpc Hps Hst Hcl Hco Hpi Hci Hown Hnil].
  assert (is_Some (connections (mgr n) !! a)) as [cs Hcs] by (apply Hpc; by exists p).
  assert (is_Some (mstreams (mgr n) !! a)) as [ms Hms] by (apply Hps; by exists p).
  assert (connStates (mgr n) !! a = Some PEER_REACHABLE) as Hsa by (apply Hst; by exists p).
  rewrite reset_present by eauto.
  pose proof (move_lookup a k _ _ Hp Hne) as Lp. pose proof (move_lookup a k _ _ Hcs Hne) as Lc.
  pose proof (move_lookup a k _ _ Hsa Hne) as Ls.
  split; [|cbn; rewrite Lp; by rewrite decide_False, decide_True].
  split; cbn [mgr set_mgr peers connections connStates mstreams clients conns nAddress].
  - by apply (move_is_Some a k _ _ p cs).
  - by apply (move_is_Some a k _ _ p ms).
  - intros j. rewrite Ls, Lp. destruct (decide (j = a)); [split; [done|by intros [? ?]]|].
    destruct (decide (j = k)); [split; [by eexists|done]|apply Hst].
  - intros j q. rewrite Lp. destruct (decide (j = a)); [done|]. destruct (decide (j = k)) as [->|Hjk].
    + intros [= <-]. destruct (Hcl a p Hp) as (c & ? & ? & ? & _). exists c. by split_and!.
    + intros Hq. destruct (Hcl j q Hq) as (c & ? & ? & ? & Ho). exists c. split_and!; try done; intros _; by apply Ho.
  - intros j q. rewrite Lc. destruct (decide (j = a)); [done|]. destruct (decide (j = k)); [|apply Hco].
    intros [= <-]. by apply (Hco a).
  - intros j1 j2 q. rewrite !Lp.
    destruct (decide (j1 = a)), (decide (j2 = a)); try done.
    destruct (decide (j1 = k)), (decide (j2 = k)); subst; try done; [..|by apply Hpi].
    + intros [= <-] Hq. pose proof (Hpi _ _ _ Hq Hp). congruence.
    + intros Hq [= <-]. pose proof (Hpi _ _ _ Hq Hp). congruence.
  - intros j1 j2 q. rewrite !Lc.
    destruct (decide (j1 = a)), (decide (j2 = a)); try done.
    destruct (decide (j1 = k)), (decide (j2 = k)); subst; try done; [..|by apply Hci].
    + intros [= <-] Hq. pose proof (Hci _ _ _ Hq Hcs). congruence.
    + intros Hq [= <-]. pose proof (Hci _ _ _ Hq Hcs). congruence.
  - done.
  - rewrite Lp. destruct (decide ([] = a)); [done|]. rewrite decide_False; done.
Qed.

Lemma set_mgr_id n : set_mgr (mgr n) n = n.
Proof. by destruct n. Qed.

Lemma lookup_app_new {X} (l : list X) x : (l ++ [x]) !! length l = Some x.
Proof. by rewrite lookup_app_r, Nat.sub_diag by lia. Qed.

(** A new client on a known protocol, under a free key. *)
Lemma register_wf u k h c n :
  cm_wf n -> peers (mgr n) !! k = None -> k <> [] ->
  (exists s, Scheme u = Some s /\ known_protocol s = true) -> closed c = false ->
  exists n1, initConnection u k h n = Ok n1 /\
    let '(p, n2) := register_client k c n1 in
    p = length (clients n) /\ cm_wf_but (Some p) n2 /\ peers (mgr n2) !! k = Some p /\
    clients n2 = clients n ++ [mkClient (cAddress c) (cID c) k (closed c) true true (EnableAckReply c)] /\
    conns n2 = conns n ++ [mkConnState (Some (h_sock h)) (NewWriterSize (writeBufferSize n) h) 0] /\
    (forall j, j <> k -> peers (mgr n2) !! j = peers (mgr n) !! j) /\
    events n2 = events n ++ ((fun comp => EvPeerConnect comp p) <$> nComponents n).
Proof.
  intros W Hk Hne (s & Hs & Kn) Hcl0. pose proof W as [Hpc Hps Hst Hcl Hco Hpi Hci Hown Hnil].
  assert (connections (mgr n) !! k = None) as Hck.
  { destruct (connections (mgr n) !! k) eqn:E; [|done]. destruct (proj2 (Hpc k)) as [? ?]; [by eexists|]. congruence. }
  unfold initConnection. rewrite Hs, Kn. eexists. split; [reflexivity|]. unfold register_client.
  cbn [clients set_mgr set_conns set_clients mgr add_events UpdateConnState peers connections connStates mstreams nodeQuit
       conns nComponents events nAddress writeBufferSize].
  rewrite length_app, Nat.add_sub. split; [done|]. split; [|split_and!; [apply lookup_insert_eq|done..| |done]].
  2:{ intros j Hj. by rewrite lookup_insert_ne. }
  split; cbn [clients set_mgr set_conns set_clients mgr add_events UpdateConnState peers connections connStates mstreams
       nodeQuit conns nComponents events nAddress].
  - intros j. rewrite !lookup_insert_is_Some'. by rewrite Hpc.
  - intros j. rewrite !lookup_insert_is_Some'. by rewrite Hps.
  - intros j. destruct (decide (j = k)) as [->|Hj].
    + rewrite !lookup_insert_eq. split; [by eexists|done].
    + rewrite !lookup_insert_ne by done. apply Hst.
  - intros j q Hq. apply lookup_insert_Some in Hq as [[<- <-]|[Hj Hq]].
    + eexists. rewrite lookup_app_new. split_and!; [done..|]. done.
    + destruct (Hcl j q Hq) as (c' & L & ? & ? & Ho). exists c'.
      split_and!; [by apply lookup_app_l_Some|done..|]. intros _. by apply Ho.
  - intros j cs Hq. apply lookup_insert_Some in Hq as [[<- <-]|[Hj Hq]].
    + rewrite lookup_app_new. by do 3 eexists.
    + destruct (Hco j cs Hq) as (s1 & w & nn & L). do 3 eexists. by apply lookup_app_l_Some.
  - assert (forall j q, peers (mgr n) !! j = Some q -> (q < length (clients n))%nat) as Hb.
    { intros j q Hq. destruct (Hcl j q Hq) as (c' & L & _). by apply lookup_lt_Some in L. }
    intros j1 j2 q H1 H2. apply lookup_insert_Some in H1 as [[<- <-]|[Hj1 H1]], H2 as [[<- E2]|[Hj2 H2]]; try done; [..|by eapply Hpi].
    + apply Hb in H2. lia.
    + apply Hb in H1. lia.
  - assert (forall j q, connections (mgr n) !! j = Some q -> (q < length (conns n))%nat) as Hb.
    { intros j q Hq. destruct (Hco j q Hq) as (s1 & w & nn & L). by apply lookup_lt_Some in L. }
    intros j1 j2 q H1 H2. apply lookup_insert_Some in H1 as [[<- <-]|[Hj1 H1]], H2 as [[<- E2]|[Hj2 H2]]; try done; [..|by eapply Hci].
    + apply Hb in H2. lia.
    + apply Hb in H1. lia.
  - done.
  - by rewrite lookup_insert_ne by congruence.
Qed.

Lemma cm_wf_weaken q n : cm_wf n -> cm_wf_but q n.
Proof.
  intros [? ? ? Hcl ? ? ? ? ?]. split; try done.
  intros j p Hp. destruct (Hcl j p Hp) as (c & ? & ? & ? & Ho). exists c. split_and!; [done..|]. intros _. by apply Ho.
Qed.

Definition entry_key (address peerID : key) : key := if decide (peerID = []) then address else peerID.

(** The address of the peer has a protocol the manager knows. *)
Definition known_address (address : key) : Prop :=
  forall u, ToUnified address = Some u -> exists s, Scheme u = Some s /\ known_protocol s = true.

Lemma reset_self n (a k : key) : peers (mgr n) !! a = None -> set_mgr (resetConnMgrItemByPeerID a k (mgr n)) n = n.
Proof. intros H. by rewrite reset_absent, set_mgr_id. Qed.

Lemma getOrSet_wf address peerID conn dial n :
  cm_wf n -> known_address address ->
  let k := entry_key address peerID in
  exists r n', getOrSetPeerClient address peerID conn dial n = (r, n') /\ r <> Panic /\
    (forall e, r = Err e -> n' = n) /\
    (forall p, r = Ok p -> cm_wf_but (Some p) n' /\ peers (mgr n') !! k = Some p /\ k <> [] /\ address <> [] /\
       exists c, clients n' !! p = Some c /\ closed c = false).
Proof.
  intros W Hkn k. unfold getOrSetPeerClient. fold (entry_key address peerID). fold k.
  destruct (ToUnified address) as [u|] eqn:U; [|eexists _, _; by split_and!].
  assert (address <> []) as Hane by (intros ->; by rewrite unified_empty in U).
  assert (k <> []) as Hkne by (unfold k, entry_key; by destruct (decide (peerID = []))).
  destruct (decide (u = nAddress n)); [eexists _, _; by split_and!|].
  destruct (Hkn u U) as (s & Hs & Kn). unfold createPeerClient. rewrite Hs.
  set (n1 := if decide (u <> k) then _ else n).
  assert ((n1 = n /\ (u <> k -> peers (mgr n) !! u = None)) \/
          (exists p c, cm_wf_but (Some p) n1 /\ peers (mgr n1) !! k = Some p /\
             clients n1 !! p = Some c /\ closed c = false)) as [[-> Hu]|(p & c & W1 & Hp & Lc & Cc)].
  { unfold n1. destruct (decide (u <> k)); [|left; by split].
    destruct (peers (mgr n) !! u) as [p|] eqn:Hp; [|left; by rewrite reset_self].
    destruct (wf_client _ _ W u p Hp) as (c & Lc & _ & _ & [Cc _]); [done|].
    right. exists p, c. destruct (reset_wf u k n p) as [W1 P1]; [done..|]. by split_and!. }
  - destruct (peers (mgr n) !! k) as [p|] eqn:Hp.
    + destruct (wf_client _ _ W k p Hp) as (c & Lc & Oc & _ & [Cc _]); [done|]. rewrite Lc, Oc.
      eexists _, _. split_and!; [done..|]. intros q [= <-]. split_and!; eauto using cm_wf_weaken.
    + destruct (match conn with Some h => _ | None => None end) as [h|] eqn:Ec; [|destruct dial as [h|]];
        [| |eexists _, _; split_and!; [reflexivity|done| |done]].
      3:{ intros e _. rewrite delete_id by done. destruct n as [a b c d m]. by destruct m. }
      all: destruct (register_wf u k h (mkClient u None [] false false false false) n W Hp Hkne) as (n2 & -> & R); [by exists s|done|];
        destruct (register_client k _ n2) as [p n3]; destruct R as (-> & W3 & P3 & C3 & _); eexists _, _;
        (split_and!; [reflexivity|done|done|]; intros q [= <-]; split_and!; try done;
         eexists; by rewrite C3, lookup_app_new).
  - rewrite Hp. destruct (wf_client _ _ W1 k p Hp) as (c' & Lc' & Oc' & _). rewrite Lc', Oc'.
    eexists _, _. split_and!; [done..|]. intros q [= <-]. split_and!; eauto.
Qed.

(** ** Removal *)

(** What remove_entry does to a key that is in use. *)
Lemma remove_entry_spec q k notify n cs :
  cm_wf_but q n -> connections (mgr n) !! k = Some cs ->
  exists r n' s, remove_entry k notify n = (r, n') /\ (r = Ok tt \/ r = Err EBlocked /\ (nodeQuit_cap <= length (nodeQuit (mgr n)))%nat /\ notify <> None) /\
    peers (mgr n') = delete k (peers (mgr n)) /\ connections (mgr n') = delete k (connections (mgr n)) /\
    mstreams (mgr n') = delete k (mstreams (mgr n)) /\
    connStates (mgr n') = <[k := PEER_UNREACHABLE]> (connStates (mgr n)) /\
    clients n' = clients n /\ nAddress n' = nAddress n /\ nComponents n' = nComponents n /\ events n' = events n /\
    (exists w nn, conns n !! cs = Some (mkConnState (Some s) w nn)) /\ s ∈ closed_socks n' /\ closed_socks n ⊆ closed_socks n' /\
    (forall j, j <> cs -> conns n' !! j = conns n !! j) /\
    (r = Ok tt -> nodeQuit (mgr n') = nodeQuit (mgr n) ++ match notify with Some i => [i] | None => [] end).
Proof.
  intros W Hcs. destruct (wf_conn _ _ W k cs Hcs) as (s & w & nn & L). destruct (wf_own _ _ W) as (proto & Hp & Kn).
  unfold remove_entry, ConnectionState. rewrite Hcs, Hp, Kn, L.
  destruct notify as [i|].
  - cbn [mgr set_mgr close_sock nodeQuit UpdateConnState]. destruct (Nat.leb_spec nodeQuit_cap (length (nodeQuit (mgr n)))).
    + eexists _, _, s. split; [reflexivity|]. split; [by right|]. cbn. split_and!; eauto; try set_solver; done.
    + eexists _, _, s. split; [reflexivity|]. split; [by left|]. cbn. split_and!; eauto; try set_solver.
      intros j Hj. by rewrite list_lookup_alter_ne.
  - eexists _, _, s. split; [reflexivity|]. split; [by left|]. cbn. split_and!; eauto; try set_solver.
    + intros j Hj. by rewrite list_lookup_alter_ne.
    + intros _. by rewrite app_nil_r.
Qed.

Lemma remove_entry_absent k notify n : connections (mgr n) !! k = None -> remove_entry k notify n = (Ok tt, n).
Proof. unfold remove_entry, ConnectionState. by intros ->. Qed.

(** Deleting a key from all maps keeps the invariant. *)
Lemma delete_wf_but q k n n' cs :
  cm_wf_but q n -> connections (mgr n) !! k = Some cs ->
  peers (mgr n') = delete k (peers (mgr n)) -> connections (mgr n') = delete k (connections (mgr n)) ->
  mstreams (mgr n') = delete k (mstreams (mgr n)) ->
  connStates (mgr n') = <[k := PEER_UNREACHABLE]> (connStates (mgr n)) ->
  clients n' = clients n -> nAddress n' = nAddress n ->
  (forall j, j <> cs -> conns n' !! j = conns n !! j) ->
  cm_wf_but q n'.
Proof.
  intros [Hpc Hps Hst Hcl Hco Hpi Hci Hown Hnil] Hcs Ep Ec Em Es Ecl Ea Ek.
  split; rewrite ?Ep, ?Ec, ?Em, ?Es, ?Ecl, ?Ea; try done.
  - intros j. rewrite !lookup_delete_is_Some. by rewrite Hpc.
  - intros j. rewrite !lookup_delete_is_Some. by rewrite Hps.
  - intros j. destruct (decide (j = k)) as [->|Hj].
    + rewrite lookup_insert_eq, lookup_delete_eq. split; [done|by intros [? ?]].
    + rewrite lookup_insert_ne, lookup_delete_ne by done. apply Hst.
  - intros j p [_ Hp]%lookup_delete_Some. by apply Hcl.
  - intros j c [Hj Hc]%lookup_delete_Some. rewrite Ek; [by apply (Hco j)|].
    intros ->. apply Hj. by apply (Hci k j cs).
  - intros j1 j2 p [_ H1]%lookup_delete_Some [_ H2]%lookup_delete_Some. by eapply Hpi.
  - intros j1 j2 p [_ H1]%lookup_delete_Some [_ H2]%lookup_delete_Some. by eapply Hci.
  - apply lookup_delete_None. by right.
Qed.

(** A registered client that is being closed is well out of the way once its key is deleted. *)
Lemma wf_but_done p n : cm_wf_but (Some p) n -> (forall k, peers (mgr n) !! k <> Some p) -> cm_wf n.
Proof.
  intros [? ? ? Hcl ? ? ? ? ?] Hno. split; try done.
  intros j q Hq. destruct (Hcl j q Hq) as (c & ? & ? & ? & Ho). exists c. split_and!; [done..|].
  intros _. apply Ho. intros [= ->]. by apply (Hno j).
Qed.

Lemma closing_wf p c n :
  cm_wf n -> clients n !! p = Some c -> cm_wf_but (Some p) (set_client p set_closed n).
Proof.
  intros [? ? ? Hcl ? ? ? ? ?] L. split; cbn; try done.
  intros j q Hq. destruct (Hcl j q Hq) as (c' & L' & ? & ? & Ho). destruct (decide (q = p)) as [->|Hne].
  - rewrite list_lookup_alter_eq, L. simplify_eq. eexists. split; [done|]. by split_and!.
  - rewrite list_lookup_alter_ne by done. exists c'. split_and!; [done..|]. intros _. by apply Ho.
Qed.

(** A removal of any key keeps the invariant. *)
Lemma remove_entry_wf q k notify n r n' :
  cm_wf_but q n -> remove_entry k notify n = (r, n') ->
  cm_wf_but q n' /\ r <> Panic /\ clients n' = clients n /\ nComponents n' = nComponents n /\
  peers (mgr n') = delete k (peers (mgr n)) /\ (nAddress n' = nAddress n).
Proof.
  intros W E. destruct (connections (mgr n) !! k) as [cs|] eqn:Hcs.
  - destruct (remove_entry_spec q k notify n cs W Hcs) as (r1 & n1 & s & E1 & Hr & Ep & Ec & Em & Es & Ecl & Ea & Eco & _ & _ & _ & _ & Ek & _).
    rewrite E in E1. injection E1 as <- <-. split_and!; try done.
    + by eapply delete_wf_but.
    + by destruct Hr as [->|[-> _]].
  - rewrite remove_entry_absent in E by done. injection E as <- <-. split_and!; try done.
    rewrite delete_id; [done|]. destruct (peers (mgr n) !! k) eqn:Hp; [|done].
    destruct (proj1 (wf_peers_conns _ _ W k)) as [? ?]; [by eexists|]. congruence.
Qed.

(** Closing any allocated client keeps the invariant, whether it completes or blocks. *)
Lemma Close_wf p n :
  cm_wf n -> is_Some (clients n !! p) ->
  exists r n', Close p n = (r, n') /\ r <> Panic /\ cm_wf n' /\ length (clients n') = length (clients n).
Proof.
  intros W [c L]. unfold Close. rewrite L. destruct (closed c) eqn:Cc; [eexists _, _; by split_and!|].
  pose proof (closing_wf p c n W L) as W1. set (n1 := set_client p set_closed n) in *.
  assert (length (clients n1) = length (clients n)) as Len1 by (cbn; apply length_alter).
  assert (forall k, peers (mgr n) !! k = Some p -> owns k c) as Ho.
  { intros k Hk. destruct (wf_client _ _ W k p Hk) as (c' & L' & _ & _ & Ho). simplify_eq. by apply Ho. }
  assert (cm_wf_but (Some p) n1 -> (forall k, peers (mgr n1) !! k <> Some p) -> cm_wf n1) as Done1 by apply wf_but_done.
  unfold RemoveEntries. fold (client_addr c). destruct (Nat.eqb_spec (length (client_addr c)) 0) as [Z0|Z0].
  { eexists _, _. split_and!; [reflexivity|done| |done].
    assert (cm_wf n1) as W2; [|by destruct W2; split]. apply Done1; [done|]. intros k Hk.
    apply nil_length_inv in Z0. destruct (Ho k Hk) as [Ha _]. done. }
  destruct (remove_entry (PeerID c) (Some (PubKey c)) n1) as [r2 n2] eqn:E2.
  destruct (remove_entry_wf _ _ _ _ _ _ W1 E2) as (W2 & P2 & C2 & Co2 & D2 & A2).
  assert (forall k, peers (mgr n2) !! k = Some p -> PeerID c = [] /\ k = client_addr c) as Left.
  { intros k Hk. rewrite D2 in Hk. apply lookup_delete_Some in Hk as [Hne Hk].
    destruct (Ho k Hk) as [_ [[-> _]|?]]; [done|done]. }
  destruct r2 as [[]|e|]; [| |done].
  - destruct (remove_entry (client_addr c) None n2) as [r3 n3] eqn:E3.
    destruct (remove_entry_wf _ _ _ _ _ _ W2 E3) as (W3 & P3 & C3 & Co3 & D3 & A3).
    assert (cm_wf n3) as W4.
    { apply (wf_but_done p); [done|]. intros k Hk. rewrite D3 in Hk. apply lookup_delete_Some in Hk as [Hne Hk].
      destruct (Left k Hk) as [_ ->]. done. }
    assert (length (clients n3) = length (clients n)) by (by rewrite C3, C2).
    destruct r3 as [[]|e|]; [| |done]; (eexists _, _; split_and!; [reflexivity|done| |done]); [|done].
    by destruct W4; split.
  - eexists _, _. split_and!; [reflexivity|done| |by rewrite C2].
    apply (wf_but_done p); [done|]. intros k Hk. destruct (Left k Hk) as [Hnil _].
    rewrite Hnil in E2. rewrite remove_entry_absent in E2; [done|].
    destruct (connections (mgr n1) !! []) eqn:Hc; [|done].
    destruct (proj2 (wf_peers_conns _ _ W1 [])) as [? Hx]; [by eexists|]. by rewrite (wf_nonempty _ _ W1) in Hx.
Qed.

(** ** The other operations *)

Lemma owner_wf p k c n :
  cm_wf_but (Some p) n -> peers (mgr n) !! k = Some p -> clients n !! p = Some c -> closed c = false -> owns k c ->
  cm_wf n.
Proof.
  intros [? ? ? Hcl ? Hpi ? ? ?] Hk L Cc Ho. split; try done.
  intros j q Hq. destruct (Hcl j q Hq) as (c' & L' & ? & ? & Ho'). exists c'. split_and!; [done..|]. intros _.
  destruct (decide (q = p)) as [->|Hne]; [|apply Ho'; congruence].
  rewrite (Hpi j k p Hq Hk). simplify_eq. done.
Qed.

Lemma set_ID_wf p id c n :
  cm_wf_but (Some p) n -> clients n !! p = Some c -> cm_wf_but (Some p) (set_client p (set_ID id) n).
Proof.
  intros [? ? ? Hcl ? ? ? ? ?] L. split; cbn; try done.
  intros j q Hq. destruct (Hcl j q Hq) as (c' & L' & ? & ? & Ho). destruct (decide (q = p)) as [->|Hne].
  - rewrite list_lookup_alter_eq, L. simplify_eq. eexists. split; [done|]. by split_and!.
  - rewrite list_lookup_alter_ne by done. by exists c'.
Qed.

(** Replacing a connection state by one with the same socket. *)
Lemma set_conn_wf cs s w nn w' nn' n :
  cm_wf n -> conns n !! cs = Some (mkConnState (Some s) w nn) ->
  cm_wf (set_conns (<[cs := mkConnState (Some s) w' nn']> (conns n)) n).
Proof.
  intros [? ? ? ? Hco ? ? ? ?] L. split; cbn; try done.
  intros j c Hc. destruct (decide (c = cs)) as [->|Hne].
  - rewrite list_lookup_insert_eq by (by eapply lookup_lt_Some). by do 3 eexists.
  - rewrite list_lookup_insert_ne by done. by apply (Hco j).
Qed.

(** The invariant does not look at the datagrams, the callbacks, the quit channel. *)
Lemma wf_frame n n' :
  cm_wf n -> peers (mgr n') = peers (mgr n) -> connections (mgr n') = connections (mgr n) ->
  connStates (mgr n') = connStates (mgr n) -> (forall k, is_Some (mstreams (mgr n') !! k) <-> is_Some (mstreams (mgr n) !! k)) ->
  clients n' = clients n -> conns n' = conns n -> nAddress n' = nAddress n -> cm_wf n'.
Proof.
  intros [Hpc Hps ? ? ? ? ? ? ?] Ep Ec Es Em Ecl Eco Ea.
  split; rewrite ?Ep, ?Ec, ?Es, ?Ecl, ?Eco, ?Ea; try done. intros k. by rewrite Em, Hps.
Qed.

Section step.
Variable Marshal : Message -> option (list Z).
Variable VerifySignature : PbID -> list Z -> list Z -> bool.

Lemma send_on_sock proto st message n r st' n' :
  send_on Marshal proto st message n = (r, st', n') ->
  cs_sock st' = cs_sock st /\ mgr n' = mgr n /\ clients n' = clients n /\ conns n' = conns n /\ nAddress n' = nAddress n.
Proof.
  unfold send_on. destruct (decide (proto = TCP \/ proto = KCP)).
  - destruct (cs_sock st) eqn:S; [|by intros [= <- <- <-]].
    destruct (sendMessage Marshal (nConfig n) (cs_writer st) message) as [r0 bw]. by intros [= <- <- <-].
  - destruct (decide (proto = UDP)); [by intros [= <- <- <-]|].
    destruct (decide (proto = QUIC)); [|by intros [= <- <- <-]].
    destruct (sendQuicMessage Marshal (nConfig n) (cs_writer st) message) as [r0 bw]. by intros [= <- <- <-].
Qed.

Lemma Write_wf peerID message n r n' :
  cm_wf n -> Write Marshal peerID message n = (r, n') -> r <> Panic ->
  cm_wf n' /\ length (clients n') = length (clients n).
Proof.
  intros W. unfold Write. unfold ConnectionState. destruct (connections (mgr n) !! peerID) as [cs|] eqn:Hcs; [|by intros [= <- <-]].
  destruct (wf_conn _ _ W _ _ Hcs) as (s & w & nn & L). rewrite L. cbn [cs_sock cs_writer messageNonce].
  set (st1 := mkConnState (Some s) w (u64 (nn + 1))).
  pose proof (set_conn_wf cs s w nn w (u64 (nn + 1)) n W L) as W1. fold st1 in W1.
  set (n1 := set_conns (<[cs := st1]> (conns n)) n) in *.
  assert (conns n1 !! cs = Some st1) as L1.
  { cbn. rewrite list_lookup_insert_eq; [done|]. by eapply lookup_lt_Some. }
  destruct (Scheme (nAddress n1)) as [proto|]; [|by intros [= <- <-]].
  destruct (send_on Marshal proto st1 (with_nonce (u64 (nn + 1)) message) n1) as [[r2 st2] n2] eqn:S.
  apply send_on_sock in S as (Hs & Hm & Hc & Hco & Ha).
  assert (cm_wf n2) as W2 by (apply (wf_frame n1); try done; [by rewrite ?Hm..|intros k; by rewrite Hm]).
  assert (cm_wf (set_conns (<[cs := st2]> (conns n2)) n2)) as W3.
  { destruct st2 as [s2 w2 nn2]. cbn in Hs. subst s2. eapply set_conn_wf; [done|]. by rewrite Hco. }
  set (n3 := set_conns (<[cs := st2]> (conns n2)) n2) in *.
  assert (length (clients n3) = length (clients n)) as Len3 by (by cbn; rewrite Hc).
  assert (length (clients n2) = length (clients n)) as Len2 by (by rewrite Hc).
  assert (forall e, (match GetPeerClient peerID n3 with
                     | Some p => match Close p n3 with
                                 | (Panic, n) => (Panic, n)
                                 | (Err EBlocked, n) => (Err EBlocked, n)
                                 | (_, n) => (Err e, n)
                                 end
                     | None => (Err e, n3)
                     end) = (r, n') -> r <> Panic -> cm_wf n' /\ length (clients n') = length (clients n)) as Fin.
  { intros e. unfold GetPeerClient. destruct (peers (mgr n3) !! peerID) as [p|] eqn:Hp; [|by intros [= <- <-]].
    destruct (wf_client _ _ W3 _ _ Hp) as (c & Lc & _).
    destruct (Close_wf p n3 W3 ltac:(by exists c)) as (r4 & n4 & E4 & P4 & W4 & Len4). rewrite E4.
    destruct r4 as [[]|e4|]; [by intros [= <- <-]; rewrite Len4| |done].
    destruct e4; intros [= <- <-]; by rewrite Len4. }
  destruct r2 as [u|e|]; [by intros [= <- <-]| |by intros [= <- <-]].
  destruct e; try (by apply Fin). by intros [= <- <-].
Qed.

(** One step of the connection manager.  Outgoing connections are made to unified addresses
    and messages come from senders whose address has a known protocol. *)
Inductive cm_step : Network -> Network -> Prop :=
| step_connect a dial n r n' :
    ToUnified a = Some a -> known_address a -> Client a [] dial n = (r, n') -> cm_step n n'
| step_accept proxy incoming dial ack msg sender n r n' :
    Sender msg = Some sender -> known_address (pbAddress sender) ->
    accept_message Marshal VerifySignature proxy incoming dial ack msg n = (r, n') -> r <> Panic -> cm_step n n'
| step_close p n r n' : is_Some (clients n !! p) -> Close p n = (r, n') -> cm_step n n'
| step_write k message n r n' : Write Marshal k message n = (r, n') -> r <> Panic -> cm_step n n'
| step_open p n r n' : OpenStream p n = (r, n') -> cm_step n n'
| step_close_stream p sid n : cm_step n (CloseStream p sid n)
| step_quit k q n : nodeQuit (mgr n) = k :: q ->
    cm_step n (set_mgr (mkConnMgr (peers (mgr n)) (connections (mgr n)) (connStates (mgr n)) (mstreams (mgr n)) q) n).

Inductive cm_reachable (n0 : Network) : Network -> Prop :=
| cm_refl : cm_reachable n0 n0
| cm_next n n' : cm_reachable n0 n -> cm_step n n' -> cm_reachable n0 n'.

Lemma connect_wf a dial n r n' :
  cm_wf n -> ToUnified a = Some a -> known_address a -> Client a [] dial n = (r, n') -> cm_wf n'.
Proof.
  intros W U Kn. unfold Client.
  destruct (getOrSet_wf a [] None dial n W Kn) as (r1 & n1 & E1 & P1 & Err1 & Ok1). rewrite E1. intros [= <- <-].
  destruct r1 as [p|e|]; [|by rewrite (Err1 e eq_refl)|done].
  destruct (Ok1 p eq_refl) as (W1 & Hk & _ & Ha & c & L & Cc). change (entry_key a []) with a in Hk.
  unfold getOrSetPeerClient in E1. rewrite U in E1. destruct (decide (a = nAddress n)); [done|].
  destruct (Kn a U) as (s & Hs & Kp). unfold createPeerClient in E1. rewrite Hs in E1.
  change (if decide ([] = []) then a else []) with a in E1. rewrite decide_False in E1 by tauto.
  destruct (peers (mgr n) !! a) as [p0|] eqn:Hp0.
  - destruct (clients n !! p0) as [c0|]; [|done]. destruct (outgoingReady c0); [|done]. by injection E1 as _ <-.
  - destruct dial as [h|]; [|done].
    destruct (register_wf a a h (mkClient a None [] false false false false) n W Hp0 Ha) as (n2 & E2 & R); [by exists s|done|].
    rewrite E2 in E1. destruct (register_client a _ n2) as [p3 n3]. destruct R as (-> & W3 & P3 & C3 & _).
    injection E1 as <- <-. rewrite C3, lookup_app_new in L. injection L as <-.
    eapply owner_wf; [exact W3|exact Hk|by rewrite C3, lookup_app_new|done|]. split; [done|]. by right.
Qed.

Lemma accept_wf proxy incoming dial ack msg sender n r n' :
  cm_wf n -> Sender msg = Some sender -> known_address (pbAddress sender) ->
  accept_message Marshal VerifySignature proxy incoming dial ack msg n = (r, n') -> r <> Panic -> cm_wf n'.
Proof.
  intros W Hs Kn. unfold accept_message. rewrite Hs. set (id := to_peer_id sender).
  destruct (getOrSet_wf (Address id) (hex_encode (NetKey id)) (if proxy then None else Some incoming) dial n W Kn)
    as (r1 & n1 & -> & P1 & Err1 & Ok1).
  destruct r1 as [p|e|]; [|intros [= <- <-]; by rewrite (Err1 e eq_refl)|done].
  destruct (Ok1 p eq_refl) as (W1 & Hk & Hkne & Ha & c & L & Cc).
  pose proof (set_ID_wf p (Some id) c n1 W1 L) as W2. set (n2 := set_client p (set_ID (Some id)) n1) in *.
  assert (clients n2 !! p = Some (set_ID (Some id) c)) as L2 by (cbn; by rewrite list_lookup_alter_eq, L).
  assert (cm_wf n2) as W3.
  { eapply owner_wf; [exact W2|exact Hk|exact L2|exact Cc|]. split; [exact Ha|].
    unfold entry_key, PeerID. cbn [cID set_ID]. destruct (decide (hex_encode (NetKey id) = [])); [by right|by left]. }
  rewrite L2. clearbody n2. clear - W3 AddressLaws0.
  destruct (negb _); [by intros [= <- <-]|]. destruct (match Signature msg with Some _ => _ | None => _ end); [by intros [= <- <-]|].
  destruct (negb _); [by intros [= <- <-]|].
  destruct (if EnableAckReply (set_ID (Some id) c) && _ then match ack with Some a => _ | None => (Ok tt, n2) end else (Ok tt, n2))
    as [r4 n4] eqn:E4. intros E Hr.
  enough (r4 <> Panic -> cm_wf n4) as Hn4 by (destruct r4 as [[]|[]|]; simplify_eq; by apply Hn4).
  intros H4. destruct (_ && _); [|by injection E4 as <- <-]. destruct ack as [a|]; [|by injection E4 as <- <-].
  by apply Write_wf in E4 as [? _].
Qed.

Lemma cm_step_wf n n' : cm_wf n -> cm_step n n' -> cm_wf n'.
Proof.
  intros W S. destruct S as [a dial n r n' U Kn E|proxy inc dial ack msg sender n r n' Hs Kn E Hr|p n r n' L E
    |k m n r n' E Hr|p n r n' E|p sid n|k q n _].
  - by eapply connect_wf.
  - by eapply accept_wf.
  - destruct (Close_wf p n W L) as (r1 & n1 & E1 & _ & W1 & _). congruence.
  - by apply Write_wf in E as [? _].
  - unfold OpenStream in E. destruct (clients n !! p) as [c|]; [|by injection E as _ <-].
    destruct (mstreams (mgr n) !! PeerID c) as [ms|] eqn:Hm; [|by injection E as _ <-].
    injection E as _ <-. apply (wf_frame n); try done. intros k. cbn. rewrite lookup_insert_is_Some'.
    split; [|by right]. intros [<-|?]; [by eexists|done].
  - unfold CloseStream. destruct (clients n !! p) as [c|]; [|done].
    destruct (mstreams (mgr n) !! PeerID c) as [ms|] eqn:Hm; [|done]. destruct (ms_stream ms !! sid); [|done].
    apply (wf_frame n); try done. intros k. cbn. rewrite lookup_insert_is_Some'.
    split; [|by right]. intros [<-|?]; [by eexists|done].
  - by apply (wf_frame n).
Qed.

Lemma cm_reachable_wf n0 n : cm_wf n0 -> cm_reachable n0 n -> cm_wf n.
Proof. intros W. induction 1; eauto using cm_step_wf. Qed.
End step.
End invariant.

(** ** The network as Build leaves it *)

Definition NewNetwork (address : key) (config : net_config) (wbs : Z) (comps : list nat) : Network :=
  mkNetwork address config wbs comps (mkConnMgr ∅ ∅ ∅ ∅ []) [] [] ∅ [] [] false.

Lemma NewNetwork_wf `{A : AddressOps} address config wbs comps proto :
  Scheme address = Some proto -> known_protocol proto = true -> cm_wf (NewNetwork address config wbs comps).
Proof.
  intros Hs Kn. split; cbn; [..|by exists proto|done]; intros *; rewrite ?lookup_empty; try done.
Qed.

Lemma sizes_agree {X Y : Type} (m : gmap key X) (m' : gmap key Y) :
  (forall k, is_Some (m !! k) <-> is_Some (m' !! k)) -> size m = size m'.
Proof. intros H. rewrite <- !size_dom. f_equal. apply set_eq. intros k. by rewrite !elem_of_dom. Qed.


(** An address book for examples: unified addresses start with their scheme. *)
#[local] Instance toy_addresses : AddressOps := {
  ToUnified a := match a with [] => None | [99] => Some [98] | _ => Some a end;
  Scheme a := match a with [] => None | _ => Some TCP end }.

#[local] Instance toy_address_laws : AddressLaws toy_addresses.
Proof.
  by split.
Qed.

Definition toy_net : Network := NewNetwork [9] (mkNetConfig 5 false 0 0) 64 [7%nat].
Definition toy_handle : handle := mkHandle 42 false [].


(** What RemoveEntries has done for the entries under [k], of which [cs] was the connection. *)
Definition removed (k : key) (cs : nat) (n n' : Network) : Prop :=
  peers (mgr n') !! k = None /\ connections (mgr n') !! k = None /\ mstreams (mgr n') !! k = None /\
  clients n' = clients n /\ nComponents n' = nComponents n /\ events n' = events n /\
  exists s w nn, conns n !! cs = Some (mkConnState (Some s) w nn) /\ s ∈ closed_socks n'.

Section removal.
Context `{A : AddressOps} `{!AddressLaws A}.

Lemma remove_entry_removed q k notify n cs :
  cm_wf_but q n -> connections (mgr n) !! k = Some cs ->
  (length (nodeQuit (mgr n)) < nodeQuit_cap)%nat \/ notify = None ->
  exists n', remove_entry k notify n = (Ok tt, n') /\ removed k cs n n' /\
    nodeQuit (mgr n') = nodeQuit (mgr n) ++ match notify with Some i => [i] | None => [] end.
Proof.
  intros W Hcs Hroom. destruct (remove_entry_spec q k notify n cs W Hcs)
    as (r & n' & s & E & Hr & Ep & Ec & Em & _ & Ecl & _ & Eco & Eev & (w & nn & Ls) & Hs & _ & _ & Eq).
  destruct Hr as [->|(-> & Hfull & Hno)]; [|destruct Hroom; [lia|done]].
  exists n'. split_and!; [done| |by apply Eq]. unfold removed. rewrite Ep, Ec, Em.
  split_and!; try done; [apply lookup_delete_eq..|]. by exists s, w, nn.
Qed.

(** Removing another key, or the same one again, keeps what has been removed. *)
Lemma removed_again q k cs n n1 j :
  cm_wf_but q n1 -> removed k cs n n1 ->
  exists n2, remove_entry j None n1 = (Ok tt, n2) /\ removed k cs n n2 /\ nodeQuit (mgr n2) = nodeQuit (mgr n1).
Proof.
  intros W1 (Hp & Hc & Hm & Hcl & Hco & Hev & s & w & nn & Ls & Hs).
  destruct (connections (mgr n1) !! j) as [cs2|] eqn:H2.
  - destruct (remove_entry_spec q j None n1 cs2 W1 H2)
      as (r & n2 & s2 & E & Hr & Ep & Ec & Em & _ & Ecl & _ & Eco & Eev & _ & _ & Hsub & _ & Eq).
    destruct Hr as [->|(_ & _ & ?)]; [|done]. exists n2. split_and!; [done| |by rewrite Eq, app_nil_r].
    unfold removed. rewrite Ep, Ec, Em, Ecl, Eco, Eev.
    split_and!; try done; [apply lookup_delete_None; by right..|]. exists s, w, nn. split; [done|set_solver].
  - rewrite remove_entry_absent by done. exists n1. split_and!; [done| |done]. unfold removed. split_and!; eauto 6.
Qed.

Lemma RemoveEntries_removed q k c n cs :
  cm_wf_but q n -> owns k c -> connections (mgr n) !! k = Some cs -> (length (nodeQuit (mgr n)) < nodeQuit_cap)%nat ->
  exists n', RemoveEntries c n = (Ok tt, n') /\ removed k cs n n' /\
    (PeerID c <> [] -> nodeQuit (mgr n') = nodeQuit (mgr n) ++ [PubKey c]).
Proof.
  intros W [Ha Hown] Hcs Hroom. unfold RemoveEntries. fold (client_addr c).
  destruct (Nat.eqb_spec (length (client_addr c)) 0) as [Z0|_]; [by apply nil_length_inv in Z0|].
  destruct Hown as [[-> Hne]|[Hnil ->]].
  - destruct (remove_entry_removed q (PeerID c) (Some (PubKey c)) n cs W Hcs) as (n1 & E1 & R1 & Q1); [by left|].
    assert (cm_wf_but q n1) as W1 by (eapply remove_entry_wf; [exact W|exact E1]).
    destruct (removed_again q _ cs n n1 (client_addr c) W1 R1) as (n2 & E2 & R2 & Q2).
    exists n2. rewrite E1, E2. split_and!; [done..|]. intros _. by rewrite Q2, Q1.
  - rewrite Hnil, remove_entry_absent.
    2:{ destruct (connections (mgr n) !! []) eqn:Hc; [|done].
        destruct (proj2 (wf_peers_conns _ _ W [])) as [? Hx]; [by eexists|]. by rewrite (wf_nonempty _ _ W) in Hx. }
    destruct (remove_entry_removed q (client_addr c) None n cs W Hcs) as (n1 & E1 & R1 & Q1); [by right|].
    exists n1. by split_and!.
Qed.

Lemma close_registered n k p c cs :
  cm_wf n -> GetPeerClient k n = Some p -> clients n !! p = Some c -> ConnectionState k n = Some cs ->
  (length (nodeQuit (mgr n)) < nodeQuit_cap)%nat ->
  exists n' s w nn, Close p n = (Ok tt, n') /\
    GetPeerClient k n' = None /\ ConnectionState k n' = None /\ mstreams (mgr n') !! k = None /\
    GetRealConnState k n' = (PEER_UNREACHABLE, Some EUnreachable) /\
    conns n !! cs = Some (mkConnState (Some s) w nn) /\ s ∈ closed_socks n' /\
    events n' = events n ++ ((fun comp => EvPeerDisconnect comp p) <$> nComponents n) /\
    (PeerID c <> [] -> nodeQuit (mgr n') = nodeQuit (mgr n) ++ [PubKey c]) /\
    Close p n' = (Ok tt, n').
Proof.
  intros W Hk L Hcs Hroom. destruct (wf_client _ _ W k p Hk) as (c' & L' & _ & _ & Ho). simplify_eq.
  destruct Ho as [Cc Hown]; [done|]. pose proof (closing_wf p c n W L) as W1.
  unfold Close at 1. rewrite L, Cc.
  destruct (RemoveEntries_removed (Some p) k c _ cs W1 Hown Hcs Hroom)
    as (n2 & -> & (Hp & Hc & Hm & Hcl & Hco & Hev & s & w & nn & Ls & Hs) & Q).
  eexists _, s, w, nn. split_and!; [reflexivity|done..| | | | |done|].
  - unfold GetRealConnState. cbn. rewrite Hp. by destruct (connStates (mgr n2) !! k).
  - exact Ls.
  - exact Hs.
  - cbn. by rewrite Hev, Hco.
  - unfold Close. cbn [add_events clients]. rewrite Hcl. cbn [set_client set_clients clients].
    by rewrite list_lookup_alter_eq, L.
Qed.
End removal.

Definition toy_connected : Network := (Client [1] [] (Some toy_handle) toy_net).2.

Lemma toy_connected_wf : cm_wf toy_connected.
Proof.
  apply (connect_wf [1] (Some toy_handle) toy_net (Ok 0%nat)); [by eapply NewNetwork_wf|done| |reflexivity].
  intros u Hu. cbn in Hu. injection Hu as <-. by exists TCP.
Qed.


Section claims.
Context `{A : AddressOps} `{!AddressLaws A} `{C : Codec}.

(** After a successful call the entry is under its final key. *)
Lemma getOrSet_final address peerID conn dial n p n' :
  cm_wf n -> known_address address -> getOrSetPeerClient address peerID conn dial n = (Ok p, n') ->
  exists u, ToUnified address = Some u /\ u <> nAddress n /\ nAddress n' = nAddress n /\
    peers (mgr n') !! entry_key address peerID = Some p /\
    (u <> entry_key address peerID -> peers (mgr n') !! u = None) /\
    exists c, clients n' !! p = Some c /\ outgoingReady c = true.
Proof.
  intros W Kn. unfold getOrSetPeerClient. fold (entry_key address peerID). set (k := entry_key address peerID).
  destruct (ToUnified address) as [u|] eqn:U; [|done]. destruct (decide (u = nAddress n)) as [|Hself]; [done|].
  assert (k <> []) as Hkne.
  { unfold k, entry_key. destruct (decide (peerID = [])); [|done]. intros ->. by rewrite unified_empty in U. }
  destruct (Kn u U) as (s & Hs & Kp). unfold createPeerClient. rewrite Hs.
  set (n1 := if decide (u <> k) then _ else n).
  assert (nAddress n1 = nAddress n /\ (u <> k -> peers (mgr n1) !! u = None) /\
          (forall q, peers (mgr n1) !! k = Some q -> exists c, clients n1 !! q = Some c /\ outgoingReady c = true) /\
          (peers (mgr n1) !! k = None -> n1 = n)) as (A1 & U1 & R1 & N1).
  { unfold n1. destruct (decide (u <> k)) as [Hne|]; [|split_and!; try done].
    2:{ intros q Hq. destruct (wf_client _ _ W k q Hq) as (c & ? & ? & _). eauto. }
    destruct (peers (mgr n) !! u) as [q|] eqn:Hu.
    - destruct (reset_wf u k n q W Hu Hne Hkne) as [W1 P1]. split_and!; [done| | |].
      + intros _. cbn. destruct W as [Hpc Hps Hst _ _ _ _ _ _]. rewrite reset_present; [|by eexists|..].
        * cbn. by rewrite (move_lookup u k _ q Hu Hne), decide_True.
        * apply Hpc. by eexists.
        * exists PEER_REACHABLE. apply Hst. by eexists.
        * apply Hps. by eexists.
      + intros q' Hq'. destruct (wf_client _ _ W1 k q' Hq') as (c & ? & ? & _). eauto.
      + cbn. rewrite P1. done.
    - rewrite reset_self by done. split_and!; try done.
      intros q Hq. destruct (wf_client _ _ W k q Hq) as (c & ? & ? & _). eauto. }
  clearbody n1. destruct (peers (mgr n1) !! k) as [q|] eqn:Hq.
  - destruct (R1 q eq_refl) as (c & Lc & Oc). rewrite Lc, Oc. intros [= <- <-]. exists u. split_and!; eauto.
  - rewrite (N1 eq_refl) in *. clear N1.
    destruct (match match conn with Some h => if h_udp h then None else Some h | None => None end with
              Some h => Some h | None => dial end) as [h|]; [|done].
    destruct (register_wf u k h (mkClient u None [] false false false false) n W Hq Hkne) as (n2 & E2 & R); [by exists s|done|].
    pose proof E2 as E2'. rewrite E2. unfold initConnection in E2'. rewrite Hs, Kp in E2'. injection E2' as E2'.
    destruct (register_client k _ n2) as [p3 n3] eqn:RC. destruct R as (-> & W3 & P3 & C3 & _ & F3 & _). intros [= <- <-].
    exists u. split_and!; try done.
    + unfold register_client in RC. injection RC as _ <-. cbn. by rewrite <- E2'.
    + intros Hne. rewrite F3 by done. by apply U1.
    + eexists. by rewrite C3, lookup_app_new.
Qed.

(** One connection per peer: once getOrSetPeerClient has returned a client for an address and a peer ID, the same call returns the same client and changes nothing, whatever connection it is offered, without dialing again. *)
Lemma getOrSetPeerClient_cached address peerID conn dial n p n' conn' dial' :
  cm_wf n -> known_address address -> getOrSetPeerClient address peerID conn dial n = (Ok p, n') ->
  getOrSetPeerClient address peerID conn' dial' n' = (Ok p, n').
Proof.
  intros W Kn E. destruct (getOrSet_final address peerID conn dial n p n' W Kn E) as (u & U & Hself & Ha & Hk & Hu & c & Lc & Oc).
  unfold getOrSetPeerClient. fold (entry_key address peerID). rewrite U, Ha, decide_False by done.
  destruct (Kn u U) as (s & Hs & _). unfold createPeerClient. rewrite Hs.
  destruct (decide (u <> entry_key address peerID)) as [Hne|_].
  - rewrite reset_self by auto. by rewrite Hk, Lc, Oc.
  - by rewrite Hk, Lc, Oc.
Qed.

End claims.

Lemma known_toy a : known_address (A := toy_addresses) a.
Proof. intros u Hu. cbn in *. repeat case_match; simplify_eq; by exists TCP. Qed.

Lemma getOrSetPeerClient_cached_witness :
  getOrSetPeerClient [1] [] None None toy_connected = (Ok 0%nat, toy_connected).
Proof.
  apply (getOrSetPeerClient_cached [1] [] None (Some toy_handle) toy_net 0 toy_connected None None).
  - by eapply NewNetwork_wf.
  - apply known_toy.
  - vm_compute. reflexivity.
Defined.

Definition toy_msg : Message := mkMessage [9] (Some (mkPbID (Some [171]) [1] [3] [] [])) None 0 1 false 1000 5 [] false.


(** ** Streams *)

(** The streams of a peer were opened by a client with this address. *)
Definition streams_wf (c : PeerClient) (ms : MultiStream) : Prop :=
  0 <= idIncCounter ms /\
  forall sid, is_Some (ms_stream ms !! sid) -> exists i, 1 <= i <= idIncCounter ms /\ sid = stream_id c i.

Lemma stream_id_inj c i j : 0 <= i -> 0 <= j -> stream_id c i = stream_id c j -> i = j.
Proof. unfold stream_id. intros Hi Hj E. apply app_inv_head in E. injection E as E. by apply format_uint_inj. Qed.

(** OpenStream gives a stream a fresh identity: until the 32-bit counter is exhausted, the new identity is not the one of an open stream of the peer, the stream starts at zero bytes sent, the other streams are untouched, and CloseStream of it restores them. *)
Theorem OpenStream_fresh n p c ms :
  clients n !! p = Some c -> mstreams (mgr n) !! PeerID c = Some ms -> streams_wf c ms ->
  idIncCounter ms + 1 < 2 ^ 32 ->
  exists sid n' ms', OpenStream p n = (Ok sid, n') /\ StreamExist p sid n = false /\
    StreamExist p sid n' = true /\ StreamSendDataCnt p sid n' = 0 /\
    mstreams (mgr n') !! PeerID c = Some ms' /\ streams_wf c ms' /\
    (forall j, j <> sid -> ms_stream ms' !! j = ms_stream ms !! j) /\
    (exists ms'', mstreams (mgr (CloseStream p sid n')) !! PeerID c = Some ms'' /\ ms_stream ms'' = ms_stream ms).
Proof.
  intros L Hm [H0 Hw] Hmax. unfold OpenStream, StreamExist, StreamSendDataCnt, CloseStream. rewrite L, Hm.
  rewrite u32_small by lia. set (k := idIncCounter ms + 1).
  assert (ms_stream ms !! stream_id c k = None) as Hfree.
  { destruct (ms_stream ms !! stream_id c k) eqn:E; [|done].
    destruct (Hw (stream_id c k)) as (i & Hi & Ei); [by eexists|]. apply stream_id_inj in Ei; lia. }
  eexists _, _, _. split; [reflexivity|]. rewrite Hfree. cbn [clients set_mgr mgr mstreams]. rewrite L, !lookup_insert_eq.
  cbn [ms_stream idIncCounter]. rewrite !lookup_insert_eq. cbn [mgr set_mgr mstreams].
  split_and!; [by apply bool_decide_false; intros [? ?]|by apply bool_decide_true|done|done| |..].
  - split; [cbn; lia|]. cbn [ms_stream idIncCounter]. intros sid. rewrite lookup_insert_is_Some'.
    intros [<-|Hs]; [exists k; split; [lia|done]|]. destruct (Hw sid Hs) as (i & ? & ->). exists i. split; [lia|done].
  - intros j Hj. cbn [ms_stream]. by rewrite lookup_insert_ne.
  - eexists. rewrite lookup_insert_eq. split; [done|]. cbn [ms_stream]. by apply delete_insert_id.
Qed.

Lemma OpenStream_fresh_witness :
  exists sid n', OpenStream 0 toy_connected = (Panic, toy_connected) /\
    let n1 := (accept_message (A := toy_addresses) (C := marker_codec) (fun _ => None) (fun _ _ _ => true) false toy_handle None None toy_msg toy_connected).2 in
    OpenStream 0 n1 = (Ok sid, n') /\ sid = [1; 58; 49].
Proof.
  pose (n1 := (accept_message (A := toy_addresses) (C := marker_codec) (fun _ => None) (fun _ _ _ => true) false toy_handle None None toy_msg toy_connected).2).
  destruct (OpenStream_fresh n1 0 (mkClient [1] (Some (to_peer_id (mkPbID (Some [171]) [1] [3] [] []))) [1] false true true false) NewMultiStream)
    as (sid & n' & ms' & E & _).
  - vm_compute. reflexivity.
  - vm_compute. reflexivity.
  - split; [cbn; lia|]. intros sid [x Hx]. cbn in Hx. by rewrite lookup_empty in Hx.
  - cbn. lia.
  - exists sid, n'. split; [vm_compute; reflexivity|]. split; [exact E|].
    vm_compute in E. injection E as <- _. reflexivity.
Defined.

(** ** Writing *)

Section writing.
Context `{A : AddressOps} `{!AddressLaws A} `{C : Codec}.
Variable Marshal : Message -> option (list Z).

(** A connection with a working writer. *)
Definition live (n : Network) (k : key) (cs : nat) (w : writer) (nn : Z) : Prop :=
  connections (mgr n) !! k = Some cs /\ writer_wf w /\ werr w = false /\
  (exists s, conns n !! cs = Some (mkConnState (Some s) w nn)) /\
  (Scheme (nAddress n) = Some TCP \/ Scheme (nAddress n) = Some KCP).

Lemma Write_tcp_unfold n k m cs w nn :
  live n k cs w nn ->
  let nn1 := u64 (nn + 1) in
  let '(r, w1) := sendMessage Marshal (nConfig n) w (with_nonce nn1 m) in
  exists s, let n3 := set_conns (<[cs := mkConnState (Some s) w1 nn1]> (<[cs := mkConnState (Some s) w nn1]> (conns n))) n in
  conns n !! cs = Some (mkConnState (Some s) w nn) /\
  Write Marshal k m n =
    match r with
    | Ok _ => (Ok tt, n3)
    | Panic => (Panic, set_conns (<[cs := mkConnState (Some s) w nn1]> (conns n)) n)
    | Err e => match GetPeerClient k n3 with
               | None => (Err (EWire e), n3)
               | Some p => match Close p n3 with
                           | (Panic, n) => (Panic, n)
                           | (Err EBlocked, n) => (Err EBlocked, n)
                           | (_, n) => (Err (EWire e), n)
                           end
               end
    end.
Proof.
  intros (Hcs & Hw & We & (s & L) & Hsch) nn1.
  destruct (sendMessage Marshal (nConfig n) w (with_nonce nn1 m)) as [r w1] eqn:S. exists s. split; [done|].
  unfold Write, ConnectionState. rewrite Hcs, L. cbn [cs_sock cs_writer messageNonce]. fold nn1.
  cbn [nAddress set_conns conns].
  assert (exists proto, Scheme (nAddress n) = Some proto /\ (proto = TCP \/ proto = KCP)) as (proto & -> & Hpr)
    by (destruct Hsch as [->| ->]; eauto).
  unfold send_on. rewrite decide_True by done. cbn [cs_sock cs_writer messageNonce nConfig set_conns]. rewrite S.
  by destruct r as [[]|e|].
Qed.

(** Network.Write over TCP or KCP: the message is framed with the next nonce of its connection; a nil result means that exactly that frame was added to the connection and nothing else of the manager changed; without a socket fault the result is nil; after a failed send, and with room in the quit channel, the peer has been removed. *)
Theorem Write_tcp n k m cs w nn f :
  cm_wf n -> live n k cs w nn -> (length (nodeQuit (mgr n)) < nodeQuit_cap)%nat ->
  build_frame Marshal Panic (nConfig n) (with_nonce (u64 (nn + 1)) m) = Ok f ->
  exists r n', Write Marshal k m n = (r, n') /\ r <> Panic /\
    (r = Ok tt -> exists w', live n' k cs w' (u64 (nn + 1)) /\ stream_of w' = stream_of w ++ f /\ wbuf w' = [] /\
       mgr n' = mgr n /\ clients n' = clients n /\ events n' = events n) /\
    (faults (wr w) = [] -> r = Ok tt) /\
    (r <> Ok tt -> GetPeerClient k n' = None /\ ConnectionState k n' = None).
Proof.
  intros W Hlive Hroom F. pose proof (Write_tcp_unfold n k m cs w nn Hlive) as U. cbn zeta in U.
  pose proof Hlive as (Hcs & Hw & We & (s0 & L0) & Hsch). unfold sendMessage in U. rewrite F in U.
  destruct (write_all_spec w f Hw We) as (r & w1 & E & Hw1 & Hz & Hr).
  pose proof (write_all_healthy w f Hw) as Hh. rewrite E in U, Hh. destruct U as (s & L & ->).
  rewrite L0 in L. injection L as <-.
  set (n3 := set_conns _ n). assert (cm_wf n3) as W3.
  { unfold n3. rewrite list_insert_insert_eq. by eapply set_conn_wf. }
  assert (conns n3 !! cs = Some (mkConnState (Some s0) w1 (u64 (nn + 1)))) as L3.
  { cbn. rewrite list_lookup_insert_eq; [done|]. rewrite length_insert. by eapply lookup_lt_Some. }
  destruct r as [[]|e|]; [| |done].
  - destruct Hr as (We1 & Hb1 & Hs1). eexists _, _. split_and!; [reflexivity|done| |done|done].
    intros _. exists w1. unfold live. split_and!; try done; [by exists s0|]. unfold stream_of at 1. by rewrite Hs1, Hb1, app_nil_r.
  - destruct (wf_peers_conns _ _ W k) as [_ [p Hp]]; [by eexists|].
    destruct (wf_client _ _ W3 k p Hp) as (c & Lc & _). change (GetPeerClient k n3) with (peers (mgr n) !! k). rewrite Hp.
    destruct (close_registered n3 k p c cs W3 Hp Lc Hcs Hroom) as (n4 & s4 & w4 & nn4 & -> & G4 & C4 & _).
    eexists _, _. split_and!; [reflexivity|done|done| |done].
    intros Hf. destruct Hh as (b2 & E2 & _); [done|]. congruence.
Qed.

(** ** A sequence of writes, and its receiver *)

Fixpoint writes (k : key) (ms : list Message) (n : Network) : res conn_err unit * Network :=
  match ms with
  | [] => (Ok tt, n)
  | m :: ms => match Write Marshal k m n with
               | (Ok _, n) => writes k ms n
               | r => r
               end
  end.

(** The messages as they are sent: numbered from the nonce after [nn]. *)
Fixpoint numbered (nn : Z) (ms : list Message) : list Message :=
  match ms with
  | [] => []
  | m :: ms => with_nonce (u64 (nn + 1)) m :: numbered (u64 (nn + 1)) ms
  end.

Lemma Write_ok n k m cs w nn n' :
  live n k cs w nn -> Write Marshal k m n = (Ok tt, n') ->
  exists f w', build_frame Marshal Panic (nConfig n) (with_nonce (u64 (nn + 1)) m) = Ok f /\
    live n' k cs w' (u64 (nn + 1)) /\ stream_of w' = stream_of w ++ f /\ nConfig n' = nConfig n.
Proof.
  intros Hlive. pose proof (Write_tcp_unfold n k m cs w nn Hlive) as U. cbn zeta in U.
  pose proof Hlive as (Hcs & Hw & We & (s0 & L0) & Hsch).
  destruct (sendMessage Marshal (nConfig n) w _) as [r w1] eqn:S. destruct U as (s & L & ->).
  destruct r as [[]|e|]; [|destruct (GetPeerClient k _) as [p|]; [destruct (Close p _) as [[[]|[]|] n4]|]; done|done].
  intros [= <-].
  apply sendMessage_Ok in S as (f & F & Hw1 & We1 & Hb1 & Hs1); [|done..].
  exists f, w1. split_and!; [done| |unfold stream_of at 1; by rewrite Hs1, Hb1, app_nil_r|done].
  unfold live. split_and!; try done. exists s. cbn. rewrite list_lookup_insert_eq; [done|].
  rewrite length_insert. by eapply lookup_lt_Some.
Qed.

Lemma writes_sent ms n k cs w nn n' :
  live n k cs w nn -> writes k ms n = (Ok tt, n') ->
  exists w' nn', live n' k cs w' nn' /\ stream_of w' = stream_of w ++ frames_of Marshal (nConfig n) (numbered nn ms) /\
    Forall (fun m => exists f, build_frame Marshal Panic (nConfig n) m = Ok f) (numbered nn ms).
Proof.
  revert n w nn. induction ms as [|m ms IH]; intros n w nn Hl; cbn [writes numbered].
  - intros [= <-]. exists w, nn. cbn. rewrite app_nil_r. auto.
  - destruct (Write Marshal k m n) as [[[]| |] n1] eqn:E; [|done..]. intros E'.
    apply (Write_ok _ _ _ cs w nn) in E as (f & w1 & F & Hl1 & Hs1 & Hc1); [|done].
    apply (IH n1 w1 (u64 (nn + 1))) in E' as (w2 & nn2 & Hl2 & Hs2 & HF); [|done]. rewrite Hc1 in *.
    exists w2, nn2. split_and!; [done| |by constructor; eauto].
    rewrite Hs2, Hs1. unfold frames_of. cbn [mbind list_bind]. by rewrite F, app_assoc.
Qed.

(** End to end: messages written to a peer's fresh TCP or KCP connection are received by the other side, however the network cuts the stream, exactly once, in order and unchanged but for their nonces, which count from the connection's. *)
Lemma Writes_delivered `{!CodecLaws C} Unmarshal n n' k cs w nn ms c rcv :
  live n k cs w nn -> stream_of w = [] -> writes k ms n = (Ok tt, n') ->
  netID rcv = netID (nConfig n) -> 0 <= netID rcv < 2 ^ 32 -> 0 <= compressAlgo (nConfig n) ->
  Forall (sendable Marshal Unmarshal (nConfig n)) (numbered nn ms) ->
  clean c -> (forall w' s nn', conns n' !! cs = Some (mkConnState s w' nn') -> bytes_of c = stream_of w') ->
  exists c', receive_all Unmarshal read_loop (length ms) rcv c = (Ok (numbered nn ms), c') /\ bytes_of c' = [].
Proof.
  intros Hl Hst E En Hid Ha HS Hc Hb.
  apply (writes_sent ms n k cs w nn) in E as (w' & nn' & (_ & _ & _ & (s & L) & _) & Hs & HF); [|done].
  specialize (Hb _ _ _ L). rewrite Hs, Hst in Hb. simpl in Hb. rewrite <- (app_nil_r (frames_of _ _ _)) in Hb.
  assert (length (numbered nn ms) = length ms) as Len.
  { clear. revert nn. induction ms as [|m ms IH]; intros nn; simpl; auto. }
  destruct (receive_all_sent Marshal Unmarshal read_loop (nConfig n) rcv (numbered nn ms) [] c) as (c' & R & _ & E');
    [done|by rewrite <- En|done..|]. rewrite Len in R. by exists c'.
Qed.
End writing.

Definition toy_live : writer := mkWriter [] 64 false (mkSocket [] []).

Lemma toy_live_ok : live (A := toy_addresses) toy_connected [1] 0 toy_live 0.
Proof.
  split_and!; [reflexivity|split; vm_compute; lia|reflexivity|exists 42; vm_compute; reflexivity|by left].
Qed.

Lemma Write_tcp_witness :
  exists n', Write (A := toy_addresses) (C := marker_codec) example_marshal [1] toy_msg toy_connected = (Ok tt, n').
Proof.
  destruct (Write_tcp (A := toy_addresses) (C := marker_codec) example_marshal toy_connected [1] toy_msg 0 toy_live 0
    [0; 0; 0; 5; 0; 0; 0; 0; 0; 3; 8; 8; 8]) as (r & n' & E & _ & _ & R & _).
  - exact toy_connected_wf.
  - exact toy_live_ok.
  - vm_compute. lia.
  - vm_compute. reflexivity.
  - exists n'. rewrite <- (R eq_refl). exact E.
Defined.

Lemma Writes_delivered_witness :
  exists c', receive_all (C := marker_codec) (fun _ => Some (with_nonce 1 toy_msg)) read_loop 1 (mkNetConfig 5 false 0 0)
    [([0; 0; 0; 5; 0; 0; 0], false); ([0; 0; 3; 8; 8; 8], false)] = (Ok [with_nonce 1 toy_msg], c') /\ bytes_of c' = [].
Proof.
  pose proof marker_codec_laws.
  apply (Writes_delivered (A := toy_addresses) (C := marker_codec) example_marshal (fun _ => Some (with_nonce 1 toy_msg))
    toy_connected (writes (A := toy_addresses) (C := marker_codec) example_marshal [1] [toy_msg] toy_connected).2
    [1] 0 toy_live 0 [toy_msg]).
  - exact toy_live_ok.
  - reflexivity.
  - vm_compute. reflexivity.
  - reflexivity.
  - cbn. lia.
  - vm_compute. discriminate.
  - constructor; [|constructor]. split; [reflexivity|]. split; [done|]. intros f F. vm_compute in F. injection F as <-. cbn. lia.
  - repeat constructor.
  - intros w' s nn' L. vm_compute in L. injection L as _ <- _. reflexivity.
Defined.

(** ** Connecting by name *)

(** ConnectPeer with an address that is not in its unified form (a host name instead of an IP address) cannot succeed: the client is registered under the address as given, but the Ping is written to the unified address, for which there is no connection; the call fails and the dialed connection stays registered. *)
Theorem ConnectPeer_by_name `{A : AddressOps} `{!AddressLaws A} `{C : Codec} Marshal a u h ping arrives n :
  cm_wf n -> ToUnified a = Some u -> u <> a -> u <> nAddress n -> known_address a ->
  peers (mgr n) !! a = None -> peers (mgr n) !! u = None ->
  exists n' p, ConnectPeer Marshal a (Some h) ping arrives n = (Err ENoConnection, n') /\
    GetPeerClient a n' = Some p /\ ConnectionStateExists a n' = true.
Proof.
  intros W U Hne Hself Kn Ha Hu.
  assert (a <> []) as Hane by (intros ->; by rewrite unified_empty in U).
  assert (forall k, peers (mgr n) !! k = None -> connections (mgr n) !! k = None) as Hc.
  { intros k Hk. destruct (connections (mgr n) !! k) eqn:E; [|done].
    destruct (proj2 (wf_peers_conns _ _ W k)) as [? ?]; [by eexists|]. congruence. }
  unfold ConnectPeer, ConnectionStateExists, ClientExist. rewrite (Hc a Ha), Ha. cbn [bool_decide].
  rewrite !bool_decide_false by (by intros [? ?]). unfold Client, getOrSetPeerClient. rewrite U.
  change (if decide (@nil Z = []) then a else []) with a.
  rewrite (decide_False (P := u = nAddress n)) by done. destruct (Kn u U) as (s & Hs & Kp).
  unfold createPeerClient. rewrite Hs, decide_True by done. rewrite reset_self, Ha by done.
  destruct (register_wf u a h (mkClient u None [] false false false false) n W Ha Hane) as (n1 & E1 & R); [by exists s|done|].
  pose proof E1 as E1'. rewrite E1. unfold initConnection in E1'. rewrite Hs, Kp in E1'. injection E1' as E1'.
  destruct (register_client a _ n1) as [p n2] eqn:RC. destruct R as (-> & W2 & P2 & C2 & _ & F2 & _).
  unfold TellByAddr. rewrite C2, lookup_app_new. cbn [cAddress]. unfold Write, ConnectionState.
  assert (connections (mgr n2) !! u = None) as ->.
  { destruct (connections (mgr n2) !! u) eqn:E; [|done].
    destruct (proj2 (wf_peers_conns _ _ W2 u)) as [? Hx]; [by eexists|]. rewrite F2, Hu in Hx by done. done. }
  exists n2, (length (clients n)). split_and!; [done..|]. apply bool_decide_true. apply (wf_peers_conns _ _ W2). by eexists.
Qed.

Lemma ConnectPeer_by_name_witness :
  exists n' p, ConnectPeer (A := toy_addresses) (C := marker_codec) example_marshal [99] (Some toy_handle) toy_msg true toy_net
    = (Err ENoConnection, n') /\ GetPeerClient [99] n' = Some p /\ ConnectionStateExists [99] n' = true.
Proof.
  apply (ConnectPeer_by_name (C := marker_codec) example_marshal [99] [98] toy_handle toy_msg true toy_net).
  - by eapply NewNetwork_wf.
  - reflexivity.
  - discriminate.
  - discriminate.
  - apply known_toy.
  - reflexivity.
  - reflexivity.
Defined.
