(* ===== verification/Exchange.v ===== *)
(** * network/network.go, client.go, context.go: what a peer client exchanges

    How a message is prepared and signed, what dispatchMessage does with a received one, requests
    and their replies, the byte stream of a client, asynchronous acknowledgements (with
    components/ackreply), and the rotation of proxy servers.

    [Exch] holds the fields of PeerClient these operations work on; the connection manager's
    part of the client is the heap cell [ConnMgr.PeerClient].  Request is split at its select:
    [Request_begin] runs up to it and [Request_select] takes one of its cases, so that other
    operations can happen in between.  proto.Marshal and proto.Unmarshal of the payload are
    the section variables [pbMarshal] and [pbUnmarshal]. *)
From S2P Require Import Prelude Peer Wire Opcode KeyPair Address ConnMgr.
Local Open Scope Z_scope.
Local Open Scope go_scope.

(** ** context.go *)

(** A context.Context: the value under signMessageCtxKey and whether it is done. *)
Record context := mkContext { ctx_sign : option bool; ctx_done : bool }.

Definition Background : context := mkContext None false.

Definition WithSignMessage (ctx : context) (sign : bool) : context := mkContext (Some sign) (ctx_done ctx).

Definition GetSignMessage (ctx : context) : bool :=
  match ctx_sign ctx with Some sign => sign | None => false end.

(** ** State *)

(** PrepareAckMessage; its MessageID is the key it is stored under. *)
Record PrepareAckMessage := mkAck {
  ackMessage : proto;
  WhenSend : Z;
  Frequency : Z;
  LatestSendSuccessAt : Z
}.

Definition ACK_SUCCESS : Z := 1.
Definition ACK_FAILED : Z := 2.
Definition DEFAULT_ACK_REPLY_CAPACITY : nat := 4096.

(** Requests leads from the nonce of a pending request to the contents of its data channel, which
    has room for one message; [received] lists what was handed to the components. *)
Record Exch := mkExch {
  Requests : gmap Z (list proto);
  xRequestNonce : Z;
  sbuffer : list Z;
  isClosed : bool;
  SyncWaitAck : gmap key PrepareAckMessage;
  AckStatusNotify : list (key * Z);
  received : list (proto * Z)
}.

Definition new_Exch : Exch := mkExch ∅ 0 [] false ∅ [] [].

Definition set_requests (r : gmap Z (list proto)) (x : Exch) : Exch :=
  mkExch r (xRequestNonce x) (sbuffer x) (isClosed x) (SyncWaitAck x) (AckStatusNotify x) (received x).
Definition set_nonce (k : Z) (x : Exch) : Exch :=
  mkExch (Requests x) k (sbuffer x) (isClosed x) (SyncWaitAck x) (AckStatusNotify x) (received x).
Definition set_buffer (b : list Z) (x : Exch) : Exch :=
  mkExch (Requests x) (xRequestNonce x) b (isClosed x) (SyncWaitAck x) (AckStatusNotify x) (received x).
Definition set_acks (m : gmap key PrepareAckMessage) (x : Exch) : Exch :=
  mkExch (Requests x) (xRequestNonce x) (sbuffer x) (isClosed x) m (AckStatusNotify x) (received x).
Definition add_status (s : key * Z) (x : Exch) : Exch :=
  mkExch (Requests x) (xRequestNonce x) (sbuffer x) (isClosed x) (SyncWaitAck x) (AckStatusNotify x ++ [s]) (received x).
Definition add_received (r : proto * Z) (x : Exch) : Exch :=
  mkExch (Requests x) (xRequestNonce x) (sbuffer x) (isClosed x) (SyncWaitAck x) (AckStatusNotify x) (received x ++ [r]).

Inductive ex_err :=
| ENullMessage | EOpcode (e : opcode_err) | EPbMarshal | ESign (e : key_err)
| ENilContext | EContextDone | EConn (e : conn_err) | EAckFull | EAckDuplicate | ETimeout.

(** ** The byte stream of a client *)

Definition handleBytes (pkt : list Z) (x : Exch) : Exch := set_buffer (sbuffer x ++ pkt) x.

(** One round of the loop of Read, with [m] bytes of room: what was copied out, and whether the
    loop goes on waiting.  [late] is whether the read deadline has passed. *)
Inductive read_result := ReadOk (out : list Z) | ReadClosed (out : list Z) | ReadLate (out : list Z) | ReadWait.

Definition Read (m : nat) (late : bool) (x : Exch) : read_result * Exch :=
  let out := take m (sbuffer x) in
  let x' := set_buffer (drop m (sbuffer x)) x in
  if isClosed x then (ReadClosed out, x')
  else if late then (ReadLate out, x')
  else if negb (length out =? 0)%nat then (ReadOk out, x')
  else (ReadWait, x').

(** ** Proxy servers *)

Record ProxyServer := mkProxy { IP : key; pPeerID : key }.
Record Proxy := mkProxyService { pEnable : bool; Servers : list ProxyServer; WorkID : Z }.

Definition GetWorkingProxyServer (s : Proxy) : res unit (key * key) :=
  if negb (pEnable s) then Ok ([], [])
  else match Servers s !! Z.to_nat (WorkID s) with
  | Some p => Ok (IP p, pPeerID p)
  | None => Panic
  end.

(** The modulus is the number of servers as a uint16. *)
Definition UpdateProxyWorkID (s : Proxy) : res unit Proxy :=
  let w := u16 (WorkID s + 1) in
  let k := u16 (Z.of_nat (length (Servers s))) in
  if k =? 0 then Panic else Ok (mkProxyService (pEnable s) (Servers s) (w mod k)).

Section exchange.
Context `{A : AddressOps} `{C : Codec} `{sp : SignaturePolicy} `{hp : HashPolicy}.
Variable Marshal : Message -> option (list Z).
Variable pbMarshal : proto -> option (list Z).
Variable pbUnmarshal : msg_type -> list Z -> option proto.

(** ** PrepareMessage *)

(** The fields of Network it reads. *)
Record node := mkNode { nID : PbID; nkeys : KeyPair; nNetID : Z }.

(** The signature over the serialized sender and payload. *)
Definition sign_payload (nd : node) (raw : list Z) : res ex_err (list Z) :=
  match SerializeMessage (pbAddress (nID nd)) (pbId (nID nd)) raw with
  | Ok s => match Sign (nkeys nd) s with Ok sig => Ok sig | Err e => Err (ESign e) | Panic => Panic end
  | _ => Panic
  end.

(** PrepareMessage ([msgID] empty) and PrepareMessageWithMsgID, which differ in these two fields. *)
Definition prepare (nd : node) (t : tables) (ctx : context) (message : option proto) (msgID : list Z)
    (needAck : bool) : res ex_err Message :=
  match message with
  | None => Err ENullMessage
  | Some m =>
    match GetOpcode t m with
    | inr e => Err (EOpcode e)
    | inl opcode =>
      match pbMarshal m with
      | None => Err EPbMarshal
      | Some raw =>
        let msg sig := mkMessage raw (Some (nID nd)) sig 0 0 false opcode (nNetID nd) msgID needAck in
        if GetSignMessage ctx then
          let? sig := sign_payload nd raw in Ok (msg (Some sig))
        else Ok (msg None)
      end
    end
  end.

Definition PrepareMessage (nd : node) (t : tables) (ctx : context) (message : option proto) : res ex_err Message :=
  prepare nd t ctx message [] false.

Definition PrepareMessageWithMsgID (nd : node) (t : tables) (ctx : context) (message : option proto) (msgID : list Z)
    : res ex_err Message :=
  prepare nd t ctx message msgID true.

(** The check of Accept on a message with a signature. *)
Definition check_signature (sender : PbID) (payload sig : list Z) : bool :=
  match SerializeMessage (pbAddress sender) (pbId sender) payload with
  | Ok s => Verify (default [] (pbNetKey sender)) s sig
  | _ => false
  end.

(** ** dispatchMessage *)

(** The cases of its switch on the opcode. *)
Definition switch_codes : list Z :=
  [BytesCode; PingCode; PongCode; LookupNodeRequestCode; LookupNodeResponseCode; DisconnectCode;
   ProxyRequestCode; ProxyResponseCode; KeepaliveCode; KeepaliveResponseCode].

(** The empty message the payload is decoded into. *)
Definition dispatch_ptr (t : tables) (code : Z) : option proto :=
  if bool_decide (code ∈ switch_codes) then (fun ty => mkProto ty []) <$> dispatch_type t code
  else if code =? UnregisteredCode then None
  else match GetMessageType t code with inl m => Some m | inr _ => None end.

Definition decode_payload (t : tables) (msg : Message) : option proto :=
  ptr ← dispatch_ptr t (Opcode msg);
  if (0 <? length (Payload msg))%nat then pbUnmarshal (ptype ptr) (Payload msg) else Some ptr.

(** A message that is not a reply, or one to a request that is not pending. *)
Definition deliver (ptr : proto) (nonce : Z) (x : Exch) : Exch :=
  if decide (ptype ptr = "Bytes"%string) then handleBytes (pfields ptr) x else add_received (ptr, nonce) x.

(** None: the send on the data channel of the request blocks, until the request returns.  The time
    stamp client.Time, which only the keepalive component reads, is left out. *)
Definition dispatchMessage (incomingReady : bool) (t : tables) (msg : Message) (x : Exch) : option Exch :=
  if negb incomingReady then Some x
  else match decode_payload t msg with
  | None => Some x
  | Some ptr =>
    if (0 <? RequestNonce msg) && ReplyFlag msg then
      match Requests x !! RequestNonce msg with
      | Some data => if (length data <? 1)%nat then Some (set_requests (<[RequestNonce msg := data ++ [ptr]]> (Requests x)) x) else None
      | None => Some (deliver ptr (RequestNonce msg) x)
      end
    else Some (deliver ptr (RequestNonce msg) x)
  end.

(** ** Requests *)

Definition with_request (nonce : Z) (reply : bool) (m : Message) : Message :=
  mkMessage (Payload m) (Sender m) (Signature m) nonce (MessageNonce m) reply (Opcode m) (NetID m)
    (MessageID m) (NeedAck m).

Definition conn_result {T} (r : res conn_err T) : res ex_err T :=
  match r with Ok a => Ok a | Err e => Err (EConn e) | Panic => Panic end.

(** Request up to its select: the nonce of the request that now waits.  When an error is
    returned the deferred Delete has already taken the request out again. *)
Definition Request_begin (nd : node) (t : tables) (ctx : option context) (req : option proto) (c : PeerClient)
    (n : Network) (x : Exch) : res ex_err Z * Network * Exch :=
  match ctx with
  | None => (Err ENilContext, n, x)
  | Some ctx =>
    if ctx_done ctx then (Err EContextDone, n, x)
    else match PrepareMessage nd t ctx req with
    | Err e => (Err e, n, x)
    | Panic => (Panic, n, x)
    | Ok signed =>
      let nonce := u64 (xRequestNonce x + 1) in
      let x := set_nonce nonce x in
      let x := set_requests (<[nonce := []]> (Requests x)) x in
      match Write Marshal (PeerID c) (with_request nonce (ReplyFlag signed) signed) n with
      | (Ok _, n) => (Ok nonce, n, x)
      | (Err e, n) => (Err (EConn e), n, set_requests (delete nonce (Requests x)) x)
      | (Panic, n) => (Panic, n, x)
      end
    end
  end.

(** The case of the select that is taken. *)
Inductive select_case := ByTimer | ByReply | ByContext.

(** The select of Request and the deferred Delete.  None: the case is not ready. *)
Definition Request_select (nonce : Z) (s : select_case) (x : Exch) : option (res ex_err proto) * Exch :=
  let x' := set_requests (delete nonce (Requests x)) x in
  match s with
  | ByTimer => (Some (Err ETimeout), x')
  | ByContext => (Some (Err EContextDone), x')
  | ByReply =>
    match Requests x !! nonce with
    | Some (m :: _) => (Some (Ok m), x')
    | _ => (None, x)
    end
  end.

Definition Reply (nd : node) (t : tables) (ctx : context) (nonce : Z) (message : option proto) (c : PeerClient) (n : Network)
    : res ex_err unit * Network :=
  match PrepareMessage nd t ctx message with
  | Err e => (Err e, n)
  | Panic => (Panic, n)
  | Ok msg =>
    let '(r, n) := Write Marshal (PeerID c) (with_request nonce true msg) n in (conn_result r, n)
  end.

(** PeerClient.Write: the bytes travel in a signed Bytes message.  [late]: the write deadline has
    passed; [None] is its error. *)
Definition client_Write (nd : node) (t : tables) (late : bool) (data : list Z) (c : PeerClient) (n : Network)
    : option (res ex_err nat) * Network :=
  if late then (None, n)
  else match PrepareMessage nd t (WithSignMessage Background true) (Some (mkProto "Bytes" data)) with
  | Err e => (Some (Err e), n)
  | Panic => (Some Panic, n)
  | Ok signed =>
    let '(r, n) := Write Marshal (PeerID c) signed n in
    (Some (match conn_result r with Ok _ => Ok (length data) | Err e => Err e | Panic => Panic end), n)
  end.

(** ** Acknowledgements *)

Definition waitAckLen (x : Exch) : nat := size (SyncWaitAck x).

(** [second] is time.Now().Second(). *)
Definition AsyncSendAndWaitAck (nd : node) (t : tables) (ctx : option context) (req : proto) (msgID : key) (second : Z)
    (c : PeerClient) (n : Network) (x : Exch) : res ex_err unit * Network * Exch :=
  match ctx with
  | None => (Err ENilContext, n, x)
  | Some ctx =>
    if ctx_done ctx then (Err EContextDone, n, x)
    else if (DEFAULT_ACK_REPLY_CAPACITY <=? waitAckLen x)%nat then (Err EAckFull, n, x)
    else match SyncWaitAck x !! msgID with
    | Some _ => (Err EAckDuplicate, n, x)
    | None =>
      match PrepareMessageWithMsgID nd t ctx (Some req) msgID with
      | Err e => (Err e, n, x)
      | Panic => (Panic, n, x)
      | Ok signed =>
        match Write Marshal (PeerID c) signed n with
        | (Err e, n) => (Err (EConn e), n, x)
        | (Panic, n) => (Panic, n, x)
        | (Ok _, n) => (Ok tt, n, set_acks (<[msgID := mkAck req second 1 0]> (SyncWaitAck x)) x)
        end
      end
    end
  end.

(** components/ackreply: Receive on an AsyncAckResponse for [msgID].  None: the notification blocks,
    the entry is already deleted. *)
Definition ack_Receive (msgID : key) (x : Exch) : option Exch :=
  let x := set_acks (delete msgID (SyncWaitAck x)) x in
  if (DEFAULT_ACK_REPLY_CAPACITY <=? length (AckStatusNotify x))%nat then None
  else Some (add_status (msgID, ACK_SUCCESS) x).

(** components/ackreply: what checkAckReceivedService decides for one entry at a tick, with the
    time out and the interval in seconds.  [s1], [s2] and [s3] are what time.Now().Second() returns for
    the three comparisons. *)
Inductive ack_action := AckExpire | AckKeep | AckResend.

Definition ack_check (timeout interval s1 s2 s3 : Z) (e : PrepareAckMessage) : ack_action :=
  if timeout <? s1 - WhenSend e then AckExpire
  else if s2 - WhenSend e <? interval then AckKeep
  else if interval <? s3 - LatestSendSuccessAt e then AckResend
  else AckKeep.

(** The message a resend puts on the wire (Tell), and the entry after it. *)
Definition ack_resend (nd : node) (t : tables) (e : PrepareAckMessage) : res ex_err Message :=
  PrepareMessage nd t Background (Some (ackMessage e)).

Definition ack_resent (ok : bool) (second : Z) (e : PrepareAckMessage) : PrepareAckMessage :=
  mkAck (ackMessage e) (WhenSend e) (u8 (Frequency e + 1)) (if ok then second else LatestSendSuccessAt e).

Definition ack_expire (msgID : key) (x : Exch) : option Exch :=
  let x := set_acks (delete msgID (SyncWaitAck x)) x in
  if (DEFAULT_ACK_REPLY_CAPACITY <=? length (AckStatusNotify x))%nat then None
  else Some (add_status (msgID, ACK_FAILED) x).
End exchange.

(** What protobuf promises about the payload: decoding what was encoded, into a value of its type,
    gives it back, and only the empty message of a type has the empty encoding. *)
Class ProtoLaws (pbMarshal : proto -> option (list Z)) (pbUnmarshal : msg_type -> list Z -> option proto) := {
  pb_roundtrip : forall m raw, pbMarshal m = Some raw -> pbUnmarshal (ptype m) raw = Some m;
  pb_empty : forall m, pbMarshal m = Some [] -> m = mkProto (ptype m) []
}.

Section laws.
Context `{A : AddressOps} `{C : Codec} `{sp : SignaturePolicy} `{hp : HashPolicy}.
Context (Marshal : Message -> option (list Z)) (pbMarshal : proto -> option (list Z))
        (pbUnmarshal : msg_type -> list Z -> option proto).

(** ** Preparing and dispatching *)

Lemma registered_empty `{!ProtoLaws pbMarshal pbUnmarshal} t c m :
  registered pbMarshal t -> opcodeTbl t !! c = Some m -> m = mkProto (ptype m) [].
Proof.
  intros R. revert c m. induction R as [|c' m' t R IH]; intros c m.
  - assert (map_Forall (fun _ m => m = mkProto (ptype m) []) (opcodeTbl init_tables)) as F.
    { unfold init_tables, msgOpcodePairs. cbn [foldl store_pair opcodeTbl fst snd].
      repeat (apply map_Forall_insert_2; [reflexivity|]). apply map_Forall_empty. }
    apply F.
  - unfold RegisterMessageType. destruct (c' <? _); [apply IH|].
    destruct (pbMarshal m') as [raw|] eqn:E; [|apply IH]. destruct raw as [|b raw]; cbn; [|apply IH].
    destruct (opcodeTbl t !! c') eqn:L; [apply IH|]. cbn. rewrite lookup_insert_Some.
    intros [[_ <-]|[_ H]]; [by apply (pb_empty m')|by eapply IH].
Qed.

Lemma dispatch_ptr_spec `{!ProtoLaws pbMarshal pbUnmarshal} t m code :
  registered pbMarshal t -> GetOpcode t m = inl code -> dispatch_ptr t code = Some (mkProto (ptype m) []).
Proof.
  intros R G. pose proof (registered_wf pbMarshal t R) as W. pose proof W as [Hm Hr].
  unfold GetOpcode in G. destruct (msgTbl t !! ptype m) as [c|] eqn:L; [|done]. injection G as ->.
  apply Hm in L as (m' & L & T).
  assert (code <> UnregisteredCode) as N.
  { intros ->. rewrite Hr in L by done. vm_compute in L. done. }
  assert (GetMessageType t code = inl m') as G by (unfold GetMessageType; by rewrite L).
  unfold dispatch_ptr. case_bool_decide.
  - rewrite dispatch_reserved, G by done. cbn. by rewrite T.
  - rewrite (proj2 (Z.eqb_neq _ _) N), G. f_equal. rewrite <- T. by apply (registered_empty t code).
Qed.

Lemma prepare_Ok nd t ctx m msgID na msg :
  prepare pbMarshal nd t ctx (Some m) msgID na = Ok msg ->
  exists code raw sig, GetOpcode t m = inl code /\ pbMarshal m = Some raw /\
    msg = mkMessage raw (Some (nID nd)) sig 0 0 false code (nNetID nd) msgID na /\
    (if GetSignMessage ctx then exists s, sig = Some s /\ sign_payload nd raw = Ok s else sig = None).
Proof.
  unfold prepare. destruct (GetOpcode t m) as [code|]; [|done]. destruct (pbMarshal m) as [raw|]; [|done].
  destruct (GetSignMessage ctx).
  - destruct (sign_payload nd raw) as [s| |] eqn:S; [|done..]. intros [= <-]. eauto 10.
  - intros [= <-]. eauto 10.
Qed.

Lemma decode_prepared `{!ProtoLaws pbMarshal pbUnmarshal} t m code raw msg :
  registered pbMarshal t -> GetOpcode t m = inl code -> pbMarshal m = Some raw ->
  Opcode msg = code -> Payload msg = raw -> decode_payload pbUnmarshal t msg = Some m.
Proof.
  intros R G E Hc Hp. unfold decode_payload. rewrite Hc, Hp, (dispatch_ptr_spec t m code R G). cbn.
  destruct raw as [|b raw]; cbn; [by rewrite <- (pb_empty m)|by apply pb_roundtrip].
Qed.

(** The key pair of a node: generated by the scheme, and its identity carries the public key. *)
Definition node_wf `{!SignatureLaws sp} (nd : node) : Prop :=
  key_ok (PrivateKey (nkeys nd)) /\
  pbNetKey (nID nd) = Some (PublicKey (nkeys nd)) /\
  length (PrivateKey (nkeys nd)) = PrivateKeySize /\
  PrivateToPublic (PrivateKey (nkeys nd)) = Some (PublicKey (nkeys nd)).

Lemma sign_payload_checked `{!SignatureLaws sp} nd raw sig :
  node_wf nd -> sign_payload nd raw = Ok sig -> check_signature (nID nd) raw sig = true.
Proof.
  intros (Ho & Hk & Hl & Hp). unfold sign_payload, check_signature, Sign, Verify.
  destruct (SerializeMessage _ _ _) as [s| |]; [|done..].
  rewrite Hl, Nat.eqb_refl. cbn. intros [= <-]. rewrite Hk. cbn. rewrite (public_size _ _ Hp), Nat.eqb_refl.
  by apply verify_sign.
Qed.

(** From PrepareMessage to dispatchMessage: whatever message a node prepares, the receiver's signature check accepts it (a signature is there exactly when the context asks for one), and a receiver with the same opcode tables decodes it to the very message that was sent and hands it to the components once, with request nonce 0; the bytes of a Bytes message go to the byte stream instead. *)
Theorem prepared_roundtrip `{!SignatureLaws sp} `{!ProtoLaws pbMarshal pbUnmarshal} nd t ctx m msg x :
  registered pbMarshal t -> node_wf nd -> PrepareMessage pbMarshal nd t ctx (Some m) = Ok msg ->
  Sender msg = Some (nID nd) /\ NetID msg = nNetID nd /\
  (is_Some (Signature msg) <-> GetSignMessage ctx = true) /\
  (forall sig, Signature msg = Some sig -> check_signature (nID nd) (Payload msg) sig = true) /\
  decode_payload pbUnmarshal t msg = Some m /\
  dispatchMessage pbUnmarshal true t msg x =
    Some (if decide (ptype m = "Bytes"%string) then handleBytes (pfields m) x else add_received (m, 0) x).
Proof.
  intros R W H. apply prepare_Ok in H as (code & raw & sig & G & E & -> & S). cbn [Sender NetID Signature Payload].
  assert (decode_payload pbUnmarshal t
            (mkMessage raw (Some (nID nd)) sig 0 0 false code (nNetID nd) [] false) = Some m) as D
    by (by eapply decode_prepared).
  split_and!; try done.
  - destruct (GetSignMessage ctx); [destruct S as (s & -> & _); split; eauto|subst sig].
    split; [by intros [? ?]|done].
  - intros s ->. destruct (GetSignMessage ctx); [|done]. destruct S as (s' & [= <-] & S).
    by apply sign_payload_checked.
  - unfold dispatchMessage. rewrite D. reflexivity.
Qed.

(** ** Requests and replies *)

(** What happens to the requests of a client. *)
Inductive label :=
| LBegin (nonce : Z)
| LDispatch (msg : Message)
| LEnd (nonce : Z) (r : res ex_err proto).

(** The operations that share the client with its requests, in any order.  A select is taken only
    by a request that waits; the counter has not wrapped around. *)
Inductive ex_step (nd : node) (t : tables) : Exch -> list label -> Exch -> Prop :=
| step_begin ctx req c n n' k x x' :
    xRequestNonce x + 1 < 2 ^ 64 ->
    Request_begin Marshal pbMarshal nd t ctx req c n x = (Ok k, n', x') -> ex_step nd t x [LBegin k] x'
| step_begin_err ctx req c n n' e x x' :
    xRequestNonce x + 1 < 2 ^ 64 ->
    Request_begin Marshal pbMarshal nd t ctx req c n x = (Err e, n', x') -> ex_step nd t x [] x'
| step_dispatch ready msg x x' :
    dispatchMessage pbUnmarshal ready t msg x = Some x' -> ex_step nd t x [LDispatch msg] x'
| step_select k s r x x' :
    is_Some (Requests x !! k) -> Request_select k s x = (Some r, x') -> ex_step nd t x [LEnd k r] x'
| step_read m late x : ex_step nd t x [] (Read m late x).2
| step_send ctx req msgID second c n r n' x x' :
    AsyncSendAndWaitAck Marshal pbMarshal nd t ctx req msgID second c n x = (r, n', x') -> ex_step nd t x [] x'
| step_ack msgID x x' : ack_Receive msgID x = Some x' -> ex_step nd t x [] x'
| step_expire msgID x x' : ack_expire msgID x = Some x' -> ex_step nd t x [] x'.

Inductive ex_run (nd : node) (t : tables) : list label -> Exch -> Prop :=
| run_new : ex_run nd t [] new_Exch
| run_step tr x l x' : ex_run nd t tr x -> ex_step nd t x l x' -> ex_run nd t (tr ++ l) x'.

Definition begins (tr : list label) : list Z := omap (fun l => match l with LBegin k => Some k | _ => None end) tr.
Definition ends (tr : list label) : list Z := omap (fun l => match l with LEnd k _ => Some k | _ => None end) tr.

(** A reply to request [k] that decodes to [m] arrived after the request had begun. *)
Definition answered (t : tables) (k : Z) (m : proto) (tr : list label) : Prop :=
  exists l1 l2 l3 msg, tr = l1 ++ LBegin k :: l2 ++ LDispatch msg :: l3 /\
    RequestNonce msg = k /\ ReplyFlag msg = true /\ decode_payload pbUnmarshal t msg = Some m.

Record run_inv (t : tables) (tr : list label) (x : Exch) : Prop := {
  ri_nonce : 0 <= xRequestNonce x < 2 ^ 64;
  ri_begins : forall k, k ∈ begins tr -> 1 <= k <= xRequestNonce x;
  ri_nodup : NoDup (begins tr);
  ri_ends : NoDup (ends tr);
  ri_ended : forall k, k ∈ ends tr -> k ∈ begins tr;
  ri_pending : forall k, is_Some (Requests x !! k) <-> k ∈ begins tr /\ k ∉ ends tr;
  ri_data : forall k q, Requests x !! k = Some q -> (length q <= 1)%nat /\ (forall m, m ∈ q -> answered t k m tr);
  ri_returned : forall k m, LEnd k (Ok m) ∈ tr ->
    exists l1 l2, tr = l1 ++ LEnd k (Ok m) :: l2 /\ answered t k m l1
}.

Lemma elem_of_begins k tr : k ∈ begins tr <-> LBegin k ∈ tr.
Proof.
  unfold begins. rewrite list_elem_of_omap. split.
  - intros ([] & Hl & E); try done. by injection E as ->.
  - intros H. by exists (LBegin k).
Qed.

Lemma begins_app tr l : begins (tr ++ l) = begins tr ++ begins l.
Proof. apply omap_app. Qed.
Lemma ends_app tr l : ends (tr ++ l) = ends tr ++ ends l.
Proof. apply omap_app. Qed.

Lemma answered_app t k m tr l : answered t k m tr -> answered t k m (tr ++ l).
Proof.
  intros (l1 & l2 & l3 & msg & -> & H). exists l1, l2, (l3 ++ l), msg. split; [|done].
  by rewrite <- app_assoc; cbn; rewrite <- app_assoc.
Qed.

(** A step without a label leaves the requests as they are. *)
Lemma run_inv_frame t tr x x' :
  run_inv t tr x -> Requests x' = Requests x -> xRequestNonce x <= xRequestNonce x' < 2 ^ 64 -> run_inv t tr x'.
Proof.
  intros [] E N. split; try done; try rewrite E; auto; [lia|]. intros k Hk. specialize (ri_begins0 k Hk). lia.
Qed.

Lemma returned_app t tr l k m :
  (forall k m, LEnd k (Ok m) ∈ tr -> exists l1 l2, tr = l1 ++ LEnd k (Ok m) :: l2 /\ answered t k m l1) ->
  LEnd k (Ok m) ∈ tr -> exists l1 l2, tr ++ l = l1 ++ LEnd k (Ok m) :: l2 /\ answered t k m l1.
Proof.
  intros H (l1 & l2 & -> & Ha)%H. exists l1, (l2 ++ l). split; [|done]. by rewrite <- app_assoc.
Qed.

Lemma run_inv_begin t tr x k x' :
  run_inv t tr x -> k = xRequestNonce x + 1 -> k < 2 ^ 64 -> xRequestNonce x' = k ->
  Requests x' = <[k := []]> (Requests x) -> run_inv t (tr ++ [LBegin k]) x'.
Proof.
  intros [Hn Hb Hd He Hbe Hp Hq Hr] Hk Hlt En Er.
  assert (k ∉ begins tr) as Hfresh by (intros H%Hb; lia).
  assert (k ∉ ends tr) as Hopen by (by intros H%Hbe).
  split; rewrite ?begins_app, ?ends_app, ?En; cbn; rewrite ?app_nil_r.
  - lia.
  - intros j [Hj|Hj%list_elem_of_singleton]%elem_of_app; [apply Hb in Hj|]; lia.
  - apply NoDup_app. split_and!; [done| |apply NoDup_singleton]. by intros j Hj ->%list_elem_of_singleton.
  - done.
  - intros j Hj. apply elem_of_app. left. by apply Hbe.
  - intros j. rewrite Er, elem_of_app, list_elem_of_singleton.
    destruct (decide (j = k)) as [->|Hne].
    + rewrite lookup_insert_eq. split; [|by intros _; eexists]. intros _. split; [by right|done].
    + rewrite lookup_insert_ne, Hp by done. intuition congruence.
  - intros j q. rewrite Er, lookup_insert_Some. intros [[<- <-]|[Hne Hj]].
    + split; [cbn; lia|]. intros m Hm. by apply elem_of_nil in Hm.
    + destruct (Hq j q Hj) as [Hl Ha]. split; [done|]. intros m Hm. apply answered_app. auto.
  - intros j m [Hj|Hj%list_elem_of_singleton]%elem_of_app; [by apply returned_app|done].
Qed.

(** A message that does not reach a request. *)
Lemma run_inv_note t tr x msg y :
  run_inv t tr x -> Requests y = Requests x -> xRequestNonce y = xRequestNonce x ->
  run_inv t (tr ++ [LDispatch msg]) y.
Proof.
  intros [Hn Hb Hd He Hbe Hp Hq Hr] Er En.
  split; rewrite ?begins_app, ?ends_app, ?Er, ?En; cbn; rewrite ?app_nil_r; try done.
  - intros k q Hk. destruct (Hq k q Hk) as [Hl Ha]. split; [done|]. intros m Hm. apply answered_app. auto.
  - intros j m [Hj|Hj%list_elem_of_singleton]%elem_of_app; [by apply returned_app|done].
Qed.

Lemma run_inv_dispatch t tr x ready msg x' :
  run_inv t tr x -> dispatchMessage pbUnmarshal ready t msg x = Some x' -> run_inv t (tr ++ [LDispatch msg]) x'.
Proof.
  intros W. pose proof W as [Hn Hb Hd He Hbe Hp Hq Hr]. unfold dispatchMessage.
  destruct ready; cbn [negb]; [|intros [= <-]; by eapply run_inv_note].
  destruct (decode_payload pbUnmarshal t msg) as [ptr|] eqn:D; [|intros [= <-]; by eapply run_inv_note].
  assert (forall k, run_inv t (tr ++ [LDispatch msg]) (deliver ptr k x)) as FD.
  { intros k. unfold deliver. destruct (decide _); by eapply run_inv_note. }
  destruct ((0 <? RequestNonce msg) && ReplyFlag msg) eqn:F; [|intros [= <-]; apply FD].
  apply andb_true_iff in F as [_ F].
  destruct (Requests x !! RequestNonce msg) as [q|] eqn:L; [|intros [= <-]; apply FD].
  destruct (Nat.ltb_spec (length q) 1); [|done]. intros [= <-]. set (k := RequestNonce msg) in *.
  assert (k ∈ begins tr /\ k ∉ ends tr) as [Kb Ke] by (apply Hp; eauto).
  split; rewrite ?begins_app, ?ends_app; cbn; rewrite ?app_nil_r; try done.
  - intros j. rewrite <- Hp. destruct (decide (j = k)) as [->|]; [rewrite lookup_insert_eq, L; split; eauto|].
    by rewrite lookup_insert_ne.
  - intros j q'. rewrite lookup_insert_Some. intros [[<- <-]|[Hne Hj]].
    + rewrite length_app. cbn. split; [lia|]. destruct q as [|]; [|cbn in *; lia].
      intros m ->%list_elem_of_singleton. apply elem_of_begins, list_elem_of_split in Kb as (l1 & l2 & ->).
      exists l1, l2, [], msg. rewrite <- app_assoc. done.
    + destruct (Hq j q' Hj) as [Hl Ha]. split; [done|]. intros m Hm. apply answered_app. auto.
  - intros j m [Hj|Hj%list_elem_of_singleton]%elem_of_app; [by apply returned_app|done].
Qed.

Lemma run_inv_select t tr x k s r x' :
  run_inv t tr x -> is_Some (Requests x !! k) -> Request_select k s x = (Some r, x') ->
  run_inv t (tr ++ [LEnd k r]) x'.
Proof.
  intros [Hn Hb Hd He Hbe Hp Hq Hr] Hk E.
  assert (x' = set_requests (delete k (Requests x)) x /\ forall m, r = Ok m -> answered t k m tr) as [-> Ha].
  { unfold Request_select in E. destruct s; [injection E as <- <-; done| |injection E as <- <-; done].
    destruct (Requests x !! k) as [[|m q]|] eqn:L; [done| |done]. injection E as <- <-. split; [done|].
    intros m' [= <-]. apply (Hq k (m :: q) L). by left. }
  apply Hp in Hk as [Kb Ke].
  split; rewrite ?begins_app, ?ends_app; cbn; rewrite ?app_nil_r; try done.
  - apply NoDup_app. split_and!; [done| |apply NoDup_singleton]. by intros j Hj ->%list_elem_of_singleton.
  - intros j [Hj| ->%list_elem_of_singleton]%elem_of_app; [by apply Hbe|done].
  - intros j. rewrite elem_of_app, list_elem_of_singleton, lookup_delete_is_Some, Hp. intuition congruence.
  - intros j q. rewrite lookup_delete_Some. intros [Hne Hj]. destruct (Hq j q Hj) as [Hl Hm].
    split; [done|]. intros m ?. apply answered_app. auto.
  - intros j m [Hj|Hj%list_elem_of_singleton]%elem_of_app; [by apply returned_app|].
    injection Hj as -> <-. exists tr, []. auto.
Qed.


(** Request_begin on every branch, as far as the requests are concerned. *)
Lemma Request_begin_spec nd t ctx req c n x r n' x' :
  Request_begin Marshal pbMarshal nd t ctx req c n x = (r, n', x') ->
  match r with
  | Ok k => k = u64 (xRequestNonce x + 1) /\ xRequestNonce x' = k /\ Requests x' = <[k := []]> (Requests x)
  | Err _ => x' = x \/ exists k, k = u64 (xRequestNonce x + 1) /\ xRequestNonce x' = k /\
               Requests x' = delete k (<[k := []]> (Requests x))
  | Panic => True
  end.
Proof.
  unfold Request_begin. destruct ctx as [ctx|]; [|intros [= <- <- <-]; by left].
  destruct (ctx_done ctx); [intros [= <- <- <-]; by left|].
  destruct (PrepareMessage pbMarshal nd t ctx req) as [signed|e|]; [|intros [= <- <- <-]; by left|by intros [= <- <- <-]].
  destruct (Write Marshal (PeerID c) _ n) as [[]]; intros [= <- <- <-]; [done|right; by eexists|done].
Qed.

Lemma Read_frame m late x :
  Requests (Read m late x).2 = Requests x /\ xRequestNonce (Read m late x).2 = xRequestNonce x.
Proof. unfold Read. destruct (isClosed x), late; try done. by destruct (negb _). Qed.

Lemma AsyncSend_frame nd t ctx req msgID second c n x r n' x' :
  AsyncSendAndWaitAck Marshal pbMarshal nd t ctx req msgID second c n x = (r, n', x') ->
  Requests x' = Requests x /\ xRequestNonce x' = xRequestNonce x.
Proof.
  unfold AsyncSendAndWaitAck. destruct ctx as [ctx|]; [|by intros [= <- <- <-]].
  destruct (ctx_done ctx); [by intros [= <- <- <-]|]. destruct (_ <=? _)%nat; [by intros [= <- <- <-]|].
  destruct (SyncWaitAck x !! msgID); [by intros [= <- <- <-]|].
  destruct (PrepareMessageWithMsgID _ _ _ _ _ _) as [signed|e|]; [|by intros [= <- <- <-]..].
  destruct (Write Marshal (PeerID c) signed n) as [[]]; by intros [= <- <- <-].
Qed.

Lemma run_inv_step nd t tr x l x' : run_inv t tr x -> ex_step nd t x l x' -> run_inv t (tr ++ l) x'.
Proof.
  intros W S. pose proof (ri_nonce _ _ _ W) as N. destruct S; rewrite ?app_nil_r.
  - apply Request_begin_spec in H0 as (Hk & Hn & Hr). rewrite u64_small in Hk by lia.
    by eapply run_inv_begin; [done|lia..|].
  - apply Request_begin_spec in H0 as [->|(k & Hk & Hn & Hr)]; [done|]. rewrite u64_small in Hk by lia.
    apply (run_inv_frame t tr x); [done| |lia]. rewrite Hr, delete_insert_id; [done|].
    destruct (Requests x !! k) eqn:L; [|done]. exfalso.
    assert (k ∈ begins tr) as Hb by (apply (ri_pending _ _ _ W); eauto). apply (ri_begins _ _ _ W) in Hb. lia.
  - by eapply run_inv_dispatch.
  - by eapply run_inv_select.
  - destruct (Read_frame m late x) as [Hr Hn]. apply (run_inv_frame t tr x); [done..|lia].
  - destruct (AsyncSend_frame _ _ _ _ _ _ _ _ _ _ _ _ H) as [Hr Hn]. apply (run_inv_frame t tr x); [done..|lia].
  - unfold ack_Receive in H. case_match; [done|]. simplify_eq. by apply (run_inv_frame t tr x); [|cbn|cbn; lia].
  - unfold ack_expire in H. case_match; [done|]. simplify_eq. by apply (run_inv_frame t tr x); [|cbn|cbn; lia].
Qed.

Lemma ex_run_inv nd t tr x : ex_run nd t tr x -> run_inv t tr x.
Proof.
  induction 1 as [|tr x l x' _ IH S]; [|by eapply run_inv_step].
  split; [cbn; lia|by intros k ?%elem_of_nil|constructor|constructor|by intros k ?%elem_of_nil|..].
  - intros k. change (Requests new_Exch) with (∅ : gmap Z (list proto)). rewrite lookup_empty.
    split; [by intros [? ?]|by intros [?%elem_of_nil _]].
  - intros k q. change (Requests new_Exch) with (∅ : gmap Z (list proto)). by rewrite lookup_empty.
  - by intros k m ?%elem_of_nil.
Qed.

(** C18. Requests and replies are matched: in every interleaving of requests, received messages and the other operations of a client, each request has a nonce of its own and returns at most once; a request that returns a message returns one that arrived after the request began, in a message flagged as a reply and carrying the nonce of that very request (never the late reply to an earlier, timed-out request); pending are exactly the requests that have begun and not returned.  And a first reply to a pending request reaches it: the select can then return it. *)
Theorem requests_matched nd t tr x :
  ex_run nd t tr x ->
  NoDup (begins tr) /\ NoDup (ends tr) /\
  (forall k m, LEnd k (Ok m) ∈ tr -> exists l1 l2 l3 l4 msg,
     tr = l1 ++ LBegin k :: l2 ++ LDispatch msg :: l3 ++ LEnd k (Ok m) :: l4 /\
     RequestNonce msg = k /\ ReplyFlag msg = true /\ decode_payload pbUnmarshal t msg = Some m) /\
  (forall k, is_Some (Requests x !! k) <-> k ∈ begins tr /\ k ∉ ends tr) /\
  (forall k m msg, Requests x !! k = Some [] -> RequestNonce msg = k -> ReplyFlag msg = true ->
     decode_payload pbUnmarshal t msg = Some m ->
     exists x', dispatchMessage pbUnmarshal true t msg x = Some x' /\
       (Request_select k ByReply x').1 = Some (Ok m)).
Proof.
  intros R. apply ex_run_inv in R as [Hn Hb Hd He Hbe Hp Hq Hr]. split_and!; [done|done| |done|].
  - intros k m (l1 & l2 & -> & (a & b & c & msg & -> & Hm))%Hr.
    exists a, b, c, l2, msg. split; [|done]. rewrite <- app_assoc. cbn. by rewrite <- app_assoc.
  - intros k m msg L Hk Hf D. assert (1 <= k <= xRequestNonce x) as B by (apply Hb, Hp; eauto).
    eexists. unfold dispatchMessage. cbn [negb]. rewrite D, Hf, Hk, L, (proj2 (Z.ltb_lt 0 k)) by lia. cbn.
    split; [reflexivity|]. unfold Request_select. cbn. by rewrite lookup_insert_eq.
Qed.

(** ** The byte stream *)

(** What happens to the stream of a client: a message is dispatched, or some bytes are read. *)
Inductive bop := BDispatch (msg : Message) | BRead (m : nat) (late : bool).

Definition read_out (r : read_result) : list Z :=
  match r with ReadOk o | ReadClosed o | ReadLate o => o | ReadWait => [] end.

Fixpoint run_bytes (t : tables) (ops : list bop) (x : Exch) : option (list Z * Exch) :=
  match ops with
  | [] => Some ([], x)
  | BDispatch msg :: ops => x ← dispatchMessage pbUnmarshal true t msg x; run_bytes t ops x
  | BRead m late :: ops =>
    let '(r, x) := Read m late x in
    '(out, x) ← run_bytes t ops x; Some (read_out r ++ out, x)
  end.

(** The messages are those with which PeerClient.Write sends the byte strings [ds]. *)
Inductive carries (nd : node) (t : tables) : list bop -> list (list Z) -> Prop :=
| carries_nil : carries nd t [] []
| carries_write d msg ops ds :
    PrepareMessage pbMarshal nd t (WithSignMessage Background true) (Some (mkProto "Bytes" d)) = Ok msg ->
    carries nd t ops ds -> carries nd t (BDispatch msg :: ops) (d :: ds)
| carries_read m late ops ds : carries nd t ops ds -> carries nd t (BRead m late :: ops) ds.

Lemma Read_buffer m late x : read_out (Read m late x).1 ++ sbuffer (Read m late x).2 = sbuffer x.
Proof.
  unfold Read. destruct (isClosed x), late; cbn; try apply take_drop.
  destruct (Nat.eqb_spec (length (take m (sbuffer x))) 0) as [E|E]; cbn; [|apply take_drop].
  rewrite length_take in E. destruct m; [by rewrite drop_0|].
  destruct (sbuffer x); [done|cbn in E; lia].
Qed.

(** The byte stream between two peers: when the Bytes messages written by PeerClient.Write are dispatched in their order, however they are interleaved with reads of any size, nothing blocks, and what the reads return followed by what is still buffered is exactly what was written, in order. *)
Theorem byte_stream_fifo `{!ProtoLaws pbMarshal pbUnmarshal} nd t ops ds x :
  registered pbMarshal t -> carries nd t ops ds ->
  exists out x', run_bytes t ops x = Some (out, x') /\ out ++ sbuffer x' = sbuffer x ++ concat ds.
Proof.
  intros R H. revert x. induction H as [|d msg ops ds P H IH|m late ops ds H IH]; intros x.
  - exists [], x. cbn. by rewrite app_nil_r.
  - apply prepare_Ok in P as (code & raw & sig & G & E & -> & _).
    destruct (IH (handleBytes d x)) as (out & x' & Ho & Hb). exists out, x'. cbn [run_bytes].
    unfold dispatchMessage. cbn [negb].
    erewrite (decode_prepared t _ code raw) by done. cbn. split; [exact Ho|].
    rewrite Hb. cbn. by rewrite app_assoc.
  - pose proof (Read_buffer m late x) as B. cbn [run_bytes]. destruct (Read m late x) as [r y].
    destruct (IH y) as (out & x' & -> & Hb). cbn. exists (read_out r ++ out), x'.
    split; [done|]. rewrite <- app_assoc, Hb, app_assoc. cbn in B. by rewrite B.
Qed.

(** ** Acknowledgements *)

(** time.Time.Second at Unix time [t]: the second within the minute. *)
Definition Second (t : Z) : Z := t mod 60.

Lemma Second_range t : 0 <= Second t < 60.
Proof. apply Z.mod_pos_bound. lia. Qed.

Lemma ack_check_expire timeout interval s1 s2 s3 e :
  ack_check timeout interval s1 s2 s3 e = AckExpire <-> WhenSend e + timeout < s1.
Proof.
  unfold ack_check. destruct (Z.ltb_spec timeout (s1 - WhenSend e)); [split; [lia|done]|].
  split; [|lia]. by repeat case_match.
Qed.

Lemma AsyncSend_Ok nd t ctx req msgID second c n x n' x' :
  AsyncSendAndWaitAck Marshal pbMarshal nd t ctx req msgID second c n x = (Ok tt, n', x') ->
  (waitAckLen x < DEFAULT_ACK_REPLY_CAPACITY)%nat /\ SyncWaitAck x !! msgID = None /\
  SyncWaitAck x' = <[msgID := mkAck req second 1 0]> (SyncWaitAck x).
Proof.
  unfold AsyncSendAndWaitAck. destruct ctx as [ctx|]; [|done]. destruct (ctx_done ctx); [done|].
  destruct (Nat.leb_spec DEFAULT_ACK_REPLY_CAPACITY (waitAckLen x)); [done|].
  destruct (SyncWaitAck x !! msgID) eqn:L; [done|].
  destruct (PrepareMessageWithMsgID _ _ _ _ _ _) as [signed|e|]; [|done..].
  destruct (Write Marshal (PeerID c) signed n) as [[]]; intros [= <- <-]. done.
Qed.

(** Acknowledged sends: AsyncSendAndWaitAck puts a message under its fresh identity into the table of at most 4096 outstanding messages, where it stays until the acknowledgement for it is received.  The check that gives up on it compares seconds within the minute: it never fires before the time out, but for a message sent at second s of a minute it fires only at the seconds after s + timeout of some minute, so never when s + timeout is 59 or more.  And a resent message carries no message identity, so that the receiver does not acknowledge it. *)
Lemma ack_expiry nd t ctx req msgID t0 c n x n' x' timeout interval :
  (waitAckLen x <= DEFAULT_ACK_REPLY_CAPACITY)%nat -> 0 <= timeout ->
  AsyncSendAndWaitAck Marshal pbMarshal nd t ctx req msgID (Second t0) c n x = (Ok tt, n', x') ->
  exists e, SyncWaitAck x' !! msgID = Some e /\ (waitAckLen x' <= DEFAULT_ACK_REPLY_CAPACITY)%nat /\
  SyncWaitAck x !! msgID = None /\
  (forall y, ack_Receive msgID x' = Some y ->
     SyncWaitAck y = SyncWaitAck x /\ AckStatusNotify y = AckStatusNotify x' ++ [(msgID, ACK_SUCCESS)]) /\
  (forall t1 s2 s3, ack_check timeout interval (Second t1) s2 s3 e = AckExpire <-> Second t0 + timeout < Second t1) /\
  (forall t1 s2 s3, t0 <= t1 <= t0 + timeout -> ack_check timeout interval (Second t1) s2 s3 e <> AckExpire) /\
  (59 <= Second t0 + timeout -> forall t1 s2 s3, ack_check timeout interval (Second t1) s2 s3 e <> AckExpire) /\
  (Second t0 + timeout < 59 -> forall s2 s3, ack_check timeout interval (Second (t0 + timeout + 1)) s2 s3 e = AckExpire) /\
  (forall msg, ack_resend pbMarshal nd t e = Ok msg -> MessageID msg = []).
Proof.
  intros Hs Ht (Hl & Hf & He)%AsyncSend_Ok. exists (mkAck req (Second t0) 1 0).
  pose proof (Second_range t0) as R0. split_and!.
  - by rewrite He, lookup_insert_eq.
  - unfold waitAckLen in *. rewrite He, map_size_insert_None by done. lia.
  - done.
  - intros y. unfold ack_Receive. case_match; [done|]. intros [= <-]. cbn.
    by rewrite He, delete_insert_id.
  - intros t1 s2 s3. apply ack_check_expire.
  - intros t1 s2 s3 H1 H2%ack_check_expire. cbn in H2. unfold Second in *. Z.div_mod_to_equations. lia.
  - intros H t1 s2 s3 H2%ack_check_expire. cbn in H2. pose proof (Second_range t1). lia.
  - intros H s2 s3. apply ack_check_expire. cbn. unfold Second in *. Z.div_mod_to_equations. lia.
  - intros msg (code & raw & sig & _ & _ & -> & _)%prepare_Ok. done.
Qed.
End laws.

(** ** Proxy servers *)

Fixpoint UpdateProxyWorkIDs (k : nat) (s : Proxy) : res unit Proxy :=
  match k with
  | O => Ok s
  | S k => let? s := UpdateProxyWorkID s in UpdateProxyWorkIDs k s
  end.

(** With 1 to 65535 servers and a valid index, the working proxy server moves through the list
    cyclically and is always there; with none, or with a multiple of 65536, the update divides
    by zero. *)
Lemma proxy_rotates k s :
  0 < Z.of_nat (length (Servers s)) < 65536 -> 0 <= WorkID s < Z.of_nat (length (Servers s)) ->
  exists s', UpdateProxyWorkIDs k s = Ok s' /\ Servers s' = Servers s /\ pEnable s' = pEnable s /\
    WorkID s' = (WorkID s + Z.of_nat k) mod Z.of_nat (length (Servers s)) /\
    GetWorkingProxyServer s' <> Panic.
Proof.
  intros Hl. revert s Hl. induction k as [|k IH]; intros s Hl Hw.
  - exists s. split_and!; try done; cbn [Z.of_nat]; [rewrite Z.add_0_r, Z.mod_small by lia; done|].
    unfold GetWorkingProxyServer. destruct (negb (pEnable s)); [done|].
    destruct (lookup_lt_is_Some_2 (Servers s) (Z.to_nat (WorkID s))) as [p ->]; [lia|done].
  - cbn [UpdateProxyWorkIDs]. unfold UpdateProxyWorkID.
    rewrite !u16_small by lia. rewrite (proj2 (Z.eqb_neq _ _)) by lia. cbn [res_bind].
    set (s1 := mkProxyService (pEnable s) (Servers s) _).
    destruct (IH s1) as (s' & E & Hs & He & Hw' & Hg); [done|apply Z.mod_pos_bound; cbn; lia|].
    exists s'. split_and!; try done. rewrite Hw'. cbn [s1 WorkID Servers].
    rewrite Zplus_mod_idemp_l. f_equal. lia.
Qed.

Lemma UpdateProxyWorkID_none s : Servers s = [] -> UpdateProxyWorkID s = Panic.
Proof. intros E. unfold UpdateProxyWorkID. by rewrite E. Qed.

(** ** Witnesses: a payload codec that marks its output, and the scheme of KeyPair *)

Definition toy_pbMarshal (m : proto) : option (list Z) :=
  Some (match pfields m with [] => [] | l => 1 :: l end).

Definition toy_pbUnmarshal (ty : msg_type) (raw : list Z) : option proto :=
  match raw with
  | [] => Some (mkProto ty [])
  | b :: l => if b =? 1 then Some (mkProto ty l) else None
  end.

#[local] Instance toy_pb_laws : ProtoLaws toy_pbMarshal toy_pbUnmarshal.
Proof.
  split.
  - intros [ty [|b l]] raw [= <-]; done.
  - intros [ty [|b l]]; [done|]. intros [=].
Qed.

Definition toy_node : node :=
  mkNode (mkPbID (Some [1; 2]) (str "tcp://10.0.0.1:1") [3] [] []) (mkKeyPair [1; 2] [1; 2]) 7.

Lemma toy_node_wf : node_wf (sp := toy_policy) (SignatureLaws0 := toy_laws) toy_node.
Proof. split_and!; reflexivity || exact I. Qed.

Definition toy_ctx : context := WithSignMessage Background true.

Definition prepared (m : proto) : Message :=
  match PrepareMessage (sp := toy_policy) (hp := toy_hash) toy_pbMarshal toy_node init_tables toy_ctx (Some m) with
  | Ok msg => msg
  | _ => toy_msg
  end.

Lemma prepared_roundtrip_witness :
  decode_payload toy_pbUnmarshal init_tables (prepared (mkProto "Ping" [5])) = Some (mkProto "Ping" [5]) /\
  is_Some (Signature (prepared (mkProto "Ping" [5]))).
Proof.
  destruct (prepared_roundtrip (sp := toy_policy) (SignatureLaws0 := toy_laws) (hp := toy_hash) toy_pbMarshal toy_pbUnmarshal toy_node
              init_tables toy_ctx (mkProto "Ping" [5]) (prepared (mkProto "Ping" [5])) new_Exch)
    as (_ & _ & S & _ & D & _).
  - apply reg_init.
  - apply toy_node_wf.
  - vm_compute. reflexivity.
  - split; [exact D|]. apply S. reflexivity.
Defined.

Lemma byte_stream_fifo_witness :
  exists out x', run_bytes toy_pbUnmarshal init_tables
    [BDispatch (prepared (mkProto "Bytes" [1; 2; 3])); BRead 2 false; BDispatch (prepared (mkProto "Bytes" [4])); BRead 9 false]
    new_Exch = Some (out, x') /\ out ++ sbuffer x' = [1; 2; 3; 4].
Proof.
  apply (byte_stream_fifo (sp := toy_policy) (hp := toy_hash) toy_pbMarshal toy_pbUnmarshal toy_node init_tables _
           [[1; 2; 3]; [4]] new_Exch).
  - apply reg_init.
  - repeat constructor; vm_compute; reflexivity.
Defined.

(** A peer registered under its public key [7]. *)
Definition toy_key_net : Network := (Client (A := toy_addresses) [1] (hex_encode [7]) (Some toy_handle) toy_net).2.
Definition toy_client : PeerClient := mkClient [1] (Some (mkID [7] [1] [] [] [])) [] false true true false.

Definition toy_begin : res ex_err Z * Network * Exch :=
  Request_begin (A := toy_addresses) (C := marker_codec) (sp := toy_policy) (hp := toy_hash) example_marshal toy_pbMarshal
    toy_node init_tables (Some toy_ctx) (Some (mkProto "Ping" [])) toy_client toy_key_net new_Exch.

Definition toy_reply : Message := with_request 1 true (prepared (mkProto "Pong" [9])).

Definition toy_after : Exch :=
  default new_Exch (dispatchMessage toy_pbUnmarshal true init_tables toy_reply toy_begin.2).

Lemma requests_matched_witness :
  (Request_select 1 ByReply toy_after).1 = Some (Ok (mkProto "Pong" [9])) /\
  NoDup (begins [LBegin 1; LDispatch toy_reply; LEnd 1 (Ok (mkProto "Pong" [9]))]).
Proof.
  split; [vm_compute; reflexivity|].
  apply (requests_matched (A := toy_addresses) (C := marker_codec) (sp := toy_policy) (hp := toy_hash) example_marshal
           toy_pbMarshal toy_pbUnmarshal toy_node init_tables _ (Request_select 1 ByReply toy_after).2).
  apply (run_step _ _ _ _ _ [LBegin 1; LDispatch toy_reply] toy_after [LEnd 1 (Ok (mkProto "Pong" [9]))]).
  - apply (run_step _ _ _ _ _ [LBegin 1] toy_begin.2 [LDispatch toy_reply]).
    + apply (run_step _ _ _ _ _ [] new_Exch [LBegin 1]); [apply run_new|].
      apply (step_begin _ _ _ _ _ (Some toy_ctx) (Some (mkProto "Ping" [])) toy_client toy_key_net toy_begin.1.2);
        [reflexivity|]. vm_compute. reflexivity.
    + apply (step_dispatch _ _ _ _ _ true). vm_compute. reflexivity.
  - apply (step_select _ _ _ _ _ _ ByReply); [vm_compute; eauto|vm_compute; reflexivity].
Defined.

(** A message sent at second 55 with the default time out of 10 seconds. *)
Lemma ack_expiry_witness :
  exists e, forall t1 s2 s3, ack_check 10 3 (Second t1) s2 s3 e <> AckExpire.
Proof.
  destruct (ack_expiry (A := toy_addresses) (C := marker_codec) (sp := toy_policy) (hp := toy_hash) example_marshal
    toy_pbMarshal toy_pbUnmarshal toy_node init_tables (Some toy_ctx) (mkProto "Ping" []) [4] 55 toy_client toy_key_net new_Exch
    (AsyncSendAndWaitAck (A := toy_addresses) (C := marker_codec) (sp := toy_policy) (hp := toy_hash) example_marshal
       toy_pbMarshal toy_node init_tables (Some toy_ctx) (mkProto "Ping" []) [4] (Second 55) toy_client toy_key_net new_Exch).1.2
    (AsyncSendAndWaitAck (A := toy_addresses) (C := marker_codec) (sp := toy_policy) (hp := toy_hash) example_marshal
       toy_pbMarshal toy_node init_tables (Some toy_ctx) (mkProto "Ping" []) [4] (Second 55) toy_client toy_key_net new_Exch).2
    10 3) as (e & _ & _ & _ & _ & _ & _ & N & _).
  - vm_compute. lia.
  - lia.
  - vm_compute. reflexivity.
  - exists e. apply N. vm_compute. discriminate.
Defined.
