(* ===== verification/AckReply.v ===== *)
(** * network/components/ackreply: acknowledged sends, resends and time outs

    The component with its options, its handlers, the service that checks the unacknowledged messages of a
    client at every tick, and the goroutines that resend them.  AsyncSendAndWaitAck is split where it
    has written the message and not yet stored it in SyncWaitAck, since an acknowledgement can arrive in
    between.  SyncWaitAck holds pointers: [a_obj] names the object under a key, so that a goroutine which
    still holds an object that has left the table does not change the entry of a later send.  Objects that
    have left the table are read by nobody, except for the number of resends in a delay, which is computed
    when the goroutine starts. *)
From S2P Require Import Prelude Peer Wire Opcode KeyPair Address ConnMgr Exchange.
Local Open Scope Z_scope.
Local Open Scope go_scope.

(** ** Options and life cycle *)

(** time.Duration in nanoseconds *)
Definition ackMillisecond : Z := 1000000.
Definition ackSecond : Z := 1000000000.
Definition DefaultAckCheckedInterval : Z := 3 * ackSecond.
Definition DefaultAckMessageTimeout : Z := 10 * ackSecond.
Definition DefaultDelayResentTime : Z := 1 * ackSecond.

(** [isStop] is also whether stopCh is closed. *)
Record AckComponent := mkAckComponent {
  ackCheckedInterval : Z;
  ackMessageTimeout : Z;
  delayResentTimeDistance : Z;
  isStop : bool
}.

Definition WithAckCheckedInterval (t : Z) (o : AckComponent) : AckComponent :=
  mkAckComponent t (ackMessageTimeout o) (delayResentTimeDistance o) (isStop o).
Definition WithAckMessageTimeout (t : Z) (o : AckComponent) : AckComponent :=
  mkAckComponent (ackCheckedInterval o) t (delayResentTimeDistance o) (isStop o).
Definition WithDealyResentTimeDistance (t : Z) (o : AckComponent) : AckComponent :=
  mkAckComponent (ackCheckedInterval o) (ackMessageTimeout o) t (isStop o).
Definition ack_defaultOptions (o : AckComponent) : AckComponent :=
  mkAckComponent DefaultAckCheckedInterval DefaultAckMessageTimeout DefaultDelayResentTime (isStop o).

Definition ack_New (opts : list (AckComponent -> AckComponent)) : AckComponent :=
  foldl (fun p opt => opt p) (ack_defaultOptions (mkAckComponent 0 0 0 false)) opts.

(** Cleanup closes stopCh once. *)
Definition ack_Cleanup (p : AckComponent) : AckComponent :=
  if isStop p then p
  else mkAckComponent (ackCheckedInterval p) (ackMessageTimeout p) (delayResentTimeDistance p) true.

(** [rnd] is rand.Intn(200). *)
Definition getJitDelayTime (p : AckComponent) (rnd : Z) (e : PrepareAckMessage) : Z :=
  i64 (i64 (delayResentTimeDistance p * Frequency e) + i64 (ackMillisecond * rnd)).

(** ** State *)

(** A goroutine that resends: the object it holds, with its key and message, and how long it sleeps. *)
Record resend := mkResend { r_obj : nat; r_key : key; r_msg : proto; r_delay : Z }.

(** A client [a_client] of the network, with the AsyncSendAndWaitAck calls that have written their message
    and not stored it. *)
Record ackState := mkAckState {
  a_net : Network;
  a_client : nat;
  a_x : Exch;
  a_service : bool;
  a_storing : list (key * proto);
  a_obj : gmap key nat;
  a_next : nat;
  a_resends : list resend
}.

Definition a_set_net (n : Network) (s : ackState) : ackState :=
  mkAckState n (a_client s) (a_x s) (a_service s) (a_storing s) (a_obj s) (a_next s) (a_resends s).
Definition a_set_storing (l : list (key * proto)) (s : ackState) : ackState :=
  mkAckState (a_net s) (a_client s) (a_x s) (a_service s) l (a_obj s) (a_next s) (a_resends s).
Definition a_set_resends (l : list resend) (s : ackState) : ackState :=
  mkAckState (a_net s) (a_client s) (a_x s) (a_service s) (a_storing s) (a_obj s) (a_next s) l.
Definition a_set_x (x : Exch) (obj : gmap key nat) (s : ackState) : ackState :=
  mkAckState (a_net s) (a_client s) x (a_service s) (a_storing s) obj (a_next s) (a_resends s).

(** PeerConnect of the component, which starts the service; the flag makes the receive loop acknowledge. *)
Definition enable_ack (c : PeerClient) : PeerClient :=
  mkClient (cAddress c) (cID c) (PubKey c) (closed c) (outgoingReady c) (incomingReady c) true.
Definition ack_PeerConnect (s : ackState) : ackState :=
  mkAckState (set_client (a_client s) enable_ack (a_net s)) (a_client s) (a_x s) true (a_storing s) (a_obj s) (a_next s) (a_resends s).

Definition ack_init (n : Network) (c : nat) : ackState := mkAckState n c new_Exch false [] ∅ 0 [].

(** The service ends when the component is stopped or the node is killed. *)
Definition ack_service_stop (p : AckComponent) (killed : bool) (s : ackState) : ackState :=
  if isStop p || killed then
    mkAckState (a_net s) (a_client s) (a_x s) false (a_storing s) (a_obj s) (a_next s) (a_resends s)
  else s.

Section ackreply.
Context `{A : AddressOps} `{C : Codec} `{sp : SignaturePolicy} `{hp : HashPolicy}.
Variable Marshal : Message -> option (list Z).
Variable pbMarshal : proto -> option (list Z).

(** ** AsyncSendAndWaitAck in two steps *)

(** Up to the Write. *)
Definition async_write (nd : node) (t : tables) (ctx : option context) (req : proto) (msgID : key) (s : ackState)
    : res ex_err unit * ackState :=
  match ctx, clients (a_net s) !! a_client s with
  | _, None => (Panic, s)
  | None, _ => (Err ENilContext, s)
  | Some ctx, Some c =>
    if ctx_done ctx then (Err EContextDone, s)
    else if (DEFAULT_ACK_REPLY_CAPACITY <=? waitAckLen (a_x s))%nat then (Err EAckFull, s)
    else match SyncWaitAck (a_x s) !! msgID with
    | Some _ => (Err EAckDuplicate, s)
    | None =>
      match PrepareMessageWithMsgID pbMarshal nd t ctx (Some req) msgID with
      | Err e => (Err e, s)
      | Panic => (Panic, s)
      | Ok signed =>
        match Write Marshal (PeerID c) signed (a_net s) with
        | (Err e, n) => (Err (EConn e), a_set_net n s)
        | (Panic, n) => (Panic, a_set_net n s)
        | (Ok _, n) => (Ok tt, a_set_storing ((msgID, req) :: a_storing s) (a_set_net n s))
        end
      end
    end
  end.

(** The Store, of a new object. *)
Definition async_store (msgID : key) (req : proto) (second : Z) (s : ackState) : ackState :=
  let x := set_acks (<[msgID := mkAck req second 1 0]> (SyncWaitAck (a_x s))) (a_x s) in
  mkAckState (a_net s) (a_client s) x (a_service s) (a_storing s) (<[msgID := a_next s]> (a_obj s)) (S (a_next s)) (a_resends s).

(** ** The handlers *)

(** Receive: an AsyncAckResponse for [msgID].  None: the notification blocks. *)
Definition ack_receive (msgID : key) (s : ackState) : option ackState :=
  x ← ack_Receive msgID (a_x s);
  Some (a_set_x x (delete msgID (a_obj s)) s).

(** The function that checkAckReceivedService applies to the entries at a tick, on the entry under [k]:
    [s1], [s2] and [s3] are the seconds it reads, [rnd] the random part of the delay of a resend. *)
Definition ack_visit (p : AckComponent) (s1 s2 s3 rnd : Z) (k : key) (s : ackState) : option ackState :=
  match SyncWaitAck (a_x s) !! k, a_obj s !! k with
  | Some e, Some o =>
    match ack_check (ackMessageTimeout p ÷ ackSecond) (ackCheckedInterval p ÷ ackSecond) s1 s2 s3 e with
    | AckExpire => x ← ack_expire k (a_x s); Some (a_set_x x (delete k (a_obj s)) s)
    | AckKeep => Some s
    | AckResend => Some (a_set_resends (mkResend o k (ackMessage e) (getJitDelayTime p rnd e) :: a_resends s) s)
    end
  | _, _ => Some s
  end.

(** A tick: Range visits the keys in some order, each with the clock and the randomness of its visit. *)
Definition ack_tick (p : AckComponent) (order : list (key * (Z * Z * Z * Z))) (s : ackState) : option ackState :=
  if a_service s then
    foldl (fun s '(k, (s1, s2, s3, rnd)) => s ← s; ack_visit p s1 s2 s3 rnd k s) (Some s) order
  else Some s.

(** The entry under the key of a goroutine, when it is still the object the goroutine holds. *)
Definition resend_done (second : Z) (ok : bool) (r : resend) (s : ackState) : ackState :=
  if decide (a_obj s !! r_key r = Some (r_obj r)) then
    a_set_x (set_acks (alter (ack_resent ok second) (r_key r) (SyncWaitAck (a_x s))) (a_x s)) (a_obj s) s
  else s.

(** The goroutine after its sleep: Tell, and the result in the object it holds. *)
Definition resend_run (nd : node) (t : tables) (second : Z) (r : resend) (s : ackState) : res unit ackState :=
  match PrepareMessage pbMarshal nd t Background (Some (r_msg r)) with
  | Panic => Panic
  | Err _ => Ok (resend_done second false r s)
  | Ok signed =>
    match Tell Marshal (a_client s) signed (a_net s) with
    | (Panic, _) => Panic
    | (Ok _, n) => Ok (resend_done second true r (a_set_net n s))
    | (Err _, n) => Ok (resend_done second false r (a_set_net n s))
    end
  end.
End ackreply.

(** ** Runs of a client *)

(** What happens to acknowledged sends: written to the connection, stored in the table, acknowledged,
    given up, resent (and whether with success), and a status taken from the channel by the application. *)
Inductive ack_event :=
| EWritten (k : key) (m : proto)
| EStored (k : key) (m : proto)
| EAcked (k : key)
| EFailed (k : key)
| EResent (k : key) (m : proto)
| ERead (k : key) (status : Z).

Section runs.
Context `{A : AddressOps} `{C : Codec} `{sp : SignaturePolicy} `{hp : HashPolicy}.
Variable Marshal : Message -> option (list Z).
Variable pbMarshal : proto -> option (list Z).

(** The operations on one client in any order.  The network may be changed by others at any time. *)
Inductive ack_step (nd : node) (t : tables) (p : AckComponent) : ackState -> list ack_event -> ackState -> Prop :=
| as_network n s : ack_step nd t p s [] (a_set_net n s)
| as_connect s : ack_step nd t p s [] (ack_PeerConnect s)
| as_stop killed s : ack_step nd t p s [] (ack_service_stop p killed s)
| as_write ctx req k s s' : async_write Marshal pbMarshal nd t ctx req k s = (Ok tt, s') -> ack_step nd t p s [EWritten k req] s'
| as_write_err ctx req k e s s' : async_write Marshal pbMarshal nd t ctx req k s = (Err e, s') -> ack_step nd t p s [] s'
| as_store l1 k m l2 second s :
    a_storing s = l1 ++ (k, m) :: l2 ->
    ack_step nd t p s [EStored k m] (async_store k m second (a_set_storing (l1 ++ l2) s))
| as_ack k s s' : ack_receive k s = Some s' -> ack_step nd t p s [EAcked k] s'
| as_expire s1 s2 s3 rnd k s s' :
    a_service s = true -> a_obj s' !! k = None -> is_Some (a_obj s !! k) ->
    ack_visit p s1 s2 s3 rnd k s = Some s' -> ack_step nd t p s [EFailed k] s'
| as_visit s1 s2 s3 rnd k s s' :
    a_service s = true -> a_obj s' = a_obj s -> ack_visit p s1 s2 s3 rnd k s = Some s' -> ack_step nd t p s [] s'
| as_resend l1 r l2 second s s' :
    a_resends s = l1 ++ r :: l2 -> resend_run Marshal pbMarshal nd t second r (a_set_resends (l1 ++ l2) s) = Ok s' ->
    ack_step nd t p s [EResent (r_key r) (r_msg r)] s'
| as_read k status l s :
    AckStatusNotify (a_x s) = (k, status) :: l ->
    ack_step nd t p s [ERead k status]
      (a_set_x (mkExch (Requests (a_x s)) (xRequestNonce (a_x s)) (sbuffer (a_x s)) (isClosed (a_x s)) (SyncWaitAck (a_x s)) l (received (a_x s))) (a_obj s) s).

Inductive ack_run (nd : node) (t : tables) (p : AckComponent) : list ack_event -> ackState -> Prop :=
| ar_init n c : ack_run nd t p [] (ack_init n c)
| ar_step tr s ev s' : ack_run nd t p tr s -> ack_step nd t p s ev s' -> ack_run nd t p (tr ++ ev) s'.
End runs.

(** Whether the last outcome of [k] is that it was stored. *)
Definition outstanding (k : key) (tr : list ack_event) : bool :=
  foldl (fun b e => match e with
    | EStored k' _ => if decide (k' = k) then true else b
    | EAcked k' | EFailed k' => if decide (k' = k) then false else b
    | _ => b end) false tr.

(** The statuses reported, and the ones read. *)
Definition statuses (tr : list ack_event) : list (key * Z) :=
  omap (fun e => match e with EAcked k => Some (k, ACK_SUCCESS) | EFailed k => Some (k, ACK_FAILED) | _ => None end) tr.
Definition reads (tr : list ack_event) : list (key * Z) :=
  omap (fun e => match e with ERead k st => Some (k, st) | _ => None end) tr.

Lemma outstanding_app k tr e :
  outstanding k (tr ++ [e]) = match e with
    | EStored k' _ => if decide (k' = k) then true else outstanding k tr
    | EAcked k' | EFailed k' => if decide (k' = k) then false else outstanding k tr
    | _ => outstanding k tr end.
Proof. unfold outstanding. by rewrite foldl_app. Qed.

Lemma ack_statuses_app tr tr' : statuses (tr ++ tr') = statuses tr ++ statuses tr'.
Proof. apply omap_app. Qed.
Lemma ack_reads_app tr tr' : reads (tr ++ tr') = reads tr ++ reads tr'.
Proof. apply omap_app. Qed.

(** Every event is one its history allows. *)
Definition justified (tr : list ack_event) (e : ack_event) : Prop :=
  match e with
  | EStored k m => EWritten k m ∈ tr
  | EFailed k => outstanding k tr = true
  | EResent k m => EStored k m ∈ tr
  | _ => True
  end.

Record ack_inv (tr : list ack_event) (s : ackState) : Prop := {
  ai_table : forall k, is_Some (SyncWaitAck (a_x s) !! k) <-> outstanding k tr = true;
  ai_obj : forall k, is_Some (a_obj s !! k) <-> is_Some (SyncWaitAck (a_x s) !! k);
  ai_queue : reads tr ++ AckStatusNotify (a_x s) = statuses tr;
  ai_room : (length (AckStatusNotify (a_x s)) <= DEFAULT_ACK_REPLY_CAPACITY)%nat;
  ai_entry : forall k e, SyncWaitAck (a_x s) !! k = Some e -> EStored k (ackMessage e) ∈ tr;
  ai_storing : forall k m, (k, m) ∈ a_storing s -> EWritten k m ∈ tr;
  ai_resends : forall r, r ∈ a_resends s -> EStored (r_key r) (r_msg r) ∈ tr;
  ai_just : forall tr1 e tr2, tr = tr1 ++ e :: tr2 -> justified tr1 e
}.

Lemma just_snoc tr e :
  (forall tr1 e tr2, tr = tr1 ++ e :: tr2 -> justified tr1 e) -> justified tr e ->
  forall tr1 e' tr2, tr ++ [e] = tr1 ++ e' :: tr2 -> justified tr1 e'.
Proof.
  intros H He tr1 e' tr2. destruct tr2 as [|x tr2 _] using rev_ind.
  - intros [-> [= ->]]%app_inj_tail. done.
  - rewrite app_comm_cons, app_assoc. intros [-> _]%app_inj_tail. by apply (H tr1 e' tr2).
Qed.

Lemma ack_inv_init n c : ack_inv [] (ack_init n c).
Proof.
  split; cbn [ack_init a_x a_obj a_storing a_resends new_Exch SyncWaitAck AckStatusNotify].
  - intros k. rewrite lookup_empty. split; [by intros []|done].
  - intros k. by rewrite !lookup_empty.
  - done.
  - unfold DEFAULT_ACK_REPLY_CAPACITY. cbn. lia.
  - intros k e. by rewrite lookup_empty.
  - by intros k m []%elem_of_nil.
  - by intros r []%elem_of_nil.
  - by intros [] e tr2.
Qed.

(** A step that leaves table, objects and channel alone, and adds no pending store and no resend that
    was not announced. *)
Lemma ack_inv_frame tr s s' ev :
  ack_inv tr s -> SyncWaitAck (a_x s') = SyncWaitAck (a_x s) -> AckStatusNotify (a_x s') = AckStatusNotify (a_x s) ->
  a_obj s' = a_obj s ->
  (forall k m, (k, m) ∈ a_storing s' -> (k, m) ∈ a_storing s \/ EWritten k m ∈ ev) ->
  (forall r, r ∈ a_resends s' -> r ∈ a_resends s \/ (exists e, SyncWaitAck (a_x s) !! r_key r = Some e /\ r_msg r = ackMessage e)) ->
  match ev with [] => True | [EWritten _ _] => True | [EResent k m] => EStored k m ∈ tr | _ => False end ->
  ack_inv (tr ++ ev) s'.
Proof.
  intros [I1 I2 I3 I4 I5 I6 I7 I8] Ex En Eo Hs Hr Hev.
  assert (forall e, e ∈ tr -> e ∈ tr ++ ev) as Hin by (intros e; rewrite elem_of_app; auto).
  assert (forall k, outstanding k (tr ++ ev) = outstanding k tr) as Hout.
  { intros k. destruct ev as [|[] [|]]; try done; [by rewrite app_nil_r|by rewrite outstanding_app..]. }
  assert (reads ev = [] /\ statuses ev = []) as [Er Es] by (by destruct ev as [|[] [|]]).
  split.
  - intros k. by rewrite Ex, Hout.
  - intros k. by rewrite Eo, Ex.
  - by rewrite ack_reads_app, ack_statuses_app, En, Er, Es, !app_nil_r.
  - by rewrite En.
  - rewrite Ex. eauto.
  - intros k m [H|H]%Hs; [eauto|]. apply elem_of_app. by right.
  - intros r [H|(e & He & ->)]%Hr; eauto.
  - destruct ev as [|[] [|]]; try done; [by rewrite app_nil_r|by apply just_snoc..].
Qed.

(** A step that takes [k] out of the table and reports its status. *)
Lemma ack_inv_report tr s s' k st e :
  ack_inv tr s -> (e = EAcked k /\ st = ACK_SUCCESS \/ e = EFailed k /\ st = ACK_FAILED /\ is_Some (SyncWaitAck (a_x s) !! k)) ->
  (length (AckStatusNotify (a_x s)) < DEFAULT_ACK_REPLY_CAPACITY)%nat ->
  SyncWaitAck (a_x s') = delete k (SyncWaitAck (a_x s)) -> AckStatusNotify (a_x s') = AckStatusNotify (a_x s) ++ [(k, st)] ->
  a_obj s' = delete k (a_obj s) -> a_storing s' = a_storing s -> a_resends s' = a_resends s ->
  ack_inv (tr ++ [e]) s'.
Proof.
  intros [I1 I2 I3 I4 I5 I6 I7 I8] He Hroom Ex En Eo Es Er.
  assert (forall x, x ∈ tr -> x ∈ tr ++ [e]) as Hin by (intros x; rewrite elem_of_app; auto).
  assert (reads [e] = [] /\ statuses [e] = [(k, st)]) as [R S] by (destruct He as [[-> ->]|(-> & -> & _)]; done).
  assert (forall k', outstanding k' (tr ++ [e]) = if decide (k = k') then false else outstanding k' tr) as Hout
    by (intros k'; rewrite outstanding_app; destruct He as [[-> _]|[-> _]]; done).
  split.
  - intros k'. rewrite Ex, Hout. destruct (decide (k = k')) as [->|N]; [rewrite lookup_delete_eq|rewrite lookup_delete_ne by done]; [|done].
    by split; [intros []|].
  - intros k'. rewrite Eo, Ex. destruct (decide (k = k')) as [->|N]; [by rewrite !lookup_delete_eq|by rewrite !lookup_delete_ne].
  - by rewrite ack_reads_app, ack_statuses_app, En, R, S, app_nil_r, app_assoc, I3.
  - rewrite En, length_app. cbn. lia.
  - intros k' x. rewrite Ex. intros [_ H]%lookup_delete_Some. eauto.
  - rewrite Es. eauto.
  - rewrite Er. eauto.
  - apply just_snoc; [done|]. destruct He as [[-> _]|(-> & _ & H)]; [done|]. by apply I1.
Qed.

Section correctness.
Context `{A : AddressOps} `{C : Codec} `{sp : SignaturePolicy} `{hp : HashPolicy}.
Variable Marshal : Message -> option (list Z).
Variable pbMarshal : proto -> option (list Z).

Lemma async_write_spec nd t ctx req k s r s' :
  async_write Marshal pbMarshal nd t ctx req k s = (r, s') ->
  a_x s' = a_x s /\ a_obj s' = a_obj s /\ a_resends s' = a_resends s /\
  (r <> Ok tt -> a_storing s' = a_storing s) /\ (r = Ok tt -> a_storing s' = (k, req) :: a_storing s).
Proof.
  unfold async_write. intros E. repeat case_match; simplify_eq; cbn; by split_and!.
Qed.

(** The store puts a message under its key. *)
Lemma ack_inv_store tr s l1 k m l2 second :
  ack_inv tr s -> a_storing s = l1 ++ (k, m) :: l2 ->
  ack_inv (tr ++ [EStored k m]) (async_store k m second (a_set_storing (l1 ++ l2) s)).
Proof.
  intros [I1 I2 I3 I4 I5 I6 I7 I8] E.
  assert (forall x, x ∈ tr -> x ∈ tr ++ [EStored k m]) as Hin by (intros x; rewrite elem_of_app; auto).
  split; cbn [async_store a_set_storing a_x a_obj a_storing a_resends set_acks SyncWaitAck AckStatusNotify].
  - intros k'. rewrite outstanding_app. destruct (decide (k = k')) as [->|N].
    + rewrite lookup_insert_eq. by split; [|eauto].
    + by rewrite lookup_insert_ne.
  - intros k'. destruct (decide (k = k')) as [->|N]; [rewrite !lookup_insert_eq; by split; eauto|by rewrite !lookup_insert_ne].
  - by rewrite ack_reads_app, ack_statuses_app, !app_nil_r.
  - done.
  - intros k' e [[<- <-]|[_ H]]%lookup_insert_Some; [apply elem_of_app; right; by apply list_elem_of_singleton|eauto].
  - intros k' m' H. apply Hin, I6. rewrite E. apply elem_of_app in H as [H|H]; apply elem_of_app; [by left|right; by apply list_elem_of_further].
  - eauto.
  - apply just_snoc; [done|]. apply I6. rewrite E. apply elem_of_app. right. by apply list_elem_of_here.
Qed.

(** A resend changes the entry its goroutine holds, and no other; the table keeps its keys. *)
Lemma resend_run_spec nd t second r s s' :
  resend_run Marshal pbMarshal nd t second r s = Ok s' ->
  (SyncWaitAck (a_x s') = SyncWaitAck (a_x s) \/
   exists ok, SyncWaitAck (a_x s') = alter (ack_resent ok second) (r_key r) (SyncWaitAck (a_x s)) /\ a_obj s !! r_key r = Some (r_obj r)) /\
  AckStatusNotify (a_x s') = AckStatusNotify (a_x s) /\ a_obj s' = a_obj s /\ a_storing s' = a_storing s /\ a_resends s' = a_resends s.
Proof.
  unfold resend_run, resend_done. intros E. repeat case_match; simplify_eq; cbn in *; split_and!; eauto.
Qed.

Lemma ack_inv_resend tr s l1 r l2 nd t second s' :
  ack_inv tr s -> a_resends s = l1 ++ r :: l2 ->
  resend_run Marshal pbMarshal nd t second r (a_set_resends (l1 ++ l2) s) = Ok s' ->
  ack_inv (tr ++ [EResent (r_key r) (r_msg r)]) s'.
Proof.
  intros I E (Ht & En & Eo & Es & Er)%resend_run_spec. cbn [a_set_resends a_x a_obj a_storing a_resends] in *.
  destruct I as [I1 I2 I3 I4 I5 I6 I7 I8].
  assert (forall x, x ∈ tr -> x ∈ tr ++ [EResent (r_key r) (r_msg r)]) as Hin by (intros x; rewrite elem_of_app; auto).
  assert (forall k, is_Some (SyncWaitAck (a_x s') !! k) <-> is_Some (SyncWaitAck (a_x s) !! k)) as Hd.
  { intros k. destruct Ht as [->|(ok & -> & _)]; [done|]. destruct (decide (k = r_key r)) as [->|N];
      [by rewrite lookup_alter_eq, fmap_is_Some|by rewrite lookup_alter_ne]. }
  assert (forall r', r' ∈ l1 ++ l2 -> r' ∈ a_resends s) as Hsub.
  { intros r' H. rewrite E. apply elem_of_app in H as [H|H]; apply elem_of_app; [by left|right; by apply list_elem_of_further]. }
  split.
  - intros k. by rewrite Hd, outstanding_app.
  - intros k. by rewrite Eo, Hd.
  - by rewrite ack_reads_app, ack_statuses_app, En, !app_nil_r.
  - by rewrite En.
  - intros k e. destruct Ht as [->|(ok & -> & _)]; [eauto|]. destruct (decide (k = r_key r)) as [->|N];
      [|rewrite lookup_alter_ne by done; eauto].
    rewrite lookup_alter_eq. intros (e0 & H & ->)%fmap_Some. eapply Hin, (I5 _ e0 H).
  - rewrite Es. eauto.
  - rewrite Er. eauto.
  - apply just_snoc; [done|]. apply I7. rewrite E. apply elem_of_app. right. by apply list_elem_of_here.
Qed.

Lemma ack_inv_step nd t p tr s ev s' :
  ack_inv tr s -> ack_step Marshal pbMarshal nd t p s ev s' -> ack_inv (tr ++ ev) s'.
Proof.
  intros I H. destruct H as [n s|s|killed s|ctx req k s s' E|ctx req k e s s' E|l1 k m l2 second s E|k s s' E|s1 s2 s3 rnd k s s' Hv En Es E
    |s1 s2 s3 rnd k s s' Hv En E|l1 r l2 second s s' E H|k status l s E].
  - apply (ack_inv_frame _ s); cbn; auto.
  - apply (ack_inv_frame _ s); cbn; auto.
  - unfold ack_service_stop. destruct (_ || _); apply (ack_inv_frame _ s); cbn; auto.
  - apply async_write_spec in E as (E1 & E2 & E3 & _ & E4). apply (ack_inv_frame _ s); rewrite ?E1, ?E2, ?E3; auto.
    rewrite E4 by done. intros k' m' [[= -> ->]|H]%elem_of_cons; [right; by apply list_elem_of_singleton|by left].
  - apply async_write_spec in E as (E1 & E2 & E3 & E4 & _). apply (ack_inv_frame _ s); rewrite ?E1, ?E2, ?E3, ?E4; auto.
  - by apply ack_inv_store.
  - unfold ack_receive, ack_Receive in E. destruct (Nat.leb_spec DEFAULT_ACK_REPLY_CAPACITY (length (AckStatusNotify (set_acks (delete k (SyncWaitAck (a_x s))) (a_x s))))); [done|].
    injection E as <-. apply (ack_inv_report _ s _ k ACK_SUCCESS); auto.
  - unfold ack_visit in E. destruct (SyncWaitAck (a_x s) !! k) as [e|] eqn:L; [|exfalso].
    2:{ destruct I as [_ I2 _ _ _ _ _ _]. apply I2 in Es. rewrite L in Es. by destruct Es. }
    destruct Es as [o Eo]. rewrite Eo in E. destruct (ack_check _ _ _ _ _ _).
    + unfold ack_expire in E. destruct (Nat.leb_spec DEFAULT_ACK_REPLY_CAPACITY (length (AckStatusNotify (set_acks (delete k (SyncWaitAck (a_x s))) (a_x s))))); [done|].
      injection E as <-. apply (ack_inv_report _ s _ k ACK_FAILED); auto.
    + injection E as <-. congruence.
    + injection E as <-. cbn in En. congruence.
  - unfold ack_visit in E. rewrite app_nil_r. destruct (SyncWaitAck (a_x s) !! k) as [e|] eqn:L; [|by simplify_eq].
    destruct (a_obj s !! k) as [o|] eqn:Eo; [|by simplify_eq]. destruct (ack_check _ _ _ _ _ _).
    + unfold ack_expire in E. case_match; [done|]. injection E as <-. cbn in En. apply (f_equal (.!! k)) in En.
      rewrite lookup_delete_eq in En. congruence.
    + by injection E as <-.
    + injection E as <-. rewrite <- (app_nil_r tr). apply (ack_inv_frame _ s); cbn; auto.
      intros r [->|H]%elem_of_cons; [right; cbn; eauto|by left].
  - by eapply ack_inv_resend.
  - destruct I as [I1 I2 I3 I4 I5 I6 I7 I8].
    assert (forall x, x ∈ tr -> x ∈ tr ++ [ERead k status]) as Hin by (intros x; rewrite elem_of_app; auto).
    split; cbn; [intros k'; by rewrite outstanding_app|done| | |eauto..|by apply just_snoc].
    + rewrite ack_reads_app, ack_statuses_app. cbn. rewrite <- I3, E, app_nil_r, <- app_assoc. done.
    + rewrite E in I4. cbn in I4. lia.
Qed.

Lemma ack_run_inv nd t p tr s : ack_run Marshal pbMarshal nd t p tr s -> ack_inv tr s.
Proof. induction 1; [apply ack_inv_init|by eapply ack_inv_step]. Qed.

Definition count_of (P : ack_event -> bool) (tr : list ack_event) : nat := length (List.filter P tr).
Definition is_stored (k : key) (e : ack_event) : bool := match e with EStored k' _ => bool_decide (k' = k) | _ => false end.
Definition is_failed (k : key) (e : ack_event) : bool := match e with EFailed k' => bool_decide (k' = k) | _ => false end.

Lemma count_of_app P tr e : count_of P (tr ++ [e]) = (count_of P tr + if P e then 1 else 0)%nat.
Proof. unfold count_of. rewrite List.filter_app, length_app. cbn. by destruct (P e). Qed.

Lemma failed_le_stored k tr :
  (forall tr1 e tr2, tr = tr1 ++ e :: tr2 -> justified tr1 e) ->
  (count_of (is_failed k) tr + (if outstanding k tr then 1 else 0) <= count_of (is_stored k) tr)%nat.
Proof.
  induction tr as [|e tr IH] using rev_ind; intros H; [done|].
  assert (forall tr1 e tr2, tr = tr1 ++ e :: tr2 -> justified tr1 e) as H'.
  { intros tr1 e' tr2 ->. apply (H tr1 e' (tr2 ++ [e])). by rewrite <- app_assoc, <- app_comm_cons. }
  specialize (IH H'). assert (justified tr e) as Hj by (by apply (H tr e [])).
  rewrite !count_of_app, outstanding_app. destruct e as [|k' m|k'|k'| |]; cbn [is_failed is_stored]; try lia.
  - destruct (decide (k' = k)); [rewrite bool_decide_true by done|rewrite bool_decide_false by done]; destruct (outstanding k tr); lia.
  - destruct (decide (k' = k)); destruct (outstanding k tr); lia.
  - destruct (decide (k' = k)) as [->|]; [rewrite bool_decide_true by done|rewrite bool_decide_false by done; lia].
    cbn in Hj. rewrite Hj in IH. lia.
Qed.


(** AsyncSendAndWaitAck without anything in between is the two steps. *)
Lemma async_send_steps nd t ctx req k second s c :
  clients (a_net s) !! a_client s = Some c ->
  AsyncSendAndWaitAck Marshal pbMarshal nd t ctx req k second c (a_net s) (a_x s) =
  match async_write Marshal pbMarshal nd t ctx req k s with
  | (Ok _, s') => let s' := async_store k req second s' in (Ok tt, a_net s', a_x s')
  | (Err e, s') => (Err e, a_net s', a_x s')
  | (Panic, s') => (Panic, a_net s', a_x s')
  end.
Proof.
  intros L. unfold AsyncSendAndWaitAck, async_write. rewrite L. destruct ctx as [ctx|]; [|done].
  destruct (ctx_done ctx); [done|]. destruct (_ <=? _)%nat; [done|]. destruct (SyncWaitAck (a_x s) !! k); [done|].
  destruct (PrepareMessageWithMsgID _ _ _ _ _ _); [|done..]. by destruct (Write _ _ _ _) as [[] ?].
Qed.

(** The component's ticks: with the default options a message is given up 11 seconds after its Store at the
    earliest, and the n-th resend sleeps between n and n + 0.2 seconds. *)
Lemma ack_defaults e rnd :
  0 <= rnd < 200 -> 0 <= Frequency e < 256 ->
  let p := ack_New [] in
  ackMessageTimeout p ÷ ackSecond = 10 /\ ackCheckedInterval p ÷ ackSecond = 3 /\
  Frequency e * ackSecond <= getJitDelayTime p rnd e < Frequency e * ackSecond + 200 * ackMillisecond /\
  ack_Cleanup (ack_Cleanup p) = ack_Cleanup p.
Proof.
  intros Hr Hf p. assert (getJitDelayTime p rnd e = Frequency e * 1000000000 + 1000000 * rnd) as ->.
  { unfold getJitDelayTime. change (delayResentTimeDistance p) with 1000000000. change ackMillisecond with 1000000.
    rewrite (i64_small (1000000000 * _)), (i64_small (1000000 * rnd)), i64_small by lia. lia. }
  change ackSecond with 1000000000. change ackMillisecond with 1000000. split_and!; [done|done|lia|lia|done].
Qed.
End correctness.

(** ** Witness: an acknowledgement that overtakes the Store *)

#[local] Existing Instance toy_addresses.
#[local] Existing Instance marker_codec.
#[local] Existing Instance toy_policy.
#[local] Existing Instance toy_hash.

Definition race_p : AckComponent := ack_New [].
Definition race_net : Network := set_client 0 (fun _ => toy_client) toy_key_net.
Definition race_0 : ackState := ack_PeerConnect (ack_init race_net 0).
Definition race_1 : ackState := (async_write example_marshal toy_pbMarshal toy_node init_tables (Some toy_ctx) (mkProto "Ping" []) [4] race_0).2.
Definition race_2 : ackState := default race_1 (ack_receive [4] race_1).
Definition race_3 : ackState := async_store [4] (mkProto "Ping" []) 0 (a_set_storing [] race_2).
Definition race_4 : ackState := default race_3 (ack_visit race_p 11 11 11 0 [4] race_3).
Definition race_trace : list ack_event := [EWritten [4] (mkProto "Ping" []); EAcked [4]; EStored [4] (mkProto "Ping" []); EFailed [4]].

Lemma race_run : ack_run example_marshal toy_pbMarshal toy_node init_tables race_p race_trace race_4.
Proof.
  apply (ar_step _ _ _ _ _ [EWritten [4] (mkProto "Ping" []); EAcked [4]; EStored [4] (mkProto "Ping" [])] race_3 [EFailed [4]]).
  2:{ apply (as_expire _ _ _ _ _ 11 11 11 0); vm_compute; eauto. }
  apply (ar_step _ _ _ _ _ [EWritten [4] (mkProto "Ping" []); EAcked [4]] race_2 [EStored [4] (mkProto "Ping" [])]).
  2:{ apply (as_store _ _ _ _ _ [] [4] (mkProto "Ping" []) [] 0 race_2). vm_compute. reflexivity. }
  apply (ar_step _ _ _ _ _ [EWritten [4] (mkProto "Ping" [])] race_1 [EAcked [4]]).
  2:{ apply as_ack. vm_compute. reflexivity. }
  apply (ar_step _ _ _ _ _ [] race_0 [EWritten [4] (mkProto "Ping" [])]).
  2:{ apply (as_write _ _ _ _ _ (Some toy_ctx)). vm_compute. reflexivity. }
  apply (ar_step _ _ _ _ _ [] (ack_init race_net 0) []); [apply ar_init|apply as_connect].
Qed.

