(* ===== verification/Backoff.v ===== *)
(** * Reconnecting with exponential backoff

    network/components/backoff: [Backoff] computes the delay before each attempt, the component
    runs one retry loop per peer that was disconnected.  math.Pow is a parameter, and so is the number that rand.Float64
    returns.  The loops are stated against the three operations they use of the network
    ([Reconnect]), which the connection manager provides ([network_reconnect]). *)
From S2P Require Import Prelude GoFloat Peer Wire Address ConnMgr Exchange.
Local Open Scope Z_scope.
Local Open Scope go_scope.

(** ** backoff.go *)

Definition Millisecond : Z := 1000000.
Definition Second : Z := 1000000000.

Definition defaultMaxAttempts : Z := 5.
Definition defaultBackoffInterval : float64 := of_int 2.
Definition defaultJitter : float64 := fdiv (of_int 1) (of_int 20).
Definition defaultMinInterval : Z := 1000 * Millisecond.
Definition defaultMaxInterval : Z := 16 * Second.
Definition maxInt64 : float64 := of_int (2 ^ 63 - 1 - 512).

Record Backoff := mkBackoff {
  attempt : Z;
  MaxAttempts : Z;
  BackoffInterval : float64;
  Jitter : float64;
  MinInterval : Z;
  MaxInterval : Z
}.

Definition DefaultBackoff : Backoff :=
  mkBackoff 0 defaultMaxAttempts defaultBackoffInterval defaultJitter defaultMinInterval defaultMaxInterval.

Definition defaultBackoffOptions (b : Backoff) : Backoff :=
  mkBackoff (attempt b) defaultMaxAttempts defaultBackoffInterval defaultJitter defaultMinInterval defaultMaxInterval.

Definition NewBackoff (opts : list (Backoff -> Backoff)) : Backoff :=
  fold_left (fun b opt => opt b) opts (defaultBackoffOptions (mkBackoff 0 0 (S754_zero false) (S754_zero false) 0 0)).

Definition WithBackoffInterval (s : Z) (b : Backoff) : Backoff :=
  mkBackoff (attempt b) (MaxAttempts b) (BackoffInterval b) (Jitter b) (MinInterval b) s.

Definition TimeoutExceeded (b : Backoff) : bool :=
  SFleb (fmax (of_int 0) (of_int (MaxAttempts b))) (of_int (attempt b)).

Definition Reset (b : Backoff) : Backoff :=
  mkBackoff 0 (MaxAttempts b) (BackoffInterval b) (Jitter b) (MinInterval b) (MaxInterval b).

(** The shared state: the map of active backoffs, and the network. *)
Record bstate (W : Type) := mkB { backoffs : gmap key Backoff; world : W }.
Arguments mkB {W}.
Arguments backoffs {W}.
Arguments world {W}.

Section durations.
(** math.Pow, and the result of converting a float64 to int64 where the language leaves it to the implementation:
    outside the range of int64, infinite or not a number. *)
Variable Pow : float64 -> float64 -> float64.
Variable out_of_range : float64 -> Z.

Definition to_int64 (x : float64) : Z :=
  match ftrunc x with
  | Some n => if (- 2 ^ 63 <=? n) && (n <? 2 ^ 63) then n else out_of_range x
  | None => out_of_range x
  end.

(** [u] is the number rand.Float64 returns. *)
Definition ForAttempt (b : Backoff) (att : Z) (u : float64) : Z :=
  let min := MinInterval b in
  let max := MaxInterval b in
  let min := if min <=? 0 then defaultMinInterval else min in
  let max := if max <=? 0 then defaultMaxInterval else max in
  if max <=? min then max
  else
    let backoffInterval :=
      if SFleb (BackoffInterval b) (S754_zero false) then defaultBackoffInterval else BackoffInterval b in
    let jitter := fmul (fmul (Jitter b) (of_int 2)) (fsub u (fdiv (of_int 1) (of_int 2))) in
    let durf := fmul (of_int min) (Pow (fmul backoffInterval (fsub (of_int 1) jitter)) (of_int att)) in
    if SFltb maxInt64 durf then max
    else
      let dur := to_int64 durf in
      if dur <? min then min
      else if max <? dur then max
      else dur.

Definition NextDuration (b : Backoff) (u : float64) : Z * Backoff :=
  (ForAttempt b (attempt b) u,
   mkBackoff (i64 (attempt b + 1)) (MaxAttempts b) (BackoffInterval b) (Jitter b) (MinInterval b) (MaxInterval b)).

(** ** component.go *)

Definition defaultComponentInitialDelay : Z := 5 * Second.
Definition defaultComponentMaxAttempts : Z := 100.
Definition defaultComponentPriority : Z := 100.

Record Component := mkComponent {
  initialDelay : Z;
  maxAttempts : Z;
  priority : Z;
  maxInterval : Z
}.

Definition WithInitialDelay (d : Z) (o : Component) : Component := mkComponent d (maxAttempts o) (priority o) (maxInterval o).
Definition WithMaxInterval (s : Z) (o : Component) : Component := mkComponent (initialDelay o) (maxAttempts o) (priority o) s.
Definition WithMaxAttempts (i : Z) (o : Component) : Component := mkComponent (initialDelay o) i (priority o) (maxInterval o).
Definition WithPriority (i : Z) (o : Component) : Component := mkComponent (initialDelay o) (maxAttempts o) i (maxInterval o).

Definition defaultOptions (o : Component) : Component :=
  mkComponent defaultComponentInitialDelay defaultComponentMaxAttempts defaultComponentPriority defaultMaxInterval.

Definition New (opts : list (Component -> Component)) : Component :=
  fold_left (fun o opt => opt o) opts (defaultOptions (mkComponent 0 0 0 0)).

(** What the loops use of the network, in attempt number [i]. *)
Class Reconnect (W : Type) := {
  conn_exists : key -> W -> bool;
  dial_client : nat -> key -> key -> W -> res conn_err nat * W;
  tell_client : nat -> W -> res conn_err unit * W
}.

(** What the loop does that others can see, and why it ended. *)
Inductive bevent := Slept (d : Z) | Dialed | Told.
Inductive ending := Exhausted | Inactive | TimedOut | Connected | Succeeded | Crashed.

Section loop.
Context {W : Type} `{R : Reconnect W}.
(** [during i]: the effect of the other goroutines while attempt [i] sleeps; [rand i]: the
    number drawn for it. *)
Variable during : nat -> bstate W -> bstate W.
Variable rand : nat -> float64.

Definition set_world (w : W) (s : bstate W) : bstate W := mkB (backoffs s) w.

(** One round of the loop of startBackoff and of startProxyBackoff, which sleeps for a quarter
    of the duration: what it does, why it breaks out of the loop (None: it continues), and the
    state it leaves. *)
Definition backoff_round (scale : Z -> Z) (addr peerID : key) (i : nat) (s : bstate W)
    : list bevent * option ending * bstate W :=
  match backoffs s !! peerID with
  | None => ([], Some Inactive, s)
  | Some b =>
    if TimeoutExceeded b then ([], Some TimedOut, s)
    else
      let '(d, b) := NextDuration b (rand i) in
      let s := during i (mkB (<[peerID := b]> (backoffs s)) (world s)) in
      if conn_exists peerID (world s) then ([Slept (scale d)], Some Connected, s)
      else
        let '(c, w) := dial_client i addr peerID (world s) in
        let s := set_world w s in
        match c with
        | Panic => ([Slept (scale d); Dialed], Some Crashed, s)
        | Err _ => ([Slept (scale d); Dialed], None, s)
        | Ok c =>
          if negb (conn_exists peerID (world s)) then ([Slept (scale d); Dialed], None, s)
          else
            let '(r, w) := tell_client c (world s) in
            ([Slept (scale d); Dialed; Told],
             match r with Panic => Some Crashed | Err _ => None | Ok _ => Some Succeeded end,
             set_world w s)
        end
  end.

Fixpoint backoff_loop (scale : Z -> Z) (addr peerID : key) (rounds i : nat) (s : bstate W)
    : list bevent * ending * bstate W :=
  match rounds with
  | O => ([], Exhausted, s)
  | S rounds =>
    match backoff_round scale addr peerID i s with
    | (tr, Some e, s) => (tr, e, s)
    | (tr, None, s) =>
      let '(tr', e, s) := backoff_loop scale addr peerID rounds (S i) s in
      (tr ++ tr', e, s)
    end
  end.

Definition remove_backoff (peerID : key) (s : bstate W) : bstate W := mkB (delete peerID (backoffs s)) (world s).

(** startBackoff; [s] is the state after the initial delay.  None: a backoff is active. *)
Definition startBackoff (p : Component) (addr peerID : key) (s : bstate W) : list bevent * option ending * bstate W :=
  match backoffs s !! peerID with
  | Some _ => ([Slept (initialDelay p)], None, s)
  | None =>
    let s := mkB (<[peerID := NewBackoff [WithBackoffInterval (maxInterval p)]]> (backoffs s)) (world s) in
    let '(tr, e, s) := backoff_loop id addr peerID (Z.to_nat (maxAttempts p)) 0 s in
    (Slept (initialDelay p) :: tr, Some e,
     match e with Crashed => s | _ => remove_backoff peerID s end)
  end.

(** startProxyBackoff, up to the restart of the proxy component that ends it: the protocol to
    restart, and whether the loop waits for the proxy to answer first. *)
Definition startProxyBackoff `{A : AddressOps} (p : Component) (addr peerID : key) (s : bstate W)
    : list bevent * option (ending * key * bool) * bstate W :=
  match backoffs s !! peerID with
  | Some _ => ([Slept (initialDelay p)], None, s)
  | None =>
    match Scheme addr with
    | None => ([Slept (initialDelay p)], None, s)
    | Some protocol =>
      let s := mkB (<[peerID := DefaultBackoff]> (backoffs s)) (world s) in
      let '(tr, e, s) := backoff_loop (fun d => Z.quot d 4) addr peerID (Z.to_nat (maxAttempts p)) 0 s in
      (Slept (initialDelay p) :: tr,
       Some (e, protocol, match e with Succeeded => true | _ => false end),
       match e with Crashed => s | _ => remove_backoff peerID s end)
    end
  end.
End loop.
End durations.

(** PeerDisconnect: which of the two goroutines is started. *)
Inductive reaction := NoBackoff | ProxyBackoff (addr peerID : key) | PlainBackoff (addr peerID : key).

Definition PeerDisconnect (enableBackoff : bool) (proxy : Proxy) (c : PeerClient) : res unit reaction :=
  if negb enableBackoff then Ok NoBackoff
  else
    let? server := GetWorkingProxyServer proxy in
    if bool_decide (PeerID c = server.2) && pEnable proxy
    then Ok (ProxyBackoff (cAddress c) (PeerID c))
    else Ok (PlainBackoff (cAddress c) (PeerID c)).

(** The network of the connection manager, with the outcomes of dialing and the signed ping. *)
Definition network_reconnect `{A : AddressOps} `{C : Codec} (Marshal : Message -> option (list Z))
    (dials : nat -> option handle) (ping : Message) : Reconnect Network := {|
  conn_exists := ConnectionStateExists;
  dial_client i addr peerID := Client addr peerID (dials i);
  tell_client p := Tell Marshal p ping
|}.

(** ** Durations *)

Definition floor_interval (b : Backoff) : Z := if MinInterval b <=? 0 then defaultMinInterval else MinInterval b.
Definition ceil_interval (b : Backoff) : Z := if MaxInterval b <=? 0 then defaultMaxInterval else MaxInterval b.

(** Whatever the floating-point computation gives, the delay is within the two intervals. *)
Lemma ForAttempt_bounds Pow oor b att u :
  Z.min (floor_interval b) (ceil_interval b) <= ForAttempt Pow oor b att u <= ceil_interval b.
Proof.
  unfold ForAttempt. fold (floor_interval b) (ceil_interval b).
  destruct (ceil_interval b <=? floor_interval b) eqn:E; [lia|].
  destruct (SFltb maxInt64 _); [lia|].
  set (d := to_int64 _ _). destruct (d <? _) eqn:?; [lia|]. destruct (_ <? d) eqn:?; lia.
Qed.

(** Conversions of the float stay in the range of int64: the comparison with maxInt64 is the
    overflow check it is meant to be. *)
Lemma of_int_small a : 0 <= a <= 5 -> TimeoutExceeded (mkBackoff a 5 S754_nan S754_nan 0 0) = (a =? 5).
Proof. intros H. assert (a = 0 \/ a = 1 \/ a = 2 \/ a = 3 \/ a = 4 \/ a = 5) as Ha by lia. by destruct_or! Ha; subst a. Qed.

Lemma TimeoutExceeded_default b :
  MaxAttempts b = 5 -> 0 <= attempt b <= 5 -> TimeoutExceeded b = (attempt b =? 5).
Proof. intros HM Ha. rewrite <- of_int_small by done. unfold TimeoutExceeded. cbn. by rewrite HM. Qed.

(** ** The retry loop *)

Definition sleeps (tr : list bevent) : list Z := omap (fun e => match e with Slept d => Some d | _ => None end) tr.

Section loop_facts.
Context {W : Type} `{R : Reconnect W}.
Variable Pow : float64 -> float64 -> float64.
Variable out_of_range : float64 -> Z.
Variable during : nat -> bstate W -> bstate W.
Variable rand : nat -> float64.

Abbreviation round := (backoff_round Pow out_of_range during rand).
Abbreviation loop := (backoff_loop Pow out_of_range during rand).

(** A round either ends at once, or sleeps once and counts one attempt. *)
Lemma round_cases scale addr k i s tr e s' :
  round scale addr k i s = (tr, e, s') ->
  (tr = [] /\ s' = s /\ ((backoffs s !! k = None /\ e = Some Inactive) \/
     exists b, backoffs s !! k = Some b /\ TimeoutExceeded b = true /\ e = Some TimedOut)) \/
  exists b, backoffs s !! k = Some b /\ TimeoutExceeded b = false /\
    sleeps tr = [scale (ForAttempt Pow out_of_range b (attempt b) (rand i))] /\
    backoffs s' = backoffs (during i (mkB (<[k := (NextDuration Pow out_of_range b (rand i)).2]> (backoffs s)) (world s))) /\
    e <> Some Inactive.
Proof.
  unfold backoff_round. destruct (backoffs s !! k) as [b|] eqn:Hb.
  2: { intros [= <- <- <-]. left. split_and!; [done..|]. by left. }
  destruct (TimeoutExceeded b) eqn:Ht.
  { intros [= <- <- <-]. left. split_and!; [done..|]. right. by exists b. }
  unfold NextDuration at 1. intros E. right. exists b. split_and!; [done..| | |].
  all: destruct (conn_exists k _); [by injection E as <- <- <-|]; destruct (dial_client i addr k _) as [[c|e'|] w];
    try by injection E as <- <- <-.
  all: destruct (negb _); [by injection E as <- <- <-|]; destruct (tell_client c _) as [r w2]; injection E as <- <- <-; by destruct r.
Qed.

Lemma loop_rounds scale addr k n i s :
  (length (sleeps (loop scale addr k n i s).1.1) <= n)%nat.
Proof.
  revert i s. induction n as [|n IH]; intros i s; [done|]. cbn [backoff_loop].
  destruct (round scale addr k i s) as [[tr e] s'] eqn:E. apply round_cases in E.
  assert (length (sleeps tr) <= 1)%nat as H by (destruct E as [(-> & _)|(b & _ & _ & -> & _)]; cbn; lia).
  destruct e as [e|]; [cbn [fst snd]; lia|]. specialize (IH (S i) s'). destruct (loop scale addr k n (S i) s') as [[tr' e'] s''].
  cbn [fst snd] in *. unfold sleeps in *. rewrite omap_app, length_app. lia.
Qed.

(** As long as the others leave the entry of the peer alone, it is the counter of this loop. *)
Definition keeps (k : key) : Prop := forall i s, backoffs (during i s) !! k = backoffs s !! k.

Definition counter (max a : Z) : Backoff := mkBackoff a 5 defaultBackoffInterval defaultJitter defaultMinInterval max.

Lemma loop_counter scale addr k max n i s a :
  keeps k -> backoffs s !! k = Some (counter max a) -> 0 <= a <= 5 ->
  let '(tr, e, s') := loop scale addr k n i s in
  Z.of_nat (length (sleeps tr)) <= 5 - a /\ e <> Inactive /\
  Forall (fun d => exists d0, d = scale d0 /\
    Z.min defaultMinInterval (ceil_interval (counter max 0)) <= d0 <= ceil_interval (counter max 0)) (sleeps tr) /\
  is_Some (backoffs s' !! k).
Proof.
  intros Hk. revert i s a. induction n as [|n IH]; intros i s a Hs Ha; cbn [backoff_loop].
  { split_and!; [cbn; lia|done|by constructor|by eexists]. }
  destruct (round scale addr k i s) as [[tr e] s'] eqn:E. apply round_cases in E.
  destruct E as [(-> & -> & [[H _]|(b & Hb & Ht & ->)])|(b & Hb & Ht & Htr & Hs' & He)].
  - congruence.
  - split_and!; [cbn; lia|done|by constructor|by eexists].
  - rewrite Hs in Hb. injection Hb as <-. rewrite TimeoutExceeded_default in Ht by done. cbn in Ht.
    assert (backoffs s' !! k = Some (counter max (a + 1))) as Hn.
    { rewrite Hs', Hk. cbn. rewrite lookup_insert_eq, i64_small by lia. done. }
    assert (Forall (fun d => exists d0, d = scale d0 /\
      Z.min defaultMinInterval (ceil_interval (counter max 0)) <= d0 <= ceil_interval (counter max 0)) (sleeps tr)) as Hf.
    { rewrite Htr. constructor; [|done]. eexists. split; [done|]. exact (ForAttempt_bounds _ _ (counter max a) _ _). }
    destruct e as [e|].
    + split_and!; [rewrite Htr; cbn; lia|congruence|done|by eexists].
    + assert (0 <= a + 1 <= 5) as Ha1 by lia. specialize (IH (S i) s' (a + 1) Hn Ha1).
      destruct (loop scale addr k n (S i) s') as [[tr' e'] s'']. destruct IH as (H1 & H2 & H3 & H4).
      unfold sleeps in *. rewrite omap_app, length_app, Htr. split_and!; [cbn; lia|done| |done].
      rewrite Forall_app. rewrite <- Htr. by split.
Qed.
End loop_facts.

(** ** What the component promises *)

Section claims.
Context {W : Type} `{R : Reconnect W} `{A : AddressOps}.

End claims.

(** ** On the connection manager *)

Section reconnecting.
Context `{A : AddressOps} `{!AddressLaws A} `{C : Codec}.
Variable Marshal : Message -> option (list Z).

(** A client that was just dialed has no identity, and is told under the empty key. *)
Lemma dialed_client u k h n :
  cm_wf n -> ToUnified u = Some u -> u <> nAddress n -> u <> k -> k <> [] -> known_address u ->
  peers (mgr n) !! u = None -> peers (mgr n) !! k = None ->
  exists p n', Client u k (Some h) n = (Ok p, n') /\ cm_wf_but (Some p) n' /\ ConnectionStateExists k n' = true /\
    clients n' !! p = Some (mkClient u None k false true true false) /\
    conns n' = conns n ++ [mkConnState (Some (h_sock h)) (NewWriterSize (writeBufferSize n) h) 0].
Proof.
  intros Wf U Hself Huk Hk Kn Pu Pk. destruct (Kn u U) as (s & Hs & Hp).
  destruct (register_wf u k h (mkClient u None [] false false false false) n Wf Pk Hk) as (n1 & E1 & R); [by exists s|done|].
  unfold Client, getOrSetPeerClient, createPeerClient. rewrite (decide_False (P := k = [])), U by done.
  rewrite decide_False, Hs, decide_True, reset_self, Pk, E1 by done.
  destruct (register_client k _ n1) as [p n2]. destruct R as (-> & W2 & P2 & C2 & S2 & _).
  eexists _, n2. split_and!; [done|done| | |done].
  - unfold ConnectionStateExists. apply bool_decide_eq_true. apply (wf_peers_conns _ _ W2). by eexists.
  - rewrite C2. apply lookup_app_new.
Qed.

Lemma tell_dialed u k p n ping :
  cm_wf_but (Some p) n -> clients n !! p = Some (mkClient u None k false true true false) ->
  Tell Marshal p ping n = (Err ENoConnection, n).
Proof.
  intros Wf L. unfold Tell, Write, ConnectionState. rewrite L. cbn [PeerID cID].
  destruct (connections (mgr n) !! []) as [cs|] eqn:E; [|done].
  destruct (proj2 (wf_peers_conns _ _ Wf [])) as [x Hx]; [by eexists|]. by rewrite (wf_nonempty _ _ Wf) in Hx.
Qed.

Ltac not_yet := match goal with |- context [TimeoutExceeded ?b] => change (TimeoutExceeded b) with false; cbv iota end.

(** What startBackoff does when the first dial succeeds: the connection is registered under the
    identity of the peer, but the Ping that should confirm it is never written.  The
    new client has no identity yet, so it is told under the empty key, which has no connection;
    the loop goes to a second round and ends there because it finds the connection of the
    first. *)
Theorem backoff_ping_lost Pow oor rand dials ping p u k h n :
  cm_wf n -> ToUnified u = Some u -> u <> nAddress n -> u <> k -> k <> [] -> known_address u ->
  peers (mgr n) !! u = None -> peers (mgr n) !! k = None -> 2 <= maxAttempts p -> dials 0%nat = Some h ->
  exists d1 d2 s', startBackoff (R := network_reconnect Marshal dials ping) Pow oor (fun _ s => s) rand p u k (mkB ∅ n) =
      ([Slept (initialDelay p); Slept d1; Dialed; Told; Slept d2], Some Connected, s') /\
    backoffs s' = ∅ /\ world s' = (Client u k (Some h) n).2 /\ ConnectionStateExists k (world s') = true /\
    conns (world s') = conns n ++ [mkConnState (Some (h_sock h)) (NewWriterSize (writeBufferSize n) h) 0].
Proof.
  intros Wf U Hself Huk Hk Kn Pu Pk Hm Hd.
  destruct (dialed_client u k h n Wf U Hself Huk Hk Kn Pu Pk) as (q & n' & E & W' & Hc & L & Hcs).
  assert (ConnectionStateExists k n = false) as Hno.
  { unfold ConnectionStateExists. apply bool_decide_eq_false. rewrite <- (wf_peers_conns _ _ Wf), Pk. by intros []. }
  unfold startBackoff. cbn [backoffs world]. rewrite lookup_empty.
  replace (Z.to_nat (maxAttempts p)) with (S (S (Z.to_nat (maxAttempts p - 2)))) by lia.
  cbn [backoff_loop]. unfold backoff_round at 1. cbn [backoffs world]. rewrite lookup_insert_eq.
  not_yet.
  unfold NextDuration at 1. cbn [world conn_exists dial_client tell_client network_reconnect set_world backoffs].
  rewrite Hno, Hd, E, Hc. cbn [negb]. rewrite (tell_dialed u k q n' ping W' L).
  unfold backoff_round at 1. cbn [backoffs world set_world]. rewrite !lookup_insert_eq.
  not_yet.
  unfold NextDuration at 1. cbn [world conn_exists dial_client tell_client network_reconnect set_world backoffs].
  rewrite Hc. cbn [app]. eexists _, _, _. split; [done|]. unfold remove_backoff. cbn [backoffs world].
  split_and!; [by rewrite !delete_insert_eq, delete_empty|done|done|done].
Qed.
End reconnecting.

(** ** Witnesses *)

Definition toy_component : Component := New [WithInitialDelay 0; WithMaxAttempts 3].

Definition toy_reconnect : Reconnect Network :=
  network_reconnect (A := toy_addresses) (C := marker_codec) (fun _ => None)
    (fun i => match i with O => None | _ => Some toy_handle end) toy_msg.


Lemma backoff_ping_lost_witness :
  exists s', (startBackoff (R := network_reconnect (A := toy_addresses) (C := marker_codec) (fun _ => None) (fun _ => Some toy_handle) toy_msg)
      (fun _ _ => of_int 1) (fun _ => 0) (fun _ s => s) (fun _ => of_int 0) toy_component [1] [2] (mkB ∅ toy_net)).2 = s' /\
    ConnectionStateExists [2] (world s') = true.
Proof.
  destruct (backoff_ping_lost (A := toy_addresses) (C := marker_codec) (fun _ => None) (fun _ _ => of_int 1) (fun _ => 0) (fun _ => of_int 0)
    (fun _ => Some toy_handle) toy_msg toy_component [1] [2] toy_handle toy_net) as (d1 & d2 & s' & E & _ & _ & Hc & _).
  - by eapply NewNetwork_wf.
  - reflexivity.
  - discriminate.
  - discriminate.
  - discriminate.
  - intros u Hu. cbn in Hu. injection Hu as <-. exists TCP. by split.
  - reflexivity.
  - reflexivity.
  - vm_compute. discriminate.
  - reflexivity.
  - exists s'. rewrite E. by split.
Defined.
