(* ===== verification/Broadcast.v ===== *)
(** * network/network.go: sending to many peers, bootstrapping and proxies

    The operations of Network that walk over the peers of the connection manager: Broadcast and
    its variants, Send, Bootstrap, the connection to a proxy server, and the settings of a
    network.  sync.Map.Range visits the keys in an order that is not specified and loads each
    entry when it gets to it; the order is an argument, and the theorems hold for every order
    that names each peer once.  A goroutine that waits for the quit channel is [Err EBlocked]. *)
From S2P Require Import Prelude GoSort Peer Wire Opcode KeyPair Address ConnMgr Exchange.
Local Open Scope Z_scope.
Local Open Scope go_scope.

(** sync.Map.Range over the peers: an entry that has been deleted meanwhile is skipped, and a
    callback that returns false ends the traversal.  [net] is the network in the state the
    callback works on. *)
Fixpoint EachPeer {T} (net : T -> Network) (order : list key) (fn : nat -> T -> res conn_err bool * T) (s : T)
    : res conn_err unit * T :=
  match order with
  | [] => (Ok tt, s)
  | k :: order =>
    match peers (mgr (net s)) !! k with
    | None => EachPeer net order fn s
    | Some p =>
      match fn p s with
      | (Ok true, s) => EachPeer net order fn s
      | (Ok false, s) => (Ok tt, s)
      | (Err e, s) => (Err e, s)
      | (Panic, s) => (Panic, s)
      end
    end
  end.

(** math/rand's Shuffle; [intn i] is the random number below i + 1 drawn for position i. *)
Fixpoint rand_Shuffle {T} (intn : nat -> nat) (i : nat) (l : list T) : list T :=
  match i with
  | O => l
  | S i' => rand_Shuffle intn i' (swap_at i (intn i mod (i + 1)) l)
  end.

Section broadcast.
Context `{A : AddressOps} `{C : Codec} `{sp : SignaturePolicy} `{hp : HashPolicy}.
Variable Marshal : Message -> option (list Z).
Variable pbMarshal : proto -> option (list Z).

(** A Write whose error is logged or ignored. *)
Definition write_on (k : key) (signed : Message) (n : Network) : res conn_err bool * Network :=
  match Write Marshal k signed n with
  | (Panic, n) => (Panic, n)
  | (Err EBlocked, n) => (Err EBlocked, n)
  | (_, n) => (Ok true, n)
  end.

Fixpoint write_each (ks : list key) (signed : Message) (n : Network) : res conn_err unit * Network :=
  match ks with
  | [] => (Ok tt, n)
  | k :: ks =>
    match write_on k signed n with
    | (Ok _, n) => write_each ks signed n
    | (Err e, n) => (Err e, n)
    | (Panic, n) => (Panic, n)
    end
  end.

(** The callbacks of Broadcast and BroadcastToPeers. *)
Definition to_client (signed : Message) (p : nat) (n : Network) : res conn_err bool * Network :=
  match clients n !! p with
  | None => (Panic, n)
  | Some client => write_on (PeerID client) signed n
  end.

Definition to_client_but_proxy (s : Proxy) (signed : Message) (p : nat) (n : Network) : res conn_err bool * Network :=
  match clients n !! p, GetWorkingProxyServer s with
  | Some client, Ok (proxyAddr, _) =>
    if decide (cAddress client = proxyAddr) then (Ok true, n) else write_on (PeerID client) signed n
  | _, _ => (Panic, n)
  end.

Definition Broadcast (nd : node) (t : tables) (ctx : context) (message : option proto) (order : list key) (n : Network)
    : res conn_err unit * Network :=
  match PrepareMessage pbMarshal nd t ctx message with
  | Err _ => (Ok tt, n)
  | Panic => (Panic, n)
  | Ok signed => EachPeer id order (to_client signed) n
  end.

Definition BroadcastToPeers (nd : node) (t : tables) (s : Proxy) (ctx : context) (message : option proto)
    (order : list key) (n : Network) : res conn_err unit * Network :=
  match PrepareMessage pbMarshal nd t ctx message with
  | Err _ => (Ok tt, n)
  | Panic => (Panic, n)
  | Ok signed => EachPeer id order (to_client_but_proxy s signed) n
  end.

Definition BroadcastByClientIDs (nd : node) (t : tables) (ctx : context) (message : option proto) (clientIDs : list key)
    (n : Network) : res conn_err unit * Network :=
  match PrepareMessage pbMarshal nd t ctx message with
  | Err _ => (Ok tt, n)
  | Panic => (Panic, n)
  | Ok signed => write_each clientIDs signed n
  end.

Definition BroadcastByAddresses (nd : node) (t : tables) (ctx : context) (message : option proto) (addresses : list key)
    (n : Network) : res conn_err unit * Network :=
  match PrepareMessage pbMarshal nd t ctx message with
  | Err _ => (Ok tt, n)
  | Panic => (Panic, n)
  | Ok signed => write_each addresses signed n
  end.

Definition BroadcastByIDs (nd : node) (t : tables) (ctx : context) (message : option proto) (ids : list ID)
    (n : Network) : res conn_err unit * Network :=
  match PrepareMessage pbMarshal nd t ctx message with
  | Err _ => (Ok tt, n)
  | Panic => (Panic, n)
  | Ok signed => write_each (Address <$> ids) signed n
  end.

(** The callback of BroadcastRandomly collects client identities until there are more than three
    times as many as wanted. *)
Definition collect (K : Z) (p : nat) (s : Network * list key) : res conn_err bool * (Network * list key) :=
  match clients s.1 !! p with
  | None => (Panic, s)
  | Some client =>
    let cids := s.2 ++ [PubKey client] in
    (Ok (Z.of_nat (length cids) <=? i64 (K * 3)), (s.1, cids))
  end.

(** BroadcastRandomly returns every identity it has collected, also those it did not send to. *)
Definition BroadcastRandomly (nd : node) (t : tables) (ctx : context) (message : option proto) (K : Z)
    (intn : nat -> nat) (order : list key) (n : Network) : res conn_err (list key) * Network :=
  match EachPeer fst order (collect K) (n, []) with
  | (Ok _, (n, cids)) =>
    let cids := rand_Shuffle intn (length cids - 1) cids in
    let K := if Z.of_nat (length cids) <? K then Z.of_nat (length cids) else K in
    if K <? 0 then (Panic, n)
    else match BroadcastByClientIDs nd t ctx message (take (Z.to_nat K) cids) n with
    | (Ok _, n) => (Ok cids, n)
    | (Err e, n) => (Err e, n)
    | (Panic, n) => (Panic, n)
    end
  | (Err e, (n, _)) => (Err e, n)
  | (Panic, (n, _)) => (Panic, n)
  end.

Definition Send (nd : node) (t : tables) (ctx : context) (clientID : key) (message : option proto) (n : Network)
    : res ex_err unit * Network :=
  match PrepareMessage pbMarshal nd t ctx message with
  | Err e => (Err e, n)
  | Panic => (Panic, n)
  | Ok signed => let '(r, n) := Write Marshal clientID signed n in (conn_result r, n)
  end.

(** The loop of Bootstrap.  [dial] is the outcome of dialing an address; [others] is what the rest of the node does
    while the client waits for the peer's key, and whether the key arrives in time. *)
Fixpoint bootstrap_loop (nd : node) (t : tables) (dial : key -> option handle)
    (others : nat -> Network -> bool * Network) (addrs : list key) (n : Network) : res conn_err (list key) * Network :=
  match addrs with
  | [] => (Ok [], n)
  | address :: addrs =>
    match Client address [] (dial address) n with
    | (Panic, n) => (Panic, n)
    | (Err _, n) => bootstrap_loop nd t dial others addrs n
    | (Ok p, n) =>
      match PrepareMessage pbMarshal nd t Background (Some (mkProto "Ping" [])) with
      | Panic => (Panic, n)
      | Err _ => bootstrap_loop nd t dial others addrs n
      | Ok ping =>
        match TellByAddr Marshal p ping n with
        | (Panic, n) => (Panic, n)
        | (Err EBlocked, n) => (Err EBlocked, n)
        | (Err _, n) => bootstrap_loop nd t dial others addrs n
        | (Ok _, n) =>
          let '(arrives, n) := others p n in
          let '(ok, n) := waitBootstrapSuccess arrives p n in
          if ok then
            let clientID := match clients n !! p with Some c => [PubKey c] | None => [] end in
            let '(r, n) := bootstrap_loop nd t dial others addrs n in
            (match r with Ok ids => Ok (clientID ++ ids) | Err e => Err e | Panic => Panic end, n)
          else bootstrap_loop nd t dial others addrs n
        end
      end
    end
  end.
End broadcast.

(** Bootstrap, once the node is listening; [c] is the cache of resolved host names. *)
Definition Bootstrap `{C : Codec} `{sp : SignaturePolicy} `{hp : HashPolicy} (Marshal : Message -> option (list Z))
    (pbMarshal : proto -> option (list Z)) (LookupHost : resolver) (nd : node) (t : tables) (dial : key -> option handle)
    (others : nat -> Network -> bool * Network) (addrs : list key) (c : cache) (n : Network)
    : res conn_err (list key) * Network * cache :=
  match FilterPeers LookupHost (nAddress n) addrs c with
  | (Ok addrs, c) => (bootstrap_loop (A := addresses LookupHost) Marshal pbMarshal nd t dial others addrs n, c)
  | (Err _, c) => (Ok [], n, c)
  | (Panic, c) => (Panic, n, c)
  end.

(** ** What a write does to the other peers *)

(** The entries of the peer [j], and its connection, are the same in [n] and [n']. *)
Record same_at (j : key) (n n' : Network) : Prop := {
  sa_peer : peers (mgr n') !! j = peers (mgr n) !! j;
  sa_conn : connections (mgr n') !! j = connections (mgr n) !! j;
  sa_state : forall cs, connections (mgr n) !! j = Some cs -> conns n' !! cs = conns n !! cs
}.

(** What no operation of a connection changes: the node's address and settings, and who the clients are. *)
Record same_node (n n' : Network) : Prop := {
  sn_address : nAddress n' = nAddress n;
  sn_config : nConfig n' = nConfig n;
  sn_clients : forall p, (fun c => (cAddress c, cID c, PubKey c)) <$> clients n' !! p
                         = (fun c => (cAddress c, cID c, PubKey c)) <$> clients n !! p
}.

Lemma same_at_refl j n : same_at j n n.
Proof. by split. Qed.

Lemma same_at_trans j n1 n2 n3 : same_at j n1 n2 -> same_at j n2 n3 -> same_at j n1 n3.
Proof.
  intros [P1 C1 S1] [P2 C2 S2]. split; [congruence..|]. intros cs E. rewrite S2 by congruence. by apply S1.
Qed.

Lemma same_node_refl n : same_node n n.
Proof. by split. Qed.

Lemma same_node_trans n1 n2 n3 : same_node n1 n2 -> same_node n2 n3 -> same_node n1 n3.
Proof. intros [] []. split; [congruence..|]. intros p. by rewrite sn_clients1. Qed.

#[global] Instance same_node_preorder : PreOrder same_node.
Proof. split; [exact same_node_refl|exact same_node_trans]. Qed.

#[global] Instance same_at_preorder j : PreOrder (same_at j).
Proof. split; [exact (same_at_refl j)|exact (same_at_trans j)]. Qed.

Lemma same_node_client n n' p c :
  same_node n n' -> clients n !! p = Some c ->
  exists c', clients n' !! p = Some c' /\ cAddress c' = cAddress c /\ PeerID c' = PeerID c /\ PubKey c' = PubKey c /\
    client_addr c' = client_addr c.
Proof.
  intros [_ _ H] E. specialize (H p). rewrite E in H. destruct (clients n' !! p) as [c'|]; [|done].
  cbn in H. injection H as Ha Hi Hp. exists c'. unfold PeerID, client_addr. by rewrite Ha, Hi, Hp.
Qed.

Section others.
Context `{A : AddressOps} `{!AddressLaws A} `{C : Codec}.
Variable Marshal : Message -> option (list Z).

Lemma remove_entry_others q k notify n r n' :
  cm_wf_but q n -> remove_entry k notify n = (r, n') ->
  same_node n n' /\ (forall j, j <> k -> same_at j n n') /\
  (length (nodeQuit (mgr n')) <= S (length (nodeQuit (mgr n))))%nat.
Proof.
  intros W. unfold remove_entry, ConnectionState.
  destruct (connections (mgr n) !! k) as [cs|] eqn:Hcs; [|intros [= <- <-]; split_and!; [done|done|lia]].
  destruct (wf_conn _ _ W k cs Hcs) as (s & w & nn & L). destruct (wf_own _ _ W) as (proto & Hp & Kn).
  rewrite Hp, Kn, L.
  assert (forall n1, peers (mgr n1) = delete k (peers (mgr n)) -> connections (mgr n1) = delete k (connections (mgr n)) ->
    (forall j, j <> cs -> conns n1 !! j = conns n !! j) -> forall j, j <> k -> same_at j n n1) as Same.
  { intros n1 Ep Ec Ek j Hj. split; [by rewrite Ep, lookup_delete_ne|by rewrite Ec, lookup_delete_ne|].
    intros cs' E'. apply Ek. intros ->. by apply Hj, (wf_conns_inj _ _ W j k cs). }
  destruct notify as [i|]; [destruct (_ <=? _)%nat|]; intros [= <- <-]; (split_and!; [by split|apply Same; cbn; try done|]).
  all: try (intros j Hj; by rewrite list_lookup_alter_ne). all: cbn; rewrite ?length_app; cbn; lia.
Qed.

Lemma set_closed_node p n : same_node n (set_client p set_closed n).
Proof.
  split; [done..|]. intros q. cbn. destruct (decide (q = p)) as [->|Hne].
  - rewrite list_lookup_alter_eq. by destruct (clients n !! p).
  - by rewrite list_lookup_alter_ne.
Qed.

Lemma Close_others p c n r n' :
  cm_wf n -> clients n !! p = Some c -> Close p n = (r, n') ->
  same_node n n' /\ (forall j, j <> PeerID c -> j <> client_addr c -> same_at j n n') /\
  (length (nodeQuit (mgr n')) <= S (length (nodeQuit (mgr n))))%nat /\ peers (mgr n') ⊆ peers (mgr n).
Proof.
  intros W L. unfold Close. rewrite L. destruct (closed c); [intros [= <- <-]; split_and!; [done|done|lia|done]|].
  pose proof (closing_wf p c n W L) as W1. pose proof (set_closed_node p n) as N1.
  set (n1 := set_client p set_closed n) in *. unfold RemoveEntries. fold (client_addr c).
  assert (forall j, same_at j n n1) as S1 by by split. assert (nodeQuit (mgr n1) = nodeQuit (mgr n)) as Q1 by done.
  destruct (_ =? 0)%nat.
  { intros [= <- <-]. split_and!; [etransitivity; [exact N1|by split]|intros; by split|cbn; lia|done]. }
  destruct (remove_entry (PeerID c) (Some (PubKey c)) n1) as [r2 n2] eqn:E2.
  destruct (remove_entry_others _ _ _ _ _ _ W1 E2) as (N2 & S2 & Q2).
  destruct (remove_entry_wf _ _ _ _ _ _ W1 E2) as (W2 & _ & _ & _ & D2 & _).
  assert (peers (mgr n2) ⊆ peers (mgr n)) as P2 by (rewrite D2; apply delete_subseteq).
  assert (forall j, j <> PeerID c -> same_at j n n2) as S12 by (intros j Hj; etransitivity; [apply S1|by apply S2]).
  assert (same_node n n2) as N12 by (etransitivity; [exact N1|exact N2]). rewrite Q1 in Q2.
  destruct r2 as [[]|e|]; [|intros [= <- <-]; split_and!; auto..].
  destruct (remove_entry (client_addr c) None n2) as [r3 n3] eqn:E3.
  destruct (remove_entry_others _ _ _ _ _ _ W2 E3) as (N3 & S3 & _).
  destruct (remove_entry_wf _ _ _ _ _ _ W2 E3) as (_ & _ & _ & _ & D3 & _).
  assert (peers (mgr n3) ⊆ peers (mgr n)) as P3 by (rewrite D3; etransitivity; [apply delete_subseteq|exact P2]).
  assert (length (nodeQuit (mgr n3)) <= S (length (nodeQuit (mgr n))))%nat as Q3.
  { destruct (connections (mgr n2) !! client_addr c) as [cs|] eqn:Hcs.
    - destruct (remove_entry_spec _ _ None n2 cs W2 Hcs)
        as (r4 & n4 & s & E4 & Hr & _ & _ & _ & _ & _ & _ & _ & _ & _ & _ & _ & _ & Eq).
      rewrite E3 in E4. injection E4 as <- <-. destruct Hr as [->|(_ & _ & ?)]; [|done].
      rewrite Eq, app_nil_r by done. exact Q2.
    - rewrite remove_entry_absent in E3 by done. by injection E3 as _ <-. }
  assert (forall j, j <> PeerID c -> j <> client_addr c -> same_at j n n3) as S13.
  { intros j Hj Hj'. etransitivity; [by apply S12|by apply S3]. }
  assert (same_node n n3) as N13 by (etransitivity; [exact N12|exact N3]).
  destruct r3 as [[]|e|]; intros [= <- <-]; [|by split_and!..].
  split_and!; [etransitivity; [exact N13|by split]| |done|done]. intros j Hj Hj'. destruct (S13 j Hj Hj'). by split.
Qed.

(** A write to the peer [k] has succeeded, and [f] was added to its connection, or its socket has failed
    and the peer was removed. *)
Definition outcome (k : key) (cs : nat) (w : writer) (nn : Z) (f : list Z) (n' : Network) : Prop :=
  (exists w', live n' k cs w' (u64 (nn + 1)) /\ stream_of w' = stream_of w ++ f /\ is_Some (peers (mgr n') !! k)) \/
  (faults (wr w) <> [] /\ peers (mgr n') !! k = None /\ connections (mgr n') !! k = None).

Lemma outcome_same k cs w nn f n n' : outcome k cs w nn f n -> same_at k n n' -> same_node n n' -> outcome k cs w nn f n'.
Proof.
  intros [(w' & (Hc & Hw & We & (s & L) & Hsch) & Hs & Hp)|(Hf & Hp & Hc)] [P Co S] [Ha _ _].
  - left. exists w'. unfold live. rewrite P, Co, Ha, (S cs Hc). eauto 10.
  - right. by rewrite P, Co.
Qed.

Lemma write_on_spec n k m cs w nn f p c :
  cm_wf n -> live n k cs w nn -> peers (mgr n) !! k = Some p -> clients n !! p = Some c -> PeerID c = k ->
  (length (nodeQuit (mgr n)) < nodeQuit_cap)%nat ->
  build_frame Marshal Panic (nConfig n) (with_nonce (u64 (nn + 1)) m) = Ok f ->
  exists n', write_on Marshal k m n = (Ok true, n') /\ cm_wf n' /\ same_node n n' /\
    (length (nodeQuit (mgr n')) <= S (length (nodeQuit (mgr n))))%nat /\
    (forall j, j <> k -> j <> client_addr c -> same_at j n n') /\ peers (mgr n') ⊆ peers (mgr n) /\
    outcome k cs w nn f n'.
Proof.
  intros W Hlive Hp Lc Hk Hroom F. pose proof (Write_tcp_unfold Marshal n k m cs w nn Hlive) as U. cbn zeta in U.
  pose proof Hlive as (Hcs & Hw & We & (s0 & L0) & Hsch). unfold sendMessage in U. rewrite F in U.
  destruct (write_all_spec w f Hw We) as (r & w1 & E & Hw1 & Hz & Hr).
  pose proof (write_all_healthy w f Hw) as Hh. rewrite E in U, Hh. destruct U as (s & L & U). rewrite L0 in L. injection L as <-.
  unfold write_on. rewrite U. clear U. set (n3 := set_conns _ n). assert (cm_wf n3) as W3.
  { unfold n3. rewrite list_insert_insert_eq. by eapply set_conn_wf. }
  assert (conns n3 !! cs = Some (mkConnState (Some s0) w1 (u64 (nn + 1)))) as L3.
  { cbn. rewrite list_lookup_insert_eq; [done|]. rewrite length_insert. by eapply lookup_lt_Some. }
  assert (same_node n n3) as N3 by by split.
  assert (forall j, j <> k -> same_at j n n3) as S3.
  { intros j Hj. split; [done..|]. intros cs' Hc. cbn. rewrite !list_lookup_insert_ne; [done|..];
      intros ->; by apply Hj, (wf_conns_inj _ _ W j k cs'). }
  destruct r as [[]|e|]; [| |done].
  - exists n3. split_and!; [done..|cbn; lia|auto|done|]. left. destruct Hr as (We1 & Hb1 & Hs1). exists w1.
    split_and!; [|unfold stream_of at 1; by rewrite Hs1, Hb1, app_nil_r|by exists p]. unfold live. split_and!; try done. by exists s0.
  - change (GetPeerClient k n3) with (peers (mgr n) !! k). rewrite Hp.
    destruct (close_registered n3 k p c cs W3 Hp Lc Hcs Hroom) as (n4 & s4 & w4 & nn4 & E4 & G4 & C4 & _). rewrite E4.
    destruct (Close_others p c n3 _ n4 W3 Lc E4) as (N4 & S4 & Q4 & P4).
    destruct (Close_wf p n3 W3) as (r5 & n5 & E5 & _ & W5 & _); [by exists c|]. rewrite E4 in E5. injection E5 as <- <-.
    exists n4. split_and!; [done..|by etransitivity|exact Q4| |exact P4|].
    + intros j Hj Hj'. etransitivity; [by apply S3|]. apply S4; congruence.
    + right. split_and!; [|done..]. intros Hf. destruct Hh as (b2 & E2 & _); [done|]. congruence.
Qed.

(** A peer whose identity is not known yet is not written to. *)
Lemma write_on_unknown n m : cm_wf n -> write_on Marshal [] m n = (Ok true, n).
Proof.
  intros W. unfold write_on, Write, ConnectionState. destruct (connections (mgr n) !! []) eqn:E; [|done].
  destruct (proj2 (wf_peers_conns _ _ W [])) as [x Hx]; [by eexists|]. by rewrite (wf_nonempty _ _ W) in Hx.
Qed.

(** A peer whose identity is known: registered under its public key. *)
Definition identified (k : key) (p : nat) (c : PeerClient) (n : Network) : Prop :=
  peers (mgr n) !! k = Some p /\ clients n !! p = Some c /\ PeerID c <> [].

Lemma identified_key k p c n : cm_wf n -> identified k p c n -> k = PeerID c.
Proof.
  intros W (Hp & L & Hne). destruct (wf_client _ _ W k p Hp) as (c' & L' & _ & _ & Ho).
  rewrite L in L'. injection L' as <-. destruct Ho as [_ [_ [[-> _]|[? _]]]]; done.
Qed.

(** The public keys of the identified peers are not addresses of peers. *)
Definition separate (n : Network) : Prop :=
  forall k p c k' p' c', identified k p c n -> identified k' p' c' n -> k <> client_addr c'.

(** The callback that leaves out the clients with certain addresses; Broadcast leaves out none. *)
Definition to_some (skip : key -> bool) (signed : Message) (p : nat) (n : Network) : res conn_err bool * Network :=
  match clients n !! p with
  | None => (Panic, n)
  | Some c => if skip (cAddress c) then (Ok true, n) else write_on Marshal (PeerID c) signed n
  end.

(** The connection of [k] works and the message can be framed for it. *)
Definition sendable_to (signed : Message) (n : Network) (k : key) (cs : nat) (w : writer) (nn : Z) (f : list Z) : Prop :=
  live n k cs w nn /\ build_frame Marshal Panic (nConfig n) (with_nonce (u64 (nn + 1)) signed) = Ok f.

Lemma live_same n n' k cs w nn : same_node n n' -> same_at k n n' -> live n k cs w nn -> live n' k cs w nn.
Proof.
  intros [Ha _ _] [_ Hc Hs] (L1 & L2 & L3 & (s & L4) & L5). unfold live. rewrite Hc, Ha, (Hs cs L1). eauto 10.
Qed.

Section traversal.
Variables (skip : key -> bool) (signed : Message) (n0 : Network).
Hypothesis Sep : separate n0.
Hypothesis Works : forall k p c, identified k p c n0 -> exists cs w nn f, sendable_to signed n0 k cs w nn f.

(** A peer of the current state was there at the start, as the same client. *)
Lemma identified_before n k p c :
  same_node n0 n -> peers (mgr n) ⊆ peers (mgr n0) -> identified k p c n ->
  exists c0, identified k p c0 n0 /\ cAddress c0 = cAddress c /\ client_addr c0 = client_addr c /\ PeerID c0 = PeerID c.
Proof.
  intros [_ _ N] Sub (Hp & L & Hne). specialize (N p). rewrite L in N. destruct (clients n0 !! p) as [c0|] eqn:L0; [|done].
  cbn in N. injection N as Ha Hi _. exists c0. unfold identified, client_addr, PeerID in *. rewrite <- Ha, <- Hi. split_and!; try done.
  by eapply lookup_weaken.
Qed.

Lemma traversal_spec order n :
  NoDup order -> cm_wf n -> same_node n0 n -> peers (mgr n) ⊆ peers (mgr n0) ->
  (length (nodeQuit (mgr n)) + length order <= nodeQuit_cap)%nat ->
  (forall k p c, k ∈ order -> identified k p c n0 -> same_at k n0 n) ->
  exists n', EachPeer id order (to_some skip signed) n = (Ok tt, n') /\ cm_wf n' /\ same_node n0 n' /\
    (forall k p c, k ∉ order -> identified k p c n0 -> same_at k n n') /\
    (forall k p c, k ∈ order -> identified k p c n0 ->
       if skip (cAddress c) then same_at k n0 n'
       else forall cs w nn f, sendable_to signed n0 k cs w nn f -> outcome k cs w nn f n').
Proof.
  revert n. induction order as [|k order IH]; intros n ND W N Sub Room Same; cbn [EachPeer].
  { exists n. split_and!; try done. intros k p c H. by apply elem_of_nil in H. }
  apply NoDup_cons in ND as [Hk ND]. cbn [length] in Room.
  assert (forall j p c, j ∈ order -> identified j p c n0 -> j <> k /\ same_at j n0 n) as Later.
  { intros j p c Hj I. split; [by intros ->|]. eapply Same; [by apply list_elem_of_further|exact I]. }
  assert (forall p c, identified k p c n0 -> same_at k n0 n) as Samek.
  { intros p c. apply Same, list_elem_of_here. }
  (* nothing happens to [n] at this key *)
  assert ((forall p c, identified k p c n0 -> skip (cAddress c) = true) ->
    exists n', EachPeer id order (to_some skip signed) n = (Ok tt, n') /\ cm_wf n' /\ same_node n0 n' /\
    (forall j p c, j ∉ k :: order -> identified j p c n0 -> same_at j n n') /\
    (forall j p c, j ∈ k :: order -> identified j p c n0 ->
       if skip (cAddress c) then same_at j n0 n'
       else forall cs w nn f, sendable_to signed n0 j cs w nn f -> outcome j cs w nn f n')) as Pass.
  { intros Hskip. destruct (IH n) as (n' & E & W' & N' & Out & In); try done; [lia|by intros; eapply Later|].
    exists n'. split_and!; try done.
    - intros j p c Hj I. eapply Out; [|exact I]. by intros ?; apply Hj, list_elem_of_further.
    - intros j p c [->|Hj]%elem_of_cons I; [|by eapply In]. rewrite (Hskip p c I).
      etransitivity; [by eapply Samek|]. by eapply Out. }
  change (id n) with n. destruct (peers (mgr n) !! k) as [p|] eqn:Hp.
  2:{ apply Pass. intros p c I. destruct (Samek p c I) as [Ep _ _]. destruct I as (I & _). congruence. }
  destruct (wf_client _ _ W k p Hp) as (c & L & _). unfold to_some at 1. rewrite L.
  destruct (decide (PeerID c = [])) as [Hnil|Hid].
  { assert (forall q c0, identified k q c0 n0 -> False) as No.
    { intros q c0 I. pose proof I as (I1 & I2 & I3). destruct (Samek q c0 I) as [Ep _ _].
      assert (q = p) as -> by congruence. destruct (same_node_client n0 n p c0 N I2) as (c1 & L1 & _ & Hi & _).
      rewrite L in L1. injection L1 as <-. congruence. }
    rewrite Hnil, write_on_unknown by done. destruct (skip (cAddress c)); apply Pass; intros q c0 I; by destruct (No q c0 I). }
  assert (identified k p c n) as Ik by done. destruct (identified_before n k p c N Sub Ik) as (c0 & I0 & Ca0 & Cl0 & Id0).
  destruct (skip (cAddress c)) eqn:Sk.
  { apply Pass. intros q c1 I1. destruct I1 as (I1 & I2 & _), I0 as (J1 & J2 & _). assert (c1 = c0) as -> by congruence. by rewrite Ca0. }
  destruct (Works k p c0 I0) as (cs & w & nn & f & Hl & Hf).
  assert (PeerID c = k) as Hck by (symmetry; by eapply identified_key).
  destruct (write_on_spec n k signed cs w nn f p c W) as (n1 & E1 & W1 & N1 & Q1 & O1 & Sub1 & Out1); try done.
  { eapply live_same; [exact N|by eapply Samek|exact Hl]. }
  { lia. }
  { by rewrite (sn_config _ _ N). }
  rewrite Hck, E1. destruct (IH n1) as (n' & E & W' & N' & Out & In); try done.
  { by etransitivity. }
  { by etransitivity. }
  { lia. }
  { intros j q d Hj I. destruct (Later j q d Hj I) as [Hne Sj]. etransitivity; [exact Sj|]. apply O1; [done|].
    rewrite <- Cl0. by eapply Sep. }
  exists n'. split_and!; try done.
  - intros j q d Hj I. etransitivity; [apply O1|eapply Out; [|exact I]].
    + intros ->. apply Hj, list_elem_of_here.
    + rewrite <- Cl0. by eapply Sep.
    + intros ?. by apply Hj, list_elem_of_further.
  - intros j q d [->|Hj]%elem_of_cons I; [|by eapply In].
    assert (d = c0) as -> by (destruct I as (I1 & I2 & _), I0 as (J1 & J2 & _); congruence).
    rewrite Ca0, Sk. intros cs' w' nn' f' [Hl' Hf'].
    destruct Hl as (Hc1 & _ & _ & (s1 & L1) & _), Hl' as (Hc2 & _ & _ & (s2 & L2) & _).
    assert (cs' = cs) as -> by congruence. assert (w' = w /\ nn' = nn) as [-> ->] by (split; congruence).
    assert (f' = f) as -> by congruence.
    eapply outcome_same; [exact Out1|by eapply Out|]. destruct N1 as [Na Nc Nl], N as [Ma Mc Ml], N' as [Oa Oc Ol].
    split; [congruence..|]. intros x. by rewrite Ol, Nl, Ml.
Qed.
End traversal.
End others.

(** ** Random selection *)

Lemma rand_Shuffle_perm {T} intn i (l : list T) : rand_Shuffle intn i l ≡ₚ l.
Proof.
  revert l. induction i as [|i IH]; intros l; cbn [rand_Shuffle]; [done|]. rewrite IH. apply swap_at_perm.
Qed.

(** The identities of the clients in the order of the traversal. *)
Definition client_ids (order : list key) (n : Network) : list key :=
  omap (fun k => p ← peers (mgr n) !! k; c ← clients n !! p; Some (PubKey c)) order.

Lemma collect_spec K order n cids :
  0 <= K -> 3 * K < 2 ^ 63 -> (forall k p, peers (mgr n) !! k = Some p -> is_Some (clients n !! p)) ->
  Z.of_nat (length cids) <= 3 * K ->
  EachPeer fst order (collect K) (n, cids)
  = (Ok tt, (n, cids ++ take (Z.to_nat (3 * K + 1) - length cids) (client_ids order n))).
Proof.
  intros H0 H1 Hcl. revert cids. induction order as [|k order IH]; intros cids Hlen; cbn [EachPeer fst].
  { unfold client_ids. cbn. by rewrite take_nil, app_nil_r. }
  unfold client_ids. cbn [omap list_omap]. fold (client_ids order n).
  destruct (peers (mgr n) !! k) as [p|] eqn:Hp; cbn [mbind option_bind]; [|by apply IH].
  destruct (Hcl k p Hp) as [c L]. unfold collect at 1. cbn [fst snd]. rewrite L. cbn [mbind option_bind].
  rewrite i64_small by lia. rewrite length_app. cbn [length].
  replace (Z.to_nat (3 * K + 1) - length cids)%nat with (S (Z.to_nat (3 * K) - length cids)) by lia. cbn [take].
  destruct (Z.leb_spec (Z.of_nat (length cids + 1)) (K * 3)) as [Hle|Hgt].
  - rewrite IH by (rewrite length_app; cbn; lia). rewrite length_app. cbn [length].
    replace (Z.to_nat (3 * K + 1) - (length cids + 1))%nat with (Z.to_nat (3 * K) - length cids)%nat by lia.
    by rewrite <- app_assoc.
  - replace (Z.to_nat (3 * K) - length cids)%nat with 0%nat by lia. by rewrite take_0.
Qed.

(** ** Correctness *)

Section claims.
Context `{A : AddressOps} `{!AddressLaws A} `{C : Codec} `{sp : SignaturePolicy} `{hp : HashPolicy}.
Variable Marshal : Message -> option (list Z).
Variable pbMarshal : proto -> option (list Z).

Lemma write_each_absent ks signed n :
  Forall (fun k => connections (mgr n) !! k = None) ks -> write_each Marshal ks signed n = (Ok tt, n).
Proof.
  induction 1 as [|k ks Hk _ IH]; [done|]. cbn [write_each]. unfold write_on, Write, ConnectionState. by rewrite Hk.
Qed.

(** While a bootstrap waits, the rest of the node runs: it keeps the manager consistent and its clients allocated. *)
Definition well_behaved (others : nat -> Network -> bool * Network) : Prop :=
  forall p n, cm_wf n -> cm_wf (others p n).2 /\ (length (clients n) <= length (clients (others p n).2))%nat.

Lemma waitBootstrapSuccess_wf arrives p n ok n' :
  cm_wf n -> is_Some (clients n !! p) -> waitBootstrapSuccess arrives p n = (ok, n') -> cm_wf n'.
Proof.
  intros W L. unfold waitBootstrapSuccess. destruct arrives; [by intros [= <- <-]|].
  destruct (Close_wf p n W L) as (r & n1 & -> & _ & W1 & _). by intros [= <- <-].
Qed.

Lemma Client_wf a dial n r n' :
  cm_wf n -> (forall u s, ToUnified a = Some u -> Scheme u = Some s -> u = a /\ known_protocol s = true) ->
  Client a [] dial n = (r, n') -> r <> Panic /\ cm_wf n' /\ (forall p, r = Ok p -> is_Some (clients n' !! p)).
Proof.
  intros W Hk E. destruct (ToUnified a) as [u|] eqn:U.
  2:{ unfold Client, getOrSetPeerClient in E. rewrite U in E. injection E as <- <-. done. }
  destruct (Scheme u) as [s|] eqn:S.
  - destruct (Hk u s eq_refl S) as [-> Kp]. assert (known_address a) as Kn by (intros x Hx; exists s; split; congruence).
    destruct (getOrSet_wf a [] None dial n W Kn) as (r1 & n1 & E1 & P1 & _ & Ok1). unfold Client in E. rewrite E in E1. injection E1 as <- <-.
    split_and!; [done|by eapply connect_wf|]. intros p ->. destruct (Ok1 p eq_refl) as (_ & _ & _ & _ & c & L & _). by exists c.
  - unfold Client, getOrSetPeerClient in E. rewrite U in E.
    destruct (decide (u = nAddress n)); [by injection E as <- <-|]. unfold createPeerClient in E. rewrite S in E.
    by injection E as <- <-.
Qed.

Lemma TellByAddr_wf p m n r n' :
  cm_wf n -> is_Some (clients n !! p) -> TellByAddr Marshal p m n = (r, n') -> r <> Panic ->
  cm_wf n' /\ is_Some (clients n' !! p).
Proof.
  intros W [c L] E Hr. unfold TellByAddr in E. rewrite L in E. apply Write_wf in E as [W' Len]; [|done..].
  split; [done|]. apply lookup_lt_is_Some. rewrite Len. by eapply lookup_lt_Some.
Qed.

Lemma EachPeer_ext {T} (net : T -> Network) order f g s :
  (forall p s, f p s = g p s) -> EachPeer net order f s = EachPeer net order g s.
Proof.
  intros H. revert s. induction order as [|k order IH]; intros s; cbn [EachPeer]; [done|].
  destruct (peers _ !! k) as [p|]; [|apply IH]. rewrite H. destruct (g p s) as [[[]| |] s']; auto.
Qed.


(** BroadcastByIDs and BroadcastByAddresses use addresses as keys: once a peer is registered under its public key
    they do not reach it, and report nothing. *)
Lemma broadcast_by_address_misses nd t ctx message signed ids n :
  PrepareMessage pbMarshal nd t ctx message = Ok signed -> cm_wf n ->
  Forall (fun id => peers (mgr n) !! Address id = None) ids ->
  BroadcastByIDs Marshal pbMarshal nd t ctx message ids n = (Ok tt, n) /\
  BroadcastByAddresses Marshal pbMarshal nd t ctx message (Address <$> ids) n = (Ok tt, n).
Proof.
  intros Pr W H. unfold BroadcastByIDs, BroadcastByAddresses. rewrite Pr.
  assert (write_each Marshal (Address <$> ids) signed n = (Ok tt, n)); [|done]. apply write_each_absent.
  apply Forall_fmap. eapply Forall_impl; [exact H|]. intros id Hp. cbn in *.
  destruct (connections (mgr n) !! Address id) eqn:E; [|done].
  destruct (proj2 (wf_peers_conns _ _ W (Address id))) as [? ?]; [by eexists|]. congruence.
Qed.

(** BroadcastRandomly: with K peers wanted it collects the first 3K+1 clients of the traversal, or all when there
    are fewer, and sends to K of them (to all when there are fewer), by client identity and each at
    most once; it returns the collected clients in the order of the draw; a negative K panics. *)
Theorem random_broadcast_correct nd t ctx message K intn order n :
  cm_wf n -> NoDup order -> (forall k p c, peers (mgr n) !! k = Some p -> clients n !! p = Some c -> PubKey c = k) ->
  (0 <= K -> 3 * K < 2 ^ 63 ->
   let picked := take (Z.to_nat (3 * K + 1)) (client_ids order n) in
   exists cids, cids ≡ₚ picked /\ NoDup cids /\ (forall k, k ∈ cids -> is_Some (peers (mgr n) !! k)) /\
     let '(r, n') := BroadcastByClientIDs Marshal pbMarshal nd t ctx message (take (Z.to_nat K) cids) n in
     BroadcastRandomly Marshal pbMarshal nd t ctx message K intn order n
     = (match r with Ok _ => Ok cids | Err e => Err e | Panic => Panic end, n')) /\
  (- 2 ^ 61 < K < 0 -> BroadcastRandomly Marshal pbMarshal nd t ctx message K intn order n = (Panic, n)).
Proof.
  intros W ND Reg.
  assert (forall k p, peers (mgr n) !! k = Some p -> is_Some (clients n !! p)) as Hcl.
  { intros k p Hp. destruct (wf_client _ _ W k p Hp) as (c & -> & _). by eexists. }
  assert (forall l, NoDup l -> NoDup (client_ids l n) /\ forall k, k ∈ client_ids l n -> k ∈ l /\ is_Some (peers (mgr n) !! k)) as Ids.
  { induction l as [|k l IH]; intros Hl; [split; [constructor|by intros k ?%elem_of_nil]|].
    apply NoDup_cons in Hl as [Hk Hl]. destruct (IH Hl) as [N1 I1]. unfold client_ids. cbn [omap list_omap]. fold (client_ids l n).
    destruct (peers (mgr n) !! k) as [p|] eqn:Hp; cbn.
    - destruct (Hcl k p Hp) as [c L]. rewrite L. cbn. rewrite (Reg k p c Hp L). split.
      + constructor; [|done]. intros H. by apply I1 in H as [? _].
      + intros j [->|Hj]%elem_of_cons; [split; [apply list_elem_of_here|by eexists]|]. destruct (I1 j Hj). split; [by right|done].
    - split; [done|]. intros j Hj. destruct (I1 j Hj). split; [by right|done]. }
  destruct (Ids order ND) as [N I]. split.
  - intros H0 H1 picked. exists (rand_Shuffle intn (length picked - 1) picked).
    pose proof (rand_Shuffle_perm intn (length picked - 1) picked) as P.
    split_and!; [done|by rewrite P; apply (sublist_NoDup _ (client_ids order n)); [done|apply sublist_take]| |].
    + intros k. rewrite P. intros Hk%elem_of_take. destruct Hk as (i & Hk & _). eapply I, list_elem_of_lookup_2, Hk.
    + unfold BroadcastRandomly. rewrite collect_spec by (done || cbn; lia). cbn [app length]. rewrite Nat.sub_0_r. fold picked.
      set (cids := rand_Shuffle _ _ picked). assert (length cids = length picked) as Len by (by apply Permutation_length).
      set (K' := if Z.of_nat (length cids) <? K then Z.of_nat (length cids) else K).
      assert (take (Z.to_nat K') cids = take (Z.to_nat K) cids /\ 0 <= K') as [-> HK].
      { unfold K'. destruct (Z.ltb_spec (Z.of_nat (length cids)) K); [|split; [done|lia]].
        split; [|lia]. rewrite !take_ge by lia. done. }
      destruct (Z.ltb_spec K' 0); [lia|]. by destruct (BroadcastByClientIDs _ _ _ _ _ _ _ _) as [[]].
  - intros HK. unfold BroadcastRandomly.
    assert (exists cids, EachPeer fst order (collect K) (n, []) = (Ok tt, (n, cids))) as [cids ->].
    { clear - HK Hcl. assert (forall l, exists cids, EachPeer fst order (collect K) (n, l) = (Ok tt, (n, cids))) as H; [|apply H].
      induction order as [|k order IH]; intros l; cbn [EachPeer fst]; [by eexists|].
      destruct (peers (mgr n) !! k) as [p|] eqn:Hp; [|apply IH]. destruct (Hcl k p Hp) as [c L]. unfold collect at 1. cbn [fst snd].
      rewrite L. destruct (_ <=? _); [apply IH|by eexists]. }
    destruct (Z.ltb_spec (Z.of_nat (length (rand_Shuffle intn (length cids - 1) cids))) K); [lia|].
    destruct (Z.ltb_spec K 0); [done|lia].
Qed.

(** Bootstrap leaves the manager consistent, unless a message that marshals to nothing is framed, and returns at
    most one client for each address. *)
Lemma bootstrap_loop_wf nd t dial others addrs n r n' :
  well_behaved others -> cm_wf n ->
  Forall (fun a => forall u s, ToUnified a = Some u -> Scheme u = Some s -> u = a /\ known_protocol s = true) addrs ->
  bootstrap_loop Marshal pbMarshal nd t dial others addrs n = (r, n') -> r <> Panic ->
  cm_wf n' /\ (forall ids, r = Ok ids -> (length ids <= length addrs)%nat).
Proof.
  intros Beh. revert n r n'. induction addrs as [|a addrs IH]; intros n r n' W Ha; cbn [bootstrap_loop length].
  { intros [= <- <-] _. split; [done|]. by intros ids [= <-]. }
  apply Forall_cons in Ha as [Hk Ha].
  assert (forall m, cm_wf m -> bootstrap_loop Marshal pbMarshal nd t dial others addrs m = (r, n') -> r <> Panic ->
    cm_wf n' /\ (forall ids, r = Ok ids -> (length ids <= S (length addrs))%nat)) as Next.
  { intros m Wm Em Hr. destruct (IH m r n' Wm Ha Em Hr) as [? Hl]. split; [done|]. intros ids E. specialize (Hl ids E). lia. }
  destruct (Client a [] (dial a) n) as [rc n1] eqn:Ec.
  destruct (Client_wf a (dial a) n rc n1 W Hk Ec) as (Hrc & W1 & L1).
  destruct rc as [p|e|]; [|by apply Next|done]. specialize (L1 p eq_refl).
  destruct (PrepareMessage pbMarshal nd t Background _) as [ping|e|]; [|by apply Next|by intros [= <- <-]].
  destruct (TellByAddr Marshal p ping n1) as [rt n2] eqn:Et.
  assert (rt <> Panic -> cm_wf n2 /\ is_Some (clients n2 !! p)) as H2 by (intros Hne; by eapply TellByAddr_wf).
  destruct rt as [[]|e|]; [| |by intros [= <- <-]].
  2:{ destruct (H2 ltac:(done)) as [W2 _]. destruct e; try (by apply Next). intros [= <- <-] _. split; [done|]. by intros ids. }
  destruct (H2 ltac:(done)) as [W2 L2]. destruct (others p n2) as [arrives n3] eqn:Eo.
  destruct (Beh p n2 W2) as [W3 Len3]. rewrite Eo in W3, Len3. cbn [snd] in W3, Len3.
  destruct (waitBootstrapSuccess arrives p n3) as [ok n4] eqn:Ew.
  assert (cm_wf n4) as W4.
  { eapply waitBootstrapSuccess_wf; [exact W3| |exact Ew]. apply lookup_lt_is_Some. apply lookup_lt_is_Some in L2. lia. }
  destruct ok; [|by apply Next].
  destruct (bootstrap_loop Marshal pbMarshal nd t dial others addrs n4) as [rb n5] eqn:Eb. intros [= <- <-] Hr.
  destruct (IH n4 rb n5 W4 Ha Eb) as [W5 Hl]; [by destruct rb|]. split; [done|].
  intros ids E. destruct rb as [ids'| |]; [|done..]. injection E as <-. specialize (Hl ids' eq_refl).
  rewrite length_app. destruct (clients n4 !! p); cbn; lia.
Qed.
End claims.

(** ** Witnesses: two peers that have introduced themselves; the socket of the second fails *)

#[local] Existing Instance toy_addresses.
#[local] Existing Instance toy_address_laws.

Definition hello (b : Z) (from : key) : Message :=
  mkMessage [9] (Some (mkPbID (Some [b]) from [3] [] [])) None 0 1 false 1000 5 [] false.

Definition toy_accept (h : handle) (m : Message) (n : Network) : Network :=
  (accept_message (A := toy_addresses) (C := marker_codec) example_marshal (fun _ _ _ => true) false h None None m n).2.

Definition toy_group : Network :=
  toy_accept (mkHandle 43 false [Some 2%nat]) (hello 172 [2]) (toy_accept toy_handle (hello 171 [1]) toy_net).

Lemma toy_accept_wf h b a n :
  cm_wf n ->
  (accept_message (A := toy_addresses) (C := marker_codec) example_marshal (fun _ _ _ => true) false h None None (hello b a) n).1 <> Panic ->
  cm_wf (toy_accept h (hello b a) n).
Proof.
  intros W Hr. unfold toy_accept.
  apply (accept_wf (C := marker_codec) example_marshal (fun _ _ _ => true) false h None None (hello b a) (mkPbID (Some [b]) a [3] [] []) n
    _ _ W eq_refl (known_toy _) (surjective_pairing _) Hr).
Qed.

Lemma toy_group_wf : cm_wf toy_group.
Proof.
  apply toy_accept_wf; [apply toy_accept_wf; [by eapply NewNetwork_wf|]|]; vm_compute; discriminate.
Qed.

Definition healthy_writer : writer := mkWriter [] 64 false (mkSocket [] []).
Definition faulty_writer : writer := mkWriter [] 64 false (mkSocket [] [Some 2%nat]).
Definition hello_frame : list Z := [0; 0; 0; 5; 0; 0; 0; 0; 0; 3; 8; 8; 8].

Lemma toy_group_peers k p :
  peers (mgr toy_group) !! k = Some p -> k = str "ab" /\ p = 0%nat \/ k = str "ac" /\ p = 1%nat.
Proof.
  replace (peers (mgr toy_group)) with (<[str "ab" := 0%nat]> {[str "ac" := 1%nat]} : gmap key nat) by (vm_compute; reflexivity).
  rewrite lookup_insert_Some, lookup_singleton_Some. intros [[<- <-]|(_ & <- & <-)]; auto.
Qed.

Lemma toy_group_sendable signed :
  sendable_to (A := toy_addresses) (C := marker_codec) example_marshal signed toy_group (str "ab") 0 healthy_writer 0 hello_frame /\
  sendable_to (A := toy_addresses) (C := marker_codec) example_marshal signed toy_group (str "ac") 1 faulty_writer 0 hello_frame.
Proof.
  split; (split; [|reflexivity]); (split_and!; [vm_compute; reflexivity|split; vm_compute; lia|reflexivity| |by left]).
  - exists 42. vm_compute. reflexivity.
  - exists 43. vm_compute. reflexivity.
Qed.

Lemma toy_group_ok signed :
  separate toy_group /\
  (forall k p c, identified k p c toy_group ->
     exists cs w nn f, sendable_to (A := toy_addresses) (C := marker_codec) example_marshal signed toy_group k cs w nn f).
Proof.
  destruct (toy_group_sendable signed) as [Sa Sb]. split.
  - intros k p c k' p' c' (Hk & _) (Hk' & L' & _). apply toy_group_peers in Hk, Hk'.
    destruct Hk' as [[-> ->]|[-> ->]]; vm_compute in L'; injection L' as <-; destruct Hk as [[-> _]|[-> _]]; vm_compute; discriminate.
  - intros k p c (Hk & _). apply toy_group_peers in Hk as [[-> ->]|[-> ->]]; by do 4 eexists.
Qed.


Lemma random_broadcast_witness :
  exists cids n', BroadcastRandomly (A := toy_addresses) (C := marker_codec) (sp := toy_policy) (hp := toy_hash) example_marshal
    toy_pbMarshal toy_node init_tables toy_ctx (Some (mkProto "Ping" [])) 1 (fun _ => 0%nat) [str "ac"; str "ab"] toy_group
    = (Ok cids, n') /\ cids ≡ₚ [str "ac"; str "ab"].
Proof.
  destruct (random_broadcast_correct (A := toy_addresses) (C := marker_codec) (sp := toy_policy) (hp := toy_hash) example_marshal
    toy_pbMarshal toy_node init_tables toy_ctx (Some (mkProto "Ping" [])) 1 (fun _ => 0%nat) [str "ac"; str "ab"] toy_group)
    as [H _].
  - exact toy_group_wf.
  - vm_compute. repeat constructor; set_solver.
  - intros k p c Hp L. apply toy_group_peers in Hp as [[-> ->]|[-> ->]]; vm_compute in L; injection L as <-; reflexivity.
  - destruct H as (cids & P & _ & _ & E); [lia|lia|]. destruct (BroadcastByClientIDs _ _ _ _ _ _ _ _) as [r n'] eqn:Eb.
    exists [str "ab"; str "ac"]. eexists. split; [vm_compute; reflexivity|]. apply Permutation_swap.
Defined.
