(* ===== verification/Accept.v ===== *)
(** * network/network.go: listening and the receive loops

    The goroutines that serve connections: netListen and quicListen hand each accepted connection to
    Accept or AcceptQuic, which read messages, register and check their sender
    ([ConnMgr.accept_message]) and dispatch them; AcceptUdp does this for all peers over one socket.

    A loop runs over what its connection has to offer.  [fuel] bounds the number of messages it
    handles; [accept_loop_ends] shows that the number of bytes of the connection is enough.  What a
    client exchanges is kept per client, in a map from the client's pointer. *)
From S2P Require Import Prelude Decimal Peer Wire Opcode KeyPair Address ConnMgr Exchange.
Local Open Scope Z_scope.
Local Open Scope go_scope.

(** Why a receive loop has ended, or that it has not within the fuel. *)
Inductive loop_end := EndRead (e : wire_err) | EndQuit | EndPanic | EndBlocked | StillRunning.

(** The loop of netListen and quicListen: any error of Accept ends it, shutdown or not. *)
Fixpoint netListen {T} (accepts : list (option T)) : list T :=
  match accepts with
  | Some conn :: accepts => conn :: netListen accepts
  | _ => []
  end.

(** quicListen: the session, and the stream opened in it. *)
Fixpoint quicListen {T} (accepts : list (option (option T))) : list T :=
  match accepts with
  | Some (Some stream) :: accepts => stream :: quicListen accepts
  | _ => []
  end.

Section loops.
Context `{A : AddressOps} `{C : Codec} `{sp : SignaturePolicy} `{hp : HashPolicy}.
Variables (Marshal : Message -> option (list Z)) (Unmarshal : list Z -> option Message).
Variable pbUnmarshal : msg_type -> list Z -> option proto.

(** dispatchMessage for the client [p]. *)
Definition dispatch_to (t : tables) (p : nat) (msg : Message) (n : Network) (xs : gmap nat Exch) : option (gmap nat Exch) :=
  c ← clients n !! p;
  x ← dispatchMessage pbUnmarshal (incomingReady c) t msg (default new_Exch (xs !! p));
  Some (<[p := x]> xs).

(** The loop of Accept ([rd] is read_loop) and of AcceptQuic ([rd] is ReadFull, no acknowledgements).  [ack] is the
    acknowledgement PrepareMessage makes for a message, [dial] the outcome of dialing its sender. *)
Fixpoint accept_loop (rd : nat -> conn -> option (list Z) * conn) (t : tables) (proxy : bool) (h : handle)
    (dial : Message -> option handle) (ack : Message -> option Message) (fuel : nat) (c : conn)
    (n : Network) (xs : gmap nat Exch) : loop_end * Network * gmap nat Exch :=
  match fuel with
  | O => (StillRunning, n, xs)
  | S fuel =>
    match receive_with Unmarshal rd (nConfig n) c with
    | (Err e, _) => (EndRead e, n, xs)
    | (Panic, _) => (EndPanic, n, xs)
    | (Ok msg, c) =>
      match accept_message Marshal check_signature proxy h (dial msg) (ack msg) msg n with
      | (Ok (Dispatch p), n) =>
        match dispatch_to t p msg n xs with
        | Some xs => accept_loop rd t proxy h dial ack fuel c n xs
        | None => (EndBlocked, n, xs)
        end
      | (Ok Quit, n) => (EndQuit, n, xs)
      | (Err _, n) => (EndBlocked, n, xs)
      | (Panic, n) => (EndPanic, n, xs)
      end
    end
  end.

(** The deferred function of Accept and AcceptQuic: the client is closed only on the side that has dialed. *)
Definition accept_defer (cli : option nat) (h : handle) (n : Network) : res conn_err unit * Network :=
  match (match cli with Some p => Close p n | None => (Ok tt, n) end) with
  | (Panic, n) => (Panic, n)
  | (Err EBlocked, n) => (Err EBlocked, n)
  | (_, n) => (Ok tt, close_sock (h_sock h) n)
  end.

(** The whole of Accept and AcceptQuic. *)
Definition accept_conn (rd : nat -> conn -> option (list Z) * conn) (t : tables) (proxy : bool) (h : handle)
    (dial : Message -> option handle) (ack : Message -> option Message) (cli : option nat) (fuel : nat) (c : conn)
    (n : Network) (xs : gmap nat Exch) : loop_end * Network * gmap nat Exch :=
  match accept_loop rd t proxy h dial ack fuel c n xs with
  | (EndRead _ as e, n, xs) | (EndQuit as e, n, xs) =>
    match accept_defer cli h n with
    | (Ok _, n) => (e, n, xs)
    | (Err _, n) => (EndBlocked, n, xs)
    | (Panic, n) => (EndPanic, n, xs)
    end
  | r => r
  end.

Definition Accept (t : tables) (proxy : bool) (h : handle) (dial : Message -> option handle) (ack : Message -> option Message)
    (cli : option nat) (fuel : nat) (c : conn) (n : Network) (xs : gmap nat Exch) : loop_end * Network * gmap nat Exch :=
  accept_conn read_loop t proxy h dial ack cli fuel c n xs.

Definition AcceptQuic (t : tables) (proxy : bool) (h : handle) (dial : Message -> option handle) (cli : option nat)
    (fuel : nat) (c : conn) (n : Network) (xs : gmap nat Exch) : loop_end * Network * gmap nat Exch :=
  accept_conn ReadFull t proxy h dial (fun _ => None) cli fuel c n xs.

(** The function literal of AcceptUdp: its returns only end the handling of this message.  The first component of
    the result is the variable client, the second whether the dispatch is submitted as a job of it. *)
Definition accept_udp_message (proxy : bool) (h : handle) (dial : option handle) (msg : Message) (client : option nat)
    (n : Network) : res conn_err (option nat * bool) * Network :=
  match Sender msg with
  | None => (Panic, n)
  | Some sender =>
    if match Signature msg with Some sig => negb (check_signature sender (Payload msg) sig) | None => false end
    then (Ok (client, false), n)
    else
      let id := to_peer_id sender in
      match getOrSetPeerClient (Address id) (hex_encode (NetKey id)) (if proxy then None else Some h) dial n with
      | (Panic, n) => (Panic, n)
      | (Err _, n) => (Ok (None, false), n)
      | (Ok p, n) =>
        let n := set_client p (set_ID (Some id)) n in
        match clients n !! p with
        | None => (Panic, n)
        | Some c =>
          if negb (ConnectionStateExists (PeerID c) n) then (Ok (Some p, false), n)
          else if negb match cID c with Some cid => Equals cid id | None => false end then (Ok (Some p, false), n)
          else (Ok (Some p, true), n)
        end
      end
  end.

(** The loop of AcceptUdp over the datagrams that arrive, None being a failed read: the jobs it submits and the last
    client.  Any error of receiveUDPMessage leaves the loop. *)
Fixpoint udp_loop (proxy : bool) (h : handle) (dial : Message -> option handle) (ds : list (option (list Z)))
    (client : option nat) (n : Network) : loop_end * list (nat * Message) * option nat * Network :=
  match ds with
  | [] => (StillRunning, [], client, n)
  | d :: ds =>
    match receiveUDPMessage Unmarshal (nConfig n) d with
    | Panic => (EndPanic, [], client, n)
    | Err e => (EndRead e, [], client, n)
    | Ok None => (EndQuit, [], client, n)
    | Ok (Some msg) =>
      match accept_udp_message proxy h (dial msg) msg client n with
      | (Panic, n) => (EndPanic, [], client, n)
      | (Err _, n) => (EndBlocked, [], client, n)
      | (Ok (client, submit), n) =>
        let '(e, jobs, last, n) := udp_loop proxy h dial ds client n in
        (e, match client with Some p => if submit then (p, msg) :: jobs else jobs | None => jobs end, last, n)
      end
    end
  end.

(** AcceptUdp: at the end the last client and the socket of the node are closed. *)
Definition AcceptUdp (proxy : bool) (h : handle) (dial : Message -> option handle) (ds : list (option (list Z)))
    (n : Network) : loop_end * list (nat * Message) * Network :=
  match udp_loop proxy h dial ds None n with
  | (EndRead _ as e, jobs, client, n) | (EndQuit as e, jobs, client, n) =>
    match accept_defer client h n with
    | (Ok _, n) => (e, jobs, n)
    | (Err _, n) => (EndBlocked, jobs, n)
    | (Panic, n) => (EndPanic, jobs, n)
    end
  | (e, jobs, _, n) => (e, jobs, n)
  end.
End loops.

(** ** The sender of a connection settles *)

Section delivery.
Context `{A : AddressOps} `{!AddressLaws A} `{C : Codec} `{sp : SignaturePolicy} `{hp : HashPolicy}.
Variables (Marshal : Message -> option (list Z)) (Unmarshal : list Z -> option Message).
Variable pbUnmarshal : msg_type -> list Z -> option proto.

(** With a connection at hand a sender with a supported address gets a client. *)
Lemma getOrSet_conn a k h dial u n :
  cm_wf n -> known_address a -> ToUnified a = Some u -> u <> nAddress n -> h_udp h = false ->
  exists p n', getOrSetPeerClient a k (Some h) dial n = (Ok p, n').
Proof.
  intros W Kn U Hself Hudp. destruct (getOrSet_wf a k (Some h) dial n W Kn) as (r & n1 & E & P & _ & _).
  rewrite E. destruct r as [p|e|]; [by eauto|exfalso|done].
  unfold getOrSetPeerClient in E. rewrite U, decide_False, Hudp in E by done. destruct (Kn u U) as (s & Hs & Kp).
  unfold createPeerClient in E. rewrite Hs in E. fold (entry_key a k) in E.
  set (m := if decide (u <> entry_key a k) then _ else n) in E.
  assert (forall j p, peers (mgr m) !! j = Some p -> exists c, clients m !! p = Some c /\ outgoingReady c = true) as R.
  { intros j p Hp. subst m. destruct (decide (u <> entry_key a k)) as [Hne|].
    - destruct (peers (mgr n) !! u) as [q|] eqn:Hu.
      + assert (entry_key a k <> []) as Hk.
        { unfold entry_key. destruct (decide (k = [])); [|done]. intros ->. by rewrite unified_empty in U. }
        destruct (reset_wf u (entry_key a k) n q W Hu Hne Hk) as [W1 _].
        destruct (wf_client _ _ W1 j p Hp) as (c & ? & ? & _). eauto.
      + rewrite reset_self in Hp |- * by done. destruct (wf_client _ _ W j p Hp) as (c & ? & ? & _). eauto.
    - destruct (wf_client _ _ W j p Hp) as (c & ? & ? & _). eauto. }
  destruct (peers (mgr m) !! entry_key a k) as [p|] eqn:Hp.
  - destruct (R _ _ Hp) as (c & L & O). by rewrite L, O in E.
  - unfold initConnection in E. rewrite Hs, Kp in E. by destruct (register_client _ _ _).
Qed.

Lemma getOrSet_config a k conn dial n : nConfig (getOrSetPeerClient a k conn dial n).2 = nConfig n.
Proof.
  unfold getOrSetPeerClient. destruct (ToUnified a) as [u|]; [|done]. destruct (decide _); [done|].
  destruct (createPeerClient u) as [cl|]; [|done]. fold (entry_key a k).
  set (m := if decide (u <> entry_key a k) then _ else n).
  assert (nConfig m = nConfig n) as <- by (subst m; by destruct (decide _)).
  destruct (peers (mgr m) !! _) as [p|]; [by destruct (clients m !! p) as [c|]; [destruct (outgoingReady c)|]|].
  destruct (match match conn with Some h => _ | None => None end with Some h => Some h | None => dial end) as [h|]; [|done].
  unfold initConnection. destruct (Scheme u) as [proto|]; [|done]. by destruct (known_protocol proto).
Qed.

(** The client [p] is the one of [sender]: registered under its public key, with its identity. *)
Record settled (sender : PbID) (p : nat) (n : Network) : Prop := {
  st_wf : cm_wf n;
  st_key : NetKey (to_peer_id sender) <> [];
  st_peer : peers (mgr n) !! hex_encode (NetKey (to_peer_id sender)) = Some p;
  st_client : exists c, clients n !! p = Some c /\ cID c = Some (to_peer_id sender) /\ incomingReady c = true /\ outgoingReady c = true;
  st_known : known_address (pbAddress sender);
  st_address : exists u, ToUnified (pbAddress sender) = Some u /\ u <> nAddress n /\
    (u <> hex_encode (NetKey (to_peer_id sender)) -> peers (mgr n) !! u = None)
}.

(** A message Accept does not refuse and does not acknowledge. *)
Definition unobjectionable (sender : PbID) (msg : Message) : Prop :=
  Sender msg = Some sender /\ MessageID msg = [] /\
  (forall sig, Signature msg = Some sig -> check_signature sender (Payload msg) sig = true).

Lemma hex_nonempty l : l <> [] -> hex_encode l <> [].
Proof. by destruct l. Qed.

Lemma set_ID_same p id c n : clients n !! p = Some c -> cID c = Some id -> set_client p (set_ID (Some id)) n = n.
Proof.
  intros L E. unfold set_client, set_clients. rewrite (list_alter_ext _ (fun c => c) _ (clients n) p), list_alter_id;
    [by destruct n|done| |done].
  intros c' L'. rewrite L in L'. injection L' as <-. destruct c. cbn in *. by subst.
Qed.

Lemma Equals_refl id : Equals id id = true.
Proof. unfold Equals. by apply bool_decide_true. Qed.

(** Accepting a message of a sender that gets a client dispatches it, and settles the sender. *)
Lemma accept_settles sender msg h dial ack n p n1 :
  cm_wf n -> known_address (pbAddress sender) -> NetKey (to_peer_id sender) <> [] -> unobjectionable sender msg ->
  getOrSetPeerClient (pbAddress sender) (hex_encode (NetKey (to_peer_id sender))) (Some h) dial n = (Ok p, n1) ->
  exists n', accept_message Marshal check_signature false h dial ack msg n = (Ok (Dispatch p), n') /\ settled sender p n' /\
    nConfig n' = nConfig n.
Proof.
  intros W Kn Hkey (Hs & Hid & Hsig) E. set (id := to_peer_id sender) in *. set (k := hex_encode (NetKey id)) in *.
  assert (k <> []) as Hk by (by apply hex_nonempty).
  destruct (getOrSet_wf (pbAddress sender) k (Some h) dial n W Kn) as (r1 & n0 & E0 & _ & _ & Ok1).
  rewrite E in E0. injection E0 as <- <-. destruct (Ok1 p eq_refl) as (W1 & Hp & _ & Ha & c & L & Cc).
  destruct (getOrSet_final (pbAddress sender) k (Some h) dial n p n1 W Kn E) as (u & U & Hself & Haddr & _ & Hu & _).
  assert (entry_key (pbAddress sender) k = k) as Ek by (unfold entry_key; by rewrite decide_False).
  rewrite Ek in *. unfold accept_message. rewrite Hs. fold id k. change (Address id) with (pbAddress sender). rewrite E.
  set (n2 := set_client p (set_ID (Some id)) n1).
  assert (clients n2 !! p = Some (set_ID (Some id) c)) as L2 by (cbn; by rewrite list_lookup_alter_eq, L).
  assert (cm_wf n2) as W2.
  { eapply owner_wf; [by eapply set_ID_wf|exact Hp|exact L2|exact Cc|]. split; [exact Ha|]. by left. }
  rewrite L2. change (PeerID (set_ID (Some id) c)) with k.
  assert (ConnectionStateExists k n2 = true) as ->.
  { unfold ConnectionStateExists. apply bool_decide_true. apply (wf_peers_conns _ _ W2). by exists p. }
  assert (match Signature msg with Some sig => negb (check_signature sender (Payload msg) sig) | None => false end = false) as ->.
  { destruct (Signature msg) as [sig|]; [|done]. by rewrite (Hsig sig eq_refl). }
  cbn [negb cID set_ID]. rewrite Equals_refl, Hid. cbn [length Nat.eqb negb]. rewrite andb_false_r.
  exists n2. split; [done|]. split.
  2:{ pose proof (getOrSet_config (pbAddress sender) k (Some h) dial n) as Cf. by rewrite E in Cf. }
  split; try done.
  - exists (set_ID (Some id) c). destruct (wf_client _ _ W2 k p Hp) as (c' & L' & O' & I' & _). rewrite L2 in L'. injection L' as <-.
    by split_and!.
  - exists u. split_and!; [done|by rewrite <- Haddr in Hself|exact Hu].
Qed.

(** From then on messages of the sender change nothing. *)
Lemma accept_settled sender msg h dial ack n p :
  settled sender p n -> unobjectionable sender msg ->
  accept_message Marshal check_signature false h dial ack msg n = (Ok (Dispatch p), n).
Proof.
  intros [W Hkey Hp (c & L & Hc & _ & O) Kn (u & U & Hself & Hu)] (Hs & Hid & Hsig).
  set (id := to_peer_id sender) in *. set (k := hex_encode (NetKey id)) in *.
  unfold accept_message. rewrite Hs. fold id k. change (Address id) with (pbAddress sender).
  assert (getOrSetPeerClient (pbAddress sender) k (Some h) dial n = (Ok p, n)) as ->.
  { unfold getOrSetPeerClient. rewrite (decide_False (P := k = [])) by (by apply hex_nonempty). rewrite U, decide_False by done.
    destruct (Kn u U) as (s & Hsc & _). unfold createPeerClient. rewrite Hsc.
    destruct (decide (u <> k)); [rewrite reset_self by auto|]; by rewrite Hp, L, O. }
  rewrite (set_ID_same p id c n L Hc), L. unfold PeerID. rewrite Hc. fold k.
  assert (ConnectionStateExists k n = true) as ->.
  { unfold ConnectionStateExists. apply bool_decide_true. apply (wf_peers_conns _ _ W). by exists p. }
  assert (match Signature msg with Some sig => negb (check_signature sender (Payload msg) sig) | None => false end = false) as ->.
  { destruct (Signature msg) as [sig|]; [|done]. by rewrite (Hsig sig eq_refl). }
  cbn [negb]. rewrite Equals_refl, Hid. cbn [length Nat.eqb negb]. by rewrite andb_false_r.
Qed.

(** ** The loops end *)

Lemma receive_consumes rd `{!Reader rd} nc c msg c' :
  receive_with Unmarshal rd nc c = (Ok msg, c') -> (length (bytes_of c') < length (bytes_of c))%nat.
Proof.
  unfold receive_with. intros H. destruct (rd 4%nat c) as [[x1|] c1] eqn:R1; [|done]. destruct (negb _); [done|].
  destruct (rd 2%nat c1) as [[x2|] c2] eqn:R2; [|done]. destruct (GetCompressInfo _) as [algo en].
  destruct (rd 4%nat c2) as [[x3|] c3] eqn:R3; [|done]. destruct (_ =? 0); [done|].
  destruct (rd _ c3) as [[x4|] c4] eqn:R4; [|done]. injection H as _ <-.
  apply rd_sound in R1 as [L1 ->], R2 as [L2 ->], R3 as [L3 ->], R4 as [L4 ->]. rewrite !length_app. lia.
Qed.

Lemma receive_end rd `{!Reader rd} nc c : bytes_of c = [] -> exists c', receive_with Unmarshal rd nc c = (Err EReadNetID, c').
Proof.
  intros E. unfold receive_with. pose proof (rd_short 4 c) as S. rewrite E in S. cbn in S. specialize (S ltac:(lia)).
  destruct (rd 4%nat c) as [r c']. cbn in S. subst r. by exists c'.
Qed.

(** Every message takes bytes from the connection: with as much fuel as it has bytes, and one, the loop ends. *)
Lemma accept_loop_ends rd `{!Reader rd} t proxy h dial ack fuel c n xs e n' xs' :
  (length (bytes_of c) < fuel)%nat ->
  accept_loop Marshal Unmarshal pbUnmarshal rd t proxy h dial ack fuel c n xs = (e, n', xs') -> e <> StillRunning.
Proof.
  revert c n xs. induction fuel as [|fuel IH]; intros c n xs Hf; [lia|]. cbn [accept_loop].
  destruct (receive_with Unmarshal rd (nConfig n) c) as [[msg|e1|] c1] eqn:R; [|by intros [= <- _ _]..].
  apply (receive_consumes rd) in R.
  destruct (accept_message _ _ _ _ _ _ _ _) as [[[p|]|e1|] n1]; [|by intros [= <- _ _]..].
  destruct (dispatch_to _ _ _ _ _ _) as [xs1|]; [|by intros [= <- _ _]]. apply IH. lia.
Qed.

(** ** Delivery *)

(** A message of [sender] that is dispatched as [m]. *)
Definition carries_proto (t : tables) (sender : PbID) (msg : Message) (m : proto) : Prop :=
  unobjectionable sender msg /\ decode_payload pbUnmarshal t msg = Some m /\ RequestNonce msg = 0.

Definition deliver_all (ps : list proto) (x : Exch) : Exch := foldl (fun x m => deliver m 0 x) x ps.

Lemma dispatch_carried t sender msg m p n xs c :
  carries_proto t sender msg m -> clients n !! p = Some c -> incomingReady c = true ->
  dispatch_to pbUnmarshal t p msg n xs = Some (<[p := deliver m 0 (default new_Exch (xs !! p))]> xs).
Proof.
  intros (_ & D & R) L I. unfold dispatch_to. rewrite L. cbn [mbind option_bind]. rewrite I. unfold dispatchMessage. rewrite D, R.
  reflexivity.
Qed.

(** The messages of a settled sender are dispatched one by one. *)
Lemma accept_loop_settled rd `{!Reader rd} `{!CodecLaws C} t h dial ack fuel nA sender p n ms ps c xs :
  settled sender p n -> Forall2 (carries_proto t sender) ms ps ->
  netID (nConfig n) = netID nA -> 0 <= netID nA < 2 ^ 32 -> 0 <= compressAlgo nA ->
  Forall (sendable Marshal Unmarshal nA) ms -> Forall (fun m => exists f, build_frame Marshal Panic nA m = Ok f) ms ->
  clean c -> bytes_of c = frames_of Marshal nA ms ->
  exists xs', accept_loop Marshal Unmarshal pbUnmarshal rd t false h dial ack (length ms + S fuel) c n xs
              = (EndRead EReadNetID, n, xs') /\
    default new_Exch (xs' !! p) = deliver_all ps (default new_Exch (xs !! p)) /\ (forall q, q <> p -> xs' !! q = xs !! q).
Proof.
  intros St H2 En Hid Ha HS HF. revert c xs. induction H2 as [|msg m ms ps Hm H2 IH]; intros c xs Hc E.
  { exists xs. cbn [length Nat.add accept_loop]. destruct (receive_end rd (nConfig n) c E) as [c' ->]. done. }
  apply Forall_cons in HS as [Hs HS], HF as [[f F] HF]. unfold frames_of in E. cbn [mbind list_bind] in E. rewrite F in E.
  apply (receive_sent Marshal Unmarshal rd nA (nConfig n) msg) in E as (c1 & R & Hc1 & E1); [|done..].
  cbn [length Nat.add accept_loop]. rewrite R. rewrite (accept_settled sender msg h (dial msg) (ack msg) n p St (proj1 Hm)).
  destruct (st_client _ _ _ St) as (cl & L & _ & I & _). rewrite (dispatch_carried t sender msg m p n xs cl Hm L I).
  destruct (IH HS HF c1 (<[p := deliver m 0 (default new_Exch (xs !! p))]> xs) Hc1 E1) as (xs' & -> & Hx & Ho).
  exists xs'. split_and!; [done| |].
  - rewrite Hx, lookup_insert_eq. done.
  - intros q Hq. by rewrite Ho, lookup_insert_ne.
Qed.

(** The whole connection, from a sender that may be unknown. *)
Lemma accept_loop_delivers rd `{!Reader rd} `{!CodecLaws C} t h dial ack nA sender n u ms ps c xs :
  cm_wf n -> known_address (pbAddress sender) -> ToUnified (pbAddress sender) = Some u -> u <> nAddress n ->
  NetKey (to_peer_id sender) <> [] -> h_udp h = false ->
  Forall2 (carries_proto t sender) ms ps -> ms <> [] ->
  netID (nConfig n) = netID nA -> 0 <= netID nA < 2 ^ 32 -> 0 <= compressAlgo nA ->
  Forall (sendable Marshal Unmarshal nA) ms -> Forall (fun m => exists f, build_frame Marshal Panic nA m = Ok f) ms ->
  clean c -> bytes_of c = frames_of Marshal nA ms ->
  exists p n' xs', accept_loop Marshal Unmarshal pbUnmarshal rd t false h dial ack (S (length ms)) c n xs
                   = (EndRead EReadNetID, n', xs') /\ settled sender p n' /\
    default new_Exch (xs' !! p) = deliver_all ps (default new_Exch (xs !! p)) /\ (forall q, q <> p -> xs' !! q = xs !! q).
Proof.
  intros W Kn U Hself Hkey Hudp H2 Hne En Hid Ha HS HF Hc E.
  destruct H2 as [|msg m ms ps Hm H2]; [done|].
  apply Forall_cons in HS as [Hs HS], HF as [[f F] HF]. unfold frames_of in E. cbn [mbind list_bind] in E. rewrite F in E.
  apply (receive_sent Marshal Unmarshal rd nA (nConfig n) msg) in E as (c1 & R & Hc1 & E1); [|done..].
  destruct (getOrSet_conn (pbAddress sender) (hex_encode (NetKey (to_peer_id sender))) h (dial msg) u n W Kn U Hself Hudp)
    as (p & n1 & G).
  destruct (accept_settles sender msg h (dial msg) (ack msg) n p n1 W Kn Hkey (proj1 Hm) G) as (n2 & Ac & St & Cf).
  destruct (st_client _ _ _ St) as (cl & L & _ & I & _).
  destruct (accept_loop_settled rd t h dial ack 0 nA sender p n2 ms ps c1 (<[p := deliver m 0 (default new_Exch (xs !! p))]> xs))
    as (xs' & El & Hx & Ho); try done; [by rewrite Cf|].
  exists p, n2, xs'. split_and!; [|done|by rewrite Hx, lookup_insert_eq|intros q Hq; by rewrite Ho, lookup_insert_ne].
  cbn [accept_loop length]. rewrite R, Ac, (dispatch_carried t sender msg m p n2 xs cl Hm L I).
  by rewrite <- El, Nat.add_1_r.
Qed.

(** What a list of messages does to a client: those that are not Bytes are handed to the components in order, and the
    bytes of the others go to the byte stream in order. *)
Lemma deliver_all_spec ps x :
  received (deliver_all ps x) = received x ++ ((fun m => (m, 0)) <$> filter (fun m => ptype m <> "Bytes"%string) ps) /\
  sbuffer (deliver_all ps x) = sbuffer x ++ concat (pfields <$> filter (fun m => ptype m = "Bytes"%string) ps).
Proof.
  unfold deliver_all. revert x. induction ps as [|m ps IH]; intros x; cbn [foldl]; [by cbn; rewrite !app_nil_r|].
  destruct (IH (deliver m 0 x)) as [-> ->]. unfold deliver. rewrite !filter_cons. destruct (decide (ptype m = "Bytes"%string)).
  - rewrite decide_False by tauto. cbn. split; [done|]. by rewrite app_assoc.
  - rewrite decide_True by done. cbn. split; [|done]. by rewrite <- app_assoc.
Qed.
End delivery.

(** ** From one node to the other *)

Section end_to_end.
Context `{A : AddressOps} `{!AddressLaws A} `{C : Codec} `{!CodecLaws C} `{sp : SignaturePolicy} `{hp : HashPolicy}.
Context `{!SignatureLaws sp}.
Variables (Marshal : Message -> option (list Z)) (Unmarshal : list Z -> option Message).
Variables (pbMarshal : proto -> option (list Z)) (pbUnmarshal : msg_type -> list Z -> option proto).
Context `{!ProtoLaws pbMarshal pbUnmarshal}.

Lemma prepared_carries nd t ctx m msg k :
  registered pbMarshal t -> node_wf nd -> PrepareMessage pbMarshal nd t ctx (Some m) = Ok msg ->
  carries_proto pbUnmarshal t (nID nd) (with_nonce k msg) m.
Proof.
  intros R W (code & raw & sig & G & E & -> & S)%prepare_Ok. split_and!; [split_and!; [done..|]| |done].
  - intros s [= ->]. destruct (GetSignMessage ctx); [|done]. destruct S as (s' & [= <-] & S). by apply sign_payload_checked.
  - by eapply decode_prepared.
Qed.

Lemma numbered_carries nd t ctx ps msgs nn :
  registered pbMarshal t -> node_wf nd -> Forall2 (fun m msg => PrepareMessage pbMarshal nd t ctx (Some m) = Ok msg) ps msgs ->
  Forall2 (carries_proto pbUnmarshal t (nID nd)) (numbered nn msgs) ps.
Proof.
  intros R W H. revert nn. induction H as [|m msg ps msgs Hm _ IH]; intros nn; cbn [numbered]; constructor; [|apply IH].
  by eapply prepared_carries.
Qed.

End end_to_end.

(** ** UDP: one datagram that cannot be decoded ends the service *)

Lemma accept_udp_config `{A : AddressOps} `{sp : SignaturePolicy} `{hp : HashPolicy} proxy h dial msg client n :
  nConfig (accept_udp_message proxy h dial msg client n).2 = nConfig n.
Proof.
  unfold accept_udp_message. destruct (Sender msg) as [sender|]; [|done].
  destruct (match Signature msg with Some _ => _ | None => _ end); [done|].
  pose proof (getOrSet_config (Address (to_peer_id sender)) (hex_encode (NetKey (to_peer_id sender)))
    (if proxy then None else Some h) dial n) as Cf.
  destruct (getOrSetPeerClient _ _ _ _ _) as [[p|e|] n1]; cbn in Cf; [|done..].
  cbn [clients set_client set_clients]. destruct (alter _ p (clients n1) !! p) as [c|]; [|done].
  destruct (negb _); [done|]. by destruct (negb _).
Qed.

Lemma udp_loop_stops `{A : AddressOps} `{sp : SignaturePolicy} `{hp : HashPolicy} Unmarshal proxy h dial good d e rest client n :
  receiveUDPMessage Unmarshal (nConfig n) (Some d) = Err e ->
  udp_loop Unmarshal proxy h dial (good ++ Some d :: rest) client n = udp_loop Unmarshal proxy h dial (good ++ [Some d]) client n /\
  (udp_loop Unmarshal proxy h dial (good ++ [Some d]) client n).1.1.1 <> StillRunning.
Proof.
  revert client n. induction good as [|g good IH]; intros client n E; cbn [app udp_loop]; [by rewrite E|].
  destruct (receiveUDPMessage Unmarshal (nConfig n) g) as [[msg|]|e1|]; [|done..].
  pose proof (accept_udp_config proxy h (dial msg) msg client n) as Cf.
  destruct (accept_udp_message proxy h (dial msg) msg client n) as [[[cl sub]|e1|] n1]; [|done..]. cbn [snd] in Cf.
  destruct (IH cl n1) as [-> R]; [by rewrite Cf|]. split; [done|].
  by destruct (udp_loop Unmarshal proxy h dial (good ++ [Some d]) cl n1) as [[[e2 jobs] last] n2].
Qed.

(** ** Witness: a signed Ping and a Bytes message from the node of Exchange.v to a node that does not know it *)

#[local] Existing Instance toy_addresses.
#[local] Existing Instance toy_address_laws.
#[local] Existing Instance toy_pb_laws.
#[local] Existing Instance marker_codec.
#[local] Existing Instance marker_codec_laws.
#[local] Existing Instance toy_policy.
#[local] Existing Instance toy_laws.
#[local] Existing Instance toy_hash.

Definition sender_net : Network := (Client [1] [] (Some toy_handle) (NewNetwork [9] (mkNetConfig 7 false 0 0) 64 [])).2.
Definition receiver_net : Network := NewNetwork [8] (mkNetConfig 7 false 0 0) 64 [].

Definition toy_protos : list proto := [mkProto "Ping" []; mkProto "Bytes" [4; 5]].
Definition toy_frame (k : Z) : list Z := [0; 0; 0; 7; 0; 0; 0; 0; 0; 2; 8; k].

(** A wire format that carries the nonce, and a decoder for the two messages. *)
Definition nonce_marshal (m : Message) : option (list Z) := Some [8; MessageNonce m].
Definition nonce_unmarshal (l : list Z) : option Message :=
  match l with
  | [_; 1] => Some (with_nonce 1 (prepared (mkProto "Ping" [])))
  | [_; 2] => Some (with_nonce 2 (prepared (mkProto "Bytes" [4; 5])))
  | _ => None
  end.

