(* ===== verification/Streams.v ===== *)
(** * network/network.go, client.go: messages over the streams of a client

    StreamWrite numbers a message and puts it into the send queue of the peer's client;
    loopStreamSend takes messages from the queue, drops those whose stream is closed and starts a
    goroutine for each of the others, which locks the connection and the stream and sends.  The
    goroutines run in an order that is not specified: [flight] holds the ones that have not
    run yet, and any of them may be next.

    The queue is per client; its capacity is Network.streamQueueLen when the client is created. *)
From S2P Require Import Prelude Peer Wire Opcode KeyPair Address ConnMgr Exchange.
Local Open Scope Z_scope.
Local Open Scope go_scope.

(** StreamSendItem: the connection's writer and mutex are those of the connection state [siConn]. *)
Record StreamSendItem := mkItem { siConn : nat; siMessage : Message; siPeerID : key; siStreamID : key }.

Record sstate := mkS {
  s_net : Network;
  StreamSendQueue : gmap nat (list StreamSendItem);
  flight : list (nat * StreamSendItem);
  streamQueueLen : nat
}.

Definition set_net (n : Network) (s : sstate) : sstate := mkS n (StreamSendQueue s) (flight s) (streamQueueLen s).

Definition queue (p : nat) (s : sstate) : list StreamSendItem := default [] (StreamSendQueue s !! p).

Definition StreamQueueCap (s : sstate) : nat := streamQueueLen s.
Definition StreamQueueLen (p : nat) (s : sstate) : nat := length (queue p s).
Definition StreamCanWrite (p : nat) (s : sstate) : bool := (0 <? StreamQueueCap s - StreamQueueLen p s)%nat.

(** PeerClient.Stream *)
Definition client_Stream (p : nat) (streamID : key) (n : Network) : option Z :=
  c ← clients n !! p; ms ← mstreams (mgr n) !! PeerID c; ms_stream ms !! streamID.

Section streams.
Context `{A : AddressOps} `{C : Codec} `{sp : SignaturePolicy} `{hp : HashPolicy}.
Variable Marshal : Message -> option (list Z).
Variable pbMarshal : proto -> option (list Z).

(** Network.StreamWrite: only TCP and KCP have streams; over other protocols, and when the peer has no client, nothing
    is sent and nothing is reported.  A full queue blocks the sender. *)
Definition StreamWrite (streamID peerID : key) (message : Message) (s : sstate) : res conn_err unit * sstate :=
  let n := s_net s in
  match ConnectionState peerID n with
  | None => (Err ENoConnection, s)
  | Some cs =>
    match conns n !! cs with
    | None => (Panic, s)
    | Some st =>
      let st := mkConnState (cs_sock st) (cs_writer st) (u64 (messageNonce st + 1)) in
      let n := set_conns (<[cs := st]> (conns n)) n in
      let s := set_net n s in
      let message := with_nonce (messageNonce st) message in
      match Scheme (nAddress n) with
      | None => (Err EAddress, s)
      | Some proto =>
        if decide (proto = TCP \/ proto = KCP) then
          match cs_sock st with
          | None => (Err ENilConn, s)
          | Some _ =>
            match GetPeerClient peerID n with
            | Some p =>
              if StreamCanWrite p s then
                (Ok tt, mkS n (<[p := queue p s ++ [mkItem cs message peerID streamID]]> (StreamSendQueue s)) (flight s) (streamQueueLen s))
              else (Err EBlocked, s)
            | None => (Ok tt, s)
            end
          end
        else (Ok tt, s)
      end
    end
  end.

(** One turn of loopStreamSend for the client [p]; None: the queue is empty. *)
Definition loop_take (p : nat) (s : sstate) : option sstate :=
  match queue p s with
  | [] => None
  | item :: q =>
    let s := mkS (s_net s) (<[p := q]> (StreamSendQueue s)) (flight s) (streamQueueLen s) in
    Some (if StreamExist p (siStreamID item) (s_net s)
          then mkS (s_net s) (StreamSendQueue s) (flight s ++ [(p, item)]) (streamQueueLen s)
          else s)
  end.

(** The goroutine of one message, under the locks of its connection and stream.  An error of streamSendMessage is
    logged; the client is not closed.  The stream exists and cannot be closed while its lock is held, so that the
    messages waiting for an acknowledgement, which streamSendMessage takes out for a closed stream, are not touched. *)
Definition send_item (p : nat) (item : StreamSendItem) (n : Network) : res conn_err unit * Network :=
  match client_Stream p (siStreamID item) n with
  | None => (Ok tt, n)
  | Some _ =>
    match conns n !! siConn item with
    | None => (Panic, n)
    | Some st =>
      let env := mkStreamEnv (ms_stream <$> mstreams (mgr n)) None in
      match streamSendMessage Marshal (nConfig n) env (cs_writer st) (siMessage item) (siPeerID item) (siStreamID item) with
      | (Panic, _, _, _) => (Panic, n)
      | (_, _, bw, env) =>
        let n := set_conns (<[siConn item := mkConnState (cs_sock st) bw (messageNonce st)]> (conns n)) n in
        let m := mgr n in
        let ms := match mstreams m !! siPeerID item, streams env !! siPeerID item with
                  | Some t, Some ss => <[siPeerID item := mkMulti (idIncCounter t) ss]> (mstreams m)
                  | _, _ => mstreams m
                  end in
        (Ok tt, set_mgr (mkConnMgr (peers m) (connections m) (connStates m) ms (nodeQuit m)) n)
      end
    end
  end.

(** The [i]-th waiting goroutine runs. *)
Definition run_flight (i : nat) (s : sstate) : option (res conn_err unit * sstate) :=
  match flight s !! i with
  | None => None
  | Some (p, item) =>
    let '(r, n) := send_item p item (s_net s) in
    Some (r, mkS n (StreamSendQueue s) (delete i (flight s)) (streamQueueLen s))
  end.

(** ** The methods of PeerClient *)

Definition StreamSend (nd : node) (t : tables) (streamID : key) (ctx : context) (message : option proto) (c : PeerClient)
    (s : sstate) : res ex_err unit * sstate :=
  match PrepareMessage pbMarshal nd t ctx message with
  | Err e => (Err e, s)
  | Panic => (Panic, s)
  | Ok signed => let '(r, s) := StreamWrite streamID (PeerID c) signed s in (conn_result r, s)
  end.

Definition StreamReply (nd : node) (t : tables) (streamID : key) (ctx : context) (nonce : Z) (message : option proto)
    (c : PeerClient) (s : sstate) : res ex_err unit * sstate :=
  match PrepareMessage pbMarshal nd t ctx message with
  | Err e => (Err e, s)
  | Panic => (Panic, s)
  | Ok msg => let '(r, s) := StreamWrite streamID (PeerID c) (with_request nonce true msg) s in (conn_result r, s)
  end.

(** StreamRequest up to its select, as Request. *)
Definition StreamRequest_begin (nd : node) (t : tables) (streamID : key) (ctx : option context) (req : option proto)
    (c : PeerClient) (s : sstate) (x : Exch) : res ex_err Z * sstate * Exch :=
  match ctx with
  | None => (Err ENilContext, s, x)
  | Some ctx =>
    if ctx_done ctx then (Err EContextDone, s, x)
    else match PrepareMessage pbMarshal nd t ctx req with
    | Err e => (Err e, s, x)
    | Panic => (Panic, s, x)
    | Ok signed =>
      let nonce := u64 (xRequestNonce x + 1) in
      let x := set_nonce nonce x in
      let x := set_requests (<[nonce := []]> (Requests x)) x in
      match StreamWrite streamID (PeerID c) (with_request nonce (ReplyFlag signed) signed) s with
      | (Ok _, s) => (Ok nonce, s, x)
      | (Err e, s) => (Err (EConn e), s, set_requests (delete nonce (Requests x)) x)
      | (Panic, s) => (Panic, s, x)
      end
    end
  end.

(** The select of StreamRequest has a default case: when no case is ready ([None]) it returns a nil message and a nil
    error.  The deferred Delete stops tracking the request in any case. *)
Definition StreamRequest_select (nonce : Z) (ready : option select_case) (x : Exch) : option (res ex_err (option proto)) * Exch :=
  match ready with
  | None => (Some (Ok None), set_requests (delete nonce (Requests x)) x)
  | Some s =>
    let '(r, x) := Request_select nonce s x in
    (match r with
     | Some (Ok m) => Some (Ok (Some m))
     | Some (Err e) => Some (Err e)
     | Some Panic => Some Panic
     | None => None
     end, x)
  end.

(** [second] is time.Now().Second(). *)
Definition StreamAsyncSendAndWaitAck (nd : node) (t : tables) (streamID : key) (ctx : option context) (req : proto) (msgID : key)
    (second : Z) (c : PeerClient) (s : sstate) (x : Exch) : res ex_err unit * sstate * Exch :=
  match ctx with
  | None => (Err ENilContext, s, x)
  | Some ctx =>
    if ctx_done ctx then (Err EContextDone, s, x)
    else if (DEFAULT_ACK_REPLY_CAPACITY <=? waitAckLen x)%nat then (Err EAckFull, s, x)
    else match Exchange.SyncWaitAck x !! msgID with
    | Some _ => (Err EAckDuplicate, s, x)
    | None =>
      match PrepareMessageWithMsgID pbMarshal nd t ctx (Some req) msgID with
      | Err e => (Err e, s, x)
      | Panic => (Panic, s, x)
      | Ok signed =>
        match StreamWrite streamID (PeerID c) signed s with
        | (Err e, s) => (Err (EConn e), s, x)
        | (Panic, s) => (Panic, s, x)
        | (Ok _, s) => (Ok tt, s, set_acks (<[msgID := mkAck req second 1 second]> (Exchange.SyncWaitAck x)) x)
        end
      end
    end
  end.
End streams.

(** ** Delivery over a stream *)

Section delivery.
Context `{A : AddressOps} `{C : Codec}.
Variable Marshal : Message -> option (list Z).

(** The client [p] of the peer [k] has an open stream [sid] over a working connection. *)
Record open_stream (p : nat) (k sid : key) (cs : nat) (nc : net_config) (n : Network) (w : writer) (nn cnt : Z) : Prop := {
  os_client : exists c, clients n !! p = Some c /\ PeerID c = k;
  os_peer : GetPeerClient k n = Some p;
  os_live : live n k cs w nn;
  os_healthy : faults (wr w) = [];
  os_config : nConfig n = nc;
  os_stream : exists ms, mstreams (mgr n) !! k = Some ms /\ ms_stream ms !! sid = Some cnt
}.

Lemma live_sock n k cs w nn : live n k cs w nn -> exists s, conns n !! cs = Some (mkConnState (Some s) w nn).
Proof. by intros (_ & _ & _ & H & _). Qed.

Lemma live_proto n k cs w nn : live n k cs w nn -> exists proto, Scheme (nAddress n) = Some proto /\ (proto = TCP \/ proto = KCP).
Proof. intros (_ & _ & _ & _ & [H|H]); eauto. Qed.

(** Numbering and queueing. *)
Lemma StreamWrite_open p k sid cs nc w nn cnt m s :
  open_stream p k sid cs nc (s_net s) w nn cnt -> (length (queue p s) < streamQueueLen s)%nat ->
  exists s', StreamWrite sid k m s = (Ok tt, s') /\ open_stream p k sid cs nc (s_net s') w (u64 (nn + 1)) cnt /\
    queue p s' = queue p s ++ [mkItem cs (with_nonce (u64 (nn + 1)) m) k sid] /\
    flight s' = flight s /\ streamQueueLen s' = streamQueueLen s.
Proof.
  intros [Hc Hp Hl Hf Hn Hs] Hroom. pose proof Hl as (Hcs & Hw & We & (so & L) & Hsch). destruct (live_proto _ _ _ _ _ Hl) as (proto & Hpr & Htk).
  unfold StreamWrite, ConnectionState. rewrite Hcs, L. cbn [cs_sock cs_writer messageNonce nAddress set_conns].
  rewrite Hpr, decide_True by done. change (GetPeerClient k (set_conns _ (s_net s))) with (GetPeerClient k (s_net s)). rewrite Hp.
  unfold StreamCanWrite, StreamQueueCap, StreamQueueLen. cbn [set_net queue StreamSendQueue streamQueueLen].
  change (queue p (set_net _ s)) with (queue p s).
  destruct (Nat.ltb_spec 0 (streamQueueLen s - length (queue p s))); [|lia].
  eexists. split; [reflexivity|]. cbn [s_net flight streamQueueLen set_net]. split_and!; try done.
  - split; try done. unfold live. cbn [mgr set_conns conns nAddress]. split_and!; try done.
    exists so. rewrite list_lookup_insert_eq; [done|]. by eapply lookup_lt_Some.
  - unfold queue at 1. cbn [StreamSendQueue]. by rewrite lookup_insert_eq.
Qed.

Fixpoint stream_writes (sid k : key) (ms : list Message) (s : sstate) : res conn_err unit * sstate :=
  match ms with
  | [] => (Ok tt, s)
  | m :: ms => match StreamWrite sid k m s with
               | (Ok _, s) => stream_writes sid k ms s
               | r => r
               end
  end.

Lemma stream_writes_open p k sid cs nc w cnt ms nn s :
  open_stream p k sid cs nc (s_net s) w nn cnt -> (length (queue p s) + length ms <= streamQueueLen s)%nat ->
  exists s' nn', stream_writes sid k ms s = (Ok tt, s') /\ open_stream p k sid cs nc (s_net s') w nn' cnt /\
    queue p s' = queue p s ++ ((fun m => mkItem cs m k sid) <$> numbered nn ms) /\ flight s' = flight s.
Proof.
  revert nn s. induction ms as [|m ms IH]; intros nn s O Hroom; cbn [stream_writes numbered length] in *.
  { exists s, nn. cbn. by rewrite app_nil_r. }
  destruct (StreamWrite_open p k sid cs nc w nn cnt m s O) as (s1 & -> & O1 & Q1 & F1 & C1); [lia|].
  destruct (IH (u64 (nn + 1)) s1 O1) as (s2 & nn2 & E2 & O2 & Q2 & F2); [rewrite Q1, length_app, C1; cbn; lia|].
  exists s2, nn2. split_and!; [done..| |congruence]. rewrite Q2, Q1. cbn [fmap list_fmap]. by rewrite <- app_assoc.
Qed.

(** The loop takes the whole queue. *)
Fixpoint take_all (p : nat) (k : nat) (s : sstate) : option sstate :=
  match k with
  | O => Some s
  | S k => s ← loop_take p s; take_all p k s
  end.

Lemma take_all_open p k sid cs nc w nn cnt items s :
  open_stream p k sid cs nc (s_net s) w nn cnt -> queue p s = items -> Forall (fun i => siStreamID i = sid) items ->
  exists s', take_all p (length items) s = Some s' /\ s_net s' = s_net s /\ queue p s' = [] /\
    flight s' = flight s ++ ((fun i => (p, i)) <$> items).
Proof.
  revert s. induction items as [|i items IH]; intros s O Q Hi; cbn [length take_all].
  { exists s. cbn. by rewrite app_nil_r. }
  apply Forall_cons in Hi as [Hi His]. unfold loop_take. rewrite Q.
  assert (StreamExist p (siStreamID i) (s_net s) = true) as Ex.
  { destruct O as [(c & L & Hk) _ _ _ _ (ms & Hm & Hs)]. unfold StreamExist. rewrite L, Hk, Hm, Hi, Hs. by apply bool_decide_true. }
  cbn [s_net]. rewrite Ex. cbn [mbind option_bind].
  edestruct (IH (mkS (s_net s) (<[p := items]> (StreamSendQueue s)) (flight s ++ [(p, i)]) (streamQueueLen s)))
    as (s' & E & N & Q' & F); [exact O| |exact His|].
  { unfold queue. cbn. by rewrite lookup_insert_eq. }
  exists s'. split_and!; [exact E|done..|]. rewrite F. cbn [flight fmap list_fmap]. by rewrite <- app_assoc.
Qed.

(** One goroutine. *)
Lemma send_item_open p k sid cs nc n w nn cnt m f :
  open_stream p k sid cs nc n w nn cnt -> build_frame Marshal Panic nc m = Ok f ->
  exists n' w', send_item Marshal p (mkItem cs m k sid) n = (Ok tt, n') /\
    open_stream p k sid cs nc n' w' nn (u64 (cnt + Z.of_nat (length f))) /\ stream_of w' = stream_of w ++ f.
Proof.
  intros [(c & Lc & Hk) Hp Hl Hf Hn (ms & Hm & Hs)] F. pose proof Hl as (Hcs & Hw & We & (so & L) & Hsch).
  unfold send_item, client_Stream. cbn [siStreamID siConn siPeerID siMessage]. rewrite Lc. cbn [mbind option_bind]. rewrite Hk, Hm.
  cbn [mbind option_bind]. rewrite Hs, L. cbn [cs_writer cs_sock messageNonce].
  destruct (streamSendMessage_healthy Marshal (nConfig n) (mkStreamEnv (ms_stream <$> mstreams (mgr n)) None) w m k sid (ms_stream ms) cnt f)
    as (w' & env' & -> & W' & H' & St' & _ & Es); try done; [by rewrite Hn|cbn; by rewrite lookup_fmap, Hm|].
  eexists _, w'. split; [reflexivity|]. split; [|done]. cbn [mgr set_conns]. rewrite Hm, Es, lookup_insert_eq.
  split; cbn [mgr set_mgr clients set_conns nConfig]; try done.
  - exists c. done.
  - unfold live. cbn. split_and!; try done; [by destruct H'|]. exists so. rewrite list_lookup_insert_eq; [done|]. by eapply lookup_lt_Some.
  - by destruct H'.
  - eexists. cbn [mstreams]. rewrite lookup_insert_eq. split; [done|]. cbn [ms_stream]. apply lookup_insert_eq.
Qed.

(** The goroutines run in the order of [choices]. *)
Fixpoint run_flights (choices : list nat) (s : sstate) : option sstate :=
  match choices with
  | [] => Some s
  | i :: choices =>
    match run_flight Marshal i s with
    | Some (Ok _, s) => run_flights choices s
    | _ => None
    end
  end.

Definition frame_lengths (nc : net_config) (ms : list Message) : Z := Z.of_nat (length (frames_of Marshal nc ms)).

Lemma frames_of_cons nc m ms f : build_frame Marshal Panic nc m = Ok f -> frames_of Marshal nc (m :: ms) = f ++ frames_of Marshal nc ms.
Proof. intros F. unfold frames_of. cbn [mbind list_bind]. by rewrite F. Qed.

Lemma frame_lengths_perm nc ms order : order ≡ₚ ms -> frame_lengths nc order = frame_lengths nc ms.
Proof. intros P. unfold frame_lengths, frames_of. f_equal. apply Permutation_length. by rewrite P. Qed.

Lemma run_flights_open p k sid cs nc choices : forall ms s s' w nn cnt,
  open_stream p k sid cs nc (s_net s) w nn cnt -> 0 <= cnt ->
  flight s = (fun m => (p, mkItem cs m k sid)) <$> ms ->
  Forall (fun m => exists f, build_frame Marshal Panic nc m = Ok f) ms -> cnt + frame_lengths nc ms < 2 ^ 64 ->
  run_flights choices s = Some s' -> flight s' = [] ->
  exists order w', order ≡ₚ ms /\ open_stream p k sid cs nc (s_net s') w' nn (cnt + frame_lengths nc ms) /\
    stream_of w' = stream_of w ++ frames_of Marshal nc order.
Proof.
  induction choices as [|i choices IH]; intros ms s s' w nn cnt O H0 Fl HF Hmax; cbn [run_flights].
  { intros [= ->] E. rewrite Fl in E. apply fmap_nil_inv in E as ->. exists [], w. unfold frame_lengths. cbn.
    rewrite app_nil_r, Z.add_0_r. done. }
  unfold run_flight. rewrite Fl, list_lookup_fmap. destruct (ms !! i) as [m|] eqn:Hi; cbn [fmap option_fmap option_map]; [|done].
  pose proof (delete_Permutation ms i m Hi) as P.
  rewrite Forall_forall in HF. destruct (HF m) as [f F]; [by eapply list_elem_of_lookup_2|].
  destruct (send_item_open p k sid cs nc (s_net s) w nn cnt m f O F) as (n1 & w1 & -> & O1 & S1). intros E Ef.
  assert (frame_lengths nc ms = Z.of_nat (length f) + frame_lengths nc (delete i ms)) as Hl.
  { rewrite (frame_lengths_perm nc _ _ P). unfold frame_lengths. rewrite (frames_of_cons nc m _ f F), length_app. lia. }
  assert (0 <= frame_lengths nc (delete i ms)) by (unfold frame_lengths; lia).
  rewrite u64_small in O1 by lia.
  destruct (IH (delete i ms) (mkS n1 (StreamSendQueue s) (delete i ((fun m => (p, mkItem cs m k sid)) <$> ms)) (streamQueueLen s))
    s' w1 nn (cnt + Z.of_nat (length f))) as (order & w' & Po & O' & S'); try done; [lia|..].
  - cbn [flight]. by rewrite list_fmap_delete.
  - apply Forall_forall. intros y Hy. apply HF. rewrite P. by right.
  - lia.
  - exists (m :: order), w'. split_and!.
    + by rewrite Po, <- P.
    + rewrite Hl. by rewrite Z.add_assoc.
    + rewrite S', S1, (frames_of_cons nc m _ f F). by rewrite app_assoc.
Qed.

(** The goroutines can be run one after the other in the order of the queue. *)
Lemma run_flights_in_order p k sid cs nc : forall ms s w nn cnt,
  open_stream p k sid cs nc (s_net s) w nn cnt -> 0 <= cnt ->
  flight s = (fun m => (p, mkItem cs m k sid)) <$> ms ->
  Forall (fun m => exists f, build_frame Marshal Panic nc m = Ok f) ms ->
  exists s', run_flights (replicate (length ms) 0%nat) s = Some s' /\ flight s' = [].
Proof.
  induction ms as [|m ms IH]; intros s w nn cnt O H0 Fl HF; cbn [length replicate run_flights]; [by exists s|].
  apply Forall_cons in HF as [[f F] HF]. unfold run_flight. rewrite Fl. cbn [fmap list_fmap lookup list_lookup].
  destruct (send_item_open p k sid cs nc (s_net s) w nn cnt m f O F) as (n1 & w1 & -> & O1 & S1).
  apply (IH (mkS n1 (StreamSendQueue s) ((fun m => (p, mkItem cs m k sid)) <$> ms) (streamQueueLen s)) w1 nn
    (u64 (cnt + Z.of_nat (length f)))); try done. unfold u64. apply Z.mod_pos_bound. lia.
Qed.
End delivery.

(** ** Correctness *)

Section claims.
Context `{A : AddressOps} `{C : Codec} `{sp : SignaturePolicy} `{hp : HashPolicy}.
Variable Marshal : Message -> option (list Z).

(** C21. Messages sent over an open stream of a peer, over a working TCP or KCP connection and within the capacity of the
    queue: all are accepted and numbered in order; the loop starts one goroutine for each; in whatever order
    these run, every message is on the connection exactly once, its frame intact, and the stream has
    counted all bytes; they can all run.  The frames may be in another order than their numbers. *)
Theorem stream_messages_sent p k sid cs nc w nn cnt ms s :
  open_stream p k sid cs nc (s_net s) w nn cnt -> queue p s = [] -> flight s = [] -> (length ms <= streamQueueLen s)%nat ->
  Forall (fun m => exists f, build_frame Marshal Panic nc m = Ok f) (numbered nn ms) ->
  0 <= cnt -> cnt + frame_lengths Marshal nc (numbered nn ms) < 2 ^ 64 ->
  exists s1 s2 nn', stream_writes sid k ms s = (Ok tt, s1) /\ take_all p (length ms) s1 = Some s2 /\ queue p s2 = [] /\
    (exists choices s3, run_flights Marshal choices s2 = Some s3 /\ flight s3 = []) /\
    forall choices s3, run_flights Marshal choices s2 = Some s3 -> flight s3 = [] ->
      exists order w', order ≡ₚ numbered nn ms /\
        open_stream p k sid cs nc (s_net s3) w' nn' (cnt + frame_lengths Marshal nc (numbered nn ms)) /\
        stream_of w' = stream_of w ++ frames_of Marshal nc order.
Proof.
  intros O Q F Hroom HF H0 Hmax.
  destruct (stream_writes_open p k sid cs nc w cnt ms nn s O) as (s1 & nn' & E1 & O1 & Q1 & F1); [rewrite Q; cbn; lia|].
  rewrite Q in Q1. cbn [app] in Q1.
  assert (length (numbered nn ms) = length ms) as Len.
  { clear. revert nn. induction ms as [|m ms IH]; intros nn; cbn; [done|]. by rewrite IH. }
  destruct (take_all_open p k sid cs nc w nn' cnt _ s1 O1 Q1) as (s2 & E2 & N2 & Q2 & F2).
  { apply Forall_fmap. apply Forall_forall. done. }
  rewrite length_fmap, Len in E2. rewrite <- N2 in O1. rewrite F1, F in F2. cbn [app] in F2. rewrite <- list_fmap_compose in F2.
  exists s1, s2, nn'. split_and!; try done.
  - destruct (run_flights_in_order Marshal p k sid cs nc (numbered nn ms) s2 w nn' cnt O1 H0 F2 HF) as (s3 & E3 & F3). eauto.
  - intros choices s3 E3 F3. by eapply run_flights_open.
Qed.

(** StreamRequest does not wait: unless the reply, the time out or the end of the context is there at once, it returns
    neither a message nor an error, and a reply that comes later is not matched to a request but given to the
    components. *)
Lemma StreamRequest_does_not_wait (pbUnmarshal : msg_type -> list Z -> option proto) nonce ready x r x' t msg m :
  StreamRequest_select nonce ready x = (Some r, x') ->
  (ready = None -> r = Ok None) /\ Requests x' !! nonce = None /\
  (RequestNonce msg = nonce -> decode_payload pbUnmarshal t msg = Some m ->
   dispatchMessage pbUnmarshal true t msg x' = Some (deliver m nonce x')).
Proof.
  intros E. assert (x' = set_requests (delete nonce (Requests x)) x) as ->.
  { unfold StreamRequest_select, Request_select in E. destruct ready as [[]|]; try (by injection E as _ <-).
    destruct (Requests x !! nonce) as [[|y l]|]; [done| |done]. by injection E as _ <-. }
  cbn [set_requests Requests]. split_and!; [intros ->; by injection E as <-|apply lookup_delete_eq|].
  intros Hn D. unfold dispatchMessage. rewrite D. cbn [negb set_requests Requests]. rewrite Hn, lookup_delete_eq. by destruct (_ && _).
Qed.

(** Over QUIC and UDP nothing is sent, and no error is returned. *)
Lemma StreamWrite_other_protocols sid k m s cs st proto :
  connections (mgr (s_net s)) !! k = Some cs -> conns (s_net s) !! cs = Some st ->
  Scheme (nAddress (s_net s)) = Some proto -> proto <> TCP -> proto <> KCP ->
  exists s', StreamWrite sid k m s = (Ok tt, s') /\ StreamSendQueue s' = StreamSendQueue s /\ flight s' = flight s.
Proof.
  intros Hc L Hs H1 H2. unfold StreamWrite, ConnectionState. rewrite Hc, L. cbn [nAddress set_conns]. rewrite Hs, decide_False by tauto.
  by eexists.
Qed.
End claims.

(** ** Witness: three messages whose goroutines run in another order *)

#[local] Existing Instance toy_addresses.
#[local] Existing Instance marker_codec.

Definition stream_net : Network :=
  (OpenStream 0 (accept_message (fun _ => None) (fun _ _ _ => true) false toy_handle None None toy_msg toy_connected).2).2.
Definition stream_state : sstate := mkS stream_net ∅ [] 8.
Definition tagged (b : Z) : Message := mkMessage [b] None None 0 0 false 1000 5 [] false.
Definition tag_marshal (m : Message) : option (list Z) := Some (MessageNonce m :: Payload m).
Definition tag_frame (k b : Z) : list Z := [0; 0; 0; 5; 0; 0; 0; 0; 0; 2; k; b].

Lemma stream_messages_sent_witness :
  exists s1 s2 s3 order w', stream_writes [1; 58; 49] (str "ab") [tagged 10; tagged 20; tagged 30] stream_state = (Ok tt, s1) /\
    take_all 0 3 s1 = Some s2 /\ run_flights tag_marshal [1%nat; 0%nat; 0%nat] s2 = Some s3 /\
    order ≡ₚ numbered 0 [tagged 10; tagged 20; tagged 30] /\
    stream_of w' = frames_of tag_marshal (mkNetConfig 5 false 0 0) order /\
    conns (s_net s3) !! 0%nat = Some (mkConnState (Some 42) w' 3) /\
    stream_of w' = tag_frame 2 20 ++ tag_frame 1 10 ++ tag_frame 3 30.
Proof.
  destruct (stream_messages_sent tag_marshal 0 (str "ab") [1; 58; 49] 0 (mkNetConfig 5 false 0 0) (mkWriter [] 64 false (mkSocket [] [])) 0 0
    [tagged 10; tagged 20; tagged 30] stream_state) as (s1 & s2 & nn' & E1 & E2 & _ & _ & H).
  - split.
    + eexists. split; vm_compute; reflexivity.
    + vm_compute. reflexivity.
    + split_and!; [reflexivity|split; vm_compute; lia|reflexivity|exists 42; vm_compute; reflexivity|by left].
    + reflexivity.
    + reflexivity.
    + eexists. split; vm_compute; reflexivity.
  - reflexivity.
  - reflexivity.
  - vm_compute. lia.
  - repeat constructor; eexists; vm_compute; reflexivity.
  - lia.
  - vm_compute. reflexivity.
  - vm_compute in E1. injection E1 as <-. vm_compute in E2. injection E2 as <-.
    edestruct (H [1%nat; 0%nat; 0%nat]) as (order & w' & P & O & S); [vm_compute; reflexivity|reflexivity|].
    eexists _, _, _, order, w'. split; [vm_compute; reflexivity|]. split; [vm_compute; reflexivity|].
    split; [vm_compute; reflexivity|]. split; [exact P|]. split; [exact S|].
    destruct (live_sock _ _ _ _ _ (os_live _ _ _ _ _ _ _ _ _ O)) as [so L]. vm_compute in L. injection L as _ <- _.
    split; [vm_compute; reflexivity|]. vm_compute. reflexivity.
Defined.
