(* ===== verification/Node.v ===== *)
(** * network/builder.go and the life of a node in network/network.go

    The builder with its options and Build, the settings of a built network, Listen and Dial.
    [NodeState] is the Network struct around the connection manager's [ConnMgr.Network].  Transport
    layers are values of a type [Layer]; what they return is an argument. *)
From S2P Require Import Prelude Peer Wire Lru Components KeyPair Address ConnMgr Exchange.
Local Open Scope Z_scope.
Local Open Scope go_scope.

Definition ns_Millisecond : Z := 1000000.
Definition ns_Second : Z := 1000000000.

(** ** Options *)

Record options := mkOptions {
  connectionTimeout : Z;
  signaturePolicy : SignaturePolicy;
  hashPolicy : HashPolicy;
  recvWindowSize : Z;
  sendWindowSize : Z;
  o_writeBufferSize : Z;
  recvBufferSize : Z;
  writeFlushLatency : Z;
  perBlockWriteTimeout : Z
}.

Definition ConnectionTimeout (d : Z) (o : options) : options :=
  mkOptions d (signaturePolicy o) (hashPolicy o) (recvWindowSize o) (sendWindowSize o) (o_writeBufferSize o) (recvBufferSize o)
    (writeFlushLatency o) (perBlockWriteTimeout o).
Definition SignaturePolicyOption (policy : SignaturePolicy) (o : options) : options :=
  mkOptions (connectionTimeout o) policy (hashPolicy o) (recvWindowSize o) (sendWindowSize o) (o_writeBufferSize o) (recvBufferSize o)
    (writeFlushLatency o) (perBlockWriteTimeout o).
Definition HashPolicyOption (policy : HashPolicy) (o : options) : options :=
  mkOptions (connectionTimeout o) (signaturePolicy o) policy (recvWindowSize o) (sendWindowSize o) (o_writeBufferSize o) (recvBufferSize o)
    (writeFlushLatency o) (perBlockWriteTimeout o).
Definition RecvWindowSize (size : Z) (o : options) : options :=
  mkOptions (connectionTimeout o) (signaturePolicy o) (hashPolicy o) size (sendWindowSize o) (o_writeBufferSize o) (recvBufferSize o)
    (writeFlushLatency o) (perBlockWriteTimeout o).
Definition SendWindowSize (size : Z) (o : options) : options :=
  mkOptions (connectionTimeout o) (signaturePolicy o) (hashPolicy o) (recvWindowSize o) size (o_writeBufferSize o) (recvBufferSize o)
    (writeFlushLatency o) (perBlockWriteTimeout o).
Definition WriteBufferSize (byteSize : Z) (o : options) : options :=
  mkOptions (connectionTimeout o) (signaturePolicy o) (hashPolicy o) (recvWindowSize o) (sendWindowSize o) byteSize (recvBufferSize o)
    (writeFlushLatency o) (perBlockWriteTimeout o).
Definition ReceiveBufferSize (byteSize : Z) (o : options) : options :=
  mkOptions (connectionTimeout o) (signaturePolicy o) (hashPolicy o) (recvWindowSize o) (sendWindowSize o) (o_writeBufferSize o) byteSize
    (writeFlushLatency o) (perBlockWriteTimeout o).
Definition WriteFlushLatency (d : Z) (o : options) : options :=
  mkOptions (connectionTimeout o) (signaturePolicy o) (hashPolicy o) (recvWindowSize o) (sendWindowSize o) (o_writeBufferSize o)
    (recvBufferSize o) d (perBlockWriteTimeout o).
Definition WriteTimeout (d : Z) (o : options) : options :=
  mkOptions (connectionTimeout o) (signaturePolicy o) (hashPolicy o) (recvWindowSize o) (sendWindowSize o) (o_writeBufferSize o)
    (recvBufferSize o) (writeFlushLatency o) d.

Definition defaultBuilderOptions (ed25519 : SignaturePolicy) (blake2b : HashPolicy) : options :=
  mkOptions (60 * ns_Second) ed25519 blake2b 4096 4096 (1024 * 1024 * 8) (1024 * 1024 * 8) (10 * ns_Millisecond) 3.

Definition defaultAddress : key := str "tcp://localhost:8588".
Definition CAPATH : key := str "./ca/CA_of_FISCP.cer".
Definition CERTPATH : key := str "./ca/NRT_Permit_To_Client.cer".
Definition KEYPATH : key := str "./ca/adminKeyV2.pem".
Definition defaultCompressFileSize : Z := 4 * 1024 * 1024.
Definition defaultStreamQueueLen : Z := 256.
Definition defaultBootstrapWaitSecond : Z := 30 * ns_Second.

(** ** State *)

Record CAConfig := mkCA { ca_enable : bool; ca_certPath : key; ca_keyPath : key; ca_caPath : key }.

Record settings := mkSettings {
  dialTimeout : Z;
  DisableDispatchMsgGoroutine : bool;
  set_streamQueueLen : Z;
  bootstrapWaitSecond : Z
}.

(** [ns_Finish] leads from a protocol to whether its channel has been closed; [ns_ClientID] is the ClientID map,
    None for the nil pointer. *)
Record NodeState {Layer : Type} := mkNodeState {
  ns_net : Network;
  ns_ID : ID;
  ns_keys : KeyPair;
  ListenAddr : key;
  ns_opts : options;
  ns_transports : gmap key Layer;
  ProxyService : Proxy;
  ns_Finish : gmap key bool;
  ns_set : settings;
  ns_CA : CAConfig;
  ns_ClientID : option (gmap key key);
  ns_listening : bool
}.
Arguments NodeState : clear implicits.

Section node.
Context {Layer : Type} {Ty : Type} `{!EqDecision Ty, !Countable Ty} (typeof : nat -> Ty).
Variable hash : list Z -> list Z.
Variable LookupHost : resolver.

Record NodeBuilder := mkNB {
  nb_opts : options;
  nb_keys : option KeyPair;
  nb_address : key;
  nb_listenAddr : key;
  nb_components : Builder (Ty := Ty) (Component := nat);
  nb_transports : gmap key Layer
}.

Definition RegisterTransportLayer (name : key) (layer : Layer) (b : NodeBuilder) : NodeBuilder :=
  mkNB (nb_opts b) (nb_keys b) (nb_address b) (nb_listenAddr b) (nb_components b) (<[name := layer]> (nb_transports b)).
Definition ClearTransportLayers (b : NodeBuilder) : NodeBuilder :=
  mkNB (nb_opts b) (nb_keys b) (nb_address b) (nb_listenAddr b) (nb_components b) ∅.
Definition SetKeys (pair : option KeyPair) (b : NodeBuilder) : NodeBuilder :=
  mkNB (nb_opts b) pair (nb_address b) (nb_listenAddr b) (nb_components b) (nb_transports b).
Definition SetAddress (address : key) (b : NodeBuilder) : NodeBuilder :=
  mkNB (nb_opts b) (nb_keys b) address (nb_listenAddr b) (nb_components b) (nb_transports b).
Definition SetListenAddr (address : key) (b : NodeBuilder) : NodeBuilder :=
  mkNB (nb_opts b) (nb_keys b) (nb_address b) address (nb_components b) (nb_transports b).

(** NewBuilder; [keys] is the random key pair, [tcp] to [quic] are the default layers. *)
Definition node_NewBuilder (ed25519 : SignaturePolicy) (blake2b : HashPolicy) (keys : KeyPair) (tcp kcp udp quic : Layer) : NodeBuilder :=
  RegisterTransportLayer QUIC quic (RegisterTransportLayer UDP udp (RegisterTransportLayer KCP kcp (RegisterTransportLayer TCP tcp
    (mkNB (defaultBuilderOptions ed25519 blake2b) (Some keys) defaultAddress [] NewBuilder ∅)))).

Definition NewBuilderWithOptions (opts : list (options -> options)) (b : NodeBuilder) : NodeBuilder :=
  mkNB (foldl (fun o f => f o) (nb_opts b) opts) (nb_keys b) (nb_address b) (nb_listenAddr b) (nb_components b) (nb_transports b).

Inductive build_err := ErrNoKeyPair | ErrNoAddress | ErrAddr (e : addr_err).

(** Build.  [existed] is FileExisted, the cache is the one of resolved host names. *)
Definition Build (existed : key -> bool) (b : NodeBuilder) (c : cache) : res build_err (NodeState Layer) * cache :=
  match nb_keys b with
  | None => (Err ErrNoKeyPair, c)
  | Some keys =>
    if (length (nb_address b) =? 0)%nat then (Err ErrNoAddress, c)
    else
      let comps := build_components (nb_components b) in
      match ToUnifiedAddress LookupHost (nb_address b) c with
      | (Panic, c) => (Panic, c)
      | (Err e, c) => (Err (ErrAddr e), c)
      | (Ok unifiedAddress, c) =>
        let id := CreateID hash unifiedAddress (PublicKey keys) in
        match ToUnifiedAddress LookupHost (nb_listenAddr b) c with
        | (Panic, c) => (Panic, c)
        | (Err e, c) => (Err (ErrAddr e), c)
        | (Ok unifiedListenAddr, c) =>
          let net := NewNetwork unifiedAddress (mkNetConfig 0 true GZIP defaultCompressFileSize) (o_writeBufferSize (nb_opts b)) (Each comps) in
          let ca := mkCA (existed KEYPATH && existed CERTPATH && existed CAPATH) CERTPATH KEYPATH CAPATH in
          (Ok (mkNodeState Layer net id keys unifiedListenAddr (nb_opts b) (nb_transports b) (mkProxyService false [] 0)
                 ((fun _ => false) <$> nb_transports b)
                 (mkSettings 0 false defaultStreamQueueLen defaultBootstrapWaitSecond) ca None false), c)
        end
      end
  end.

(** ** Settings of a built network *)

Definition with_net (f : Network -> Network) (s : NodeState Layer) : NodeState Layer :=
  mkNodeState Layer (f (ns_net s)) (ns_ID s) (ns_keys s) (ListenAddr s) (ns_opts s) (ns_transports s) (ProxyService s) (ns_Finish s)
    (ns_set s) (ns_CA s) (ns_ClientID s) (ns_listening s).
Definition with_opts (f : options -> options) (s : NodeState Layer) : NodeState Layer :=
  mkNodeState Layer (ns_net s) (ns_ID s) (ns_keys s) (ListenAddr s) (f (ns_opts s)) (ns_transports s) (ProxyService s) (ns_Finish s)
    (ns_set s) (ns_CA s) (ns_ClientID s) (ns_listening s).
Definition with_proxy (f : Proxy -> Proxy) (s : NodeState Layer) : NodeState Layer :=
  mkNodeState Layer (ns_net s) (ns_ID s) (ns_keys s) (ListenAddr s) (ns_opts s) (ns_transports s) (f (ProxyService s)) (ns_Finish s)
    (ns_set s) (ns_CA s) (ns_ClientID s) (ns_listening s).
Definition with_set (f : settings -> settings) (s : NodeState Layer) : NodeState Layer :=
  mkNodeState Layer (ns_net s) (ns_ID s) (ns_keys s) (ListenAddr s) (ns_opts s) (ns_transports s) (ProxyService s) (ns_Finish s)
    (f (ns_set s)) (ns_CA s) (ns_ClientID s) (ns_listening s).
Definition with_ca (f : CAConfig -> CAConfig) (s : NodeState Layer) : NodeState Layer :=
  mkNodeState Layer (ns_net s) (ns_ID s) (ns_keys s) (ListenAddr s) (ns_opts s) (ns_transports s) (ProxyService s) (ns_Finish s)
    (ns_set s) (f (ns_CA s)) (ns_ClientID s) (ns_listening s).
Definition with_config (f : net_config -> net_config) : NodeState Layer -> NodeState Layer :=
  with_net (fun n => mkNetwork (nAddress n) (f (nConfig n)) (writeBufferSize n) (nComponents n) (mgr n) (clients n) (conns n)
    (closed_socks n) (datagrams n) (events n) (killed n)).

(** The write buffer size lives in the options; the connection manager's copy is kept equal. *)
Definition SetWrittenBufferSize (bytes : Z) (s : NodeState Layer) : NodeState Layer :=
  with_net (fun n => mkNetwork (nAddress n) (nConfig n) bytes (nComponents n) (mgr n) (clients n) (conns n) (closed_socks n) (datagrams n)
    (events n) (killed n)) (with_opts (WriteBufferSize bytes) s).
Definition SetReadBufferSize (bytes : Z) : NodeState Layer -> NodeState Layer := with_opts (ReceiveBufferSize bytes).

Definition SetNetworkID (id : Z) : NodeState Layer -> NodeState Layer :=
  with_config (fun c => mkNetConfig id (compressEnable c) (compressAlgo c) (CompressCondition_Size c)).
Definition GetNetworkID (s : NodeState Layer) : Z := netID (nConfig (ns_net s)).
Definition EnableCompress : NodeState Layer -> NodeState Layer :=
  with_config (fun c => mkNetConfig (netID c) true (compressAlgo c) (CompressCondition_Size c)).
Definition DisableCompress : NodeState Layer -> NodeState Layer :=
  with_config (fun c => mkNetConfig (netID c) false (compressAlgo c) (CompressCondition_Size c)).
Definition SetCompressAlgo (algo : Z) : NodeState Layer -> NodeState Layer :=
  with_config (fun c => mkNetConfig (netID c) (compressEnable c) algo (CompressCondition_Size c)).
Definition SetCompressFileSize (bytes : Z) : NodeState Layer -> NodeState Layer :=
  with_config (fun c => mkNetConfig (netID c) (compressEnable c) (compressAlgo c) bytes).

Definition SetProxyServer (proxies : list ProxyServer) : NodeState Layer -> NodeState Layer :=
  with_proxy (fun p => mkProxyService (pEnable p) proxies (WorkID p)).
Definition EnableProxyMode (enable : bool) : NodeState Layer -> NodeState Layer :=
  with_proxy (fun p => mkProxyService enable (Servers p) (WorkID p)).
Definition ProxyModeEnable (s : NodeState Layer) : bool := pEnable (ProxyService s).

Definition SetDialTimeout (timeout : Z) : NodeState Layer -> NodeState Layer :=
  with_set (fun t => mkSettings timeout (DisableDispatchMsgGoroutine t) (set_streamQueueLen t) (bootstrapWaitSecond t)).
Definition SetBootstrapWaitSecond (timeout : Z) : NodeState Layer -> NodeState Layer :=
  with_set (fun t => mkSettings (dialTimeout t) (DisableDispatchMsgGoroutine t) (set_streamQueueLen t) timeout).
Definition DisableMsgGoroutine : NodeState Layer -> NodeState Layer :=
  with_set (fun t => mkSettings (dialTimeout t) true (set_streamQueueLen t) (bootstrapWaitSecond t)).
Definition EnableMsgGoroutine : NodeState Layer -> NodeState Layer :=
  with_set (fun t => mkSettings (dialTimeout t) false (set_streamQueueLen t) (bootstrapWaitSecond t)).
Definition SetStreamQueueLen (size : Z) : NodeState Layer -> NodeState Layer :=
  with_set (fun t => mkSettings (dialTimeout t) (DisableDispatchMsgGoroutine t) size (bootstrapWaitSecond t)).

Definition IsCAEnable (s : NodeState Layer) : bool := ca_enable (ns_CA s).
Definition EnableCAAbility : NodeState Layer -> NodeState Layer :=
  with_ca (fun c => mkCA true (ca_certPath c) (ca_keyPath c) (ca_caPath c)).
(** It enables, too. *)
Definition DisableCAAbility : NodeState Layer -> NodeState Layer :=
  with_ca (fun c => mkCA true (ca_certPath c) (ca_keyPath c) (ca_caPath c)).
Definition SetCAFileConfig (caPath certPath keyPath : key) (s : NodeState Layer) : bool * NodeState Layer :=
  if decide (caPath = [] \/ certPath = [] \/ keyPath = []) then (false, s)
  else (true, with_ca (fun c => mkCA (ca_enable c) certPath keyPath caPath) s).
Definition GetCAFileConfig (s : NodeState Layer) : key * key * key :=
  (ca_caPath (ns_CA s), ca_certPath (ns_CA s), ca_keyPath (ns_CA s)).

(** SetClientID stores into a map that Build leaves nil. *)
Definition SetClientID (IP ID : key) (s : NodeState Layer) : res unit (NodeState Layer) :=
  match ns_ClientID s with
  | None => Panic
  | Some m => Ok (mkNodeState Layer (ns_net s) (ns_ID s) (ns_keys s) (ListenAddr s) (ns_opts s) (ns_transports s) (ProxyService s)
                    (ns_Finish s) (ns_set s) (ns_CA s) (Some (<[IP := ID]> m)) (ns_listening s))
  end.

(** Network.PeerID: the hash of the public key. *)
Definition Network_PeerID (s : NodeState Layer) : key := hex_encode (Id (ns_ID s)).

(** ** Listening and dialing *)

Inductive life := Started (component : nat) | Listening | Serving (protocol : key) | CleanedUp (component : nat).

(** Listen up to the serving loop: [listens] says whether the transport can listen on an address, with or without
    TLS.  The first component is what has happened; false when log.Fatal was called.  An address that does
    not parse is printed through a nil pointer. *)
Definition Listen (listens : Layer -> bool -> key -> bool) (s : NodeState Layer) : res unit (list life * bool) * NodeState Layer :=
  match ParseAddress (ListenAddr s) with
  | None => (Panic, s)
  | Some info =>
    match ns_transports s !! Protocol info with
    | None => (Ok ([], false), s)
    | Some layer =>
      let '(caPath, certPath, keyPath) := GetCAFileConfig s in
      if IsCAEnable s && bool_decide (caPath = [] \/ certPath = [] \/ keyPath = []) then (Ok ([], false), s)
      else if negb (listens layer (IsCAEnable s) (HostPort info)) then (Ok ([], false), s)
      else
        let started := Started <$> nComponents (ns_net s) in
        if ns_listening s then (Panic, s)
        else
          (Ok (started ++ [Listening] ++ (if known_protocol (Protocol info) then [Serving (Protocol info)] else []),
               known_protocol (Protocol info)),
           mkNodeState Layer (ns_net s) (ns_ID s) (ns_keys s) (ListenAddr s) (ns_opts s) (ns_transports s) (ProxyService s) (ns_Finish s)
             (ns_set s) (ns_CA s) (ns_ClientID s) true)
    end
  end.

(** The deferred clean-up, once a serving loop has returned; the one of UDP never does. *)
Definition Listen_end (s : NodeState Layer) : list life := CleanedUp <$> nComponents (ns_net s).

(** Dial: [dials] is what the transport returns, with or without TLS.  The flag of the result says that a receive loop was
    started for the connection.  A protocol without a transport ends the process. *)
Definition Dial (dials : Layer -> bool -> key -> option handle) (address : key) (s : NodeState Layer) : res conn_err (handle * bool) :=
  match ParseAddress address with
  | None => Err EAddress
  | Some info =>
    match (if decide (Host info <> str "127.0.0.1") then ParseAddress (nAddress (ns_net s)) else Some info) with
    | None => Err EAddress
    | Some _ =>
      match ns_transports s !! Protocol info with
      | None => Panic
      | Some layer =>
        let '(caPath, certPath, keyPath) := GetCAFileConfig s in
        if IsCAEnable s && bool_decide (caPath = [] \/ certPath = [] \/ keyPath = []) then Panic
        else match dials layer (IsCAEnable s) (HostPort info) with
        | None => Err EDial
        | Some h => Ok (h, bool_decide (Protocol info = TCP \/ Protocol info = KCP \/ Protocol info = QUIC))
        end
      end
    end
  end.
End node.

(** ** Correctness *)

Section build.
Context {Layer : Type} {Ty : Type} `{!EqDecision Ty, !Countable Ty}.
Variable hash : list Z -> list Z.
Variable LookupHost : resolver.

Abbreviation build := (Build (Layer := Layer) (Ty := Ty) hash LookupHost).


(** What Build never sets up: the map SetClientID stores into.  And TLS, once enabled, cannot be disabled. *)
Lemma build_flaws existed b c s c' IP ID (t : NodeState Layer) :
  (build existed b c = (Ok s, c') -> SetClientID IP ID s = Panic) /\ IsCAEnable (DisableCAAbility t) = true.
Proof.
  split; [|done]. unfold Build. destruct (nb_keys b) as [keys|]; [|done]. destruct (_ =? 0)%nat; [done|].
  destruct (ToUnifiedAddress LookupHost (nb_address b) c) as [[u| |] c1]; [|done..].
  destruct (ToUnifiedAddress LookupHost (nb_listenAddr b) c1) as [[l| |] c2]; [|done..]. by intros [= <- _].
Qed.

(** Options are applied in order, and the last one for a setting wins. *)
Lemma last_option_wins (size size' : Z) opts b :
  o_writeBufferSize (nb_opts (NewBuilderWithOptions (Layer := Layer) (Ty := Ty) (opts ++ [WriteBufferSize size; WriteBufferSize size']) b)) = size'.
Proof. unfold NewBuilderWithOptions. cbn [nb_opts]. by rewrite foldl_app. Qed.
End build.

(** ** Witness: a node on localhost, and the default builder, which has no listen address *)

Definition toy_builder : NodeBuilder (Layer := nat) (Ty := nat) :=
  SetListenAddr (str "tcp://10.0.0.7:1") (SetAddress (str "tcp://10.0.0.7:1")
    (node_NewBuilder toy_policy toy_hash (mkKeyPair [1; 2] [1; 2]) 0%nat 1%nat 2%nat 3%nat)).

Definition toy_resolver : resolver := fun _ => None.

