(* ===== verification/Proxies.v ===== *)
(** * Proxy servers and keepalive

    The proxy part of network/network.go, network/components/proxy (TCP, KCP, QUIC and UDP), and the
    components network/components/keepalive and proxyKeepalive.  What the transports return when
    dialing is an argument; the channels of ProxyService.Finish are open or closed, and closing a
    closed one panics.  [Err tt] is a goroutine that waits for the quit channel. *)
From S2P Require Import Prelude Backoff Peer Wire Opcode KeyPair Address ConnMgr Exchange Broadcast Node.
Local Open Scope Z_scope.
Local Open Scope go_scope.

Section proxies.
Context `{A : AddressOps} `{C : Codec} `{sp : SignaturePolicy} `{hp : HashPolicy} {Layer : Type}.
Variable Marshal : Message -> option (list Z).
Variable pbMarshal : proto -> option (list Z).

Abbreviation state := (NodeState Layer).

Definition with_Finish (f : gmap key bool) (s : state) : state :=
  mkNodeState Layer (ns_net s) (ns_ID s) (ns_keys s) (ListenAddr s) (ns_opts s) (ns_transports s) (ProxyService s) f
    (ns_set s) (ns_CA s) (ns_ClientID s) (ns_listening s).
Definition with_address (a : key) (s : state) : state :=
  let id := ns_ID s in
  mkNodeState Layer (ns_net s) (mkID (NetKey id) a (Id id) (ConnectionId id) (Address2 id)) (ns_keys s) (ListenAddr s) (ns_opts s)
    (ns_transports s) (ProxyService s) (ns_Finish s) (ns_set s) (ns_CA s) (ns_ClientID s) (ns_listening s).

(** ** network.go *)

(** None: proxy mode is not enabled. *)
Definition ProxyConnectionStateExists (s : state) : res unit (option bool) :=
  if ProxyModeEnable s then
    match GetWorkingProxyServer (ProxyService s) with
    | Ok (_, peerID) => Ok (Some (ConnectionStateExists peerID (ns_net s)))
    | Err e => Err e
    | Panic => Panic
    end
  else Ok None.

Definition ProxyConnectionState (s : state) : res unit (option nat) :=
  if negb (ProxyModeEnable s) then Ok None
  else match GetWorkingProxyServer (ProxyService s) with
  | Ok (_, peerID) => Ok (ConnectionState peerID (ns_net s))
  | Err e => Err e
  | Panic => Panic
  end.

(** Whether BlockUntilProxyFinish returns: it waits for an open channel of one of the four protocols. *)
Definition BlockUntilProxyFinish (protocol : key) (s : state) : bool :=
  if known_protocol protocol
  then match ns_Finish s !! protocol with Some done_ => done_ | None => true end
  else true.

Definition FinishProxyServer (protocol : key) (s : state) : res unit state :=
  match ns_Finish s !! protocol with
  | None => Ok s
  | Some true => Panic
  | Some false => Ok (with_Finish (<[protocol := true]> (ns_Finish s)) s)
  end.

Definition open_channel (protocol : key) (s : state) : state := with_Finish (<[protocol := false]> (ns_Finish s)) s.

(** TellByAddr with the message prepared for the call. *)
Definition tell_by_addr (nd : node) (t : tables) (p : nat) (m : proto) (n : Network) : res ex_err unit * Network :=
  match PrepareMessage pbMarshal nd t Background (Some m) with
  | Err e => (Err e, n)
  | Panic => (Panic, n)
  | Ok signed => let '(r, n) := TellByAddr Marshal p signed n in (conn_result r, n)
  end.

Definition tell (nd : node) (t : tables) (p : nat) (m : proto) (n : Network) : res ex_err unit * Network :=
  match PrepareMessage pbMarshal nd t Background (Some m) with
  | Err e => (Err e, n)
  | Panic => (Panic, n)
  | Ok signed => let '(r, n) := Tell Marshal p signed n in (conn_result r, n)
  end.

Definition ProxyRequest : proto := mkProto "ProxyRequest" [].

Definition ConnectProxyServer (nd : node) (t : tables) (dial : key -> option handle) (address peerID : key) (n : Network)
    : res ex_err unit * Network :=
  if ConnectionStateExists address n then (Ok tt, n)
  else match Client address [] (dial address) n with
  | (Err e, n) => (Err (EConn e), n)
  | (Panic, n) => (Panic, n)
  | (Ok p, n) => tell_by_addr nd t p ProxyRequest n
  end.

(** DisableBackoff, EnableBackoff and GetBackoffStatus: the clients whose back-off is disabled. *)
Definition DisableBackoff (p : nat) (off : gset nat) : gset nat := {[p]} ∪ off.
Definition EnableBackoff (p : nat) (off : gset nat) : gset nat := off ∖ {[p]}.
Definition GetBackoffStatus (p : nat) (off : gset nat) : bool := bool_decide (p ∉ off).

(** The client under a key is closed without starting a back-off. *)
Definition drop_client (k : key) (n : Network) (off : gset nat) : res unit unit * Network * gset nat :=
  match GetPeerClient k n with
  | None => (Ok tt, n, off)
  | Some p =>
    let off := DisableBackoff p off in
    match Close p n with
    | (Panic, n) => (Panic, n, off)
    | (Err EBlocked, n) => (Err tt, n, off)
    | (_, n) => (Ok tt, n, off)
    end
  end.

(** An address that does not parse is logged, and then used through a nil pointer. *)
Definition ReconnectProxyServer (nd : node) (t : tables) (dial : key -> option handle) (address peerID : key) (s : state)
    (off : gset nat) : res unit (res ex_err unit) * state * gset nat :=
  match drop_client peerID (ns_net s) off with
  | (Panic, n, off) => (Panic, with_net (fun _ => n) s, off)
  | (Err e, n, off) => (Err e, with_net (fun _ => n) s, off)
  | (Ok _, n, off) =>
    let s := with_net (fun _ => n) s in
    match Scheme address with
    | None => (Panic, s, off)
    | Some protocol =>
      let s := open_channel protocol s in
      let '(r, n) := ConnectProxyServer nd t dial address peerID (ns_net s) in
      (Ok r, with_net (fun _ => n) s, off)
    end
  end.

Definition ReconnectPeer (dial : option handle) (ping : Message) (arrives : bool) (address : key) (n : Network) (off : gset nat)
    : res unit (res conn_err key) * Network * gset nat :=
  match drop_client address n off with
  | (Panic, n, off) => (Panic, n, off)
  | (Err e, n, off) => (Err e, n, off)
  | (Ok _, n, off) => let '(r, n) := ConnectPeer Marshal address dial ping arrives n in (Ok r, n, off)
  end.

(** ** components/proxy: TCP *)

(** The loop over the servers: the attempts with their outcome, and whether one has succeeded. *)
Fixpoint tcp_attempts (nd : node) (t : tables) (dial : key -> option handle) (rounds : nat) (s : state)
    : res unit (list (key * bool) * bool) * state :=
  match rounds with
  | O => (Ok ([], false), s)
  | S rounds =>
    match GetWorkingProxyServer (ProxyService s) with
    | Ok (proxySrv, peerID) =>
      match ConnectProxyServer nd t dial proxySrv peerID (ns_net s) with
      | (Ok _, n) => (Ok ([(proxySrv, true)], true), with_net (fun _ => n) s)
      | (Panic, n) => (Panic, with_net (fun _ => n) s)
      | (Err (EConn EBlocked), n) => (Err tt, with_net (fun _ => n) s)
      | (Err _, n) =>
        let s := with_net (fun _ => n) s in
        match UpdateProxyWorkID (ProxyService s) with
        | Ok px =>
          let '(r, s) := tcp_attempts nd t dial rounds (with_proxy (fun _ => px) s) in
          (match r with
           | Ok (log, connected) => Ok ((proxySrv, false) :: log, connected)
           | Err e => Err e
           | Panic => Panic
           end, s)
        | Err e => (Err e, s)
        | Panic => (Panic, s)
        end
      end
    | Err e => (Err e, s)
    | Panic => (Panic, s)
    end
  end.

Definition TcpComponentStartup (nd : node) (t : tables) (dial : key -> option handle) (s : state)
    : res unit (list (key * bool) * bool) * state :=
  if negb (ProxyModeEnable s) then (Ok ([], false), s)
  else tcp_attempts nd t dial (length (Servers (ProxyService s))) s.

(** TcpComponentRestartUp, without the wait for the answer at its end ([BlockUntilProxyFinish]). *)
Definition TcpComponentRestartUp (nd : node) (t : tables) (dial : key -> option handle) (s : state)
    : res unit (list (key * bool) * bool) * state :=
  if negb (ProxyModeEnable s) then (Ok ([], false), s)
  else tcp_attempts nd t dial (length (Servers (ProxyService s))) (open_channel TCP s).

(** On a ProxyResponse with [addr] from [sender]. *)
Definition TcpComponentReceive (addr : key) (sender : PbID) (s : state) : res unit state :=
  let proxyIP := str "tcp://" ++ addr in
  if decide (proxyIP <> Address (ns_ID s)) then
    match FinishProxyServer TCP (with_address proxyIP s) with
    | Ok s =>
      let px := ProxyService s in
      match Servers px !! Z.to_nat (WorkID px) with
      | None => Panic
      | Some srv =>
        Ok (with_proxy (fun _ => mkProxyService (pEnable px)
              (<[Z.to_nat (WorkID px) := mkProxy (IP srv) (hex_encode (NetKey (to_peer_id sender)))]> (Servers px)) (WorkID px)) s)
      end
    | Err e => Err e
    | Panic => Panic
    end
  else Ok s.

(** ** components/proxy: KCP, QUIC, UDP *)

(** KCPComponentStartup and QuicComponentStartup: [nil_ok] is whether an error of Client is checked (QUIC) or the nil
    client is used (KCP). *)
Definition component_startup (nil_ok : bool) (nd : node) (t : tables) (dial : key -> option handle) (s : state)
    : res unit (res ex_err unit) * state :=
  match GetWorkingProxyServer (ProxyService s) with
  | Ok (address, peerID) =>
    match Client address peerID (dial address) (ns_net s) with
    | (Panic, n) => (Panic, with_net (fun _ => n) s)
    | (Err e, n) => (if nil_ok then Ok (Err (EConn e)) else Panic, with_net (fun _ => n) s)
    | (Ok p, n) => let '(r, n) := tell nd t p ProxyRequest n in (Ok r, with_net (fun _ => n) s)
    end
  | Err e => (Err e, s)
  | Panic => (Panic, s)
  end.

Definition KCPComponentStartup := component_startup false.
Definition QuicComponentStartup := component_startup true.

(** KCPComponentRestartUp and QuicComponentRestartUp, without the final wait. *)
Definition KCPComponentRestartUp (nd : node) (t : tables) (dial : key -> option handle) (s : state) : res unit (res ex_err unit) * state :=
  if negb (ProxyModeEnable s) then (Ok (Ok tt), s) else KCPComponentStartup nd t dial (open_channel KCP s).
Definition QuicComponentRestartUp (nd : node) (t : tables) (dial : key -> option handle) (s : state) : res unit (res ex_err unit) * state :=
  if negb (ProxyModeEnable s) then (Ok (Ok tt), s) else QuicComponentStartup nd t dial (open_channel QUIC s).

(** The receivers of KCP, QUIC and UDP do not compare the address. *)
Definition component_receive (scheme protocol addr : key) (s : state) : res unit state :=
  FinishProxyServer protocol (with_address (scheme ++ addr) s).

Definition KCPComponentReceive (addr : key) : state -> res unit state := component_receive (str "kcp://") KCP addr.
Definition QuicComponentReceive (addr : key) : state -> res unit state := component_receive (str "quic://") QUIC addr.
Definition UDPComponentReceive (addr : key) : state -> res unit state := component_receive (str "udp://") UDP addr.

(** The datagram with a ProxyRequest and whom it goes to; None: it cannot be prepared.  [resolve] is net.ResolveUDPAddr. *)
Definition prepareUDPRawMessage (resolve : key -> option key) (nd : node) (t : tables) (m : proto) (s : state)
    : res unit (option (list Z * key)) :=
  match PrepareMessage pbMarshal nd t Background (Some m) with
  | Panic => Panic
  | Err _ => Ok None
  | Ok signed =>
    match GetWorkingProxyServer (ProxyService s) with
    | Panic => Panic
    | Err e => Err e
    | Ok (proxySrv, _) =>
      match ParseAddress proxySrv with
      | None => Ok None
      | Some info =>
        match resolve (HostPort info) with
        | None => Ok None
        | Some resolved => Ok (Some (default [] (BuildRawContent Marshal signed), resolved))
        end
      end
    end
  end.

Definition sendUDPProxyRequest (resolve : key -> option key) (nd : node) (t : tables) (s : state) : res unit (option (list Z * key)) :=
  prepareUDPRawMessage resolve nd t ProxyRequest s.

Definition UDPComponentRestartUp (resolve : key -> option key) (nd : node) (t : tables) (s : state)
    : res unit (option (list Z * key)) * state :=
  if negb (ProxyModeEnable s) then (Ok None, s)
  else let s := open_channel UDP s in (sendUDPProxyRequest resolve nd t s, s).

Definition UDPComponentStartup (resolve : key -> option key) (nd : node) (t : tables) (s : state) : res unit (option (list Z * key)) :=
  sendUDPProxyRequest resolve nd t s.

(** ProxyComponentRestart: what is started again for a protocol. *)
Inductive restarted := RestartStream (r : res unit (list (key * bool) * bool)) | RestartClient (r : res unit (res ex_err unit))
| RestartDatagram (r : res unit (option (list Z * key))) | RestartUnknown.

Definition ProxyComponentRestart (resolve : key -> option key) (nd : node) (t : tables) (dial : key -> option handle) (protocol : key)
    (s : state) : restarted * state :=
  if decide (protocol = TCP) then let '(r, s) := TcpComponentRestartUp nd t dial s in (RestartStream r, s)
  else if decide (protocol = UDP) then let '(r, s) := UDPComponentRestartUp resolve nd t s in (RestartDatagram r, s)
  else if decide (protocol = KCP) then let '(r, s) := KCPComponentRestartUp nd t dial s in (RestartClient r, s)
  else if decide (protocol = QUIC) then let '(r, s) := QuicComponentRestartUp nd t dial s in (RestartClient r, s)
  else (RestartUnknown, s).

(** ** components/keepalive *)

Record keepalive := mkKeepalive { keepaliveInterval : Z; keepaliveTimeout : Z; channelHasStop : bool }.

Definition WithKeepaliveTimeout (t : Z) (o : keepalive) : keepalive := mkKeepalive (keepaliveInterval o) t (channelHasStop o).
Definition WithKeepaliveInterval (t : Z) (o : keepalive) : keepalive := mkKeepalive t (keepaliveTimeout o) (channelHasStop o).

Definition keepalive_New (opts : list (keepalive -> keepalive)) : keepalive :=
  foldl (fun p opt => opt p) (mkKeepalive (3 * ns_Second) (15 * ns_Second) false) opts.

(** Cleanup closes the stop channel once. *)
Definition keepalive_Cleanup (p : keepalive) : keepalive := mkKeepalive (keepaliveInterval p) (keepaliveTimeout p) true.

(** stopNotify.Close of RecvRemotePubKey: the clients whose channel is closed. *)
Definition stopNotify_Close (p : nat) (stopped : gset nat) : gset nat := {[p]} ∪ stopped.

Definition set_PubKey (k : key) (c : PeerClient) : PeerClient :=
  mkClient (cAddress c) (cID c) k (closed c) (outgoingReady c) (incomingReady c) (EnableAckReply c).

(** Receive of a message of the client [p] from [sender]. *)
Definition keepalive_Receive (nd : node) (t : tables) (p : nat) (sender : PbID) (m : proto) (n : Network) (stopped : gset nat)
    : res ex_err unit * Network * gset nat :=
  if decide (ptype m = "Keepalive"%string) then
    let '(r, n) := tell nd t p (mkProto "KeepaliveResponse" []) n in (r, n, stopped)
  else if decide (ptype m = "Ping"%string) then
    let '(r, n) := tell nd t p (mkProto "Pong" []) n in (r, n, stopped)
  else if decide (ptype m = "Pong"%string) then
    (Ok tt, set_client p (set_PubKey (hex_encode (NetKey (to_peer_id sender)))) n, stopNotify_Close p stopped)
  else (Ok tt, n, stopped).

(** timeout: the clients that are reported as silent.  Nothing else is done about them.  [last p] is the time of the
    last message of the client. *)
Definition keepalive_timeout (p : keepalive) (now : Z) (last : nat -> Z) (px : Proxy) (order : list key) (n : Network)
    : res unit (list nat) :=
  match GetWorkingProxyServer px with
  | Ok (_, proxyID) =>
    Ok (omap (fun k => q ← peers (mgr n) !! k; c ← clients n !! q;
                       if decide (PeerID c = proxyID) then None
                       else if last q + keepaliveTimeout p <? now then Some q else None) order)
  | Err e => Err e
  | Panic => if decide (peers (mgr n) = ∅) then Ok [] else Panic
  end.

(** One tick of keepaliveService. *)
Definition keepalive_tick (p : keepalive) (nd : node) (t : tables) (now : Z) (last : nat -> Z) (px : Proxy) (order : list key) (n : Network)
    : res conn_err unit * res unit (list nat) * Network :=
  let '(r, n) := BroadcastToPeers Marshal pbMarshal nd t px Background (Some (mkProto "Keepalive" [])) order n in
  (r, match r with Ok _ => keepalive_timeout p now last px order n | _ => Ok [] end, n).

(** ** components/keepalive/proxyKeepalive *)

Definition DefaultProxyKeepaliveInterval : Z := 3 * ns_Second.
Definition DefaultProxyKeepaliveTimeout : Z := 180 * ns_Second.

(** Cleanup closes the stop channel, also a second time. *)
Definition proxyKeepalive_Cleanup (stopped : bool) : res unit bool := if stopped then Panic else Ok true.

(** Only messages of the working proxy server are answered. *)
Definition proxyKeepalive_Receive (nd : node) (t : tables) (px : Proxy) (p : nat) (sender : PbID) (m : proto) (n : Network)
    : res ex_err unit * Network :=
  match GetWorkingProxyServer px with
  | Ok (srv, _) =>
    if decide (srv <> pbAddress sender) then (Ok tt, n)
    else if decide (ptype m = "Keepalive"%string) then tell nd t p (mkProto "KeepaliveResponse" []) n
    else if decide (ptype m = "Ping"%string) then tell nd t p (mkProto "Pong" []) n
    else (Ok tt, n)
  | _ => (Panic, n)
  end.

(** One tick of proxyKeepaliveService: whether the service goes on.  It ends for good when the proxy server has no client,
    and when it has been silent for too long. *)
Definition proxyKeepalive_tick (nd : node) (t : tables) (now : Z) (last : nat -> Z) (px : Proxy) (n : Network) : res ex_err bool * Network :=
  if negb (pEnable px) then (Ok false, n)
  else match GetWorkingProxyServer px with
  | Ok (_, peerID) =>
    match GetPeerClient peerID n with
    | None => (Ok false, n)
    | Some p =>
      match tell nd t p (mkProto "Keepalive" []) n with
      | (Panic, n) => (Panic, n)
      | (Err (EConn EBlocked), n) => (Err (EConn EBlocked), n)
      | (_, n) => (Ok (negb (last p + DefaultProxyKeepaliveTimeout <? now)), n)
      end
    end
  | _ => (Panic, n)
  end.
End proxies.

(** ** Correctness *)

Section claims.
Context `{A : AddressOps} `{!AddressLaws A} `{C : Codec} `{sp : SignaturePolicy} `{hp : HashPolicy} {Layer : Type}.
Variable Marshal : Message -> option (list Z).
Variable pbMarshal : proto -> option (list Z).

Abbreviation state := (NodeState Layer).

(** The servers can be addressed by the 16-bit index, which is valid. *)
Definition proxy_ok (px : Proxy) : Prop :=
  pEnable px = true /\ 0 < Z.of_nat (length (Servers px)) < 65536 /\ 0 <= WorkID px < Z.of_nat (length (Servers px)).

Lemma working_server px :
  proxy_ok px -> exists srv, Servers px !! Z.to_nat (WorkID px) = Some srv /\ GetWorkingProxyServer px = Ok (IP srv, pPeerID srv).
Proof.
  intros (En & Hl & Hw). unfold GetWorkingProxyServer. rewrite En. cbn [negb].
  destruct (lookup_lt_is_Some_2 (Servers px) (Z.to_nat (WorkID px))) as [srv E]; [lia|]. exists srv. by rewrite E.
Qed.

Lemma next_server px :
  proxy_ok px -> UpdateProxyWorkID px = Ok (mkProxyService (pEnable px) (Servers px) ((WorkID px + 1) mod Z.of_nat (length (Servers px)))) /\
    proxy_ok (mkProxyService (pEnable px) (Servers px) ((WorkID px + 1) mod Z.of_nat (length (Servers px)))).
Proof.
  intros (En & Hl & Hw). unfold UpdateProxyWorkID. rewrite !u16_small by lia. rewrite (proj2 (Z.eqb_neq _ _)) by lia.
  split; [done|]. unfold proxy_ok. cbn [pEnable Servers WorkID]. split; [done|]. split; [done|]. apply Z.mod_pos_bound. lia.
Qed.

(** What the attempts of [log] show, the first being made at the index [w]. *)
Definition attempts_ok (servers : list ProxyServer) (w : Z) (log : list (key * bool)) (connected : bool) : Prop :=
  forall j a ok, log !! j = Some (a, ok) ->
    exists srv, servers !! Z.to_nat ((w + Z.of_nat j) mod Z.of_nat (length servers)) = Some srv /\ a = IP srv /\
      (ok = true <-> connected = true /\ S j = length log).

Lemma tcp_attempts_spec nd t dial rounds (s s' : state) log connected :
  proxy_ok (ProxyService s) -> tcp_attempts Marshal pbMarshal nd t dial rounds s = (Ok (log, connected), s') ->
  let len := Z.of_nat (length (Servers (ProxyService s))) in
  attempts_ok (Servers (ProxyService s)) (WorkID (ProxyService s)) log connected /\
  (length log <= rounds)%nat /\ (connected = true -> (0 < length log)%nat) /\ (connected = false -> length log = rounds) /\
  Servers (ProxyService s') = Servers (ProxyService s) /\ pEnable (ProxyService s') = pEnable (ProxyService s) /\
  WorkID (ProxyService s') = (WorkID (ProxyService s) + Z.of_nat (length log) - (if connected then 1 else 0)) mod len.
Proof.
  revert s log. induction rounds as [|rounds IH]; intros s log Ok_; cbn [tcp_attempts].
  { intros [= <- <- <-]. destruct Ok_ as (_ & Hl & Hw). split_and!; try done.
    cbn. rewrite Z.add_0_r, Z.sub_0_r, Z.mod_small; done. }
  destruct (working_server _ Ok_) as (srv & Ls & ->). pose proof Ok_ as (_ & Hl & Hw).
  destruct (ConnectProxyServer Marshal pbMarshal nd t dial (IP srv) (pPeerID srv) (ns_net s)) as [r n].
  assert (forall log', (match UpdateProxyWorkID (ProxyService (with_net (fun _ => n) s)) with
    | Ok px => let '(r, s0) := tcp_attempts Marshal pbMarshal nd t dial rounds (with_proxy (fun _ => px) (with_net (fun _ => n) s)) in
        (match r with Ok (log, c) => Ok ((IP srv, false) :: log, c) | Err e => Err e | Panic => Panic end, s0)
    | Err e => (Err e, with_net (fun _ => n) s)
    | Panic => (Panic, with_net (fun _ => n) s)
    end) = (Ok (log', connected), s') ->
    let len := Z.of_nat (length (Servers (ProxyService s))) in
    attempts_ok (Servers (ProxyService s)) (WorkID (ProxyService s)) log' connected /\
    (length log' <= S rounds)%nat /\ (connected = true -> (0 < length log')%nat) /\ (connected = false -> length log' = S rounds) /\
    Servers (ProxyService s') = Servers (ProxyService s) /\ pEnable (ProxyService s') = pEnable (ProxyService s) /\
    WorkID (ProxyService s') = (WorkID (ProxyService s) + Z.of_nat (length log') - (if connected then 1 else 0)) mod len) as Failed.
  { intros log'. change (ProxyService (with_net (fun _ => n) s)) with (ProxyService s).
    destruct (next_server _ Ok_) as [-> Okn].
    set (px := mkProxyService _ _ _) in *.
    destruct (tcp_attempts Marshal pbMarshal nd t dial rounds (with_proxy (fun _ => px) (with_net (fun _ => n) s))) as [r2 s2] eqn:E.
    destruct r2 as [[log2 c2]| |]; [|done..]. intros [= <- <- <-] len.
    destruct (IH (with_proxy (fun _ => px) (with_net (fun _ => n) s)) log2 Okn E) as (Ha & Hr & H1 & H0 & Hs & He & Hwk).
    cbn [ProxyService with_proxy px Servers WorkID pEnable] in Ha, Hs, He, Hwk. cbn [length]. split_and!; [|lia|intros _; lia|intros Hc; by rewrite (H0 Hc)|done|done|].
    - intros [|j] a ok; cbn [lookup list_lookup].
      + intros [= <- <-]. exists srv. rewrite Z.add_0_r, Z.mod_small by done. split_and!; [done..|].
        split; [done|]. intros [-> Hj]. specialize (H1 eq_refl). cbn [length] in Hj. lia.
      + intros Hj. destruct (Ha j a ok Hj) as (srv2 & L2 & -> & Hok). exists srv2.
        rewrite Zplus_mod_idemp_l in L2. replace (WorkID (ProxyService s) + Z.of_nat (S j)) with (WorkID (ProxyService s) + 1 + Z.of_nat j) by lia.
        split_and!; [done..|]. rewrite Hok. cbn [length]. split; intros [? ?]; (split; [done|lia]).
    - fold len in Hwk |- *. rewrite Hwk, <- Z.add_sub_assoc, Zplus_mod_idemp_l. f_equal. lia. }
  destruct r as [[]|e|]; [|by destruct e as [| | | | | |[]| | |]; try done; apply Failed|done].
  intros [= <- <- <-]. cbn [length]. split_and!; try done; [|lia|intros _; lia|].
  - intros [|j] a ok; [|done]. intros [= <- <-]. exists srv. rewrite Z.add_0_r, Z.mod_small by done. by split_and!.
  - rewrite Z.add_simpl_r, Z.mod_small; done.
Qed.

(** C23. Failover of TCP proxies: with at most 65535 servers and a valid index, starting (or restarting) the component tries
    the servers in cyclic order from the working one, each at most once, stops at the first that
    connects and leaves it as the working server; when none connects all were tried and the index
    is where it was. *)
Theorem proxy_failover nd t dial (s s' : state) log connected :
  proxy_ok (ProxyService s) ->
  TcpComponentStartup Marshal pbMarshal nd t dial s = (Ok (log, connected), s') \/
  TcpComponentRestartUp Marshal pbMarshal nd t dial s = (Ok (log, connected), s') ->
  let servers := Servers (ProxyService s) in
  let work := WorkID (ProxyService s) in
  attempts_ok servers work log connected /\ (length log <= length servers)%nat /\
  (connected = false -> length log = length servers /\ WorkID (ProxyService s') = work) /\
  (connected = true -> exists srv, last log = Some (IP srv, true) /\ servers !! Z.to_nat (WorkID (ProxyService s')) = Some srv) /\
  proxy_ok (ProxyService s').
Proof.
  intros Ok_ H servers work. pose proof Ok_ as (En & Hl & Hw).
  assert (exists s0, ProxyService s0 = ProxyService s /\
    tcp_attempts Marshal pbMarshal nd t dial (length servers) s0 = (Ok (log, connected), s')) as (s0 & E0 & E).
  { unfold TcpComponentStartup, TcpComponentRestartUp, ProxyModeEnable in H. rewrite En in H. cbn [negb] in H.
    destruct H as [H|H]; [by exists s|by exists (open_channel TCP s)]. }
  rewrite <- E0 in Ok_. destruct (tcp_attempts_spec nd t dial _ s0 s' log connected Ok_ E) as (Ha & Hr & H1 & H0 & Hs & He & Hwk).
  rewrite E0 in Ha, Hs, Hwk. fold servers work in Ha, Hs, Hwk, Hl, Hw.
  set (len := Z.of_nat (length servers)) in *. split_and!; [done|done| | |].
  - intros ->. specialize (H0 eq_refl). split; [done|]. rewrite Hwk, H0, Z.sub_0_r. fold len.
    rewrite <- (Z.mul_1_l len) at 1. rewrite Z.mod_add, Z.mod_small; [done|done|lia].
  - intros ->. specialize (H1 eq_refl). rewrite last_lookup. destruct (lookup_lt_is_Some_2 log (pred (length log))) as [[a ok] Lj]; [lia|].
    destruct (Ha _ _ _ Lj) as (srv & Ls & -> & Hok). exists srv. rewrite Lj.
    assert (ok = true) as -> by (apply Hok; split; [done|lia]). split; [done|]. rewrite Hwk.
    replace (work + Z.of_nat (length log) - 1) with (work + Z.of_nat (pred (length log))) by lia. done.
  - split; [congruence|]. rewrite Hs. fold len. split; [done|]. rewrite Hwk. apply Z.mod_pos_bound. lia.
Qed.

(** Proxy answers: the first ProxyResponse closes the channel the restart waits for and takes over the public address;
    a second one on KCP, QUIC or UDP, or one with another address on TCP, closes the closed channel and
    crashes the node. *)
Lemma proxy_response_once addr addr' sender sender' (s : state) srv :
  Servers (ProxyService s) !! Z.to_nat (WorkID (ProxyService s)) = Some srv ->
  ns_Finish s !! TCP = Some false -> ns_Finish s !! KCP = Some false -> ns_Finish s !! QUIC = Some false -> ns_Finish s !! UDP = Some false ->
  str "tcp://" ++ addr <> Address (ns_ID s) -> addr' <> addr ->
  (exists s1, TcpComponentReceive addr sender s = Ok s1 /\ Address (ns_ID s1) = str "tcp://" ++ addr /\
     BlockUntilProxyFinish TCP s = false /\ BlockUntilProxyFinish TCP s1 = true /\
     ProxyService s1 = mkProxyService (pEnable (ProxyService s))
       (<[Z.to_nat (WorkID (ProxyService s)) := mkProxy (IP srv) (hex_encode (NetKey (to_peer_id sender)))]> (Servers (ProxyService s)))
       (WorkID (ProxyService s)) /\
     TcpComponentReceive addr sender' s1 = Ok s1 /\ TcpComponentReceive addr' sender' s1 = Panic) /\
  (forall scheme protocol, In protocol [KCP; QUIC; UDP] -> exists s1, component_receive scheme protocol addr s = Ok s1 /\
     Address (ns_ID s1) = scheme ++ addr /\ BlockUntilProxyFinish protocol s = false /\ BlockUntilProxyFinish protocol s1 = true /\
     component_receive scheme protocol addr' s1 = Panic /\ component_receive scheme protocol addr s1 = Panic).
Proof.
  intros Ls Ft Fk Fq Fu Ha Hne. split.
  - unfold TcpComponentReceive at 1, FinishProxyServer, BlockUntilProxyFinish. rewrite decide_True by done. cbn [ns_Finish with_address]. rewrite Ft.
    cbn [ProxyService with_Finish with_address]. rewrite Ls. eexists. split; [reflexivity|].
    cbn [ns_ID with_proxy with_Finish with_address Address ns_Finish ProxyService]. rewrite lookup_insert_eq. split_and!; try done.
    + unfold TcpComponentReceive. cbn [ns_ID with_proxy with_Finish with_address Address]. by rewrite decide_False by tauto.
    + unfold TcpComponentReceive, FinishProxyServer. cbn [ns_ID with_proxy with_Finish with_address Address ns_Finish].
      rewrite decide_True by (intros E; by apply app_inv_head in E). by rewrite lookup_insert_eq.
  - intros scheme protocol Hin. assert (ns_Finish s !! protocol = Some false /\ known_protocol protocol = true) as [F Kn].
    { destruct Hin as [<-|[<-|[<-|[]]]]; done. }
    unfold component_receive, FinishProxyServer, BlockUntilProxyFinish. cbn [ns_Finish with_address]. rewrite F, Kn.
    eexists. split; [reflexivity|]. cbn [ns_ID with_Finish with_address Address ns_Finish]. rewrite lookup_insert_eq. done.
Qed.

(** Starting a KCP or QUIC proxy on a server that is not connected yet: the connection is dialed and registered, but the
    request is told to the empty peer identity and never written; KCP crashes when the dial fails. *)
Lemma proxy_request_lost nd t dial u k h (s : state) msg :
  cm_wf (ns_net s) -> GetWorkingProxyServer (ProxyService s) = Ok (u, k) -> ToUnified u = Some u -> u <> nAddress (ns_net s) -> u <> k -> k <> [] ->
  known_address u -> peers (mgr (ns_net s)) !! u = None -> peers (mgr (ns_net s)) !! k = None ->
  PrepareMessage pbMarshal nd t Background (Some ProxyRequest) = Ok msg -> dial u = Some h ->
  (KCPComponentStartup Marshal pbMarshal nd t dial s).1 = Ok (Err (EConn ENoConnection)) /\
  (QuicComponentStartup Marshal pbMarshal nd t dial s).1 = Ok (Err (EConn ENoConnection)) /\
  (KCPComponentStartup Marshal pbMarshal nd t (fun _ => None) s).1 = Panic.
Proof.
  intros W G U Hself Huk Hk Kn Pu Pk Pr D. destruct (dialed_client u k h (ns_net s) W U Hself Huk Hk Kn Pu Pk) as (p & n' & E & W' & _ & L & _).
  unfold KCPComponentStartup, QuicComponentStartup, component_startup. rewrite G, D, E. unfold tell. rewrite Pr.
  rewrite (tell_dialed Marshal u k p n' msg W' L). split_and!; [done..|].
  destruct (Kn u U) as (sc & Hs & _). unfold Client, getOrSetPeerClient, createPeerClient.
  rewrite (decide_False (P := k = [])), U, decide_False, Hs, decide_True, reset_self, Pk by done. done.
Qed.
End claims.

(** ** Witnesses: a node with three proxy servers, of which only the third answers *)

#[local] Existing Instance toy_addresses.
#[local] Existing Instance toy_address_laws.
#[local] Existing Instance marker_codec.
#[local] Existing Instance toy_policy.
#[local] Existing Instance toy_hash.

Definition toy_built : NodeState nat :=
  match (Build (fun l => l) toy_resolver (fun _ => false) toy_builder domainLookupCache).1 with
  | Ok s => s
  | _ => mkNodeState nat toy_net (mkID [] [] [] [] []) (mkKeyPair [] []) [] (nb_opts toy_builder) ∅ (mkProxyService false [] 0) ∅
           (mkSettings 0 false 0 0) (mkCA false [] [] []) None false
  end.

Definition proxied : NodeState nat :=
  EnableProxyMode true (SetProxyServer [mkProxy [1] []; mkProxy [2] []; mkProxy [3] []] toy_built).

Definition third_answers (a : key) : option handle := if decide (a = [3]) then Some toy_handle else None.

Lemma proxy_failover_witness :
  exists s' srv, TcpComponentStartup example_marshal toy_pbMarshal toy_node init_tables third_answers proxied
             = (Ok ([([1], false); ([2], false); ([3], true)], true), s') /\
    Servers (ProxyService proxied) !! Z.to_nat (WorkID (ProxyService s')) = Some srv /\ IP srv = [3].
Proof.
  destruct (TcpComponentStartup example_marshal toy_pbMarshal toy_node init_tables third_answers proxied) as [r s'] eqn:E.
  assert (r = Ok ([([1], false); ([2], false); ([3], true)], true)) as ->.
  { change r with (r, s').1. rewrite <- E. vm_compute. reflexivity. }
  destruct (proxy_failover example_marshal toy_pbMarshal toy_node init_tables third_answers proxied s'
    [([1], false); ([2], false); ([3], true)] true) as (_ & _ & _ & Hc & _).
  - split; [vm_compute; reflexivity|]. split; vm_compute; split; congruence.
  - left. exact E.
  - destruct (Hc eq_refl) as (srv & L & Hs). exists s', srv. split; [done|]. split; [exact Hs|]. cbn in L. by injection L as ->.
Defined.

Lemma proxy_response_once_witness :
  exists s1, KCPComponentReceive (str "1.2.3.4:5") proxied = Ok s1 /\ KCPComponentReceive (str "1.2.3.4:5") s1 = Panic /\
    BlockUntilProxyFinish KCP s1 = true.
Proof.
  destruct (proxy_response_once (str "1.2.3.4:5") (str "1.2.3.4:6") (nID toy_node) (nID toy_node) proxied (mkProxy [1] [])) as [_ H].
  - vm_compute. reflexivity.
  - vm_compute. reflexivity.
  - vm_compute. reflexivity.
  - vm_compute. reflexivity.
  - vm_compute. reflexivity.
  - vm_compute. discriminate.
  - vm_compute. discriminate.
  - destruct (H (str "kcp://") KCP) as (s1 & E & _ & _ & B & _ & P); [by left|]. exists s1. split; [exact E|]. split; [exact P|exact B].
Defined.
