(* ===== verification/Services.v ===== *)
(** * Services of components: keepalive loops and address mapping

    The loops of network/components/keepalive and proxyKeepalive over the ticks and stops they select, composed
    from the operations of Proxies, and network/components/addressmap. *)
From S2P Require Import Prelude GoUrl Peer Wire Opcode KeyPair Address ConnMgr Exchange Broadcast Node Proxies.
Local Open Scope Z_scope.
Local Open Scope go_scope.

Section services.
Context `{A : AddressOps} `{C : Codec} `{sp : SignaturePolicy} `{hp : HashPolicy} {Layer : Type}.
Variable Marshal : Message -> option (list Z).
Variable pbMarshal : proto -> option (list Z).
Abbreviation state := (NodeState Layer).

(** ** keepalive *)

(** What the select of a service finds: a tick, with the time, the time of the last message of each client, the proxy
    servers, and the order of the traversal of peers; or a closed channel. *)
Inductive ka_select := KTick (now : Z) (last : nat -> Z) (px : Proxy) (order : list key) | KStop | KKill.

(** keepaliveService: the clients reported at each tick.  A broadcast that panics or blocks ends it. *)
Fixpoint keepaliveService (p : keepalive) (nd : node) (t : tables) (sel : list ka_select) (n : Network) : res conn_err (list (list nat)) * Network :=
  match sel with
  | [] | KStop :: _ | KKill :: _ => (Ok [], n)
  | KTick now last px order :: sel =>
    match keepalive_tick Marshal pbMarshal p nd t now last px order n with
    | (Ok _, Ok silent, n) =>
      let '(r, n) := keepaliveService p nd t sel n in
      (match r with Ok l => Ok (silent :: l) | Err e => Err e | Panic => Panic end, n)
    | (Ok _, _, n) => (Panic, n)
    | (Err e, _, n) => (Err e, n)
    | (Panic, _, n) => (Panic, n)
    end
  end.

(** proxyKeepaliveService: how many ticks it worked. *)
Fixpoint proxyKeepaliveService (nd : node) (t : tables) (sel : list ka_select) (n : Network) : res ex_err nat * Network :=
  match sel with
  | [] | KStop :: _ | KKill :: _ => (Ok 0%nat, n)
  | KTick now last px _ :: sel =>
    match proxyKeepalive_tick Marshal pbMarshal nd t now last px n with
    | (Ok true, n) =>
      let '(r, n) := proxyKeepaliveService nd t sel n in
      (match r with Ok k => Ok (S k) | Err e => Err e | Panic => Panic end, n)
    | (Ok false, n) => (Ok 0%nat, n)
    | (Err e, n) => (Err e, n)
    | (Panic, n) => (Panic, n)
    end
  end.

(** Nothing is done after a stop. *)
Lemma services_stop p nd t sel rest n :
  keepaliveService p nd t (sel ++ KStop :: rest) n = keepaliveService p nd t sel n /\
  proxyKeepaliveService nd t (sel ++ KStop :: rest) n = proxyKeepaliveService nd t sel n.
Proof.
  split; revert n; (induction sel as [|[now last px order| |] sel IH]; intros n; [done| |done|done]);
    cbn [app keepaliveService proxyKeepaliveService].
  - destruct (keepalive_tick _ _ _ _ _ _ _ _ _ _) as [[[u|e|] [s|e'|]] n1]; try done. by rewrite IH.
  - destruct (proxyKeepalive_tick _ _ _ _ _ _ _ _) as [[[]|e|] n1]; try done. by rewrite IH.
Qed.

(** ** addressmap *)

Definition set_nAddress (a : key) (n : Network) : Network :=
  mkNetwork a (nConfig n) (writeBufferSize n) (nComponents n) (mgr n) (clients n) (conns n) (closed_socks n) (datagrams n) (events n) (killed n).

Definition addressmap_Startup (hash : list Z -> list Z) (MappingAddress : key) (s : state) : state :=
  match ParseAddress (nAddress (ns_net s)) with
  | None => s
  | Some _ =>
    match ParseAddress MappingAddress with
    | None => s
    | Some mapInfo =>
      let a := AddressInfo_String mapInfo in
      mkNodeState Layer (set_nAddress a (ns_net s)) (CreateID hash a (PublicKey (ns_keys s))) (ns_keys s) (ListenAddr s) (ns_opts s)
        (ns_transports s) (ProxyService s) (ns_Finish s) (ns_set s) (ns_CA s) (ns_ClientID s) (ns_listening s)
    end
  end.

(** The node takes the mapped address, and an identity with the same key under which it is found there; doing it
    again changes nothing. *)
Lemma addressmap_mapped hash m info s :
  is_Some (ParseAddress (nAddress (ns_net s))) -> ParseAddress m = Some info -> info_ok info ->
  let s' := addressmap_Startup hash m s in
  nAddress (ns_net s') = AddressInfo_String info /\ Address (ns_ID s') = AddressInfo_String info /\
  NetKey (ns_ID s') = PublicKey (ns_keys s) /\ Id (ns_ID s') = hash (PublicKey (ns_keys s)) /\
  addressmap_Startup hash m s' = s'.
Proof.
  intros [i0 E0] E Hi. cbv zeta. destruct (addressmap_Startup hash m s) as [net id keys la opts tr px fi st ca cl li] eqn:ES.
  unfold addressmap_Startup in ES. rewrite E0, E in ES. injection ES as <- <- <- <- <- <- <- <- <- <- <- <-.
  split_and!; try reflexivity. unfold addressmap_Startup. cbn [ns_net nAddress set_nAddress]. by rewrite ParseAddress_String, E.
Qed.
End services.
