(* ===== verification/Socks.v ===== *)
(** * protocols/socks: the SOCKS 5 client

    protocols/socks/tcp/dial.go and protocols/socks/common.  The dialogue of dial with a proxy server is a
    state transformer over the connection and the one buffer it uses throughout: [h_arr] is the array
    behind buf, as long as its capacity, and [h_len] the length of buf, so that slicing beyond the
    capacity panics and what an earlier message left in the buffer is still there.  What TCP dialing and the
    random number generator return, and which writes fail, are arguments. *)
From S2P Require Import Prelude Decimal GoText NetIP GoUrl Peer Wire.
Local Open Scope Z_scope.

(** ** Constants and types *)

Definition protocolVersion : Z := 5.
Definition authNone : Z := 0.
Definition authGssApi : Z := 1.
Definition authUsernamePassword : Z := 2.
Definition authUnavailable : Z := 255.
Definition commandTcpConnect : Z := 1.
Definition addressTypeIPv4 : Z := 1.
Definition addressTypeDomain : Z := 3.
Definition addressTypeIPv6 : Z := 4.
Definition statusRequestGranted : Z := 0.

Inductive socks_err :=
| EHostPort | EPort | EDialProxy | ERandom | ESocket
| ErrAuthFailed | ErrInvalidProxyResponse | ErrNoAcceptableAuthMethod
| EGeneralFailure | ENotAllowed | ENetworkUnreachable | EHostUnreachable | ERefused | ETtlExpired | ECommand | EAddressType.

(** statusErrors; a status that is not in the map is an invalid response. *)
Definition statusErrors (status : Z) : socks_err :=
  if status =? 1 then EGeneralFailure
  else if status =? 2 then ENotAllowed
  else if status =? 3 then ENetworkUnreachable
  else if status =? 4 then EHostUnreachable
  else if status =? 5 then ERefused
  else if status =? 6 then ETtlExpired
  else if status =? 7 then ECommand
  else if status =? 8 then EAddressType
  else ErrInvalidProxyResponse.

Record SocksProxy := mkSocksProxy { sAddr : list Z; Username : list Z; Password : list Z; TorIsolation : bool }.

Record ProxiedAddr := mkProxiedAddr { pNet : list Z; pHost : list Z; pPort : Z }.
Record ProxiedConn := mkProxiedConn { pConn : conn; RemoteAddress : ProxiedAddr; BoundAddr : ProxiedAddr }.

Definition ProxiedAddr_Network (a : ProxiedAddr) : list Z := pNet a.
(** fmt.Sprintf("%s:%d") *)
Definition ProxiedAddr_String (a : ProxiedAddr) : list Z := pHost a ++ str ":" ++ itoa (pPort a).

(** ** The dialogue *)

Record dialogue := mkDialogue {
  h_conn : conn;
  h_sent : list (list Z);
  h_closed : bool;
  h_arr : list Z;
  h_len : nat
}.

Definition H (A : Type) : Type := dialogue -> res socks_err A * dialogue.

Definition h_ret {A} (a : A) : H A := fun d => (Ok a, d).
Definition h_bind {A B} (m : H A) (k : A -> H B) : H B := fun d =>
  match m d with
  | (Ok a, d) => k a d
  | (Err e, d) => (Err e, d)
  | (Panic, d) => (Panic, d)
  end.

Declare Scope socks_scope.
Notation "'do!' x ':=' m 'in' k" := (h_bind m (fun x => k)) (at level 10, x pattern, m at level 100, k at level 200) : socks_scope.
Notation "m ';!' k" := (h_bind m (fun _ => k)) (at level 100, k at level 200, right associativity) : socks_scope.
Local Open Scope socks_scope.

(** conn.Close() and return err *)
Definition close_with {A} (e : socks_err) : H A := fun d =>
  (Err e, mkDialogue (h_conn d) (h_sent d) true (h_arr d) (h_len d)).

(** buf = buf[:n] *)
Definition reslice (n : nat) : H unit := fun d =>
  if (n <=? length (h_arr d))%nat then (Ok tt, mkDialogue (h_conn d) (h_sent d) (h_closed d) (h_arr d) n) else (Panic, d).

(** buf[i] = v *)
Definition put (i : nat) (v : Z) : H unit := fun d =>
  if (i <? h_len d)%nat then (Ok tt, mkDialogue (h_conn d) (h_sent d) (h_closed d) (<[i := v]> (h_arr d)) (h_len d)) else (Panic, d).

(** copy(buf[i:], l) *)
Definition copy_to (i : nat) (l : list Z) : H unit := fun d =>
  if (i <=? h_len d)%nat then
    let l := take (h_len d - i) l in
    (Ok tt, mkDialogue (h_conn d) (h_sent d) (h_closed d) (take i (h_arr d) ++ l ++ drop (i + length l) (h_arr d)) (h_len d))
  else (Panic, d).

Section dial.
(** Whether the write after [n] writes fails. *)
Variable write_fails : nat -> bool.

(** conn.Write(buf), closing the connection when it fails *)
Definition write_buf : H unit := fun d =>
  if write_fails (length (h_sent d)) then close_with ESocket d
  else (Ok tt, mkDialogue (h_conn d) (h_sent d ++ [take (h_len d) (h_arr d)]) (h_closed d) (h_arr d) (h_len d)).

(** io.ReadFull(conn, buf[:n]), closing the connection when it fails; the bytes read. *)
Definition read_buf (n : nat) : H (list Z) := fun d =>
  if (n <=? length (h_arr d))%nat then
    match ReadFull n (h_conn d) with
    | (Some x, c) => (Ok x, mkDialogue c (h_sent d) (h_closed d) (x ++ drop n (h_arr d)) (h_len d))
    | (None, c) => close_with ESocket (mkDialogue c (h_sent d) (h_closed d) (h_arr d) (h_len d))
    end
  else (Panic, d).

(** buf, as a slice *)
Definition get_buf : H (list Z) := fun d => (Ok (take (h_len d) (h_arr d)), d).

Definition greet (user : list Z) : H unit :=
  put 0 protocolVersion ;!
  (if bool_decide (user <> []) then
     reslice 4 ;! put 1 2 ;! put 2 authNone ;! put 3 authUsernamePassword
   else reslice 3 ;! put 1 1 ;! put 2 authNone) ;!
  write_buf.

Definition login (user pass : list Z) : H unit :=
  reslice (3 + length user + length pass) ;!
  put 0 1 ;!
  put 1 (u8 (Z.of_nat (length user))) ;!
  copy_to 2 user ;!
  put (2 + length user) (u8 (Z.of_nat (length pass))) ;!
  copy_to (3 + length user) pass ;!
  write_buf ;!
  do! r := read_buf 2 in
  if negb (nth 0 r 0 =? 1) then close_with ErrInvalidProxyResponse
  else if negb (nth 1 r 0 =? 0) then close_with ErrAuthFailed
  else h_ret tt.

Definition authenticate (user pass : list Z) : H unit :=
  do! r := read_buf 2 in
  if negb (nth 0 r 0 =? protocolVersion) then close_with ErrInvalidProxyResponse
  else
    let method := nth 1 r 0 in
    if method =? authUnavailable then close_with ErrNoAcceptableAuthMethod
    else if method =? authGssApi then close_with ErrNoAcceptableAuthMethod
    else if method =? authUsernamePassword then login user pass
    else if method =? authNone then h_ret tt
    else close_with ErrInvalidProxyResponse.

Definition command (host : list Z) (port : Z) : H unit :=
  reslice (7 + length host) ;!
  put 0 protocolVersion ;!
  put 1 commandTcpConnect ;!
  put 2 0 ;!
  put 3 addressTypeDomain ;!
  put 4 (u8 (Z.of_nat (length host))) ;!
  copy_to 5 host ;!
  put (5 + length host) (u8 (Z.shiftr port 8)) ;!
  put (6 + length host) (u8 (Z.land port 255)) ;!
  write_buf.

(** The host of the bound address.  net.IP(buf) is the whole slice, not the bytes just read. *)
Definition bound_host (atype : Z) : H (list Z) :=
  if atype =? addressTypeIPv4 then read_buf 4 ;! do! ip := get_buf in h_ret (IP_String ip)
  else if atype =? addressTypeIPv6 then read_buf 16 ;! do! ip := get_buf in h_ret (IP_String ip)
  else if atype =? addressTypeDomain then
    do! r := read_buf 1 in
    read_buf (Z.to_nat (nth 0 r 0))
  else close_with ErrInvalidProxyResponse.

Definition response : H (list Z * Z) :=
  do! r := read_buf 4 in
  if negb (nth 0 r 0 =? protocolVersion) then close_with ErrInvalidProxyResponse
  else if negb (nth 1 r 0 =? statusRequestGranted) then close_with (statusErrors (nth 1 r 0))
  else
    do! host := bound_host (nth 3 r 0) in
    do! r := read_buf 2 in
    h_ret (host, Z.lor (Z.shiftl (nth 0 r 0) 8) (nth 1 r 0)).

Definition handshake (user pass host : list Z) (port : Z) : H (list Z * Z) :=
  greet user ;! authenticate user pass ;! command host port ;! response.

(** make([]byte, 32+len(host)+len(user)+len(pass)) *)
Definition new_dialogue (c : conn) (user pass host : list Z) : dialogue :=
  let n := (32 + length host + length user + length pass)%nat in mkDialogue c [] false (replicate n 0) n.

(** user and pass; with TorIsolation they are random.  [random] is what reading 16 random bytes returns. *)
Definition credentials (p : SocksProxy) (random : option (list Z)) : option (list Z * list Z) :=
  if TorIsolation p then b ← random; Some (hex_encode (take 8 b), hex_encode (drop 8 b))
  else Some (Username p, Password p).

(** dial; the dialogue is there once the proxy server has been dialed. *)
Definition dial (p : SocksProxy) (network addr : list Z) (tcp : option conn) (random : option (list Z))
    : res socks_err ProxiedConn * option dialogue :=
  match SplitHostPort addr with
  | None => (Err EHostPort, None)
  | Some (host, strPort) =>
    match Atoi strPort with
    | None => (Err EPort, None)
    | Some port =>
      match tcp with
      | None => (Err EDialProxy, None)
      | Some c =>
        match credentials p random with
        | None => (Err ERandom, Some (mkDialogue c [] true [] 0))
        | Some (user, pass) =>
          match handshake user pass host port (new_dialogue c user pass host) with
          | (Ok (bhost, bport), d) =>
            (Ok (mkProxiedConn (h_conn d) (mkProxiedAddr network host port) (mkProxiedAddr network bhost bport)), Some d)
          | (Err e, d) => (Err e, Some d)
          | (Panic, d) => (Panic, Some d)
          end
        end
      end
    end
  end.
End dial.

(** Dial and DialTimeout differ in the timeout given to net.DialTimeout only. *)
Definition Dial := dial.
Definition DialTimeout := dial.

(** ** What the server sees *)

(** The messages of RFC 1928 and RFC 1929 as a server reads them. *)
Definition parse_greeting (b : list Z) : option (list Z) :=
  match b with
  | v :: n :: methods => if (v =? 5) && (Z.of_nat (length methods) =? n) then Some methods else None
  | _ => None
  end.

Definition parse_login (b : list Z) : option (list Z * list Z) :=
  match b with
  | v :: n :: rest =>
    if v =? 1 then
      match drop (Z.to_nat n) rest with
      | m :: pass => if (Z.of_nat (length pass) =? m) && (n <=? Z.of_nat (length rest)) then Some (take (Z.to_nat n) rest, pass) else None
      | [] => None
      end
    else None
  | _ => None
  end.

Definition parse_command (b : list Z) : option (list Z * Z) :=
  match b with
  | v :: cmd :: rsv :: atyp :: n :: rest =>
    if (v =? 5) && (cmd =? 1) && (rsv =? 0) && (atyp =? 3) then
      match drop (Z.to_nat n) rest with
      | [hi; lo] => Some (take (Z.to_nat n) rest, 256 * hi + lo)
      | _ => None
      end
    else None
  | _ => None
  end.

(** ** Filling the buffer from its start *)

Definition overlay (pre arr : list Z) : list Z := pre ++ drop (length pre) arr.

Lemma overlay_nil arr : overlay [] arr = arr.
Proof. done. Qed.

Lemma length_overlay pre arr : (length pre <= length arr)%nat -> length (overlay pre arr) = length arr.
Proof. intros L. unfold overlay. rewrite length_app, length_drop. lia. Qed.

Lemma h_bind_ok {A B} (m : H A) (k : A -> H B) d a d' : m d = (Ok a, d') -> h_bind m k d = k a d'.
Proof. intros E. unfold h_bind. by rewrite E. Qed.

Lemma bind_err {A B} (m : H A) (k : A -> H B) d e d' : m d = (Err e, d') -> h_bind m k d = (Err e, d').
Proof. intros E. unfold h_bind. by rewrite E. Qed.

Lemma bind_assoc {A B B'} (m : H A) (k : A -> H B) (k' : B -> H B') d :
  h_bind (h_bind m k) k' d = h_bind m (fun a => h_bind (k a) k') d.
Proof. unfold h_bind. by destruct (m d) as [[] ?]. Qed.

Lemma reslice_ok n c s b arr len : (n <= length arr)%nat -> reslice n (mkDialogue c s b arr len) = (Ok tt, mkDialogue c s b arr n).
Proof. intros L. unfold reslice. cbn. by rewrite (proj2 (Nat.leb_le _ _)). Qed.

Lemma put_ok i v c s b pre arr len :
  i = length pre -> (i < len)%nat -> (len <= length arr)%nat ->
  put i v (mkDialogue c s b (overlay pre arr) len) = (Ok tt, mkDialogue c s b (overlay (pre ++ [v]) arr) len).
Proof.
  intros -> L1 L2. unfold put. cbn [h_len h_conn h_sent h_closed h_arr]. rewrite (proj2 (Nat.ltb_lt _ _)) by done.
  do 2 f_equal. unfold overlay. rewrite insert_app_r_alt, Nat.sub_diag, length_app by done. cbn [length].
  destruct (drop (length pre) arr) as [|x rest] eqn:E; [apply (f_equal length) in E; rewrite length_drop in E; cbn in E; lia|].
  cbn. rewrite <- app_assoc. cbn. do 2 f_equal. rewrite <- drop_drop, E. done.
Qed.

Lemma copy_ok i l c s b pre arr len :
  i = length pre -> (i + length l <= len)%nat -> (len <= length arr)%nat ->
  copy_to i l (mkDialogue c s b (overlay pre arr) len) = (Ok tt, mkDialogue c s b (overlay (pre ++ l) arr) len).
Proof.
  intros -> L1 L2. unfold copy_to. cbn [h_len h_conn h_sent h_closed h_arr]. rewrite (proj2 (Nat.leb_le _ _)) by lia.
  rewrite (take_ge l) by lia. do 2 f_equal. unfold overlay. rewrite take_app_length, drop_app_ge, drop_drop, length_app by lia.
  rewrite <- app_assoc. do 2 f_equal. f_equal. lia.
Qed.

(** One step of filling the buffer after another. *)
Ltac fill :=
  repeat first
    [ rewrite bind_assoc
    | erewrite h_bind_ok by (apply put_ok; rewrite ?length_app; cbn [length]; lia)
    | erewrite h_bind_ok by (apply copy_ok; rewrite ?length_app; cbn [length]; lia)
    | erewrite h_bind_ok by (apply reslice_ok; rewrite ?length_overlay by (rewrite ?length_app; cbn [length]; lia); lia) ].

Definition greeting (user : list Z) : list Z := if bool_decide (user <> []) then [5; 2; 0; 2] else [5; 1; 0].
Definition login_msg (user pass : list Z) : list Z :=
  [1; u8 (Z.of_nat (length user))] ++ user ++ [u8 (Z.of_nat (length pass))] ++ pass.
Definition command_msg (host : list Z) (port : Z) : list Z :=
  [5; 1; 0; 3; u8 (Z.of_nat (length host))] ++ host ++ [u8 (Z.shiftr port 8); u8 (Z.land port 255)].

Section dialogues.
Variable write_fails : nat -> bool.

Lemma write_ok c s b pre arr :
  write_fails (length s) = false ->
  write_buf write_fails (mkDialogue c s b (overlay pre arr) (length pre)) = (Ok tt, mkDialogue c (s ++ [pre]) b (overlay pre arr) (length pre)).
Proof. intros W. unfold write_buf. cbn [h_sent h_len h_arr h_conn h_closed]. rewrite W. unfold overlay. by rewrite take_app_length. Qed.

Lemma read_ok n x y c s b arr len :
  clean c -> bytes_of c = x ++ y -> length x = n -> (n <= length arr)%nat ->
  exists c', read_buf n (mkDialogue c s b arr len) = (Ok x, mkDialogue c' s b (overlay x arr) len) /\ clean c' /\ bytes_of c' = y.
Proof.
  intros Hc E L La. destruct (rd_full n c x y Hc E L) as (c' & R & Hc' & E'). exists c'. split; [|done].
  unfold read_buf. cbn [h_arr h_conn h_sent h_closed h_len]. rewrite (proj2 (Nat.leb_le _ _)), R by done. unfold overlay. by rewrite L.
Qed.

Lemma greeting_length user : (3 <= length (greeting user) <= 4)%nat.
Proof. unfold greeting. case_bool_decide; cbn; lia. Qed.
Lemma login_length user pass : length (login_msg user pass) = (3 + length user + length pass)%nat.
Proof. unfold login_msg. rewrite !length_app. cbn [length]. lia. Qed.
Lemma command_length host port : length (command_msg host port) = (7 + length host)%nat.
Proof. unfold command_msg. rewrite !length_app. cbn [length]. lia. Qed.

(** The three messages are put together at the start of the buffer. *)
Lemma greet_fills user c s b arr len :
  (32 <= length arr)%nat -> (0 < len <= length arr)%nat ->
  greet write_fails user (mkDialogue c s b arr len) = write_buf write_fails (mkDialogue c s b (overlay (greeting user) arr) (length (greeting user))).
Proof.
  intros L32 Hl. unfold greet, greeting. change (mkDialogue c s b arr len) with (mkDialogue c s b (overlay [] arr) len). fill.
  destruct (bool_decide (user <> [])); fill; reflexivity.
Qed.

Lemma command_fills host port c s b arr len :
  (7 + length host <= length arr)%nat ->
  command write_fails host port (mkDialogue c s b arr len)
  = write_buf write_fails (mkDialogue c s b (overlay (command_msg host port) arr) (length (command_msg host port))).
Proof.
  intros L. unfold command. erewrite h_bind_ok by (apply reslice_ok; lia).
  change (mkDialogue c s b arr (7 + length host)) with (mkDialogue c s b (overlay [] arr) (7 + length host)). fill.
  match goal with |- context [overlay ?l arr] => assert (l = command_msg host port) as -> by (unfold command_msg; cbn; rewrite <- ?app_assoc; reflexivity) end.
  by rewrite command_length.
Qed.

Definition login_answer : H unit :=
  do! r := read_buf 2 in
  if negb (nth 0 r 0 =? 1) then close_with ErrInvalidProxyResponse
  else if negb (nth 1 r 0 =? 0) then close_with ErrAuthFailed
  else h_ret tt.

Lemma login_fills user pass c s b arr len :
  (3 + length user + length pass <= length arr)%nat ->
  login write_fails user pass (mkDialogue c s b arr len)
  = (write_buf write_fails ;! login_answer) (mkDialogue c s b (overlay (login_msg user pass) arr) (length (login_msg user pass))).
Proof.
  intros L. unfold login. erewrite h_bind_ok by (apply reslice_ok; lia).
  change (mkDialogue c s b arr (3 + length user + length pass)) with (mkDialogue c s b (overlay [] arr) (3 + length user + length pass)). fill.
  match goal with |- context [overlay ?l arr] => assert (l = login_msg user pass) as -> by (unfold login_msg; cbn; rewrite <- ?app_assoc; reflexivity) end.
  by rewrite login_length.
Qed.

Lemma login_ok user pass y c s b arr len :
  clean c -> bytes_of c = [1; 0] ++ y -> (32 + length user + length pass <= length arr)%nat -> write_fails (length s) = false ->
  exists c' arr' len', login write_fails user pass (mkDialogue c s b arr len) = (Ok tt, mkDialogue c' (s ++ [login_msg user pass]) b arr' len') /\
    clean c' /\ bytes_of c' = y /\ length arr' = length arr /\ (0 < len' <= length arr)%nat.
Proof.
  intros Hc E L W. pose proof (login_length user pass) as LM. rewrite login_fills by lia. erewrite h_bind_ok by (by apply write_ok).
  destruct (read_ok 2 [1; 0] y c (s ++ [login_msg user pass]) b (overlay (login_msg user pass) arr) (length (login_msg user pass)) Hc E eq_refl)
    as (c' & R & Hc' & E'); [rewrite length_overlay by lia; lia|].
  unfold login_answer. erewrite h_bind_ok by exact R. cbn [nth Z.eqb Pos.eqb negb]. eexists _, _, _. split; [reflexivity|].
  rewrite !length_overlay by (rewrite ?length_overlay by lia; cbn [length]; lia). split_and!; [done..|lia|lia].
Qed.

(** The replies of a server that lets the client in: without a login, or after one. *)
Inductive let_in (user pass : list Z) : list Z -> list (list Z) -> Prop :=
| in_none : let_in user pass [5; 0] []
| in_login : let_in user pass [5; 2; 1; 0] [login_msg user pass].

Lemma authenticate_ok user pass script msgs y c s b arr len :
  let_in user pass script msgs ->
  clean c -> bytes_of c = script ++ y -> (32 + length user + length pass <= length arr)%nat -> (0 < len <= length arr)%nat -> (forall i, write_fails i = false) ->
  exists c' arr' len', authenticate write_fails user pass (mkDialogue c s b arr len) = (Ok tt, mkDialogue c' (s ++ msgs) b arr' len') /\
    clean c' /\ bytes_of c' = y /\ length arr' = length arr /\ (0 < len' <= length arr)%nat.
Proof.
  intros HI Hc E L Hl W. unfold authenticate.
  destruct HI; [destruct (read_ok 2 [5; 0] y c s b arr len Hc E eq_refl ltac:(lia)) as (c' & R & Hc' & E')
               |destruct (read_ok 2 [5; 2] ([1; 0] ++ y) c s b arr len Hc E eq_refl ltac:(lia)) as (c' & R & Hc' & E')];
    erewrite h_bind_ok by exact R; cbn [nth Z.eqb Pos.eqb negb protocolVersion authUnavailable authGssApi authUsernamePassword authNone].
  - eexists _, _, _. split; [by rewrite app_nil_r|]. rewrite length_overlay by (cbn [length]; lia). done.
  - assert (length (overlay [5; 2] arr) = length arr) as LO by (apply length_overlay; cbn [length]; lia).
    destruct (login_ok user pass y c' s b (overlay [5; 2] arr) len Hc' E') as (c2 & arr2 & len2 & R2 & H2); [lia|done|].
    rewrite LO in H2. eauto 10.
Qed.

(** A granted request with a domain as the bound address. *)
Definition granted (rsv : Z) (name : list Z) (hi lo : Z) : list Z := [5; 0; rsv; 3; Z.of_nat (length name)] ++ name ++ [hi; lo].

Lemma response_ok rsv name hi lo y c s b arr len :
  clean c -> bytes_of c = granted rsv name hi lo ++ y -> (32 <= length arr)%nat -> (length name <= length arr)%nat ->
  exists c' arr', response (mkDialogue c s b arr len) = (Ok (name, Z.lor (Z.shiftl hi 8) lo), mkDialogue c' s b arr' len) /\ clean c' /\ bytes_of c' = y.
Proof.
  intros Hc E L Ln. unfold response.
  destruct (read_ok 4 [5; 0; rsv; 3] ([Z.of_nat (length name)] ++ name ++ [hi; lo] ++ y) c s b arr len Hc) as (c1 & R1 & Hc1 & E1); [|done|lia|].
  { rewrite E. unfold granted. cbn. by rewrite <- app_assoc. }
  erewrite h_bind_ok by exact R1. cbn [nth Z.eqb Pos.eqb negb protocolVersion statusRequestGranted]. unfold bound_host.
  cbn [Z.eqb Pos.eqb addressTypeIPv4 addressTypeIPv6 addressTypeDomain]. rewrite bind_assoc.
  set (arr1 := overlay _ arr). assert (length arr1 = length arr) as La1 by (apply length_overlay; cbn [length]; lia).
  destruct (read_ok 1 [Z.of_nat (length name)] (name ++ [hi; lo] ++ y) c1 s b arr1 len Hc1 E1 eq_refl ltac:(lia)) as (c2 & R2 & Hc2 & E2).
  erewrite h_bind_ok by exact R2. cbn [nth]. rewrite Nat2Z.id.
  set (arr2 := overlay _ arr1). assert (length arr2 = length arr) as La2 by (rewrite <- La1; apply length_overlay; cbn [length]; lia).
  destruct (read_ok (length name) name ([hi; lo] ++ y) c2 s b arr2 len Hc2 E2 eq_refl ltac:(lia)) as (c3 & R3 & Hc3 & E3).
  erewrite h_bind_ok by exact R3. set (arr3 := overlay name arr2). assert (length arr3 = length arr) as La3 by (rewrite <- La2; apply length_overlay; lia).
  destruct (read_ok 2 [hi; lo] y c3 s b arr3 len Hc3 E3 eq_refl ltac:(lia)) as (c4 & R4 & Hc4 & E4).
  erewrite h_bind_ok by exact R4. cbn [nth]. eexists _, _. split; [reflexivity|]. done.
Qed.

Lemma handshake_ok user pass host port script msgs rsv name hi lo y c :
  let_in user pass script msgs -> clean c -> bytes_of c = script ++ granted rsv name hi lo ++ y ->
  (length name <= 32 + length host + length user + length pass)%nat -> (forall i, write_fails i = false) ->
  exists d, handshake write_fails user pass host port (new_dialogue c user pass host) = (Ok (name, Z.lor (Z.shiftl hi 8) lo), d) /\
    h_sent d = [greeting user] ++ msgs ++ [command_msg host port] /\ h_closed d = false /\ clean (h_conn d) /\ bytes_of (h_conn d) = y.
Proof.
  intros HI Hc E Ln W. unfold handshake, new_dialogue. set (n := (32 + length host + length user + length pass)%nat).
  pose proof (greeting_length user) as LG. pose proof (command_length host port) as LM.
  assert (length (replicate n 0) = n) as Ln0 by apply length_replicate.
  rewrite (h_bind_ok _ _ _ _ _ (eq_trans (greet_fills user c [] false (replicate n 0) n ltac:(lia) ltac:(lia)) (write_ok c [] false _ _ (W _)))).
  set (a1 := overlay _ (replicate n 0)). assert (length a1 = n) as L1 by (rewrite <- Ln0; apply length_overlay; lia).
  destruct (authenticate_ok user pass script msgs (granted rsv name hi lo ++ y) c [greeting user] false a1 (length (greeting user)) HI Hc E) as
    (c2 & a2 & l2 & R2 & Hc2 & E2 & L2 & Hl2); [lia|lia|done|].
  rewrite app_nil_l. erewrite h_bind_ok by exact R2.
  rewrite (h_bind_ok _ _ _ _ _ (eq_trans (command_fills host port c2 _ false a2 l2 ltac:(lia)) (write_ok c2 _ false _ _ (W _)))).
  set (a3 := overlay _ a2). assert (length a3 = n) as L3 by (rewrite <- L1, <- L2; apply length_overlay; lia).
  destruct (response_ok rsv name hi lo y c2 (([greeting user] ++ msgs) ++ [command_msg host port]) false a3 (length (command_msg host port)) Hc2 E2)
    as (c4 & a4 & R4 & Hc4 & E4); [lia..|].
  eexists. split; [exact R4|]. cbn. done.
Qed.
End dialogues.

(** *** The server reads what the client means *)

Lemma greeting_parses user : parse_greeting (greeting user) = Some (if bool_decide (user <> []) then [0; 2] else [0]).
Proof. unfold greeting. by case_bool_decide. Qed.

Lemma login_parses user pass :
  (length user < 256)%nat -> (length pass < 256)%nat -> parse_login (login_msg user pass) = Some (user, pass).
Proof.
  intros Lu Lp. unfold login_msg. rewrite !u8_small by lia. cbn [parse_login app Z.eqb Pos.eqb]. rewrite Nat2Z.id.
  rewrite drop_app_length, take_app_length. rewrite Z.eqb_refl. rewrite length_app. cbn [length].
  rewrite (proj2 (Z.leb_le _ _)) by lia. done.
Qed.

Lemma command_parses host port :
  (length host < 256)%nat -> 0 <= port < 65536 -> parse_command (command_msg host port) = Some (host, port).
Proof.
  intros Lh Hp. unfold command_msg. rewrite (u8_small (Z.of_nat _)) by lia. cbn [parse_command app Z.eqb Pos.eqb andb]. rewrite Nat2Z.id.
  rewrite drop_app_length, take_app_length. do 2 f_equal. unfold u8.
  rewrite Z.shiftr_div_pow2 by lia. change 255 with (Z.ones 8). rewrite Z.land_ones by lia. rewrite Z.mod_mod by lia.
  change (2 ^ 8) with 256. Z.div_mod_to_equations. lia.
Qed.

Lemma be16 hi lo : 0 <= hi < 256 -> 0 <= lo < 256 -> Z.lor (Z.shiftl hi 8) lo = 256 * hi + lo.
Proof.
  intros Hh Hl. rewrite Z.lor_comm, (lor_add_disjoint lo hi 8) by lia. lia.
Qed.


(** ** Every way it can end *)

(** From a state with an open connection and a buffer of capacity [cap]: a normal end keeps it so and has
    consumed a prefix of what the server sent, an error has closed the connection. *)
Definition tame_end {A} (cap : nat) (d : dialogue) (r : res socks_err A * dialogue) : Prop :=
  match r with
  | (Ok _, d') => length (h_arr d') = cap /\ (0 < h_len d' <= cap)%nat /\ h_closed d' = false /\
      exists pre, bytes_of (h_conn d) = pre ++ bytes_of (h_conn d')
  | (Err _, d') => h_closed d' = true
  | (Panic, _) => False
  end.
Definition tame {A} (cap : nat) (m : H A) : Prop := forall d,
  length (h_arr d) = cap -> (0 < h_len d <= cap)%nat -> h_closed d = false -> tame_end cap d (m d).

Lemma tame_bind {A B} cap (m : H A) (k : A -> H B) : tame cap m -> (forall a, tame cap (k a)) -> tame cap (h_bind m k).
Proof.
  intros Hm Hk d L1 L2 Hc. unfold h_bind. specialize (Hm d L1 L2 Hc). destruct (m d) as [[a|e|] d']; cbn in Hm; [|done..].
  destruct Hm as (H1 & H2 & H3 & pre & E). specialize (Hk a d' H1 H2 H3). unfold tame_end in *.
  destruct (k a d') as [[b|e|] d2]; [|done..]. destruct Hk as (H4 & H5 & H6 & pre' & E'). split_and!; try lia; try done.
  exists (pre ++ pre'). by rewrite E, E', app_assoc.
Qed.

Lemma tame_ret {A} cap (a : A) : tame cap (h_ret a).
Proof. intros d L1 L2 Hc. cbn. split_and!; try done; try lia. by exists []. Qed.

Lemma tame_close {A} cap e : tame cap (close_with (A := A) e).
Proof. intros d _ _ _. done. Qed.

Lemma tame_get cap : tame cap get_buf.
Proof. intros d L1 L2 Hc. cbn. split_and!; try done; try lia. by exists []. Qed.

Section ends.
Variable write_fails : nat -> bool.

Lemma tame_read cap n : (n <= cap)%nat -> tame cap (read_buf n).
Proof.
  intros Hn d L1 L2 Hc. unfold read_buf. rewrite (proj2 (Nat.leb_le _ _)) by lia.
  destruct (ReadFull n (h_conn d)) as [[x|] c] eqn:R; [|done].
  apply rd_sound in R as [Lx E]. cbn. rewrite length_app, length_drop. split_and!; try done; try lia. by exists x.
Qed.

Lemma tame_write cap : tame cap (write_buf write_fails).
Proof.
  intros d L1 L2 Hc. unfold write_buf. destruct (write_fails _); [done|]. cbn. split_and!; try done; try lia. by exists [].
Qed.

(** A buffer that has been filled. *)
Lemma tame_filled {A} cap (k : H A) msg c s arr :
  (0 < length msg <= cap)%nat -> length arr = cap -> tame cap k -> forall len,
  tame_end cap (mkDialogue c s false arr len) (k (mkDialogue c s false (overlay msg arr) (length msg))).
Proof. intros Lm La Hk len. apply (Hk (mkDialogue c s false (overlay msg arr) (length msg))); cbn; [rewrite length_overlay; lia|lia|done]. Qed.

Lemma tame_greet cap user : (32 <= cap)%nat -> tame cap (greet write_fails user).
Proof.
  intros L32 [c s b arr len] La Hl Hc. cbn in La, Hl, Hc. subst b. pose proof (greeting_length user).
  rewrite greet_fills by lia. apply tame_filled; [lia|done|apply tame_write].
Qed.

Lemma tame_login cap user pass : (32 + length user + length pass <= cap)%nat -> tame cap (login write_fails user pass).
Proof.
  intros Lc [c s b arr len] La Hl Hc. cbn in La, Hl, Hc. subst b. pose proof (login_length user pass).
  rewrite login_fills by lia. apply tame_filled; [lia|done|]. apply tame_bind; [apply tame_write|]. intros _.
  apply tame_bind; [apply tame_read; lia|]. intros r. repeat case_match; first [apply tame_close|apply tame_ret].
Qed.

Lemma tame_authenticate cap user pass : (32 + length user + length pass <= cap)%nat -> tame cap (authenticate write_fails user pass).
Proof.
  intros Lc. apply tame_bind; [apply tame_read; lia|]. intros r. cbv zeta.
  repeat case_match; first [apply tame_close|apply tame_ret|by apply tame_login].
Qed.

Lemma tame_command cap host port : (32 + length host <= cap)%nat -> tame cap (command write_fails host port).
Proof.
  intros Lc [c s b arr len] La Hl Hc. cbn in La, Hl, Hc. subst b. pose proof (command_length host port).
  rewrite command_fills by lia. apply tame_filled; [lia|done|apply tame_write].
Qed.

(** Going on tamely from a state that is reached after some bytes. *)
Lemma tame_resume {A} cap d d' pre (m : H A) (Q : Prop) :
  bytes_of (h_conn d) = pre ++ bytes_of (h_conn d') -> length (h_arr d') = cap -> (0 < h_len d' <= cap)%nat -> h_closed d' = false ->
  tame cap m -> match m d' with (Panic, _) => Q | r => tame_end cap d r end.
Proof.
  intros E La Hl Hc Hm. specialize (Hm d' La Hl Hc). destruct (m d') as [[a|e|] d2]; [|done..].
  destruct Hm as (H1 & H2 & H3 & pre' & E'). split_and!; try done; try lia. exists (pre ++ pre'). by rewrite E, E', app_assoc.
Qed.

Lemma read_cases cap n d :
  (n <= cap)%nat -> length (h_arr d) = cap -> (0 < h_len d <= cap)%nat -> h_closed d = false ->
  (exists d', read_buf n d = (Err ESocket, d') /\ h_closed d' = true) \/
  (exists x d', read_buf n d = (Ok x, d') /\ length x = n /\ bytes_of (h_conn d) = x ++ bytes_of (h_conn d') /\
     length (h_arr d') = cap /\ (0 < h_len d' <= cap)%nat /\ h_closed d' = false).
Proof.
  intros Hn La Hl Hc. unfold read_buf. rewrite (proj2 (Nat.leb_le _ _)) by lia.
  destruct (ReadFull n (h_conn d)) as [[x|] c] eqn:R; [right|left; eexists; done].
  apply rd_sound in R as [Lx E]. eexists _, _. split; [reflexivity|]. cbn. rewrite length_app, length_drop. split_and!; try done; lia.
Qed.

Lemma tame_port cap (h : list Z) : (2 <= cap)%nat -> tame cap (do! r := read_buf 2 in h_ret (h, Z.lor (Z.shiftl (nth 0 r 0) 8) (nth 1 r 0))).
Proof. intros L. apply tame_bind; [by apply tame_read|]. intros r. apply tame_ret. Qed.

Lemma tame_ip cap n : (n <= cap)%nat -> tame cap (read_buf n ;! do! ip := get_buf in h_ret (IP_String ip)).
Proof. intros L. apply tame_bind; [by apply tame_read|]. intros _. apply tame_bind; [apply tame_get|]. intros ip. apply tame_ret. Qed.

(** The answer to the request: it panics only on a domain longer than the buffer. *)
Lemma response_end cap d :
  (32 <= cap)%nat -> length (h_arr d) = cap -> (0 < h_len d <= cap)%nat -> h_closed d = false ->
  match response d with
  | (Panic, _) => exists rsv n post, bytes_of (h_conn d) = [5; 0; rsv; 3; n] ++ post /\ Z.of_nat cap < n
  | r => tame_end cap d r
  end.
Proof.
  intros L32 La Hl Hc. unfold response.
  destruct (read_cases cap 4 d ltac:(lia) La Hl Hc) as [(d' & R & C)|(x & d1 & R & Lx & E & La1 & Hl1 & Hc1)].
  { by rewrite (bind_err _ _ _ _ _ R). }
  rewrite (h_bind_ok _ _ _ _ _ R). destruct x as [|x0 [|x1 [|x2 [|x3 [|]]]]]; try done. cbn [nth].
  unfold protocolVersion, statusRequestGranted. destruct (Z.eqb_spec x0 5) as [->|]; [|done]. destruct (Z.eqb_spec x1 0) as [->|]; [|done].
  cbn [negb]. unfold bound_host, addressTypeIPv4, addressTypeIPv6, addressTypeDomain.
  destruct (Z.eqb_spec x3 1) as [->|]; [|destruct (Z.eqb_spec x3 4) as [->|]; [|destruct (Z.eqb_spec x3 3) as [->|]]]; [..|done].
  - apply (tame_resume cap d d1 _ _ _ E La1 Hl1 Hc1). apply tame_bind; [apply tame_ip; lia|]. intros h. apply tame_port. lia.
  - apply (tame_resume cap d d1 _ _ _ E La1 Hl1 Hc1). apply tame_bind; [apply tame_ip; lia|]. intros h. apply tame_port. lia.
  - rewrite bind_assoc. destruct (read_cases cap 1 d1 ltac:(lia) La1 Hl1 Hc1) as [(d' & R1 & C)|(y & d2 & R1 & Ly & E1 & La2 & Hl2 & Hc2)].
    { by rewrite (bind_err _ _ _ _ _ R1). }
    rewrite (h_bind_ok _ _ _ _ _ R1). destruct y as [|m [|]]; try done. cbn [nth].
    destruct (Nat.leb_spec (Z.to_nat m) cap) as [Ln|Ln].
    + apply (tame_resume cap d d2 ([5; 0; x2; 3] ++ [m]) _ _ ltac:(by rewrite E, E1, app_assoc) La2 Hl2 Hc2).
      apply tame_bind; [by apply tame_read|]. intros h. apply tame_port. lia.
    + unfold h_bind, read_buf. rewrite (proj2 (Nat.leb_gt _ _)) by lia. exists x2, m, (bytes_of (h_conn d2)). split; [by rewrite E, E1|lia].
Qed.

(** C38. How dialing through a SOCKS proxy ends.  Whatever the server sends and whichever write fails:
    an error before the proxy server is reached leaves no connection; an error afterwards has closed
    the connection, and a success has not.  The client panics only when a granted request comes with a
    domain name longer than its buffer of 32 + |host| + |user| + |pass| bytes, for which an answer of a
    server suffices. *)
Theorem socks_dial_ends p network addr tcp random :
  match dial write_fails p network addr tcp random with
  | (Ok pc, Some d) => h_closed d = false /\ pConn pc = h_conn d
  | (Ok _, None) => False
  | (Err e, None) => e = EHostPort \/ e = EPort \/ (e = EDialProxy /\ tcp = None)
  | (Err _, Some d) => h_closed d = true
  | (Panic, _) => exists c host port user pass pre rsv n post, tcp = Some c /\
      SplitHostPort addr = Some (host, port) /\ credentials p random = Some (user, pass) /\
      bytes_of c = pre ++ [5; 0; rsv; 3; n] ++ post /\ Z.of_nat (32 + length host + length user + length pass) < n
  end.
Proof.
  unfold dial. destruct (SplitHostPort addr) as [[host sport]|] eqn:ES; [|auto]. destruct (Atoi sport) as [port|]; [|auto].
  destruct tcp as [c|]; [|auto]. destruct (credentials p random) as [[user pass]|] eqn:EC; [|done].
  set (cap := (32 + length host + length user + length pass)%nat). unfold handshake.
  set (d0 := new_dialogue c user pass host).
  assert (tame cap (greet write_fails user ;! authenticate write_fails user pass ;! command write_fails host port)) as Ht.
  { apply tame_bind; [apply tame_greet; lia|intros _]. apply tame_bind; [apply tame_authenticate; lia|intros _; apply tame_command; lia]. }
  specialize (Ht d0 ltac:(apply length_replicate) ltac:(cbn; lia) eq_refl).
  assert ((greet write_fails user ;! authenticate write_fails user pass ;! command write_fails host port ;! response) d0 =
          ((greet write_fails user ;! authenticate write_fails user pass ;! command write_fails host port) ;! response) d0) as ->.
  { unfold h_bind. by repeat case_match. }
  unfold h_bind at 1. destruct ((greet write_fails user ;! _) d0) as [[[]|e|] d1]; [|done..].
  destruct Ht as (La & Hl & Hc & pre & E). pose proof (response_end cap d1 ltac:(lia) La Hl Hc) as HR.
  destruct (response d1) as [[[bh bp]|e|] d2]; [|done|].
  - cbn in HR. naive_solver.
  - destruct HR as (rsv & n & post & E' & Hn). exists c, host, sport, user, pass, pre, rsv, n, post. split_and!; try done.
    cbn [d0 new_dialogue h_conn] in E. by rewrite E, E'.
Qed.
End ends.

(** A server that answers with an IPv4 address [a]: the bound address is what net.IP makes of the whole buffer,
    with the rest of the request in it; unless the host has nine bytes it is printed as a question mark and
    hexadecimal digits. *)
Lemma response_ipv4 host port rsv a hi lo y c s arr :
  clean c -> bytes_of c = [5; 0; rsv; 1] ++ a ++ [hi; lo] ++ y -> length a = 4%nat -> (32 + length host <= length arr)%nat ->
  let ip := a ++ drop 4 (command_msg host port) in
  (exists d, response (mkDialogue c s false (overlay (command_msg host port) arr) (length (command_msg host port)))
     = (Ok (IP_String ip, Z.lor (Z.shiftl hi 8) lo), d)) /\
  (length host <> 9%nat -> exists digits, IP_String ip = 63 :: digits).
Proof.
  intros Hc E Ha L ip. pose proof (command_length host port) as LM. split.
  - unfold response. set (arr0 := overlay _ arr). assert (length arr0 = length arr) as L0 by (apply length_overlay; lia).
    destruct (read_ok 4 [5; 0; rsv; 1] (a ++ [hi; lo] ++ y) c s false arr0 (length (command_msg host port)) Hc E eq_refl ltac:(lia)) as (c1 & R1 & Hc1 & E1).
    rewrite (h_bind_ok _ _ _ _ _ R1). cbn [nth Z.eqb Pos.eqb negb protocolVersion statusRequestGranted]. unfold bound_host.
    cbn [Z.eqb Pos.eqb addressTypeIPv4]. rewrite bind_assoc. set (arr1 := overlay _ arr0).
    assert (length arr1 = length arr) as L1 by (rewrite <- L0; apply length_overlay; cbn [length]; lia).
    destruct (read_ok 4 a ([hi; lo] ++ y) c1 s false arr1 (length (command_msg host port)) Hc1 E1 Ha ltac:(lia)) as (c2 & R2 & Hc2 & E2).
    rewrite (h_bind_ok _ _ _ _ _ R2), bind_assoc. set (arr2 := overlay a arr1).
    assert (length arr2 = length arr) as L2 by (rewrite <- L1; apply length_overlay; lia).
    unfold get_buf at 1. unfold h_bind at 1. cbn [h_len h_arr]. unfold h_bind at 1. cbn [h_ret].
    assert (take (length (command_msg host port)) arr2 = ip) as ->.
    { unfold ip, arr2, arr1, arr0, overlay. rewrite Ha. change (length [5; 0; rsv; 1]) with 4%nat.
      rewrite drop_app_ge by (cbn; lia). change (length [5; 0; rsv; 1]) with 4%nat. rewrite Nat.sub_diag, drop_0, drop_app_le by lia.
      rewrite take_app_ge by lia. f_equal. rewrite Ha, take_app_le by (rewrite length_drop; lia). apply take_ge. rewrite length_drop. lia. }
    destruct (read_ok 2 [hi; lo] y c2 s false arr2 (length (command_msg host port)) Hc2 E2 eq_refl ltac:(lia)) as (c3 & R3 & _ & _).
    eexists. rewrite (h_bind_ok _ _ _ _ _ R3). reflexivity.
  - intros N9. assert (length ip = 7 + length host)%nat as Li by (unfold ip; rewrite length_app, length_drop; lia).
    unfold IP_String. rewrite decide_False by (intros ->; cbn in Li; lia). unfold To4.
    rewrite (proj2 (Nat.eqb_neq (length ip) 4)) by lia. rewrite (proj2 (Nat.eqb_neq (length ip) 16)) by lia. cbn [andb negb].
    rewrite decide_False by (intros F; by apply F). eauto.
Qed.

(** ** Examples *)

Definition toy_proxy : SocksProxy := mkSocksProxy (str "10.0.0.1:1080") (str "me") (str "pw") false.
Definition no_failure (i : nat) : bool := false.

(** A server that asks for a login; its answer and the first bytes of the stream arrive in pieces. *)
Definition toy_server : conn := [([5], false); ([2; 1], false); ([0; 5; 0; 0], false); ([3; 2; 97; 98; 31; 144; 7], false); ([8], false)].


(** The bound address of a server that answers with an IPv4 address (10.0.0.2, port 8080) is not that
    address: net.IP is applied to the whole buffer, with the rest of the request in it. *)
Example socks_ipv4 :
  match dial no_failure toy_proxy (str "tcp") (str "example.org:80") (Some [([5; 0; 5; 0; 0; 1; 10; 0; 0; 2; 31; 144], false)]) None with
  | (Ok pc, _) => ProxiedAddr_String (BoundAddr pc)
  | _ => []
  end = str "?0a0000020b6578616d706c652e6f72670050:8080".
Proof. vm_compute. reflexivity. Qed.

(** A domain of 255 bytes crashes the client. *)
Example socks_panic :
  (dial no_failure toy_proxy (str "tcp") (str "example.org:80") (Some [([5; 0; 5; 0; 0; 3; 255], false); (replicate 257 65, false)]) None).1 = Panic.
Proof. vm_compute. reflexivity. Qed.

(** A host of 256 bytes is announced with length 0: the server reads another request. *)
Example socks_long_host : parse_command (command_msg (replicate 256 97) 80) = None.
Proof. vm_compute. reflexivity. Qed.

(** Ports are cut to 16 bits. *)
Example socks_port : parse_command (command_msg (str "a") 65616) = Some (str "a", 80).
Proof. vm_compute. reflexivity. Qed.
