(* ===== verification/FlowMetrics.v ===== *)
(** * metric: bandwidth counters

    metric/go-flow-metrics (meters and the sweeper that takes their snapshots) and
    metric/carrier-metrics/bw_stats.go.  Meters are marked by any goroutine, without a lock, while the sweeper
    walks over them and takes idle ones out.  Each atomic operation on an accumulator is a step of its own;
    [sw_pc] is where the sweeper is between them, so that a Mark can happen at every point.  The registration
    channel and the goroutines that have still to send on it, or wait for room, are one queue, of which any
    element may be the next to be registered.  [Meter] cells are named by numbers, as the
    pointers of the source. *)
From S2P Require Import Prelude GoFloat.
Local Open Scope Z_scope.

(** ** Meters and the sweeper *)

(** A meter with its snapshot. *)
Record Meter := mkMeter { accumulator : Z; Total : Z; Rate : float64 }.

Definition new_Meter : Meter := mkMeter 0 0 (S754_zero false).

(** 1e-13 *)
Definition IdleRate : float64 := S754_finite false 7922816251426434 (-96).
(** 1 - math.Exp(-1.0); the value of Exp is a constant of the program. *)
Definition exp_minus_1 : float64 := S754_finite false 6627126856707896 (-54).
Definition alpha : float64 := fsub (of_int 1) exp_minus_1.

(** Where update is: before or after the element i of sw.meters, between its atomic operations, or
    nowhere. *)
Inductive sweep_pc :=
| Waiting
| At (i : nat)
| ToSwap (i : nat) (total : Z)
| Swapped (i : nat) (swappedTotal : Z)
| ToUndo (i : nat)
| ToRemove (i : nat).

Record sweeper := mkSweeper {
  sw_meters : list nat;
  sw_queue : list nat;
  sw_pc_ : sweep_pc;
  sw_cells : gmap nat Meter
}.

Definition cell (m : nat) (s : sweeper) : Meter := default new_Meter (sw_cells s !! m).
Definition set_cell (m : nat) (c : Meter) (s : sweeper) : sweeper :=
  mkSweeper (sw_meters s) (sw_queue s) (sw_pc_ s) (<[m := c]> (sw_cells s)).
Definition set_pc (pc : sweep_pc) (s : sweeper) : sweeper := mkSweeper (sw_meters s) (sw_queue s) pc (sw_cells s).

Definition add_acc (n : Z) (c : Meter) : Meter := mkMeter (u64 (accumulator c + n)) (Total c) (Rate c).

(** Mark: the one who brings the accumulator above zero registers the meter. *)
Definition Mark (m : nat) (count : Z) (s : sweeper) : sweeper :=
  if 0 <? count then
    let c := add_acc count (cell m s) in
    let s := set_cell m c s in
    if accumulator c =? count then mkSweeper (sw_meters s) (sw_queue s ++ [m]) (sw_pc_ s) (sw_cells s) else s
  else s.

Definition Snapshot (m : nat) (s : sweeper) : float64 * Z := (Rate (cell m s), Total (cell m s)).

(** register: add back the snapshot's total. *)
Definition register (m : nat) (s : sweeper) : sweeper :=
  let s := set_cell m (add_acc (Total (cell m s)) (cell m s)) s in
  mkSweeper (sw_meters s ++ [m]) (sw_queue s) (sw_pc_ s) (sw_cells s).

(** The new rate of a meter for [diff] events in the last second. *)
Definition new_rate (rate : float64) (diff : Z) : float64 :=
  if SFeqb rate (S754_zero false) then of_int diff
  else fadd rate (fmul alpha (fsub (of_int diff) rate)).

(** The head of the loop of update for the meter at [i]: load, snapshot, and whether it is idle. *)
Definition update_load (i : nat) (m : nat) (s : sweeper) : sweeper :=
  let c := cell m s in
  let total := accumulator c in
  let diff := u64 (total - Total c) in
  let c := mkMeter (accumulator c) total (new_rate (Rate c) diff) in
  set_pc (if SFltb IdleRate (Rate c) then At (S i) else ToSwap i total) (set_cell m c s).

Definition update_swap (i : nat) (total : Z) (m : nat) (s : sweeper) : sweeper :=
  let c := cell m s in
  let swappedTotal := accumulator c in
  set_pc (if total <? swappedTotal then Swapped i swappedTotal else ToRemove i) (set_cell m (mkMeter 0 (Total c) (Rate c)) s).

Definition update_add_back (i : nat) (swappedTotal : Z) (m : nat) (s : sweeper) : sweeper :=
  let c := add_acc swappedTotal (cell m s) in
  set_pc (if accumulator c =? swappedTotal then At (S i) else ToUndo i) (set_cell m c s).

(** atomic.AddUint64(&m.accumulator, ^uint64(m.snapshot.Total-1)) *)
Definition update_undo (i : nat) (m : nat) (s : sweeper) : sweeper :=
  set_pc (ToRemove i) (set_cell m (add_acc (2 ^ 64 - 1 - u64 (Total (cell m s) - 1)) (cell m s)) s).

(** Reset the rate and put the last meter in the place of this one. *)
Definition update_remove (i : nat) (m : nat) (s : sweeper) : sweeper :=
  let c := cell m s in
  let s := set_cell m (mkMeter (accumulator c) (Total c) (S754_zero false)) s in
  match last (sw_meters s) with
  | Some z => mkSweeper (take (length (sw_meters s) - 1) (<[i := z]> (sw_meters s))) (sw_queue s) (At i) (sw_cells s)
  | None => s
  end.

(** ** The steps of all goroutines *)

Inductive flow_step : sweeper -> option (nat * Z) -> sweeper -> Prop :=
| fs_mark m count s : 0 < count -> flow_step s (Some (m, count)) (Mark m count s)
| fs_register m q1 q2 s :
    sw_pc_ s = Waiting -> sw_queue s = q1 ++ m :: q2 ->
    flow_step s None (register m (mkSweeper (sw_meters s) (q1 ++ q2) (sw_pc_ s) (sw_cells s)))
| fs_tick s : sw_pc_ s = Waiting -> sw_meters s <> [] -> flow_step s None (set_pc (At 0) s)
| fs_load i m s : sw_pc_ s = At i -> sw_meters s !! i = Some m -> flow_step s None (update_load i m s)
| fs_swap i total m s : sw_pc_ s = ToSwap i total -> sw_meters s !! i = Some m -> flow_step s None (update_swap i total m s)
| fs_add_back i sw m s : sw_pc_ s = Swapped i sw -> sw_meters s !! i = Some m -> flow_step s None (update_add_back i sw m s)
| fs_undo i m s : sw_pc_ s = ToUndo i -> sw_meters s !! i = Some m -> flow_step s None (update_undo i m s)
| fs_remove i m s : sw_pc_ s = ToRemove i -> sw_meters s !! i = Some m -> flow_step s None (update_remove i m s)
| fs_end i s : sw_pc_ s = At i -> sw_meters s !! i = None -> flow_step s None (set_pc Waiting s).

Definition flow_init : sweeper := mkSweeper [] [] Waiting ∅.

(** Runs, with the marks made so far. *)
Inductive flow_run : list (nat * Z) -> sweeper -> Prop :=
| fr_init : flow_run [] flow_init
| fr_step marks s l s' : flow_run marks s -> flow_step s l s' ->
    flow_run (match l with Some mc => marks ++ [mc] | None => marks end) s'.

(** The sum of the marks of a meter. *)
Definition marked (m : nat) (marks : list (nat * Z)) : Z :=
  foldr (fun '(m', n) acc => if decide (m' = m) then n + acc else acc) 0 marks.

(** ** No mark is lost *)

Definition pc_index (pc : sweep_pc) : option nat :=
  match pc with ToSwap i _ | Swapped i _ | ToUndo i | ToRemove i => Some i | _ => None end.

(** The meter between whose atomic operations the sweeper is. *)
Definition focus (s : sweeper) : option nat := i ← pc_index (sw_pc_ s); sw_meters s !! i.

(** A meter that the sweeper is not at: registered with everything in its accumulator, or not registered
    with everything split between snapshot and accumulator, and queued exactly when there is something in
    the accumulator. *)
Definition at_rest (T : Z) (m : nat) (s : sweeper) : Prop :=
  (m ∈ sw_meters s -> (m ∉ sw_queue s) /\ accumulator (cell m s) = T /\ 0 < T /\ 0 <= Total (cell m s) <= T) /\
  (m ∉ sw_meters s -> T = Total (cell m s) + accumulator (cell m s) /\ 0 <= Total (cell m s) /\ 0 <= accumulator (cell m s) /\
     (0 < accumulator (cell m s) <-> m ∈ sw_queue s)).

(** A meter in the middle of an update. *)
Definition in_update (T : Z) (m : nat) (s : sweeper) : Prop :=
  let c := cell m s in
  match sw_pc_ s with
  | ToSwap _ total => (m ∉ sw_queue s) /\ accumulator c = T /\ 0 < T /\ Total c = total /\ 0 <= total <= T
  | Swapped _ sw => T = sw + accumulator c /\ 0 <= Total c < sw /\ 0 <= accumulator c /\ (0 < accumulator c <-> m ∈ sw_queue s)
  | ToUndo _ => accumulator c = T /\ 0 <= Total c < T /\ m ∈ sw_queue s
  | ToRemove _ => T = Total c + accumulator c /\ 0 <= Total c /\ 0 <= accumulator c /\ (0 < accumulator c <-> m ∈ sw_queue s)
  | _ => True
  end.

Definition meter_inv (T : Z) (m : nat) (s : sweeper) : Prop :=
  (focus s = Some m -> in_update T m s) /\ (focus s <> Some m -> at_rest T m s).

Record flow_inv (marks : list (nat * Z)) (s : sweeper) : Prop := {
  fi_meters : NoDup (sw_meters s);
  fi_queue : NoDup (sw_queue s);
  fi_index : forall i, pc_index (sw_pc_ s) = Some i -> (i < length (sw_meters s))%nat;
  fi_meter : forall m, meter_inv (marked m marks) m s
}.

Lemma marked_snoc m m' n marks : marked m (marks ++ [(m', n)]) = marked m marks + (if decide (m' = m) then n else 0).
Proof.
  unfold marked. rewrite foldr_app. cbn [foldr]. set (z := if decide (m' = m) then n + 0 else 0).
  assert (z = if decide (m' = m) then n else 0) as <- by (unfold z; case_decide; lia). clearbody z.
  induction marks as [|[k v] marks IH]; cbn [foldr]; [lia|]. case_decide; lia.
Qed.

Lemma cell_set m m' c s : cell m (set_cell m' c s) = if decide (m' = m) then c else cell m s.
Proof. unfold cell, set_cell. cbn. case_decide as D; [subst; by rewrite lookup_insert_eq|by rewrite lookup_insert_ne]. Qed.

Lemma cell_pc m pc s : cell m (set_pc pc s) = cell m s.
Proof. done. Qed.

(** Adding a mark to the accumulator of a meter, at every point of the sweeper. *)
Lemma flow_inv_mark marks m n s :
  flow_inv marks s -> 0 < n -> marked m (marks ++ [(m, n)]) < 2 ^ 64 -> flow_inv (marks ++ [(m, n)]) (Mark m n s).
Proof.
  intros [I1 I2 I3 I4] Hn Hb. rewrite marked_snoc, decide_True in Hb by done. set (T := marked m marks) in *.
  assert (0 <= accumulator (cell m s) <= T) as Ha.
  { specialize (I4 m). fold T in I4. destruct I4 as [F R]. destruct (decide (focus s = Some m)) as [E|E].
    - specialize (F E). unfold in_update in F. unfold focus in E. destruct (sw_pc_ s); cbn in E; try done; lia.
    - destruct (R E) as [R1 R2]. destruct (decide (m ∈ sw_meters s)) as [D|D]; [destruct (R1 D)|destruct (R2 D)]; lia. }
  assert (accumulator (add_acc n (cell m s)) = accumulator (cell m s) + n) as Eacc by (cbn; apply u64_small; lia).
  set (s' := Mark m n s).
  assert (sw_meters s' = sw_meters s /\ sw_pc_ s' = sw_pc_ s /\ sw_cells s' = <[m := add_acc n (cell m s)]> (sw_cells s)) as (Em & Ep & Ec).
  { unfold s', Mark. rewrite (proj2 (Z.ltb_lt _ _)) by done. cbv zeta. by destruct (_ =? _). }
  assert (sw_queue s' = if accumulator (cell m s) =? 0 then sw_queue s ++ [m] else sw_queue s) as Eq.
  { unfold s', Mark. rewrite (proj2 (Z.ltb_lt _ _)) by done. cbv zeta. rewrite Eacc.
    destruct (Z.eqb_spec (accumulator (cell m s) + n) n), (Z.eqb_spec (accumulator (cell m s)) 0); done || lia. }
  assert (focus s' = focus s) as Ef by (unfold focus; by rewrite Em, Ep).
  assert (forall k, cell k s' = if decide (m = k) then add_acc n (cell m s) else cell k s) as Ek.
  { intros k. unfold cell. rewrite Ec. case_decide as D; [subst; by rewrite lookup_insert_eq|by rewrite lookup_insert_ne]. }
  assert (m ∈ sw_queue s -> accumulator (cell m s) <> 0) as Hq.
  { intros Hm E0. destruct (I4 m) as [F R]. fold T in F, R. destruct (decide (focus s = Some m)) as [E|E].
    - specialize (F E). unfold in_update in F. unfold focus in E. destruct (sw_pc_ s); cbn in E; try done; intuition lia.
    - destruct (R E) as [R1 R2]. destruct (decide (m ∈ sw_meters s)) as [D|D]; [destruct (R1 D)|destruct (R2 D)]; intuition lia. }
  assert (forall k, k ∈ sw_queue s' <-> k ∈ sw_queue s \/ (k = m /\ accumulator (cell m s) = 0)) as Hin.
  { intros k. rewrite Eq. destruct (Z.eqb_spec (accumulator (cell m s)) 0); [rewrite elem_of_app, list_elem_of_singleton; intuition|intuition]. }
  clearbody s'. split.
  - by rewrite Em.
  - rewrite Eq. destruct (Z.eqb_spec (accumulator (cell m s)) 0) as [E0|]; [|done]. apply NoDup_app. split_and!; [done| |apply NoDup_singleton].
    intros k Hk ->%list_elem_of_singleton. by apply Hq.
  - rewrite Ep, Em. done.
  - intros k. rewrite marked_snoc. specialize (I4 k). unfold meter_inv, in_update, at_rest in *. rewrite Ef, Ep, Em.
    rewrite Ek. assert (m ∈ sw_queue s' <-> m ∈ sw_queue s \/ accumulator (cell m s) = 0) as Hm by (rewrite Hin; intuition).
    pose proof (Hin k) as Hk. clear Hin. destruct (decide (m = k)) as [<-|N].
    + fold T in I4 |- *. unfold add_acc. cbn [accumulator Total]. rewrite (u64_small (_ + n)) by lia. destruct I4 as [F R].
      assert (accumulator (cell m s) = 0 \/ 0 < accumulator (cell m s)) as Hz by lia. split.
      * intros E. specialize (F E). destruct (sw_pc_ s); rewrite ?Hm; intuition lia.
      * intros E. destruct (R E) as [R1 R2]. rewrite Hm. split; intros D; [destruct (R1 D)|destruct (R2 D)]; intuition lia.
    + assert (k ∈ sw_queue s' <-> k ∈ sw_queue s) as Hk' by (rewrite Hk; intuition congruence). rewrite Z.add_0_r. destruct I4 as [F R].
      split; [intros E; specialize (F E); destruct (sw_pc_ s); rewrite ?Hk'; exact F|rewrite Hk'; exact R].
Qed.

(** A step of the sweeper on the meter [m]. *)
Lemma flow_inv_frame marks s s' m :
  flow_inv marks s -> sw_meters s' = sw_meters s -> sw_queue s' = sw_queue s -> (forall k, k <> m -> cell k s' = cell k s) ->
  (focus s = Some m \/ focus s = None) -> (focus s' = Some m \/ focus s' = None) ->
  (forall i, pc_index (sw_pc_ s') = Some i -> (i < length (sw_meters s))%nat) ->
  meter_inv (marked m marks) m s' -> flow_inv marks s'.
Proof.
  intros [I1 I2 I3 I4] Em Eq Ec Hf Hf' Hi Hm. split; rewrite ?Em, ?Eq; [done..|].
  intros k. destruct (decide (k = m)) as [->|N]; [done|]. destruct (I4 k) as [_ R]. split; intros E; [destruct Hf' as [Hf'|Hf']; congruence|].
  unfold at_rest. rewrite Em, Eq, Ec by done. apply R. destruct Hf; congruence.
Qed.

Lemma elem_of_index (l : list nat) i m : l !! i = Some m -> m ∈ l.
Proof. apply list_elem_of_lookup_2. Qed.

Lemma index_bound (l : list nat) i m : l !! i = Some m -> (i < length l)%nat.
Proof. apply lookup_lt_Some. Qed.

Ltac other_cells := intros k Hk; rewrite ?cell_pc, ?cell_set, ?decide_False by congruence; reflexivity.

Lemma flow_inv_load marks i m s :
  flow_inv marks s -> marked m marks < 2 ^ 64 -> sw_pc_ s = At i -> sw_meters s !! i = Some m -> flow_inv marks (update_load i m s).
Proof.
  intros I Hb Hp Hm. assert (focus s = None) as Hf by (unfold focus; by rewrite Hp).
  destruct (fi_meter _ _ I m) as [_ R]. destruct (R ltac:(congruence)) as [R1 _]. destruct (R1 (elem_of_index _ _ _ Hm)) as (Q & Ea & HT & Ht).
  unfold update_load. cbv zeta. cbn [Rate]. set (rate := new_rate _ _). set (c := mkMeter _ _ rate).
  destruct (SFltb IdleRate rate).
  - eapply (flow_inv_frame marks s _ m I); [done|done|other_cells|by right|by right|done|]. split; [done|]. intros _. split; [|intros N; by apply elem_of_index in Hm].
    intros _. rewrite cell_pc, cell_set, decide_True by done. cbn. rewrite Ea. split_and!; [done|done|done|lia|lia].
  - eapply (flow_inv_frame marks s _ m I); [done|done|other_cells|by right|left; exact Hm|intros j [= <-]; by apply index_bound in Hm|].
    split; [|intros N; exfalso; apply N; exact Hm]. intros _. unfold in_update. cbn [sw_pc_ set_pc]. rewrite cell_pc, cell_set, decide_True by done. cbn.
    rewrite Ea. split_and!; try done; lia.
Qed.

Lemma focus_inv marks s m i : flow_inv marks s -> pc_index (sw_pc_ s) = Some i -> sw_meters s !! i = Some m -> focus s = Some m /\ in_update (marked m marks) m s.
Proof.
  intros I Hp Hm. assert (focus s = Some m) as Hf by (unfold focus; rewrite Hp; exact Hm). split; [done|]. by apply (fi_meter _ _ I m).
Qed.

Lemma flow_inv_swap marks i total m s :
  flow_inv marks s -> sw_pc_ s = ToSwap i total -> sw_meters s !! i = Some m -> flow_inv marks (update_swap i total m s).
Proof.
  intros I Hp Hm. destruct (focus_inv marks s m i I) as [Hf U]; [by rewrite Hp|done|]. unfold in_update in U. rewrite Hp in U. destruct U as (Q & Ea & HT & Et & Ht).
  unfold update_swap. cbv zeta.
  destruct (Z.ltb_spec total (accumulator (cell m s))).
  all: eapply (flow_inv_frame marks s _ m I); [done|done|other_cells|by left|left; exact Hm|intros j [= <-]; by apply index_bound in Hm|].
  all: split; [|intros N; exfalso; apply N; exact Hm]; intros _; unfold in_update; cbn [sw_pc_ set_pc]; rewrite cell_pc, cell_set, decide_True by done; cbn.
  - split_and!; try lia. split; [lia|done].
  - split_and!; try lia. split; [lia|done].
Qed.

Lemma flow_inv_add_back marks i sw m s :
  flow_inv marks s -> marked m marks < 2 ^ 64 -> sw_pc_ s = Swapped i sw -> sw_meters s !! i = Some m -> flow_inv marks (update_add_back i sw m s).
Proof.
  intros I Hb Hp Hm. destruct (focus_inv marks s m i I) as [Hf U]; [by rewrite Hp|done|]. unfold in_update in U. rewrite Hp in U. destruct U as (ET & Ht & Ha & Q).
  unfold update_add_back. cbv zeta. unfold add_acc at 1. cbn [accumulator]. rewrite u64_small by lia.
  destruct (Z.eqb_spec (accumulator (cell m s) + sw) sw).
  - eapply (flow_inv_frame marks s _ m I); [done|done|other_cells|by left|by right|done|]. split; [done|]. intros _. split; [|intros N; by apply elem_of_index in Hm].
    intros _. rewrite cell_pc, cell_set, decide_True by done. cbn. rewrite u64_small by lia. split_and!; try lia. intros Hq. apply Q in Hq. lia.
  - eapply (flow_inv_frame marks s _ m I); [done|done|other_cells|by left|left; exact Hm|intros j [= <-]; by apply index_bound in Hm|].
    split; [|intros N; exfalso; apply N; exact Hm]. intros _. unfold in_update. cbn [sw_pc_ set_pc]. rewrite cell_pc, cell_set, decide_True by done. cbn.
    rewrite u64_small by lia. split_and!; try lia. apply Q. lia.
Qed.

Lemma minus_total t : 0 <= t < 2 ^ 64 -> 2 ^ 64 - 1 - u64 (t - 1) = u64 (- t).
Proof. intros H. unfold u64. Z.div_mod_to_equations. lia. Qed.

Lemma flow_inv_undo marks i m s :
  flow_inv marks s -> marked m marks < 2 ^ 64 -> sw_pc_ s = ToUndo i -> sw_meters s !! i = Some m -> flow_inv marks (update_undo i m s).
Proof.
  intros I Hb Hp Hm. destruct (focus_inv marks s m i I) as [Hf U]; [by rewrite Hp|done|]. unfold in_update in U. rewrite Hp in U. destruct U as (Ea & Ht & Q).
  unfold update_undo. rewrite minus_total by lia.
  eapply (flow_inv_frame marks s _ m I); [done|done|other_cells|by left|left; exact Hm|intros j [= <-]; by apply index_bound in Hm|].
  split; [|intros N; exfalso; apply N; exact Hm]. intros _. unfold in_update. cbn [sw_pc_ set_pc]. rewrite cell_pc, cell_set, decide_True by done. cbn.
  assert (u64 (accumulator (cell m s) + u64 (- Total (cell m s))) = accumulator (cell m s) - Total (cell m s)) as ->.
  { unfold u64. Z.div_mod_to_equations. lia. }
  split_and!; try lia. split; [done|lia].
Qed.

(** The last element in the place of another. *)
Lemma swap_remove (l : list nat) i m z :
  l !! i = Some m -> last l = Some z -> l ≡ₚ m :: take (length l - 1) (<[i := z]> l).
Proof.
  intros Hi Hz. apply last_Some in Hz as [l' ->]. rewrite length_app. cbn [length].
  replace (length l' + 1 - 1)%nat with (length l') by lia. destruct (decide (i < length l')%nat) as [L|L].
  - rewrite lookup_app_l in Hi by done. rewrite insert_app_l, take_app_length' by (rewrite ?length_insert; done).
    apply list_elem_of_split_length in Hi as (l1 & l2 & -> & Hl).
    rewrite insert_app_r_alt by lia. replace (i - length l1)%nat with 0%nat by lia. cbn. rewrite <- app_assoc. cbn.
    rewrite <- Permutation_middle. apply Permutation_skip. rewrite <- Permutation_middle. apply Permutation_app_head.
    by rewrite Permutation_app_comm.
  - rewrite lookup_app_r in Hi by lia. apply list_lookup_singleton_Some in Hi as [Hi ->].
    rewrite insert_app_r_alt by lia. replace (i - length l')%nat with 0%nat by lia. cbn. rewrite take_app_length. by rewrite Permutation_app_comm.
Qed.

Lemma flow_inv_remove marks i m s :
  flow_inv marks s -> sw_pc_ s = ToRemove i -> sw_meters s !! i = Some m -> flow_inv marks (update_remove i m s).
Proof.
  intros I Hp Hm. destruct (focus_inv marks s m i I) as [Hf U]; [by rewrite Hp|done|]. unfold in_update in U. rewrite Hp in U. destruct U as (ET & Ht & Ha & Q).
  destruct I as [I1 I2 I3 I4]. unfold update_remove. cbv zeta. cbn [sw_meters set_cell].
  destruct (last (sw_meters s)) as [z|] eqn:L; [|apply last_None in L; by rewrite L in Hm].
  pose proof (swap_remove _ _ _ _ Hm L) as P. set (l := take _ _) in *. rewrite P in I1. apply NoDup_cons in I1 as [Nm Nl].
  split; cbn [sw_meters sw_queue sw_pc_ set_cell pc_index]; [done..|]. intros k. split; [done|]. intros _. unfold at_rest.
  cbn [sw_meters sw_queue]. match goal with |- context [cell k ?x] => replace (cell k x) with (cell k (set_cell m (mkMeter (accumulator (cell m s)) (Total (cell m s)) (S754_zero false)) s)) by done end.
  rewrite cell_set. destruct (decide (m = k)) as [<-|N]; cbn.
  - split; [done|]. intros _. done.
  - destruct (I4 k) as [_ R]. destruct (R ltac:(congruence)) as [R1 R2].
    assert (k ∈ sw_meters s <-> k ∈ l) as Hk by (rewrite P, elem_of_cons; intuition congruence). rewrite <- Hk. done.
Qed.

Lemma flow_inv_register marks m q s :
  flow_inv marks s -> marked m marks < 2 ^ 64 -> sw_pc_ s = Waiting -> sw_queue s ≡ₚ m :: q ->
  flow_inv marks (register m (mkSweeper (sw_meters s) q (sw_pc_ s) (sw_cells s))).
Proof.
  intros [I1 I2 I3 I4] Hb Hp Hq. assert (focus s = None) as Hf by (unfold focus; by rewrite Hp).
  rewrite Hq in I2. apply NoDup_cons in I2 as [Nq Nq'].
  destruct (I4 m) as [_ R]. destruct (R ltac:(congruence)) as [R1 R2].
  assert (m ∉ sw_meters s) as Nm by (intros D; destruct (R1 D) as [H _]; apply H; rewrite Hq; apply list_elem_of_here).
  destruct (R2 Nm) as (ET & Ht & Ha & Q). assert (0 < accumulator (cell m s)) as Ha' by (apply Q; rewrite Hq; apply list_elem_of_here).
  set (s0 := mkSweeper (sw_meters s) q (sw_pc_ s) (sw_cells s)). unfold register. cbv zeta. cbn [sw_meters sw_queue sw_pc_ sw_cells set_cell s0].
  split; cbn [sw_meters sw_queue sw_pc_]; [|done|by rewrite Hp|].
  { apply NoDup_app. split_and!; [done| |apply NoDup_singleton]. intros k Hk ->%list_elem_of_singleton. done. }
  intros k. split; [unfold focus; cbn; by rewrite Hp|]. intros _. unfold at_rest. cbn [sw_meters sw_queue].
  match goal with |- context [cell k ?x] => replace (cell k x) with (cell k (set_cell m (add_acc (Total (cell m s)) (cell m s)) s)) by done end.
  rewrite cell_set. destruct (decide (m = k)) as [<-|N].
  - cbn. rewrite u64_small by lia. split; [intros _; split_and!; try done; lia|]. intros D. exfalso. apply D. apply elem_of_app. right. by apply list_elem_of_singleton.
  - destruct (I4 k) as [_ R']. destruct (R' ltac:(congruence)) as [R1' R2'].
    assert (k ∈ sw_meters s <-> k ∈ sw_meters s ++ [m]) as Hk by (rewrite elem_of_app, list_elem_of_singleton; intuition congruence).
    assert (k ∈ sw_queue s <-> k ∈ q) as Hk' by (rewrite Hq, elem_of_cons; intuition congruence). rewrite <- Hk, <- Hk'. done.
Qed.

(** The sweeper between two updates. *)
Lemma flow_inv_pc marks s pc :
  flow_inv marks s -> focus s = None -> pc_index pc = None -> flow_inv marks (set_pc pc s).
Proof.
  intros [I1 I2 I3 I4] Hf Hp. split; cbn [sw_meters sw_queue sw_pc_ set_pc]; [done|done|congruence|].
  intros k. split; [unfold focus; cbn; by rewrite Hp|]. intros _. apply (I4 k). congruence.
Qed.

Lemma flow_inv_step marks s l s' :
  (forall m, marked m (match l with Some mc => marks ++ [mc] | None => marks end) < 2 ^ 64) -> flow_inv marks s -> flow_step s l s' ->
  flow_inv (match l with Some mc => marks ++ [mc] | None => marks end) s'.
Proof.
  intros Hb I H. destruct H as [m n s Hn|m q1 q2 s Hp Hq|s Hp Hm|i m s Hp Hm|i t m s Hp Hm|i t m s Hp Hm|i m s Hp Hm|i m s Hp Hm|i s Hp Hm].
  - by apply flow_inv_mark.
  - apply flow_inv_register; [done..|]. by rewrite Hq, Permutation_middle.
  - apply flow_inv_pc; [done|unfold focus; by rewrite Hp|done].
  - by apply flow_inv_load.
  - by apply flow_inv_swap.
  - by apply flow_inv_add_back.
  - by apply flow_inv_undo.
  - by apply flow_inv_remove.
  - apply flow_inv_pc; [done|unfold focus; by rewrite Hp|done].
Qed.

Lemma flow_run_inv marks s : flow_run marks s -> (forall m, marked m marks < 2 ^ 64) -> flow_inv marks s.
Proof.
  induction 1 as [|marks s l s' H IH S]; intros Hb.
  - split; cbn; [constructor|constructor|done|]. intros m. split; [done|]. intros _. split; [by intros ?%elem_of_nil|].
    intros _. unfold cell. cbn [sw_cells flow_init sw_queue]. rewrite lookup_empty, elem_of_nil. cbn. lia.
  - eapply flow_inv_step; [done| |exact S]. apply IH. intros m. specialize (Hb m). destruct l as [[m' n]|]; [|done].
    rewrite marked_snoc in Hb. inversion S; subst. case_decide; lia.
Qed.

(** C39. Meters lose nothing.  However marks interleave with the atomic operations of the sweeper (the swap,
    the add-back and the subtraction for a meter that seems idle included), as long as the events of
    a meter number less than 2^64: a snapshot never shows more events than there were; and whenever the
    sweeper is between two updates, a registered meter holds exactly its events in the accumulator, an
    unregistered one has them split between snapshot and accumulator, is on its way to the sweeper exactly
    when its accumulator is not empty, and otherwise its snapshot is exact; no meter is registered or
    queued twice. *)
Theorem meters_exact marks s m :
  flow_run marks s -> (forall k, marked k marks < 2 ^ 64) ->
  0 <= (Snapshot m s).2 <= marked m marks /\ NoDup (sw_meters s) /\ NoDup (sw_queue s) /\
  (pc_index (sw_pc_ s) = None ->
     (m ∈ sw_meters s -> (m ∉ sw_queue s) /\ accumulator (cell m s) = marked m marks) /\
     (m ∉ sw_meters s -> (Snapshot m s).2 + accumulator (cell m s) = marked m marks /\ (0 < accumulator (cell m s) <-> m ∈ sw_queue s) /\
        (m ∉ sw_queue s -> (Snapshot m s).2 = marked m marks))).
Proof.
  intros R Hb. destruct (flow_run_inv _ _ R Hb) as [I1 I2 I3 I4]. destruct (I4 m) as [F Re]. split_and!; [| |done|done|].
  1-2: cbn; destruct (decide (focus s = Some m)) as [E|E];
    [specialize (F E); unfold in_update in F; unfold focus in E; destruct (sw_pc_ s); cbn in E; try done; lia|
     destruct (Re E) as [R1 R2]; destruct (decide (m ∈ sw_meters s)) as [D|D]; [destruct (R1 D)|destruct (R2 D)]; lia].
  intros Hp. assert (focus s <> Some m) as E by (unfold focus; rewrite Hp; done). destruct (Re E) as [R1 R2]. split; intros D.
  - destruct (R1 D). intuition.
  - destruct (R2 D) as (ET & Ht & Ha & Q). split; [cbn; lia|]. split; [done|]. intros N. cbn. destruct (Z.eq_dec (accumulator (cell m s)) 0); [lia|].
    exfalso. apply N, Q. lia.
Qed.

(** One meter, marked in the middle of an update. *)
Definition race_marks : list (nat * Z) := [(0%nat, 3); (0%nat, 4)].
Definition flow_1 : sweeper := Mark 0 3 flow_init.
Definition flow_2 : sweeper := register 0 (mkSweeper (sw_meters flow_1) [] (sw_pc_ flow_1) (sw_cells flow_1)).
Definition flow_3 : sweeper := update_load 0 0 (set_pc (At 0) flow_2).
Definition flow_4 : sweeper := Mark 0 4 flow_3.

Lemma race_marks_run : flow_run race_marks flow_4.
Proof.
  apply (fr_step [(0%nat, 3)] flow_3 (Some (0%nat, 4)) flow_4); [|by apply fs_mark].
  apply (fr_step [(0%nat, 3)] (set_pc (At 0) flow_2) None flow_3); [|by apply fs_load].
  apply (fr_step [(0%nat, 3)] flow_2 None); [|by apply fs_tick].
  apply (fr_step [(0%nat, 3)] flow_1 None flow_2); [|by apply (fs_register 0 [] [])].
  apply (fr_step [] flow_init (Some (0%nat, 3)) flow_1); [apply fr_init|by apply fs_mark].
Qed.

Lemma meters_exact_witness :
  accumulator (cell 0 flow_4) = 7 /\ Snapshot 0 flow_4 = (of_int 3, 3) /\ 0 <= (Snapshot 0 flow_4).2 <= marked 0 race_marks.
Proof.
  split; [vm_compute; reflexivity|]. split; [vm_compute; reflexivity|].
  apply (meters_exact race_marks flow_4 0); [exact race_marks_run|].
  intros k. unfold race_marks, marked. cbn [foldr]. repeat case_decide; lia.
Defined.

(** ** MeterRegistry *)

(** A registry leads from names to meters. *)
Abbreviation MeterRegistry := (gmap (list Z) nat).

(** Get creates a meter for a new name: the next cell. *)
Definition registry_Get (name : list Z) (r : MeterRegistry) (next : nat) : nat * MeterRegistry * nat :=
  match r !! name with
  | Some m => (m, r, next)
  | None => (next, <[name := next]> r, S next)
  end.
Definition registry_Remove (name : list Z) (r : MeterRegistry) : MeterRegistry := delete name r.
(** ForEach, for the order in which Range visits the names. *)
Definition registry_ForEach {S} (order : list (list Z)) (f : list Z -> nat -> S -> S) (r : MeterRegistry) (s : S) : S :=
  foldl (fun s name => match r !! name with Some m => f name m s | None => s end) s order.

(** ** bw_stats.go *)

Record Stats := mkStats { TotalIn : Z; TotalOut : Z; RateIn : float64; RateOut : float64 }.

(** The meters 0 and 1 are totalIn and totalOut. *)
Record BandwidthCounter := mkCounter {
  protocolIn : MeterRegistry;
  protocolOut : MeterRegistry;
  peerIn : MeterRegistry;
  peerOut : MeterRegistry;
  next_meter : nat;
  b_sweeper : sweeper
}.

Definition totalIn : nat := 0.
Definition totalOut : nat := 1.
Definition NewBandwidthCounter (s : sweeper) : BandwidthCounter := mkCounter ∅ ∅ ∅ ∅ 2 s.

Definition b_mark (m : nat) (size : Z) (b : BandwidthCounter) : BandwidthCounter :=
  mkCounter (protocolIn b) (protocolOut b) (peerIn b) (peerOut b) (next_meter b) (Mark m (u64 size) (b_sweeper b)).

(** Get on one of the four registries. *)
Definition get_protocolIn (name : list Z) (b : BandwidthCounter) : nat * BandwidthCounter :=
  let '(m, r, next) := registry_Get name (protocolIn b) (next_meter b) in
  (m, mkCounter r (protocolOut b) (peerIn b) (peerOut b) next (b_sweeper b)).
Definition get_protocolOut (name : list Z) (b : BandwidthCounter) : nat * BandwidthCounter :=
  let '(m, r, next) := registry_Get name (protocolOut b) (next_meter b) in
  (m, mkCounter (protocolIn b) r (peerIn b) (peerOut b) next (b_sweeper b)).
Definition get_peerIn (name : list Z) (b : BandwidthCounter) : nat * BandwidthCounter :=
  let '(m, r, next) := registry_Get name (peerIn b) (next_meter b) in
  (m, mkCounter (protocolIn b) (protocolOut b) r (peerOut b) next (b_sweeper b)).
Definition get_peerOut (name : list Z) (b : BandwidthCounter) : nat * BandwidthCounter :=
  let '(m, r, next) := registry_Get name (peerOut b) (next_meter b) in
  (m, mkCounter (protocolIn b) (protocolOut b) (peerIn b) r next (b_sweeper b)).

Definition LogSentMessage (size : Z) : BandwidthCounter -> BandwidthCounter := b_mark totalOut size.
Definition LogRecvMessage (size : Z) : BandwidthCounter -> BandwidthCounter := b_mark totalIn size.
Definition LogSentMessageConnOnly (size : Z) (proto : list Z) (b : BandwidthCounter) : BandwidthCounter :=
  let '(m, b) := get_protocolOut proto b in b_mark m size b.
Definition LogSentMessageStream (size : Z) (proto p : list Z) (b : BandwidthCounter) : BandwidthCounter :=
  let '(m, b) := get_protocolOut proto b in
  let b := b_mark m size b in
  let '(m, b) := get_peerOut p b in b_mark m size b.
Definition LogRecvMessageStream (size : Z) (proto p : list Z) (b : BandwidthCounter) : BandwidthCounter :=
  let '(m, b) := get_protocolIn proto b in
  let b := b_mark m size b in
  let '(m, b) := get_peerIn p b in b_mark m size b.

Definition stats_of (inn out : nat) (b : BandwidthCounter) : Stats :=
  let '(rin, tin) := Snapshot inn (b_sweeper b) in
  let '(rout, tout) := Snapshot out (b_sweeper b) in
  mkStats (i64 tin) (i64 tout) rin rout.

(** Asking for the bandwidth of a name creates its meters. *)
Definition GetBandwidthForPeer (p : list Z) (b : BandwidthCounter) : Stats * BandwidthCounter :=
  let '(i, b) := get_peerIn p b in
  let '(o, b) := get_peerOut p b in
  (stats_of i o b, b).
Definition GetBandwidthForProtocol (proto : list Z) (b : BandwidthCounter) : Stats * BandwidthCounter :=
  let '(i, b) := get_protocolIn proto b in
  let '(o, b) := get_protocolOut proto b in
  (stats_of i o b, b).
Definition GetBandwidthTotals (b : BandwidthCounter) : Stats := stats_of totalIn totalOut b.

(** *** Every name has a meter of its own *)

(** All meters in use, registry by registry. *)
Definition meters_of (b : BandwidthCounter) : list nat :=
  [totalIn; totalOut] ++ (map_to_list (protocolIn b)).*2 ++ (map_to_list (protocolOut b)).*2 ++ (map_to_list (peerIn b)).*2 ++ (map_to_list (peerOut b)).*2.

Definition counter_ok (b : BandwidthCounter) : Prop := NoDup (meters_of b) /\ Forall (fun m => (m < next_meter b)%nat) (meters_of b).

Lemma registry_Get_cases name r next :
  (exists m, r !! name = Some m /\ registry_Get name r next = (m, r, next)) \/
  (r !! name = None /\ registry_Get name r next = (next, <[name := next]> r, S next)).
Proof. unfold registry_Get. destruct (r !! name); eauto. Qed.

Lemma fresh_meter (b : BandwidthCounter) (f : MeterRegistry -> BandwidthCounter) (rest1 rest2 : list nat) (r : MeterRegistry) (name : list Z) :
  counter_ok b -> (forall r', meters_of (f r') ≡ₚ rest1 ++ (map_to_list r').*2 ++ rest2) -> f r = b ->
  r !! name = None -> NoDup (meters_of (f (<[name := next_meter b]> r))) /\
  Forall (fun m => (m < S (next_meter b))%nat) (meters_of (f (<[name := next_meter b]> r))).
Proof.
  intros [Hn Hl] Hf <- Hr. rewrite Hf in Hn, Hl.
  assert (meters_of (f (<[name := next_meter (f r)]> r)) ≡ₚ next_meter (f r) :: rest1 ++ (map_to_list r).*2 ++ rest2) as P.
  { rewrite Hf, map_to_list_insert by done. cbn. symmetry. apply Permutation_middle. }
  rewrite P. split.
  - apply NoDup_cons. split; [|done]. intros H. rewrite Forall_forall in Hl. specialize (Hl _ H). lia.
  - apply Forall_cons. split; [lia|]. eapply Forall_impl; [exact Hl|]. cbn. lia.
Qed.

Lemma counter_ok_mark m size b : counter_ok b -> counter_ok (b_mark m size b).
Proof. done. Qed.

Lemma counter_ok_get b name :
  counter_ok b ->
  counter_ok (get_protocolIn name b).2 /\ counter_ok (get_protocolOut name b).2 /\ counter_ok (get_peerIn name b).2 /\ counter_ok (get_peerOut name b).2.
Proof.
  intros H. unfold get_protocolIn, get_protocolOut, get_peerIn, get_peerOut.
  assert (forall r f rest1 rest2, (forall r', meters_of (f r' (next_meter b)) ≡ₚ rest1 ++ (map_to_list r').*2 ++ rest2) -> f r (next_meter b) = b ->
    (forall r' n, meters_of (f r' n) = meters_of (f r' (next_meter b)) /\ next_meter (f r' n) = n) ->
    counter_ok (let '(m, r', n) := registry_Get name r (next_meter b) in (m, f r' n)).2) as K.
  { intros r f rest1 rest2 Hf Ef Hg. destruct (registry_Get_cases name r (next_meter b)) as [(m & L & ->)|[L ->]]; cbn [snd]; [by rewrite Ef|].
    destruct (fresh_meter b (fun r' => f r' (next_meter b)) rest1 rest2 r name H Hf Ef L) as [N F].
    destruct (Hg (<[name := next_meter b]> r) (S (next_meter b))) as [E1 E2]. split; [by rewrite E1|]. rewrite E1, E2. exact F. }
  destruct b as [pi po pei peo next sw]. split_and!.
  - apply (K pi (fun r n => mkCounter r po pei peo n sw) [totalIn; totalOut] ((map_to_list po).*2 ++ (map_to_list pei).*2 ++ (map_to_list peo).*2)); [|done|done].
    intros r'. done.
  - apply (K po (fun r n => mkCounter pi r pei peo n sw) ([totalIn; totalOut] ++ (map_to_list pi).*2) ((map_to_list pei).*2 ++ (map_to_list peo).*2)); [|done|done].
    intros r'. unfold meters_of. cbn. done.
  - apply (K pei (fun r n => mkCounter pi po r peo n sw) ([totalIn; totalOut] ++ (map_to_list pi).*2 ++ (map_to_list po).*2) ((map_to_list peo).*2)); [|done|done].
    intros r'. unfold meters_of. cbn. by rewrite <- app_assoc.
  - apply (K peo (fun r n => mkCounter pi po pei r n sw) ([totalIn; totalOut] ++ (map_to_list pi).*2 ++ (map_to_list po).*2 ++ (map_to_list pei).*2) []); [|done|done].
    intros r'. unfold meters_of. cbn. by rewrite app_nil_r, <- !app_assoc.
Qed.

(** The operations keep the meters of different names and directions apart. *)
Lemma counters_separate b size proto p :
  counter_ok b ->
  counter_ok (LogSentMessage size b) /\ counter_ok (LogRecvMessage size b) /\ counter_ok (LogSentMessageConnOnly size proto b) /\
  counter_ok (LogSentMessageStream size proto p b) /\ counter_ok (LogRecvMessageStream size proto p b) /\
  counter_ok (GetBandwidthForPeer p b).2 /\ counter_ok (GetBandwidthForProtocol proto b).2 /\ counter_ok (NewBandwidthCounter (b_sweeper b)).
Proof.
  intros H.
  assert (forall c n, counter_ok c -> counter_ok (get_protocolIn n c).2) as K1 by (intros c n Hc; apply (counter_ok_get c n Hc)).
  assert (forall c n, counter_ok c -> counter_ok (get_protocolOut n c).2) as K2 by (intros c n Hc; apply (counter_ok_get c n Hc)).
  assert (forall c n, counter_ok c -> counter_ok (get_peerIn n c).2) as K3 by (intros c n Hc; apply (counter_ok_get c n Hc)).
  assert (forall c n, counter_ok c -> counter_ok (get_peerOut n c).2) as K4 by (intros c n Hc; apply (counter_ok_get c n Hc)).
  split_and!.
  - done.
  - done.
  - unfold LogSentMessageConnOnly. specialize (K2 b proto H). by destruct (get_protocolOut proto b).
  - unfold LogSentMessageStream. specialize (K2 b proto H). destruct (get_protocolOut proto b) as [m b1]. cbn in K2.
    specialize (K4 (b_mark m size b1) p K2). by destruct (get_peerOut p (b_mark m size b1)).
  - unfold LogRecvMessageStream. specialize (K1 b proto H). destruct (get_protocolIn proto b) as [m b1]. cbn in K1.
    specialize (K3 (b_mark m size b1) p K1). by destruct (get_peerIn p (b_mark m size b1)).
  - unfold GetBandwidthForPeer. specialize (K3 b p H). destruct (get_peerIn p b) as [i b1]. cbn in K3.
    specialize (K4 b1 p K3). by destruct (get_peerOut p b1).
  - unfold GetBandwidthForProtocol. specialize (K1 b proto H). destruct (get_protocolIn proto b) as [i b1]. cbn in K1.
    specialize (K2 b1 proto K1). by destruct (get_protocolOut proto b1).
  - split; [by apply (bool_decide_unpack _)|by apply (bool_decide_unpack _)].
Qed.
