(* ===== verification/MetricComp.v ===== *)
(** * network/components/metric: sampled round trips

    The component that sends a request to a peer at every tick and keeps the times of the last ones.  A sample is
    started by [metric_begin], which returns the index the request works on, and ended by [metric_end] when
    its response arrives, so that several requests can be under way.  The clock readings are
    arguments; math.Pow is a parameter. *)
From S2P Require Import Prelude GoFloat.
Local Open Scope Z_scope.
Local Open Scope go_scope.

Record TimeDistance := mkDistance { startTime : Z; endTime : Z; distance : Z }.

Record TimeMetric := mkTimeMetric { timeMetric : list TimeDistance; index : nat; isFull : bool }.

Record MetricComponent := mkMetricComponent {
  sampleInterval : Z;
  sampleSize : Z;
  packageSize : Z;
  sampleData : TimeMetric;
  randRaw : list Z;
  requestTimeout : Z
}.

Definition metricSecond : Z := 1000000000.
Definition defaultSampleInterval : Z := 3 * metricSecond.
Definition defaultSampleSize : Z := 100.
Definition defaultPackageSize : Z := 1024 * 16.
Definition defaultRequestTimeout : Z := 30 * metricSecond.

Definition WithSampleInterval (d : Z) (o : MetricComponent) : MetricComponent :=
  mkMetricComponent d (sampleSize o) (packageSize o) (sampleData o) (randRaw o) (requestTimeout o).
Definition WithRequestTimeout (d : Z) (o : MetricComponent) : MetricComponent :=
  mkMetricComponent (sampleInterval o) (sampleSize o) (packageSize o) (sampleData o) (randRaw o) d.
Definition WithSampleSize (size : Z) (o : MetricComponent) : MetricComponent :=
  mkMetricComponent (sampleInterval o) size (packageSize o) (sampleData o) (randRaw o) (requestTimeout o).
Definition WithPackageSize (size : Z) (o : MetricComponent) : MetricComponent :=
  mkMetricComponent (sampleInterval o) (sampleSize o) size (sampleData o) (randRaw o) (requestTimeout o).
Definition metric_defaultOptions (o : MetricComponent) : MetricComponent :=
  mkMetricComponent defaultSampleInterval defaultSampleSize defaultPackageSize (sampleData o) (randRaw o) defaultRequestTimeout.

Definition metric_New (opts : list (MetricComponent -> MetricComponent)) : MetricComponent :=
  foldl (fun p opt => opt p) (metric_defaultOptions (mkMetricComponent 0 0 0 (mkTimeMetric [] 0 false) [] 0)) opts.

(** [rands] are the results of rand.Int. *)
Definition getRawData (bytes : Z) (rands : nat -> Z) : list Z :=
  (fun i => u8 (rands i / 128)) <$> seq 0 (Z.to_nat bytes).

(** make panics on a negative size. *)
Definition metric_Startup (rands : nat -> Z) (p : MetricComponent) : res unit MetricComponent :=
  if sampleSize p <? 0 then Panic
  else Ok (mkMetricComponent (sampleInterval p) (sampleSize p) (packageSize p)
             (mkTimeMetric (replicate (Z.to_nat (sampleSize p)) (mkDistance 0 0 0)) 0 false)
             (getRawData (packageSize p) rands) (requestTimeout p)).

Definition set_data (d : TimeMetric) (p : MetricComponent) : MetricComponent :=
  mkMetricComponent (sampleInterval p) (sampleSize p) (packageSize p) d (randRaw p) (requestTimeout p).

(** ** Statistics *)

(** The conversion of a float64 to int64; outside of the range the result is the one of amd64. *)
Definition int64_of (x : float64) : Z :=
  match ftrunc x with
  | Some z => if (- 2 ^ 63 <=? z) && (z <? 2 ^ 63) then z else - 2 ^ 63
  | None => - 2 ^ 63
  end.

(** How long a sample took, or has taken until [now]. *)
Definition sample_distance (now : Z) (e : TimeDistance) : Z :=
  if endTime e =? 0 then i64 (now - startTime e) else i64 (endTime e - startTime e).

(** An element of statics: a distance and how often it occurs. *)
Fixpoint count_distance (d : Z) (statics : list (Z * Z)) : list (Z * Z) :=
  match statics with
  | [] => [(d, 1)]
  | (d', n) :: rest => if d =? d' then (d', n + 1) :: rest else (d', n) :: count_distance d rest
  end.

(** timeDistanceExpect; [now i] is the clock, in microseconds, when sample i is looked at.  The distances are
    stored in the samples. *)
Definition timeDistanceExpect (now : nat -> Z) (m : TimeMetric) : Z * TimeMetric :=
  if (index m =? 0)%nat then (0, m)
  else
    let ds := imap (fun i e => sample_distance (now i) e) (take (index m) (timeMetric m)) in
    let tm := imap (fun i e => if (i <? index m)%nat then mkDistance (startTime e) (endTime e) (sample_distance (now i) e) else e) (timeMetric m) in
    let statics := foldl (fun st d => count_distance d st) [] ds in
    let sum := foldl (fun acc '(d, n) => fadd acc (fmul (fdiv (of_int n) (of_int (Z.of_nat (index m)))) (of_int d))) (S754_zero false) statics in
    (int64_of sum, mkTimeMetric tm (index m) (isFull m)).

Definition timeDistanceAverage (now : nat -> Z) (m : TimeMetric) : Z :=
  if (index m =? 0)%nat then 0
  else
    let sum := foldl (fun acc d => i64 (acc + d)) 0 (imap (fun i e => sample_distance (now i) e) (take (index m) (timeMetric m))) in
    sum ÷ Z.of_nat (index m).

Definition fabs (x : float64) : float64 := SFabs x.

Section variance.
Variable Pow : float64 -> float64 -> float64.

(** [now] and [now'] are the clocks of the two passes over the samples. *)
Definition timeDistanceVar (now now' : nat -> Z) (m : TimeMetric) : Z * Z * Z * TimeMetric :=
  if (index m =? 0)%nat then (0, 0, 0, m)
  else
    let '(expect, m) := timeDistanceExpect now m in
    let average := timeDistanceAverage now' m in
    let disVar := foldl (fun acc e => fadd acc (Pow (fabs (of_int (i64 (expect - distance e)))) (of_int 2)))
                    (S754_zero false) (take (index m) (timeMetric m)) in
    (expect, int64_of (fdiv disVar (of_int (Z.of_nat (index m)))), average, m).

(** expectation, variance, standard deviation and average *)
Definition TimeDistanceStandard (now now' : nat -> Z) (m : TimeMetric) : (Z * Z * Z * Z) * TimeMetric :=
  if (index m =? 0)%nat then (0, 0, 0, 0, m)
  else
    let '(expect, disVar, average, m) := timeDistanceVar now now' m in
    (expect, disVar, int64_of (SFsqrt 53 1024 (of_int disVar)), average, m).

(** The exported variants, which take the mutex around the pass. *)
Definition TimeDistanceVar (now now' : nat -> Z) (m : TimeMetric) : Z * Z * Z * TimeMetric :=
  if (index m =? 0)%nat then (0, 0, 0, m) else timeDistanceVar now now' m.
End variance.

Definition TimeDistanceExpect (now : nat -> Z) (m : TimeMetric) : Z * TimeMetric :=
  if (index m =? 0)%nat then (0, m) else timeDistanceExpect now m.
Definition TimeDistanceAverage (now : nat -> Z) (m : TimeMetric) : Z := timeDistanceAverage now m.

(** ** Sampling *)

(** The part of sendMetricRequest under the mutex, at [nanoTime]: the new state and workingIndex. *)
Definition metric_begin (nanoTime : Z) (p : MetricComponent) : res unit (MetricComponent * nat) :=
  let d := sampleData p in
  let new := mkDistance (nanoTime ÷ 1000) 0 0 in
  let stored : res unit (list TimeDistance) :=
    if (sampleSize p <=? Z.of_nat (index d)) then
      match (if sampleSize p - 1 <? 0 then None else timeMetric d !! Z.to_nat (sampleSize p - 1)) with
      | None => Panic
      | Some e =>
        if 0 <? startTime e then
          let n := Z.to_nat (sampleSize p - 1) in
          Ok (<[n := new]> (take n (drop 1 (timeMetric d)) ++ drop n (timeMetric d)))
        else if (index d <? length (timeMetric d))%nat then Ok (<[index d := new]> (timeMetric d)) else Panic
      end
    else if (index d <? length (timeMetric d))%nat then Ok (<[index d := new]> (timeMetric d)) else Panic in
  match stored with
  | Ok tm =>
    let '(full, i) := if sampleSize p <=? Z.of_nat (index d) + 1 then (true, Z.to_nat (sampleSize p - 1)) else (isFull d, index d) in
    Ok (set_data (mkTimeMetric tm (S i) full) p, i)
  | _ => Panic
  end.

(** The response: the end time goes to the sample at workingIndex. *)
Definition metric_end (nanoTime : Z) (workingIndex : nat) (p : MetricComponent) : res unit MetricComponent :=
  let d := sampleData p in
  match timeMetric d !! workingIndex with
  | None => Panic
  | Some e => Ok (set_data (mkTimeMetric (<[workingIndex := mkDistance (startTime e) (nanoTime ÷ 1000) (distance e)]> (timeMetric d)) (index d) (isFull d)) p)
  end.

(** echoMetricValues: the distance of the last sample is stored, then the statistics are logged. *)
Definition echoMetricValues (Pow : float64 -> float64 -> float64) (nanoTime : Z) (now now' : nat -> Z) (p : MetricComponent) : res unit MetricComponent :=
  let d := sampleData p in
  if (index d =? 0)%nat then Ok p
  else
    let last :=
      if sampleSize p <=? Z.of_nat (index d) + 1 then
        match (if sampleSize p - 1 <? 0 then None else timeMetric d !! Z.to_nat (sampleSize p - 1)) with
        | None => None
        | Some e => Some (if 0 <? startTime e then Z.to_nat (sampleSize p - 1) else (index d - 1)%nat)
        end
      else Some (index d - 1)%nat in
    match last with
    | None => Panic
    | Some i =>
      match timeMetric d !! i with
      | None => Panic
      | Some e =>
        let tm := <[i := mkDistance (startTime e) (endTime e) (sample_distance (nanoTime ÷ 1000) e)]> (timeMetric d) in
        let '(_, d) := TimeDistanceStandard Pow now now' (mkTimeMetric tm (index d) (isFull d)) in
        Ok (set_data d p)
      end
    end.

(** What the select of the loop that PeerConnect starts finds: a tick of the sample interval, with whether
    client.ID is set and the clock readings of echoMetricValues, or the end of the node or of the client. *)
Inductive metric_select := MTick (identified : bool) (nanoTime : Z) (now now' : nat -> Z) | MKill | MCloseSignal.

(** The loop of PeerConnect, with how many requests it starts.  The select already dereferences the client, so
    that its test against nil never succeeds. *)
Fixpoint metric_PeerConnect (Pow : float64 -> float64 -> float64) (sel : list metric_select) (p : MetricComponent) : res unit (MetricComponent * nat) :=
  match sel with
  | [] | MKill :: _ | MCloseSignal :: _ => Ok (p, 0%nat)
  | MTick false _ _ _ :: sel => metric_PeerConnect Pow sel p
  | MTick true t now now' :: sel =>
    let? p := echoMetricValues Pow t now now' p in
    let? pn := metric_PeerConnect Pow sel p in
    Ok (pn.1, S pn.2)
  end.

(** Receive: a MetricRequest is answered with its timestamp and its bytes. *)
Inductive metric_message := MetricRequest (SendTimestamp : Z) (RawData : list Z) | MetricResponse (SendTimestamp : Z) (RawData : list Z) | OtherMessage.

Definition metric_Receive (msg : metric_message) : option metric_message :=
  match msg with
  | MetricRequest t raw => Some (MetricResponse t raw)
  | _ => None
  end.

(** ** The samples are the last requests *)

(** Events: a request at a time, the response to the request that works on an index, and the tick that
    logs the statistics. *)
Inductive metric_event :=
| MBegin (nanoTime : Z)
| MEnd (nanoTime : Z) (workingIndex : nat)
| MEcho (nanoTime : Z) (now now' : nat -> Z).

Definition metric_step (Pow : float64 -> float64 -> float64) (e : metric_event) (p : MetricComponent) : res unit MetricComponent :=
  match e with
  | MBegin t => match metric_begin t p with Ok (p, _) => Ok p | _ => Panic end
  | MEnd t w => metric_end t w p
  | MEcho t now now' => echoMetricValues Pow t now now' p
  end.

Definition metric_run (Pow : float64 -> float64 -> float64) (es : list metric_event) (p : MetricComponent) : res unit MetricComponent :=
  foldl (fun r e => let? p := r in metric_step Pow e p) (Ok p) es.

(** The start times, in microseconds. *)
Definition starts (es : list metric_event) : list Z := omap (fun e => match e with MBegin t => Some (t ÷ 1000) | _ => None end) es.

(** The clock is positive, and a response works on an index of the samples. *)
Definition event_ok (size : nat) (e : metric_event) : Prop :=
  match e with MBegin t => 1000 <= t | MEnd _ w => (w < size)%nat | MEcho _ _ _ => True end.

(** The last [n] elements. *)
Definition lastn {A} (n : nat) (l : list A) : list A := drop (length l - n) l.

Record window (size : nat) (st : list Z) (d : TimeMetric) : Prop := {
  w_length : length (timeMetric d) = size;
  w_index : index d = Nat.min (length st) size;
  w_full : isFull d = (size <=? length st)%nat;
  w_starts : startTime <$> take (index d) (timeMetric d) = lastn size st
}.

(** What keeps the start times keeps the window. *)
Lemma window_starts size st d d' :
  window size st d -> length (timeMetric d') = length (timeMetric d) -> index d' = index d -> isFull d' = isFull d ->
  startTime <$> timeMetric d' = startTime <$> timeMetric d -> window size st d'.
Proof.
  intros [W1 W2 W3 W4] E1 E2 E3 E4. split; [congruence|congruence|congruence|]. rewrite E2, <- W4, !fmap_take. by rewrite E4.
Qed.

Lemma insert_start (l : list TimeDistance) i e e' : l !! i = Some e -> startTime e' = startTime e -> startTime <$> <[i := e']> l = startTime <$> l.
Proof. intros H E. rewrite list_fmap_insert. apply list_insert_id. by rewrite list_lookup_fmap, H, E. Qed.

Lemma imap_start (f : nat -> TimeDistance -> TimeDistance) l : (forall i e, startTime (f i e) = startTime e) -> startTime <$> imap f l = startTime <$> l.
Proof.
  intros H. apply list_eq. intros i. rewrite !list_lookup_fmap, list_lookup_imap. destruct (l !! i); cbn; [by rewrite H|done].
Qed.

Lemma expect_window now m :
  let m' := (timeDistanceExpect now m).2 in
  length (timeMetric m') = length (timeMetric m) /\ index m' = index m /\ isFull m' = isFull m /\ startTime <$> timeMetric m' = startTime <$> timeMetric m.
Proof.
  unfold timeDistanceExpect. destruct (index m =? 0)%nat; [done|]. cbn [snd timeMetric index isFull]. rewrite length_imap. split_and!; try done.
  apply imap_start. intros i e. by destruct (i <? index m)%nat.
Qed.

Lemma standard_window Pow now now' m :
  let m' := (TimeDistanceStandard Pow now now' m).2 in
  length (timeMetric m') = length (timeMetric m) /\ index m' = index m /\ isFull m' = isFull m /\ startTime <$> timeMetric m' = startTime <$> timeMetric m.
Proof.
  pose proof (expect_window now m) as H. unfold TimeDistanceStandard, timeDistanceVar. destruct (index m =? 0)%nat; [done|].
  destruct (timeDistanceExpect now m) as [x m1]. exact H.
Qed.

Lemma lastn_all {A} n (l : list A) : (length l <= n)%nat -> lastn n l = l.
Proof. intros H. unfold lastn. by replace (length l - n)%nat with 0%nat by lia. Qed.

(** A new request. *)
Lemma window_begin size st p t :
  (0 < size)%nat -> sampleSize p = Z.of_nat size -> Forall (fun x => 0 < x) st -> 0 < t ÷ 1000 -> window size st (sampleData p) ->
  exists p', metric_begin t p = Ok (p', Nat.min (length st) (size - 1)) /\ sampleSize p' = sampleSize p /\ window size (st ++ [t ÷ 1000]) (sampleData p').
Proof.
  intros Hs Es Hp Ht [W1 W2 W3 W4]. unfold metric_begin. cbv zeta. rewrite Es. set (d := sampleData p) in *.
  replace (Z.to_nat (Z.of_nat size - 1)) with (size - 1)%nat by lia.
  destruct (Z.leb_spec (Z.of_nat size) (Z.of_nat (index d))) as [L|L].
  - assert (index d = size) as Ei by lia. rewrite Ei in W4. rewrite take_ge in W4 by lia.
    rewrite (proj2 (Z.ltb_ge _ _)) by lia. destruct (timeMetric d !! (size - 1)%nat) as [e|] eqn:Le; [|apply lookup_ge_None in Le; lia].
    assert (0 < startTime e) as He.
    { apply (f_equal (.!! (size - 1)%nat)) in W4. rewrite list_lookup_fmap, Le in W4. cbn in W4. symmetry in W4. unfold lastn in W4.
      rewrite lookup_drop in W4. rewrite Forall_forall in Hp. apply Hp. by eapply list_elem_of_lookup_2. }
    rewrite (proj2 (Z.ltb_lt _ _)) by done. rewrite (proj2 (Z.leb_le _ _)) by lia. eexists. split; [f_equal; f_equal; lia|]. split; [done|].
    cbn [sampleData set_data]. split; cbn [timeMetric index isFull].
    + rewrite length_insert, length_app, length_take, !length_drop. lia.
    + rewrite length_app. cbn [length]. lia.
    + rewrite length_app. cbn [length]. symmetry. apply Nat.leb_le. lia.
    + rewrite take_ge by (rewrite length_insert, length_app, length_take, !length_drop; lia).
      rewrite insert_app_r_alt by (rewrite length_take, length_drop; lia). rewrite length_take, length_drop.
      replace (size - 1 - (size - 1) `min` (length (timeMetric d) - 1))%nat with 0%nat by lia.
      destruct (drop (size - 1) (timeMetric d)) as [|x [|y l]] eqn:Ed.
      * apply (f_equal length) in Ed. rewrite length_drop in Ed. cbn in Ed. lia.
      * cbn. rewrite fmap_app, take_ge by (rewrite length_drop; lia). cbn. rewrite fmap_drop, W4. unfold lastn. rewrite drop_drop.
        rewrite length_app. cbn [length]. rewrite drop_app_le by lia. f_equal. f_equal. lia.
      * apply (f_equal length) in Ed. rewrite length_drop in Ed. cbn in Ed. lia.
  - assert (index d = length st /\ (length st < size)%nat) as [Ei Li] by lia. rewrite (proj2 (Nat.ltb_lt _ _)) by lia.
    rewrite lastn_all in W4 by lia.
    assert (startTime <$> take (S (index d)) (<[index d := mkDistance (t ÷ 1000) 0 0]> (timeMetric d)) = st ++ [t ÷ 1000]) as ES.
    { rewrite (take_S_r _ _ (mkDistance (t ÷ 1000) 0 0)) by (apply list_lookup_insert_eq; lia).
      rewrite take_insert_ge by lia. by rewrite fmap_app, W4. }
    destruct (Z.leb_spec (Z.of_nat size) (Z.of_nat (index d) + 1)) as [L'|L'].
    + eexists. split; [f_equal; f_equal; lia|]. split; [done|]. cbn [sampleData set_data]. replace (size - 1)%nat with (index d) by lia.
      split; cbn [timeMetric index isFull]; rewrite ?length_insert, ?length_app; cbn [length]; [done|lia|symmetry; apply Nat.leb_le; lia|].
      rewrite ES. by rewrite lastn_all by (rewrite length_app; cbn; lia).
    + eexists. split; [f_equal; f_equal; lia|]. split; [done|]. cbn [sampleData set_data].
      split; cbn [timeMetric index isFull]; rewrite ?length_insert, ?length_app; cbn [length]; [done|lia| |].
      * rewrite W3. rewrite !(proj2 (Nat.leb_gt _ _)) by lia. done.
      * rewrite ES. by rewrite lastn_all by (rewrite length_app; cbn; lia).
Qed.

Lemma window_end size st p t w :
  (w < size)%nat -> window size st (sampleData p) ->
  exists p', metric_end t w p = Ok p' /\ sampleSize p' = sampleSize p /\ window size st (sampleData p').
Proof.
  intros Hw W. unfold metric_end. cbv zeta. destruct (timeMetric (sampleData p) !! w) as [e|] eqn:L;
    [|apply lookup_ge_None in L; rewrite (w_length _ _ _ W) in L; lia].
  eexists. split; [reflexivity|]. split; [done|]. apply (window_starts _ _ _ _ W); cbn; [apply length_insert|done|done|].
  by apply (insert_start _ _ e).
Qed.

Lemma window_echo Pow size st p t now now' :
  (0 < size)%nat -> sampleSize p = Z.of_nat size -> window size st (sampleData p) ->
  exists p', echoMetricValues Pow t now now' p = Ok p' /\ sampleSize p' = sampleSize p /\ window size st (sampleData p').
Proof.
  intros Hs Es W. destruct W as [W1 W2 W3 W4] eqn:EW. clear EW. unfold echoMetricValues. cbv zeta. set (d := sampleData p) in *.
  destruct (Nat.eqb_spec (index d) 0); [eauto|]. rewrite Es. rewrite (proj2 (Z.ltb_ge _ _)) by lia.
  replace (Z.to_nat (Z.of_nat size - 1)) with (size - 1)%nat by lia.
  assert (exists i e, (if Z.of_nat size <=? Z.of_nat (index d) + 1 then
      match timeMetric d !! (size - 1)%nat with None => None | Some e => Some (if 0 <? startTime e then (size - 1)%nat else (index d - 1)%nat) end
    else Some (index d - 1)%nat) = Some i /\ timeMetric d !! i = Some e) as (i & e & -> & Li).
  { destruct (timeMetric d !! (size - 1)%nat) as [e1|] eqn:L1; [|apply lookup_ge_None in L1; lia].
    destruct (timeMetric d !! (index d - 1)%nat) as [e2|] eqn:L2; [|apply lookup_ge_None in L2; lia].
    destruct (_ <=? _); [destruct (0 <? startTime e1)|]; eauto. }
  rewrite Li. set (d1 := mkTimeMetric _ _ _). pose proof (standard_window Pow now now' d1) as H.
  destruct (TimeDistanceStandard Pow now now' d1) as [x d2]. cbn in H. destruct H as (H1 & H2 & H3 & H4).
  eexists. split; [reflexivity|]. split; [done|]. cbn [sampleData set_data].
  apply (window_starts size st d); [by split|rewrite H1; cbn; apply length_insert|done|done|]. rewrite H4. cbn. by apply (insert_start _ _ e).
Qed.

(** The ticks before the loop ends. *)
Fixpoint live_ticks (sel : list metric_select) : nat :=
  match sel with
  | [] | MKill :: _ | MCloseSignal :: _ => 0%nat
  | MTick identified _ _ _ :: sel => if identified then S (live_ticks sel) else live_ticks sel
  end.

(** The loop of a client never panics, keeps the samples, and starts one request per tick at which the client is
    identified, until the node or the client ends. *)
Lemma metric_loop_requests Pow size st sel p :
  (0 < size)%nat -> sampleSize p = Z.of_nat size -> window size st (sampleData p) ->
  exists p', metric_PeerConnect Pow sel p = Ok (p', live_ticks sel) /\ window size st (sampleData p').
Proof.
  intros Hs. revert p. induction sel as [|[[] t now now'| |] sel IH]; intros p Es W; cbn [metric_PeerConnect live_ticks]; eauto.
  destruct (window_echo Pow size st p t now now') as (p1 & -> & S1 & W1); [done..|]. cbn [res_bind].
  destruct (IH p1) as (p2 & -> & W2); [congruence|done|]. cbn. eauto.
Qed.

Lemma metric_run_snoc Pow es e p : metric_run Pow (es ++ [e]) p = (let? p := metric_run Pow es p in metric_step Pow e p).
Proof. unfold metric_run. by rewrite foldl_app. Qed.


Definition toy_metric : MetricComponent := mkMetricComponent 0 2 0 (mkTimeMetric (replicate 2 (mkDistance 0 0 0)) 0 false) [] 0.


(** Once the samples are full, a response that arrives after a later request has begun ends the sample of that
    request: the second request (started at 6, answered at 9) leaves its sample open, and the third (started at 8)
    appears to have taken 1 microsecond. *)
Example late_response :
  match metric_run (fun x _ => x) [MBegin 5000; MBegin 6000; MBegin 8000; MEnd 9000 1] toy_metric with
  | Ok p => (fun e => (startTime e, endTime e)) <$> timeMetric (sampleData p)
  | _ => []
  end = [(6, 0); (8, 9)].
Proof. vm_compute. reflexivity. Qed.

(** With a sample size of zero the first request panics. *)
Example metric_size_0 :
  match metric_Startup (fun _ => 0) (metric_New [WithSampleSize 0; WithPackageSize 0]) with
  | Ok p => metric_run (fun x _ => x) [MBegin 5000] p
  | _ => Ok toy_metric
  end = Panic.
Proof. vm_compute. reflexivity. Qed.

(** Three samples of 4, 4 and 10 microseconds: expectation and average are 6. *)
Example metric_expect :
  let m := mkTimeMetric [mkDistance 1 5 0; mkDistance 2 6 0; mkDistance 3 13 0] 3 true in
  (timeDistanceExpect (fun _ => 0) m).1 = 6 /\ timeDistanceAverage (fun _ => 0) m = 6.
Proof. vm_compute. split; reflexivity. Qed.
