(* ===== verification/EdScalar.v ===== *)
(** * crypto/ed25519/internal/edwards25519/scalar.go: arithmetic modulo the group order

    ScReduce and ScMulAdd work on 24 limbs of 21 bits, s0 ... s23, in int64.  The body of
    both is straight-line code made of three kinds of groups of assignments; each kind is a
    function on the list of limbs, and a phase of the source is the list of its groups in
    source order.  All arithmetic wraps around at 64 bits; that it never does is proved by
    an interval analysis of the programs, run by the kernel. *)
From S2P Require Import Prelude.
Local Open Scope Z_scope.
Local Open Scope go_scope.

(** The group order. *)
Definition ell : Z := 2 ^ 252 + 27742317777372353535851937790883648493.

(** ** field.go: loading three and four bytes *)

Definition byte_at (b : list Z) (i : nat) : Z := nth i b 0.

Definition load3 (b : list Z) : Z :=
  Z.lor (Z.lor (byte_at b 0) (byte_at b 1 <<! 8)) (byte_at b 2 <<! 16).

Definition load4 (b : list Z) : Z :=
  Z.lor (Z.lor (Z.lor (byte_at b 0) (byte_at b 1 <<! 8)) (byte_at b 2 <<! 16)) (byte_at b 3 <<! 24).

(** [2097151 & (load3(b[o:]) >> k)] and [2097151 & (load4(b[o:]) >> k)] *)
Definition limb3 (b : list Z) (o : nat) (k : Z) : Z :=
  Z.land 2097151 (Z.shiftr (load3 (drop o b)) k).
Definition limb4 (b : list Z) (o : nat) (k : Z) : Z :=
  Z.land 2097151 (Z.shiftr (load4 (drop o b)) k).

(** ** Limbs *)

Definition limb (s : list Z) (i : nat) : Z := nth i s 0.

(** [carry[i] = (s_i + (1 << 20)) >> 21; s_(i+1) += carry[i]; s_i -= carry[i] << 21] *)
Definition carry_round (i : nat) (s : list Z) : list Z :=
  let c := Z.shiftr (limb s i +! 1048576) 21 in
  <[i := limb s i -! (c <<! 21)]> (<[S i := limb s (S i) +! c]> s).

(** [carry[i] = s_i >> 21; s_(i+1) += carry[i]; s_i -= carry[i] << 21] *)
Definition carry_floor (i : nat) (s : list Z) : list Z :=
  let c := Z.shiftr (limb s i) 21 in
  <[i := limb s i -! (c <<! 21)]> (<[S i := limb s (S i) +! c]> s).

(** [s_(k-12) += s_k * 666643; ... ; s_(k-7) -= s_k * 683901; s_k = 0] *)
Definition fold_limb (k : nat) (s : list Z) : list Z :=
  let x := limb s k in
  let s := <[(k - 12)%nat := limb s (k - 12) +! (x *! 666643)]> s in
  let s := <[(k - 11)%nat := limb s (k - 11) +! (x *! 470296)]> s in
  let s := <[(k - 10)%nat := limb s (k - 10) +! (x *! 654183)]> s in
  let s := <[(k - 9)%nat := limb s (k - 9) -! (x *! 997805)]> s in
  let s := <[(k - 8)%nat := limb s (k - 8) +! (x *! 136657)]> s in
  let s := <[(k - 7)%nat := limb s (k - 7) -! (x *! 683901)]> s in
  <[k := 0]> s.

Inductive group :=
| Round (i : nat)
| Floor (i : nat)
| Fold (k : nat).

Definition exec (g : group) (s : list Z) : list Z :=
  match g with
  | Round i => carry_round i s
  | Floor i => carry_floor i s
  | Fold k => fold_limb k s
  end.

Definition run (p : list group) (s : list Z) : list Z := foldl (fun s g => exec g s) s p.

(** ** ScReduce *)

Definition ScReduce_load (s : list Z) : list Z :=
  [ Z.land 2097151 (load3 s); limb4 s 2 5; limb3 s 5 2; limb4 s 7 7; limb4 s 10 4; limb3 s 13 1;
    limb4 s 15 6; limb3 s 18 3; Z.land 2097151 (load3 (drop 21 s)); limb4 s 23 5; limb3 s 26 2;
    limb4 s 28 7; limb4 s 31 4; limb3 s 34 1; limb4 s 36 6; limb3 s 39 3;
    Z.land 2097151 (load3 (drop 42 s)); limb4 s 44 5; limb3 s 47 2; limb4 s 49 7; limb4 s 52 4;
    limb3 s 55 1; limb4 s 57 6; Z.shiftr (load4 (drop 60 s)) 3 ].

Definition ScReduce_fold_high : list group := [Fold 23; Fold 22; Fold 21; Fold 20; Fold 19; Fold 18].
Definition ScReduce_carry_mid : list group :=
  [Round 6; Round 8; Round 10; Round 12; Round 14; Round 16;
   Round 7; Round 9; Round 11; Round 13; Round 15].
Definition ScReduce_fold_low : list group := [Fold 17; Fold 16; Fold 15; Fold 14; Fold 13; Fold 12].
Definition ScReduce_carry_low : list group :=
  [Round 0; Round 2; Round 4; Round 6; Round 8; Round 10;
   Round 1; Round 3; Round 5; Round 7; Round 9; Round 11].
Definition ScReduce_chain1 : list group :=
  [Fold 12; Floor 0; Floor 1; Floor 2; Floor 3; Floor 4; Floor 5; Floor 6; Floor 7; Floor 8;
   Floor 9; Floor 10; Floor 11].
Definition ScReduce_chain2 : list group :=
  [Fold 12; Floor 0; Floor 1; Floor 2; Floor 3; Floor 4; Floor 5; Floor 6; Floor 7; Floor 8;
   Floor 9; Floor 10].

(** The 32 bytes of the limbs s0 ... s11. *)
Definition ScReduce_store (s : list Z) : list Z :=
  let s_ i := limb s i in
  [ u8 (Z.shiftr (s_ 0%nat) 0); u8 (Z.shiftr (s_ 0%nat) 8);
    u8 (Z.lor (Z.shiftr (s_ 0%nat) 16) (s_ 1%nat <<! 5));
    u8 (Z.shiftr (s_ 1%nat) 3); u8 (Z.shiftr (s_ 1%nat) 11);
    u8 (Z.lor (Z.shiftr (s_ 1%nat) 19) (s_ 2%nat <<! 2));
    u8 (Z.shiftr (s_ 2%nat) 6);
    u8 (Z.lor (Z.shiftr (s_ 2%nat) 14) (s_ 3%nat <<! 7));
    u8 (Z.shiftr (s_ 3%nat) 1); u8 (Z.shiftr (s_ 3%nat) 9);
    u8 (Z.lor (Z.shiftr (s_ 3%nat) 17) (s_ 4%nat <<! 4));
    u8 (Z.shiftr (s_ 4%nat) 4); u8 (Z.shiftr (s_ 4%nat) 12);
    u8 (Z.lor (Z.shiftr (s_ 4%nat) 20) (s_ 5%nat <<! 1));
    u8 (Z.shiftr (s_ 5%nat) 7);
    u8 (Z.lor (Z.shiftr (s_ 5%nat) 15) (s_ 6%nat <<! 6));
    u8 (Z.shiftr (s_ 6%nat) 2); u8 (Z.shiftr (s_ 6%nat) 10);
    u8 (Z.lor (Z.shiftr (s_ 6%nat) 18) (s_ 7%nat <<! 3));
    u8 (Z.shiftr (s_ 7%nat) 5); u8 (Z.shiftr (s_ 7%nat) 13);
    u8 (Z.shiftr (s_ 8%nat) 0); u8 (Z.shiftr (s_ 8%nat) 8);
    u8 (Z.lor (Z.shiftr (s_ 8%nat) 16) (s_ 9%nat <<! 5));
    u8 (Z.shiftr (s_ 9%nat) 3); u8 (Z.shiftr (s_ 9%nat) 11);
    u8 (Z.lor (Z.shiftr (s_ 9%nat) 19) (s_ 10%nat <<! 2));
    u8 (Z.shiftr (s_ 10%nat) 6);
    u8 (Z.lor (Z.shiftr (s_ 10%nat) 14) (s_ 11%nat <<! 7));
    u8 (Z.shiftr (s_ 11%nat) 1); u8 (Z.shiftr (s_ 11%nat) 9); u8 (Z.shiftr (s_ 11%nat) 17) ].

Definition ScReduce (s : list Z) : list Z :=
  ScReduce_store
    (run ScReduce_chain2
      (run (ScReduce_fold_high ++ ScReduce_carry_mid ++ ScReduce_fold_low ++
            ScReduce_carry_low ++ ScReduce_chain1)
        (ScReduce_load s))).

(** ** ScMulAdd *)

Definition ScMulAdd_load (a : list Z) : list Z :=
  [ Z.land 2097151 (load3 a); limb4 a 2 5; limb3 a 5 2; limb4 a 7 7; limb4 a 10 4; limb3 a 13 1;
    limb4 a 15 6; limb3 a 18 3; Z.land 2097151 (load3 (drop 21 a)); limb4 a 23 5; limb3 a 26 2;
    Z.shiftr (load4 (drop 28 a)) 7 ].

(** s0 ... s23 of the 12 limbs of a, b and c: the schoolbook product plus c. *)
Definition ScMulAdd_product (a b c : list Z) : list Z :=
  match a, b, c with
  | [a0; a1; a2; a3; a4; a5; a6; a7; a8; a9; a10; a11],
    [b0; b1; b2; b3; b4; b5; b6; b7; b8; b9; b10; b11],
    [c0; c1; c2; c3; c4; c5; c6; c7; c8; c9; c10; c11] =>
    [ c0 +! a0*!b0;
      c1 +! a0*!b1 +! a1*!b0;
      c2 +! a0*!b2 +! a1*!b1 +! a2*!b0;
      c3 +! a0*!b3 +! a1*!b2 +! a2*!b1 +! a3*!b0;
      c4 +! a0*!b4 +! a1*!b3 +! a2*!b2 +! a3*!b1 +! a4*!b0;
      c5 +! a0*!b5 +! a1*!b4 +! a2*!b3 +! a3*!b2 +! a4*!b1 +! a5*!b0;
      c6 +! a0*!b6 +! a1*!b5 +! a2*!b4 +! a3*!b3 +! a4*!b2 +! a5*!b1 +! a6*!b0;
      c7 +! a0*!b7 +! a1*!b6 +! a2*!b5 +! a3*!b4 +! a4*!b3 +! a5*!b2 +! a6*!b1 +! a7*!b0;
      c8 +! a0*!b8 +! a1*!b7 +! a2*!b6 +! a3*!b5 +! a4*!b4 +! a5*!b3 +! a6*!b2 +! a7*!b1 +! a8*!b0;
      c9 +! a0*!b9 +! a1*!b8 +! a2*!b7 +! a3*!b6 +! a4*!b5 +! a5*!b4 +! a6*!b3 +! a7*!b2 +! a8*!b1
        +! a9*!b0;
      c10 +! a0*!b10 +! a1*!b9 +! a2*!b8 +! a3*!b7 +! a4*!b6 +! a5*!b5 +! a6*!b4 +! a7*!b3 +! a8*!b2
        +! a9*!b1 +! a10*!b0;
      c11 +! a0*!b11 +! a1*!b10 +! a2*!b9 +! a3*!b8 +! a4*!b7 +! a5*!b6 +! a6*!b5 +! a7*!b4 +! a8*!b3
        +! a9*!b2 +! a10*!b1 +! a11*!b0;
      a1*!b11 +! a2*!b10 +! a3*!b9 +! a4*!b8 +! a5*!b7 +! a6*!b6 +! a7*!b5 +! a8*!b4 +! a9*!b3
        +! a10*!b2 +! a11*!b1;
      a2*!b11 +! a3*!b10 +! a4*!b9 +! a5*!b8 +! a6*!b7 +! a7*!b6 +! a8*!b5 +! a9*!b4 +! a10*!b3
        +! a11*!b2;
      a3*!b11 +! a4*!b10 +! a5*!b9 +! a6*!b8 +! a7*!b7 +! a8*!b6 +! a9*!b5 +! a10*!b4 +! a11*!b3;
      a4*!b11 +! a5*!b10 +! a6*!b9 +! a7*!b8 +! a8*!b7 +! a9*!b6 +! a10*!b5 +! a11*!b4;
      a5*!b11 +! a6*!b10 +! a7*!b9 +! a8*!b8 +! a9*!b7 +! a10*!b6 +! a11*!b5;
      a6*!b11 +! a7*!b10 +! a8*!b9 +! a9*!b8 +! a10*!b7 +! a11*!b6;
      a7*!b11 +! a8*!b10 +! a9*!b9 +! a10*!b8 +! a11*!b7;
      a8*!b11 +! a9*!b10 +! a10*!b9 +! a11*!b8;
      a9*!b11 +! a10*!b10 +! a11*!b9;
      a10*!b11 +! a11*!b10;
      a11*!b11;
      0 ]
  | _, _, _ => []
  end.

Definition ScMulAdd_carry : list group :=
  [Round 0; Round 2; Round 4; Round 6; Round 8; Round 10; Round 12; Round 14; Round 16; Round 18;
   Round 20; Round 22;
   Round 1; Round 3; Round 5; Round 7; Round 9; Round 11; Round 13; Round 15; Round 17; Round 19;
   Round 21].
Definition ScMulAdd_fold_high : list group := [Fold 23; Fold 22; Fold 21; Fold 20; Fold 19; Fold 18].
Definition ScMulAdd_carry_mid : list group :=
  [Round 6; Round 8; Round 10; Round 12; Round 14; Round 16;
   Round 7; Round 9; Round 11; Round 13; Round 15].
Definition ScMulAdd_fold_low : list group := [Fold 17; Fold 16; Fold 15; Fold 14; Fold 13; Fold 12].
Definition ScMulAdd_carry_low : list group :=
  [Round 0; Round 2; Round 4; Round 6; Round 8; Round 10;
   Round 1; Round 3; Round 5; Round 7; Round 9; Round 11].
Definition ScMulAdd_chain1 : list group :=
  [Fold 12; Floor 0; Floor 1; Floor 2; Floor 3; Floor 4; Floor 5; Floor 6; Floor 7; Floor 8;
   Floor 9; Floor 10; Floor 11].
Definition ScMulAdd_chain2 : list group :=
  [Fold 12; Floor 0; Floor 1; Floor 2; Floor 3; Floor 4; Floor 5; Floor 6; Floor 7; Floor 8;
   Floor 9; Floor 10].

(** The stores at the end are literally those of ScReduce, into s. *)
Definition ScMulAdd_store : list Z -> list Z := ScReduce_store.

Definition ScMulAdd (a b c : list Z) : list Z :=
  ScMulAdd_store
    (run ScMulAdd_chain2
      (run (ScMulAdd_carry ++ ScMulAdd_fold_high ++ ScMulAdd_carry_mid ++ ScMulAdd_fold_low ++
            ScMulAdd_carry_low ++ ScMulAdd_chain1)
        (ScMulAdd_product (ScMulAdd_load a) (ScMulAdd_load b) (ScMulAdd_load c)))).

Example ScReduce_max : ScReduce (replicate 64 255) = le_bytes 32 ((2 ^ 512 - 1) mod ell).
Proof. vm_compute. reflexivity. Qed.

Example ScMulAdd_max :
  ScMulAdd (replicate 32 255) (replicate 32 255) (replicate 32 255)
  = le_bytes 32 (((2 ^ 256 - 1) * (2 ^ 256 - 1) + (2 ^ 256 - 1)) mod ell).
Proof. vm_compute. reflexivity. Qed.

(** ** The integer a list of limbs denotes *)

Fixpoint eval (s : list Z) : Z :=
  match s with
  | [] => 0
  | x :: s => x + 2097152 * eval s
  end.

Lemma eval_insert i v s :
  (i < length s)%nat -> eval (<[i := v]> s) = eval s + (v - limb s i) * 2097152 ^ Z.of_nat i.
Proof.
  revert i. induction s as [|x s IH]; intros i Hi; simpl in *; [lia|].
  destruct i as [|i]; simpl; [unfold limb; simpl; lia|].
  rewrite IH by lia. unfold limb. simpl nth. rewrite Nat2Z.inj_succ, Z.pow_succ_r by lia. lia.
Qed.

Lemma limb_insert_eq i v s : (i < length s)%nat -> limb (<[i := v]> s) i = v.
Proof. revert i. induction s; intros [|i]; simpl; intros; try lia; auto. apply IHs. lia. Qed.

Lemma limb_insert_ne i j v s : i <> j -> limb (<[i := v]> s) j = limb s j.
Proof.
  revert i j. induction s as [|x s IH]; intros [|i] [|j] H; simpl; try done.
  apply (IH i j). lia.
Qed.

(** ** Interval analysis *)

Definition itv : Type := Z * Z.

Definition in_itv (x : Z) (iv : itv) : Prop := iv.1 <= x <= iv.2.

Definition in_itvs (s : list Z) (ivs : list itv) : Prop := Forall2 in_itv s ivs.

Definition ilimb (ivs : list itv) (i : nat) : itv := nth i ivs (0, 0).

Definition fits (iv : itv) : bool := (- 2 ^ 63 <=? iv.1) && (iv.2 <? 2 ^ 63).

Definition ichk (iv : itv) : option itv := if fits iv then Some iv else None.

Definition iadd (a b : itv) : itv := (a.1 + b.1, a.2 + b.2).
Definition isub (a b : itv) : itv := (a.1 - b.2, a.2 - b.1).
Definition imulc (a : itv) (c : Z) : itv := (a.1 * c, a.2 * c).
Definition ishift (a : itv) : itv := (Z.shiftr a.1 21, Z.shiftr a.2 21).

(** The intervals after a carry with rounding constant [r], or None when a result may not
    fit into an int64. *)
Definition icarry (r : Z) (i : nat) (ivs : list itv) : option (list itv) :=
  a ← ichk (iadd (ilimb ivs i) (r, r));
  let c := ishift a in
  d ← ichk (imulc c 2097152);
  e ← ichk (iadd (ilimb ivs (S i)) c);
  Some (<[i := (- r, 2097151 - r)]> (<[S i := e]> ivs)).

Definition iupd (sub : bool) (x : itv) (m : Z) (j : nat) (ivs : list itv) : option (list itv) :=
  d ← ichk (imulc x m);
  e ← ichk (if sub then isub (ilimb ivs j) d else iadd (ilimb ivs j) d);
  Some (<[j := e]> ivs).

(** The six updates of a fold: which limb, times which constant, added or subtracted. *)
Definition fold_table (k : nat) : list (bool * Z * nat) :=
  [ (false, 666643, (k - 12)%nat); (false, 470296, (k - 11)%nat); (false, 654183, (k - 10)%nat);
    (true, 997805, (k - 9)%nat); (false, 136657, (k - 8)%nat); (true, 683901, (k - 7)%nat) ].

Fixpoint iupds (x : itv) (l : list (bool * Z * nat)) (ivs : list itv) : option (list itv) :=
  match l with
  | [] => Some ivs
  | (sub, m, j) :: l => ivs ← iupd sub x m j ivs; iupds x l ivs
  end.

Definition ifold (k : nat) (ivs : list itv) : option (list itv) :=
  ivs' ← iupds (ilimb ivs k) (fold_table k) ivs;
  Some (<[k := (0, 0)]> ivs').

Definition iexec (n : nat) (g : group) (ivs : list itv) : option (list itv) :=
  match g with
  | Round i => if (S i <? n)%nat then icarry 1048576 i ivs else None
  | Floor i => if (S i <? n)%nat then icarry 0 i ivs else None
  | Fold k => if (12 <=? k)%nat && (k <? n)%nat then ifold k ivs else None
  end.

Fixpoint irun (n : nat) (p : list group) (ivs : list itv) : option (list itv) :=
  match p with
  | [] => Some ivs
  | g :: p => ivs ← iexec n g ivs; irun n p ivs
  end.

Lemma in_itvs_length s ivs : in_itvs s ivs -> length s = length ivs.
Proof. apply Forall2_length. Qed.

Lemma in_itvs_limb s ivs i : in_itvs s ivs -> in_itv (limb s i) (ilimb ivs i).
Proof.
  intros H. revert i. induction H as [|x iv s ivs Hx _ IH]; intros [|i]; unfold limb, ilimb in *;
    simpl; try done; unfold in_itv; simpl; lia.
Qed.

Lemma in_itvs_insert s ivs i x iv :
  in_itvs s ivs -> in_itv x iv -> in_itvs (<[i := x]> s) (<[i := iv]> ivs).
Proof. intros. by apply Forall2_insert. Qed.

Lemma ichk_Some iv iv' : ichk iv = Some iv' -> iv' = iv /\ - 2 ^ 63 <= iv.1 /\ iv.2 < 2 ^ 63.
Proof.
  unfold ichk, fits. destruct (_ && _) eqn:E; [|done]. intros [= <-].
  apply andb_true_iff in E as [?%Z.leb_le ?%Z.ltb_lt]. done.
Qed.

Lemma in_itv_fits x iv : in_itv x iv -> - 2 ^ 63 <= iv.1 -> iv.2 < 2 ^ 63 -> i64 x = x.
Proof. unfold in_itv. intros. apply i64_small. lia. Qed.

Lemma in_itv_add x y a b : in_itv x a -> in_itv y b -> in_itv (x + y) (iadd a b).
Proof. unfold in_itv, iadd. simpl. lia. Qed.

Lemma in_itv_sub x y a b : in_itv x a -> in_itv y b -> in_itv (x - y) (isub a b).
Proof. unfold in_itv, isub. simpl. lia. Qed.

Lemma in_itv_mulc x a c : 0 <= c -> in_itv x a -> in_itv (x * c) (imulc a c).
Proof. unfold in_itv, imulc. simpl. nia. Qed.

Lemma in_itv_shift x a : in_itv x a -> in_itv (Z.shiftr x 21) (ishift a).
Proof.
  unfold in_itv, ishift. simpl. rewrite !Z.shiftr_div_pow2 by lia.
  intros []. split; apply Z.div_le_mono; lia.
Qed.

(** The three groups on unbounded integers, when the analysis succeeds. *)
Definition carry_with (r : Z) (i : nat) (s : list Z) : list Z :=
  let c := Z.shiftr (limb s i +! r) 21 in
  <[i := limb s i -! (c <<! 21)]> (<[S i := limb s (S i) +! c]> s).

Lemma carry_floor_with i s : - 2 ^ 63 <= limb s i < 2 ^ 63 -> carry_floor i s = carry_with 0 i s.
Proof. intros H. unfold carry_floor, carry_with. by rewrite Z.add_0_r, (i64_small (limb s i)) by lia. Qed.

Lemma icarry_sound r i s ivs ivs' :
  0 <= r < 2097152 -> (S i < length s)%nat -> in_itvs s ivs -> icarry r i ivs = Some ivs' ->
  in_itvs (carry_with r i s) ivs' /\ eval (carry_with r i s) = eval s /\
  - 2 ^ 63 <= limb s i + r < 2 ^ 63.
Proof.
  intros Hr Hi H. unfold icarry.
  destruct (ichk (iadd (ilimb ivs i) (r, r))) as [a|] eqn:Ea; [|done]. cbn [mbind option_bind].
  apply ichk_Some in Ea as (-> & A1 & A2).
  set (a := iadd (ilimb ivs i) (r, r)) in *.
  destruct (ichk (imulc (ishift a) 2097152)) as [d|] eqn:Ed; [|done]. cbn [mbind option_bind].
  apply ichk_Some in Ed as (-> & D1 & D2).
  destruct (ichk (iadd (ilimb ivs (S i)) (ishift a))) as [e|] eqn:Ee; [|done]. cbn [mbind option_bind].
  apply ichk_Some in Ee as (-> & E1 & E2). intros [= <-].
  pose proof (in_itvs_limb s ivs i H) as Hl. pose proof (in_itvs_limb s ivs (S i) H) as Hl1.
  assert (in_itv (limb s i + r) a) as Ha.
  { apply in_itv_add; [done|]. unfold in_itv; simpl; lia. }
  unfold carry_with. rewrite (in_itv_fits _ _ Ha A1 A2).
  set (c := Z.shiftr (limb s i + r) 21).
  assert (in_itv c (ishift a)) as Hc by (by apply in_itv_shift).
  assert (c = (limb s i + r) / 2097152) as Ec by (unfold c; by rewrite Z.shiftr_div_pow2).
  pose proof (Z.div_mod (limb s i + r) 2097152 ltac:(lia)) as DM.
  pose proof (Z.mod_pos_bound (limb s i + r) 2097152 ltac:(lia)) as MB.
  rewrite Z.shiftl_mul_pow2 by lia. change (2 ^ 21) with 2097152.
  rewrite (in_itv_fits _ _ (in_itv_mulc c _ 2097152 ltac:(lia) Hc) D1 D2).
  assert (in_itv (limb s (S i) + c) (iadd (ilimb ivs (S i)) (ishift a))) as He by (by apply in_itv_add).
  rewrite (in_itv_fits _ _ He E1 E2).
  assert (in_itv (limb s i - c * 2097152) (- r, 2097151 - r)) as Hs.
  { unfold in_itv. simpl. lia. }
  assert (i64 (limb s i - c * 2097152) = limb s i - c * 2097152) as ->.
  { destruct Hs as [Hs1 Hs2]. cbn in Hs1, Hs2. apply i64_small. clear -Hs1 Hs2 Hr. lia. }
  split; [by repeat apply in_itvs_insert|]. split.
  - rewrite eval_insert by (rewrite length_insert; lia). rewrite eval_insert by lia.
    rewrite limb_insert_ne by lia. rewrite Nat2Z.inj_succ, Z.pow_succ_r by lia. lia.
  - unfold in_itv in Ha. lia.
Qed.

Lemma length_exec g s : length (exec g s) = length s.
Proof.
  destruct g; simpl; unfold carry_round, carry_floor, fold_limb; by rewrite !length_insert.
Qed.

Lemma length_run p s : length (run p s) = length s.
Proof.
  unfold run. revert s. induction p as [|g p IH]; intros s; simpl; [done|].
  by rewrite IH, length_exec.
Qed.

(** One update of a fold: [s_j += x * m] or [s_j -= x * m]. *)
Definition upd (sub : bool) (x m : Z) (j : nat) (s : list Z) : list Z :=
  <[j := if sub then limb s j -! (x *! m) else limb s j +! (x *! m)]> s.

Lemma iupd_sound sub x xiv m j s ivs ivs' :
  0 <= m -> (j < length s)%nat -> in_itv x xiv -> in_itvs s ivs ->
  iupd sub xiv m j ivs = Some ivs' ->
  in_itvs (upd sub x m j s) ivs' /\
  eval (upd sub x m j s) = eval s + (if sub then - (x * m) else x * m) * 2097152 ^ Z.of_nat j.
Proof.
  intros Hm Hj Hx H. unfold iupd.
  destruct (ichk (imulc xiv m)) as [d|] eqn:Ed; [|done]. cbn [mbind option_bind].
  apply ichk_Some in Ed as (-> & D1 & D2).
  destruct (ichk _) as [e|] eqn:Ee; [|done]. cbn [mbind option_bind].
  apply ichk_Some in Ee as (-> & E1 & E2). intros [= <-].
  pose proof (in_itvs_limb s ivs j H) as Hl.
  pose proof (in_itv_mulc x xiv m Hm Hx) as Hd.
  unfold upd. rewrite (in_itv_fits _ _ Hd D1 D2). destruct sub.
  - pose proof (in_itv_sub _ _ _ _ Hl Hd) as He. rewrite (in_itv_fits _ _ He E1 E2).
    split; [by apply in_itvs_insert|]. rewrite eval_insert by done. lia.
  - pose proof (in_itv_add _ _ _ _ Hl Hd) as He. rewrite (in_itv_fits _ _ He E1 E2).
    split; [by apply in_itvs_insert|]. rewrite eval_insert by done. lia.
Qed.

Fixpoint upds (x : Z) (l : list (bool * Z * nat)) (s : list Z) : list Z :=
  match l with
  | [] => s
  | (sub, m, j) :: l => upds x l (upd sub x m j s)
  end.

Fixpoint table_val (l : list (bool * Z * nat)) : Z :=
  match l with
  | [] => 0
  | (sub, m, j) :: l => (if sub then - m else m) * 2097152 ^ Z.of_nat j + table_val l
  end.

Lemma fold_limb_upds k s : fold_limb k s = <[k := 0]> (upds (limb s k) (fold_table k) s).
Proof. reflexivity. Qed.

Lemma iupds_sound x xiv l s ivs ivs' n :
  length s = n -> Forall (fun e => 0 <= e.1.2 /\ (e.2 < n)%nat) l ->
  in_itv x xiv -> in_itvs s ivs -> iupds xiv l ivs = Some ivs' ->
  in_itvs (upds x l s) ivs' /\ eval (upds x l s) = eval s + x * table_val l /\
  length (upds x l s) = n.
Proof.
  intros Hn HF Hx. revert s ivs Hn. induction HF as [|[[sub m] j] l [Hm Hj] HF IH]; intros s ivs Hn H; simpl in *.
  - intros [= <-]. split_and!; [done|lia|done].
  - destruct (iupd sub xiv m j ivs) as [iv1|] eqn:U; [|done]. cbn [mbind option_bind]. intros E.
    destruct (iupd_sound sub x xiv m j s ivs iv1) as [S1 V1]; [done|lia|done..|].
    destruct (IH (upd sub x m j s) iv1) as (S2 & V2 & L2); [|done..|].
    { by unfold upd; rewrite length_insert. }
    split_and!; [done| |done]. rewrite V2, V1. destruct sub; lia.
Qed.

Lemma limb_upds_ne x l s k :
  Forall (fun e => e.2 <> k) l -> limb (upds x l s) k = limb s k.
Proof.
  intros HF. revert s. induction HF as [|[[sub m] j] l Hj HF IH]; intros s; simpl in *; [done|].
  rewrite IH. by apply limb_insert_ne.
Qed.

Lemma fold_table_val k :
  (12 <= k)%nat ->
  table_val (fold_table k) = 2097152 ^ Z.of_nat k - 2097152 ^ Z.of_nat (k - 12) * ell.
Proof.
  intros Hk. unfold fold_table, table_val, ell. set (W := 2097152 ^ Z.of_nat (k - 12)).
  assert (forall d, (d <= 12)%nat ->
            2097152 ^ Z.of_nat (k - (12 - d)) = W * 2097152 ^ Z.of_nat d) as E.
  { intros d Hd. unfold W. rewrite <- Z.pow_add_r by lia. f_equal. lia. }
  pose proof (E 1%nat ltac:(lia)) as E1. pose proof (E 2%nat ltac:(lia)) as E2.
  pose proof (E 3%nat ltac:(lia)) as E3. pose proof (E 4%nat ltac:(lia)) as E4.
  pose proof (E 5%nat ltac:(lia)) as E5. pose proof (E 12%nat ltac:(lia)) as E12.
  simpl Nat.sub in *. rewrite E1, E2, E3, E4, E5. rewrite Nat.sub_0_r in E12. rewrite E12.
  change (Z.of_nat 1) with 1. change (Z.of_nat 2) with 2. change (Z.of_nat 3) with 3.
  change (Z.of_nat 4) with 4. change (Z.of_nat 5) with 5. change (Z.of_nat 12) with 12.
  clearbody W. clear. lia.
Qed.

(** Folding limb k subtracts s_k * 2^(21(k-12)) times the group order. *)
Lemma ifold_sound k s ivs ivs' :
  (12 <= k < length s)%nat -> in_itvs s ivs -> ifold k ivs = Some ivs' ->
  in_itvs (fold_limb k s) ivs' /\
  eval (fold_limb k s) = eval s - limb s k * 2097152 ^ Z.of_nat (k - 12) * ell.
Proof.
  intros Hk H. unfold ifold.
  destruct (iupds (ilimb ivs k) (fold_table k) ivs) as [iv1|] eqn:U; [|done].
  cbn [mbind option_bind]. intros [= <-]. rewrite fold_limb_upds.
  destruct (iupds_sound (limb s k) (ilimb ivs k) (fold_table k) s ivs iv1 (length s))
    as (S1 & V1 & L1); [done| |by apply in_itvs_limb|done..|].
  { unfold fold_table. repeat constructor; simpl; lia. }
  split; [apply in_itvs_insert; [done|]; unfold in_itv; simpl; lia|].
  rewrite eval_insert by lia. rewrite V1, limb_upds_ne, fold_table_val by
    (first [lia | unfold fold_table; repeat constructor; simpl; lia]). lia.
Qed.

(** ** Soundness of the analysis *)

(** A group that passes the analysis changes the value by a multiple of the group order. *)
Lemma iexec_sound g s ivs ivs' :
  in_itvs s ivs -> iexec (length s) g ivs = Some ivs' ->
  in_itvs (exec g s) ivs' /\ exists q, eval (exec g s) = eval s + q * ell.
Proof.
  intros H. destruct g as [i|i|k]; cbn [iexec exec].
  - destruct (Nat.ltb_spec (S i) (length s)); [|done]. intros E.
    destruct (icarry_sound 1048576 i s ivs ivs') as (S1 & V1 & _); [lia|done..|].
    split; [exact S1|]. exists 0. change (carry_round i s) with (carry_with 1048576 i s). lia.
  - destruct (Nat.ltb_spec (S i) (length s)); [|done]. intros E.
    destruct (icarry_sound 0 i s ivs ivs') as (S1 & V1 & B); [lia|done..|].
    rewrite carry_floor_with by lia. split; [exact S1|]. exists 0. lia.
  - destruct (_ && _) eqn:B; [|done]. apply andb_true_iff in B as [?%Nat.leb_le ?%Nat.ltb_lt].
    intros E. destruct (ifold_sound k s ivs ivs') as [S1 V1]; [lia|done..|].
    split; [done|]. eexists. rewrite V1. rewrite <- Z.add_opp_r, <- Z.mul_opp_l. reflexivity.
Qed.

Lemma irun_sound p s ivs ivs' :
  in_itvs s ivs -> irun (length s) p ivs = Some ivs' ->
  in_itvs (run p s) ivs' /\ exists q, eval (run p s) = eval s + q * ell.
Proof.
  revert s ivs. induction p as [|g p IH]; intros s ivs H; simpl.
  - intros [= <-]. split; [done|]. exists 0. lia.
  - destruct (iexec (length s) g ivs) as [iv1|] eqn:E; [|done]. cbn [mbind option_bind]. intros R.
    destruct (iexec_sound g s ivs iv1 H E) as (S1 & q1 & V1).
    destruct (IH (exec g s) iv1 S1) as (S2 & q2 & V2); [by rewrite length_exec|].
    split; [done|]. exists (q1 + q2). fold (run p (exec g s)). rewrite V2, V1. lia.
Qed.

(** A run of carries keeps the value. *)
Definition is_carry (g : group) : bool := match g with Fold _ => false | _ => true end.

Lemma irun_carry p s ivs ivs' :
  forallb is_carry p = true -> in_itvs s ivs -> irun (length s) p ivs = Some ivs' ->
  eval (run p s) = eval s.
Proof.
  revert s ivs. induction p as [|g p IH]; intros s ivs HC H; simpl; [done|].
  simpl in HC. apply andb_true_iff in HC as [Hg HC].
  destruct (iexec (length s) g ivs) as [iv1|] eqn:E; [|done]. cbn [mbind option_bind]. intros R.
  destruct (iexec_sound g s ivs iv1 H E) as (S1 & _).
  fold (run p (exec g s)). rewrite (IH (exec g s) iv1) by (try done; by rewrite length_exec).
  destruct g as [i|i|]; [| |done]; simpl in E; destruct (Nat.ltb_spec (S i) (length s)); try done.
  - destruct (icarry_sound 1048576 i s ivs iv1) as (_ & V1 & _); [lia|done..|]. exact V1.
  - destruct (icarry_sound 0 i s ivs iv1) as (_ & V1 & B); [lia|done..|].
    simpl. by rewrite carry_floor_with by lia.
Qed.

(** ** Storing: the bytes of normalised limbs *)


Lemma store_shr x k : 0 <= k -> u8 (Z.shiftr x k) = (x / 2 ^ k) mod 256.
Proof. intros. unfold u8. by rewrite Z.shiftr_div_pow2. Qed.

Lemma store_lor_raw x y k j :
  0 <= k -> 0 <= j <= 8 -> 0 <= x < 2 ^ (k + j) ->
  u8 (Z.lor (Z.shiftr x k) (Z.shiftl y j)) = x / 2 ^ k + 2 ^ j * (y mod 2 ^ (8 - j)).
Proof.
  intros Hk Hj Hx. rewrite Z.shiftr_div_pow2 by done.
  assert (0 <= x / 2 ^ k < 2 ^ j).
  { split; [apply Z.div_pos; lia|]. apply Z.div_lt_upper_bound; [lia|].
    rewrite <- Z.pow_add_r by lia. lia. }
  rewrite lor_add_disjoint by lia. unfold u8.
  replace (2 ^ 8) with (2 ^ j * 2 ^ (8 - j)) by (rewrite <- Z.pow_add_r by lia; f_equal; lia).
  rewrite Z.rem_mul_r by lia.
  replace (x / 2 ^ k + y * 2 ^ j) with (y * 2 ^ j + x / 2 ^ k) by lia.
  rewrite Z.div_add_l, (Z.div_small (x / 2 ^ k)) by lia.
  rewrite Z.add_comm, Z.add_0_r, Z.add_comm. f_equal.
  rewrite Z.add_comm, Z_mod_plus_full. apply Z.mod_small. lia.
Qed.

Lemma store_lor x y k j :
  0 <= k -> 0 <= j <= 8 -> 0 <= x < 2 ^ (k + j) -> 0 <= y < 2 ^ 22 ->
  u8 (Z.lor (Z.shiftr x k) (y <<! j)) = x / 2 ^ k + 2 ^ j * (y mod 2 ^ (8 - j)).
Proof.
  intros Hk Hj Hx Hy.
  assert (0 <= 2 ^ j <= 256) by (split; [lia|]; change 256 with (2 ^ 8); apply Z.pow_le_mono_r; lia).
  rewrite (i64_small (Z.shiftl y j)) by (rewrite Z.shiftl_mul_pow2 by lia; nia).
  by apply store_lor_raw.
Qed.

Ltac gen_atoms :=
  repeat match goal with
  | |- context [?a mod ?b] => generalize dependent (a mod b); intros
  | |- context [?a / ?b] => generalize dependent (a / b); intros
  end.

Ltac digit_eq := Z.div_mod_to_equations; lia.

Lemma ScReduce_store_val x0 x1 x2 x3 x4 x5 x6 x7 x8 x9 x10 x11 r :
  0 <= x0 < 2097152 -> 0 <= x1 < 2097152 -> 0 <= x2 < 2097152 -> 0 <= x3 < 2097152 ->
  0 <= x4 < 2097152 -> 0 <= x5 < 2097152 -> 0 <= x6 < 2097152 -> 0 <= x7 < 2097152 ->
  0 <= x8 < 2097152 -> 0 <= x9 < 2097152 -> 0 <= x10 < 2097152 -> 0 <= x11 < 4194304 ->
  le_val (ScReduce_store (x0 :: x1 :: x2 :: x3 :: x4 :: x5 :: x6 :: x7 :: x8 :: x9 :: x10 :: x11 :: r))
  = eval [x0; x1; x2; x3; x4; x5; x6; x7; x8; x9; x10; x11].
Proof.
  intros. unfold ScReduce_store, limb. cbn [nth].
  rewrite !store_lor by lia. rewrite !store_shr by lia.
  change (8 - 5) with 3. change (8 - 2) with 6. change (8 - 7) with 1. change (8 - 4) with 4.
  change (8 - 1) with 7. change (8 - 6) with 2. change (8 - 3) with 5.
  pow2_const.
  assert (x0 = (x0 / 1) mod 256 + 256 * ((x0 / 256) mod 256) + 65536 * (x0 / 65536)) by digit_eq.
  assert (x1 = x1 mod 8 + 8 * ((x1 / 8) mod 256) + 2048 * ((x1 / 2048) mod 256) + 524288 * (x1 / 524288)) by digit_eq.
  assert (x2 = x2 mod 64 + 64 * ((x2 / 64) mod 256) + 16384 * (x2 / 16384)) by digit_eq.
  assert (x3 = x3 mod 2 + 2 * ((x3 / 2) mod 256) + 512 * ((x3 / 512) mod 256) + 131072 * (x3 / 131072)) by digit_eq.
  assert (x4 = x4 mod 16 + 16 * ((x4 / 16) mod 256) + 4096 * ((x4 / 4096) mod 256) + 1048576 * (x4 / 1048576)) by digit_eq.
  assert (x5 = x5 mod 128 + 128 * ((x5 / 128) mod 256) + 32768 * (x5 / 32768)) by digit_eq.
  assert (x6 = x6 mod 4 + 4 * ((x6 / 4) mod 256) + 1024 * ((x6 / 1024) mod 256) + 262144 * (x6 / 262144)) by digit_eq.
  assert (x7 = x7 mod 32 + 32 * ((x7 / 32) mod 256) + 8192 * ((x7 / 8192) mod 256)) by digit_eq.
  assert (x8 = (x8 / 1) mod 256 + 256 * ((x8 / 256) mod 256) + 65536 * (x8 / 65536)) by digit_eq.
  assert (x9 = x9 mod 8 + 8 * ((x9 / 8) mod 256) + 2048 * ((x9 / 2048) mod 256) + 524288 * (x9 / 524288)) by digit_eq.
  assert (x10 = x10 mod 64 + 64 * ((x10 / 64) mod 256) + 16384 * (x10 / 16384)) by digit_eq.
  assert (x11 = x11 mod 2 + 2 * ((x11 / 2) mod 256) + 512 * ((x11 / 512) mod 256) + 131072 * ((x11 / 131072) mod 256)) by digit_eq.
  unfold le_val, eval. gen_atoms. lia.
Qed.

(** ** Loading: the limbs of a byte string *)

Lemma byte_at_bound l i : bytes_ok l -> 0 <= byte_at l i < 256.
Proof.
  intros H. revert i. induction H as [|b l Hb _ IH]; intros [|i]; unfold byte_at in *; simpl; try lia.
  apply IH.
Qed.

Lemma load3_val l : bytes_ok l -> load3 l = le_val (take 3 l).
Proof.
  intros H. unfold load3.
  pose proof (byte_at_bound l 0 H). pose proof (byte_at_bound l 1 H). pose proof (byte_at_bound l 2 H).
  rewrite !i64_small by (rewrite Z.shiftl_mul_pow2 by lia; lia).
  rewrite (lor_add_disjoint (byte_at l 0)) by lia. rewrite !lor_add_disjoint by lia.
  destruct l as [|a [|b [|c l]]]; unfold byte_at; cbn; rewrite ?take_0; simpl; lia.
Qed.

Lemma load4_val l : bytes_ok l -> load4 l = le_val (take 4 l).
Proof.
  intros H. unfold load4.
  pose proof (byte_at_bound l 0 H). pose proof (byte_at_bound l 1 H). pose proof (byte_at_bound l 2 H).
  pose proof (byte_at_bound l 3 H).
  rewrite !i64_small by (rewrite Z.shiftl_mul_pow2 by lia; lia).
  rewrite (lor_add_disjoint (byte_at l 0)) by lia.
  rewrite (lor_add_disjoint (_ + _)) by lia. rewrite !lor_add_disjoint by lia.
  destruct l as [|a [|b [|c [|d l]]]]; unfold byte_at; cbn; rewrite ?take_0; simpl; lia.
Qed.

Lemma bytes_ok_drop o l : bytes_ok l -> bytes_ok (drop o l).
Proof. apply Forall_drop. Qed.

Lemma load_slice_val l o n k :
  bytes_ok l -> 0 <= k -> k + 21 <= 8 * Z.of_nat n ->
  Z.land 2097151 (Z.shiftr (le_val (take n (drop o l))) k)
  = (le_val l / 2 ^ (8 * Z.of_nat o + k)) mod 2097152.
Proof.
  intros H Hk Hn. change 2097151 with (Z.ones 21). rewrite land_ones_mod by lia.
  rewrite Z.shiftr_div_pow2 by done. rewrite le_val_slice by done.
  change 256 with (2 ^ 8). rewrite <- !Z.pow_mul_r by lia.
  rewrite mod_div_mod, Z.div_div, <- Z.pow_add_r by lia. done.
Qed.

Lemma limb3_val l o k :
  bytes_ok l -> 0 <= k <= 3 -> limb3 l o k = (le_val l / 2 ^ (8 * Z.of_nat o + k)) mod 2097152.
Proof.
  intros. unfold limb3. rewrite load3_val by (by apply bytes_ok_drop).
  apply load_slice_val; [done|lia..].
Qed.

Lemma limb4_val l o k :
  bytes_ok l -> 0 <= k <= 11 -> limb4 l o k = (le_val l / 2 ^ (8 * Z.of_nat o + k)) mod 2097152.
Proof.
  intros. unfold limb4. rewrite load4_val by (by apply bytes_ok_drop).
  apply load_slice_val; [done|lia..].
Qed.

Lemma limb3_unshifted l o :
  Z.land 2097151 (load3 (drop o l)) = limb3 l o 0.
Proof. unfold limb3. by rewrite Z.shiftr_0_r. Qed.

(** The last limb, read without a mask, up to the end of the string. *)
Lemma last_limb_val l o k :
  bytes_ok l -> length l = (o + 4)%nat -> 0 <= k ->
  Z.shiftr (load4 (drop o l)) k = le_val l / 2 ^ (8 * Z.of_nat o + k).
Proof.
  intros H Hl Hk. rewrite load4_val by (by apply bytes_ok_drop).
  rewrite Z.shiftr_div_pow2, le_val_slice by done.
  pose proof (le_val_bound l H) as B. rewrite Hl in B.
  rewrite (Z.mod_small (_ / _)).
  - change 256 with (2 ^ 8). rewrite <- Z.pow_mul_r, Z.div_div, <- Z.pow_add_r by lia. done.
  - split; [apply Z.div_pos; lia|]. apply Z.div_lt_upper_bound; [lia|].
    rewrite <- Z.pow_add_r, <- Nat2Z.inj_add by lia. apply B.
Qed.

(** The limbs of an integer: [n] digits to the base 2^21 and the rest. *)
Fixpoint limbs_of (v : Z) (n : nat) (a : Z) : list Z :=
  match n with
  | O => [v / 2 ^ (21 * a)]
  | S n => (v / 2 ^ (21 * a)) mod 2097152 :: limbs_of v n (a + 1)
  end.

Lemma eval_limbs_of v n a : 0 <= a -> eval (limbs_of v n a) = v / 2 ^ (21 * a).
Proof.
  revert a. induction n as [|n IH]; intros a Ha; cbn [limbs_of eval]; [lia|].
  rewrite IH by lia. replace (21 * (a + 1)) with (21 * a + 21) by lia.
  rewrite Z.pow_add_r, <- Z.div_div by lia. change (2 ^ 21) with 2097152.
  pose proof (Z.div_mod (v / 2 ^ (21 * a)) 2097152). lia.
Qed.

Lemma limbs_of_bound v n a B :
  0 <= v -> 0 <= a -> v / 2 ^ (21 * (a + Z.of_nat n)) <= B ->
  in_itvs (limbs_of v n a) (replicate n (0, 2097151) ++ [(0, B)]).
Proof.
  intros Hv. revert a. induction n as [|n IH]; intros a Ha HB; simpl.
  - constructor; [|constructor]. unfold in_itv; simpl.
    replace (a + Z.of_nat 0) with a in HB by lia. split; [apply Z.div_pos; lia|done].
  - constructor; [|apply IH; [lia|]].
    + unfold in_itv; simpl. pose proof (Z.mod_pos_bound (v / 2 ^ (21 * a)) 2097152). lia.
    + by replace (a + 1 + Z.of_nat n) with (a + Z.of_nat (S n)) by lia.
Qed.

Lemma ScReduce_load_limbs s :
  bytes_ok s -> length s = 64%nat -> ScReduce_load s = limbs_of (le_val s) 23 0.
Proof.
  intros H Hl. unfold ScReduce_load. rewrite !limb3_unshifted.
  change (Z.land 2097151 (load3 s)) with (Z.land 2097151 (load3 (drop 0 s))). rewrite limb3_unshifted.
  rewrite !limb3_val, !limb4_val by (try done; lia).
  rewrite (last_limb_val s 60 3) by (try done; lia). reflexivity.
Qed.

Lemma ScMulAdd_load_limbs s :
  bytes_ok s -> length s = 32%nat -> ScMulAdd_load s = limbs_of (le_val s) 11 0.
Proof.
  intros H Hl. unfold ScMulAdd_load. rewrite !limb3_unshifted.
  change (Z.land 2097151 (load3 s)) with (Z.land 2097151 (load3 (drop 0 s))). rewrite limb3_unshifted.
  rewrite !limb3_val, !limb4_val by (try done; lia).
  rewrite (last_limb_val s 28 7) by (try done; lia). reflexivity.
Qed.

(** ** The final subtraction

    After the first chain the limbs 0 to 11 are digits and limb 12 is 0 or -1. *)
Definition iv_norm : list itv := replicate 12 (0, 2097151) ++ [(-1, 0)] ++ replicate 11 (0, 0).

Definition iv_done : list itv := replicate 11 (0, 2097151) ++ [(-1, 2097152)] ++ replicate 12 (0, 0).

Lemma ScReduce_chain2_itvs : irun 24 ScReduce_chain2 iv_norm = Some iv_done.
Proof. vm_compute. reflexivity. Qed.

Lemma eval_bound s n :
  in_itvs s (replicate n (0, 2097151)) -> 0 <= eval s < 2097152 ^ Z.of_nat n.
Proof.
  revert s. induction n as [|n IH]; intros s H; inversion H as [|x iv s' ivs Hx Hs]; subst; simpl; [lia|].
  unfold in_itv in Hx; simpl in Hx. specialize (IH _ Hs).
  rewrite Nat2Z.inj_succ, Z.pow_succ_r by lia. lia.
Qed.

Lemma eval_app s t : eval (s ++ t) = eval s + 2097152 ^ Z.of_nat (length s) * eval t.
Proof.
  induction s as [|x s IH]; simpl; [lia|]. rewrite IH, Nat2Z.inj_succ, Z.pow_succ_r by lia. lia.
Qed.

Lemma eval_zeros s n : in_itvs s (replicate n (0, 0)) -> eval s = 0.
Proof.
  revert s. induction n as [|n IH]; intros s H; inversion H as [|x iv s' ivs Hx Hs]; subst; simpl; [done|].
  unfold in_itv in Hx; simpl in Hx. rewrite (IH _ Hs). lia.
Qed.

(** Split the limbs of [iv_norm] and [iv_done]. *)
Lemma in_itvs_split s n1 iv1 iv n2 iv2 :
  in_itvs s (replicate n1 iv1 ++ [iv] ++ replicate n2 iv2) ->
  exists l x h, s = l ++ x :: h /\ length l = n1 /\ in_itvs l (replicate n1 iv1) /\ in_itv x iv /\
    in_itvs h (replicate n2 iv2).
Proof.
  intros (l & r & Hl & Hr & ->)%Forall2_app_inv_r.
  inversion Hr as [|x iv' h ivs Hx Hh]; subst. exists l, x, h. split_and!; try done.
  rewrite (Forall2_length _ _ _ Hl). apply length_replicate.
Qed.

Lemma in_itvs_replicate s lo hi n :
  in_itvs s (replicate n (lo, hi)) -> Forall (fun x => lo <= x <= hi) s.
Proof.
  revert s. induction n as [|n IH]; intros s H; inversion H; subst; constructor; auto.
Qed.

Lemma in_itvs_eleven s lo hi :
  in_itvs s (replicate 11 (lo, hi)) ->
  exists x0 x1 x2 x3 x4 x5 x6 x7 x8 x9 x10, s = [x0; x1; x2; x3; x4; x5; x6; x7; x8; x9; x10] /\
    Forall (fun x => lo <= x <= hi) s.
Proof.
  intros H. pose proof (in_itvs_length _ _ H) as L. rewrite length_replicate in L.
  apply in_itvs_replicate in H.
  do 11 (destruct s as [|? s]; [discriminate L|]). destruct s; [|discriminate L].
  do 11 eexists. split; [reflexivity|exact H].
Qed.

Lemma run_cons g p s : run (g :: p) s = run p (exec g s).
Proof. reflexivity. Qed.

Lemma chain2_value s :
  in_itvs s iv_norm ->
  in_itvs (run ScReduce_chain2 s) iv_done /\ 0 <= eval (run ScReduce_chain2 s) < ell /\
  eval (run ScReduce_chain2 s) = eval s mod ell.
Proof.
  intros H. assert (length s = 24%nat) as L by (by rewrite (in_itvs_length _ _ H)).
  destruct (irun_sound ScReduce_chain2 s iv_norm iv_done) as [HD _]; [done|by rewrite L; vm_compute|].
  split; [done|].
  destruct (iexec (length s) (Fold 12) iv_norm) as [iv1|] eqn:E1; [|rewrite L in E1; vm_compute in E1; done].
  pose proof E1 as E1'. rewrite L in E1'. cbn [iexec] in E1'.
  destruct (ifold_sound 12 s iv_norm iv1) as [S1 V1]; [lia|done|exact E1'|].
  assert (eval (run ScReduce_chain2 s) = eval s - limb s 12 * ell) as V.
  { unfold ScReduce_chain2. rewrite run_cons. cbn [exec].
    rewrite (irun_carry _ _ iv1 iv_done); [rewrite V1; change (2097152 ^ Z.of_nat (12 - 12)) with 1; lia
      |reflexivity|exact S1|].
    change (fold_limb 12 s) with (exec (Fold 12) s). rewrite length_exec, L.
    vm_compute in E1'. injection E1' as <-. vm_compute. reflexivity. }
  apply in_itvs_split in H as (l & x & h & -> & Ll & Hl & Hx & Hh).
  pose proof (eval_bound _ _ Hl) as B. pose proof (eval_zeros _ _ Hh) as Z0.
  assert (limb (l ++ x :: h) 12 = x) as Lx.
  { unfold limb. rewrite app_nth2, Ll by lia. reflexivity. }
  assert (0 <= eval (run ScReduce_chain2 (l ++ x :: h)) < ell) as R.
  { rewrite V, Lx, eval_app, Ll. cbn [eval]. rewrite Z0. unfold in_itv in Hx. cbn in Hx.
    change (2097152 ^ Z.of_nat 12) with (2 ^ 252) in *. unfold ell in *. nia. }
  split; [done|]. rewrite Lx in V.
  apply (Z.mod_unique_pos _ _ x); [done|]. rewrite V. lia.
Qed.

Lemma ScReduce_store_ok s : bytes_ok (ScReduce_store s).
Proof.
  unfold ScReduce_store. repeat (apply bytes_ok_cons; split; [unfold u8; apply Z.mod_pos_bound; lia|]).
  constructor.
Qed.

Lemma store_mod s v :
  in_itvs s iv_done -> eval s = v -> 0 <= v < ell -> ScReduce_store s = le_bytes 32 v.
Proof.
  intros H Hv Hb. apply in_itvs_split in H as (l & x11 & h & -> & Ll & Hl & Hx & Hh).
  pose proof (eval_bound _ _ Hl) as B. pose proof (eval_zeros _ _ Hh) as Z0.
  rewrite eval_app, Ll in Hv. cbn [eval] in Hv. rewrite Z0 in Hv.
  apply in_itvs_eleven in Hl as (x0&x1&x2&x3&x4&x5&x6&x7&x8&x9&x10&->&HF).
  unfold in_itv in Hx. cbn in Hx.
  assert (0 <= x11) as P.
  { change (2097152 ^ Z.of_nat 11) with (2 ^ 231) in *. lia. }
  repeat (apply Forall_cons in HF as [? HF]).
  apply le_val_inj; [apply ScReduce_store_ok|apply le_bytes_ok|by rewrite length_le_bytes|].
  cbn [app]. rewrite ScReduce_store_val by lia.
  rewrite le_val_le_bytes, Z.mod_small by (unfold ell in Hb; simpl; lia).
  rewrite <- Hv. cbn [eval]. change (Z.of_nat 11) with 11. lia.
Qed.

(** From normalised limbs to the canonical encoding of the residue. *)
Lemma reduced_bytes s :
  in_itvs s iv_norm -> ScReduce_store (run ScReduce_chain2 s) = le_bytes 32 (eval s mod ell).
Proof. intros H. destruct (chain2_value s H) as (D & B & V). apply store_mod; [done|done|]. by rewrite <- V. Qed.

Definition ScReduce_prog : list group :=
  ScReduce_fold_high ++ ScReduce_carry_mid ++ ScReduce_fold_low ++ ScReduce_carry_low ++ ScReduce_chain1.

Definition iv_load : list itv := replicate 23 (0, 2097151) ++ [(0, 536870911)].

Lemma ScReduce_itvs : irun 24 ScReduce_prog iv_load = Some iv_norm.
Proof. vm_compute. reflexivity. Qed.

(** ScReduce takes any 64-byte little-endian integer to the canonical 32-byte encoding of its residue modulo the group order; none of its int64 operations overflows. *)
Lemma ScReduce_correct s :
  bytes_ok s -> length s = 64%nat -> ScReduce s = le_bytes 32 (le_val s mod ell).
Proof.
  intros H Hl. unfold ScReduce. rewrite ScReduce_load_limbs by done.
  pose proof (le_val_bound s H) as B. rewrite Hl in B.
  assert (in_itvs (limbs_of (le_val s) 23 0) iv_load) as HI.
  { apply limbs_of_bound; [lia..|]. change (21 * (0 + Z.of_nat 23)) with 483.
    change (256 ^ Z.of_nat 64) with (2 ^ 483 * 536870912) in B.
    assert (le_val s / 2 ^ 483 < 536870912); [|lia]. apply Z.div_lt_upper_bound; lia. }
  destruct (irun_sound ScReduce_prog _ iv_load iv_norm HI ScReduce_itvs) as (S1 & q & V1).
  fold ScReduce_prog. rewrite (reduced_bytes _ S1). f_equal. rewrite V1, eval_limbs_of by lia.
  rewrite Z_mod_plus_full. f_equal. change (2 ^ (21 * 0)) with 1. apply Z.div_1_r.
Qed.

(** ** The schoolbook product *)

Lemma twelve (s : list Z) : length s = 12%nat ->
  exists x0 x1 x2 x3 x4 x5 x6 x7 x8 x9 x10 x11, s = [x0; x1; x2; x3; x4; x5; x6; x7; x8; x9; x10; x11].
Proof.
  intros L. do 12 (destruct s as [|? s]; [discriminate L|]). destruct s; [|discriminate L].
  by do 12 eexists.
Qed.

Definition limb25 (x : Z) : Prop := 0 <= x <= 33554432.

Lemma limb25_mul x y : limb25 x -> limb25 y -> 0 <= x * y <= 1125899906842624.
Proof. unfold limb25. intros. nia. Qed.

(** Collect the bounds of all products of two limbs in the goal. *)
Ltac bound_products :=
  repeat match goal with
  | Hx : limb25 ?x, Hy : limb25 ?y |- context [?x * ?y] =>
      let p := fresh "p" in
      pose proof (limb25_mul x y Hx Hy); set (p := x * y) in *; clearbody p
  end.

Definition iv_product : list itv := replicate 23 (0, 14636698788954112) ++ [(0, 0)].

Lemma product_limb_bound x : 0 <= x <= 14636698788954112 -> in_itv (i64 x) (0, 14636698788954112).
Proof. intros. rewrite i64_small by lia. done. Qed.

Lemma ScMulAdd_product_val a b c :
  length a = 12%nat -> length b = 12%nat -> length c = 12%nat ->
  Forall limb25 a -> Forall limb25 b -> Forall limb25 c ->
  in_itvs (ScMulAdd_product a b c) iv_product /\
  eval (ScMulAdd_product a b c) = eval a * eval b + eval c.
Proof.
  intros La Lb Lc Ha Hb Hc.
  destruct (twelve a La) as (a0&a1&a2&a3&a4&a5&a6&a7&a8&a9&a10&a11&->).
  destruct (twelve b Lb) as (b0&b1&b2&b3&b4&b5&b6&b7&b8&b9&b10&b11&->).
  destruct (twelve c Lc) as (c0&c1&c2&c3&c4&c5&c6&c7&c8&c9&c10&c11&->).
  clear La Lb Lc.
  repeat (apply Forall_cons in Ha as [? Ha]). repeat (apply Forall_cons in Hb as [? Hb]).
  repeat (apply Forall_cons in Hc as [? Hc]). clear Ha Hb Hc.
  unfold ScMulAdd_product. rewrite ?i64_add_r. repeat (rewrite i64_add_l, <- ?Z.add_assoc). split.
  - unfold iv_product. cbn [replicate app].
    repeat (apply Forall2_cons; split; [try (apply product_limb_bound; bound_products; unfold limb25 in *; lia)|]).
    + unfold in_itv. simpl. lia.
    + constructor.
  - rewrite !i64_small by (bound_products; unfold limb25 in *; lia).
    cbn [eval]. ring.
Qed.

Definition ScMulAdd_prog : list group :=
  ScMulAdd_carry ++ ScMulAdd_fold_high ++ ScMulAdd_carry_mid ++ ScMulAdd_fold_low ++
  ScMulAdd_carry_low ++ ScMulAdd_chain1.

Lemma ScMulAdd_itvs : irun 24 ScMulAdd_prog iv_product = Some iv_norm.
Proof. vm_compute. reflexivity. Qed.

Lemma ScMulAdd_load_spec a :
  bytes_ok a -> length a = 32%nat ->
  length (ScMulAdd_load a) = 12%nat /\ Forall limb25 (ScMulAdd_load a) /\
  eval (ScMulAdd_load a) = le_val a.
Proof.
  intros H Hl. rewrite ScMulAdd_load_limbs by done.
  pose proof (le_val_bound a H) as B. rewrite Hl in B.
  assert (in_itvs (limbs_of (le_val a) 11 0) (replicate 11 (0, 2097151) ++ [(0, 33554431)])) as HI.
  { apply limbs_of_bound; [lia..|]. change (21 * (0 + Z.of_nat 11)) with 231.
    change (256 ^ Z.of_nat 32) with (2 ^ 231 * 33554432) in B.
    assert (le_val a / 2 ^ 231 < 33554432); [|lia]. apply Z.div_lt_upper_bound; lia. }
  split_and!; [done| |].
  - apply Forall2_app_inv_r in HI as (l & r & H1 & H2 & ->). apply Forall_app. split.
    + eapply Forall_impl; [exact (in_itvs_replicate _ _ _ _ H1)|]. unfold limb25. intros x. simpl. lia.
    + inversion H2 as [|x iv r' ivs Hx Hr]; subst. inversion Hr; subst.
      constructor; [|constructor]. unfold in_itv in Hx. unfold limb25. simpl in Hx. lia.
  - rewrite eval_limbs_of by lia. change (2 ^ (21 * 0)) with 1. apply Z.div_1_r.
Qed.

(** ScMulAdd computes the canonical encoding of (ab + c) mod the group order, for any 32-byte a, b and c, without an overflow of its int64 operations. *)
Lemma ScMulAdd_correct a b c :
  bytes_ok a -> length a = 32%nat -> bytes_ok b -> length b = 32%nat ->
  bytes_ok c -> length c = 32%nat ->
  ScMulAdd a b c = le_bytes 32 ((le_val a * le_val b + le_val c) mod ell).
Proof.
  intros Ha La Hb Lb Hc Lc. unfold ScMulAdd. fold ScMulAdd_prog.
  destruct (ScMulAdd_load_spec a Ha La) as (L1 & B1 & <-).
  destruct (ScMulAdd_load_spec b Hb Lb) as (L2 & B2 & <-).
  destruct (ScMulAdd_load_spec c Hc Lc) as (L3 & B3 & <-).
  destruct (ScMulAdd_product_val _ _ _ L1 L2 L3 B1 B2 B3) as [HI <-].
  set (s := ScMulAdd_product _ _ _) in *. clearbody s.
  assert (length s = 24%nat) as L by (by rewrite (in_itvs_length _ _ HI)).
  destruct (irun_sound ScMulAdd_prog s iv_product iv_norm HI) as (S1 & q & V1);
    [rewrite L; exact ScMulAdd_itvs|].
  change ScMulAdd_chain2 with ScReduce_chain2. unfold ScMulAdd_store.
  rewrite (reduced_bytes _ S1), V1. by rewrite Z_mod_plus_full.
Qed.

(** C11. Scalars modulo the group order: ScReduce takes any 64-byte little-endian integer to the canonical 32-byte encoding of its residue, and ScMulAdd computes the canonical encoding of ab + c for any 32-byte a, b and c; none of their int64 operations overflows. *)
Theorem scalars_correct :
  (forall s,
   bytes_ok s -> length s = 64%nat -> ScReduce s = le_bytes 32 (le_val s mod ell)) /\
  (forall a b c,
   bytes_ok a -> length a = 32%nat -> bytes_ok b -> length b = 32%nat ->
   bytes_ok c -> length c = 32%nat ->
   ScMulAdd a b c = le_bytes 32 ((le_val a * le_val b + le_val c) mod ell)).
Proof. split_and!; [exact ScReduce_correct|exact ScMulAdd_correct]. Qed.

Lemma scalars_correct_witness :
  (ScReduce (replicate 64 255) = le_bytes 32 (le_val (replicate 64 255) mod ell)) /\
  (ScMulAdd (replicate 32 255) (replicate 32 254) (replicate 32 1)
  = le_bytes 32 ((le_val (replicate 32 255) * le_val (replicate 32 254) + le_val (replicate 32 1)) mod ell)).
Proof.
  split.
  { apply ((proj1 scalars_correct) (replicate 64 255)); [repeat constructor; lia|reflexivity]. }
  { apply (proj2 scalars_correct); first [reflexivity | repeat constructor; lia]. }
Defined.
