(* ===== verification/EdField.v ===== *)
(** * crypto/ed25519/internal/edwards25519/fe.go and field.go: the field GF(2^255 - 19)

    A field element is ten int32 limbs of alternately 26 and 25 bits.  Additions and the
    normalisation in FeToBytes work in int32, products and FeCombine in int64; every
    operation wraps around at its width and the theorems show, from the bounds the comments of
    the source state, that none does.  An operation that writes through its first pointer
    returns the element it writes; FeToBytes also normalises its argument in place and returns
    it beside the bytes.  A group of three assignments "c = (h + 2^(w-1)) >> w; h' += c;
    h -= c << w" of FeCombine, and its floor variant in FeToBytes, is one function on (h, h'). *)
From S2P Require Import Prelude EdScalar.
Local Open Scope Z_scope.
Local Open Scope go_scope.

(** int32 arithmetic *)
Local Notation "x +~ y" := (i32 (x + y)) (at level 50, left associativity).
Local Notation "x -~ y" := (i32 (x - y)) (at level 50, left associativity).
Local Notation "x *~ y" := (i32 (x * y)) (at level 40, left associativity).
Local Notation "x <<~ k" := (i32 (Z.shiftl x k)) (at level 34, left associativity).

(** The prime. *)
Definition p25519 : Z := 2 ^ 255 - 19.

Record FieldElement := Fe { t0 : Z; t1 : Z; t2 : Z; t3 : Z; t4 : Z; t5 : Z; t6 : Z; t7 : Z; t8 : Z; t9 : Z }.

(** ** fe.go *)

Definition FeAdd (a b : FieldElement) : FieldElement :=
  Fe (t0 a +~ t0 b) (t1 a +~ t1 b) (t2 a +~ t2 b) (t3 a +~ t3 b) (t4 a +~ t4 b)
     (t5 a +~ t5 b) (t6 a +~ t6 b) (t7 a +~ t7 b) (t8 a +~ t8 b) (t9 a +~ t9 b).

Definition FeSub (a b : FieldElement) : FieldElement :=
  Fe (t0 a -~ t0 b) (t1 a -~ t1 b) (t2 a -~ t2 b) (t3 a -~ t3 b) (t4 a -~ t4 b)
     (t5 a -~ t5 b) (t6 a -~ t6 b) (t7 a -~ t7 b) (t8 a -~ t8 b) (t9 a -~ t9 b).

Definition FeNeg (f : FieldElement) : FieldElement :=
  Fe (i32 (- t0 f)) (i32 (- t1 f)) (i32 (- t2 f)) (i32 (- t3 f)) (i32 (- t4 f))
     (i32 (- t5 f)) (i32 (- t6 f)) (i32 (- t7 f)) (i32 (- t8 f)) (i32 (- t9 f)).

Definition FeCMove (f g : FieldElement) (b : Z) : FieldElement :=
  let b := i32 (- b) in
  let cmov x y := Z.lxor x (Z.land b (Z.lxor x y)) in
  Fe (cmov (t0 f) (t0 g)) (cmov (t1 f) (t1 g)) (cmov (t2 f) (t2 g)) (cmov (t3 f) (t3 g))
     (cmov (t4 f) (t4 g)) (cmov (t5 f) (t5 g)) (cmov (t6 f) (t6 g)) (cmov (t7 f) (t7 g))
     (cmov (t8 f) (t8 g)) (cmov (t9 f) (t9 g)).

(** [c = (h + (1 << (w-1))) >> w; h' += c; h -= c << w] *)
Definition carry64 (w h h' : Z) : Z * Z :=
  let c := Z.shiftr (h +! 2 ^ (w - 1)) w in
  (h -! (c <<! w), h' +! c).

(** [c9 = (h9 + (1 << 24)) >> 25; h0 += c9 * 19; h9 -= c9 << 25] *)
Definition carry64_19 (h9 h0 : Z) : Z * Z :=
  let c9 := Z.shiftr (h9 +! 2 ^ 24) 25 in
  (h9 -! (c9 <<! 25), h0 +! (c9 *! 19)).

Definition FeCombine (h0 h1 h2 h3 h4 h5 h6 h7 h8 h9 : Z) : FieldElement :=
  let '(h0, h1) := carry64 26 h0 h1 in
  let '(h4, h5) := carry64 26 h4 h5 in
  let '(h1, h2) := carry64 25 h1 h2 in
  let '(h5, h6) := carry64 25 h5 h6 in
  let '(h2, h3) := carry64 26 h2 h3 in
  let '(h6, h7) := carry64 26 h6 h7 in
  let '(h3, h4) := carry64 25 h3 h4 in
  let '(h7, h8) := carry64 25 h7 h8 in
  let '(h4, h5) := carry64 26 h4 h5 in
  let '(h8, h9) := carry64 26 h8 h9 in
  let '(h9, h0) := carry64_19 h9 h0 in
  let '(h0, h1) := carry64 26 h0 h1 in
  Fe (i32 h0) (i32 h1) (i32 h2) (i32 h3) (i32 h4) (i32 h5) (i32 h6) (i32 h7) (i32 h8) (i32 h9).

Definition FeFromBytes (src : list Z) : FieldElement :=
  let h0 := load4 src in
  let h1 := load3 (drop 4 src) <<! 6 in
  let h2 := load3 (drop 7 src) <<! 5 in
  let h3 := load3 (drop 10 src) <<! 3 in
  let h4 := load3 (drop 13 src) <<! 2 in
  let h5 := load4 (drop 16 src) in
  let h6 := load3 (drop 20 src) <<! 7 in
  let h7 := load3 (drop 23 src) <<! 5 in
  let h8 := load3 (drop 26 src) <<! 4 in
  let h9 := Z.land (load3 (drop 29 src)) 8388607 <<! 2 in
  FeCombine h0 h1 h2 h3 h4 h5 h6 h7 h8 h9.

(** [q = (h + q) >> w] *)
Definition q_step (w h q : Z) : Z := Z.shiftr (h +~ q) w.

(** The quotient q of FeToBytes. *)
Definition FeToBytes_q (h : FieldElement) : Z :=
  let q := Z.shiftr (19 *~ t9 h +~ 2 ^ 24) 25 in
  let q := q_step 26 (t0 h) q in
  let q := q_step 25 (t1 h) q in
  let q := q_step 26 (t2 h) q in
  let q := q_step 25 (t3 h) q in
  let q := q_step 26 (t4 h) q in
  let q := q_step 25 (t5 h) q in
  let q := q_step 26 (t6 h) q in
  let q := q_step 25 (t7 h) q in
  let q := q_step 26 (t8 h) q in
  q_step 25 (t9 h) q.

(** [carry = h >> w; h' += carry; h -= carry << w] *)
Definition carry32 (w h h' : Z) : Z * Z :=
  let c := Z.shiftr h w in
  (h -~ (c <<~ w), h' +~ c).

(** The element FeToBytes leaves in h. *)
Definition FeToBytes_norm (h : FieldElement) : FieldElement :=
  let q := FeToBytes_q h in
  let h0 := t0 h +~ 19 *~ q in
  let '(h0, h1) := carry32 26 h0 (t1 h) in
  let '(h1, h2) := carry32 25 h1 (t2 h) in
  let '(h2, h3) := carry32 26 h2 (t3 h) in
  let '(h3, h4) := carry32 25 h3 (t4 h) in
  let '(h4, h5) := carry32 26 h4 (t5 h) in
  let '(h5, h6) := carry32 25 h5 (t6 h) in
  let '(h6, h7) := carry32 26 h6 (t7 h) in
  let '(h7, h8) := carry32 25 h7 (t8 h) in
  let '(h8, h9) := carry32 26 h8 (t9 h) in
  let carry9 := Z.shiftr h9 25 in
  let h9 := h9 -~ (carry9 <<~ 25) in
  Fe h0 h1 h2 h3 h4 h5 h6 h7 h8 h9.

Definition FeToBytes_store (h : FieldElement) : list Z :=
  let (h0, h1, h2, h3, h4, h5, h6, h7, h8, h9) := h in
  [ u8 (Z.shiftr h0 0); u8 (Z.shiftr h0 8); u8 (Z.shiftr h0 16);
    u8 (Z.lor (Z.shiftr h0 24) (h1 <<~ 2));
    u8 (Z.shiftr h1 6); u8 (Z.shiftr h1 14);
    u8 (Z.lor (Z.shiftr h1 22) (h2 <<~ 3));
    u8 (Z.shiftr h2 5); u8 (Z.shiftr h2 13);
    u8 (Z.lor (Z.shiftr h2 21) (h3 <<~ 5));
    u8 (Z.shiftr h3 3); u8 (Z.shiftr h3 11);
    u8 (Z.lor (Z.shiftr h3 19) (h4 <<~ 6));
    u8 (Z.shiftr h4 2); u8 (Z.shiftr h4 10); u8 (Z.shiftr h4 18);
    u8 (Z.shiftr h5 0); u8 (Z.shiftr h5 8); u8 (Z.shiftr h5 16);
    u8 (Z.lor (Z.shiftr h5 24) (h6 <<~ 1));
    u8 (Z.shiftr h6 7); u8 (Z.shiftr h6 15);
    u8 (Z.lor (Z.shiftr h6 23) (h7 <<~ 3));
    u8 (Z.shiftr h7 5); u8 (Z.shiftr h7 13);
    u8 (Z.lor (Z.shiftr h7 21) (h8 <<~ 4));
    u8 (Z.shiftr h8 4); u8 (Z.shiftr h8 12);
    u8 (Z.lor (Z.shiftr h8 20) (h9 <<~ 6));
    u8 (Z.shiftr h9 2); u8 (Z.shiftr h9 10); u8 (Z.shiftr h9 18) ].

(** The bytes written to s, and h as it is left. *)
Definition FeToBytes (h : FieldElement) : list Z * FieldElement :=
  let h := FeToBytes_norm h in
  (FeToBytes_store h, h).

Definition FeMul (f g : FieldElement) : FieldElement :=
  let (f0, f1, f2, f3, f4, f5, f6, f7, f8, f9) := f in
  let (g0, g1, g2, g3, g4, g5, g6, g7, g8, g9) := g in
  let f1_2 := 2 *~ f1 in
  let f3_2 := 2 *~ f3 in
  let f5_2 := 2 *~ f5 in
  let f7_2 := 2 *~ f7 in
  let f9_2 := 2 *~ f9 in
  let g1_19 := 19 *~ g1 in
  let g2_19 := 19 *~ g2 in
  let g3_19 := 19 *~ g3 in
  let g4_19 := 19 *~ g4 in
  let g5_19 := 19 *~ g5 in
  let g6_19 := 19 *~ g6 in
  let g7_19 := 19 *~ g7 in
  let g8_19 := 19 *~ g8 in
  let g9_19 := 19 *~ g9 in
  let h0 := f0*!g0 +! f1_2*!g9_19 +! f2*!g8_19 +! f3_2*!g7_19 +! f4*!g6_19 +! f5_2*!g5_19 +! f6*!g4_19 +! f7_2*!g3_19 +! f8*!g2_19 +! f9_2*!g1_19 in
  let h1 := f0*!g1 +! f1*!g0 +! f2*!g9_19 +! f3*!g8_19 +! f4*!g7_19 +! f5*!g6_19 +! f6*!g5_19 +! f7*!g4_19 +! f8*!g3_19 +! f9*!g2_19 in
  let h2 := f0*!g2 +! f1_2*!g1 +! f2*!g0 +! f3_2*!g9_19 +! f4*!g8_19 +! f5_2*!g7_19 +! f6*!g6_19 +! f7_2*!g5_19 +! f8*!g4_19 +! f9_2*!g3_19 in
  let h3 := f0*!g3 +! f1*!g2 +! f2*!g1 +! f3*!g0 +! f4*!g9_19 +! f5*!g8_19 +! f6*!g7_19 +! f7*!g6_19 +! f8*!g5_19 +! f9*!g4_19 in
  let h4 := f0*!g4 +! f1_2*!g3 +! f2*!g2 +! f3_2*!g1 +! f4*!g0 +! f5_2*!g9_19 +! f6*!g8_19 +! f7_2*!g7_19 +! f8*!g6_19 +! f9_2*!g5_19 in
  let h5 := f0*!g5 +! f1*!g4 +! f2*!g3 +! f3*!g2 +! f4*!g1 +! f5*!g0 +! f6*!g9_19 +! f7*!g8_19 +! f8*!g7_19 +! f9*!g6_19 in
  let h6 := f0*!g6 +! f1_2*!g5 +! f2*!g4 +! f3_2*!g3 +! f4*!g2 +! f5_2*!g1 +! f6*!g0 +! f7_2*!g9_19 +! f8*!g8_19 +! f9_2*!g7_19 in
  let h7 := f0*!g7 +! f1*!g6 +! f2*!g5 +! f3*!g4 +! f4*!g3 +! f5*!g2 +! f6*!g1 +! f7*!g0 +! f8*!g9_19 +! f9*!g8_19 in
  let h8 := f0*!g8 +! f1_2*!g7 +! f2*!g6 +! f3_2*!g5 +! f4*!g4 +! f5_2*!g3 +! f6*!g2 +! f7_2*!g1 +! f8*!g0 +! f9_2*!g9_19 in
  let h9 := f0*!g9 +! f1*!g8 +! f2*!g7 +! f3*!g6 +! f4*!g5 +! f5*!g4 +! f6*!g3 +! f7*!g2 +! f8*!g1 +! f9*!g0 in
  FeCombine h0 h1 h2 h3 h4 h5 h6 h7 h8 h9.

(** The ten int64 results of feSquare. *)
Record wide := Wide { h0 : Z; h1 : Z; h2 : Z; h3 : Z; h4 : Z; h5 : Z; h6 : Z; h7 : Z; h8 : Z; h9 : Z }.

Definition feSquare (f : FieldElement) : wide :=
  let (f0, f1, f2, f3, f4, f5, f6, f7, f8, f9) := f in
  let f0_2 := 2 *~ f0 in
  let f1_2 := 2 *~ f1 in
  let f2_2 := 2 *~ f2 in
  let f3_2 := 2 *~ f3 in
  let f4_2 := 2 *~ f4 in
  let f5_2 := 2 *~ f5 in
  let f6_2 := 2 *~ f6 in
  let f7_2 := 2 *~ f7 in
  let f5_38 := 38 *! f5 in
  let f6_19 := 19 *! f6 in
  let f7_38 := 38 *! f7 in
  let f8_19 := 19 *! f8 in
  let f9_38 := 38 *! f9 in
  Wide
    (f0*!f0 +! f1_2*!f9_38 +! f2_2*!f8_19 +! f3_2*!f7_38 +! f4_2*!f6_19 +! f5*!f5_38)
    (f0_2*!f1 +! f2*!f9_38 +! f3_2*!f8_19 +! f4*!f7_38 +! f5_2*!f6_19)
    (f0_2*!f2 +! f1_2*!f1 +! f3_2*!f9_38 +! f4_2*!f8_19 +! f5_2*!f7_38 +! f6*!f6_19)
    (f0_2*!f3 +! f1_2*!f2 +! f4*!f9_38 +! f5_2*!f8_19 +! f6*!f7_38)
    (f0_2*!f4 +! f1_2*!f3_2 +! f2*!f2 +! f5_2*!f9_38 +! f6_2*!f8_19 +! f7*!f7_38)
    (f0_2*!f5 +! f1_2*!f4 +! f2_2*!f3 +! f6*!f9_38 +! f7_2*!f8_19)
    (f0_2*!f6 +! f1_2*!f5_2 +! f2_2*!f4 +! f3_2*!f3 +! f7_2*!f9_38 +! f8*!f8_19)
    (f0_2*!f7 +! f1_2*!f6 +! f2_2*!f5 +! f3_2*!f4 +! f8*!f9_38)
    (f0_2*!f8 +! f1_2*!f7_2 +! f2_2*!f6 +! f3_2*!f5_2 +! f4*!f4 +! f9*!f9_38)
    (f0_2*!f9 +! f1_2*!f8 +! f2_2*!f7 +! f3_2*!f6 +! f4_2*!f5).

Definition FeSquare (f : FieldElement) : FieldElement :=
  let (h0, h1, h2, h3, h4, h5, h6, h7, h8, h9) := feSquare f in
  FeCombine h0 h1 h2 h3 h4 h5 h6 h7 h8 h9.

Definition FeSquare2 (f : FieldElement) : FieldElement :=
  let (h0, h1, h2, h3, h4, h5, h6, h7, h8, h9) := feSquare f in
  FeCombine (h0 +! h0) (h1 +! h1) (h2 +! h2) (h3 +! h3) (h4 +! h4)
            (h5 +! h5) (h6 +! h6) (h7 +! h7) (h8 +! h8) (h9 +! h9).

(** ** field.go *)

Definition FeZero : FieldElement := Fe 0 0 0 0 0 0 0 0 0 0.
Definition FeOne : FieldElement := Fe 1 0 0 0 0 0 0 0 0 0.
Definition FeCopy (src : FieldElement) : FieldElement := src.

(** Both normalise f in place, through FeToBytes. *)
Definition FeIsNegative (f : FieldElement) : Z * FieldElement :=
  let (s, f) := FeToBytes f in (Z.land (byte_at s 0) 1, f).

Definition FeIsNonZero (f : FieldElement) : Z * FieldElement :=
  let (s, f) := FeToBytes f in
  let x := foldl Z.lor 0 s in
  let x := Z.lor x (Z.shiftr x 4) in
  let x := Z.lor x (Z.shiftr x 2) in
  let x := Z.lor x (Z.shiftr x 1) in
  (Z.land x 1, f).

(** [for i = 1; i < n; i++ { FeSquare(&t, &t) }] *)
Definition square_loop (n : nat) (t : FieldElement) : FieldElement := Nat.iter (n - 1) FeSquare t.

Definition FeInvert (z : FieldElement) : FieldElement :=
  let t0 := FeSquare z in
  let t1 := FeSquare t0 in
  let t1 := square_loop 2 t1 in
  let t1 := FeMul z t1 in
  let t0 := FeMul t0 t1 in
  let t2 := FeSquare t0 in
  let t1 := FeMul t1 t2 in
  let t2 := FeSquare t1 in
  let t2 := square_loop 5 t2 in
  let t1 := FeMul t2 t1 in
  let t2 := FeSquare t1 in
  let t2 := square_loop 10 t2 in
  let t2 := FeMul t2 t1 in
  let t3 := FeSquare t2 in
  let t3 := square_loop 20 t3 in
  let t2 := FeMul t3 t2 in
  let t2 := FeSquare t2 in
  let t2 := square_loop 10 t2 in
  let t1 := FeMul t2 t1 in
  let t2 := FeSquare t1 in
  let t2 := square_loop 50 t2 in
  let t2 := FeMul t2 t1 in
  let t3 := FeSquare t2 in
  let t3 := square_loop 100 t3 in
  let t2 := FeMul t3 t2 in
  let t2 := FeSquare t2 in
  let t2 := square_loop 50 t2 in
  let t1 := FeMul t2 t1 in
  let t1 := FeSquare t1 in
  let t1 := square_loop 5 t1 in
  FeMul t1 t0.

Definition fePow22523 (z : FieldElement) : FieldElement :=
  let t0 := FeSquare z in
  let t0 := square_loop 1 t0 in
  let t1 := FeSquare t0 in
  let t1 := square_loop 2 t1 in
  let t1 := FeMul z t1 in
  let t0 := FeMul t0 t1 in
  let t0 := FeSquare t0 in
  let t0 := square_loop 1 t0 in
  let t0 := FeMul t1 t0 in
  let t1 := FeSquare t0 in
  let t1 := square_loop 5 t1 in
  let t0 := FeMul t1 t0 in
  let t1 := FeSquare t0 in
  let t1 := square_loop 10 t1 in
  let t1 := FeMul t1 t0 in
  let t2 := FeSquare t1 in
  let t2 := square_loop 20 t2 in
  let t1 := FeMul t2 t1 in
  let t1 := FeSquare t1 in
  let t1 := square_loop 10 t1 in
  let t0 := FeMul t1 t0 in
  let t1 := FeSquare t0 in
  let t1 := square_loop 50 t1 in
  let t1 := FeMul t1 t0 in
  let t2 := FeSquare t1 in
  let t2 := square_loop 100 t2 in
  let t1 := FeMul t2 t1 in
  let t1 := FeSquare t1 in
  let t1 := square_loop 50 t1 in
  let t0 := FeMul t1 t0 in
  let t0 := FeSquare t0 in
  let t0 := square_loop 2 t0 in
  FeMul t0 z.

(** ** The integer an element represents, and its residue *)

Definition fe_val (f : FieldElement) : Z :=
  t0 f + 2 ^ 26 * t1 f + 2 ^ 51 * t2 f + 2 ^ 77 * t3 f + 2 ^ 102 * t4 f + 2 ^ 128 * t5 f +
  2 ^ 153 * t6 f + 2 ^ 179 * t7 f + 2 ^ 204 * t8 f + 2 ^ 230 * t9 f.

Example FeInvert_five : (fe_val (FeMul (FeInvert (Fe 5 0 0 0 0 0 0 0 0 0)) (Fe 5 0 0 0 0 0 0 0 0 0))) mod p25519 = 1.
Proof. vm_compute. reflexivity. Qed.

Example FeToBytes_wraps : FeToBytes (Fe (-1) 0 0 0 0 0 0 0 0 0)
  = (le_bytes 32 (p25519 - 1), Fe 67108844 33554431 67108863 33554431 67108863 33554431 67108863 33554431 67108863 33554431).
Proof. vm_compute. reflexivity. Qed.

(** Congruence modulo the prime, as a setoid. *)
Definition feq (a b : Z) : Prop := a mod p25519 = b mod p25519.
Infix "≡p" := feq (at level 70, no associativity).

#[global] Instance feq_equiv : Equivalence feq.
Proof. split; unfold feq; repeat intro; congruence. Qed.

#[global] Instance feq_add : Proper (feq ==> feq ==> feq) Z.add.
Proof. intros a b E c d F. unfold feq in *. by rewrite Zplus_mod, E, F, <- Zplus_mod. Qed.

#[global] Instance feq_mul : Proper (feq ==> feq ==> feq) Z.mul.
Proof. intros a b E c d F. unfold feq in *. by rewrite Zmult_mod, E, F, <- Zmult_mod. Qed.

Lemma feq_multiple a b q : a = b + q * p25519 -> a ≡p b.
Proof. intros ->. unfold feq. by rewrite Z_mod_plus_full. Qed.

(** ** Bounds *)

(** Even limbs bounded by [e], odd ones by [o], in absolute value. *)
Definition fe_bounded (e o : Z) (f : FieldElement) : Prop :=
  let (f0, f1, f2, f3, f4, f5, f6, f7, f8, f9) := f in
  (Z.abs f0 <= e /\ Z.abs f2 <= e /\ Z.abs f4 <= e /\ Z.abs f6 <= e /\ Z.abs f8 <= e) /\
  (Z.abs f1 <= o /\ Z.abs f3 <= o /\ Z.abs f5 <= o /\ Z.abs f7 <= o /\ Z.abs f9 <= o).

(** 1.1*2^25, 1.1*2^24 *)
Definition fe_tight : FieldElement -> Prop := fe_bounded 36909875 18454937.
(** 1.1*2^26, 1.1*2^25 *)
Definition fe_loose : FieldElement -> Prop := fe_bounded 73819750 36909875.
(** 1.65*2^26, 1.65*2^25 *)
Definition fe_wide : FieldElement -> Prop := fe_bounded 110729625 55364812.

#[global] Instance fe_bounded_dec e o f : Decision (fe_bounded e o f).
Proof. destruct f. apply _. Defined.

Lemma fe_bounded_mono e o e' o' f : e <= e' -> o <= o' -> fe_bounded e o f -> fe_bounded e' o' f.
Proof. destruct f. unfold fe_bounded. lia. Qed.

Lemma tight_loose f : fe_tight f -> fe_loose f.
Proof. apply fe_bounded_mono; lia. Qed.
Lemma loose_wide f : fe_loose f -> fe_wide f.
Proof. apply fe_bounded_mono; lia. Qed.

Create HintDb fe.
#[export] Hint Resolve tight_loose loose_wide : fe.

(** A bound on the absolute value of an expression, read off its structure. *)
Lemma abs_add x y a b : Z.abs x <= a -> Z.abs y <= b -> Z.abs (x + y) <= a + b.
Proof. lia. Qed.
Lemma abs_sub x y a b : Z.abs x <= a -> Z.abs y <= b -> Z.abs (x - y) <= a + b.
Proof. lia. Qed.
Lemma abs_opp x a : Z.abs x <= a -> Z.abs (- x) <= a.
Proof. lia. Qed.
Lemma abs_mul x y a b : Z.abs x <= a -> Z.abs y <= b -> Z.abs (x * y) <= a * b.
Proof. intros. rewrite Z.abs_mul. apply Z.mul_le_mono_nonneg; lia. Qed.
Lemma abs_within x a b : Z.abs x <= a -> (a <=? b) = true -> Z.abs x <= b.
Proof. intros ? ?%Z.leb_le. lia. Qed.
Lemma abs_i64 x : Z.abs x <= 9223372036854775807 -> i64 x = x.
Proof. intros. apply i64_small. lia. Qed.
Lemma abs_i32 x : Z.abs x <= 2147483647 -> i32 x = x.
Proof. intros. apply i32_small. lia. Qed.

Ltac abs_struct :=
  lazymatch goal with
  | |- Z.abs (_ + _) <= _ => eapply abs_add; abs_struct
  | |- Z.abs (_ - _) <= _ => eapply abs_sub; abs_struct
  | |- Z.abs (- _) <= _ => eapply abs_opp; abs_struct
  | |- Z.abs (_ * _) <= _ => eapply abs_mul; abs_struct
  | |- Z.abs (Z.pos _) <= _ => apply Z.le_refl
  | |- Z.abs (2 ^ _) <= _ => apply Z.le_refl
  | _ => eassumption
  end.

Ltac abs_bound := eapply abs_within; [abs_struct|vm_compute; reflexivity].

(** One int64 reduction around a sum of products, instead of one at every operation. *)
Ltac i64_collapse :=
  rewrite ?i64_mul_r, ?i64_mul_l, ?i64_add_r; repeat (rewrite i64_add_l, <- ?Z.add_assoc).

(** ** FeCombine *)

(** The bound of [h'] after a carry from [h], bounded by [a], over [w] bits. *)
Definition carry_bound (w a b : Z) : Z := b + (a + 2 ^ w) / 2 ^ w.

Lemma round_div h w a :
  1 <= w -> Z.abs h <= a ->
  let c := (h + 2 ^ (w - 1)) / 2 ^ w in
  - 2 ^ (w - 1) <= h - 2 ^ w * c < 2 ^ (w - 1) /\ Z.abs c <= (a + 2 ^ w) / 2 ^ w /\
  Z.abs (2 ^ w * c) <= a + 2 ^ (w - 1).
Proof.
  intros Hw Hh. set (W := 2 ^ (w - 1)).
  assert (2 ^ w = 2 * W) as EW by (unfold W; rewrite <- Z.pow_succ_r by lia; f_equal; lia).
  assert (1 <= W) as BW by (apply (Z.pow_le_mono_r 2 0); lia). rewrite EW. intros c.
  pose proof (Z.div_mod (h + W) (2 * W) ltac:(lia)) as DM. fold c in DM.
  pose proof (Z.mod_pos_bound (h + W) (2 * W) ltac:(lia)) as MB.
  clearbody c W. split_and!; [lia|lia| |lia]. apply Z.div_le_lower_bound; [lia|]. nia.
Qed.

Definition carry_fits (w a b b' : Z) : bool :=
  (1 <=? w) && (w <=? 26) && (a <=? 2 ^ 62) && (carry_bound w a b =? b') && (b' <? 2 ^ 63).

Lemma carry64_spec w h h' a b b' :
  Z.abs h <= a -> Z.abs h' <= b -> carry_fits w a b b' = true ->
  exists c x y, carry64 w h h' = (x, y) /\ x = h - 2 ^ w * c /\ y = h' + c /\
    Z.abs x <= 2 ^ (w - 1) /\ Z.abs y <= b'.
Proof.
  intros Hh Hh'. unfold carry_fits, carry_bound. rewrite !andb_true_iff, !Z.leb_le, Z.eqb_eq, Z.ltb_lt.
  intros [[[[W1 W2] Ha] <-] Hb].
  destruct (round_div h w a W1 Hh) as (R & C & M). unfold carry64.
  assert (1 <= 2 ^ (w - 1) <= 2 ^ 25) as BW.
  { split; [apply (Z.pow_le_mono_r 2 0)|apply Z.pow_le_mono_r]; lia. }
  rewrite (i64_small (h + _)) by lia. rewrite Z.shiftr_div_pow2 by lia.
  set (c := (h + 2 ^ (w - 1)) / 2 ^ w) in *. clearbody c.
  rewrite Z.shiftl_mul_pow2, (Z.mul_comm c) by lia.
  rewrite (i64_small (2 ^ w * c)), (i64_small (h' + c)), (i64_small (h - _)) by lia.
  eexists c, _, _. split_and!; [reflexivity|done|done|lia..].
Qed.

Lemma carry64_19_spec h9 h0 a b :
  Z.abs h9 <= a -> Z.abs h0 <= b -> a <= 2 ^ 61 -> b <= 2 ^ 61 ->
  exists c x y, carry64_19 h9 h0 = (x, y) /\ x = h9 - 2 ^ 25 * c /\ y = h0 + 19 * c /\
    Z.abs x <= 2 ^ 24 /\ Z.abs y <= b + 19 * ((a + 2 ^ 25) / 2 ^ 25).
Proof.
  intros H9 H0 Ha Hb. destruct (round_div h9 25 a ltac:(lia) H9) as (R & C & M).
  change (25 - 1) with 24 in *. unfold carry64_19.
  assert ((a + 2 ^ 25) / 2 ^ 25 <= 2 ^ 37) by (apply Z.div_le_upper_bound; lia).
  rewrite (i64_small (h9 + _)) by lia. rewrite Z.shiftr_div_pow2 by lia.
  set (c := (h9 + 2 ^ 24) / 2 ^ 25) in *. clearbody c.
  set (q := (a + 2 ^ 25) / 2 ^ 25) in *. clearbody q.
  rewrite Z.shiftl_mul_pow2, (Z.mul_comm c (2 ^ 25)) by lia.
  rewrite (i64_small (2 ^ 25 * c)), (i64_small (c * 19)), (i64_small (h0 + _)), (i64_small (h9 - _)) by lia.
  eexists c, _, _. split_and!; [reflexivity|lia..].
Qed.

(** Replace the next carry of the goal by what it computes, with the new bounds. *)
Ltac carry_step :=
  let E := fresh "E" in
  lazymatch goal with
  | Hh : Z.abs ?h <= ?a, Hh' : Z.abs ?h' <= ?b |- context [carry64_19 ?h ?h'] =>
      destruct (carry64_19_spec h h' a b Hh Hh' ltac:(vm_compute; discriminate) ltac:(vm_compute; discriminate))
        as (c9 & ? & ? & E & ? & ? & ? & ?)
  | Hh : Z.abs ?h <= ?a, Hh' : Z.abs ?h' <= ?b |- context [carry64 ?w ?h ?h'] =>
      let b' := eval vm_compute in (carry_bound w a b) in
      destruct (carry64_spec w h h' a b b' Hh Hh' ltac:(vm_compute; reflexivity))
        as (? & ? & ? & E & ? & ? & ? & ?)
  end; rewrite E; clear E; cbv beta iota.

Lemma FeCombine_spec h0 h1 h2 h3 h4 h5 h6 h7 h8 h9 :
  fe_bounded 3500000000000000000 2000000000000000000 (Fe h0 h1 h2 h3 h4 h5 h6 h7 h8 h9) ->
  fe_tight (FeCombine h0 h1 h2 h3 h4 h5 h6 h7 h8 h9) /\
  fe_val (FeCombine h0 h1 h2 h3 h4 h5 h6 h7 h8 h9) ≡p fe_val (Fe h0 h1 h2 h3 h4 h5 h6 h7 h8 h9).
Proof.
  intros [(?&?&?&?&?) (?&?&?&?&?)]. unfold FeCombine. do 12 carry_step.
  rewrite !abs_i32 by abs_bound. split.
  - unfold fe_tight, fe_bounded. split_and!; abs_bound.
  - apply (feq_multiple _ _ (- c9)). unfold fe_val, p25519. cbn [t0 t1 t2 t3 t4 t5 t6 t7 t8 t9].
    subst. ring.
Qed.

Ltac apply_combine T V :=
  match goal with
  | |- context [FeCombine ?a ?b ?c ?d ?e ?f ?g ?h ?i ?j] =>
      destruct (FeCombine_spec a b c d e f g h i j) as [T V]
  end.

(** ** Products *)

(** The part of the product of two elements above 2^255. *)
Definition mul_high (f g : FieldElement) : Z :=
  let (f0, f1, f2, f3, f4, f5, f6, f7, f8, f9) := f in
  let (g0, g1, g2, g3, g4, g5, g6, g7, g8, g9) := g in
  2 ^ 0 * (2 * f1 * g9 + f2 * g8 + 2 * f3 * g7 + f4 * g6 + 2 * f5 * g5 + f6 * g4 + 2 * f7 * g3 + f8 * g2 + 2 * f9 * g1) +
  2 ^ 26 * (f2 * g9 + f3 * g8 + f4 * g7 + f5 * g6 + f6 * g5 + f7 * g4 + f8 * g3 + f9 * g2) +
  2 ^ 51 * (2 * f3 * g9 + f4 * g8 + 2 * f5 * g7 + f6 * g6 + 2 * f7 * g5 + f8 * g4 + 2 * f9 * g3) +
  2 ^ 77 * (f4 * g9 + f5 * g8 + f6 * g7 + f7 * g6 + f8 * g5 + f9 * g4) +
  2 ^ 102 * (2 * f5 * g9 + f6 * g8 + 2 * f7 * g7 + f8 * g6 + 2 * f9 * g5) +
  2 ^ 128 * (f6 * g9 + f7 * g8 + f8 * g7 + f9 * g6) +
  2 ^ 153 * (2 * f7 * g9 + f8 * g8 + 2 * f9 * g7) +
  2 ^ 179 * (f8 * g9 + f9 * g8) +
  2 ^ 204 * (2 * f9 * g9).

Lemma FeMul_spec f g :
  fe_wide f -> fe_wide g -> fe_tight (FeMul f g) /\ fe_val (FeMul f g) ≡p fe_val f * fe_val g.
Proof.
  destruct f as [f0 f1 f2 f3 f4 f5 f6 f7 f8 f9], g as [g0 g1 g2 g3 g4 g5 g6 g7 g8 g9].
  intros [(?&?&?&?&?) (?&?&?&?&?)] [(?&?&?&?&?) (?&?&?&?&?)]. unfold FeMul. cbv zeta.
  rewrite !abs_i32 by abs_bound. i64_collapse. rewrite !abs_i64 by abs_bound.
  apply_combine T V; [split_and!; abs_bound|]. split; [exact T|].
  rewrite V. apply (feq_multiple _ _ (- mul_high (Fe f0 f1 f2 f3 f4 f5 f6 f7 f8 f9) (Fe g0 g1 g2 g3 g4 g5 g6 g7 g8 g9))).
  unfold fe_val, p25519, mul_high. cbn [t0 t1 t2 t3 t4 t5 t6 t7 t8 t9]. clear. ring.
Qed.

Lemma feSquare_spec f :
  fe_wide f ->
  let (h0, h1, h2, h3, h4, h5, h6, h7, h8, h9) := feSquare f in
  fe_bounded 1750000000000000000 1000000000000000000 (Fe h0 h1 h2 h3 h4 h5 h6 h7 h8 h9) /\
  fe_val (Fe h0 h1 h2 h3 h4 h5 h6 h7 h8 h9) ≡p fe_val f * fe_val f.
Proof.
  destruct f as [f0 f1 f2 f3 f4 f5 f6 f7 f8 f9].
  intros [(?&?&?&?&?) (?&?&?&?&?)]. unfold feSquare. cbv zeta.
  rewrite !abs_i32 by abs_bound. i64_collapse. rewrite !abs_i64 by abs_bound. split.
  - split_and!; abs_bound.
  - apply (feq_multiple _ _ (- mul_high (Fe f0 f1 f2 f3 f4 f5 f6 f7 f8 f9) (Fe f0 f1 f2 f3 f4 f5 f6 f7 f8 f9))).
    unfold fe_val, p25519, mul_high. cbn [t0 t1 t2 t3 t4 t5 t6 t7 t8 t9]. clear. ring.
Qed.

Lemma FeSquare_spec f : fe_wide f -> fe_tight (FeSquare f) /\ fe_val (FeSquare f) ≡p fe_val f * fe_val f.
Proof.
  intros H. pose proof (feSquare_spec f H) as S. unfold FeSquare. destruct (feSquare f). destruct S as [B V].
  apply_combine T W; [eapply fe_bounded_mono; [| |exact B]; lia|].
  split; [exact T|]. by rewrite W.
Qed.

Lemma FeSquare2_spec f :
  fe_wide f -> fe_tight (FeSquare2 f) /\ fe_val (FeSquare2 f) ≡p 2 * (fe_val f * fe_val f).
Proof.
  intros H. pose proof (feSquare_spec f H) as S. unfold FeSquare2. destruct (feSquare f). destruct S as [B V].
  destruct B as [(?&?&?&?&?) (?&?&?&?&?)]. rewrite !abs_i64 by abs_bound.
  apply_combine T W; [split_and!; abs_bound|].
  split; [exact T|]. rewrite W, <- V. unfold fe_val. cbn [t0 t1 t2 t3 t4 t5 t6 t7 t8 t9].
  apply (feq_multiple _ _ 0). clear. ring.
Qed.

(** ** Encoding *)

Lemma q_step_spec w h q a b :
  Z.abs h <= a -> Z.abs q <= b -> (0 <=? w) && (a + b <? 2 ^ 31) = true ->
  exists q', q_step w h q = q' /\ 0 <= h + q - 2 ^ w * q' < 2 ^ w /\ Z.abs q' <= (a + b) / 2 ^ w + 1.
Proof.
  intros Hh Hq. rewrite andb_true_iff, Z.leb_le, Z.ltb_lt. intros [Hw Hb].
  unfold q_step. rewrite (i32_small (h + q)), Z.shiftr_div_pow2 by lia.
  assert (0 < 2 ^ w) as W by lia. set (W' := 2 ^ w) in *. clearbody W'.
  pose proof (Z.div_mod (h + q) W' ltac:(lia)) as D1. pose proof (Z.mod_pos_bound (h + q) W' W) as M1.
  pose proof (Z.div_mod (a + b) W' ltac:(lia)) as D2. pose proof (Z.mod_pos_bound (a + b) W' W) as M2.
  eexists. split; [reflexivity|]. split; [lia|].
  set (u := (h + q) / W') in *. set (v := (a + b) / W') in *. clearbody u v. nia.
Qed.

(** The steps so far divide [A + q0] by [M]; one more divides by [2 ^ w]. *)
Lemma q_chain w h q a b A q0 M :
  Z.abs h <= a -> Z.abs q <= b -> (0 <=? w) && (a + b <? 2 ^ 31) = true ->
  0 <= A + q0 - M * q < M ->
  exists q', q_step w h q = q' /\ 0 <= (A + M * h) + q0 - M * 2 ^ w * q' < M * 2 ^ w /\
    Z.abs q' <= (a + b) / 2 ^ w + 1.
Proof.
  intros Hh Hq Hb HM. destruct (q_step_spec w h q a b Hh Hq Hb) as (q' & E & Hq' & B).
  exists q'. split_and!; [done|nia..|done].
Qed.

Ltac q_steps :=
  repeat lazymatch goal with
  | Hh : Z.abs ?h <= ?a, Hq : Z.abs ?q <= ?b, C : 0 <= ?A + ?q0 - ?M * ?q < ?M |- context [q_step ?w ?h ?q] =>
      let q' := fresh "q" in let E := fresh "E" in let B := fresh "B" in let C' := fresh "C" in
      destruct (q_chain w h q a b A q0 M Hh Hq ltac:(vm_compute; reflexivity) C) as (q' & E & C' & B);
      rewrite E; clear E C;
      let b' := eval vm_compute in ((a + b) / 2 ^ w + 1) in
      change (Z.abs q' <= b') in B
  end.

(** The "basic claim" of the source: the quotient computed from h + q0 is that of h by the prime. *)
Lemma quotient_exact h9 r q0 q :
  Z.abs r < 2 ^ 232 -> Z.abs q <= 3 -> 0 <= 19 * h9 + 2 ^ 24 - 2 ^ 25 * q0 < 2 ^ 25 ->
  0 <= r + 2 ^ 230 * h9 + q0 - 2 ^ 255 * q < 2 ^ 255 ->
  0 <= r + 2 ^ 230 * h9 - p25519 * q < p25519.
Proof.
  unfold p25519. intros Hr Hq H0 H. split.
  - assert (r + 2 ^ 230 * h9 < (2 ^ 255 - 19) * q -> q0 <= 19 * q) by lia. lia.
  - assert ((2 ^ 255 - 19) * q + 2 ^ 255 - 19 <= r + 2 ^ 230 * h9 -> 19 * q + 19 <= q0) by lia. lia.
Qed.

Lemma FeToBytes_q_spec h :
  fe_wide h -> 0 <= fe_val h - p25519 * FeToBytes_q h < p25519 /\ Z.abs (FeToBytes_q h) <= 3.
Proof.
  destruct h as [h0 h1 h2 h3 h4 h5 h6 h7 h8 h9]. intros [(?&?&?&?&?) (?&?&?&?&?)].
  unfold FeToBytes_q. cbn [t0 t1 t2 t3 t4 t5 t6 t7 t8 t9]. cbv zeta.
  rewrite (abs_i32 (19 * h9)) by abs_bound. fold (q_step 25 (19 * h9) (2 ^ 24)).
  destruct (q_step_spec 25 (19 * h9) (2 ^ 24) 1051931428 16777216) as (q & E & ? & B);
    [abs_bound|vm_compute; discriminate|reflexivity|]. rewrite E; clear E.
  vm_compute ((_ + _) / _ + _) in B.
  assert (0 <= 0 + q - 1 * q < 1) as C by (clear; lia). q_steps.
  split; [|etransitivity; [eassumption|done]].
  unfold fe_val. cbn [t0 t1 t2 t3 t4 t5 t6 t7 t8 t9].
  apply (quotient_exact h9 _ q); [|etransitivity; [eassumption|done]|assumption|].
  - apply Z.lt_le_pred. abs_bound.
  - match goal with C : 0 <= _ + q - _ < _ |- _ => clear -C end. lia.
Qed.

Lemma floor_div h w a :
  0 <= w -> Z.abs h <= a ->
  let c := h / 2 ^ w in
  0 <= h - 2 ^ w * c < 2 ^ w /\ Z.abs c <= (a + 2 ^ w) / 2 ^ w /\ Z.abs (2 ^ w * c) <= a + 2 ^ w.
Proof.
  intros Hw Hh c. assert (0 < 2 ^ w) as W by lia.
  pose proof (Z.div_mod h (2 ^ w) ltac:(lia)) as DM. fold c in DM.
  pose proof (Z.mod_pos_bound h (2 ^ w) W) as MB. clearbody c. set (W' := 2 ^ w) in *. clearbody W'.
  split_and!; [lia|lia| |lia]. apply Z.div_le_lower_bound; [lia|]. nia.
Qed.

Definition carry32_fits (w a b b' : Z) : bool :=
  (0 <=? w) && (w <=? 26) && (a <=? 2 ^ 30) && (carry_bound w a b =? b') && (b' <? 2 ^ 31).

Lemma carry32_spec w h h' a b b' :
  Z.abs h <= a -> Z.abs h' <= b -> carry32_fits w a b b' = true ->
  exists c x y, carry32 w h h' = (x, y) /\ x = h - 2 ^ w * c /\ y = h' + c /\
    0 <= x < 2 ^ w /\ Z.abs y <= b'.
Proof.
  intros Hh Hh'. unfold carry32_fits, carry_bound. rewrite !andb_true_iff, !Z.leb_le, Z.eqb_eq, Z.ltb_lt.
  intros [[[[W1 W2] Ha] <-] Hb].
  destruct (floor_div h w a W1 Hh) as (R & C & M). unfold carry32.
  assert (2 ^ w <= 2 ^ 26) as BW by (apply Z.pow_le_mono_r; lia).
  rewrite Z.shiftr_div_pow2 by lia. set (c := h / 2 ^ w) in *. clearbody c.
  rewrite Z.shiftl_mul_pow2, (Z.mul_comm c) by lia.
  rewrite (i32_small (2 ^ w * c)), (i32_small (h' + c)), (i32_small (h - _)) by lia.
  eexists c, _, _. split_and!; [reflexivity|done|done|lia..].
Qed.

Ltac carry32_step :=
  let E := fresh "E" in
  lazymatch goal with
  | Hh : Z.abs ?h <= ?a, Hh' : Z.abs ?h' <= ?b |- context [carry32 ?w ?h ?h'] =>
      let b' := eval vm_compute in (carry_bound w a b) in
      destruct (carry32_spec w h h' a b b' Hh Hh' ltac:(vm_compute; reflexivity))
        as (? & ? & ? & E & ? & ? & ? & ?)
  end; rewrite E; clear E; cbv beta iota.

(** Every limb a digit of 26 or 25 bits. *)
Definition fe_digits (f : FieldElement) : Prop :=
  let (f0, f1, f2, f3, f4, f5, f6, f7, f8, f9) := f in
  (0 <= f0 < 2 ^ 26 /\ 0 <= f2 < 2 ^ 26 /\ 0 <= f4 < 2 ^ 26 /\ 0 <= f6 < 2 ^ 26 /\ 0 <= f8 < 2 ^ 26) /\
  (0 <= f1 < 2 ^ 25 /\ 0 <= f3 < 2 ^ 25 /\ 0 <= f5 < 2 ^ 25 /\ 0 <= f7 < 2 ^ 25 /\ 0 <= f9 < 2 ^ 25).

Lemma fe_digits_bound f : fe_digits f -> 0 <= fe_val f < 2 ^ 255.
Proof.
  destruct f. unfold fe_digits, fe_val. cbn [t0 t1 t2 t3 t4 t5 t6 t7 t8 t9].
  intros [(?&?&?&?&?) (?&?&?&?&?)]. lia.
Qed.

Lemma fe_digits_loose f : fe_digits f -> fe_loose f.
Proof. destruct f. unfold fe_digits, fe_loose, fe_bounded. lia. Qed.

Lemma FeToBytes_norm_spec h :
  fe_wide h -> fe_digits (FeToBytes_norm h) /\ fe_val (FeToBytes_norm h) = fe_val h mod p25519.
Proof.
  intros H. destruct (FeToBytes_q_spec h H) as [HQ BQ].
  unfold FeToBytes_norm. set (q := FeToBytes_q h) in *. clearbody q. cbv zeta.
  destruct h as [h0 h1 h2 h3 h4 h5 h6 h7 h8 h9]. destruct H as [(?&?&?&?&?) (?&?&?&?&?)].
  cbn [t0 t1 t2 t3 t4 t5 t6 t7 t8 t9].
  rewrite (abs_i32 (19 * q)) by abs_bound. rewrite (abs_i32 (h0 + 19 * q)) by abs_bound.
  assert (Z.abs (h0 + 19 * q) <= 110729682) by abs_bound.
  do 9 carry32_step.
  lazymatch goal with
  | Hy : Z.abs ?y <= ?a |- context [?y -~ _] =>
      change (y -~ _) with (fst (carry32 25 y 0));
      destruct (carry32_spec 25 y 0 a 0 (carry_bound 25 a 0) Hy) as (c9 & ? & ? & E & ? & _ & ? & _);
        [vm_compute; discriminate|vm_compute; reflexivity|]; rewrite E; clear E; cbn [fst]
  end.
  match goal with |- fe_digits ?f /\ _ => assert (fe_digits f) as HD by (unfold fe_digits; repeat first [eassumption|split]) end.
  split; [exact HD|]. apply fe_digits_bound in HD.
  match goal with HD : 0 <= fe_val ?d < _, HQ : 0 <= fe_val ?h - _ < _ |- _ =>
    assert (fe_val d = fe_val h + 19 * q - 2 ^ 255 * c9) as V
      by (unfold fe_val; cbn [t0 t1 t2 t3 t4 t5 t6 t7 t8 t9]; subst; ring) end.
  rewrite V in *. apply (Z.mod_unique_pos _ _ q); [clear -HD HQ; unfold p25519 in *; lia|].
  clear -HD HQ. unfold p25519 in *. lia.
Qed.

(** ** Storing *)

Lemma i32_byte x : i32 x mod 2 ^ 8 = x mod 2 ^ 8.
Proof.
  unfold i32. change (2 ^ 32) with (2 ^ 8 * 2 ^ 24). rewrite Z.rem_mul_r by lia.
  rewrite Zminus_mod, (Z.mul_comm (2 ^ 8)), Z_mod_plus_full, Zmod_mod, <- Zminus_mod. f_equal. lia.
Qed.

Lemma store_lor32 x y k j :
  0 <= k -> 0 <= j <= 8 -> 0 <= x < 2 ^ (k + j) ->
  u8 (Z.lor (Z.shiftr x k) (y <<~ j)) = x / 2 ^ k + 2 ^ j * (y mod 2 ^ (8 - j)).
Proof.
  intros. rewrite <- store_lor_raw by done. unfold u8. rewrite <- !Z.land_ones, !Z.land_lor_distr_l by lia.
  f_equal. rewrite !Z.land_ones by lia. apply i32_byte.
Qed.

Lemma FeToBytes_store_val f : fe_digits f -> le_val (FeToBytes_store f) = fe_val f.
Proof.
  destruct f as [x0 x1 x2 x3 x4 x5 x6 x7 x8 x9]. intros [(?&?&?&?&?) (?&?&?&?&?)].
  unfold FeToBytes_store. rewrite !store_lor32 by lia. rewrite !store_shr by lia.
  change (8 - 5) with 3. change (8 - 2) with 6. change (8 - 4) with 4.
  change (8 - 1) with 7. change (8 - 6) with 2. change (8 - 3) with 5.
  unfold fe_val. cbn [t0 t1 t2 t3 t4 t5 t6 t7 t8 t9]. pow2_const.
  assert (x0 = (x0 / 1) mod 256 + 256 * ((x0 / 256) mod 256) + 65536 * ((x0 / 65536) mod 256) + 16777216 * (x0 / 16777216)) by digit_eq.
  assert (x1 = x1 mod 64 + 64 * ((x1 / 64) mod 256) + 16384 * ((x1 / 16384) mod 256) + 4194304 * (x1 / 4194304)) by digit_eq.
  assert (x2 = x2 mod 32 + 32 * ((x2 / 32) mod 256) + 8192 * ((x2 / 8192) mod 256) + 2097152 * (x2 / 2097152)) by digit_eq.
  assert (x3 = x3 mod 8 + 8 * ((x3 / 8) mod 256) + 2048 * ((x3 / 2048) mod 256) + 524288 * (x3 / 524288)) by digit_eq.
  assert (x4 = x4 mod 4 + 4 * ((x4 / 4) mod 256) + 1024 * ((x4 / 1024) mod 256) + 262144 * ((x4 / 262144) mod 256)) by digit_eq.
  assert (x5 = (x5 / 1) mod 256 + 256 * ((x5 / 256) mod 256) + 65536 * ((x5 / 65536) mod 256) + 16777216 * (x5 / 16777216)) by digit_eq.
  assert (x6 = x6 mod 128 + 128 * ((x6 / 128) mod 256) + 32768 * ((x6 / 32768) mod 256) + 8388608 * (x6 / 8388608)) by digit_eq.
  assert (x7 = x7 mod 32 + 32 * ((x7 / 32) mod 256) + 8192 * ((x7 / 8192) mod 256) + 2097152 * (x7 / 2097152)) by digit_eq.
  assert (x8 = x8 mod 16 + 16 * ((x8 / 16) mod 256) + 4096 * ((x8 / 4096) mod 256) + 1048576 * (x8 / 1048576)) by digit_eq.
  assert (x9 = x9 mod 4 + 4 * ((x9 / 4) mod 256) + 1024 * ((x9 / 1024) mod 256) + 262144 * ((x9 / 262144) mod 256)) by digit_eq.
  unfold le_val. gen_atoms. lia.
Qed.

Lemma FeToBytes_store_ok f : bytes_ok (FeToBytes_store f).
Proof.
  destruct f. unfold FeToBytes_store.
  repeat (apply bytes_ok_cons; split; [unfold u8; apply Z.mod_pos_bound; lia|]). constructor.
Qed.

Lemma FeToBytes_spec h :
  fe_wide h -> FeToBytes h = (le_bytes 32 (fe_val h mod p25519), FeToBytes_norm h).
Proof.
  intros H. destruct (FeToBytes_norm_spec h H) as [D V]. unfold FeToBytes. cbv zeta. f_equal.
  apply le_val_inj; [apply FeToBytes_store_ok|apply le_bytes_ok| |].
  - rewrite length_le_bytes. by destruct (FeToBytes_norm h).
  - rewrite FeToBytes_store_val, V by done. rewrite le_val_le_bytes, (Z.mod_small (_ mod _)); [done|].
    pose proof (Z.mod_pos_bound (fe_val h) p25519 eq_refl). unfold p25519 in *. change (Z.of_nat 32) with 32. lia.
Qed.

(** ** Decoding *)

Lemma load_shl l o k :
  bytes_ok l -> 0 <= k <= 8 -> load3 (drop o l) <<! k = 2 ^ k * le_val (take 3 (drop o l)) /\
  0 <= le_val (take 3 (drop o l)) < 2 ^ 24.
Proof.
  intros H Hk. rewrite load3_val by (by apply bytes_ok_drop).
  assert (0 <= le_val (take 3 (drop o l)) < 2 ^ 24) as B.
  { rewrite le_val_slice by done. apply Z.mod_pos_bound. done. }
  split; [|done].
  assert (2 ^ k <= 256) by (change 256 with (2 ^ 8); apply Z.pow_le_mono_r; lia).
  rewrite Z.shiftl_mul_pow2, Z.mul_comm by lia. apply i64_small. nia.
Qed.

(** The chunks of 4, 3, 3, 3, 3, 4, 3, 3, 3 and 3 bytes that FeFromBytes reads make up the string. *)
Lemma le_val_chunks l :
  length l = 32%nat ->
  le_val l =
    le_val (take 4 (drop 0 l)) + 2 ^ 32 * le_val (take 3 (drop 4 l)) + 2 ^ 56 * le_val (take 3 (drop 7 l)) +
    2 ^ 80 * le_val (take 3 (drop 10 l)) + 2 ^ 104 * le_val (take 3 (drop 13 l)) +
    2 ^ 128 * le_val (take 4 (drop 16 l)) + 2 ^ 160 * le_val (take 3 (drop 20 l)) +
    2 ^ 184 * le_val (take 3 (drop 23 l)) + 2 ^ 208 * le_val (take 3 (drop 26 l)) +
    2 ^ 232 * le_val (take 3 (drop 29 l)).
Proof.
  intros L. do 32 (destruct l as [|? l]; [discriminate L|]). destruct l; [|discriminate L].
  cbn [take drop firstn skipn le_val]. lia.
Qed.

Lemma FeFromBytes_spec l :
  bytes_ok l -> length l = 32%nat ->
  fe_tight (FeFromBytes l) /\ fe_val (FeFromBytes l) ≡p le_val l mod 2 ^ 255.
Proof.
  intros H L. rewrite (le_val_chunks l L). unfold FeFromBytes. cbv zeta.
  destruct (load_shl l 4 6 H ltac:(lia)) as [-> ?]. destruct (load_shl l 7 5 H ltac:(lia)) as [-> ?].
  destruct (load_shl l 10 3 H ltac:(lia)) as [-> ?]. destruct (load_shl l 13 2 H ltac:(lia)) as [-> ?].
  destruct (load_shl l 20 7 H ltac:(lia)) as [-> ?]. destruct (load_shl l 23 5 H ltac:(lia)) as [-> ?].
  destruct (load_shl l 26 4 H ltac:(lia)) as [-> ?]. destruct (load_shl l 29 0 H ltac:(lia)) as [_ ?].
  change (load4 l) with (load4 (drop 0 l)).
  rewrite !load4_val, load3_val by (by apply bytes_ok_drop).
  assert (0 <= le_val (take 4 (drop 0 l)) < 2 ^ 32 /\ 0 <= le_val (take 4 (drop 16 l)) < 2 ^ 32) as [? ?].
  { rewrite !le_val_slice by done. split; by apply Z.mod_pos_bound. }
  change 8388607 with (Z.ones 23). rewrite Z.land_ones by lia.
  set (v := le_val (take 3 (drop 29 l))) in *.
  pose proof (Z.div_mod v (2 ^ 23) ltac:(lia)) as DM.
  pose proof (Z.mod_pos_bound v (2 ^ 23) ltac:(lia)) as MB.
  rewrite Z.shiftl_mul_pow2 by lia. set (m := v mod 2 ^ 23) in *. set (k := v / 2 ^ 23) in *. clearbody v m k.
  rewrite (i64_small (m * 2 ^ 2)) by lia.
  repeat match goal with |- context [le_val (take ?n (drop ?o l))] =>
    generalize dependent (le_val (take n (drop o l))); intros end.
  apply_combine T W; [unfold fe_bounded; split_and!; lia|]. split; [exact T|]. rewrite W.
  unfold feq. f_equal. unfold fe_val. cbn [t0 t1 t2 t3 t4 t5 t6 t7 t8 t9].
  apply (Z.mod_unique_pos _ _ k); [lia|]. subst v. lia.
Qed.

(** ** Powers *)

(** [x] is the e-th power of [z]. *)
Definition fe_power (z : FieldElement) (e : Z) (x : FieldElement) : Prop :=
  0 <= e /\ fe_loose x /\ fe_val x ≡p fe_val z ^ e.

Lemma power_self z : fe_loose z -> fe_power z 1 z.
Proof. intros H. split_and!; [lia|done|]. by rewrite Z.pow_1_r. Qed.

Lemma power_mul z a b x y : fe_power z a x -> fe_power z b y -> fe_power z (a + b) (FeMul x y).
Proof.
  intros (Ha & Lx & Vx) (Hb & Ly & Vy). destruct (FeMul_spec x y (loose_wide _ Lx) (loose_wide _ Ly)) as [T V].
  split_and!; [lia|by apply tight_loose|]. by rewrite V, Vx, Vy, Z.pow_add_r.
Qed.

Lemma power_square z a x : fe_power z a x -> fe_power z (2 * a) (FeSquare x).
Proof.
  intros (Ha & Lx & Vx). destruct (FeSquare_spec x (loose_wide _ Lx)) as [T V].
  split_and!; [lia|by apply tight_loose|].
  rewrite V, Vx, <- Z.pow_add_r by lia. by replace (a + a) with (2 * a) by lia.
Qed.

Lemma power_iter z a x n : fe_power z a x -> fe_power z (2 ^ Z.of_nat n * a) (Nat.iter n FeSquare x).
Proof.
  intros H. induction n as [|n IH]; cbn [Nat.iter nat_rect].
  - change (2 ^ Z.of_nat 0) with 1. by rewrite Z.mul_1_l.
  - apply power_square in IH. rewrite Nat2Z.inj_succ, Z.pow_succ_r, <- Z.mul_assoc by lia. exact IH.
Qed.

Lemma power_loop z a x n : fe_power z a x -> fe_power z (2 ^ Z.of_nat (n - 1) * a) (square_loop n x).
Proof. apply power_iter. Qed.

Lemma power_eq z a b x : fe_power z a x -> a = b -> fe_power z b x.
Proof. by intros H <-. Qed.

(** Compute the exponent of an addition chain: name every intermediate element in turn. *)
Ltac chain_step :=
  lazymatch goal with
  | |- fe_power ?z ?e (let t := ?r in @?k t) =>
      let t := fresh "t" in let H := fresh "H" in
      eassert (fe_power z _ r) as H by
        first [ eapply power_mul; eassumption | eapply power_square; eassumption
              | eapply power_loop; eassumption ];
      lazymatch type of H with
      | fe_power _ ?a _ => let a' := eval vm_compute in a in change (fe_power z a' r) in H
      end;
      set (t := r) in *; change (fe_power z e (k t)); cbv beta; clearbody t
  end.

Lemma FeInvert_power z : fe_loose z -> fe_power z (p25519 - 2) (FeInvert z).
Proof.
  intros H%power_self. cbv beta delta [FeInvert]. repeat chain_step.
  eapply power_eq; [eapply power_mul; eassumption|vm_compute; reflexivity].
Qed.

Lemma fePow22523_power z : fe_loose z -> fe_power z ((p25519 - 5) / 8) (fePow22523 z).
Proof.
  intros H%power_self. cbv beta delta [fePow22523]. repeat chain_step.
  eapply power_eq; [eapply power_mul; eassumption|vm_compute; reflexivity].
Qed.

(** ** Tests *)

Lemma lor_byte a b : 0 <= a < 256 -> 0 <= b < 256 -> 0 <= Z.lor a b < 256.
Proof.
  intros Ha Hb. split; [apply Z.lor_nonneg; lia|]. change 256 with (2 ^ 8).
  destruct (Z.eq_dec (Z.lor a b) 0) as [->|N]; [done|].
  assert (0 <= Z.lor a b) by (apply Z.lor_nonneg; lia).
  apply Z.log2_lt_pow2; [lia|]. rewrite Z.log2_lor by lia.
  apply Z.max_lub_lt.
  - destruct (Z.eq_dec a 0) as [->|]; [done|]. apply Z.log2_lt_pow2; lia.
  - destruct (Z.eq_dec b 0) as [->|]; [done|]. apply Z.log2_lt_pow2; lia.
Qed.

Lemma lor_bytes l a :
  bytes_ok l -> 0 <= a < 256 ->
  0 <= foldl Z.lor a l < 256 /\ (foldl Z.lor a l = 0 <-> a = 0 /\ le_val l = 0).
Proof.
  intros H. revert a. induction H as [|b l Hb H IH]; intros a Ha; cbn [foldl le_val]; [lia|].
  destruct (IH (Z.lor a b) (lor_byte a b Ha Hb)) as [B E]. split; [done|]. rewrite E, Z.lor_eq_0_iff.
  pose proof (le_val_bound l H). lia.
Qed.

(** The folding of a byte onto its lowest bit, checked on all bytes. *)
Definition fold_bits (x : Z) : Z :=
  let x := Z.lor x (Z.shiftr x 4) in
  let x := Z.lor x (Z.shiftr x 2) in
  let x := Z.lor x (Z.shiftr x 1) in Z.land x 1.

Lemma fold_bits_spec x : 0 <= x < 256 -> fold_bits x = if bool_decide (x = 0) then 0 else 1.
Proof.
  intros H.
  assert (forallb (fun n => let x := Z.of_nat n in fold_bits x =? if bool_decide (x = 0) then 0 else 1)
            (seq 0 256) = true) as A by (vm_compute; reflexivity).
  rewrite forallb_forall in A. specialize (A (Z.to_nat x)). cbv zeta in A. rewrite Z2Nat.id in A by lia.
  apply Z.eqb_eq, A, in_seq. lia.
Qed.

Lemma canonical_bytes v : le_val (le_bytes 32 (v mod p25519)) = v mod p25519.
Proof.
  rewrite le_val_le_bytes. apply Z.mod_small.
  pose proof (Z.mod_pos_bound v p25519 eq_refl). unfold p25519 in *. change (Z.of_nat 32) with 32. lia.
Qed.

Lemma FeIsNonZero_fold f :
  FeIsNonZero f = (fold_bits (foldl Z.lor 0 (fst (FeToBytes f))), snd (FeToBytes f)).
Proof. unfold FeIsNonZero. by destruct (FeToBytes f). Qed.

Lemma FeIsNonZero_spec f :
  fe_wide f ->
  FeIsNonZero f = (if bool_decide (fe_val f mod p25519 = 0) then 0 else 1, FeToBytes_norm f).
Proof.
  intros H. rewrite FeIsNonZero_fold, FeToBytes_spec by done. cbn [fst snd].
  destruct (lor_bytes (le_bytes 32 (fe_val f mod p25519)) 0 (le_bytes_ok _ _) ltac:(lia)) as [B E].
  rewrite canonical_bytes in E. set (x := foldl _ _ _) in *. clearbody x.
  rewrite fold_bits_spec by done. f_equal. repeat case_bool_decide; tauto.
Qed.

Lemma FeIsNegative_spec f :
  fe_wide f -> FeIsNegative f = ((fe_val f mod p25519) mod 2, FeToBytes_norm f).
Proof.
  intros H. unfold FeIsNegative. rewrite FeToBytes_spec by done. f_equal.
  set (v := fe_val f mod p25519). change (byte_at (le_bytes 32 v) 0) with (u8 v).
  change 1 with (Z.ones 1). rewrite Z.land_ones by lia. unfold u8.
  change (2 ^ 8) with (2 ^ 1 * 128). rewrite Z.rem_mul_r by lia.
  rewrite Z.mul_comm, Z_mod_plus_full. apply Zmod_mod.
Qed.

(** ** Correctness *)

(** The products: from limbs within the documented bounds (the 1.65*2^26 and 1.65*2^25 of the squares, for FeMul more than documented) FeMul, FeSquare and FeSquare2 compute f*g, f^2 and 2f^2 modulo 2^255-19 with limbs bounded by 1.1*2^25 and 1.1*2^24; no int32 precomputation and no int64 accumulation overflows. *)
Lemma field_products_correct f g :
  (fe_wide f -> fe_wide g ->
   fe_tight (FeMul f g) /\ fe_val (FeMul f g) ≡p fe_val f * fe_val g) /\
  (fe_wide f ->
   fe_tight (FeSquare f) /\ fe_val (FeSquare f) ≡p fe_val f * fe_val f /\
   fe_tight (FeSquare2 f) /\ fe_val (FeSquare2 f) ≡p 2 * (fe_val f * fe_val f)).
Proof.
  split; [apply FeMul_spec|]. intros H.
  destruct (FeSquare_spec f H), (FeSquare2_spec f H). done.
Qed.

(** The largest and the smallest element within the bounds of FeMul. *)
Definition fe_extreme (s : Z) : FieldElement :=
  Fe (s * 73819750) (s * 36909875) (s * 73819750) (s * 36909875) (s * 73819750)
     (s * 36909875) (s * 73819750) (s * 36909875) (s * 73819750) (s * 36909875).

Lemma i32_bounded x a : Z.abs x <= a -> a <= 2147483647 -> i32 x = x.
Proof. intros. apply abs_i32. lia. Qed.

(** Drop the wrap-around of every limb, whose bound is a sum of hypotheses. *)
Ltac i32_limbs :=
  repeat match goal with
  | |- context [i32 ?x] => rewrite (i32_bounded x _ ltac:(abs_struct) ltac:(assumption))
  end.

Lemma FeAdd_bounded e o e' o' f g :
  fe_bounded e o f -> fe_bounded e' o' g -> e + e' <= 2147483647 -> o + o' <= 2147483647 ->
  fe_bounded (e + e') (o + o') (FeAdd f g) /\ fe_val (FeAdd f g) = fe_val f + fe_val g.
Proof.
  destruct f as [f0 f1 f2 f3 f4 f5 f6 f7 f8 f9], g as [g0 g1 g2 g3 g4 g5 g6 g7 g8 g9].
  intros [(?&?&?&?&?) (?&?&?&?&?)] [(?&?&?&?&?) (?&?&?&?&?)] He Ho.
  unfold FeAdd. cbn [t0 t1 t2 t3 t4 t5 t6 t7 t8 t9]. i32_limbs.
  split; [unfold fe_bounded; split_and!; abs_struct|].
  unfold fe_val. cbn [t0 t1 t2 t3 t4 t5 t6 t7 t8 t9]. clear. ring.
Qed.

Lemma FeSub_bounded e o e' o' f g :
  fe_bounded e o f -> fe_bounded e' o' g -> e + e' <= 2147483647 -> o + o' <= 2147483647 ->
  fe_bounded (e + e') (o + o') (FeSub f g) /\ fe_val (FeSub f g) = fe_val f - fe_val g.
Proof.
  destruct f as [f0 f1 f2 f3 f4 f5 f6 f7 f8 f9], g as [g0 g1 g2 g3 g4 g5 g6 g7 g8 g9].
  intros [(?&?&?&?&?) (?&?&?&?&?)] [(?&?&?&?&?) (?&?&?&?&?)] He Ho.
  unfold FeSub. cbn [t0 t1 t2 t3 t4 t5 t6 t7 t8 t9]. i32_limbs.
  split; [unfold fe_bounded; split_and!; abs_struct|].
  unfold fe_val. cbn [t0 t1 t2 t3 t4 t5 t6 t7 t8 t9]. clear. ring.
Qed.

Lemma FeNeg_bounded e o f :
  fe_bounded e o f -> e <= 2147483647 -> o <= 2147483647 ->
  fe_bounded e o (FeNeg f) /\ fe_val (FeNeg f) = - fe_val f.
Proof.
  destruct f as [f0 f1 f2 f3 f4 f5 f6 f7 f8 f9]. intros [(?&?&?&?&?) (?&?&?&?&?)] He Ho.
  unfold FeNeg. cbn [t0 t1 t2 t3 t4 t5 t6 t7 t8 t9]. i32_limbs.
  split; [unfold fe_bounded; split_and!; abs_struct|].
  unfold fe_val. cbn [t0 t1 t2 t3 t4 t5 t6 t7 t8 t9]. clear. ring.
Qed.

Lemma FeAdd_spec f g : fe_tight f -> fe_tight g -> fe_loose (FeAdd f g) /\ fe_val (FeAdd f g) = fe_val f + fe_val g.
Proof. intros Hf Hg. destruct (FeAdd_bounded _ _ _ _ f g Hf Hg) as [B V]; [lia..|]. split; [|done]. by eapply fe_bounded_mono; [| |exact B]. Qed.

Lemma FeSub_spec f g : fe_tight f -> fe_tight g -> fe_loose (FeSub f g) /\ fe_val (FeSub f g) = fe_val f - fe_val g.
Proof. intros Hf Hg. destruct (FeSub_bounded _ _ _ _ f g Hf Hg) as [B V]; [lia..|]. split; [|done]. by eapply fe_bounded_mono; [| |exact B]. Qed.

Lemma FeNeg_spec f : fe_tight f -> fe_tight (FeNeg f) /\ fe_val (FeNeg f) = - fe_val f.
Proof. intros H. by apply FeNeg_bounded. Qed.

Lemma FeCMove_spec f g b :
  (b = 0 -> FeCMove f g b = f) /\ (b = 1 -> FeCMove f g b = g).
Proof.
  destruct f, g. split; intros ->; unfold FeCMove; cbn [t0 t1 t2 t3 t4 t5 t6 t7 t8 t9].
  - change (i32 (- 0)) with 0. cbv zeta. by rewrite !Z.land_0_l, !Z.lxor_0_r.
  - change (i32 (- 1)) with (-1). cbv zeta.
    by rewrite !Z.land_m1_l, <- !Z.lxor_assoc, !Z.lxor_nilpotent, !Z.lxor_0_l.
Qed.

(** The linear operations on elements with limbs bounded by 1.1*2^25 and 1.1*2^24: FeAdd and FeSub give the sum and the difference within the bounds FeMul needs, FeNeg the negation within the same bounds, all without wrapping around; FeCMove replaces f by g exactly when its bit is 1. *)
Lemma field_linear_correct f g b :
  fe_tight f -> fe_tight g ->
  (fe_loose (FeAdd f g) /\ fe_val (FeAdd f g) = fe_val f + fe_val g) /\
  (fe_loose (FeSub f g) /\ fe_val (FeSub f g) = fe_val f - fe_val g) /\
  (fe_tight (FeNeg f) /\ fe_val (FeNeg f) = - fe_val f) /\
  (b = 0 -> FeCMove f g b = f) /\ (b = 1 -> FeCMove f g b = g).
Proof. intros Hf Hg. auto using FeAdd_spec, FeSub_spec, FeNeg_spec, FeCMove_spec. Qed.

(** Encoding: FeToBytes writes the canonical 32 bytes of the residue and normalises its argument in place to the limbs of that residue, already for limbs three times as large as those of a product, so that it may be applied again; FeFromBytes reads the low 255 bits; encoding what was decoded from the canonical bytes of a residue gives them back. FeIsNegative is the parity of the residue and FeIsNonZero whether it is not 0. *)
Theorem field_encoding_correct h l :
  (fe_wide h ->
   exists h', FeToBytes h = (le_bytes 32 (fe_val h mod p25519), h') /\
     fe_loose h' /\ fe_val h' = fe_val h mod p25519 /\
     FeIsNegative h = ((fe_val h mod p25519) mod 2, h') /\
     FeIsNonZero h = (if bool_decide (fe_val h mod p25519 = 0) then 0 else 1, h')) /\
  (bytes_ok l -> length l = 32%nat ->
   fe_tight (FeFromBytes l) /\ fe_val (FeFromBytes l) ≡p le_val l mod 2 ^ 255 /\
   (le_val l < p25519 -> fst (FeToBytes (FeFromBytes l)) = l)).
Proof.
  split.
  - intros H. exists (FeToBytes_norm h). destruct (FeToBytes_norm_spec h H) as [D V].
    split_and!; auto using FeToBytes_spec, fe_digits_loose, FeIsNegative_spec, FeIsNonZero_spec.
  - intros H L. destruct (FeFromBytes_spec l H L) as [T V]. split_and!; [done..|]. intros Hl.
    rewrite FeToBytes_spec by (by apply loose_wide, tight_loose). cbn [fst].
    pose proof (le_val_bound l H). unfold feq in V. rewrite V.
    rewrite (Z.mod_small (le_val l)) by (unfold p25519 in *; lia). rewrite Z.mod_small by lia.
    rewrite <- L. by apply le_bytes_le_val.
Qed.

Lemma field_encoding_correct_witness :
  (exists h', FeToBytes (fe_extreme (-1)) = (le_bytes 32 (fe_val (fe_extreme (-1)) mod p25519), h')) /\
  fst (FeToBytes (FeFromBytes (replicate 32 7))) = replicate 32 7.
Proof.
  destruct (field_encoding_correct (fe_extreme (-1)) (replicate 32 7)) as [E D]. split.
  - destruct E as (h' & E & _); [unfold fe_wide, fe_bounded; cbn; lia|]. by exists h'.
  - apply D; [repeat constructor; lia|reflexivity|vm_compute; reflexivity].
Defined.

(** FeInvert raises its argument to the power p-2 and fePow22523 to the power (p-5)/8, for p = 2^255-19: the addition chains of squarings and multiplications in the source add up to exactly these exponents, and the results are within the bounds of a further multiplication. *)
Lemma field_powers_correct z :
  fe_loose z ->
  (fe_loose (FeInvert z) /\ fe_val (FeInvert z) ≡p fe_val z ^ (p25519 - 2)) /\
  (fe_loose (fePow22523 z) /\ fe_val (fePow22523 z) ≡p fe_val z ^ ((p25519 - 5) / 8)).
Proof. intros H. split; [apply FeInvert_power|apply fePow22523_power]; done. Qed.

(** C32. Field arithmetic modulo p = 2^255-19. From limbs bounded by 1.65*2^26 and 1.65*2^25 (for FeMul more than documented) FeMul, FeSquare and FeSquare2 compute f*g, f^2 and 2f^2 with limbs bounded by 1.1*2^25 and 1.1*2^24, without overflow of an int32 precomputation or an int64 accumulation; on results FeAdd, FeSub and FeNeg are exact and within the bounds FeMul needs, FeCMove replaces f by g exactly when its bit is 1; the addition chains of FeInvert and fePow22523 raise to the powers p-2 and (p-5)/8. *)
Theorem field_operations_correct :
  (forall f g,
   (fe_wide f -> fe_wide g ->
    fe_tight (FeMul f g) /\ fe_val (FeMul f g) ≡p fe_val f * fe_val g) /\
   (fe_wide f ->
    fe_tight (FeSquare f) /\ fe_val (FeSquare f) ≡p fe_val f * fe_val f /\
    fe_tight (FeSquare2 f) /\ fe_val (FeSquare2 f) ≡p 2 * (fe_val f * fe_val f))) /\
  (forall f g b,
   fe_tight f -> fe_tight g ->
   (fe_loose (FeAdd f g) /\ fe_val (FeAdd f g) = fe_val f + fe_val g) /\
   (fe_loose (FeSub f g) /\ fe_val (FeSub f g) = fe_val f - fe_val g) /\
   (fe_tight (FeNeg f) /\ fe_val (FeNeg f) = - fe_val f) /\
   (b = 0 -> FeCMove f g b = f) /\ (b = 1 -> FeCMove f g b = g)) /\
  (forall z,
   fe_loose z ->
   (fe_loose (FeInvert z) /\ fe_val (FeInvert z) ≡p fe_val z ^ (p25519 - 2)) /\
   (fe_loose (fePow22523 z) /\ fe_val (fePow22523 z) ≡p fe_val z ^ ((p25519 - 5) / 8))).
Proof. split_and!; [exact field_products_correct|exact field_linear_correct|exact field_powers_correct]. Qed.

Lemma field_operations_correct_witness :
  (fe_val (FeMul (fe_extreme 1) (fe_extreme (-1))) ≡p fe_val (fe_extreme 1) * fe_val (fe_extreme (-1)) /\
  fe_tight (FeSquare2 (fe_extreme 1))) /\
  (fe_val (FeSub FeZero FeOne) = -1 /\ FeCMove FeZero FeOne 1 = FeOne) /\
  (fe_loose (FeInvert (fe_extreme 1)) /\
  fe_val (fePow22523 (fe_extreme 1)) ≡p fe_val (fe_extreme 1) ^ ((p25519 - 5) / 8)).
Proof.
  split; [|split].
  { destruct ((proj1 field_operations_correct) (fe_extreme 1) (fe_extreme (-1))) as [M S].
    split; [apply M; unfold fe_wide, fe_bounded; cbn; lia|].
    apply S. unfold fe_wide, fe_bounded; cbn; lia. }
  { destruct ((proj1 (proj2 field_operations_correct)) FeZero FeOne 1) as (_ & [_ S] & _ & _ & M);
      [vm_compute; repeat split; discriminate..|].
    split; [rewrite S; reflexivity|by apply M]. }
  { destruct ((proj2 (proj2 field_operations_correct)) (fe_extreme 1)) as [[I _] [_ P]]; [unfold fe_loose, fe_bounded; cbn; lia|].
    split; [exact I|exact P]. }
Defined.
