(* ===== verification/EdPrime.v ===== *)
(** * The prime 2^255-19

    Primality of the modulus of the field of crypto/ed25519/internal/edwards25519, which the
    formulas of group.go and the square root of FromBytes rely on.  Pocklington's criterion is
    proved from Fermat's theorem; the certificate is a chain of five numbers, of which the small ones
    are checked by trial division. *)
From S2P Require Import Prelude.
From Stdlib Require Import Znumtheory Zmod.Zmod.
#[local] Open Scope Z_scope.

(** ** Exponentiation with reduction *)

Fixpoint pow_mod (n a : Z) (e : positive) : Z :=
  match e with
  | xH => a mod n
  | xO e => let y := pow_mod n a e in (y * y) mod n
  | xI e => let y := pow_mod n a e in ((y * y) mod n * a) mod n
  end.

Lemma pow_mod_spec n a e : pow_mod n a e = a ^ Z.pos e mod n.
Proof.
  induction e as [e IH|e IH|]; cbn [pow_mod].
  - rewrite IH, Zmult_mod_idemp_l, <- Z.mul_assoc, Zmult_mod_idemp_l.
    rewrite (Z.mul_comm (a ^ _)), <- Z.mul_assoc, Zmult_mod_idemp_l. f_equal.
    replace (Z.pos e~1) with (Z.pos e + Z.pos e + 1) by lia. rewrite !Z.pow_add_r by lia. ring.
  - rewrite IH, <- Zmult_mod. f_equal.
    replace (Z.pos e~0) with (Z.pos e + Z.pos e) by lia. by rewrite Z.pow_add_r by lia.
  - by rewrite Z.pow_1_r.
Qed.

(** ** Divisors *)

Lemma prime_divisor n : 1 < n -> exists r, Z.prime r /\ (r | n).
Proof.
  intros Hn. assert (0 <= n) as H0 by lia. revert Hn. pattern n.
  apply Z_lt_induction; [|done]. clear n H0. intros n IH Hn.
  destruct (prime_dec n) as [P|P].
  - exists n. split; [by apply prime_alt|apply Z.divide_refl].
  - destruct (not_prime_divide n Hn P) as (m & Hm & D).
    destruct (IH m ltac:(lia) ltac:(lia)) as (r & Pr & Dr). exists r. split; [done|by etrans].
Qed.

Lemma prime_by_root n :
  1 < n -> (forall r, Z.prime r -> (r | n) -> n < r * r) -> Z.prime n.
Proof.
  intros Hn H. split; [done|]. intros m Hm [k Hk].
  assert (exists s, 1 < s /\ (s | n) /\ s * s <= n) as (s & Hs & Ds & Ls).
  { destruct (Z.le_gt_cases m k).
    - exists m. split_and!; [lia|by exists k|nia].
    - exists k. split_and!; [nia|exists m; lia|nia]. }
  destruct (prime_divisor s Hs) as (r & Pr & Dr).
  specialize (H r Pr ltac:(by etrans)). pose proof (Z.prime_ge_2 r Pr).
  apply Z.divide_pos_le in Dr; [nia|lia].
Qed.

Lemma coprime_product (qs : list Z) q :
  Forall Z.prime qs -> Z.prime q -> q ∉ qs -> Z.coprime q (fold_right Z.mul 1 qs).
Proof.
  intros P Pq. induction P as [|x qs Px P IH]; intros Hq; simpl; [apply Z.coprime_1_r|].
  apply not_elem_of_cons in Hq as [Hx Hq]. apply Z.coprime_mul_r; [|by apply IH].
  apply Z.coprime_prime_l; [done|]. intros E%Z.divide_prime_prime; done.
Qed.

Lemma product_divides (qs : list Z) m :
  Forall Z.prime qs -> NoDup qs -> Forall (fun q => (q | m)) qs ->
  (fold_right Z.mul 1 qs | m).
Proof.
  intros P ND D.
  induction qs as [|q qs IH]; simpl; [apply Z.divide_1_l|].
  apply Forall_cons in P as [Pq P], D as [Dq D]. apply NoDup_cons in ND as [Hq ND].
  destruct (IH P ND D) as [k Hk]. pose proof (coprime_product qs q P Pq Hq) as C.
  assert (q | k) as [j ->].
  { apply (Z.gauss q (fold_right Z.mul 1 qs)); [|done]. by rewrite Z.mul_comm, <- Hk. }
  exists j. rewrite Hk. ring.
Qed.

Lemma pow_mod_one x r k : 1 < r -> 0 <= k -> x mod r = 1 -> x ^ k mod r = 1.
Proof. intros Hr Hk E. rewrite <- Z.mod_pow_l, E, Z.pow_1_l by done. apply Z.mod_1_l; lia. Qed.

(** A divisor r of n is 1 modulo q when a has an order divisible by q modulo every divisor. *)
Lemma order_divides n a q r :
  1 < n -> Z.prime q -> (q | n - 1) -> a ^ (n - 1) mod n = 1 -> Z.gcd (a ^ ((n - 1) / q) - 1) n = 1 ->
  Z.prime r -> (r | n) -> (q | r - 1).
Proof.
  intros Hn Pq [m Hm] Ha Hg Pr Dr. pose proof (Z.prime_ge_2 q Pq) as Q. pose proof (Z.prime_ge_2 r Pr) as R.
  destruct (Z.BoolSpec_divide q (r - 1)) as [|ND]; [done|exfalso].
  rewrite Hm, Z.div_mul in Hg by lia. set (b := a ^ m) in *.
  assert (0 <= m) as M by nia.
  assert (b ^ q mod r = 1) as Bq.
  { unfold b. rewrite <- Z.pow_mul_r, <- Hm by lia.
    rewrite <- (Z.mod_mod_divide _ n) by done. rewrite Ha. apply Z.mod_1_l. lia. }
  assert (b mod r <> 0) as B0.
  { intros E. rewrite <- Z.mod_pow_l, E, Z.pow_0_l, Zmod_0_l in Bq by lia. done. }
  pose proof (Z.fermat_nz r b Pr B0) as F.
  pose proof (Z.coprime_prime_l q (r - 1) Pq ND) as (u & v & UV)%Z.Bezout_coprime.
  set (u' := u mod (r - 1) + (r - 1)). pose proof (Z.mod_pos_bound u (r - 1) ltac:(lia)).
  assert (exists w, 0 <= w /\ u' * q = 1 + w * (r - 1)) as (w & Hw & E).
  { set (s := r - 1) in *. set (w := q - u / s * q - v). exists w.
    assert (u' * q = 1 + w * s) as Ew.
    { unfold u', w. rewrite (Z.mod_eq u s) by lia. rewrite <- UV. ring. }
    split; [|done]. destruct (Z.le_gt_cases 0 w) as [|Hw]; [done|exfalso].
    assert (0 < u' * q) by (apply Z.mul_pos_pos; lia). nia. }
  assert (b mod r = 1) as Eb.
  { transitivity (b ^ (u' * q) mod r).
    - rewrite E, Z.pow_add_r, Z.pow_1_r, (Z.mul_comm w), Z.pow_mul_r by nia.
      rewrite <- Zmult_mod_idemp_r, (pow_mod_one _ r w), Z.mul_1_r by (done || lia). done.
    - rewrite Z.mul_comm, Z.pow_mul_r by lia. apply pow_mod_one; [lia|lia|done]. }
  assert (r | 1) as D1.
  { rewrite <- Hg. apply Z.gcd_greatest; [|done]. exists (b / r). pose proof (Z_div_mod_eq_full b r). lia. }
  apply Z.divide_1_r in D1. lia.
Qed.

(** Pocklington's criterion, for a product of distinct primes above the square root. *)
Theorem pocklington n (qs : list (Z * Z)) :
  1 < n -> NoDup qs.*1 -> Forall Z.prime qs.*1 ->
  (let F := fold_right Z.mul 1 qs.*1 in n < F * F) ->
  Forall (fun '(q, a) => (q | n - 1) /\ a ^ (n - 1) mod n = 1 /\ Z.gcd (a ^ ((n - 1) / q) - 1) n = 1) qs ->
  Z.prime n.
Proof.
  intros Hn ND P HF C. apply prime_by_root; [done|]. intros r Pr Dr. pose proof (Z.prime_ge_2 r Pr).
  assert (fold_right Z.mul 1 qs.*1 | r - 1) as D.
  { apply product_divides; [done..|]. apply Forall_fmap. rewrite Forall_fmap in P.
    eapply Forall_impl; [exact (proj2 (Forall_and _ _) (conj P C))|]. intros [q a] [Pq (D & E & G)].
    by apply (order_divides n a). }
  apply Z.divide_pos_le in D; [|lia]. simpl in HF.
  assert (0 <= fold_right Z.mul 1 qs.*1); [|nia].
  clear -P. induction P as [|q l Pq P IH]; simpl; [lia|]. pose proof (Z.prime_ge_2 q Pq). nia.
Qed.

(** ** Certificates *)

(** Trial division. *)
Fixpoint no_divisor (k : nat) (d n : Z) : bool :=
  match k with
  | O => true
  | S k => negb (n mod d =? 0) && no_divisor k (d + 1) n
  end.

Lemma no_divisor_spec k d n x :
  no_divisor k d n = true -> d <= x < d + Z.of_nat k -> 0 < d -> ~ (x | n).
Proof.
  revert d. induction k as [|k IH]; intros d H Hx Hd; [lia|]. cbn [no_divisor] in H.
  apply andb_true_iff in H as [H1 H2]. destruct (Z.eq_dec x d) as [->|].
  - apply negb_true_iff, Z.eqb_neq in H1. intros [k' ->]. by rewrite Z.mod_mul in H1 by lia.
  - apply (IH (d + 1)); [done|lia|lia].
Qed.

Lemma small_prime n k :
  1 < n -> n < (Z.of_nat k + 2) * (Z.of_nat k + 2) -> no_divisor k 2 n = true -> Z.prime n.
Proof.
  intros Hn Hk H. apply prime_by_root; [done|]. intros r Pr Dr. pose proof (Z.prime_ge_2 r Pr).
  destruct (Z.lt_ge_cases r (2 + Z.of_nat k)); [|nia].
  exfalso. by apply (no_divisor_spec k 2 n r H); [lia..|].
Qed.

(** One step of a certificate: the side conditions as a boolean. *)
Definition step_ok (n : Z) (qs : list (Z * Z)) : bool :=
  let F := fold_right Z.mul 1 qs.*1 in
  (1 <? n) && (n <? F * F) && bool_decide (NoDup qs.*1) &&
  forallb (fun '(q, a) =>
    (0 <? q) && ((n - 1) mod q =? 0) && (0 <? (n - 1) / q) &&
    (let x := pow_mod n a (Z.to_pos ((n - 1) / q)) in
     (pow_mod n x (Z.to_pos q) =? 1) && (Z.gcd (x - 1) n =? 1))) qs.

Lemma step_prime n qs : step_ok n qs = true -> Forall Z.prime qs.*1 -> Z.prime n.
Proof.
  unfold step_ok. cbv zeta. rewrite !andb_true_iff, Z.ltb_lt, Z.ltb_lt, bool_decide_eq_true.
  intros (((H1 & HF) & ND) & C) P. apply (pocklington n qs); [done..|].
  rewrite forallb_forall in C. apply Forall_forall. intros [q a] Hin%list_elem_of_In.
  specialize (C _ Hin). cbn in C. rewrite !andb_true_iff, !Z.ltb_lt, !Z.eqb_eq in C.
  destruct C as (((Hq & D) & Hm) & E & G).
  assert (n - 1 = (n - 1) / q * q) as Em.
  { pose proof (Z_div_mod_eq_full (n - 1) q). lia. }
  rewrite !pow_mod_spec, !Z2Pos.id in E, G by lia. rewrite pow_mod_spec, Z2Pos.id, Z.mod_pow_l in E by lia.
  split_and!.
  - by exists ((n - 1) / q).
  - rewrite Em at 1. by rewrite Z.pow_mul_r by lia.
  - rewrite <- Z.gcd_mod_l in G |- *. by rewrite Zminus_mod_idemp_l in G.
Qed.

Lemma prime_8574133 : Z.prime 8574133.
Proof. apply (small_prime _ 2927); [lia..|vm_compute; reflexivity]. Qed.

Lemma prime_1923133 : Z.prime 1923133.
Proof. apply (small_prime _ 1386); [lia..|vm_compute; reflexivity]. Qed.

Lemma prime_75707 : Z.prime 75707.
Proof. apply (small_prime _ 275); [lia..|vm_compute; reflexivity]. Qed.

Lemma prime_127 : Z.prime 127.
Proof. apply (small_prime _ 10); [lia..|vm_compute; reflexivity]. Qed.

Lemma prime_q3 : Z.prime 1919519569386763.
Proof.
  apply (step_prime _ [(8574133, 2); (127, 2)]); [vm_compute; reflexivity|].
  constructor; [exact prime_8574133|constructor; [exact prime_127|constructor]].
Qed.

Lemma prime_q2 : Z.prime 75445702479781427272750846543864801.
Proof.
  apply (step_prime _ [(1919519569386763, 7); (75707, 7)]); [vm_compute; reflexivity|].
  constructor; [exact prime_q3|constructor; [exact prime_75707|constructor]].
Qed.

Lemma prime_q1 : Z.prime 74058212732561358302231226437062788676166966415465897661863160754340907.
Proof.
  apply (step_prime _ [(75445702479781427272750846543864801, 2); (1923133, 2)]); [vm_compute; reflexivity|].
  constructor; [exact prime_q2|constructor; [exact prime_1923133|constructor]].
Qed.

Lemma prime_25519 : Z.prime (2 ^ 255 - 19).
Proof.
  apply (step_prime _ [(74058212732561358302231226437062788676166966415465897661863160754340907, 2)]);
    [vm_compute; reflexivity|].
  constructor; [exact prime_q1|constructor].
Qed.
