(* ===== verification/EdCurve.v ===== *)
(** * The twisted Edwards curve -x^2 + y^2 = 1 + d x^2 y^2

    The group that crypto/ed25519/internal/edwards25519/group.go computes in, over any field in which
    -1 is a square and d is not: addition is total (the denominators never vanish), the points form
    a commutative group, and integer multiples obey the usual laws. *)
From S2P Require Import Prelude.
From Stdlib Require Import Field Eqdep_dec.

Section curve.
Context {F : Type} (zero one : F) (add mul sub : F -> F -> F) (opp : F -> F) (div : F -> F -> F) (inv : F -> F).
Context (Fth : field_theory zero one add mul sub opp div inv eq).
Context {F_eq_dec : EqDecision F}.

#[local] Notation "0" := zero.
#[local] Notation "1" := one.
#[local] Infix "+" := add.
#[local] Infix "*" := mul.
#[local] Infix "-" := sub.
#[local] Infix "/" := div.
#[local] Notation "- x" := (opp x).

Add Field curve_field : Fth.

Context (d i : F).
Context (two_nz : 1 + 1 <> 0) (i_sq : i * i = - (1)) (d_nonsquare : forall s, s * s <> d).

(** ** Field facts *)

Lemma mul_zero x y : x * y = 0 -> x = 0 \/ y = 0.
Proof.
  intros H. destruct (decide (x = 0)) as [|Hx]; [by left|right].
  transitivity (inv x * (x * y)); [field; done|]. rewrite H. ring.
Qed.

Lemma mul_nz x y : x <> 0 -> y <> 0 -> x * y <> 0.
Proof. intros Hx Hy [|]%mul_zero; done. Qed.

Lemma div_eq a b x y : b <> 0 -> y <> 0 -> a * y = x * b -> a / b = x / y.
Proof.
  intros Hb Hy E. transitivity (a * y / (b * y)); [field; done|]. rewrite E. field. done.
Qed.

Lemma div_of a b x : b <> 0 -> a = x * b -> a / b = x.
Proof. intros Hb ->. field. done. Qed.

Lemma one_nz : 1 <> 0.
Proof. intros E. apply two_nz. rewrite E. ring. Qed.

Lemma d_nz : d <> 0.
Proof. intros E. apply (d_nonsquare 0). rewrite E. ring. Qed.

(** ** Points *)

Definition on_curve (x y : F) : Prop := y * y - x * x = 1 + d * (x * x) * (y * y).

Record point := mkPoint { px : F; py : F; point_ok : on_curve px py }.

Lemma point_eq P Q : px P = px Q -> py P = py Q -> P = Q.
Proof.
  destruct P as [x y H], Q as [x' y' H']. simpl. intros -> ->. f_equal. apply UIP_dec. solve_decision.
Qed.

#[export] Instance point_eq_dec : EqDecision point.
Proof.
  intros P Q. destruct (decide (px P = px Q)) as [Ex|N]; [|right; by intros ->].
  destruct (decide (py P = py Q)) as [Ey|N]; [|right; by intros ->].
  left. by apply point_eq.
Defined.

(** Completeness: with X = i x the curve is X^2 + y^2 = 1 - d X^2 y^2, and a vanishing denominator
    would make d a square. *)
Lemma denominators x1 y1 x2 y2 e :
  on_curve x1 y1 -> on_curve x2 y2 -> e * e = 1 -> d * (x1 * x2 * (y1 * y2)) <> e.
Proof.
  unfold on_curve. intros H1 H2 He E.
  assert (e <> 0) as En. { intros ->. apply one_nz. rewrite <- He. ring. }
  assert (x1 * y1 <> 0) as N1.
  { intros Z. apply En. rewrite <- E. transitivity (d * (x1 * y1) * (x2 * y2)); [ring|]. rewrite Z. ring. }
  assert (x2 * y2 <> 0) as N2.
  { intros Z. apply En. rewrite <- E. transitivity (d * (x1 * y1) * (x2 * y2)); [ring|]. rewrite Z. ring. }
  assert (forall s, (s = 1 \/ s = - (1)) -> i * x2 + s * y2 = 0) as K.
  { intros s Hs. destruct (decide (i * x2 + s * y2 = 0)) as [|N]; [done|exfalso].
    assert (s * s = 1) as Ss by (destruct Hs as [-> | ->]; ring).
    apply (d_nonsquare ((i * x1 + s * e * y1) / (x1 * y1 * (i * x2 + s * y2)))).
    transitivity ((i * x1 + s * e * y1) * (i * x1 + s * e * y1)
                  / (x1 * y1 * (i * x2 + s * y2) * (x1 * y1 * (i * x2 + s * y2)))).
    { field. split; [done|]. split; intros Z; apply N1; rewrite Z; ring. }
    apply div_of; [by apply mul_nz; apply mul_nz|].
    assert ((i * x1 + s * e * y1) * (i * x1 + s * e * y1)
            = (y1 * y1 - x1 * x1) + (1 + 1) * i * s * e * x1 * y1) as -> by ring [i_sq Ss He].
    assert (d * (x1 * y1 * (i * x2 + s * y2) * (x1 * y1 * (i * x2 + s * y2)))
            = d * (x1 * x1) * (y1 * y1) * (y2 * y2 - x2 * x2)
              + (1 + 1) * i * s * (d * (x1 * x2 * (y1 * y2))) * x1 * y1) as -> by ring [i_sq Ss].
    rewrite H1, H2, E.
    transitivity (d * (x1 * x1) * (y1 * y1) + e * e + (1 + 1) * i * s * e * x1 * y1); [ring [He]|].
    rewrite <- E at 1 2. ring. }
  pose proof (K 1 (or_introl eq_refl)) as K1. pose proof (K (- (1)) (or_intror eq_refl)) as K2.
  apply N2. assert ((1 + 1) * y2 = 0) as Y.
  { transitivity ((i * x2 + 1 * y2) - (i * x2 + - (1) * y2)); [ring|]. rewrite K1, K2. ring. }
  apply mul_zero in Y as [Y|Y]; [done|]. rewrite Y. ring.
Qed.

Lemma den_plus x1 y1 x2 y2 : on_curve x1 y1 -> on_curve x2 y2 -> 1 + d * (x1 * x2 * (y1 * y2)) <> 0.
Proof.
  intros H1 H2 E. apply (denominators x1 y1 x2 y2 (- (1)) H1 H2); [ring|].
  transitivity (1 + d * (x1 * x2 * (y1 * y2)) - 1); [ring|]. rewrite E. ring.
Qed.

Lemma den_minus x1 y1 x2 y2 : on_curve x1 y1 -> on_curve x2 y2 -> 1 - d * (x1 * x2 * (y1 * y2)) <> 0.
Proof.
  intros H1 H2 E. apply (denominators x1 y1 x2 y2 1 H1 H2); [ring|].
  transitivity (1 - (1 - d * (x1 * x2 * (y1 * y2)))); [ring|]. rewrite E. ring.
Qed.

(** ** Addition *)

Definition add_x x1 y1 x2 y2 : F := (x1 * y2 + x2 * y1) / (1 + d * (x1 * x2 * (y1 * y2))).
Definition add_y x1 y1 x2 y2 : F := (y1 * y2 + x1 * x2) / (1 - d * (x1 * x2 * (y1 * y2))).

(** The curve equation as a rewriting rule: d is invertible. *)
Lemma curve_rule x y : on_curve x y -> x * x * (y * y) = inv d * (y * y - x * x - 1).
Proof. unfold on_curve. intros ->. field. exact d_nz. Qed.

Lemma d_inv : d * inv d = 1.
Proof. field. exact d_nz. Qed.

Lemma on_curve_add x1 y1 x2 y2 :
  on_curve x1 y1 -> on_curve x2 y2 -> on_curve (add_x x1 y1 x2 y2) (add_y x1 y1 x2 y2).
Proof.
  intros H1 H2. pose proof (den_plus _ _ _ _ H1 H2) as Np. pose proof (den_minus _ _ _ _ H1 H2) as Nm.
  pose proof (curve_rule _ _ H1) as R1. pose proof (curve_rule _ _ H2) as R2. pose proof d_inv as Dd.
  unfold on_curve, add_x, add_y. clear H1 H2. revert Dd R1 R2. generalize (inv d). intros D Dd R1 R2.
  field_simplify_eq; [|done]. ring [Dd R1 R2].
Qed.

Definition padd (P Q : point) : point :=
  mkPoint (add_x (px P) (py P) (px Q) (py Q)) (add_y (px P) (py P) (px Q) (py Q))
    (on_curve_add _ _ _ _ (point_ok P) (point_ok Q)).

Lemma on_curve_neutral : on_curve 0 1.
Proof. unfold on_curve. ring. Qed.

Lemma on_curve_opp x y : on_curve x y -> on_curve (- x) y.
Proof. unfold on_curve. intros H. transitivity (y * y - x * x); [ring|]. rewrite H. ring. Qed.

Definition neutral : point := mkPoint 0 1 on_curve_neutral.
Definition popp (P : point) : point := mkPoint (- px P) (py P) (on_curve_opp _ _ (point_ok P)).

Lemma padd_comm P Q : padd P Q = padd Q P.
Proof. apply point_eq; simpl; unfold add_x, add_y; f_equal; ring. Qed.

Lemma padd_0_r P : padd P neutral = P.
Proof.
  apply point_eq; simpl; unfold add_x, add_y.
  - apply div_of; [|ring]. intros E. apply one_nz. rewrite <- E. ring.
  - apply div_of; [|ring]. intros E. apply one_nz. rewrite <- E. ring.
Qed.

Lemma padd_0_l P : padd neutral P = P.
Proof. by rewrite padd_comm, padd_0_r. Qed.

Lemma padd_opp_r P : padd P (popp P) = neutral.
Proof.
  pose proof (point_ok P) as H. pose proof (point_ok (popp P)) as H'.
  apply point_eq; simpl in *; unfold add_x, add_y; set (x := px P) in *; set (y := py P) in *.
  - apply div_of; [by apply den_plus|ring].
  - apply div_of; [by apply den_minus|]. unfold on_curve in H.
    transitivity (y * y - x * x); [ring|]. rewrite H. ring.
Qed.

(** The sum of a sum, with one denominator. *)
Lemma add_x_sum x1 y1 x2 y2 x3 y3 :
  let k := d * (x1 * x2 * (y1 * y2)) in
  let n := x1 * y2 + x2 * y1 in let m := y1 * y2 + x1 * x2 in
  1 + k <> 0 -> 1 - k <> 0 ->
  1 + d * (n / (1 + k) * x3 * (m / (1 - k) * y3)) <> 0 ->
  add_x (n / (1 + k)) (m / (1 - k)) x3 y3
  = (n * (1 - k) * y3 + x3 * m * (1 + k)) / ((1 + k) * (1 - k) + d * (n * x3 * (m * y3))) /\
  (1 + k) * (1 - k) + d * (n * x3 * (m * y3)) <> 0.
Proof.
  intros k n m Np Nm N.
  assert ((1 + k) * (1 - k) + d * (n * x3 * (m * y3))
          = (1 + k) * (1 - k) * (1 + d * (n / (1 + k) * x3 * (m / (1 - k) * y3)))) as E by (field; done).
  assert ((1 + k) * (1 - k) + d * (n * x3 * (m * y3)) <> 0) as N'.
  { rewrite E. by repeat apply mul_nz. }
  split; [|done]. unfold add_x. apply div_eq; [done..|]. rewrite E. field. done.
Qed.

Lemma add_y_sum x1 y1 x2 y2 x3 y3 :
  let k := d * (x1 * x2 * (y1 * y2)) in
  let n := x1 * y2 + x2 * y1 in let m := y1 * y2 + x1 * x2 in
  1 + k <> 0 -> 1 - k <> 0 ->
  1 - d * (n / (1 + k) * x3 * (m / (1 - k) * y3)) <> 0 ->
  add_y (n / (1 + k)) (m / (1 - k)) x3 y3
  = (m * (1 + k) * y3 + n * x3 * (1 - k)) / ((1 + k) * (1 - k) - d * (n * x3 * (m * y3))) /\
  (1 + k) * (1 - k) - d * (n * x3 * (m * y3)) <> 0.
Proof.
  intros k n m Np Nm N.
  assert ((1 + k) * (1 - k) - d * (n * x3 * (m * y3))
          = (1 + k) * (1 - k) * (1 - d * (n / (1 + k) * x3 * (m / (1 - k) * y3)))) as E by (field; done).
  assert ((1 + k) * (1 - k) - d * (n * x3 * (m * y3)) <> 0) as N'.
  { rewrite E. by repeat apply mul_nz. }
  split; [|done]. unfold add_y. apply div_eq; [done..|]. rewrite E. field. done.
Qed.

Lemma padd_assoc P Q R : padd P (padd Q R) = padd (padd P Q) R.
Proof.
  rewrite (padd_comm P). destruct P as [x1 y1 H1], Q as [x2 y2 H2], R as [x3 y3 H3].
  pose proof (on_curve_add _ _ _ _ H1 H2) as H12. pose proof (on_curve_add _ _ _ _ H2 H3) as H23.
  pose proof (den_plus _ _ _ _ H1 H2) as P12. pose proof (den_minus _ _ _ _ H1 H2) as M12.
  pose proof (den_plus _ _ _ _ H2 H3) as P23. pose proof (den_minus _ _ _ _ H2 H3) as M23.
  destruct (add_x_sum x1 y1 x2 y2 x3 y3 P12 M12 (den_plus _ _ _ _ H12 H3)) as [X1 NX1].
  destruct (add_x_sum x2 y2 x3 y3 x1 y1 P23 M23 (den_plus _ _ _ _ H23 H1)) as [X2 NX2].
  destruct (add_y_sum x1 y1 x2 y2 x3 y3 P12 M12 (den_minus _ _ _ _ H12 H3)) as [Y1 NY1].
  destruct (add_y_sum x2 y2 x3 y3 x1 y1 P23 M23 (den_minus _ _ _ _ H23 H1)) as [Y2 NY2].
  pose proof (curve_rule _ _ H1) as R1. pose proof (curve_rule _ _ H2) as R2.
  pose proof (curve_rule _ _ H3) as R3. pose proof d_inv as Dd.
  apply point_eq; cbn [px py padd].
  - etrans; [exact X2|]. etrans; [|symmetry; exact X1].
    clear -Fth R1 R2 R3 Dd NX1 NX2 F_eq_dec. revert Dd R1 R2 R3. generalize (inv d). intros D Dd R1 R2 R3.
    apply div_eq; [done..|]. ring [Dd R1 R2 R3].
  - etrans; [exact Y2|]. etrans; [|symmetry; exact Y1].
    clear -Fth R1 R2 R3 Dd NY1 NY2 F_eq_dec. revert Dd R1 R2 R3. generalize (inv d). intros D Dd R1 R2 R3.
    apply div_eq; [done..|]. ring [Dd R1 R2 R3].
Qed.

(** ** Multiples *)

Definition smul (n : Z) (P : point) : point :=
  match n with
  | Z0 => neutral
  | Zpos k => Pos.iter (padd P) neutral k
  | Zneg k => Pos.iter (padd (popp P)) neutral k
  end.

Lemma padd_opp_l P : padd (popp P) P = neutral.
Proof. by rewrite padd_comm, padd_opp_r. Qed.

Lemma padd_cancel_l P Q : padd (popp P) (padd P Q) = Q.
Proof. by rewrite padd_assoc, padd_opp_l, padd_0_l. Qed.

Lemma padd_cancel_l' P Q : padd P (padd (popp P) Q) = Q.
Proof. by rewrite padd_assoc, padd_opp_r, padd_0_l. Qed.

Lemma smul_succ n P : smul (Z.succ n) P = padd P (smul n P).
Proof.
  destruct n as [|k|k].
  - done.
  - replace (Z.succ (Z.pos k)) with (Z.pos (Pos.succ k)) by lia. cbn [smul]. by rewrite Pos.iter_succ.
  - destruct (Pos.eq_dec k 1%positive) as [->|Hk].
    + cbn. by rewrite padd_0_r, padd_opp_r.
    + rewrite <- (Pos.succ_pred k Hk). generalize (Pos.pred k). intros k'.
      replace (Z.succ (Z.neg (Pos.succ k'))) with (Z.neg k') by lia. cbn [smul].
      by rewrite Pos.iter_succ, padd_cancel_l'.
Qed.

Lemma smul_pred n P : smul (Z.pred n) P = padd (popp P) (smul n P).
Proof. rewrite <- (Z.succ_pred n) at 2. by rewrite smul_succ, padd_cancel_l. Qed.

Lemma smul_add n m P : smul (n + m)%Z P = padd (smul n P) (smul m P).
Proof.
  revert n. apply Z.peano_ind; [by rewrite Z.add_0_l, padd_0_l|..].
  - intros n IH. by rewrite Z.add_succ_l, !smul_succ, IH, padd_assoc.
  - intros n IH. by rewrite Z.add_pred_l, !smul_pred, IH, padd_assoc.
Qed.

Lemma smul_1 P : smul 1%Z P = P.
Proof. simpl. apply padd_0_r. Qed.

Lemma smul_0 P : smul 0%Z P = neutral.
Proof. done. Qed.

Lemma padd_opp_unique P Q : padd P Q = neutral -> Q = popp P.
Proof. intros E. by rewrite <- (padd_cancel_l P Q), E, padd_0_r. Qed.

Lemma smul_opp n P : smul (- n)%Z P = popp (smul n P).
Proof. apply padd_opp_unique. by rewrite <- smul_add, Z.add_opp_diag_r. Qed.

Lemma smul_neutral n : smul n neutral = neutral.
Proof.
  revert n. apply Z.peano_ind; [done|..]; intros n IH.
  - by rewrite smul_succ, IH, padd_0_r.
  - rewrite smul_pred, IH, padd_0_r. apply point_eq; simpl; [ring|done].
Qed.

Lemma popp_padd P Q : popp (padd P Q) = padd (popp P) (popp Q).
Proof.
  symmetry. apply padd_opp_unique. rewrite (padd_comm (popp P)), padd_assoc.
  rewrite <- (padd_assoc P), padd_opp_r, padd_0_r. apply padd_opp_r.
Qed.

Lemma smul_padd n P Q : smul n (padd P Q) = padd (smul n P) (smul n Q).
Proof.
  assert (forall A B C D, padd (padd A B) (padd C D) = padd (padd A C) (padd B D)) as I.
  { intros A B C D. rewrite !padd_assoc, <- (padd_assoc A), (padd_comm B), !padd_assoc. done. }
  revert n. apply Z.peano_ind; [by rewrite padd_0_r|..]; intros n IH.
  - by rewrite !smul_succ, IH, I.
  - by rewrite !smul_pred, IH, popp_padd, I.
Qed.

Lemma smul_mul n m P : smul (n * m)%Z P = smul n (smul m P).
Proof.
  revert n. apply Z.peano_ind; [done|..]; intros n IH.
  - by rewrite Z.mul_succ_l, Z.add_comm, smul_add, smul_succ, IH.
  - rewrite Z.mul_pred_l, smul_pred, <- IH, <- smul_opp, <- smul_add. f_equal. lia.
Qed.

(** A multiple of the order does not matter. *)
Lemma smul_mod n l P : smul l P = neutral -> smul (n mod l)%Z P = smul n P.
Proof.
  intros E. destruct (Z.eq_dec l 0%Z) as [->|Hl]; [by rewrite Z.mod_0_r|].
  rewrite (Z_div_mod_eq_full n l) at 2. by rewrite smul_add, Z.mul_comm, smul_mul, E, smul_neutral, padd_0_l.
Qed.
End curve.
