(* ===== verification/EdGroup.v ===== *)
(** * The group operations of Ed25519

    crypto/ed25519/internal/edwards25519/group.go: the representations of group elements, the formulas
    that add and double them, encoding and decoding, the recoding of scalars, and the two scalar
    multiplications. *)
From S2P Require Import Prelude EdScalar EdField EdTables.
#[local] Open Scope Z_scope.
#[local] Open Scope go_scope.

Record ProjectiveGroupElement := Proj { pX : FieldElement; pY : FieldElement; pZ : FieldElement }.
Record ExtendedGroupElement := Ext { eX : FieldElement; eY : FieldElement; eZ : FieldElement; eT : FieldElement }.
Record CompletedGroupElement := Comp { cX : FieldElement; cY : FieldElement; cZ : FieldElement; cT : FieldElement }.
Record CachedGroupElement := Cached { caYPlusX : FieldElement; caYMinusX : FieldElement; caZ : FieldElement; caT2d : FieldElement }.

Definition Projective_Zero : ProjectiveGroupElement := Proj FeZero FeOne FeOne.

Definition Projective_Double (p : ProjectiveGroupElement) : CompletedGroupElement :=
  let rX := FeSquare (pX p) in
  let rZ := FeSquare (pY p) in
  let rT := FeSquare2 (pZ p) in
  let rY := FeAdd (pX p) (pY p) in
  let t0 := FeSquare rY in
  let rY := FeAdd rZ rX in
  let rZ := FeSub rZ rX in
  let rX := FeSub t0 rY in
  let rT := FeSub rT rZ in
  Comp rX rY rZ rT.

(** The tail of both ToBytes: y with the parity of x in the top bit. *)
Definition encode_xy (x y : FieldElement) : list Z :=
  let s := (FeToBytes y).1 in
  <[31%nat := Z.lxor (byte_at s 31) (u8 (Z.shiftl (FeIsNegative x).1 7))]> s.

Definition Projective_ToBytes (p : ProjectiveGroupElement) : list Z :=
  let recip := FeInvert (pZ p) in
  encode_xy (FeMul (pX p) recip) (FeMul (pY p) recip).

Definition Extended_Zero : ExtendedGroupElement := Ext FeZero FeOne FeOne FeZero.

Definition Extended_ToProjective (p : ExtendedGroupElement) : ProjectiveGroupElement :=
  Proj (FeCopy (eX p)) (FeCopy (eY p)) (FeCopy (eZ p)).

Definition Extended_Double (p : ExtendedGroupElement) : CompletedGroupElement :=
  Projective_Double (Extended_ToProjective p).

Definition ToCached (p : ExtendedGroupElement) : CachedGroupElement :=
  Cached (FeAdd (eY p) (eX p)) (FeSub (eY p) (eX p)) (FeCopy (eZ p)) (FeMul (eT p) const.d2).

Definition Extended_ToBytes (p : ExtendedGroupElement) : list Z :=
  let recip := FeInvert (eZ p) in
  encode_xy (FeMul (eX p) recip) (FeMul (eY p) recip).

(** FromBytes: [p] is the receiver, of which T keeps its value when the result is false.  FeIsNonZero
    and FeIsNegative encode their argument and leave it normalised. *)
Definition FromBytes (p : ExtendedGroupElement) (s : list Z) : bool * ExtendedGroupElement :=
  let Y := FeFromBytes s in
  let Z := FeOne in
  let u := FeSquare Y in
  let v := FeMul u const.d in
  let u := FeSub u Z in
  let v := FeAdd v Z in
  let v3 := FeSquare v in
  let v3 := FeMul v3 v in
  let X := FeSquare v3 in
  let X := FeMul X v in
  let X := FeMul X u in
  let X := fePow22523 X in
  let X := FeMul X v3 in
  let X := FeMul X u in
  let vxx := FeSquare X in
  let vxx := FeMul vxx v in
  let check := FeSub vxx u in
  let root :=
    if (FeIsNonZero check).1 =? 1 then
      let check := FeAdd vxx u in
      if (FeIsNonZero check).1 =? 1 then (false, X)
      else
        let X := FeMul X const.SqrtM1 in
        (true, (FeToBytes X).2)
    else (true, X) in
  let '(ok, X) := root in
  if ok then
    let '(neg, X) := FeIsNegative X in
    let X := if negb (neg =? Z.shiftr (byte_at s 31) 7) then FeNeg X else X in
    (true, Ext X Y Z (FeMul X Y))
  else (false, Ext X Y Z (eT p)).

Definition Completed_ToProjective (p : CompletedGroupElement) : ProjectiveGroupElement :=
  Proj (FeMul (cX p) (cT p)) (FeMul (cY p) (cZ p)) (FeMul (cZ p) (cT p)).

Definition ToExtended (p : CompletedGroupElement) : ExtendedGroupElement :=
  Ext (FeMul (cX p) (cT p)) (FeMul (cY p) (cZ p)) (FeMul (cZ p) (cT p)) (FeMul (cX p) (cY p)).

Definition PreComputed_Zero : PreComputedGroupElement := Pre FeOne FeOne FeZero.

Definition geAdd (p : ExtendedGroupElement) (q : CachedGroupElement) : CompletedGroupElement :=
  let rX := FeAdd (eY p) (eX p) in
  let rY := FeSub (eY p) (eX p) in
  let rZ := FeMul rX (caYPlusX q) in
  let rY := FeMul rY (caYMinusX q) in
  let rT := FeMul (caT2d q) (eT p) in
  let rX := FeMul (eZ p) (caZ q) in
  let t0 := FeAdd rX rX in
  let rX := FeSub rZ rY in
  let rY := FeAdd rZ rY in
  let rZ := FeAdd t0 rT in
  let rT := FeSub t0 rT in
  Comp rX rY rZ rT.

Definition geSub (p : ExtendedGroupElement) (q : CachedGroupElement) : CompletedGroupElement :=
  let rX := FeAdd (eY p) (eX p) in
  let rY := FeSub (eY p) (eX p) in
  let rZ := FeMul rX (caYMinusX q) in
  let rY := FeMul rY (caYPlusX q) in
  let rT := FeMul (caT2d q) (eT p) in
  let rX := FeMul (eZ p) (caZ q) in
  let t0 := FeAdd rX rX in
  let rX := FeSub rZ rY in
  let rY := FeAdd rZ rY in
  let rZ := FeSub t0 rT in
  let rT := FeAdd t0 rT in
  Comp rX rY rZ rT.

Definition geMixedAdd (p : ExtendedGroupElement) (q : PreComputedGroupElement) : CompletedGroupElement :=
  let rX := FeAdd (eY p) (eX p) in
  let rY := FeSub (eY p) (eX p) in
  let rZ := FeMul rX (yPlusX q) in
  let rY := FeMul rY (yMinusX q) in
  let rT := FeMul (xy2d q) (eT p) in
  let t0 := FeAdd (eZ p) (eZ p) in
  let rX := FeSub rZ rY in
  let rY := FeAdd rZ rY in
  let rZ := FeAdd t0 rT in
  let rT := FeSub t0 rT in
  Comp rX rY rZ rT.

Definition geMixedSub (p : ExtendedGroupElement) (q : PreComputedGroupElement) : CompletedGroupElement :=
  let rX := FeAdd (eY p) (eX p) in
  let rY := FeSub (eY p) (eX p) in
  let rZ := FeMul rX (yMinusX q) in
  let rY := FeMul rY (yPlusX q) in
  let rT := FeMul (xy2d q) (eT p) in
  let t0 := FeAdd (eZ p) (eZ p) in
  let rX := FeSub rZ rY in
  let rY := FeAdd rZ rY in
  let rZ := FeSub t0 rT in
  let rT := FeAdd t0 rT in
  Comp rX rY rZ rT.

(** ** slide *)

(** The first loop: the bits of a. *)
Definition slide_bits (a : list Z) : list Z :=
  (fun i => i8 (Z.land 1 (Z.shiftr (byte_at a (i / 8)) (Z.of_nat (i mod 8))))) <$> seq 0 256.

(** The innermost loop, on r[i+b:]: add 1 to the bits. *)
Fixpoint slide_carry (r : list Z) : list Z :=
  match r with
  | [] => []
  | y :: r => if y =? 0 then 1 :: r else 0 :: slide_carry r
  end.

(** The loop over b at r[i] = [x], with [rest] for r[i+b:] and [n] values of b to go. *)
Fixpoint slide_inner (n : nat) (b : Z) (x : Z) (rest : list Z) : Z * list Z :=
  match n, rest with
  | S n, y :: tl =>
    if y =? 0 then
      let '(x, tl) := slide_inner n (b + 1) x tl in (x, y :: tl)
    else if i8 (x + i8 (Z.shiftl y b)) <=? 15 then
      let '(x, tl) := slide_inner n (b + 1) (i8 (x + i8 (Z.shiftl y b))) tl in (x, 0 :: tl)
    else if -15 <=? i8 (x - i8 (Z.shiftl y b)) then
      match slide_carry rest with
      | y' :: tl =>
        let '(x, tl) := slide_inner n (b + 1) (i8 (x - i8 (Z.shiftl y b))) tl in (x, y' :: tl)
      | [] => (x, rest)
      end
    else (x, rest)
  | _, _ => (x, rest)
  end.

(** The loop over i, on r[i:]. *)
Fixpoint slide_outer (n : nat) (r : list Z) : list Z :=
  match n, r with
  | S n, x :: rest =>
    if x =? 0 then x :: slide_outer n rest
    else let '(x, rest) := slide_inner 6 1 x rest in x :: slide_outer n rest
  | _, _ => r
  end.

Definition slide (a : list Z) : list Z := slide_outer 256 (slide_bits a).

(** ** GeDoubleScalarMultVartime *)

(** Ai[i+1] from Ai[i]. *)
Fixpoint odd_multiples (n : nat) (A2 : ExtendedGroupElement) (q : CachedGroupElement) : list CachedGroupElement :=
  match n with
  | O => [q]
  | S n => q :: odd_multiples n A2 (ToCached (ToExtended (geAdd A2 q)))
  end.

(** An index out of range panics. *)
Definition add_digit {Q} (add sub : ExtendedGroupElement -> Q -> CompletedGroupElement) (table : list Q)
    (digit : Z) (t : CompletedGroupElement) : res unit CompletedGroupElement :=
  if 0 <? digit then
    match table !! Z.to_nat (Z.quot digit 2) with
    | Some q => Ok (add (ToExtended t) q)
    | None => Panic
    end
  else if digit <? 0 then
    match table !! Z.to_nat (Z.quot (i8 (- digit)) 2) with
    | Some q => Ok (sub (ToExtended t) q)
    | None => Panic
    end
  else Ok t.

(** The main loop; the digits from the highest to the lowest. *)
Fixpoint double_scalar_loop (Ai : list CachedGroupElement) (digits : list (Z * Z)) (r : ProjectiveGroupElement)
    : res unit ProjectiveGroupElement :=
  match digits with
  | [] => Ok r
  | (da, db) :: digits =>
    let? t := add_digit geAdd geSub Ai da (Projective_Double r) in
    let? t := add_digit geMixedAdd geMixedSub const.bi db t in
    double_scalar_loop Ai digits (Completed_ToProjective t)
  end.

(** The loop that finds the highest non-zero digit. *)
Fixpoint skip_zeros (digits : list (Z * Z)) : list (Z * Z) :=
  match digits with
  | (da, db) :: rest => if negb (da =? 0) || negb (db =? 0) then digits else skip_zeros rest
  | [] => []
  end.

Definition GeDoubleScalarMultVartime (a : list Z) (A : ExtendedGroupElement) (b : list Z)
    : res unit ProjectiveGroupElement :=
  let aSlide := slide a in
  let bSlide := slide b in
  let A2 := ToExtended (Extended_Double A) in
  let Ai := odd_multiples 7 A2 (ToCached A) in
  double_scalar_loop Ai (skip_zeros (rev (combine aSlide bSlide))) Projective_Zero.

(** ** GeScalarMultBase *)

Definition equal (b c : Z) : Z :=
  let x := u32 (Z.lxor b c) in
  let x := u32 (x - 1) in
  i32 (Z.shiftr x 31).

Definition negative (b : Z) : Z := Z.land (Z.shiftr b 31) 1.

Definition PreComputedGroupElementCMove (t u : PreComputedGroupElement) (b : Z) : PreComputedGroupElement :=
  Pre (FeCMove (yPlusX t) (yPlusX u) b) (FeCMove (yMinusX t) (yMinusX u) b) (FeCMove (xy2d t) (xy2d u) b).

(** The loop over a row of the table, entry [i] first. *)
Fixpoint select_loop (row : list PreComputedGroupElement) (i bAbs : Z) (t : PreComputedGroupElement) : PreComputedGroupElement :=
  match row with
  | [] => t
  | u :: row => select_loop row (i32 (i + 1)) bAbs (PreComputedGroupElementCMove t u (equal bAbs (i32 (i + 1))))
  end.

(** [row] is base[pos]. *)
Definition selectPoint (row : list PreComputedGroupElement) (b : Z) : PreComputedGroupElement :=
  let bNegative := negative b in
  let bAbs := i32 (b - i32 (Z.shiftl (Z.land (i32 (- bNegative)) b) 1)) in
  let t := select_loop row 0 bAbs PreComputed_Zero in
  let minusT := Pre (FeCopy (yMinusX t)) (FeCopy (yPlusX t)) (FeNeg (xy2d t)) in
  PreComputedGroupElementCMove t minusT bNegative.

(** The nibbles of a. *)
Definition nibbles (a : list Z) : list Z :=
  flat_map (fun v => [i8 (Z.land v 15); i8 (Z.land (Z.shiftr v 4) 15)]) a.

(** The carries over the first [n] digits; the next one takes the last carry. *)
Fixpoint recode (n : nat) (carry : Z) (e : list Z) : list Z :=
  match n, e with
  | S n, x :: e =>
    let x := i8 (x + carry) in
    let carry := Z.shiftr (i8 (x + 8)) 4 in
    i8 (x - i8 (Z.shiftl carry 4)) :: recode n carry e
  | O, x :: e => i8 (x + carry) :: e
  | _, [] => []
  end.

(** The digits at the odd (even) positions. *)
Fixpoint odd_digits (e : list Z) : list Z := match e with _ :: x :: e => x :: odd_digits e | _ => [] end.
Fixpoint even_digits (e : list Z) : list Z := match e with x :: _ :: e => x :: even_digits e | _ => [] end.

(** for i := start; i < 64; i += 2: one digit for every row of the table. *)
Fixpoint add_rows (rows : list (list PreComputedGroupElement)) (digits : list Z) (h : ExtendedGroupElement) : ExtendedGroupElement :=
  match rows, digits with
  | row :: rows, x :: digits => add_rows rows digits (ToExtended (geMixedAdd h (selectPoint row x)))
  | _, _ => h
  end.

Definition GeScalarMultBase (a : list Z) : ExtendedGroupElement :=
  let e := recode 63 0 (nibbles a) in
  let h := add_rows const.base (odd_digits e) Extended_Zero in
  let r := Extended_Double h in
  let s := Completed_ToProjective r in
  let r := Projective_Double s in
  let s := Completed_ToProjective r in
  let r := Projective_Double s in
  let s := Completed_ToProjective r in
  let r := Projective_Double s in
  let h := ToExtended r in
  add_rows const.base (even_digits e) h.
