(* ===== verification/EdPoint.v ===== *)
(** * Group elements as points of the curve

    The field of residues modulo 2^255-19, the curve over it, what it means that a group element of
    group.go represents a point, and the correctness of the formulas: adding, subtracting and
    doubling representations adds, subtracts and doubles points. *)
From S2P Require Import Prelude EdScalar EdField EdPrime EdCurve EdTables EdGroup.
From Stdlib Require Import Field Zmod.Zmod.
#[local] Open Scope Z_scope.

(** ** The field *)

Abbreviation Fp := (Zmod p25519).

Lemma p25519_prime : Z.prime p25519.
Proof. exact prime_25519. Qed.

Lemma p25519_pos : 0 < p25519.
Proof. done. Qed.

#[export] Instance Fp_eq_dec : EqDecision Fp.
Proof.
  intros x y. destruct (Z.eq_dec (Zmod.to_Z x) (Zmod.to_Z y)) as [E|N].
  - left. by apply Zmod.to_Z_inj.
  - right. by intros ->.
Defined.

Definition Fp_field := Zmod.field_theory p25519 p25519_prime.
Add Field Fp_field : Fp_field.

(** The residue an element stands for. *)
Definition fev (f : FieldElement) : Fp := Zmod.of_Z p25519 (fe_val f).

Lemma of_Z_feq a b : a ≡p b -> Zmod.of_Z p25519 a = Zmod.of_Z p25519 b.
Proof. intros E. by apply Zmod.of_Z_inj. Qed.

Lemma fev_zero : fev FeZero = Zmod.zero.
Proof. apply Zmod.of_Z_0. Qed.
Lemma fev_one : fev FeOne = Zmod.one.
Proof. apply Zmod.of_Z_1. Qed.

Lemma fev_mul f g : fe_wide f -> fe_wide g -> fev (FeMul f g) = Zmod.mul (fev f) (fev g).
Proof. intros Hf Hg. unfold fev. rewrite <- Zmod.of_Z_mul. by apply of_Z_feq, FeMul_spec. Qed.
Lemma fev_square f : fe_wide f -> fev (FeSquare f) = Zmod.mul (fev f) (fev f).
Proof. intros Hf. unfold fev. rewrite <- Zmod.of_Z_mul. by apply of_Z_feq, FeSquare_spec. Qed.
Lemma fev_square2 f :
  fe_wide f -> fev (FeSquare2 f) = Zmod.add (Zmod.mul (fev f) (fev f)) (Zmod.mul (fev f) (fev f)).
Proof.
  intros Hf. unfold fev. rewrite <- Zmod.of_Z_mul, <- Zmod.of_Z_add. apply of_Z_feq.
  rewrite (proj2 (FeSquare2_spec f Hf)). apply (feq_multiple _ _ 0). ring.
Qed.

(** Sums of elements within the bounds of the products. *)
Lemma fev_add f g :
  fe_wide f -> fe_wide g -> fev (FeAdd f g) = Zmod.add (fev f) (fev g).
Proof.
  intros Hf Hg. unfold fev. rewrite <- Zmod.of_Z_add. f_equal.
  by apply (FeAdd_bounded 110729625 55364812 110729625 55364812).
Qed.
Lemma fev_sub f g :
  fe_wide f -> fe_wide g -> fev (FeSub f g) = Zmod.sub (fev f) (fev g).
Proof.
  intros Hf Hg. unfold fev. rewrite <- Zmod.of_Z_sub. f_equal.
  by apply (FeSub_bounded 110729625 55364812 110729625 55364812).
Qed.
Lemma fev_neg f : fe_wide f -> fev (FeNeg f) = Zmod.opp (fev f).
Proof.
  intros Hf. unfold fev. rewrite <- Zmod.of_Z_opp. f_equal.
  by apply (FeNeg_bounded 110729625 55364812).
Qed.

Lemma FeMul_tight f g : fe_wide f -> fe_wide g -> fe_tight (FeMul f g).
Proof. apply FeMul_spec. Qed.
Lemma FeSquare_tight f : fe_wide f -> fe_tight (FeSquare f).
Proof. apply FeSquare_spec. Qed.
Lemma FeSquare2_tight f : fe_wide f -> fe_tight (FeSquare2 f).
Proof. apply FeSquare2_spec. Qed.
Lemma FeAdd_loose f g : fe_tight f -> fe_tight g -> fe_loose (FeAdd f g).
Proof. apply FeAdd_spec. Qed.
Lemma FeSub_loose f g : fe_tight f -> fe_tight g -> fe_loose (FeSub f g).
Proof. apply FeSub_spec. Qed.
Lemma FeAdd_wide_l f g : fe_loose f -> fe_tight g -> fe_wide (FeAdd f g).
Proof. intros Hf Hg. eapply fe_bounded_mono; [| |by apply (FeAdd_bounded _ _ _ _ f g Hf Hg)]; lia. Qed.
Lemma FeAdd_wide_r f g : fe_tight f -> fe_loose g -> fe_wide (FeAdd f g).
Proof. intros Hf Hg. eapply fe_bounded_mono; [| |by apply (FeAdd_bounded _ _ _ _ f g Hf Hg)]; lia. Qed.
Lemma FeSub_wide_l f g : fe_loose f -> fe_tight g -> fe_wide (FeSub f g).
Proof. intros Hf Hg. eapply fe_bounded_mono; [| |by apply (FeSub_bounded _ _ _ _ f g Hf Hg)]; lia. Qed.
Lemma FeSub_wide_r f g : fe_tight f -> fe_loose g -> fe_wide (FeSub f g).
Proof. intros Hf Hg. eapply fe_bounded_mono; [| |by apply (FeSub_bounded _ _ _ _ f g Hf Hg)]; lia. Qed.
Lemma FeNeg_tight f : fe_tight f -> fe_tight (FeNeg f).
Proof. apply FeNeg_spec. Qed.
Lemma FeNeg_loose f : fe_loose f -> fe_loose (FeNeg f).
Proof. intros H. by apply FeNeg_bounded. Qed.
Lemma FeZero_tight : fe_tight FeZero.
Proof. by apply (bool_decide_unpack _). Qed.
Lemma FeOne_tight : fe_tight FeOne.
Proof. by apply (bool_decide_unpack _). Qed.
Lemma d_tight : fe_tight const.d.
Proof. by apply (bool_decide_unpack _). Qed.
Lemma d2_tight : fe_tight const.d2.
Proof. by apply (bool_decide_unpack _). Qed.
Lemma SqrtM1_tight : fe_tight const.SqrtM1.
Proof. by apply (bool_decide_unpack _). Qed.

#[export] Hint Resolve FeMul_tight FeSquare_tight FeSquare2_tight FeAdd_loose FeSub_loose FeAdd_wide_l
  FeAdd_wide_r FeSub_wide_l FeSub_wide_r FeNeg_tight FeNeg_loose FeZero_tight FeOne_tight d_tight d2_tight
  SqrtM1_tight : fe.

(** Bounds follow the shape of the expression. *)
Ltac fe_bounds := solve [typeclasses eauto 12 with fe].

Create HintDb ed.
Create Rewrite HintDb fev.
#[export] Hint Rewrite fev_zero fev_one fev_mul fev_square fev_square2 fev_add fev_sub fev_neg
  using fe_bounds : fev.

(** ** The curve *)

Definition dF : Fp := fev const.d.
Definition iF : Fp := fev const.SqrtM1.

Lemma d2F : fev const.d2 = Zmod.add dF dF.
Proof. unfold dF, fev. rewrite <- Zmod.of_Z_add. apply of_Z_feq. vm_compute. reflexivity. Qed.

Lemma two_nzF : Zmod.add Zmod.one Zmod.one <> Zmod.zero :> Fp.
Proof.
  intros E. apply (f_equal Zmod.to_Z) in E. vm_compute in E. discriminate.
Qed.

Lemma iF_sq : Zmod.mul iF iF = Zmod.opp Zmod.one.
Proof.
  unfold iF, fev. rewrite <- Zmod.of_Z_mul, <- Zmod.of_Z_1, <- Zmod.of_Z_opp. apply of_Z_feq.
  vm_compute. reflexivity.
Qed.

Lemma half_bounds : 0 < (p25519 - 1) / 2 /\ 2 * ((p25519 - 1) / 2) = Z.pred p25519.
Proof. split; vm_compute; reflexivity. Qed.

Lemma dF_nonsquare : forall s : Fp, Zmod.mul s s <> dF.
Proof.
  intros s E. destruct half_bounds as [B2 E2].
  assert (Zmod.pow dF ((p25519 - 1) / 2) = Zmod.opp Zmod.one) as H.
  { unfold dF, fev. rewrite <- Zmod.of_Z_pow by lia. rewrite <- Zmod.of_Z_1, <- Zmod.of_Z_opp.
    apply of_Z_feq. unfold feq. rewrite <- (Z2Pos.id ((p25519 - 1) / 2)) by exact B2.
    rewrite <- pow_mod_spec. vm_compute. reflexivity. }
  revert H. generalize dependent ((p25519 - 1) / 2). intros h Bh E2 H.
  destruct (decide (s = Zmod.zero)) as [->|Hs].
  - rewrite <- E, Zmod.mul_0_l, Zmod.pow_0_l in H by lia.
    apply (Zmod.one_neq_zero (m := p25519)); [done|].
    transitivity (Zmod.opp (Zmod.opp Zmod.one) : Fp); [ring|]. rewrite <- H. ring.
  - rewrite <- E, <- Zmod.pow_2_r, <- Zmod.pow_mul_r_nonneg, E2 in H by lia.
    rewrite (Zmod.fermat_nz s Hs p25519_prime) in H. apply two_nzF. rewrite H at 1. ring.
Qed.

(** The points of the curve of group.go, and the group they form. *)
Abbreviation epoint := (EdCurve.point Zmod.one Zmod.add Zmod.mul Zmod.sub dF).
Abbreviation ex P := (EdCurve.px Zmod.one Zmod.add Zmod.mul Zmod.sub dF P).
Abbreviation ey P := (EdCurve.py Zmod.one Zmod.add Zmod.mul Zmod.sub dF P).
Definition eadd : epoint -> epoint -> epoint :=
  EdCurve.padd _ _ _ _ _ _ _ _ Fp_field dF iF two_nzF iF_sq dF_nonsquare.
Definition eneutral : epoint := EdCurve.neutral _ _ _ _ _ _ _ _ Fp_field dF.
Definition eopp : epoint -> epoint := EdCurve.popp _ _ _ _ _ _ _ _ Fp_field dF.
Definition emul : Z -> epoint -> epoint :=
  EdCurve.smul _ _ _ _ _ _ _ _ Fp_field dF iF two_nzF iF_sq dF_nonsquare.

Declare Scope ed_scope.
Delimit Scope ed_scope with ed.
Infix "⊕" := eadd (at level 50, left associativity) : ed_scope.
Infix "⊗" := emul (at level 40, no associativity) : ed_scope.
#[local] Open Scope ed_scope.

Lemma epoint_eq (P Q : epoint) : ex P = ex Q -> ey P = ey Q -> P = Q.
Proof. apply EdCurve.point_eq, _. Qed.

Lemma eadd_comm P Q : P ⊕ Q = Q ⊕ P.
Proof. apply EdCurve.padd_comm. Qed.
Lemma eadd_assoc P Q R : P ⊕ (Q ⊕ R) = (P ⊕ Q) ⊕ R.
Proof. apply EdCurve.padd_assoc. Qed.
Lemma eadd_0_l P : eneutral ⊕ P = P.
Proof. apply EdCurve.padd_0_l. Qed.
Lemma eadd_0_r P : P ⊕ eneutral = P.
Proof. apply EdCurve.padd_0_r. Qed.
Lemma eadd_opp_r P : P ⊕ eopp P = eneutral.
Proof. apply EdCurve.padd_opp_r. Qed.
Lemma emul_0 P : 0 ⊗ P = eneutral.
Proof. done. Qed.
Lemma emul_1 P : 1 ⊗ P = P.
Proof. apply EdCurve.smul_1. Qed.
Lemma emul_add n m P : (n + m) ⊗ P = (n ⊗ P) ⊕ (m ⊗ P).
Proof. apply EdCurve.smul_add. Qed.
Lemma emul_mul n m P : (n * m) ⊗ P = n ⊗ (m ⊗ P).
Proof. apply EdCurve.smul_mul. Qed.
Lemma emul_opp n P : (- n) ⊗ P = eopp (n ⊗ P).
Proof. apply EdCurve.smul_opp. Qed.
Lemma emul_eadd n P Q : n ⊗ (P ⊕ Q) = (n ⊗ P) ⊕ (n ⊗ Q).
Proof. apply EdCurve.smul_padd. Qed.
Lemma emul_mod n l P : l ⊗ P = eneutral -> (n mod l) ⊗ P = n ⊗ P.
Proof. apply EdCurve.smul_mod. Qed.
Lemma emul_2 P : 2 ⊗ P = P ⊕ P.
Proof. change 2 with (1 + 1). by rewrite emul_add, emul_1. Qed.
Lemma eopp_mul n P : eopp (n ⊗ P) = n ⊗ eopp P.
Proof.
  rewrite <- emul_opp. replace (- n) with (n * - (1)) by lia. rewrite emul_mul. f_equal.
  by rewrite emul_opp, emul_1.
Qed.

#[local] Open Scope Zmod_scope.

(** The denominators of a sum. *)
Definition kden (P Q : epoint) : Fp := dF * (ex P * ex Q * (ey P * ey Q)).

Lemma kden_plus P Q : 1 + kden P Q <> 0.
Proof.
  apply (EdCurve.den_plus _ _ _ _ _ _ _ _ Fp_field dF iF two_nzF iF_sq dF_nonsquare);
    apply EdCurve.point_ok.
Qed.
Lemma kden_minus P Q : 1 - kden P Q <> 0.
Proof.
  apply (EdCurve.den_minus _ _ _ _ _ _ _ _ Fp_field dF iF two_nzF iF_sq dF_nonsquare);
    apply EdCurve.point_ok.
Qed.

Lemma eadd_x P Q : ex (P ⊕ Q) * (1 + kden P Q) = ex P * ey Q + ex Q * ey P.
Proof. pose proof (kden_plus P Q). unfold kden in *. cbn. unfold EdCurve.add_x. field. done. Qed.
Lemma eadd_y P Q : ey (P ⊕ Q) * (1 - kden P Q) = ey P * ey Q + ex P * ex Q.
Proof. pose proof (kden_minus P Q). unfold kden in *. cbn. unfold EdCurve.add_y. field. done. Qed.

Lemma ecurve P : ey P * ey P - ex P * ex P = 1 + dF * (ex P * ex P) * (ey P * ey P).
Proof. apply (EdCurve.point_ok _ _ _ _ _ P). Qed.

Lemma Fp_nz (x y : Fp) : x <> 0 -> y <> 0 -> x * y <> 0.
Proof. apply (EdCurve.mul_nz _ _ _ _ _ _ _ _ Fp_field). Qed.

Lemma Fp_integral (x y : Fp) : x * y = 0 -> x = 0 \/ y = 0.
Proof. apply (EdCurve.mul_zero _ _ _ _ _ _ _ _ Fp_field). Qed.

(** ** Representations *)

Record rep_proj (p : ProjectiveGroupElement) (P : epoint) : Prop := {
  rp_bounds : fe_loose (pX p) /\ fe_tight (pY p) /\ fe_tight (pZ p);
  rp_Z : fev (pZ p) <> 0;
  rp_X : fev (pX p) = ex P * fev (pZ p);
  rp_Y : fev (pY p) = ey P * fev (pZ p) }.

Record rep_ext (p : ExtendedGroupElement) (P : epoint) : Prop := {
  re_bounds : fe_loose (eX p) /\ fe_tight (eY p) /\ fe_tight (eZ p) /\ fe_tight (eT p);
  re_Z : fev (eZ p) <> 0;
  re_X : fev (eX p) = ex P * fev (eZ p);
  re_Y : fev (eY p) = ey P * fev (eZ p);
  re_T : fev (eT p) = ex P * ey P * fev (eZ p) }.

Record rep_comp (c : CompletedGroupElement) (P : epoint) : Prop := {
  rc_bounds : fe_wide (cX c) /\ fe_wide (cY c) /\ fe_wide (cZ c) /\ fe_wide (cT c);
  rc_Z : fev (cZ c) <> 0;
  rc_T : fev (cT c) <> 0;
  rc_X : fev (cX c) = ex P * fev (cZ c);
  rc_Y : fev (cY c) = ey P * fev (cT c) }.

Record rep_cached (q : CachedGroupElement) (Q : epoint) : Prop := {
  rq_bounds : fe_wide (caYPlusX q) /\ fe_wide (caYMinusX q) /\ fe_tight (caZ q) /\ fe_tight (caT2d q);
  rq_Z : fev (caZ q) <> 0;
  rq_plus : fev (caYPlusX q) = (ey Q + ex Q) * fev (caZ q);
  rq_minus : fev (caYMinusX q) = (ey Q - ex Q) * fev (caZ q);
  rq_T2d : fev (caT2d q) = (1 + 1) * dF * (ex Q * ey Q) * fev (caZ q) }.

Record rep_pre (q : PreComputedGroupElement) (Q : epoint) : Prop := {
  rt_bounds : fe_tight (yPlusX q) /\ fe_tight (yMinusX q) /\ fe_tight (xy2d q);
  rt_plus : fev (yPlusX q) = ey Q + ex Q;
  rt_minus : fev (yMinusX q) = ey Q - ex Q;
  rt_xy2d : fev (xy2d q) = (1 + 1) * dF * (ex Q * ey Q) }.

Lemma Completed_ToProjective_spec c P : rep_comp c P -> rep_proj (Completed_ToProjective c) P.
Proof.
  intros [(?&?&?&?) HZ HT HX HY]. unfold Completed_ToProjective. split; cbn [pX pY pZ].
  - split_and!; fe_bounds.
  - autorewrite with fev. by apply Fp_nz.
  - autorewrite with fev. rewrite HX. ring.
  - autorewrite with fev. rewrite HY. ring.
Qed.

Lemma ToExtended_spec c P : rep_comp c P -> rep_ext (ToExtended c) P.
Proof.
  intros [(?&?&?&?) HZ HT HX HY]. unfold ToExtended. split; cbn [eX eY eZ eT].
  - split_and!; fe_bounds.
  - autorewrite with fev. by apply Fp_nz.
  - autorewrite with fev. rewrite HX. ring.
  - autorewrite with fev. rewrite HY. ring.
  - autorewrite with fev. rewrite HX, HY. ring.
Qed.

Lemma Extended_ToProjective_spec p P : rep_ext p P -> rep_proj (Extended_ToProjective p) P.
Proof. intros [(?&?&?&?) HZ HX HY HT]. by split. Qed.

Lemma ToCached_spec p P : rep_ext p P -> rep_cached (ToCached p) P.
Proof.
  intros [(?&?&?&?) HZ HX HY HT]. unfold ToCached. split; cbn [caYPlusX caYMinusX caZ caT2d]; unfold FeCopy.
  - split_and!; fe_bounds.
  - done.
  - autorewrite with fev. rewrite HX, HY. ring.
  - autorewrite with fev. rewrite HX, HY. ring.
  - autorewrite with fev. rewrite HT, d2F. ring.
Qed.

Lemma Projective_Double_spec p P : rep_proj p P -> rep_comp (Projective_Double p) (P ⊕ P)%ed.
Proof.
  intros [(?&?&?) HZ HX HY]. unfold Projective_Double. cbv zeta.
  pose proof (ecurve P) as HC. pose proof (eadd_x P P) as Ax. pose proof (eadd_y P P) as Ay.
  pose proof (kden_plus P P) as Kp. pose proof (kden_minus P P) as Km.
  assert (ey P * ey P - ex P * ex P = 1 + kden P P) as EK by (unfold kden; rewrite HC; ring).
  set (k := kden P P) in *. set (z := fev (pZ p)) in *.
  assert (fev (FeSub (FeSquare (pY p)) (FeSquare (pX p))) = (1 + k) * (z * z)) as EZ.
  { autorewrite with fev. rewrite HX, HY. fold z. rewrite <- EK. ring. }
  assert (fev (FeSub (FeSquare2 (pZ p)) (FeSub (FeSquare (pY p)) (FeSquare (pX p)))) = (1 - k) * (z * z)) as ET.
  { rewrite fev_sub by fe_bounds. rewrite EZ. autorewrite with fev. fold z. ring. }
  split; cbn [cX cY cZ cT].
  - split_and!; fe_bounds.
  - rewrite EZ. exact (Fp_nz _ _ Kp (Fp_nz _ _ HZ HZ)).
  - rewrite ET. exact (Fp_nz _ _ Km (Fp_nz _ _ HZ HZ)).
  - rewrite EZ. transitivity (ex (P ⊕ P)%ed * (1 + k) * (z * z)); [|ring]. rewrite Ax.
    autorewrite with fev. rewrite HX, HY. fold z. ring.
  - rewrite ET. transitivity (ey (P ⊕ P)%ed * (1 - k) * (z * z)); [|ring]. rewrite Ay.
    autorewrite with fev. rewrite HX, HY. fold z. ring.
Qed.

(** The four additions compute the coordinates of the sum up to a common factor. *)
Lemma rep_sum P Q rX rY rZ rT (w : Fp) :
  fe_wide rX -> fe_wide rY -> fe_wide rZ -> fe_wide rT -> w <> 0 ->
  fev rX = (1 + 1) * (ex P * ey Q + ex Q * ey P) * w ->
  fev rY = (1 + 1) * (ey P * ey Q + ex P * ex Q) * w ->
  fev rZ = (1 + 1) * (1 + kden P Q) * w ->
  fev rT = (1 + 1) * (1 - kden P Q) * w ->
  rep_comp (Comp rX rY rZ rT) (P ⊕ Q)%ed.
Proof.
  intros BX BY BZ BT Hw EX EY EZ ET. split; cbn [cX cY cZ cT].
  - split_and!; assumption.
  - rewrite EZ. exact (Fp_nz _ _ (Fp_nz _ _ two_nzF (kden_plus P Q)) Hw).
  - rewrite ET. exact (Fp_nz _ _ (Fp_nz _ _ two_nzF (kden_minus P Q)) Hw).
  - rewrite EX, EZ, <- eadd_x. ring.
  - rewrite EY, ET, <- eadd_y. ring.
Qed.

Lemma ex_opp Q : ex (eopp Q) = - ex Q.
Proof. done. Qed.
Lemma ey_opp Q : ey (eopp Q) = ey Q.
Proof. done. Qed.

Lemma geAdd_spec p q P Q : rep_ext p P -> rep_cached q Q -> rep_comp (geAdd p q) (P ⊕ Q)%ed.
Proof.
  intros [(?&?&?&?) HZ HX HY HT] [(?&?&?&?) QZ Qp Qm Qt]. unfold geAdd. cbv zeta.
  apply (rep_sum _ _ _ _ _ _ (fev (eZ p) * fev (caZ q))); [fe_bounds..|exact (Fp_nz _ _ HZ QZ)| | | |];
    autorewrite with fev; unfold kden; rewrite ?HX, ?HY, ?HT, ?Qp, ?Qm, ?Qt; ring.
Qed.

Lemma geSub_spec p q P Q : rep_ext p P -> rep_cached q Q -> rep_comp (geSub p q) (P ⊕ eopp Q)%ed.
Proof.
  intros [(?&?&?&?) HZ HX HY HT] [(?&?&?&?) QZ Qp Qm Qt]. unfold geSub. cbv zeta.
  apply (rep_sum _ _ _ _ _ _ (fev (eZ p) * fev (caZ q))); [fe_bounds..|exact (Fp_nz _ _ HZ QZ)| | | |];
    autorewrite with fev; unfold kden; rewrite ?ex_opp, ?ey_opp, ?HX, ?HY, ?HT, ?Qp, ?Qm, ?Qt; ring.
Qed.

Lemma geMixedAdd_spec p q P Q : rep_ext p P -> rep_pre q Q -> rep_comp (geMixedAdd p q) (P ⊕ Q)%ed.
Proof.
  intros [(?&?&?&?) HZ HX HY HT] [(?&?&?) Qp Qm Qt]. unfold geMixedAdd. cbv zeta.
  apply (rep_sum _ _ _ _ _ _ (fev (eZ p))); [fe_bounds..|exact HZ| | | |];
    autorewrite with fev; unfold kden; rewrite ?HX, ?HY, ?HT, ?Qp, ?Qm, ?Qt; ring.
Qed.

Lemma geMixedSub_spec p q P Q : rep_ext p P -> rep_pre q Q -> rep_comp (geMixedSub p q) (P ⊕ eopp Q)%ed.
Proof.
  intros [(?&?&?&?) HZ HX HY HT] [(?&?&?) Qp Qm Qt]. unfold geMixedSub. cbv zeta.
  apply (rep_sum _ _ _ _ _ _ (fev (eZ p))); [fe_bounds..|exact HZ| | | |];
    autorewrite with fev; unfold kden; rewrite ?ex_opp, ?ey_opp, ?HX, ?HY, ?HT, ?Qp, ?Qm, ?Qt; ring.
Qed.

Lemma Extended_Double_spec p P : rep_ext p P -> rep_comp (Extended_Double p) (P ⊕ P)%ed.
Proof. intros H. by apply Projective_Double_spec, Extended_ToProjective_spec. Qed.

Lemma Projective_Zero_spec : rep_proj Projective_Zero eneutral.
Proof.
  split; cbn [Projective_Zero pX pY pZ].
  - split_and!; fe_bounds.
  - rewrite fev_one. exact (Zmod.one_neq_zero (m := p25519) ltac:(done)).
  - rewrite fev_zero. cbn. ring.
  - rewrite fev_one. cbn. ring.
Qed.

Lemma Extended_Zero_spec : rep_ext Extended_Zero eneutral.
Proof.
  split; cbn [Extended_Zero eX eY eZ eT].
  - split_and!; fe_bounds.
  - rewrite fev_one. exact (Zmod.one_neq_zero (m := p25519) ltac:(done)).
  - rewrite fev_zero. cbn. ring.
  - rewrite fev_one. cbn. ring.
  - rewrite fev_zero. cbn. ring.
Qed.

Lemma PreComputed_Zero_spec : rep_pre PreComputed_Zero eneutral.
Proof.
  split; cbn [PreComputed_Zero yPlusX yMinusX xy2d].
  - split_and!; fe_bounds.
  - rewrite fev_one. cbn. ring.
  - rewrite fev_one. cbn. ring.
  - rewrite fev_zero. cbn. ring.
Qed.

#[export] Hint Resolve Completed_ToProjective_spec ToExtended_spec Extended_ToProjective_spec ToCached_spec
  Projective_Double_spec Extended_Double_spec geAdd_spec geSub_spec geMixedAdd_spec geMixedSub_spec
  Projective_Zero_spec Extended_Zero_spec PreComputed_Zero_spec : ed.

(** C29. The group formulas. The points of -x^2 + y^2 = 1 + d x^2 y^2 modulo the prime 2^255-19 form a commutative group; on representations of points (within the limb bounds of the field code) geAdd, geSub, geMixedAdd and geMixedSub represent the sum and the difference, both Double the double, the conversions the same point, and the Zero elements the neutral point: the formulas are complete, without exceptional cases. *)
Theorem group_formulas_correct :
  (forall P Q R, P ⊕ Q = Q ⊕ P /\ P ⊕ (Q ⊕ R) = (P ⊕ Q) ⊕ R /\ eneutral ⊕ P = P /\ P ⊕ eopp P = eneutral)%ed /\
  (forall p P, rep_ext p P ->
     rep_proj (Extended_ToProjective p) P /\ rep_cached (ToCached p) P /\ rep_comp (Extended_Double p) (P ⊕ P)%ed /\
     (forall q Q, rep_cached q Q -> rep_comp (geAdd p q) (P ⊕ Q)%ed /\ rep_comp (geSub p q) (P ⊕ eopp Q)%ed) /\
     (forall q Q, rep_pre q Q -> rep_comp (geMixedAdd p q) (P ⊕ Q)%ed /\ rep_comp (geMixedSub p q) (P ⊕ eopp Q)%ed)) /\
  (forall p P, rep_proj p P -> rep_comp (Projective_Double p) (P ⊕ P)%ed) /\
  (forall c P, rep_comp c P -> rep_proj (Completed_ToProjective c) P /\ rep_ext (ToExtended c) P) /\
  rep_proj Projective_Zero eneutral /\ rep_ext Extended_Zero eneutral /\ rep_pre PreComputed_Zero eneutral.
Proof.
  split_and!; intros.
  - split_and!; [apply eadd_comm|apply eadd_assoc|apply eadd_0_l|apply eadd_opp_r].
  - split_and!; [auto with ed..| |]; intros q Q Hq; auto with ed.
  - auto with ed.
  - auto with ed.
  - exact Projective_Zero_spec.
  - exact Extended_Zero_spec.
  - exact PreComputed_Zero_spec.
Qed.

Lemma group_formulas_correct_witness :
  rep_comp (geAdd Extended_Zero (ToCached Extended_Zero)) (eneutral ⊕ eneutral)%ed.
Proof.
  pose proof group_formulas_correct as (_ & H & _ & _ & _ & HZ & _).
  destruct (H _ _ HZ) as (_ & HC & _ & HA & _). exact (proj1 (HA _ _ HC)).
Defined.
