(* ===== verification/EdRecode.v ===== *)
(** * The recodings of scalars

    slide and the digits of GeScalarMultBase (group.go) write the scalar in signed digits: the value
    is kept, the digits stay within the tables, and nothing overflows an int8. *)
From S2P Require Import Prelude EdScalar EdGroup.
#[local] Open Scope Z_scope.

(** The value of digits in base [B], the lowest first. *)
Fixpoint digits_val (B : Z) (l : list Z) : Z :=
  match l with
  | [] => 0
  | x :: l => x + B * digits_val B l
  end.

Definition is_bit (x : Z) : Prop := x = 0 \/ x = 1.
Abbreviation bits := (Forall is_bit).

Lemma bits_val l : bits l -> 0 <= digits_val 2 l < 2 ^ Z.of_nat (length l).
Proof.
  induction 1 as [|x l Hx Hl IH]; cbn [digits_val length]; [done|].
  rewrite Nat2Z.inj_succ, Z.pow_succ_r by lia. destruct Hx; lia.
Qed.

(** ** slide *)

Lemma slide_carry_spec l :
  bits l -> digits_val 2 l + 1 < 2 ^ Z.of_nat (length l) ->
  bits (slide_carry l) /\ length (slide_carry l) = length l /\
  digits_val 2 (slide_carry l) = digits_val 2 l + 1.
Proof.
  induction 1 as [|x l Hx Hl IH]; intros B; cbn [slide_carry digits_val length] in *; [lia|].
  rewrite Nat2Z.inj_succ, Z.pow_succ_r in B by lia. destruct Hx as [-> | ->]; cbn.
  - split_and!; [|done|lia]. constructor; [by right|done].
  - destruct IH as (IB & IL & IV); [lia|]. split_and!.
    + constructor; [by left|done].
    + lia.
    + rewrite IV. lia.
Qed.

Lemma shift_bit b : 1 <= b <= 6 -> i8 (Z.shiftl 1 b) = 2 ^ b.
Proof.
  intros Hb. rewrite Z.shiftl_mul_pow2, Z.mul_1_l by lia. apply i8_small.
  pose proof (Z.pow_le_mono_r 2 b 6). pose proof (Z.pow_pos_nonneg 2 b). lia.
Qed.

Lemma slide_inner_spec n b x rest :
  Z.of_nat n = 7 - b -> 1 <= b -> bits rest -> Z.odd x = true -> Z.abs x <= 15 ->
  2 * (x + 2 ^ b * digits_val 2 rest) <= 2 ^ (b + Z.of_nat (length rest)) ->
  let '(x', rest') := slide_inner n b x rest in
  x' + 2 ^ b * digits_val 2 rest' = x + 2 ^ b * digits_val 2 rest /\
  Z.odd x' = true /\ Z.abs x' <= 15 /\ bits rest' /\ length rest' = length rest /\
  Forall (fun y => y = 0) (take (Z.to_nat (5 - b)) rest').
Proof.
  revert b x rest. induction n as [|n IH]; intros b x rest Hn Hb HB Hodd Hx HV; cbn [slide_inner].
  { split_and!; try done. replace (Z.to_nat (5 - b)) with 0%nat by lia. constructor. }
  destruct rest as [|y tl]; [split_and!; try done; rewrite take_nil; constructor|].
  apply Forall_cons in HB as [Hy HB]. cbn [digits_val length] in *.
  rewrite Nat2Z.inj_succ in HV. replace (b + Z.succ (Z.of_nat (length tl))) with (b + 1 + Z.of_nat (length tl)) in HV by lia.
  assert (2 ^ (b + 1) = 2 * 2 ^ b) as Ep by (rewrite Z.pow_add_r by lia; lia).
  assert (2 <= 2 ^ b) as Bp. { change 2 with (2 ^ 1) at 1. apply Z.pow_le_mono_r; lia. }
  (* the next position keeps the hypotheses *)
  assert (forall x1 tl1, bits tl1 -> length tl1 = length tl -> Z.odd x1 = true -> Z.abs x1 <= 15 ->
    x1 + 2 ^ (b + 1) * digits_val 2 tl1 = x + 2 ^ b * (y + 2 * digits_val 2 tl) ->
    let '(x', tl') := slide_inner n (b + 1) x1 tl1 in
    x' + 2 ^ b * (0 + 2 * digits_val 2 tl') = x + 2 ^ b * (y + 2 * digits_val 2 tl) /\
    Z.odd x' = true /\ Z.abs x' <= 15 /\ bits (0 :: tl') /\ length (0 :: tl') = S (length tl) /\
    Forall (fun y => y = 0) (take (Z.to_nat (5 - b)) (0 :: tl'))) as Next.
  { intros x1 tl1 HB1 HL1 Ho1 Hx1 E1.
    specialize (IH (b + 1) x1 tl1 ltac:(lia) ltac:(lia) HB1 Ho1 Hx1).
    destruct (slide_inner n (b + 1) x1 tl1) as [x' tl']. destruct IH as (V & O & A & B' & L & Zs).
    { rewrite E1, HL1. exact HV. }
    split_and!; try done; [rewrite <- E1, <- V, Ep; ring|constructor; [by left|done]|cbn; lia|].
    destruct (Z.to_nat (5 - b)) as [|k] eqn:Ek; [constructor|]. cbn [take]. constructor; [done|].
    by replace k with (Z.to_nat (5 - (b + 1))) by lia. }
  destruct Hy as [-> | ->].
  { specialize (Next x tl HB eq_refl Hodd Hx ltac:(rewrite Ep; ring)). cbn [Z.eqb].
    destruct (slide_inner n (b + 1) x tl) as [x' tl']. exact Next. }
  cbn [Z.eqb]. rewrite shift_bit by lia.
  assert (2 ^ b <= 64). { change 64 with (2 ^ 6). apply Z.pow_le_mono_r; lia. }
  rewrite (i8_small (x + 2 ^ b)), (i8_small (x - 2 ^ b)) by lia.
  assert (Z.odd (2 ^ b) = false) as Oe by (rewrite Z.odd_pow; [done|lia]).
  destruct (Z.leb_spec (x + 2 ^ b) 15) as [Hle|Hgt].
  { specialize (Next (x + 2 ^ b) tl HB eq_refl ltac:(by rewrite Z.odd_add, Hodd, Oe) ltac:(lia) ltac:(rewrite Ep; ring)).
    destruct (slide_inner n (b + 1) (x + 2 ^ b) tl) as [x' tl']. exact Next. }
  destruct (Z.leb_spec (-15) (x - 2 ^ b)) as [Hge|Hlt].
  - assert (b <= 4) as Hb4.
    { destruct (Z.le_gt_cases b 4); [done|]. pose proof (Z.pow_le_mono_r 2 5 b). lia. }
    assert (2 ^ b <= 16). { change 16 with (2 ^ 4). apply Z.pow_le_mono_r; lia. }
    assert (0 < x) as Hx0. { destruct (Z.eq_dec x 0) as [->|]; [done|lia]. }
    cbn [slide_carry Z.eqb].
    destruct (slide_carry_spec tl HB) as (CB & CL & CV).
    { pose proof (bits_val tl HB). rewrite Z.pow_add_r, Ep in HV by lia. nia. }
    specialize (Next (x - 2 ^ b) (slide_carry tl) CB CL ltac:(by rewrite Z.odd_sub, Hodd, Oe) ltac:(lia)
      ltac:(rewrite Ep, CV; ring)).
    destruct (slide_inner n (b + 1) (x - 2 ^ b) (slide_carry tl)) as [x' tl']. exact Next.
  - split_and!; try done; [constructor; [by right|done]|].
    assert (5 <= b). { destruct (Z.le_gt_cases 5 b); [done|]. pose proof (Z.pow_le_mono_r 2 b 4).
      assert (x <> 0) by (intros ->; done). lia. }
    replace (Z.to_nat (5 - b)) with 0%nat by lia. constructor.
Qed.

(** A digit of slide: zero, or odd and of the tables. *)
Definition slide_digit (x : Z) : Prop := x = 0 \/ (Z.odd x = true /\ Z.abs x <= 15).

(** [low] is the value of the digits below position [i], of which the last non-zero one is at least
    five positions away from the next one: the first [k] of r[i:] are zero. *)
Lemma slide_outer_spec a n r i low (k : nat) :
  0 <= a < 2 ^ 253 -> (length r <= n)%nat -> 0 <= i -> i + Z.of_nat (length r) = 256 -> bits r ->
  low + 2 ^ i * digits_val 2 r = a -> Forall (fun y => y = 0) (take k r) -> 2 * Z.abs low < 2 ^ (i + Z.of_nat k) ->
  digits_val 2 (slide_outer n r) = digits_val 2 r /\ Forall slide_digit (slide_outer n r) /\
  length (slide_outer n r) = length r.
Proof.
  intros Ha. revert r i low k. induction n as [|n IH]; intros r i low k Hn Hi Hlen HB HV HZ HL.
  { destruct r; [|cbn in Hn; lia]. done. }
  destruct r as [|x rest]; [done|]. cbn [slide_outer length digits_val] in *.
  apply Forall_cons in HB as [Hx HB].
  assert (2 ^ (i + 1) = 2 * 2 ^ i) as Ei by (rewrite Z.pow_add_r by lia; lia).
  destruct Hx as [-> | ->]; cbn [Z.eqb].
  - destruct (IH rest (i + 1) low (k - 1)%nat) as (V & D & L); [lia..|done|rewrite Ei; lia| | |].
    + destruct k as [|k]; [constructor|]. cbn [take] in HZ. apply Forall_cons in HZ as [_ HZ].
      by replace (S k - 1)%nat with k by lia.
    + eapply Z.lt_le_trans; [exact HL|]. apply Z.pow_le_mono_r; lia.
    + cbn [digits_val length]. split_and!; [lia| |lia]. constructor; [by left|done].
  - assert (k = 0%nat) as ->.
    { destruct k as [|k]; [done|]. cbn [take] in HZ. apply Forall_cons in HZ as [HZ _]. done. }
    rewrite Z.add_0_r in HL. pose proof (bits_val rest HB) as Hv.
    assert (1 + Z.of_nat (length rest) = 256 - i) as El by lia.
    pose proof (slide_inner_spec 6 1 1 rest ltac:(lia) ltac:(lia) HB eq_refl ltac:(lia)) as S.
    destruct (slide_inner 6 1 1 rest) as [x' rest']. change (2 ^ 1) with 2 in S. rewrite El in S.
    destruct S as (SV & SO & SA & SB & SL & SZ).
    { assert (2 ^ i * (2 * (1 + 2 * digits_val 2 rest)) <= 2 ^ i * 2 ^ (256 - i)).
      { rewrite <- Z.pow_add_r by lia. replace (i + (256 - i)) with 256 by lia.
        assert (2 ^ i <= 2 ^ 255) by (apply Z.pow_le_mono_r; lia). lia. }
      pose proof (Z.pow_pos_nonneg 2 i). nia. }
    destruct (IH rest' (i + 1) (low + x' * 2 ^ i) 4%nat) as (V & D & L); [lia..|done|rewrite Ei; nia|done| |].
    + replace (i + 1 + Z.of_nat 4) with (i + 5) by lia. rewrite Z.pow_add_r by lia.
      change (2 ^ 5) with 32. rewrite <- (Z.abs_eq (2 ^ i)) in * by lia. nia.
    + cbn [digits_val length]. split_and!; [lia| |lia]. constructor; [by right|done].
Qed.

(** The bits of a number below a power of two. *)
Lemma bits_of_val v n :
  0 <= v -> digits_val 2 ((fun i => Z.b2z (Z.testbit v (Z.of_nat i))) <$> seq 0 n) = v mod 2 ^ Z.of_nat n.
Proof.
  revert v. induction n as [|n IH]; intros v Hv; [by rewrite Z.mod_1_r|].
  cbn [seq fmap list_fmap digits_val]. rewrite <- seq_shift, <- list_fmap_compose.
  rewrite (list_fmap_ext _ (fun i => Z.b2z (Z.testbit (v / 2) (Z.of_nat i))) (seq 0 n)).
  2:{ intros i x _. cbn [compose]. rewrite Nat2Z.inj_succ, (Z.div_pow2_bits v 1) by lia. by rewrite Z.add_1_r. }
  rewrite IH by (apply Z.div_pos; lia). rewrite Nat2Z.inj_succ, Z.pow_succ_r by lia.
  rewrite Z.rem_mul_r by lia. by rewrite <- (Z.bit0_mod v).
Qed.

Lemma byte_at_val a k : bytes_ok a -> byte_at a k = (le_val a / 256 ^ Z.of_nat k) mod 256.
Proof.
  intros H. pose proof (le_val_slice a k 1 H) as S. change (256 ^ Z.of_nat 1) with 256 in S. rewrite <- S.
  unfold byte_at. clear. revert k. induction a as [|x a IH]; intros [|k]; cbn; [done|done|destruct a; cbn; lia|apply IH].
Qed.

Lemma slide_bits_spec a :
  bytes_ok a -> slide_bits a = (fun i => Z.b2z (Z.testbit (le_val a) (Z.of_nat i))) <$> seq 0 256.
Proof.
  intros H. unfold slide_bits. apply list_fmap_ext. intros k i _.
  pose proof (Nat.div_mod_eq i 8) as E. pose proof (Nat.mod_upper_bound i 8 ltac:(lia)) as M.
  set (q := (i / 8)%nat) in *. set (m := (i mod 8)%nat) in *. clearbody q m.
  rewrite byte_at_val, Z.land_comm by done. change 1 with (Z.ones 1).
  rewrite Z.land_ones, Z.shiftr_div_pow2 by lia. change (2 ^ 1) with 2.
  rewrite <- Z.bit0_mod, Z.div_pow2_bits by lia. rewrite Z.add_0_l.
  change 256 with (2 ^ 8). rewrite Z.mod_pow2_bits_low by lia.
  rewrite <- Z.pow_mul_r, Z.div_pow2_bits by lia. replace (Z.of_nat m + 8 * Z.of_nat q) with (Z.of_nat i) by lia.
  by destruct (Z.testbit (le_val a) (Z.of_nat i)).
Qed.

(** slide keeps the value of a scalar below 2^253. *)
Lemma slide_spec a :
  bytes_ok a -> le_val a < 2 ^ 253 ->
  digits_val 2 (slide a) = le_val a /\ Forall slide_digit (slide a) /\ length (slide a) = 256%nat.
Proof.
  intros H Hv. pose proof (le_val_bound a H) as B. unfold slide.
  assert (digits_val 2 (slide_bits a) = le_val a) as V.
  { rewrite slide_bits_spec, bits_of_val by (done || lia). apply Z.mod_small. change (Z.of_nat 256) with 256. lia. }
  rewrite <- V at 1.
  assert (length (slide_bits a) = 256%nat) as L by (unfold slide_bits; by rewrite length_fmap, length_seq).
  rewrite <- L at 3.
  apply (slide_outer_spec (le_val a) 256 (slide_bits a) 0 0 0);
    [lia|lia|lia|by rewrite L| |by rewrite V; change (2 ^ 0) with 1; rewrite Z.mul_1_l|constructor|done].
  rewrite slide_bits_spec by done. apply Forall_fmap, Forall_forall. intros i _. cbn.
  destruct (Z.testbit _ _); [by right|by left].
Qed.

(** ** The digits of GeScalarMultBase *)

Lemma nibbles_spec a :
  bytes_ok a -> digits_val 16 (nibbles a) = le_val a /\ Forall (fun x => 0 <= x <= 15) (nibbles a) /\
  length (nibbles a) = (2 * length a)%nat.
Proof.
  induction 1 as [|v a Hv Ha IH]; [done|]. cbn [nibbles flat_map app digits_val le_val length].
  fold (nibbles a). destruct IH as (V & D & L).
  assert (forall x, Z.land x 15 = x mod 16) as LN by (intros; change 15 with (Z.ones 4); by apply Z.land_ones).
  rewrite !LN, Z.shiftr_div_pow2 by lia. change (2 ^ 4) with 16.
  unfold is_byte in Hv. pose proof (Z.mod_pos_bound v 16). pose proof (Z.div_mod v 16).
  assert (0 <= v / 16 < 16) by (split; [apply Z.div_pos|apply Z.div_lt_upper_bound]; lia).
  rewrite (Z.mod_small (v / 16)), !i8_small by lia. split_and!; [lia| |lia].
  constructor; [lia|]. constructor; [lia|]. done.
Qed.

Lemma recode_spec n carry e :
  length e = S n -> (carry = 0 \/ carry = 1) -> Forall (fun x => 0 <= x <= 15) e -> nth n e 0 <= 7 ->
  digits_val 16 (recode n carry e) = digits_val 16 e + carry /\
  Forall (fun x => Z.abs x <= 8) (recode n carry e) /\ length (recode n carry e) = length e.
Proof.
  revert carry e. induction n as [|n IH]; intros carry e L Hc D Hl.
  - destruct e as [|x [|]]; try done. cbn [recode digits_val length nth] in *. apply Forall_cons in D as [Hx _].
    rewrite i8_small by lia. split_and!; [lia| |done]. constructor; [lia|constructor].
  - destruct e as [|x e]; [done|]. cbn [recode digits_val length nth] in *. apply Forall_cons in D as [Hx D].
    rewrite (i8_small (x + carry)), (i8_small (x + carry + 8)) by lia.
    rewrite Z.shiftr_div_pow2 by lia. change (2 ^ 4) with 16. set (c := (x + carry + 8) / 16).
    assert (x + carry + 8 = 16 * c + (x + carry + 8) mod 16) as E by (apply Z.div_mod; lia).
    pose proof (Z.mod_pos_bound (x + carry + 8) 16 ltac:(lia)). set (m := (x + carry + 8) mod 16) in *. clearbody c m.
    assert (c = 0 \/ c = 1) as Hc' by lia.
    rewrite Z.shiftl_mul_pow2 by lia. change (2 ^ 4) with 16.
    rewrite (i8_small (c * 16)), i8_small by lia.
    destruct (IH c e) as (V & D' & L'); [lia|done|done|done|].
    split_and!; [lia| |lia]. constructor; [lia|done].
Qed.

Lemma odd_even_spec B e :
  digits_val B e = digits_val (B * B) (even_digits e) + B * digits_val (B * B) (odd_digits e) \/
  Nat.odd (length e) = true.
Proof.
  assert (forall n e, (length e <= n)%nat ->
    digits_val B e = digits_val (B * B) (even_digits e) + B * digits_val (B * B) (odd_digits e) \/
    Nat.odd (length e) = true) as A.
  { intros n. induction n as [|n IH]; intros [|x [|y l]] Hn; cbn [length] in Hn; try lia; [left|left|right|]; try done.
    - cbn; lia.
    - cbn; lia.
    - destruct (IH l ltac:(lia)) as [E|E]; [left|right; exact E].
      cbn [digits_val even_digits odd_digits]. rewrite E. ring. }
  by eapply A.
Qed.
