(* ===== verification/EdBase.v ===== *)
(** * The base point and its precomputed multiples

    The tables bi and base of const.go hold the multiples they are said to hold, and the group order of
    scalar.go annihilates the base point.  Every addition in the tables is checked by evaluating the
    addition law on integers modulo 2^255-19; what the tables skip (the doublings between two rows,
    the partial sums of the order) is given as certificate points. *)
From S2P Require Import Prelude EdScalar EdField EdPrime EdCurve EdTables EdGroup EdPoint.
From Stdlib Require Import Field Zmod.Zmod.
#[local] Open Scope Z_scope.

Add Field Fp_base_field : Fp_field.

(** ** Checking equations modulo the prime *)

(** A number congruent to [z], with the part above 2^255 folded back. *)
Definition fold255 (z : Z) : Z := Z.land z (Z.ones 255) + 19 * Z.shiftr z 255.

Lemma fold255_feq z : fold255 z ≡p z.
Proof.
  unfold fold255. rewrite Z.land_ones, Z.shiftr_div_pow2 by lia.
  apply (feq_multiple _ _ (- (z / 2 ^ 255))). unfold p25519.
  pose proof (Z_div_mod_eq_full z (2 ^ 255)). lia.
Qed.

Definition fold2 (z : Z) : Z := fold255 (fold255 z).

Lemma fold2_feq z : fold2 z ≡p z.
Proof. unfold fold2. by rewrite !fold255_feq. Qed.

(** Enough to see that [z] is a multiple of the prime. *)
Definition zero_mod (z : Z) : bool := let r := fold255 (fold2 z) in (r =? 0) || (r =? p25519).

Lemma zero_mod_spec z : zero_mod z = true -> Zmod.of_Z p25519 z = Zmod.zero.
Proof.
  unfold zero_mod. intros H. rewrite <- (of_Z_feq _ _ (fold2_feq z)), <- (of_Z_feq _ _ (fold255_feq (fold2 z))).
  rewrite <- Zmod.of_Z_0. apply of_Z_feq.
  apply orb_true_iff in H as [->%Z.eqb_eq | ->%Z.eqb_eq]; [done|by apply (feq_multiple _ _ 1)].
Qed.

Lemma zero_mod_eq a b : zero_mod (a - b) = true -> Zmod.of_Z p25519 a = Zmod.of_Z p25519 b.
Proof. intros H%zero_mod_spec. rewrite Zmod.of_Z_sub in H. by apply Zmod.sub_eq_0_iff. Qed.

(** ** Points as pairs (y+x, y-x) *)

Definition d_val : Z := fold255 (fe_val const.d).

Definition uv_point (q : Z * Z) (P : epoint) : Prop :=
  Zmod.of_Z p25519 q.1 = Zmod.add (ey P) (ex P) /\ Zmod.of_Z p25519 q.2 = Zmod.sub (ey P) (ex P).

(** 4xy *)
Definition w_of (q : Z * Z) : Z := fold2 ((q.1 - q.2) * (q.1 + q.2)).

(** [c] is the sum of [a] and [b]. *)
Definition sum_ok (a b c : Z * Z) : bool :=
  let k := fold2 (fold2 (w_of a * w_of b) * d_val) in
  let uu := a.1 * b.1 in
  let vv := a.2 * b.2 in
  zero_mod ((c.1 - c.2) * (16 + k) - 16 * (uu - vv)) && zero_mod ((c.1 + c.2) * (16 - k) - 16 * (uu + vv)).

#[local] Open Scope ed_scope.

Definition four : Fp := (1 + 1) * (1 + 1).

Lemma four_nz : four <> 0%Zmod.
Proof. exact (Fp_nz _ _ two_nzF two_nzF). Qed.

Lemma of_Z_16 : Zmod.of_Z p25519 16 = (four * four)%Zmod.
Proof. unfold four. rewrite <- !Zmod.of_Z_1, <- !Zmod.of_Z_add, <- !Zmod.of_Z_mul. done. Qed.

#[local] Open Scope Zmod_scope.

Lemma Fp_cancel (a x y : Fp) : a <> 0 -> a * x = a * y -> x = y.
Proof.
  intros Ha E. assert (a * (x - y) = 0) as H by (transitivity (a * x - a * y); [ring|]; rewrite E; ring).
  destruct (Fp_integral _ _ H) as [?|H']; [contradiction|]. by apply Zmod.sub_eq_0_iff.
Qed.

Lemma of_Z_fold2 z : Zmod.of_Z p25519 (fold2 z) = Zmod.of_Z p25519 z.
Proof. apply of_Z_feq, fold2_feq. Qed.

Lemma w_of_spec q P : uv_point q P -> Zmod.of_Z p25519 (w_of q) = four * (ex P * ey P).
Proof.
  intros [Hu Hv]. unfold w_of, four. rewrite of_Z_fold2, Zmod.of_Z_mul, Zmod.of_Z_sub, Zmod.of_Z_add, Hu, Hv. ring.
Qed.

Lemma d_val_spec : Zmod.of_Z p25519 d_val = dF.
Proof. apply of_Z_feq, fold255_feq. Qed.

Lemma sum_ok_spec a b c P Q : sum_ok a b c = true -> uv_point a P -> uv_point b Q -> uv_point c (P ⊕ Q)%ed.
Proof.
  unfold sum_ok. intros [Hx%zero_mod_eq Hy%zero_mod_eq]%andb_true_iff HP HQ.
  pose proof (w_of_spec a P HP) as Wa. pose proof (w_of_spec b Q HQ) as Wb.
  destruct HP as [Pu Pv], HQ as [Qu Qv].
  rewrite !Zmod.of_Z_mul, !Zmod.of_Z_sub, !Zmod.of_Z_add, !Zmod.of_Z_mul, of_Z_fold2, Zmod.of_Z_mul, of_Z_fold2,
    Zmod.of_Z_mul, Wa, Wb, d_val_spec, of_Z_16, Pu, Pv, Qu, Qv in Hx.
  rewrite !Zmod.of_Z_mul, !Zmod.of_Z_sub, !Zmod.of_Z_add, !Zmod.of_Z_mul, of_Z_fold2, Zmod.of_Z_mul, of_Z_fold2,
    Zmod.of_Z_mul, Wa, Wb, d_val_spec, of_Z_16, Pu, Pv, Qu, Qv in Hy.
  pose proof (eadd_x P Q) as Ax. pose proof (eadd_y P Q) as Ay.
  pose proof (kden_plus P Q) as Kp. pose proof (kden_minus P Q) as Km.
  set (c1 := Zmod.of_Z p25519 c.1) in *. set (c2 := Zmod.of_Z p25519 c.2) in *.
  assert (c1 - c2 = (1 + 1) * ex (P ⊕ Q)%ed) as E1.
  { apply (Fp_cancel (four * four * (1 + kden P Q))).
    - exact (Fp_nz _ _ (Fp_nz _ _ four_nz four_nz) Kp).
    - transitivity ((1 + 1) * four * four * (ex (P ⊕ Q)%ed * (1 + kden P Q))); [|ring]. rewrite Ax.
      etransitivity; [|etransitivity; [exact Hx|]]; unfold kden; ring. }
  assert (c1 + c2 = (1 + 1) * ey (P ⊕ Q)%ed) as E2.
  { apply (Fp_cancel (four * four * (1 - kden P Q))).
    - exact (Fp_nz _ _ (Fp_nz _ _ four_nz four_nz) Km).
    - transitivity ((1 + 1) * four * four * (ey (P ⊕ Q)%ed * (1 - kden P Q))); [|ring]. rewrite Ay.
      etransitivity; [|etransitivity; [exact Hy|]]; unfold kden; ring. }
  split; fold c1 c2; apply (Fp_cancel _ _ _ two_nzF).
  - transitivity ((c1 - c2) + (c1 + c2)); [ring|]. rewrite E1, E2. ring.
  - transitivity ((c1 + c2) - (c1 - c2)); [ring|]. rewrite E1, E2. ring.
Qed.

(** ** Tables of multiples *)

Definition pair_of (q : PreComputedGroupElement) : Z * Z := (fold255 (fe_val (yPlusX q)), fold255 (fe_val (yMinusX q))).

(** The third coordinate of an entry is 2dxy, and the entry is within the bounds of the formulas. *)
Definition pre_ok (q : PreComputedGroupElement) : bool :=
  bool_decide (fe_tight (yPlusX q) /\ fe_tight (yMinusX q) /\ fe_tight (xy2d q)) &&
  zero_mod (2 * fe_val (xy2d q) - d_val * w_of (pair_of q)).

Lemma pre_ok_spec q P : pre_ok q = true -> uv_point (pair_of q) P -> rep_pre q P.
Proof.
  unfold pre_ok. intros [HB%bool_decide_eq_true H%zero_mod_eq]%andb_true_iff HP.
  rewrite !Zmod.of_Z_mul, (w_of_spec _ _ HP), d_val_spec in H. destruct HP as [Hu Hv].
  cbn [pair_of fst snd] in Hu, Hv. rewrite (of_Z_feq _ _ (fold255_feq _)) in Hu.
  rewrite (of_Z_feq _ _ (fold255_feq _)) in Hv.
  split; [exact HB|exact Hu|exact Hv|]. unfold fev. apply (Fp_cancel _ _ _ two_nzF).
  transitivity (Zmod.of_Z p25519 2 * Zmod.of_Z p25519 (fe_val (xy2d q))).
  - change 2%Z with (1 + 1)%Z. rewrite Zmod.of_Z_add, Zmod.of_Z_1. reflexivity.
  - rewrite H. unfold four. ring.
Qed.

(** Every entry of [l] is the previous one, [c] for the first, plus [s]. *)
Fixpoint chain_ok (s c : Z * Z) (l : list PreComputedGroupElement) : bool :=
  match l with
  | [] => true
  | q :: l => pre_ok q && sum_ok s c (pair_of q) && chain_ok s (pair_of q) l
  end.

Lemma chain_ok_spec s c l S C i q :
  chain_ok s c l = true -> uv_point s S -> uv_point c C -> l !! i = Some q ->
  uv_point (pair_of q) ((Z.of_nat i + 1) ⊗ S ⊕ C)%ed /\ rep_pre q ((Z.of_nat i + 1) ⊗ S ⊕ C)%ed.
Proof.
  intros H HS. revert c C i H. induction l as [|q0 l IH]; intros c C i H HC Hq; [done|].
  cbn [chain_ok] in H. apply andb_true_iff in H as [[Hp Hs]%andb_true_iff Hl].
  pose proof (sum_ok_spec _ _ _ _ _ Hs HS HC) as H0.
  destruct i as [|i]; cbn in Hq; simplify_eq.
  - replace (Z.of_nat 0 + 1)%Z with 1%Z by lia. rewrite emul_1. split; [exact H0|exact (pre_ok_spec _ _ Hp H0)].
  - replace (Z.of_nat (Datatypes.S i) + 1)%Z with (Z.of_nat i + 1 + 1)%Z by lia.
    rewrite emul_add, emul_1, <- eadd_assoc. exact (IH _ _ _ Hl H0 Hq).
Qed.

Definition head_pair (row : list PreComputedGroupElement) : Z * Z :=
  match row with [] => (1%Z, 1%Z) | q :: _ => pair_of q end.

(** A row holds the multiples 1 to 8 of its first point. *)
Definition row_ok (row : list PreComputedGroupElement) : bool :=
  match row with
  | [] => false
  | q :: l => bool_decide (length l = 7%nat) && pre_ok q && chain_ok (pair_of q) (pair_of q) l
  end.

Definition row_of (row : list PreComputedGroupElement) (P : epoint) : Prop :=
  length row = 8%nat /\ forall j q, row !! j = Some q -> rep_pre q ((Z.of_nat j + 1) ⊗ P)%ed.

Lemma row_ok_spec row P :
  row_ok row = true -> uv_point (head_pair row) P ->
  row_of row P /\ forall j q, row !! j = Some q -> uv_point (pair_of q) ((Z.of_nat j + 1) ⊗ P)%ed.
Proof.
  destruct row as [|q l]; [done|]. cbn [row_ok head_pair].
  intros [[HL%bool_decide_eq_true Hp]%andb_true_iff Hc]%andb_true_iff HP.
  assert (forall j q', (q :: l) !! j = Some q' ->
    uv_point (pair_of q') ((Z.of_nat j + 1) ⊗ P)%ed /\ rep_pre q' ((Z.of_nat j + 1) ⊗ P)%ed) as A.
  { intros [|j] q' E; cbn in E; simplify_eq.
    - replace (Z.of_nat 0 + 1)%Z with 1%Z by lia. rewrite emul_1. split; [done|exact (pre_ok_spec _ _ Hp HP)].
    - replace (Z.of_nat (S j) + 1)%Z with (Z.of_nat j + 1 + 1)%Z by lia. rewrite emul_add, emul_1.
      exact (chain_ok_spec _ _ _ _ _ _ _ Hc HP HP E). }
  split; [split; [cbn; lia|]|]; intros j q' E; apply (A j q' E).
Qed.

(** Doublings from [a] through the points of [l] to [b]. *)
Fixpoint doubles_ok (a : Z * Z) (l : list (Z * Z)) (b : Z * Z) : bool :=
  match l with
  | [] => sum_ok a a b
  | c :: l => sum_ok a a c && doubles_ok c l b
  end.

Lemma doubles_ok_spec a l b P :
  doubles_ok a l b = true -> uv_point a P -> uv_point b ((2 ^ (Z.of_nat (length l) + 1)) ⊗ P)%ed.
Proof.
  revert a P. induction l as [|c l IH]; intros a P H HP; cbn [doubles_ok length] in *.
  - change (2 ^ (Z.of_nat 0 + 1))%Z with 2%Z. rewrite emul_2. exact (sum_ok_spec _ _ _ _ _ H HP HP).
  - apply andb_true_iff in H as [H1 H2]. rewrite Nat2Z.inj_succ, Z.add_succ_l, Z.pow_succ_r by lia.
    rewrite Z.mul_comm, emul_mul, emul_2. exact (IH _ _ H2 (sum_ok_spec _ _ _ _ _ H1 HP HP)).
Qed.

(** Row i holds the multiples of 256^i times the point of row 0. *)
Fixpoint rows_ok (rows : list (list PreComputedGroupElement)) (dbls : list (list (Z * Z))) : bool :=
  match rows with
  | [] => true
  | row :: rows =>
    row_ok row &&
    match rows, dbls with
    | [], _ => true
    | next :: _, l :: dbls =>
      bool_decide (length l = 4%nat) &&
      match row !! 7%nat with Some q => doubles_ok (pair_of q) l (head_pair next) | None => false end &&
      rows_ok rows dbls
    | _, [] => false
    end
  end.

Lemma rows_ok_spec rows dbls P i row :
  rows_ok rows dbls = true -> uv_point (head_pair (default [] (head rows))) P -> rows !! i = Some row ->
  uv_point (head_pair row) (256 ^ Z.of_nat i ⊗ P)%ed /\ row_ok row = true.
Proof.
  revert dbls P i. induction rows as [|r rows IH]; intros dbls P i H HP Hi; [done|].
  cbn [rows_ok] in H. apply andb_true_iff in H as [Hr H]. cbn [head default] in HP.
  destruct i as [|i]; cbn in Hi; simplify_eq.
  { change (256 ^ Z.of_nat 0)%Z with 1%Z. by rewrite emul_1. }
  destruct rows as [|next rows]; [done|]. destruct dbls as [|l dbls]; [done|].
  apply andb_true_iff in H as [[HL%bool_decide_eq_true H7]%andb_true_iff H].
  destruct (r !! 7%nat) as [q|] eqn:E7; [|done].
  pose proof (proj2 (row_ok_spec _ _ Hr HP) _ _ E7) as P7.
  pose proof (doubles_ok_spec _ _ _ _ H7 P7) as P256. rewrite HL, <- emul_mul in P256.
  rewrite Nat2Z.inj_succ, Z.pow_succ_r, Z.mul_comm, emul_mul by lia. exact (IH dbls _ i H P256 Hi).
Qed.

(** ** Chains of additions *)

(** The next point of a chain: a double, or the sum with an entry of the table, negated when the
    digit is negative. *)
Inductive step := Dbl (next : Z * Z) | Row (i : nat) (digit : Z) (next : Z * Z).

Definition entry (rows : list (list PreComputedGroupElement)) (i : nat) (digit : Z) : option (Z * Z) :=
  match rows !! i ≫= (.!! Z.to_nat (Z.abs digit - 1)) with
  | Some q => if (digit =? 0)%Z then None else Some (if (digit <? 0)%Z then prod_swap (pair_of q) else pair_of q)
  | None => None
  end.

(** The multiple of the base point a chain ends in, if its additions are right. *)
Fixpoint run_chain (rows : list (list PreComputedGroupElement)) (steps : list step) (k : Z) (a : Z * Z) : option (Z * (Z * Z)) :=
  match steps with
  | [] => Some (k, a)
  | Dbl b :: steps => if sum_ok a a b then run_chain rows steps (2 * k) b else None
  | Row i digit b :: steps =>
    match entry rows i digit with
    | Some e => if sum_ok a e b then run_chain rows steps (k + digit * 256 ^ Z.of_nat i) b else None
    | None => None
    end
  end.

Lemma uv_opp q P : uv_point q P -> uv_point (prod_swap q) (eopp P).
Proof. destruct q as [u v]. intros [Hu Hv]. cbn in *. split; cbn; [rewrite Hv|rewrite Hu]; ring. Qed.

Section chains.
Context (rows : list (list PreComputedGroupElement)) (P : epoint).
Context (rows_spec : forall i row, rows !! i = Some row ->
  uv_point (head_pair row) (256 ^ Z.of_nat i ⊗ P)%ed /\ row_ok row = true).

Lemma entry_spec i digit e :
  entry rows i digit = Some e -> uv_point e ((digit * 256 ^ Z.of_nat i) ⊗ P)%ed.
Proof.
  unfold entry. destruct (rows !! i) as [row|] eqn:Er; cbn [mbind option_bind]; [|done].
  destruct (row !! Z.to_nat (Z.abs digit - 1)) as [q|] eqn:Eq; [|done].
  destruct (Z.eqb_spec digit 0) as [|Hd]; [done|]. intros [= <-].
  destruct (rows_spec _ _ Er) as [Hh Hr]. pose proof (proj2 (row_ok_spec _ _ Hr Hh) _ _ Eq) as Hq.
  rewrite Z2Nat.id, <- emul_mul in Hq by lia. replace (Z.abs digit - 1 + 1)%Z with (Z.abs digit) in Hq by lia.
  destruct (Z.ltb_spec digit 0).
  - apply uv_opp in Hq. rewrite <- emul_opp in Hq.
    by replace (- (Z.abs digit * 256 ^ Z.of_nat i))%Z with (digit * 256 ^ Z.of_nat i)%Z in Hq by lia.
  - by rewrite Z.abs_eq in Hq by lia.
Qed.

Lemma run_chain_spec steps k a k' b :
  run_chain rows steps k a = Some (k', b) -> uv_point a (k ⊗ P)%ed -> uv_point b (k' ⊗ P)%ed.
Proof.
  revert k a. induction steps as [|[n|i digit n] steps IH]; intros k a H Ha; cbn [run_chain] in H.
  - by simplify_eq.
  - destruct (sum_ok a a n) eqn:E; [|done]. apply (IH _ _ H). rewrite emul_mul, emul_2.
    exact (sum_ok_spec _ _ _ _ _ E Ha Ha).
  - destruct (entry rows i digit) as [e|] eqn:Ee; [|done]. destruct (sum_ok a e n) eqn:E; [|done].
    apply (IH _ _ H). rewrite emul_add. exact (sum_ok_spec _ _ _ _ _ E Ha (entry_spec _ _ _ Ee)).
Qed.
End chains.

(** ** The certificates *)

#[local] Open Scope Z_scope.

(** For every row of base but the last, 16, 32, 64 and 128 times its point. *)
Definition doubles : list (list (Z * Z)) :=
  [[(0x143b1cf8aa64fe61587a3a4342d20b09b9c19f3375c6bf9c322d04a52d9021f6, 0x4cf210ec5a9a8883e6b5e4193288d1e7a71284cba64878b37ec851ca553e2df3);
    (0x7e041577f86ee9650060ea09cc31e1f69a15377846049335490a7a45d185218f, 0xa653ca5c9eab371f55c3dcfb5bf34face0ed4565313ed3ca94ff858a2888343);
    (0x4314030b051e293c0fe71772f6c623f552d9595bd8e6efe3ed280fbec816ad31, 0x371f3acaed2dd714d601f57fe88b30a3e108cb61033342f20a851b9f679d651b);
    (0x60895e91ab49f8d887fa8412632827b3adb5dc655a2cbf625b433149f91b6483, 0x714de12e58533ac83ff4ae942d83104498aee71d0de5cae19ffe9e92177ba962)];
   [(0x56bd36cfb78ac3627d43f49307cd55aa35d0384252c6b51c97d980e0aa39f7d2, 0x5c95b686a0788cd2a69f5645e3cc394b066d04ccca791e6a9267806c567c49d8);
    (0xad7cc8752eaccfb29001f5a3c8b05c57ef55cf1fac4173215baeb74d6a8797a, 0x5b2c78885483b1dd5e87d2b3fd564b2fda1258888f1b4309aa66bf547344e5ab);
    (0x79f2942d3a5c8143d78ac93261d57e288960823193bfa988da6d53265b0fd48b, 0x6aa11b5bbb9e039c59db910ee37aa7e6f257f9d59729e67d78e79dade9413d77);
    (0x1c3bab17ae1097178eee6e6de933290abf9d2d4e071a13c79aafb9b05ee38c5b, 0x659bf72e5ac160d925a4e62065ea5963f4dcc637d27163f7360692f8087d8e31)];
   [(0xe53dc78bf2b6d47f5e9059af33601979ab68fd988e100f73906c72aed261ae5, 0xed489b3f50d1ed60e84ed3a55bbd344feaf48ae32e71f750b70bf5d3f0af0b);
    (0x3bbc2b22d99ce282b658f27f022663f7a5b4fbbbd8d0a864a98285d187eaffdb, 0x2b67916429e90ccd601fcd0d267cc138d86dc38e72f95270d11ff05154b260ce);
    (0x699154d1f893ded9f7d4c40bd3c959bc437fcf7c88ea03fe139693063520e0b5, 0x72364713fc79963e5f3e7b33accdc0eac4a8e90248eb32dfad1054b1cde1c22a);
    (0x31bc531d6b7de992f421b2e9eddae875a2aae91e5608150af0d54e4f22ed39a7, 0x265cc261e09a0f5b48519034c1953fe9530cb525c0fbc73b822bee438c01bcec)];
   [(0x2cb8b3a5b483b03fbcac008a78eda01563137a1d7c8de80d3a4a369a2f89c8a1, 0x702d67a3333c4a81e93a47aa92df75812c9162830acc20edd833d7beec2a4c38);
    (0x1a4714cede2e767b28e57f183f90d6e43ca1205322cc809491925dccbd83157d, 0x5766120b47a1b47ce35dfb42e02e545fb3f1ef89c1cf989d59f73c773fefee9d);
    (0x7a47d70d34ecb40f99c92aed11adb147b6733181082652519b41acf85c74ccf1, 0x685f349a45c7915d87089226b8a6b104ee449e3408b4802b98bcb118a9d0ddbc);
    (0x584161cd26d946e4033d1f7870c6b0baa7059de561732e60c0accf90b4d3b66d, 0x65942131361517c639af1378f664bd012d69a4efe506d00885683916c11a1897)];
   [(0x2a887f78f7635510030ebed6f0d24ac87dbaed33ebca657623264d66b2cae0b5, 0x53b16d2324ccca79aab3995fc7d2c11e7018058ee8db2d1df8ae4d2ad8453902);
    (0x32c21b57fb60bdfb2e5111954eaa7d5761699176e13a85a4dd63589386f86d9c, 0x7b9f2fe8032d71c98347f8e68b250e96bc2d142189298f02bb0d18fd029c6421);
    (0x7301f4ceb4eae15d72a079d89d73e2b058615171f9df8c6cdc07ac631c5d3afa, 0x7093bae1b521e23f807bec7c9468d4159824ee415ed508242ed227266f0f5dec);
    (0x681e3351bff0e4e2c522d02e7bbfcdb72254ae83d22f78436eccd85278d941ed, 0x20a365142bb40f49232fcf25c593546d5005093537fc5b51d531b8bd2b7b9af6)];
   [(0x519ef577b5e09b0a58e2ea8978b5fd6ec384f0afdbb1747e09d4b60b2fe09a14, 0x2bc24e04b22122869d8e2ed12a0c754004f4cd5b4fbfaf1ad550095bab6f4985);
    (0x7fa00425802e1e683b5d9567a98c196e18947cf181055340d1ab324e1b3a1273, 0x5f6041b45b9212d00753702d614f42b0de06e1db692ae16a4bcef17f06ffca16);
    (0x680d04a7fc603dc3118b2dc2fbc08c26e6bee5dcd0e86de73241c00e7d65318c, 0xd07daacd32d7d5da3148fafb9c1c36d1508722628208bee8416ebd40b50babc);
    (0x61d9b76988258f816512ebf7dabd8512900b0409b946d6ae5e2702878af34ceb, 0x34cebd64b9a0a22363df3f81d1765a894b93fbd05368a5dd46d46280c729989e)];
   [(0x72de6c984a25a1e40c4a762185927432d7e0e507862f74ce315c29c795115389, 0x720814ecaa064b726eb632dc8abd16a28b938270db7469a3e2790aae4d077c41);
    (0x79d995a8419334eeab6c52bc636fdd8615a7a27e98fbb296f5396425b23545a4, 0x3b3c833687abe7438a71420e0b797035e3724edde19e93c54d572251857eedf4);
    (0x30376e5d2c29284f2dc94df6424df6e401581b7a3fabd7178b3172b7ad56651d, 0x1e3a5272f5c0753c83604432238dde87736e412f6132bb7f5f0601d1cbd0f2d3);
    (0x119dff99ead7b9fdb7021ba75f3f8d52c6b0c46e6ef41a28ca651e848011937c, 0x5d55f8012cf25f384d20e5b1d00afc075192d5d008b0ad73e7a254db49e95a81)];
   [(0x42881af2bd6a743c4b09e1ed2c99a1fa0eb955a85217c771d91430e0dc028c3c, 0x140345133932a0a268441d72e14141f499aeed3e154d04f2caf55ec27c59b23f);
    (0x5265ac2f2adf95921f8f24fa1112270333dad6ef370aa8777914892847927e9f, 0x11b065a2ade312335da385110692ac244ac5938cd10e0266781a439e417becb5);
    (0x1bcfde61201d1e76a06351375f77af9bda096a51fea8f5495b97946582ffa02a, 0x6976c7509888df7b62962b8b9a402cd983f438d4b6a369c397c749eeb701cb96);
    (0x76627935aaecfccc948ac7810d743c4f0ad6f3cee9a78bec9624778c3e94a8ab, 0x6e2a7316319afa28f870c6b7bd487bdebefc048590e0ffe33d420811d06d4a67)];
   [(0x2c435c24a44d9fe13004806447235ab396cb929e6b686d90299b1c3f57c5715e, 0x48ea295bad8a2c07e222fbfbe1d928c5256dc48cc04212f247b837f753242cec);
    (0x1b6cc62016736148775b7a925289f681757f1b1b69e539521cecd0a0045224c2, 0x57369f0bdefc96b6d17c975adcad6fbf4baf8445059979df8487e3d02bc73659);
    (0x73d86b7abb6f723a00e7d4ae8ac805927fe2b5109eb63ad89a6ce876760321fd, 0x3ba2504f049b673c9a498330af74181b15801004e2663135e1f6b79ebf8469ad);
    (0x59aab07a0d40166af33ae4f552a2c8b43b084cfe2f53b96514fd6dfa726ccc74, 0x3aa1d11faf60a4d861e96a8042f15ef4f9c6f635b26f1beedbdae701c5738dd3)];
   [(0x5ffb9cd6082dfeb01667267a1e93597f6a330476a27c45186c5fc16861b7e9a, 0x403a395b53909e62ae64b9004fdd3c75366ad9dd99f42827216ab2ca8da7d2ef);
    (0x39d0003546871017f0b35da8c81af9c64ae4f19350c67f2cb89c444879639302, 0x50a2f7dfd447b99a6bfa45822e1a9405f550e7ed2414e1f0b39d761b02de888);
    (0x5293b1730437c850147cdf410d4de6b7e603d8815df1459395265514d71eb524, 0x6528e42d824601732869b96a05a3d470d7a0b145aa372b60f2a7af510354c13d);
    (0x26c20fe74d26235a8d18b427758559f6b99f55778a4d1abbbb40a859182362d6, 0x730291bd6901995a17202acfd366b6b2ed377b799ca26ded5a91d1151039372)];
   [(0x4f620ffe0c736fb97dff85d87f90df7cf22552ae5bf1e009ff91a66a90166220, 0x507903ce77ac193cf471bf39b7c27a5fa750fe8580ab5938b496123a6b6c6609);
    (0x4180512fd5323b26f02ea1c9d7b65e0d56a0d241812eb1fe2c7c4415c9022b55, 0x2f9faf620bbacf5e7943c8c495b6b1ff0eb1b9c1c1c5795dbd68230ec7e9b16f);
    (0x854fc44544cd3b2660c572e8fab3ab59c7531555c3e34eeee0f0fddd087a25f, 0x3d4e8dbba668baa696ef5329c7e899cb53623cb0f8341d4d1616a4e3c715a0d2);
    (0x28dd4abfe06404684b84abac1930c7507cb5697e11e14f15b0c53bf73337e94c, 0x1d753b84c76f5046d4b37b27b1cbe278ca123c21bb3f830b6841435a7c06d912)];
   [(0x478d99d9350004f232dacaa0511229412ba851bea3ce36719532f48fcc5cd29b, 0xb251172a50c38a2cc34a7f05bbb4be7e82fef94e53a0e29fd0d75879cf12657);
    (0x6bbc7cb4c411c847e873943da025a516d75d25a5378621253ad3e3ebf36c4975, 0x5265797cb6abd7847ef6de304df42cb43f77e6f7979f0dc8e3828c400f8086b6);
    (0x7c77897b81439b4777ef5569a9b1232798ca78abc02912300d8d2909e2e505b6, 0x3a6b259e263ae002cb5c5b85df10ece62866eee21211f58a2b6812b1cc9249d);
    (0x241d350660d32643e1c681f4c1163b5b7b5a52a2116f8ec702cde6de1306a233, 0xe434b3b1f499c8f00943eac2581b02ebc470c5f5a05060d14722af4b73c2ddb)];
   [(0x39c80b16e71743adef5c9525ec9cde7fc4c7132b81c616757b26e56b9e2d4734, 0x3a73b70472e40365a56fe104c1fada960cc45aa41c0679597afcd613efa9d697);
    (0x5da8acdab8c63d5d1ad40f095e67ed3bde0b1361e881c05de332ced43ba6945a, 0x7bb51279cb3c042fc75e33c740d6c71b22e6f55d95f2dd9d196c80a4ddd4ccbd);
    (0x5c294d270212a7e5b5b6ee0c41cb1aeec649dbb069482ef233bef2bd68bcd52c, 0x1b4822e9d4467668bacccebc0f189d56c9118e82206457174e3dcbdad1bff7f9);
    (0x5cb7173cb46c59eb37e7a9b4d55e1b89faf24948d67ceae1960e737b6ecb9d17, 0x1f354134b1a29ee74cea314087d64ac93849e8d499c1238346ab13c8347cbc9d)];
   [(0x7b9b1fb5dea1959e076353d40aadbf45e3bc096a9c82bad1f68fe2e8809de054, 0x68aee70642287cffdef7aaa8ea31609f054442883f955bb7dfdacbee4324c0e9);
    (0x3619b5d7560916d83c619f0b87a8bb19a8ded2b6e454ead3bf019cce7aee7a52, 0x6b8341ee8bf90d58ccd2ca913d21cd0fa8da8a9a85624bb7fac5d2065b35b8da);
    (0x270a0b0557843e0c46d602b0f7552411dbfb2385e9c3d539d6d70996f12309d6, 0x14ddff9ee5b006592f16a6a38309a969d1afdc258bcf097b751a50b9d85c0fb8);
    (0x5507d7d2bc41ebb473bf9f455e8e351f4ea37689e78d7d58d594b3333a8a85f8, 0x48f9dbfa0e9918d34caa800612a9a8d5632fe8a0d61f23f4dc84e93563144691)];
   [(0x1819bb953f2e9e0da6e3ca115af229724a1c5e2477bd9fbbf7c0a19c1a54a044, 0x4065947223973f035337653b8b9ea480dbd42ea046a4e27216faa8fb532f7428);
    (0x77d221232709b339df3cda102255dfac45ba803260804b17c8d69d0a57274ed5, 0x4472f648d0531db4c9240afee42284defd9be89e34348716d60ecbb74245ec41);
    (0x185cba721bcb9deeaa074dddf21d33d365f8f7a449beab7e2d5fa9855a4e586a, 0xcde561eec4310b9512d11594e26cab199dbff8a9e22fd928dec31faef3ee475);
    (0x28bc77a5838ece00e5ba8ff53a7852a77c21b5566b2c6e533b7f3bd49323a902, 0x35f63353d3ec3fd0e3effdd01b5505a5e8d518e70edcbc1ff6be021068de1ce1)];
   [(0x53177fda52c230e6de9391aacadffecb962e4325f85a0e9e81aebbdd2cd13070, 0x3cbdabd9fee5046ede2a2572e7a38e432a4bb87ca8b4df34591e4a5610628564);
    (0x79d99f946eae5ff8e20e84200d89bfca9bea41d2e9b46cd621c9d9920d591737, 0x6c11fce4cb1332824464ee12e459f3c2758094a186ec5822d9354df64131c1bd);
    (0x5468d6201405b0437950934d8116f451ef96306b9bccc8707242eb30d4b497f, 0x47204d08d72fdbf9ac8d0a9b23e990aee210adf6b0fbc26a535fd60613037524);
    (0x1876789117166130d0708c1339fd87f7abf894d3c9a934b5b4f23c425ef83207, 0x5dd996c122aadeb344328ef842e7b42b69cffc96651e9c4ba2b072e95c8c2ace)];
   [(0x2e05d9eaf61f6fefa535a456e35d190fcc0b9ec0cc4db39fd67cded679d34aa0, 0x6409010bea8de75a25cffc2dd6dea4532127190385ce4cf9b2a426e3b646025);
    (0x50b8c2d031e47b4f89f293209b5395b5cb70d0e2b15815c916c795d6a11ff200, 0x487f3f112815d5e07f35715a21a0147aad75b15e4e5018986809e7007069096);
    (0x2857bf16275008614c45306c1cb12ec7410276cd6cfbf17e00d9cdfd69771d02, 0x7b7c242958ce7211d2a541c6c1da0f1fbb12f85cd979cb496b0b697ff0d844c8);
    (0x4b5303af78ebd7b02d3989bc545f0879660d06b896203dba1530653616521f7e, 0x8af9d4e4ff298b9e7426ed7a2ea2d3fbad34540fcb6093df10d3c29ce28ca6e)];
   [(0x7bc92fc9b9fa74ede027b34f1bad0249df2b9e60388b4995529fdffe638c7bf3, 0xaba390eab0bf2dab0721d71d0850050a3c31a20e085c1450c9c5303f7957be4);
    (0x232ca21ef736e2c829eb29ce7ec544e1eb9ca6257a4849dbee9ba729398ca7f5, 0x741d1fcbab2ca2a5937e1a2617f58f74a4286bec82b34c1c48b2ca8b260885e4);
    (0xd6592233127db161734a1d70d5f7c9b411fd93efad1b8b77be44ce7a7a2e1ac, 0x97b0bf22092a6c2f0d73c2bb93a9ef3ee805bcf648aae45ff35f5cb9e1516f4);
    (0x4a0aff6d62825fc8f1f24cc446978f9b724bae854c08dcbe4433c0b0fac5e7be, 0x6a704fec92fbce6b241cd1d679bd3fde7f42ed71a847b9ec36d9b8de78f39b2d)];
   [(0x2633f1b9d071081be1bbec521f79c557e15cb4aa4b17ad0f0de9b204a059a445, 0x74f46e69f10ff8cadd9f24bdd5deadcb0c04422d3b934d453175a7205d21a77);
    (0x38b6898d4c5c2d09470480eaa06ebef9863337f98d09383feeae106e8e86997, 0x382e2720c476c019edb52fec8d3454cb0960f3972bcac52fa515a31b2259fb4e);
    (0x2d8b78e712780c685848e1e6ce5c0b9610b953dd0d86a53d59a16676706ff64e, 0xfb17f9fef968b6c8f7baa8a86fbfe7bbe1baf910e9412ec9c9c85ea63fe2e89);
    (0x5a845ae80df09fd5cfba639a858954479cc9a61d06c08df25c3cecb943f5a53b, 0x97c29e8c1ce1ea56ef5967653fcffe76d4c6bb87fd1cda21d06005ca5b1b143)];
   [(0x28a7c99ebc57be52303001fcce5dd155f9c189af1fb9bdbe1ea436837c6da1e9, 0x4559135b25b1720ce09a0e3791937bcc30cb610d43ccf30888bd438cd11e0d4a);
    (0x307a3b41c192168f066fcc11104222fd66ed42c241e301df33912553c821b11d, 0xf7a7fd1705fa7a3e3725a6e80af8c794a43b3b35b203a020dae8767b55f6e08);
    (0x5846a27cacd1039d31385b03531ed1b753cac6d9865cddd70fff04fe149443cf, 0xf513815db8b5a3d3f622fed00e188c48145457cff936988f3da5139a5d1ee89);
    (0x46e3a616bc89b9e000ae3049911a0bafbf8fd1c8ace2e376a2134bcc4a9c8f2, 0x1e6c47b3db0324e5486d2b258910dd79a01a9bc53c710e114630119e40d8f78c)];
   [(0x22a48f9a90c99bc9bbc7a670345796de2a1c770a8e60f098957b8b8b0df53c30, 0xe545daea51874d9ba4190e2c3c7e0846c2fcb99c63c2a944c59023fcb3efb7c);
    (0x60525513ad730f150ba2ac649a2a17f77128347afb02b55748515a8bbd24839, 0x14d23dd4ce71b975f8064056f4dabc69f81e1bd58405be5020ad660839e31e32);
    (0x33cb966e33bb6c4a00c052e5996b110225e49c405477130c253f4f8dfa2d5597, 0x624a170e2bddf9be5b82c0ae4e70483c9f0e16ee5897c73cb204585e5edc1a43);
    (0x3420d60b342277f97223c98a31283b65219429b2e22034b4481875c6c0e31488, 0x46002ef03a7349bea040a4a4772c2070729d2ca1af318fd78337d9cd440bfc31)];
   [(0x5786f312cd754524412f7e9968a01c89af8f9862b268fd65358ecba293a36247, 0x4929c6f72b2ffaba56e89052c1ff734dc64bdd6ea0c97263b5a2d50c7ec20d3e);
    (0x78a1531a8b05dc53614ba0a5aee1d61cba4c2e1a4f5f6a43413ba057a40b4484, 0xa37c37075b7744beefd595325344402e13e9fab60c3f1bb0ff853852871b96e);
    (0x2852709881569b538323dec8161974382470c8ff933225269d05ba7d43c31794, 0x2fd9ccf13b530ee2b1e35b5fd40290b155b2c97f512b636ec720cb6153ead9a3);
    (0x74071475bc927d0b0a6de44ec3a4a3fb817fcc7ded6c0af21466f5af5307fa11, 0x1f699a54d78a2619ed2995ff36b70a360611d7253fded2a08c99cc5a8b3f55c3)];
   [(0x933f804ec38ab40658c07f4eace22732b65ce72c3286108852dd1fd3d578bbe, 0x413051e1a4e0b0f55da87aa04795e4412c7fba5d4442454ef19aeac733a63aef);
    (0x14afa0954ba48f48a13ac2e378250e4f281b229944882a5304211559ae8e7c3, 0x1c1e5fba38b3fb23fa0fc9d6416a378117029a4daf60b73fc8583c3d258d2bcd);
    (0x53c092084a485345324a983b54cef201808c69233c351026b5f16b630817e7a6, 0x1e7fbcf18e91e92a199a3776a4f573be468b878df242029796324edd12e0c9ef);
    (0x1d1b056fa7f0844ec4fe3b122f823deb2370cfa19a619e69a03fc862059d699e, 0x7fa3f19058b40da15651735f8f15e562faef33794f6f448673f93d36101b95eb)];
   [(0x1fe8cca8420f49aa41f7247015af9b781156aaa99fd54a298ce5aad0c9cb971f, 0x80dbafe936361d8b0ed13925c8b4ad840536e169a317409f65c5ea200814cf);
    (0x822024f8632abd7977182561d484d858db2b2b6e36fd79358e84c6f20816247, 0x114d578497263b5d2c38cb97be6ebd5c9b93a8672fc2d8ba899dea51abf3ff5f);
    (0x4099ce5e7e441278d1f10eeb3603cb2e769f4beedc308a94a57ba4a01efcae9e, 0xaf51d7d18c14eebee90e500a48426ac4cd4b4962361cc0cd63d8483ef30c5cf);
    (0x1c14b03eff5f447e3a4f9692bae1f4e4f9fab7a37d586eed8e793a7acc36e6e0, 0x1de443df1b0094080ca77b4ccf1508591b30b4c6da512664a311ddc26b89792d)];
   [(0x51fc2b28d43921c0b0e5b13f5839e9ce993580d4d8152e65745f9d56296bc318, 0x44c218671c9742878d5cfe45b941a8a405d270d6109abf4e7906ee72f7bd2e6b);
    (0x5f4c802cc3a06f42c2b620a5c6ef99c4736b54dc56e421516b7c5f10f80cb088, 0x2d292459908e0df92554b3c854749c87d841c0c7e11c4025dff25fce4b1de151);
    (0x246affa06074400cb8248bb0d3597dce8cc15f87f5e96ccacd54e06b7f37e4eb, 0x304f5a191c542767f3d43e8c7b2490527176bcd5c7ff29d796dfb35dc10b287);
    (0x80153b7503b179d549e1e4d8bedfdcc8db7536120a1c059cb5a7d638e47077c, 0x510e987f7e7d89e2e86e365a138672cad03fcbc8ee9521b72746dd4b15350d61)];
   [(0x55be9a25f5bb050c7b8591bfc528d59931de0f433a6607c3fb735ac2004a35d1, 0x32239861fa237a409baa8e1cc6aa2cd0b1e035093bf420bf3f50a50a4ffb81ef);
    (0x16bedd0e86ba374e5f0169297881e40e2207659a3592ff3af1d3b681a05071b9, 0x9a6755ca05603fb5d22749556a6495cc06302ffbc7939378451f9e05e4e89dd);
    (0x22c5b9284662198b035f73a4a8bcc4ccafec33d96a09c8806f2b3be4d5d3b002, 0x656d8997c8d2eb2b33193026501fef7e4520b71f8b25b32d49125c9cf4702ee1);
    (0x3f2602d4b6dc32245edad6eea35373816cb00ee8ad37a38bb43108e5695a0b05, 0x215d4d27e87d3b68c1a72d020aa48b34eab2aa12decda59b21bb41c6120cf9c6)];
   [(0x606175f6332e25d2c6409d99f53eabc669e6a2d7d2f8674604dbbc17f75396b9, 0x49128c7f727275c930738c9cf151316db62658e24179a88d738b38d787ce8f89);
    (0x1f5ec83d3f9846e2b1cbcd50cc5236a6fbcd6ea198fe352b1da1965774049e9d, 0x42889e7e530d2e5824f3ef0959e33cc46c3a760edbfa25ea96cd5640df90f3e7);
    (0x48c8a121bbe6c9e5961e32405e08f7b52dbb1f8c3efdcabf9c13a6a52dd8f7a9, 0x35ff7fc33ae4cc0e79ac432370e2e652e3df9e993399ebdd0a64e28c55dc18fe);
    (0x4b16281ea8791e7b342f824ecd02563271435e206fd13746e57ed8475ab10761, 0x3c5e464a690d10da788286306a9242d9421da5000d1d96e184c5aa9062de37a1)];
   [(0x3d88d66a81cd8b708b67d958b378d262c5f6997be75d607b1e6284c5806b467c, 0x71ade8bb68be03f5c1ff7326aded81bbdf7191b729297a3acbb5b5556c032bff);
    (0x6d6d9d5d1fda4beb0ec276a6874793244d7adc75aa578016fce219072a7b31b4, 0xa5d94969cdd5fcd77dcb07773cc32f626457d6dd4736092e05da1a7e1f5bf49);
    (0x1b9438aa4e76d5c6e88c6620817f13efcba3635b842db7eebeaece313db342a8, 0x2dddfea269970df72da53be58ccdbc3e5e20741ecb4f92c5f6c968731ae8cab4);
    (0x2fe934b6ad7df0d82317dc4fade85ec66660245b5ccd9a6bdc1409bd002d0ac, 0x8eab1148267a4a815b083663c787a60f88c766af463d143aea8b07fa902030f)];
   [(0x6e2b7f3266cc7982816045c3d195a086cd656769716fd5c801c18980c5fe9f94, 0x3305354793e1ea87ced59285f3fbc7b7ec4c348fc987f0c4e9dcd756b637ff2d);
    (0x6cab6ac256d19c1d058930072604e557580f893e18f4a0c287f82cf3b6ca6ecd, 0x749a098f68dce4eab76c23d242838f178e5d4c3c4eaf031ac4c2a74354dab774);
    (0x5278c510a57aae7fef4aa79ba45448b64c98afc4f285940e4493896880baaa52, 0x2c84e4e3e498d0c5d53078233894cb28b78e00498a1fbf512550d37f42ad2ee);
    (0x4400b638a1130e1f24a0a1af89ea664e2a2013c7fc28c46b1215505c0d58359f, 0x37130f364785a142e587ff910114db882b0b6fb72184b7820c1ffea44f901e5c)];
   [(0xe378d60696155799574e091f820979a8753189047efc8dfaf44842db0285f37, 0x4309c1f8cab82bad7b1ff677f093c2222b501131a12bb1cd300a9035393aa6d8);
    (0x272630e3d58e00a93aa244067eace91344775dec2d4c3330e2004b5bb833a98a, 0x5df98d4bad296cb84f17c951257341a3134636dd1e9421a187dfbd1428878f2d);
    (0x5d8b0d2f3c859bdd499fbe88a6f03f4fb04a1eeafe4719c6185d43f89e92ed1a, 0x52e085fb2b62fbc0b65b04f06b5d1fe3aeefffe23e3df161bfd4e13f201839a0);
    (0x56e6c439ad7da74886a12b852f0bfd20ca2d4aaed62708721d022591a5313084, 0x3b0e574da2c2ebe8b7f88dca5d9cad071624c348b35ff244cbac84debfd3c856)];
   [(0x15f18fc3cd07e3ef33540f80e0b67a726a0b06c12b4f3ff4c11ee5e854c53fae, 0x63ab1b5d3f1bc1834af01ca700837e290f9abeaae6f73ddfe7547449bc7cd692);
    (0x5fba433dd082ed00b9ef494db7cbabbd243b9c526f9ac26bcc991b4138b41246, 0x48b46beebaa1d1b98e49e035d4ccffca1a8c6a2d80abc617f37ca2ab3d343dff);
    (0x5a71945b48e2d1f11d0e8463850c369971b177cc0b98369e3bd82dbfda777df6, 0x2617e120cdb8f73cec2fb0d9ada957346c6663d9c4ad2b538497404d0d55e274);
    (0x5fca747aa82adf18090820304b6292bec2d4a2032b64cee028302e71630ef9f6, 0x17377bd75bb810f93ea732dc21858dea3e50f49f1651be017eb9efb23fe24c74)]].

(** The additions of GeScalarMultBase for the order, 35 of them. *)
Definition order_chain : list step :=
  [Row 0 (-1) (0x44fd2f9298f81267a5c18434688f8a09fd399f05d140beb39d103905d740913e, 0x7cf9d3a33d4ba65270b4898643d42c2cf932dc6fb8c0e192fbc93c6f58c3b85);
   Row 1 (-3) (0x348d4e60634fce6f684f3607a2de050e284a7047b8b0bfbfa24f81bbe24afb16, 0x58d6823af28389e12a3feb15a983eba67a7de8ecedbb3202685cae441d3d1d9);
   Row 2 (-1) (0x3369a4ca8279a930a3328df86799a632dfc0c9baa45ff6298ad89e3dea1e83c1, 0x486209e6ce2cff1c7e275e9f05b38f9646dcf706970803b74b4ad63886ef62a6);
   Row 3 (6) (0x7ebebb52c669f80d9224859fc4824c039ac376cf9b1371c392985b6e44e565c8, 0x33fc4ff4b24b4bd317d2691205ac07b37263dac4f8d7e02c9589bbcd948d56e2);
   Row 4 (2) (0x5d75e69e2328e831da0f307b4c8d5f7025856b8d2327784e2c66684847d1bbba, 0x299a729ac3bbcaa69c251715985746fa7503f87c3e23eec3a7416cc365010fba);
   Row 5 (6) (0x6751b26b6b3aef3c5df1c32051b3d9a728b8ba347c14e0afd0172f2863db0ce0, 0x6771346ac7ca5ed65e554e78ec092eb1f903197ca6968d180fd5b7f7e847b992);
   Row 6 (1) (0x64b1a4aaa3b9591bd4dd505f14d0b809c7d9a1418f5b8a01eed619f074f9b048, 0x721a90bc4938b5fe997e86af6f419d0d80b96b5703a5fa224c7786288c6ff4b9);
   Row 7 (6) (0x3d8e0119ac4ec6af71f873bc6433a91c8f4c6d02c81f6e3228ea33213e8e43ce, 0x41268140c929e041a956c2e0f6b8a14ae9a15d2fa4caf3456fbe8a1eba081843);
   Row 8 (-3) (0x6dcf0288b010787a83884d90947ce1a6252d64724e6c56c7ba88fe676d598c6b, 0x7f163b645cc809c356acf96dc0c46fa0f1bd1f2bf52c5f74db605e17512ed3a7);
   Row 9 (-6) (0x4d34414c746c21bf7e6b7da2aab716e45568ce6f18a848539abeaf8cb4a58436, 0xe50f3e4db049dab888b3e1a93ebc49e76ec2ffcf2c1ea59782a6e05e1ba15c8);
   Row 11 (-6) (0x44c8479e53130d3ab1b1cb4fb52f0179da2a3370bb43b46556fc8dd8abd3114, 0x28e924965c7829ebfaadf6a0e057f06c4a9349a67a80e5cb0f8a6275daa4f281);
   Row 12 (-2) (0x5d638a50b07c4cd14a18cd38553a0758accd142918edc61d9294c5c8d671fe32, 0x63f9f2ed2ddeb2822387bfa744e93ca316d45ddc40a44b0242a8232e6afe4d6c);
   Row 14 (-2) (0x6173d32d59aefea174bd70e0a62b163008c54bec43f17f6e7d33b9f49d350529, 0x2e43eac637c1dada2a69715b8bdf625520aca3617d7fd8e6bc7e911f8f9819ea);
   Row 15 (1) (0x639c1a03d6382d0351165910f4dbbc44062e9c5d9123a971cca037312461e546, 0x2101013396d1366add00703f0e21f8492fce173340b37b2db657435c70b47a55);
   Row 31 (1) (0x7ff0f22d227fb15edae330c408cde94e9178f3fafd7e7e9b5259a8219d80fbb1, 0x1b5371bfe456ccca79a1ab37789a2f301e2c73e0bc889f0a5bf9cf31523cf99e);
   Dbl (0x766522ed0ba3d6d8f45e3a8048e35bb4b7b9ca08188a6658bb434e9fbecd0a50, 0x8d0f2c13bbbcfe7a6d92dc2e2a0a9468001d0cfeee2a4960bb7d663443f890a);
   Dbl (0x15d6861ceb72fe379871e46a3328fa22b4b244b5f5c3d8b8c9ef62fbe0a4464c, 0x52553dbd8f07720d3804a2f85caf198ebce672ad7f0aab2735084c32a5caccd9);
   Dbl (0x2c83fe6baecb056d197160d07e30f345af3c97313b2aed2587f4c2e93b362a65, 0x3632d392d8754ee059d7fa1132c8a324ac2217e2c575e88084586571ad0ac59e);
   Dbl (0x2a3a6b31b3be3460ce1eaf45891c78a5a61a3b0e2dbb15043b96adf4389d3c31, 0x19eb117e2e5cd41b049d6446ec80919f6189548566c9c2beb6ce4608b0de8d94);
   Row 0 (-3) (0x6ece787025611f593302d2cdf67d14ae73165066de3ef52c9a69228be2f8808, 0x3373b3c074dfcf6a57aa59412c4291d7e8b6178bbe53eed314529cba28d1f1b8);
   Row 1 (4) (0x30958ffd012491cd529a9cc4de0f0f670fbb23aed6d44e0eb8b58cebb811ff6d, 0x7ac8d902bfdadab75e4841fbae99f05393d00271f8487c22f0a43ea0ddd56c17);
   Row 2 (6) (0x459ba07bd40f305dd8fe0c56b72567fcd225ffb6f6527284c7a708c46b5dfe04, 0x4f40f00e56bee48c743e3dde73f597c2794dd1f73bd0a401bc33a02221032a63);
   Row 3 (-3) (0x7df74da40a9f18e387febc84e670f848d0a606e3cc7f50bd0118948a97735fad, 0x6273b1a34aaafd6948e301a5c8993f32ae0dff484c05c717f92532b445245384);
   Row 4 (-6) (0x609415beb920a99af651019ac715af23a343317d4d8f5e23c3cb4e988839eaec, 0x1c8a1615fac8411800e1da7aa26c4e4d404278472f7e8fd022519df96ce077b7);
   Row 5 (3) (0x611c7c879e8ba1aa3847b52a3149b0d19b033ae3ab4eb5e92ca61cabaebb7a45, 0x1953dcb0b6a7584aac7dc763344a0d8dcb1b7008421d340554c7c73f12525fea);
   Row 6 (2) (0x1c71c2a6dc28122be9483cde56be14fbe3065d43d032f20f7d094cc8b97ef1d3, 0x46dcdc07ddef6ea6661e921c9d43f42733a43bd829abbca1b8602d744d37040a);
   Row 7 (-8) (0x3697e02937a8a6e09f2b91d8917999a55ed4cba0a5256d388aa0913f5b4e2020, 0x4255ef018822ae18c2aa214f8399a91cb28ec0f9a0d921aa7e37b3a1d625d2b3);
   Row 8 (6) (0x1c4ce3874af5d5d26bbe5ab8fd5666218cb44dcd62a88f2066e9334307c2e173, 0x42058ba95149ae3e0f7a158446adfac968a6d74d41e941dedd11fd978c6e6bfb);
   Row 9 (-3) (0x273ad2928e24832a9c3ce10cd40bfd65bf6fdc3e7a4f8aff951e2b0e8c89bd41, 0x19cac769c53c8530a8945699efd0daa7a69bc20361f5b25e814837ff136a75c);
   Row 10 (-8) (0x3eff06d58a0a80bc9b9b7a99486e6f0a00a3a1e8156cf87f7cb34a0a19463444, 0x7e1b624a1033ce7ec9e356242c6cbfd95bc4bd61e831b14143963ec4218c16f3);
   Row 11 (3) (0x432fcb7d1df9744eb30068b3af8e40f4e29bf35d5b5c9936e42c6b50b228439f, 0x533db78b6e30202b7fe9499d8129ca6364125713116dc7f3dee797c749aa9f55);
   Row 12 (-1) (0x85eca687455d8b0d63d583701911828557de5905b74ad4daf3ee31eca2a4e66, 0x2dcca35c59243a3f869dba7691654cbf9c0eb4df42a585b6459fa72979652ad0);
   Row 13 (-6) (0x1123ac5ca137b0b74a899516099510c01c8441dfd6a44bcada6b1bbff6c6e551, 0x772eedf752d9d736f85998409d65d72eba45a7fc5316756dc660cf72cf2b30ba);
   Row 14 (-1) (0x2078684c4833c6b4355eef24ac47eb0ae63bd7d8b2618df082d2da754679c418, 0x6c668b4d44e4d39015257390cfe12fb464c2ddceef03588f23d9533aad3902c9);
   Row 15 (5) (0x1, 0x1)].

Definition Bx : Z := 15112221349535400772501151409588531511454012693041857206046113283949847762202.
Definition By : Z := 46316835694926478169428394003475163141307993866256225615783033603165251855960.

Lemma B_on_curve :
  EdCurve.on_curve Zmod.one Zmod.add Zmod.mul Zmod.sub dF (Zmod.of_Z p25519 Bx) (Zmod.of_Z p25519 By).
Proof.
  unfold EdCurve.on_curve, dF, fev. rewrite <- Zmod.of_Z_1, <- !Zmod.of_Z_mul, <- !Zmod.of_Z_add, <- !Zmod.of_Z_sub.
  apply of_Z_feq. vm_compute. reflexivity.
Qed.

(** The base point. *)
Definition B : epoint := EdCurve.mkPoint _ _ _ _ _ _ _ B_on_curve.

Lemma base_rows_ok : rows_ok const.base doubles = true.
Proof. vm_compute. reflexivity. Qed.

(** bi starts with the base point and goes on in steps of its double. *)
Definition bi_check (bi row : list PreComputedGroupElement) : bool :=
  match bi, row with
  | q :: l, r :: r2 :: _ => pre_ok q && bool_decide (pair_of q = pair_of r) && chain_ok (pair_of r2) (pair_of q) l && bool_decide (length l = 7%nat)
  | _, _ => false
  end.

Lemma bi_ok : bi_check const.bi const.base_0 = true.
Proof. vm_compute. reflexivity. Qed.

Lemma order_ok :
  match run_chain const.base order_chain 0 (1, 1) with
  | Some (k, b) => (k =? ell) && zero_mod (b.1 - 1) && zero_mod (b.2 - 1)
  | None => false
  end = true.
Proof. vm_compute. reflexivity. Qed.

#[local] Open Scope ed_scope.

Lemma B_pair : uv_point (head_pair const.base_0) B.
Proof.
  split; cbn [B EdCurve.px EdCurve.py].
  - rewrite <- Zmod.of_Z_add. apply zero_mod_eq. vm_compute. reflexivity.
  - rewrite <- Zmod.of_Z_sub. apply zero_mod_eq. vm_compute. reflexivity.
Qed.

Lemma base_rows i row :
  const.base !! i = Some row -> uv_point (head_pair row) (256 ^ Z.of_nat i ⊗ B) /\ row_ok row = true.
Proof. exact (rows_ok_spec _ _ B i row base_rows_ok B_pair). Qed.

(** Row i of base holds 1 to 8 times 256^i times the base point. *)
Lemma base_spec i row : const.base !! i = Some row -> row_of row (256 ^ Z.of_nat i ⊗ B).
Proof. intros [Hp Hr]%base_rows. exact (proj1 (row_ok_spec _ _ Hr Hp)). Qed.

Lemma base_length : length const.base = 32%nat.
Proof. reflexivity. Qed.

(** bi[i] is 2i+1 times the base point. *)
Lemma bi_spec i q : const.bi !! i = Some q -> rep_pre q ((2 * Z.of_nat i + 1) ⊗ B).
Proof.
  pose proof bi_ok as H. pose proof B_pair as HB.
  assert (row_ok const.base_0 = true) as Hr by apply (base_rows 0 _ eq_refl).
  pose proof (proj2 (row_ok_spec _ _ Hr HB)) as H2. revert H HB H2. clear Hr.
  generalize const.bi const.base_0. unfold bi_check. intros [|q0 l] [|r [|r2 rest]]; try done. cbn [head_pair].
  intros [[[Hp E%bool_decide_eq_true]%andb_true_iff Hc]%andb_true_iff _]%andb_true_iff HB H2.
  rewrite <- E in HB. specialize (H2 1%nat r2 eq_refl). change (Z.of_nat 1 + 1) with 2 in H2.
  intros Hq. destruct i as [|i]; cbn in Hq.
  - injection Hq as ->. change (2 * Z.of_nat 0 + 1) with 1. rewrite emul_1. exact (pre_ok_spec _ _ Hp HB).
  - destruct (chain_ok_spec _ _ _ _ _ _ _ Hc H2 HB Hq) as [_ R]. rewrite <- emul_mul in R.
    rewrite <- (emul_1 B) in R at 2. rewrite <- emul_add in R.
    by replace (2 * Z.of_nat (S i) + 1) with ((Z.of_nat i + 1) * 2 + 1) by lia.
Qed.

Lemma bi_length : length const.bi = 8%nat.
Proof. reflexivity. Qed.

Lemma uv_neutral b P : zero_mod (b.1 - 1) = true -> zero_mod (b.2 - 1) = true -> uv_point b P -> P = eneutral.
Proof.
  intros H1%zero_mod_eq H2%zero_mod_eq [Hu Hv]. rewrite Zmod.of_Z_1 in H1, H2. rewrite H1 in Hu. rewrite H2 in Hv.
  apply epoint_eq; apply (Fp_cancel _ _ _ two_nzF); cbn.
  - transitivity ((ey P + ex P) - (ey P - ex P))%Zmod; [ring|]. rewrite <- Hu, <- Hv. ring.
  - transitivity ((ey P + ex P) + (ey P - ex P))%Zmod; [ring|]. rewrite <- Hu, <- Hv. ring.
Qed.

(** The group order of scalar.go annihilates the base point. *)
Lemma order_spec : ell ⊗ B = eneutral.
Proof.
  pose proof order_ok as H. destruct (run_chain _ _ _ _) as [[k b]|] eqn:E; [|discriminate].
  apply andb_true_iff in H as [[->%Z.eqb_eq H1]%andb_true_iff H2].
  apply (uv_neutral b _ H1 H2), (run_chain_spec _ _ base_rows _ _ _ _ _ E).
  rewrite emul_0. split; cbn; rewrite Zmod.of_Z_1; ring.
Qed.

(** The constants of const.go are what they are said to be: base[i][j] is (j+1)*256^i times the base point with y = 4/5, eight entries in each of 32 rows, bi[i] is 2i+1 times it, all within the limb bounds of the formulas; and the base point, which is not the neutral point, has the order of scalar.go: ell times it is the neutral point. *)
Theorem base_tables_correct :
  (forall i row j q, const.base !! i = Some row -> row !! j = Some q ->
     rep_pre q (((Z.of_nat j + 1) * 256 ^ Z.of_nat i) ⊗ B)) /\
  (forall i q, const.bi !! i = Some q -> rep_pre q ((2 * Z.of_nat i + 1) ⊗ B)) /\
  length const.base = 32%nat /\ Forall (fun row => length row = 8%nat) const.base /\ length const.bi = 8%nat /\
  (Zmod.of_Z p25519 5 * ey B = Zmod.of_Z p25519 4)%Zmod /\ B <> eneutral /\ ell ⊗ B = eneutral.
Proof.
  split_and!.
  - intros i row j q Hi Hj. rewrite emul_mul. exact (proj2 (base_spec _ _ Hi) _ _ Hj).
  - exact bi_spec.
  - exact base_length.
  - apply Forall_lookup_2. intros i row Hi. apply (base_spec i row Hi).
  - exact bi_length.
  - cbn [B EdCurve.py]. rewrite <- Zmod.of_Z_mul. apply zero_mod_eq. vm_compute. reflexivity.
  - intros E. apply (f_equal (fun P => ex P)) in E. cbn [B EdCurve.px eneutral EdCurve.neutral] in E.
    apply (f_equal Zmod.to_Z) in E. rewrite Zmod.to_Z_of_Z in E. vm_compute in E. discriminate.
  - exact order_spec.
Qed.

Lemma base_tables_correct_witness :
  exists q, const.bi !! 3%nat = Some q /\ rep_pre q (7 ⊗ B).
Proof. eexists. split; [reflexivity|]. apply ((proj1 (proj2 base_tables_correct)) 3%nat). reflexivity. Defined.
