(* ===== verification/EdMult.v ===== *)
(** * The scalar multiplications

    GeScalarMultBase computes a*B and GeDoubleScalarMultVartime a*A + b*B, without an index out of the
    tables (group.go). *)
From S2P Require Import Prelude EdScalar EdField EdPrime EdCurve EdTables EdGroup EdPoint EdRecode EdBase.
From Stdlib Require Import Field Zmod.Zmod.
#[local] Open Scope Z_scope.
#[local] Open Scope ed_scope.

(** ** Selecting a multiple *)

Lemma equal_spec b c : 0 <= b < 2 ^ 31 -> 0 <= c < 2 ^ 31 -> equal b c = if b =? c then 1 else 0.
Proof.
  intros Hb Hc. unfold equal.
  assert (0 <= Z.lxor b c < 2 ^ 31) as HX.
  { split; [apply Z.lxor_nonneg; lia|]. destruct (Z.eq_dec (Z.lxor b c) 0) as [->|]; [lia|].
    assert (0 <= Z.lxor b c) by (apply Z.lxor_nonneg; lia). apply Z.log2_lt_pow2; [lia|].
    eapply Z.le_lt_trans; [apply Z.log2_lxor; lia|].
    assert (forall x, 0 <= x < 2 ^ 31 -> Z.log2 x < 31) as L.
    { intros x Hx. destruct (Z.eq_dec x 0) as [->|]; [done|]. apply Z.log2_lt_pow2; lia. }
    pose proof (L b Hb). pose proof (L c Hc). lia. }
  destruct (Z.eqb_spec b c) as [->|N]; [by rewrite Z.lxor_nilpotent|].
  assert (Z.lxor b c <> 0) by (rewrite Z.lxor_eq_0_iff; done).
  unfold u32. rewrite (Z.mod_small (Z.lxor b c)) by lia. rewrite Z.mod_small by lia.
  rewrite Z.shiftr_div_pow2, Z.div_small by lia. done.
Qed.

Lemma CMove_0 t u : PreComputedGroupElementCMove t u 0 = t.
Proof. unfold PreComputedGroupElementCMove. rewrite !(proj1 (FeCMove_spec _ _ _) eq_refl). by destruct t. Qed.
Lemma CMove_1 t u : PreComputedGroupElementCMove t u 1 = u.
Proof. unfold PreComputedGroupElementCMove. rewrite !(proj2 (FeCMove_spec _ _ _) eq_refl). by destruct u. Qed.

(** The loop over a row ends with the entry of the digit, and keeps its start for a digit of 0. *)
Lemma select_loop_spec row i n t :
  0 <= i -> i + Z.of_nat (length row) < 2 ^ 31 -> 0 <= n < 2 ^ 31 ->
  select_loop row i n t = if i <? n then default t (row !! Z.to_nat (n - i - 1)) else t.
Proof.
  revert i t. induction row as [|u row IH]; intros i t Hi HL Hn; cbn [select_loop length] in *; [by case_match|].
  rewrite (i32_small (i + 1)), IH, equal_spec by lia.
  destruct (Z.eqb_spec n (i + 1)) as [->|N].
  - rewrite CMove_1. replace (i + 1 - i - 1) with 0 by lia.
    by rewrite (proj2 (Z.ltb_ge _ _)), (proj2 (Z.ltb_lt _ _)) by lia.
  - rewrite CMove_0. destruct (Z.ltb_spec (i + 1) n), (Z.ltb_spec i n); try lia; [|done].
    by replace (Z.to_nat (n - i - 1)) with (S (Z.to_nat (n - (i + 1) - 1))) by lia.
Qed.

Lemma rep_pre_opp q P : rep_pre q P -> rep_pre (Pre (FeCopy (yMinusX q)) (FeCopy (yPlusX q)) (FeNeg (xy2d q))) (eopp P).
Proof.
  intros [(?&?&?) Hp Hm Ht]. split; unfold FeCopy; cbn [yPlusX yMinusX xy2d].
  - split_and!; fe_bounds.
  - rewrite Hm. cbn. ring.
  - rewrite Hp. cbn. ring.
  - rewrite fev_neg by fe_bounds. rewrite Ht. cbn. ring.
Qed.

Lemma selectPoint_spec row b P : row_of row P -> Z.abs b <= 8 -> rep_pre (selectPoint row b) (b ⊗ P).
Proof.
  intros [HL HR] Hb. unfold selectPoint. cbv zeta.
  assert (negative b = if b <? 0 then 1 else 0) as EN.
  { unfold negative. rewrite Z.shiftr_div_pow2 by lia. change (2 ^ 31) with 2147483648. destruct (Z.ltb_spec b 0).
    - by replace (b / 2147483648) with (-1) by (apply (Zdiv_unique _ _ _ (b + 2147483648)); lia).
    - by rewrite Z.div_small by lia. }
  assert (i32 (b - i32 (Z.shiftl (Z.land (i32 (- negative b)) b) 1)) = Z.abs b) as EA.
  { rewrite EN. destruct (Z.ltb_spec b 0).
    - change (i32 (- 1)) with (-1). rewrite Z.land_m1_l, Z.shiftl_mul_pow2 by lia.
      change (2 ^ 1) with 2. rewrite (i32_small (b * 2)), i32_small by lia. lia.
    - change (i32 (- 0)) with 0. rewrite Z.land_0_l. change (i32 (Z.shiftl 0 1)) with 0. rewrite i32_small; lia. }
  rewrite EA, select_loop_spec by lia.
  set (t := if 0 <? Z.abs b then _ else _).
  assert (rep_pre t (Z.abs b ⊗ P)) as HT.
  { unfold t. destruct (Z.ltb_spec 0 (Z.abs b)).
    - destruct (lookup_lt_is_Some_2 row (Z.to_nat (Z.abs b - 0 - 1))) as [q Eq]; [lia|].
      rewrite Eq. cbn [default]. replace (Z.abs b) with (Z.of_nat (Z.to_nat (Z.abs b - 0 - 1)) + 1) by lia.
      by apply HR.
    - replace (Z.abs b) with 0 by lia. rewrite emul_0. exact PreComputed_Zero_spec. }
  rewrite EN. clearbody t. destruct (Z.ltb_spec b 0).
  - rewrite CMove_1. replace b with (- Z.abs b) by lia. rewrite emul_opp. exact (rep_pre_opp _ _ HT).
  - rewrite CMove_0. by rewrite Z.abs_eq in HT by lia.
Qed.

(** ** GeScalarMultBase *)

Lemma add_rows_spec rows digits h H Q :
  (forall i row, rows !! i = Some row -> row_of row (256 ^ Z.of_nat i ⊗ Q)) ->
  length digits = length rows -> Forall (fun x => Z.abs x <= 8) digits -> rep_ext h H ->
  rep_ext (add_rows rows digits h) (H ⊕ digits_val 256 digits ⊗ Q).
Proof.
  revert digits h H Q. induction rows as [|row rows IH]; intros [|x digits] h H Q HR HL HD HH; try done;
    cbn [add_rows digits_val].
  { by rewrite emul_0, eadd_0_r. }
  apply Forall_cons in HD as [Hx HD]. rewrite emul_add, (Z.mul_comm 256), emul_mul, eadd_assoc.
  apply IH; [|by injection HL|done|].
  - intros i row' Hi. specialize (HR (S i) row' Hi).
    by rewrite Nat2Z.inj_succ, Z.pow_succ_r, Z.mul_comm, emul_mul in HR by lia.
  - specialize (HR 0%nat row eq_refl). change (256 ^ Z.of_nat 0) with 1 in HR. rewrite emul_1 in HR.
    apply ToExtended_spec, geMixedAdd_spec, selectPoint_spec; done.
Qed.

Lemma odd_even_digits (P : Z -> Prop) n e :
  length e = (2 * n)%nat -> Forall P e ->
  length (odd_digits e) = n /\ length (even_digits e) = n /\ Forall P (odd_digits e) /\ Forall P (even_digits e).
Proof.
  revert e. induction n as [|n IH]; intros e HL HP; [destruct e; done|].
  destruct e as [|x [|y e]]; cbn in HL; try lia. apply Forall_cons in HP as [Hx [Hy HP]%Forall_cons].
  destruct (IH e ltac:(lia) HP) as (?&?&?&?). cbn [odd_digits even_digits length]. auto with lia.
Qed.

Lemma last_nibble a : bytes_ok a -> length a = 32%nat -> byte_at a 31 <= 127 -> nth 63 (nibbles a) 0 <= 7.
Proof.
  intros HB HL H7. do 32 (destruct a as [|? a]; [done|]). destruct a; [|done].
  unfold byte_at, nibbles in *. cbn [nth flat_map app] in *.
  do 31 apply Forall_cons in HB as [_ HB]. apply Forall_cons in HB as [HB _]. unfold is_byte in HB.
  rewrite Z.shiftr_div_pow2 by lia. change 15 with (Z.ones 4). rewrite Z.land_ones by lia. change (2 ^ 4) with 16.
  assert (0 <= z30 / 16 < 8) by (split; [apply Z.div_pos|apply Z.div_lt_upper_bound]; lia).
  rewrite Z.mod_small, i8_small; lia.
Qed.

(** GeScalarMultBase multiplies the base point. *)
Lemma GeScalarMultBase_spec a :
  bytes_ok a -> length a = 32%nat -> byte_at a 31 <= 127 -> rep_ext (GeScalarMultBase a) (le_val a ⊗ B).
Proof.
  intros HB HL H7. destruct (nibbles_spec a HB) as (NV & ND & NL).
  destruct (recode_spec 63 0 (nibbles a)) as (RV & RD & RL); [lia|by left|done|by apply last_nibble|].
  rewrite NL, HL in RL. unfold GeScalarMultBase. set (e := recode _ _ _) in *. cbv zeta.
  destruct (odd_even_digits _ 32 e RL RD) as (LO & LE & DO & DE).
  destruct (odd_even_spec 16 e) as [V|V]; [|by rewrite RL in V]. rewrite RV, NV, Z.add_0_r in V.
  rewrite V, Z.add_comm, (Z.mul_comm 16), emul_add, emul_mul.
  apply add_rows_spec; [exact base_spec|by rewrite base_length|done|].
  pose proof (add_rows_spec const.base (odd_digits e) _ _ B base_spec ltac:(by rewrite base_length) DO Extended_Zero_spec) as H1.
  rewrite eadd_0_l in H1. set (h := add_rows _ (odd_digits e) _) in *. clearbody h. change (16 * 16) with 256.
  set (n := digits_val 256 (odd_digits e)) in *. 
  rewrite <- emul_mul. replace (n * 16) with (2 * (2 * (2 * (2 * n)))) by lia.
  rewrite !(emul_mul 2), !emul_2. auto 9 with ed.
Qed.

(** ** GeDoubleScalarMultVartime *)

Lemma odd_multiples_spec n A2 q P m :
  rep_ext A2 (2 ⊗ P) -> rep_cached q (m ⊗ P) ->
  length (odd_multiples n A2 q) = S n /\
  forall i q', odd_multiples n A2 q !! i = Some q' -> rep_cached q' ((m + 2 * Z.of_nat i) ⊗ P).
Proof.
  intros H2. revert q m. induction n as [|n IH]; intros q m Hq; cbn [odd_multiples].
  - split; [done|]. intros [|i] q' E; [|done]. injection E as <-. by rewrite Z.add_0_r.
  - destruct (IH (ToCached (ToExtended (geAdd A2 q))) (2 + m)) as [L H].
    { rewrite emul_add. auto with ed. }
    split; [cbn; lia|]. intros [|i] q' E; cbn in E.
    + injection E as <-. by rewrite Z.add_0_r.
    + apply H in E. by replace (m + 2 * Z.of_nat (S i)) with (2 + m + 2 * Z.of_nat i) by lia.
Qed.

(** Adding a digit of a scalar: [table] holds the odd multiples 1 to 15 of [P]. *)
Lemma add_digit_spec {Q} (rep : Q -> epoint -> Prop) add sub table digit t T P :
  (forall p q R S, rep_ext p R -> rep q S -> rep_comp (add p q) (R ⊕ S)) ->
  (forall p q R S, rep_ext p R -> rep q S -> rep_comp (sub p q) (R ⊕ eopp S)) ->
  length table = 8%nat -> (forall i q, table !! i = Some q -> rep q ((2 * Z.of_nat i + 1) ⊗ P)) ->
  slide_digit digit -> rep_comp t T ->
  exists t', add_digit add sub table digit t = Ok t' /\ rep_comp t' (T ⊕ digit ⊗ P).
Proof.
  intros HA HS HL HT HD Ht. unfold add_digit.
  assert (forall x, Z.odd x = true -> 0 < x <= 15 ->
    exists q, table !! Z.to_nat (Z.quot x 2) = Some q /\ rep q (x ⊗ P)) as Look.
  { intros x Ho Hx. rewrite Z.quot_div_nonneg by lia. pose proof (Zodd_bool_iff x) as [E _].
    apply E, Zodd_ex in Ho as [m ->]. replace ((2 * m + 1) / 2) with m by (apply (Zdiv_unique _ _ _ 1); lia).
    destruct (lookup_lt_is_Some_2 table (Z.to_nat m)) as [q Hq]; [lia|]. exists q. split; [done|].
    apply HT in Hq. by rewrite Z2Nat.id in Hq by lia. }
  destruct HD as [->|[Ho Hx]].
  - exists t. split; [done|]. by rewrite emul_0, eadd_0_r.
  - destruct (Z.ltb_spec 0 digit).
    + destruct (Look digit Ho) as (q & -> & Hq); [lia|]. eexists. split; [done|]. auto with ed.
    + assert (digit <> 0) by (intros ->; done). rewrite (proj2 (Z.ltb_lt _ _)), i8_small by lia.
      destruct (Look (- digit)) as (q & -> & Hq); [by rewrite Z.odd_opp|lia|]. eexists. split; [done|].
      replace digit with (- - digit) by lia. rewrite emul_opp. auto with ed.
Qed.

Lemma double_scalar_loop_app Ai l l' r :
  double_scalar_loop Ai (l ++ l') r = res_bind (double_scalar_loop Ai l r) (double_scalar_loop Ai l').
Proof.
  revert r. induction l as [|[da db] l IH]; intros r; [done|]. cbn [app double_scalar_loop].
  destruct (add_digit geAdd geSub Ai da _) as [t| |]; [cbn|done..].
  destruct (add_digit geMixedAdd geMixedSub const.bi db t) as [t'| |]; [cbn|done..]. apply IH.
Qed.

Lemma eadd_swap P Q R S : (P ⊕ Q) ⊕ (R ⊕ S) = (P ⊕ R) ⊕ (Q ⊕ S).
Proof. rewrite <- !eadd_assoc. f_equal. rewrite !eadd_assoc. f_equal. apply eadd_comm. Qed.

Section double_scalar.
Context (Ai : list CachedGroupElement) (A : epoint).
Context (Ai_length : length Ai = 8%nat).
Context (Ai_spec : forall i q, Ai !! i = Some q -> rep_cached q ((2 * Z.of_nat i + 1) ⊗ A)).

(** The value of the digits of both scalars, the lowest first. *)
Definition digits_point (ds : list (Z * Z)) : epoint := digits_val 2 ds.*1 ⊗ A ⊕ digits_val 2 ds.*2 ⊗ B.

Lemma digits_point_cons da db ds :
  digits_point ((da, db) :: ds) = (digits_point ds ⊕ digits_point ds) ⊕ da ⊗ A ⊕ db ⊗ B.
Proof.
  unfold digits_point. cbn [fmap list_fmap fst snd digits_val]. rewrite !emul_add, !(emul_mul 2), !emul_2.
  set (a' := da ⊗ A). set (b' := db ⊗ B). set (a := _ ⊗ A). set (b := _ ⊗ B).
  rewrite (eadd_swap a'), (eadd_swap a a). rewrite (eadd_comm (a' ⊕ b')). by rewrite eadd_assoc.
Qed.

Lemma double_scalar_loop_spec ds :
  Forall (fun '(da, db) => slide_digit da /\ slide_digit db) ds ->
  exists r, double_scalar_loop Ai (rev ds) Projective_Zero = Ok r /\ rep_proj r (digits_point ds).
Proof.
  induction 1 as [|[da db] ds [Ha Hb] _ IH]; cbn [rev].
  - eexists. split; [done|]. unfold digits_point. cbn [fmap list_fmap digits_val]. rewrite !emul_0, eadd_0_l. exact Projective_Zero_spec.
  - destruct IH as (r & Er & Hr). rewrite double_scalar_loop_app, Er. cbn [res_bind double_scalar_loop].
    destruct (add_digit_spec rep_cached geAdd geSub Ai da (Projective_Double r) _ A geAdd_spec geSub_spec
      Ai_length Ai_spec Ha (Projective_Double_spec _ _ Hr)) as (t & -> & Ht).
    cbn [res_bind].
    destruct (add_digit_spec rep_pre geMixedAdd geMixedSub const.bi db t _ B geMixedAdd_spec geMixedSub_spec
      bi_length bi_spec Hb Ht) as (t' & -> & Ht').
    eexists. split; [done|]. rewrite digits_point_cons. auto with ed.
Qed.

Lemma digits_val_snoc0 l : digits_val 2 (l ++ [0]) = digits_val 2 l.
Proof. induction l as [|x l IH]; cbn [app digits_val]; [done|]. by rewrite IH. Qed.

(** The leading zeros do not count. *)
Lemma skip_zeros_spec ds (P : Z * Z -> Prop) :
  Forall P ds -> exists ds', skip_zeros (rev ds) = rev ds' /\ Forall P ds' /\ digits_point ds' = digits_point ds.
Proof.
  induction ds as [|[da db] ds IH] using rev_ind; intros HP; [by exists []|].
  rewrite rev_app_distr. cbn [rev app skip_zeros].
  destruct (negb (da =? 0) || negb (db =? 0)) eqn:E.
  - exists (ds ++ [(da, db)]). by rewrite rev_app_distr.
  - apply orb_false_iff in E as [->%negb_false_iff%Z.eqb_eq ->%negb_false_iff%Z.eqb_eq].
    apply Forall_app in HP as [HP _]. destruct (IH HP) as (ds' & Es & Hs & Ed). exists ds'. split_and!; [done..|].
    rewrite Ed. unfold digits_point. rewrite !fmap_app. cbn [fmap list_fmap fst snd]. by rewrite !digits_val_snoc0.
Qed.
End double_scalar.

Lemma combine_fst {X Y} (l : list X) (k : list Y) : length l = length k -> (combine l k).*1 = l /\ (combine l k).*2 = k.
Proof.
  revert k. induction l as [|x l IH]; intros [|y k] E; try done. cbn in *. destruct (IH k) as [-> ->]; [lia|done].
Qed.

(** GeDoubleScalarMultVartime never indexes out of its tables and returns a*A + b*B. *)
Lemma GeDoubleScalarMultVartime_spec a b A P :
  bytes_ok a -> bytes_ok b -> le_val a < 2 ^ 253 -> le_val b < 2 ^ 253 -> rep_ext A P ->
  exists r, GeDoubleScalarMultVartime a A b = Ok r /\ rep_proj r (le_val a ⊗ P ⊕ le_val b ⊗ B).
Proof.
  intros Ba Bb Va Vb HA. unfold GeDoubleScalarMultVartime. cbv zeta.
  destruct (slide_spec a Ba Va) as (<- & Da & La), (slide_spec b Bb Vb) as (<- & Db & Lb).
  destruct (odd_multiples_spec 7 (ToExtended (Extended_Double A)) (ToCached A) P 1) as [LO HO];
    [rewrite emul_2; auto with ed|rewrite emul_1; auto with ed|].
  set (Ai := odd_multiples _ _ _) in *. clearbody Ai.
  assert (Forall (fun '(da, db) => slide_digit da /\ slide_digit db) (combine (slide a) (slide b))) as HD.
  { revert Da Db. clear. revert b. generalize (slide a). intros l b Da. generalize (slide b). clear b.
    induction Da as [|x l Hx _ IH]; intros [|y k] Db; try constructor; apply Forall_cons in Db as [Hy Db]; auto. }
  destruct (skip_zeros_spec P _ _ HD) as (ds & -> & Hds & E).
  destruct (double_scalar_loop_spec Ai P LO) with (ds := ds) as (r & -> & Hr); [|done|].
  { intros i q Hq. apply HO in Hq. by rewrite Z.add_comm. }
  exists r. split; [done|]. rewrite E in Hr. unfold digits_point in Hr.
  destruct (combine_fst (slide a) (slide b)) as [Ea Eb]; [by rewrite La, Lb|]. by rewrite Ea, Eb in Hr.
Qed.

(** C8. The scalar multiplications compute multiples of points. GeScalarMultBase of 32 bytes below 2^255 represents a times the base point: the signed digits of its constant-time selection stay within the rows of the table. GeDoubleScalarMultVartime of scalars below 2^253 never indexes out of its tables and represents aA + bB; its sliding windows keep the value of the scalars without overflowing an int8. *)
Theorem scalar_multiplications_correct :
  (forall a, bytes_ok a -> length a = 32%nat -> byte_at a 31 <= 127 -> rep_ext (GeScalarMultBase a) (le_val a ⊗ B)) /\
  (forall a b A P, bytes_ok a -> bytes_ok b -> le_val a < 2 ^ 253 -> le_val b < 2 ^ 253 -> rep_ext A P ->
     exists r, GeDoubleScalarMultVartime a A b = Ok r /\ rep_proj r (le_val a ⊗ P ⊕ le_val b ⊗ B)) /\
  (forall row x P, row_of row P -> Z.abs x <= 8 -> rep_pre (selectPoint row x) (x ⊗ P)) /\
  (forall a, bytes_ok a -> le_val a < 2 ^ 253 ->
     digits_val 2 (slide a) = le_val a /\ Forall slide_digit (slide a) /\ length (slide a) = 256%nat).
Proof.
  split_and!; [exact GeScalarMultBase_spec|exact GeDoubleScalarMultVartime_spec|exact selectPoint_spec|exact slide_spec].
Qed.

Lemma scalar_multiplications_correct_witness :
  rep_ext (GeScalarMultBase (replicate 32 9)) (le_val (replicate 32 9) ⊗ B) /\
  exists r, GeDoubleScalarMultVartime (replicate 31 255) Extended_Zero (replicate 31 254) = Ok r.
Proof.
  split.
  - apply (proj1 scalar_multiplications_correct); [repeat constructor; lia|reflexivity|by vm_compute].
  - destruct (proj1 (proj2 scalar_multiplications_correct) (replicate 31 255) (replicate 31 254) Extended_Zero eneutral)
      as (r & Hr & _); [repeat constructor; lia|repeat constructor; lia|by vm_compute|by vm_compute|exact Extended_Zero_spec|].
    exists r. exact Hr.
Defined.
