(* ===== verification/EdEncode.v ===== *)
(** * Encoding points

    ToBytes and FromBytes of group.go: the encoding is canonical and does not depend on the
    representation, decoding inverts it, and decoding succeeds exactly on the y of a point. *)
From S2P Require Import Prelude EdScalar EdField EdPrime EdCurve EdTables EdGroup EdPoint EdRecode EdBase.
From Stdlib Require Import Field Zmod.Zmod.
#[local] Open Scope Z_scope.
#[local] Open Scope ed_scope.

(** The sign of a residue. *)
Definition parity (x : Fp) : Z := Zmod.to_Z x mod 2.

(** The 32 bytes of a point: y, and the sign of x in the top bit. *)
Definition enc (P : epoint) : list Z := le_bytes 32 (Zmod.to_Z (ey P) + 2 ^ 255 * parity (ex P)).

Lemma to_Z_fev f : Zmod.to_Z (fev f) = fe_val f mod p25519.
Proof. apply Zmod.to_Z_of_Z. Qed.

Lemma to_Z_bound (x : Fp) : 0 <= Zmod.to_Z x < p25519.
Proof. pose proof (Zmod.to_Z_range x). unfold p25519 in *. lia. Qed.

Lemma parity_bit x : parity x = 0 \/ parity x = 1.
Proof. pose proof (Z.mod_pos_bound (Zmod.to_Z x) 2). unfold parity. lia. Qed.

(** ** Powers *)

Lemma fev_power z e r : fe_power z e r -> fe_loose r /\ fev r = Zmod.pow (fev z) e.
Proof.
  intros (He & Hb & Hv). split; [done|]. unfold fev. rewrite <- Zmod.of_Z_pow by done. by apply of_Z_feq.
Qed.

Lemma fev_invert z : fe_loose z -> fev z <> Zmod.zero -> fe_loose (FeInvert z) /\ (fev (FeInvert z) * fev z)%Zmod = Zmod.one.
Proof.
  intros H Hz. destruct (fev_power _ _ _ (FeInvert_power z H)) as [HB E]. split; [done|].
  rewrite E, (Zmod.fermat_inv _ Hz p25519_prime). exact (Zmod.mul_inv_same_l_prime _ p25519_prime Hz).
Qed.

(** ** Encoding *)

Lemma le_val_insert l i b :
  (i < length l)%nat -> le_val (<[i := b]> l) = le_val l + 256 ^ Z.of_nat i * (b - byte_at l i).
Proof.
  revert i. induction l as [|x l IH]; intros i Hi; cbn [length] in Hi; [lia|].
  destruct i as [|i]; cbn [insert list_insert le_val byte_at nth].
  - change (256 ^ Z.of_nat 0) with 1. unfold byte_at. cbn [nth]. lia.
  - rewrite IH by lia. rewrite Nat2Z.inj_succ, Z.pow_succ_r by lia. unfold byte_at. cbn [nth]. lia.
Qed.

Lemma sign_byte b s : 0 <= b < 128 -> (s = 0 \/ s = 1) -> Z.lxor b (u8 (Z.shiftl s 7)) = b + 128 * s.
Proof.
  intros Hb [-> | ->]; [change (u8 (Z.shiftl 0 7)) with 0; rewrite Z.lxor_0_r; lia|].
  change (u8 (Z.shiftl 1 7)) with (2 ^ 7). rewrite <- Z.add_nocarry_lxor; [lia|].
  apply Z.bits_inj'. intros n Hn. rewrite Z.land_spec, Z.pow2_bits_eqb, Z.bits_0 by lia.
  destruct (Z.eqb_spec 7 n) as [<-|]; [|by rewrite andb_false_r].
  rewrite andb_true_r. destruct (Z.eq_dec b 0) as [->|]; [apply Z.bits_0|].
  apply Z.bits_above_log2; [lia|]. apply Z.log2_lt_pow2; lia.
Qed.

Lemma encode_xy_spec x y P :
  fe_wide x -> fe_wide y -> fev x = ex P -> fev y = ey P -> encode_xy x y = enc P.
Proof.
  intros Hx Hy Ex Ey. unfold encode_xy. cbv zeta. rewrite (FeToBytes_spec y Hy), (FeIsNegative_spec x Hx). cbn [fst].
  rewrite <- !to_Z_fev, Ex, Ey. fold (parity (ex P)). pose proof (to_Z_bound (ey P)) as BY.
  set (v := Zmod.to_Z (ey P)) in *. pose proof (le_bytes_ok 32 v) as OK.
  pose proof (byte_at_val (le_bytes 32 v) 31 OK) as E31. rewrite le_val_le_bytes in E31.
  change (Z.of_nat 32) with 32 in E31. change (Z.of_nat 31) with 31 in E31.
  rewrite (Z.mod_small v) in E31 by (unfold p25519 in *; lia).
  assert (0 <= v / 256 ^ 31 < 128).
  { split; [apply Z.div_pos; lia|]. apply Z.div_lt_upper_bound; [lia|]. unfold p25519 in *. lia. }
  rewrite (Z.mod_small (v / _)) in E31 by lia. 
  rewrite sign_byte by (lia || apply parity_bit).
  pose proof (parity_bit (ex P)) as HP. unfold enc. fold v.
  apply le_val_inj; [|apply le_bytes_ok|by rewrite length_insert, !length_le_bytes|].
  - apply Forall_insert; [done|]. lia.
  - rewrite le_val_insert by (rewrite length_le_bytes; lia). rewrite !le_val_le_bytes.
    change (Z.of_nat 32) with 32. change (Z.of_nat 31) with 31.
    unfold p25519 in *. rewrite !Z.mod_small by lia. lia.
Qed.

Lemma Projective_ToBytes_spec p P : rep_proj p P -> Projective_ToBytes p = enc P.
Proof.
  intros [(?&?&?) HZ HX HY]. unfold Projective_ToBytes. cbv zeta.
  destruct (fev_invert (pZ p)) as [HB HI]; [fe_bounds|done|].
  apply encode_xy_spec; [fe_bounds..| |].
  - rewrite fev_mul by fe_bounds. rewrite HX. transitivity (ex P * (fev (FeInvert (pZ p)) * fev (pZ p)))%Zmod; [ring|].
    rewrite HI. ring.
  - rewrite fev_mul by fe_bounds. rewrite HY. transitivity (ey P * (fev (FeInvert (pZ p)) * fev (pZ p)))%Zmod; [ring|].
    rewrite HI. ring.
Qed.

Lemma Extended_ToBytes_spec p P : rep_ext p P -> Extended_ToBytes p = enc P.
Proof. intros H. exact (Projective_ToBytes_spec _ _ (Extended_ToProjective_spec _ _ H)). Qed.

(** ** Square roots *)

#[local] Open Scope Zmod_scope.

Definition e22523 : Z := (p25519 - 5) / 8.

Lemma e22523_bounds : (0 <= e22523 /\ 8 * e22523 + 5 = p25519)%Z.
Proof. split; vm_compute; [discriminate|reflexivity]. Qed.

Lemma square_one (c : Fp) : c * c = 1 -> c = 1 \/ c = - (1).
Proof.
  intros H. destruct (Fp_integral (c - 1) (c + 1)) as [E|E].
  - transitivity (c * c - 1); [ring|]. rewrite H. ring.
  - left. by apply Zmod.sub_eq_0_iff.
  - right. transitivity (c + 1 - 1); [ring|]. rewrite E. ring.
Qed.

(** The factor by which the candidate misses is 1 or -1 when there is a root. *)
Lemma candidate_factor (s : Fp) : s <> 0 ->
  let t := Zmod.pow (s * s) e22523 in s * s * (t * t) = 1 \/ s * s * (t * t) = - (1).
Proof.
  intros Hs t. destruct e22523_bounds as [B E]. apply square_one.
  unfold t. rewrite <- (Zmod.pow_2_r s), <- Zmod.pow_mul_r_nonneg by lia.
  rewrite <- !Zmod.pow_add_r_nonneg by lia.
  replace (2 + (2 * e22523 + 2 * e22523) + (2 + (2 * e22523 + 2 * e22523)))%Z with (Z.pred p25519) by lia.
  exact (Zmod.fermat_nz s Hs p25519_prime).
Qed.

Definition candidate (u v : Fp) : Fp := Zmod.pow (u * (v * v * v * (v * v * v)* v)) e22523 * (v * v * v) * u.

Lemma candidate_spec (u v : Fp) (x0 := candidate u v) :
  v <> 0 ->
  (forall x, u = v * (x * x) -> v * (x0 * x0) = u \/ v * (x0 * x0) = - u).
Proof.
  intros Hv x Hu. destruct (decide (x = 0)) as [->|Hx].
  { left. assert (u = 0) as -> by (rewrite Hu; ring). unfold x0, candidate. ring. }
  destruct (candidate_factor (v * v * (v * v) * x)) as [E|E].
  { exact (Fp_nz _ _ (Fp_nz _ _ (Fp_nz _ _ Hv Hv) (Fp_nz _ _ Hv Hv)) Hx). }
  all: [> left|right].
  all: revert E; unfold x0, candidate.
  all: replace (u * (v * v * v * (v * v * v) * v)) with (v * v * (v * v) * x * (v * v * (v * v) * x)) by (rewrite Hu; ring).
  all: set (t := Zmod.pow _ _); intros E.
  all: transitivity (u * (v * v * (v * v) * x * (v * v * (v * v) * x) * (t * t))); [rewrite Hu; ring|].
  all: rewrite E; ring.
Qed.

(** The curve equation solved for x. *)
Lemma curve_iff x y :
  EdCurve.on_curve Zmod.one Zmod.add Zmod.mul Zmod.sub dF x y <-> y * y - 1 = (y * y * dF + 1) * (x * x).
Proof.
  unfold EdCurve.on_curve. split; intros H.
  - transitivity (y * y - x * x + x * x - 1); [ring|]. rewrite H. ring.
  - transitivity ((y * y - 1) + 1 - x * x); [ring|]. rewrite H. ring.
Qed.

Lemma v_nz (y : Fp) : y * y * dF + 1 <> 0.
Proof.
  intros E. destruct (decide (y = 0)) as [->|Hy].
  { apply (Zmod.one_neq_zero (m := p25519)); [done|]. rewrite <- E. ring. }
  apply (dF_nonsquare (Zmod.mdiv iF y)). transitivity (Zmod.mdiv (iF * iF) (y * y)); [field; done|]. rewrite iF_sq.
  apply (Fp_cancel (y * y)); [exact (Fp_nz _ _ Hy Hy)|].
  transitivity (- (1) : Fp); [field; done|]. transitivity ((y * y * dF + 1) - 1); [rewrite E; ring|ring].
Qed.

(** ** Decoding *)

Lemma fev_pow22523 f : fe_loose f -> fe_loose (fePow22523 f) /\ fev (fePow22523 f) = Zmod.pow (fev f) e22523.
Proof. intros H. exact (fev_power _ _ _ (fePow22523_power f H)). Qed.

Lemma fev_zero_iff f : fev f = 0 <-> (fe_val f mod p25519 = 0)%Z.
Proof.
  rewrite <- to_Z_fev. split; [by intros ->|]. intros E. apply Zmod.to_Z_inj. by rewrite E.
Qed.

Lemma FeIsNonZero_fev f : fe_wide f -> ((FeIsNonZero f).1 =? 1)%Z = negb (bool_decide (fev f = 0)).
Proof.
  intros H. rewrite FeIsNonZero_spec by done. cbn [fst].
  destruct (bool_decide_reflect (fe_val f mod p25519 = 0)%Z) as [E|E]; cbn.
  - by rewrite bool_decide_true by (by apply fev_zero_iff).
  - by rewrite bool_decide_false by (by rewrite fev_zero_iff).
Qed.

Lemma norm_fev f : fe_wide f -> fe_loose (FeToBytes_norm f) /\ fev (FeToBytes_norm f) = fev f.
Proof.
  intros H. destruct (FeToBytes_norm_spec f H) as [D V]. split; [by apply fe_digits_loose|].
  unfold fev. rewrite V. apply of_Z_feq. apply Z.mod_mod. discriminate.
Qed.

Lemma parity_opp (x : Fp) : x <> 0 -> parity (- x) = (1 - parity x)%Z.
Proof.
  intros Hx. unfold parity. rewrite Zmod.to_Z_opp. pose proof (to_Z_bound x) as B.
  assert (Zmod.to_Z x <> 0%Z) by (intros E; apply Hx, Zmod.to_Z_inj; by rewrite E).
  rewrite (Zdiv.Z_mod_nz_opp_full) by (rewrite (Z.mod_small (Zmod.to_Z x)); lia). rewrite (Z.mod_small (Zmod.to_Z x)) by lia.
  rewrite Zminus_mod. change (p25519 mod 2)%Z with 1%Z.
  pose proof (Z.mod_pos_bound (Zmod.to_Z x) 2 ltac:(lia)). destruct (Z.eq_dec (Zmod.to_Z x mod 2) 0) as [->|].
  - done.
  - replace (Zmod.to_Z x mod 2)%Z with 1%Z by lia. done.
Qed.

(** The square root of u/v as FromBytes finds it. *)
Lemma root_spec Y (u := FeSub (FeSquare Y) FeOne) (v := FeAdd (FeMul (FeSquare Y) const.d) FeOne)
    (v3 := FeMul (FeSquare v) v) (X := FeMul (FeMul (fePow22523 (FeMul (FeMul (FeSquare v3) v) u)) v3) u)
    (vxx := FeMul (FeSquare X) v) :
  fe_tight Y ->
  let y := fev Y in
  match (if ((FeIsNonZero (FeSub vxx u)).1 =? 1)%Z then
           if ((FeIsNonZero (FeAdd vxx u)).1 =? 1)%Z then (false, X) else (true, (FeToBytes (FeMul X const.SqrtM1)).2)
         else (true, X)) with
  | (true, X) => fe_loose X /\ y * y - 1 = (y * y * dF + 1) * (fev X * fev X)
  | (false, _) => forall x, y * y - 1 <> (y * y * dF + 1) * (x * x)
  end.
Proof.
  intros HY y.
  assert (fe_loose u) by fe_bounds. assert (fe_loose v) by fe_bounds.
  assert (fev u = y * y - 1) as Eu by (unfold u; autorewrite with fev; fold y; ring).
  assert (fev v = y * y * dF + 1) as Ev by (unfold v; autorewrite with fev; fold y dF; ring).
  clearbody u v. assert (fe_tight v3) by fe_bounds.
  assert (fev v3 = fev v * fev v * fev v) as E3 by (unfold v3; autorewrite with fev; ring).
  clearbody v3. destruct (fev_pow22523 (FeMul (FeMul (FeSquare v3) v) u)) as [HP EP]; [fe_bounds|].
  assert (fe_tight X) by fe_bounds.
  assert (fev X = candidate (fev u) (fev v)) as EX.
  { unfold X, candidate. autorewrite with fev. rewrite EP. autorewrite with fev. rewrite E3.
    f_equal. f_equal. f_equal. ring. }
  clearbody X. assert (fe_tight vxx) by fe_bounds.
  assert (fev vxx = fev v * (fev X * fev X)) as EV by (unfold vxx; autorewrite with fev; ring).
  clearbody vxx.
  pose proof (candidate_spec (fev u) (fev v)) as HC. cbv zeta in HC. rewrite <- EX in HC.
  rewrite <- Eu, <- Ev. assert (fev v <> 0) as Hv by (rewrite Ev; apply v_nz). specialize (HC Hv).
  rewrite !FeIsNonZero_fev by fe_bounds. rewrite fev_sub, fev_add by fe_bounds. rewrite EV.
  destruct (bool_decide_reflect (fev v * (fev X * fev X) - fev u = 0)) as [E|N1]; cbn [negb].
  { split; [fe_bounds|]. symmetry. by apply Zmod.sub_eq_0_iff. }
  destruct (bool_decide_reflect (fev v * (fev X * fev X) + fev u = 0)) as [E|N2]; cbn [negb].
  - rewrite FeToBytes_spec by fe_bounds. cbn [snd].
    destruct (norm_fev (FeMul X const.SqrtM1)) as [HN EN]; [fe_bounds|]. split; [done|]. rewrite EN.
    rewrite fev_mul by fe_bounds. fold iF.
    transitivity (- (fev v * (fev X * fev X))).
    { transitivity ((fev v * (fev X * fev X) + fev u) - fev v * (fev X * fev X)); [ring|rewrite E; ring]. }
    transitivity (fev v * (fev X * fev X) * (iF * iF)); [rewrite iF_sq; ring|ring].
  - intros x Hx. destruct (HC x Hx) as [E|E].
    + apply N1. rewrite E. ring.
    + apply N2. rewrite E. ring.
Qed.

(** A root with the sign bit asked for. *)
Lemma sign_spec X (sign : Z) :
  fe_loose X -> (sign = 0 \/ sign = 1)%Z ->
  let '(neg, X1) := FeIsNegative X in
  let X2 := if negb (neg =? sign)%Z then FeNeg X1 else X1 in
  fe_loose X2 /\ (fev X2 = fev X \/ fev X2 = - fev X) /\ (parity (fev X2) = sign \/ fev X2 = 0).
Proof.
  intros HX HS. rewrite FeIsNegative_spec by fe_bounds. rewrite <- to_Z_fev. fold (parity (fev X)).
  destruct (norm_fev X) as [HN EN]; [fe_bounds|]. destruct (Z.eqb_spec (parity (fev X)) sign) as [E|N]; cbn [negb].
  - rewrite EN. auto.
  - rewrite fev_neg, EN by fe_bounds. split_and!; [fe_bounds|by right|].
    destruct (decide (fev X = 0)) as [Z|NZ]; [right; rewrite Z; ring|left]. rewrite parity_opp by done.
    destruct (parity_bit (fev X)), HS; lia.
Qed.

Lemma sign_bit s : bytes_ok s -> length s = 32%nat -> Z.shiftr (byte_at s 31) 7 = (le_val s / 2 ^ 255)%Z.
Proof.
  intros HB HL. rewrite byte_at_val by done. pose proof (le_val_bound s HB) as B. rewrite HL in B.
  change (Z.of_nat 32) with 32%Z in B. change (Z.of_nat 31) with 31%Z.
  rewrite Z.mod_small by (split; [apply Z.div_pos; lia|apply Z.div_lt_upper_bound; lia]).
  rewrite Z.shiftr_div_pow2, Z.div_div by lia. f_equal.
Qed.

(** FromBytes decides whether the encoded y belongs to the curve, and returns a point with it, its x of
    the sign asked for (or 0, which has one sign only). *)
Lemma FromBytes_spec p s (y := Zmod.of_Z p25519 (le_val s mod 2 ^ 255)) :
  bytes_ok s -> length s = 32%nat ->
  match FromBytes p s with
  | (true, e) => exists P, rep_ext e P /\ ey P = y /\ (parity (ex P) = (le_val s / 2 ^ 255)%Z \/ ex P = 0)
  | (false, _) => forall P, ey P <> y
  end.
Proof.
  intros HB HL. destruct (FeFromBytes_spec s HB HL) as [HY EY]. apply of_Z_feq in EY. fold (fev (FeFromBytes s)) y in EY.
  pose proof (root_spec (FeFromBytes s) HY) as HR. rewrite EY in HR. cbv zeta in HR.
  unfold FromBytes. cbv zeta. destruct (if _ =? 1 then _ else _)%Z as [[] X]; cbn [fst snd].
  - destruct HR as [HX HR]. pose proof (sign_spec X (Z.shiftr (byte_at s 31) 7) HX) as HS.
    rewrite sign_bit in * by done. destruct (FeIsNegative X) as [neg X1].
    set (X2 := if negb _ then _ else _) in *. clearbody X2. destruct HS as (H2 & ES & EP).
    { pose proof (le_val_bound s HB) as B. rewrite HL in B. change (Z.of_nat 32) with 32%Z in B.
      assert (0 <= le_val s / 2 ^ 255 < 2)%Z by (split; [apply Z.div_pos|apply Z.div_lt_upper_bound]; lia). lia. }
    assert (EdCurve.on_curve Zmod.one Zmod.add Zmod.mul Zmod.sub dF (fev X2) y) as HC.
    { apply (proj2 (curve_iff _ _)). rewrite HR. f_equal. destruct ES as [-> | ->]; ring. }
    exists (EdCurve.mkPoint _ _ _ _ _ _ _ HC). split; [|split; [reflexivity|exact EP]].
    split; cbn [eX eY eZ eT EdCurve.px EdCurve.py].
    + split_and!; fe_bounds.
    + rewrite fev_one. exact (Zmod.one_neq_zero (m := p25519) ltac:(done)).
    + rewrite fev_one. ring.
    + rewrite fev_one, EY. ring.
    + rewrite fev_one, fev_mul, EY by fe_bounds. ring.
  - intros P E. apply (HR (ex P)). rewrite <- E. exact (proj1 (curve_iff _ _) (EdCurve.point_ok _ _ _ _ _ P)).
Qed.

Lemma same_y P Q : ey P = ey Q -> ex P = ex Q \/ ex P = - ex Q.
Proof.
  intros E. pose proof (proj1 (curve_iff _ _) (EdCurve.point_ok _ _ _ _ _ P)) as HP.
  pose proof (proj1 (curve_iff _ _) (EdCurve.point_ok _ _ _ _ _ Q)) as HQ. rewrite E, HQ in HP.
  apply Fp_cancel in HP; [|apply v_nz].
  destruct (Fp_integral (ex P - ex Q) (ex P + ex Q)) as [E'|E'].
  - transitivity (ex P * ex P - ex Q * ex Q); [ring|]. rewrite HP. ring.
  - left. by apply Zmod.sub_eq_0_iff.
  - right. transitivity (ex P + ex Q - ex Q); [ring|]. rewrite E'. ring.
Qed.

(** The parts of an encoding. *)
Lemma enc_parts P :
  bytes_ok (enc P) /\ length (enc P) = 32%nat /\ Zmod.of_Z p25519 (le_val (enc P) mod 2 ^ 255) = ey P /\
  (le_val (enc P) / 2 ^ 255)%Z = parity (ex P).
Proof.
  unfold enc. rewrite length_le_bytes, le_val_le_bytes. pose proof (to_Z_bound (ey P)) as B.
  assert (p25519 = 2 ^ 255 - 19)%Z by reflexivity.
  pose proof (parity_bit (ex P)). change (Z.of_nat 32) with 32%Z.
  rewrite (Z.mod_small _ (256 ^ 32)) by lia.
  rewrite (Z.mul_comm (2 ^ 255)), Z_mod_plus_full, Z_div_plus_full by lia.
  rewrite (Z.mod_small (Zmod.to_Z _)), (Z.div_small (Zmod.to_Z _)) by lia.
  split_and!; [apply le_bytes_ok|done|apply Zmod.of_Z_to_Z|lia].
Qed.

(** Decoding the encoding of a point gives the point. *)
Lemma FromBytes_enc p P : exists e, FromBytes p (enc P) = (true, e) /\ rep_ext e P.
Proof.
  destruct (enc_parts P) as (HB & HL & EY & ES). pose proof (FromBytes_spec p (enc P) HB HL) as H. cbv zeta in H.
  rewrite EY, ES in H. destruct (FromBytes p (enc P)) as [[] e]; [|by destruct (H P)].
  destruct H as (Q & HQ & Ey & Hx). exists e. split; [done|].
  enough (Q = P) as <- by done. apply epoint_eq; [|done].
  destruct (same_y Q P Ey) as [E|E]; [done|]. destruct (decide (ex P = 0)) as [Z|NZ]; [rewrite E, Z; ring|].
  rewrite E in Hx. rewrite parity_opp in Hx by done. destruct Hx as [Hx|Hx].
  - destruct (parity_bit (ex P)); lia.
  - destruct NZ. transitivity (- - ex P); [ring|]. rewrite Hx. ring.
Qed.

(** C30. Encoding of points. Both ToBytes write the canonical 32 bytes of the point, whatever its representation (y, and the parity of x in the top bit); FromBytes of the encoding of a point returns true and a representation of that point. On any 32 bytes FromBytes returns true exactly when some point has the y they hold, and then the point with that y whose x has the parity asked for, or is 0. *)
Theorem point_encoding_correct p P s (y := Zmod.of_Z p25519 (le_val s mod 2 ^ 255)) :
  (forall e, rep_ext e P -> Extended_ToBytes e = enc P) /\
  (forall e, rep_proj e P -> Projective_ToBytes e = enc P) /\
  (exists e, FromBytes p (enc P) = (true, e) /\ rep_ext e P) /\
  (bytes_ok s -> length s = 32%nat ->
   match FromBytes p s with
   | (true, e) => exists P, rep_ext e P /\ ey P = y /\ (parity (ex P) = (le_val s / 2 ^ 255)%Z \/ ex P = 0)
   | (false, _) => forall P, ey P <> y
   end).
Proof.
  split_and!; [intros e; apply Extended_ToBytes_spec|intros e; apply Projective_ToBytes_spec|apply FromBytes_enc|
    apply FromBytes_spec].
Qed.

Lemma point_encoding_correct_witness :
  Extended_ToBytes Extended_Zero = enc eneutral /\
  exists r, FromBytes Extended_Zero (replicate 32 7%Z) = r /\ (r.1 = true -> exists P, rep_ext r.2 P).
Proof.
  destruct (point_encoding_correct Extended_Zero eneutral (replicate 32 7%Z)) as (H1 & _ & _ & H2).
  split; [apply H1; exact Extended_Zero_spec|].
  assert (bytes_ok (replicate 32 7%Z)) as HB by (repeat constructor; lia). specialize (H2 HB eq_refl).
  eexists. split; [reflexivity|]. revert H2. generalize (FromBytes Extended_Zero (replicate 32 7%Z)).
  intros [[] e] H2; [|discriminate]. intros _. destruct H2 as (P & HP & _). exists P. exact HP.
Defined.
