(* ===== verification/Sha512.v ===== *)
(** * SHA-512

    The standard library's crypto/sha512, the hash of crypto/ed25519/base.go (FIPS 180-4): padding to
    blocks of 128 bytes, the message schedule and the 80 rounds on words of 64 bits. *)
From S2P Require Import Prelude.
#[local] Open Scope Z_scope.

Definition sha512_K : list Z :=
  [0x428a2f98d728ae22; 0x7137449123ef65cd; 0xb5c0fbcfec4d3b2f; 0xe9b5dba58189dbbc;
   0x3956c25bf348b538; 0x59f111f1b605d019; 0x923f82a4af194f9b; 0xab1c5ed5da6d8118;
   0xd807aa98a3030242; 0x12835b0145706fbe; 0x243185be4ee4b28c; 0x550c7dc3d5ffb4e2;
   0x72be5d74f27b896f; 0x80deb1fe3b1696b1; 0x9bdc06a725c71235; 0xc19bf174cf692694;
   0xe49b69c19ef14ad2; 0xefbe4786384f25e3; 0xfc19dc68b8cd5b5; 0x240ca1cc77ac9c65;
   0x2de92c6f592b0275; 0x4a7484aa6ea6e483; 0x5cb0a9dcbd41fbd4; 0x76f988da831153b5;
   0x983e5152ee66dfab; 0xa831c66d2db43210; 0xb00327c898fb213f; 0xbf597fc7beef0ee4;
   0xc6e00bf33da88fc2; 0xd5a79147930aa725; 0x6ca6351e003826f; 0x142929670a0e6e70;
   0x27b70a8546d22ffc; 0x2e1b21385c26c926; 0x4d2c6dfc5ac42aed; 0x53380d139d95b3df;
   0x650a73548baf63de; 0x766a0abb3c77b2a8; 0x81c2c92e47edaee6; 0x92722c851482353b;
   0xa2bfe8a14cf10364; 0xa81a664bbc423001; 0xc24b8b70d0f89791; 0xc76c51a30654be30;
   0xd192e819d6ef5218; 0xd69906245565a910; 0xf40e35855771202a; 0x106aa07032bbd1b8;
   0x19a4c116b8d2d0c8; 0x1e376c085141ab53; 0x2748774cdf8eeb99; 0x34b0bcb5e19b48a8;
   0x391c0cb3c5c95a63; 0x4ed8aa4ae3418acb; 0x5b9cca4f7763e373; 0x682e6ff3d6b2b8a3;
   0x748f82ee5defb2fc; 0x78a5636f43172f60; 0x84c87814a1f0ab72; 0x8cc702081a6439ec;
   0x90befffa23631e28; 0xa4506cebde82bde9; 0xbef9a3f7b2c67915; 0xc67178f2e372532b;
   0xca273eceea26619c; 0xd186b8c721c0c207; 0xeada7dd6cde0eb1e; 0xf57d4f7fee6ed178;
   0x6f067aa72176fba; 0xa637dc5a2c898a6; 0x113f9804bef90dae; 0x1b710b35131c471b;
   0x28db77f523047d84; 0x32caab7b40c72493; 0x3c9ebe0a15c9bebc; 0x431d67c49c100d4c;
   0x4cc5d4becb3e42b6; 0x597f299cfc657e2a; 0x5fcb6fab3ad6faec; 0x6c44198c4a475817].

Definition sha512_init : list Z :=
  [0x6a09e667f3bcc908; 0xbb67ae8584caa73b; 0x3c6ef372fe94f82b; 0xa54ff53a5f1d36f1;
   0x510e527fade682d1; 0x9b05688c2b3e6c1f; 0x1f83d9abfb41bd6b; 0x5be0cd19137e2179].

(** ** Words *)

Definition w64 (z : Z) : Z := Z.land z (Z.ones 64).
Definition rotr (n x : Z) : Z := Z.lor (Z.shiftr x n) (w64 (Z.shiftl x (64 - n))).

Definition big_sigma0 (x : Z) : Z := Z.lxor (rotr 28 x) (Z.lxor (rotr 34 x) (rotr 39 x)).
Definition big_sigma1 (x : Z) : Z := Z.lxor (rotr 14 x) (Z.lxor (rotr 18 x) (rotr 41 x)).
Definition small_sigma0 (x : Z) : Z := Z.lxor (rotr 1 x) (Z.lxor (rotr 8 x) (Z.shiftr x 7)).
Definition small_sigma1 (x : Z) : Z := Z.lxor (rotr 19 x) (Z.lxor (rotr 61 x) (Z.shiftr x 6)).
Definition choose (x y z : Z) : Z := Z.lxor (Z.land x (Z.lxor y z)) z.
Definition majority (x y z : Z) : Z := Z.lxor (Z.land x y) (Z.lxor (Z.land x z) (Z.land y z)).

(** ** A block *)

(** The next [n] words of the schedule, from the last sixteen, the oldest first. *)
Fixpoint schedule (n : nat) (w : list Z) : list Z :=
  match n, w with
  | S n, w0 :: w1 :: w2 :: w3 :: w4 :: w5 :: w6 :: w7 :: w8 :: w9 :: w10 :: w11 :: w12 :: w13 :: w14 :: w15 :: _ =>
    let x := w64 (small_sigma1 w14 + w9 + small_sigma0 w1 + w0) in
    w0 :: schedule n [w1; w2; w3; w4; w5; w6; w7; w8; w9; w10; w11; w12; w13; w14; w15; x]
  | _, _ => w
  end.

Definition round (s : list Z) (kw : Z * Z) : list Z :=
  match s with
  | [a; b; c; d; e; f; g; h] =>
    let t1 := h + big_sigma1 e + choose e f g + kw.1 + kw.2 in
    let t2 := big_sigma0 a + majority a b c in
    [w64 (t1 + t2); a; b; c; w64 (d + t1); e; f; g]
  | _ => s
  end.

Fixpoint be_words (l : list Z) : list Z :=
  match l with
  | b0 :: b1 :: b2 :: b3 :: b4 :: b5 :: b6 :: b7 :: l => be_val [b0; b1; b2; b3; b4; b5; b6; b7] :: be_words l
  | _ => []
  end.

Definition block (h : list Z) (p : list Z) : list Z :=
  let s := foldl round h (combine sha512_K (schedule 64 (be_words p))) in
  zip_with (fun x y => w64 (x + y)) h s.

(** ** Messages *)

(** A one bit, zeros up to 112 modulo 128, and the length in bits. *)
Definition padding (len : nat) : list Z :=
  [128] ++ replicate ((239 - len mod 128) mod 128) 0 ++ be_bytes 8 0 ++ be_bytes 8 (8 * Z.of_nat len).

Fixpoint blocks (n : nat) (h p : list Z) : list Z :=
  match n with
  | O => h
  | S n => blocks n (block h (take 128 p)) (drop 128 p)
  end.

(** sha512.Sum512, and sha512.New followed by Writes whose concatenation is [msg]. *)
Definition Sum512 (msg : list Z) : list Z :=
  let p := msg ++ padding (length msg) in
  flat_map (be_bytes 8) (take 8 (blocks (length p / 128) sha512_init p)).

Example Sum512_abc : be_val (Sum512 [97; 98; 99]) = 0xddaf35a193617abacc417349ae20413112e6fa4e89a97ea20a9eeee64b55d39a2192992a274fc1a836ba3c23a3feebbd454d4423643ce80e2a9ac94fa54ca49f.
Proof. vm_compute. reflexivity. Qed.

Example Sum512_empty : be_val (Sum512 []) = 0xcf83e1357eefb8bdf1542850d66d8007d620e4050b5715dc83f4a921d36ce9ce47d0d13c5d85f2b0ff8318d2877eec2f63b931bd47417a81a538327af927da3e.
Proof. vm_compute. reflexivity. Qed.

Example Sum512_two_blocks : be_val (Sum512 (replicate 112 97)) = 0xc01d080efd492776a1c43bd23dd99d0a2e626d481e16782e75d54c2503b5dc32bd05f0f1ba33e568b88fd2d970929b719ecbb152f58f130a407c8830604b70ca.
Proof. vm_compute. reflexivity. Qed.

Example Sum512_one_block : be_val (Sum512 (replicate 111 97)) = 0xfa9121c7b32b9e01733d034cfc78cbf67f926c7ed83e82200ef86818196921760b4beff48404df811b953828274461673c68d04e297b0eb7b2b4d60fc6b566a2.
Proof. vm_compute. reflexivity. Qed.

(** ** The digest *)

Lemma blocks_length n h p : length h = 8%nat -> length (blocks n h p) = 8%nat.
Proof.
  revert h p. induction n as [|n IH]; intros h p H; [done|]. cbn [blocks]. apply IH. unfold block.
  set (l := combine _ _). clearbody l.
  assert (length (foldl round h l) = 8%nat) as F.
  { revert h H. induction l as [|kw l IHl]; intros h H; [done|]. cbn [foldl]. apply IHl.
    do 8 (destruct h as [|? h]; [done|]). by destruct h. }
  rewrite length_zip_with, H, F. done.
Qed.

Lemma Sum512_length msg : length (Sum512 msg) = 64%nat.
Proof.
  unfold Sum512. cbv zeta. set (n := (_ / 128)%nat). set (p := msg ++ _).
  pose proof (blocks_length n sha512_init p eq_refl) as L. destruct (blocks n sha512_init p) as [|x0 l]; [done|].
  do 7 (destruct l as [|? l]; [done|]). done.
Qed.

Lemma Sum512_ok msg : bytes_ok (Sum512 msg).
Proof.
  unfold Sum512. cbv zeta. generalize (take 8 (blocks (length (msg ++ padding (length msg)) / 128) sha512_init (msg ++ padding (length msg)))).
  intros l. induction l as [|x l IH]; [constructor|]. cbn [flat_map]. apply bytes_ok_app. split; [apply be_bytes_ok|done].
Qed.
