(* ===== verification/Ed25519.v ===== *)
(** * Ed25519 signatures

    crypto/ed25519/base.go (key generation, signing and verification) and crypto/ed25519/ed25519.go (the
    signature policy of the network layer). *)
From S2P Require Import Prelude KeyPair EdScalar EdField EdPrime EdCurve EdTables EdGroup EdPoint EdRecode EdBase EdMult EdEncode Sha512.
From Stdlib Require Import Zmod.Zmod.
#[local] Open Scope Z_scope.
#[local] Open Scope go_scope.

(** ** base.go *)

Definition PublicKeySize : nat := 32.
Definition PrivateKeySize : nat := 64.
Definition SignatureSize : nat := 64.

Inductive ed_err := ErrRead | ErrHashed.

(** What io.ReadFull of 32 bytes returns. *)
Definition reader := res ed_err (list Z).

(** priv[32:] panics on a shorter key. *)
Definition Public (priv : list Z) : res ed_err (list Z) :=
  if (length priv <? 32)%nat then Panic
  else Ok (take PublicKeySize (drop 32 priv ++ replicate PublicKeySize 0)).

(** [cryptorand] is crypto/rand.Reader, for a [rand] of nil. *)
Definition GenerateKey (cryptorand : reader) (rand : option reader) : res ed_err (list Z * list Z) :=
  let rand := default cryptorand rand in
  let? seed := rand in
  let digest := Sum512 seed in
  let digest := <[0%nat := Z.land (byte_at digest 0) 248]> digest in
  let digest := <[31%nat := Z.land (byte_at digest 31) 127]> digest in
  let digest := <[31%nat := Z.lor (byte_at digest 31) 64]> digest in
  let hBytes := take 32 digest in
  let A := GeScalarMultBase hBytes in
  let publicKeyBytes := Extended_ToBytes A in
  Ok (publicKeyBytes, seed ++ publicKeyBytes).

Definition Sign (privateKey message : list Z) : res ed_err (list Z) :=
  if negb (length privateKey =? PrivateKeySize)%nat then Panic
  else
    let digest1 := Sum512 (take 32 privateKey) in
    let expandedSecretKey := take 32 digest1 in
    let expandedSecretKey := <[0%nat := Z.land (byte_at expandedSecretKey 0) 248]> expandedSecretKey in
    let expandedSecretKey := <[31%nat := Z.land (byte_at expandedSecretKey 31) 63]> expandedSecretKey in
    let expandedSecretKey := <[31%nat := Z.lor (byte_at expandedSecretKey 31) 64]> expandedSecretKey in
    let messageDigest := Sum512 (drop 32 digest1 ++ message) in
    let messageDigestReduced := ScReduce messageDigest in
    let R := GeScalarMultBase messageDigestReduced in
    let encodedR := Extended_ToBytes R in
    let hramDigest := Sum512 (encodedR ++ drop 32 privateKey ++ message) in
    let hramDigestReduced := ScReduce hramDigest in
    let s := ScMulAdd hramDigestReduced expandedSecretKey messageDigestReduced in
    Ok (encodedR ++ s).

(** The method of PrivateKey; [hash] is opts.HashFunc(). *)
Definition PrivateKey_Sign (priv message : list Z) (hash : Z) : res ed_err (list Z) :=
  if negb (hash =? 0) then Err ErrHashed else Sign priv message.

(** The group element FromBytes starts from. *)
Definition zero_element : ExtendedGroupElement := Ext FeZero FeZero FeZero FeZero.

Definition Verify (publicKey message sig : list Z) : res ed_err bool :=
  if negb (length publicKey =? PublicKeySize)%nat then Panic
  else if negb (length sig =? SignatureSize)%nat || negb (Z.land (byte_at sig 63) 224 =? 0) then Ok false
  else
    let '(ok, A) := FromBytes zero_element publicKey in
    if negb ok then Ok false
    else
      let A := Ext (FeNeg (eX A)) (eY A) (eZ A) (FeNeg (eT A)) in
      let digest := Sum512 (take 32 sig ++ publicKey ++ message) in
      let hReduced := ScReduce digest in
      let b := drop 32 sig in
      match GeDoubleScalarMultVartime hReduced A b with
      | Ok R => Ok (bool_decide (take 32 sig = Projective_ToBytes R))
      | _ => Panic
      end.

(** ** ed25519.go *)

Definition GenerateKeys (rand : reader) : res ed_err (list Z * list Z) :=
  match GenerateKey rand (Some rand) with
  | Ok (publicKey, privateKey) => Ok (privateKey, publicKey)
  | Err err => Err err
  | Panic => Panic
  end.

Definition Ed25519_PrivateToPublic (privateKey : list Z) : res ed_err (list Z) := Public privateKey.

Definition Ed25519_Sign (privateKey message : list Z) : res ed_err (list Z) :=
  if negb (length privateKey =? PrivateKeySize)%nat then Ok [] else Sign privateKey message.

Definition Ed25519_Verify (publicKey message signature : list Z) : res ed_err bool :=
  if negb (length publicKey =? PublicKeySize)%nat then Ok false else Verify publicKey message signature.

Definition RandomKeyPair (rand : reader) : res ed_err KeyPair :=
  match GenerateKey rand (Some rand) with
  | Ok (publicKey, privateKey) => Ok (mkKeyPair privateKey publicKey)
  | _ => Panic
  end.
#[local] Open Scope ed_scope.

(** ** The scheme on points *)

(** The first half of a digest with the bits of the scheme. *)
Definition clamped (d : list Z) : list Z :=
  <[31%nat := Z.lor (Z.land (byte_at (take 32 d) 31) 63) 64]> (<[0%nat := Z.land (byte_at (take 32 d) 0) 248]> (take 32 d)).

(** The secret scalar of a seed. *)
Definition secret (seed : list Z) : Z := le_val (clamped (Sum512 seed)).

(** A digest as a scalar. *)
Definition hash_scalar (l : list Z) : Z := le_val (Sum512 l) mod ell.

(** The signature of RFC 8032: R = rB, S = r + ha modulo the order. *)
Definition signature (seed pub message : list Z) : list Z :=
  let r := hash_scalar (drop 32 (Sum512 seed) ++ message) in
  let R := enc (r ⊗ B) in
  let h := hash_scalar (R ++ pub ++ message) in
  R ++ le_bytes 32 ((h * secret seed + r) mod ell).

(** A public key encodes the point [A]. *)
Definition decodes (pub : list Z) (A : epoint) : Prop :=
  ey A = Zmod.of_Z p25519 (le_val pub mod 2 ^ 255) /\
  (parity (ex A) = le_val pub / 2 ^ 255 \/ ex A = Zmod.zero).

(** The equation that verification checks: R = SB - hA. *)
Definition valid (pub message sig : list Z) : Prop :=
  length sig = 64%nat /\ le_val (drop 32 sig) < 2 ^ 253 /\
  exists A, decodes pub A /\
    take 32 sig = enc (le_val (drop 32 sig) ⊗ B ⊕ eopp (hash_scalar (take 32 sig ++ pub ++ message) ⊗ A)).

(** ** Clamping *)

Lemma byte_forall (f : Z -> bool) x :
  forallb (fun n => f (Z.of_nat n)) (seq 0 256) = true -> 0 <= x < 256 -> f x = true.
Proof.
  intros H Hx. rewrite forallb_forall in H. specialize (H (Z.to_nat x)). rewrite Z2Nat.id in H by lia.
  apply H. apply in_seq. lia.
Qed.

Lemma clamp_byte x :
  0 <= x < 256 -> Z.lor (Z.land x 127) 64 = Z.lor (Z.land x 63) 64 /\ 0 <= Z.lor (Z.land x 63) 64 <= 127.
Proof.
  intros Hx. pose proof (byte_forall (fun x => (Z.lor (Z.land x 127) 64 =? Z.lor (Z.land x 63) 64) &&
    (0 <=? Z.lor (Z.land x 63) 64) && (Z.lor (Z.land x 63) 64 <=? 127)) x eq_refl Hx) as H.
  cbv beta in H. lia.
Qed.

Lemma low_byte x : 0 <= x < 256 -> 0 <= Z.land x 248 < 256.
Proof.
  intros Hx. pose proof (byte_forall (fun x => (0 <=? Z.land x 248) && (Z.land x 248 <? 256)) x eq_refl Hx) as H.
  cbv beta in H. lia.
Qed.

Lemma top_bits x : 0 <= x < 256 -> (Z.land x 224 =? 0) = (x <? 32).
Proof.
  intros Hx. pose proof (byte_forall (fun x => Bool.eqb (Z.land x 224 =? 0) (x <? 32)) x eq_refl Hx) as H.
  by apply Bool.eqb_prop in H.
Qed.

Lemma byte_at_insert l i b : (i < length l)%nat -> byte_at (<[i := b]> l) i = b.
Proof. intros H. unfold byte_at. by rewrite nth_lookup, list_lookup_insert_eq. Qed.

Lemma byte_at_insert_ne l i j b : i <> j -> byte_at (<[i := b]> l) j = byte_at l j.
Proof. intros H. unfold byte_at. by rewrite !nth_lookup, list_lookup_insert_ne. Qed.

Lemma byte_at_take l n i : (i < n)%nat -> byte_at (take n l) i = byte_at l i.
Proof. intros H. unfold byte_at. by rewrite !nth_lookup, lookup_take_lt. Qed.

Lemma byte_at_ok l i : bytes_ok l -> 0 <= byte_at l i < 256.
Proof.
  intros H. unfold byte_at. rewrite nth_lookup. destruct (l !! i) as [b|] eqn:E; cbn; [|lia].
  by apply (Forall_lookup_1 _ _ _ _ H E).
Qed.

Section digest.
Context (d : list Z) (d_ok : bytes_ok d) (d_length : length d = 64%nat).

Lemma clamped_spec : bytes_ok (clamped d) /\ length (clamped d) = 32%nat /\ byte_at (clamped d) 31 <= 127.
Proof.
  unfold clamped. rewrite !length_insert, length_take, d_length, byte_at_insert by (rewrite length_insert, length_take, d_length; lia).
  pose proof (Forall_take _ 32 _ d_ok) as T. pose proof (byte_at_ok (take 32 d) 31 T) as B31.
  pose proof (byte_at_ok (take 32 d) 0 T) as B0. apply clamp_byte in B31 as [_ B31]. apply low_byte in B0.
  split_and!; [|done|lia]. apply Forall_insert; [apply Forall_insert|]; [done|lia|lia].
Qed.

(** GenerateKey clears the bit that it then sets. *)
Lemma clamp_generate :
  take 32 (let digest := <[0%nat := Z.land (byte_at d 0) 248]> d in
    let digest := <[31%nat := Z.land (byte_at digest 31) 127]> digest in
    <[31%nat := Z.lor (byte_at digest 31) 64]> digest) = clamped d.
Proof.
  cbv zeta. unfold clamped. rewrite !take_insert_lt by lia. rewrite list_insert_insert_eq.
  rewrite byte_at_insert by (rewrite length_insert; lia). rewrite byte_at_insert_ne by lia.
  rewrite !byte_at_take by lia. by rewrite (proj1 (clamp_byte _ (byte_at_ok d 31 d_ok))).
Qed.

Lemma clamp_sign :
  (let e := take 32 d in
    let e := <[0%nat := Z.land (byte_at e 0) 248]> e in
    let e := <[31%nat := Z.land (byte_at e 31) 63]> e in
    <[31%nat := Z.lor (byte_at e 31) 64]> e) = clamped d.
Proof.
  cbv zeta. unfold clamped. rewrite list_insert_insert_eq. 
  rewrite byte_at_insert by (rewrite length_insert, length_take, d_length; lia). by rewrite byte_at_insert_ne by lia.
Qed.
End digest.

(** ** Scalars *)

Lemma ell_bounds : 0 < ell /\ ell < 2 ^ 253.
Proof. unfold ell. lia. Qed.

Lemma reduced_spec l :
  le_val (ScReduce (Sum512 l)) = hash_scalar l /\ bytes_ok (ScReduce (Sum512 l)) /\
  length (ScReduce (Sum512 l)) = 32%nat /\ 0 <= hash_scalar l < ell.
Proof.
  rewrite ScReduce_correct by (apply Sum512_ok || apply Sum512_length). unfold hash_scalar.
  pose proof (Z.mod_pos_bound (le_val (Sum512 l)) ell (proj1 ell_bounds)). pose proof ell_bounds.
  rewrite le_val_le_bytes, length_le_bytes, (Z.mod_small _ (256 ^ _)) by (change (Z.of_nat 32) with 32; lia).
  split_and!; [done|apply le_bytes_ok|done|lia|lia].
Qed.

(** A scalar below 2^253 leaves its top byte below 32. *)
Lemma top_byte s : bytes_ok s -> length s = 32%nat -> (byte_at s 31 <? 32) = (le_val s <? 2 ^ 253).
Proof.
  intros HB HL. rewrite byte_at_val by done. pose proof (le_val_bound s HB) as B. rewrite HL in B.
  change (Z.of_nat 32) with 32 in B. change (Z.of_nat 31) with 31.
  rewrite Z.mod_small by (split; [apply Z.div_pos; lia|apply Z.div_lt_upper_bound; lia]).
  destruct (Z.ltb_spec (le_val s) (2 ^ 253)).
  - apply Z.ltb_lt, Z.div_lt_upper_bound; lia.
  - apply Z.ltb_ge, Z.div_le_lower_bound; lia.
Qed.

Lemma reduced_base l : rep_ext (GeScalarMultBase (ScReduce (Sum512 l))) (hash_scalar l ⊗ B).
Proof.
  destruct (reduced_spec l) as (<- & HB & HL & HV). pose proof ell_bounds.
  apply GeScalarMultBase_spec; [done..|]. pose proof (top_byte _ HB HL) as T.
  rewrite (proj2 (Z.ltb_lt (le_val _) _)) in T by lia. lia.
Qed.

(** ** Key generation and signing *)

Lemma GenerateKey_Ok (cryptorand : reader) (rand : option reader) seed :
  default cryptorand rand = Ok seed ->
  GenerateKey cryptorand rand = Ok (enc (secret seed ⊗ B), seed ++ enc (secret seed ⊗ B)).
Proof.
  intros E. pose proof (clamp_generate _ (Sum512_ok seed) (Sum512_length seed)) as C. cbv zeta in C.
  destruct (clamped_spec _ (Sum512_ok seed) (Sum512_length seed)) as (HB & HL & H7).
  unfold GenerateKey. destruct rand as [rand|]; cbn [default from_option id] in *; subst; cbn [res_bind]; cbv zeta.
  all: by rewrite C, (Extended_ToBytes_spec _ _ (GeScalarMultBase_spec _ HB HL H7)).
Qed.

Lemma Sign_Ok priv message :
  length priv = 64%nat -> Sign priv message = Ok (signature (take 32 priv) (drop 32 priv) message).
Proof.
  intros HL. pose proof (clamp_sign _ (Sum512_length (take 32 priv))) as C. cbv zeta in C.
  unfold Sign. rewrite HL. cbn [PrivateKeySize Nat.eqb negb]. cbv zeta. rewrite C.
  destruct (clamped_spec _ (Sum512_ok (take 32 priv)) (Sum512_length (take 32 priv))) as (HB & HC & _).
  rewrite (Extended_ToBytes_spec _ _ (reduced_base _)). unfold signature. cbv zeta.
  set (r := drop 32 (Sum512 (take 32 priv)) ++ message).
  set (h := enc (hash_scalar r ⊗ B) ++ drop 32 priv ++ message).
  destruct (reduced_spec r) as (Er & Br & Lr & _). destruct (reduced_spec h) as (Eh & Bh & Lh & _).
  by rewrite ScMulAdd_correct, Er, Eh by done.
Qed.

(** ** Verification *)

Lemma rep_ext_opp p P : rep_ext p P -> rep_ext (Ext (FeNeg (eX p)) (eY p) (eZ p) (FeNeg (eT p))) (eopp P).
Proof.
  intros [(?&?&?&?) HZ HX HY HT]. split; cbn [eX eY eZ eT].
  - split_and!; fe_bounds.
  - done.
  - rewrite fev_neg, HX by fe_bounds. cbn. ring.
  - rewrite HY. reflexivity.
  - rewrite fev_neg, HT by fe_bounds. cbn. ring.
Qed.

Lemma decodes_inj pub P Q : decodes pub P -> decodes pub Q -> P = Q.
Proof.
  intros [Py Px] [Qy Qx]. assert (ey P = ey Q) as E by congruence. apply epoint_eq; [|done].
  destruct (decide (ex Q = Zmod.zero)) as [Z|NZ].
  { destruct (same_y P Q E) as [->|X]; [done|]. rewrite X, Z. ring. }
  destruct (same_y P Q E) as [|X]; [done|]. destruct NZ. destruct Qx as [Qx|Qx]; [|done].
  destruct Px as [Px|Px].
  - destruct (decide (ex Q = Zmod.zero)) as [|NZ]; [done|]. rewrite X, parity_opp in Px by done.
    destruct (parity_bit (ex Q)); lia.
  - transitivity (Zmod.opp (Zmod.opp (ex Q))); [ring|]. rewrite <- X, Px. ring.
Qed.

Lemma sig_scalar sig :
  bytes_ok sig -> length sig = 64%nat -> (Z.land (byte_at sig 63) 224 =? 0) = (le_val (drop 32 sig) <? 2 ^ 253).
Proof.
  intros HB HL. rewrite top_bits by (by apply byte_at_ok).
  rewrite <- top_byte by (by apply Forall_drop || by rewrite length_drop, HL). f_equal.
  unfold byte_at. by rewrite !nth_lookup, lookup_drop.
Qed.

(** Verify never panics on a key of the right size, and accepts exactly the valid signatures. *)
Lemma Verify_Ok pub message sig :
  bytes_ok pub -> length pub = 32%nat -> bytes_ok sig ->
  exists b, Verify pub message sig = Ok b /\ (b = true <-> valid pub message sig).
Proof.
  intros HP LP HS. unfold Verify. rewrite LP. cbn [PublicKeySize Nat.eqb negb].
  destruct (Nat.eqb_spec (length sig) SignatureSize) as [LS|LS]; cbn [negb orb].
  2:{ exists false. split; [done|]. split; [done|]. intros [? _]. done. }
  rewrite sig_scalar by done. destruct (Z.ltb_spec (le_val (drop 32 sig)) (2 ^ 253)) as [Hs|Hs]; cbn [negb].
  2:{ exists false. split; [done|]. split; [done|]. intros (_ & ? & _). lia. }
  pose proof (FromBytes_spec zero_element pub HP LP) as HF. cbv zeta in HF.
  destruct (FromBytes zero_element pub) as [[] A]; cbn [negb].
  2:{ exists false. split; [done|]. split; [done|]. intros (_ & _ & A' & [E _] & _). by apply HF in E. }
  destruct HF as (P & HA & HD). set (h := take 32 sig ++ pub ++ message).
  destruct (reduced_spec h) as (Eh & Bh & Lh & Vh). pose proof ell_bounds.
  destruct (GeDoubleScalarMultVartime_spec _ (drop 32 sig) _ _ Bh (Forall_drop _ 32 _ HS) ltac:(lia) Hs
    (rep_ext_opp _ _ HA)) as (R & -> & HR).
  rewrite (Projective_ToBytes_spec _ _ HR), Eh, <- eopp_mul, eadd_comm.
  eexists. split; [done|]. rewrite bool_decide_eq_true. split.
  - intros E. split_and!; [done|done|]. exists P. split; [exact HD|]. exact E.
  - intros (_ & _ & P' & HD' & E). by rewrite (decodes_inj pub P P' HD HD').
Qed.

Lemma decodes_enc P : decodes (enc P) P.
Proof. destruct (enc_parts P) as (_ & _ & Ey & Ex). split; [exact (eq_sym Ey)|left; exact (eq_sym Ex)]. Qed.

(** The signature of a seed is valid for its public key. *)
Lemma signature_valid seed message :
  valid (enc (secret seed ⊗ B)) message (signature seed (enc (secret seed ⊗ B)) message).
Proof.
  unfold signature. cbv zeta. set (r := hash_scalar _). set (pub := enc (secret seed ⊗ B)).
  set (h := hash_scalar (enc (r ⊗ B) ++ pub ++ message)). pose proof ell_bounds.
  assert (length (enc (r ⊗ B)) = 32%nat) as LR by apply enc_parts.
  unfold valid. rewrite length_app, LR, length_le_bytes, !take_app_length', !drop_app_length' by done.
  pose proof (Z.mod_pos_bound (h * secret seed + r) ell ltac:(lia)).
  rewrite le_val_le_bytes, (Z.mod_small _ (256 ^ _)) by (change (Z.of_nat 32) with 32; lia).
  split_and!; [done|lia|]. exists (secret seed ⊗ B). split; [apply decodes_enc|]. fold h. f_equal.
  rewrite (emul_mod _ _ _ order_spec), emul_add, emul_mul, (eadd_comm (h ⊗ _)), <- eadd_assoc, eadd_opp_r.
  by rewrite eadd_0_r.
Qed.

Lemma signature_ok seed pub message : bytes_ok (signature seed pub message) /\ length (signature seed pub message) = 64%nat.
Proof.
  unfold signature. cbv zeta. set (R := enc _). destruct (enc_parts (hash_scalar (drop 32 (Sum512 seed) ++ message) ⊗ B)) as (HB & HL & _).
  rewrite length_app, length_le_bytes. fold R in HB, HL. rewrite HL. split; [|done].
  apply bytes_ok_app. split; [done|apply le_bytes_ok].
Qed.

Lemma Public_app seed pub : length seed = 32%nat -> length pub = 32%nat -> Public (seed ++ pub) = Ok pub.
Proof.
  intros Ls Lp. unfold Public. rewrite length_app, Ls, Lp. cbn [Nat.add Nat.ltb Nat.leb].
  by rewrite drop_app_length', take_app_length' by done.
Qed.

(** ** The policy *)

(** Private keys as GenerateKey makes them. *)
Definition generated (priv : list Z) : Prop :=
  exists seed, length seed = 32%nat /\ priv = seed ++ enc (secret seed ⊗ B).

Definition ok_or {E A} (a : A) (r : res E A) : A := match r with Ok x => x | _ => a end.

#[export] Instance Ed25519_policy : SignaturePolicy := {
  KeyPair.PrivateKeySize := PrivateKeySize;
  KeyPair.PublicKeySize := PublicKeySize;
  KeyPair.PrivateToPublic priv := match Ed25519_PrivateToPublic priv with Ok pub => Some pub | _ => None end;
  KeyPair.policy_Sign priv message := ok_or [] (Ed25519_Sign priv message);
  KeyPair.policy_Verify pub message sig := ok_or false (Ed25519_Verify pub message sig) }.

Lemma sign_verify_generated seed message (pub := enc (secret seed ⊗ B)) :
  length seed = 32%nat ->
  exists sig, Ed25519_Sign (seed ++ pub) message = Ok sig /\ length sig = 64%nat /\ bytes_ok sig /\
    Ed25519_Verify pub message sig = Ok true.
Proof.
  intros Ls. destruct (enc_parts (secret seed ⊗ B)) as (HB & LP & _). fold pub in HB, LP.
  exists (signature seed pub message). destruct (signature_ok seed pub message) as [SB SL].
  unfold Ed25519_Sign, Ed25519_Verify. rewrite length_app, Ls, LP. cbn [Nat.add PrivateKeySize PublicKeySize Nat.eqb negb].
  rewrite Sign_Ok by (by rewrite length_app, Ls, LP). rewrite take_app_length', drop_app_length' by done.
  split_and!; [done..|]. destruct (Verify_Ok pub message (signature seed pub message) HB LP SB) as (b & -> & Hb).
  f_equal. apply Hb, signature_valid.
Qed.

#[export] Instance Ed25519_laws : SignatureLaws Ed25519_policy.
Proof.
  apply (Build_SignatureLaws Ed25519_policy generated).
  - intros priv pub. unfold KeyPair.PrivateToPublic, KeyPair.PublicKeySize, Ed25519_policy, Ed25519_PrivateToPublic, Public. destruct (Nat.ltb_spec (length priv) 32); [done|].
    set (l := drop 32 priv ++ _). assert (32 <= length l)%nat by (unfold l; rewrite length_app, length_replicate; unfold PublicKeySize; lia).
    intros [= <-]. rewrite length_take. unfold PublicKeySize. lia.
  - intros priv pub msg (seed & Ls & ->) _.
    unfold KeyPair.PrivateToPublic, KeyPair.policy_Sign, KeyPair.policy_Verify, Ed25519_policy, Ed25519_PrivateToPublic.
    rewrite Public_app by (done || apply enc_parts). intros [= <-].
    destruct (sign_verify_generated seed msg Ls) as (sig & -> & _ & _ & Hv). cbn [ok_or]. by rewrite Hv.
Defined.

(** ** Correctness *)

(** C6. What is signed verifies. From 32 bytes of entropy GenerateKey returns a public key of 32 and a private key of 64 bytes, whose Public is the public key (an entropy error is passed on, and RandomKeyPair panics on it); Sign with the private key, of the package and of the policy, returns a signature of 64 bytes, and Verify of the policy with the public key accepts it for the same message. Key generation, signing and verification use the scalar, field and group code as written, SHA-512 included. *)
Theorem ed25519_sign_verify rand message :
  (forall seed, rand = Ok seed -> length seed = 32%nat ->
   exists pub priv sig,
     GenerateKey rand None = Ok (pub, priv) /\ RandomKeyPair rand = Ok (mkKeyPair priv pub) /\
     GenerateKeys rand = Ok (priv, pub) /\
     length pub = 32%nat /\ length priv = 64%nat /\ Public priv = Ok pub /\
     PrivateKey_Sign priv message 0 = Ok sig /\ Ed25519_Sign priv message = Ok sig /\ length sig = 64%nat /\
     Ed25519_Verify pub message sig = Ok true) /\
  (forall e, rand = Err e -> GenerateKeys rand = Err e /\ RandomKeyPair rand = Panic).
Proof.
  split; [|by intros e ->]. intros seed -> Ls. set (pub := enc (secret seed ⊗ B)).
  destruct (sign_verify_generated seed message Ls) as (sig & HS & LS & SB & HV). fold pub in HS, HV.
  assert (length pub = 32%nat) as LP by apply enc_parts.
  exists pub, (seed ++ pub), sig. unfold GenerateKeys, RandomKeyPair.
  rewrite (GenerateKey_Ok (Ok seed) None seed eq_refl), (GenerateKey_Ok (Ok seed) (@Some reader (Ok seed)) seed eq_refl).
  fold pub. split_and!; try done; [by rewrite length_app, Ls, LP|by apply Public_app|].
  unfold Ed25519_Sign in HS. rewrite length_app, Ls, LP in HS. exact HS.
Qed.

Lemma ed25519_sign_verify_witness :
  exists pub priv sig,
    GenerateKey (Ok (replicate 32 7)) None = Ok (pub, priv) /\
    Ed25519_Sign priv [1; 2; 3] = Ok sig /\ Ed25519_Verify pub [1; 2; 3] sig = Ok true.
Proof.
  destruct (proj1 (ed25519_sign_verify (Ok (replicate 32 7)) [1; 2; 3]) (replicate 32 7) eq_refl eq_refl)
    as (pub & priv & sig & HG & _ & _ & _ & _ & _ & _ & HS & _ & HV).
  exists pub, priv, sig. auto.
Defined.

Lemma Sign_size priv message : length priv <> 64%nat -> Sign priv message = Panic.
Proof. intros L. unfold Sign, PrivateKeySize. by rewrite (proj2 (Nat.eqb_neq _ _) L). Qed.

Lemma Verify_size pub message sig : length pub <> 32%nat -> Verify pub message sig = Panic.
Proof. intros L. unfold Verify, PublicKeySize. by rewrite (proj2 (Nat.eqb_neq _ _) L). Qed.

(** C7. Signing and verifying are those of RFC 8032. Sign panics exactly on a private key of another size than 64 and otherwise returns R || S with R the encoding of rB, S = r + ha modulo the order, r and h the digests of prefix and message and of R, key and message, and a the clamped digest of the seed (the policy returns no bytes instead of the panic). Verify panics exactly on a public key of another size than 32 (the policy rejects it) and otherwise accepts exactly the signatures of 64 bytes with S below 2^253 for which the key decodes to a point A and R encodes SB - hA. *)
Theorem ed25519_rfc8032 priv pub message sig :
  Sign priv message =
    (if decide (length priv = 64%nat) then Ok (signature (take 32 priv) (drop 32 priv) message) else Panic) /\
  Ed25519_Sign priv message =
    Ok (if decide (length priv = 64%nat) then signature (take 32 priv) (drop 32 priv) message else []) /\
  (bytes_ok pub -> bytes_ok sig ->
   (if decide (length pub = 32%nat) then
      exists b, Verify pub message sig = Ok b /\ (b = true <-> valid pub message sig)
    else Verify pub message sig = Panic) /\
   exists b, Ed25519_Verify pub message sig = Ok b /\ (b = true <-> length pub = 32%nat /\ valid pub message sig)).
Proof.
  unfold Ed25519_Sign, Ed25519_Verify, PrivateKeySize, PublicKeySize. split_and!.
  - destruct (decide _) as [L|L]; [by apply Sign_Ok|by apply Sign_size].
  - destruct (decide _) as [L|L]; [rewrite L; by apply Sign_Ok|by rewrite (proj2 (Nat.eqb_neq _ _) L)].
  - intros HP HS. destruct (decide _) as [L|L].
    + rewrite L. destruct (Verify_Ok pub message sig HP L HS) as (b & E & Hb). split; [by exists b|].
      exists b. split; [done|]. rewrite Hb. tauto.
    + rewrite (proj2 (Nat.eqb_neq _ _) L). split; [by apply Verify_size|]. exists false. split; [done|].
      split; [done|]. by intros [? _].
Qed.

Lemma ed25519_rfc8032_witness :
  exists b, Ed25519_Verify (replicate 32 1) [5] (replicate 64 9) = Ok b /\
    (b = true <-> length (replicate 32 1) = 32%nat /\ valid (replicate 32 1) [5] (replicate 64 9)).
Proof.
  apply (proj2 (proj2 (ed25519_rfc8032 [] (replicate 32 1) [5] (replicate 64 9)))); repeat constructor; lia.
Defined.
