(* ===== verification/Amd64.v ===== *)
(** * fe_mul_amd64.s and fe_square_amd64.s: the products of the field on amd64

    A machine with the registers, the carry flag and the memory that the two routines use, their
    instructions one by one, and the proof that they multiply and square in radix 2^51 modulo
    2^255 - 19.  Words are Z in [0, 2^64); the memory maps byte addresses to the word stored there,
    and the routines use the words at multiples of 8 from three pointers. *)
From S2P Require Import Prelude.
Local Open Scope Z_scope.

Inductive reg := AX | BX | CX | DX | SI | DI | BP | R8 | R9 | R10 | R11 | R12 | R13 | R14 | R15.

#[global] Instance reg_eq_dec : EqDecision reg.
Proof. solve_decision. Defined.

(** [Mem o r] is o(r), [FP o] the argument at o(FP). *)
Inductive operand := Reg (r : reg) | Imm (z : Z) | Mem (off : Z) (base : reg) | FP (off : Z).

Declare Scope asm_scope.
Notation "o @ r" := (Mem o r) (at level 40, no associativity) : asm_scope.
Open Scope asm_scope.

(** Source first, destination last, as in Go's assembler.  [SHLDQ] is its SHLQ with three operands. *)
Inductive instr :=
| MOVQ (src dst : operand)
| MULQ (src : operand)
| IMUL3Q (imm : Z) (src dst : reg)
| ADDQ (src dst : reg)
| ADCQ (src dst : reg)
| ANDQ (src dst : reg)
| SHLQ (count : Z) (dst : reg)
| SHLDQ (count : Z) (src dst : reg)
| SHRQ (count : Z) (dst : reg).

Record machine := mkMachine { regs : reg -> Z; mem : Z -> Z; args : Z -> Z; cf : bool }.

Definition W : Z := 18446744073709551616.

Definition upd {A B} `{EqDecision A} (k : A) (v : B) (f : A -> B) : A -> B := fun x => if decide (x = k) then v else f x.

Definition set_reg (r : reg) (v : Z) (c : bool) (s : machine) : machine := mkMachine (upd r v (regs s)) (mem s) (args s) c.

Definition read (s : machine) (o : operand) : Z :=
  match o with Reg r => regs s r | Imm z => z | Mem off base => mem s (regs s base + off) | FP off => args s off end.

Definition signed (z : Z) : Z := if z <? 2 ^ 63 then z else z - W.

Definition step (i : instr) (s : machine) : machine :=
  match i with
  | MOVQ src (Reg r) => set_reg r (read s src) (cf s) s
  | MOVQ src (Mem off base) => mkMachine (regs s) (upd (regs s base + off) (read s src) (mem s)) (args s) (cf s)
  | MOVQ _ _ => s
  | MULQ src =>
    let p := regs s AX * read s src in
    set_reg DX (p / W) (negb (p / W =? 0)) (set_reg AX (p mod W) (cf s) s)
  | IMUL3Q imm src dst =>
    let p := imm * signed (regs s src) in
    set_reg dst (p mod W) (negb (p =? signed (p mod W))) s
  | ADDQ src dst => let v := regs s dst + regs s src in set_reg dst (v mod W) (W <=? v) s
  | ADCQ src dst => let v := regs s dst + regs s src + (if cf s then 1 else 0) in set_reg dst (v mod W) (W <=? v) s
  | ANDQ src dst => set_reg dst (Z.land (regs s dst) (regs s src)) false s
  | SHLQ count dst => set_reg dst (Z.shiftl (regs s dst) count mod W) (Z.testbit (regs s dst) (64 - count)) s
  | SHLDQ count src dst =>
    set_reg dst (Z.lor (Z.shiftl (regs s dst) count mod W) (Z.shiftr (regs s src) (64 - count)))
      (Z.testbit (regs s dst) (64 - count)) s
  | SHRQ count dst => set_reg dst (Z.shiftr (regs s dst) count) (Z.testbit (regs s dst) (count - 1)) s
  end.

Definition exec (l : list instr) (s : machine) : machine := foldl (fun s i => step i s) s l.

(** ** The two routines *)

Definition FeMul_text : list instr :=
  [MOVQ (FP 0) (Reg DI); MOVQ (FP 8) (Reg BX); MOVQ (FP 16) (Reg CX); MOVQ (0 @ BX) (Reg AX); MULQ (0 @ CX);
   MOVQ (Reg AX) (Reg SI); MOVQ (Reg DX) (Reg BP); MOVQ (8 @ BX) (Reg DX); IMUL3Q 19 DX AX; MULQ (32 @ CX); ADDQ AX SI;
   ADCQ DX BP; MOVQ (16 @ BX) (Reg DX); IMUL3Q 19 DX AX; MULQ (24 @ CX); ADDQ AX SI; ADCQ DX BP; MOVQ (24 @ BX) (Reg DX);
   IMUL3Q 19 DX AX; MULQ (16 @ CX); ADDQ AX SI; ADCQ DX BP; MOVQ (32 @ BX) (Reg DX); IMUL3Q 19 DX AX; MULQ (8 @ CX);
   ADDQ AX SI; ADCQ DX BP; MOVQ (0 @ BX) (Reg AX); MULQ (8 @ CX); MOVQ (Reg AX) (Reg R8); MOVQ (Reg DX) (Reg R9);
   MOVQ (8 @ BX) (Reg AX); MULQ (0 @ CX); ADDQ AX R8; ADCQ DX R9; MOVQ (16 @ BX) (Reg DX); IMUL3Q 19 DX AX;
   MULQ (32 @ CX); ADDQ AX R8; ADCQ DX R9; MOVQ (24 @ BX) (Reg DX); IMUL3Q 19 DX AX; MULQ (24 @ CX); ADDQ AX R8;
   ADCQ DX R9; MOVQ (32 @ BX) (Reg DX); IMUL3Q 19 DX AX; MULQ (16 @ CX); ADDQ AX R8; ADCQ DX R9; MOVQ (0 @ BX) (Reg AX);
   MULQ (16 @ CX); MOVQ (Reg AX) (Reg R10); MOVQ (Reg DX) (Reg R11); MOVQ (8 @ BX) (Reg AX); MULQ (8 @ CX); ADDQ AX R10;
   ADCQ DX R11; MOVQ (16 @ BX) (Reg AX); MULQ (0 @ CX); ADDQ AX R10; ADCQ DX R11; MOVQ (24 @ BX) (Reg DX);
   IMUL3Q 19 DX AX; MULQ (32 @ CX); ADDQ AX R10; ADCQ DX R11; MOVQ (32 @ BX) (Reg DX); IMUL3Q 19 DX AX; MULQ (24 @ CX);
   ADDQ AX R10; ADCQ DX R11; MOVQ (0 @ BX) (Reg AX); MULQ (24 @ CX); MOVQ (Reg AX) (Reg R12); MOVQ (Reg DX) (Reg R13);
   MOVQ (8 @ BX) (Reg AX); MULQ (16 @ CX); ADDQ AX R12; ADCQ DX R13; MOVQ (16 @ BX) (Reg AX); MULQ (8 @ CX); ADDQ AX R12;
   ADCQ DX R13; MOVQ (24 @ BX) (Reg AX); MULQ (0 @ CX); ADDQ AX R12; ADCQ DX R13; MOVQ (32 @ BX) (Reg DX);
   IMUL3Q 19 DX AX; MULQ (32 @ CX); ADDQ AX R12; ADCQ DX R13; MOVQ (0 @ BX) (Reg AX); MULQ (32 @ CX);
   MOVQ (Reg AX) (Reg R14); MOVQ (Reg DX) (Reg R15); MOVQ (8 @ BX) (Reg AX); MULQ (24 @ CX); ADDQ AX R14; ADCQ DX R15;
   MOVQ (16 @ BX) (Reg AX); MULQ (16 @ CX); ADDQ AX R14; ADCQ DX R15; MOVQ (24 @ BX) (Reg AX); MULQ (8 @ CX); ADDQ AX R14;
   ADCQ DX R15; MOVQ (32 @ BX) (Reg AX); MULQ (0 @ CX); ADDQ AX R14; ADCQ DX R15; MOVQ (Imm 2251799813685247) (Reg AX);
   SHLDQ 13 SI BP; ANDQ AX SI; SHLDQ 13 R8 R9; ANDQ AX R8; ADDQ BP R8; SHLDQ 13 R10 R11; ANDQ AX R10; ADDQ R9 R10;
   SHLDQ 13 R12 R13; ANDQ AX R12; ADDQ R11 R12; SHLDQ 13 R14 R15; ANDQ AX R14; ADDQ R13 R14; IMUL3Q 19 R15 R15;
   ADDQ R15 SI; MOVQ (Reg SI) (Reg DX); SHRQ 51 DX; ADDQ DX R8; MOVQ (Reg R8) (Reg DX); SHRQ 51 DX; ANDQ AX SI;
   ADDQ DX R10; MOVQ (Reg R10) (Reg DX); SHRQ 51 DX; ANDQ AX R8; ADDQ DX R12; MOVQ (Reg R12) (Reg DX); SHRQ 51 DX;
   ANDQ AX R10; ADDQ DX R14; MOVQ (Reg R14) (Reg DX); SHRQ 51 DX; ANDQ AX R12; IMUL3Q 19 DX DX; ADDQ DX SI; ANDQ AX R14;
   MOVQ (Reg SI) (0 @ DI); MOVQ (Reg R8) (8 @ DI); MOVQ (Reg R10) (16 @ DI); MOVQ (Reg R12) (24 @ DI);
   MOVQ (Reg R14) (32 @ DI)].

Definition FeSquare_text : list instr :=
  [MOVQ (FP 0) (Reg DI); MOVQ (FP 8) (Reg SI); MOVQ (0 @ SI) (Reg AX); MULQ (0 @ SI); MOVQ (Reg AX) (Reg CX);
   MOVQ (Reg DX) (Reg R8); MOVQ (8 @ SI) (Reg DX); IMUL3Q 38 DX AX; MULQ (32 @ SI); ADDQ AX CX; ADCQ DX R8;
   MOVQ (16 @ SI) (Reg DX); IMUL3Q 38 DX AX; MULQ (24 @ SI); ADDQ AX CX; ADCQ DX R8; MOVQ (0 @ SI) (Reg AX); SHLQ 1 AX;
   MULQ (8 @ SI); MOVQ (Reg AX) (Reg R9); MOVQ (Reg DX) (Reg R10); MOVQ (16 @ SI) (Reg DX); IMUL3Q 38 DX AX;
   MULQ (32 @ SI); ADDQ AX R9; ADCQ DX R10; MOVQ (24 @ SI) (Reg DX); IMUL3Q 19 DX AX; MULQ (24 @ SI); ADDQ AX R9;
   ADCQ DX R10; MOVQ (0 @ SI) (Reg AX); SHLQ 1 AX; MULQ (16 @ SI); MOVQ (Reg AX) (Reg R11); MOVQ (Reg DX) (Reg R12);
   MOVQ (8 @ SI) (Reg AX); MULQ (8 @ SI); ADDQ AX R11; ADCQ DX R12; MOVQ (24 @ SI) (Reg DX); IMUL3Q 38 DX AX;
   MULQ (32 @ SI); ADDQ AX R11; ADCQ DX R12; MOVQ (0 @ SI) (Reg AX); SHLQ 1 AX; MULQ (24 @ SI); MOVQ (Reg AX) (Reg R13);
   MOVQ (Reg DX) (Reg R14); MOVQ (8 @ SI) (Reg AX); SHLQ 1 AX; MULQ (16 @ SI); ADDQ AX R13; ADCQ DX R14;
   MOVQ (32 @ SI) (Reg DX); IMUL3Q 19 DX AX; MULQ (32 @ SI); ADDQ AX R13; ADCQ DX R14; MOVQ (0 @ SI) (Reg AX); SHLQ 1 AX;
   MULQ (32 @ SI); MOVQ (Reg AX) (Reg R15); MOVQ (Reg DX) (Reg BX); MOVQ (8 @ SI) (Reg AX); SHLQ 1 AX; MULQ (24 @ SI);
   ADDQ AX R15; ADCQ DX BX; MOVQ (16 @ SI) (Reg AX); MULQ (16 @ SI); ADDQ AX R15; ADCQ DX BX;
   MOVQ (Imm 2251799813685247) (Reg AX); SHLDQ 13 CX R8; ANDQ AX CX; SHLDQ 13 R9 R10; ANDQ AX R9; ADDQ R8 R9;
   SHLDQ 13 R11 R12; ANDQ AX R11; ADDQ R10 R11; SHLDQ 13 R13 R14; ANDQ AX R13; ADDQ R12 R13; SHLDQ 13 R15 BX; ANDQ AX R15;
   ADDQ R14 R15; IMUL3Q 19 BX DX; ADDQ DX CX; MOVQ (Reg CX) (Reg DX); SHRQ 51 DX; ADDQ DX R9; MOVQ (Reg R9) (Reg DX);
   SHRQ 51 DX; ANDQ AX CX; ADDQ DX R11; MOVQ (Reg R11) (Reg DX); SHRQ 51 DX; ANDQ AX R9; ADDQ DX R13;
   MOVQ (Reg R13) (Reg DX); SHRQ 51 DX; ANDQ AX R11; ADDQ DX R15; MOVQ (Reg R15) (Reg DX); SHRQ 51 DX; ANDQ AX R13;
   IMUL3Q 19 DX DX; ADDQ DX CX; ANDQ AX R15; MOVQ (Reg CX) (0 @ DI); MOVQ (Reg R9) (8 @ DI); MOVQ (Reg R11) (16 @ DI);
   MOVQ (Reg R13) (24 @ DI); MOVQ (Reg R15) (32 @ DI)].


(** ** Structure of the routines: five sums of products, a reduction, five stores *)

(** AX := c * x_i for the coefficients that occur. *)
Definition factor (c i : Z) (bx : reg) : list instr :=
  if c =? 1 then [MOVQ (8 * i @ bx) (Reg AX)]
  else if c =? 2 then [MOVQ (8 * i @ bx) (Reg AX); SHLQ 1 AX]
  else [MOVQ (8 * i @ bx) (Reg DX); IMUL3Q c DX AX].

(** hi:lo := c x_i y_j, or hi:lo += c x_i y_j. *)
Definition product (fresh : bool) (bx cx lo hi : reg) (t : Z * Z * Z) : list instr :=
  let '(c, i, j) := t in
  factor c i bx ++ MULQ (8 * j @ cx) ::
  (if fresh then [MOVQ (Reg AX) (Reg lo); MOVQ (Reg DX) (Reg hi)] else [ADDQ AX lo; ADCQ DX hi]).

Definition row (bx cx lo hi : reg) (t : Z * Z * Z) (ts : list (Z * Z * Z)) : list instr :=
  product true bx cx lo hi t ++ (ts ≫= product false bx cx lo hi).

(** The reduction; [h] receives 19 times the top carry. *)
Definition reduce (a0 b0 a1 b1 a2 b2 a3 b3 a4 b4 h : reg) : list instr :=
  [MOVQ (Imm 2251799813685247) (Reg AX); SHLDQ 13 a0 b0; ANDQ AX a0; SHLDQ 13 a1 b1; ANDQ AX a1; ADDQ b0 a1;
   SHLDQ 13 a2 b2; ANDQ AX a2; ADDQ b1 a2; SHLDQ 13 a3 b3; ANDQ AX a3; ADDQ b2 a3; SHLDQ 13 a4 b4; ANDQ AX a4; ADDQ b3 a4;
   IMUL3Q 19 b4 h; ADDQ h a0;
   MOVQ (Reg a0) (Reg DX); SHRQ 51 DX; ADDQ DX a1; MOVQ (Reg a1) (Reg DX); SHRQ 51 DX; ANDQ AX a0;
   ADDQ DX a2; MOVQ (Reg a2) (Reg DX); SHRQ 51 DX; ANDQ AX a1; ADDQ DX a3; MOVQ (Reg a3) (Reg DX); SHRQ 51 DX; ANDQ AX a2;
   ADDQ DX a4; MOVQ (Reg a4) (Reg DX); SHRQ 51 DX; ANDQ AX a3; IMUL3Q 19 DX DX; ADDQ DX a0; ANDQ AX a4].

Definition stores (a0 a1 a2 a3 a4 : reg) : list instr :=
  [MOVQ (Reg a0) (0 @ DI); MOVQ (Reg a1) (8 @ DI); MOVQ (Reg a2) (16 @ DI); MOVQ (Reg a3) (24 @ DI); MOVQ (Reg a4) (32 @ DI)].

Lemma FeMul_structure :
  FeMul_text = [MOVQ (FP 0) (Reg DI); MOVQ (FP 8) (Reg BX); MOVQ (FP 16) (Reg CX)] ++
    row BX CX SI BP (1, 0, 0) [(19, 1, 4); (19, 2, 3); (19, 3, 2); (19, 4, 1)] ++
    row BX CX R8 R9 (1, 0, 1) [(1, 1, 0); (19, 2, 4); (19, 3, 3); (19, 4, 2)] ++
    row BX CX R10 R11 (1, 0, 2) [(1, 1, 1); (1, 2, 0); (19, 3, 4); (19, 4, 3)] ++
    row BX CX R12 R13 (1, 0, 3) [(1, 1, 2); (1, 2, 1); (1, 3, 0); (19, 4, 4)] ++
    row BX CX R14 R15 (1, 0, 4) [(1, 1, 3); (1, 2, 2); (1, 3, 1); (1, 4, 0)] ++
    reduce SI BP R8 R9 R10 R11 R12 R13 R14 R15 R15 ++ stores SI R8 R10 R12 R14.
Proof. reflexivity. Qed.

Lemma FeSquare_structure :
  FeSquare_text = [MOVQ (FP 0) (Reg DI); MOVQ (FP 8) (Reg SI)] ++
    row SI SI CX R8 (1, 0, 0) [(38, 1, 4); (38, 2, 3)] ++
    row SI SI R9 R10 (2, 0, 1) [(38, 2, 4); (19, 3, 3)] ++
    row SI SI R11 R12 (2, 0, 2) [(1, 1, 1); (38, 3, 4)] ++
    row SI SI R13 R14 (2, 0, 3) [(2, 1, 2); (19, 4, 4)] ++
    row SI SI R15 BX (2, 0, 4) [(2, 1, 3); (1, 2, 2)] ++
    reduce CX R8 R9 R10 R11 R12 R13 R14 R15 BX DX ++ stores CX R9 R11 R13 R15.
Proof. reflexivity. Qed.

(** ** Rows *)

Lemma exec_app l1 l2 s : exec (l1 ++ l2) s = exec l2 (exec l1 s).
Proof. apply foldl_app. Qed.

(** The registers of [l] may have changed, nothing else has. *)
Definition same_but (l : list reg) (s s' : machine) : Prop :=
  (forall r, r ∉ l -> regs s' r = regs s r) /\ mem s' = mem s /\ args s' = args s.

Lemma same_but_trans l1 l2 s1 s2 s3 :
  l1 ⊆ l2 -> same_but l1 s1 s2 -> same_but l2 s2 s3 -> same_but l2 s1 s3.
Proof.
  intros Hl (R1 & M1 & A1) (R2 & M2 & A2). split_and!; [|congruence..].
  intros r Hr. rewrite R2 by done. apply R1. intros H. by apply Hr, Hl.
Qed.

Lemma upd_eq {A B} `{EqDecision A} (k : A) (v : B) f : upd k v f k = v.
Proof. unfold upd. by rewrite decide_True. Qed.
Lemma upd_ne {A B} `{EqDecision A} (k x : A) (v : B) f : x <> k -> upd k v f x = f x.
Proof. intros. unfold upd. by rewrite decide_False. Qed.

Definition coefficients : list Z := [1; 2; 19; 38].

Lemma factor_spec c i bx s x :
  c ∈ coefficients -> mem s (regs s bx + 8 * i) = x -> 0 <= x < 2 ^ 55 ->
  regs (exec (factor c i bx) s) AX = c * x /\ same_but [AX; DX] s (exec (factor c i bx) s).
Proof.
  intros Hc Hx B. set (s' := exec _ _).
  assert (same_but [AX; DX] s s') as F.
  { unfold s', factor. destruct (c =? 1), (c =? 2); split_and!; cbn; try done; intros r [? ?]%not_elem_of_cons;
      rewrite ?upd_ne; try done; set_solver. }
  split; [|done]. clear F. unfold s', factor. clear s'. unfold coefficients in Hc.
  repeat (apply elem_of_cons in Hc as [->|Hc]); [..|by apply elem_of_nil in Hc]; cbn; rewrite ?upd_eq; rewrite Hx.
  - lia.
  - rewrite Z.shiftl_mul_pow2 by lia. rewrite Z.mod_small; unfold W; lia.
  - unfold signed. rewrite (proj2 (Z.ltb_lt _ _)) by lia. rewrite Z.mod_small; unfold W; lia.
  - unfold signed. rewrite (proj2 (Z.ltb_lt _ _)) by lia. rewrite Z.mod_small; unfold W; lia.
Qed.

Lemma carry_add a p :
  0 <= a -> 0 <= p -> a + p < W * W ->
  (a mod W + p mod W) mod W = (a + p) mod W /\
  (a / W + p / W + (if W <=? a mod W + p mod W then 1 else 0)) mod W = (a + p) / W.
Proof.
  intros Ha Hp H. split; [symmetry; apply Z.add_mod; done|].
  assert (0 < W) as HW by done.
  pose proof (Z.div_mod a W ltac:(lia)) as Ea. pose proof (Z.div_mod p W ltac:(lia)) as Ep.
  pose proof (Z.mod_pos_bound a W HW). pose proof (Z.mod_pos_bound p W HW).
  assert (0 <= (a + p) / W < W) as B by (split; [apply Z.div_pos; lia|apply Z.div_lt_upper_bound; lia]).
  assert ((a + p) / W = a / W + p / W + (if W <=? a mod W + p mod W then 1 else 0)) as E; [|by rewrite <- E, Z.mod_small].
  symmetry. destruct (Z.leb_spec W (a mod W + p mod W)).
  - apply (Z.div_unique _ _ _ (a mod W + p mod W - W)); lia.
  - apply (Z.div_unique _ _ _ (a mod W + p mod W)); lia.
Qed.

(** The accumulator hi:lo holds a. *)
Definition holds (lo hi : reg) (a : Z) (s : machine) : Prop := regs s lo = a mod W /\ regs s hi = a / W.

Definition row_regs (bx cx lo hi : reg) : bool :=
  bool_decide ((lo <> AX /\ lo <> DX /\ lo <> bx /\ lo <> cx /\ lo <> hi) /\
    (hi <> AX /\ hi <> DX /\ hi <> bx /\ hi <> cx) /\ bx <> AX /\ bx <> DX /\ cx <> AX /\ cx <> DX).

(** Inequalities of registers from [row_regs] and from not being listed. *)
Ltac reg_ne :=
  repeat match goal with
  | H : row_regs _ _ _ _ = true |- _ => apply bool_decide_eq_true in H; destruct_and! H
  | H : _ ∉ _ :: _ |- _ => apply not_elem_of_cons in H as [? H]
  end;
  rewrite ?not_elem_of_cons; split_and?; first [assumption | apply not_elem_of_nil | by apply not_eq_sym].

Section rows.
Context (bx cx lo hi : reg) (ok : row_regs bx cx lo hi = true).
Context (x y : Z -> Z) (xb : forall i, 0 <= i < 5 -> 0 <= x i < 2 ^ 55) (yb : forall j, 0 <= j < 5 -> 0 <= y j < 2 ^ 55).

(** bx and cx point to the limbs x and y. *)
Definition points (s : machine) : Prop :=
  (forall i, 0 <= i < 5 -> mem s (regs s bx + 8 * i) = x i) /\ (forall j, 0 <= j < 5 -> mem s (regs s cx + 8 * j) = y j).

Definition term_ok (t : Z * Z * Z) : Prop := t.1.1 ∈ coefficients /\ 0 <= t.1.2 < 5 /\ 0 <= t.2 < 5.
Definition term_val (t : Z * Z * Z) : Z := t.1.1 * x t.1.2 * y t.2.

Lemma points_same s s' : points s -> same_but [AX; DX; lo; hi] s s' -> points s'.
Proof.
  intros [Px Py] (R & M & _). split; intros k Hk; rewrite M, R by reg_ne; auto.
Qed.

Lemma term_val_nonneg t : term_ok t -> 0 <= term_val t.
Proof.
  intros (Hc & Hi & Hj). unfold term_val. pose proof (xb _ Hi). pose proof (yb _ Hj).
  assert (0 <= t.1.1) by (unfold coefficients in Hc; repeat (apply elem_of_cons in Hc as [->|Hc]; [lia|]); by apply elem_of_nil in Hc).
  apply Z.mul_nonneg_nonneg; [apply Z.mul_nonneg_nonneg|]; lia.
Qed.

Lemma product_spec (fresh : bool) t s a :
  points s -> term_ok t -> (if fresh then a = 0 else holds lo hi a s) -> 0 <= a -> a + term_val t < W * W ->
  let s' := exec (product fresh bx cx lo hi t) s in
  holds lo hi (a + term_val t) s' /\ same_but [AX; DX; lo; hi] s s'.
Proof.
  intros P Ht H Ha Hb s'. pose proof (term_val_nonneg t Ht) as Tn. destruct t as [[c i] j]. destruct Ht as (Hc & Hi & Hj). cbn in Hc, Hi, Hj.
  unfold term_val in *. cbn [fst snd] in *.
  unfold s', product. rewrite exec_app.
  destruct (factor_spec c i bx s (x i) Hc (proj1 P i Hi) (xb i Hi)) as [EA F]. set (s1 := exec (factor c i bx) s) in *. clearbody s1.
  assert (points s1) as [_ P1].
  { eapply points_same; [done|]. destruct F as (R & M & A). split_and!; [|done..]. intros r Hr. apply R. reg_ne. }
  destruct F as (R & M & A).
  assert (regs s1 lo = regs s lo) as Elo by (apply R; reg_ne). assert (regs s1 hi = regs s hi) as Ehi by (apply R; reg_ne).
  specialize (P1 j Hj).
  assert (lo <> AX /\ lo <> DX /\ lo <> hi /\ hi <> AX /\ hi <> DX /\ cx <> AX) as (? & ? & ? & ? & ? & ?) by (split_and!; reg_ne).
  assert (AX <> DX /\ DX <> AX /\ hi <> lo /\ AX <> lo /\ DX <> lo) as (? & ? & ? & ? & ?) by (split_and!; by apply not_eq_sym || done).
  split; [|].
  - destruct fresh; cbn.
    + split; cbn; repeat first [rewrite upd_eq | rewrite upd_ne by assumption]; rewrite EA, P1, H, Z.add_0_l; done.
    + destruct H as [L Hh]. destruct (carry_add a (c * x i * y j) Ha Tn Hb) as [C1 C2].
      split; cbn; repeat first [rewrite upd_eq | rewrite upd_ne by assumption]; rewrite ?EA, ?P1, ?Elo, ?Ehi, ?L, ?Hh; done.
  - destruct fresh; (split_and!; [|done..]); intros r Hr; cbn; rewrite !upd_ne by reg_ne; apply R; reg_ne.
Qed.

Fixpoint row_val (ts : list (Z * Z * Z)) : Z := match ts with [] => 0 | t :: ts => term_val t + row_val ts end.

Lemma row_val_nonneg ts : Forall term_ok ts -> 0 <= row_val ts.
Proof. induction 1 as [|t ts Ht _ IH]; cbn; [lia|]. pose proof (term_val_nonneg t Ht). lia. Qed.

Lemma products_spec ts s a :
  points s -> Forall term_ok ts -> holds lo hi a s -> 0 <= a -> a + row_val ts < W * W ->
  let s' := exec (ts ≫= product false bx cx lo hi) s in
  holds lo hi (a + row_val ts) s' /\ same_but [AX; DX; lo; hi] s s'.
Proof.
  revert s a. induction ts as [|t ts IH]; intros s a P F H Ha Hb; cbn [row_val mbind list_bind].
  { rewrite Z.add_0_r. split; [done|]. by split_and!. }
  apply Forall_cons in F as [Ht F]. pose proof (row_val_nonneg ts F). pose proof (term_val_nonneg t Ht). cbn [row_val] in Hb.
  destruct (product_spec false t s a P Ht H Ha ltac:(lia)) as [Q1 S1]. rewrite exec_app.
  destruct (IH _ (a + term_val t) (points_same _ _ P S1) F Q1 ltac:(lia) ltac:(lia)) as [Q2 S2].
  rewrite Z.add_assoc. split; [done|]. by eapply same_but_trans.
Qed.

Lemma row_spec t ts s :
  points s -> Forall term_ok (t :: ts) -> row_val (t :: ts) < W * W ->
  let s' := exec (row bx cx lo hi t ts) s in
  holds lo hi (row_val (t :: ts)) s' /\ same_but [AX; DX; lo; hi] s s'.
Proof.
  intros P F Hb. apply Forall_cons in F as [Ht F]. pose proof (row_val_nonneg ts F). pose proof (term_val_nonneg t Ht). cbn [row_val] in *.
  unfold row. rewrite exec_app. destruct (product_spec true t s 0 P Ht eq_refl ltac:(lia) ltac:(lia)) as [Q1 S1].
  destruct (products_spec ts _ _ (points_same _ _ P S1) F Q1 ltac:(lia) ltac:(lia)) as [Q2 S2].
  split; [done|]. by eapply same_but_trans.
Qed.
End rows.

(** ** The reduction *)

Definition mask51 : Z := 2251799813685247.

Definition shld13 (src dst : Z) : Z := Z.lor (Z.shiftl dst 13 mod W) (Z.shiftr src 51).
Definition add64 (src dst : Z) : Z := (dst + src) mod W.
Definition mul19 (v : Z) : Z := (19 * signed v) mod W.

(** The words that [reduce] computes. *)
Definition reduce_words (a0 b0 a1 b1 a2 b2 a3 b3 a4 b4 : Z) : Z * Z * Z * Z * Z :=
  let b0 := shld13 a0 b0 in let a0 := Z.land a0 mask51 in
  let b1 := shld13 a1 b1 in let a1 := Z.land a1 mask51 in let a1 := add64 b0 a1 in
  let b2 := shld13 a2 b2 in let a2 := Z.land a2 mask51 in let a2 := add64 b1 a2 in
  let b3 := shld13 a3 b3 in let a3 := Z.land a3 mask51 in let a3 := add64 b2 a3 in
  let b4 := shld13 a4 b4 in let a4 := Z.land a4 mask51 in let a4 := add64 b3 a4 in
  let a0 := add64 (mul19 b4) a0 in
  let a1 := add64 (Z.shiftr a0 51) a1 in
  let a2 := add64 (Z.shiftr a1 51) a2 in
  let a3 := add64 (Z.shiftr a2 51) a3 in
  let a4 := add64 (Z.shiftr a3 51) a4 in
  (add64 (mul19 (Z.shiftr a4 51)) (Z.land a0 mask51), Z.land a1 mask51, Z.land a2 mask51, Z.land a3 mask51, Z.land a4 mask51).

Definition five (s : machine) (a0 a1 a2 a3 a4 : reg) : Z * Z * Z * Z * Z := (regs s a0, regs s a1, regs s a2, regs s a3, regs s a4).

(** Runs the machine on registers that are variables. *)
Ltac run_machine :=
  cbv -[Z.add Z.mul Z.modulo Z.div Z.land Z.lor Z.shiftl Z.shiftr Z.testbit Z.leb Z.ltb Z.eqb signed W]; split_and?; reflexivity.

Lemma reduce_mul s :
  let s' := exec (reduce SI BP R8 R9 R10 R11 R12 R13 R14 R15 R15) s in
  five s' SI R8 R10 R12 R14 = reduce_words (regs s SI) (regs s BP) (regs s R8) (regs s R9) (regs s R10) (regs s R11)
    (regs s R12) (regs s R13) (regs s R14) (regs s R15) /\
  regs s' DI = regs s DI /\ mem s' = mem s.
Proof. run_machine. Qed.

Lemma reduce_square s :
  let s' := exec (reduce CX R8 R9 R10 R11 R12 R13 R14 R15 BX DX) s in
  five s' CX R9 R11 R13 R15 = reduce_words (regs s CX) (regs s R8) (regs s R9) (regs s R10) (regs s R11) (regs s R12)
    (regs s R13) (regs s R14) (regs s R15) (regs s BX) /\
  regs s' DI = regs s DI /\ mem s' = mem s.
Proof. run_machine. Qed.

Lemma land_mask51 a : Z.land a mask51 = a mod 2 ^ 51.
Proof. change mask51 with (Z.ones 51). by rewrite Z.land_ones. Qed.

Lemma mod_mask51 a : (a mod W) mod 2 ^ 51 = a mod 2 ^ 51.
Proof. rewrite (Z.mod_eq a W) by done. replace (a - W * (a / W)) with (a + (- (2 ^ 13 * (a / W))) * 2 ^ 51) by (unfold W; lia). apply Z_mod_plus_full. Qed.

Lemma shld13_spec a : 0 <= a < 2 ^ 115 -> shld13 (a mod W) (a / W) = a / 2 ^ 51.
Proof.
  intros Ha. unfold shld13. change W with (2 ^ 64). rewrite Z.shiftr_div_pow2 by lia.
  assert (0 <= a / 2 ^ 64 < 2 ^ 51) as B by (split; [apply Z.div_pos; lia|apply Z.div_lt_upper_bound; lia]).
  assert (a mod 2 ^ 64 / 2 ^ 51 = (a / 2 ^ 51) mod 2 ^ 13) as ->.
  { rewrite (Z.mod_eq (a / 2 ^ 51)), Z.div_div by lia. change (2 ^ 51 * 2 ^ 13) with (2 ^ 64).
    rewrite Z.mod_eq by lia. replace (a - 2 ^ 64 * (a / 2 ^ 64)) with (a + (- (2 ^ 13 * (a / 2 ^ 64))) * 2 ^ 51) by lia.
    rewrite Z.div_add by lia. lia. }
  rewrite Z.mod_small by (rewrite Z.shiftl_mul_pow2 by lia; lia).
  rewrite Z.lor_comm, lor_add_disjoint by (try apply Z.mod_pos_bound; lia).
  rewrite (Z.mod_eq (a / 2 ^ 51)), Z.div_div by lia. change (2 ^ 51 * 2 ^ 13) with (2 ^ 64). lia.
Qed.

Lemma add64_small x y : 0 <= x + y < W -> add64 x y = y + x.
Proof. intros. unfold add64. apply Z.mod_small. lia. Qed.

Lemma mul19_small v : 0 <= v <= 6 * 2 ^ 57 -> mul19 v = 19 * v.
Proof. intros. unfold mul19, signed. rewrite (proj2 (Z.ltb_lt _ _)) by lia. apply Z.mod_small. unfold W. lia. Qed.

(** The value of five limbs in radix 2^51. *)
Definition limbs_val (v : Z * Z * Z * Z * Z) : Z :=
  let '(v0, v1, v2, v3, v4) := v in v0 + 2 ^ 51 * v1 + 2 ^ 102 * v2 + 2 ^ 153 * v3 + 2 ^ 204 * v4.

(** Limbs below 2^51, the first one only slightly above. *)
Definition limbs_tight (v : Z * Z * Z * Z * Z) : Prop :=
  let '(v0, v1, v2, v3, v4) := v in
  0 <= v0 < 2 ^ 51 + 2 ^ 18 /\ 0 <= v1 < 2 ^ 51 /\ 0 <= v2 < 2 ^ 51 /\ 0 <= v3 < 2 ^ 51 /\ 0 <= v4 < 2 ^ 51.

Ltac split_div e q r :=
  let H := fresh in let B := fresh in
  pose proof (Z.div_mod e (2 ^ 51) ltac:(lia)) as H; pose proof (Z.mod_pos_bound e (2 ^ 51) ltac:(lia)) as B;
  set (q := e / 2 ^ 51) in *; set (r := e mod 2 ^ 51) in *; clearbody q r.

Lemma reduce_words_spec a0 a1 a2 a3 a4 :
  0 <= a0 <= 77 * 2 ^ 108 -> 0 <= a1 <= 77 * 2 ^ 108 -> 0 <= a2 <= 77 * 2 ^ 108 -> 0 <= a3 <= 77 * 2 ^ 108 -> 0 <= a4 <= 6 * 2 ^ 108 ->
  let r := reduce_words (a0 mod W) (a0 / W) (a1 mod W) (a1 / W) (a2 mod W) (a2 / W) (a3 mod W) (a3 / W) (a4 mod W) (a4 / W) in
  limbs_tight r /\ exists k, limbs_val r = limbs_val (a0, a1, a2, a3, a4) - (2 ^ 255 - 19) * k.
Proof.
  intros B0 B1 B2 B3 B4. unfold reduce_words. rewrite !land_mask51, !mod_mask51, !shld13_spec by lia. rewrite !Z.shiftr_div_pow2 by lia.
  split_div a0 c0 m0. split_div a1 c1 m1. split_div a2 c2 m2. split_div a3 c3 m3. split_div a4 c4 m4.
  rewrite !(add64_small c0 m1), !(add64_small c1 m2), !(add64_small c2 m3), !(add64_small c3 m4) by (unfold W; lia).
  rewrite (mul19_small c4) by lia. rewrite !(add64_small _ m0) by (unfold W; lia). split_div (m0 + 19 * c4) d0 e0.
  rewrite !(add64_small d0) by (unfold W; lia). split_div (m1 + c0 + d0) d1 e1.
  rewrite !(add64_small d1) by (unfold W; lia). split_div (m2 + c1 + d1) d2 e2.
  rewrite !(add64_small d2) by (unfold W; lia). split_div (m3 + c2 + d2) d3 e3.
  rewrite !(add64_small d3) by (unfold W; lia). split_div (m4 + c3 + d3) d4 e4.
  rewrite mul19_small by lia. rewrite add64_small by (unfold W; lia).
  split; [unfold limbs_tight; lia|]. exists (c4 + d4). unfold limbs_val. lia.
Qed.

(** ** The routines *)

Lemma holds_same l lo hi a s s' : lo ∉ l -> hi ∉ l -> same_but l s s' -> holds lo hi a s -> holds lo hi a s'.
Proof. intros Hl Hh (R & _) [L H]. split; by rewrite R. Qed.

(** The limbs at an address. *)
Definition limb (m : Z -> Z) (p i : Z) : Z := m (p + 8 * i).
Definition limbs_at (m : Z -> Z) (p : Z) : Z * Z * Z * Z * Z := (limb m p 0, limb m p 1, limb m p 2, limb m p 3, limb m p 4).

Lemma stores_spec a0 a1 a2 a3 a4 s :
  let s' := exec (stores a0 a1 a2 a3 a4) s in
  limbs_at (mem s') (regs s DI) = five s a0 a1 a2 a3 a4 /\
  (forall p, ~ regs s DI <= p < regs s DI + 40 -> mem s' p = mem s p).
Proof.
  cbn. split.
  - unfold limbs_at, limb, five. cbn. repeat f_equal; repeat first [rewrite upd_eq | rewrite upd_ne by lia]; try done.
  - intros p Hp. rewrite !upd_ne by lia. done.
Qed.

Ltac not_listed := apply (bool_decide_unpack _); vm_compute; exact I.

Record row_code := mkRow { row_lo : reg; row_hi : reg; row_first : Z * Z * Z; row_rest : list (Z * Z * Z) }.

Definition row_terms (r : row_code) : list (Z * Z * Z) := row_first r :: row_rest r.

Definition rows (bx cx : reg) (rs : list row_code) : list instr :=
  rs ≫= fun r => row bx cx (row_lo r) (row_hi r) (row_first r) (row_rest r).

Definition targets (rs : list row_code) : list reg := rs ≫= fun r => [row_lo r; row_hi r].

Lemma rows_spec bx cx x y rs s :
  (forall i, 0 <= i < 5 -> 0 <= x i < 2 ^ 55) -> (forall j, 0 <= j < 5 -> 0 <= y j < 2 ^ 55) ->
  points bx cx x y s ->
  Forall (fun r => row_regs bx cx (row_lo r) (row_hi r) = true /\ Forall term_ok (row_terms r) /\
                   row_val x y (row_terms r) < W * W) rs ->
  NoDup (targets rs) ->
  let s' := exec (rows bx cx rs) s in
  Forall (fun r => holds (row_lo r) (row_hi r) (row_val x y (row_terms r)) s') rs /\
  same_but (AX :: DX :: targets rs) s s'.
Proof.
  intros Bx By P F ND. revert s P. induction F as [|r rs (OK & T & V) F IH]; intros s P; cbn [rows mbind list_bind].
  { split; [constructor|by split_and!]. }
  rewrite exec_app. change (targets (r :: rs)) with (row_lo r :: row_hi r :: targets rs) in *.
  apply NoDup_cons in ND as [N1 ND]. apply NoDup_cons in ND as [N2 ND]. apply not_elem_of_cons in N1 as [_ N1].
  destruct (row_spec bx cx _ _ OK x y Bx By (row_first r) (row_rest r) s P T V) as [Q1 S1].
  set (s1 := exec (row _ _ _ _ _ _) s) in *. clearbody s1.
  destruct (IH ND s1 (points_same bx cx _ _ OK x y s s1 P S1)) as [Q2 S2].
  split.
  - constructor; [|exact Q2]. refine (holds_same _ _ _ _ _ _ _ _ S2 Q1); rewrite !not_elem_of_cons; by reg_ne.
  - destruct S1 as (R1 & M1 & A1), S2 as (R2 & M2 & A2). split_and!; [|by etrans..].
    intros r' Hr'. rewrite !not_elem_of_cons in Hr'. destruct Hr' as (? & ? & ? & ? & ?).
    etrans; [apply R2; rewrite !not_elem_of_cons; done|]. apply R1. rewrite !not_elem_of_cons. split_and!; try done. apply not_elem_of_nil.
Qed.

Lemma bounded_product x y : 0 <= x <= 2 ^ 54 -> 0 <= y <= 2 ^ 54 -> 0 <= x * y <= 2 ^ 108.
Proof. intros. nia. Qed.

(** Rows of products whose sums fit, reduced and stored. *)
Lemma field_product bx cx x y rs s a0 b0 a1 b1 a2 b2 a3 b3 a4 b4 red v0 v1 v2 v3 v4 :
  (forall i, 0 <= i < 5 -> 0 <= x i <= 2 ^ 54) -> (forall j, 0 <= j < 5 -> 0 <= y j <= 2 ^ 54) ->
  points bx cx x y s ->
  map (fun r => (row_lo r, row_hi r)) rs = [(a0, b0); (a1, b1); (a2, b2); (a3, b3); (a4, b4)] ->
  map (fun r => row_val x y (row_terms r)) rs = [v0; v1; v2; v3; v4] ->
  Forall (fun r => row_regs bx cx (row_lo r) (row_hi r) = true /\ Forall term_ok (row_terms r)) rs ->
  NoDup (AX :: DX :: DI :: targets rs) ->
  v0 <= 77 * 2 ^ 108 -> v1 <= 77 * 2 ^ 108 -> v2 <= 77 * 2 ^ 108 -> v3 <= 77 * 2 ^ 108 -> v4 <= 6 * 2 ^ 108 ->
  (forall s, let s' := exec red s in
    five s' a0 a1 a2 a3 a4 = reduce_words (regs s a0) (regs s b0) (regs s a1) (regs s b1) (regs s a2) (regs s b2)
      (regs s a3) (regs s b3) (regs s a4) (regs s b4) /\ regs s' DI = regs s DI /\ mem s' = mem s) ->
  let s' := exec (rows bx cx rs ++ red ++ stores a0 a1 a2 a3 a4) s in
  limbs_tight (limbs_at (mem s') (regs s DI)) /\
  (exists k, limbs_val (limbs_at (mem s') (regs s DI)) = limbs_val (v0, v1, v2, v3, v4) - (2 ^ 255 - 19) * k) /\
  (forall p, ~ regs s DI <= p < regs s DI + 40 -> mem s' p = mem s p).
Proof.
  intros Bx By P ER EV F ND B0 B1 B2 B3 B4 RED. cbv zeta in *.
  assert (forall i, 0 <= i < 5 -> 0 <= x i < 2 ^ 55) as Bx' by (intros i Hi; specialize (Bx i Hi); lia).
  assert (forall i, 0 <= i < 5 -> 0 <= y i < 2 ^ 55) as By' by (intros i Hi; specialize (By i Hi); lia).
  set (f := fun r => row_val x y (row_terms r)) in EV. assert (forall r, f r = row_val x y (row_terms r)) as Ef by done. clearbody f.
  destruct rs as [|r0 [|r1 [|r2 [|r3 [|r4 [|]]]]]]; try discriminate ER. cbn [map] in ER, EV. injection ER as <- <- <- <- <- <- <- <- <- <-.
  injection EV as <- <- <- <- <-. rewrite !Ef in *. clear f Ef. rewrite exec_app, exec_app.
  apply NoDup_cons in ND as [N1 ND]. apply NoDup_cons in ND as [N2 ND]. apply NoDup_cons in ND as [N3 ND].
  assert (Forall (fun r => 0 <= row_val x y (row_terms r)) [r0; r1; r2; r3; r4]) as NN.
  { apply (Forall_impl _ _ _ F). intros r [OK T]. by eapply row_val_nonneg. }
  destruct (rows_spec bx cx x y [r0; r1; r2; r3; r4] s Bx' By' P) as [H S]; [|done|].
  { repeat (apply Forall_cons in F as [[? ?] F]). repeat (apply Forall_cons; split; [split_and!; [done..|unfold W; lia]|]). constructor. }
  set (s1 := exec (rows _ _ _) s) in *. clearbody s1.
  repeat match goal with H : Forall _ (_ :: _) |- _ => apply Forall_cons in H as [? H] end.
  destruct (RED s1) as (E5 & ED & EM). set (s2 := exec red s1) in *. clearbody s2.
  assert (regs s2 DI = regs s DI) as <-.
  { rewrite ED. apply S. apply not_elem_of_cons. split; [discriminate|]. apply not_elem_of_cons. split; [discriminate|exact N3]. }
  destruct (stores_spec (row_lo r0) (row_lo r1) (row_lo r2) (row_lo r3) (row_lo r4) s2) as [EL EP].
  rewrite EL, E5. repeat match goal with H : holds _ _ _ s1 |- _ => destruct H as [-> ->] end.
  destruct (reduce_words_spec (row_val x y (row_terms r0)) (row_val x y (row_terms r1)) (row_val x y (row_terms r2))
    (row_val x y (row_terms r3)) (row_val x y (row_terms r4))) as [T V]; [lia..|].
  split; [exact T|]. split; [exact V|]. intros p Hp. rewrite EP by done. rewrite EM. by destruct S as (_ & -> & _).
Qed.

(** Bounds of the sums of a row from those of the limbs. *)
Ltac row_bounded Bx By :=
  cbn [row_terms row_first row_rest row_val]; unfold term_val; cbn [fst snd]; rewrite ?Z.mul_1_l, <- ?Z.mul_assoc;
  repeat match goal with |- context [?f ?i * ?g ?j] =>
    generalize (bounded_product _ _ (Bx i ltac:(lia)) (By j ltac:(lia))); generalize (f i * g j) end;
  clear; intros; lia.

(** FeMul of fe_mul_amd64.s: the words at its first argument are the product, in limbs below 2^51
    (the first below 2^51 + 2^18), for factors with limbs up to 2^54; the arguments may overlap. *)
Lemma FeMul_text_spec s :
  (forall i, 0 <= i < 5 -> 0 <= limb (mem s) (args s 8) i <= 2 ^ 54) ->
  (forall i, 0 <= i < 5 -> 0 <= limb (mem s) (args s 16) i <= 2 ^ 54) ->
  let s' := exec FeMul_text s in
  limbs_tight (limbs_at (mem s') (args s 0)) /\
  (exists k, limbs_val (limbs_at (mem s') (args s 0)) =
    limbs_val (limbs_at (mem s) (args s 8)) * limbs_val (limbs_at (mem s) (args s 16)) - (2 ^ 255 - 19) * k) /\
  (forall p, ~ args s 0 <= p < args s 0 + 40 -> mem s' p = mem s p).
Proof.
  intros Bx By. cbv zeta. rewrite FeMul_structure, exec_app.
  set (x := limb (mem s) (args s 8)) in *. set (y := limb (mem s) (args s 16)) in *.
  set (s0 := exec [MOVQ (FP 0) (Reg DI); MOVQ (FP 8) (Reg BX); MOVQ (FP 16) (Reg CX)] s).
  assert (regs s0 DI = args s 0 /\ mem s0 = mem s) as [<- EM] by done.
  assert (points BX CX x y s0) as P0 by (split; intros; done). clearbody s0.
  destruct (field_product BX CX x y
    [mkRow SI BP (1, 0, 0) [(19, 1, 4); (19, 2, 3); (19, 3, 2); (19, 4, 1)];
     mkRow R8 R9 (1, 0, 1) [(1, 1, 0); (19, 2, 4); (19, 3, 3); (19, 4, 2)];
     mkRow R10 R11 (1, 0, 2) [(1, 1, 1); (1, 2, 0); (19, 3, 4); (19, 4, 3)];
     mkRow R12 R13 (1, 0, 3) [(1, 1, 2); (1, 2, 1); (1, 3, 0); (19, 4, 4)];
     mkRow R14 R15 (1, 0, 4) [(1, 1, 3); (1, 2, 2); (1, 3, 1); (1, 4, 0)]]
    s0 SI BP R8 R9 R10 R11 R12 R13 R14 R15 (reduce SI BP R8 R9 R10 R11 R12 R13 R14 R15 R15) _ _ _ _ _
    Bx By P0 eq_refl eq_refl ltac:(not_listed) ltac:(not_listed)) as (T & [k V] & M); try exact reduce_mul.
  1-5: row_bounded Bx By.
  split; [exact T|]. split; [|intros p Hp; rewrite <- EM; exact (M p Hp)].
  cbn [row_terms row_first row_rest row_val] in V. unfold term_val in V. cbn [fst snd] in V.
  exists (k + (x 1 * y 4 + x 2 * y 3 + x 3 * y 2 + x 4 * y 1 + 2 ^ 51 * (x 2 * y 4 + x 3 * y 3 + x 4 * y 2)
    + 2 ^ 102 * (x 3 * y 4 + x 4 * y 3) + 2 ^ 153 * (x 4 * y 4))).
  etrans; [exact V|]. unfold limbs_val, limbs_at. fold x y. ring.
Qed.

(** FeSquare of fe_square_amd64.s. *)
Lemma FeSquare_text_spec s :
  (forall i, 0 <= i < 5 -> 0 <= limb (mem s) (args s 8) i <= 2 ^ 54) ->
  let s' := exec FeSquare_text s in
  limbs_tight (limbs_at (mem s') (args s 0)) /\
  (exists k, limbs_val (limbs_at (mem s') (args s 0)) =
    limbs_val (limbs_at (mem s) (args s 8)) * limbs_val (limbs_at (mem s) (args s 8)) - (2 ^ 255 - 19) * k) /\
  (forall p, ~ args s 0 <= p < args s 0 + 40 -> mem s' p = mem s p).
Proof.
  intros Bx. cbv zeta. rewrite FeSquare_structure, exec_app. set (x := limb (mem s) (args s 8)) in *.
  set (s0 := exec [MOVQ (FP 0) (Reg DI); MOVQ (FP 8) (Reg SI)] s).
  assert (regs s0 DI = args s 0 /\ mem s0 = mem s) as [<- EM] by done.
  assert (points SI SI x x s0) as P0 by (split; intros; done). clearbody s0.
  destruct (field_product SI SI x x
    [mkRow CX R8 (1, 0, 0) [(38, 1, 4); (38, 2, 3)]; mkRow R9 R10 (2, 0, 1) [(38, 2, 4); (19, 3, 3)];
     mkRow R11 R12 (2, 0, 2) [(1, 1, 1); (38, 3, 4)]; mkRow R13 R14 (2, 0, 3) [(2, 1, 2); (19, 4, 4)];
     mkRow R15 BX (2, 0, 4) [(2, 1, 3); (1, 2, 2)]]
    s0 CX R8 R9 R10 R11 R12 R13 R14 R15 BX (reduce CX R8 R9 R10 R11 R12 R13 R14 R15 BX DX) _ _ _ _ _
    Bx Bx P0 eq_refl eq_refl ltac:(not_listed) ltac:(not_listed)) as (T & [k V] & M); try exact reduce_square.
  1-5: row_bounded Bx Bx.
  split; [exact T|]. split; [|intros p Hp; rewrite <- EM; exact (M p Hp)].
  cbn [row_terms row_first row_rest row_val] in V. unfold term_val in V. cbn [fst snd] in V.
  exists (k + (2 * x 1 * x 4 + 2 * x 2 * x 3 + 2 ^ 51 * (2 * x 2 * x 4 + x 3 * x 3)
    + 2 ^ 102 * (2 * x 3 * x 4) + 2 ^ 153 * (x 4 * x 4))).
  etrans; [exact V|]. unfold limbs_val, limbs_at. fold x. ring.
Qed.
