(* ===== verification/Fe51.v ===== *)
(** * edwards25519/fe_amd64.go: the field GF(2^255 - 19) in radix 2^51

    The representation that amd64 builds use in place of fe.go (EdField.v): five unsigned limbs of 64
    bits.  FeMul and FeSquare are the assembly routines of Amd64.v, run on a memory that holds their
    arguments.  The functions of field.go that do not depend on the representation are here once
    more, on this one. *)
From S2P Require Import Prelude EdField Amd64.
Local Open Scope Z_scope.

(** [t] represents t[0] + t[1]*2^51 + t[2]*2^102 + t[3]*2^153 + t[4]*2^204. *)
Abbreviation FieldElement51 := (Z * Z * Z * Z * Z)%type.

Definition maskLow51Bits : Z := Z.shiftl 1 51 - 1.

Definition FeZero : FieldElement51 := (0, 0, 0, 0, 0).
Definition FeOne : FieldElement51 := (1, 0, 0, 0, 0).

Definition FeAdd (a b : FieldElement51) : FieldElement51 :=
  let '(a0, a1, a2, a3, a4) := a in let '(b0, b1, b2, b3, b4) := b in
  (u64 (a0 + b0), u64 (a1 + b1), u64 (a2 + b2), u64 (a3 + b3), u64 (a4 + b4)).

(** The carries that FeSub and feReduce begin with. *)
Definition carry_limbs (t : FieldElement51) : FieldElement51 :=
  let '(t0, t1, t2, t3, t4) := t in
  let t1 := u64 (t1 + Z.shiftr t0 51) in let t0 := Z.land t0 maskLow51Bits in
  let t2 := u64 (t2 + Z.shiftr t1 51) in let t1 := Z.land t1 maskLow51Bits in
  let t3 := u64 (t3 + Z.shiftr t2 51) in let t2 := Z.land t2 maskLow51Bits in
  let t4 := u64 (t4 + Z.shiftr t3 51) in let t3 := Z.land t3 maskLow51Bits in
  let t0 := u64 (t0 + u64 (Z.shiftr t4 51 * 19)) in let t4 := Z.land t4 maskLow51Bits in
  (t0, t1, t2, t3, t4).

Definition FeSub (a b : FieldElement51) : FieldElement51 :=
  let '(a0, a1, a2, a3, a4) := a in
  let '(t0, t1, t2, t3, t4) := carry_limbs b in
  (u64 (u64 (a0 + 0xFFFFFFFFFFFDA) - t0), u64 (u64 (a1 + 0xFFFFFFFFFFFFE) - t1), u64 (u64 (a2 + 0xFFFFFFFFFFFFE) - t2),
   u64 (u64 (a3 + 0xFFFFFFFFFFFFE) - t3), u64 (u64 (a4 + 0xFFFFFFFFFFFFE) - t4)).

Definition FeNeg (a : FieldElement51) : FieldElement51 := FeSub FeZero a.

(** The words of the arguments at the addresses 0 and 40; the result goes to 80. *)
Definition place (a b : FieldElement51) : Z -> Z :=
  let '(a0, a1, a2, a3, a4) := a in let '(b0, b1, b2, b3, b4) := b in
  fun p => nth (Z.to_nat (p / 8)) [a0; a1; a2; a3; a4; b0; b1; b2; b3; b4] 0.

Definition call (text : list instr) (a b : FieldElement51) : FieldElement51 :=
  let s := exec text (mkMachine (fun _ => 0) (place a b) (fun o => if o =? 0 then 80 else if o =? 8 then 0 else 40) false) in
  limbs_at (mem s) 80.

Definition FeMul (a b : FieldElement51) : FieldElement51 := call FeMul_text a b.
Definition FeSquare (a : FieldElement51) : FieldElement51 := call FeSquare_text a FeZero.

Definition FeSquare2 (a : FieldElement51) : FieldElement51 := let out := FeSquare a in FeAdd out out.

(** uint64(b) of an int32. *)
Definition FeCMove (f g : FieldElement51) (b : Z) : FieldElement51 :=
  let negate := u64 ((Z.shiftl 1 64 - 1) * u64 b) in
  let '(f0, f1, f2, f3, f4) := f in let '(g0, g1, g2, g3, g4) := g in
  (Z.lxor f0 (Z.land negate (Z.lxor f0 g0)), Z.lxor f1 (Z.land negate (Z.lxor f1 g1)), Z.lxor f2 (Z.land negate (Z.lxor f2 g2)),
   Z.lxor f3 (Z.land negate (Z.lxor f3 g3)), Z.lxor f4 (Z.land negate (Z.lxor f4 g4))).

(** [x] is an array of 32 bytes. *)
Definition FeFromBytes (src : list Z) : FieldElement51 :=
  let x i := nth (Z.to_nat i) src 0 in
  (Z.lor (Z.lor (Z.lor (Z.lor (Z.lor (Z.lor (x 0) (Z.shiftl (x 1) 8)) (Z.shiftl (x 2) 16)) (Z.shiftl (x 3) 24))
     (Z.shiftl (x 4) 32)) (Z.shiftl (x 5) 40)) (Z.shiftl (Z.land (x 6) 7) 48),
   Z.lor (Z.lor (Z.lor (Z.lor (Z.lor (Z.lor (Z.shiftr (x 6) 3) (Z.shiftl (x 7) 5)) (Z.shiftl (x 8) 13)) (Z.shiftl
     (x 9) 21)) (Z.shiftl (x 10) 29)) (Z.shiftl (x 11) 37)) (Z.shiftl (Z.land (x 12) 63) 45),
   Z.lor (Z.lor (Z.lor (Z.lor (Z.lor (Z.lor (Z.lor (Z.shiftr (x 12) 6) (Z.shiftl (x 13) 2)) (Z.shiftl (x 14) 10))
     (Z.shiftl (x 15) 18)) (Z.shiftl (x 16) 26)) (Z.shiftl (x 17) 34)) (Z.shiftl (x 18) 42)) (Z.shiftl (Z.land (x 19)
     1) 50),
   Z.lor (Z.lor (Z.lor (Z.lor (Z.lor (Z.lor (Z.shiftr (x 19) 1) (Z.shiftl (x 20) 7)) (Z.shiftl (x 21) 15))
     (Z.shiftl (x 22) 23)) (Z.shiftl (x 23) 31)) (Z.shiftl (x 24) 39)) (Z.shiftl (Z.land (x 25) 15) 47),
   Z.lor (Z.lor (Z.lor (Z.lor (Z.lor (Z.lor (Z.shiftr (x 25) 4) (Z.shiftl (x 26) 4)) (Z.shiftl (x 27) 12))
     (Z.shiftl (x 28) 20)) (Z.shiftl (x 29) 28)) (Z.shiftl (x 30) 36)) (Z.shiftl (Z.land (x 31) 127) 44)).

(** The five limbs of a reduced element as 32 bytes. *)
Definition store_limbs (t : FieldElement51) : list Z :=
  let '(t0, t1, t2, t3, t4) := t in
  [u8 (Z.land t0 0xff); u8 (Z.land (Z.shiftr t0 8) 0xff); u8 (Z.land (Z.shiftr t0 16) 0xff);
   u8 (Z.land (Z.shiftr t0 24) 0xff); u8 (Z.land (Z.shiftr t0 32) 0xff); u8 (Z.land (Z.shiftr t0 40) 0xff);
   Z.lxor (u8 (Z.shiftr t0 48)) (u8 (Z.land (u64 (Z.shiftl t1 3)) 0xf8)); u8 (Z.land (Z.shiftr t1 5) 0xff);
   u8 (Z.land (Z.shiftr t1 13) 0xff); u8 (Z.land (Z.shiftr t1 21) 0xff); u8 (Z.land (Z.shiftr t1 29) 0xff);
   u8 (Z.land (Z.shiftr t1 37) 0xff); Z.lxor (u8 (Z.shiftr t1 45)) (u8 (Z.land (u64 (Z.shiftl t2 6)) 0xc0));
   u8 (Z.land (Z.shiftr t2 2) 0xff); u8 (Z.land (Z.shiftr t2 10) 0xff); u8 (Z.land (Z.shiftr t2 18) 0xff);
   u8 (Z.land (Z.shiftr t2 26) 0xff); u8 (Z.land (Z.shiftr t2 34) 0xff); u8 (Z.land (Z.shiftr t2 42) 0xff);
   Z.lxor (u8 (Z.shiftr t2 50)) (u8 (Z.land (u64 (Z.shiftl t3 1)) 0xfe)); u8 (Z.land (Z.shiftr t3 7) 0xff);
   u8 (Z.land (Z.shiftr t3 15) 0xff); u8 (Z.land (Z.shiftr t3 23) 0xff); u8 (Z.land (Z.shiftr t3 31) 0xff);
   u8 (Z.land (Z.shiftr t3 39) 0xff); Z.lxor (u8 (Z.shiftr t3 47)) (u8 (Z.land (u64 (Z.shiftl t4 4)) 0xf0));
   u8 (Z.land (Z.shiftr t4 4) 0xff); u8 (Z.land (Z.shiftr t4 12) 0xff); u8 (Z.land (Z.shiftr t4 20) 0xff);
   u8 (Z.land (Z.shiftr t4 28) 0xff); u8 (Z.land (Z.shiftr t4 36) 0xff); u8 (Z.shiftr t4 44)].

(** feReduce: the representative below 2^255 - 19. *)
Definition feReduce (v : FieldElement51) : FieldElement51 :=
  let '(t0, t1, t2, t3, t4) := carry_limbs v in
  let c := Z.shiftr (u64 (t0 + 19)) 51 in
  let c := Z.shiftr (u64 (t1 + c)) 51 in
  let c := Z.shiftr (u64 (t2 + c)) 51 in
  let c := Z.shiftr (u64 (t3 + c)) 51 in
  let c := Z.shiftr (u64 (t4 + c)) 51 in
  let t0 := u64 (t0 + u64 (19 * c)) in
  let t1 := u64 (t1 + Z.shiftr t0 51) in let t0 := Z.land t0 maskLow51Bits in
  let t2 := u64 (t2 + Z.shiftr t1 51) in let t1 := Z.land t1 maskLow51Bits in
  let t3 := u64 (t3 + Z.shiftr t2 51) in let t2 := Z.land t2 maskLow51Bits in
  let t4 := u64 (t4 + Z.shiftr t3 51) in let t3 := Z.land t3 maskLow51Bits in
  let t4 := Z.land t4 maskLow51Bits in
  (t0, t1, t2, t3, t4).

Definition FeToBytes (v : FieldElement51) : list Z := store_limbs (feReduce v).

(** ** field.go on this representation *)

Definition FeCopy (src : FieldElement51) : FieldElement51 := src.

Definition FeIsNegative (f : FieldElement51) : Z := Z.land (nth 0 (FeToBytes f) 0) 1.

Definition FeIsNonZero (f : FieldElement51) : Z :=
  let x := foldl Z.lor 0 (FeToBytes f) in
  let x := Z.lor x (Z.shiftr x 4) in
  let x := Z.lor x (Z.shiftr x 2) in
  let x := Z.lor x (Z.shiftr x 1) in
  Z.land x 1.

(** n-1 squarings in place. *)
Definition square_loop (n : nat) (t : FieldElement51) : FieldElement51 := Nat.iter (n - 1) FeSquare t.

Definition FeInvert (z : FieldElement51) : FieldElement51 :=
  let t0 := FeSquare z in
  let t1 := FeSquare t0 in
  let t1 := square_loop 2 t1 in
  let t1 := FeMul z t1 in
  let t0 := FeMul t0 t1 in
  let t2 := FeSquare t0 in
  let t1 := FeMul t1 t2 in
  let t2 := FeSquare t1 in
  let t2 := square_loop 5 t2 in
  let t1 := FeMul t2 t1 in
  let t2 := FeSquare t1 in
  let t2 := square_loop 10 t2 in
  let t2 := FeMul t2 t1 in
  let t3 := FeSquare t2 in
  let t3 := square_loop 20 t3 in
  let t2 := FeMul t3 t2 in
  let t2 := FeSquare t2 in
  let t2 := square_loop 10 t2 in
  let t1 := FeMul t2 t1 in
  let t2 := FeSquare t1 in
  let t2 := square_loop 50 t2 in
  let t2 := FeMul t2 t1 in
  let t3 := FeSquare t2 in
  let t3 := square_loop 100 t3 in
  let t2 := FeMul t3 t2 in
  let t2 := FeSquare t2 in
  let t2 := square_loop 50 t2 in
  let t1 := FeMul t2 t1 in
  let t1 := FeSquare t1 in
  let t1 := square_loop 5 t1 in
  FeMul t1 t0.

Definition fePow22523 (z : FieldElement51) : FieldElement51 :=
  let t0 := FeSquare z in
  let t0 := square_loop 1 t0 in
  let t1 := FeSquare t0 in
  let t1 := square_loop 2 t1 in
  let t1 := FeMul z t1 in
  let t0 := FeMul t0 t1 in
  let t0 := FeSquare t0 in
  let t0 := square_loop 1 t0 in
  let t0 := FeMul t1 t0 in
  let t1 := FeSquare t0 in
  let t1 := square_loop 5 t1 in
  let t0 := FeMul t1 t0 in
  let t1 := FeSquare t0 in
  let t1 := square_loop 10 t1 in
  let t1 := FeMul t1 t0 in
  let t2 := FeSquare t1 in
  let t2 := square_loop 20 t2 in
  let t1 := FeMul t2 t1 in
  let t1 := FeSquare t1 in
  let t1 := square_loop 10 t1 in
  let t0 := FeMul t1 t0 in
  let t1 := FeSquare t0 in
  let t1 := square_loop 50 t1 in
  let t1 := FeMul t1 t0 in
  let t2 := FeSquare t1 in
  let t2 := square_loop 100 t2 in
  let t1 := FeMul t2 t1 in
  let t1 := FeSquare t1 in
  let t1 := square_loop 50 t1 in
  let t0 := FeMul t1 t0 in
  let t0 := FeSquare t0 in
  let t0 := square_loop 2 t0 in
  FeMul t0 z.

(** ** Values and bounds *)

Abbreviation val51 := limbs_val.

(** All limbs within [0, B]. *)
Definition limbs_within (B : Z) (v : FieldElement51) : Prop :=
  let '(v0, v1, v2, v3, v4) := v in 0 <= v0 <= B /\ 0 <= v1 <= B /\ 0 <= v2 <= B /\ 0 <= v3 <= B /\ 0 <= v4 <= B.

Lemma tight_within v : limbs_tight v -> limbs_within (2 ^ 52) v.
Proof. destruct v as [[[[v0 v1] v2] v3] v4]. unfold limbs_tight, limbs_within. lia. Qed.

Lemma within_mono B B' v : B <= B' -> limbs_within B v -> limbs_within B' v.
Proof. destruct v as [[[[v0 v1] v2] v3] v4]. unfold limbs_within. lia. Qed.

Lemma feq_sub a k : feq (a - p25519 * k) a.
Proof. unfold feq. replace (a - p25519 * k) with (a + (- k) * p25519) by lia. apply Z_mod_plus_full. Qed.

Lemma maskLow51 a : Z.land a maskLow51Bits = a mod 2 ^ 51.
Proof. change maskLow51Bits with (Z.ones 51). by rewrite Z.land_ones. Qed.

(** *** Addition and subtraction *)

Lemma FeAdd51_spec A B a b :
  limbs_within A a -> limbs_within B b -> A + B < 2 ^ 64 ->
  limbs_within (A + B) (FeAdd a b) /\ val51 (FeAdd a b) = val51 a + val51 b.
Proof.
  destruct a as [[[[a0 a1] a2] a3] a4], b as [[[[b0 b1] b2] b3] b4]. unfold limbs_within, FeAdd, limbs_val. intros Ha Hb H.
  rewrite !u64_small by lia. lia.
Qed.

Lemma carry_limbs_spec t :
  limbs_within (2 ^ 63) t -> limbs_tight (carry_limbs t) /\ exists k, val51 (carry_limbs t) = val51 t - p25519 * k.
Proof.
  destruct t as [[[[t0 t1] t2] t3] t4]. unfold limbs_within, carry_limbs. intros H. cbv zeta.
  rewrite !maskLow51, !Z.shiftr_div_pow2 by lia. split_div t0 c0 m0.
  rewrite !(u64_small (t1 + c0)) by lia. split_div (t1 + c0) c1 m1.
  rewrite !(u64_small (t2 + c1)) by lia. split_div (t2 + c1) c2 m2.
  rewrite !(u64_small (t3 + c2)) by lia. split_div (t3 + c2) c3 m3.
  rewrite !(u64_small (t4 + c3)) by lia. split_div (t4 + c3) c4 m4.
  rewrite (u64_small (c4 * 19)) by lia. rewrite u64_small by lia.
  split; [unfold limbs_tight; lia|]. exists c4. unfold limbs_val, p25519. lia.
Qed.

Lemma FeSub51_spec A a b :
  limbs_within A a -> A + 2 ^ 52 < 2 ^ 64 -> limbs_within (2 ^ 63) b ->
  limbs_within (A + 2 ^ 52) (FeSub a b) /\ exists k, val51 (FeSub a b) = val51 a - val51 b + p25519 * k.
Proof.
  intros Ha HA Hb. destruct (carry_limbs_spec b Hb) as [T [k V]]. unfold FeSub.
  destruct a as [[[[a0 a1] a2] a3] a4], (carry_limbs b) as [[[[t0 t1] t2] t3] t4]. unfold limbs_within, limbs_tight in *.
  rewrite !(u64_small (_ + _)) by lia. rewrite !u64_small by lia. split; [lia|].
  exists (k + 2). unfold limbs_val, p25519 in *. lia.
Qed.

Lemma FeNeg51_spec a : limbs_within (2 ^ 63) a -> limbs_within (2 ^ 52) (FeNeg a) /\ exists k, val51 (FeNeg a) = - val51 a + p25519 * k.
Proof. intros H. destruct (FeSub51_spec 0 FeZero a) as [B [k V]]; [done|lia|done|]. split; [done|]. exists k. exact V. Qed.

(** *** Products *)

Lemma place_limbs a b :
  limbs_at (place a b) 0 = a /\ limbs_at (place a b) 40 = b.
Proof. by destruct a as [[[[a0 a1] a2] a3] a4], b as [[[[b0 b1] b2] b3] b4]. Qed.

Lemma limb_within m p B i : limbs_within B (limbs_at m p) -> 0 <= i < 5 -> 0 <= limb m p i <= B.
Proof.
  unfold limbs_within, limbs_at. intros H Hi.
  assert (i = 0 \/ i = 1 \/ i = 2 \/ i = 3 \/ i = 4) as E by lia. destruct E as [-> | [-> | [-> | [-> | ->]]]]; lia.
Qed.

Lemma FeMul51_spec a b :
  limbs_within (2 ^ 54) a -> limbs_within (2 ^ 54) b ->
  limbs_tight (FeMul a b) /\ exists k, val51 (FeMul a b) = val51 a * val51 b - p25519 * k.
Proof.
  intros Ha Hb. destruct (place_limbs a b) as [Ea Eb]. unfold FeMul, call. set (s := mkMachine _ _ _ _).
  destruct (FeMul_text_spec s) as (T & V & _).
  - intros i Hi. apply limb_within; [|done]. cbn [s mem args Z.eqb Pos.eqb]. by rewrite Ea.
  - intros i Hi. apply limb_within; [|done]. cbn [s mem args Z.eqb Pos.eqb]. by rewrite Eb.
  - cbn [s mem args Z.eqb Pos.eqb] in T, V. rewrite Ea, Eb in V. split; [exact T|exact V].
Qed.

Lemma FeSquare51_spec a :
  limbs_within (2 ^ 54) a -> limbs_tight (FeSquare a) /\ exists k, val51 (FeSquare a) = val51 a * val51 a - p25519 * k.
Proof.
  intros Ha. destruct (place_limbs a FeZero) as [Ea _]. unfold FeSquare, call. set (s := mkMachine _ _ _ _).
  destruct (FeSquare_text_spec s) as (T & V & _).
  - intros i Hi. apply limb_within; [|done]. cbn [s mem args Z.eqb Pos.eqb]. by rewrite Ea.
  - cbn [s mem args Z.eqb Pos.eqb] in T, V. rewrite Ea in V. split; [exact T|exact V].
Qed.

Lemma FeSquare251_spec a :
  limbs_within (2 ^ 54) a -> limbs_within (2 ^ 53) (FeSquare2 a) /\ exists k, val51 (FeSquare2 a) = 2 * (val51 a * val51 a) - p25519 * k.
Proof.
  intros Ha. destruct (FeSquare51_spec a Ha) as [T [k V]]. apply tight_within in T.
  destruct (FeAdd51_spec _ _ _ _ T T ltac:(lia)) as [B W2]. unfold FeSquare2. split; [exact B|]. exists (2 * k). rewrite W2, V. lia.
Qed.

(** *** Conditional move *)

Lemma FeCMove51_spec B f g b :
  B < 2 ^ 64 -> limbs_within B f -> limbs_within B g -> (b = 0 \/ b = 1) -> FeCMove f g b = if b =? 1 then g else f.
Proof.
  destruct f as [[[[f0 f1] f2] f3] f4], g as [[[[g0 g1] g2] g3] g4]. intros HB Hf Hg Hb. unfold FeCMove, limbs_within in *. cbv zeta.
  assert (forall x y, 0 <= x <= B -> 0 <= y <= B -> Z.lxor x (Z.land (Z.ones 64) (Z.lxor x y)) = y) as M.
  { intros x y Hx Hy. rewrite Z.land_comm, Z.land_ones, Z.mod_small by (try apply (lxor_bound 64 x y); lia).
    by rewrite <- Z.lxor_assoc, Z.lxor_nilpotent, Z.lxor_0_l. }
  destruct Hb as [-> | ->]; cbn [Z.eqb Pos.eqb].
  - change (u64 ((Z.shiftl 1 64 - 1) * u64 0)) with 0. by rewrite !Z.land_0_l, !Z.lxor_0_r.
  - change (u64 ((Z.shiftl 1 64 - 1) * u64 1)) with (Z.ones 64). rewrite !M by lia. done.
Qed.

(** *** Bytes *)

(** Sums for disjoint disjunctions, from the inside out. *)
Ltac lor_sums :=
  repeat match goal with |- context [Z.lor ?a (Z.shiftl ?b ?j)] =>
    lazymatch a with context [Z.lor _ _] => fail | _ => rewrite (lor_add_disjoint a b j) by lia end
  end.

Ltac byte_split x d q r :=
  let H := fresh in let B := fresh in
  pose proof (Z.div_mod x d ltac:(lia)) as H; pose proof (Z.mod_pos_bound x d ltac:(lia)) as B;
  set (q := x / d) in *; set (r := x mod d) in *; clearbody q r.

(** x land (2^k - 1), as the code writes it. *)
Lemma land_low x k m : 0 <= k -> m = Z.ones k -> Z.land x m = x mod 2 ^ k.
Proof. intros Hk ->. by apply Z.land_ones. Qed.

Lemma FeFromBytes51_spec l :
  bytes_ok l -> length l = 32%nat ->
  limbs_within (2 ^ 51 - 1) (FeFromBytes l) /\ val51 (FeFromBytes l) = le_val l mod 2 ^ 255.
Proof.
  intros Hl L. unfold bytes_ok in Hl.
  destruct l as [|x0 [|x1 [|x2 [|x3 [|x4 [|x5 [|x6 [|x7 [|x8 [|x9 [|x10 [|x11 [|x12 [|x13 [|x14 [|x15 [|x16 [|x17 [|x18 [|x19
    [|x20 [|x21 [|x22 [|x23 [|x24 [|x25 [|x26 [|x27 [|x28 [|x29 [|x30 [|x31 [|]]]]]]]]]]]]]]]]]]]]]]]]]]]]]]]]]; try discriminate L. clear L.
  repeat match goal with H : Forall _ (_ :: _) |- _ => apply Forall_cons in H as [? H] end. clear Hl.
  unfold FeFromBytes. cbv [Z.to_nat Pos.to_nat Pos.iter_op Nat.add nth].
  rewrite (land_low x6 3), (land_low x12 6), (land_low x19 1), (land_low x25 4), (land_low x31 7) by done.
  rewrite (Z.shiftr_div_pow2 x6), (Z.shiftr_div_pow2 x12), (Z.shiftr_div_pow2 x19), (Z.shiftr_div_pow2 x25) by done.
  byte_split x6 (2 ^ 3) q6 r6. byte_split x12 (2 ^ 6) q12 r12. byte_split x19 (2 ^ 1) q19 r19. byte_split x25 (2 ^ 4) q25 r25.
  byte_split x31 (2 ^ 7) q31 r31. lor_sums. split; [unfold limbs_within; lia|].
  cbn [le_val]. unfold limbs_val. apply Z.mod_unique with q31; lia.
Qed.

Lemma byte_at t k : 0 <= k -> u8 (Z.land (Z.shiftr t k) 0xff) = (t / 2 ^ k) mod 256.
Proof. intros. rewrite (land_low _ 8), Z.shiftr_div_pow2 by done. unfold u8. apply Z.mod_mod. done. Qed.

Lemma lxor_sum a b j : 0 <= j -> 0 <= a < 2 ^ j -> Z.lxor a (b * 2 ^ j) = a + b * 2 ^ j.
Proof.
  intros Hj Ha. rewrite <- (lor_add_disjoint a b j) by done. rewrite <- Z.shiftl_mul_pow2 by lia.
  rewrite <- Z.lxor_lor; [done|]. apply Z.bits_inj'. intros n Hn. rewrite Z.land_spec, Z.bits_0, Z.shiftl_spec by lia.
  destruct (Z.lt_ge_cases n j); [by rewrite (Z.testbit_neg_r b), andb_false_r by lia|].
  rewrite <- (Z.mod_small a (2 ^ j)) by lia. by rewrite Z.mod_pow2_bits_high by lia.
Qed.

(** The byte that holds the end of one limb and the start of the next. *)
Lemma byte_seam t t' k j m :
  0 <= k -> 0 < j < 8 -> k + j = 51 -> 0 <= t < 2 ^ 51 -> 0 <= t' < 2 ^ 51 -> m = 256 - 2 ^ j ->
  Z.lxor (u8 (Z.shiftr t k)) (u8 (Z.land (u64 (Z.shiftl t' j)) m)) = t / 2 ^ k + (t' mod 2 ^ (8 - j)) * 2 ^ j.
Proof.
  intros Hk Hj Hs Ht Ht' ->. rewrite Z.shiftr_div_pow2, Z.shiftl_mul_pow2 by lia.
  assert (0 <= t / 2 ^ k < 2 ^ j) as B.
  { split; [apply Z.div_pos; lia|]. apply Z.div_lt_upper_bound; [lia|]. rewrite <- Z.pow_add_r, Hs by lia. lia. }
  assert (2 ^ j <= 2 ^ 8) by (apply Z.pow_le_mono_r; lia).
  unfold u8 at 1. rewrite (Z.mod_small (t / 2 ^ k)) by lia.
  assert (u64 (t' * 2 ^ j) = t' * 2 ^ j) as -> by (apply u64_small; assert (t' * 2 ^ j < 2 ^ 51 * 2 ^ 8) by nia; lia).
  enough (u8 (Z.land (t' * 2 ^ j) (256 - 2 ^ j)) = (t' mod 2 ^ (8 - j)) * 2 ^ j) as -> by (by apply lxor_sum; lia).
  replace (256 - 2 ^ j) with (Z.ones (8 - j) * 2 ^ j)
    by (rewrite Z.ones_equiv, <- Z.sub_1_r, Z.mul_sub_distr_r, <- Z.pow_add_r by lia; replace (8 - j + j) with 8 by lia; lia).
  rewrite <- !Z.shiftl_mul_pow2, <- Z.shiftl_land, Z.land_ones by lia. rewrite Z.shiftl_mul_pow2 by lia.
  unfold u8. apply Z.mod_small. pose proof (Z.mod_pos_bound t' (2 ^ (8 - j)) ltac:(lia)).
  assert (2 ^ (8 - j) * 2 ^ j = 2 ^ 8) by (rewrite <- Z.pow_add_r by lia; f_equal; lia). nia.
Qed.

(** t / 2^k and its byte, in terms of t / 2^(k + 8). *)
Lemma next_byte t k k' : 0 <= k -> k' = k + 8 -> t / 2 ^ k = 256 * (t / 2 ^ k') + (t / 2 ^ k) mod 256 /\ 0 <= (t / 2 ^ k) mod 256 < 256.
Proof.
  intros Hk ->. split; [|apply Z.mod_pos_bound; lia]. rewrite Z.pow_add_r, <- (Z.div_div t (2 ^ k) (2 ^ 8)) by lia. apply Z.div_mod. lia.
Qed.

(** The same for the bits below the first whole byte of a limb. *)
Lemma first_bits t j j' : 0 <= j -> j' = 8 - j -> 0 <= j' -> t = 2 ^ j' * (t / 2 ^ j') + t mod 2 ^ j' /\ 0 <= t mod 2 ^ j' < 2 ^ j'.
Proof. intros. split; [apply Z.div_mod; lia|apply Z.mod_pos_bound; lia]. Qed.

Ltac opaque_digits :=
  repeat match goal with H : context [?t / 2 ^ ?k] |- _ => let q := fresh "q" in set (q := t / 2 ^ k) in *; clearbody q end;
  repeat match goal with H : context [?t mod ?m] |- _ => let r := fresh "r" in set (r := t mod m) in *; clearbody r end.

Lemma store_limbs_spec t :
  limbs_within (2 ^ 51 - 1) t -> bytes_ok (store_limbs t) /\ length (store_limbs t) = 32%nat /\ le_val (store_limbs t) = val51 t.
Proof.
  destruct t as [[[[t0 t1] t2] t3] t4]. unfold limbs_within, store_limbs. intros H. change (Z.land t0 0xff) with (Z.land (Z.shiftr t0 0) 0xff).
  rewrite !byte_at by lia.
  rewrite (byte_seam t0 t1 48 3), (byte_seam t1 t2 45 6), (byte_seam t2 t3 50 1), (byte_seam t3 t4 47 4) by (try done; lia).
  change (8 - 3) with 5. change (8 - 6) with 2. change (8 - 1) with 7. change (8 - 4) with 4. rewrite (Z.shiftr_div_pow2 t4) by lia.
  assert (0 <= t0 / 2 ^ 48 < 8 /\ 0 <= t1 / 2 ^ 45 < 64 /\ 0 <= t2 / 2 ^ 50 < 2 /\ 0 <= t3 / 2 ^ 47 < 16 /\ 0 <= t4 / 2 ^ 44 < 128) as T.
  { split_and!; first [apply Z.div_pos; lia|apply Z.div_lt_upper_bound; lia]. }
  assert (u8 (t4 / 2 ^ 44) = t4 / 2 ^ 44) as -> by (apply Z.mod_small; lia).
  assert (t0 / 2 ^ 0 = t0) as Z0 by apply Z.div_1_r.
  pose proof (next_byte t0 0 8). pose proof (next_byte t0 8 16). pose proof (next_byte t0 16 24). pose proof (next_byte t0 24 32).
  pose proof (next_byte t0 32 40). pose proof (next_byte t0 40 48).
  pose proof (first_bits t1 3 5). pose proof (next_byte t1 5 13). pose proof (next_byte t1 13 21). pose proof (next_byte t1 21 29).
  pose proof (next_byte t1 29 37). pose proof (next_byte t1 37 45).
  pose proof (first_bits t2 6 2). pose proof (next_byte t2 2 10). pose proof (next_byte t2 10 18). pose proof (next_byte t2 18 26).
  pose proof (next_byte t2 26 34). pose proof (next_byte t2 34 42). pose proof (next_byte t2 42 50).
  pose proof (first_bits t3 1 7). pose proof (next_byte t3 7 15). pose proof (next_byte t3 15 23). pose proof (next_byte t3 23 31).
  pose proof (next_byte t3 31 39). pose proof (next_byte t3 39 47).
  pose proof (first_bits t4 4 4). pose proof (next_byte t4 4 12). pose proof (next_byte t4 12 20). pose proof (next_byte t4 20 28).
  pose proof (next_byte t4 28 36). pose proof (next_byte t4 36 44).
  opaque_digits. split; [|split; [done|]].
  - unfold bytes_ok. repeat (apply Forall_cons; split; [lia|]). constructor.
  - cbn [le_val]. unfold limbs_val. lia.
Qed.

Lemma feReduce_spec v :
  limbs_within (2 ^ 63) v -> limbs_within (2 ^ 51 - 1) (feReduce v) /\ val51 (feReduce v) = val51 v mod p25519.
Proof.
  intros H. destruct (carry_limbs_spec v H) as [T [k V]]. unfold feReduce. destruct (carry_limbs v) as [[[[t0 t1] t2] t3] t4].
  unfold limbs_tight in T. cbv zeta. rewrite !maskLow51, !Z.shiftr_div_pow2 by lia.
  assert (val51 v mod p25519 = val51 (t0, t1, t2, t3, t4) mod p25519) as -> by (rewrite V; symmetry; apply feq_sub). clear V.
  unfold limbs_val at 2. rewrite (u64_small (t0 + 19)) by lia. split_div (t0 + 19) c0 m0.
  rewrite (u64_small (t1 + c0)) by lia. split_div (t1 + c0) c1 m1. rewrite (u64_small (t2 + c1)) by lia. split_div (t2 + c1) c2 m2.
  rewrite (u64_small (t3 + c2)) by lia. split_div (t3 + c2) c3 m3. rewrite (u64_small (t4 + c3)) by lia. split_div (t4 + c3) c m4.
  rewrite (u64_small (19 * c)) by lia. rewrite (u64_small (t0 + 19 * c)) by lia. split_div (t0 + 19 * c) d0 e0.
  rewrite !(u64_small (t1 + d0)) by lia. split_div (t1 + d0) d1 e1. rewrite !(u64_small (t2 + d1)) by lia. split_div (t2 + d1) d2 e2.
  rewrite !(u64_small (t3 + d2)) by lia. split_div (t3 + d2) d3 e3. rewrite !(u64_small (t4 + d3)) by lia. split_div (t4 + d3) d4 e4.
  split; [unfold limbs_within; lia|]. unfold limbs_val.
  assert (c = 0 \/ c = 1) as C by lia. assert (d4 = c) as D by lia.
  apply Z.mod_unique with c; unfold p25519; lia.
Qed.

Lemma FeToBytes51_spec v : limbs_within (2 ^ 63) v -> FeToBytes v = le_bytes 32 (val51 v mod p25519).
Proof.
  intros H. destruct (feReduce_spec v H) as [B V]. destruct (store_limbs_spec _ B) as (O & L & E). unfold FeToBytes.
  rewrite <- V, <- E, <- L. symmetry. by apply le_bytes_le_val.
Qed.

(** ** The two representations *)

(** The same element of the field, in fe.go's radix 2^25.5 and in radix 2^51. *)
Definition same_element (f : FieldElement) (v : FieldElement51) : Prop := feq (fe_val f) (val51 v).

Lemma val51_feq v v' k : val51 v = v' - p25519 * k -> feq (val51 v) v'.
Proof. intros ->. apply feq_sub. Qed.

Lemma val51_feq' v v' k : val51 v = v' + p25519 * k -> feq (val51 v) v'.
Proof. intros E. apply (val51_feq v v' (- k)). lia. Qed.

(** *** Powers *)

(** [x] is the e-th power of [z]. *)
Definition pow51 (z : FieldElement51) (e : Z) (x : FieldElement51) : Prop :=
  0 <= e /\ limbs_within (2 ^ 54) x /\ feq (val51 x) (val51 z ^ e).

Lemma tight_54 v : limbs_tight v -> limbs_within (2 ^ 54) v.
Proof. intros H. eapply within_mono; [|by apply tight_within]. lia. Qed.

Lemma pow51_mul z a b x y : pow51 z a x -> pow51 z b y -> pow51 z (a + b) (FeMul x y).
Proof.
  intros (Ha & Lx & Vx) (Hb & Ly & Vy). destruct (FeMul51_spec x y Lx Ly) as [T [k V%val51_feq]].
  split_and!; [lia|by apply tight_54|]. by rewrite V, Vx, Vy, Z.pow_add_r.
Qed.

Lemma pow51_square z a x : pow51 z a x -> pow51 z (2 * a) (FeSquare x).
Proof.
  intros (Ha & Lx & Vx). destruct (FeSquare51_spec x Lx) as [T [k V%val51_feq]]. split_and!; [lia|by apply tight_54|].
  rewrite V, Vx, <- Z.pow_add_r by lia. by replace (a + a) with (2 * a) by lia.
Qed.

Lemma pow51_loop z a x n : pow51 z a x -> pow51 z (2 ^ Z.of_nat (n - 1) * a) (square_loop n x).
Proof.
  intros H. unfold square_loop. generalize (n - 1)%nat. clear n. induction n as [|n IH]; cbn [Nat.iter nat_rect].
  - change (2 ^ Z.of_nat 0) with 1. by rewrite Z.mul_1_l.
  - apply pow51_square in IH. rewrite Nat2Z.inj_succ, Z.pow_succ_r, <- Z.mul_assoc by lia. exact IH.
Qed.

Ltac chain51_step :=
  lazymatch goal with
  | |- pow51 ?z ?e (let t := ?r in @?k t) =>
      let t := fresh "t" in let H := fresh "H" in
      eassert (pow51 z _ r) as H by
        lazymatch r with
        | FeMul _ _ => eapply pow51_mul; eassumption
        | FeSquare _ => eapply pow51_square; eassumption
        | square_loop _ _ => eapply pow51_loop; eassumption
        end;
      lazymatch type of H with
      | pow51 _ ?a _ => let a' := eval vm_compute in a in change (pow51 z a' r) in H
      end;
      set (t := r) in *; change (pow51 z e (k t)); cbv beta; clearbody t
  end.

Lemma pow51_chain z a b x y e : pow51 z a x -> pow51 z b y -> a + b = e -> pow51 z e (FeMul x y).
Proof. intros H1 H2 <-. by apply pow51_mul. Qed.

(** The machine is not run while the exponents are computed. *)
#[local] Opaque FeMul FeSquare square_loop.

Lemma powers_spec z :
  limbs_within (2 ^ 54) z -> pow51 z (p25519 - 2) (FeInvert z) /\ pow51 z ((p25519 - 5) / 8) (fePow22523 z).
Proof.
  intros B. assert (pow51 z 1 z) as H by (split_and!; [lia|done|by rewrite Z.pow_1_r]). split.
  - cbv beta delta [FeInvert]. repeat chain51_step. eapply pow51_chain; [eassumption..|vm_compute; reflexivity].
  - cbv beta delta [fePow22523]. repeat chain51_step. eapply pow51_chain; [eassumption..|vm_compute; reflexivity].
Qed.
#[local] Transparent FeMul FeSquare square_loop.

(** *** The operations agree *)

(** FeAdd and its bounds in terms of the field. *)
Lemma linear_spec a b :
  limbs_within (2 ^ 52) a -> limbs_within (2 ^ 52) b ->
  (limbs_within (2 ^ 54) (FeAdd a b) /\ feq (val51 (FeAdd a b)) (val51 a + val51 b)) /\
  (limbs_within (2 ^ 54) (FeSub a b) /\ feq (val51 (FeSub a b)) (val51 a - val51 b)) /\
  (limbs_within (2 ^ 54) (FeNeg a) /\ feq (val51 (FeNeg a)) (- val51 a)).
Proof.
  intros Ha Hb. assert (limbs_within (2 ^ 63) a /\ limbs_within (2 ^ 63) b) as [Wa Wb] by (split; eapply within_mono; [|done| |done]; lia).
  destruct (FeAdd51_spec _ _ _ _ Ha Hb ltac:(lia)) as [B1 V1]. destruct (FeSub51_spec _ _ _ Ha ltac:(lia) Wb) as [B2 [k2 V2%val51_feq']].
  destruct (FeNeg51_spec a Wa) as [B3 [k3 V3%val51_feq']].
  split_and!; [eapply within_mono; [|exact B1]; lia|by rewrite V1|eapply within_mono; [|exact B2]; lia|done|
               eapply within_mono; [|exact B3]; lia|done].
Qed.

#[local] Instance feq_opp : Proper (feq ==> feq) Z.opp.
Proof. intros a b E. change (feq (- a) (- b)). replace (- a) with (-1 * a) by lia. replace (- b) with (-1 * b) by lia. by rewrite E. Qed.

#[local] Instance feq_minus : Proper (feq ==> feq ==> feq) Z.sub.
Proof. intros a b E c e F. unfold Z.sub. by rewrite E, F. Qed.

Lemma feq_pow a b e : 0 <= e -> feq a b -> feq (a ^ e) (b ^ e).
Proof. intros He E. pattern e. apply natlike_ind; [done| |done]. intros n Hn IH. rewrite !Z.pow_succ_r by done. by rewrite IH, E. Qed.

Lemma same_bytes f v : fe_wide f -> limbs_within (2 ^ 63) v -> same_element f v -> fst (EdField.FeToBytes f) = FeToBytes v.
Proof. intros Hf Hv E. rewrite EdField.FeToBytes_spec, FeToBytes51_spec by done. cbn [fst]. by rewrite E. Qed.

(** C10. The field of fe_amd64.go and its assembly agrees with the one of fe.go: on operands that represent
    the same elements, with the limbs that products have, every operation gives results that represent
    the same element and that the next product accepts; they are encoded to the same bytes and decoded
    to the same element from any 32 bytes, and their signs and zero tests agree.  FeCMove moves the same
    way. *)
Theorem amd64_field_correct f g a b l :
  fe_tight f -> fe_tight g -> limbs_within (2 ^ 52) a -> limbs_within (2 ^ 52) b -> same_element f a -> same_element g b ->
  bytes_ok l -> length l = 32%nat ->
  (limbs_within (2 ^ 52) (FeMul a b) /\ same_element (EdField.FeMul f g) (FeMul a b)) /\
  (limbs_within (2 ^ 52) (FeSquare a) /\ same_element (EdField.FeSquare f) (FeSquare a)) /\
  (limbs_within (2 ^ 53) (FeSquare2 a) /\ same_element (EdField.FeSquare2 f) (FeSquare2 a)) /\
  (limbs_within (2 ^ 54) (FeAdd a b) /\ same_element (EdField.FeAdd f g) (FeAdd a b)) /\
  (limbs_within (2 ^ 54) (FeSub a b) /\ same_element (EdField.FeSub f g) (FeSub a b)) /\
  (limbs_within (2 ^ 54) (FeNeg a) /\ same_element (EdField.FeNeg f) (FeNeg a)) /\
  (limbs_within (2 ^ 54) (FeInvert a) /\ same_element (EdField.FeInvert f) (FeInvert a)) /\
  (limbs_within (2 ^ 54) (fePow22523 a) /\ same_element (EdField.fePow22523 f) (fePow22523 a)) /\
  (limbs_within (2 ^ 52) (FeFromBytes l) /\ same_element (EdField.FeFromBytes l) (FeFromBytes l)) /\
  fst (EdField.FeToBytes f) = FeToBytes a /\
  fst (EdField.FeIsNegative f) = FeIsNegative a /\ fst (EdField.FeIsNonZero f) = FeIsNonZero a /\
  FeCMove a b 0 = a /\ FeCMove a b 1 = b.
Proof.
  intros Tf Tg Wa Wb Ea Eb Hl L. pose proof (tight_loose _ Tf) as Lf. pose proof (tight_loose _ Tg) as Lg.
  assert (limbs_within (2 ^ 54) a /\ limbs_within (2 ^ 54) b) as [Pa Pb] by (split; eapply within_mono; [|done| |done]; lia).
  assert (limbs_within (2 ^ 63) a) as Qa by (eapply within_mono; [|exact Pa]; lia).
  destruct (FeMul51_spec a b Pa Pb) as [T1 [k1 V1%val51_feq]]. destruct (FeSquare51_spec a Pa) as [T2 [k2 V2%val51_feq]].
  destruct (FeSquare251_spec a Pa) as [T3 [k3 V3%val51_feq]].
  destruct (linear_spec a b Wa Wb) as ((B4 & V4) & (B5 & V5) & (B6 & V6)).
  destruct (powers_spec a Pa) as [(_ & B7 & V7) (_ & B8 & V8)]. destruct (FeFromBytes51_spec l Hl L) as [B9 V9].
  destruct (EdField.FeMul_spec f g) as [_ U1]; [by apply loose_wide..|]. destruct (EdField.FeSquare_spec f) as [_ U2]; [by apply loose_wide|].
  destruct (EdField.FeSquare2_spec f) as [_ U3]; [by apply loose_wide|].
  destruct (EdField.FeInvert_power f Lf) as (_ & _ & U7). destruct (EdField.fePow22523_power f Lf) as (_ & _ & U8).
  destruct (EdField.FeFromBytes_spec l Hl L) as [_ U9]. destruct (field_linear_correct f g 0 Tf Tg) as ((_ & U4) & (_ & U5) & (_ & U6) & _).
  pose proof (same_bytes f a (loose_wide _ Lf) Qa Ea) as EB. unfold same_element in *.
  split_and!.
  - exact (tight_within _ T1).
  - rewrite U1, V1. by apply feq_mul.
  - exact (tight_within _ T2).
  - rewrite U2, V2. by apply feq_mul.
  - exact T3.
  - rewrite U3, V3. apply feq_mul; [reflexivity|]. by apply feq_mul.
  - exact B4.
  - rewrite U4, V4. by apply feq_add.
  - exact B5.
  - rewrite U5, V5. by apply feq_minus.
  - exact B6.
  - rewrite U6, V6. by apply feq_opp.
  - exact B7.
  - rewrite U7, V7. by apply feq_pow.
  - exact B8.
  - rewrite U8, V8. by apply feq_pow.
  - eapply within_mono; [|exact B9]. lia.
  - rewrite U9, V9. reflexivity.
  - exact EB.
  - rewrite EdField.FeIsNegative_spec by (by apply loose_wide). cbn [fst]. unfold FeIsNegative. rewrite FeToBytes51_spec by exact Qa.
    cbn [le_bytes nth]. rewrite (land_low _ 1) by (lia || reflexivity). unfold feq in Ea. rewrite Ea. generalize (val51 a mod p25519). intros z.
    unfold u8. change (2 ^ 8) with 256. change (2 ^ 1) with 2. clear. Z.div_mod_to_equations. lia.
  - rewrite EdField.FeIsNonZero_fold. cbn [fst]. rewrite EB. reflexivity.
  - rewrite (FeCMove51_spec (2 ^ 52)) by (assumption || lia). reflexivity.
  - rewrite (FeCMove51_spec (2 ^ 52)) by (assumption || lia). reflexivity.
Qed.

Lemma amd64_field_correct_witness :
  same_element (EdField.FeMul EdField.FeOne (Fe 5 0 0 0 0 0 0 0 0 0)) (FeMul FeOne (5, 0, 0, 0, 0)) /\
  FeMul FeOne (5, 0, 0, 0, 0) = (5, 0, 0, 0, 0) /\
  fst (EdField.FeToBytes (Fe 5 0 0 0 0 0 0 0 0 0)) = FeToBytes (5, 0, 0, 0, 0).
Proof.
  assert (fe_tight EdField.FeOne /\ fe_tight (Fe 5 0 0 0 0 0 0 0 0 0)) as [T1 T5]
    by (split; vm_compute; repeat split; discriminate).
  assert (limbs_within (2 ^ 52) FeOne /\ limbs_within (2 ^ 52) (5, 0, 0, 0, 0)) as [W1 W5] by (split; vm_compute; repeat split; discriminate).
  assert (bytes_ok (replicate 32 7)) as B7 by (apply Forall_replicate; lia).
  destruct (amd64_field_correct EdField.FeOne (Fe 5 0 0 0 0 0 0 0 0 0) FeOne (5, 0, 0, 0, 0) (replicate 32 7) T1 T5 W1 W5 eq_refl eq_refl
    B7 eq_refl) as ((_ & M) & _).
  destruct (amd64_field_correct (Fe 5 0 0 0 0 0 0 0 0 0) EdField.FeOne (5, 0, 0, 0, 0) FeOne (replicate 32 7) T5 T1 W5 W1 eq_refl eq_refl
    B7 eq_refl) as (_ & _ & _ & _ & _ & _ & _ & _ & _ & E & _).
  split; [exact M|]. split; [vm_compute; reflexivity|exact E].
Defined.
