(* ===== verification/Ge51.v ===== *)
(** * Group elements and signatures of amd64 builds

    group.go and base.go are compiled against fe.go or, on amd64, against fe_amd64.go with its tables.
    Here they are over the latter, and each operation simulates the one over fe.go: elements that
    represent the same residues, within the limbs both fields accept, are taken to such elements.  So an
    amd64 build generates the same keys, makes the same signatures and accepts the same ones. *)
From S2P Require Import Prelude EdScalar EdField EdPrime EdCurve EdTables EdGroup EdPoint EdBase EdMult EdEncode Sha512 Ed25519 Amd64 Fe51 EdTables51 EdGen.
From Stdlib Require Import Zmod.Zmod.
#[local] Open Scope Z_scope.
#[local] Open Scope go_scope.

(** ** group.go *)

Record ProjectiveGroupElement51 := Proj51 { pX51 : FieldElement51; pY51 : FieldElement51; pZ51 : FieldElement51 }.
Record ExtendedGroupElement51 := Ext51 { eX51 : FieldElement51; eY51 : FieldElement51; eZ51 : FieldElement51; eT51 : FieldElement51 }.
Record CompletedGroupElement51 := Comp51 { cX51 : FieldElement51; cY51 : FieldElement51; cZ51 : FieldElement51; cT51 : FieldElement51 }.
Record CachedGroupElement51 := Cached51 { caYPlusX51 : FieldElement51; caYMinusX51 : FieldElement51; caZ51 : FieldElement51; caT2d51 : FieldElement51 }.

Definition Projective_Zero51 : ProjectiveGroupElement51 := Proj51 FeZero FeOne FeOne.

Definition Projective_Double51 (p : ProjectiveGroupElement51) : CompletedGroupElement51 :=
  let rX := FeSquare (pX51 p) in
  let rZ := FeSquare (pY51 p) in
  let rT := FeSquare2 (pZ51 p) in
  let rY := FeAdd (pX51 p) (pY51 p) in
  let t0 := FeSquare rY in
  let rY := FeAdd rZ rX in
  let rZ := FeSub rZ rX in
  let rX := FeSub t0 rY in
  let rT := FeSub rT rZ in
  Comp51 rX rY rZ rT.

Definition encode_xy51 (x y : FieldElement51) : list Z :=
  let s := FeToBytes y in
  <[31%nat := Z.lxor (EdScalar.byte_at s 31) (u8 (Z.shiftl (FeIsNegative x) 7))]> s.

Definition Projective_ToBytes51 (p : ProjectiveGroupElement51) : list Z :=
  let recip := FeInvert (pZ51 p) in
  encode_xy51 (FeMul (pX51 p) recip) (FeMul (pY51 p) recip).

Definition Extended_Zero51 : ExtendedGroupElement51 := Ext51 FeZero FeOne FeOne FeZero.

Definition Extended_ToProjective51 (p : ExtendedGroupElement51) : ProjectiveGroupElement51 :=
  Proj51 (FeCopy (eX51 p)) (FeCopy (eY51 p)) (FeCopy (eZ51 p)).

Definition Extended_Double51 (p : ExtendedGroupElement51) : CompletedGroupElement51 :=
  Projective_Double51 (Extended_ToProjective51 p).

Definition ToCached51 (p : ExtendedGroupElement51) : CachedGroupElement51 :=
  Cached51 (FeAdd (eY51 p) (eX51 p)) (FeSub (eY51 p) (eX51 p)) (FeCopy (eZ51 p)) (FeMul (eT51 p) amd64.d2).

Definition Extended_ToBytes51 (p : ExtendedGroupElement51) : list Z :=
  let recip := FeInvert (eZ51 p) in
  encode_xy51 (FeMul (eX51 p) recip) (FeMul (eY51 p) recip).

(** FromBytes; the assembly leaves the arguments of FeIsNonZero and FeIsNegative as they are. *)
Definition FromBytes51 (p : ExtendedGroupElement51) (s : list Z) : bool * ExtendedGroupElement51 :=
  let Y := FeFromBytes s in
  let Z := FeOne in
  let u := FeSquare Y in
  let v := FeMul u amd64.d in
  let u := FeSub u Z in
  let v := FeAdd v Z in
  let v3 := FeSquare v in
  let v3 := FeMul v3 v in
  let X := FeSquare v3 in
  let X := FeMul X v in
  let X := FeMul X u in
  let X := fePow22523 X in
  let X := FeMul X v3 in
  let X := FeMul X u in
  let vxx := FeSquare X in
  let vxx := FeMul vxx v in
  let check := FeSub vxx u in
  let root :=
    if FeIsNonZero check =? 1 then
      let check := FeAdd vxx u in
      if FeIsNonZero check =? 1 then (false, X)
      else (true, FeMul X amd64.SqrtM1)
    else (true, X) in
  let '(ok, X) := root in
  if ok then
    let X := if negb (FeIsNegative X =? Z.shiftr (EdScalar.byte_at s 31) 7) then FeNeg X else X in
    (true, Ext51 X Y Z (FeMul X Y))
  else (false, Ext51 X Y Z (eT51 p)).

Definition Completed_ToProjective51 (p : CompletedGroupElement51) : ProjectiveGroupElement51 :=
  Proj51 (FeMul (cX51 p) (cT51 p)) (FeMul (cY51 p) (cZ51 p)) (FeMul (cZ51 p) (cT51 p)).

Definition ToExtended51 (p : CompletedGroupElement51) : ExtendedGroupElement51 :=
  Ext51 (FeMul (cX51 p) (cT51 p)) (FeMul (cY51 p) (cZ51 p)) (FeMul (cZ51 p) (cT51 p)) (FeMul (cX51 p) (cY51 p)).

Definition PreComputed_Zero51 : PreComputedGroupElement51 := Pre51 FeOne FeOne FeZero.

Definition geAdd51 (p : ExtendedGroupElement51) (q : CachedGroupElement51) : CompletedGroupElement51 :=
  let rX := FeAdd (eY51 p) (eX51 p) in
  let rY := FeSub (eY51 p) (eX51 p) in
  let rZ := FeMul rX (caYPlusX51 q) in
  let rY := FeMul rY (caYMinusX51 q) in
  let rT := FeMul (caT2d51 q) (eT51 p) in
  let rX := FeMul (eZ51 p) (caZ51 q) in
  let t0 := FeAdd rX rX in
  let rX := FeSub rZ rY in
  let rY := FeAdd rZ rY in
  let rZ := FeAdd t0 rT in
  let rT := FeSub t0 rT in
  Comp51 rX rY rZ rT.

Definition geSub51 (p : ExtendedGroupElement51) (q : CachedGroupElement51) : CompletedGroupElement51 :=
  let rX := FeAdd (eY51 p) (eX51 p) in
  let rY := FeSub (eY51 p) (eX51 p) in
  let rZ := FeMul rX (caYMinusX51 q) in
  let rY := FeMul rY (caYPlusX51 q) in
  let rT := FeMul (caT2d51 q) (eT51 p) in
  let rX := FeMul (eZ51 p) (caZ51 q) in
  let t0 := FeAdd rX rX in
  let rX := FeSub rZ rY in
  let rY := FeAdd rZ rY in
  let rZ := FeSub t0 rT in
  let rT := FeAdd t0 rT in
  Comp51 rX rY rZ rT.

Definition geMixedAdd51 (p : ExtendedGroupElement51) (q : PreComputedGroupElement51) : CompletedGroupElement51 :=
  let rX := FeAdd (eY51 p) (eX51 p) in
  let rY := FeSub (eY51 p) (eX51 p) in
  let rZ := FeMul rX (yPlusX51 q) in
  let rY := FeMul rY (yMinusX51 q) in
  let rT := FeMul (xy2d51 q) (eT51 p) in
  let t0 := FeAdd (eZ51 p) (eZ51 p) in
  let rX := FeSub rZ rY in
  let rY := FeAdd rZ rY in
  let rZ := FeAdd t0 rT in
  let rT := FeSub t0 rT in
  Comp51 rX rY rZ rT.

Definition geMixedSub51 (p : ExtendedGroupElement51) (q : PreComputedGroupElement51) : CompletedGroupElement51 :=
  let rX := FeAdd (eY51 p) (eX51 p) in
  let rY := FeSub (eY51 p) (eX51 p) in
  let rZ := FeMul rX (yMinusX51 q) in
  let rY := FeMul rY (yPlusX51 q) in
  let rT := FeMul (xy2d51 q) (eT51 p) in
  let t0 := FeAdd (eZ51 p) (eZ51 p) in
  let rX := FeSub rZ rY in
  let rY := FeAdd rZ rY in
  let rZ := FeSub t0 rT in
  let rT := FeAdd t0 rT in
  Comp51 rX rY rZ rT.

(** *** Scalar multiplication; the recoding of the scalars is independent of the field *)

Fixpoint odd_multiples51 (n : nat) (A2 : ExtendedGroupElement51) (q : CachedGroupElement51) : list CachedGroupElement51 :=
  match n with
  | O => [q]
  | S n => q :: odd_multiples51 n A2 (ToCached51 (ToExtended51 (geAdd51 A2 q)))
  end.

Definition add_digit51 {Q} (add sub : ExtendedGroupElement51 -> Q -> CompletedGroupElement51) (table : list Q)
    (digit : Z) (t : CompletedGroupElement51) : res unit CompletedGroupElement51 :=
  if 0 <? digit then
    match table !! Z.to_nat (Z.quot digit 2) with
    | Some q => Ok (add (ToExtended51 t) q)
    | None => Panic
    end
  else if digit <? 0 then
    match table !! Z.to_nat (Z.quot (i8 (- digit)) 2) with
    | Some q => Ok (sub (ToExtended51 t) q)
    | None => Panic
    end
  else Ok t.

Fixpoint double_scalar_loop51 (Ai : list CachedGroupElement51) (digits : list (Z * Z)) (r : ProjectiveGroupElement51)
    : res unit ProjectiveGroupElement51 :=
  match digits with
  | [] => Ok r
  | (da, db) :: digits =>
    let? t := add_digit51 geAdd51 geSub51 Ai da (Projective_Double51 r) in
    let? t := add_digit51 geMixedAdd51 geMixedSub51 amd64.bi db t in
    double_scalar_loop51 Ai digits (Completed_ToProjective51 t)
  end.

Definition GeDoubleScalarMultVartime51 (a : list Z) (A : ExtendedGroupElement51) (b : list Z)
    : res unit ProjectiveGroupElement51 :=
  let aSlide := slide a in
  let bSlide := slide b in
  let A2 := ToExtended51 (Extended_Double51 A) in
  let Ai := odd_multiples51 7 A2 (ToCached51 A) in
  double_scalar_loop51 Ai (skip_zeros (rev (combine aSlide bSlide))) Projective_Zero51.

Definition PreComputedGroupElementCMove51 (t u : PreComputedGroupElement51) (b : Z) : PreComputedGroupElement51 :=
  Pre51 (FeCMove (yPlusX51 t) (yPlusX51 u) b) (FeCMove (yMinusX51 t) (yMinusX51 u) b) (FeCMove (xy2d51 t) (xy2d51 u) b).

Fixpoint select_loop51 (row : list PreComputedGroupElement51) (i bAbs : Z) (t : PreComputedGroupElement51) : PreComputedGroupElement51 :=
  match row with
  | [] => t
  | u :: row => select_loop51 row (i32 (i + 1)) bAbs (PreComputedGroupElementCMove51 t u (equal bAbs (i32 (i + 1))))
  end.

Definition selectPoint51 (row : list PreComputedGroupElement51) (b : Z) : PreComputedGroupElement51 :=
  let bNegative := negative b in
  let bAbs := i32 (b - i32 (Z.shiftl (Z.land (i32 (- bNegative)) b) 1)) in
  let t := select_loop51 row 0 bAbs PreComputed_Zero51 in
  let minusT := Pre51 (FeCopy (yMinusX51 t)) (FeCopy (yPlusX51 t)) (FeNeg (xy2d51 t)) in
  PreComputedGroupElementCMove51 t minusT bNegative.

Fixpoint add_rows51 (rows : list (list PreComputedGroupElement51)) (digits : list Z) (h : ExtendedGroupElement51) : ExtendedGroupElement51 :=
  match rows, digits with
  | row :: rows, x :: digits => add_rows51 rows digits (ToExtended51 (geMixedAdd51 h (selectPoint51 row x)))
  | _, _ => h
  end.

Definition GeScalarMultBase51 (a : list Z) : ExtendedGroupElement51 :=
  let e := recode 63 0 (nibbles a) in
  let h := add_rows51 amd64.base (odd_digits e) Extended_Zero51 in
  let r := Extended_Double51 h in
  let s := Completed_ToProjective51 r in
  let r := Projective_Double51 s in
  let s := Completed_ToProjective51 r in
  let r := Projective_Double51 s in
  let s := Completed_ToProjective51 r in
  let r := Projective_Double51 s in
  let h := ToExtended51 r in
  add_rows51 amd64.base (even_digits e) h.

(** ** base.go *)

Definition GenerateKey51 (cryptorand : reader) (rand : option reader) : res ed_err (list Z * list Z) :=
  let rand := default cryptorand rand in
  let? seed := rand in
  let digest := Sum512 seed in
  let digest := <[0%nat := Z.land (EdScalar.byte_at digest 0) 248]> digest in
  let digest := <[31%nat := Z.land (EdScalar.byte_at digest 31) 127]> digest in
  let digest := <[31%nat := Z.lor (EdScalar.byte_at digest 31) 64]> digest in
  let hBytes := take 32 digest in
  let A := GeScalarMultBase51 hBytes in
  let publicKeyBytes := Extended_ToBytes51 A in
  Ok (publicKeyBytes, seed ++ publicKeyBytes).

Definition Sign51 (privateKey message : list Z) : res ed_err (list Z) :=
  if negb (length privateKey =? PrivateKeySize)%nat then Panic
  else
    let digest1 := Sum512 (take 32 privateKey) in
    let expandedSecretKey := take 32 digest1 in
    let expandedSecretKey := <[0%nat := Z.land (EdScalar.byte_at expandedSecretKey 0) 248]> expandedSecretKey in
    let expandedSecretKey := <[31%nat := Z.land (EdScalar.byte_at expandedSecretKey 31) 63]> expandedSecretKey in
    let expandedSecretKey := <[31%nat := Z.lor (EdScalar.byte_at expandedSecretKey 31) 64]> expandedSecretKey in
    let messageDigest := Sum512 (drop 32 digest1 ++ message) in
    let messageDigestReduced := ScReduce messageDigest in
    let R := GeScalarMultBase51 messageDigestReduced in
    let encodedR := Extended_ToBytes51 R in
    let hramDigest := Sum512 (encodedR ++ drop 32 privateKey ++ message) in
    let hramDigestReduced := ScReduce hramDigest in
    let s := ScMulAdd hramDigestReduced expandedSecretKey messageDigestReduced in
    Ok (encodedR ++ s).

Definition zero_element51 : ExtendedGroupElement51 := Ext51 FeZero FeZero FeZero FeZero.

Definition Verify51 (publicKey message sig : list Z) : res ed_err bool :=
  if negb (length publicKey =? PublicKeySize)%nat then Panic
  else if negb (length sig =? SignatureSize)%nat || negb (Z.land (EdScalar.byte_at sig 63) 224 =? 0) then Ok false
  else
    let '(ok, A) := FromBytes51 zero_element51 publicKey in
    if negb ok then Ok false
    else
      let A := Ext51 (FeNeg (eX51 A)) (eY51 A) (eZ51 A) (FeNeg (eT51 A)) in
      let digest := Sum512 (take 32 sig ++ publicKey ++ message) in
      let hReduced := ScReduce digest in
      let b := drop 32 sig in
      match GeDoubleScalarMultVartime51 hReduced A b with
      | Ok R => Ok (bool_decide (take 32 sig = Projective_ToBytes51 R))
      | _ => Panic
      end.

(** ** The same elements *)

(** The machine is not run. *)
#[local] Opaque FeMul FeSquare FeInvert fePow22523 FeToBytes FeFromBytes FeCMove.

(** The residue of an element. *)
Definition fev51 (v : FieldElement51) : Fp := Zmod.of_Z p25519 (val51 v).

(** Limbs below [k] times the bound of a product. *)
Definition lim (k : Z) (v : FieldElement51) : Prop := limbs_within (k * 2 ^ 52) v.

Lemma lim_le k k' v : k <= k' -> lim k v -> lim k' v.
Proof. intros H. apply within_mono. lia. Qed.

Lemma lim_54 v : lim 4 v -> limbs_within (2 ^ 54) v.
Proof. done. Qed.
Lemma lim_63 k v : k <= 4 -> lim k v -> limbs_within (2 ^ 63) v.
Proof. intros H. apply within_mono. lia. Qed.

Lemma lim_1_2 v : lim 1 v -> lim 2 v.
Proof. apply lim_le. lia. Qed.
Lemma lim_2_3 v : lim 2 v -> lim 3 v.
Proof. apply lim_le. lia. Qed.
Lemma lim_3_4 v : lim 3 v -> lim 4 v.
Proof. apply lim_le. lia. Qed.

Lemma same_fev f v : same_element f v <-> fev f = fev51 v.
Proof.
  split; [by apply of_Z_feq|]. intros E. apply (f_equal Zmod.to_Z) in E. unfold fev, fev51 in E.
  by rewrite !Zmod.to_Z_of_Z in E.
Qed.

Lemma mul51 a b : lim 4 a -> lim 4 b -> lim 1 (FeMul a b) /\ fev51 (FeMul a b) = Zmod.mul (fev51 a) (fev51 b).
Proof.
  intros Ha Hb. destruct (FeMul51_spec a b) as [T [k V%val51_feq]]; [by apply lim_54..|]. split; [by apply tight_within in T|].
  unfold fev51. rewrite <- Zmod.of_Z_mul. by apply of_Z_feq.
Qed.

Lemma square51 a : lim 4 a -> lim 1 (FeSquare a) /\ fev51 (FeSquare a) = Zmod.mul (fev51 a) (fev51 a).
Proof.
  intros Ha. destruct (FeSquare51_spec a) as [T [k V%val51_feq]]; [by apply lim_54|]. split; [by apply tight_within in T|].
  unfold fev51. rewrite <- Zmod.of_Z_mul. by apply of_Z_feq.
Qed.

Lemma add51 j k a b : j + k <= 4 -> lim j a -> lim k b -> lim (j + k) (FeAdd a b) /\ fev51 (FeAdd a b) = Zmod.add (fev51 a) (fev51 b).
Proof.
  intros H Ha Hb. destruct (FeAdd51_spec _ _ a b Ha Hb) as [B V]; [lia|]. split.
  - eapply within_mono; [|exact B]. lia.
  - unfold fev51. by rewrite <- Zmod.of_Z_add, V.
Qed.

Lemma square251 a : lim 4 a -> lim 2 (FeSquare2 a) /\ fev51 (FeSquare2 a) = Zmod.add (Zmod.mul (fev51 a) (fev51 a)) (Zmod.mul (fev51 a) (fev51 a)).
Proof.
  intros [B V]%square51. destruct (add51 1 1 _ _ ltac:(lia) B B) as [B2 V2]. split; [exact B2|].
  unfold FeSquare2. cbv zeta. by rewrite V2, V.
Qed.

Lemma sub51 k a b : k <= 3 -> lim k a -> lim 4 b -> lim (k + 1) (FeSub a b) /\ fev51 (FeSub a b) = Zmod.sub (fev51 a) (fev51 b).
Proof.
  intros H Ha Hb. destruct (FeSub51_spec _ a b Ha) as [B [j V%val51_feq']]; [lia|by apply (lim_63 4)|]. split.
  - eapply within_mono; [|exact B]. lia.
  - unfold fev51. rewrite <- Zmod.of_Z_sub. by apply of_Z_feq.
Qed.

Lemma neg51 a : lim 4 a -> lim 1 (FeNeg a) /\ fev51 (FeNeg a) = Zmod.opp (fev51 a).
Proof.
  intros Ha. destruct (FeNeg51_spec a) as [B [j V%val51_feq']]; [by apply (lim_63 4)|]. split; [exact B|].
  unfold fev51. rewrite <- Zmod.of_Z_opp. by apply of_Z_feq.
Qed.

Lemma zero51 : lim 1 FeZero /\ fev51 FeZero = Zmod.zero.
Proof. split; [vm_compute; repeat split; discriminate|apply Zmod.of_Z_0]. Qed.
Lemma one51 : lim 1 FeOne /\ fev51 FeOne = Zmod.one.
Proof. split; [vm_compute; repeat split; discriminate|apply Zmod.of_Z_1]. Qed.

(** Bounds and values by the shape of the expression, as for the portable field. *)
Create HintDb lim51 discriminated.
#[local] Hint Constants Opaque : lim51.
Lemma lim_mul a b : lim 4 a -> lim 4 b -> lim 1 (FeMul a b).
Proof. apply mul51. Qed.
Lemma lim_square a : lim 4 a -> lim 1 (FeSquare a).
Proof. apply square51. Qed.
Lemma lim_square2 a : lim 4 a -> lim 2 (FeSquare2 a).
Proof. apply square251. Qed.
Lemma lim_add_11 a b : lim 1 a -> lim 1 b -> lim 2 (FeAdd a b).
Proof. apply (add51 1 1). lia. Qed.
Lemma lim_add_21 a b : lim 2 a -> lim 1 b -> lim 3 (FeAdd a b).
Proof. apply (add51 2 1). lia. Qed.
Lemma lim_add_12 a b : lim 1 a -> lim 2 b -> lim 3 (FeAdd a b).
Proof. apply (add51 1 2). lia. Qed.
Lemma lim_sub_1 a b : lim 1 a -> lim 4 b -> lim 2 (FeSub a b).
Proof. apply (sub51 1). lia. Qed.
Lemma lim_sub_2 a b : lim 2 a -> lim 4 b -> lim 3 (FeSub a b).
Proof. apply (sub51 2). lia. Qed.
Lemma lim_neg a : lim 4 a -> lim 1 (FeNeg a).
Proof. apply neg51. Qed.
Lemma lim_zero : lim 1 FeZero.
Proof. apply zero51. Qed.
Lemma lim_one : lim 1 FeOne.
Proof. apply one51. Qed.
#[local] Hint Resolve lim_1_2 lim_2_3 lim_3_4 lim_mul lim_square lim_square2 lim_add_11 lim_add_21 lim_add_12
  lim_sub_1 lim_sub_2 lim_neg lim_zero lim_one : lim51.

Ltac lim_bounds := solve [typeclasses eauto 30 with lim51].

Lemma v51_add a b : lim 2 a -> lim 2 b -> fev51 (FeAdd a b) = Zmod.add (fev51 a) (fev51 b).
Proof. apply (add51 2 2). lia. Qed.
Lemma v51_sub a b : lim 3 a -> lim 4 b -> fev51 (FeSub a b) = Zmod.sub (fev51 a) (fev51 b).
Proof. apply (sub51 3). lia. Qed.

Create Rewrite HintDb v51.
#[local] Hint Rewrite (proj2 zero51) (proj2 one51) : v51.
#[local] Hint Rewrite (fun a b Ha Hb => proj2 (mul51 a b Ha Hb)) (fun a H => proj2 (square51 a H)) (fun a H => proj2 (square251 a H))
  v51_add v51_sub (fun a H => proj2 (neg51 a H)) using lim_bounds : v51.

(** ** Simulation of the formulas *)

(** Elements of the two fields that an operation of the group may be given. *)
Definition sim (bounds : FieldElement -> Prop) (k : Z) (f : FieldElement) (v : FieldElement51) : Prop :=
  bounds f /\ lim k v /\ fev f = fev51 v.

Definition sim_proj (p : ProjectiveGroupElement) (q : ProjectiveGroupElement51) : Prop :=
  sim fe_loose 1 (pX p) (pX51 q) /\ sim fe_tight 1 (pY p) (pY51 q) /\ sim fe_tight 1 (pZ p) (pZ51 q).
Definition sim_ext (p : ExtendedGroupElement) (q : ExtendedGroupElement51) : Prop :=
  sim fe_loose 1 (eX p) (eX51 q) /\ sim fe_tight 1 (eY p) (eY51 q) /\ sim fe_tight 1 (eZ p) (eZ51 q) /\ sim fe_tight 1 (eT p) (eT51 q).
Definition sim_comp (p : CompletedGroupElement) (q : CompletedGroupElement51) : Prop :=
  sim fe_wide 3 (cX p) (cX51 q) /\ sim fe_wide 3 (cY p) (cY51 q) /\ sim fe_wide 3 (cZ p) (cZ51 q) /\ sim fe_wide 3 (cT p) (cT51 q).
Definition sim_cached (p : CachedGroupElement) (q : CachedGroupElement51) : Prop :=
  sim fe_wide 2 (caYPlusX p) (caYPlusX51 q) /\ sim fe_wide 2 (caYMinusX p) (caYMinusX51 q) /\
  sim fe_tight 1 (caZ p) (caZ51 q) /\ sim fe_tight 1 (caT2d p) (caT2d51 q).
Definition sim_pre (p : PreComputedGroupElement) (q : PreComputedGroupElement51) : Prop :=
  sim fe_tight 1 (yPlusX p) (yPlusX51 q) /\ sim fe_tight 1 (yMinusX p) (yMinusX51 q) /\ sim fe_tight 1 (xy2d p) (xy2d51 q).

(** The tables. *)
Lemma matches_sim f v : matches f v = true -> sim fe_tight 1 f v.
Proof.
  intros M. destruct (matches_spec _ _ M) as (T & W & _). destruct (matches_canonical _ _ M) as (_ & _ & S).
  split; [done|split; [eapply within_mono; [|exact W]; lia|by apply same_fev]].
Qed.

Lemma matches_pre_sim p q : matches_pre p q = true -> sim_pre p q.
Proof. unfold matches_pre. rewrite !andb_true_iff. intros [[H1 H2] H3]. split_and!; by apply matches_sim. Qed.

Lemma constants_sim : sim fe_tight 1 const.d amd64.d /\ sim fe_tight 1 const.d2 amd64.d2 /\ sim fe_tight 1 const.SqrtM1 amd64.SqrtM1.
Proof. destruct tables_match as (M1 & M2 & M3 & _). split_and!; [exact (matches_sim _ _ M1)|exact (matches_sim _ _ M2)|exact (matches_sim _ _ M3)]. Qed.
Lemma bi_sim : Forall2 sim_pre const.bi amd64.bi.
Proof. destruct tables_match as (_ & _ & _ & _ & M & _). exact (all2_Forall2 matches_pre _ _ _ matches_pre_sim M). Qed.
Lemma base_sim : Forall2 (Forall2 sim_pre) const.base amd64.base.
Proof.
  destruct tables_match as (_ & _ & _ & _ & _ & M). refine (all2_Forall2 (all2 matches_pre) _ _ _ _ M). intros r s.
  exact (all2_Forall2 matches_pre _ r s matches_pre_sim).
Qed.

(** A coordinate of a formula: bounds on both sides and the same polynomial of the same residues. *)
Ltac sim_all := repeat match goal with H : _ /\ _ |- _ => destruct H | H : sim _ _ _ _ |- _ => destruct H as (? & ? & ?) end.
Ltac sim_value :=
  autorewrite with fev v51; repeat match goal with H : fev _ = fev51 _ |- _ => rewrite H; clear H end; reflexivity.
Ltac sim_step :=
  cbn [pX pY pZ pX51 pY51 pZ51 eX eY eZ eT eX51 eY51 eZ51 eT51 cX cY cZ cT cX51 cY51 cZ51 cT51 caYPlusX caYMinusX caZ caT2d
       caYPlusX51 caYMinusX51 caZ51 caT2d51 yPlusX yMinusX xy2d yPlusX51 yMinusX51 xy2d51];
  split; [fe_bounds|split; [lim_bounds|]]; sim_value.

Lemma Completed_ToProjective_sim p q : sim_comp p q -> sim_proj (Completed_ToProjective p) (Completed_ToProjective51 q).
Proof. intros H. unfold sim_comp in H. sim_all. unfold Completed_ToProjective, Completed_ToProjective51. split_and!; sim_step. Qed.

Lemma ToExtended_sim p q : sim_comp p q -> sim_ext (ToExtended p) (ToExtended51 q).
Proof. intros H. unfold sim_comp in H. sim_all. unfold ToExtended, ToExtended51. split_and!; sim_step. Qed.

Lemma Extended_ToProjective_sim p q : sim_ext p q -> sim_proj (Extended_ToProjective p) (Extended_ToProjective51 q).
Proof. intros (HX & HY & HZ & _). by split_and!. Qed.

Lemma ToCached_sim p q : sim_ext p q -> sim_cached (ToCached p) (ToCached51 q).
Proof.
  intros H. unfold sim_ext in H. destruct constants_sim as (_ & Hd & _). sim_all. unfold ToCached, ToCached51, EdField.FeCopy, FeCopy. split_and!; sim_step.
Qed.

Lemma Projective_Double_sim p q : sim_proj p q -> sim_comp (Projective_Double p) (Projective_Double51 q).
Proof. intros H. unfold sim_proj in H. sim_all. unfold Projective_Double, Projective_Double51. cbv zeta. split_and!; sim_step. Qed.

Lemma geAdd_sim p q p' q' : sim_ext p p' -> sim_cached q q' -> sim_comp (geAdd p q) (geAdd51 p' q').
Proof.
  intros H1 H2. unfold sim_ext in H1. unfold sim_cached in H2. sim_all. unfold geAdd, geAdd51. cbv zeta. split_and!; sim_step.
Qed.

Lemma geSub_sim p q p' q' : sim_ext p p' -> sim_cached q q' -> sim_comp (geSub p q) (geSub51 p' q').
Proof.
  intros H1 H2. unfold sim_ext in H1. unfold sim_cached in H2. sim_all. unfold geSub, geSub51. cbv zeta. split_and!; sim_step.
Qed.

Lemma geMixedAdd_sim p q p' q' : sim_ext p p' -> sim_pre q q' -> sim_comp (geMixedAdd p q) (geMixedAdd51 p' q').
Proof.
  intros H1 H2. unfold sim_ext in H1. unfold sim_pre in H2. sim_all. unfold geMixedAdd, geMixedAdd51. cbv zeta. split_and!; sim_step.
Qed.

Lemma geMixedSub_sim p q p' q' : sim_ext p p' -> sim_pre q q' -> sim_comp (geMixedSub p q) (geMixedSub51 p' q').
Proof.
  intros H1 H2. unfold sim_ext in H1. unfold sim_pre in H2. sim_all. unfold geMixedSub, geMixedSub51. cbv zeta. split_and!; sim_step.
Qed.

Lemma Extended_Double_sim p q : sim_ext p q -> sim_comp (Extended_Double p) (Extended_Double51 q).
Proof. intros H. by apply Projective_Double_sim, Extended_ToProjective_sim. Qed.

Lemma zero_sim : sim fe_tight 1 EdField.FeZero FeZero.
Proof. split; [fe_bounds|split; [lim_bounds|]]. by rewrite fev_zero, (proj2 zero51). Qed.
Lemma one_sim : sim fe_tight 1 EdField.FeOne FeOne.
Proof. split; [fe_bounds|split; [lim_bounds|]]. by rewrite fev_one, (proj2 one51). Qed.

Lemma sim_loose k f v : sim fe_tight k f v -> sim fe_loose k f v.
Proof. intros (T & L & E). split_and!; [by apply tight_loose|done..]. Qed.

Lemma Projective_Zero_sim : sim_proj Projective_Zero Projective_Zero51.
Proof. split_and!; [apply sim_loose, zero_sim|apply one_sim..]. Qed.
Lemma Extended_Zero_sim : sim_ext Extended_Zero Extended_Zero51.
Proof. split_and!; [apply sim_loose, zero_sim|apply one_sim..|apply zero_sim]. Qed.
Lemma PreComputed_Zero_sim : sim_pre PreComputed_Zero PreComputed_Zero51.
Proof. split_and!; [apply one_sim..|apply zero_sim]. Qed.

#[local] Hint Resolve Completed_ToProjective_sim ToExtended_sim Extended_ToProjective_sim ToCached_sim Projective_Double_sim geAdd_sim
  geSub_sim geMixedAdd_sim geMixedSub_sim Extended_Double_sim Projective_Zero_sim Extended_Zero_sim PreComputed_Zero_sim : core.

(** ** Selection from the tables *)

Lemma bit_equal b c : equal b c = 0 \/ equal b c = 1.
Proof.
  unfold equal. cbv zeta. set (x := u32 (u32 (Z.lxor b c) - 1)). assert (0 <= x < 2 ^ 32) as Hx by (apply Z.mod_pos_bound; lia).
  clearbody x. rewrite Z.shiftr_div_pow2 by lia. assert (x / 2 ^ 31 = 0 \/ x / 2 ^ 31 = 1) as [-> | ->] by (Z.div_mod_to_equations; lia); auto.
Qed.

Lemma bit_negative b : negative b = 0 \/ negative b = 1.
Proof. unfold negative. rewrite (land_low _ 1) by done. change (2 ^ 1) with 2. pose proof (Z.mod_pos_bound (Z.shiftr b 31) 2). lia. Qed.

Lemma CMove_sim t u t' u' b :
  b = 0 \/ b = 1 -> sim_pre t t' -> sim_pre u u' ->
  sim_pre (PreComputedGroupElementCMove t u b) (PreComputedGroupElementCMove51 t' u' b).
Proof.
  intros Hb Ht Hu. unfold PreComputedGroupElementCMove51.
  destruct Ht as ((?&L1&?) & (?&L2&?) & (?&L3&?)) eqn:Et, Hu as ((?&M1&?) & (?&M2&?) & (?&M3&?)) eqn:Eu. clear Et Eu.
  rewrite !(FeCMove51_spec (1 * 2 ^ 52)) by (assumption || lia).
  destruct Hb as [-> | ->]; cbn [Z.eqb Pos.eqb]; [rewrite CMove_0|rewrite CMove_1]; by split_and!.
Qed.

Lemma select_loop_sim row row' i n t t' :
  Forall2 sim_pre row row' -> sim_pre t t' -> sim_pre (select_loop row i n t) (select_loop51 row' i n t').
Proof.
  intros H. revert i t t'. induction H as [|u u' row row' Hu _ IH]; intros i t t' Ht; cbn [select_loop select_loop51]; [done|].
  apply IH, CMove_sim; [apply bit_equal|done..].
Qed.

Lemma selectPoint_sim row row' b : Forall2 sim_pre row row' -> sim_pre (selectPoint row b) (selectPoint51 row' b).
Proof.
  intros H. unfold selectPoint, selectPoint51. cbv zeta. set (n := i32 (b - _)).
  pose proof (select_loop_sim row row' 0 n _ _ H PreComputed_Zero_sim) as Ht.
  set (t := select_loop row 0 n _) in *. set (t' := select_loop51 row' 0 n _) in *. clearbody t t'.
  apply CMove_sim; [apply bit_negative|done|]. destruct Ht as (H1 & H2 & H3). sim_all. unfold EdField.FeCopy, FeCopy. split_and!; sim_step.
Qed.

Lemma add_rows_sim rows rows' digits h h' :
  Forall2 (Forall2 sim_pre) rows rows' -> sim_ext h h' -> sim_ext (add_rows rows digits h) (add_rows51 rows' digits h').
Proof.
  intros H. revert digits h h'. induction H as [|row row' rows rows' Hr _ IH]; intros [|x digits] h h' Hh; cbn [add_rows add_rows51]; auto.
  apply IH. auto using selectPoint_sim.
Qed.

Lemma GeScalarMultBase_sim a : sim_ext (GeScalarMultBase a) (GeScalarMultBase51 a).
Proof. unfold GeScalarMultBase, GeScalarMultBase51. cbv zeta. apply add_rows_sim; [exact base_sim|]. auto 15 using add_rows_sim, base_sim. Qed.

(** ** The double scalar multiplication *)

Lemma odd_multiples_sim n A A' q q' :
  sim_ext A A' -> sim_cached q q' -> Forall2 sim_cached (odd_multiples n A q) (odd_multiples51 n A' q').
Proof. intros HA. revert q q'. induction n as [|n IH]; intros q q' Hq; cbn [odd_multiples odd_multiples51]; constructor; auto. Qed.

(** Results related by [R], or both a panic or both an error. *)
Definition sim_res {A B} (R : A -> B -> Prop) (r : res unit A) (r' : res unit B) : Prop :=
  match r, r' with Ok x, Ok y => R x y | Panic, Panic => True | Err _, Err _ => True | _, _ => False end.

Lemma add_digit_sim {Q Q'} (S : Q -> Q' -> Prop) add sub add' sub' table table' digit t t' :
  (forall p q p' q', sim_ext p p' -> S q q' -> sim_comp (add p q) (add' p' q')) ->
  (forall p q p' q', sim_ext p p' -> S q q' -> sim_comp (sub p q) (sub' p' q')) ->
  Forall2 S table table' -> sim_comp t t' ->
  sim_res sim_comp (add_digit add sub table digit t) (add_digit51 add' sub' table' digit t').
Proof.
  intros Ha Hs HT Ht. unfold add_digit, add_digit51.
  assert (forall i, match table !! i, table' !! i with Some q, Some q' => S q q' | None, None => True | _, _ => False end) as L.
  { intros i. clear - HT. revert i. induction HT; intros [|i]; cbn; auto. apply IHHT. }
  pose proof (L (Z.to_nat (digit ÷ 2))) as L1. pose proof (L (Z.to_nat (i8 (- digit) ÷ 2))) as L2.
  destruct (0 <? digit); [|destruct (digit <? 0)]; [..|exact Ht]; repeat case_match; try done; cbn; auto.
Qed.

Lemma double_scalar_loop_sim Ai Ai' digits r r' :
  Forall2 sim_cached Ai Ai' -> sim_proj r r' -> sim_res sim_proj (double_scalar_loop Ai digits r) (double_scalar_loop51 Ai' digits r').
Proof.
  intros HA. revert r r'. induction digits as [|[da db] digits IH]; intros r r' Hr; cbn [double_scalar_loop double_scalar_loop51]; [exact Hr|].
  pose proof (add_digit_sim sim_cached geAdd geSub geAdd51 geSub51 Ai Ai' da (Projective_Double r) (Projective_Double51 r')
    geAdd_sim geSub_sim HA (Projective_Double_sim _ _ Hr)) as H1.
  destruct (add_digit geAdd _ _ _ _) as [t| |], (add_digit51 geAdd51 _ _ _ _) as [t'| |]; try done. cbn.
  pose proof (add_digit_sim sim_pre geMixedAdd geMixedSub geMixedAdd51 geMixedSub51 const.bi amd64.bi db t t'
    geMixedAdd_sim geMixedSub_sim bi_sim H1) as H2.
  destruct (add_digit geMixedAdd _ _ _ _) as [u| |], (add_digit51 geMixedAdd51 _ _ _ _) as [u'| |]; try done. cbn.
  auto.
Qed.

Lemma GeDoubleScalarMultVartime_sim a b A A' :
  sim_ext A A' -> sim_res sim_proj (GeDoubleScalarMultVartime a A b) (GeDoubleScalarMultVartime51 a A' b).
Proof.
  intros H. unfold GeDoubleScalarMultVartime, GeDoubleScalarMultVartime51. cbv zeta.
  apply double_scalar_loop_sim; [|exact Projective_Zero_sim]. apply odd_multiples_sim; auto.
Qed.

(** ** Encoding and decoding *)

Lemma bytes_sim f v : fe_wide f -> lim 4 v -> fev f = fev51 v -> fst (EdField.FeToBytes f) = FeToBytes v.
Proof. intros Hf Hv E%same_fev. apply same_bytes; [done|by apply (lim_63 4)|done]. Qed.

Lemma negative_sim f v : fe_wide f -> lim 4 v -> fev f = fev51 v -> fst (EdField.FeIsNegative f) = FeIsNegative v.
Proof.
  intros Hf Hv E. rewrite EdField.FeIsNegative_spec by done. unfold FeIsNegative. rewrite <- (bytes_sim f v Hf Hv E).
  rewrite EdField.FeToBytes_spec by done. cbn [fst le_bytes nth]. rewrite (land_low _ 1) by (lia || reflexivity).
  generalize (fe_val f mod p25519). intros z. unfold u8. change (2 ^ 8) with 256. change (2 ^ 1) with 2. Z.div_mod_to_equations. lia.
Qed.

Lemma nonzero_sim f v : fe_wide f -> lim 4 v -> fev f = fev51 v -> fst (EdField.FeIsNonZero f) = FeIsNonZero v.
Proof. intros Hf Hv E. rewrite EdField.FeIsNonZero_fold. cbn [fst]. rewrite (bytes_sim f v Hf Hv E). reflexivity. Qed.

Lemma power_sim f v : sim fe_tight 1 f v -> sim fe_loose 4 (EdField.FeInvert f) (FeInvert v) /\ sim fe_loose 4 (EdField.fePow22523 f) (fePow22523 v).
Proof.
  intros (T & L & E). assert (lim 4 v) as L4 by lim_bounds. apply same_fev in E. pose proof (tight_loose _ T) as Lf.
  destruct (powers_spec v L4) as [(_ & B7 & V7) (_ & B8 & V8)].
  destruct (EdField.FeInvert_power f Lf) as (_ & U7 & W7). destruct (EdField.fePow22523_power f Lf) as (_ & U8 & W8).
  split; (split_and!; [done|done|]); apply same_fev; unfold same_element in *.
  - rewrite W7, V7. apply feq_pow; [vm_compute; discriminate|exact E].
  - rewrite W8, V8. apply feq_pow; [vm_compute; discriminate|exact E].
Qed.

Lemma encode_xy_sim x y x' y' :
  sim fe_wide 4 x x' -> sim fe_wide 4 y y' -> encode_xy x y = encode_xy51 x' y'.
Proof.
  intros (? & ? & ?) (? & ? & ?). unfold encode_xy, encode_xy51. cbv zeta.
  by rewrite (bytes_sim y y'), (negative_sim x x') by done.
Qed.

Lemma Projective_ToBytes_sim p q : sim_proj p q -> Projective_ToBytes p = Projective_ToBytes51 q.
Proof.
  intros (HX & HY & HZ). destruct (power_sim _ _ HZ) as [HI _]. unfold Projective_ToBytes, Projective_ToBytes51. cbv zeta.
  sim_all. apply encode_xy_sim; sim_step.
Qed.

Lemma Extended_ToBytes_sim p q : sim_ext p q -> Extended_ToBytes p = Extended_ToBytes51 q.
Proof. intros H. exact (Projective_ToBytes_sim _ _ (Extended_ToProjective_sim _ _ H)). Qed.

(** The root that FromBytes finds, in both fields. *)
Lemma root_sim Y Y' (u := EdField.FeSub (EdField.FeSquare Y) EdField.FeOne) (v := EdField.FeAdd (EdField.FeMul (EdField.FeSquare Y) const.d) EdField.FeOne)
    (v3 := EdField.FeMul (EdField.FeSquare v) v)
    (X := EdField.FeMul (EdField.FeMul (EdField.fePow22523 (EdField.FeMul (EdField.FeMul (EdField.FeSquare v3) v) u)) v3) u)
    (vxx := EdField.FeMul (EdField.FeSquare X) v)
    (u' := FeSub (FeSquare Y') FeOne) (v' := FeAdd (FeMul (FeSquare Y') amd64.d) FeOne) (v3' := FeMul (FeSquare v') v')
    (X' := FeMul (FeMul (fePow22523 (FeMul (FeMul (FeSquare v3') v') u')) v3') u') (vxx' := FeMul (FeSquare X') v') :
  sim fe_tight 1 Y Y' ->
  let r := if (EdField.FeIsNonZero (EdField.FeSub vxx u)).1 =? 1 then
             if (EdField.FeIsNonZero (EdField.FeAdd vxx u)).1 =? 1 then (false, X) else (true, (EdField.FeToBytes (EdField.FeMul X const.SqrtM1)).2)
           else (true, X) in
  let r' := if FeIsNonZero (FeSub vxx' u') =? 1 then
              if FeIsNonZero (FeAdd vxx' u') =? 1 then (false, X') else (true, FeMul X' amd64.SqrtM1)
            else (true, X') in
  fst r = fst r' /\ sim fe_loose 1 (snd r) (snd r').
Proof.
  intros HY. destruct constants_sim as (Hd & _ & Hi). pose proof one_sim as H1.
  assert (sim fe_loose 2 u u') as Hu by (clear Hi; sim_all; unfold u, u'; sim_step).
  assert (sim fe_loose 2 v v') as Hv by (clear Hi; sim_all; unfold v, v'; sim_step).
  clearbody u u' v v'. assert (sim fe_tight 1 v3 v3') as H3 by (clear - Hv; sim_all; unfold v3, v3'; sim_step).
  clearbody v3 v3'. destruct (power_sim (EdField.FeMul (EdField.FeMul (EdField.FeSquare v3) v) u) (FeMul (FeMul (FeSquare v3') v') u')) as [_ HP].
  { clear - H3 Hu Hv. sim_all. sim_step. }
  assert (sim fe_tight 1 X X') as HX by (clear - HP H3 Hu; unfold X, X'; sim_all; sim_step).
  clearbody X X'. assert (sim fe_tight 1 vxx vxx') as Hx by (clear - HX Hv; unfold vxx, vxx'; sim_all; sim_step).
  clearbody vxx vxx'. cbv zeta.
  rewrite (nonzero_sim (EdField.FeSub vxx u) (FeSub vxx' u')) by (clear - Hx Hu; sim_all; fe_bounds || lim_bounds || sim_value).
  rewrite (nonzero_sim (EdField.FeAdd vxx u) (FeAdd vxx' u')) by (clear - Hx Hu; sim_all; fe_bounds || lim_bounds || sim_value).
  destruct (_ =? 1); [destruct (_ =? 1)|]; cbn [fst snd]; (split; [done|]); [by apply sim_loose| |by apply sim_loose].
  rewrite EdField.FeToBytes_spec by (clear - HX Hi; sim_all; fe_bounds). cbn [snd].
  destruct (norm_fev (EdField.FeMul X const.SqrtM1)) as [HN EN]; [clear - HX Hi; sim_all; fe_bounds|].
  split; [done|]. rewrite EN. clear - HX Hi. sim_all. split; [lim_bounds|sim_value].
Qed.

Lemma FromBytes_sim p p' s :
  bytes_ok s -> length s = 32%nat ->
  let r := FromBytes p s in let r' := FromBytes51 p' s in fst r = fst r' /\ (fst r = true -> sim_ext (snd r) (snd r')).
Proof.
  intros HB HL. assert (sim fe_tight 1 (EdField.FeFromBytes s) (FeFromBytes s)) as HY.
  { destruct (EdField.FeFromBytes_spec s HB HL) as [T E]. destruct (FeFromBytes51_spec s HB HL) as [W V]. split; [done|].
    split; [eapply within_mono; [|exact W]; lia|]. apply same_fev. unfold same_element. by rewrite E, V. }
  pose proof (root_sim _ _ HY) as HR. cbv zeta in HR |- *. unfold FromBytes, FromBytes51. cbv zeta.
  match type of HR with fst ?r = fst ?r' /\ _ => set (root := r) in *; set (root' := r') in * end.
  destruct root as [ok X], root' as [ok' X']. cbn [fst snd] in HR.
  destruct HR as [<- HX]. destruct ok; [|done].
  assert (fst (EdField.FeIsNegative X) = FeIsNegative X') as EN by (apply negative_sim; sim_all; [fe_bounds|lim_bounds|done]).
  rewrite EdField.FeIsNegative_spec in * by (sim_all; fe_bounds). cbn [fst] in EN. rewrite <- EN.
  destruct (norm_fev X) as [NB NV]; [sim_all; fe_bounds|]. pose proof one_sim as H1. cbn [fst snd]. split; [done|]. intros _.
  assert (sim fe_loose 1 (FeToBytes_norm X) X') as HN by (destruct HX as (_ & HX); split; [done|by rewrite NV]). clear NB NV HX EN.
  set (X2 := if negb _ then _ else FeToBytes_norm X). set (X2' := if negb _ then FeNeg X' else X').
  assert (sim fe_loose 1 X2 X2') as HX2 by (unfold X2, X2'; destruct (negb _); [sim_all; sim_step|done]).
  clearbody X2 X2'. split_and!; cbn [eX eY eZ eT eX51 eY51 eZ51 eT51]; [done..|]. sim_all. sim_step.
Qed.

(** C9. Signatures on amd64.  An amd64 build (group.go and base.go over the assembly field and its tables)
    generates the same keys from the same entropy, makes the same signatures and accepts the same
    signatures as a build over fe.go, panics and errors included; also inside, the two scalar
    multiplications, encoding and decoding agree.  So what is proved of Sign and Verify against RFC 8032
    holds on both. *)
Theorem amd64_signatures_equal cryptorand rand privateKey message publicKey sig :
  bytes_ok publicKey ->
  GenerateKey51 cryptorand rand = GenerateKey cryptorand rand /\
  Sign51 privateKey message = Sign privateKey message /\
  Verify51 publicKey message sig = Verify publicKey message sig /\
  (forall a, Extended_ToBytes51 (GeScalarMultBase51 a) = Extended_ToBytes (GeScalarMultBase a)) /\
  (forall p p', length publicKey = 32%nat -> fst (FromBytes51 p' publicKey) = fst (FromBytes p publicKey)).
Proof.
  intros HP. assert (forall a, Extended_ToBytes51 (GeScalarMultBase51 a) = Extended_ToBytes (GeScalarMultBase a)) as EM.
  { intros a. exact (eq_sym (Extended_ToBytes_sim _ _ (GeScalarMultBase_sim a))). }
  split_and!; [| | |exact EM|].
  - unfold GenerateKey51, GenerateKey. cbv zeta. destruct (default cryptorand rand) as [seed| |]; [|reflexivity..]. cbn [res_bind]. rewrite EM. reflexivity.
  - unfold Sign51, Sign. cbv zeta. destruct (negb _); [reflexivity|]. rewrite !EM. reflexivity.
  - unfold Verify51, Verify. destruct (Nat.eqb_spec (length publicKey) PublicKeySize) as [HL|]; [|reflexivity]. cbn [negb].
    destruct (_ || _); [reflexivity|].
    destruct (FromBytes_sim zero_element zero_element51 publicKey HP HL) as [E1 E2].
    destruct (FromBytes zero_element publicKey) as [ok A], (FromBytes51 zero_element51 publicKey) as [ok' A']. cbn [fst snd] in E1, E2.
    subst ok'. destruct ok; [|reflexivity]. specialize (E2 eq_refl). cbn [negb]. cbv zeta.
    set (h := ScReduce _). pose proof (GeDoubleScalarMultVartime_sim h (drop 32 sig) (Ext (EdField.FeNeg (eX A)) (eY A) (eZ A) (EdField.FeNeg (eT A)))
      (Ext51 (FeNeg (eX51 A')) (eY51 A') (eZ51 A') (FeNeg (eT51 A')))) as HD.
    assert (sim_ext (Ext (EdField.FeNeg (eX A)) (eY A) (eZ A) (EdField.FeNeg (eT A))) (Ext51 (FeNeg (eX51 A')) (eY51 A') (eZ51 A') (FeNeg (eT51 A')))) as HA.
    { destruct E2 as (HX & HY & HZ & HT). split_and!; [|exact HY|exact HZ|]; sim_all; sim_step. }
    specialize (HD HA). destruct (GeDoubleScalarMultVartime h _ _) as [R| |], (GeDoubleScalarMultVartime51 h _ _) as [R'| |];
      cbn [sim_res] in HD; [|contradiction HD|contradiction HD|contradiction HD|reflexivity|contradiction HD|contradiction HD|contradiction HD|reflexivity].
    rewrite (Projective_ToBytes_sim _ _ HD). reflexivity.
  - intros p p' HL. destruct (FromBytes_sim p p' publicKey HP HL) as [E _]. exact (eq_sym E).
Qed.

(** The encoding of the base point as a public key, with a signature that is too short and one of zeros. *)
Lemma amd64_signatures_equal_witness :
  Verify51 (88 :: replicate 31 102) [1] [] = Ok false /\
  Verify51 (88 :: replicate 31 102) [1] (replicate 64 0) = Verify (88 :: replicate 31 102) [1] (replicate 64 0) /\
  Sign51 (replicate 64 7) [1; 2] = Sign (replicate 64 7) [1; 2] /\
  GenerateKey51 (Ok (replicate 32 5)) None = GenerateKey (Ok (replicate 32 5)) None.
Proof.
  assert (bytes_ok (88 :: replicate 31 102)) as H by (apply Forall_cons; split; [lia|apply Forall_replicate; lia]).
  destruct (amd64_signatures_equal (Ok (replicate 32 5)) None (replicate 64 7) [1; 2] (88 :: replicate 31 102) [] H) as (K & S & _).
  destruct (amd64_signatures_equal (Ok (replicate 32 5)) None (replicate 64 7) [1] (88 :: replicate 31 102) (replicate 64 0) H) as (_ & _ & V & _).
  destruct (amd64_signatures_equal (Ok (replicate 32 5)) None (replicate 64 7) [1] (88 :: replicate 31 102) [] H) as (_ & _ & V0 & _).
  split; [rewrite V0; reflexivity|]. split; [exact V|]. split; [exact S|exact K].
Defined.
