(* ===== verification/Sdp.v ===== *)
(** * protocols/sdp/sdp.go: lines and sessions of SDP as text

    A line is a type (one rune) and a value; a session is a list of lines.  [DecodeSession] scans
    the text line by line, ignoring blank lines and surrounding white space.  Slices are
    values: the storage that DecodeSession and getLine take over from a slice's spare capacity is
    not part of the model. *)
From S2P Require Import Prelude Decimal GoText.
Local Open Scope Z_scope.
Local Open Scope go_scope.

(** The reasons of DecodeError and of the other errors of the package. *)
Inductive sdp_err :=
| ENoDelimiter | ENoValue
| EUnknownType | EUnexpected (t : Z)
| EAttributeNoValue | ESubfields | EEmptySubfield | EFourthElement | ESecondSpace
| EInvalidIP | ENumber | ETTLForIPv6
| EBandwidthNoValue | EBandwidthType
| ERepeatWithoutTiming | EUnitWithoutValue
| EOriginNotSet | ENameNotSet
| EFuel.

Definition lineDelimiter : Z := 61.
Definition fieldsDelimiter : Z := 32.
Definition newLine : Z := 10.

Record Line := mkLine { lType : Z; lValue : list Z }.

Definition Line_Equal (l b : Line) : bool :=
  if negb (lType l =? lType b) then false else bool_decide (lValue l = lValue b).

(** Line.Decode: the value is appended to the one the line has. *)
Definition Line_Decode (l : Line) (b : list Z) : res sdp_err Line :=
  match IndexByte lineDelimiter b with
  | None => Err ENoDelimiter
  | Some delimiter =>
    if (length b <=? delimiter + 1)%nat then Err ENoValue
    else Ok (mkLine (DecodeRune (take delimiter b)).1 (lValue l ++ drop (delimiter + 1) b))
  end.

Definition appendRune (b : list Z) (r : Z) : list Z := b ++ EncodeRune r.

Definition appendCLRF (b : list Z) : list Z := appendRune (appendRune b 13) 10.

Definition Type_appendTo (t : Z) (b : list Z) : list Z := appendRune b t.

Definition Line_AppendTo (l : Line) (b : list Z) : list Z :=
  appendRune (Type_appendTo (lType l) b) lineDelimiter ++ lValue l.

Definition TypeProtocolVersion : Z := 118.
Definition TypeOrigin : Z := 111.
Definition TypeSessionName : Z := 115.
Definition TypeSessionInformation : Z := 105.
Definition TypeURI : Z := 117.
Definition TypeEmail : Z := 101.
Definition TypePhone : Z := 112.
Definition TypeConnectionData : Z := 99.
Definition TypeBandwidth : Z := 98.
Definition TypeTiming : Z := 116.
Definition TypeRepeatTimes : Z := 114.
Definition TypeTimeZones : Z := 122.
Definition TypeEncryptionKey : Z := 107.
Definition TypeAttribute : Z := 97.
Definition TypeMediaDescription : Z := 109.

Definition typeToStr : list (Z * list Z) :=
  [(TypeAttribute, str "attribute"); (TypePhone, str "phone"); (TypeEmail, str "email");
   (TypeConnectionData, str "connection data"); (TypeURI, str "uri"); (TypeSessionName, str "session name");
   (TypeOrigin, str "origin"); (TypeProtocolVersion, str "version"); (TypeTiming, str "timing");
   (TypeBandwidth, str "bandwidth"); (TypeSessionInformation, str "session info");
   (TypeRepeatTimes, str "repeat times"); (TypeTimeZones, str "time zones");
   (TypeEncryptionKey, str "encryption keys"); (TypeMediaDescription, str "media description")].

Definition Type_String (t : Z) : list Z :=
  match find (fun e => e.1 =? t) typeToStr with
  | Some e => e.2
  | None => EncodeRune t
  end.

Definition Line_String (l : Line) : list Z := Type_String (lType l) ++ str ": " ++ lValue l.

Abbreviation Session := (list Line).

Definition Session_AppendTo (s : Session) (b : list Z) : list Z :=
  fold_left (fun b l => appendCLRF (Line_AppendTo l b)) s b.

Fixpoint lines_Equal (s b : Session) : bool :=
  match s, b with
  | l :: s, l' :: b => if negb (Line_Equal l l') then false else lines_Equal s b
  | _, _ => true
  end.

Definition Session_Equal (s b : Session) : bool :=
  if negb (length s =? length b)%nat then false else lines_Equal s b.

Definition getLine (s : Session) (t : Z) : Line := mkLine t [].

Definition Session_append (s : Session) (t : Z) (v : list Z) : Session :=
  let line := getLine s t in
  s ++ [mkLine (lType line) (lValue line ++ v)].

Definition appendString (s : Session) (t : Z) (v : list Z) : Session :=
  let line := getLine s t in
  s ++ [mkLine (lType line) (lValue line ++ v)].

(** ** The scanner *)

Record sliceScanner := mkScanner { sc_pos : nat; sc_end : nat; sc_v : list Z; sc_line : list Z }.

Definition newScanner (v : list Z) : sliceScanner := mkScanner 0 0 v [].

(** Scan: every turn moves the end forward, so that as many turns as bytes are left are enough. *)
Fixpoint scan_loop (fuel : nat) (s : sliceScanner) : bool * sliceScanner :=
  let pos := sc_end s in
  if (length (sc_v s) <=? pos)%nat then (false, mkScanner pos (sc_end s) [] [])
  else match fuel with
  | O => (false, s)
  | S fuel =>
    let end_ := match IndexByte newLine (drop pos (sc_v s)) with
                | Some newLinePos => (pos + newLinePos + 1)%nat
                | None => length (sc_v s)
                end in
    let line := TrimSpace (take (end_ - pos) (drop pos (sc_v s))) in
    let s := mkScanner pos end_ (sc_v s) line in
    if (length line =? 0)%nat then scan_loop fuel s else (true, s)
  end.

Definition Scan (s : sliceScanner) : bool * sliceScanner := scan_loop (length (sc_v s) - sc_end s) s.

(** The loop of DecodeSession: as many turns as the text has bytes are enough. *)
Fixpoint session_loop (fuel : nat) (scanner : sliceScanner) (s : Session) : Session * option sdp_err :=
  match fuel with
  | O => (s, Some EFuel)
  | S fuel =>
    match Scan scanner with
    | (false, _) => (s, None)
    | (true, scanner) =>
      match Line_Decode (mkLine 0 []) (sc_line scanner) with
      | Ok line => session_loop fuel scanner (s ++ [line])
      | Err e => (s, Some e)
      | Panic => (s, Some EFuel)
      end
    end
  end.

Definition DecodeSession (b : list Z) (s : Session) : Session * option sdp_err :=
  session_loop (S (length b)) (newScanner b) s.

Example decode_example :
  DecodeSession (str "v=0" ++ [13; 10; 10; 32] ++ str "s=a b ") [] = ([mkLine 118 [48]; mkLine 115 (str "a b")], None).
Proof. reflexivity. Qed.

(** ** Equality *)

Lemma Line_Equal_spec l b : Line_Equal l b = true <-> l = b.
Proof.
  unfold Line_Equal. destruct l as [t v], b as [t' v']. cbn. destruct (t =? t') eqn:E; cbn.
  - apply Z.eqb_eq in E as ->. rewrite bool_decide_eq_true. split; congruence.
  - split; [done|]. intros [= -> _]. by rewrite Z.eqb_refl in E.
Qed.

Lemma Session_Equal_spec s b : Session_Equal s b = true <-> s = b.
Proof.
  unfold Session_Equal. destruct (length s =? length b)%nat eqn:E; cbn.
  2: { split; [done|]. intros ->. by rewrite Nat.eqb_refl in E. }
  apply Nat.eqb_eq in E. revert b E. induction s as [|l s IH]; intros [|l' b] E; try done. cbn in E |- *.
  destruct (Line_Equal l l') eqn:El; cbn.
  - apply Line_Equal_spec in El as ->. rewrite IH by lia. split; congruence.
  - split; [done|]. intros [= -> ->]. by rewrite (proj2 (Line_Equal_spec l' l')) in El.
Qed.

(** ** Scanning *)

Lemma scan_loop_spec fuel s :
  (length (sc_v s) - sc_end s <= fuel)%nat ->
  match scan_loop fuel s with
  | (true, s') => sc_v s' = sc_v s /\ (sc_end s < sc_end s' <= length (sc_v s))%nat /\ sc_line s' <> [] /\
      exists w, sc_line s' = TrimSpace w
  | (false, _) => True
  end.
Proof.
  revert s. induction fuel as [|fuel IH]; intros s Hf; cbn [scan_loop];
    (destruct (length (sc_v s) <=? sc_end s)%nat eqn:E; [done|apply Nat.leb_gt in E]); [lia|].
  set (e := match IndexByte _ _ with Some _ => _ | None => _ end).
  assert (sc_end s < e <= length (sc_v s))%nat as He.
  { subst e. destruct (IndexByte newLine (drop (sc_end s) (sc_v s))) as [i|] eqn:I; [|lia].
    apply IndexByte_Some in I as (p & t & Hd & <- & _). apply (f_equal length) in Hd.
    rewrite length_drop, length_app in Hd. cbn in Hd. lia. }
  destruct (_ =? 0)%nat eqn:L.
  - specialize (IH (mkScanner (sc_end s) e (sc_v s) (TrimSpace (take (e - sc_end s) (drop (sc_end s) (sc_v s)))))).
    cbn [sc_v sc_end] in IH. specialize (IH ltac:(lia)).
    destruct (scan_loop _ _) as [[] s']; [|done]. destruct IH as (? & ? & ?). split_and!; [done|lia|lia|tauto|tauto].
  - cbn [sc_v sc_end sc_line]. split_and!; [done|lia|lia| |by eexists]. intros H. by rewrite H in L.
Qed.

Lemma Scan_spec s :
  match Scan s with
  | (true, s') => sc_v s' = sc_v s /\ (sc_end s < sc_end s' <= length (sc_v s))%nat /\ sc_line s' <> [] /\
      exists w, sc_line s' = TrimSpace w
  | (false, _) => True
  end.
Proof. by apply scan_loop_spec. Qed.

Lemma Line_Decode_cases l b :
  match Line_Decode l b with
  | Ok l' => exists i, IndexByte lineDelimiter b = Some i /\ lType l' = (DecodeRune (take i b)).1 /\
      lValue l' = lValue l ++ drop (i + 1) b /\ drop (i + 1) b <> []
  | Err e => e = ENoDelimiter \/ e = ENoValue
  | Panic => False
  end.
Proof.
  unfold Line_Decode. destruct (IndexByte lineDelimiter b) as [i|] eqn:I; [|by left].
  destruct (length b <=? i + 1)%nat eqn:E; [by right|]. apply Nat.leb_gt in E. exists i. split_and!; try done.
  intros H. apply (f_equal length) in H. rewrite length_drop in H. cbn in H. lia.
Qed.

(** A value that a decoded session can have: not empty, and not followed by white space. *)
Definition trimmed (v : list Z) : Prop := v <> [] /\ forall t c, v = t ++ [c] -> c < 128 -> IsSpace c = false.

Lemma Line_Decode_trimmed w l :
  Line_Decode (mkLine 0 []) (TrimSpace w) = Ok l -> trimmed (lValue l).
Proof.
  intros H. pose proof (Line_Decode_cases (mkLine 0 []) (TrimSpace w)) as C. rewrite H in C.
  destruct C as (i & _ & _ & Hv & Hne). cbn in Hv. rewrite Hv. split; [done|]. intros t c Et Hc.
  eapply (trim_right_end _ (take (i + 1) (TrimSpace w) ++ t)); [|done].
  rewrite <- app_assoc, <- Et, take_drop. done.
Qed.

Lemma session_loop_total fuel sc s :
  (length (sc_v sc) - sc_end sc < fuel)%nat ->
  exists ls e, session_loop fuel sc s = (s ++ ls, e) /\ e <> Some EFuel /\ Forall (fun l => trimmed (lValue l)) ls.
Proof.
  revert sc s. induction fuel as [|fuel IH]; intros sc s Hf; [lia|]. cbn [session_loop].
  pose proof (Scan_spec sc) as Hs. destruct (Scan sc) as [[] sc'].
  2: { exists [], None. rewrite app_nil_r. split_and!; [done..|constructor]. }
  destruct Hs as (Hv & He & Hl & w & Hw). pose proof (Line_Decode_cases (mkLine 0 []) (sc_line sc')) as C.
  destruct (Line_Decode (mkLine 0 []) (sc_line sc')) as [l|e|] eqn:D; [| |done].
  - destruct (IH sc' (s ++ [l])) as (ls & e & E & Hne & F); [rewrite Hv; lia|]. exists (l :: ls), e.
    rewrite E, <- app_assoc. split_and!; [done..|]. constructor; [|done]. rewrite Hw in D. by eapply Line_Decode_trimmed.
  - exists [], (Some e). rewrite app_nil_r. split_and!; [done| |constructor]. intros [= ->]. by destruct C.
Qed.

(** ** Round trip *)

(** The bytes of a line. *)
Definition line_text (l : Line) : list Z := EncodeRune (lType l) ++ lineDelimiter :: lValue l.

(** A line that survives being written and read: its type is a valid rune other than = and white
    space, its value is not empty, has no line break and does not end with white space. *)
Record line_ok (l : Line) : Prop := {
  lo_valid : valid_rune (lType l) = true;
  lo_type : lType l <> lineDelimiter /\ IsSpace (lType l) = false;
  lo_value : lValue l <> [] /\ newLine ∉ lValue l;
  lo_trim : trim_right (line_text l) = line_text l
}.

Lemma Line_AppendTo_text l b : Line_AppendTo l b = b ++ line_text l.
Proof. unfold Line_AppendTo, Type_appendTo, appendRune, line_text. change (EncodeRune lineDelimiter) with [lineDelimiter]. by rewrite <- !app_assoc. Qed.

Lemma Session_AppendTo_text s b : Session_AppendTo s b = b ++ concat ((fun l => line_text l ++ [13; 10]) <$> s).
Proof.
  revert b. induction s as [|l s IH]; intros b; cbn; [by rewrite app_nil_r|]. unfold Session_AppendTo in IH. rewrite IH, Line_AppendTo_text.
  unfold appendCLRF, appendRune. change (EncodeRune 13) with [13]. change (EncodeRune 10) with [10]. by rewrite <- !app_assoc.
Qed.

Lemma norm_valid r : valid_rune r = true -> norm_rune r = r.
Proof. unfold norm_rune. by intros ->. Qed.

Lemma rune_notin r c : valid_rune r = true -> c < 128 -> c <> r -> c ∉ EncodeRune r.
Proof.
  intros V Hc Hne Hin. unfold EncodeRune in Hin. rewrite V in Hin. pose proof (encode_valid_high r c V Hin Hc) as E.
  unfold encode_valid in E. repeat case_match; congruence.
Qed.

Lemma line_text_newline l : line_ok l -> newLine ∉ line_text l.
Proof.
  intros [V [Ht Hs] [_ Hv] _]. unfold line_text. rewrite elem_of_app, elem_of_cons. intros [H|[H|H]]; [|done|done].
  revert H. apply rune_notin; [done|done|]. intros E. by rewrite <- E in Hs.
Qed.

Lemma Line_Decode_text l : line_ok l -> Line_Decode (mkLine 0 []) (line_text l) = Ok l.
Proof.
  intros [V [Ht Hs] [Hv _] _]. unfold Line_Decode, line_text.
  rewrite IndexByte_app by (by apply rune_notin). rewrite length_app. cbn [length].
  destruct (lValue l) as [|c v] eqn:E; [done|]. cbn [length]. destruct (_ <=? _)%nat eqn:L; [apply Nat.leb_le in L; lia|].
  pose proof (DecodeRune_EncodeRune (lType l) []) as D. rewrite app_nil_r, norm_valid in D by done.
  rewrite take_app_length, D, drop_app_add. cbn. f_equal. destruct l; cbn in *; congruence.
Qed.

Lemma TrimSpace_line l : line_ok l -> TrimSpace (line_text l ++ [13; 10]) = line_text l.
Proof.
  intros [V [Ht Hs] [Hv Hn] Htr]. unfold line_text at 1. rewrite <- app_assoc, TrimSpace_rune by (by rewrite norm_valid).
  rewrite app_assoc. change ((EncodeRune (lType l) ++ lineDelimiter :: lValue l)) with (line_text l).
  change ([13; 10]) with ([13] ++ [10]). rewrite app_assoc, !trim_right_space by done. done.
Qed.

Lemma Scan_line pos pre l post line :
  line_ok l ->
  let v := pre ++ (line_text l ++ [13; 10]) ++ post in
  Scan (mkScanner pos (length pre) v line) = (true, mkScanner (length pre) (length (pre ++ line_text l ++ [13; 10])) v (line_text l)).
Proof.
  intros Hl v. unfold Scan. cbn [sc_v sc_end].
  assert (length v = length pre + (length (line_text l) + 2 + length post))%nat as Lv by (subst v; rewrite !length_app; cbn; lia).
  rewrite Lv. replace (length pre + (length (line_text l) + 2 + length post) - length pre)%nat
    with (S (length (line_text l) + 1 + length post)) by lia.
  cbn [scan_loop sc_end sc_v]. rewrite Lv. destruct (_ <=? length pre)%nat eqn:E; [apply Nat.leb_le in E; lia|].
  assert (drop (length pre) v = (line_text l ++ [13]) ++ 10 :: post) as Hd by (subst v; by rewrite drop_app_length, <- !app_assoc).
  rewrite Hd, IndexByte_app.
  2: { rewrite elem_of_app, list_elem_of_singleton. intros [H|H]; [by apply (line_text_newline l Hl)|done]. }
  rewrite length_app. cbn [length].
  replace (length pre + (length (line_text l) + 1) + 1 - length pre)%nat with (length (line_text l ++ [13; 10])) by (rewrite length_app; cbn; lia).
  replace ((line_text l ++ [13]) ++ 10 :: post) with ((line_text l ++ [13; 10]) ++ post) by (by rewrite <- !app_assoc).
  rewrite take_app_length, TrimSpace_line by done.
  destruct (length (line_text l) =? 0)%nat eqn:E0.
  { apply Nat.eqb_eq in E0. unfold line_text in E0. rewrite length_app in E0. cbn in E0. lia. }
  do 2 f_equal. rewrite !length_app. cbn. lia.
Qed.

Lemma Scan_end pos v line : Scan (mkScanner pos (length v) v line) = (false, mkScanner (length v) (length v) [] []).
Proof. unfold Scan. cbn [sc_v sc_end]. rewrite Nat.sub_diag. cbn [scan_loop sc_v sc_end]. by rewrite Nat.leb_refl. Qed.

Lemma session_loop_text fuel pos pre ls acc line :
  Forall line_ok ls -> (length ls < fuel)%nat ->
  session_loop fuel (mkScanner pos (length pre) (pre ++ concat ((fun l => line_text l ++ [13; 10]) <$> ls)) line) acc = (acc ++ ls, None).
Proof.
  intros F. revert fuel pos pre acc line. induction F as [|l ls Hl F IH]; intros fuel pos pre acc line Hf; (destruct fuel as [|fuel]; [cbn in Hf; lia|]).
  - cbn [session_loop fmap list_fmap concat]. rewrite app_nil_r, Scan_end. by rewrite app_nil_r.
  - cbn [session_loop fmap list_fmap concat]. rewrite Scan_line by done. cbn [sc_line]. rewrite Line_Decode_text by done.
    cbv zeta. rewrite (app_assoc pre (line_text l ++ [13; 10])). rewrite IH by (cbn in Hf; lia). by rewrite <- app_assoc.
Qed.

(** Writing a session and reading it back. *)
Lemma DecodeSession_AppendTo s : Forall line_ok s -> DecodeSession (Session_AppendTo s []) [] = (s, None).
Proof.
  intros F. rewrite Session_AppendTo_text. cbn [app]. unfold DecodeSession, newScanner.
  apply (session_loop_text _ 0%nat [] s []); [done|].
  apply Nat.lt_succ_r. clear F. induction s as [|l s IH]; [cbn; lia|]. cbn [fmap list_fmap concat]. rewrite length_app, length_app. cbn [length] in *. lia.
Qed.
