(* ===== verification/SdpMessage.v ===== *)
(** * protocols/sdp: messages and how they are encoded (message.go, fields.go, encoder.go)

    A message is encoded as a session, field by field.  time.Time is its Unix time with the
    nanoseconds, time.Duration is an int64 of nanoseconds; the conversions to NTP timestamps wrap
    around as the uint64 and int64 of the source do.  The order in which a map is iterated is
    not specified: [range i] is the order of the i-th iteration. *)
From S2P Require Import Prelude GoFloat Decimal GoText NetIP Sdp.
Local Open Scope Z_scope.

(** ** message.go *)

Record Attribute := mkAttribute { aKey : list Z; aValue : list Z }.
Abbreviation Attributes := (list Attribute).

Definition blank : list Z := [].

Fixpoint Attributes_Value (a : Attributes) (attribute : list Z) : list Z :=
  match a with
  | [] => blank
  | v :: a => if decide (aKey v = attribute) then aValue v else Attributes_Value a attribute
  end.

Fixpoint Attributes_Values (a : Attributes) (attribute : list Z) : list (list Z) :=
  match a with
  | [] => []
  | v :: a => if decide (aKey v = attribute) then aValue v :: Attributes_Values a attribute else Attributes_Values a attribute
  end.

Fixpoint Attributes_Flag (a : Attributes) (flag : list Z) : bool :=
  match a with
  | [] => false
  | v :: a => if decide (aKey v = flag) then true else Attributes_Flag a flag
  end.

(** time.Time and time.Duration. *)
Record time := mkTime { unix : Z; nsec : Z }.

Definition zero_time : time := mkTime (-62135596800) 0.
Definition IsZero (t : time) : bool := (unix t =? -62135596800) && (nsec t =? 0).

Definition Second : Z := 1000000000.
Definition Minute : Z := 60 * Second.
Definition Hour : Z := 60 * Minute.

Record ConnectionData := mkConnection {
  cNetworkType : list Z;
  cAddressType : list Z;
  cIP : list Z;
  cTTL : Z;
  cAddresses : Z
}.

Record Origin := mkOrigin {
  Username : list Z;
  SessionID : Z;
  SessionVersion : Z;
  oNetworkType : list Z;
  oAddressType : list Z;
  oAddress : list Z
}.

Record Timing := mkTiming { tStart : time; tEnd : time; Repeat : Z; Active : Z; Offsets : list Z }.

Record TimeZone := mkTimeZone { zStart : time; zOffset : Z }.

Record Encryption := mkEncryption { Method : list Z; Key : list Z }.

Record MediaDescription := mkMediaDescription {
  mdType : list Z;
  Port : Z;
  PortsNumber : Z;
  Protocol : list Z;
  Formats : list (list Z)
}.

Abbreviation Bandwidths := (gmap (list Z) Z).

Record Media := mkMedia {
  Title : list Z;
  Description : MediaDescription;
  mConnection : ConnectionData;
  mAttributes : Attributes;
  mEncryption : Encryption;
  mBandwidths : Bandwidths
}.

Record Message := mkMsg {
  Version : Z;
  mOrigin : Origin;
  mName : list Z;
  Info : list Z;
  Email : list Z;
  Phone : list Z;
  URI : list Z;
  Connection : ConnectionData;
  msgAttributes : Attributes;
  Medias : list Media;
  msgEncryption : Encryption;
  msgBandwidths : Bandwidths;
  mTiming : list Timing;
  TZAdjustments : list TimeZone
}.

Definition no_connection : ConnectionData := mkConnection [] [] [] 0 0.
Definition no_encryption : Encryption := mkEncryption [] [].
Definition no_media : Media := mkMedia [] (mkMediaDescription [] 0 0 [] []) no_connection [] no_encryption ∅.
Definition no_message : Message :=
  mkMsg 0 (mkOrigin [] 0 0 [] [] []) [] [] [] [] [] no_connection [] [] no_encryption ∅ [] [].

Definition Message_Start (m : Message) : time :=
  match mTiming m with [] => zero_time | t :: _ => tStart t end.

Definition Message_End (m : Message) : time :=
  match mTiming m with [] => zero_time | t :: _ => tEnd t end.

Definition Message_Flag (m : Message) (flag : list Z) : bool :=
  if (0 <? length (msgAttributes m))%nat then Attributes_Flag (msgAttributes m) flag else false.

Definition Message_Attribute (m : Message) (attribute : list Z) : list Z :=
  if (0 <? length (msgAttributes m))%nat then Attributes_Value (msgAttributes m) attribute else blank.

Definition addAttribute (a : Attributes) (k v : list Z) : Attributes := a ++ [mkAttribute k v].

Definition Encryption_Equal (e b : Encryption) : bool :=
  bool_decide (Method e = Method b) && bool_decide (Key e = Key b).

Definition Encryption_Blank (e : Encryption) : bool := Encryption_Equal e no_encryption.

(** PayloadFormat: the first rtpmap attribute that starts with the payload type. *)
Fixpoint payload_loop (payloadType : list Z) (vs : list (list Z)) : list Z :=
  match vs with
  | [] => []
  | v :: vs =>
    if HasPrefix v payloadType then TrimSpace (drop (length payloadType) v)
    else payload_loop payloadType vs
  end.

Definition PayloadFormat (m : Media) (payloadType : list Z) : list Z :=
  payload_loop payloadType (Attributes_Values (mAttributes m) (str "rtpmap")).

(** ** fields.go: appending *)

Definition appendSpace (v : list Z) : list Z := appendRune v fieldsDelimiter.

(** The loop of appendUint, from the last digit to the first, in a buffer of twenty bytes. *)
Fixpoint uint_loop (k : nat) (n : Z) (buf : list Z) : list Z :=
  match k with
  | O => buf
  | S k =>
    if 10 <=? n then
      let q := Z.quot n 10 in
      uint_loop k q (u8 (48 + u8 (n - q * 10)) :: buf)
    else u8 (48 + u8 n) :: buf
  end.

(** A negative [n] panics in the source; appendInt tests the sign and the others pass bytes. *)
Definition appendUint (dst : list Z) (n : Z) : list Z := dst ++ uint_loop 20 n [].

Definition appendInt (v : list Z) (i : Z) : list Z :=
  if i =? 0 then appendRune v 48
  else if 0 <? i then appendUint v i
  else v ++ itoa i.

Definition appendByte (v : list Z) (i : Z) : list Z :=
  if i =? 0 then appendRune v 48 else appendUint v i.

Fixpoint appendJoinStrings (b : list Z) (v : list (list Z)) : list Z :=
  match v with
  | [] => b
  | [vv] => b ++ vv
  | vv :: v => appendJoinStrings (appendSpace (b ++ vv)) v
  end.

Definition appendIPv4 (dst : list Z) (ip : list Z) : list Z :=
  match ip with
  | a :: rest => fold_left (fun dst x => appendUint (dst ++ [46]) x) (take 3 rest) (appendUint dst a)
  | [] => dst
  end.

Definition appendIP (b : list Z) (ip : list Z) : list Z :=
  match To4 ip with
  | [] => b ++ (upper_byte <$> IP_String ip)
  | ipV4 => appendIPv4 b ipV4
  end.

Definition getDefault (v d : list Z) : list Z := if decide (v = []) then d else v.

Definition addrTypeIPv4 : list Z := str "IP4".
Definition addrTypeIPv6 : list Z := str "IP6".
Definition networkTypeInternet : list Z := str "IN".
Definition attributesDelimiter : Z := 58.

Definition getAddressTypeIP (ip : option (list Z)) (addressType : list Z) : list Z :=
  if decide (addressType <> []) then addressType
  else match ip with
  | None => addrTypeIPv4
  | Some ip => match To4 ip with [] => addrTypeIPv6 | _ => addrTypeIPv4 end
  end.

(** getAddressType: the first : or . of the address decides, runes of more than one byte
    contain neither. *)
Definition getAddressType (addr addressType : list Z) : list Z :=
  if decide (addressType <> []) then addressType
  else match ip_kind addr with
  | Some false => addrTypeIPv6
  | Some true => addrTypeIPv4
  | None => getAddressTypeIP (ParseIP addr) addressType
  end.

Definition Connection_getNetworkType (c : ConnectionData) : list Z := getDefault (cNetworkType c) networkTypeInternet.

Definition Connection_getAddressType (c : ConnectionData) : list Z :=
  getAddressTypeIP (match cIP c with [] => None | ip => Some ip end) (cAddressType c).

Definition Connection_Equal (c b : ConnectionData) : bool :=
  if negb (bool_decide (cNetworkType c = cNetworkType b)) then false
  else if negb (bool_decide (cAddressType c = cAddressType b)) then false
  else if negb (IP_Equal (cIP c) (cIP b)) then false
  else if negb (cTTL c =? cTTL b) then false
  else if negb (cAddresses c =? cAddresses b) then false
  else true.

Definition Connection_Blank (c : ConnectionData) : bool := Connection_Equal c no_connection.

Definition ConnectionAddress (c : ConnectionData) : list Z :=
  let address := upper_byte <$> IP_String (cIP c) in
  let address := if 0 <? cTTL c then address ++ 47 :: format_uint (cTTL c) else address in
  if 0 <? cAddresses c then address ++ 47 :: format_uint (cAddresses c) else address.

(** ConnectionData.String prints the address type twice. *)
Definition Connection_String (c : ConnectionData) : list Z :=
  Connection_getAddressType c ++ [32] ++ Connection_getAddressType c ++ [32] ++ ConnectionAddress c.

Definition appendAddress (c : ConnectionData) (v : list Z) : list Z :=
  let v := appendIP v (cIP c) in
  let v := if 0 <? cTTL c then appendByte (appendRune v 47) (cTTL c) else v in
  if 0 <? cAddresses c then appendByte (appendRune v 47) (cAddresses c) else v.

Definition Origin_getNetworkType (o : Origin) : list Z := getDefault (oNetworkType o) networkTypeInternet.
Definition Origin_getAddressType (o : Origin) : list Z := getAddressType (oAddress o) (oAddressType o).

Definition Origin_Equal (o b : Origin) : bool :=
  if negb (bool_decide (Username o = Username b)) then false
  else if negb (SessionID o =? SessionID b) then false
  else if negb (SessionVersion o =? SessionVersion b) then false
  else if negb (bool_decide (oNetworkType o = oNetworkType b)) then false
  else if negb (bool_decide (oAddressType o = oAddressType b)) then false
  else if negb (bool_decide (oAddress o = oAddress b)) then false
  else true.

Definition ntpDelta : Z := 2208988800.

Definition TimeToNTP (t : time) : Z := if IsZero t then 0 else u64 (u64 (unix t) + ntpDelta).

Definition NTPToTime (v : Z) : time := if v =? 0 then zero_time else mkTime (i64 (u64 (v - ntpDelta))) 0.

Definition appendUint64 (b : list Z) (v : Z) : list Z := b ++ format_uint v.

(** int(d.Seconds()): the seconds and the nanoseconds are added as float64. *)
Definition Seconds (d : Z) : float64 :=
  fadd (of_int (Z.quot d Second)) (fdiv (of_int (Z.rem d Second)) (of_int Second)).

Definition int_of_float (x : float64) : Z := match ftrunc x with Some n => n | None => 0 end.

Record durationUnit := mkUnit { u_d : Z; u_r : Z }.

Definition unit_append (u : durationUnit) (v : list Z) (b : Z) : list Z :=
  appendRune (appendInt v (Z.quot b (u_d u))) (u_r u).

Definition durationUnits : list durationUnit := [mkUnit (Hour * 24) 100; mkUnit Hour 104; mkUnit Minute 109].

Fixpoint compact_loop (us : list durationUnit) (b : list Z) (d : Z) : list Z :=
  match us with
  | [] => appendInt b (int_of_float (Seconds d))
  | unit :: us => if Z.rem d (u_d unit) =? 0 then unit_append unit b d else compact_loop us b d
  end.

Definition appendIntervalCompact (b : list Z) (d : Z) : list Z :=
  if d =? 0 then appendRune b 48 else compact_loop durationUnits b d.

Definition appendInterval (b : list Z) (d : Z) (compact : bool) : list Z :=
  if d =? 0 then appendRune b 48
  else if compact then appendIntervalCompact b d
  else appendInt b (int_of_float (Seconds d)).

Definition MediaDescription_Equal (m b : MediaDescription) : bool :=
  if negb (bool_decide (mdType m = mdType b)) then false
  else if negb (Port m =? Port b) then false
  else if negb (PortsNumber m =? PortsNumber b) then false
  else if negb (bool_decide (Protocol m = Protocol b)) then false
  else bool_decide (Formats m = Formats b).

(** ** fields.go: adding lines *)

Definition AddRaw (k : Z) (v : list Z) (s : Session) : Session := appendString s k v.
Definition AddLine (t : Z) (v : list Z) (s : Session) : Session := appendString s t v.
Definition AddVersion (version : Z) (s : Session) : Session := Session_append s TypeProtocolVersion (appendInt [] version).
Definition AddPhone (phone : list Z) (s : Session) : Session := appendString s TypePhone phone.
Definition AddEmail (email : list Z) (s : Session) : Session := appendString s TypeEmail email.

Definition AddConnectionData (data : ConnectionData) (s : Session) : Session :=
  let v := appendSpace (Connection_getNetworkType data) in
  let v := appendSpace (v ++ Connection_getAddressType data) in
  Session_append s TypeConnectionData (appendAddress data v).

Definition AddConnectionDataIP (ip : list Z) (s : Session) : Session := AddConnectionData (mkConnection [] [] ip 0 0) s.
Definition AddSessionName (name : list Z) (s : Session) : Session := appendString s TypeSessionName name.
Definition AddSessionInfo (info : list Z) (s : Session) : Session := appendString s TypeSessionInformation info.
Definition AddURI (uri : list Z) (s : Session) : Session := appendString s TypeURI uri.

Definition AddOrigin (o : Origin) (s : Session) : Session :=
  let v := appendSpace (Username o) in
  let v := appendSpace (appendInt v (SessionID o)) in
  let v := appendSpace (appendInt v (SessionVersion o)) in
  let v := appendSpace (v ++ Origin_getNetworkType o) in
  let v := appendSpace (v ++ Origin_getAddressType o) in
  Session_append s TypeOrigin (v ++ oAddress o).

Definition AddTiming (start end_ : time) (s : Session) : Session :=
  Session_append s TypeTiming (appendUint64 (appendSpace (appendUint64 [] (TimeToNTP start))) (TimeToNTP end_)).

Definition AddTimingNTP (start end_ : Z) (s : Session) : Session := AddTiming (NTPToTime start) (NTPToTime end_) s.

Definition AddFlag (attribute : list Z) (s : Session) : Session := Session_append s TypeAttribute attribute.

Definition AddAttribute (attribute : list Z) (values : list (list Z)) (s : Session) : Session :=
  match values with
  | [] => AddFlag attribute s
  | _ => Session_append s TypeAttribute (appendJoinStrings (appendRune attribute attributesDelimiter) values)
  end.

Definition BandwidthConferenceTotal : list Z := str "CT".
Definition BandwidthApplicationSpecific : list Z := str "AS".

Definition AddBandwidth (t : list Z) (bandwidth : Z) (s : Session) : Session :=
  Session_append s TypeBandwidth (appendInt (appendRune t 58) bandwidth).

Fixpoint append_offsets (compact : bool) (v : list Z) (offsets : list Z) : list Z :=
  match offsets with
  | [] => v
  | [offset] => appendInterval v offset compact
  | offset :: offsets => append_offsets compact (appendSpace (appendInterval v offset compact)) offsets
  end.

Definition addRepeatTimes (compact : bool) (interval duration : Z) (offsets : list Z) (s : Session) : Session :=
  let v := appendSpace (appendInterval [] interval compact) in
  let v := appendSpace (appendInterval v duration compact) in
  Session_append s TypeRepeatTimes (append_offsets compact v offsets).

Definition AddRepeatTimes (interval duration : Z) (offsets : list Z) (s : Session) : Session :=
  addRepeatTimes false interval duration offsets s.

Definition AddRepeatTimesCompact (interval duration : Z) (offsets : list Z) (s : Session) : Session :=
  addRepeatTimes true interval duration offsets s.

Fixpoint append_formats (v : list Z) (formats : list (list Z)) : list Z :=
  match formats with
  | [] => v
  | [f] => v ++ f
  | f :: formats => append_formats (appendRune (v ++ f) fieldsDelimiter) formats
  end.

Definition AddMediaDescription (m : MediaDescription) (s : Session) : Session :=
  let v := appendInt (appendSpace (mdType m)) (Port m) in
  let v := if negb (PortsNumber m =? 0) then appendInt (appendRune v 47) (PortsNumber m) else v in
  let v := appendSpace v in
  let v := appendSpace (v ++ Protocol m) in
  Session_append s TypeMediaDescription (append_formats v (Formats m)).

Definition AddEncryptionMethod (method : list Z) (s : Session) : Session := appendString s TypeEncryptionKey method.

Definition AddEncryptionKey (method key : list Z) (s : Session) : Session :=
  if decide (key = []) then AddEncryptionMethod method s
  else Session_append s TypeEncryptionKey (appendRune method attributesDelimiter ++ key).

Definition AddEncryption (e : Encryption) (s : Session) : Session := AddEncryptionKey (Method e) (Key e) s.

Definition zone_append (t : TimeZone) (v : list Z) : list Z :=
  appendIntervalCompact (appendSpace (appendUint64 v (TimeToNTP (zStart t)))) (zOffset t).

Fixpoint append_zones (v : list Z) (zones : list TimeZone) : list Z :=
  match zones with
  | [] => v
  | [zone] => zone_append zone v
  | zone :: zones => append_zones (appendSpace (zone_append zone v)) zones
  end.

Definition AddTimeZones (zones : list TimeZone) (s : Session) : Session :=
  Session_append s TypeTimeZones (append_zones [] zones).

(** ** encoder.go *)

Definition appendAttributes (attrs : Attributes) (s : Session) : Session :=
  fold_left (fun s v => if decide (aValue v = blank) then AddFlag (aKey v) s else AddAttribute (aKey v) [aValue v] s) attrs s.

Section encoder.
Variable range : nat -> Bandwidths -> list (list Z * Z).

Definition append_bandwidths (i : nat) (b : Bandwidths) (s : Session) : Session :=
  fold_left (fun s tv => AddBandwidth tv.1 tv.2 s) (range i b) s.

Definition append_timing (t : Timing) (s : Session) : Session :=
  let s := AddTiming (tStart t) (tEnd t) s in
  if (0 <? length (Offsets t))%nat then AddRepeatTimesCompact (Repeat t) (Active t) (Offsets t) s else s.

Definition append_media (i : nat) (m : Media) (s : Session) : Session :=
  let s := AddMediaDescription (Description m) s in
  let s := if (0 <? length (Title m))%nat then AddSessionInfo (Title m) s else s in
  let s := if negb (Connection_Blank (mConnection m)) then AddConnectionData (mConnection m) s else s in
  let s := append_bandwidths i (mBandwidths m) s in
  let s := if negb (Encryption_Blank (mEncryption m)) then AddEncryption (mEncryption m) s else s in
  appendAttributes (mAttributes m) s.

Fixpoint append_medias (i : nat) (ms : list Media) (s : Session) : Session :=
  match ms with
  | [] => s
  | m :: ms => append_medias (S i) ms (append_media i m s)
  end.

(** Message.Append *)
Definition Append (m : Message) (s : Session) : Session :=
  let s := AddVersion (Version m) s in
  let s := AddOrigin (mOrigin m) s in
  let s := AddSessionName (mName m) s in
  let s := if (0 <? length (Info m))%nat then AddSessionInfo (Info m) s else s in
  let s := if (0 <? length (URI m))%nat then AddURI (URI m) s else s in
  let s := if (0 <? length (Email m))%nat then AddEmail (Email m) s else s in
  let s := if (0 <? length (Phone m))%nat then AddPhone (Phone m) s else s in
  let s := if negb (Connection_Blank (Connection m)) then AddConnectionData (Connection m) s else s in
  let s := append_bandwidths 0 (msgBandwidths m) s in
  let s := fold_left (fun s t => append_timing t s) (mTiming m) s in
  let s := if (0 <? length (TZAdjustments m))%nat then AddTimeZones (TZAdjustments m) s else s in
  let s := if negb (Encryption_Blank (msgEncryption m)) then AddEncryption (msgEncryption m) s else s in
  let s := appendAttributes (msgAttributes m) s in
  append_medias 1 (Medias m) s.
End encoder.

(** ** Numbers: the routines of the package agree with strconv *)

Lemma digits_more j n f acc : 0 <= n < 10 ^ Z.of_nat (S f) -> digits (S f + j) n acc = digits (S f) n acc.
Proof.
  revert n acc. induction f as [|f IH]; intros n acc Hn; cbn [digits Nat.add].
  - destruct (n <? 10) eqn:E; [done|]. cbn in Hn. lia.
  - destruct (n <? 10) eqn:E; [done|]. rewrite (Nat2Z.inj_succ (S f)), Z.pow_succ_r in Hn by lia. apply (IH (n / 10)).
    split; [apply Z.div_pos; lia|]. apply Z.div_lt_upper_bound; lia.
Qed.

Lemma uint_loop_digits k n buf : 0 <= n -> uint_loop k n buf = digits k n buf.
Proof.
  revert n buf. induction k as [|k IH]; intros n buf Hn; [done|]. cbn [uint_loop digits].
  destruct (10 <=? n) eqn:E, (n <? 10) eqn:E'; try lia.
  - rewrite Z.quot_div_nonneg by lia. rewrite IH by (apply Z.div_pos; lia). do 2 f_equal.
    pose proof (Z.div_mod n 10 ltac:(lia)). pose proof (Z.mod_pos_bound n 10 ltac:(lia)).
    replace (n - n / 10 * 10) with (n mod 10) by lia. by rewrite !u8_small by (rewrite ?u8_small; lia).
  - by rewrite !u8_small by (rewrite ?u8_small; lia).
Qed.

Lemma appendUint_spec dst n : 0 <= n < 10 ^ 20 -> appendUint dst n = dst ++ format_uint n.
Proof.
  intros Hn. unfold appendUint, format_uint. f_equal. rewrite uint_loop_digits by lia.
  set (f := Z.to_nat (Z.log2 n)).
  assert (0 <= n < 10 ^ Z.of_nat (S f)) as Hf.
  { split; [lia|]. pose proof (log2_fuel n ltac:(lia)) as L. fold f in L. eapply Z.lt_le_trans; [exact L|]. apply Z.pow_le_mono_l. lia. }
  rewrite <- (digits_more 20 n f [] Hf), (Nat.add_comm (S f) 20). symmetry. apply (digits_more (S f) n 19). cbn. lia.
Qed.

Lemma appendInt_spec v i : - 2 ^ 63 <= i < 2 ^ 63 -> appendInt v i = v ++ itoa i.
Proof.
  intros Hi. unfold appendInt. destruct (i =? 0) eqn:E0; [apply Z.eqb_eq in E0 as ->; done|].
  destruct (0 <? i) eqn:E1; [|done]. rewrite appendUint_spec by lia. unfold itoa. by destruct (i <? 0) eqn:?; [lia|].
Qed.

Lemma appendByte_spec v i : 0 <= i < 256 -> appendByte v i = v ++ format_uint i.
Proof.
  intros Hi. unfold appendByte. destruct (i =? 0) eqn:E0; [apply Z.eqb_eq in E0 as ->; done|]. apply appendUint_spec. lia.
Qed.

(** appendIP prints what IP.String prints, in upper case. *)
Lemma appendIPv4_dotted dst ip : bytes_ok ip -> length ip = 4%nat -> appendIPv4 dst ip = dst ++ dotted ip.
Proof.
  intros Hb L. destruct ip as [|a [|b [|c [|d [|? ?]]]]]; try done. rewrite !bytes_ok_cons in Hb. destruct Hb as (Ha & Hb & Hc & Hd & _).
  cbn [appendIPv4 take fold_left]. rewrite !appendUint_spec by lia. unfold dotted. cbn [fmap list_fmap Join]. by rewrite <- !app_assoc.
Qed.

Lemma To4_cases ip : bytes_ok ip -> To4 ip <> [] -> length (To4 ip) = 4%nat /\ bytes_ok (To4 ip).
Proof.
  intros Hb. unfold To4. destruct (length ip =? 4)%nat eqn:E; [by apply Nat.eqb_eq in E|].
  destruct (length ip =? 16)%nat eqn:E16; [|done]. apply Nat.eqb_eq in E16. cbn [andb].
  destruct (bool_decide _); [|done]. intros _. split; [rewrite length_drop; lia|by apply Forall_drop].
Qed.

Lemma appendIP_spec b ip : bytes_ok ip -> ip <> [] -> appendIP b ip = b ++ (upper_byte <$> IP_String ip).
Proof.
  intros Hb Hne. unfold appendIP, IP_String. rewrite decide_False by done. destruct (decide (To4 ip = [])) as [->|H4]; [done|].
  destruct (To4_cases ip Hb H4) as [L B]. rewrite decide_True by done. rewrite dotted_upper by done. rewrite <- appendIPv4_dotted by done.
  by destruct (To4 ip).
Qed.

(** ** NTP timestamps *)

(** The times that survive: the zero time, and whole seconds other than the first second of
    1900, whose timestamp is 0. *)
Definition ntp_time (t : time) : Prop :=
  t = zero_time \/ (nsec t = 0 /\ - 2 ^ 63 <= unix t < 2 ^ 63 /\ unix t <> - ntpDelta /\ unix t <> unix zero_time).

Lemma TimeToNTP_range t : 0 <= TimeToNTP t < 2 ^ 64.
Proof. unfold TimeToNTP. destruct (IsZero t); [lia|]. unfold u64. apply Z.mod_pos_bound. lia. Qed.

Lemma NTPToTime_TimeToNTP t : ntp_time t -> NTPToTime (TimeToNTP t) = t.
Proof.
  intros [->|(Hn & Hu & H1 & H2)]; [done|]. destruct t as [u n]. cbn in *. subst n. unfold TimeToNTP, IsZero. cbn [unix nsec].
  rewrite (proj2 (Z.eqb_neq u _)) by done. cbn [andb]. unfold NTPToTime.
  assert (u64 (u64 u + ntpDelta) = (u + ntpDelta) mod 2 ^ 64) as -> by (unfold u64; by rewrite Zplus_mod_idemp_l).
  destruct (_ =? 0) eqn:E.
  - apply Z.eqb_eq in E. unfold ntpDelta in *. exfalso. apply Z.mod_divide in E as [k Hk]; [|lia]. lia.
  - f_equal. transitivity (i64 u); [|apply i64_small; lia]. apply i64_mod. unfold u64. rewrite Z.mod_mod, Zminus_mod_idemp_l by lia. f_equal. lia.
Qed.

Lemma TimeToNTP_NTPToTime v :
  0 <= v < 2 ^ 64 -> v <> 2 ^ 64 - 59926608000 -> TimeToNTP (NTPToTime v) = v.
Proof.
  intros Hv Hne. unfold NTPToTime. destruct (v =? 0) eqn:E; [by apply Z.eqb_eq in E as ->|]. apply Z.eqb_neq in E.
  unfold TimeToNTP, IsZero. cbn [unix nsec]. set (u := i64 _).
  assert (u mod 2 ^ 64 = (v - ntpDelta) mod 2 ^ 64) as Hu by (subst u; unfold u64; by rewrite i64_mod_eq, Z.mod_mod by lia).
  destruct (u =? -62135596800) eqn:Ez.
  - apply Z.eqb_eq in Ez. rewrite Ez in Hu. exfalso. unfold ntpDelta in Hu. apply Hne.
    assert ((v - 2208988800 + 62135596800) mod 2 ^ 64 = 0) as H0.
    { rewrite Zplus_mod, <- Hu. by vm_compute. }
    apply Z.mod_divide in H0 as [k Hk]; [|lia]. lia.
  - cbn [andb]. unfold u64. rewrite Zplus_mod_idemp_l, Zplus_mod, Hu, <- Zplus_mod. replace (v - ntpDelta + ntpDelta) with v by lia. apply Z.mod_small. lia.
Qed.

(** ** Intervals *)

Lemma appendInt_app b i : appendInt b i = b ++ appendInt [] i.
Proof. unfold appendInt, appendUint, appendRune. by repeat case_match. Qed.

Lemma appendIntervalCompact_app b d : appendIntervalCompact b d = b ++ appendIntervalCompact [] d.
Proof.
  unfold appendIntervalCompact. destruct (d =? 0); [done|]. generalize durationUnits. intros us.
  induction us as [|u us IH]; cbn [compact_loop]; [apply appendInt_app|]. destruct (_ =? 0); [|done].
  unfold unit_append, appendRune. by rewrite appendInt_app, <- app_assoc.
Qed.

(** A whole number of seconds, written in the largest unit that divides it. *)
Lemma int_Seconds d : - 2 ^ 63 <= d < 2 ^ 63 -> Z.rem d Second = 0 -> int_of_float (Seconds d) = Z.quot d Second.
Proof.
  intros Hd Hr. unfold int_of_float, Seconds. rewrite Hr. change (fdiv (of_int 0) (of_int Second)) with (S754_zero false).
  assert (- 2 ^ 53 < Z.quot d Second < 2 ^ 53) as Hq.
  { pose proof (Z.quot_rem' d Second) as E. unfold Second in *. lia. }
  by rewrite of_int_add_zero, of_int_trunc.
Qed.
