(* ===== verification/SdpDecode.v ===== *)
(** * protocols/sdp/decoder.go: decoding a session into a message

    The decoder walks over the lines of a session; which line may follow which is decided by the
    tables of [getOrdering].  A decoding step is a state transformer over the decoder and the
    message it fills ([D]): on an error the fields decoded so far stay in the message, as they do
    behind the source's pointers. *)
From S2P Require Import Prelude GoFloat Decimal GoText NetIP Sdp SdpMessage.
Local Open Scope Z_scope.
Local Open Scope go_scope.

Inductive section := sectionSession | sectionTime | sectionMedia.

#[global] Instance section_eq_dec : EqDecision section.
Proof. solve_decision. Defined.

Record Decoder := mkDecoder {
  d_s : Session;
  d_pos : nat;
  d_t : Z;
  d_v : list Z;
  d_section : section;
  d_sPos : nat;
  d_m : Media
}.

Definition NewDecoder (s : Session) : Decoder := mkDecoder s 0 0 [] sectionSession 0 no_media.

(** ** The monad *)

Definition D (A : Type) : Type := Decoder * Message -> res sdp_err A * (Decoder * Message).

Definition ret {A} (a : A) : D A := fun st => (Ok a, st).
Definition fail {A} (e : sdp_err) : D A := fun st => (Err e, st).
Definition panic {A} : D A := fun st => (Panic, st).
Definition bind {A B} (m : D A) (k : A -> D B) : D B :=
  fun st => match m st with
            | (Ok a, st) => k a st
            | (Err e, st) => (Err e, st)
            | (Panic, st) => (Panic, st)
            end.
Definition lift {A} (r : res sdp_err A) : D A := fun st => (r, st).
Definition dec : D Decoder := fun st => (Ok st.1, st).
Definition msg : D Message := fun st => (Ok st.2, st).
Definition set_dec (f : Decoder -> Decoder) : D unit := fun st => (Ok tt, (f st.1, st.2)).
Definition set_msg (f : Message -> Message) : D unit := fun st => (Ok tt, (st.1, f st.2)).

Notation "'let!' x ':=' m 'in' k" := (bind m (fun x => k))
  (at level 10, x pattern, m at level 100, k at level 200) : go_scope.
Notation "m ;; k" := (bind m (fun _ => k)) (at level 100, k at level 200, right associativity) : go_scope.

(** Field updates. *)
Definition with_pos (p : nat) (d : Decoder) : Decoder :=
  mkDecoder (d_s d) p (d_t d) (d_v d) (d_section d) (d_sPos d) (d_m d).
Definition with_section (s : section) (sPos : nat) (d : Decoder) : Decoder :=
  mkDecoder (d_s d) (d_pos d) (d_t d) (d_v d) s sPos (d_m d).
Definition with_media (m : Media) (d : Decoder) : Decoder :=
  mkDecoder (d_s d) (d_pos d) (d_t d) (d_v d) (d_section d) (d_sPos d) m.

Definition set_mMedia (f : Media -> Media) : D unit := set_dec (fun d => with_media (f (d_m d)) d).

Definition m_title (t : list Z) (m : Media) : Media :=
  mkMedia t (Description m) (mConnection m) (mAttributes m) (mEncryption m) (mBandwidths m).
Definition m_description (x : MediaDescription) (m : Media) : Media :=
  mkMedia (Title m) x (mConnection m) (mAttributes m) (mEncryption m) (mBandwidths m).
Definition m_connection (f : ConnectionData -> ConnectionData) (m : Media) : Media :=
  mkMedia (Title m) (Description m) (f (mConnection m)) (mAttributes m) (mEncryption m) (mBandwidths m).
Definition m_attributes (f : Attributes -> Attributes) (m : Media) : Media :=
  mkMedia (Title m) (Description m) (mConnection m) (f (mAttributes m)) (mEncryption m) (mBandwidths m).
Definition m_encryption (e : Encryption) (m : Media) : Media :=
  mkMedia (Title m) (Description m) (mConnection m) (mAttributes m) e (mBandwidths m).
Definition m_bandwidths (f : Bandwidths -> Bandwidths) (m : Media) : Media :=
  mkMedia (Title m) (Description m) (mConnection m) (mAttributes m) (mEncryption m) (f (mBandwidths m)).

Definition s_version (v : Z) (m : Message) : Message :=
  mkMsg v (mOrigin m) (mName m) (Info m) (Email m) (Phone m) (URI m) (Connection m) (msgAttributes m) (Medias m) (msgEncryption m) (msgBandwidths m) (mTiming m) (TZAdjustments m).
Definition s_origin (o : Origin) (m : Message) : Message :=
  mkMsg (Version m) o (mName m) (Info m) (Email m) (Phone m) (URI m) (Connection m) (msgAttributes m) (Medias m) (msgEncryption m) (msgBandwidths m) (mTiming m) (TZAdjustments m).
Definition s_name (x : list Z) (m : Message) : Message :=
  mkMsg (Version m) (mOrigin m) x (Info m) (Email m) (Phone m) (URI m) (Connection m) (msgAttributes m) (Medias m) (msgEncryption m) (msgBandwidths m) (mTiming m) (TZAdjustments m).
Definition s_info (x : list Z) (m : Message) : Message :=
  mkMsg (Version m) (mOrigin m) (mName m) x (Email m) (Phone m) (URI m) (Connection m) (msgAttributes m) (Medias m) (msgEncryption m) (msgBandwidths m) (mTiming m) (TZAdjustments m).
Definition s_email (x : list Z) (m : Message) : Message :=
  mkMsg (Version m) (mOrigin m) (mName m) (Info m) x (Phone m) (URI m) (Connection m) (msgAttributes m) (Medias m) (msgEncryption m) (msgBandwidths m) (mTiming m) (TZAdjustments m).
Definition s_phone (x : list Z) (m : Message) : Message :=
  mkMsg (Version m) (mOrigin m) (mName m) (Info m) (Email m) x (URI m) (Connection m) (msgAttributes m) (Medias m) (msgEncryption m) (msgBandwidths m) (mTiming m) (TZAdjustments m).
Definition s_uri (x : list Z) (m : Message) : Message :=
  mkMsg (Version m) (mOrigin m) (mName m) (Info m) (Email m) (Phone m) x (Connection m) (msgAttributes m) (Medias m) (msgEncryption m) (msgBandwidths m) (mTiming m) (TZAdjustments m).
Definition s_connection (f : ConnectionData -> ConnectionData) (m : Message) : Message :=
  mkMsg (Version m) (mOrigin m) (mName m) (Info m) (Email m) (Phone m) (URI m) (f (Connection m)) (msgAttributes m) (Medias m) (msgEncryption m) (msgBandwidths m) (mTiming m) (TZAdjustments m).
Definition s_attributes (f : Attributes -> Attributes) (m : Message) : Message :=
  mkMsg (Version m) (mOrigin m) (mName m) (Info m) (Email m) (Phone m) (URI m) (Connection m) (f (msgAttributes m)) (Medias m) (msgEncryption m) (msgBandwidths m) (mTiming m) (TZAdjustments m).
Definition s_medias (f : list Media -> list Media) (m : Message) : Message :=
  mkMsg (Version m) (mOrigin m) (mName m) (Info m) (Email m) (Phone m) (URI m) (Connection m) (msgAttributes m) (f (Medias m)) (msgEncryption m) (msgBandwidths m) (mTiming m) (TZAdjustments m).
Definition s_encryption (e : Encryption) (m : Message) : Message :=
  mkMsg (Version m) (mOrigin m) (mName m) (Info m) (Email m) (Phone m) (URI m) (Connection m) (msgAttributes m) (Medias m) e (msgBandwidths m) (mTiming m) (TZAdjustments m).
Definition s_bandwidths (f : Bandwidths -> Bandwidths) (m : Message) : Message :=
  mkMsg (Version m) (mOrigin m) (mName m) (Info m) (Email m) (Phone m) (URI m) (Connection m) (msgAttributes m) (Medias m) (msgEncryption m) (f (msgBandwidths m)) (mTiming m) (TZAdjustments m).
Definition s_timing (f : list Timing -> list Timing) (m : Message) : Message :=
  mkMsg (Version m) (mOrigin m) (mName m) (Info m) (Email m) (Phone m) (URI m) (Connection m) (msgAttributes m) (Medias m) (msgEncryption m) (msgBandwidths m) (f (mTiming m)) (TZAdjustments m).
Definition s_zones (f : list TimeZone -> list TimeZone) (m : Message) : Message :=
  mkMsg (Version m) (mOrigin m) (mName m) (Info m) (Email m) (Phone m) (URI m) (Connection m) (msgAttributes m) (Medias m) (msgEncryption m) (msgBandwidths m) (mTiming m) (f (TZAdjustments m)).

Definition c_types (a n : list Z) (c : ConnectionData) : ConnectionData := mkConnection n a (cIP c) (cTTL c) (cAddresses c).
Definition c_ip (ip : list Z) (c : ConnectionData) : ConnectionData :=
  mkConnection (cNetworkType c) (cAddressType c) ip (cTTL c) (cAddresses c).
Definition c_ttl (x : Z) (c : ConnectionData) : ConnectionData :=
  mkConnection (cNetworkType c) (cAddressType c) (cIP c) x (cAddresses c).
Definition c_addresses (x : Z) (c : ConnectionData) : ConnectionData :=
  mkConnection (cNetworkType c) (cAddressType c) (cIP c) (cTTL c) x.

(** AddAttribute and AddFlag of a message and of a media, with the methods that read them back. *)
Definition Message_AddAttribute (k v : list Z) (m : Message) : Message := s_attributes (fun a => addAttribute a k v) m.
Definition Message_AddFlag (f : list Z) (m : Message) : Message := Message_AddAttribute f blank m.
Definition Media_AddAttribute (k : list Z) (values : list (list Z)) (m : Media) : Media :=
  m_attributes (fun a => addAttribute a k (Join 32 values)) m.
Definition Media_AddFlag (f : list Z) (m : Media) : Media := Media_AddAttribute f [blank] m.
Definition Media_Flag (m : Media) (f : list Z) : bool := Attributes_Flag (mAttributes m) f.
Definition Media_Attribute (m : Media) (k : list Z) : list Z := Attributes_Value (mAttributes m) k.

(** ** Ordering *)

Definition orderingSession : list Z :=
  [TypeProtocolVersion; TypeOrigin; TypeSessionName; TypeSessionInformation; TypeURI; TypeEmail; TypePhone;
   TypeConnectionData; TypeBandwidth; TypeTimeZones; TypeEncryptionKey; TypeAttribute].
Definition orderingAfterTime : nat := 10.
Definition orderingTime : list Z := [TypeTiming; TypeRepeatTimes].
Definition orderingMedia : list Z :=
  [TypeMediaDescription; TypeSessionInformation; TypeConnectionData; TypeBandwidth; TypeEncryptionKey; TypeAttribute].

Definition getOrdering (s : section) : list Z :=
  match s with
  | sectionSession => orderingSession
  | sectionMedia => orderingMedia
  | sectionTime => orderingTime
  end.

Definition isKnown (t : Z) : bool :=
  bool_decide (t ∈ [TypeProtocolVersion; TypeOrigin; TypeSessionName; TypeSessionInformation; TypeURI; TypeEmail; TypePhone;
    TypeConnectionData; TypeBandwidth; TypeTiming; TypeRepeatTimes; TypeTimeZones; TypeEncryptionKey; TypeAttribute;
    TypeMediaDescription]).

Definition isZeroOrMore (t : Z) : bool := bool_decide (t ∈ [TypeBandwidth; TypeAttribute]).

(** isExpected; None is nil.  It calls itself at most three levels deep: from the session section
    to the time section, back behind the time and on to the media section. *)
Fixpoint isExpected (depth : nat) (t : Z) (s : section) (pos : nat) : option sdp_err :=
  let other (s : section) (pos : nat) : bool :=
    match depth with
    | O => false
    | S depth => match isExpected depth t s pos with None => true | Some _ => false end
    end in
  if bool_decide (t ∈ drop pos (getOrdering s)) then None
  else if match s with
          | sectionSession => ((pos <? orderingAfterTime)%nat && other sectionTime 0%nat) || other sectionMedia 0%nat
          | sectionTime => other sectionSession orderingAfterTime
          | sectionMedia => negb (pos =? 0)%nat && other sectionMedia 0%nat
          end then None
  else if negb (isKnown t) then Some EUnknownType
  else Some (EUnexpected t).

Definition expected : Z -> section -> nat -> option sdp_err := isExpected 3.

Definition canSkip (e : sdp_err) : bool := match e with EUnknownType => true | _ => false end.

(** ** Decoding fields *)

(** decodeKV: the value is what follows the first colon. *)
Fixpoint kv_loop (isValue : bool) (key value s : list Z) : bool * list Z * list Z :=
  match s with
  | [] => (isValue, key, value)
  | v :: s =>
    if (v =? 58) && negb isValue then kv_loop true key value s
    else if isValue then kv_loop isValue key (value ++ [v]) s
    else kv_loop isValue (key ++ [v]) value s
  end.

Definition decodeKV (v : list Z) : res sdp_err (list Z * list Z) :=
  let '(isValue, key, value) := kv_loop false [] [] v in
  if isValue && (length value <? 1)%nat then Err EAttributeNoValue else Ok (key, value).

Definition Atoi_res (v : list Z) : res sdp_err Z := match Atoi v with Some n => Ok n | None => Err ENumber end.
Definition decodeInt : list Z -> res sdp_err Z := Atoi_res.
Definition parseNTP (v : list Z) : res sdp_err Z := match ParseUint 64 v with Some n => Ok n | None => Err ENumber end.

Definition decodeVersion : D unit :=
  let! d := dec in
  let! n := lift (Atoi_res (d_v d)) in
  set_msg (s_version n).

Definition decodeAttribute : D unit :=
  let! d := dec in
  let! kv := lift (decodeKV (d_v d)) in
  match d_section d with
  | sectionMedia => set_mMedia (m_attributes (fun a => addAttribute a kv.1 kv.2))
  | _ => set_msg (s_attributes (fun a => addAttribute a kv.1 kv.2))
  end.

Definition decodeSessionName : D unit := let! d := dec in set_msg (s_name (d_v d)).

Definition decodeSessionInfo : D unit :=
  let! d := dec in
  match d_section d with
  | sectionMedia => set_mMedia (m_title (d_v d))
  | _ => set_msg (s_info (d_v d))
  end.

Definition decodeEmail : D unit := let! d := dec in set_msg (s_email (d_v d)).
Definition decodePhone : D unit := let! d := dec in set_msg (s_phone (d_v d)).
Definition decodeURI : D unit := let! d := dec in set_msg (s_uri (d_v d)).

Definition decodeEncryption : D unit :=
  let! d := dec in
  let! kv := lift (decodeKV (d_v d)) in
  let e := mkEncryption kv.1 kv.2 in
  match d_section d with
  | sectionMedia => set_mMedia (m_encryption e)
  | _ => set_msg (s_encryption e)
  end.

(** decodeIP returns the old address with the error. *)
Definition decodeIP (dst v : list Z) : list Z * option sdp_err :=
  match ParseIP v with
  | None => (dst, Some EInvalidIP)
  | Some ip => (ip, None)
  end.

Definition decodeByte (dst : list Z) : Z * option sdp_err :=
  match ParseInt 16 dst with
  | None => (0, Some ENumber)
  | Some n => (u8 n, None)
  end.

Definition isIPv4 (ip : list Z) : bool := bool_decide (To4 ip <> []).

(** The loops of decodeConnectionData: up to three elements; None when a fourth one is not empty. *)
Fixpoint three_fields (c : Z) (subField : nat) (a b e s : list Z) : option (list Z * list Z * list Z) :=
  match s with
  | [] => Some (a, b, e)
  | v :: s =>
    if v =? c then three_fields c (S subField) a b e s
    else match subField with
    | 0%nat => three_fields c subField (a ++ [v]) b e s
    | 1%nat => three_fields c subField a (b ++ [v]) e s
    | 2%nat => three_fields c subField a b (e ++ [v]) s
    | _ => None
    end
  end.

(** Store the connection of the media or of the session; in a time section nothing is stored. *)
Definition store_connection (sec : section) (f : ConnectionData -> ConnectionData) : D unit :=
  match sec with
  | sectionMedia => set_mMedia (m_connection f)
  | sectionSession => set_msg (s_connection f)
  | sectionTime => ret tt
  end.

(** An assignment x, err = f() followed by the test of err. *)
Definition store_byte (sec : section) (f : Z -> ConnectionData -> ConnectionData) (v : list Z) : D unit :=
  match sec with
  | sectionTime => ret tt
  | _ =>
    let '(b, err) := decodeByte v in
    store_connection sec (f b);;
    match err with Some e => fail e | None => ret tt end
  end.

(** The end of decodeConnectionData: the TTL and the number of addresses.  The TTL of a media
    section is stored in the session's connection when it stands alone. *)
Definition decode_counts (sec : section) (isV4 : bool) (first second : list Z) : D unit :=
  if (0 <? length second)%nat then
    if negb isV4 then fail ETTLForIPv6
    else
      store_byte sec c_ttl first;;
      store_byte sec c_addresses second
  else if (0 <? length first)%nat then
    if isV4 then store_byte (match sec with sectionMedia => sectionSession | _ => sec end) c_ttl first
    else store_byte sec c_addresses second
  else ret tt.

Definition decodeConnectionData : D unit :=
  let! d := dec in
  let sec := d_section d in
  match three_fields fieldsDelimiter 0 [] [] [] (d_v d) with
  | None => fail ESubfields
  | Some (netType, addressType, connectionAddress) =>
    if (length netType =? 0)%nat then fail EEmptySubfield
    else if (length addressType =? 0)%nat then fail EEmptySubfield
    else if (length connectionAddress =? 0)%nat then fail EEmptySubfield
    else
      store_connection sec (c_types addressType netType);;
      match three_fields 47 0 [] [] [] connectionAddress with
      | None => fail EFourthElement
      | Some (base, first, second) =>
        let! m := msg in
        let '(ip, err) := match sec with sectionTime => ([], None) | _ => decodeIP (cIP (Connection m)) base end in
        store_connection sec (c_ip ip);;
        match err with
        | Some e => fail e
        | None =>
          decode_counts sec (match sec with sectionTime => false | _ => isIPv4 ip end) first second
        end
      end
  end.

Definition decodeBandwidth : D unit :=
  let! d := dec in
  let! kv := lift (decodeKV (d_v d)) in
  if decide (kv.2 = []) then fail EBandwidthNoValue
  else if negb (bool_decide (kv.1 ∈ [BandwidthApplicationSpecific; BandwidthConferenceTotal])) then fail EBandwidthType
  else
    let! n := lift (Atoi_res kv.2) in
    match d_section d with
    | sectionMedia => set_mMedia (m_bandwidths (<[kv.1 := n]>))
    | _ => set_msg (s_bandwidths (<[kv.1 := n]>))
    end.

(** The loop of decodeTimingField: two parts; None at a second space. *)
Fixpoint two_fields (isEnd : bool) (a b s : list Z) : option (list Z * list Z) :=
  match s with
  | [] => Some (a, b)
  | v :: s =>
    if v =? fieldsDelimiter then if isEnd then None else two_fields true a b s
    else if isEnd then two_fields isEnd a (b ++ [v]) s
    else two_fields isEnd (a ++ [v]) b s
  end.

Definition decodeTimingField : D unit :=
  let! d := dec in
  match two_fields false [] [] (d_v d) with
  | None => fail ESecondSpace
  | Some (startV, endV) =>
    let! ntpStart := lift (parseNTP startV) in
    let! ntpEnd := lift (parseNTP endV) in
    set_msg (s_timing (fun l => l ++ [mkTiming (NTPToTime ntpStart) (NTPToTime ntpEnd) 0 0 []]))
  end.

(** subfields: the words between single spaces. *)
Fixpoint sub_loop (hitSpace : bool) (done : list (list Z)) (cur s : list Z) : res sdp_err (list (list Z)) :=
  match s with
  | [] => Ok (done ++ [cur])
  | v :: s =>
    if v =? fieldsDelimiter then if hitSpace then Err ESecondSpace else sub_loop true (done ++ [cur]) [] s
    else sub_loop false done (cur ++ [v]) s
  end.

Definition subfields (v : list Z) : res sdp_err (list (list Z)) := sub_loop true [] [] v.

Definition decodeOrigin : D unit :=
  let! d := dec in
  let! p := lift (subfields (d_v d)) in
  match p with
  | [p0; p1; p2; p3; p4; p5] =>
    let! sessID := lift (decodeInt p1) in
    let! sessVersion := lift (decodeInt p2) in
    set_msg (s_origin (mkOrigin p0 sessID sessVersion p3 p4 p5))
  | _ => fail ESubfields
  end.

(** decodeInterval: the last byte may be a unit; an empty slice is indexed out of range. *)
Definition decodeInterval (b : list Z) : res sdp_err Z :=
  if bool_decide (b = [48]) then Ok 0
  else match last b with
  | None => Panic
  | Some c =>
    let unit := if c =? 100 then Some (Hour * 24) else if c =? 104 then Some Hour
                else if c =? 109 then Some Minute else if c =? 115 then Some Second else None in
    match unit with
    | Some unit =>
      if (length b <? 2)%nat then Err EUnitWithoutValue
      else let? val := decodeInt (take (length b - 1) b) in Ok (i64 (val * unit))
    | None => let? val := decodeInt b in Ok (i64 (val * Second))
    end
  end.

Fixpoint decode_offsets (p : list (list Z)) : res sdp_err (list Z) :=
  match p with
  | [] => Ok []
  | pp :: p =>
    let? dd := decodeInterval pp in
    let? ds := decode_offsets p in
    Ok (dd :: ds)
  end.

(** decodeRepeatTimes decodes into a copy of the last timing, which is dropped at the end. *)
Definition decodeRepeatTimes : D unit :=
  let! m := msg in
  match mTiming m with
  | [] => fail ERepeatWithoutTiming
  | _ =>
    let! d := dec in
    let! p := lift (subfields (d_v d)) in
    match p with
    | p0 :: p1 :: p2 :: offsets =>
      let! _ := lift (decodeInterval p0) in
      let! _ := lift (decodeInterval p1) in
      let! _ := lift (decode_offsets (p2 :: offsets)) in
      ret tt
    | _ => fail ESubfields
    end
  end.

Fixpoint decode_zones (p : list (list Z)) : D unit :=
  match p with
  | p0 :: p1 :: p =>
    let! t := lift (parseNTP p0) in
    let! offset := lift (decodeInterval p1) in
    set_msg (s_zones (fun l => l ++ [mkTimeZone (NTPToTime t) offset]));;
    decode_zones p
  | _ => ret tt
  end.

Definition decodeTimeZoneAdjustments : D unit :=
  let! d := dec in
  let! p := lift (subfields (d_v d)) in
  if negb (Nat.even (length p)) then fail ESubfields else decode_zones p.

Definition decodeMediaDescription : D unit :=
  let! d := dec in
  let! p := lift (subfields (d_v d)) in
  match p with
  | p0 :: p1 :: p2 :: formats =>
    match Split 47 p1 with
    | [] => panic
    | port :: rest =>
      let! port := lift (decodeInt port) in
      let! number := lift (match rest with n :: _ => decodeInt n | [] => Ok 0 end) in
      set_mMedia (m_description (mkMediaDescription p0 port number p2 formats))
    end
  | _ => fail ESubfields
  end.

Definition decodeField : D unit :=
  let! d := dec in
  let t := d_t d in
  if t =? TypeProtocolVersion then decodeVersion
  else if t =? TypeAttribute then decodeAttribute
  else if t =? TypeSessionName then decodeSessionName
  else if t =? TypeSessionInformation then decodeSessionInfo
  else if t =? TypeEmail then decodeEmail
  else if t =? TypePhone then decodePhone
  else if t =? TypeURI then decodeURI
  else if t =? TypeEncryptionKey then decodeEncryption
  else if t =? TypeBandwidth then decodeBandwidth
  else if t =? TypeTiming then decodeTimingField
  else if t =? TypeConnectionData then decodeConnectionData
  else if t =? TypeOrigin then decodeOrigin
  else if t =? TypeRepeatTimes then decodeRepeatTimes
  else if t =? TypeTimeZones then decodeTimeZoneAdjustments
  else if t =? TypeMediaDescription then decodeMediaDescription
  else panic.

(** ** The three loops *)

(** next: false at the end of the session. *)
Definition next : D bool :=
  let! d := dec in
  match d_s d !! d_pos d with
  | None => ret false
  | Some l =>
    set_dec (fun d => mkDecoder (d_s d) (d_pos d + 1) (lType l) (lValue l) (d_section d) (d_sPos d) (d_m d));;
    ret true
  end.

Definition count_line : D unit :=
  set_dec (fun d => if isZeroOrMore (d_t d) then d else with_section (d_section d) (d_sPos d + 1) d).

Definition step_back : D unit := set_dec (fun d => with_pos (d_pos d - 1) d).

(** Each turn of a loop reads a line; the first argument is the number of lines that are left. *)
Fixpoint timing_loop (fuel : nat) : D unit :=
  match fuel with
  | O => fail EFuel
  | S fuel =>
    let! more := next in
    if negb more then ret tt
    else
      let! d := dec in
      match expected (d_t d) (d_section d) (d_sPos d) with
      | Some e => if canSkip e then timing_loop fuel else fail e
      | None =>
        count_line;;
        if (d_t d =? TypeTiming) || (d_t d =? TypeRepeatTimes) then decodeField;; timing_loop fuel
        else step_back
      end
  end.

Definition lines_left (d : Decoder) : nat := length (d_s d) - d_pos d.

Definition decodeTiming : D unit :=
  set_dec (with_section sectionTime 0);;
  let! d := dec in
  timing_loop (S (lines_left d)).

Fixpoint media_loop (fuel : nat) : D unit :=
  match fuel with
  | O => fail EFuel
  | S fuel =>
    let! more := next in
    if negb more then ret tt
    else
      let! d := dec in
      match expected (d_t d) (d_section d) (d_sPos d) with
      | Some e => if canSkip e then media_loop fuel else fail e
      | None =>
        if (d_t d =? TypeMediaDescription) && negb (d_sPos d =? 0)%nat then step_back
        else
          count_line;;
          decodeField;;
          media_loop fuel
      end
  end.

Definition decodeMedia : D unit :=
  set_dec (fun d => with_media no_media (with_section sectionMedia 0 d));;
  let! d := dec in
  media_loop (S (lines_left d));;
  let! d := dec in
  set_msg (s_medias (fun l => l ++ [d_m d])).

(** The end of decodeSession: what a message must have. *)
Definition check_message : D unit :=
  let! m := msg in
  if decide (oAddress (mOrigin m) = []) then fail EOriginNotSet
  else if decide (mName m = []) then fail ENameNotSet
  else ret tt.

Fixpoint session_loop (fuel : nat) : D unit :=
  match fuel with
  | O => fail EFuel
  | S fuel =>
    let! more := next in
    if negb more then check_message
    else
      let! d := dec in
      match expected (d_t d) (d_section d) (d_sPos d) with
      | Some e => if canSkip e then session_loop fuel else fail e
      | None =>
        count_line;;
        let! d := dec in
        (if d_t d =? TypeTiming then
           step_back;; decodeTiming;; set_dec (with_section sectionSession (d_sPos d))
         else if d_t d =? TypeMediaDescription then
           step_back;; decodeMedia;; set_dec (with_section sectionSession (d_sPos d))
         else decodeField);;
        session_loop fuel
      end
  end.

Definition decodeSession : D unit :=
  set_dec (with_section sectionSession 0);;
  let! d := dec in
  session_loop (S (lines_left d)).

(** Decode, from a fresh decoder. *)
Definition Decode (s : Session) (m : Message) : res sdp_err unit * Message :=
  let '(r, (_, m)) := decodeSession (NewDecoder s, m) in (r, m).

(** ** Field by field: what was encoded is decoded *)

Lemma decodeInt_itoa n : - 2 ^ 63 <= n < 2 ^ 63 -> decodeInt (itoa n) = Ok n.
Proof. intros H. unfold decodeInt, Atoi_res. by rewrite Atoi_itoa. Qed.

Lemma parseNTP_format n : 0 <= n < 2 ^ 64 -> parseNTP (format_uint n) = Ok n.
Proof. intros H. unfold parseNTP. by rewrite ParseUint_format. Qed.

Lemma kv_loop_value k v s : kv_loop true k v s = (true, k, v ++ s).
Proof.
  revert v. induction s as [|c s IH]; intros v; cbn [kv_loop]; [by rewrite app_nil_r|]. rewrite andb_false_r, IH. by rewrite <- app_assoc.
Qed.

Lemma kv_loop_key k s : 58 ∉ s -> kv_loop false k [] s = (false, k ++ s, []).
Proof.
  revert k. induction s as [|c s IH]; intros k H; cbn [kv_loop]; [by rewrite app_nil_r|]. apply not_elem_of_cons in H as [H1 H2].
  rewrite (proj2 (Z.eqb_neq c 58)) by done. cbn [andb]. rewrite IH by done. by rewrite <- app_assoc.
Qed.

Lemma kv_loop_pair k s v : 58 ∉ s -> kv_loop false k [] (s ++ 58 :: v) = (true, k ++ s, v).
Proof.
  revert k. induction s as [|c s IH]; intros k H; cbn [kv_loop app]; [rewrite kv_loop_value; by rewrite app_nil_r|].
  apply not_elem_of_cons in H as [H1 H2]. rewrite (proj2 (Z.eqb_neq c 58)) by done. cbn [andb]. rewrite IH by done. by rewrite <- app_assoc.
Qed.

Lemma decodeKV_key k : 58 ∉ k -> decodeKV k = Ok (k, []).
Proof. intros H. unfold decodeKV. by rewrite kv_loop_key. Qed.

Lemma decodeKV_pair k v : 58 ∉ k -> v <> [] -> decodeKV (k ++ 58 :: v) = Ok (k, v).
Proof. intros H Hv. unfold decodeKV. rewrite kv_loop_pair by done. by destruct v. Qed.

(** Words between single spaces. *)
Lemma sub_loop_words hit acc cur w s :
  32 ∉ w -> w <> [] -> sub_loop hit acc cur (w ++ s) = sub_loop false acc (cur ++ w) s.
Proof.
  revert hit cur. induction w as [|c w IH]; intros hit cur H Hw; [done|]. apply not_elem_of_cons in H as [H1 H2]. cbn [sub_loop app].
  unfold fieldsDelimiter. rewrite (proj2 (Z.eqb_neq c 32)) by done.
  destruct w as [|c2 w]; [done|]. rewrite IH by done. by rewrite <- app_assoc.
Qed.

Definition word (w : list Z) : Prop := w <> [] /\ 32 ∉ w.

Lemma sub_loop_Join acc ws :
  ws <> [] -> Forall word ws -> sub_loop true acc [] (Join 32 ws) = Ok (acc ++ ws).
Proof.
  intros Hne F. revert acc Hne. induction F as [|w ws [Hw1 Hw2] F IH]; intros acc Hne; [done|].
  destruct ws as [|w2 ws].
  - cbn [Join]. rewrite <- (app_nil_r w), sub_loop_words by done. cbn. by rewrite app_nil_r.
  - cbn [Join]. rewrite sub_loop_words by done. cbn [sub_loop app]. change (32 =? fieldsDelimiter) with true. cbv iota.
    rewrite IH by done. by rewrite <- app_assoc.
Qed.

Lemma subfields_Join ws : ws <> [] -> Forall word ws -> subfields (Join 32 ws) = Ok ws.
Proof. intros. by apply sub_loop_Join. Qed.

(** The three elements of connection data and of its address. *)
Lemma three_fields_word c k a b e w s :
  c ∉ w -> (k <= 2)%nat ->
  three_fields c k a b e (w ++ s) =
    match k with
    | 0%nat => three_fields c k (a ++ w) b e s
    | 1%nat => three_fields c k a (b ++ w) e s
    | _ => three_fields c k a b (e ++ w) s
    end.
Proof.
  intros Hc Hk. revert a b e. induction w as [|x w IH]; intros a b e.
  - destruct k as [|[|[|k]]]; [..|lia]; by rewrite app_nil_r.
  - apply not_elem_of_cons in Hc as [H1 H2]. cbn [three_fields app]. rewrite (proj2 (Z.eqb_neq x c)) by done.
    destruct k as [|[|[|k]]]; [..|lia]; rewrite (IH H2); by rewrite <- app_assoc.
Qed.

Lemma three_fields_3 c a b e :
  c ∉ a -> c ∉ b -> c ∉ e -> three_fields c 0 [] [] [] (a ++ c :: b ++ c :: e) = Some (a, b, e).
Proof.
  intros Ha Hb He. rewrite three_fields_word by (done || lia). cbn [three_fields app]. rewrite Z.eqb_refl.
  rewrite three_fields_word by (done || lia). cbn [three_fields app]. rewrite Z.eqb_refl.
  rewrite <- (app_nil_r e), three_fields_word by (done || lia). cbn. by rewrite app_nil_r.
Qed.

Lemma three_fields_2 c a b : c ∉ a -> c ∉ b -> three_fields c 0 [] [] [] (a ++ c :: b) = Some (a, b, []).
Proof.
  intros Ha Hb. rewrite three_fields_word by (done || lia). cbn [three_fields app]. rewrite Z.eqb_refl.
  rewrite <- (app_nil_r b), three_fields_word by (done || lia). cbn. by rewrite app_nil_r.
Qed.

Lemma three_fields_1 c a : c ∉ a -> three_fields c 0 [] [] [] a = Some (a, [], []).
Proof. intros Ha. rewrite <- (app_nil_r a), three_fields_word by (done || lia). cbn. by rewrite app_nil_r. Qed.

Lemma two_fields_2 a b : 32 ∉ a -> 32 ∉ b -> two_fields false [] [] (a ++ 32 :: b) = Some (a, b).
Proof.
  assert (forall w x y, 32 ∉ w -> two_fields true x y w = Some (x, y ++ w)) as H2.
  { induction w as [|c w IH]; intros x y H; cbn [two_fields]; [by rewrite app_nil_r|]. apply not_elem_of_cons in H as [H1 H2].
    unfold fieldsDelimiter. rewrite (proj2 (Z.eqb_neq c 32)) by done. rewrite IH by done. by rewrite <- app_assoc. }
  assert (forall w x, 32 ∉ w -> 32 ∉ b -> two_fields false x [] (w ++ 32 :: b) = Some (x ++ w, b)) as H1.
  { induction w as [|c w IH]; intros x H Hb; cbn [two_fields app].
    - change (32 =? fieldsDelimiter) with true. cbv iota. rewrite H2 by done. by rewrite app_nil_r.
    - apply not_elem_of_cons in H as [H1 H3]. unfold fieldsDelimiter. rewrite (proj2 (Z.eqb_neq c 32)) by done. rewrite IH by done. by rewrite <- app_assoc. }
  intros Ha Hb. by rewrite H1.
Qed.

(** ** Intervals *)

Lemma append_ascii b c : 0 <= c < 128 -> appendRune b c = b ++ [c].
Proof. intros H. unfold appendRune. by rewrite EncodeRune_ascii. Qed.

(** A whole number of seconds. *)
Definition whole_seconds (d : Z) : Prop := - 2 ^ 63 <= d < 2 ^ 63 /\ Z.rem d Second = 0.

Definition itext (d : Z) : list Z := appendIntervalCompact [] d.

Lemma quot_int64 d k : - 2 ^ 63 <= d < 2 ^ 63 -> 1 < k -> - 2 ^ 63 <= Z.quot d k < 2 ^ 63.
Proof. intros Hd Hk. pose proof (Z.quot_rem' d k). destruct (Z.le_gt_cases 0 d).
  - pose proof (Z.quot_pos d k ltac:(lia) ltac:(lia)). pose proof (Z.rem_nonneg d k ltac:(lia) ltac:(lia)). nia.
  - pose proof (Z.quot_opp_l d k ltac:(lia)). pose proof (Z.quot_pos (- d) k ltac:(lia) ltac:(lia)).
    pose proof (Z.rem_nonpos d k ltac:(lia) ltac:(lia)). nia.
Qed.

(** The text: 0, or a number with a unit, or a number of seconds. *)
Lemma appendInterval_text b d :
  whole_seconds d ->
  (d = 0 /\ appendIntervalCompact b d = b ++ [48]) \/
  (exists u r q, (u, r) ∈ [(Hour * 24, 100); (Hour, 104); (Minute, 109)] /\ d = q * u /\ - 2 ^ 63 <= q < 2 ^ 63 /\
    appendIntervalCompact b d = b ++ itoa q ++ [r]) \/
  (exists q, q <> 0 /\ d = q * Second /\ - 2 ^ 63 <= q < 2 ^ 63 /\ appendIntervalCompact b d = b ++ itoa q).
Proof.
  intros [Hd Hs]. unfold appendIntervalCompact. destruct (d =? 0) eqn:E0; [left; split; [lia|done]|]. right.
  assert (forall u r, 1 < u -> 0 <= r < 128 -> Z.rem d u = 0 -> d = Z.quot d u * u /\ - 2 ^ 63 <= Z.quot d u < 2 ^ 63 /\
    unit_append (mkUnit u r) b d = b ++ itoa (Z.quot d u) ++ [r]) as K.
  { intros u r Hu Hr E. pose proof (Z.quot_rem' d u). pose proof (quot_int64 d u Hd Hu). split_and!; [lia|lia|lia|].
    unfold unit_append. cbn [u_d u_r]. rewrite appendInt_spec, append_ascii by lia. by rewrite <- app_assoc. }
  cbn [compact_loop durationUnits u_d]. unfold Hour, Minute, Second in *.
  destruct (Z.rem d _ =? 0) eqn:E1; [|clear E1; destruct (Z.rem d _ =? 0) eqn:E1; [|clear E1; destruct (Z.rem d _ =? 0) eqn:E1]].
  1-3: left; apply Z.eqb_eq in E1; eapply K in E1 as (? & ? & ?); [eexists _, _, _; split_and!; try done; set_solver|lia|lia].
  right. exists (Z.quot d 1000000000). pose proof (Z.quot_rem' d 1000000000).
  rewrite int_Seconds by done. pose proof (quot_int64 d 1000000000 Hd ltac:(lia)). rewrite appendInt_spec by (unfold Second; lia). split_and!; [lia|lia|lia|lia|done].
Qed.

Lemma decodeInterval_itext d : whole_seconds d -> decodeInterval (itext d) = Ok d /\ word (itext d).
Proof.
  intros Hd. pose proof Hd as [Hr _]. destruct (appendInterval_text [] d Hd) as [(-> & E)|[(u & r & q & Hu & -> & Hq & E)|(q & Hq0 & -> & Hq & E)]];
    unfold itext; rewrite E; cbn [app].
  - split; [done|]. split; [done|]. set_solver.
  - assert (32 ∉ itoa q) as Hw by (apply itoa_notin; lia).
    assert (48 <= r) as Hr48 by (rewrite !elem_of_cons in Hu; destruct Hu as [[= -> ->]|[[= -> ->]|[[= -> ->]|Hu]]]; [lia..|by apply elem_of_nil in Hu]).
    split; [|split; [by destruct (itoa q)|rewrite elem_of_app, list_elem_of_singleton; intros [|]; [done|lia]]].
    unfold decodeInterval. rewrite bool_decide_eq_false_2.
    2: { intros H. apply (f_equal length) in H. rewrite length_app in H. pose proof (itoa_length q). cbn in H. lia. }
    rewrite last_snoc, length_app. cbn [length]. rewrite Nat.add_sub, take_app_length.
    pose proof (itoa_length q). rewrite (proj2 (Nat.ltb_ge _ _)) by lia.
    rewrite decodeInt_itoa by done. rewrite !elem_of_cons in Hu.
    destruct Hu as [[= -> ->]|[[= -> ->]|[[= -> ->]|Hu]]]; [..|by apply elem_of_nil in Hu]; cbn [Z.eqb Pos.eqb res_bind]; by rewrite i64_small by lia.
  - assert (32 ∉ itoa q) as Hw by (apply itoa_notin; lia). split; [|split; [apply itoa_nonempty|done]].
    unfold decodeInterval. rewrite bool_decide_eq_false_2.
    2: { intros H. pose proof (Atoi_itoa q Hq) as P. rewrite H in P. vm_compute in P. injection P as P. lia. }
    destruct (last (itoa q)) as [c|] eqn:L; [|by apply last_None, itoa_nonempty in L].
    pose proof (itoa_chars q) as F. rewrite Forall_forall in F. apply last_Some in L as [t L].
    specialize (F c ltac:(rewrite L; set_solver)). rewrite decodeInt_itoa by done.
    rewrite (proj2 (Z.eqb_neq c 100)), (proj2 (Z.eqb_neq c 104)), (proj2 (Z.eqb_neq c 109)), (proj2 (Z.eqb_neq c 115)) by lia. cbn [res_bind]. rewrite i64_small by (unfold Second in *; lia). done.
Qed.
