(* ===== verification/SdpCorrect.v ===== *)
(** * protocols/sdp: the decoder terminates, and reads back what the encoder writes

    The loops of the decoder stop after at most one turn per line, panic only on values that
    end with a space, and reproduce every message in the normal form [message_ok]. *)
From S2P Require Import Prelude GoFloat Decimal GoText NetIP Sdp SdpMessage SdpDecode.
Local Open Scope Z_scope.
Local Open Scope go_scope.

(** ** Decoding a field leaves the cursor where it is *)

Definition cursor (d : Decoder) : Session * nat * section * nat := (d_s d, d_pos d, d_section d, d_sPos d).

(** [m] does not move the cursor, does not run out of turns, and panics only if [Q]. *)
Definition in_place {A} (Q : Prop) (d : Decoder) (m : D A) : Prop :=
  forall mm, let '(r, (d', _)) := m (d, mm) in cursor d' = cursor d /\ r <> Err EFuel /\ (r = Panic -> Q).

Section in_place.
Context (Q : Prop).

Lemma ip_ret {A} d (a : A) : in_place Q d (ret a).
Proof. by intros mm. Qed.

Lemma ip_fail {A} d e : e <> EFuel -> in_place (A := A) Q d (fail e).
Proof. intros H mm. cbn. split_and!; [done|congruence|done]. Qed.

Lemma ip_dec {A} d (k : Decoder -> D A) : in_place Q d (k d) -> in_place Q d (bind dec k).
Proof. intros H mm. apply H. Qed.

Lemma ip_msg {A} d (k : Message -> D A) : (forall m, in_place Q d (k m)) -> in_place Q d (bind msg k).
Proof. intros H mm. apply (H mm mm). Qed.

Lemma ip_lift {A B} d (r : res sdp_err A) (k : A -> D B) :
  r <> Err EFuel -> (r = Panic -> Q) -> (forall a, r = Ok a -> in_place Q d (k a)) -> in_place Q d (bind (lift r) k).
Proof.
  intros H1 H2 H3 mm. unfold bind, lift. destruct r as [a|e|].
  - by apply H3.
  - split_and!; [done|congruence|done].
  - split_and!; [done|done|auto].
Qed.

Lemma ip_set_msg d f : in_place Q d (set_msg f).
Proof. by intros mm. Qed.

Lemma ip_set_media d f : in_place Q d (set_mMedia f).
Proof. by intros mm. Qed.

Lemma ip_bind {A B} d (m : D A) (k : A -> D B) :
  in_place Q d m -> (forall a d', cursor d' = cursor d -> in_place Q d' (k a)) -> in_place Q d (bind m k).
Proof.
  intros H1 H2 mm. specialize (H1 mm). unfold bind. destruct (m (d, mm)) as [r [d' mm']]. destruct H1 as (C & E & P).
  destruct r as [a|e|]; [|split_and!; [done|congruence|done]|split_and!; [done|done|auto]].
  specialize (H2 a d' C mm'). destruct (k a (d', mm')) as [r2 [d2 mm2]]. rewrite C in H2. done.
Qed.

Lemma ip_store sec d f : in_place Q d (store_connection sec f).
Proof. destruct sec; [apply ip_set_msg|apply ip_ret|apply ip_set_media]. Qed.

Lemma ip_store_byte sec d f v : in_place Q d (store_byte sec f v).
Proof.
  unfold store_byte. destruct sec; try apply ip_ret.
  all: destruct (decodeByte v) as [b err] eqn:E; (apply ip_bind; [apply ip_store|]); intros _ d' _; destruct err as [e|]; [|apply ip_ret].
  all: apply ip_fail; unfold decodeByte in E; destruct (ParseInt 16 v); congruence.
Qed.
End in_place.

Lemma Atoi_res_fuel v : Atoi_res v <> Err EFuel /\ Atoi_res v <> Panic.
Proof. unfold Atoi_res. by destruct (Atoi v). Qed.

Lemma parseNTP_fuel v : parseNTP v <> Err EFuel /\ parseNTP v <> Panic.
Proof. unfold parseNTP. by destruct (ParseUint 64 v). Qed.

Lemma decodeKV_fuel v : decodeKV v <> Err EFuel /\ decodeKV v <> Panic.
Proof. unfold decodeKV. destruct (kv_loop false [] [] v) as [[[] k] x]; [|done]. by destruct (length x <? 1)%nat. Qed.

Lemma sub_loop_words_ok hit acc cur s :
  (hit = true <-> cur = []) -> Forall (fun w => w <> []) acc ->
  match sub_loop hit acc cur s with
  | Ok ws => (s = [] -> cur <> []) -> (s <> [] -> last s <> Some 32) -> Forall (fun w => w <> []) ws
  | Err e => e <> EFuel
  | Panic => False
  end.
Proof.
  revert hit acc cur. induction s as [|c s IH]; intros hit acc cur Hc F.
  - cbn. intros H _. apply Forall_app. split; [done|]. constructor; [auto|done].
  - cbn [sub_loop]. unfold fieldsDelimiter. destruct (c =? 32) eqn:E.
    + apply Z.eqb_eq in E as ->. destruct hit; [done|].
      specialize (IH true (acc ++ [cur]) [] ltac:(done)). destruct (sub_loop true (acc ++ [cur]) [] s) as [ws|e|].
      * intros _ H. apply IH; [apply Forall_app; split; [done|]; constructor; [|done]; intros ->; by destruct Hc as [_ Hc]; specialize (Hc eq_refl)| |].
        -- intros ->. by specialize (H ltac:(done)).
        -- intros Hs. specialize (H ltac:(done)). destruct s; [done|]. exact H.
      * apply IH. apply Forall_app. split; [done|]. constructor; [|done]. intros ->. by destruct Hc as [_ Hc]; specialize (Hc eq_refl).
      * apply IH. apply Forall_app. split; [done|]. constructor; [|done]. intros ->. by destruct Hc as [_ Hc]; specialize (Hc eq_refl).
    + specialize (IH false acc (cur ++ [c]) ltac:(split; [done|by destruct cur]) F).
      destruct (sub_loop false acc (cur ++ [c]) s) as [ws|e|]; [|done..]. intros _ H. apply IH; [by destruct cur|].
      intros Hs. specialize (H ltac:(done)). destruct s; [done|]. exact H.
Qed.

(** The words of a value that does not end with a space are not empty. *)
Lemma subfields_fuel v : subfields v <> Err EFuel /\ subfields v <> Panic.
Proof.
  pose proof (sub_loop_words_ok true [] [] v ltac:(done) ltac:(constructor)) as H. unfold subfields.
  by destruct (sub_loop true [] [] v); split; try congruence.
Qed.

Lemma subfields_words v ws : trimmed v -> subfields v = Ok ws -> Forall (fun w => w <> []) ws.
Proof.
  intros [Hne Ht] H. pose proof (sub_loop_words_ok true [] [] v ltac:(done) ltac:(constructor)) as K. unfold subfields in H. rewrite H in K.
  apply K; [done|]. intros _ L. apply last_Some in L as [t ->]. by specialize (Ht t 32 eq_refl ltac:(lia)).
Qed.

Lemma decodeInterval_fuel v : decodeInterval v <> Err EFuel /\ (decodeInterval v = Panic -> v = []).
Proof.
  unfold decodeInterval. destruct (bool_decide _); [done|]. destruct (last v) as [c|] eqn:L; [|by apply last_None in L].
  assert (forall w k, (let? val := decodeInt w in Ok (E := sdp_err) (i64 (val * k))) <> Err EFuel /\ (let? val := decodeInt w in Ok (E := sdp_err) (i64 (val * k))) <> Panic) as K.
  { intros w k. destruct (Atoi_res_fuel w) as [H1 H2]. unfold decodeInt. destruct (Atoi_res w); split; cbn; try done; congruence. }
  destruct (if c =? 100 then _ else _) as [u|].
  - destruct (length v <? 2)%nat; [done|]. destruct (K (take (length v - 1) v) u) as [K1 K2]. split; [done|]. intros H. by destruct K2.
  - destruct (K v Second) as [K1 K2]. split; [done|]. intros H. by destruct K2.
Qed.

Lemma decode_offsets_fuel ps : decode_offsets ps <> Err EFuel /\ (decode_offsets ps = Panic -> [] ∈ ps).
Proof.
  induction ps as [|p ps [IH1 IH2]]; [done|]. cbn [decode_offsets]. destruct (decodeInterval_fuel p) as [H1 H2].
  destruct (decodeInterval p) as [x|e|]; cbn [res_bind].
  - destruct (decode_offsets ps) as [y|e|]; cbn [res_bind]; split; try done; try congruence. intros _. apply elem_of_cons. right. by apply IH2.
  - split; congruence.
  - split; [done|]. intros _. rewrite H2 by done. apply elem_of_cons. by left.
Qed.

(** Steps of [in_place] that depend on the syntax only. *)
Ltac in_place_step :=
  match goal with
  | |- in_place _ _ (ret _) => apply ip_ret
  | |- in_place _ _ (fail _) => by apply ip_fail
  | |- in_place _ _ (set_msg _) => apply ip_set_msg
  | |- in_place _ _ (set_mMedia _) => apply ip_set_media
  | |- in_place _ _ (store_connection _ _) => apply ip_store
  | |- in_place _ _ (store_byte _ _ _) => apply ip_store_byte
  | |- in_place _ _ (bind dec _) => apply ip_dec
  | |- in_place _ _ (bind msg _) => apply ip_msg; intros ?
  | |- in_place _ _ (bind (lift (Atoi_res ?v)) _) => apply ip_lift; [apply Atoi_res_fuel|by intros ?%Atoi_res_fuel|intros ? ?]
  | |- in_place _ _ (bind (lift (decodeInt ?v)) _) => apply ip_lift; [apply Atoi_res_fuel|by intros ?%Atoi_res_fuel|intros ? ?]
  | |- in_place _ _ (bind (lift (parseNTP ?v)) _) => apply ip_lift; [apply parseNTP_fuel|by intros ?%parseNTP_fuel|intros ? ?]
  | |- in_place _ _ (bind (lift (decodeKV ?v)) _) => apply ip_lift; [apply decodeKV_fuel|by intros ?%decodeKV_fuel|intros ? ?]
  | |- in_place _ _ (bind (lift (subfields ?v)) _) => apply ip_lift; [apply subfields_fuel|by intros ?%subfields_fuel|intros ? ?]
  | |- in_place _ _ (bind (store_connection _ _) _) => apply ip_bind; [apply ip_store|intros ? ? ?]
  | |- in_place _ _ (bind (store_byte _ _ _) _) => apply ip_bind; [apply ip_store_byte|intros ? ? ?]
  | |- in_place _ _ (bind (set_msg _) _) => apply ip_bind; [apply ip_set_msg|intros ? ? ?]
  | |- in_place _ _ (if ?b then _ else _) => destruct b
  end.

Lemma decodeConnectionData_in_place Q d : in_place Q d decodeConnectionData.
Proof.
  unfold decodeConnectionData. repeat in_place_step. destruct (three_fields _ _ _ _ _ _) as [[[n a] c]|]; repeat in_place_step.
  destruct (three_fields _ _ _ _ _ _) as [[[b f] s]|]; repeat in_place_step.
  destruct (match d_section d with sectionTime => _ | _ => _ end) as [ip err] eqn:E.
  assert (err <> Some EFuel) by (unfold decodeIP in E; destruct (d_section d), (ParseIP b); congruence).
  in_place_step. destruct err as [e|]; [apply ip_fail; congruence|]. unfold decode_counts. repeat in_place_step.
Qed.

Lemma decode_zones_in_place (Q : Prop) d ps : ([] ∈ ps -> Q) -> in_place Q d (decode_zones ps).
Proof.
  remember (length ps) as n eqn:Hn. revert ps Hn d. induction n as [n IH] using lt_wf_ind. intros [|p0 [|p1 ps]] -> d H; try apply ip_ret.
  cbn [decode_zones]. in_place_step. destruct (decodeInterval_fuel p1) as [H1 H2]. apply ip_lift; [done| |].
  - intros Hp. apply H. rewrite H2 by done. set_solver.
  - intros off _. in_place_step. eapply (IH (length ps)); [cbn; lia|done|]. intros Hin. apply H. set_solver.
Qed.

(** decodeField, on a line of a known type. *)
Lemma decodeField_in_place d : isKnown (d_t d) = true -> in_place (~ trimmed (d_v d)) d decodeField.
Proof.
  intros Hk.
  assert (forall ws, subfields (d_v d) = Ok ws -> [] ∈ ws -> ~ trimmed (d_v d)) as Hw.
  { intros ws Hs Hin Ht. pose proof (subfields_words _ _ Ht Hs) as F. rewrite Forall_forall in F. by apply (F _ Hin). }
  unfold decodeField. apply ip_dec. cbv zeta.
  destruct (d_t d =? TypeProtocolVersion) eqn:?; [unfold decodeVersion; repeat in_place_step|].
  destruct (d_t d =? TypeAttribute) eqn:?; [unfold decodeAttribute; repeat in_place_step; destruct (d_section d); repeat in_place_step|].
  destruct (d_t d =? TypeSessionName) eqn:?; [unfold decodeSessionName; repeat in_place_step|].
  destruct (d_t d =? TypeSessionInformation) eqn:?; [unfold decodeSessionInfo; repeat in_place_step; destruct (d_section d); repeat in_place_step|].
  destruct (d_t d =? TypeEmail) eqn:?; [unfold decodeEmail; repeat in_place_step|].
  destruct (d_t d =? TypePhone) eqn:?; [unfold decodePhone; repeat in_place_step|].
  destruct (d_t d =? TypeURI) eqn:?; [unfold decodeURI; repeat in_place_step|].
  destruct (d_t d =? TypeEncryptionKey) eqn:?; [unfold decodeEncryption; repeat in_place_step; destruct (d_section d); repeat in_place_step|].
  destruct (d_t d =? TypeBandwidth) eqn:?; [unfold decodeBandwidth; repeat in_place_step; destruct (d_section d); repeat in_place_step|].
  destruct (d_t d =? TypeTiming) eqn:?.
  { unfold decodeTimingField. in_place_step. destruct (two_fields _ _ _ _) as [[a b]|]; repeat in_place_step. }
  destruct (d_t d =? TypeConnectionData) eqn:?; [apply decodeConnectionData_in_place|].
  destruct (d_t d =? TypeOrigin) eqn:?.
  { unfold decodeOrigin. repeat in_place_step.
    match goal with |- in_place _ _ (match ?ws with _ => _ end) => destruct ws as [|p0 [|p1 [|p2 [|p3 [|p4 [|p5 [|? ?]]]]]]] end; repeat in_place_step. }
  destruct (d_t d =? TypeRepeatTimes) eqn:?.
  { unfold decodeRepeatTimes. in_place_step. destruct (mTiming _); repeat in_place_step.
    match goal with H : subfields _ = Ok ?ws |- _ => rename H into Hs; destruct ws as [|p0 [|p1 [|p2 ps]]]; try in_place_step end.
    destruct (decodeInterval_fuel p0) as [A1 A2], (decodeInterval_fuel p1) as [B1 B2], (decode_offsets_fuel (p2 :: ps)) as [C1 C2].
    apply ip_lift; [done|intros E; apply (Hw _ Hs); rewrite A2 by done; set_solver|intros _ _].
    apply ip_lift; [done|intros E; apply (Hw _ Hs); rewrite B2 by done; set_solver|intros _ _].
    apply ip_lift; [done|intros E; apply (Hw _ Hs); set_solver|intros _ _]. apply ip_ret. }
  destruct (d_t d =? TypeTimeZones) eqn:?.
  { unfold decodeTimeZoneAdjustments. repeat in_place_step. apply decode_zones_in_place. eauto. }
  destruct (d_t d =? TypeMediaDescription) eqn:?.
  { unfold decodeMediaDescription. repeat in_place_step.
    match goal with |- in_place _ _ (match ?ws with _ => _ end) => destruct ws as [|p0 [|p1 [|p2 ps]]] end; repeat in_place_step.
    destruct (Split 47 p1) as [|port rest] eqn:Sp; [by apply Split_nonempty in Sp|].
    in_place_step. destruct rest; [apply ip_lift|]; [done..|intros ? _|]; repeat in_place_step. }
  exfalso. unfold isKnown in Hk. apply bool_decide_eq_true in Hk. repeat rewrite elem_of_cons in Hk.
  rewrite elem_of_nil in Hk. repeat match goal with H : (_ =? _) = false |- _ => apply Z.eqb_neq in H end. tauto.
Qed.

(** ** The loops *)

Lemma expected_known t s p : expected t s p = None -> isKnown t = true.
Proof.
  assert (forall s p, t ∈ drop p (getOrdering s) -> isKnown t = true) as K.
  { intros s' p' H. assert (t ∈ getOrdering s') as H0 by (rewrite <- (take_drop p' (getOrdering s')), elem_of_app; by right). clear H. rename H0 into H. unfold isKnown. apply bool_decide_eq_true. destruct s'; cbn in H; set_solver. }
  assert (forall n s p, isExpected n t s p = None -> isKnown t = true) as I; [|apply I].
  induction n as [|n IH]; intros s' p'; cbn [isExpected];
    (destruct (bool_decide (t ∈ _)) eqn:B; [intros _; apply bool_decide_eq_true in B; by eapply K|]).
  - destruct s'; rewrite ?andb_false_r; cbn [orb]; by destruct (isKnown t).
  - destruct (isKnown t); [done|]. cbn [negb].
    assert (forall s p, match isExpected n t s p with None => true | Some _ => false end = false) as O.
    { intros s2 p2. destruct (isExpected n t s2 p2) eqn:E; [done|]. by apply IH in E. }
    destruct s'; rewrite !O, ?andb_false_r; done.
Qed.

Lemma expected_err t s p e : expected t s p = Some e -> e <> EFuel.
Proof.
  assert (forall n, isExpected n t s p = Some e -> e <> EFuel) as K; [|apply K].
  intros [|n]; cbn [isExpected]; repeat case_match; congruence.
Qed.

(** The decoder after it has read the line [l]. *)
Definition read (l : Line) (d : Decoder) : Decoder :=
  mkDecoder (d_s d) (d_pos d + 1) (lType l) (lValue l) (d_section d) (d_sPos d) (d_m d).

Definition counted (d : Decoder) : Decoder := if isZeroOrMore (d_t d) then d else with_section (d_section d) (d_sPos d + 1) d.

Lemma next_line d mm l : d_s d !! d_pos d = Some l -> next (d, mm) = (Ok true, (read l d, mm)).
Proof. intros H. unfold next, bind, dec. cbn. by rewrite H. Qed.

Lemma next_end d mm : d_s d !! d_pos d = None -> next (d, mm) = (Ok false, (d, mm)).
Proof. intros H. unfold next, bind, dec. cbn. by rewrite H. Qed.

Lemma bind_ok {A B} (m : D A) (k : A -> D B) st a st' : m st = (Ok a, st') -> bind m k st = k a st'.
Proof. intros H. unfold bind. by rewrite H. Qed.

(** One turn of each loop. *)
Lemma timing_turn fuel d mm l :
  d_s d !! d_pos d = Some l ->
  timing_loop (S fuel) (d, mm) =
    match expected (lType l) (d_section d) (d_sPos d) with
    | Some e => if canSkip e then timing_loop fuel (read l d, mm) else (Err e, (read l d, mm))
    | None =>
      if (lType l =? TypeTiming) || (lType l =? TypeRepeatTimes) then bind decodeField (fun _ => timing_loop fuel) (counted (read l d), mm)
      else (Ok tt, (with_pos (d_pos d) (counted (read l d)), mm))
    end.
Proof.
  intros H. cbn [timing_loop]. rewrite (bind_ok _ _ _ _ _ (next_line d mm l H)). cbn [negb].
  rewrite (bind_ok dec _ _ _ _ eq_refl). cbn [fst d_t d_section d_sPos read].
  destruct (expected _ _ _) as [e|]; [by destruct (canSkip e)|]. rewrite (bind_ok count_line _ _ _ _ eq_refl). cbn [fst snd].
  destruct (_ || _); [done|]. unfold step_back, set_dec, counted. cbn [fst snd]. do 2 f_equal.
  destruct (isZeroOrMore _); unfold with_pos, with_section; cbn [d_s d_pos d_t d_v d_section d_sPos d_m read]; f_equal; lia.
Qed.

Lemma media_turn fuel d mm l :
  d_s d !! d_pos d = Some l ->
  media_loop (S fuel) (d, mm) =
    match expected (lType l) (d_section d) (d_sPos d) with
    | Some e => if canSkip e then media_loop fuel (read l d, mm) else (Err e, (read l d, mm))
    | None =>
      if (lType l =? TypeMediaDescription) && negb (d_sPos d =? 0)%nat then (Ok tt, (with_pos (d_pos d) (read l d), mm))
      else bind decodeField (fun _ => media_loop fuel) (counted (read l d), mm)
    end.
Proof.
  intros H. cbn [media_loop]. rewrite (bind_ok _ _ _ _ _ (next_line d mm l H)). cbn [negb].
  rewrite (bind_ok dec _ _ _ _ eq_refl). cbn [fst d_t d_section d_sPos read].
  destruct (expected _ _ _) as [e|]; [by destruct (canSkip e)|]. destruct (_ && _).
  - unfold step_back, set_dec. cbn [fst snd]. do 2 f_equal. unfold with_pos. cbn. f_equal. lia.
  - rewrite (bind_ok count_line _ _ _ _ eq_refl). done.
Qed.

Definition subsection (sub : D unit) (d : Decoder) : D unit :=
  bind step_back (fun _ => bind sub (fun _ => set_dec (with_section sectionSession (d_sPos d)))).

Lemma session_turn fuel d mm l :
  d_s d !! d_pos d = Some l ->
  session_loop (S fuel) (d, mm) =
    match expected (lType l) (d_section d) (d_sPos d) with
    | Some e => if canSkip e then session_loop fuel (read l d, mm) else (Err e, (read l d, mm))
    | None =>
      let d' := counted (read l d) in
      bind (if lType l =? TypeTiming then subsection decodeTiming d'
            else if lType l =? TypeMediaDescription then subsection decodeMedia d'
            else decodeField) (fun _ => session_loop fuel) (d', mm)
    end.
Proof.
  intros H. cbn [session_loop]. rewrite (bind_ok _ _ _ _ _ (next_line d mm l H)). cbn [negb].
  rewrite (bind_ok dec _ _ _ _ eq_refl). cbn [fst d_t d_section d_sPos read].
  destruct (expected _ _ _) as [e|]; [by destruct (canSkip e)|].
  rewrite (bind_ok count_line _ _ _ _ eq_refl). rewrite (bind_ok dec _ _ _ _ eq_refl). cbn [fst snd].
  change (if isZeroOrMore (d_t (read l d)) then _ else _) with (counted (read l d)).
  replace (d_t (counted (read l d))) with (lType l) by (unfold counted; by destruct (isZeroOrMore _)). done.
Qed.

Lemma timing_end fuel d mm : d_s d !! d_pos d = None -> timing_loop (S fuel) (d, mm) = (Ok tt, (d, mm)).
Proof. intros H. cbn [timing_loop]. by rewrite (bind_ok _ _ _ _ _ (next_end d mm H)). Qed.

Lemma media_end fuel d mm : d_s d !! d_pos d = None -> media_loop (S fuel) (d, mm) = (Ok tt, (d, mm)).
Proof. intros H. cbn [media_loop]. by rewrite (bind_ok _ _ _ _ _ (next_end d mm H)). Qed.

Lemma session_end fuel d mm : d_s d !! d_pos d = None -> session_loop (S fuel) (d, mm) = check_message (d, mm).
Proof. intros H. cbn [session_loop]. by rewrite (bind_ok _ _ _ _ _ (next_end d mm H)). Qed.

(** The outcome of a loop that was started with the decoder [d]: it did not run out of turns,
    panicked only on a value that is not trimmed, and stopped at line [lo] or later. *)
Definition runs (d : Decoder) (lo : nat) (out : res sdp_err unit * (Decoder * Message)) : Prop :=
  let '(r, (d', _)) := out in
  r <> Err EFuel /\ (r = Panic -> ~ Forall (fun l => trimmed (lValue l)) (d_s d)) /\ d_s d' = d_s d /\
  (r = Ok tt -> (lo <= d_pos d' <= length (d_s d))%nat).

Lemma runs_weaken d d' lo lo' out :
  d_s d' = d_s d -> (lo <= lo')%nat -> runs d' lo' out -> runs d lo out.
Proof.
  intros E H. unfold runs. destruct out as [r [d2 m2]]. rewrite E. intros (? & ? & ? & Hl). split_and!; try done.
  intros Hr. specialize (Hl Hr). lia.
Qed.

(** After decodeField on the line that was read. *)
Lemma runs_field d l mm k lo :
  d_s d !! d_pos d = Some l -> isKnown (lType l) = true ->
  (forall d2 mm2, d_s d2 = d_s d -> d_pos d2 = (d_pos d + 1)%nat -> d_section d2 = d_section d -> runs d lo (k tt (d2, mm2))) ->
  runs d lo (bind decodeField k (counted (read l d), mm)).
Proof.
  intros Hl Hk H.
  assert (d_t (counted (read l d)) = lType l /\ d_v (counted (read l d)) = lValue l /\ d_s (counted (read l d)) = d_s d /\
    d_pos (counted (read l d)) = (d_pos d + 1)%nat /\ d_section (counted (read l d)) = d_section d) as (Et & Ev & Es & Ep & Ec)
    by (unfold counted; by destruct (isZeroOrMore _)).
  pose proof (decodeField_in_place (counted (read l d)) ltac:(by rewrite Et) mm) as F. unfold bind.
  destruct (decodeField (counted (read l d), mm)) as [r [d2 mm2]]. destruct F as (C & F1 & F2).
  injection C as C1 C2 C3 C4. destruct r as [[]|e|].
  - apply H; congruence.
  - unfold runs. split_and!; [congruence|done|congruence|done].
  - unfold runs. split_and!; [done| |congruence|done]. intros _ F. apply F2; [done|]. rewrite Ev. by eapply Forall_lookup_1 in F.
Qed.

Lemma lookup_pos (d : Decoder) l : d_s d !! d_pos d = Some l -> (d_pos d < length (d_s d))%nat.
Proof. apply lookup_lt_Some. Qed.

Lemma timing_runs fuel d mm :
  (lines_left d < fuel)%nat -> (d_pos d <= length (d_s d))%nat -> runs d (d_pos d) (timing_loop fuel (d, mm)).
Proof.
  revert d mm. induction fuel as [|fuel IH]; intros d mm Hf Hp; [lia|]. unfold lines_left in Hf.
  destruct (d_s d !! d_pos d) as [l|] eqn:Hl; [|rewrite timing_end by done; unfold runs; split_and!; done || (intros _; lia)].
  pose proof (lookup_pos d l Hl) as Hlt. rewrite (timing_turn fuel d mm l Hl).
  destruct (expected _ _ _) as [e|] eqn:E.
  - destruct (canSkip e) eqn:Ec; [|apply expected_err in E; unfold runs; split_and!; try done; congruence].
    eapply (runs_weaken d (read l d)); [done| |apply IH; unfold lines_left; cbn; lia]. cbn. lia.
  - apply expected_known in E. destruct (_ || _).
    + apply runs_field; [done|done|]. intros d2 mm2 E1 E2 _. eapply (runs_weaken d d2); [done| |apply IH; unfold lines_left; rewrite ?E1, ?E2; lia]. lia.
    + unfold runs, counted. destruct (isZeroOrMore _); cbn; split_and!; try done; lia.
Qed.

Lemma media_runs fuel d mm :
  (lines_left d < fuel)%nat -> (d_pos d <= length (d_s d))%nat -> runs d (d_pos d) (media_loop fuel (d, mm)).
Proof.
  revert d mm. induction fuel as [|fuel IH]; intros d mm Hf Hp; [lia|]. unfold lines_left in Hf.
  destruct (d_s d !! d_pos d) as [l|] eqn:Hl; [|rewrite media_end by done; unfold runs; split_and!; done || (intros _; lia)].
  pose proof (lookup_pos d l Hl) as Hlt. rewrite (media_turn fuel d mm l Hl).
  destruct (expected _ _ _) as [e|] eqn:E.
  - destruct (canSkip e) eqn:Ec; [|apply expected_err in E; unfold runs; split_and!; try done; congruence].
    eapply (runs_weaken d (read l d)); [done| |apply IH; unfold lines_left; cbn; lia]. cbn. lia.
  - apply expected_known in E. destruct (_ && _).
    + unfold runs; cbn; split_and!; try done; lia.
    + apply runs_field; [done|done|]. intros d2 mm2 E1 E2 _. eapply (runs_weaken d d2); [done| |apply IH; unfold lines_left; rewrite ?E1, ?E2; lia]. lia.
Qed.

(** The subsections consume the line that starts them. *)
Lemma decodeTiming_runs d mm l :
  d_s d !! d_pos d = Some l -> lType l = TypeTiming -> runs d (d_pos d + 1) (decodeTiming (d, mm)).
Proof.
  intros Hl Ht. pose proof (lookup_pos d l Hl). unfold decodeTiming. rewrite (bind_ok (set_dec _) _ _ _ _ eq_refl), (bind_ok dec _ _ _ _ eq_refl).
  cbn [fst snd]. eapply (runs_weaken d (with_section sectionTime 0 d)); [done|done|].
  rewrite (timing_turn _ (with_section sectionTime 0 d) mm l Hl), Ht. change (expected _ _ _) with (@None sdp_err). cbv iota. cbn [Z.eqb orb].
  apply runs_field; [done|by rewrite Ht|]. intros d2 mm2 E1 E2 _. cbn in E1, E2.
  eapply (runs_weaken _ d2); [done| |apply timing_runs; unfold lines_left; cbn; rewrite ?E1, ?E2; lia]. lia.
Qed.

Lemma decodeMedia_runs d mm l :
  d_s d !! d_pos d = Some l -> lType l = TypeMediaDescription -> runs d (d_pos d + 1) (decodeMedia (d, mm)).
Proof.
  intros Hl Ht. pose proof (lookup_pos d l Hl). unfold decodeMedia. rewrite (bind_ok (set_dec _) _ _ _ _ eq_refl), (bind_ok dec _ _ _ _ eq_refl).
  cbn [fst snd]. set (d1 := with_media no_media (with_section sectionMedia 0 d)).
  assert (runs d (d_pos d + 1) (media_loop (S (lines_left d1)) (d1, mm))) as R.
  { eapply (runs_weaken d d1); [done|done|]. rewrite (media_turn _ d1 mm l Hl), Ht.
    change (expected TypeMediaDescription (d_section d1) (d_sPos d1)) with (@None sdp_err). cbv iota. cbn [Z.eqb andb negb d_sPos d1 with_media with_section].
    apply (runs_field d1); [done|by rewrite Ht|]. intros d2 mm2 E1 E2 _. cbn in E1, E2.
    eapply (runs_weaken _ d2); [done| |apply media_runs; unfold lines_left; cbn; rewrite ?E1, ?E2; lia]. lia. }
  unfold bind. destruct (media_loop _ _) as [[[]|e|] [d2 mm2]]; exact R.
Qed.

Lemma subsection_runs (sub : D unit) d mm l :
  d_s d !! d_pos d = Some l ->
  (forall d1 mm1, d_s d1 = d_s d -> d_pos d1 = d_pos d -> runs d1 (d_pos d1 + 1) (sub (d1, mm1))) ->
  runs d (d_pos d + 1) (subsection sub (counted (read l d)) (counted (read l d), mm)).
Proof.
  intros Hl H. unfold subsection. rewrite (bind_ok step_back _ _ _ _ eq_refl). cbn [fst snd].
  set (d1 := with_pos _ _). assert (d_s d1 = d_s d /\ d_pos d1 = d_pos d) as [E1 E2].
  { subst d1. unfold counted. destruct (isZeroOrMore _); cbn; split; done || lia. }
  assert (runs d (d_pos d + 1) (sub (d1, mm))) as R by (eapply (runs_weaken d d1); [done| |by apply H]; lia).
  unfold bind. destruct (sub (d1, mm)) as [[[]|e|] [d2 mm2]]; exact R.
Qed.

Lemma session_runs fuel d mm :
  (lines_left d < fuel)%nat -> (d_pos d <= length (d_s d))%nat -> runs d (d_pos d) (session_loop fuel (d, mm)).
Proof.
  revert d mm. induction fuel as [|fuel IH]; intros d mm Hf Hp; [lia|]. unfold lines_left in Hf.
  destruct (d_s d !! d_pos d) as [l|] eqn:Hl.
  2: { rewrite session_end by done. unfold check_message. rewrite (bind_ok msg _ _ _ _ eq_refl). cbn [snd].
       repeat case_decide; unfold runs; cbn; split_and!; done || lia. }
  pose proof (lookup_pos d l Hl) as Hlt. rewrite (session_turn fuel d mm l Hl).
  destruct (expected _ _ _) as [e|] eqn:E.
  - destruct (canSkip e) eqn:Ec; [|apply expected_err in E; unfold runs; split_and!; try done; congruence].
    eapply (runs_weaken d (read l d)); [done| |apply IH; unfold lines_left; cbn; lia]. cbn. lia.
  - apply expected_known in E. cbv zeta.
    assert (forall d2 mm2, d_s d2 = d_s d -> (d_pos d + 1 <= d_pos d2 <= length (d_s d))%nat -> runs d (d_pos d) (session_loop fuel (d2, mm2))) as K.
    { intros d2 mm2 E1 E2. eapply (runs_weaken d d2); [done| |apply IH; unfold lines_left; rewrite ?E1; lia]. lia. }
    assert (forall sub, (forall d1 mm1, d_s d1 = d_s d -> d_pos d1 = d_pos d -> runs d1 (d_pos d1 + 1) (sub (d1, mm1))) ->
      runs d (d_pos d) (bind (subsection sub (counted (read l d))) (fun _ => session_loop fuel) (counted (read l d), mm))) as S.
    { intros sub Hs. pose proof (subsection_runs sub d mm l Hl Hs) as R. unfold bind at 1.
      destruct (subsection _ _ _) as [[[]|e|] [d2 mm2]]; destruct R as (R1 & R2 & R3 & R4); [by apply K; [|apply R4]|unfold runs; split_and!; done..]. }
    destruct (lType l =? TypeTiming) eqn:Et; [apply Z.eqb_eq in Et; apply S; intros d1 mm1 E1 E2; eapply decodeTiming_runs; [by rewrite E1, E2|done]|].
    destruct (lType l =? TypeMediaDescription) eqn:Em; [apply Z.eqb_eq in Em; apply S; intros d1 mm1 E1 E2; eapply decodeMedia_runs; [by rewrite E1, E2|done]|].
    apply runs_field; [done|done|]. intros d2 mm2 E1 E2 _. apply K; [done|lia].
Qed.

(** Decode always stops, and panics only on a value that is not trimmed. *)
Lemma Decode_total s m :
  (Decode s m).1 <> Err EFuel /\ ((Decode s m).1 = Panic -> ~ Forall (fun l => trimmed (lValue l)) s).
Proof.
  unfold Decode, decodeSession. rewrite (bind_ok (set_dec _) _ _ _ _ eq_refl), (bind_ok dec _ _ _ _ eq_refl). cbn [fst snd].
  set (d := with_section _ _ _). pose proof (session_runs (S (lines_left d)) d m ltac:(lia) ltac:(cbn; lia)) as R.
  destruct (session_loop _ _) as [r [d' m']]. destruct R as (R1 & R2 & _). by split.
Qed.
