(* ===== verification/SdpRoundtrip.v ===== *)
(** * protocols/sdp: decoding what was encoded

    [Append] writes a message as the lines [message_lines]; the decoder, piece by piece, reads
    each of them back into the field it came from. *)
From S2P Require Import Prelude GoFloat Decimal GoText NetIP Sdp SdpMessage SdpDecode SdpCorrect.
Local Open Scope Z_scope.
Local Open Scope go_scope.

(** ** What a line does to the message or to the current media *)

Definition field (sec : section) (l : Line) (fm : Media -> Media) (fs : Message -> Message) : Prop :=
  forall d mm, d_t d = lType l -> d_v d = lValue l -> d_section d = sec ->
    decodeField (d, mm) = (Ok tt, (with_media (fm (d_m d)) d, fs mm)).

Lemma with_media_id d : with_media (d_m d) d = d.
Proof. by destruct d. Qed.

(** Evaluate decodeField up to the decoder of the line's type. *)
Ltac field_start :=
  intros d mm Ht Hv Hs; cbn [lType lValue] in Ht, Hv; unfold decodeField; rewrite (bind_ok dec _ _ _ _ eq_refl); cbn [fst]; cbv zeta;
  rewrite Ht; cbn [Z.eqb Pos.eqb TypeProtocolVersion TypeAttribute TypeSessionName TypeSessionInformation TypeEmail TypePhone TypeURI
    TypeEncryptionKey TypeBandwidth TypeTiming TypeConnectionData TypeOrigin TypeRepeatTimes TypeTimeZones TypeMediaDescription].

Ltac with_dec := rewrite (bind_ok dec _ _ _ _ eq_refl); cbn [fst snd].

Definition int64 (n : Z) : Prop := - 2 ^ 63 <= n < 2 ^ 63.

Lemma version_field n : int64 n -> field sectionSession (mkLine TypeProtocolVersion (itoa n)) id (s_version n).
Proof.
  intros Hn. field_start. unfold decodeVersion. with_dec. rewrite Hv. unfold Atoi_res. rewrite Atoi_itoa by done.
  rewrite (bind_ok (lift _) _ _ _ _ eq_refl). unfold set_msg, id. cbn [fst snd]. by rewrite with_media_id.
Qed.

Definition attr_value (a : Attribute) : list Z := if decide (aValue a = []) then aKey a else aKey a ++ 58 :: aValue a.

Lemma attr_kv a : 58 ∉ aKey a -> decodeKV (attr_value a) = Ok (aKey a, aValue a).
Proof. intros H. unfold attr_value. case_decide as E; [rewrite E; by apply decodeKV_key|by apply decodeKV_pair]. Qed.

Lemma attr_field a : 58 ∉ aKey a ->
  field sectionSession (mkLine TypeAttribute (attr_value a)) id (s_attributes (fun l => l ++ [a])) /\
  field sectionMedia (mkLine TypeAttribute (attr_value a)) (m_attributes (fun l => l ++ [a])) id.
Proof.
  intros H. split; field_start; unfold decodeAttribute; with_dec; rewrite Hv, attr_kv by done;
    rewrite (bind_ok (lift _) _ _ _ _ eq_refl); rewrite Hs; destruct a as [ak av]; unfold set_msg, set_mMedia, set_dec, addAttribute, id; cbn [fst snd aKey aValue].
  - by rewrite with_media_id.
  - done.
Qed.

Definition enc_value (e : Encryption) : list Z := if decide (Key e = []) then Method e else Method e ++ 58 :: Key e.

Lemma enc_field e : 58 ∉ Method e ->
  field sectionSession (mkLine TypeEncryptionKey (enc_value e)) id (s_encryption e) /\
  field sectionMedia (mkLine TypeEncryptionKey (enc_value e)) (m_encryption e) id.
Proof.
  intros H. assert (decodeKV (enc_value e) = Ok (Method e, Key e)) as K by (apply (attr_kv (mkAttribute (Method e) (Key e))); done).
  split; field_start; unfold decodeEncryption; with_dec; rewrite Hv, K;
    rewrite (bind_ok (lift _) _ _ _ _ eq_refl); rewrite Hs; destruct e as [em ek]; unfold set_msg, set_mMedia, set_dec, id; cbn [fst snd Method Key].
  - by rewrite with_media_id.
  - done.
Qed.

(** Free text. *)
Lemma name_field v : field sectionSession (mkLine TypeSessionName v) id (s_name v).
Proof. field_start. unfold decodeSessionName. with_dec. rewrite Hv. unfold set_msg, id. cbn [fst snd]. by rewrite with_media_id. Qed.
Lemma info_field v : field sectionSession (mkLine TypeSessionInformation v) id (s_info v).
Proof. field_start. unfold decodeSessionInfo. with_dec. rewrite Hv, Hs. unfold set_msg, id. cbn [fst snd]. by rewrite with_media_id. Qed.
Lemma title_field v : field sectionMedia (mkLine TypeSessionInformation v) (m_title v) id.
Proof. field_start. unfold decodeSessionInfo. with_dec. by rewrite Hv, Hs. Qed.
Lemma email_field v : field sectionSession (mkLine TypeEmail v) id (s_email v).
Proof. field_start. unfold decodeEmail. with_dec. rewrite Hv. unfold set_msg, id. cbn [fst snd]. by rewrite with_media_id. Qed.
Lemma phone_field v : field sectionSession (mkLine TypePhone v) id (s_phone v).
Proof. field_start. unfold decodePhone. with_dec. rewrite Hv. unfold set_msg, id. cbn [fst snd]. by rewrite with_media_id. Qed.
Lemma uri_field v : field sectionSession (mkLine TypeURI v) id (s_uri v).
Proof. field_start. unfold decodeURI. with_dec. rewrite Hv. unfold set_msg, id. cbn [fst snd]. by rewrite with_media_id. Qed.

(** Bandwidth: the two types of the RFC. *)
Definition bw_ok (tv : list Z * Z) : Prop := tv.1 ∈ [BandwidthApplicationSpecific; BandwidthConferenceTotal] /\ int64 tv.2.

Lemma bw_field tv : bw_ok tv ->
  field sectionSession (mkLine TypeBandwidth (tv.1 ++ 58 :: itoa tv.2)) id (s_bandwidths (<[tv.1 := tv.2]>)) /\
  field sectionMedia (mkLine TypeBandwidth (tv.1 ++ 58 :: itoa tv.2)) (m_bandwidths (<[tv.1 := tv.2]>)) id.
Proof.
  intros [Hty Hn]. assert (58 ∉ tv.1) as H58 by (rewrite !elem_of_cons in Hty; destruct Hty as [->|[->|Hty]]; [by apply IndexByte_None..|by apply elem_of_nil in Hty]).
  split; field_start; unfold decodeBandwidth; with_dec; rewrite Hv, decodeKV_pair by (done || apply itoa_nonempty);
    rewrite (bind_ok (lift _) _ _ _ _ eq_refl); cbn [fst snd]; rewrite decide_False by apply itoa_nonempty;
    rewrite bool_decide_eq_true_2 by done; cbn [negb]; unfold Atoi_res; rewrite Atoi_itoa by done;
    rewrite (bind_ok (lift _) _ _ _ _ eq_refl); rewrite Hs; unfold set_msg, set_mMedia, set_dec, id; cbn [fst snd].
  - by rewrite with_media_id.
  - done.
Qed.

(** Timing. *)
Lemma format_uint_notin n c : 0 <= n -> ~ 48 <= c <= 57 -> c ∉ format_uint n.
Proof. intros Hn Hc H. pose proof (format_uint_digits n Hn) as F. rewrite Forall_forall in F. by apply F in H. Qed.

Definition timing_value (t : Timing) : list Z := format_uint (TimeToNTP (tStart t)) ++ 32 :: format_uint (TimeToNTP (tEnd t)).

Lemma timing_field t : ntp_time (tStart t) -> ntp_time (tEnd t) ->
  field sectionTime (mkLine TypeTiming (timing_value t)) id (s_timing (fun l => l ++ [mkTiming (tStart t) (tEnd t) 0 0 []])).
Proof.
  intros H1 H2. pose proof (TimeToNTP_range (tStart t)) as R1. pose proof (TimeToNTP_range (tEnd t)) as R2.
  field_start. unfold decodeTimingField. with_dec. rewrite Hv. unfold timing_value.
  rewrite two_fields_2 by (apply format_uint_notin; lia). rewrite !parseNTP_format by done.
  rewrite !(bind_ok (lift _) _ _ _ _ eq_refl). rewrite !NTPToTime_TimeToNTP by done. unfold set_msg, id. cbn [fst snd]. by rewrite with_media_id.
Qed.

(** Origin. *)
Definition origin_ok (o : Origin) : Prop :=
  word (Username o) /\ int64 (SessionID o) /\ int64 (SessionVersion o) /\ word (oNetworkType o) /\ word (oAddressType o) /\ word (oAddress o).

Definition origin_words (o : Origin) : list (list Z) :=
  [Username o; itoa (SessionID o); itoa (SessionVersion o); oNetworkType o; oAddressType o; oAddress o].

Lemma itoa_word n : word (itoa n).
Proof. split; [apply itoa_nonempty|apply itoa_notin; lia]. Qed.

Lemma origin_field o : origin_ok o -> field sectionSession (mkLine TypeOrigin (Join 32 (origin_words o))) id (s_origin o).
Proof.
  intros (H1 & H2 & H3 & H4 & H5 & H6). field_start. unfold decodeOrigin. with_dec.
  assert (Forall word (origin_words o)) as F.
  { unfold origin_words. repeat (apply Forall_cons; split; [done || apply itoa_word|]). constructor. }
  rewrite Hv, subfields_Join by done.
  rewrite (bind_ok (lift _) _ _ _ _ eq_refl). unfold origin_words. rewrite !decodeInt_itoa by done.
  rewrite !(bind_ok (lift _) _ _ _ _ eq_refl). destruct o. unfold set_msg, id. cbn. by rewrite with_media_id.
Qed.

(** Time zones. *)
Definition zone_ok (z : TimeZone) : Prop := ntp_time (zStart z) /\ whole_seconds (zOffset z).

Definition zone_words (zs : list TimeZone) : list (list Z) :=
  concat ((fun z => [format_uint (TimeToNTP (zStart z)); itext (zOffset z)]) <$> zs).

Lemma decode_zones_words zs d mm :
  Forall zone_ok zs -> decode_zones (zone_words zs) (d, mm) = (Ok tt, (d, s_zones (fun l => l ++ zs) mm)).
Proof.
  intros F. revert mm. induction F as [|z zs [H1 H2] F IH]; intros mm.
  - cbn. unfold ret, s_zones. rewrite app_nil_r. by destruct mm.
  - change (zone_words (z :: zs)) with (format_uint (TimeToNTP (zStart z)) :: itext (zOffset z) :: zone_words zs). cbn [decode_zones].
    pose proof (TimeToNTP_range (zStart z)). rewrite parseNTP_format, (proj1 (decodeInterval_itext _ H2)) by done.
    rewrite !(bind_ok (lift _) _ _ _ _ eq_refl), (bind_ok (set_msg _) _ _ _ _ eq_refl). cbn [fst snd]. rewrite IH.
    rewrite NTPToTime_TimeToNTP by done. destruct z, mm. unfold s_zones. cbn. by rewrite <- app_assoc.
Qed.

Lemma zone_words_ok zs : Forall zone_ok zs -> Forall word (zone_words zs) /\ Nat.even (length (zone_words zs)) = true.
Proof.
  induction 1 as [|z zs [H1 H2] F [IH1 IH2]]; [done|]. pose proof (TimeToNTP_range (zStart z)).
  change (zone_words (z :: zs)) with (format_uint (TimeToNTP (zStart z)) :: itext (zOffset z) :: zone_words zs).
  split; [|exact IH2]. constructor; [split; [apply format_uint_nonempty|apply format_uint_notin; lia]|]. constructor; [|done].
  by apply decodeInterval_itext.
Qed.

Lemma zones_field zs : zs <> [] -> Forall zone_ok zs ->
  field sectionSession (mkLine TypeTimeZones (Join 32 (zone_words zs))) id (s_zones (fun l => l ++ zs)).
Proof.
  intros Hne F. destruct (zone_words_ok zs F) as [W E]. field_start. unfold decodeTimeZoneAdjustments. with_dec.
  rewrite Hv, subfields_Join by (done || by destruct zs). rewrite (bind_ok (lift _) _ _ _ _ eq_refl), E. cbn [negb].
  rewrite decode_zones_words by done. unfold id. by rewrite with_media_id.
Qed.

(** Media descriptions. *)
Definition media_desc_ok (m : MediaDescription) : Prop :=
  word (mdType m) /\ int64 (Port m) /\ int64 (PortsNumber m) /\ word (Protocol m) /\ Formats m <> [] /\ Forall word (Formats m).

Definition port_text (m : MediaDescription) : list Z :=
  itoa (Port m) ++ (if PortsNumber m =? 0 then [] else 47 :: itoa (PortsNumber m)).

Definition desc_words (m : MediaDescription) : list (list Z) := mdType m :: port_text m :: Protocol m :: Formats m.

Lemma port_word m : word (port_text m).
Proof.
  unfold port_text. split; [pose proof (itoa_nonempty (Port m)); by destruct (itoa (Port m))|].
  rewrite elem_of_app. intros [H|H]; [apply itoa_notin in H; lia|]. destruct (PortsNumber m =? 0); [by apply elem_of_nil in H|].
  apply elem_of_cons in H as [H|H]; [done|]. apply itoa_notin in H; lia.
Qed.

Lemma desc_field m : media_desc_ok m ->
  field sectionMedia (mkLine TypeMediaDescription (Join 32 (desc_words m))) (m_description m) id.
Proof.
  intros (H1 & H2 & H3 & H4 & H5 & H6). field_start. unfold decodeMediaDescription. with_dec.
  assert (Forall word (desc_words m)) as F by (unfold desc_words; repeat (apply Forall_cons; split; [done || apply port_word|]); done).
  rewrite Hv, subfields_Join by done. rewrite (bind_ok (lift _) _ _ _ _ eq_refl). unfold desc_words, port_text.
  assert (47 ∉ itoa (Port m)) by (apply itoa_notin; lia). assert (47 ∉ itoa (PortsNumber m)) by (apply itoa_notin; lia).
  destruct (PortsNumber m =? 0) eqn:E.
  - rewrite app_nil_r, Split_none, decodeInt_itoa by done. rewrite !(bind_ok (lift _) _ _ _ _ eq_refl).
    apply Z.eqb_eq in E. destruct m; cbn in *. by subst.
  - rewrite Split_app, Split_none, !decodeInt_itoa by done. rewrite !(bind_ok (lift _) _ _ _ _ eq_refl). by destruct m.
Qed.

(** Connection data.  A connection without TTL but with a number of addresses is not printed in a
    way that can be read back, nor is the number of addresses of IPv6; in a media section the
    TTL alone is stored in the session's connection. *)
Record connection_ok (media : bool) (c : ConnectionData) : Prop := {
  co_net : word (cNetworkType c);
  co_type : word (cAddressType c);
  co_ip : bytes_ok (cIP c) /\ length (cIP c) = 16%nat;
  co_bytes : 0 <= cTTL c < 256 /\ 0 <= cAddresses c < 256;
  co_v6 : isIPv4 (cIP c) = false -> cTTL c = 0 /\ cAddresses c = 0;
  co_ttl : cTTL c = 0 -> cAddresses c = 0;
  co_media : media = true -> cAddresses c = 0 -> cTTL c = 0
}.

Definition address_text (c : ConnectionData) : list Z :=
  (upper_byte <$> IP_String (cIP c)) ++
  (if 0 <? cTTL c then 47 :: format_uint (cTTL c) else []) ++
  (if 0 <? cAddresses c then 47 :: format_uint (cAddresses c) else []).

Definition conn_value (c : ConnectionData) : list Z := cNetworkType c ++ 32 :: cAddressType c ++ 32 :: address_text c.

Definition conn_update (c c0 : ConnectionData) : ConnectionData :=
  mkConnection (cNetworkType c) (cAddressType c) (cIP c)
    (if 0 <? cTTL c then cTTL c else cTTL c0) (if 0 <? cAddresses c then cAddresses c else cAddresses c0).

(** The characters of an address. *)
Lemma hex_char_range d : 0 <= d < 16 -> 48 <= hex_char d <= 102.
Proof. intros H. unfold hex_char. destruct (d <? 10) eqn:?; lia. Qed.

Lemma Join_elem c x ws : x ∈ Join c ws -> x = c \/ exists w, w ∈ ws /\ x ∈ w.
Proof.
  induction ws as [|w [|w2 ws] IH]; [by intros ?%elem_of_nil| |].
  - intros H. right. exists w. set_solver.
  - cbn [Join]. rewrite elem_of_app, elem_of_cons. intros [H|[H|H]]; [right; exists w; set_solver|by left|].
    destruct (IH H) as [|(w' & ? & ?)]; [by left|right; exists w'; set_solver].
Qed.

Lemma hex_group_range g x : 0 <= g < 65536 -> x ∈ hex_group g -> 48 <= x <= 102.
Proof.
  intros Hg Hx. rewrite hex_group_digits in Hx. apply list_elem_of_fmap in Hx as (d & -> & Hd).
  destruct (hex_digits_spec g Hg) as (F & _). rewrite Forall_forall in F. by apply hex_char_range, F.
Qed.

Lemma groups_range gs x : groups_ok gs -> x ∈ Join 58 (hex_group <$> gs) -> 48 <= x <= 102.
Proof.
  unfold groups_ok. intros F Hx. apply Join_elem in Hx as [->|(w & Hw & Hx)]; [lia|]. apply list_elem_of_fmap in Hw as (g & -> & Hg).
  rewrite Forall_forall in F. by eapply hex_group_range; [apply F|].
Qed.

Lemma IP_String_chars ip x : bytes_ok ip -> length ip = 16%nat -> x ∈ IP_String ip -> x = 46 \/ 48 <= x <= 102.
Proof.
  intros Hb L. unfold IP_String. rewrite decide_False by (by intros ->). rewrite L. cbn [Nat.eqb negb].
  case_decide as H4.
  - destruct (To4_cases ip Hb H4) as [_ B]. intros H. unfold dotted in H. apply Join_elem in H as [|(w & Hw & Hx)]; [by left|].
    apply list_elem_of_fmap in Hw as (n & -> & Hn). unfold bytes_ok in B. rewrite Forall_forall in B. apply B in Hn.
    pose proof (format_uint_digits n ltac:(lia)) as F. rewrite Forall_forall in F. apply F in Hx. lia.
  - destruct (groups_bytes_groups ip Hb) as (F & _ & _); [by rewrite L|]. intros H. right. unfold print_groups in H.
    destruct (longest_run _ _ _ _ _) as [e0 e1]. destruct (_ <=? _)%nat; [by eapply groups_range|].
    rewrite elem_of_app, elem_of_app in H. destruct H as [H|[H|H]].
    + eapply groups_range; [|exact H]. by apply Forall_take.
    + rewrite !elem_of_cons, elem_of_nil in H. lia.
    + eapply groups_range; [|exact H]. by apply Forall_drop.
Qed.

Lemma upper_chars ip x : bytes_ok ip -> length ip = 16%nat -> x ∈ upper_byte <$> IP_String ip -> x <> 32 /\ x <> 47.
Proof.
  intros Hb L H. apply list_elem_of_fmap in H as (y & -> & Hy). apply IP_String_chars in Hy; [|done..].
  unfold upper_byte. destruct (_ && _) eqn:?; lia.
Qed.

Lemma format_uint_itoa n : 0 <= n -> itoa n = format_uint n.
Proof. intros H. unfold itoa. by destruct (n <? 0) eqn:?; [lia|]. Qed.

Lemma decodeByte_format n : 0 <= n < 256 -> decodeByte (format_uint n) = (n, None).
Proof.
  intros H. unfold decodeByte. rewrite <- format_uint_itoa, ParseInt_itoa by lia. by rewrite u8_small by lia.
Qed.

(** The three shapes of the address. *)
Lemma address_fields media c : connection_ok media c ->
  three_fields 47 0 [] [] [] (address_text c) =
    Some (upper_byte <$> IP_String (cIP c), (if 0 <? cTTL c then format_uint (cTTL c) else []),
          (if 0 <? cAddresses c then format_uint (cAddresses c) else [])).
Proof.
  intros [_ _ [Hb L] [Ht Ha] _ Hta _]. unfold address_text.
  assert (47 ∉ upper_byte <$> IP_String (cIP c)) as H1 by (intros H; by apply upper_chars in H as [_ ?]).
  assert (forall n, 0 <= n -> 47 ∉ format_uint n) as H2 by (intros n Hn; apply format_uint_notin; lia).
  destruct (0 <? cTTL c) eqn:Et, (0 <? cAddresses c) eqn:Ea; [..|lia|].
  - cbn [app]. by rewrite three_fields_3 by (done || apply H2; lia).
  - rewrite app_nil_r. by rewrite three_fields_2 by (done || apply H2; lia).
  - rewrite !app_nil_r. by rewrite three_fields_1.
Qed.

Lemma address_nonempty c : bytes_ok (cIP c) -> length (cIP c) = 16%nat -> upper_byte <$> IP_String (cIP c) <> [].
Proof. intros Hb L H. destruct (ParseIP_String (cIP c) Hb) as [_ P]; [by right|]. by rewrite H in P. Qed.

Lemma address_no_space media c : connection_ok media c -> (32 ∉ address_text c) /\ address_text c <> [].
Proof.
  intros [_ _ [Hb L] [Ht Ha] _ _ _]. unfold address_text. split.
  - rewrite !elem_of_app. intros [H|[H|H]]; [by apply upper_chars in H as [? _]|..].
    all: destruct (0 <? _) eqn:?; [|by apply elem_of_nil in H]; apply elem_of_cons in H as [H|H]; [done|]; apply format_uint_notin in H; lia.
  - pose proof (address_nonempty c Hb L). by destruct (upper_byte <$> _).
Qed.

Lemma store_ok sec f d mm :
  store_connection sec f (d, mm) =
    (Ok tt, match sec with
            | sectionMedia => (with_media (m_connection f (d_m d)) d, mm)
            | sectionSession => (d, s_connection f mm)
            | sectionTime => (d, mm)
            end).
Proof. by destruct sec. Qed.

Lemma store_byte_ok sec f n d mm : 0 <= n < 256 -> sec <> sectionTime ->
  store_byte sec f (format_uint n) (d, mm) = store_connection sec (f n) (d, mm).
Proof.
  intros H Hs. unfold store_byte. rewrite decodeByte_format by done. by destruct sec.
Qed.

(** What decodeConnectionData has done before it looks at the counts. *)
Lemma decodeConnection_start sec media c d mm :
  connection_ok media c -> d_v d = conn_value c -> d_section d = sec -> sec <> sectionTime ->
  decodeConnectionData (d, mm) =
    let f c0 := mkConnection (cNetworkType c) (cAddressType c) (cIP c) (cTTL c0) (cAddresses c0) in
    decode_counts sec (isIPv4 (cIP c)) (if 0 <? cTTL c then format_uint (cTTL c) else []) (if 0 <? cAddresses c then format_uint (cAddresses c) else [])
      (match sec with sectionMedia => (with_media (m_connection f (d_m d)) d, mm) | _ => (d, s_connection f mm) end).
Proof.
  intros Hc Hv Hs Hsec. pose proof Hc as [[Hn1 Hn2] [Ht1 Ht2] [Hb L] _ _ _ _]. destruct (address_no_space _ c Hc) as [Hsp Hne].
  unfold decodeConnectionData. with_dec. cbv zeta. rewrite Hv, Hs. unfold conn_value.
  change (32 :: cAddressType c ++ 32 :: address_text c) with (fieldsDelimiter :: cAddressType c ++ fieldsDelimiter :: address_text c).
  rewrite three_fields_3 by done.
  rewrite (proj2 (Nat.eqb_neq _ _)) by (by destruct (cNetworkType c)). rewrite (proj2 (Nat.eqb_neq _ _)) by (by destruct (cAddressType c)).
  rewrite (proj2 (Nat.eqb_neq _ _)) by (by destruct (address_text c)).
  rewrite (bind_ok _ _ _ _ _ (store_ok _ _ _ _)). rewrite (address_fields media c Hc).
  unfold bind at 1. unfold msg. unfold decodeIP. rewrite (proj2 (ParseIP_String (cIP c) Hb ltac:(by right))).
  assert (To16 (cIP c) = cIP c) as -> by (unfold To16; by rewrite L).
  destruct sec; [|done|].
  - rewrite (bind_ok _ _ _ _ _ (store_ok _ _ _ _)). by destruct mm as [? ? ? ? ? ? ? []].
  - rewrite (bind_ok _ _ _ _ _ (store_ok _ _ _ _)). by destruct d as [? ? ? ? ? ? [? ? []]].
Qed.

Lemma format_uint_length n : (0 <? length (format_uint n))%nat = true.
Proof. apply Nat.ltb_lt. pose proof (format_uint_nonempty n). destruct (format_uint n); [done|cbn; lia]. Qed.

Lemma conn_field_session c : connection_ok false c ->
  field sectionSession (mkLine TypeConnectionData (conn_value c)) id (s_connection (conn_update c)).
Proof.
  intros Hc. pose proof Hc as [_ _ _ [Httl Hadr] Hv6 Hta _].
  field_start. rewrite (decodeConnection_start sectionSession false c d mm Hc Hv Hs) by done. cbv zeta.
  unfold id. rewrite with_media_id. unfold decode_counts, conn_update.
  destruct (0 <? cTTL c) eqn:Et, (0 <? cAddresses c) eqn:Ea; [..|lia|]; rewrite ?format_uint_length; cbn [length Nat.ltb Nat.leb].
  - destruct (isIPv4 (cIP c)) eqn:E4; [|specialize (Hv6 eq_refl); lia]. cbn [negb].
    unfold bind. do 2 (rewrite store_byte_ok, store_ok by done). by destruct mm as [? ? ? ? ? ? ? []].
  - destruct (isIPv4 (cIP c)) eqn:E4; [|specialize (Hv6 eq_refl); lia].
    rewrite store_byte_ok, store_ok by done. by destruct mm as [? ? ? ? ? ? ? []].
  - unfold ret. by destruct mm as [? ? ? ? ? ? ? []].
Qed.

Lemma conn_field_media c : connection_ok true c ->
  field sectionMedia (mkLine TypeConnectionData (conn_value c)) (m_connection (conn_update c)) id.
Proof.
  intros Hc. pose proof Hc as [_ _ _ [Httl Hadr] Hv6 Hta Hm]. specialize (Hm eq_refl).
  field_start. rewrite (decodeConnection_start sectionMedia true c d mm Hc Hv Hs) by done. cbv zeta.
  unfold id, decode_counts, conn_update.
  destruct (0 <? cTTL c) eqn:Et, (0 <? cAddresses c) eqn:Ea; [|lia|lia|]; rewrite ?format_uint_length; cbn [length Nat.ltb Nat.leb].
  - destruct (isIPv4 (cIP c)) eqn:E4; [|specialize (Hv6 eq_refl); lia]. cbn [negb].
    unfold bind. do 2 (rewrite store_byte_ok, store_ok by done). by destruct d as [? ? ? ? ? ? [? ? []]].
  - unfold ret. by destruct d as [? ? ? ? ? ? [? ? []]].
Qed.

(** ** The lines of a message *)

Definition opt_line (b : bool) (l : Line) : Session := if b then [l] else [].

Definition attr_lines (a : Attributes) : Session := (fun x => mkLine TypeAttribute (attr_value x)) <$> a.
Definition bw_lines (b : list (list Z * Z)) : Session := (fun tv => mkLine TypeBandwidth (tv.1 ++ 58 :: itoa tv.2)) <$> b.

Section lines.
Variable range : nat -> Bandwidths -> list (list Z * Z).

Definition media_lines (i : nat) (m : Media) : Session :=
  [mkLine TypeMediaDescription (Join 32 (desc_words (Description m)))] ++
  opt_line (negb (bool_decide (Title m = []))) (mkLine TypeSessionInformation (Title m)) ++
  opt_line (negb (Connection_Blank (mConnection m))) (mkLine TypeConnectionData (conn_value (mConnection m))) ++
  bw_lines (range i (mBandwidths m)) ++
  opt_line (negb (Encryption_Blank (mEncryption m))) (mkLine TypeEncryptionKey (enc_value (mEncryption m))) ++
  attr_lines (mAttributes m).

Fixpoint medias_lines (i : nat) (ms : list Media) : Session :=
  match ms with [] => [] | m :: ms => media_lines i m ++ medias_lines (S i) ms end.

Definition head_lines (m : Message) : Session :=
  [mkLine TypeProtocolVersion (itoa (Version m)); mkLine TypeOrigin (Join 32 (origin_words (mOrigin m))); mkLine TypeSessionName (mName m)] ++
  opt_line (negb (bool_decide (Info m = []))) (mkLine TypeSessionInformation (Info m)) ++
  opt_line (negb (bool_decide (URI m = []))) (mkLine TypeURI (URI m)) ++
  opt_line (negb (bool_decide (Email m = []))) (mkLine TypeEmail (Email m)) ++
  opt_line (negb (bool_decide (Phone m = []))) (mkLine TypePhone (Phone m)) ++
  opt_line (negb (Connection_Blank (Connection m))) (mkLine TypeConnectionData (conn_value (Connection m))) ++
  bw_lines (range 0 (msgBandwidths m)).

Definition timing_lines (m : Message) : Session := (fun t => mkLine TypeTiming (timing_value t)) <$> mTiming m.

Definition tail_lines (m : Message) : Session :=
  opt_line (negb (bool_decide (TZAdjustments m = []))) (mkLine TypeTimeZones (Join 32 (zone_words (TZAdjustments m)))) ++
  opt_line (negb (Encryption_Blank (msgEncryption m))) (mkLine TypeEncryptionKey (enc_value (msgEncryption m))) ++
  attr_lines (msgAttributes m).

Definition message_lines (m : Message) : Session :=
  head_lines m ++ timing_lines m ++ tail_lines m ++ medias_lines 1 (Medias m).

(** ** The messages that survive *)

Record media_ok (m : Media) : Prop := {
  meo_desc : media_desc_ok (Description m);
  meo_conn : mConnection m = no_connection \/ connection_ok true (mConnection m);
  meo_bw : map_Forall (fun t v => bw_ok (t, v)) (mBandwidths m);
  meo_enc : 58 ∉ Method (mEncryption m);
  meo_attr : Forall (fun a => 58 ∉ aKey a) (mAttributes m)
}.

(** At most one timing, without repetitions, and time zone adjustments only without it. *)
Record message_ok (m : Message) : Prop := {
  mo_version : int64 (Version m);
  mo_origin : origin_ok (mOrigin m);
  mo_name : mName m <> [];
  mo_conn : Connection m = no_connection \/ connection_ok false (Connection m);
  mo_bw : map_Forall (fun t v => bw_ok (t, v)) (msgBandwidths m);
  mo_timing : mTiming m = [] \/ exists s e, mTiming m = [mkTiming s e 0 0 []] /\ ntp_time s /\ ntp_time e /\ TZAdjustments m = [];
  mo_zones : Forall zone_ok (TZAdjustments m);
  mo_enc : 58 ∉ Method (msgEncryption m);
  mo_attr : Forall (fun a => 58 ∉ aKey a) (msgAttributes m);
  mo_medias : Forall media_ok (Medias m)
}.

(** ** Append writes these lines *)

Lemma append_opt (b : bool) (s : Session) l : (if b then s ++ [l] else s) = s ++ opt_line b l.
Proof. destruct b; [done|]. by rewrite app_nil_r. Qed.

Lemma length_blank (v : list Z) : (0 <? length v)%nat = negb (bool_decide (v = [])).
Proof. by destruct v. Qed.

Lemma Session_append_line s t v : Session_append s t v = s ++ [mkLine t v].
Proof. done. Qed.

Lemma appendString_line s t v : appendString s t v = s ++ [mkLine t v].
Proof. done. Qed.

Lemma appendAttributes_lines a s : appendAttributes a s = s ++ attr_lines a.
Proof.
  revert s. induction a as [|x a IH]; intros s; [by rewrite app_nil_r|]. cbn [appendAttributes fold_left]. unfold appendAttributes in IH.
  rewrite IH. unfold attr_lines. cbn [fmap list_fmap]. change blank with (@nil Z). unfold attr_value at 2.
  case_decide; [unfold AddFlag|unfold AddAttribute; cbn [appendJoinStrings]; rewrite append_ascii by done];
    rewrite Session_append_line, <- ?app_assoc; done.
Qed.

Lemma append_bandwidths_lines i b s :
  Forall bw_ok (range i b) -> append_bandwidths range i b s = s ++ bw_lines (range i b).
Proof.
  unfold append_bandwidths. intros F. revert s. induction F as [|tv l [_ Hn] F IH]; intros s; [by rewrite app_nil_r|].
  cbn [fold_left]. rewrite IH. unfold AddBandwidth. rewrite append_ascii, appendInt_spec, Session_append_line by done.
  unfold bw_lines. cbn [fmap list_fmap]. by rewrite <- !app_assoc.
Qed.

Lemma AddConnectionData_line media c s :
  connection_ok media c -> AddConnectionData c s = s ++ [mkLine TypeConnectionData (conn_value c)].
Proof.
  intros [[Hn _] [Ht _] [Hb L] [Httl Hadr] _ _ _]. unfold AddConnectionData. rewrite Session_append_line. do 2 f_equal.
  unfold Connection_getNetworkType, getDefault. rewrite decide_False by done.
  unfold Connection_getAddressType, getAddressTypeIP. rewrite decide_True by done.
  unfold appendSpace, fieldsDelimiter. rewrite !append_ascii by done. unfold appendAddress.
  rewrite appendIP_spec by (done || (by intros E; rewrite E in L)). rewrite append_ascii by done.
  unfold conn_value, address_text. f_equal. destruct (0 <? cTTL c) eqn:?, (0 <? cAddresses c) eqn:?;
    rewrite ?appendByte_spec, ?append_ascii by lia; rewrite <- ?app_assoc; cbn [app]; rewrite ?app_nil_r; done.
Qed.

Lemma AddOrigin_line o s : origin_ok o -> AddOrigin o s = s ++ [mkLine TypeOrigin (Join 32 (origin_words o))].
Proof.
  intros (H1 & H2 & H3 & [H4 _] & [H5 _] & H6). unfold AddOrigin. rewrite Session_append_line. do 2 f_equal.
  unfold Origin_getNetworkType, getDefault. rewrite decide_False by done.
  unfold Origin_getAddressType, getAddressType. rewrite decide_True by done.
  unfold appendSpace, fieldsDelimiter. rewrite !append_ascii, !appendInt_spec by done. cbn [Join origin_words]. f_equal. by rewrite <- !app_assoc.
Qed.

Lemma append_formats_Join v fs : append_formats v fs = v ++ Join 32 fs.
Proof.
  revert v. induction fs as [|f [|f2 fs] IH]; intros v; [by rewrite app_nil_r|done|]. cbn [append_formats Join] in *.
  rewrite append_ascii, IH by done. by rewrite <- !app_assoc.
Qed.

Lemma Join_cons c w ws : ws <> [] -> Join c (w :: ws) = w ++ c :: Join c ws.
Proof. by destruct ws. Qed.

Lemma AddMediaDescription_line m s :
  media_desc_ok m -> AddMediaDescription m s = s ++ [mkLine TypeMediaDescription (Join 32 (desc_words m))].
Proof.
  intros (H1 & H2 & H3 & H4 & H5 & H6). unfold AddMediaDescription. rewrite Session_append_line. do 2 f_equal.
  unfold desc_words. rewrite !Join_cons by done. unfold appendSpace, fieldsDelimiter. rewrite append_formats_Join.
  rewrite !append_ascii, !appendInt_spec by done. f_equal. unfold port_text.
  destruct (PortsNumber m =? 0); cbn [negb]; rewrite <- !app_assoc; done.
Qed.

Lemma AddEncryption_line e s : AddEncryption e s = s ++ [mkLine TypeEncryptionKey (enc_value e)].
Proof.
  unfold AddEncryption, AddEncryptionKey, AddEncryptionMethod, enc_value. case_decide; [done|].
  rewrite append_ascii, Session_append_line, <- app_assoc by done. done.
Qed.

Lemma append_zones_Join v zs :
  Forall zone_ok zs -> append_zones v zs = v ++ Join 32 (zone_words zs).
Proof.
  intros F. revert v. induction F as [|z zs [H1 H2] F IH]; intros v; [by rewrite app_nil_r|].
  assert (forall b, zone_append z b = b ++ format_uint (TimeToNTP (zStart z)) ++ 32 :: itext (zOffset z)) as Hz.
  { intros b. unfold zone_append, appendUint64, appendSpace, fieldsDelimiter. rewrite append_ascii, appendIntervalCompact_app by done. by rewrite <- !app_assoc. }
  change (zone_words (z :: zs)) with (format_uint (TimeToNTP (zStart z)) :: itext (zOffset z) :: zone_words zs).
  destruct zs as [|z2 zs]; [cbn; apply Hz|]. cbn [append_zones] in *. rewrite IH, Hz. unfold appendSpace, fieldsDelimiter. rewrite append_ascii by done.
  rewrite !Join_cons by done. rewrite <- !app_assoc. cbn [app]. done.
Qed.

Hypothesis range_perm : forall i b, range i b ≡ₚ map_to_list b.

Lemma range_bw i b : map_Forall (fun t v => bw_ok (t, v)) b -> Forall bw_ok (range i b).
Proof.
  intros H. rewrite Forall_forall. intros [t v] Hin. rewrite range_perm in Hin. apply elem_of_map_to_list in Hin. by apply H.
Qed.

Lemma Connection_Blank_ok media c : connection_ok media c -> Connection_Blank c = false.
Proof.
  intros [[Hn _] _ _ _ _ _ _]. unfold Connection_Blank, Connection_Equal. by rewrite bool_decide_eq_false_2.
Qed.

Lemma add_connection media c s :
  c = no_connection \/ connection_ok media c ->
  (if negb (Connection_Blank c) then AddConnectionData c s else s) =
    s ++ opt_line (negb (Connection_Blank c)) (mkLine TypeConnectionData (conn_value c)).
Proof.
  intros [->|Hc]; [by rewrite app_nil_r|]. rewrite (Connection_Blank_ok media c Hc). cbn [negb opt_line]. by eapply AddConnectionData_line.
Qed.

Lemma add_encryption e s :
  (if negb (Encryption_Blank e) then AddEncryption e s else s) =
    s ++ opt_line (negb (Encryption_Blank e)) (mkLine TypeEncryptionKey (enc_value e)).
Proof. rewrite AddEncryption_line. apply append_opt. Qed.

Lemma append_media_lines i m s : media_ok m -> append_media range i m s = s ++ media_lines i m.
Proof.
  intros [Hd Hc Hb _ _]. unfold append_media. cbv zeta. rewrite AddMediaDescription_line by done. unfold AddSessionInfo.
  rewrite appendString_line, length_blank, append_opt, (add_connection true), append_bandwidths_lines, add_encryption, appendAttributes_lines by (done || by apply range_bw).
  unfold media_lines. by rewrite <- !app_assoc.
Qed.

Lemma append_medias_lines i ms s : Forall media_ok ms -> append_medias range i ms s = s ++ medias_lines i ms.
Proof.
  intros F. revert i s. induction F as [|m ms Hm F IH]; intros i s; [by rewrite app_nil_r|]. cbn [append_medias medias_lines].
  rewrite append_media_lines, IH by done. by rewrite <- app_assoc.
Qed.

Lemma AddTiming_line t s : AddTiming (tStart t) (tEnd t) s = s ++ [mkLine TypeTiming (timing_value t)].
Proof.
  unfold AddTiming, appendUint64, appendSpace, fieldsDelimiter. rewrite append_ascii, Session_append_line by done. cbn [app]. by rewrite <- app_assoc.
Qed.

Lemma Append_lines m : message_ok m -> Append range m [] = message_lines m.
Proof.
  intros [Hv Ho _ Hc Hb Ht Hz _ _ Hm]. unfold Append. cbv zeta. rewrite append_medias_lines, appendAttributes_lines, add_encryption by done.
  unfold AddVersion, AddSessionName, AddSessionInfo, AddURI, AddEmail, AddPhone, AddTimeZones.
  rewrite !appendString_line, ?Session_append_line, !length_blank.
  rewrite !(append_opt (negb (bool_decide (Info m = [])))), !(append_opt (negb (bool_decide (URI m = [])))),
    !(append_opt (negb (bool_decide (Email m = [])))), !(append_opt (negb (bool_decide (Phone m = [])))).
  rewrite (add_connection false), append_bandwidths_lines, AddOrigin_line, appendInt_spec by (done || by apply range_bw).
  assert (forall s, fold_left (fun s t => append_timing t s) (mTiming m) s = s ++ timing_lines m) as Htl.
  { intros s. unfold timing_lines. destruct Ht as [->|(a & e & -> & _)]; cbn [fold_left fmap list_fmap]; [by rewrite app_nil_r|].
    unfold append_timing. cbn [Offsets length Nat.ltb Nat.leb]. by rewrite AddTiming_line. }
  rewrite Htl. replace (0 <? length (TZAdjustments m))%nat with (negb (bool_decide (TZAdjustments m = []))) by (by destruct (TZAdjustments m)).
  rewrite append_zones_Join, append_opt by done. unfold message_lines, head_lines, tail_lines. cbn [app]. rewrite <- !app_assoc. done.
Qed.
End lines.

(** ** Reading the lines *)

Lemma expected_ordering s i k t : getOrdering s !! i = Some t -> (k <= i)%nat -> expected t s k = None.
Proof.
  intros Hi Hk. assert (t ∈ drop k (getOrdering s)) as H.
  { apply (list_elem_of_lookup_2 _ (i - k)). rewrite lookup_drop. by replace (k + (i - k))%nat with i by lia. }
  unfold expected. cbn [isExpected]. by rewrite bool_decide_eq_true_2.
Qed.

(** The decoder is at line [p] of the session [s], in section [sec], with at most [k] lines
    counted. *)
Definition at_line (sec : section) (s : Session) (p k : nat) (d : Decoder) : Prop :=
  d_s d = s /\ d_pos d = p /\ d_section d = sec /\ (d_sPos d <= k)%nat.

Lemma at_lookup sec pre (piece rest : Session) l k d :
  at_line sec (pre ++ (l :: piece) ++ rest) (length pre) k d -> d_s d !! d_pos d = Some l.
Proof. intros (E1 & E2 & _). rewrite E1, E2. by rewrite lookup_app_r, Nat.sub_diag. Qed.

Lemma at_counted sec (s : Session) p k l d :
  at_line sec s p k d -> at_line sec s (p + 1) (if isZeroOrMore (lType l) then k else k + 1) (counted (read l d)).
Proof.
  intros (E1 & E2 & E3 & E4). unfold counted. cbn [d_t read]. destruct (isZeroOrMore (lType l)); unfold at_line; cbn; split_and!; done || lia.
Qed.

Lemma counted_line l d : d_t (counted (read l d)) = lType l /\ d_v (counted (read l d)) = lValue l /\
  d_section (counted (read l d)) = d_section d /\ d_m (counted (read l d)) = d_m d.
Proof. unfold counted. by destruct (isZeroOrMore _). Qed.

(** The lines [piece], followed by lines of which [R] holds, are read in the session section and
    change the message by [f]; at most [i] lines were counted before and at most [j] after. *)
Definition reads (R : Session -> Prop) (i j : nat) (piece : Session) (f : Message -> Message) : Prop :=
  forall pre rest d mm, R rest -> at_line sectionSession (pre ++ piece ++ rest) (length pre) i d ->
    exists d' it, (it <= length piece)%nat /\ at_line sectionSession (pre ++ piece ++ rest) (length (pre ++ piece)) j d' /\
      forall fuel, session_loop (it + fuel) (d, mm) = session_loop fuel (d', f mm).

Definition anything (s : Session) : Prop := True.

Lemma reads_nil R i j : (i <= j)%nat -> reads R i j [] id.
Proof.
  intros H pre rest d mm _ (E1 & E2 & E3 & E4). exists d, 0%nat. split; [done|]. rewrite app_nil_r. split; [|done]. unfold at_line. split_and!; done || lia.
Qed.

Lemma reads_app (R1 R2 : Session -> Prop) i j k p1 p2 f g :
  reads R1 i j p1 f -> reads R2 j k p2 g -> (forall rest, R2 rest -> R1 (p2 ++ rest)) -> reads R2 i k (p1 ++ p2) (fun m => g (f m)).
Proof.
  intros H1 H2 HR pre rest d mm Hr Ha. rewrite <- app_assoc in Ha.
  destruct (H1 pre (p2 ++ rest) d mm (HR rest Hr) Ha) as (d1 & n1 & L1 & A1 & E1).
  rewrite app_assoc in A1. destruct (H2 (pre ++ p1) rest d1 (f mm) Hr A1) as (d2 & n2 & L2 & A2 & E2).
  exists d2, (n1 + n2)%nat. rewrite length_app. split; [lia|]. split; [rewrite <- !app_assoc in A2; rewrite <- !app_assoc; exact A2|].
  intros fuel. by rewrite <- Nat.add_assoc, E1, E2.
Qed.

Lemma reads_line i l f :
  orderingSession !! i = Some (lType l) -> field sectionSession l id f ->
  lType l <> TypeTiming -> lType l <> TypeMediaDescription ->
  reads anything i (if isZeroOrMore (lType l) then i else i + 1) [l] f.
Proof.
  intros Hi Hf Ht Hm pre rest d mm _ Ha. pose proof (at_lookup _ _ _ _ _ _ _ Ha) as Hl. pose proof Ha as (_ & _ & Es & Ek).
  exists (counted (read l d)), 1%nat. split; [done|]. split.
  - rewrite length_app. by apply at_counted.
  - intros fuel. cbn [Nat.add]. rewrite (session_turn _ _ _ l Hl). rewrite Es, (expected_ordering sectionSession i) by done. cbv zeta.
    rewrite (proj2 (Z.eqb_neq _ _) Ht), (proj2 (Z.eqb_neq _ _) Hm). destruct (counted_line l d) as (C1 & C2 & C3 & C4).
    erewrite bind_ok; [done|]. rewrite (Hf (counted (read l d)) mm) by congruence. unfold id. by rewrite with_media_id.
Qed.

Lemma reads_opt i l f b :
  orderingSession !! i = Some (lType l) -> (b = true -> field sectionSession l id f) ->
  lType l <> TypeTiming -> lType l <> TypeMediaDescription -> isZeroOrMore (lType l) = false ->
  reads anything i (i + 1) (opt_line b l) (if b then f else id).
Proof.
  intros Hi Hf Ht Hm Hz. destruct b; [|apply reads_nil; lia]. pose proof (reads_line i l f Hi (Hf eq_refl) Ht Hm) as H. by rewrite Hz in H.
Qed.

(** A repeated line. *)
Lemma reads_many {X} i (line : X -> Line) (g : X -> Message -> Message) (xs : list X) :
  (forall x, orderingSession !! i = Some (lType (line x))) -> (forall x, isZeroOrMore (lType (line x)) = true) ->
  Forall (fun x => field sectionSession (line x) id (g x)) xs ->
  reads anything i i (line <$> xs) (fun m => fold_left (fun m x => g x m) xs m).
Proof.
  intros Hi Hz F. induction F as [|x xs Hx F IH]; [by apply reads_nil|]. cbn [fmap list_fmap fold_left].
  assert (lType (line x) <> TypeTiming /\ lType (line x) <> TypeMediaDescription) as [H1 H2].
  { specialize (Hz x). unfold isZeroOrMore in Hz. apply bool_decide_eq_true in Hz. split; intros E; rewrite E in Hz; set_solver. }
  pose proof (reads_line i (line x) (g x) (Hi x) Hx H1 H2) as H. rewrite Hz in H.
  exact (reads_app anything anything i i i [line x] _ _ _ H IH (fun _ _ => I)).
Qed.

(** ** The time section *)

(** The line behind a timing ends the section. *)
Definition ends_time (rest : Session) : Prop :=
  match rest with [] => True | l :: _ => lType l ∈ [TypeEncryptionKey; TypeAttribute; TypeMediaDescription] end.

Lemma reads_timing i t :
  (i < 10)%nat -> ntp_time (tStart t) -> ntp_time (tEnd t) ->
  reads ends_time i (i + 1) [mkLine TypeTiming (timing_value t)] (s_timing (fun l => l ++ [mkTiming (tStart t) (tEnd t) 0 0 []])).
Proof.
  intros Hi H1 H2 pre rest d mm Hr Ha. set (l := mkLine TypeTiming (timing_value t)) in *.
  pose proof (at_lookup _ _ _ _ _ _ _ Ha) as Hl. pose proof Ha as (E1 & E2 & Es & Ek).
  pose proof (timing_field t H1 H2) as Hf. fold l in Hf.
  set (mm' := s_timing _ mm).
  (* the decoder in the time section *)
  set (d1 := with_section sectionTime 0 (with_pos (d_pos (counted (read l d)) - 1) (counted (read l d)))).
  assert (d_s d1 = d_s d /\ d_pos d1 = d_pos d /\ d_section d1 = sectionTime /\ d_sPos d1 = 0%nat) as (F1 & F2 & F3 & F4).
  { subst d1. unfold counted. destruct (isZeroOrMore _); cbn; split_and!; done || lia. }
  assert (exists d2, d_s d2 = d_s d /\ d_pos d2 = (d_pos d + 1)%nat /\ forall fuel, timing_loop (S (S fuel)) (d1, mm) = (Ok tt, (d2, mm'))) as (d2 & G1 & G2 & G3).
  { assert (d_s d1 !! d_pos d1 = Some l) as Hl1 by congruence.
    destruct (counted_line l d1) as (C1 & C2 & C3 & _).
    assert (forall fuel, timing_loop (S (S fuel)) (d1, mm) = timing_loop (S fuel) (counted (read l d1), mm')) as T.
    { intros fuel. rewrite (timing_turn _ _ _ l Hl1), F3, F4. change (expected (lType l) sectionTime 0) with (@None sdp_err). cbv iota.
      change ((lType l =? TypeTiming) || (lType l =? TypeRepeatTimes)) with true. cbv iota. erewrite bind_ok; [done|].
      rewrite (Hf (counted (read l d1)) mm) by congruence. unfold id. by rewrite with_media_id. }
    set (d3 := counted (read l d1)) in *.
    assert (d_s d3 = d_s d /\ d_pos d3 = (d_pos d + 1)%nat /\ d_sPos d3 = 1%nat /\ d_section d3 = sectionTime) as (I1 & I2 & I3 & I4).
    { subst d3. unfold counted. change (isZeroOrMore (d_t (read l d1))) with false. cbv iota.
      cbn [d_s d_pos d_sPos d_section with_section read]. rewrite F1, F2, F3, F4. done. }
    assert (d_s d3 !! d_pos d3 = rest !! 0%nat) as Hn.
    { rewrite I1, I2, E1, E2, lookup_app_r by lia. replace (length pre + 1 - length pre)%nat with 1%nat by lia. done. }
    destruct rest as [|l2 rest].
    - exists d3. split_and!; [done..|]. intros fuel. by rewrite T, timing_end.
    - eexists. split; [|split; [|intros fuel; rewrite T, (timing_turn _ _ _ l2 Hn), I3, I4]].
      3: { assert (expected (lType l2) sectionTime 1 = None /\ (lType l2 =? TypeTiming) || (lType l2 =? TypeRepeatTimes) = false) as [-> ->]; [|done].
           cbn in Hr. rewrite !elem_of_cons, elem_of_nil in Hr. destruct Hr as [->|[->|[->|[]]]]; by vm_compute. }
      + unfold counted. by destruct (isZeroOrMore _).
      + done. }
  exists (with_section sectionSession (d_sPos (counted (read l d))) d2), 1%nat. split; [done|]. split.
  - rewrite length_app. pose proof (at_counted _ _ _ _ l d Ha) as (A1 & A2 & A3 & A4). unfold at_line. cbn [d_s d_pos d_section d_sPos with_section].
    change (isZeroOrMore (lType l)) with false in A4. split_and!; [congruence|rewrite G2, E2; cbn; lia|done|exact A4].
  - intros fuel. cbn [Nat.add]. rewrite (session_turn _ _ _ l Hl), Es.
    assert (expected (lType l) sectionSession (d_sPos d) = None) as ->.
    { assert (d_sPos d < 10)%nat as Hk by lia. revert Hk. generalize (d_sPos d). intros k Hk. do 10 (destruct k as [|k]; [reflexivity|]). lia. }
    cbv zeta. change (lType l =? TypeTiming) with true. cbv iota. unfold subsection, decodeTiming.
    unfold bind at 1. unfold bind at 1. unfold step_back at 1. unfold set_dec at 1. cbn [fst snd].
    unfold bind at 1. rewrite (bind_ok (set_dec _) _ _ _ _ eq_refl), (bind_ok dec _ _ _ _ eq_refl). cbn [fst snd]. fold d1.
    replace (lines_left d1) with (S (length (d_s d) - d_pos d - 1)).
    2: { unfold lines_left. rewrite F1, F2. apply lookup_lt_Some in Hl. lia. }
    rewrite G3. done.
Qed.

(** ** The media sections *)

Definition reads_media (i j : nat) (piece : Session) (f : Media -> Media) : Prop :=
  forall pre rest d mm, at_line sectionMedia (pre ++ piece ++ rest) (length pre) i d ->
    exists d', at_line sectionMedia (pre ++ piece ++ rest) (length (pre ++ piece)) j d' /\ (d_sPos d <= d_sPos d')%nat /\
      d_m d' = f (d_m d) /\ forall fuel, media_loop (length piece + fuel) (d, mm) = media_loop fuel (d', mm).

Lemma reads_media_nil i j : (i <= j)%nat -> reads_media i j [] id.
Proof.
  intros H pre rest d mm (E1 & E2 & E3 & E4). exists d. rewrite app_nil_r. split_and!; try done. unfold at_line. split_and!; done || lia.
Qed.

Lemma reads_media_app i j k p1 p2 f g :
  reads_media i j p1 f -> reads_media j k p2 g -> reads_media i k (p1 ++ p2) (fun m => g (f m)).
Proof.
  intros H1 H2 pre rest d mm Ha. rewrite <- app_assoc in Ha.
  destruct (H1 pre (p2 ++ rest) d mm Ha) as (d1 & A1 & K1 & M1 & E1).
  rewrite app_assoc in A1. destruct (H2 (pre ++ p1) rest d1 mm A1) as (d2 & A2 & K2 & M2 & E2).
  exists d2. split; [rewrite <- !app_assoc in A2; rewrite <- !app_assoc; exact A2|]. split; [lia|]. split; [congruence|].
  intros fuel. by rewrite length_app, <- Nat.add_assoc, E1, E2.
Qed.

Lemma media_line i l f d mm pre rest :
  orderingMedia !! i = Some (lType l) -> field sectionMedia l f id ->
  lType l <> TypeMediaDescription \/ d_sPos d = 0%nat ->
  at_line sectionMedia (pre ++ [l] ++ rest) (length pre) i d ->
  exists d', at_line sectionMedia (pre ++ [l] ++ rest) (length (pre ++ [l])) (if isZeroOrMore (lType l) then i else i + 1) d' /\
    d_sPos d' = (if isZeroOrMore (lType l) then d_sPos d else d_sPos d + 1)%nat /\
    d_m d' = f (d_m d) /\ forall fuel, media_loop (1 + fuel) (d, mm) = media_loop fuel (d', mm).
Proof.
  intros Hi Hf Hm Ha. pose proof (at_lookup _ _ _ _ _ _ _ Ha) as Hl. pose proof Ha as (_ & _ & Es & Ek).
  destruct (counted_line l d) as (C1 & C2 & C3 & C4).
  exists (with_media (f (d_m d)) (counted (read l d))). split; [|split; [|split; [done|]]].
  - rewrite length_app. exact (at_counted _ _ _ _ l d Ha).
  - unfold counted. cbn [d_t read]. by destruct (isZeroOrMore (lType l)).
  - intros fuel. cbn [Nat.add]. rewrite (media_turn _ _ _ l Hl), Es, (expected_ordering sectionMedia i) by done.
    assert ((lType l =? TypeMediaDescription) && negb (d_sPos d =? 0)%nat = false) as ->.
    { destruct Hm as [Hm| ->]; [by rewrite (proj2 (Z.eqb_neq _ _) Hm)|by rewrite andb_false_r]. }
    erewrite bind_ok; [done|]. rewrite (Hf (counted (read l d)) mm) by congruence. by rewrite C4.
Qed.

Lemma reads_media_line i l f :
  orderingMedia !! i = Some (lType l) -> field sectionMedia l f id -> lType l <> TypeMediaDescription ->
  reads_media i (if isZeroOrMore (lType l) then i else i + 1) [l] f.
Proof.
  intros Hi Hf Hm pre rest d mm Ha. destruct (media_line i l f d mm pre rest Hi Hf ltac:(by left) Ha) as (d' & A & K & M & E).
  exists d'. split_and!; [done| |done|done]. rewrite K. destruct (isZeroOrMore _); lia.
Qed.

Lemma reads_media_opt i l f b :
  orderingMedia !! i = Some (lType l) -> (b = true -> field sectionMedia l f id) -> lType l <> TypeMediaDescription ->
  isZeroOrMore (lType l) = false -> reads_media i (i + 1) (opt_line b l) (if b then f else id).
Proof.
  intros Hi Hf Hm Hz. destruct b; [|apply reads_media_nil; lia]. pose proof (reads_media_line i l f Hi (Hf eq_refl) Hm) as H. by rewrite Hz in H.
Qed.

Lemma reads_media_many {X} i (line : X -> Line) (g : X -> Media -> Media) (xs : list X) :
  (forall x, orderingMedia !! i = Some (lType (line x))) -> (forall x, isZeroOrMore (lType (line x)) = true) ->
  Forall (fun x => field sectionMedia (line x) (g x) id) xs ->
  reads_media i i (line <$> xs) (fun m => fold_left (fun m x => g x m) xs m).
Proof.
  intros Hi Hz F. induction F as [|x xs Hx F IH]; [by apply reads_media_nil|]. cbn [fmap list_fmap fold_left].
  assert (lType (line x) <> TypeMediaDescription) as H2.
  { specialize (Hz x). unfold isZeroOrMore in Hz. apply bool_decide_eq_true in Hz. intros E; rewrite E in Hz; set_solver. }
  pose proof (reads_media_line i (line x) (g x) (Hi x) Hx H2) as H. rewrite Hz in H.
  exact (reads_media_app i i i [line x] _ _ _ H IH).
Qed.

(** Folding the bandwidths of a map, in any order. *)
Lemma insert_all (l : list (list Z * Z)) (b : Bandwidths) :
  l ≡ₚ map_to_list b -> fold_left (fun b tv => <[tv.1 := tv.2]> b) l ∅ = b.
Proof.
  intros H. assert (fold_left (fun b tv => <[tv.1 := tv.2]> b) l ∅ = list_to_map (rev l)) as ->.
  { rewrite <- (fold_left_rev_right (fun tv b => <[tv.1 := tv.2]> b)). induction (rev l) as [|[t v] r IH]; [done|]. cbn. by rewrite IH. }
  rewrite <- (list_to_map_to_list b). apply list_to_map_proper.
  - rewrite <- (Permutation_rev l), H. apply NoDup_fst_map_to_list.
  - by rewrite <- (Permutation_rev l).
Qed.

Lemma fold_bw_media l m : fold_left (fun m (tv : list Z * Z) => m_bandwidths (<[tv.1 := tv.2]>) m) l m =
  m_bandwidths (fun b => fold_left (fun b tv => <[tv.1 := tv.2]> b) l b) m.
Proof. revert m. induction l as [|tv l IH]; intros m; [by destruct m|]. cbn [fold_left]. rewrite IH. by destruct m. Qed.

Lemma fold_bw_session l m : fold_left (fun m (tv : list Z * Z) => s_bandwidths (<[tv.1 := tv.2]>) m) l m =
  s_bandwidths (fun b => fold_left (fun b tv => <[tv.1 := tv.2]> b) l b) m.
Proof. revert m. induction l as [|tv l IH]; intros m; [by destruct m|]. cbn [fold_left]. rewrite IH. by destruct m. Qed.

Lemma fold_attr_media l m : fold_left (fun m a => m_attributes (fun x => x ++ [a]) m) l m = m_attributes (fun x => x ++ l) m.
Proof.
  revert m. induction l as [|a l IH]; intros m; cbn [fold_left]; [unfold m_attributes; rewrite app_nil_r; by destruct m|].
  rewrite IH. unfold m_attributes. cbn. by rewrite <- app_assoc.
Qed.

Lemma fold_attr_session l m : fold_left (fun m a => s_attributes (fun x => x ++ [a]) m) l m = s_attributes (fun x => x ++ l) m.
Proof.
  revert m. induction l as [|a l IH]; intros m; cbn [fold_left]; [unfold s_attributes; rewrite app_nil_r; by destruct m|].
  rewrite IH. unfold s_attributes. cbn. by rewrite <- app_assoc.
Qed.

Lemma conn_update_fresh media c : c = no_connection \/ connection_ok media c ->
  (if negb (Connection_Blank c) then conn_update c no_connection else no_connection) = c.
Proof.
  intros [->|Hc]; [done|]. rewrite (Connection_Blank_ok media c Hc). destruct Hc as [_ _ _ [? ?] _ _ _]. destruct c as [n a ip t k].
  unfold conn_update. cbn in *. destruct (0 <? t) eqn:?, (0 <? k) eqn:?; f_equal; lia.
Qed.

Lemma Encryption_Blank_true e : Encryption_Blank e = true -> e = no_encryption.
Proof.
  unfold Encryption_Blank, Encryption_Equal. rewrite andb_true_iff, !bool_decide_eq_true. destruct e as [a b]. cbn. by intros [-> ->].
Qed.

Section messages.
Variable range : nat -> Bandwidths -> list (list Z * Z).
Hypothesis range_perm : forall i b, range i b ≡ₚ map_to_list b.

Lemma media_body i m : media_ok m -> exists f,
  reads_media 1 5 (opt_line (negb (bool_decide (Title m = []))) (mkLine TypeSessionInformation (Title m)) ++
    opt_line (negb (Connection_Blank (mConnection m))) (mkLine TypeConnectionData (conn_value (mConnection m))) ++
    bw_lines (range i (mBandwidths m)) ++
    opt_line (negb (Encryption_Blank (mEncryption m))) (mkLine TypeEncryptionKey (enc_value (mEncryption m))) ++
    attr_lines (mAttributes m)) f /\ f (m_description (Description m) no_media) = m.
Proof.
  intros [Hd Hc Hb He Ha]. pose proof (range_bw range range_perm i _ Hb) as Hr. eexists. split.
  - eapply (reads_media_app 1 2 5); [apply reads_media_opt; [done|intros _; apply title_field|done|done]|].
    eapply (reads_media_app 2 3 5); [apply reads_media_opt; [done| |done|done]|].
    { intros E. destruct Hc as [Hc|Hc]; [by rewrite Hc in E|]. by apply conn_field_media. }
    eapply (reads_media_app 3 3 5).
    { apply (reads_media_many 3 _ (fun tv => m_bandwidths (<[tv.1 := tv.2]>))); [done|done|]. eapply Forall_impl; [exact Hr|]. intros tv Htv. by apply bw_field. }
    eapply (reads_media_app 3 5 5).
    { intros pre rest d mm Hat. eapply (reads_media_opt 4); [done|intros _; by apply enc_field|done|done|]. destruct Hat as (? & ? & ? & ?). unfold at_line. split_and!; done || lia. }
    apply (reads_media_many 5 _ (fun a => m_attributes (fun x => x ++ [a]))); [done|done|]. eapply Forall_impl; [exact Ha|]. intros a Hx. by apply attr_field.
  - cbv beta. rewrite fold_attr_media, fold_bw_media.
    pose proof (conn_update_fresh true _ Hc) as Hcu. pose proof (insert_all _ _ (range_perm i (mBandwidths m))) as Hbw.
    pose proof (Encryption_Blank_true (mEncryption m)) as Heb. destruct m as [ti de co at_ en bw]. cbn [Title Description mConnection mAttributes mEncryption mBandwidths] in *.
    destruct (decide (ti = [])) as [->|Hti]; [rewrite bool_decide_eq_true_2 by done|rewrite bool_decide_eq_false_2 by done];
      destruct (Connection_Blank co); destruct (Encryption_Blank en); cbn [negb] in *; try (rewrite Heb by done);
      cbn in *; unfold m_bandwidths, m_attributes, m_encryption, m_connection, m_title, m_description; cbn; rewrite Hbw, Hcu; done.
Qed.

Definition starts_media (rest : Session) : Prop := match rest with [] => True | l :: _ => lType l = TypeMediaDescription end.

Lemma expected_media k : expected TypeMediaDescription sectionSession k = None.
Proof.
  unfold expected. cbn [isExpected]. destruct (bool_decide (TypeMediaDescription ∈ drop k _)); [done|].
  change (match isExpected 2 TypeMediaDescription sectionMedia 0 with Some _ => false | None => true end) with true. by rewrite orb_true_r.
Qed.

Lemma reads_media_section k i m :
  media_ok m -> reads starts_media k (k + 1) (media_lines range i m) (s_medias (fun l => l ++ [m])).
Proof.
  intros Hm. destruct (media_body i m Hm) as (f & Hf & Ef). unfold media_lines. cbn [app]. set (body := opt_line _ _ ++ _) in *.
  set (l := mkLine TypeMediaDescription _). intros pre rest d mm Hr Ha.
  pose proof (at_lookup _ _ _ _ _ _ _ Ha) as Hl. pose proof Ha as (E1 & E2 & Es & Ek).
  pose proof (desc_field (Description m) ltac:(by destruct Hm)) as Hdf. fold l in Hdf.
  set (d1 := with_media no_media (with_section sectionMedia 0 (with_pos (d_pos (counted (read l d)) - 1) (counted (read l d))))).
  assert (d_s d1 = d_s d /\ d_pos d1 = d_pos d /\ d_section d1 = sectionMedia /\ d_sPos d1 = 0%nat /\ d_m d1 = no_media) as (F1 & F2 & F3 & F4 & F5).
  { subst d1. unfold counted. destruct (isZeroOrMore _); cbn; split_and!; done || lia. }
  assert (at_line sectionMedia (pre ++ [l] ++ body ++ rest) (length pre) 0 d1) as A1 by (unfold at_line; split_and!; [by rewrite F1, E1|congruence|done|lia]).
  destruct (media_line 0 l _ d1 mm pre (body ++ rest) eq_refl Hdf ltac:(by right) A1) as (d2 & A2 & K2 & M2 & T2).
  change (isZeroOrMore (lType l)) with false in A2, K2. rewrite app_assoc in A2.
  destruct (Hf (pre ++ [l]) rest d2 mm A2) as (d3 & A3 & K3 & M3 & T3). rewrite F4 in K2. rewrite M2, F5, Ef in M3.
  pose proof A3 as (G1 & G2 & G3 & _).
  assert (exists d4, d_s d4 = d_s d3 /\ d_pos d4 = d_pos d3 /\ d_m d4 = m /\ forall fuel, media_loop (S fuel) (d3, mm) = (Ok tt, (d4, mm))) as (d4 & I1 & I2 & I3 & T4).
  { assert (d_s d3 !! d_pos d3 = rest !! 0%nat) as Hn.
    { rewrite G1, G2, app_assoc, lookup_app_r by lia. by rewrite Nat.sub_diag. }
    destruct rest as [|l2 rest].
    - exists d3. split_and!; [done..|]. intros fuel. by rewrite media_end.
    - exists (with_pos (d_pos d3) (read l2 d3)). split_and!; [done..|]. intros fuel. rewrite (media_turn _ _ _ l2 Hn), G3. cbn in Hr. rewrite Hr.
      assert (expected TypeMediaDescription sectionMedia (d_sPos d3) = None) as ->.
      { unfold expected. cbn [isExpected]. destruct (bool_decide (TypeMediaDescription ∈ drop (d_sPos d3) _)); [done|].
        rewrite (proj2 (Nat.eqb_neq (d_sPos d3) 0)) by lia. done. }
      rewrite (proj2 (Nat.eqb_neq (d_sPos d3) 0)) by lia. done. }
  exists (with_section sectionSession (d_sPos (counted (read l d))) d4), 1%nat. split; [cbn; lia|]. split.
  - pose proof (at_counted _ _ _ _ l d Ha) as (_ & _ & _ & A4). change (isZeroOrMore (lType l)) with false in A4.
    unfold at_line. cbn [d_s d_pos d_section d_sPos with_section]. split_and!; [|rewrite I2, G2, <- app_assoc; done|done|exact A4].
    rewrite I1, G1, <- !app_assoc. done.
  - intros fuel. cbn [Nat.add]. rewrite (session_turn _ _ _ l Hl), Es, expected_media. cbv zeta. change (lType l =? TypeTiming) with false.
    change (lType l =? TypeMediaDescription) with true. cbv iota. unfold subsection, decodeMedia.
    unfold bind at 1. unfold bind at 1. unfold step_back at 1. unfold set_dec at 1. cbn [fst snd].
    unfold bind at 1. rewrite (bind_ok (set_dec _) _ _ _ _ eq_refl), (bind_ok dec _ _ _ _ eq_refl). cbn [fst snd]. fold d1.
    assert (S (lines_left d1) = 1 + (length body + S (length rest)))%nat as ->.
    { unfold lines_left. rewrite F1, F2, E1, E2. rewrite !length_app. cbn [length]. lia. }
    unfold bind at 1. rewrite T2, T3, T4. unfold bind at 1. unfold dec. cbn [fst snd]. unfold set_msg, set_dec. cbn [fst snd]. by rewrite I3.
Qed.

Lemma medias_start i ms : starts_media (medias_lines range i ms).
Proof. by destruct ms. Qed.

Lemma reads_medias k i ms :
  Forall media_ok ms -> reads (fun rest => rest = []) k (k + length ms) (medias_lines range i ms) (s_medias (fun l => l ++ ms)).
Proof.
  intros F. revert k i. induction F as [|m ms Hm F IH]; intros k i.
  - intros pre rest d mm _ (E1 & E2 & E3 & E4). exists d, 0%nat. split; [done|]. rewrite app_nil_r. split; [unfold at_line; split_and!; done || lia|].
    intros fuel. unfold s_medias. rewrite app_nil_r. by destruct mm.
  - cbn [medias_lines length]. replace (k + S (length ms))%nat with (k + 1 + length ms)%nat by lia.
    pose proof (reads_app _ _ _ _ _ _ _ _ _ (reads_media_section k i m Hm) (IH (k + 1)%nat (S i))) as H.
    assert (forall rest, rest = [] -> starts_media (medias_lines range (S i) ms ++ rest)) as Hs by (intros ? ->; rewrite app_nil_r; apply medias_start).
    specialize (H Hs). intros pre rest d mm Hr Ha. destruct (H pre rest d mm Hr Ha) as (d' & it & L & A & E). exists d', it. split_and!; [done..|].
    intros fuel. rewrite E. do 2 f_equal. unfold s_medias. cbn. by rewrite <- app_assoc.
Qed.

(** ** The whole message *)

Definition head_update (m mm : Message) : Message :=
  mkMsg (Version m) (mOrigin m) (mName m) (if bool_decide (Info m = []) then Info mm else Info m)
    (if bool_decide (Email m = []) then Email mm else Email m) (if bool_decide (Phone m = []) then Phone mm else Phone m)
    (if bool_decide (URI m = []) then URI mm else URI m)
    (if Connection_Blank (Connection m) then Connection mm else conn_update (Connection m) (Connection mm))
    (msgAttributes mm) (Medias mm) (msgEncryption mm)
    (fold_left (fun b tv => <[tv.1 := tv.2]> b) (range 0 (msgBandwidths m)) (msgBandwidths mm)) (mTiming mm) (TZAdjustments mm).

Lemma reads_ext R i j p f g : (forall m, f m = g m) -> reads R i j p f -> reads R i j p g.
Proof.
  intros E H pre rest d mm Hr Ha. destruct (H pre rest d mm Hr Ha) as (d' & it & L & A & T). exists d', it. split_and!; [done..|].
  intros fuel. by rewrite T, E.
Qed.

Lemma reads_head m : message_ok m -> reads anything 0 8 (head_lines range m) (head_update m).
Proof.
  intros [Hv Ho _ Hc Hb _ _ _ _ _]. pose proof (range_bw range range_perm 0 _ Hb) as Hr.
  assert (forall rest : Session, anything rest) as An by done.
  assert (forall i j k p q f g, reads anything i j p f -> reads anything j k q g -> reads anything i k (p ++ q) (fun m => g (f m))) as App.
  { intros i j k p q f g H1 H2. by eapply reads_app. }
  unfold head_lines. cbn [app]. eapply reads_ext; [|
    apply (App 0%nat 1%nat 8%nat [_]); [apply (reads_line 0); [done|by apply version_field|done|done]|];
    apply (App 1%nat 2%nat 8%nat [_]); [apply (reads_line 1); [done|by apply origin_field|done|done]|];
    apply (App 2%nat 3%nat 8%nat [_]); [apply (reads_line 2); [done|apply name_field|done|done]|];
    eapply (App 3%nat 4%nat 8%nat); [apply (reads_opt 3); [done|intros _; apply info_field|done..]|];
    eapply (App 4%nat 5%nat 8%nat); [apply (reads_opt 4); [done|intros _; apply uri_field|done..]|];
    eapply (App 5%nat 6%nat 8%nat); [apply (reads_opt 5); [done|intros _; apply email_field|done..]|];
    eapply (App 6%nat 7%nat 8%nat); [apply (reads_opt 6); [done|intros _; apply phone_field|done..]|];
    eapply (App 7%nat 8%nat 8%nat); [apply (reads_opt 7); [done| |done..]|]].
  3: { apply (reads_many 8 _ (fun tv => s_bandwidths (<[tv.1 := tv.2]>))); [done|done|]. eapply Forall_impl; [exact Hr|]. intros tv Htv. by apply bw_field. }
  2: { intros E. destruct Hc as [Hc|Hc]; [by rewrite Hc in E|]. by apply conn_field_session. }
  intros mm. cbv beta. rewrite fold_bw_session. unfold head_update.
  destruct (bool_decide (Info m = [])), (bool_decide (URI m = [])), (bool_decide (Email m = [])), (bool_decide (Phone m = [])), (Connection_Blank (Connection m));
    by destruct mm.
Qed.

Definition tail_update (m mm : Message) : Message :=
  mkMsg (Version mm) (mOrigin mm) (mName mm) (Info mm) (Email mm) (Phone mm) (URI mm) (Connection mm) (msgAttributes mm ++ msgAttributes m) (Medias mm)
    (if Encryption_Blank (msgEncryption m) then msgEncryption mm else msgEncryption m) (msgBandwidths mm) (mTiming mm) (TZAdjustments mm ++ TZAdjustments m).

Lemma reads_tail m : message_ok m -> reads anything 9 11 (tail_lines m) (tail_update m).
Proof.
  intros [_ _ _ _ _ _ Hz He Ha _].
  assert (forall i j k p q f g, reads anything i j p f -> reads anything j k q g -> reads anything i k (p ++ q) (fun m => g (f m))) as App.
  { intros i j k p q f g H1 H2. by eapply reads_app. }
  assert (negb (bool_decide (TZAdjustments m = [])) = true -> field sectionSession (mkLine TypeTimeZones (Join 32 (zone_words (TZAdjustments m)))) id (s_zones (fun l => l ++ TZAdjustments m))) as Hzf.
  { intros E. apply negb_true_iff, bool_decide_eq_false in E. by apply zones_field. }
  unfold tail_lines. eapply reads_ext; [|
    eapply (App 9%nat 10%nat 11%nat); [apply (reads_opt 9 _ (s_zones (fun l => l ++ TZAdjustments m))); [done|done|done..]|];
    eapply (App 10%nat 11%nat 11%nat); [apply (reads_opt 10); [done|intros _; by apply enc_field|done..]|]].
  2: { apply (reads_many 11 _ (fun a => s_attributes (fun x => x ++ [a]))); [done|done|]. eapply Forall_impl; [exact Ha|]. intros a Hx. by apply attr_field. }
  intros mm. cbv beta. rewrite fold_attr_session. unfold tail_update.
  destruct (decide (TZAdjustments m = [])) as [Hn|Hn]; [rewrite bool_decide_eq_true_2, Hn, app_nil_r by done|rewrite bool_decide_eq_false_2 by done];
    destruct (Encryption_Blank (msgEncryption m)); by destruct mm.
Qed.

Lemma tail_ends_time m i rest :
  TZAdjustments m = [] -> rest = [] -> ends_time ((tail_lines m ++ medias_lines range i (Medias m)) ++ rest).
Proof.
  intros Hz ->. rewrite app_nil_r. unfold tail_lines. rewrite Hz. cbn [app opt_line negb bool_decide].
  destruct (Encryption_Blank (msgEncryption m)); cbn [negb opt_line app]; [|cbn; set_solver].
  destruct (msgAttributes m); [|cbn; set_solver]. destruct (Medias m); [done|cbn; set_solver].
Qed.

Definition timing_update (m mm : Message) : Message := s_timing (fun l => l ++ mTiming m) mm.

Lemma reads_timings m : message_ok m -> reads (fun rest => mTiming m <> [] -> ends_time rest) 8 9 (timing_lines m) (timing_update m).
Proof.
  intros Hm. destruct (mo_timing _ Hm) as [E|(s & e & E & Hs & He & _)]; unfold timing_lines, timing_update; rewrite E.
  - eapply reads_ext; [|apply (reads_nil _ 8 9); lia]. intros mm. unfold s_timing. rewrite app_nil_r. by destruct mm.
  - cbn [fmap list_fmap]. intros pre rest d mm Hr Ha.
    exact (reads_timing 8 (mkTiming s e 0 0 []) ltac:(lia) Hs He pre rest d mm (Hr ltac:(done)) Ha).
Qed.

Lemma Decode_reads s f m m' k :
  reads (fun rest => rest = []) 0 k s f -> f m = m' -> oAddress (mOrigin m') <> [] -> mName m' <> [] -> Decode s m = (Ok tt, m').
Proof.
  intros H E Ho Hn. unfold Decode, decodeSession. rewrite (bind_ok (set_dec _) _ _ _ _ eq_refl), (bind_ok dec _ _ _ _ eq_refl). cbn [fst snd].
  set (d := with_section _ _ _). destruct (H [] [] d m eq_refl) as (d' & it & L & A & T).
  { unfold at_line. rewrite app_nil_r. cbn. split_and!; done || lia. }
  assert (S (lines_left d) = it + S (length s - it))%nat as -> by (unfold lines_left; cbn; lia). rewrite T.
  rewrite session_end.
  - unfold check_message. rewrite (bind_ok msg _ _ _ _ eq_refl). cbn [snd]. rewrite E, !decide_False by done. done.
  - destruct A as (-> & -> & _). cbn [app]. rewrite app_nil_r. apply lookup_ge_None_2. lia.
Qed.

(** Decoding the lines of a message gives the message. *)
Lemma Decode_message_lines m : message_ok m -> Decode (message_lines range m) no_message = (Ok tt, m).
Proof.
  intros Hm. pose proof (conn_update_fresh false _ (mo_conn _ Hm)) as Hc. pose proof (insert_all _ _ (range_perm 0 (msgBandwidths m))) as Hb.
  eapply (Decode_reads _ _ no_message m (11 + length (Medias m))).
  - unfold message_lines. eapply (reads_app anything _ 0 8); [by apply reads_head| |done].
    eapply (reads_app _ _ 8 9); [by apply reads_timings| |].
    + eapply (reads_app anything _ 9 11); [by apply reads_tail| |done]. apply reads_medias. by destruct Hm.
    + intros rest Hr Ht. destruct (mo_timing _ Hm) as [E|(s & e & _ & _ & _ & Hz)]; [done|]. by apply tail_ends_time.
  - cbv beta. unfold s_medias, tail_update, timing_update, head_update. pose proof (Encryption_Blank_true (msgEncryption m)) as He.
    destruct m as [v o n i e p u c a me en b t z]. cbn in *. rewrite Hb. clear Hm. f_equal; try (by destruct (bool_decide _) eqn:E; [apply bool_decide_eq_true in E; congruence|]).
    + by destruct (Connection_Blank c).
    + destruct (Encryption_Blank en); [by rewrite He|done].
  - destruct (mo_origin _ Hm) as (_ & _ & _ & _ & _ & [Ha _]). done.
  - by apply mo_name.
Qed.
End messages.

(** ** What the package promises *)


(** C26. Decoding always ends, without a panic.  DecodeSession of any bytes stops, with an error
    or a session; decoding a session stops after at most one turn per line; it panics only
    when the value of some line is empty or ends with a space, which no line that
    DecodeSession produced does. *)
Theorem sdp_decoding_total b s m :
  (let '(s, e) := DecodeSession b [] in e <> Some EFuel /\ (Decode s m).1 <> Panic) /\
  (Decode s m).1 <> Err EFuel /\ ((Decode s m).1 = Panic -> ~ Forall (fun l => trimmed (lValue l)) s).
Proof.
  split; [|apply Decode_total]. unfold DecodeSession.
  destruct (Sdp.session_loop_total (S (length b)) (newScanner b) []) as (ls & e & -> & He & F); [cbn; lia|].
  split; [done|]. intros P. by apply Decode_total in P.
Qed.

(** The package's own formatting routines agree with the standard library, and its
    conversions are inverse to each other where they can be: appendInt prints what strconv.Itoa
    prints, appendIP the upper-case form of IP.String, which ParseIP reads; a uint64 survives the
    conversion to a time and back except the one whose time is Go's zero time; intervals of
    whole seconds survive printing and parsing. *)
Theorem sdp_fields_equivalent :
  (forall v i, - 2 ^ 63 <= i < 2 ^ 63 -> appendInt v i = v ++ itoa i /\ decodeInt (itoa i) = Ok i) /\
  (forall b ip, bytes_ok ip -> length ip = 4%nat \/ length ip = 16%nat ->
     exists t, appendIP b ip = b ++ t /\ t = upper_byte <$> IP_String ip /\ decodeIP [] t = (To16 ip, None)) /\
  (forall v, 0 <= v < 2 ^ 64 -> v <> 2 ^ 64 - 59926608000 -> TimeToNTP (NTPToTime v) = v) /\
  TimeToNTP (NTPToTime (2 ^ 64 - 59926608000)) = 0 /\
  (forall b d, whole_seconds d -> exists t, appendIntervalCompact b d = b ++ t /\ decodeInterval t = Ok d).
Proof.
  split_and!.
  - intros v i Hi. split; [by apply appendInt_spec|by apply decodeInt_itoa].
  - intros b ip Hb Hl. eexists. split; [apply appendIP_spec; [done|intros ->; by destruct Hl]|]. split; [done|].
    unfold decodeIP. by rewrite (proj2 (ParseIP_String ip Hb Hl)).
  - exact TimeToNTP_NTPToTime.
  - reflexivity.
  - intros b d Hd. exists (itext d). split; [apply appendIntervalCompact_app|]. by apply decodeInterval_itext.
Qed.

(** Where the decoder does not do what the format asks for.  Repeat times never reach the
    message.  Behind a timing, neither a second timing nor time zone adjustments are
    accepted, though Append writes both in that order.  The TTL of a media's connection is
    stored in the session's connection; the number of addresses of an IPv6 connection makes
    decoding fail. *)
Theorem sdp_decoder_deviations :
  (forall st, (decodeRepeatTimes st).2 = st) /\
  (forall k, (1 <= k)%nat -> expected TypeTiming sectionTime k = Some (EUnexpected TypeTiming)) /\
  (forall k, expected TypeTimeZones sectionTime k = Some (EUnexpected TypeTimeZones)) /\
  (forall d mm n, 0 <= n < 256 ->
     decode_counts sectionMedia true (format_uint n) [] (d, mm) = (Ok tt, (d, s_connection (c_ttl n) mm))) /\
  (forall sec d mm n, sec <> sectionTime -> (decode_counts sec false (format_uint n) [] (d, mm)).1 = Err ENumber).
Proof.
  split_and!.
  - intros [d mm]. unfold decodeRepeatTimes. rewrite (bind_ok msg _ _ _ _ eq_refl). cbn [snd]. destruct (mTiming mm); [done|].
    rewrite (bind_ok dec _ _ _ _ eq_refl). cbn [fst]. unfold bind, lift, ret, fail. by repeat case_match; simplify_eq/=.
  - intros k Hk. destruct k as [|[|k]]; [lia|reflexivity|]. unfold expected. cbn [isExpected]. cbn [getOrdering orderingTime drop]. by rewrite drop_nil.
  - intros k. destruct k as [|[|k]]; [reflexivity..|]. unfold expected. cbn [isExpected]. cbn [getOrdering orderingTime drop]. by rewrite drop_nil.
  - intros d mm n Hn. unfold decode_counts. rewrite format_uint_length. cbn [length Nat.ltb Nat.leb]. by rewrite store_byte_ok, store_ok.
  - intros sec d mm n Hs. unfold decode_counts. rewrite format_uint_length. cbn [length Nat.ltb Nat.leb]. unfold store_byte.
    change (decodeByte []) with (0, Some ENumber). by destruct sec.
Qed.

(** ** Witnesses *)

Definition example_media : Media :=
  mkMedia (str "talk") (mkMediaDescription (str "audio") 49170 2 (str "RTP/AVP") [str "0"; str "99"])
    (mkConnection (str "IN") (str "IP4") (v4InV6Prefix ++ [224; 2; 1; 1]) 127 3)
    [mkAttribute (str "rtpmap") (str "99 h263-1998/90000"); mkAttribute (str "recvonly") []]
    (mkEncryption (str "prompt") []) {[ str "AS" := 66781 ]}.

Definition example_message : Message :=
  mkMsg 0 (mkOrigin (str "jdoe") 2890844526 2890842807 (str "IN") (str "IP4") (str "10.47.16.5")) (str "SDP Seminar") (str "A Seminar") [] (str "12345") []
    (mkConnection (str "IN") (str "IP6") [255; 21; 0; 0; 0; 0; 0; 0; 0; 0; 0; 0; 0; 0; 1; 1] 0 0)
    [mkAttribute (str "tool") (str "x y")] [example_media] (mkEncryption (str "clear") (str "ab8c")) {[ str "CT" := 154798; str "AS" := -7 ]}
    [mkTiming (NTPToTime 2873397496) zero_time 0 0 []] [].

Lemma word_dec w : (negb (bool_decide (w = [])) && negb (bool_decide (32 ∈ w)))%bool = true -> word w.
Proof. rewrite andb_true_iff, !negb_true_iff, !bool_decide_eq_false. by intros []. Qed.

Ltac sdp_ok :=
  repeat match goal with
  | |- word _ => apply word_dec; by vm_compute
  | |- int64 _ => unfold int64; vm_compute; split; congruence
  | |- _ /\ _ => split
  | |- Forall _ _ => constructor
  | |- _ ∉ _ => apply IndexByte_None; reflexivity
  | |- bytes_ok _ => repeat constructor; lia
  | |- _ <> _ => discriminate
  end.

Lemma example_media_ok : media_ok example_media.
Proof.
  split; cbn [Description mConnection mBandwidths mEncryption mAttributes example_media Method aKey].
  - unfold media_desc_ok. cbn [mdType Port PortsNumber Protocol Formats]. sdp_ok.
  - right. split; cbn [cNetworkType cAddressType cIP cTTL cAddresses]; sdp_ok; try lia; try reflexivity.
    all: try (intros H; vm_compute in H; discriminate).
  - apply map_Forall_singleton. split; [cbn; set_solver|cbn; sdp_ok].
  - sdp_ok.
  - repeat constructor; sdp_ok.
Qed.

Lemma example_message_ok : message_ok example_message.
Proof.
  split; cbn [Version mOrigin mName Connection msgBandwidths mTiming TZAdjustments msgEncryption msgAttributes Medias example_message Method].
  - sdp_ok.
  - unfold origin_ok. cbn. sdp_ok.
  - discriminate.
  - right. split; cbn [cNetworkType cAddressType cIP cTTL cAddresses]; sdp_ok; try lia; try reflexivity.
  - apply map_Forall_insert_2; [split; [cbn; set_solver|cbn; sdp_ok]|]. apply map_Forall_singleton. split; [cbn; set_solver|cbn; sdp_ok].
  - right. eexists _, _. split; [reflexivity|]. split; [|split; [by left|done]]. right. vm_compute. repeat split; congruence.
  - constructor.
  - sdp_ok.
  - repeat constructor; sdp_ok.
  - constructor; [apply example_media_ok|constructor].
Qed.

